(* ===== verification/_CoqProject ===== *)
-Q . S2P
Prelude.v
Effects.v
GoStrings.v
Types.v
Kube.v
Util.v
StoreAccess.v
Gcp.v
Tls.v
NbTypes.v
BackingStoreValidation.v
GoUrl.v
NamespaceStoreValidation.v
BucketClassValidation.v
GoNet.v
NooBaaValidation.v
Admission.v
Secrets.v
Profiles.v
PvPool.v
ConnectionParams.v
Controller.v
BackingStoreReconciler.v
NamespaceStoreReconciler.v
Quota.v
GoTime.v
LeaderElect.v
AlertSilencer.v
Watches.v
Buckets.v
BucketClassReconciler.v
AccountReconciler.v
SystemServices.v
SystemObjects.v
SystemVerifying.v
SystemReconciler.v
CloudPlatform.v
CloudCredentials.v
CoreHa.v
KeyManagement.v
KeyProtect.v
RootKey.v
DbConfig.v
DbCluster.v
DefaultStore.v
SystemSecrets.v
StoreSync.v
Workloads.v
Obc.v
Cosi.v
Scenario.v
RequestScenario.v
World.v
ControllerScenario.v
ProvisionScenario.v
ProcessScenario.v
DatabaseScenario.v
KeyScenario.v
SystemScenario.v
CloudScenario.v
PodScenario.v
