(* ===== verification/Prelude.v ===== *)
(** * A verification library for the NooBaa operator.

    The operator (Go, under src/pkg) runs NooBaa on Kubernetes.  Users write custom
    resources (BackingStore, NamespaceStore, BucketClass, NooBaaAccount, NooBaa); an
    admission webhook checks every change of them; one controller per resource
    reconciles the cluster and the NooBaa core server with it, calling the API server
    through the helpers of pkg/util and the core through the RPC client of pkg/nb.  The
    controller of a system goes through four phases, which verify its specification, create
    its workloads, database and keys, connect to the core, and configure the core and the
    default resources.

    ** What is modelled, and where

    The files follow the calls of the code; each requires only earlier ones.

    Foundations.
    - [Prelude] (this file): messages, Go errors, [outcome] (a result or a panic),
      verdicts ([check], [guard], [check_all]) with their laws, nilable maps, tactics
      and the hint database [go].
    - [Effects]: the monad of steps that change a state, panic or fail, with the laws by
      which runs are taken apart.
    - [GoStrings], [GoUrl], [GoNet], [GoTime]: what the code uses of strings, strconv,
      path, regexp, net/url, net and time.  Regular expressions are derivatives with a proof
      that matching agrees with the language; [ParseInt] has its range errors.  The parsing
      of the authority of a URL is the class [AuthoritySyntax].
    - [Types]: pkg/apis/noobaa/v1alpha1.  Structs are records, pointers are [option],
      string enums are inductive types with a constructor for every other string.
      resource.Quantity is the class [QuantityApi] with the laws [QuantityLaws].
      [NbTypes]: the requests and replies of pkg/nb/types.go.
    - [Kube]: the Kube* functions of pkg/util/util.go over the class [ApiServer], whose
      documented behaviour is the class [ApiLaws]; an in-memory server obeys it.
    - [Util], [StoreAccess], [Gcp], [Secrets], [Tls]: errors, finalizers, metadata,
      merging, tolerations, owner references, conditions, quotas; the accessors of
      stores; GCP credentials; the search for a secret with the same credentials;
      pkg/util/tls.go and the TLS part of pkg/admission/server.go.

    The webhook.
    - [BackingStoreValidation], [NamespaceStoreValidation], [BucketClassValidation],
      [NooBaaValidation]: all of pkg/validations, each function with its name.
    - [Admission]: the handlers of pkg/admission and [serve], their dispatch.

    The controllers of resources.
    - [Controller]: what the controllers share: the record of a step, CheckSystem of
      pkg/system/system.go, the lookup of pools and the verdict on a connection check.
      The core server is the class [NBClient].
    - [PvPool], [ConnectionParams], [BackingStoreReconciler]: all of
      pkg/backingstore/reconciler.go.  The state of a reconcile is the record [State]
      (cluster, core server, store, secret), the fields that one step leaves for the
      next are the record [Plan]; a step returns the new state and the error.
    - [NamespaceStoreReconciler], [BucketClassReconciler], [AccountReconciler]: the other
      three, written the same way, each over the class of the calls of the management API
      that it makes.
    - [Quota]: sizes and quotas (pkg/nb/types.go, pkg/nb/quota.go and GetQuotaConfig of
      pkg/obc), on binary64 numbers of the Standard Library.  [Buckets]: tiers, tiering
      policies and namespace buckets (pkg/bucketclass/bucketclass.go), object buckets and
      claims.
    - [Watches]: the predicates and mappings of events (pkg/util/predicates.go,
      pkg/controller), the pod deletion of pkg/hac and the CephCluster controller.
    - [Obc], [Cosi]: the provisioners of object bucket claims (pkg/obc) and of the
      container object storage interface (pkg/cosi), with their validation.

    The system controller (pkg/system).
    - [SystemVerifying]: phase1_verifying.go.  [SystemServices]: phase3_connecting.go,
      Connect of system.go and the routers of pkg/nb/router.go.
    - [SystemReconciler], [SystemObjects]: reconciler.go: the secrets of the specification,
      deletion and finalizers, the status, and the objects that the controller keeps.
    - Of phase2_creating.go: [CoreHa] (replicas, configuration and restart of the core),
      [RootKey] (the root key in a key management system), [CloudCredentials] (credentials
      requests) and [Workloads] (the pods of the core).
    - [DbConfig], [DbCluster]: db_reconciler.go, the PostgreSQL cluster with its settings,
      backups and recovery.  [Profiles]: performance_profiles.go.  [AlertSilencer]:
      pdb_alert_silencer.go.
    - Of phase4_configuring.go: [SystemSecrets] (secrets, and the system in the core),
      [DefaultStore] (the default resources, with azure_utils.go), [StoreSync] (reading the
      system back) and [Workloads] (the pods of the endpoints).  [CloudPlatform]: the
      discovery of the platform in pkg/util/util.go.
    - [KeyManagement], [KeyProtect]: pkg/util/kms.  A key management system is the class of
      the operations of libopenstorage/secrets.

    Processes.
    - [LeaderElect]: pkg/leaderelect as a transition system of the signal handler, the
      callback, the elector and the child process, under every interleaving.

    Runs.
    - [Scenario], [RequestScenario], [World], [ControllerScenario], [ProvisionScenario],
      [ProcessScenario], [DatabaseScenario], [KeyScenario], [SystemScenario],
      [CloudScenario], [PodScenario]: concrete clusters, clouds and core servers that obey
      the laws, and runs of the theorems on them.

    ** What the theorems show

    Admission: what no sequence of admitted updates can change (C1).

    Controllers: an object is released by the core, when there is one, before its
    finalizer goes (C2); what a successful pass has established (C5 to C7); a change
    of a store wakes the classes that use it (C35).

    Provisioning: a claim gets a bucket of its own (C3), and later requests on it find
    what was made (C8); deletion through COSI is idempotent (C4); tiering policies are
    well formed (C28); a deletion without its class takes the objects with it (C27).

    The database: recovery starts only when its users were scaled down and are gone
    (C9), a cluster that is as wanted is left alone (C10), retention deletes the
    oldest snapshots (C11), and the memory settings are the intended shares, which fit
    but for their floors (C12).

    Keys: the active root key survives a reconcile (C13), a rotation (C14) and an
    upgrade (C15), and it is in the secret that the pods mount; old keys are removed
    oldest first (C16); what is stored is read back (C17).

    A system: it is verified (C36), keeps its finalizer while buckets are listed
    (C18), restarts one core pod at a time (C19), can be connected to once it is set
    up (C26), and keeps its secrets (C22).  Its pods mount only volumes that they have
    (C23), serve every store on a file system (C24, C40) and get no secret in plain
    text (C25).  Its default store is valid on every platform (C20), in the bucket
    that was asked for as long as the partition of the cloud is known (C21), whose
    name is valid (C39). Making the namespace stores of the core changes no store that
    exists (C38). Alertmanager is asked at most once an hour and left as it is once it
    has the silence (C37).

    Kubernetes helpers: what an application does to the cluster (C29), and termination
    of the polling deletion (C30). Pods of a lost node are deleted, those of the
    database excepted (C34).

    Leader election: when the lease is given up (C31), that the wrapper stops (C32),
    and with which code (C33).

    Further theorems without an id give the functional behaviour of single operations,
    say where checks panic or never do, and describe defects of the code.

    ** Bounds and fuel

    Integers are [Z] with the range checks of the code, and with wrap-around where it can
    be reached; float64 is binary64.  These loops have fuel: the polling of [KubeDelete],
    which really is unbounded, so that its model reports when it is still running (C30 gives
    the number of polls that suffices); the pages of [getKeyByName], which reports
    [Unfinished] in the same way, as the service decides how many there are;
    [parseIPv6Loop], where each round fills two of sixteen bytes and eight rounds are all
    there can be; [reduceUnits], one round per unit of the table, shown to be enough for
    every 64-bit size; [hexDigits], one round per hexadecimal digit of a 64-bit number; and
    [parseParts], one round per character of a duration.  Regular-expression matching and the
    other recursions are structural.

    ** What is not modelled

    Log lines and Kubernetes events.  Code outside the repository and the JSON and YAML
    codecs are parameters: the API server, the core server, the SDKs of the clouds, the key
    management systems, Alertmanager, the elector of client-go.  The RPC transport of
    pkg/nb is network I/O; the wire protocol of KMIP likewise.  The bundle is generated from
    the manifests under deploy.  The command line (pkg/cli and the commands of the other
    packages), installation, OLM and diagnostics read flags, print, and run external
    commands.  Of pkg/system the order of the steps in the creating and in the configuring
    phase, the services and routes, the autoscalers and the monitoring objects are left out:
    they copy fields into Kubernetes objects that no other modelled step reads.  The s390x
    scaling of CPU requests is left out. *)

From Stdlib Require Import Sorting.Sorted.
From stdpp Require Export base strings gmap numbers option list.

(** ** Messages and errors *)

(** A formatted message: the format string of a [fmt.Sprintf]/[fmt.Errorf] call
    with its arguments, left unrendered.  Two messages are equal exactly when the
    same call site pattern was reached with the same arguments. *)
Inductive msg : Type :=
  | Sprintf (format : string) (args : list arg)
with arg : Type :=
  | AStr (s : string)
  | AInt (z : Z)
  | AMsg (m : msg).

(** A message with no arguments. *)
Abbreviation Lit s := (Sprintf s%string []).

(** The text of a message whose format has no verbs. *)
Definition msg_format (m : msg) : string := match m with Sprintf f _ => f end.

(** Go's [error] values as far as the operator distinguishes them: the two error
    types of [pkg/util/util.go], the errors of NooBaa's RPC server, the error by which
    the bucket provisioner library recognises a bucket that exists, two errors of the
    secrets library, the errors of key management systems, of which the text is looked
    at, and the rest. *)
Inductive error : Type :=
  | ValidationError (Msg : msg)
  | PersistentError (Reason : string) (Message : msg)
  | RPCError (RPCCode : string) (RPCMessage : msg)
  | BucketExistsError (m : msg)
  | ErrInvalidSecretId
  | ErrNotSupported
  | TextError (text : string)
  | Errorf (m : msg).

(** [err.Error()]. *)
Definition Error (e : error) : msg :=
  match e with
  | ValidationError m => m
  | PersistentError _ m => m
  | RPCError _ m => m
  | BucketExistsError m => m
  | ErrInvalidSecretId => Lit "No Secret Data found for Secret ID"
  | ErrNotSupported => Lit "implementation not supported"
  | TextError text => Sprintf "%v" [AStr text]
  | Errorf m => m
  end.

(** ** Outcomes: a Go call returns a value or panics *)

Inductive panic : Type :=
  | NilDeref
  | NilMapWrite
  | IndexOutOfRange
  | TypeAssertion
  | Panicked (m : msg)
  | Unfinished.   (* no panic: the fuel ran out before a loop of the code ended *)

Inductive outcome (A : Type) : Type :=
  | Ret (a : A)
  | Panic (p : panic).
Arguments Ret {A} a.
Arguments Panic {A} p.

#[export] Instance outcome_ret : MRet outcome := @Ret.

#[export] Instance outcome_bind : MBind outcome := λ A B f m,
  match m with Ret a => f a | Panic p => Panic p end.

#[export] Instance outcome_fmap : FMap outcome := λ A B f m,
  match m with Ret a => Ret (f a) | Panic p => Panic p end.

Definition returns {A} (m : outcome A) : Prop := ∃ a, m = Ret a.

(** Dereference of a Go pointer, [nil] being [None]. *)
Definition deref {A} (p : option A) : outcome A :=
  match p with Some a => Ret a | None => Panic NilDeref end.

(** [p == nil]. *)
Definition isNil {A} (p : option A) : bool := match p with None => true | Some _ => false end.

(** A function whose only result is an [error]. *)
Abbreviation verdict := (outcome (option error)).

Definition ok : verdict := Ret None.
Definition fail (e : error) : verdict := Ret (Some e).

(** [if err := r; err != nil { return err }; k] *)
Definition check (r : verdict) (k : verdict) : verdict :=
  e ← r; match e with Some err => Ret (Some err) | None => k end.

(** [if cond { return err }; k] *)
Definition guard (cond : bool) (err : error) (k : verdict) : verdict :=
  if cond then fail err else k.

Declare Scope go_scope.
Delimit Scope go_scope with go.
Notation "'check!' r ;; k" := (check r k)
  (at level 100, r at level 99, k at level 200, right associativity,
   format "'[v' 'check!'  r  ;; '/' k ']'") : go_scope.
Notation "'reject!' c 'with' e ;; k" := (guard c e k)
  (at level 100, c at level 99, e at level 99, k at level 200,
   right associativity, format "'[v' 'reject!'  c  'with'  e  ;; '/' k ']'") : go_scope.
Notation "a == b" := (bool_decide (a = b)) (at level 70, no associativity) : go_scope.
Notation "a != b" := (negb (bool_decide (a = b))) (at level 70, no associativity) : go_scope.
Open Scope go_scope.

(** [for _, x := range l { if err := f(x); err != nil { return err } }; return nil] *)
Fixpoint check_all {A} (f : A → verdict) (l : list A) : verdict :=
  match l with
  | [] => ok
  | x :: l' => check! f x ;; check_all f l'
  end.

(** ** Laws of the sequencing operators *)

Lemma bind_Ret {A B} (m : outcome A) (f : A → outcome B) b :
  m ≫= f = Ret b ↔ ∃ a, m = Ret a ∧ f a = Ret b.
Proof. destruct m; split; [eauto|naive_solver|done|naive_solver]. Qed.

Lemma bind_ret_l {A B} (a : A) (f : A → outcome B) : (Ret a ≫= f) = f a.
Proof. done. Qed.

Lemma check_ok r k : check r k = ok ↔ r = ok ∧ k = ok.
Proof. unfold check, ok. destruct r as [[e|]|p]; simpl; naive_solver. Qed.

Lemma check_fail r k e :
  check r k = fail e ↔ r = fail e ∨ (r = ok ∧ k = fail e).
Proof. unfold check, ok, fail. destruct r as [[e'|]|p]; simpl; naive_solver. Qed.

Lemma check_ok_l k : check ok k = k.
Proof. done. Qed.

Lemma check_ok_r r : check r ok = r.
Proof. unfold check. by destruct r as [[e|]|p]. Qed.

Lemma check_assoc r s t : check (check r s) t = check r (check s t).
Proof. unfold check. by destruct r as [[e|]|p]. Qed.

Lemma guard_ok c e k : guard c e k = ok ↔ c = false ∧ k = ok.
Proof. unfold guard, fail, ok. destruct c; naive_solver. Qed.

Lemma guard_fail c e k e' :
  guard c e k = fail e' ↔ (c = true ∧ e = e') ∨ (c = false ∧ k = fail e').
Proof. unfold guard, fail. destruct c; naive_solver. Qed.

Lemma check_all_ok {A} (f : A → verdict) l :
  check_all f l = ok ↔ Forall (λ x, f x = ok) l.
Proof.
  induction l as [|x l IH]; simpl; [by split|].
  by rewrite check_ok, IH, Forall_cons_iff.
Qed.

Lemma check_all_fail {A} (f : A → verdict) l e :
  check_all f l = fail e ↔
  ∃ l1 x l2, l = l1 ++ x :: l2 ∧ Forall (λ y, f y = ok) l1 ∧ f x = fail e.
Proof.
  induction l as [|x l IH]; simpl.
  - split; [done|]. intros (l1&x&l2&H&_). by destruct l1.
  - rewrite check_fail, IH. split.
    + intros [H|[H (l1&y&l2&->&?&?)]]; [exists [], x, l; naive_solver|].
      exists (x :: l1), y, l2. by rewrite Forall_cons_iff.
    + intros (l1&y&l2&H&Hl&Hy). destruct l1 as [|z l1]; simplify_eq/=; [by left|].
      apply Forall_cons_iff in Hl as [??]. right. split; [done|]. by exists l1, y, l2.
Qed.

(** Returning without a panic is compositional. *)
Lemma returns_Ret {A} (a : A) : returns (Ret a).
Proof. by exists a. Qed.

Lemma returns_check r k :
  returns r → (r = ok → returns k) → returns (check r k).
Proof. intros [[e|] ->] Hk; [by exists (Some e)|]. by apply Hk. Qed.

Lemma returns_guard c e k :
  (c = false → returns k) → returns (guard c e k).
Proof. intros Hk. destruct c; [apply returns_Ret|by apply Hk]. Qed.

Lemma returns_check_all {A} (f : A → verdict) l :
  (∀ x, x ∈ l → returns (f x)) → returns (check_all f l).
Proof.
  induction l as [|x l IH]; intros H; simpl; [apply returns_Ret|].
  apply returns_check; [apply H; by left|]. intros _. apply IH.
  intros y Hy. apply H. by right.
Qed.

Lemma not_returns_Panic {A} p : ¬ returns (@Panic A p).
Proof. by intros [a H]. Qed.

Create HintDb go.
#[export] Hint Resolve returns_Ret returns_check returns_guard returns_check_all : go.

(** A check that always decides: it accepts, or rejects with the error type the
    admission webhook looks for.  It neither panics nor fails otherwise. *)
Definition decides (r : verdict) : Prop :=
  r = ok ∨ ∃ m, r = fail (ValidationError m).

Lemma decides_ok : decides ok.
Proof. by left. Qed.

Lemma decides_fail m : decides (fail (ValidationError m)).
Proof. right. by exists m. Qed.

Lemma decides_check r k : decides r → (r = ok → decides k) → decides (check r k).
Proof. intros [->|[m ->]] Hk; [by apply Hk|]. apply decides_fail. Qed.

Lemma decides_guard c m k :
  (c = false → decides k) → decides (guard c (ValidationError m) k).
Proof. intros Hk. destruct c; [apply decides_fail|by apply Hk]. Qed.

Lemma decides_check_all {A} (f : A → verdict) l :
  (∀ x, x ∈ l → decides (f x)) → decides (check_all f l).
Proof.
  induction l as [|x l IH]; intros H; simpl; [apply decides_ok|].
  apply decides_check; [apply H; by left|]. intros _. apply IH. intros y Hy. apply H. by right.
Qed.

Lemma decides_returns r : decides r → returns r.
Proof. intros [->|[m ->]]; apply returns_Ret. Qed.

#[export] Hint Resolve decides_ok decides_fail decides_check decides_guard decides_check_all : go.

(** ** Nilable Go maps *)

(** ** Prefixes of lists *)

Lemma elem_of_take_sub {A} (l : list A) n x : x ∈ take n l → x ∈ l.
Proof. intros Hx. rewrite <-(take_drop n l). by apply elem_of_app; left. Qed.

(** In a sorted list, what comes before a place is related to what comes after it. *)
Lemma StronglySorted_take_drop {A} (R : A → A → Prop) l n x y :
  StronglySorted R l → x ∈ take n l → y ∈ drop n l → R x y.
Proof.
  intros Hs. revert n. induction Hs as [|a l Hs IH Ha]; intros [|n]; cbn; try by intros ?%elem_of_nil.
  intros [->|Hx]%elem_of_cons Hy; [|by eapply IH].
  rewrite List.Forall_forall in Ha. apply Ha, list_elem_of_In. rewrite <-(take_drop n l). apply elem_of_app. by right.
Qed.

(** [m[k]] on a [map[string]string]: the zero value when absent or [m == nil]. *)
Definition map_get (m : option (gmap string string)) (k : string) : string :=
  default "" (m ≫= lookup k).

(** [m[k] = v]: a write to a nil map panics. *)
Definition map_set (m : option (gmap string string)) (k v : string) :
    outcome (option (gmap string string)) :=
  match m with Some m => Ret (Some (<[k:=v]> m)) | None => Panic NilMapWrite end.

Lemma map_get_set m k v m' :
  map_set m k v = Ret m' → map_get m' k = v.
Proof.
  destruct m as [m|]; simpl; intros; simplify_eq. unfold map_get. simpl.
  by rewrite lookup_insert_eq.
Qed.

Lemma map_get_set_ne m k k' v m' :
  k ≠ k' → map_set m k v = Ret m' → map_get m' k' = map_get m k'.
Proof.
  destruct m as [m|]; simpl; intros; simplify_eq. unfold map_get. simpl.
  by rewrite lookup_insert_ne.
Qed.

(** ** Filtering lists *)

Lemma filter_all {A} (P : A → Prop) `{∀ x, Decision (P x)} (l : list A) :
  (∀ x, x ∈ l → P x) → filter P l = l.
Proof.
  induction l as [|x l IH]; intros Hl; [done|].
  rewrite filter_cons_True by (apply Hl; by left). f_equal. apply IH.
  intros y Hy. apply Hl. by right.
Qed.

Lemma filter_none {A} (P : A → Prop) `{∀ x, Decision (P x)} (l : list A) :
  (∀ x, x ∈ l → ¬ P x) → filter P l = [].
Proof.
  induction l as [|x l IH]; intros Hl; [done|].
  rewrite filter_cons_False by (apply Hl; by left). apply IH.
  intros y Hy. apply Hl. by right.
Qed.

(** A loop that keeps the last element passing a test. *)
Lemma foldl_last {A} (f : A → bool) l acc :
  match foldl (λ found c, if f c then Some c else found) acc l with
  | Some c => (∃ l1 l2, l = l1 ++ c :: l2 ∧ f c = true ∧ Forall (λ d, f d = false) l2) ∨
              (acc = Some c ∧ Forall (λ d, f d = false) l)
  | None => acc = None ∧ Forall (λ d, f d = false) l
  end.
Proof.
  revert acc. induction l as [|x l IH]; intros acc; simpl; [destruct acc; auto|].
  specialize (IH (if f x then Some x else acc)). destruct (f x) eqn:Hx.
  - destruct (foldl _ _ l) as [c|]; [|by destruct IH].
    left. destruct IH as [(l1 & l2 & -> & ? & ?)|[[= ->] ?]]; [by exists (x :: l1), l2|by exists [], l].
  - destruct (foldl _ _ l) as [c|]; [|naive_solver].
    destruct IH as [(l1 & l2 & -> & ? & ?)|[-> ?]]; [left; by exists (x :: l1), l2|right; naive_solver].
Qed.

(** ** Automation *)

(** Reduce verdict equations in the hypotheses to facts about their parts. *)
Ltac verdict_step :=
  match goal with
  | H : check _ _ = ok |- _ => apply check_ok in H as [??]
  | H : guard _ _ _ = ok |- _ => apply guard_ok in H as [??]
  | H : check_all _ _ = ok |- _ => rewrite check_all_ok in H
  | H : fail _ = ok |- _ => discriminate H
  | H : ok = fail _ |- _ => discriminate H
  | H : fail _ = fail _ |- _ => injection H as H
  | H : Panic _ = Ret _ |- _ => discriminate H
  | H : context [bool_decide ?P] |- _ => progress simpl in H
  end.
Ltac verdict := repeat (verdict_step; simplify_eq/=).

(** Case analysis on every boolean equality test of the goal. *)
Ltac case_tests :=
  repeat (case_bool_decide; simplify_eq/=; try done).

(** Walk through the checks of a function that decides. *)
Ltac decides_steps :=
  repeat first
    [ apply decides_ok | apply decides_fail
    | apply decides_check; [|intros _] | apply decides_guard; intros _
    | apply decides_check_all; intros ? _
    | case_match; cbn [deref mbind outcome_bind] ].
