(* ===== verification/Effects.v ===== *)
(** * Code that threads a state and may fail.

    The phases of the system controller mutate the reconciler and the cluster in long
    sequences of calls, each of which may return an error.  [M S A] is such a call: it
    reads and writes a state, returns a value or an error, or panics.  With it come the
    inversion lemmas by which proofs walk through a successful run, and [keeps], the
    relations that every run of a call establishes between its states. *)

From S2P Require Import Prelude.

Definition M (S A : Type) : Type := S → outcome (S * (error + A)).

#[export] Instance M_ret {S} : MRet (M S) := λ A a s, Ret (s, inr a).
#[export] Instance M_bind {S} : MBind (M S) := λ A B f m s,
  '(s, r) ← m s;
  match r with inl e => Ret (s, inl e) | inr a => f a s end.

Section Operations.
Context {S : Type}.

(** [return err]. *)
Definition throw {A} (e : error) : M S A := λ s, Ret (s, inl e).
Definition get : M S S := λ s, Ret (s, inr s).
Definition gets {A} (f : S → A) : M S A := λ s, Ret (s, inr (f s)).
Definition modify (f : S → S) : M S unit := λ s, Ret (f s, inr ()).
(** A computation that may only panic. *)
Definition lift {A} (m : outcome A) : M S A := λ s, a ← m; Ret (s, inr a).
(** A call that returns only an [error]. *)
Definition fails (o : option error) : M S unit := λ s, Ret (s, match o with Some e => inl e | None => inr () end).
Definition when (b : bool) (m : M S unit) : M S unit := if b then m else mret ().
(** The error of a call as a value: [err := m]. *)
Definition attempt {A} (m : M S A) : M S (error + A) := λ s, '(s, r) ← m s; Ret (s, inr r).

Fixpoint forM {A} (l : list A) (f : A → M S unit) : M S unit :=
  match l with
  | [] => mret ()
  | a :: l => f a ≫= λ _, forM l f
  end.
End Operations.

(** [if err := m; err != nil { return err }; k] *)
Notation "'do!' m ;; k" := (mbind (λ _ : (), k) m)
  (at level 100, m at level 99, k at level 200, right associativity, format "'[v' 'do!'  m  ;; '/' k ']'") : go_scope.

(** ** Runs *)

Section Runs.
Context {S : Type}.
Implicit Types s : S.

Lemma M_bind_ok {A B} (m : M S A) (f : A → M S B) s s' b :
  (m ≫= f) s = Ret (s', inr b) ↔ ∃ s1 a, m s = Ret (s1, inr a) ∧ f a s1 = Ret (s', inr b).
Proof.
  unfold mbind, M_bind. destruct (m s) as [[s1 [e|a]]|p]; cbn; split; try done; try by (intros (? & ? & [=] & ?)).
  - intros. eauto.
  - by intros (? & ? & [= <- <-] & ?).
Qed.

Lemma M_bind_run {A B} (m : M S A) (f : A → M S B) s s1 a : m s = Ret (s1, inr a) → (m ≫= f) s = f a s1.
Proof. unfold mbind, M_bind. by intros ->. Qed.

Lemma M_bind_err {A B} (m : M S A) (f : A → M S B) s s1 e : m s = Ret (s1, inl e) → (m ≫= f) s = Ret (s1, inl e).
Proof. unfold mbind, M_bind. by intros ->. Qed.

Lemma M_bind_panic {A B} (m : M S A) (f : A → M S B) s p : m s = Panic p → (m ≫= f) s = Panic p.
Proof. unfold mbind, M_bind. by intros ->. Qed.

Lemma mret_ok {A} (a b : A) s s' : (mret a : M S A) s = Ret (s', inr b) ↔ s = s' ∧ a = b.
Proof. unfold mret, M_ret. split; [by intros [= -> ->]|by intros [-> ->]]. Qed.

Lemma attempt_run {A} (m : M S A) s s' r : attempt m s = Ret (s', r) → ∃ x, r = inr x ∧ m s = Ret (s', x).
Proof. unfold attempt. destruct (m s) as [[s1 x]|p]; cbn; [|done]. intros [= <- <-]. eauto. Qed.

(** Any run of a sequence: its first call failed, or it went on. *)
Lemma M_bind_inv {A B} (m : M S A) (f : A → M S B) s s' r : (m ≫= f) s = Ret (s', r) →
  (∃ e, m s = Ret (s', inl e) ∧ r = inl e) ∨ (∃ s1 a, m s = Ret (s1, inr a) ∧ f a s1 = Ret (s', r)).
Proof. unfold mbind, M_bind. destruct (m s) as [[s1 [e|a]]|p]; cbn; [|eauto|done]. intros [= <- <-]. eauto. Qed.

Lemma lift_inv {A} (m : outcome A) s s' r : lift m s = Ret (s', r) → s' = s ∧ ∃ a, m = Ret a ∧ r = inr a.
Proof. unfold lift. destruct m; cbn; [|done]. intros [= <- <-]. eauto. Qed.

Lemma lift_ok {A} (m : outcome A) (a : A) s s' : lift m s = Ret (s', inr a) ↔ s = s' ∧ m = Ret a.
Proof.
  unfold lift. destruct m; cbn; split; try done; try by (intros [? [=]]).
  - by intros [= -> ->].
  - by intros [-> [= ->]].
Qed.

Lemma when_ok b (m : M S unit) s s' u : when b m s = Ret (s', inr u) ↔ (b = true ∧ m s = Ret (s', inr u)) ∨ (b = false ∧ s = s').
Proof.
  destruct b, u; cbn; split; try by (intros [[? ?]|[? ?]]; try done; subst).
  - by left.
  - intros [= ->]. by right.
Qed.

Lemma fails_ok o s s' u : fails o s = Ret (s', inr u) ↔ o = None ∧ s = s'.
Proof. unfold fails. destruct o, u; split; try done; [by intros [[=] ?]|by intros [= ->]|by intros [_ ->]]. Qed.
End Runs.

(** Walks through a successful run: hypotheses [H : m s = Ret (s', inr a)]. *)
Ltac run_step H :=
  lazymatch type of H with
  | mbind _ _ _ = Ret (_, inr _) =>
      let s1 := fresh "s" in let a := fresh "a" in let H1 := fresh "Hr" in
      apply M_bind_ok in H as (s1 & a & H1 & H); try run_step H1; try run_step H
  | mret _ _ = Ret (_, inr _) => apply mret_ok in H as [? ?]; subst
  | lift _ _ = Ret (_, inr _) => let E := fresh "Hl" in apply lift_ok in H as [? E]; subst
  | get _ = Ret (_, inr _) => injection H as <- <-
  | gets _ _ = Ret (_, inr _) => injection H as <- <-
  | modify _ _ = Ret (_, inr _) => injection H as <- _
  | fails _ _ = Ret (_, inr _) => let E := fresh "Hf" in apply fails_ok in H as [E ?]; subst
  | throw _ _ = Ret (_, inr _) => discriminate H
  end.

(** ** What every run keeps *)

Section Keeps.
Context {S : Type} (R : relation S) `{!PreOrder R}.

(** Whether it succeeds or fails, a run ends in a state that is related to the first. *)
Definition keeps {A} (m : M S A) : Prop := ∀ s s' r, m s = Ret (s', r) → R s s'.

Lemma keeps_ret {A} (a : A) : keeps (mret a).
Proof. by intros s s' r [= <- <-]. Qed.
Lemma keeps_throw {A} e : keeps (throw (A:=A) e).
Proof. by intros s s' r [= <- <-]. Qed.
Lemma keeps_get : keeps get.
Proof. by intros s s' r [= <- <-]. Qed.
Lemma keeps_gets {A} (f : S → A) : keeps (gets f).
Proof. by intros s s' r [= <- <-]. Qed.
Lemma keeps_modify f : (∀ s, R s (f s)) → keeps (modify f).
Proof. by intros Hf s s' r [= <- <-]. Qed.
Lemma keeps_lift {A} (m : outcome A) : keeps (lift m).
Proof. intros s s' r. unfold lift. destruct m; cbn; [by intros [= <- <-]|done]. Qed.
Lemma keeps_fails o : keeps (fails o).
Proof. by intros s s' r [= <- <-]. Qed.

Lemma keeps_bind {A B} (m : M S A) (f : A → M S B) : keeps m → (∀ a, keeps (f a)) → keeps (m ≫= f).
Proof.
  intros Hm Hf s s' r. unfold mbind, M_bind.
  destruct (m s) as [[s1 [e|a]]|p] eqn:E; cbn; intros H; simplify_eq.
  - by eapply Hm.
  - etrans; [by eapply Hm|by eapply Hf].
Qed.

Lemma keeps_when b m : keeps m → keeps (when b m).
Proof. destruct b; [done|intros _; apply keeps_ret]. Qed.

Lemma keeps_attempt {A} (m : M S A) : keeps m → keeps (attempt m).
Proof.
  intros Hm s s' r. unfold attempt. destruct (m s) as [[s1 x]|p] eqn:E; cbn; intros H; simplify_eq. by eapply Hm.
Qed.

Lemma keeps_forM {A} (l : list A) f : (∀ a, keeps (f a)) → keeps (forM l f).
Proof. intros Hf. induction l; cbn; [apply keeps_ret|apply keeps_bind; auto]. Qed.

Lemma keeps_if {A} (b : bool) (m k : M S A) : keeps m → keeps k → keeps (if b then m else k).
Proof. by destruct b. Qed.
Lemma keeps_option {A B} (o : option B) (f : B → M S A) (k : M S A) :
  (∀ b, keeps (f b)) → keeps k → keeps (match o with Some b => f b | None => k end).
Proof. by destruct o. Qed.
End Keeps.

Create HintDb keeps.
#[export] Hint Resolve keeps_ret keeps_throw keeps_get keeps_gets keeps_lift keeps_fails keeps_when
  keeps_attempt keeps_forM keeps_if keeps_option : keeps.
#[export] Hint Resolve keeps_bind | 20 : keeps.
