(* ===== verification/GoStrings.v ===== *)
(** * Go's string routines, as the operator uses them.

    A Go [string] is a sequence of bytes; [string] here is the same thing, its
    [ascii] characters being bytes.  This file models the functions of the
    packages [strings], [unicode/utf8], [strconv] and [regexp] that the modelled
    code calls. *)

From S2P Require Import Prelude.
From Stdlib Require Import Ascii.
Open Scope Z_scope.

#[global] Arguments String.append !s1 s2 / : simpl nomatch.

(** ** Package [strings] *)

Definition byte (a : ascii) : Z := Z.of_N (N_of_ascii a).

(** [len(s)] *)
Definition len (s : string) : Z := Z.of_nat (String.length s).

Fixpoint HasPrefix (s p : string) {struct p} : bool :=
  match p, s with
  | EmptyString, _ => true
  | String a p', String b s' => (a == b) && HasPrefix s' p'
  | String _ _, EmptyString => false
  end.

Fixpoint HasSuffix (s suf : string) : bool :=
  if s == suf then true
  else match s with EmptyString => false | String _ s' => HasSuffix s' suf end.

Fixpoint TrimPrefix_aux (s p : string) {struct p} : string :=
  match p, s with
  | String _ p', String _ s' => TrimPrefix_aux s' p'
  | _, _ => s
  end.
Definition TrimPrefix (s p : string) : string :=
  if HasPrefix s p then TrimPrefix_aux s p else s.

Fixpoint TrimSuffix (s suf : string) : string :=
  if s == suf then ""
  else match s with EmptyString => "" | String a s' => String a (TrimSuffix s' suf) end.

(** [strings.Contains(s, sub)] *)
Fixpoint Contains_str (s sub : string) : bool :=
  HasPrefix s sub
  || match s with EmptyString => false | String _ s' => Contains_str s' sub end.

(** [strings.Split(s, sep)] for a one-byte separator. *)
Fixpoint Split (s : string) (sep : ascii) : list string :=
  match s with
  | EmptyString => [""%string]
  | String a s' =>
      if a == sep then ""%string :: Split s' sep
      else match Split s' sep with
           | [] => [String a ""]
           | w :: ws => String a w :: ws
           end
  end.

Fixpoint Join (l : list string) (sep : string) : string :=
  match l with
  | [] => ""
  | [x] => x
  | x :: l' => x +:+ sep +:+ Join l' sep
  end.

(** [strings.Cut(s, sep)] for a one-byte separator: before, after, found. *)
Fixpoint Cut (s : string) (sep : ascii) : string * string * bool :=
  match s with
  | EmptyString => (""%string, ""%string, false)
  | String a s' =>
      if a == sep then (""%string, s', true)
      else let '(before, after, found) := Cut s' sep in (String a before, after, found)
  end.

(** [strings.Count(s, sep)] for a one-byte separator. *)
Fixpoint Count (s : string) (sep : ascii) : Z :=
  match s with
  | EmptyString => 0
  | String a s' => (if a == sep then 1 else 0) + Count s' sep
  end.

(** [s[strings.LastIndex(s, sep)+1:]] when the one-byte separator occurs. *)
Fixpoint AfterLast (s : string) (sep : ascii) : option string :=
  match s with
  | EmptyString => None
  | String a s' =>
      match AfterLast s' sep with
      | Some t => Some t
      | None => if a == sep then Some s' else None
      end
  end.

(** ** Package [unicode/utf8] *)

(** A continuation byte in the given range. *)
Definition in_range (lo hi b : Z) : bool := (lo <=? b) && (b <=? hi).
Definition cont (b : Z) : bool := in_range 128 191 b.

Definition RuneError : Z := 65533.

Definition valid2 (b0 b1 : Z) : bool := in_range 194 223 b0 && cont b1.

Definition valid3 (b0 b1 b2 : Z) : bool :=
  cont b2 &&
  (((b0 =? 224) && in_range 160 191 b1)
   || ((in_range 225 236 b0 || in_range 238 239 b0) && cont b1)
   || ((b0 =? 237) && in_range 128 159 b1)).

Definition valid4 (b0 b1 b2 b3 : Z) : bool :=
  cont b2 && cont b3 &&
  (((b0 =? 240) && in_range 144 191 b1)
   || (in_range 241 243 b0 && cont b1)
   || ((b0 =? 244) && in_range 128 143 b1)).

(** The runes of a string, each with the bytes that encode it.  An ill-formed
    byte is the rune U+FFFD of width one, as [utf8.DecodeRuneInString] has it. *)
Fixpoint segments (s : string) : list (Z * string) :=
  match s with
  | EmptyString => []
  | String a s1 =>
      let b0 := byte a in
      let rest := segments s1 in
      let bad := (RuneError, String a "") :: rest in
      if b0 <? 128 then (b0, String a "") :: rest
      else match s1 with
      | EmptyString => bad
      | String b s2 =>
          let b1 := byte b in
          if valid2 b0 b1 then
            ((b0 - 192) * 64 + (b1 - 128), String a (String b "")) :: segments s2
          else match s2 with
          | EmptyString => bad
          | String c s3 =>
              let b2 := byte c in
              if valid3 b0 b1 b2 then
                ((b0 - 224) * 4096 + (b1 - 128) * 64 + (b2 - 128),
                 String a (String b (String c ""))) :: segments s3
              else match s3 with
              | EmptyString => bad
              | String d s4 =>
                  let b3 := byte d in
                  if valid4 b0 b1 b2 b3 then
                    ((b0 - 240) * 262144 + (b1 - 128) * 4096 + (b2 - 128) * 64 + (b3 - 128),
                     String a (String b (String c (String d "")))) :: segments s4
                  else bad
              end
          end
      end
  end.

Definition runes (s : string) : list Z := fst <$> segments s.

Definition unsegment (l : list (Z * string)) : string :=
  foldr (λ p s, snd p +:+ s) ""%string l.

(** [unicode.IsSpace] *)
Definition IsSpace (r : Z) : bool :=
  in_range 9 13 r || (r =? 32) || (r =? 133) || (r =? 160) || (r =? 5760)
  || in_range 8192 8202 r || (r =? 8232) || (r =? 8233) || (r =? 8239)
  || (r =? 8287) || (r =? 12288).

Fixpoint drop_spaces (l : list (Z * string)) : list (Z * string) :=
  match l with
  | [] => []
  | p :: l' => if IsSpace (fst p) then drop_spaces l' else l
  end.

(** [strings.TrimSpace] *)
Definition TrimSpace (s : string) : string :=
  unsegment (rev (drop_spaces (rev (drop_spaces (segments s))))).

(** ** Package [strconv] *)

Inductive num_error := ErrSyntax | ErrRange.

Definition digit (a : ascii) : option Z :=
  let b := byte a in if in_range 48 57 b then Some (b - 48) else None.

(** The loop of [strconv.ParseUint] in base 10 with the accumulated value [n]. *)
Fixpoint ParseUint_loop (s : string) (n maxVal : Z) : num_error + Z :=
  match s with
  | EmptyString => inr n
  | String a s' =>
      match digit a with
      | None => inl ErrSyntax
      | Some d => if maxVal <? n * 10 + d then inl ErrRange
                  else ParseUint_loop s' (n * 10 + d) maxVal
      end
  end.

Definition ParseUint (s : string) (bitSize : Z) : num_error + Z :=
  if s == "" then inl ErrSyntax else ParseUint_loop s 0 (2 ^ bitSize - 1).

(** [strconv.ParseInt(s, 10, bitSize)] *)
Definition ParseInt (s : string) (bitSize : Z) : num_error + Z :=
  match s with
  | EmptyString => inl ErrSyntax
  | String a s' =>
      let neg := a == "-"%char in
      let digits := if neg || (a == "+"%char) then s' else s in
      match ParseUint digits bitSize with
      | inl e => inl e
      | inr un =>
          let cutoff := 2 ^ (bitSize - 1) in
          if negb neg && (cutoff <=? un) then inl ErrRange
          else if neg && (cutoff <? un) then inl ErrRange
          else inr (if neg then - un else un)
      end
  end.

(** ** Package [regexp]

    Regular expressions over runes.  Every expression of the modelled code is
    anchored at both ends, so that a match is membership of the language. *)

Inductive re : Type :=
  | RNone
  | REps
  | RClass (f : Z → bool)
  | RSeq (r1 r2 : re)
  | RAlt (r1 r2 : re)
  | RStar (r : re).

(** [r{lo,hi}] *)
Fixpoint ROpts (r : re) (n : nat) : re :=
  match n with O => REps | S n => RAlt REps (RSeq r (ROpts r n)) end.
Fixpoint RRepeat (r : re) (lo extra : nat) : re :=
  match lo with O => ROpts r extra | S lo => RSeq r (RRepeat r lo extra) end.
Definition RPlus (r : re) : re := RSeq r (RStar r).
Definition ROpt (r : re) : re := RAlt REps r.

Fixpoint nullable (r : re) : bool :=
  match r with
  | RNone | RClass _ => false
  | REps | RStar _ => true
  | RSeq r1 r2 => nullable r1 && nullable r2
  | RAlt r1 r2 => nullable r1 || nullable r2
  end.

Fixpoint deriv (c : Z) (r : re) : re :=
  match r with
  | RNone | REps => RNone
  | RClass f => if f c then REps else RNone
  | RSeq r1 r2 =>
      if nullable r1 then RAlt (RSeq (deriv c r1) r2) (deriv c r2)
      else RSeq (deriv c r1) r2
  | RAlt r1 r2 => RAlt (deriv c r1) (deriv c r2)
  | RStar r => RSeq (deriv c r) (RStar r)
  end.

Fixpoint re_match (r : re) (w : list Z) : bool :=
  match w with [] => nullable r | c :: w' => re_match (deriv c r) w' end.

(** [regexp.MustCompile("^r$").MatchString(s)] *)
Definition MatchString (r : re) (s : string) : bool := re_match r (runes s).

(** The language of an expression. *)
Inductive lang : re → list Z → Prop :=
  | lang_eps : lang REps []
  | lang_class f c : f c = true → lang (RClass f) [c]
  | lang_seq r1 r2 w1 w2 : lang r1 w1 → lang r2 w2 → lang (RSeq r1 r2) (w1 ++ w2)
  | lang_alt_l r1 r2 w : lang r1 w → lang (RAlt r1 r2) w
  | lang_alt_r r1 r2 w : lang r2 w → lang (RAlt r1 r2) w
  | lang_star_nil r : lang (RStar r) []
  | lang_star_cons r c w1 w2 :
      lang r (c :: w1) → lang (RStar r) w2 → lang (RStar r) (c :: w1 ++ w2).
#[export] Hint Constructors lang : go.

(** ** Lemmas: package [strings] *)

Lemma string_app_nil_r s : s +:+ "" = s.
Proof. induction s; simpl; congruence. Qed.

Lemma string_app_assoc s1 s2 s3 : (s1 +:+ s2) +:+ s3 = s1 +:+ (s2 +:+ s3).
Proof. induction s1; simpl; congruence. Qed.

Lemma string_length_app s1 s2 :
  String.length (s1 +:+ s2) = (String.length s1 + String.length s2)%nat.
Proof. induction s1; simpl; lia. Qed.

Lemma len_app s1 s2 : len (s1 +:+ s2) = len s1 + len s2.
Proof. unfold len. rewrite string_length_app. lia. Qed.

Lemma len_zero s : len s = 0 ↔ s = "".
Proof. unfold len. destruct s; simpl; split; intros; try done; lia. Qed.

Lemma HasPrefix_spec s p : HasPrefix s p = true ↔ ∃ t, s = p +:+ t.
Proof.
  revert s. induction p as [|a p IH]; intros s; simpl; [by split; eauto|].
  destruct s as [|b s]; [by split; [done|intros [t ?]]|]. rewrite andb_true_iff, bool_decide_eq_true, IH.
  split; [intros [-> [t ->]]; by exists t|intros [t [= -> ->]]; by eauto].
Qed.

Lemma HasSuffix_spec s suf : HasSuffix s suf = true ↔ ∃ t, s = t +:+ suf.
Proof.
  induction s as [|a s IH]; simpl; case_bool_decide as Hs; subst.
  - split; [|done]. intros _. by exists "".
  - split; [done|]. intros [[|] H]; simpl in H; by subst.
  - split; [|done]. intros _. by exists "".
  - rewrite IH. split.
    + intros [t ->]. by exists (String a t).
    + intros [[|b t] H]; simplify_eq/=. by exists t.
Qed.

Lemma TrimPrefix_app p t : TrimPrefix (p +:+ t) p = t.
Proof.
  unfold TrimPrefix.
  replace (HasPrefix (p +:+ t) p) with true by (symmetry; apply HasPrefix_spec; eauto).
  induction p; [by destruct t|done].
Qed.

Lemma TrimSuffix_app t suf : TrimSuffix (t +:+ suf) suf = t.
Proof.
  induction t as [|a t IH]; simpl.
  - destruct suf; simpl; [done|by rewrite bool_decide_eq_true_2].
  - rewrite bool_decide_eq_false_2, IH; [done|].
    intros H%(f_equal String.length). simpl in H. rewrite string_length_app in H. lia.
Qed.

Lemma Split_nonempty s sep : Split s sep ≠ [].
Proof. destruct s; simpl; [done|]. repeat case_match; done. Qed.

(** Splitting and joining again gives the string back. *)
Lemma Join_Split s sep : Join (Split s sep) (String sep "") = s.
Proof.
  induction s as [|a s IH]; simpl; [done|].
  pose proof (Split_nonempty s sep). case_bool_decide; subst.
  - destruct (Split s sep) as [|w ws]; [done|]. by rewrite <-IH.
  - destruct (Split s sep) as [|w [|w' ws]]; [done|..]; simpl in *; by rewrite <-IH.
Qed.

(** ** Lemmas: package [unicode/utf8] *)

Lemma segments_step a s :
  ∃ r bs rest, segments (String a s) = (r, bs) :: segments rest ∧
    bs +:+ rest = String a s ∧ bs ≠ "" ∧
    (String.length rest < S (String.length s))%nat.
Proof.
  simpl. repeat case_match; subst;
    match goal with
    | |- ∃ r bs rest, (?r0, ?bs0) :: segments ?rest0 = _ ∧ _ =>
        exists r0, bs0, rest0
    end; (split; [done|]); (split; [done|]); (split; [done|]); simpl; lia.
Qed.

(** The segmentation covers the string: decoding loses no byte. *)
Lemma unsegment_segments s : unsegment (segments s) = s.
Proof.
  remember (String.length s) as n eqn:Hn.
  revert s Hn. induction (lt_wf n) as [n _ IH]. intros s ->.
  destruct s as [|a s]; [done|].
  destruct (segments_step a s) as (r&bs&rest&->&Heq&_&Hlt). simpl.
  rewrite (IH (String.length rest)); [done|simpl; lia|done].
Qed.

Lemma segments_nonempty s : Forall (λ p, snd p ≠ "") (segments s).
Proof.
  remember (String.length s) as n eqn:Hn.
  revert s Hn. induction (lt_wf n) as [n _ IH]. intros s ->.
  destruct s as [|a s]; [constructor|].
  destruct (segments_step a s) as (r&bs&rest&->&_&?&Hlt).
  constructor; [done|]. eapply IH; [|done]. simpl; lia.
Qed.

Lemma drop_spaces_suffix l : ∃ k, l = k ++ drop_spaces l ∧ Forall (λ p, IsSpace (fst p) = true) k.
Proof.
  induction l as [|p l [k [Hk Hs]]]; simpl; [by exists []|].
  destruct (IsSpace (fst p)) eqn:E; [|by exists []].
  exists (p :: k). split; [by rewrite Hk at 1|by constructor].
Qed.

Lemma drop_spaces_nil l : drop_spaces l = [] ↔ Forall (λ p, IsSpace (fst p) = true) l.
Proof.
  induction l as [|p l IH]; simpl; [split; [constructor|done]|].
  rewrite Forall_cons_iff. destruct (IsSpace (fst p)) eqn:E; [naive_solver|naive_solver].
Qed.

Lemma unsegment_nil l : Forall (λ p, snd p ≠ ""%string) l → unsegment l = "" → l = [].
Proof.
  intros Hl. destruct l as [|[r bs] l]; [done|]. apply Forall_cons_iff in Hl as [Hb _].
  simpl in *. destruct bs; done.
Qed.

(** [strings.TrimSpace(s) == ""] exactly when every rune of [s] is white space. *)
Lemma TrimSpace_empty s :
  TrimSpace s = "" ↔ Forall (λ r, IsSpace r = true) (runes s).
Proof.
  unfold runes, TrimSpace. rewrite Forall_fmap.
  pose proof (segments_nonempty s) as Hne.
  destruct (drop_spaces_suffix (segments s)) as (k&Hk&Hsp).
  split.
  - intros H. apply unsegment_nil in H.
    + apply (f_equal (@rev _)) in H. rewrite rev_involutive in H. simpl in H.
      apply drop_spaces_nil in H. rewrite Hk. apply Forall_app. split; [done|].
      apply Forall_rev in H. by rewrite rev_involutive in H.
    + apply Forall_rev.
      destruct (drop_spaces_suffix (rev (drop_spaces (segments s)))) as (k'&Hk'&_).
      assert (Hr : Forall (λ p, snd p ≠ ""%string) (rev (drop_spaces (segments s)))).
      { apply Forall_rev. rewrite Hk in Hne. by apply Forall_app in Hne as [_ ?]. }
      rewrite Hk' in Hr. by apply Forall_app in Hr as [_ ?].
  - intros H%drop_spaces_nil. by rewrite H.
Qed.

Lemma TrimSpace_nil : TrimSpace "" = "".
Proof. done. Qed.

(** ** Lemmas: package [strconv] *)

Lemma ParseUint_loop_bound s n m v :
  0 ≤ n ≤ m → ParseUint_loop s n m = inr v → 0 ≤ v ≤ m.
Proof.
  revert n. induction s as [|a s IH]; intros n Hn; simpl; [naive_solver|].
  destruct (digit a) as [d|] eqn:Hd; [|done].
  assert (0 ≤ d) by (unfold digit, in_range in Hd; repeat case_match; simplify_eq; lia).
  destruct (Z.ltb_spec m (n * 10 + d)); [done|]. apply IH. lia.
Qed.

(** A parsed value fits the requested width. *)
Lemma ParseInt_range s b v :
  0 < b → ParseInt s b = inr v → - 2 ^ (b - 1) ≤ v < 2 ^ (b - 1).
Proof.
  intros Hb. destruct s as [|a s]; simpl; [done|]. unfold ParseUint.
  assert (Hp : 0 < 2 ^ b) by (apply Z.pow_pos_nonneg; lia).
  repeat case_match; intros; simplify_eq;
    try (apply ParseUint_loop_bound in H; [|lia]);
    repeat case_bool_decide; simplify_eq/=; lia.
Qed.

(** ** Lemmas: package [regexp] *)

Lemma lang_nullable r : nullable r = true ↔ lang r [].
Proof.
  induction r; simpl; try (split; [done|by inversion 1]); try (split; auto with go; done).
  - rewrite andb_true_iff, IHr1, IHr2. split.
    + intros [??]. by apply (lang_seq _ _ [] []).
    + inversion 1 as [| |? ? w1 w2 ? ? Hr Hw| | | |]; subst.
      apply app_eq_nil in Hw as [-> ->]. by split.
  - rewrite orb_true_iff, IHr1, IHr2. split; [intros [?|?]; auto with go|].
    inversion 1; subst; auto.
Qed.

Lemma lang_deriv r c w : lang (deriv c r) w ↔ lang r (c :: w).
Proof.
  revert w. induction r; intros w; simpl; try (split; by inversion 1).
  - destruct (f c) eqn:E; split.
    + inversion 1; subst. by constructor.
    + inversion 1; subst. constructor.
    + inversion 1.
    + inversion 1; subst. congruence.
  - assert (Hseq : lang (RSeq (deriv c r1) r2) w →
                   lang (RSeq r1 r2) (c :: w)).
    { inversion 1 as [| |? ? w1 w2 H1 H2 Hr Hw| | | |]; subst.
      rewrite IHr1 in H1. by apply (lang_seq _ _ (c :: w1) w2). }
    assert (Hinv : lang (RSeq r1 r2) (c :: w) →
        lang (RSeq (deriv c r1) r2) w ∨ (lang r1 [] ∧ lang r2 (c :: w))).
    { inversion 1 as [| |? ? w1 w2 H1 H2 Hr Hw| | | |]; subst.
      destruct w1 as [|c' w1]; simplify_eq/=; [by right|].
      left. constructor; [by apply IHr1|done]. }
    destruct (nullable r1) eqn:En.
    + apply lang_nullable in En. split.
      * inversion 1; subst; [by apply Hseq|].
        rewrite IHr2 in *. by apply (lang_seq _ _ [] (c :: w)).
      * intros [?|[_ ?]]%Hinv; [by apply lang_alt_l|].
        apply lang_alt_r. by apply IHr2.
    + split; [done|]. intros [?|[?%lang_nullable _]]%Hinv; [done|congruence].
  - split; inversion 1; subst.
    + apply lang_alt_l. by apply IHr1.
    + apply lang_alt_r. by apply IHr2.
    + apply lang_alt_l. by apply IHr1.
    + apply lang_alt_r. by apply IHr2.
  - split.
    + inversion 1 as [| |? ? w1 w2 H1 H2 Hr Hw| | | |]; subst.
      rewrite IHr in H1. by apply lang_star_cons.
    + inversion 1; subst. constructor; [by apply IHr|done].
Qed.

(** The matcher decides the language. *)
Theorem re_match_lang r w : re_match r w = true ↔ lang r w.
Proof.
  revert r. induction w as [|c w IH]; intros r; simpl.
  - apply lang_nullable.
  - by rewrite IH, lang_deriv.
Qed.

Lemma lang_class_inv f w : lang (RClass f) w ↔ ∃ c, w = [c] ∧ f c = true.
Proof. split; [inversion 1; eauto|intros (c&->&?); by constructor]. Qed.

Lemma lang_seq_inv r1 r2 w :
  lang (RSeq r1 r2) w ↔ ∃ w1 w2, w = w1 ++ w2 ∧ lang r1 w1 ∧ lang r2 w2.
Proof. split; [inversion 1; eauto|intros (w1&w2&->&?&?); by constructor]. Qed.

Lemma lang_alt_inv r1 r2 w : lang (RAlt r1 r2) w ↔ lang r1 w ∨ lang r2 w.
Proof. split; [inversion 1; auto|intros [?|?]; auto with go]. Qed.

Lemma lang_eps_inv w : lang REps w ↔ w = [].
Proof. split; [by inversion 1|intros ->; constructor]. Qed.

(** A star of a class is the words over the class. *)
Lemma lang_star_class f w : lang (RStar (RClass f)) w ↔ Forall (λ c, f c = true) w.
Proof.
  split.
  - remember (RStar (RClass f)) as r eqn:Hr. intros H. revert Hr.
    induction H; intros; simplify_eq; [constructor|].
    apply lang_class_inv in H as (c'&?&?). simplify_eq/=. constructor; auto.
  - induction 1 as [|c w Hc _ IH]; [constructor|].
    apply (lang_star_cons _ c [] w); [by constructor|done].
Qed.

(** A bounded repetition of a class is the words over it of such a length. *)
Lemma lang_opts_class f n w :
  lang (ROpts (RClass f) n) w ↔ Forall (λ c, f c = true) w ∧ (length w ≤ n)%nat.
Proof.
  revert w. induction n as [|n IH]; intros w; simpl.
  - rewrite lang_eps_inv. destruct w; simpl.
    + split; [|done]. intros _. split; [constructor|lia].
    + split; [done|]. intros [_ ?]. lia.
  - rewrite lang_alt_inv, lang_eps_inv, lang_seq_inv. split.
    + intros [->|(w1&w2&->&(c&->&?)%lang_class_inv&[??]%IH)]; simpl; split; auto; lia.
    + intros [Hf Hl]. destruct w as [|c w]; [by left|]. right.
      apply Forall_cons_iff in Hf as [??]. simpl in Hl.
      exists [c], w. split; [done|]. split; [by constructor|]. apply IH. split; [done|lia].
Qed.

Lemma lang_repeat_class f lo extra w :
  lang (RRepeat (RClass f) lo extra) w ↔
  Forall (λ c, f c = true) w ∧ (lo ≤ length w ≤ lo + extra)%nat.
Proof.
  revert w. induction lo as [|lo IH]; intros w; simpl.
  - rewrite lang_opts_class. intuition lia.
  - rewrite lang_seq_inv. split.
    + intros (w1&w2&->&(c&->&?)%lang_class_inv&[??]%IH); simpl; split; auto; lia.
    + intros [Hf Hl]. destruct w as [|c w]; simpl in Hl; [lia|].
      apply Forall_cons_iff in Hf as [??].
      exists [c], w. split; [done|]. split; [by constructor|]. apply IH. split; [done|lia].
Qed.

(** ** ASCII strings *)

(** A string whose runes are all ASCII has one byte per rune. *)
Lemma len_runes_ascii s :
  Forall (λ r, r < 128) (runes s) → len s = Z.of_nat (length (runes s)).
Proof.
  intros Hs. unfold len. f_equal. revert Hs. unfold runes.
  remember (String.length s) as n eqn:Hn. revert s Hn.
  induction (lt_wf n) as [n _ IH]. intros s -> Hs.
  destruct s as [|a s]; [done|].
  assert (Hstep : segments (String a s) = (byte a, String a "") :: segments s).
  { revert Hs. clear. simpl. unfold valid2, valid3, valid4, cont, in_range, RuneError.
    repeat case_match; subst; try done; simpl; rewrite Forall_cons_iff; intros [? _]; exfalso; lia. }
  rewrite Hstep in *. simpl in *. apply Forall_cons_iff in Hs as [_ Hs].
  f_equal. apply (IH (String.length s)); [lia|done|done].
Qed.

(** The text before and after a separator that occurs once. *)
Lemma Cut_found s sep before after :
  Cut s sep = (before, after, true) → s = before +:+ String sep after.
Proof.
  revert before. induction s as [|a s IH]; intros before; simpl; [done|].
  case_bool_decide as Ha; [intros; by simplify_eq|].
  destruct (Cut s sep) as [[b t] f]. intros; simplify_eq/=. by rewrite (IH b).
Qed.

Lemma Count_nonneg s sep : 0 ≤ Count s sep.
Proof. induction s; simpl; [lia|]. case_bool_decide; lia. Qed.

Lemma Count_app s1 s2 sep : Count (s1 +:+ s2) sep = Count s1 sep + Count s2 sep.
Proof. induction s1; simpl; [done|]. lia. Qed.

Lemma AfterLast_none s sep : Count s sep = 0 → AfterLast s sep = None.
Proof.
  induction s as [|a s IH]; simpl; [done|]. pose proof (Count_nonneg s sep).
  case_bool_decide; intros; [lia|]. by rewrite IH.
Qed.

Lemma AfterLast_app s1 s2 sep :
  Count s2 sep = 0 → AfterLast (s1 +:+ String sep s2) sep = Some s2.
Proof.
  intros Hc. induction s1 as [|a s1 IH]; simpl.
  - rewrite AfterLast_none by done. by rewrite bool_decide_eq_true_2.
  - by rewrite IH.
Qed.

Lemma Contains_str_app s1 s2 sub : Contains_str (s1 +:+ sub +:+ s2) sub = true.
Proof.
  assert (Hp : HasPrefix (sub +:+ s2) sub = true) by (apply HasPrefix_spec; eauto).
  induction s1 as [|a s1 IH].
  - simpl. destruct (sub +:+ s2) eqn:E; simpl; simpl in Hp; rewrite Hp; done.
  - change (String a s1 +:+ sub +:+ s2) with (String a (s1 +:+ sub +:+ s2)).
    cbn [Contains_str]. rewrite IH. apply orb_true_r.
Qed.

(** ** [strings.TrimSpace] is idempotent *)

(** The rune at the head of a string and the number of its bytes after the first. *)
Definition head_rune (b0 : Z) (s : string) : Z * nat :=
  if b0 <? 128 then (b0, 0%nat)
  else match s with
  | EmptyString => (RuneError, 0%nat)
  | String b s2 =>
      let b1 := byte b in
      if valid2 b0 b1 then ((b0 - 192) * 64 + (b1 - 128), 1%nat)
      else match s2 with
      | EmptyString => (RuneError, 0%nat)
      | String c s3 =>
          let b2 := byte c in
          if valid3 b0 b1 b2 then
            ((b0 - 224) * 4096 + (b1 - 128) * 64 + (b2 - 128), 2%nat)
          else match s3 with
          | EmptyString => (RuneError, 0%nat)
          | String d _ =>
              let b3 := byte d in
              if valid4 b0 b1 b2 b3 then
                ((b0 - 240) * 262144 + (b1 - 128) * 4096 + (b2 - 128) * 64 + (b3 - 128), 3%nat)
              else (RuneError, 0%nat)
          end
      end
  end.

Fixpoint string_take (n : nat) (s : string) : string :=
  match n, s with S n, String a s => String a (string_take n s) | _, _ => "" end.
Fixpoint string_drop (n : nat) (s : string) : string :=
  match n, s with S n, String _ s => string_drop n s | _, _ => s end.

Lemma string_take_app t u : string_take (String.length t) (t +:+ u) = t.
Proof. induction t; simpl; [by destruct u|]. by f_equal. Qed.
Lemma string_drop_app t u : string_drop (String.length t) (t +:+ u) = u.
Proof. induction t; simpl; [by destruct u|]. done. Qed.
Lemma string_take_drop n s : string_take n s +:+ string_drop n s = s.
Proof. revert s. induction n; intros []; simpl; by rewrite ?IHn. Qed.

Lemma segments_cons a s :
  segments (String a s) =
  (fst (head_rune (byte a) s), String a (string_take (snd (head_rune (byte a) s)) s))
  :: segments (string_drop (snd (head_rune (byte a) s)) s).
Proof. unfold head_rune. simpl. by repeat case_match. Qed.

Lemma head_rune_length b0 s : (snd (head_rune b0 s) ≤ String.length s)%nat.
Proof. unfold head_rune. repeat case_match; simpl; lia. Qed.

(** Decoding looks ahead only to complete a rune: cutting the string after the
    rune does not change how it is read. *)
Lemma head_rune_prefix b0 x y :
  (snd (head_rune b0 (x +:+ y)) ≤ String.length x)%nat →
  head_rune b0 x = head_rune b0 (x +:+ y).
Proof.
  unfold head_rune. destruct (b0 <? 128); [done|].
  destruct x as [|b [|c [|d x]]]; simpl; try done.
  - repeat case_match; simpl; intros; try done; lia.
  - repeat case_match; simpl; intros; try done; lia.
  - repeat case_match; simpl; intros; try done; lia.
Qed.

Lemma string_take_length n s : (n ≤ String.length s)%nat → String.length (string_take n s) = n.
Proof.
  revert s. induction n as [|n IH]; intros [|a s]; simpl; try done; [lia|].
  intros. f_equal. apply IH. lia.
Qed.

Lemma segments_suffix s l1 l2 : segments s = l1 ++ l2 → segments (unsegment l2) = l2.
Proof.
  intros H. assert (Hs : ∃ t, l2 = segments t).
  { revert l1 H. remember (String.length s) as n eqn:Hn. revert s Hn.
    induction (lt_wf n) as [n _ IH]. intros s -> [|p l1] H; [by exists s|].
    destruct s as [|a s]; [done|].
    destruct (segments_step a s) as (r & bs & rest & Hs & _ & _ & Hlt).
    rewrite Hs in H. simpl in H. injection H as _ H.
    by apply (IH (String.length rest) Hlt rest eq_refl l1). }
  destruct Hs as [t ->]. by rewrite unsegment_segments.
Qed.

Lemma segments_prefix s l1 l2 : segments s = l1 ++ l2 → segments (unsegment l1) = l1.
Proof.
  revert l1. remember (String.length s) as n eqn:Hn. revert s Hn.
  induction (lt_wf n) as [n _ IH]. intros s -> [|[r bs] l1] H; [done|].
  destruct s as [|a s]; [done|]. rewrite segments_cons in H.
  pose proof (head_rune_length (byte a) s) as Hk.
  set (k := snd (head_rune (byte a) s)) in *. simpl in H. injection H as Hr Hbs Hl.
  set (t := string_take k s) in *. subst bs.
  assert (Hu : segments (unsegment l1) = l1).
  { apply (IH (String.length (string_drop k s))) with (s := string_drop k s); try done.
    rewrite <-(string_take_drop k s) at 2. simpl. rewrite string_length_app. lia. }
  assert (Ht : String.length t = k) by by apply string_take_length.
  assert (Hs : s = (t +:+ unsegment l1) +:+ unsegment l2).
  { rewrite <-(string_take_drop k s) at 1. rewrite string_app_assoc. f_equal.
    rewrite <-(unsegment_segments (string_drop k s)), Hl.
    unfold unsegment. rewrite foldr_app. fold (unsegment l2). clear.
    induction l1 as [|p l1 IH]; simpl; [done|]. by rewrite IH, string_app_assoc. }
  assert (Hh : head_rune (byte a) (t +:+ unsegment l1) = head_rune (byte a) s).
  { transitivity (head_rune (byte a) ((t +:+ unsegment l1) +:+ unsegment l2));
      [apply head_rune_prefix|]; rewrite <-Hs; [|done].
    fold k. rewrite string_length_app. lia. }
  change (unsegment ((r, String a t) :: l1)) with (String a (t +:+ unsegment l1)).
  rewrite segments_cons, Hh. fold k. rewrite <-Ht, string_take_app, string_drop_app.
  by rewrite Hu, Hr.
Qed.

Lemma drop_spaces_idemp l : drop_spaces (drop_spaces l) = drop_spaces l.
Proof. induction l as [|p l IH]; simpl; [done|]. destruct (IsSpace p.1) eqn:E; [done|]. simpl. by rewrite E. Qed.

(** A list that starts with a space-free rune keeps it when trimmed at the end. *)
Lemma drop_spaces_rev_head l :
  drop_spaces l = l →
  drop_spaces (rev (drop_spaces (rev l))) = rev (drop_spaces (rev l)).
Proof.
  intros Hl. destruct (drop_spaces_suffix (rev l)) as (k & Hk & _).
  assert (Hr : l = rev (drop_spaces (rev l)) ++ rev k).
  { rewrite <-rev_app_distr, <-Hk, rev_involutive. done. }
  set (m := rev (drop_spaces (rev l))) in *. destruct m as [|p m]; [done|].
  rewrite Hr in Hl. simpl in Hl |- *. destruct (IsSpace p.1) eqn:E; [|done].
  exfalso. destruct (drop_spaces_suffix (m ++ rev k)) as (k' & Hk' & _).
  apply (f_equal length) in Hl, Hk'. simpl in Hl.
  rewrite !length_app in *. lia.
Qed.

Lemma TrimSpace_idemp s : TrimSpace (TrimSpace s) = TrimSpace s.
Proof.
  unfold TrimSpace at 1. set (l := drop_spaces (segments s)).
  set (m := rev (drop_spaces (rev l))).
  assert (Hm : segments (TrimSpace s) = m).
  { unfold TrimSpace. fold l m.
    destruct (drop_spaces_suffix (segments s)) as (k1 & Hk1 & _). fold l in Hk1.
    destruct (drop_spaces_suffix (rev l)) as (k2 & Hk2 & _).
    apply (segments_prefix (unsegment l) m (rev k2)).
    rewrite (segments_suffix s k1 l) by done.
    unfold m. by rewrite <-rev_app_distr, <-Hk2, rev_involutive. }
  rewrite Hm.
  replace (drop_spaces m) with m
    by (symmetry; apply drop_spaces_rev_head, drop_spaces_idemp).
  replace (drop_spaces (rev m)) with (rev m)
    by (unfold m; rewrite rev_involutive; symmetry; apply drop_spaces_idemp).
  by rewrite rev_involutive.
Qed.

(** ** [strings.Fields] *)

(** The fields of a segmented string; [cur] is the field being read, if any. *)
Fixpoint fields (cur : option string) (l : list (Z * string)) : list string :=
  match l with
  | [] => match cur with Some f => [f] | None => [] end
  | (r, bs) :: l =>
      if IsSpace r then match cur with Some f => f :: fields None l | None => fields None l end
      else fields (Some (default "" cur +:+ bs)) l
  end.

Definition Fields (s : string) : list string := fields None (segments s).

Lemma segments_ascii a s : byte a < 128 → segments (String a s) = (byte a, String a "") :: segments s.
Proof. intros Ha. cbn [segments]. by rewrite (proj2 (Z.ltb_lt _ _) Ha). Qed.

(** A character that is no space, followed by one, is a field of its own. *)
Lemma Fields_char a b s :
  byte a < 128 → IsSpace (byte a) = false → byte b < 128 → IsSpace (byte b) = true →
  Fields (String a (String b s)) = String a "" :: Fields s.
Proof.
  intros Ha Hsa Hb Hsb. unfold Fields. rewrite !segments_ascii by done. cbn [fields]. by rewrite Hsa, Hsb.
Qed.
