(* ===== verification/Types.v ===== *)
(** * The custom resources of the operator: [pkg/apis/noobaa/v1alpha1].

    Each Go struct is a record with the source's field names behind a short
    prefix; a pointer field is an [option].  Each string type with a block of
    constants is an inductive type with one constructor per constant and one for
    every other string.  Fields no modelled function reads ([TypeMeta],
    [RelatedObjects], time stamps of modes) are left out.

    The Kubernetes value types the structs are built from ([ObjectMeta],
    [SecretReference], ...) are plain data.  [resource.Quantity] is code of
    another repository and is the parameter [QuantityApi]. *)

From S2P Require Import Prelude GoStrings.

(** ** Third-party value types *)

(** [k8s.io/apimachinery/pkg/api/resource] *)
Class QuantityApi : Type := {
  Quantity : Type;
  Quantity_zero : Quantity;
  NewQuantity : Z → Quantity;
  ParseQuantity : string → msg + Quantity;
  Quantity_Cmp : Quantity → Quantity → Z;
  Quantity_Value : Quantity → Z;
  Quantity_MilliValue : Quantity → Z;
  Quantity_IsZero : Quantity → bool;
  Quantity_String : Quantity → string;
}.

(** What the package documents: a quantity denotes a number, here counted in
    units of 10^-9; [Cmp] compares the numbers, [Value] rounds up to an integer and
    [MilliValue] to thousandths. *)
Class QuantityLaws (QA : QuantityApi) : Type := {
  amount : Quantity → Z;
  amount_zero : amount Quantity_zero = 0%Z;
  amount_New v : amount (NewQuantity v) = (v * 10 ^ 9)%Z;
  Cmp_lt a b : (Quantity_Cmp a b = -1)%Z ↔ (amount a < amount b)%Z;
  Cmp_eq a b : (Quantity_Cmp a b = 0)%Z ↔ amount a = amount b;
  Cmp_gt a b : (Quantity_Cmp a b = 1)%Z ↔ (amount b < amount a)%Z;
  Value_ceil a : (Quantity_Value a = - (- amount a / 10 ^ 9))%Z;
  MilliValue_ceil a : (Quantity_MilliValue a = - (- amount a / 10 ^ 6))%Z;
  IsZero_amount a : Quantity_IsZero a = true ↔ amount a = 0%Z;
  Parse_zero : ∃ q, ParseQuantity "0" = inr q ∧ amount q = 0%Z;
}.

(** [resource.MustParse] panics on text that is not a quantity. *)
Definition MustParse {QA : QuantityApi} (s : string) : outcome Quantity :=
  match ParseQuantity s with
  | inr q => Ret q
  | inl m => Panic (Panicked m)
  end.

(** [ResourceList.Storage()]: the zero quantity when the list has no entry. *)
Definition Storage {QA : QuantityApi} (l : option (gmap string Quantity)) : Quantity :=
  default Quantity_zero (l ≫= lookup "storage"%string).

(** [l[name]], with its second result. *)
Definition rl_lookup {QA : QuantityApi} (l : option (gmap string Quantity)) (name : string) :
    option Quantity := l ≫= lookup name.

Lemma Cmp_neg {QA : QuantityApi} {QL : QuantityLaws QA} a b :
  (Quantity_Cmp a b < 0)%Z ↔ (amount a < amount b)%Z.
Proof.
  rewrite <-Cmp_lt. split; [|lia]. intros H.
  destruct (Z.lt_trichotomy (amount a) (amount b)) as [?|[?%Cmp_eq|?%Cmp_gt]]; [by apply Cmp_lt|lia|lia].
Qed.

Lemma Cmp_pos {QA : QuantityApi} {QL : QuantityLaws QA} a b :
  (Quantity_Cmp a b > 0)%Z ↔ (amount b < amount a)%Z.
Proof.
  rewrite <-Cmp_gt. split; [|lia]. intros H.
  destruct (Z.lt_trichotomy (amount a) (amount b)) as [?%Cmp_lt|[?%Cmp_eq|?]]; [lia|lia|by apply Cmp_gt].
Qed.

Record SecretReference := mkSecretReference {
  sr_Name : string;
  sr_Namespace : string;
}.
#[export] Instance SecretReference_eq_dec : EqDecision SecretReference.
Proof. solve_decision. Defined.

Record OwnerReference := mkOwnerReference {
  or_APIVersion : string;
  or_Kind : string;
  or_Name : string;
  or_UID : string;
  or_Controller : option bool;
  or_BlockOwnerDeletion : option bool;
}.

(** [metav1.ObjectMeta]; times are nanoseconds. *)
Record ObjectMeta := mkObjectMeta {
  om_Name : string;
  om_Namespace : string;
  om_UID : string;
  om_ResourceVersion : Z;
  om_CreationTimestamp : Z;
  om_DeletionTimestamp : option Z;
  om_Labels : option (gmap string string);
  om_Annotations : option (gmap string string);
  om_Finalizers : list string;
  om_OwnerReferences : list OwnerReference;
  om_Generation : Z;
}.

Definition named (ns name : string) : ObjectMeta :=
  mkObjectMeta name ns "" 0 0 None None None [] [] 0.

Definition set_om_Labels l (o : ObjectMeta) : ObjectMeta :=
  mkObjectMeta (om_Name o) (om_Namespace o) (om_UID o) (om_ResourceVersion o)
    (om_CreationTimestamp o) (om_DeletionTimestamp o) l (om_Annotations o)
    (om_Finalizers o) (om_OwnerReferences o) (om_Generation o).
Definition set_om_Annotations a (o : ObjectMeta) : ObjectMeta :=
  mkObjectMeta (om_Name o) (om_Namespace o) (om_UID o) (om_ResourceVersion o)
    (om_CreationTimestamp o) (om_DeletionTimestamp o) (om_Labels o) a
    (om_Finalizers o) (om_OwnerReferences o) (om_Generation o).
Definition set_om_Finalizers f (o : ObjectMeta) : ObjectMeta :=
  mkObjectMeta (om_Name o) (om_Namespace o) (om_UID o) (om_ResourceVersion o)
    (om_CreationTimestamp o) (om_DeletionTimestamp o) (om_Labels o) (om_Annotations o)
    f (om_OwnerReferences o) (om_Generation o).
Definition set_om_OwnerReferences r (o : ObjectMeta) : ObjectMeta :=
  mkObjectMeta (om_Name o) (om_Namespace o) (om_UID o) (om_ResourceVersion o)
    (om_CreationTimestamp o) (om_DeletionTimestamp o) (om_Labels o) (om_Annotations o)
    (om_Finalizers o) r (om_Generation o).
Definition set_om_ResourceVersion v (o : ObjectMeta) : ObjectMeta :=
  mkObjectMeta (om_Name o) (om_Namespace o) (om_UID o) v
    (om_CreationTimestamp o) (om_DeletionTimestamp o) (om_Labels o) (om_Annotations o)
    (om_Finalizers o) (om_OwnerReferences o) (om_Generation o).
Definition set_om_Name n (o : ObjectMeta) : ObjectMeta :=
  mkObjectMeta n (om_Namespace o) (om_UID o) (om_ResourceVersion o)
    (om_CreationTimestamp o) (om_DeletionTimestamp o) (om_Labels o) (om_Annotations o)
    (om_Finalizers o) (om_OwnerReferences o) (om_Generation o).
Definition set_om_Namespace n (o : ObjectMeta) : ObjectMeta :=
  mkObjectMeta (om_Name o) n (om_UID o) (om_ResourceVersion o)
    (om_CreationTimestamp o) (om_DeletionTimestamp o) (om_Labels o) (om_Annotations o)
    (om_Finalizers o) (om_OwnerReferences o) (om_Generation o).

(** The Go interface [metav1.Object]: anything with object metadata. *)
Class MetaObject (O : Type) : Type := {
  meta : O → ObjectMeta;
  set_meta : ObjectMeta → O → O;
  meta_set_meta m o : meta (set_meta m o) = m;
}.

#[export, refine] Instance ObjectMeta_MetaObject : MetaObject ObjectMeta :=
  {| meta := λ o, o; set_meta := λ m _, m |}.
Proof. done. Defined.

(** [corev1.Secret] *)
Record Secret := mkSecret {
  sec_meta : ObjectMeta;
  sec_StringData : option (gmap string string);
  sec_Data : option (gmap string string);
}.
#[export, refine] Instance Secret_MetaObject : MetaObject Secret :=
  {| meta := sec_meta; set_meta := λ m s, mkSecret m (sec_StringData s) (sec_Data s) |}.
Proof. done. Defined.

(** [conditionsv1.Condition], of openshift/custom-resource-status. *)
Inductive ConditionType :=
  | ConditionAvailable | ConditionProgressing | ConditionDegraded | ConditionUpgradeable
  | ConditionTypeOther (s : string).
#[export] Instance ConditionType_eq_dec : EqDecision ConditionType.
Proof. solve_decision. Defined.

Inductive ConditionStatus := ConditionTrue | ConditionFalse | ConditionUnknown | ConditionStatusOther (s : string).
#[export] Instance ConditionStatus_eq_dec : EqDecision ConditionStatus.
Proof. solve_decision. Defined.

Record Condition := mkCondition {
  c_Type : ConditionType;
  c_Status : ConditionStatus;
  c_Reason : msg;
  c_Message : msg;
  c_LastHeartbeatTime : Z;
}.

(** [corev1.VolumeResourceRequirements] and [corev1.ResourceRequirements]. *)
Definition ResourceCPU : string := "cpu".
Definition ResourceMemory : string := "memory".
Definition ResourceStorage : string := "storage".

Record ResourceRequirements {QA : QuantityApi} := mkResourceRequirements {
  rr_Requests : option (gmap string Quantity);
  rr_Limits : option (gmap string Quantity);
}.
Arguments ResourceRequirements QA : clear implicits.

(** ** [backingstore_types.go] *)

Inductive StoreType :=
  | StoreTypeAWSS3
  | StoreTypeS3Compatible
  | StoreTypeIBMCos
  | StoreTypeGoogleCloudStorage
  | StoreTypeAzureBlob
  | StoreTypePVPool
  | StoreTypeOther (s : string).
#[export] Instance StoreType_eq_dec : EqDecision StoreType.
Proof. solve_decision. Defined.

Definition StoreType_string (t : StoreType) : string :=
  match t with
  | StoreTypeAWSS3 => "aws-s3"
  | StoreTypeS3Compatible => "s3-compatible"
  | StoreTypeIBMCos => "ibm-cos"
  | StoreTypeGoogleCloudStorage => "google-cloud-storage"
  | StoreTypeAzureBlob => "azure-blob"
  | StoreTypePVPool => "pv-pool"
  | StoreTypeOther s => s
  end.

(** The reading of a string as a [StoreType]: the constants first. *)
Definition StoreType_of_string (s : string) : StoreType :=
  if s == "aws-s3" then StoreTypeAWSS3
  else if s == "s3-compatible" then StoreTypeS3Compatible
  else if s == "ibm-cos" then StoreTypeIBMCos
  else if s == "google-cloud-storage" then StoreTypeGoogleCloudStorage
  else if s == "azure-blob" then StoreTypeAzureBlob
  else if s == "pv-pool" then StoreTypePVPool
  else StoreTypeOther s.

Inductive S3SignatureVersion :=
  | S3SignatureVersionNone   (* "" *)
  | S3SignatureVersionV4     (* "v4" *)
  | S3SignatureVersionV2     (* "v2" *)
  | S3SignatureVersionOther (s : string).
#[export] Instance S3SignatureVersion_eq_dec : EqDecision S3SignatureVersion.
Proof. solve_decision. Defined.

Definition S3SignatureVersion_string (v : S3SignatureVersion) : string :=
  match v with
  | S3SignatureVersionNone => ""
  | S3SignatureVersionV4 => "v4"
  | S3SignatureVersionV2 => "v2"
  | S3SignatureVersionOther s => s
  end.

Inductive BackingStorePhase :=
  | BackingStorePhaseNone    (* "" *)
  | BackingStorePhaseRejected
  | BackingStorePhaseVerifying
  | BackingStorePhaseConnecting
  | BackingStorePhaseCreating
  | BackingStorePhaseReady
  | BackingStorePhaseDeleting.
#[export] Instance BackingStorePhase_eq_dec : EqDecision BackingStorePhase.
Proof. solve_decision. Defined.

Definition BackingStorePhase_string (p : BackingStorePhase) : string :=
  match p with
  | BackingStorePhaseNone => ""
  | BackingStorePhaseRejected => "Rejected"
  | BackingStorePhaseVerifying => "Verifying"
  | BackingStorePhaseConnecting => "Connecting"
  | BackingStorePhaseCreating => "Creating"
  | BackingStorePhaseReady => "Ready"
  | BackingStorePhaseDeleting => "Deleting"
  end.

Record AWSS3Spec := mkAWSS3Spec {
  aws_TargetBucket : string;
  aws_Secret : SecretReference;
  aws_Region : string;
  aws_SSLDisabled : bool;
  aws_AWSSTSRoleARN : option string;
}.

Record S3CompatibleSpec := mkS3CompatibleSpec {
  s3c_TargetBucket : string;
  s3c_Secret : SecretReference;
  s3c_Endpoint : string;
  s3c_SignatureVersion : S3SignatureVersion;
}.

Record IBMCosSpec := mkIBMCosSpec {
  ibm_TargetBucket : string;
  ibm_Secret : SecretReference;
  ibm_Endpoint : string;
  ibm_SignatureVersion : S3SignatureVersion;
}.

Record AzureBlobSpec := mkAzureBlobSpec {
  azb_TargetBlobContainer : string;
  azb_Secret : SecretReference;
  azb_ClientId : option string;
  azb_TenantId : option string;
  azb_SubscriptionId : option string;
  azb_ResourcegroupId : option string;
}.

Record GoogleCloudStorageSpec := mkGoogleCloudStorageSpec {
  gcs_TargetBucket : string;
  gcs_Secret : SecretReference;
}.

Record PVPoolSpec {QA : QuantityApi} := mkPVPoolSpec {
  pvp_StorageClass : string;
  pvp_NumVolumes : Z;
  pvp_VolumeResources : option (ResourceRequirements QA);
  pvp_PriorityClassName : string;
  pvp_Secret : SecretReference;
}.
Arguments PVPoolSpec QA : clear implicits.

Record BackingStoreSpec {QA : QuantityApi} := mkBackingStoreSpec {
  bss_Type : StoreType;
  bss_AWSS3 : option AWSS3Spec;
  bss_S3Compatible : option S3CompatibleSpec;
  bss_IBMCos : option IBMCosSpec;
  bss_AzureBlob : option AzureBlobSpec;
  bss_GoogleCloudStorage : option GoogleCloudStorageSpec;
  bss_PVPool : option (PVPoolSpec QA);
}.
Arguments BackingStoreSpec QA : clear implicits.

Record BackingStoreStatus := mkBackingStoreStatus {
  bst_Phase : BackingStorePhase;
  bst_Conditions : list Condition;
  bst_ModeCode : string;
}.

Record BackingStore {QA : QuantityApi} := mkBackingStore {
  bs_meta : ObjectMeta;
  bs_Spec : BackingStoreSpec QA;
  bs_Status : BackingStoreStatus;
}.
Arguments BackingStore QA : clear implicits.

#[export, refine] Instance BackingStore_MetaObject {QA : QuantityApi} : MetaObject (BackingStore QA) :=
  {| meta := bs_meta; set_meta := λ m b, mkBackingStore _ m (bs_Spec b) (bs_Status b) |}.
Proof. done. Defined.

(** ** [namespacestore_types.go] *)

Inductive NSType :=
  | NSStoreTypeAWSS3
  | NSStoreTypeS3Compatible
  | NSStoreTypeIBMCos
  | NSStoreTypeAzureBlob
  | NSStoreTypeGoogleCloudStorage
  | NSStoreTypeNSFS
  | NSStoreTypeOther (s : string).
#[export] Instance NSType_eq_dec : EqDecision NSType.
Proof. solve_decision. Defined.

Definition NSType_string (t : NSType) : string :=
  match t with
  | NSStoreTypeAWSS3 => "aws-s3"
  | NSStoreTypeS3Compatible => "s3-compatible"
  | NSStoreTypeIBMCos => "ibm-cos"
  | NSStoreTypeAzureBlob => "azure-blob"
  | NSStoreTypeGoogleCloudStorage => "google-cloud-storage"
  | NSStoreTypeNSFS => "nsfs"
  | NSStoreTypeOther s => s
  end.

Inductive NamespaceStorePhase :=
  | NamespaceStorePhaseNone    (* "" *)
  | NamespaceStorePhaseRejected
  | NamespaceStorePhaseVerifying
  | NamespaceStorePhaseConnecting
  | NamespaceStorePhaseCreating
  | NamespaceStorePhaseReady
  | NamespaceStorePhaseDeleting.
#[export] Instance NamespaceStorePhase_eq_dec : EqDecision NamespaceStorePhase.
Proof. solve_decision. Defined.

Definition NamespaceStorePhase_string (p : NamespaceStorePhase) : string :=
  match p with
  | NamespaceStorePhaseNone => ""
  | NamespaceStorePhaseRejected => "Rejected"
  | NamespaceStorePhaseVerifying => "Verifying"
  | NamespaceStorePhaseConnecting => "Connecting"
  | NamespaceStorePhaseCreating => "Creating"
  | NamespaceStorePhaseReady => "Ready"
  | NamespaceStorePhaseDeleting => "Deleting"
  end.

Record NSFSSpec := mkNSFSSpec {
  nsfs_PvcName : string;
  nsfs_SubPath : string;
  nsfs_FsBackend : string;
}.

Record NamespaceStoreSpec := mkNamespaceStoreSpec {
  nss_Type : NSType;
  nss_Archive : bool;
  nss_AccessMode : string;
  nss_AWSS3 : option AWSS3Spec;
  nss_S3Compatible : option S3CompatibleSpec;
  nss_IBMCos : option IBMCosSpec;
  nss_AzureBlob : option AzureBlobSpec;
  nss_GoogleCloudStorage : option GoogleCloudStorageSpec;
  nss_NSFS : option NSFSSpec;
}.

Record NamespaceStoreStatus := mkNamespaceStoreStatus {
  nst_Phase : NamespaceStorePhase;
  nst_Conditions : list Condition;
  nst_ModeCode : string;
}.

Record NamespaceStore := mkNamespaceStore {
  ns_meta : ObjectMeta;
  ns_Spec : NamespaceStoreSpec;
  ns_Status : NamespaceStoreStatus;
}.
#[export, refine] Instance NamespaceStore_MetaObject : MetaObject NamespaceStore :=
  {| meta := ns_meta; set_meta := λ m n, mkNamespaceStore m (ns_Spec n) (ns_Status n) |}.
Proof. done. Defined.

(** ** [bucketclass_types.go] *)

Inductive NSBucketClassType :=
  | NSBucketClassTypeSingle
  | NSBucketClassTypeMulti
  | NSBucketClassTypeCache
  | NSBucketClassTypeOther (s : string).
#[export] Instance NSBucketClassType_eq_dec : EqDecision NSBucketClassType.
Proof. solve_decision. Defined.

Inductive TierPlacement :=
  | TierPlacementSingle   (* "" *)
  | TierPlacementMirror
  | TierPlacementSpread
  | TierPlacementOther (s : string).

Record Tier := mkTier {
  tier_Placement : TierPlacement;
  tier_BackingStores : list string;
}.

Record PlacementPolicy := mkPlacementPolicy { pp_Tiers : list Tier }.

Record SingleNamespacePolicy := mkSingleNamespacePolicy { snp_Resource : string }.

Record MultiNamespacePolicy := mkMultiNamespacePolicy {
  mnp_ReadResources : list string;
  mnp_WriteResource : string;
}.

Record CacheSpec := mkCacheSpec { cache_TTL : Z; cache_Prefix : string }.

Record CacheNamespacePolicy := mkCacheNamespacePolicy {
  cnp_HubResource : string;
  cnp_Caching : option CacheSpec;
}.

Record NamespacePolicy := mkNamespacePolicy {
  np_Type : NSBucketClassType;
  np_Single : option SingleNamespacePolicy;
  np_Multi : option MultiNamespacePolicy;
  np_Cache : option CacheNamespacePolicy;
}.

Record Quota := mkQuota { quota_MaxSize : string; quota_MaxObjects : string }.

Record ArchivePolicy := mkArchivePolicy { ap_DeepArchiveResource : string }.

Record VectorPolicy := mkVectorPolicy { vp_Resource : string; vp_VectorDBType : string }.

Record BucketClassSpec := mkBucketClassSpec {
  bcs_PlacementPolicy : option PlacementPolicy;
  bcs_NamespacePolicy : option NamespacePolicy;
  bcs_Quota : option Quota;
  bcs_ReplicationPolicy : string;
  bcs_VectorPolicy : option VectorPolicy;
  bcs_ArchivePolicy : option ArchivePolicy;
}.

Inductive BucketClassPhase :=
  | BucketClassPhaseNone   (* "" *)
  | BucketClassPhaseRejected
  | BucketClassPhaseVerifying
  | BucketClassPhaseConfiguring
  | BucketClassPhaseReady
  | BucketClassPhaseDeleting.
#[export] Instance BucketClassPhase_eq_dec : EqDecision BucketClassPhase.
Proof. solve_decision. Defined.

Record BucketClassStatus := mkBucketClassStatus {
  bcst_Phase : BucketClassPhase;
  bcst_Conditions : list Condition;
  bcst_Mode : string;
}.

Record BucketClass := mkBucketClass {
  bc_meta : ObjectMeta;
  bc_Spec : BucketClassSpec;
  bc_Status : BucketClassStatus;
}.
#[export, refine] Instance BucketClass_MetaObject : MetaObject BucketClass :=
  {| meta := bc_meta; set_meta := λ m b, mkBucketClass m (bc_Spec b) (bc_Status b) |}.
Proof. done. Defined.

(** ** [noobaaaccount_types.go] *)

Record AccountNsfsConfig := mkAccountNsfsConfig {
  nac_UID : option Z;
  nac_GID : option Z;
  nac_NewBucketsPath : string;
  nac_NsfsOnly : bool;
  nac_DistinguishedName : string;
}.
#[export] Instance AccountNsfsConfig_eq_dec : EqDecision AccountNsfsConfig.
Proof. solve_decision. Defined.

Record NooBaaAccountSpec := mkNooBaaAccountSpec {
  nas_AllowBucketCreate : bool;
  nas_NsfsAccountConfig : option AccountNsfsConfig;
  nas_DefaultResource : string;
  nas_ForceMd5Etag : option bool;
}.

Inductive NooBaaAccountPhase :=
  | NooBaaAccountPhaseNone   (* "" *)
  | NooBaaAccountPhaseRejected
  | NooBaaAccountPhaseVerifying
  | NooBaaAccountPhaseConnecting
  | NooBaaAccountPhaseConfiguring
  | NooBaaAccountPhaseReady
  | NooBaaAccountPhaseDeleting.
#[export] Instance NooBaaAccountPhase_eq_dec : EqDecision NooBaaAccountPhase.
Proof. solve_decision. Defined.

Record NooBaaAccountStatus := mkNooBaaAccountStatus {
  nast_Phase : NooBaaAccountPhase;
  nast_Conditions : list Condition;
}.

Record NooBaaAccount := mkNooBaaAccount {
  na_meta : ObjectMeta;
  na_Spec : NooBaaAccountSpec;
  na_Status : NooBaaAccountStatus;
}.
#[export, refine] Instance NooBaaAccount_MetaObject : MetaObject NooBaaAccount :=
  {| meta := na_meta; set_meta := λ m a, mkNooBaaAccount m (na_Spec a) (na_Status a) |}.
Proof. done. Defined.

(** ** [noobaa_types.go]: the parts of the NooBaa resource that are read here *)

Inductive AutoscalerTypes :=
  | AutoscalerTypeNone   (* "" *)
  | AutoscalerTypeKeda
  | AutoscalerTypeHPAV2
  | AutoscalerTypeOther (s : string).
#[export] Instance AutoscalerTypes_eq_dec : EqDecision AutoscalerTypes.
Proof. solve_decision. Defined.

Definition AutoscalerTypes_string (t : AutoscalerTypes) : string :=
  match t with
  | AutoscalerTypeNone => ""
  | AutoscalerTypeKeda => "keda"
  | AutoscalerTypeHPAV2 => "hpav2"
  | AutoscalerTypeOther s => s
  end.

Record AutoscalerSpec := mkAutoscalerSpec {
  as_AutoscalerType : AutoscalerTypes;
  as_PrometheusNamespace : string;
}.

Record LoadBalancerSourceSubnetSpec := mkLoadBalancerSourceSubnetSpec {
  lb_S3 : list string;
  lb_STS : list string;
  lb_IAM : list string;
  lb_Vectors : list string;
}.

Definition VersionTLS12 : string := "TLSv1.2".
Definition VersionTLS13 : string := "TLSv1.3".

Record TLSSecuritySpec := mkTLSSecuritySpec {
  tls_TLSMinVersion : option string;
  tls_TLSCiphers : list string;
  tls_TLSGroups : list string;
}.

Record KeyManagementServiceSpec := mkKeyManagementServiceSpec {
  kms_EnableKeyRotation : bool;
  kms_Schedule : string;
  kms_ConnectionDetails : option (gmap string string);
  kms_TokenSecretName : string;
}.

Record SecuritySpec := mkSecuritySpec {
  sec_APIServerSecurity : option TLSSecuritySpec;
  sec_KeyManagementService : KeyManagementServiceSpec;
}.
Definition noKMS : KeyManagementServiceSpec := mkKeyManagementServiceSpec false "" None "".

Record CleanupPolicySpec := mkCleanupPolicySpec {
  cp_Confirmation : string;
  cp_AllowNoobaaDeletion : bool;
}.

Inductive PerformanceProfileType :=
  | PerformanceProfileNone   (* "" *)
  | PerformanceProfileDefault
  | PerformanceProfileMixedWorkload
  | PerformanceProfileSmallObjects
  | PerformanceProfileDevEnv
  | PerformanceProfileMiniEnv
  | PerformanceProfileOther (s : string).
#[export] Instance PerformanceProfileType_eq_dec : EqDecision PerformanceProfileType.
Proof. solve_decision. Defined.

Inductive BucketLoggingTypes :=
  | BucketLoggingTypeNone   (* "" *)
  | BucketLoggingTypeBestEffort
  | BucketLoggingTypeGuaranteed
  | BucketLoggingTypeOther (s : string).
#[export] Instance BucketLoggingTypes_eq_dec : EqDecision BucketLoggingTypes.
Proof. solve_decision. Defined.

Record BucketLoggingSpec := mkBucketLoggingSpec {
  bl_LoggingType : BucketLoggingTypes;
  bl_BucketLoggingPVC : option string;
}.

Record BucketNotificationsSpec := mkBucketNotificationsSpec {
  bn_Enabled : bool;
  bn_PVC : option string;
  bn_Connections : list SecretReference;
}.

Record EndpointsSpec := mkEndpointsSpec {
  eps_MinCount : Z;
  eps_MaxCount : Z;
  eps_AdditionalVirtualHosts : list string;
}.

(** *** Scheduling, from [k8s.io/api/core/v1] *)

Inductive TolerationOp := TolerationOpEqual | TolerationOpExists | TolerationOpNone | TolerationOpOther (s : string).
#[export] Instance TolerationOp_eq_dec : EqDecision TolerationOp.
Proof. solve_decision. Defined.

Record Toleration := mkToleration {
  tol_Key : string;
  tol_Operator : TolerationOp;
  tol_Value : string;
  tol_Effect : string;
  tol_TolerationSeconds : option Z;
}.
#[export] Instance Toleration_eq_dec : EqDecision Toleration.
Proof. solve_decision. Defined.

(** Node and pod affinities are opaque, of anti-affinities the preferred terms are read. *)
Record LabelSelector := mkLabelSelector {
  ls_MatchLabels : option (gmap string string);
  ls_MatchExpressions : list string;
}.
Record PodAffinityTerm := mkPodAffinityTerm {
  pat_LabelSelector : option LabelSelector;
  pat_TopologyKey : string;
}.
Record WeightedPodAffinityTerm := mkWeightedPodAffinityTerm {
  wpat_Weight : Z;
  wpat_PodAffinityTerm : PodAffinityTerm;
}.
Record PodAntiAffinity := mkPodAntiAffinity {
  paa_Required : list string;
  paa_Preferred : list WeightedPodAffinityTerm;
}.

Record AffinitySpec := mkAffinitySpec {
  afs_NodeAffinity : option string;
  afs_PodAffinity : option string;
  afs_PodAntiAffinity : option PodAntiAffinity;
  afs_TopologyKey : string;
}.

(** *** The database *)

Record VolumeSnapshotBackupSpec := mkVolumeSnapshotBackupSpec {
  vsb_VolumeSnapshotClass : string;
  vsb_MaxSnapshots : Z;
}.

Record DBBackupSpec := mkDBBackupSpec {
  dbb_Schedule : string;
  dbb_VolumeSnapshot : option VolumeSnapshotBackupSpec;
}.

Record DBRecoverySpec := mkDBRecoverySpec { dbr_VolumeSnapshotName : string }.

(** Without [DBResources], which is given to the functions that read it. *)
Record NooBaaDBSpec := mkNooBaaDBSpec {
  dbs_DBImage : option string;
  dbs_PostgresMajorVersion : option Z;
  dbs_Instances : option Z;
  dbs_DBMinVolumeSize : string;
  dbs_DBStorageClass : option string;
  dbs_DBConf : option (gmap string string);
  dbs_DBBackup : option DBBackupSpec;
  dbs_DBRecovery : option DBRecoverySpec;
}.
Definition emptyDBSpec : NooBaaDBSpec := mkNooBaaDBSpec None None None "" None None None None.

Inductive DBClusterStatus :=
  | DBClusterStatusNone
  | DBClusterStatusCreating
  | DBClusterStatusUpdating
  | DBClusterStatusImporting
  | DBClusterStatusRecovering
  | DBClusterStatusReady
  | DBClusterStatusFailed
  | DBClusterStatusOther (s : string).
#[export] Instance DBClusterStatus_eq_dec : EqDecision DBClusterStatus.
Proof. solve_decision. Defined.

Record DBBackupStatus := mkDBBackupStatus {
  dbbs_LastBackupTime : option Z;
  dbbs_NextBackupTime : option Z;
  dbbs_TotalSnapshots : Z;
  dbbs_AvailableSnapshots : list string;
}.

Inductive DBRecoveryStatusType :=
  | DBRecoveryStatusNone
  | DBRecoveryStatusPending
  | DBRecoveryStatusRunning
  | DBRecoveryStatusCompleted
  | DBRecoveryStatusFailed
  | DBRecoveryStatusOther (s : string).

Record DBRecoveryStatus := mkDBRecoveryStatus {
  dbrs_Status : DBRecoveryStatusType;
  dbrs_SnapshotName : string;
  dbrs_RecoveryTime : option Z;
}.

Record NooBaaDBStatus := mkNooBaaDBStatus {
  dbst_DBClusterStatus : DBClusterStatus;
  dbst_DBCurrentImage : string;
  dbst_CurrentPgMajorVersion : Z;
  dbst_ActualVolumeSize : string;
  dbst_BackupStatus : option DBBackupStatus;
  dbst_RecoveryStatus : option DBRecoveryStatus;
}.

(** *** The system *)

(** [nbs_DefaultBackingStoreSpec]: the deprecated pointer is set. *)
Record NooBaaSpec := mkNooBaaSpec {
  nbs_CleanupPolicy : CleanupPolicySpec;
  nbs_Autoscaler : AutoscalerSpec;
  nbs_LoadBalancerSourceSubnets : LoadBalancerSourceSubnetSpec;
  nbs_Security : SecuritySpec;
  nbs_Image : option string;
  nbs_DBSpec : option NooBaaDBSpec;
  nbs_Endpoints : option EndpointsSpec;
  nbs_PerformanceProfile : PerformanceProfileType;
  nbs_DefaultBackingStoreSpec : bool;
  nbs_ExternalPgSecret : option SecretReference;
  nbs_ExternalPgSSLRequired : bool;
  nbs_ExternalPgSSLUnauthorized : bool;
  nbs_BucketLogging : BucketLoggingSpec;
  nbs_BucketNotifications : BucketNotificationsSpec;
  nbs_ExternalPgSSLSecret : option SecretReference;
  nbs_JoinSecret : option SecretReference;
  nbs_Affinity : option AffinitySpec;
  nbs_Tolerations : option (list Toleration);
  nbs_DBPriorityClassName : string;
  nbs_DisableCoreHA : bool;
  nbs_ManualDefaultBackingStore : bool;
  nbs_PVPoolDefaultStorageClass : option string;
  nbs_Region : option string;
  nbs_EndpointPriorityClassName : string;
  nbs_ImagePullSecret : option string;
  nbs_DisableLoadBalancerService : bool;
  nbs_DisableRoutes : bool;
  nbs_DenyHTTP : bool;
  nbs_Labels : gmap string (option (gmap string string));
  nbs_Annotations : gmap string (option (gmap string string));
  nbs_CorePriorityClassName : string;
}.

(** The zero value. *)
Definition emptyNooBaaSpec : NooBaaSpec :=
  mkNooBaaSpec (mkCleanupPolicySpec "" false) (mkAutoscalerSpec AutoscalerTypeNone "")
    (mkLoadBalancerSourceSubnetSpec [] [] [] []) (mkSecuritySpec None noKMS) None None None PerformanceProfileNone false None
    false false (mkBucketLoggingSpec BucketLoggingTypeNone None) (mkBucketNotificationsSpec false None []) None None None None ""
    false false None None "" None false false false ∅ ∅ "".

(** The addresses of a service, as [CheckServiceStatus] reports them. *)
Record ServiceStatus := mkServiceStatus {
  svs_NodePorts : list string;
  svs_PodPorts : list string;
  svs_InternalIP : list string;
  svs_InternalDNS : list string;
  svs_ExternalIP : list string;
  svs_ExternalDNS : list string;
}.

Record ServicesStatus := mkServicesStatus {
  svcs_ServiceMgmt : ServiceStatus;
  svcs_ServiceS3 : ServiceStatus;
  svcs_ServiceSts : ServiceStatus;
  svcs_ServiceIam : ServiceStatus;
  svcs_ServiceVectors : ServiceStatus;
  svcs_ServiceSyslog : ServiceStatus;
}.
Definition noService : ServiceStatus := mkServiceStatus [] [] [] [] [] [].
Definition noServices : ServicesStatus := mkServicesStatus noService noService noService noService noService noService.

Inductive SystemPhase :=
  | SystemPhaseNone
  | SystemPhaseRejected
  | SystemPhaseVerifying
  | SystemPhaseCreating
  | SystemPhaseConnecting
  | SystemPhaseConfiguring
  | SystemPhaseReady.
#[export] Instance SystemPhase_eq_dec : EqDecision SystemPhase.
Proof. solve_decision. Defined.

Record EndpointsStatus := mkEndpointsStatus {
  epst_ReadyCount : Z;
  epst_VirtualHosts : list string;
}.

(** The fields that the modelled components read or write; of the accounts the reference
    to the secret of the administrator. *)
Record NooBaaStatus := mkNooBaaStatus {
  nbst_Phase : SystemPhase;
  nbst_Conditions : list Condition;
  nbst_Services : option ServicesStatus;
  nbst_ActualImage : string;
  nbst_ObservedGeneration : Z;
  nbst_AdminSecret : option SecretReference;
  nbst_Endpoints : option EndpointsStatus;
  nbst_LastKeyRotateTime : option Z;
  nbst_DBStatus : option NooBaaDBStatus;
}.
Definition noStatus : NooBaaStatus := mkNooBaaStatus SystemPhaseNone [] None "" 0 None None None None.

Definition set_nbst_Phase p c (st : NooBaaStatus) : NooBaaStatus :=
  mkNooBaaStatus p c (nbst_Services st) (nbst_ActualImage st) (nbst_ObservedGeneration st)
    (nbst_AdminSecret st) (nbst_Endpoints st) (nbst_LastKeyRotateTime st) (nbst_DBStatus st).
Definition set_nbst_Services v (st : NooBaaStatus) : NooBaaStatus :=
  mkNooBaaStatus (nbst_Phase st) (nbst_Conditions st) v (nbst_ActualImage st) (nbst_ObservedGeneration st)
    (nbst_AdminSecret st) (nbst_Endpoints st) (nbst_LastKeyRotateTime st) (nbst_DBStatus st).
Definition set_nbst_ActualImage v (st : NooBaaStatus) : NooBaaStatus :=
  mkNooBaaStatus (nbst_Phase st) (nbst_Conditions st) (nbst_Services st) v (nbst_ObservedGeneration st)
    (nbst_AdminSecret st) (nbst_Endpoints st) (nbst_LastKeyRotateTime st) (nbst_DBStatus st).
Definition set_nbst_ObservedGeneration v (st : NooBaaStatus) : NooBaaStatus :=
  mkNooBaaStatus (nbst_Phase st) (nbst_Conditions st) (nbst_Services st) (nbst_ActualImage st) v
    (nbst_AdminSecret st) (nbst_Endpoints st) (nbst_LastKeyRotateTime st) (nbst_DBStatus st).
Definition set_nbst_AdminSecret v (st : NooBaaStatus) : NooBaaStatus :=
  mkNooBaaStatus (nbst_Phase st) (nbst_Conditions st) (nbst_Services st) (nbst_ActualImage st) (nbst_ObservedGeneration st)
    v (nbst_Endpoints st) (nbst_LastKeyRotateTime st) (nbst_DBStatus st).
Definition set_nbst_Endpoints v (st : NooBaaStatus) : NooBaaStatus :=
  mkNooBaaStatus (nbst_Phase st) (nbst_Conditions st) (nbst_Services st) (nbst_ActualImage st) (nbst_ObservedGeneration st)
    (nbst_AdminSecret st) v (nbst_LastKeyRotateTime st) (nbst_DBStatus st).
Definition set_nbst_LastKeyRotateTime v (st : NooBaaStatus) : NooBaaStatus :=
  mkNooBaaStatus (nbst_Phase st) (nbst_Conditions st) (nbst_Services st) (nbst_ActualImage st) (nbst_ObservedGeneration st)
    (nbst_AdminSecret st) (nbst_Endpoints st) v (nbst_DBStatus st).
Definition set_nbst_DBStatus v (st : NooBaaStatus) : NooBaaStatus :=
  mkNooBaaStatus (nbst_Phase st) (nbst_Conditions st) (nbst_Services st) (nbst_ActualImage st) (nbst_ObservedGeneration st)
    (nbst_AdminSecret st) (nbst_Endpoints st) (nbst_LastKeyRotateTime st) v.

Record NooBaa := mkNooBaa {
  nb_meta : ObjectMeta;
  nb_Spec : NooBaaSpec;
  nb_Status : NooBaaStatus;
}.
#[export, refine] Instance NooBaa_MetaObject : MetaObject NooBaa :=
  {| meta := nb_meta; set_meta := λ m n, mkNooBaa m (nb_Spec n) (nb_Status n) |}.
Proof. done. Defined.

(** The finalizer of every NooBaa resource. *)
Definition Finalizer : string := "noobaa.io/finalizer".

(** ** A concrete [resource.Quantity]: integers in units of 10^-9 *)

(** Used by the examples only.  Parses decimal integers of at most 64 bits, with the
    suffixes m, Mi and Gi. *)
Definition split_unit (s : string) : string * Z :=
  let unit suf v k := if TrimSuffix s suf == s then k else (TrimSuffix s suf, v) in
  unit "Mi"%string (1024 ^ 2 * 10 ^ 9)%Z (unit "Gi"%string (1024 ^ 3 * 10 ^ 9)%Z
    (unit "m"%string (10 ^ 6)%Z (s, 10 ^ 9)%Z)).

Definition IntQuantity : QuantityApi := {|
  Quantity := Z;
  Quantity_zero := 0%Z;
  NewQuantity v := (v * 10 ^ 9)%Z;
  ParseQuantity s := match ParseInt (split_unit s).1 64 with
                     | inl _ => inl (Sprintf "unable to parse quantity's suffix" [])
                     | inr v => inr (v * (split_unit s).2)%Z
                     end;
  Quantity_Cmp a b := if (a <? b)%Z then (-1)%Z else if (b <? a)%Z then 1%Z else 0%Z;
  Quantity_Value a := (- (- a / 10 ^ 9))%Z;
  Quantity_MilliValue a := (- (- a / 10 ^ 6))%Z;
  Quantity_IsZero a := (a =? 0)%Z;
  Quantity_String _ := "";
|}.

#[refine] Instance IntQuantity_laws : QuantityLaws IntQuantity := {| amount := λ q : @Quantity IntQuantity, (q : Z) |}.
Proof.
  - done.
  - done.
  - intros a b; simpl. destruct (Z.ltb_spec a b), (Z.ltb_spec b a); lia.
  - intros a b; simpl. destruct (Z.ltb_spec a b), (Z.ltb_spec b a); lia.
  - intros a b; simpl. destruct (Z.ltb_spec a b), (Z.ltb_spec b a); lia.
  - done.
  - done.
  - intros a. simpl. apply Z.eqb_eq.
  - exists 0%Z. by split.
Defined.

(** ** Round trips of the string types *)

(** Reading back the text of a store type gives the type, for every type that
    reading produces. *)
Lemma StoreType_of_to_string s : StoreType_string (StoreType_of_string s) = s.
Proof. unfold StoreType_of_string. by case_tests. Qed.

Lemma StoreType_to_of_string t :
  (∀ s, t = StoreTypeOther s → StoreType_of_string s = t) →
  StoreType_of_string (StoreType_string t) = t.
Proof. destruct t; intros H; try done. by apply H. Qed.
