(* ===== verification/Kube.v ===== *)
(** * Access to the Kubernetes API server: the [Kube*] functions of [pkg/util/util.go].

    The API server is a service: the class [ApiServer] has its requests as
    operations on an abstract cluster state [W], the class [ApiLaws] states what
    Kubernetes documents about them.  The functions of the operator are defined on
    top of the class, with every error the code distinguishes. *)

From S2P Require Import Prelude GoStrings Types.

(** ** Errors of the client *)

(** The reasons of a [*errors.StatusError] that the code tests for. *)
Inductive status_reason :=
  | ReasonNotFound | ReasonConflict | ReasonForbidden | ReasonInvalid
  | ReasonAlreadyExists | ReasonOther (s : string).

Inductive api_error :=
  | NoMatchError                                     (* [meta.IsNoMatchError] *)
  | NotRegisteredError                               (* [runtime.IsNotRegisteredError] *)
  | StatusError (r : status_reason) (m : msg)        (* [*errors.StatusError] *)
  | ClientError (m : msg).                           (* anything else *)

Definition IsNoMatchOrNotRegistered (e : api_error) : bool :=
  match e with NoMatchError | NotRegisteredError => true | _ => false end.
Definition IsNotFound (e : api_error) : bool :=
  match e with StatusError ReasonNotFound _ => true | _ => false end.
Definition IsConflict (e : api_error) : bool :=
  match e with StatusError ReasonConflict _ => true | _ => false end.
Definition IsForbidden (e : api_error) : bool :=
  match e with StatusError ReasonForbidden _ => true | _ => false end.
Definition IsInvalid (e : api_error) : bool :=
  match e with StatusError ReasonInvalid _ => true | _ => false end.
Definition IsStatusError (e : api_error) : bool :=
  match e with StatusError _ _ => true | _ => false end.

Definition api_error_msg (e : api_error) : msg :=
  match e with
  | NoMatchError => Lit "no matches for kind"
  | NotRegisteredError => Lit "no kind is registered"
  | StatusError _ m => m
  | ClientError m => m
  end.

(** ** Objects and the server *)

Abbreviation ObjectKeyT := (string * string)%type.

(** [SecretResetStringDataFromData] acts on its argument through a type
    assertion; [resetStringData] is its effect on the objects of a type. *)
Class KubeObject (O : Type) : Type := {
  ko_meta :: MetaObject O;
  resetStringData : O → O;
  meta_reset o : meta (resetStringData o) = meta o;
}.

Definition ObjectKey {O} `{MetaObject O} (o : O) : ObjectKeyT :=
  (om_Namespace (meta o), om_Name (meta o)).

Definition SecretResetStringDataFromData (s : Secret) : Secret :=
  mkSecret (sec_meta s) (Some (default ∅ (sec_Data s))) (Some ∅).

#[export, refine] Instance Secret_KubeObject : KubeObject Secret :=
  {| resetStringData := SecretResetStringDataFromData |}.
Proof. done. Defined.
#[export, refine] Instance BackingStore_KubeObject {QA} : KubeObject (BackingStore QA) :=
  {| resetStringData := id |}.
Proof. done. Defined.
#[export, refine] Instance NamespaceStore_KubeObject : KubeObject NamespaceStore :=
  {| resetStringData := id |}.
Proof. done. Defined.
#[export, refine] Instance BucketClass_KubeObject : KubeObject BucketClass :=
  {| resetStringData := id |}.
Proof. done. Defined.
#[export, refine] Instance NooBaaAccount_KubeObject : KubeObject NooBaaAccount :=
  {| resetStringData := id |}.
Proof. done. Defined.
#[export, refine] Instance NooBaa_KubeObject : KubeObject NooBaa :=
  {| resetStringData := id |}.
Proof. done. Defined.

Class ApiServer (W O : Type) `{KubeObject O} : Type := {
  srv_Get : W → ObjectKeyT → api_error + O;
  srv_Update : W → O → W * (api_error + O);
  srv_Create : W → O → W * (api_error + O);
  srv_Delete : W → O → W * option api_error;
  srv_List : W → (O → bool) → api_error + list O;
}.

(** The bulk deletion of the objects a selector matches. *)
Class ApiBulkDelete (W O : Type) : Type := {
  srv_DeleteAllOf : W → (O → bool) → W * option api_error;
}.

(** What Kubernetes documents about single-object requests.  [payload] is the part
    of an object the server stores as given.  An update of an object that is being
    deleted may make it disappear, so the law on updates leaves such objects out. *)
Class ApiLaws (W O : Type) `{ApiServer W O} (P : Type) : Type := {
  payload : O → P;
  payload_set_rv v o :
    payload (set_meta (set_om_ResourceVersion v (meta o)) o) = payload o;
  Create_ok w o w' o' :
    srv_Create w o = (w', inr o') →
    ObjectKey o' = ObjectKey o ∧ payload o' = payload o ∧
    srv_Get w' (ObjectKey o) = inr o' ∧
    (∃ e, srv_Get w (ObjectKey o) = inl e) ∧
    ∀ k, k ≠ ObjectKey o → srv_Get w' k = srv_Get w k;
  Create_err w o w' e : srv_Create w o = (w', inl e) → w' = w;
  Update_ok w o w' o' :
    om_DeletionTimestamp (meta o) = None →
    srv_Update w o = (w', inr o') →
    ObjectKey o' = ObjectKey o ∧ payload o' = payload o ∧
    srv_Get w' (ObjectKey o) = inr o' ∧
    (∃ x, srv_Get w (ObjectKey o) = inr x) ∧
    ∀ k, k ≠ ObjectKey o → srv_Get w' k = srv_Get w k;
  Update_err w o w' e : srv_Update w o = (w', inl e) → w' = w;
  Delete_err w o w' e : srv_Delete w o = (w', Some e) → w' = w;
}.

(** ** The [Kube*] functions *)

Section Kube.
Context {W O : Type} {KO : KubeObject O} {AS : ApiServer W O}.

(** [util.Panic(err)] *)
Definition UtilPanic {A} (e : api_error) : outcome A := Panic (Panicked (api_error_msg e)).

Definition KubeGet (w : W) (obj : O) : O * option api_error :=
  match srv_Get w (ObjectKey obj) with
  | inr found => (found, None)
  | inl e => (obj, Some e)
  end.

Definition KubeCheck (w : W) (obj : O) : outcome (O * bool) :=
  let '(obj, err) := KubeGet w obj in
  match err with
  | None => Ret (resetStringData obj, true)
  | Some e =>
      if IsNoMatchOrNotRegistered e then Ret (obj, false)
      else if IsNotFound e then Ret (obj, false)
      else if IsConflict e then Ret (obj, false)
      else UtilPanic e
  end.

Definition KubeCheckOptional (w : W) (obj : O) : outcome (O * bool) :=
  let '(obj, err) := KubeGet w obj in
  match err with
  | None => Ret (obj, true)
  | Some e =>
      if IsNoMatchOrNotRegistered e then Ret (obj, false)
      else if IsNotFound e then Ret (obj, false)
      else if IsConflict e then Ret (obj, false)
      else UtilPanic e
  end.

Definition KubeCheckQuiet (w : W) (obj : O) : outcome (O * bool) :=
  let '(obj, err) := KubeGet w obj in
  match err with
  | None => Ret (obj, true)
  | Some e =>
      if IsNoMatchOrNotRegistered e || IsNotFound e || IsConflict e then Ret (obj, false)
      else UtilPanic e
  end.

Definition KubeList (w : W) (sel : O → bool) : outcome (list O * bool) :=
  match srv_List w sel with
  | inr items => Ret (items, true)
  | inl e =>
      if IsNoMatchOrNotRegistered e then Ret ([], false)
      else if IsNotFound e then Ret ([], false)
      else if IsConflict e then Ret ([], false)
      else UtilPanic e
  end.

(** A mutating request that fills the object it was given: the new state, the
    object afterwards and the error. *)
Definition fill (r : W * (api_error + O)) (obj : O) : W * O * option api_error :=
  match r with
  | (w', inr obj') => (w', obj', None)
  | (w', inl e) => (w', obj, Some e)
  end.

Definition KubeApply (w : W) (obj : O) : outcome (W * O * bool) :=
  let '(w, obj, err) :=
    match srv_Get w (ObjectKey obj) with
    | inr clone =>
        let obj := set_meta (set_om_ResourceVersion
                               (om_ResourceVersion (meta clone)) (meta obj)) obj in
        fill (srv_Update w obj) obj
    | inl e => (w, obj, Some e)
    end in
  match err with
  | None => Ret (w, obj, false)
  | Some e =>
      if IsNoMatchOrNotRegistered e then Ret (w, obj, false) else
      let '(w, obj, err) :=
        if IsNotFound e then fill (srv_Create w obj) obj else (w, obj, Some e) in
      match err with
      | None => Ret (w, obj, true)
      | Some e =>
          if IsConflict e then Ret (w, obj, false)
          else if IsStatusError e then Ret (w, obj, false)
          else UtilPanic e
      end
  end.

Definition kubeCreateSkipOrFailExisting (w : W) (obj : O) (skipOrFail : bool) :
    outcome (W * O * bool) :=
  match srv_Get w (ObjectKey obj) with
  | inr _ => Ret (w, obj, skipOrFail)
  | inl e =>
      if IsNoMatchOrNotRegistered e then Ret (w, obj, false) else
      let '(w, obj, err) :=
        if IsNotFound e then fill (srv_Create w obj) obj else (w, obj, Some e) in
      match err with
      | None => Ret (w, obj, true)
      | Some e' =>
          if IsNotFound e && IsNotFound e' then Ret (w, obj, false)
          else if IsConflict e' then Ret (w, obj, false)
          else if IsForbidden e' then Ret (w, obj, false)
          else if IsInvalid e' then Ret (w, obj, false)
          else if IsStatusError e' then Ret (w, obj, false)
          else UtilPanic e'
      end
  end.

Definition KubeCreateFailExisting (w : W) (obj : O) : outcome (W * O * bool) :=
  kubeCreateSkipOrFailExisting w obj false.

Definition KubeCreateSkipExisting (w : W) (obj : O) : outcome (W * O * bool) :=
  kubeCreateSkipOrFailExisting w obj true.

Definition KubeCreateOptional (w : W) (obj : O) : outcome (W * O * bool) :=
  match srv_Get w (ObjectKey obj) with
  | inr _ => Ret (w, obj, false)
  | inl e =>
      if IsNoMatchOrNotRegistered e then Ret (w, obj, false) else
      let '(w, obj, err) :=
        if IsNotFound e then fill (srv_Create w obj) obj else (w, obj, Some e) in
      match err with
      | None => Ret (w, obj, true)
      | Some e' =>
          if IsNotFound e && IsNotFound e' then Ret (w, obj, false)
          else if IsConflict e' then Ret (w, obj, false)
          else if IsForbidden e' then Ret (w, obj, false)
          else if IsInvalid e' then Ret (w, obj, false)
          else UtilPanic e'
      end
  end.

(** The polling loop of [KubeDelete] runs until the server reports the object
    gone.  [tick] is what the rest of the cluster does between two polls; the
    result is [None] while the loop is still running. *)
Fixpoint KubeDelete_poll (fuel : nat) (tick : W → W) (w : W) (obj : O) (deleted : bool) :
    outcome (W * option bool) :=
  match fuel with
  | 0%nat => Ret (w, None)
  | S fuel =>
      let '(w, err) := srv_Delete w obj in
      match err with
      | None => KubeDelete_poll fuel tick (tick w) obj true
      | Some e =>
          if IsConflict e then KubeDelete_poll fuel tick (tick w) obj deleted
          else if IsNoMatchOrNotRegistered e then Ret (w, Some deleted)
          else if IsNotFound e then Ret (w, Some deleted)
          else UtilPanic e
      end
  end.

Definition KubeDelete (fuel : nat) (tick : W → W) (w : W) (obj : O) :
    outcome (W * option bool) :=
  let '(w, err) := srv_Delete w obj in
  match err with
  | None => KubeDelete_poll fuel tick (tick w) obj true
  | Some e =>
      if negb (IsConflict e) && IsNotFound e then Ret (w, Some true)
      else if IsStatusError e then Ret (w, Some false)
      else KubeDelete_poll fuel tick (tick w) obj false
  end.

Definition KubeDeleteNoPolling (w : W) (obj : O) : outcome (W * bool) :=
  let '(w, err) := srv_Delete w obj in
  match err with
  | None => Ret (w, true)
  | Some e =>
      if negb (IsConflict e) && IsNotFound e then Ret (w, true) else UtilPanic e
  end.

Definition KubeDeleteAllOf {BD : ApiBulkDelete W O} (w : W) (sel : O → bool) : outcome (W * bool) :=
  let '(w, err) := srv_DeleteAllOf w sel in
  match err with
  | None => Ret (w, true)
  | Some e => if IsNotFound e then Ret (w, true) else UtilPanic e
  end.

Definition KubeUpdate (w : W) (obj : O) : outcome (W * O * bool) :=
  let '(w, obj, err) := fill (srv_Update w obj) obj in
  match err with
  | None => Ret (w, obj, true)
  | Some e =>
      if IsNoMatchOrNotRegistered e then Ret (w, obj, false)
      else if IsConflict e then Ret (w, obj, false)
      else if IsNotFound e then Ret (w, obj, false)
      else if IsStatusError e then Ret (w, obj, false)
      else UtilPanic e
  end.

(** ** Lemmas *)

Lemma KubeCheck_found w obj x :
  srv_Get w (ObjectKey obj) = inr x → KubeCheck w obj = Ret (resetStringData x, true).
Proof. unfold KubeCheck, KubeGet. by intros ->. Qed.

Lemma KubeCheckQuiet_found w obj x : srv_Get w (ObjectKey obj) = inr x → KubeCheckQuiet w obj = Ret (x, true).
Proof. unfold KubeCheckQuiet, KubeGet. by intros ->. Qed.

Lemma KubeCheck_true w obj x :
  KubeCheck w obj = Ret (x, true) →
  ∃ y, srv_Get w (ObjectKey obj) = inr y ∧ x = resetStringData y.
Proof.
  unfold KubeCheck, KubeGet. destruct (srv_Get w (ObjectKey obj)) as [e|y]; [|naive_solver].
  repeat case_match; intros; simplify_eq.
Qed.

Lemma KubeCheck_false w obj x :
  KubeCheck w obj = Ret (x, false) →
  x = obj ∧ ∃ e, srv_Get w (ObjectKey obj) = inl e.
Proof.
  unfold KubeCheck, KubeGet. destruct (srv_Get w (ObjectKey obj)) as [e|y]; [|naive_solver].
  repeat case_match; intros; simplify_eq; eauto.
Qed.

Lemma KubeCheck_missing w obj e :
  srv_Get w (ObjectKey obj) = inl e → IsNotFound e = true → KubeCheck w obj = Ret (obj, false).
Proof. unfold KubeCheck, KubeGet. intros -> He. rewrite He. by destruct (IsNoMatchOrNotRegistered e). Qed.

(** The quiet and the reporting check differ only in the reset of secrets. *)
Lemma KubeCheckQuiet_KubeCheck w obj b :
  (∃ x, KubeCheckQuiet w obj = Ret (x, b)) ↔ (∃ x, KubeCheck w obj = Ret (x, b)).
Proof.
  unfold KubeCheckQuiet, KubeCheck, KubeGet.
  destruct (srv_Get w (ObjectKey obj)) as [e|y]; [|naive_solver].
  destruct (IsNoMatchOrNotRegistered e), (IsNotFound e), (IsConflict e); simpl; naive_solver.
Qed.

End Kube.

(** ** What the functions guarantee against a server that obeys the laws *)

Section KubeSpec.
Context {W O P : Type} {KO : KubeObject O} {AS : ApiServer W O} {AL : ApiLaws W O P}.

(** The object is in the cluster with the payload of [obj], other keys are as in [w]. *)
Definition stored (w w' : W) (obj obj' : O) : Prop :=
  srv_Get w' (ObjectKey obj) = inr obj' ∧ payload obj' = payload obj ∧
  ∀ k, k ≠ ObjectKey obj → srv_Get w' k = srv_Get w k.

Lemma ObjectKey_set_rv v (o : O) :
  ObjectKey (set_meta (set_om_ResourceVersion v (meta o)) o) = ObjectKey o.
Proof. unfold ObjectKey. by rewrite meta_set_meta. Qed.

Lemma fill_Create w obj w' obj' :
  fill (srv_Create w obj) obj = (w', obj', None) →
  stored w w' obj obj' ∧ ∃ e, srv_Get w (ObjectKey obj) = inl e.
Proof.
  unfold fill. destruct (srv_Create w obj) as [w1 [e|o]] eqn:E; intros; simplify_eq.
  apply Create_ok in E as (Hk & Hp & Hg & He & Ho). by split.
Qed.

Lemma fill_Update w obj w' obj' :
  om_DeletionTimestamp (meta obj) = None →
  fill (srv_Update w obj) obj = (w', obj', None) → stored w w' obj obj'.
Proof.
  unfold fill. intros Hd. destruct (srv_Update w obj) as [w1 [e|o]] eqn:E; intros; simplify_eq.
  by apply Update_ok in E as (Hk & Hp & Hg & He & Ho).
Qed.

Lemma fill_Create_err w obj w' obj' e :
  fill (srv_Create w obj) obj = (w', obj', Some e) → w' = w ∧ obj' = obj.
Proof.
  unfold fill. destruct (srv_Create w obj) as [w1 [e'|o]] eqn:E; intros; simplify_eq.
  by apply Create_err in E.
Qed.

Lemma fill_Update_err w obj w' obj' e :
  fill (srv_Update w obj) obj = (w', obj', Some e) → w' = w ∧ obj' = obj.
Proof.
  unfold fill. destruct (srv_Update w obj) as [w1 [e'|o]] eqn:E; intros; simplify_eq.
  by apply Update_err in E.
Qed.

(** The two creating functions never touch an object that exists, create one that
    does not, and leave the cluster as it was when the creation fails. *)
Theorem kubeCreateSkipOrFailExisting_spec w obj skip w' obj' b :
  kubeCreateSkipOrFailExisting w obj skip = Ret (w', obj', b) →
  ((∃ x, srv_Get w (ObjectKey obj) = inr x) ∧ w' = w ∧ obj' = obj ∧ b = skip) ∨
  ((∃ e, srv_Get w (ObjectKey obj) = inl e) ∧ b = true ∧ stored w w' obj obj') ∨
  ((∃ e, srv_Get w (ObjectKey obj) = inl e) ∧ b = false ∧ w' = w ∧ obj' = obj).
Proof.
  unfold kubeCreateSkipOrFailExisting.
  destruct (srv_Get w (ObjectKey obj)) as [e|x] eqn:Hg; [|intros; simplify_eq; left; eauto].
  intros H. right. destruct (IsNoMatchOrNotRegistered e); [simplify_eq; right; eauto|].
  destruct (IsNotFound e).
  - destruct (fill (srv_Create w obj) obj) as [[w1 o1] [e1|]] eqn:Hf.
    + apply fill_Create_err in Hf as [-> ->]. right.
      repeat case_match; simplify_eq; eauto.
    + apply fill_Create in Hf as [Hs _]. simplify_eq. left. eauto.
  - right. repeat case_match; simplify_eq; eauto.
Qed.

(** C29: [KubeApply] of an object that is not being deleted creates or replaces it.  An
    object that exists is updated under the resource version that the server has: it is
    stored as given when the server accepts that, else nothing changes, and the result is
    false.  One that is missing is created: the result says whether the server accepted it,
    and then it is stored as given.  Any other error of the read, and a missing CRD, changes
    nothing.  No other object is ever touched. *)
Theorem KubeApply_spec w obj w' obj' b :
  om_DeletionTimestamp (meta obj) = None →
  KubeApply w obj = Ret (w', obj', b) →
  match srv_Get w (ObjectKey obj) with
  | inr x =>
      b = false ∧
      match (srv_Update w (set_meta (set_om_ResourceVersion (om_ResourceVersion (meta x)) (meta obj)) obj)).2 with
      | inr _ => stored w w' obj obj'
      | inl _ => w' = w
      end
  | inl e =>
      if IsNotFound e && negb (IsNoMatchOrNotRegistered e) then
        match (srv_Create w obj).2 with
        | inr _ => b = true ∧ stored w w' obj obj'
        | inl _ => b = false ∧ w' = w
        end
      else b = false ∧ w' = w
  end.
Proof.
  unfold KubeApply. intros Hd.
  destruct (srv_Get w (ObjectKey obj)) as [e|x] eqn:Hg.
  - destruct (IsNoMatchOrNotRegistered e); [rewrite andb_false_r; intros; by simplify_eq|]. rewrite andb_true_r.
    destruct (IsNotFound e); [|repeat case_match; intros; by simplify_eq].
    unfold fill. destruct (srv_Create w obj) as [w1 [e1|o1]] eqn:Hc; cbn [snd].
    + apply Create_err in Hc as ->. repeat case_match; intros; by simplify_eq.
    + intros [= <- <- <-]. split; [done|]. by apply Create_ok in Hc as (_ & ? & ? & _ & ?).
  - set (obj1 := set_meta _ obj).
    assert (Hk : ObjectKey obj1 = ObjectKey obj) by apply ObjectKey_set_rv.
    assert (Hp : payload obj1 = payload obj) by apply payload_set_rv.
    unfold fill. destruct (srv_Update w obj1) as [w1 [e1|o1]] eqn:Hu; cbn [snd].
    + apply Update_err in Hu as ->. destruct (IsNoMatchOrNotRegistered e1); [intros; by simplify_eq|].
      destruct (IsNotFound e1); [|repeat case_match; intros; by simplify_eq].
      destruct (srv_Create w obj1) as [w2 [e2|o2]] eqn:Hc.
      * apply Create_err in Hc as ->. repeat case_match; intros; by simplify_eq.
      * apply Create_ok in Hc as (_ & _ & _ & (e & He) & _). congruence.
    + intros [= <- <- <-]. split; [done|]. apply Update_ok in Hu as (_ & Hpay & Hget & _ & Hoth); [|by unfold obj1; rewrite meta_set_meta].
      unfold stored. rewrite <-Hk, <-Hp. done.
Qed.

(** [KubeUpdate] returns true only when the server holds the object as given, and
    false only when nothing changed. *)
Theorem KubeUpdate_spec w obj w' obj' b :
  om_DeletionTimestamp (meta obj) = None →
  KubeUpdate w obj = Ret (w', obj', b) →
  if b then stored w w' obj obj' else w' = w ∧ obj' = obj.
Proof.
  unfold KubeUpdate. intros Hd.
  destruct (fill (srv_Update w obj) obj) as [[w1 o1] [e|]] eqn:Hf.
  - apply fill_Update_err in Hf as [-> ->]. repeat case_match; intros; simplify_eq; auto.
  - apply fill_Update in Hf; [|done]. intros; by simplify_eq.
Qed.

End KubeSpec.

(** ** Deletion *)

Section KubeDeleteSpec.
Context {W O : Type} {KO : KubeObject O} {AS : ApiServer W O}.

(** The polling loop of [KubeDelete] returns as soon as the server reports the
    object gone: [n] accepted delete requests followed by "not found" need [n+1]
    polls. *)
Inductive deletes_in (tick : W → W) (obj : O) : nat → W → W → Prop :=
  | deletes_gone w m :
      srv_Delete w obj = (w, Some (StatusError ReasonNotFound m)) →
      deletes_in tick obj 0 w w
  | deletes_wait n w w1 w' :
      srv_Delete w obj = (w1, None) →
      deletes_in tick obj n (tick w1) w' →
      deletes_in tick obj (S n) w w'.

Lemma KubeDelete_poll_terminates tick obj n w w' d fuel :
  deletes_in tick obj n w w' → (n < fuel)%nat →
  KubeDelete_poll fuel tick w obj d = Ret (w', Some (d || negb (Nat.eqb n 0))).
Proof.
  intros H. revert d fuel. induction H as [w m Hd|n w w1 w' Hd _ IH];
    intros d [|fuel] Hf; try lia; simpl; rewrite Hd; simpl.
  - by rewrite orb_false_r.
  - rewrite (IH true fuel ltac:(lia)). simpl. by rewrite orb_true_r.
Qed.

(** C30: [KubeDelete] returns true after as many polls as the cluster needs to let the
    object go. *)
Theorem KubeDelete_terminates tick obj n w w' fuel :
  deletes_in tick obj n w w' → (n ≤ fuel)%nat →
  KubeDelete fuel tick w obj = Ret (w', Some true).
Proof.
  intros H Hf. unfold KubeDelete. destruct H as [w m Hd|n w w1 w' Hd H]; rewrite Hd; simpl.
  - done.
  - by rewrite (KubeDelete_poll_terminates _ _ n _ w').
Qed.

(** A conflict on the first request ends both deletions early: [KubeDelete] gives
    up with false, [KubeDeleteNoPolling] panics. *)
Theorem KubeDelete_conflict fuel tick w obj w1 m :
  srv_Delete w obj = (w1, Some (StatusError ReasonConflict m)) →
  KubeDelete fuel tick w obj = Ret (w1, Some false) ∧
  KubeDeleteNoPolling w obj = Panic (Panicked m).
Proof. intros H. unfold KubeDelete, KubeDeleteNoPolling. rewrite H. done. Qed.

End KubeDeleteSpec.

(** ** An in-memory server *)

(** A cluster holding objects of one type: creation needs a free key, an update
    needs the current resource version, deletion is immediate.  It obeys the laws
    and is what the examples run on. *)
Section MemServer.
Context {O : Type} {KO : KubeObject O}.

Definition not_found : api_error := StatusError ReasonNotFound (Lit "not found").

Definition bump (v : Z) (o : O) : O := set_meta (set_om_ResourceVersion v (meta o)) o.

Definition mem_Get (w : gmap ObjectKeyT O) (k : ObjectKeyT) : api_error + O :=
  match w !! k with Some o => inr o | None => inl not_found end.

Definition mem_Create (w : gmap ObjectKeyT O) (o : O) : gmap ObjectKeyT O * (api_error + O) :=
  match w !! ObjectKey o with
  | Some _ => (w, inl (StatusError ReasonAlreadyExists (Lit "already exists")))
  | None => (<[ObjectKey o := bump 1 o]> w, inr (bump 1 o))
  end.

Definition mem_Update (w : gmap ObjectKeyT O) (o : O) : gmap ObjectKeyT O * (api_error + O) :=
  match w !! ObjectKey o with
  | None => (w, inl not_found)
  | Some x =>
      if om_ResourceVersion (meta x) == om_ResourceVersion (meta o) then
        let o' := bump (om_ResourceVersion (meta x) + 1) o in (<[ObjectKey o := o']> w, inr o')
      else (w, inl (StatusError ReasonConflict (Lit "the object has been modified")))
  end.

Definition mem_Delete (w : gmap ObjectKeyT O) (o : O) : gmap ObjectKeyT O * option api_error :=
  match w !! ObjectKey o with
  | Some _ => (delete (ObjectKey o) w, None)
  | None => (w, Some not_found)
  end.

Definition MemServer : ApiServer (gmap ObjectKeyT O) O := {|
  srv_Get := mem_Get;
  srv_Create := mem_Create;
  srv_Update := mem_Update;
  srv_Delete := mem_Delete;
  srv_List w sel := inr (filter (λ o, sel o = true) (snd <$> map_to_list w));
|}.

Lemma ObjectKey_bump v o : ObjectKey (bump v o) = ObjectKey o.
Proof. unfold bump, ObjectKey. by rewrite meta_set_meta. Qed.

Lemma mem_Get_insert_eq w k (o : O) : mem_Get (<[k:=o]> w) k = inr o.
Proof. unfold mem_Get. by rewrite lookup_insert_eq. Qed.

Lemma mem_Get_insert_ne w k k' (o : O) : k ≠ k' → mem_Get (<[k:=o]> w) k' = mem_Get w k'.
Proof. intros. unfold mem_Get. by rewrite lookup_insert_ne. Qed.

Lemma mem_Create_ok w o w' o' :
  mem_Create w o = (w', inr o') → w !! ObjectKey o = None ∧
  o' = bump 1 o ∧ w' = <[ObjectKey o := o']> w.
Proof. unfold mem_Create. case_match; intros; by simplify_eq. Qed.

Lemma mem_Update_ok w o w' o' :
  mem_Update w o = (w', inr o') → ∃ x v, w !! ObjectKey o = Some x ∧
  o' = bump v o ∧ w' = <[ObjectKey o := o']> w.
Proof. unfold mem_Update. repeat case_match; intros; simplify_eq; eauto. Qed.

End MemServer.

(** The in-memory server obeys the laws, the payload being any part of the object
    that does not depend on the resource version. *)
Section MemLaws.
Context {O P : Type} {KO : KubeObject O} (pay : O → P).
Hypothesis pay_rv : ∀ v o, pay (set_meta (set_om_ResourceVersion v (meta o)) o) = pay o.

#[local] Existing Instance MemServer.

Definition MemLaws : ApiLaws (gmap ObjectKeyT O) O P.
Proof.
  refine {| payload := pay; payload_set_rv := pay_rv |}; simpl; unfold srv_Get; simpl.
  - intros w o w' o' H. apply mem_Create_ok in H as (Hn & -> & ->).
    split; [apply ObjectKey_bump|]. split; [apply pay_rv|].
    split; [apply mem_Get_insert_eq|]. split.
    + exists not_found. unfold mem_Get. by rewrite Hn.
    + intros k Hk. by apply mem_Get_insert_ne.
  - unfold mem_Create. intros. case_match; by simplify_eq.
  - intros w o w' o' _ H. apply mem_Update_ok in H as (x & v & Hx & -> & ->).
    split; [apply ObjectKey_bump|]. split; [apply pay_rv|].
    split; [apply mem_Get_insert_eq|]. split.
    + exists x. unfold mem_Get. by rewrite Hx.
    + intros k Hk. by apply mem_Get_insert_ne.
  - unfold mem_Update. intros. repeat case_match; by simplify_eq.
  - unfold mem_Delete. intros. repeat case_match; by simplify_eq.
Defined.

End MemLaws.
