(* ===== verification/Util.v ===== *)
(** * Helpers of [pkg/util/util.go]: errors, metadata, lists, environment variables,
    tolerations, owner references, status conditions, quotas. *)

From S2P Require Import Prelude GoStrings Types Kube.
From Stdlib Require Import Ascii.

(** ** Errors *)

Definition IsValidationError (err : option error) : bool :=
  match err with Some (ValidationError _) => true | _ => false end.

Definition IsPersistentError (err : option error) : bool :=
  match err with Some (PersistentError _ _) => true | _ => false end.

Definition NewPersistentError (reason : string) (message : msg) : error :=
  PersistentError reason message.

(** The loop of [CombineErrors], [combined] being its accumulator. *)
Fixpoint CombineErrors_loop (combined : option error) (errs : list (option error)) : option error :=
  match errs with
  | [] => combined
  | None :: errs => CombineErrors_loop combined errs
  | Some err :: errs =>
      match combined with
      | None => CombineErrors_loop (Some err) errs
      | Some _ =>
          if IsPersistentError (Some err) && negb (IsPersistentError combined)
          then CombineErrors_loop (Some err) errs
          else CombineErrors_loop combined errs
      end
  end.
Definition CombineErrors (errs : list (option error)) : option error :=
  CombineErrors_loop None errs.

(** The reference: the first persistent error, otherwise the first error. *)
Definition first_error (errs : list (option error)) : option error :=
  match filter (λ e, IsPersistentError e = true) errs with
  | e :: _ => e
  | [] => match filter (λ e, e ≠ None) errs with e :: _ => e | [] => None end
  end.

(** ** Slices *)

Fixpoint ContainsAny {T} (arr : list T) (item : T) (eq : T → T → bool) : bool :=
  match arr with
  | [] => false
  | element :: arr => if eq element item then true else ContainsAny arr item eq
  end.

Definition Contains {T} `{EqDecision T} (arr : list T) (item : T) : bool :=
  ContainsAny arr item (λ a b, a == b).

Fixpoint FilterSlice {V} (slice : list V) (f : V → bool) : list V :=
  match slice with
  | [] => []
  | v :: slice => if f v then v :: FilterSlice slice f else FilterSlice slice f
  end.

(** [IsStringArrayUnorderedEqual]: the members of the first array go into a set,
    those of the second are looked up in it. *)
Definition IsStringArrayUnorderedEqual (a b : list string) : bool :=
  if length a != length b then false
  else let existing : gset string := list_to_set a in
       forallb (λ item, bool_decide (item ∈ existing)) b.

(** ** Finalizers *)

(** One round of the loop of [RemoveFinalizer] at index [i]: the array, the number
    of kept elements and whether the finalizer was seen. *)
Definition RemoveFinalizer_step (finalizer : string) (st : list string * nat * bool) (i : nat) :
    list string * nat * bool :=
  let '(arr, n, found) := st in
  match arr !! i with
  | None => st
  | Some f => if f == finalizer then (arr, n, true) else (<[n := f]> arr, S n, found)
  end.

Definition RemoveFinalizer {O} `{MetaObject O} (obj : O) (finalizer : string) : O * bool :=
  let finalizers := om_Finalizers (meta obj) in
  let '(arr, n, found) :=
    foldl (RemoveFinalizer_step finalizer) (finalizers, 0%nat, false) (seq 0 (length finalizers)) in
  (set_meta (set_om_Finalizers (take n arr) (meta obj)) obj, found).

Definition AddFinalizer {O} `{MetaObject O} (obj : O) (finalizer : string) : O * bool :=
  if negb (Contains (om_Finalizers (meta obj)) finalizer) then
    (set_meta (set_om_Finalizers (om_Finalizers (meta obj) ++ [finalizer]) (meta obj)) obj, true)
  else (obj, false).

Definition EnsureCommonMetaFields {O} `{MetaObject O} (object : O) (finalizer : string) : O * bool :=
  let '(object, updated) :=
    match om_Labels (meta object) with
    | None =>
        (set_meta (set_om_Labels (Some {["app" := "noobaa"]}) (meta object)) object, true)
    | Some labels =>
        if map_get (Some labels) "app" != "noobaa" then
          (set_meta (set_om_Labels (Some (<["app" := "noobaa"]> labels)) (meta object)) object, true)
        else (object, false)
    end in
  let '(object, added) := AddFinalizer object finalizer in
  (object, if added then true else updated).

(** ** Annotations *)

Definition GetAnnotationValue (annotations : option (gmap string string)) (name : string) :
    string * bool :=
  match annotations with
  | Some m => match m !! name with Some v => (v, true) | None => (""%string, false) end
  | None => (""%string, false)
  end.

(** [strings.ToLower] on ASCII letters; no other rune lowers to a letter of "true". *)
Definition lower (a : ascii) : ascii :=
  let b := N_of_ascii a in
  if (65 <=? b)%N && (b <=? 90)%N then ascii_of_N (b + 32) else a.
Fixpoint ToLower (s : string) : string :=
  match s with EmptyString => EmptyString | String a s => String (lower a) (ToLower s) end.

Definition IsRemoteObcAnnotation (annotations : option (gmap string string)) : bool :=
  let '(annotationValue, exists_) := GetAnnotationValue annotations "remote-obc-creation" in
  if exists_ then ToLower annotationValue == "true" else false.

(** ** Environment variables of containers *)

(** [corev1.EnvVar]; [ev_From] stands for a [ValueFrom] source. *)
Record EnvVar := mkEnvVar { ev_Name : string; ev_Value : string; ev_From : option string }.

(** [GetEnvVariable] returns a pointer into the slice: the index of the entry. *)
Fixpoint GetEnvVariable (env : list EnvVar) (name : string) : option nat :=
  match env with
  | [] => None
  | e :: env => if ev_Name e == name then Some 0%nat else S <$> GetEnvVariable env name
  end.

Definition set_ev_Value (v : string) (e : EnvVar) : EnvVar := mkEnvVar (ev_Name e) v (ev_From e).

(** [ReflectEnvVariable] with [LookupEnv] the environment of the operator. *)
Definition ReflectEnvVariable (LookupEnv : string → option string) (env : list EnvVar) (name : string) :
    list EnvVar :=
  match LookupEnv name with
  | Some val =>
      match GetEnvVariable env name with
      | Some i => alter (set_ev_Value val) i env
      | None => env ++ [mkEnvVar name val None]
      end
  | None =>
      match GetEnvVariable env name with
      | Some i => take i env ++ drop (S i) env
      | None => env
      end
  end.

(** [MergeVolumeList], [MergeVolumeMountList] and [MergeEnvArrays] are one loop over
    items with a name: the names of the first array go into a set, items of the
    second whose name is not in it are appended. *)
Definition MergeByName {A} (name : A → string) (existing template : list A) : list A :=
  let existingElements : gset string := list_to_set (name <$> existing) in
  foldl (λ acc item, if bool_decide (name item ∈ existingElements) then acc else acc ++ [item])
    existing template.

(** [corev1.Volume] and [corev1.VolumeMount], with the fields the operator reads. *)
Record Volume := mkVolume {
  vol_Name : string;
  vol_SecretName : option string;
  vol_ClaimName : option string;
}.
Record VolumeMount := mkVolumeMount { vm_Name : string; vm_MountPath : string }.

Definition MergeVolumeList : list Volume → list Volume → list Volume := MergeByName vol_Name.
Definition MergeVolumeMountList : list VolumeMount → list VolumeMount → list VolumeMount :=
  MergeByName vm_Name.
Definition MergeEnvArrays : list EnvVar → list EnvVar → list EnvVar := MergeByName ev_Name.

(** ** Tolerations *)

Definition TaintEffectNoExecute : string := "NoExecute".

(** [ss == t] compares the [*int64] fields as pointers; [samePtr] says whether the
    two arguments share theirs. *)
Definition IsTolerationSuperset (samePtr : bool) (ss t : Toleration) : bool :=
  let eq := (ss == t) && (samePtr || (tol_TolerationSeconds ss == None)) in
  if eq then true
  else if (tol_Key t != tol_Key ss) &&
          ((tol_Key ss != "") || (tol_Operator ss != TolerationOpExists)) then false
  else if (tol_Effect t != tol_Effect ss) && (tol_Effect ss != "") then false
  else if (tol_Effect ss == TaintEffectNoExecute) &&
          match tol_TolerationSeconds ss with
          | None => false
          | Some s => match tol_TolerationSeconds t with
                      | None => true
                      | Some s' => (s <? s')%Z
                      end
          end then false
  else match tol_Operator ss with
       | TolerationOpEqual | TolerationOpNone =>
           ((tol_Operator t == TolerationOpEqual) || (tol_Operator t == TolerationOpNone))
           && (tol_Value t == tol_Value ss)
       | TolerationOpExists => true
       | TolerationOpOther _ => false
       end.

(** What Kubernetes documents a toleration to do. *)
Record Taint := mkTaint { taint_Key : string; taint_Value : string; taint_Effect : string }.

Definition tolerates (t : Toleration) (x : Taint) : Prop :=
  (tol_Effect t = "" ∨ tol_Effect t = taint_Effect x) ∧
  (tol_Key t = "" ∨ tol_Key t = taint_Key x) ∧
  match tol_Operator t with
  | TolerationOpEqual | TolerationOpNone => tol_Value t = taint_Value x
  | TolerationOpExists => True
  | TolerationOpOther _ => False
  end.

(** ** Owner references *)

(** [schema.ParseGroupVersion] is code of another repository: [groupOf] gives the
    group of an API version, or nothing on a parse error. *)
Section Owners.
Context (groupOf : string → option string).

Definition referSameObject (a b : OwnerReference) : bool :=
  match groupOf (or_APIVersion a) with
  | None => false
  | Some aG =>
      match groupOf (or_APIVersion b) with
      | None => false
      | Some bG => (aG == bG) && (or_Kind a == or_Kind b) && (or_Name a == or_Name b)
      end
  end.

Fixpoint indexOwnerRef (refs : list OwnerReference) (ref : OwnerReference) : option nat :=
  match refs with
  | [] => None
  | r :: refs => if referSameObject r ref then Some 0%nat else S <$> indexOwnerRef refs ref
  end.

Definition validateOwner (owner object : ObjectMeta) : option error :=
  if om_Namespace owner != "" then
    if om_Namespace object == "" then
      Some (Errorf (Sprintf "cluster-scoped resource must not have a namespace-scoped owner, owner's namespace %s"
                      [AStr (om_Namespace owner)]))
    else if om_Namespace owner != om_Namespace object then
      Some (Errorf (Sprintf "cross-namespace owner references are disallowed, owner's namespace %s, object's namespace %s"
                      [AStr (om_Namespace owner); AStr (om_Namespace object)]))
    else None
  else None.

Inductive own_result := Owned (refs : list OwnerReference) | AlreadyOwned | OwnErr (e : error).

(** [SetOwnerReference] for an owner of the given API version and kind. *)
Definition SetOwnerReference (apiVersion kind : string) (owner dependent : ObjectMeta) : own_result :=
  match validateOwner owner dependent with
  | Some err => OwnErr err
  | None =>
      let ref := mkOwnerReference apiVersion kind (om_Name owner) (om_UID owner) None (Some true) in
      match indexOwnerRef (om_OwnerReferences dependent) ref with
      | None => Owned (om_OwnerReferences dependent ++ [ref])
      | Some _ => AlreadyOwned
      end
  end.

Fixpoint IsOwnedByNoobaa (refs : list OwnerReference) : bool :=
  match refs with
  | [] => false
  | r :: refs => if Contains_str (or_APIVersion r) "noobaa" then true else IsOwnedByNoobaa refs
  end.

End Owners.

(** ** Secrets *)

Definition secretDataString (secret : option Secret) (key : string) : string :=
  match secret with
  | None => ""
  | Some s =>
      if map_get (sec_StringData s) key != "" then map_get (sec_StringData s) key
      else match sec_Data s ≫= lookup key with Some v => v | None => "" end
  end.

Definition alternativeNames (key : string) : list string :=
  if key == "AWS_ACCESS_KEY_ID" then ["aws_access_key_id"; "AccessKey"]
  else if key == "AWS_SECRET_ACCESS_KEY" then ["aws_secret_access_key"; "SecretKey"]
  else [].

Definition MapAlternateKeysValue (stringData : option (gmap string string)) (key : string) : string :=
  if map_get stringData key == "" then
    match filter (λ altKey, map_get stringData altKey ≠ "") (alternativeNames key) with
    | altKey :: _ => map_get stringData altKey
    | [] => map_get stringData key
    end
  else map_get stringData key.

(** ** Status conditions *)

(** [conditionsv1.SetStatusCondition] of openshift/custom-resource-status. *)
Class ConditionApi : Type :=
  SetStatusCondition : list Condition → Condition → list Condition.

(** The first condition of a type, as the library and the readers find it. *)
Fixpoint find_condition (l : list Condition) (t : ConditionType) : option Condition :=
  match l with
  | [] => None
  | c :: l => if c_Type c == t then Some c else find_condition l t
  end.

(** Documented: the condition of the given type is set, the others stay. *)
Class ConditionLaws (CA : ConditionApi) : Prop := {
  find_set_eq l c : ∃ c', find_condition (SetStatusCondition l c) (c_Type c) = Some c' ∧
    c_Status c' = c_Status c ∧ c_Reason c' = c_Reason c ∧ c_Message c' = c_Message c;
  find_set_ne l c t : t ≠ c_Type c →
    find_condition (SetStatusCondition l c) t = find_condition l t;
}.

Section Conditions.
Context {CA : ConditionApi}.

Definition SetFour (sA sP sD sU : ConditionStatus) (now : Z) (conds : list Condition)
    (reason message : msg) : list Condition :=
  let conds := SetStatusCondition conds (mkCondition ConditionAvailable sA reason message now) in
  let conds := SetStatusCondition conds (mkCondition ConditionProgressing sP reason message now) in
  let conds := SetStatusCondition conds (mkCondition ConditionDegraded sD reason message now) in
  SetStatusCondition conds (mkCondition ConditionUpgradeable sU reason message now).

Definition SetAvailableCondition : Z → list Condition → msg → msg → list Condition :=
  SetFour ConditionTrue ConditionFalse ConditionFalse ConditionTrue.

Definition SetProgressingCondition : Z → list Condition → msg → msg → list Condition :=
  SetFour ConditionFalse ConditionTrue ConditionFalse ConditionFalse.

Definition SetErrorCondition : Z → list Condition → msg → msg → list Condition :=
  SetFour ConditionUnknown ConditionFalse ConditionTrue ConditionUnknown.

End Conditions.

(** ** Quotas *)

Definition gigabyte : Z := 1024 * 1024 * 1024.
Definition petabyte : Z := gigabyte * 1024 * 1024.
Definition obcMaxSizeUpperLimit : Z := petabyte * 1023.

Definition num_error_msg (e : num_error) : msg :=
  match e with ErrSyntax => Lit "invalid syntax" | ErrRange => Lit "value out of range" end.

Definition ValidateQuotaConfig_util {QA : QuantityApi} (name maxSize maxObjects : string) : verdict :=
  check! (if maxObjects != "" then
            match ParseInt maxObjects 32 with
            | inl err =>
                fail (ValidationError (Sprintf "ob %q validation error: failed to parse maxObjects %v, %v"
                        [AStr name; AStr maxObjects; AMsg (num_error_msg err)]))
            | inr obcMaxObjectsInt =>
                reject! (obcMaxObjectsInt <? 0)%Z with
                  ValidationError (Sprintf "ob %q validation error: invalid maxObjects value. O or any positive number "
                        [AStr name]) ;;
                ok
            end
          else ok) ;;
  if maxSize != "" then
    match ParseQuantity maxSize with
    | inl err => fail (Errorf err)
    | inr quantity =>
        let obcMaxSizeValue := Quantity_Value quantity in
        reject! negb (obcMaxSizeValue =? 0)%Z &&
                ((obcMaxSizeValue <? gigabyte)%Z || (obcMaxSizeUpperLimit <? obcMaxSizeValue)%Z) with
          ValidationError (Sprintf "ob %q validation error: invalid obcMaxSizeValue value: min 1Gi, max 1023Pi, 0 to remove quota"
                [AStr name]) ;;
        ok
    end
  else ok.

(** ** Theorems: errors *)

Lemma CombineErrors_loop_Some e errs :
  CombineErrors_loop (Some e) errs =
  if IsPersistentError (Some e) then Some e
  else match filter (λ e, IsPersistentError e = true) errs with x :: _ => x | [] => Some e end.
Proof.
  revert e. induction errs as [|[err|] errs IH]; intros e.
  - simpl. by destruct e.
  - rewrite filter_cons.
    destruct e, err; simpl; rewrite ?IH; simpl; repeat case_decide; done.
  - simpl. rewrite IH, filter_cons. simpl. by repeat case_decide.
Qed.

(** Combining errors reports the first persistent error, or the first error when
    none is persistent. *)
Theorem CombineErrors_first errs : CombineErrors errs = first_error errs.
Proof.
  unfold CombineErrors, first_error. induction errs as [|[err|] errs IH]; [done| |].
  - change (CombineErrors_loop None (Some err :: errs)) with (CombineErrors_loop (Some err) errs).
    rewrite CombineErrors_loop_Some, !filter_cons.
    destruct err; simpl; repeat case_decide; done.
  - change (CombineErrors_loop None (None :: errs)) with (CombineErrors_loop None errs).
    rewrite IH, !filter_cons. simpl. by repeat case_decide.
Qed.

(** ** Theorems: slices *)

Lemma ContainsAny_spec {T} (arr : list T) item eq :
  ContainsAny arr item eq = true ↔ ∃ x, x ∈ arr ∧ eq x item = true.
Proof.
  induction arr as [|y arr IH]; simpl.
  - split; [done|]. intros (x & Hx & _). by apply not_elem_of_nil in Hx.
  - destruct (eq y item) eqn:E.
    + split; [|done]. intros _. exists y. split; [by left|done].
    + rewrite IH. split; intros (x & Hx & He).
      * exists x. split; [by right|done].
      * apply elem_of_cons in Hx as [->|Hx]; [congruence|eauto].
Qed.

Lemma Contains_spec {T} `{EqDecision T} (arr : list T) item :
  Contains arr item = true ↔ item ∈ arr.
Proof.
  unfold Contains. rewrite ContainsAny_spec. split.
  - intros (x & Hx & He). apply bool_decide_eq_true in He. by subst.
  - intros H. exists item. by rewrite bool_decide_eq_true.
Qed.

Lemma Contains_false {T} `{EqDecision T} (arr : list T) item :
  Contains arr item = false ↔ item ∉ arr.
Proof. rewrite <-Contains_spec. by destruct (Contains arr item). Qed.

Lemma FilterSlice_filter {V} (l : list V) f : FilterSlice l f = filter (λ v, f v = true) l.
Proof.
  induction l as [|v l IH]; simpl; [done|]. rewrite filter_cons, <-IH.
  destruct (f v); by case_decide.
Qed.

(** [IsStringArrayUnorderedEqual] accepts exactly the arrays of the same length
    whose second is included in the first. *)
Lemma IsStringArrayUnorderedEqual_incl a b :
  IsStringArrayUnorderedEqual a b = true ↔ length a = length b ∧ b ⊆ a.
Proof.
  unfold IsStringArrayUnorderedEqual. case_bool_decide as Hl; simpl; [|naive_solver].
  rewrite forallb_forall. split.
  - intros H. split; [done|]. intros x Hx%list_elem_of_In%H.
    apply bool_decide_eq_true in Hx. by apply elem_of_list_to_set in Hx.
  - intros [_ H] x Hx. apply bool_decide_eq_true, elem_of_list_to_set, H.
    by apply list_elem_of_In.
Qed.

(** ** Theorems: finalizers *)

(** The loop invariant of the in-place filter of [RemoveFinalizer]. *)
Lemma RemoveFinalizer_loop fin (fs : list string) i :
  (i ≤ length fs)%nat →
  let '(arr, n, found) := foldl (RemoveFinalizer_step fin) (fs, 0%nat, false) (seq 0 i) in
  (n ≤ i)%nat ∧ length arr = length fs ∧ drop i arr = drop i fs ∧
  take n arr = filter (λ f, f ≠ fin) (take i fs) ∧
  (found = true ↔ fin ∈ take i fs).
Proof.
  induction i as [|i IH]; intros Hi.
  { simpl. split_and!; try done. split; [done|]. by intros ?%not_elem_of_nil. }
  rewrite seq_S, foldl_app. simpl.
  destruct (foldl _ _ (seq 0 i)) as [[arr n] found] eqn:E.
  destruct IH as (Hn & Hlen & Hdrop & Htake & Hfound); [lia|].
  destruct (lookup_lt_is_Some_2 fs i) as [f Hf]; [lia|].
  assert (Ha : arr !! i = Some f).
  { rewrite <-(Nat.add_0_r i), <-lookup_drop, Hdrop, lookup_drop. by rewrite Nat.add_0_r. }
  assert (Hd : drop (S i) arr = drop (S i) fs).
  { change (S i) with (1 + i)%nat. by rewrite Nat.add_comm, <-!drop_drop, Hdrop. }
  unfold RemoveFinalizer_step. rewrite Ha.
  rewrite (take_S_r fs i f) by done. rewrite filter_app.
  case_bool_decide as Hfin; subst.
  - rewrite filter_cons_False by auto. rewrite filter_nil, app_nil_r.
    split_and!; try done; [lia|]. split; [|done]. intros _. set_solver.
  - rewrite filter_cons_True, filter_nil by done.
    split_and!; try lia.
    + by rewrite length_insert.
    + by rewrite drop_insert_lt by lia.
    + rewrite (take_S_r _ n f), take_insert_ge by (try apply list_lookup_insert_eq; lia).
      by rewrite Htake.
    + rewrite Hfound. set_solver.
Qed.

Lemma RemoveFinalizer_eq {O} `{MetaObject O} (obj : O) fin :
  om_Finalizers (meta (fst (RemoveFinalizer obj fin))) =
    filter (λ f, f ≠ fin) (om_Finalizers (meta obj)) ∧
  (snd (RemoveFinalizer obj fin) = true ↔ fin ∈ om_Finalizers (meta obj)).
Proof.
  unfold RemoveFinalizer. set (fs := om_Finalizers (meta obj)).
  pose proof (RemoveFinalizer_loop fin fs (length fs) (le_n _)) as Hl.
  destruct (foldl _ _ _) as [[arr n] found]. simpl.
  destruct Hl as (_ & _ & _ & Ht & Hf). rewrite meta_set_meta. simpl.
  rewrite firstn_all in *. auto.
Qed.

Lemma AddFinalizer_elem {O} `{MetaObject O} (obj : O) fin :
  fin ∈ om_Finalizers (meta (fst (AddFinalizer obj fin))).
Proof.
  unfold AddFinalizer. destruct (Contains _ fin) eqn:E; simpl.
  - by apply Contains_spec in E.
  - rewrite meta_set_meta. simpl. set_solver.
Qed.

(** Adding a finalizer and removing it again restores the list of finalizers. *)
Theorem AddFinalizer_RemoveFinalizer {O} `{MetaObject O} (obj : O) fin :
  fin ∉ om_Finalizers (meta obj) →
  om_Finalizers (meta (fst (RemoveFinalizer (fst (AddFinalizer obj fin)) fin))) =
  om_Finalizers (meta obj).
Proof.
  intros Hn. destruct (RemoveFinalizer_eq (fst (AddFinalizer obj fin)) fin) as [-> _].
  unfold AddFinalizer. apply Contains_false in Hn as Hc. rewrite Hc. simpl.
  rewrite meta_set_meta. simpl. rewrite filter_app, filter_cons_False by auto.
  rewrite filter_nil, app_nil_r. apply filter_all. by intros f Hf ->.
Qed.

Lemma EnsureCommonMetaFields_post {O} `{MetaObject O} (obj : O) fin :
  let obj' := fst (EnsureCommonMetaFields obj fin) in
  map_get (om_Labels (meta obj')) "app" = "noobaa" ∧ fin ∈ om_Finalizers (meta obj').
Proof.
  unfold EnsureCommonMetaFields. destruct (om_Labels (meta obj)) as [l|] eqn:El.
  - case_bool_decide as Hl; simpl.
    + destruct (AddFinalizer obj fin) as [o a] eqn:Ea. simpl.
      pose proof (AddFinalizer_elem obj fin) as Hf. rewrite Ea in Hf. split; [|done].
      unfold AddFinalizer in Ea. case_match; simplify_eq; rewrite ?meta_set_meta; simpl;
        by rewrite El.
    + set (o1 := set_meta _ obj). destruct (AddFinalizer o1 fin) as [o a] eqn:Ea. simpl.
      pose proof (AddFinalizer_elem o1 fin) as Hf. rewrite Ea in Hf. split; [|done].
      unfold AddFinalizer in Ea. subst o1.
      case_match; simplify_eq; rewrite ?meta_set_meta; simpl; rewrite ?meta_set_meta;
        unfold map_get; simpl; by rewrite lookup_insert_eq.
  - set (o1 := set_meta _ obj). destruct (AddFinalizer o1 fin) as [o a] eqn:Ea. simpl.
    pose proof (AddFinalizer_elem o1 fin) as Hf. rewrite Ea in Hf. split; [|done].
    unfold AddFinalizer in Ea. subst o1.
    case_match; simplify_eq; rewrite ?meta_set_meta; simpl; rewrite ?meta_set_meta;
      unfold map_get; simpl; by rewrite lookup_singleton_eq.
Qed.

(** An object with the label and the finalizer is left alone. *)
Lemma EnsureCommonMetaFields_keep {O} `{MetaObject O} (obj : O) fin :
  map_get (om_Labels (meta obj)) "app" = "noobaa" →
  fin ∈ om_Finalizers (meta obj) →
  EnsureCommonMetaFields obj fin = (obj, false).
Proof.
  intros Hl Hf. unfold EnsureCommonMetaFields.
  destruct (om_Labels (meta obj)) as [l|]; [|by unfold map_get in Hl].
  rewrite bool_decide_eq_true_2 by done. simpl.
  unfold AddFinalizer. apply Contains_spec in Hf. by rewrite Hf.
Qed.

(** After [EnsureCommonMetaFields] an object has the operator's label and finalizer,
    and a second call finds nothing to change, so that a reconcile does not update the
    object again. *)
Theorem EnsureCommonMetaFields_stable {O} `{MetaObject O} (obj : O) fin :
  let obj' := fst (EnsureCommonMetaFields obj fin) in
  map_get (om_Labels (meta obj')) "app" = "noobaa" ∧ fin ∈ om_Finalizers (meta obj') ∧
  EnsureCommonMetaFields obj' fin = (obj', false).
Proof.
  destruct (EnsureCommonMetaFields_post obj fin) as [Hl Hf].
  split; [done|]. split; [done|]. by apply EnsureCommonMetaFields_keep.
Qed.

(** ** Theorems: merging *)

Lemma foldl_append_filter {A} (P : A → bool) (acc l : list A) :
  foldl (λ acc x, if P x then acc else acc ++ [x]) acc l =
  acc ++ filter (λ x, P x = false) l.
Proof.
  revert acc. induction l as [|x l IH]; intros acc; simpl; [by rewrite app_nil_r|].
  rewrite filter_cons. destruct (P x); rewrite IH; case_decide; try done.
  by rewrite <-app_assoc.
Qed.

Lemma MergeByName_filter {A} (name : A → string) (existing template : list A) :
  MergeByName name existing template =
  existing ++ filter (λ x, name x ∉ name <$> existing) template.
Proof.
  unfold MergeByName.
  rewrite (foldl_append_filter
    (λ x, bool_decide (name x ∈ (list_to_set (name <$> existing) : gset string)))).
  f_equal. apply list_filter_iff. intros x.
  by rewrite bool_decide_eq_false, elem_of_list_to_set.
Qed.

Lemma MergeByName_idemp {A} (name : A → string) (existing template : list A) :
  MergeByName name (MergeByName name existing template) template =
  MergeByName name existing template.
Proof.
  rewrite MergeByName_filter at 1. rewrite MergeByName_filter.
  set (l := existing ++ _). rewrite <-(app_nil_r l) at 2. f_equal.
  apply filter_none. intros x Hx Hn. apply Hn. subst l.
  rewrite fmap_app. apply elem_of_app.
  destruct (decide (name x ∈ name <$> existing)); [by left|right].
  apply list_elem_of_fmap. exists x. split; [done|].
  by apply list_elem_of_filter.
Qed.

(** ** Theorems: environment variables *)

Lemma GetEnvVariable_Some env name i :
  GetEnvVariable env name = Some i →
  ∃ e, env !! i = Some e ∧ ev_Name e = name ∧
  ∀ j e', (j < i)%nat → env !! j = Some e' → ev_Name e' ≠ name.
Proof.
  revert i. induction env as [|e env IH]; intros i; simpl; [done|].
  case_bool_decide as He.
  - intros [= <-]. exists e. split_and!; try done. lia.
  - destruct (GetEnvVariable env name) as [j|]; simpl; [|done]. intros [= <-].
    destruct (IH j eq_refl) as (e' & ? & ? & Hlt). exists e'. split_and!; try done.
    intros [|k] e'' Hk Hl; simplify_eq/=; [done|]. eapply Hlt; [|done]. lia.
Qed.

Lemma GetEnvVariable_None env name :
  GetEnvVariable env name = None ↔ name ∉ ev_Name <$> env.
Proof.
  induction env as [|e env IH]; simpl; [by split; [intros _ ?%not_elem_of_nil|]|].
  rewrite not_elem_of_cons. case_bool_decide as He.
  - split; [done|]. intros [? _]. congruence.
  - rewrite <-IH. destruct (GetEnvVariable env name); simpl; naive_solver.
Qed.

(** The entries of the other variables, in their order. *)
Definition others (name : string) (env : list EnvVar) : list EnvVar :=
  filter (λ e, ev_Name e ≠ name) env.

Lemma others_alter name env i v :
  (∀ e, env !! i = Some e → ev_Name e = name) →
  others name (alter (set_ev_Value v) i env) = others name env.
Proof.
  unfold others. revert i. induction env as [|e env IH]; intros i Hi; [done|].
  destruct i as [|i]; simpl.
  - rewrite !filter_cons_False; [done|..]; simpl; specialize (Hi e eq_refl); naive_solver.
  - change (alter (set_ev_Value v) (S i) (e :: env)) with (e :: alter (set_ev_Value v) i env).
    rewrite !filter_cons. case_decide; [f_equal|]; by apply IH.
Qed.

Lemma others_remove name env i :
  (∀ e, env !! i = Some e → ev_Name e = name) →
  others name (take i env ++ drop (S i) env) = others name env.
Proof.
  unfold others. revert i. induction env as [|e env IH]; intros i Hi; [by destruct i|].
  destruct i as [|i].
  - simpl. rewrite drop_0. rewrite (filter_cons_False _ e); [done|].
    specialize (Hi e eq_refl). naive_solver.
  - rewrite firstn_cons, skipn_cons, <-app_comm_cons, !filter_cons.
    case_decide; [f_equal|]; by apply IH.
Qed.

(** ** Theorems: tolerations *)

(** A toleration that counts as a superset of another one tolerates every taint
    the other one does. *)
Theorem IsTolerationSuperset_tolerates samePtr ss t x :
  IsTolerationSuperset samePtr ss t = true → tolerates t x → tolerates ss x.
Proof.
  unfold IsTolerationSuperset, tolerates.
  destruct ss as [k1 o1 v1 e1 s1], t as [k2 o2 v2 e2 s2], x as [kx vx ex]; simpl.
  intros H (He & Hk & Ho). revert H.
  case_bool_decide as Heq; [by simplify_eq|]. simpl.
  repeat (case_bool_decide; simplify_eq/=; try done);
    repeat (case_match; simplify_eq/=; try done);
    intros; repeat case_bool_decide; naive_solver.
Qed.

Lemma IsTolerationSuperset_seconds samePtr ss t s :
  IsTolerationSuperset samePtr ss t = true →
  tol_Effect ss = TaintEffectNoExecute → tol_TolerationSeconds ss = Some s →
  ∃ s', tol_TolerationSeconds t = Some s' ∧ (s' ≤ s)%Z.
Proof.
  unfold IsTolerationSuperset. intros H He Hs. rewrite He, Hs in H.
  rewrite (bool_decide_eq_true_2 (TaintEffectNoExecute = TaintEffectNoExecute)) in H by done.
  destruct (bool_decide (ss = t)) eqn:Eq.
  - apply bool_decide_eq_true in Eq as <-. exists s. split; [done|lia].
  - simpl in H. repeat (case_match; simplify_eq/=; try done).
    all: match goal with H : (_ <? _)%Z = false |- _ => apply Z.ltb_ge in H; eauto end.
Qed.

(** ** Theorems: conditions *)

Section ConditionSpec.
Context {CA : ConditionApi} {CL : ConditionLaws CA}.

Lemma SetFour_find sA sP sD sU now conds reason message t s :
  (t, s) ∈ [(ConditionAvailable, sA); (ConditionProgressing, sP);
            (ConditionDegraded, sD); (ConditionUpgradeable, sU)] →
  ∃ c, find_condition (SetFour sA sP sD sU now conds reason message) t = Some c ∧
       c_Status c = s ∧ c_Reason c = reason ∧ c_Message c = message.
Proof.
  intros H. unfold SetFour.
  repeat (apply elem_of_cons in H as [[= -> ->]|H]); [..|by apply not_elem_of_nil in H].
  all: repeat first
    [ rewrite find_set_ne by done
    | match goal with |- context [SetStatusCondition ?l (mkCondition ?t ?s ?r ?m ?n)] =>
        exact (find_set_eq l (mkCondition t s r m n)) end ].
Qed.

Lemma SetFour_other sA sP sD sU now conds reason message t :
  t ≠ ConditionAvailable → t ≠ ConditionProgressing →
  t ≠ ConditionDegraded → t ≠ ConditionUpgradeable →
  find_condition (SetFour sA sP sD sU now conds reason message) t = find_condition conds t.
Proof. intros. unfold SetFour. by rewrite !find_set_ne. Qed.

End ConditionSpec.

(** A concrete [SetStatusCondition]: replace the first condition of the type or
    append it. *)
Fixpoint ListSetCondition (l : list Condition) (c : Condition) : list Condition :=
  match l with
  | [] => [c]
  | x :: l => if c_Type x == c_Type c then c :: l else x :: ListSetCondition l c
  end.
Definition ListConditions : ConditionApi := ListSetCondition.

Lemma ListConditions_laws : ConditionLaws ListConditions.
Proof.
  split; unfold SetStatusCondition, ListConditions.
  - intros l c. exists c. split; [|done]. induction l as [|x l IH]; simpl.
    + by rewrite bool_decide_eq_true_2.
    + case_bool_decide as Hx; simpl; [by rewrite bool_decide_eq_true_2|].
      by rewrite bool_decide_eq_false_2.
  - intros l c t Ht. induction l as [|x l IH]; simpl.
    + by rewrite bool_decide_eq_false_2.
    + case_bool_decide as Hx; simpl.
      * rewrite !bool_decide_eq_false_2; [done|congruence|done].
      * by rewrite IH.
Qed.

(** ** Theorems: quotas *)

Section QuotaSpec.
Context {QA : QuantityApi}.

(** The quota texts that are accepted. *)
Definition quota_valid (maxSize maxObjects : string) : Prop :=
  (maxObjects ≠ "" → ∃ n, ParseInt maxObjects 32 = inr n ∧ (0 ≤ n)%Z) ∧
  (maxSize ≠ "" → ∃ q, ParseQuantity maxSize = inr q ∧
     (Quantity_Value q = 0 ∨ gigabyte ≤ Quantity_Value q ≤ obcMaxSizeUpperLimit)%Z).

Lemma ValidateQuotaConfig_util_ok name maxSize maxObjects :
  ValidateQuotaConfig_util name maxSize maxObjects = ok ↔ quota_valid maxSize maxObjects.
Proof.
  unfold ValidateQuotaConfig_util, quota_valid. rewrite check_ok. f_equiv.
  - case_bool_decide as He; simpl; [by split|].
    destruct (ParseInt maxObjects 32) as [e|n].
    + split; [done|]. intros H. destruct (H He) as (n & ? & _). congruence.
    + rewrite guard_ok, Z.ltb_ge. split; [intros [? _] _; eauto|].
      intros H. destruct (H He) as (n' & [= <-] & ?). auto.
  - case_bool_decide as He; simpl; [by split|].
    destruct (ParseQuantity maxSize) as [e|q].
    + split; [done|]. intros H. destruct (H He) as (n & ? & _). congruence.
    + rewrite guard_ok. split.
      * intros [Hb _] _. exists q. split; [done|]. lia.
      * intros H. destruct (H He) as (q' & [= <-] & ?). split; [lia|done].
Qed.

Lemma ValidateQuotaConfig_util_returns name maxSize maxObjects :
  returns (ValidateQuotaConfig_util name maxSize maxObjects).
Proof.
  unfold ValidateQuotaConfig_util. apply returns_check; [|intros _];
    repeat case_match; eauto using returns_guard with go.
Qed.

End QuotaSpec.
