(* ===== verification/StoreAccess.v ===== *)
(** * Reading and writing stores by their type: [pkg/util/util.go].

    Every function switches on [Spec.Type] and reads the sub-spec of that type;
    a missing sub-spec is a nil pointer and the access panics. *)

From S2P Require Import Prelude GoStrings Types Kube Util.
From Stdlib Require Import Ascii.

(** ** [url.URL{Scheme, Host}.String()] *)

(** [net/url] leaves these bytes alone in a host and escapes the others. *)
Definition hostByte (a : ascii) : bool :=
  let b := byte a in
  in_range 97 122 b || in_range 65 90 b || in_range 48 57 b
  || Contains_str "-_.~!$&'()*+,;=:[]<>" (String a "") || (b =? 34)%Z.

Definition upperhex (n : N) : ascii :=
  ascii_of_N (if (n <? 10)%N then 48 + n else 55 + n).

Fixpoint escapeHost (s : string) : string :=
  match s with
  | EmptyString => EmptyString
  | String a s =>
      if hostByte a then String a (escapeHost s)
      else let b := N_of_ascii a in
           String "%" (String (upperhex (b / 16)) (String (upperhex (b mod 16)) (escapeHost s)))
  end.

Definition URL_String (scheme host : string) : string := scheme +:+ "://" +:+ escapeHost host.

(** The endpoint of an AWS store. *)
Definition awsEndpoint (s : AWSS3Spec) : string :=
  let scheme := if aws_SSLDisabled s then "http"%string else "https"%string in
  let host := if aws_Region s != "" then "s3." +:+ aws_Region s +:+ ".amazonaws.com"
              else "s3.amazonaws.com"%string in
  URL_String scheme host.

(** ** Short-lived credentials *)

Section BackingStores.
Context {QA : QuantityApi}.

Definition IsAWSSTSClusterBS (bs : BackingStore QA) : outcome bool :=
  if bss_Type (bs_Spec bs) == StoreTypeAWSS3 then
    a ← deref (bss_AWSS3 (bs_Spec bs)); Ret (bool_decide (is_Some (aws_AWSSTSRoleARN a)))
  else Ret false.

Definition IsAzureSTSClusterBS (bs : BackingStore QA) : bool :=
  if bss_Type (bs_Spec bs) == StoreTypeAzureBlob then
    match bss_AzureBlob (bs_Spec bs) with
    | Some a => bool_decide (is_Some (azb_ClientId a))
    | None => false
    end
  else false.

(** ** Backing stores by type *)

Definition GetEndpointByBackingStoreType (bs : BackingStore QA) : outcome (string * option error) :=
  let spec := bs_Spec bs in
  match bss_Type spec with
  | StoreTypeAWSS3 => a ← deref (bss_AWSS3 spec); Ret (awsEndpoint a, None)
  | StoreTypeS3Compatible => a ← deref (bss_S3Compatible spec); Ret (s3c_Endpoint a, None)
  | StoreTypeIBMCos => a ← deref (bss_IBMCos spec); Ret (ibm_Endpoint a, None)
  | StoreTypeAzureBlob => Ret ("https://blob.core.windows.net"%string, None)
  | StoreTypeGoogleCloudStorage => Ret ("https://www.googleapis.com"%string, None)
  | StoreTypePVPool =>
      Ret (""%string, Some (Errorf (Sprintf "%q type does not have endpoint parameter %q"
                   [AStr (StoreType_string (bss_Type spec)); AStr (om_Name (bs_meta bs))])))
  | StoreTypeOther _ =>
      Ret (""%string, Some (Errorf (Sprintf "failed to get endpoint url from backingstore %q"
                   [AStr (om_Name (bs_meta bs))])))
  end.

(** The result is a fresh [SecretReference], [nil] on an error. *)
Definition GetBackingStoreSecretByType (bs : BackingStore QA) :
    outcome (error + SecretReference) :=
  let spec := bs_Spec bs in
  match bss_Type spec with
  | StoreTypeAWSS3 => a ← deref (bss_AWSS3 spec); Ret (inr (aws_Secret a))
  | StoreTypeS3Compatible => a ← deref (bss_S3Compatible spec); Ret (inr (s3c_Secret a))
  | StoreTypeIBMCos => a ← deref (bss_IBMCos spec); Ret (inr (ibm_Secret a))
  | StoreTypeAzureBlob => a ← deref (bss_AzureBlob spec); Ret (inr (azb_Secret a))
  | StoreTypeGoogleCloudStorage => a ← deref (bss_GoogleCloudStorage spec); Ret (inr (gcs_Secret a))
  | StoreTypePVPool => a ← deref (bss_PVPool spec); Ret (inr (pvp_Secret a))
  | StoreTypeOther _ =>
      Ret (inl (Errorf (Sprintf "failed to get secret reference from backingstore %q"
                   [AStr (om_Name (bs_meta bs))])))
  end.

Definition GetBackingStoreSecret (bs : BackingStore QA) : outcome (error + SecretReference) :=
  r ← GetBackingStoreSecretByType bs;
  Ret match r with
      | inl err => inl err
      | inr ref => inr (if sr_Namespace ref == ""
                        then mkSecretReference (sr_Name ref) (om_Namespace (bs_meta bs)) else ref)
      end.

Definition with_spec (spec : BackingStoreSpec QA) (bs : BackingStore QA) : BackingStore QA :=
  mkBackingStore _ (bs_meta bs) spec (bs_Status bs).

Definition SetBackingStoreSecretRef (bs : BackingStore QA) (ref : SecretReference) :
    outcome (BackingStore QA * option error) :=
  let 'mkBackingStoreSpec _ t aws s3c ibm azb gcs pvp := bs_Spec bs in
  match t with
  | StoreTypeAWSS3 =>
      a ← deref aws;
      let a := mkAWSS3Spec (aws_TargetBucket a) ref (aws_Region a) (aws_SSLDisabled a) (aws_AWSSTSRoleARN a) in
      Ret (with_spec (mkBackingStoreSpec _ t (Some a) s3c ibm azb gcs pvp) bs, None)
  | StoreTypeS3Compatible =>
      a ← deref s3c;
      let a := mkS3CompatibleSpec (s3c_TargetBucket a) ref (s3c_Endpoint a) (s3c_SignatureVersion a) in
      Ret (with_spec (mkBackingStoreSpec _ t aws (Some a) ibm azb gcs pvp) bs, None)
  | StoreTypeIBMCos =>
      a ← deref ibm;
      let a := mkIBMCosSpec (ibm_TargetBucket a) ref (ibm_Endpoint a) (ibm_SignatureVersion a) in
      Ret (with_spec (mkBackingStoreSpec _ t aws s3c (Some a) azb gcs pvp) bs, None)
  | StoreTypeAzureBlob =>
      a ← deref azb;
      let a := mkAzureBlobSpec (azb_TargetBlobContainer a) ref (azb_ClientId a) (azb_TenantId a)
                 (azb_SubscriptionId a) (azb_ResourcegroupId a) in
      Ret (with_spec (mkBackingStoreSpec _ t aws s3c ibm (Some a) gcs pvp) bs, None)
  | StoreTypeGoogleCloudStorage =>
      a ← deref gcs;
      let a := mkGoogleCloudStorageSpec (gcs_TargetBucket a) ref in
      Ret (with_spec (mkBackingStoreSpec _ t aws s3c ibm azb (Some a) pvp) bs, None)
  | StoreTypePVPool =>
      a ← deref pvp;
      let a := mkPVPoolSpec _ (pvp_StorageClass a) (pvp_NumVolumes a) (pvp_VolumeResources a)
                 (pvp_PriorityClassName a) ref in
      Ret (with_spec (mkBackingStoreSpec _ t aws s3c ibm azb gcs (Some a)) bs, None)
  | StoreTypeOther _ =>
      Ret (bs, Some (Errorf (Sprintf "failed to set backingstore %q secret reference"
                   [AStr (om_Name (bs_meta bs))])))
  end.

Definition GetBackingStoreTargetBucket (bs : BackingStore QA) : outcome (string * option error) :=
  let spec := bs_Spec bs in
  match bss_Type spec with
  | StoreTypeAWSS3 => a ← deref (bss_AWSS3 spec); Ret (aws_TargetBucket a, None)
  | StoreTypeS3Compatible => a ← deref (bss_S3Compatible spec); Ret (s3c_TargetBucket a, None)
  | StoreTypeIBMCos => a ← deref (bss_IBMCos spec); Ret (ibm_TargetBucket a, None)
  | StoreTypeAzureBlob => a ← deref (bss_AzureBlob spec); Ret (azb_TargetBlobContainer a, None)
  | StoreTypeGoogleCloudStorage => a ← deref (bss_GoogleCloudStorage spec); Ret (gcs_TargetBucket a, None)
  | StoreTypePVPool => Ret (""%string, None)
  | StoreTypeOther _ =>
      Ret (""%string, Some (Errorf (Sprintf "failed to get backingstore %q target bucket"
                   [AStr (om_Name (bs_meta bs))])))
  end.

(** The sub-spec that the type calls for is there. *)
Definition bs_has_subspec (bs : BackingStore QA) : Prop :=
  let spec := bs_Spec bs in
  match bss_Type spec with
  | StoreTypeAWSS3 => is_Some (bss_AWSS3 spec)
  | StoreTypeS3Compatible => is_Some (bss_S3Compatible spec)
  | StoreTypeIBMCos => is_Some (bss_IBMCos spec)
  | StoreTypeAzureBlob => is_Some (bss_AzureBlob spec)
  | StoreTypeGoogleCloudStorage => is_Some (bss_GoogleCloudStorage spec)
  | StoreTypePVPool => is_Some (bss_PVPool spec)
  | StoreTypeOther _ => False
  end.

(** A secret reference set on a backing store is the one read back, and nothing
    else of the store changes. *)
Theorem SetBackingStoreSecretRef_get bs ref :
  bs_has_subspec bs →
  ∃ bs', SetBackingStoreSecretRef bs ref = Ret (bs', None) ∧
    GetBackingStoreSecretByType bs' = Ret (inr ref) ∧
    GetBackingStoreTargetBucket bs' = GetBackingStoreTargetBucket bs ∧
    bs_meta bs' = bs_meta bs ∧ bs_Status bs' = bs_Status bs ∧
    bss_Type (bs_Spec bs') = bss_Type (bs_Spec bs).
Proof.
  destruct bs as [m [t aws s3c ibm azb gcs pvp] st]. unfold bs_has_subspec; simpl.
  destruct t; try done; intros [a ->]; eexists; (split; [reflexivity|]); by split_and!.
Qed.

(** Setting the reference a second time is all that counts. *)
Lemma SetBackingStoreSecretRef_twice bs ref1 ref2 bs1 :
  SetBackingStoreSecretRef bs ref1 = Ret (bs1, None) →
  SetBackingStoreSecretRef bs1 ref2 = SetBackingStoreSecretRef bs ref2.
Proof.
  destruct bs as [m [t aws s3c ibm azb gcs pvp] st]. unfold SetBackingStoreSecretRef. simpl.
  destruct t; simpl;
    try match goal with |- context [deref ?o] => destruct o; simpl end;
    intros; by simplify_eq/=.
Qed.

Lemma GetBackingStoreSecret_namespaced bs ref :
  GetBackingStoreSecret bs = Ret (inr ref) →
  sr_Namespace ref = "" → om_Namespace (bs_meta bs) = "".
Proof.
  unfold GetBackingStoreSecret. rewrite bind_Ret. intros (r & _ & H). destruct r; simplify_eq.
  case_bool_decide; simpl; congruence.
Qed.

End BackingStores.

(** ** Namespace stores by type *)

Definition IsAWSSTSClusterNS (ns : NamespaceStore) : outcome bool :=
  if nss_Type (ns_Spec ns) == NSStoreTypeAWSS3 then
    a ← deref (nss_AWSS3 (ns_Spec ns)); Ret (bool_decide (is_Some (aws_AWSSTSRoleARN a)))
  else Ret false.

Definition IsAzureSTSClusterNS (ns : NamespaceStore) : bool :=
  if nss_Type (ns_Spec ns) == NSStoreTypeAzureBlob then
    match nss_AzureBlob (ns_Spec ns) with
    | Some a => bool_decide (is_Some (azb_ClientId a))
    | None => false
    end
  else false.

Definition IsArchiveNamespaceStore (ns : option NamespaceStore) : bool :=
  match ns with
  | None => false
  | Some ns => (nss_Type (ns_Spec ns) == NSStoreTypeS3Compatible) && nss_Archive (ns_Spec ns)
  end.

Definition GetEndpointByNamespaceStoreType (ns : NamespaceStore) : outcome (string * option error) :=
  let spec := ns_Spec ns in
  match nss_Type spec with
  | NSStoreTypeAWSS3 => a ← deref (nss_AWSS3 spec); Ret (awsEndpoint a, None)
  | NSStoreTypeS3Compatible => a ← deref (nss_S3Compatible spec); Ret (s3c_Endpoint a, None)
  | NSStoreTypeIBMCos => a ← deref (nss_IBMCos spec); Ret (ibm_Endpoint a, None)
  | NSStoreTypeAzureBlob => Ret ("https://blob.core.windows.net"%string, None)
  | NSStoreTypeGoogleCloudStorage => Ret ("https://www.googleapis.com"%string, None)
  | NSStoreTypeNSFS =>
      Ret (""%string, Some (Errorf (Sprintf "%q type does not have endpoint parameter %q"
                   [AStr (NSType_string (nss_Type spec)); AStr (om_Name (ns_meta ns))])))
  | NSStoreTypeOther _ =>
      Ret (""%string, Some (Errorf (Sprintf "failed to get endpoint url from backingstore %q"
                   [AStr (om_Name (ns_meta ns))])))
  end.

(** [nil, nil] for a filesystem store. *)
Definition GetNamespaceStoreSecretByType (ns : NamespaceStore) :
    outcome (error + option SecretReference) :=
  let spec := ns_Spec ns in
  match nss_Type spec with
  | NSStoreTypeAWSS3 => a ← deref (nss_AWSS3 spec); Ret (inr (Some (aws_Secret a)))
  | NSStoreTypeS3Compatible => a ← deref (nss_S3Compatible spec); Ret (inr (Some (s3c_Secret a)))
  | NSStoreTypeIBMCos => a ← deref (nss_IBMCos spec); Ret (inr (Some (ibm_Secret a)))
  | NSStoreTypeAzureBlob => a ← deref (nss_AzureBlob spec); Ret (inr (Some (azb_Secret a)))
  | NSStoreTypeGoogleCloudStorage =>
      a ← deref (nss_GoogleCloudStorage spec); Ret (inr (Some (gcs_Secret a)))
  | NSStoreTypeNSFS => Ret (inr None)
  | NSStoreTypeOther _ =>
      Ret (inl (Errorf (Sprintf "failed to get namespacestore %q secret" [AStr (om_Name (ns_meta ns))])))
  end.

Definition GetNamespaceStoreSecret (ns : NamespaceStore) : outcome (error + option SecretReference) :=
  r ← GetNamespaceStoreSecretByType ns;
  Ret match r with
      | inl err => inl err
      | inr None => inr None
      | inr (Some ref) =>
          inr (Some (if sr_Namespace ref == ""
                     then mkSecretReference (sr_Name ref) (om_Namespace (ns_meta ns)) else ref))
      end.

Definition with_nspec (spec : NamespaceStoreSpec) (ns : NamespaceStore) : NamespaceStore :=
  mkNamespaceStore (ns_meta ns) spec (ns_Status ns).

Definition SetNamespaceStoreSecretRef (ns : NamespaceStore) (ref : SecretReference) :
    outcome (NamespaceStore * option error) :=
  let 'mkNamespaceStoreSpec t arch mode aws s3c ibm azb gcs nsfs := ns_Spec ns in
  match t with
  | NSStoreTypeAWSS3 =>
      a ← deref aws;
      let a := mkAWSS3Spec (aws_TargetBucket a) ref (aws_Region a) (aws_SSLDisabled a) (aws_AWSSTSRoleARN a) in
      Ret (with_nspec (mkNamespaceStoreSpec t arch mode (Some a) s3c ibm azb gcs nsfs) ns, None)
  | NSStoreTypeS3Compatible =>
      a ← deref s3c;
      let a := mkS3CompatibleSpec (s3c_TargetBucket a) ref (s3c_Endpoint a) (s3c_SignatureVersion a) in
      Ret (with_nspec (mkNamespaceStoreSpec t arch mode aws (Some a) ibm azb gcs nsfs) ns, None)
  | NSStoreTypeIBMCos =>
      a ← deref ibm;
      let a := mkIBMCosSpec (ibm_TargetBucket a) ref (ibm_Endpoint a) (ibm_SignatureVersion a) in
      Ret (with_nspec (mkNamespaceStoreSpec t arch mode aws s3c (Some a) azb gcs nsfs) ns, None)
  | NSStoreTypeAzureBlob =>
      a ← deref azb;
      let a := mkAzureBlobSpec (azb_TargetBlobContainer a) ref (azb_ClientId a) (azb_TenantId a)
                 (azb_SubscriptionId a) (azb_ResourcegroupId a) in
      Ret (with_nspec (mkNamespaceStoreSpec t arch mode aws s3c ibm (Some a) gcs nsfs) ns, None)
  | NSStoreTypeGoogleCloudStorage =>
      a ← deref gcs;
      let a := mkGoogleCloudStorageSpec (gcs_TargetBucket a) ref in
      Ret (with_nspec (mkNamespaceStoreSpec t arch mode aws s3c ibm azb (Some a) nsfs) ns, None)
  | NSStoreTypeNSFS => Ret (ns, None)
  | NSStoreTypeOther _ =>
      Ret (ns, Some (Errorf (Sprintf "failed to set namespacestore %q secret reference"
                   [AStr (om_Name (ns_meta ns))])))
  end.

Definition GetNamespaceStoreTargetBucket (ns : NamespaceStore) : outcome (string * option error) :=
  let spec := ns_Spec ns in
  match nss_Type spec with
  | NSStoreTypeAWSS3 => a ← deref (nss_AWSS3 spec); Ret (aws_TargetBucket a, None)
  | NSStoreTypeS3Compatible => a ← deref (nss_S3Compatible spec); Ret (s3c_TargetBucket a, None)
  | NSStoreTypeIBMCos => a ← deref (nss_IBMCos spec); Ret (ibm_TargetBucket a, None)
  | NSStoreTypeAzureBlob => a ← deref (nss_AzureBlob spec); Ret (azb_TargetBlobContainer a, None)
  | NSStoreTypeGoogleCloudStorage => a ← deref (nss_GoogleCloudStorage spec); Ret (gcs_TargetBucket a, None)
  | NSStoreTypeNSFS => Ret (""%string, None)
  | NSStoreTypeOther _ =>
      Ret (""%string, Some (Errorf (Sprintf "failed to ger namespacestore %q target bucket"
                   [AStr (om_Name (ns_meta ns))])))
  end.

(** The sub-spec that the type calls for is there. *)
Definition ns_has_subspec (ns : NamespaceStore) : Prop :=
  let spec := ns_Spec ns in
  match nss_Type spec with
  | NSStoreTypeAWSS3 => is_Some (nss_AWSS3 spec)
  | NSStoreTypeS3Compatible => is_Some (nss_S3Compatible spec)
  | NSStoreTypeIBMCos => is_Some (nss_IBMCos spec)
  | NSStoreTypeAzureBlob => is_Some (nss_AzureBlob spec)
  | NSStoreTypeGoogleCloudStorage => is_Some (nss_GoogleCloudStorage spec)
  | NSStoreTypeNSFS => is_Some (nss_NSFS spec)
  | NSStoreTypeOther _ => False
  end.

(** A secret reference set on a namespace store is the one read back, except on
    NSFS, which has none; nothing else of the store changes. *)
Theorem SetNamespaceStoreSecretRef_get ns ref :
  ns_has_subspec ns →
  ∃ ns', SetNamespaceStoreSecretRef ns ref = Ret (ns', None) ∧
    GetNamespaceStoreSecretByType ns' =
      Ret (inr (if nss_Type (ns_Spec ns) == NSStoreTypeNSFS then None else Some ref)) ∧
    GetNamespaceStoreTargetBucket ns' = GetNamespaceStoreTargetBucket ns ∧
    ns_meta ns' = ns_meta ns ∧ ns_Status ns' = ns_Status ns ∧
    nss_Type (ns_Spec ns') = nss_Type (ns_Spec ns).
Proof.
  destruct ns as [m [t arch mode aws s3c ibm azb gcs nsfs] st]. unfold ns_has_subspec; simpl.
  destruct t; try done; intros [a ->]; eexists; (split; [reflexivity|]); by split_and!.
Qed.
