(* ===== verification/Gcp.v ===== *)
(** * Google credentials: the GCP parts of [pkg/util/util.go].

    Validation of workload identity federation (WIF) parameters, the credentials
    document built from them, and the classification of stored credentials. *)

From S2P Require Import Prelude GoStrings Types Kube Util.
From Stdlib Require Import Ascii.
Open Scope Z_scope.

(** ** Constants and regular expressions *)

Definition GoogleImpersonationURLPrefix : string :=
  "https://iamcredentials.googleapis.com/v1/projects/-/serviceAccounts/".
Definition GoogleImpersonationURLSuffix : string := ":generateAccessToken".
Definition gcpServiceAccountEmailSuffix : string := ".iam.gserviceaccount.com".
Definition GoogleServiceAccountPrivateKeyJson : string := "GoogleServiceAccountPrivateKeyJson".
Definition GoogleCredentialsJson : string := "GoogleCredentialsJson".
Definition WebIdentityTokenPath : string := "/var/run/secrets/openshift/serviceaccount/token".

#[global] Arguments GoogleImpersonationURLPrefix : simpl never.
#[global] Arguments GoogleImpersonationURLSuffix : simpl never.
#[global] Arguments gcpServiceAccountEmailSuffix : simpl never.

Definition isDigit (c : Z) : bool := in_range 48 57 c.
Definition isLower (c : Z) : bool := in_range 97 122 c.
Definition isLowerDigit (c : Z) : bool := isLower c || isDigit c.
Definition isLowerDigitDash (c : Z) : bool := isLowerDigit c || (c =? 45).

(** [^[0-9]+$] *)
Definition gcpProjectNumberRegexp : re := RPlus (RClass isDigit).
(** [^[a-z0-9](?:[a-z0-9-]{2,30}[a-z0-9])?$] *)
Definition gcpWIFPoolOrProviderIDRegexp : re :=
  RSeq (RClass isLowerDigit)
    (ROpt (RSeq (RRepeat (RClass isLowerDigitDash) 2 28) (RClass isLowerDigit))).
(** [^[a-z]([-a-z0-9]*[a-z0-9])$] *)
Definition gcpServiceAccountIDRegexp : re :=
  RSeq (RClass isLower) (RSeq (RStar (RClass isLowerDigitDash)) (RClass isLowerDigit)).

(** ** Parameters of workload identity federation *)

Definition ValidateGCPProjectNumber (projectNumber fieldName : string) : verdict :=
  let projectNumber := TrimSpace projectNumber in
  reject! projectNumber == "" with
    ValidationError (Sprintf "%s is required and must be non-empty" [AStr fieldName]) ;;
  reject! negb (MatchString gcpProjectNumberRegexp projectNumber) with
    ValidationError (Sprintf "%s must be a numeric GCP project number (digits only), not a project ID"
      [AStr fieldName]) ;;
  ok.

Definition ValidateGCPWIFPoolOrProviderID (resourceID fieldName : string) : verdict :=
  let minLen := 4 in
  let maxLen := 32 in
  let reservedIDPrefix := "gcp-"%string in
  let resourceID := TrimSpace resourceID in
  reject! resourceID == "" with
    ValidationError (Sprintf "%s is required and must be non-empty" [AStr fieldName]) ;;
  reject! (len resourceID <? minLen) || (maxLen <? len resourceID) with
    ValidationError (Sprintf "%s must be %d-%d characters" [AStr fieldName; AInt minLen; AInt maxLen]) ;;
  reject! HasPrefix resourceID reservedIDPrefix with
    ValidationError (Sprintf "%s must not start with %q (reserved by Google)"
      [AStr fieldName; AStr reservedIDPrefix]) ;;
  reject! negb (MatchString gcpWIFPoolOrProviderIDRegexp resourceID) with
    ValidationError (Sprintf "%s must contain only lowercase letters, digits, and hyphens [a-z0-9-]"
      [AStr fieldName]) ;;
  ok.

Definition ValidateGCPServiceAccountEmail (email fieldName : string) : verdict :=
  let accountIDMinLen := 6 in
  let accountIDMaxLen := 30 in
  let email := TrimSpace email in
  reject! email == "" with
    ValidationError (Sprintf "%s is required and must be non-empty" [AStr fieldName]) ;;
  reject! negb (HasSuffix email gcpServiceAccountEmailSuffix) with
    ValidationError (Sprintf "%s must end with %q" [AStr fieldName; AStr gcpServiceAccountEmailSuffix]) ;;
  reject! negb (Count email "@" =? 1) with
    ValidationError (Sprintf "%s must be a valid GCP service account email (exactly one @)" [AStr fieldName]) ;;
  let '(serviceAccountID, domain, found) := Cut email "@" in
  reject! negb found || (serviceAccountID == "") with
    ValidationError (Sprintf "%s must be a valid GCP service account email (missing service account ID)"
      [AStr fieldName]) ;;
  reject! TrimSuffix domain gcpServiceAccountEmailSuffix == "" with
    ValidationError (Sprintf "%s must be a valid GCP service account email (missing project ID)"
      [AStr fieldName]) ;;
  reject! (len serviceAccountID <? accountIDMinLen) || (accountIDMaxLen <? len serviceAccountID) with
    ValidationError (Sprintf "%s account ID must be %d-%d characters"
      [AStr fieldName; AInt accountIDMinLen; AInt accountIDMaxLen]) ;;
  reject! negb (MatchString gcpServiceAccountIDRegexp serviceAccountID) with
    ValidationError (Sprintf "%s must be a valid GCP service account email (account ID: lowercase letters, digits, hyphens)"
      [AStr fieldName]) ;;
  ok.

Definition ValidateGCPWIFParamFormats (projectNumber poolID providerID serviceAccountEmail : string) :
    verdict :=
  check! ValidateGCPProjectNumber projectNumber "project-number" ;;
  check! ValidateGCPWIFPoolOrProviderID poolID "pool-id" ;;
  check! ValidateGCPWIFPoolOrProviderID providerID "provider-id" ;;
  check! ValidateGCPServiceAccountEmail serviceAccountEmail "service-account-email" ;;
  ok.

Definition ValidateGCPWIFParams (projectNumber poolID providerID serviceAccountEmail : string) :
    verdict :=
  let count := 0 in
  let count := if projectNumber != "" then count + 1 else count in
  let count := if poolID != "" then count + 1 else count in
  let count := if providerID != "" then count + 1 else count in
  let count := if serviceAccountEmail != "" then count + 1 else count in
  if count =? 0 then ok
  else if negb (count =? 4) then
    fail (ValidationError (Lit "when any GCP WIF (STS) parameter is set, all four are required: project-number, pool-id, provider-id, service-account-email"))
  else ValidateGCPWIFParamFormats projectNumber poolID providerID serviceAccountEmail.

Definition GcpProjectIDFromServiceAccountEmail (email : string) : error + string :=
  let invalid := Errorf (Sprintf "invalid GCP service account email %q" [AStr email]) in
  match AfterLast email "@" with
  | None => inl invalid
  | Some rest =>
      let projectID := TrimSuffix rest gcpServiceAccountEmailSuffix in
      if projectID == "" then inl invalid else inr projectID
  end.

(** ** Credential documents *)

Record googleCredentialsJSON := mkGoogleCredentialsJSON {
  gc_Type : string;
  gc_PrivateKeyID : string;
  gc_ServiceAccountImpersonationURL : string;
}.

Record googleWIFCredentialSource := mkGoogleWIFCredentialSource {
  src_File : string;
  src_Format : gmap string string;
}.

Record googleCredentialsJSONFullSTS := mkGoogleCredentialsJSONFullSTS {
  sts_Type : string;
  sts_Audience : string;
  sts_SubjectTokenType : string;
  sts_TokenURL : string;
  sts_ServiceAccountImpersonationURL : string;
  sts_CredentialSource : googleWIFCredentialSource;
}.

(** [encoding/json] at the two structs. *)
Class GoogleJson : Type := {
  json_Unmarshal_google : string → msg + googleCredentialsJSON;
  json_Marshal_sts : googleCredentialsJSONFullSTS → msg + string;
}.

(** A document that was marshalled reads back with the fields that both structs
    name; [private_key_id] is not among them. *)
Class GoogleJsonLaws (GJ : GoogleJson) : Prop :=
  unmarshal_marshal c s : json_Marshal_sts c = inr s →
    json_Unmarshal_google s =
      inr (mkGoogleCredentialsJSON (sts_Type c) "" (sts_ServiceAccountImpersonationURL c)).

Definition GoogleWIFAudience (projectNumber poolID providerID : string) : string :=
  "//iam.googleapis.com/projects/" +:+ projectNumber +:+
  "/locations/global/workloadIdentityPools/" +:+ poolID +:+ "/providers/" +:+ providerID.

Definition googleIdentityFromImpersonationURL (impersonationURL : string) : error + string :=
  if negb (HasPrefix impersonationURL GoogleImpersonationURLPrefix) ||
     negb (HasSuffix impersonationURL GoogleImpersonationURLSuffix)
  then inl (Errorf (Sprintf "invalid service_account_impersonation_url: %q" [AStr impersonationURL]))
  else
    let email := TrimSuffix (TrimPrefix impersonationURL GoogleImpersonationURLPrefix)
                   GoogleImpersonationURLSuffix in
    if email == "" then
      inl (Errorf (Sprintf "invalid service_account_impersonation_url: empty service account email in %q"
                     [AStr impersonationURL]))
    else if negb (Contains_str email "@") then
      inl (Errorf (Sprintf "invalid service_account_impersonation_url: malformed service account email %q in %q"
                     [AStr email; AStr impersonationURL]))
    else inr email.

Definition googleIdentityFromCredentials (creds : googleCredentialsJSON) : error + string :=
  if gc_Type creds == "external_account" then
    googleIdentityFromImpersonationURL (gc_ServiceAccountImpersonationURL creds)
  else if gc_Type creds == "service_account" then
    if gc_PrivateKeyID creds == "" then
      inl (Errorf (Lit "invalid google service account json: missing private_key_id"))
    else inr (gc_PrivateKeyID creds)
  else if gc_Type creds == "" then
    inl (Errorf (Lit "invalid google credentials json: missing type"))
  else inl (Errorf (Sprintf "invalid google credentials json: unsupported type %q" [AStr (gc_Type creds)])).

Section GoogleCredentials.
Context {GJ : GoogleJson}.

Definition ParseGoogleCredentials (credentialsJSON : string) : error + bool * string :=
  match json_Unmarshal_google credentialsJSON with
  | inl err => inl (Errorf (Sprintf "invalid google credentials json: %w" [AMsg err]))
  | inr creds =>
      match googleIdentityFromCredentials creds with
      | inl err => inl err
      | inr ident => inr (gc_Type creds == "external_account", ident)
      end
  end.

Definition BuildGoogleWIFCredentialsJSON (projectNumber poolID providerID serviceAccountEmail : string) :
    outcome (error + string) :=
  let projectNumber := TrimSpace projectNumber in
  let poolID := TrimSpace poolID in
  let providerID := TrimSpace providerID in
  let serviceAccountEmail := TrimSpace serviceAccountEmail in
  err ← ValidateGCPWIFParamFormats projectNumber poolID providerID serviceAccountEmail;
  match err with
  | Some err => Ret (inl err)
  | None =>
      let credentials := {|
        sts_Type := "external_account";
        sts_Audience := GoogleWIFAudience projectNumber poolID providerID;
        sts_SubjectTokenType := "urn:ietf:params:oauth:token-type:jwt";
        sts_TokenURL := "https://sts.googleapis.com/v1/token";
        sts_ServiceAccountImpersonationURL :=
          GoogleImpersonationURLPrefix +:+ serviceAccountEmail +:+ GoogleImpersonationURLSuffix;
        sts_CredentialSource := {|
          src_File := WebIdentityTokenPath;
          src_Format := {["type" := "text"]} |}
      |} in
      match json_Marshal_sts credentials with
      | inl err => Ret (inl (Errorf (Sprintf "failed to marshal credentials: %w" [AMsg err])))
      | inr credentialsBytes => Ret (inr credentialsBytes)
      end
  end.

Definition isGoogleSTSSecret (secret : option Secret) : bool :=
  match secret with
  | None => false
  | Some _ =>
      let external json :=
        (json != "") && match ParseGoogleCredentials json with
                        | inr (isExternalAccount, _) => isExternalAccount
                        | inl _ => false
                        end in
      if external (secretDataString secret GoogleCredentialsJson) then true
      else if external (secretDataString secret GoogleServiceAccountPrivateKeyJson) then true
      else false
  end.

Definition GoogleCredentialsFromStoreSecret (secret : option Secret) : error + string :=
  match secret with
  | None => inl (ValidationError (Lit "invalid google secret: secret is nil"))
  | Some s =>
      let wifJSON := secretDataString secret GoogleCredentialsJson in
      let serviceAccountJSON := secretDataString secret GoogleServiceAccountPrivateKeyJson in
      if (wifJSON != "") && (serviceAccountJSON != "") then
        inl (ValidationError (Sprintf "secret %q in namespace %q must not contain both %q and %q; use %q for GCP WIF (STS) external_account or %q for service_account"
          [AStr (om_Name (sec_meta s)); AStr (om_Namespace (sec_meta s));
           AStr GoogleCredentialsJson; AStr GoogleServiceAccountPrivateKeyJson;
           AStr GoogleCredentialsJson; AStr GoogleServiceAccountPrivateKeyJson]))
      else if wifJSON != "" then inr wifJSON
      else if serviceAccountJSON != "" then inr serviceAccountJSON
      else inl (ValidationError (Sprintf "Invalid secret for google type %q in namespace %q expected JSON in data.GoogleCredentialsJson or data.GoogleServiceAccountPrivateKeyJson"
             [AStr (om_Name (sec_meta s)); AStr (om_Namespace (sec_meta s))]))
  end.

End GoogleCredentials.

(** ** Lemmas: identifiers *)

(** [a] and [b] may begin and end an identifier whose middle is [mid]. *)
Definition pool_id_shape (w : list Z) : Prop :=
  ∃ a mid b, w = a :: mid ++ [b] ∧ isLowerDigit a = true ∧ isLowerDigit b = true ∧
             Forall (λ c, isLowerDigitDash c = true) mid.

Lemma isLowerDigitDash_ascii c : isLowerDigitDash c = true → c < 128.
Proof. unfold isLowerDigitDash, isLowerDigit, isLower, isDigit, in_range. lia. Qed.

Lemma isLowerDigit_dash c : isLowerDigit c = true → isLowerDigitDash c = true.
Proof. unfold isLowerDigitDash. by intros ->. Qed.

Lemma pool_id_shape_ascii w : pool_id_shape w → Forall (λ c, c < 128) w.
Proof.
  intros (a & mid & b & -> & Ha & Hb & Hm).
  apply Forall_cons_iff. split; [by apply isLowerDigitDash_ascii, isLowerDigit_dash|].
  apply Forall_app. split; [|by repeat constructor; apply isLowerDigitDash_ascii, isLowerDigit_dash].
  eapply Forall_impl; [done|]. intros c. apply isLowerDigitDash_ascii.
Qed.

(** The expression for pool and provider IDs: one character, or four to thirty-two
    of the right shape. *)
Lemma gcpWIFPoolOrProviderIDRegexp_lang w :
  lang gcpWIFPoolOrProviderIDRegexp w ↔
  (∃ a, w = [a] ∧ isLowerDigit a = true) ∨
  (pool_id_shape w ∧ (4 ≤ length w ≤ 32)%nat).
Proof.
  unfold gcpWIFPoolOrProviderIDRegexp, ROpt. rewrite lang_seq_inv. split.
  - intros (w1 & w2 & -> & (a & -> & Ha)%lang_class_inv & H).
    apply lang_alt_inv in H as [->%lang_eps_inv|H]; [left; eauto|right].
    apply lang_seq_inv in H as (mid & wb & -> & Hm & (b & -> & Hb)%lang_class_inv).
    apply lang_repeat_class in Hm as [Hm Hl].
    split; [by exists a, mid, b|]. simpl. rewrite length_app. simpl. lia.
  - intros [(a & -> & Ha)|[(a & mid & b & -> & Ha & Hb & Hm) Hl]].
    + exists [a], []. split; [done|]. split; [by constructor|].
      apply lang_alt_l. constructor.
    + exists [a], (mid ++ [b]). split; [done|]. split; [by constructor|].
      apply lang_alt_r. constructor; [|by constructor].
      apply lang_repeat_class. split; [done|].
      simpl in Hl. rewrite length_app in Hl. simpl in Hl. lia.
Qed.

Lemma ValidateGCPWIFPoolOrProviderID_ok resourceID fieldName :
  ValidateGCPWIFPoolOrProviderID resourceID fieldName = ok ↔
  let r := TrimSpace resourceID in
  4 ≤ len r ≤ 32 ∧ HasPrefix r "gcp-" = false ∧ pool_id_shape (runes r).
Proof.
  unfold ValidateGCPWIFPoolOrProviderID. cbv zeta. set (r := TrimSpace resourceID).
  rewrite !guard_ok. unfold MatchString. split.
  - intros (_ & Hl & Hp & Hm & _). apply negb_false_iff, re_match_lang in Hm.
    apply orb_false_iff in Hl as [Hl1%Z.ltb_ge Hl2%Z.ltb_ge]. split; [lia|]. split; [done|].
    apply gcpWIFPoolOrProviderIDRegexp_lang in Hm as [(a & Hr & Ha)|[? _]]; [|done].
    exfalso. assert (len r = 1); [|lia].
    rewrite len_runes_ascii, Hr; [done|]. rewrite Hr.
    repeat constructor. by apply isLowerDigitDash_ascii, isLowerDigit_dash.
  - intros (Hl & Hp & Hs). split_and!; try done.
    + apply bool_decide_eq_false. intros He. rewrite He in Hl. unfold len in Hl. simpl in Hl. lia.
    + lia.
    + apply negb_false_iff, re_match_lang, gcpWIFPoolOrProviderIDRegexp_lang. right.
      split; [done|]. rewrite len_runes_ascii in Hl by by apply pool_id_shape_ascii. lia.
Qed.

Lemma ValidateGCPProjectNumber_ok projectNumber fieldName :
  ValidateGCPProjectNumber projectNumber fieldName = ok ↔
  let r := TrimSpace projectNumber in r ≠ "" ∧ Forall (λ c, isDigit c = true) (runes r).
Proof.
  unfold ValidateGCPProjectNumber. cbv zeta. set (r := TrimSpace projectNumber).
  rewrite !guard_ok. unfold MatchString. split.
  - intros (Hr & Hm & _). apply bool_decide_eq_false in Hr. split; [done|].
    apply negb_false_iff, re_match_lang, lang_seq_inv in Hm
      as (w1 & w2 & -> & (c & -> & Hc)%lang_class_inv & Hw%lang_star_class). by constructor.
  - intros [Hr Hf]. split; [by apply bool_decide_eq_false|]. split; [|done].
    apply negb_false_iff, re_match_lang, lang_seq_inv.
    destruct (runes r) as [|c w] eqn:E.
    + exfalso. apply Hr. unfold runes in E. apply fmap_nil_inv in E.
      rewrite <-(unsegment_segments r), E. done.
    + apply Forall_cons_iff in Hf as [??]. exists [c], w. split; [done|].
      split; [by constructor|by apply lang_star_class].
Qed.

(** ** Lemmas: service account addresses *)

Lemma ValidateGCPServiceAccountEmail_parts email fieldName :
  ValidateGCPServiceAccountEmail email fieldName = ok →
  ∃ account project,
    TrimSpace email = account +:+ "@" +:+ project +:+ gcpServiceAccountEmailSuffix ∧
    6 ≤ len account ≤ 30 ∧ project ≠ "" ∧
    Count account "@" = 0 ∧ Count (project +:+ gcpServiceAccountEmailSuffix) "@" = 0.
Proof.
  unfold ValidateGCPServiceAccountEmail. cbv zeta. set (e := TrimSpace email).
  rewrite !guard_ok. intros (_ & Hsuf & Hcnt & H).
  destruct (Cut e "@") as [[account domain] found] eqn:Hcut.
  rewrite !guard_ok in H. destruct H as (Hf & Hproj & Hlen & _).
  apply orb_false_iff in Hf as [Hfound%negb_false_iff Hacc%bool_decide_eq_false]. subst found.
  apply bool_decide_eq_false in Hproj. apply Cut_found in Hcut as He.
  assert (Hc : Count e "@" = 1) by (destruct (Count e "@" =? 1) eqn:E; [lia|done]).
  rewrite He, Count_app in Hc. simpl in Hc.
  pose proof (Count_nonneg account "@"). pose proof (Count_nonneg domain "@").
  apply negb_false_iff, HasSuffix_spec in Hsuf as [t Ht].
  assert (Hd : ∃ p, domain = p +:+ gcpServiceAccountEmailSuffix).
  { rewrite He in Ht. revert Ht Hc. clear.
    revert t. induction account as [|a account IH]; intros t Ht Hc.
    - destruct t as [|b t]; simpl in Ht; [discriminate Ht|]. simplify_eq. eauto.
    - destruct t as [|b t].
      + exfalso. assert (Hz : Count (String a account +:+ String "@" domain) "@" = 0)
          by by rewrite Ht. rewrite Count_app in Hz. simpl in Hz, Hc.
        pose proof (Count_nonneg account "@"). pose proof (Count_nonneg domain "@").
        repeat case_bool_decide; lia.
      + simpl in Ht. simplify_eq. eapply IH; [done|]. simpl in Hc.
        pose proof (Count_nonneg account "@"). pose proof (Count_nonneg domain "@").
        case_bool_decide; lia. }
  destruct Hd as [p ->]. rewrite TrimSuffix_app in Hproj.
  exists account, p. split_and!; try done; lia.
Qed.

Lemma email_at account rest : Contains_str (account +:+ "@" +:+ rest) "@" = true.
Proof. apply (Contains_str_app account rest "@"). Qed.

(** The address in an impersonation URL is read back. *)
Lemma googleIdentityFromImpersonationURL_build email :
  email ≠ "" → Contains_str email "@" = true →
  googleIdentityFromImpersonationURL
    (GoogleImpersonationURLPrefix +:+ email +:+ GoogleImpersonationURLSuffix) = inr email.
Proof.
  intros Hne Hat. unfold googleIdentityFromImpersonationURL.
  assert (Hp : HasPrefix (GoogleImpersonationURLPrefix +:+ email +:+ GoogleImpersonationURLSuffix)
                 GoogleImpersonationURLPrefix = true) by (apply HasPrefix_spec; eauto).
  assert (Hs : HasSuffix (GoogleImpersonationURLPrefix +:+ email +:+ GoogleImpersonationURLSuffix)
                 GoogleImpersonationURLSuffix = true).
  { apply HasSuffix_spec. exists (GoogleImpersonationURLPrefix +:+ email).
    by rewrite string_app_assoc. }
  rewrite Hp, Hs, TrimPrefix_app, TrimSuffix_app. simpl negb. simpl orb. cbv iota.
  rewrite Hat. by rewrite bool_decide_eq_false_2.
Qed.

(** ** Lemmas: all-or-nothing *)

Lemma ValidateGCPWIFParams_ok pn pool prov email :
  ValidateGCPWIFParams pn pool prov email = ok ↔
  (pn = "" ∧ pool = "" ∧ prov = "" ∧ email = "") ∨
  (pn ≠ "" ∧ pool ≠ "" ∧ prov ≠ "" ∧ email ≠ "" ∧
   ValidateGCPWIFParamFormats pn pool prov email = ok).
Proof.
  unfold ValidateGCPWIFParams. repeat case_bool_decide; simpl; by intuition.
Qed.

(** ** Lemmas: the document that is built *)

Section Build.
Context {GJ : GoogleJson} {GL : GoogleJsonLaws GJ}.

(** Credentials that the operator writes for workload identity federation are
    read back by it as external-account credentials of the same service account. *)
Theorem BuildGoogleWIFCredentialsJSON_parse pn pool prov email json :
  BuildGoogleWIFCredentialsJSON pn pool prov email = Ret (inr json) →
  ParseGoogleCredentials json = inr (true, TrimSpace email).
Proof.
  unfold BuildGoogleWIFCredentialsJSON. rewrite bind_Ret.
  intros (err & Hv & H). destruct err as [err|]; [done|].
  destruct (json_Marshal_sts _) as [e|s] eqn:Hm; simplify_eq.
  apply unmarshal_marshal in Hm.
  unfold ParseGoogleCredentials. rewrite Hm. unfold googleIdentityFromCredentials.
  cbn [gc_Type gc_ServiceAccountImpersonationURL sts_Type sts_ServiceAccountImpersonationURL].
  rewrite bool_decide_eq_true_2 by done.
  change (Ret None) with ok in Hv. unfold ValidateGCPWIFParamFormats in Hv.
  rewrite !check_ok in Hv. destruct Hv as (_ & _ & _ & He & _).
  apply ValidateGCPServiceAccountEmail_parts in He as (acc & proj & He & Hl & _).
  rewrite TrimSpace_idemp in He.
  rewrite googleIdentityFromImpersonationURL_build; [done| |].
  - rewrite He. intros Hz. apply len_zero in Hz. rewrite len_app in Hz. unfold len in *. lia.
  - rewrite He. apply email_at.
Qed.

End Build.
