(* ===== verification/Tls.v ===== *)
(** * TLS settings: [pkg/util/tls.go] and the TLS part of [pkg/admission/server.go]. *)

From S2P Require Import Prelude GoStrings Types Kube Util.

(** ** Tables *)

Record IanaCipherEntry := mkIanaCipherEntry { CipherGoID : Z; CipherOpenSSLName : string }.

Definition IanaCipherMap : gmap string IanaCipherEntry := list_to_map [
  ("TLS_AES_128_GCM_SHA256", mkIanaCipherEntry 4865 "TLS_AES_128_GCM_SHA256");
  ("TLS_AES_256_GCM_SHA384", mkIanaCipherEntry 4866 "TLS_AES_256_GCM_SHA384");
  ("TLS_CHACHA20_POLY1305_SHA256", mkIanaCipherEntry 4867 "TLS_CHACHA20_POLY1305_SHA256");
  ("TLS_ECDHE_ECDSA_WITH_AES_128_GCM_SHA256", mkIanaCipherEntry 49195 "ECDHE-ECDSA-AES128-GCM-SHA256");
  ("TLS_ECDHE_ECDSA_WITH_AES_256_GCM_SHA384", mkIanaCipherEntry 49196 "ECDHE-ECDSA-AES256-GCM-SHA384");
  ("TLS_ECDHE_ECDSA_WITH_CHACHA20_POLY1305_SHA256", mkIanaCipherEntry 52393 "ECDHE-ECDSA-CHACHA20-POLY1305");
  ("TLS_ECDHE_RSA_WITH_AES_128_GCM_SHA256", mkIanaCipherEntry 49199 "ECDHE-RSA-AES128-GCM-SHA256");
  ("TLS_ECDHE_RSA_WITH_AES_256_GCM_SHA384", mkIanaCipherEntry 49200 "ECDHE-RSA-AES256-GCM-SHA384");
  ("TLS_ECDHE_RSA_WITH_CHACHA20_POLY1305_SHA256", mkIanaCipherEntry 52392 "ECDHE-RSA-CHACHA20-POLY1305")
  ]%string.

Definition TLSGroupX25519 : string := "X25519".
Definition TLSGroupSecp256r1 : string := "secp256r1".
Definition TLSGroupSecp384r1 : string := "secp384r1".
Definition TLSGroupSecp521r1 : string := "secp521r1".
Definition TLSGroupX25519MLKEM768 : string := "X25519MLKEM768".
Definition TLSGroupSecP256r1MLKEM768 : string := "SecP256r1MLKEM768".
Definition TLSGroupSecP384r1MLKEM1024 : string := "SecP384r1MLKEM1024".

Record TLSGroupEntry := mkTLSGroupEntry { CurveID : Z; InDefaultClients : bool }.

(** The curve identifiers are those of [crypto/tls]. *)
Definition TLSGroupMap : gmap string TLSGroupEntry := list_to_map [
  (TLSGroupX25519, mkTLSGroupEntry 29 true);
  (TLSGroupSecp256r1, mkTLSGroupEntry 23 true);
  (TLSGroupSecp384r1, mkTLSGroupEntry 24 true);
  (TLSGroupSecp521r1, mkTLSGroupEntry 25 true);
  (TLSGroupX25519MLKEM768, mkTLSGroupEntry 4588 true);
  (TLSGroupSecP256r1MLKEM768, mkTLSGroupEntry 4587 false);
  (TLSGroupSecP384r1MLKEM1024, mkTLSGroupEntry 4589 false)].

(** ** Functions *)

Definition DisableTLSSecurityConfigEnv : string := "DISABLE_TLS_SECURITY_CONFIG".

(** [Getenv] is the environment of the operator. *)
Definition IsTLSConfigDisabled (Getenv : string → string) : bool :=
  Getenv DisableTLSSecurityConfigEnv == "true".

(** The loop that keeps the entries of the names found in a table. *)
Fixpoint mapFound {A B} (table : gmap string A) (f : A → B) (names : list string) : list B :=
  match names with
  | [] => []
  | name :: names =>
      match table !! name with
      | Some entry => f entry :: mapFound table f names
      | None => mapFound table f names
      end
  end.

Definition MapCiphersToOpenSSL (names : list string) : string :=
  Join (mapFound IanaCipherMap CipherOpenSSLName names) ":".

Definition MapCipherSuites (names : list string) : list Z :=
  mapFound IanaCipherMap CipherGoID names.

Definition MapGroupPreferences (groups : list string) : list Z :=
  mapFound TLSGroupMap CurveID groups.

Definition ApplyTLSEnvVars (Getenv : string → string) (env : list EnvVar) (tlsSec : option TLSSecuritySpec) :
    list EnvVar :=
  let tlsSec := if IsTLSConfigDisabled Getenv then None else tlsSec in
  let tlsSec := default (mkTLSSecuritySpec None [] []) tlsSec in
  let groupNames := tls_TLSGroups tlsSec in
  (λ e, if ev_Name e == "TLS_MIN_VERSION" then
          set_ev_Value (match tls_TLSMinVersion tlsSec with Some v => v | None => "" end) e
        else if ev_Name e == "TLS_CIPHERS" then
          set_ev_Value (MapCiphersToOpenSSL (tls_TLSCiphers tlsSec)) e
        else if ev_Name e == "TLS_GROUPS" then
          set_ev_Value (Join groupNames ":") e
        else e) <$> env.

(** The messages of the cipher loop. *)
Fixpoint cipherErrors (ciphers : list string) : list msg :=
  match ciphers with
  | [] => []
  | c :: ciphers =>
      match IanaCipherMap !! c with
      | Some _ => cipherErrors ciphers
      | None => Sprintf "tlsCiphers: %q is not a recognized cipher suite" [AStr c] :: cipherErrors ciphers
      end
  end.

(** The messages of the group loop, and [hasDefaultClientGroup]. *)
Fixpoint groupErrors (groups : list string) : list msg * bool :=
  match groups with
  | [] => ([], false)
  | g :: groups =>
      let '(errs, has) := groupErrors groups in
      match TLSGroupMap !! g with
      | None => (Sprintf "tlsGroups: %q is not a recognized group" [AStr g] :: errs, has)
      | Some entry => (errs, InDefaultClients entry || has)
      end
  end.

Definition ValidateTLSSpec (Getenv : string → string) (spec : option TLSSecuritySpec) : option error :=
  match spec with
  | None => None
  | Some spec =>
      if IsTLSConfigDisabled Getenv then None else
      let errs :=
        match tls_TLSMinVersion spec with
        | None => []
        | Some v =>
            if (v == VersionTLS12) || (v == VersionTLS13) then []
            else [Sprintf "tlsMinVersion %q is not valid; allowed values: %q, %q"
                    [AStr v; AStr VersionTLS12; AStr VersionTLS13]]
        end in
      let errs := errs ++ cipherErrors (tls_TLSCiphers spec) in
      let '(gerrs, hasDefaultClientGroup) := groupErrors (tls_TLSGroups spec) in
      let errs := errs ++ gerrs in
      let errs :=
        if (tls_TLSGroups spec != []) && negb hasDefaultClientGroup then
          errs ++ [Sprintf "tlsGroups must include at least one group with InDefaultClients=true (e.g. %q, %q, %q, %q, %q) - SecP256r1MLKEM768 and SecP384r1MLKEM1024 are absent from the Node.js and Go current default group lists, so using them exclusively breaks all TLS connections"
             [AStr TLSGroupX25519; AStr TLSGroupSecp256r1; AStr TLSGroupSecp384r1;
              AStr TLSGroupSecp521r1; AStr TLSGroupX25519MLKEM768]]
        else errs in
      match errs with
      | [] => None
      | _ => Some (Errorf (Sprintf "%s" (AMsg <$> errs)))
      end
  end.

(** [crypto/tls.Config], the fields set here; zero means "library default". *)
Record TLSConfig := mkTLSConfig {
  cfg_MinVersion : Z;
  cfg_CipherSuites : list Z;
  cfg_CurvePreferences : list Z;
}.

Section Admission.
Context {W : Type} {AS : ApiServer W NooBaa}.

(** The NooBaa object that [applyAPIServerTLS] looks up, before it is filled. *)
Definition nooBaaNamed (namespace : string) : NooBaa :=
  mkNooBaa (named namespace "noobaa")
    emptyNooBaaSpec noStatus.

Definition applyAPIServerTLS (Getenv : string → string) (namespace : string) (w : W)
    (tlsConfig : TLSConfig) : outcome TLSConfig :=
  if IsTLSConfigDisabled Getenv then Ret tlsConfig else
  '(noobaa, found) ← KubeCheckQuiet w (nooBaaNamed namespace);
  if negb found then Ret tlsConfig else
  match sec_APIServerSecurity (nbs_Security (nb_Spec noobaa)) with
  | None => Ret tlsConfig
  | Some spec =>
      match ValidateTLSSpec Getenv (Some spec) with
      | Some _ => Ret tlsConfig
      | None =>
          let minVersion :=
            match tls_TLSMinVersion spec with
            | Some v => if v == VersionTLS12 then 771%Z
                        else if v == VersionTLS13 then 772%Z
                        else cfg_MinVersion tlsConfig
            | None => cfg_MinVersion tlsConfig
            end in
          let suites := match tls_TLSCiphers spec with
                        | [] => cfg_CipherSuites tlsConfig
                        | _ => MapCipherSuites (tls_TLSCiphers spec)
                        end in
          let curves := match tls_TLSGroups spec with
                        | [] => cfg_CurvePreferences tlsConfig
                        | _ => MapGroupPreferences (tls_TLSGroups spec)
                        end in
          Ret (mkTLSConfig minVersion suites curves)
      end
  end.

End Admission.

(** ** Lemmas *)

Lemma cipherErrors_nil l : cipherErrors l = [] ↔ Forall (λ c, is_Some (IanaCipherMap !! c)) l.
Proof.
  induction l as [|c l IH]; cbn [cipherErrors]; [by split|].
  rewrite Forall_cons_iff, <-IH, is_Some_alt.
  destruct (IanaCipherMap !! c); [intuition|]. by split; [|intros [[] _]].
Qed.

Lemma groupErrors_nil l :
  fst (groupErrors l) = [] ↔ Forall (λ g, is_Some (TLSGroupMap !! g)) l.
Proof.
  induction l as [|g l IH]; cbn [groupErrors]; [by split|].
  rewrite Forall_cons_iff, <-IH, is_Some_alt. destruct (groupErrors l) as [errs has].
  destruct (TLSGroupMap !! g); cbn [fst]; [intuition|]. by split; [|intros [[] _]].
Qed.

Lemma groupErrors_default l :
  snd (groupErrors l) = true ↔
  ∃ g e, g ∈ l ∧ TLSGroupMap !! g = Some e ∧ InDefaultClients e = true.
Proof.
  induction l as [|g l IH]; cbn [groupErrors].
  - split; [done|]. intros (g & e & Hg & _). by apply not_elem_of_nil in Hg.
  - destruct (groupErrors l) as [errs has]. destruct (TLSGroupMap !! g) as [e|] eqn:E; cbn [snd] in *.
    + rewrite orb_true_iff, IH. split.
      * intros [H|(g' & e' & ? & ?)]; [exists g, e|exists g', e']; (split; [set_solver|done]).
      * intros (g' & e' & [->|Hg]%elem_of_cons & Hl & Hd); [left; congruence|right; eauto].
    + rewrite IH. split; intros (g' & e' & Hg & Hl & Hd); exists g', e'; split_and!; try done.
      * by right.
      * apply elem_of_cons in Hg as [->|Hg]; [congruence|done].
Qed.

(** The settings that are accepted. *)
Definition tls_spec_valid (spec : TLSSecuritySpec) : Prop :=
  (∀ v, tls_TLSMinVersion spec = Some v → v = VersionTLS12 ∨ v = VersionTLS13) ∧
  Forall (λ c, is_Some (IanaCipherMap !! c)) (tls_TLSCiphers spec) ∧
  Forall (λ g, is_Some (TLSGroupMap !! g)) (tls_TLSGroups spec) ∧
  (tls_TLSGroups spec ≠ [] →
   ∃ g e, g ∈ tls_TLSGroups spec ∧ TLSGroupMap !! g = Some e ∧ InDefaultClients e = true).

Lemma ValidateTLSSpec_None Getenv spec :
  ValidateTLSSpec Getenv (Some spec) = None ↔
  IsTLSConfigDisabled Getenv = true ∨ tls_spec_valid spec.
Proof.
  unfold ValidateTLSSpec. destruct (IsTLSConfigDisabled Getenv); [by split; [left|]|].
  pose proof (groupErrors_nil (tls_TLSGroups spec)) as Hg.
  pose proof (groupErrors_default (tls_TLSGroups spec)) as Hd.
  pose proof (cipherErrors_nil (tls_TLSCiphers spec)) as Hc.
  destruct (groupErrors (tls_TLSGroups spec)) as [gerrs has]. cbn [fst snd] in *.
  set (verrs := match tls_TLSMinVersion spec with None => [] | Some v => _ end).
  assert (Hv : verrs = [] ↔ ∀ v, tls_TLSMinVersion spec = Some v → v = VersionTLS12 ∨ v = VersionTLS13).
  { unfold verrs. destruct (tls_TLSMinVersion spec) as [v|]; [|by split].
    case_bool_decide; [by split; [intros _ ? [= <-]; left|]|].
    case_bool_decide; [by split; [intros _ ? [= <-]; right|]|].
    split; [done|]. intros H'. by destruct (H' v eq_refl). }
  unfold tls_spec_valid. rewrite <-Hv, <-Hc, <-Hg, <-Hd. clear Hv Hc Hg Hd.
  transitivity (verrs = [] ∧ cipherErrors (tls_TLSCiphers spec) = [] ∧ gerrs = [] ∧
                (tls_TLSGroups spec ≠ [] → has = true)); [|split; [by right|by intros [?|?]]].
  clearbody verrs. destruct ((tls_TLSGroups spec != []) && negb has) eqn:Hcond.
  - apply andb_true_iff in Hcond as [Hn ->%negb_true_iff].
    apply negb_true_iff, bool_decide_eq_false in Hn. split.
    + intros H. by destruct verrs, (cipherErrors (tls_TLSCiphers spec)), gerrs.
    + intros (_ & _ & _ & H'). by specialize (H' Hn).
  - split.
    + intros H. destruct verrs, (cipherErrors (tls_TLSCiphers spec)), gerrs; try done.
      split_and!; try done. intros Hn. apply andb_false_iff in Hcond as [Hc|Hc].
      * by apply negb_false_iff, bool_decide_eq_true in Hc.
      * by apply negb_false_iff in Hc.
    + by intros (-> & -> & -> & _).
Qed.

(** Names that are all in the table are all mapped, in order. *)
Lemma mapFound_all {A B} (table : gmap string A) (f : A → B) names :
  Forall (λ n, is_Some (table !! n)) names →
  Forall2 (λ n b, ∃ a, table !! n = Some a ∧ b = f a) names (mapFound table f names).
Proof.
  induction 1 as [|n names [a Ha] _ IH]; cbn [mapFound]; [constructor|].
  rewrite Ha. constructor; [eauto|done].
Qed.
