(* ===== verification/NbTypes.v ===== *)
(** * The types of NooBaa's management RPC: [pkg/nb/types.go].

    Requests and replies the operator builds or reads.  Fields no modelled
    function touches are left out.  [MaskedString] is a string; a JSON
    [omitempty] string is a string, absent being [""]. *)

From S2P Require Import Prelude Types.

Inductive EndpointType :=
  | EndpointTypeNone   (* "" *)
  | EndpointTypeAws
  | EndpointTypeAwsSTS
  | EndpointTypeAzure
  | EndpointTypeAzureSTS
  | EndpointTypeGoogle
  | EndpointTypeGoogleSTS
  | EndpointTypeS3Compat
  | EndpointTypeIBMCos
  | EndpointTypeOther (s : string).
#[export] Instance EndpointType_eq_dec : EqDecision EndpointType.
Proof. solve_decision. Defined.

Inductive CloudAuthMethod :=
  | CloudAuthMethodNone   (* "" *)
  | CloudAuthMethodAwsV2
  | CloudAuthMethodAwsV4
  | CloudAuthMethodOther (s : string).
#[export] Instance CloudAuthMethod_eq_dec : EqDecision CloudAuthMethod.
Proof. solve_decision. Defined.

Inductive ExternalConnectionStatus :=
  | ExternalConnectionSuccess
  | ExternalConnectionTimeout
  | ExternalConnectionInvalidEndpoint
  | ExternalConnectionInvalidCredentials
  | ExternalConnectionNotSupported
  | ExternalConnectionTimeSkew
  | ExternalConnectionUnknownFailure
  | ExternalConnectionInvalidArchiveTarget
  | ExternalConnectionStatusOther (s : string).
#[export] Instance ExternalConnectionStatus_eq_dec : EqDecision ExternalConnectionStatus.
Proof. solve_decision. Defined.

(** ** Integers beyond 53 bits *)

Record BigInt := mkBigInt { bi_N : Z; bi_Peta : Z }.
#[export] Instance BigInt_eq_dec : EqDecision BigInt.
Proof. solve_decision. Defined.

(** ** Replies *)

Record PoolHosts := mkPoolHosts { ph_ConfiguredCount : Z; ph_Count : Z }.

Record CloudInfo := mkCloudInfo {
  ci_EndpointType : EndpointType;
  ci_Endpoint : string;
  ci_TargetBucket : string;
  ci_Identity : string;
}.

Record PoolInfo := mkPoolInfo {
  pool_Name : string;
  pool_ResourceType : string;
  pool_Mode : string;
  pool_Undeletable : string;
  pool_CloudInfo : option CloudInfo;
  pool_Hosts : option PoolHosts;
}.

Record NamespaceResourceInfo := mkNamespaceResourceInfo {
  nsr_Name : string;
  nsr_Mode : string;
  nsr_Undeletable : string;
  nsr_EndpointType : EndpointType;
  nsr_Endpoint : string;
  nsr_TargetBucket : string;
  nsr_Identity : string;
  nsr_AuthMethod : CloudAuthMethod;
}.

Record ExternalConnectionUsage := mkExternalConnectionUsage {
  ecu_UsageType : string;
  ecu_Entity : string;
  ecu_ExternalEntity : string;
}.

Record ExternalConnectionInfo := mkExternalConnectionInfo {
  eci_Name : string;
  eci_EndpointType : EndpointType;
  eci_Endpoint : string;
  eci_Identity : string;
  eci_AuthMethod : CloudAuthMethod;
  eci_Usage : list ExternalConnectionUsage;
}.

Record S3AccessKeys := mkS3AccessKeys { s3k_AccessKey : string; s3k_SecretKey : string }.
#[export] Instance S3AccessKeys_eq_dec : EqDecision S3AccessKeys.
Proof. solve_decision. Defined.

Record AccountInfo := mkAccountInfo {
  acc_Name : string;
  acc_Email : string;
  acc_HasS3Access : bool;
  acc_CanCreateBuckets : bool;
  acc_DefaultResource : string;
  acc_AccessKeys : list S3AccessKeys;
  acc_ARN : string;
  acc_ExternalConnections : list ExternalConnectionInfo;
  acc_NsfsAccountConfig : option AccountNsfsConfig;
}.

Record SystemInfo := mkSystemInfo {
  si_Accounts : list AccountInfo;
  si_Pools : list PoolInfo;
  si_NamespaceResources : list NamespaceResourceInfo;
}.

(** ** Requests *)

Record BackingStoreInfo := mkBackingStoreInfo { bsi_Name : string; bsi_Namespace : string }.
#[export] Instance BackingStoreInfo_eq_dec : EqDecision BackingStoreInfo.
Proof. solve_decision. Defined.

Record CreateHostsPoolParams := mkCreateHostsPoolParams {
  chp_Name : string;
  chp_IsManaged : bool;
  chp_HostCount : Z;
  chp_VolumeSize : Z;
  chp_Backingstore : option BackingStoreInfo;
}.

Record UpdateHostsPoolParams := mkUpdateHostsPoolParams {
  uhp_Name : string;
  uhp_Backingstore : option BackingStoreInfo;
}.

Record CreateCloudPoolParams := mkCreateCloudPoolParams {
  ccp_Name : string;
  ccp_Connection : string;
  ccp_TargetBucket : string;
  ccp_Backingstore : option BackingStoreInfo;
  ccp_AvailableCapacity : option BigInt;
}.

Record UpdateCloudPoolParams := mkUpdateCloudPoolParams {
  ucp_Name : string;
  ucp_AvailableCapacity : option BigInt;
}.

Record NamespaceStoreInfo := mkNamespaceStoreInfo { nsi_Name : string; nsi_Namespace : string }.

Record NSFSConfig := mkNSFSConfig { nfc_FsBackend : string; nfc_FsRootPath : string }.

Definition APIAccessModeReadWrite : string := "READ_WRITE".
Definition APIAccessModeReadOnly : string := "READ_ONLY".

Record CreateNamespaceResourceParams := mkCreateNamespaceResourceParams {
  cnr_Name : string;
  cnr_Connection : string;
  cnr_TargetBucket : string;
  cnr_AccessMode : string;
  cnr_NSFSConfig : option NSFSConfig;
  cnr_NamespaceStore : option NamespaceStoreInfo;
  cnr_Archive : bool;
}.

(** ** Accounts *)

Record CreateAccountParams := mkCreateAccountParams {
  cap_Name : string;
  cap_Email : string;
  cap_HasLogin : bool;
  cap_S3Access : bool;
  cap_AllowBucketCreate : bool;
  cap_DefaultResource : string;
  cap_ForceMd5Etag : option bool;
  cap_BucketClaimOwner : string;
  cap_NsfsAccountConfig : option AccountNsfsConfig;
}.

Record CreateAccountReply := mkCreateAccountReply { car_ARN : string; car_AccessKeys : list S3AccessKeys }.

Record UpdateAccountS3AccessParams := mkUpdateAccountS3AccessParams {
  uas_Email : string;
  uas_S3Access : bool;
  uas_DefaultResource : option string;
  uas_ForceMd5Etag : option bool;
  uas_AllowBucketCreation : option bool;
  uas_NsfsAccountConfig : option AccountNsfsConfig;
}.

(** ** Buckets *)

Record NamespaceResourceFullConfig := mkNamespaceResourceFullConfig { nrf_Resource : string; nrf_Path : string }.
#[export] Instance NamespaceResourceFullConfig_eq_dec : EqDecision NamespaceResourceFullConfig.
Proof. solve_decision. Defined.

Record ArchivePolicyConfig := mkArchivePolicyConfig { apc_DeepArchiveResource : option NamespaceResourceFullConfig }.

(** [ttl_ms] of the caching of a namespace bucket. *)
Record NBCacheSpec := mkNBCacheSpec { nbc_TTLMs : Z }.

Record NamespaceBucketInfo := mkNamespaceBucketInfo {
  nbi_WriteResource : NamespaceResourceFullConfig;
  nbi_ReadResources : list NamespaceResourceFullConfig;
  nbi_Caching : option NBCacheSpec;
}.

Record BucketClaimInfo := mkBucketClaimInfo { bci_BucketClass : string; bci_Namespace : string }.

Record TierItem := mkTierItem { ti_Order : Z; ti_Tier : string }.

Record TierInfo := mkTierInfo { tin_Name : string; tin_DataPlacement : string; tin_AttachedPools : list string }.

Record TieringPolicyInfo := mkTieringPolicyInfo { tpi_Name : string; tpi_Tiers : list TierItem }.

Record CreateTierParams := mkCreateTierParams {
  ctp_Name : string;
  ctp_DataPlacement : string;
  ctp_AttachedPools : list string;
}.

Record UpdateBucketClassParams := mkUpdateBucketClassParams {
  ubc_Name : string;
  ubc_Policy : TieringPolicyInfo;
  ubc_Tiers : list TierInfo;
}.

(** The reply to an update of a bucket class. *)
Record BucketClassInfo := mkBucketClassInfo {
  bcinfo_ErrorMessage : string;
  bcinfo_ShouldRevert : bool;
  bcinfo_RevertToPolicy : UpdateBucketClassParams;
}.

Record CreateVectorBucketParams := mkCreateVectorBucketParams {
  cvb_VectorBucketName : string;
  cvb_VectorDBType : string;
  cvb_NamespaceResource : option NamespaceResourceFullConfig;
  cvb_BucketClaim : option BucketClaimInfo;
}.

(** ** Connections *)

Record AzureLogAccessKeysParams := mkAzureLogAccessKeysParams {
  alak_TenantID : string;
  alak_ClientID : string;
  alak_ClientSecret : string;
  alak_WorkspaceID : string;
}.
#[export] Instance AzureLogAccessKeysParams_eq_dec : EqDecision AzureLogAccessKeysParams.
Proof. solve_decision. Defined.

Record AzureSTSCredentials := mkAzureSTSCredentials {
  asc_TenantID : string;
  asc_ClientID : string;
}.
#[export] Instance AzureSTSCredentials_eq_dec : EqDecision AzureSTSCredentials.
Proof. solve_decision. Defined.

Record AddExternalConnectionParams := mkAddExternalConnectionParams {
  aec_Name : string;
  aec_EndpointType : EndpointType;
  aec_Endpoint : string;
  aec_Identity : string;
  aec_Secret : string;
  aec_AuthMethod : CloudAuthMethod;
  aec_AWSSTSARN : string;
  aec_AzureSTSCredentials : option AzureSTSCredentials;
  aec_Region : string;
  aec_AzureLogAccessKeys : option AzureLogAccessKeysParams;
}.

Record CheckExternalConnectionParams := mkCheckExternalConnectionParams {
  cec_Name : string;
  cec_EndpointType : EndpointType;
  cec_Endpoint : string;
  cec_Identity : string;
  cec_Secret : string;
  cec_AuthMethod : CloudAuthMethod;
  cec_AWSSTSARN : string;
  cec_IgnoreNameAlreadyExist : bool;
  cec_AzureLogAccessKeys : option AzureLogAccessKeysParams;
  cec_Region : string;
  cec_AzureSTSCredentials : option AzureSTSCredentials;
  cec_Bucket : string;
}.

Record CheckExternalConnectionReply := mkCheckExternalConnectionReply {
  cer_Status : ExternalConnectionStatus;
  cer_ErrorCode : string;
  cer_ErrorMessage : string;
}.

Record EndpointInfo := mkEndpointInfo { ei_Endpoint : string; ei_EndpointType : EndpointType }.

Record UpdateExternalConnectionParams := mkUpdateExternalConnectionParams {
  uec_Name : string;
  uec_EndpointInfo : option EndpointInfo;
  uec_Identity : string;
  uec_Secret : string;
  uec_AzureLogAccessKeys : option AzureLogAccessKeysParams;
  uec_Region : string;
}.
