(* ===== verification/BackingStoreValidation.v ===== *)
(** * Validation of BackingStore resources: [pkg/validations/backingstore_validations.go].

    The functions the admission webhook and the reconciler share.  A store value
    is what the JSON decoder produced, so the sub-spec of the declared type may be
    missing; an access to it is a dereference that can panic. *)

From S2P Require Import Prelude GoStrings Types NbTypes.

Definition MinimumVolumeSize : Z := 16 * 1024 * 1024 * 1024.
Definition MaximumPvpoolNameLength : Z := 43.
Definition MaximumVolumeCount : Z := 20.

Definition invalidBSType : error :=
  ValidationError (Lit "Invalid Backingstore type, please provide a valid Backingstore type").
Definition missingBSSecret : error :=
  ValidationError (Lit "Failed creating the Backingstore, please provide secret name").
Definition missingBSBucket : error :=
  ValidationError (Lit "Failed creating the Backingstore, please provide target bucket").
Definition bsBucketChanged : error :=
  ValidationError (Lit "Changing a Backingstore target bucket is unsupported").

(** ** The checks *)

Section Checks.
Context {QA : QuantityApi}.
Implicit Types bs oldBs : BackingStore QA.

Definition ValidateBSInValidSpec bs : verdict :=
  let spec := bs_Spec bs in
  match bss_Type spec with
  | StoreTypeAWSS3 =>
      reject! isNil (bss_AWSS3 spec)
        with ValidationError (Lit "AWSS3 spec must be provided for aws-s3 type BackingStore") ;; ok
  | StoreTypeS3Compatible =>
      reject! isNil (bss_S3Compatible spec)
        with ValidationError (Lit "S3Compatible spec must be provided for s3-compatible type BackingStore") ;; ok
  | StoreTypeIBMCos =>
      reject! isNil (bss_IBMCos spec)
        with ValidationError (Lit "IBMCos spec must be provided for ibm-cos type BackingStore") ;; ok
  | StoreTypeAzureBlob =>
      reject! isNil (bss_AzureBlob spec)
        with ValidationError (Lit "AzureBlob spec must be provided for azure-blob type BackingStore") ;; ok
  | StoreTypeGoogleCloudStorage =>
      reject! isNil (bss_GoogleCloudStorage spec)
        with ValidationError (Lit "GoogleCloudStorage spec must be provided for google-cloud-storage type BackingStore") ;; ok
  | StoreTypePVPool =>
      reject! isNil (bss_PVPool spec)
        with ValidationError (Lit "PVPool spec must be provided for pv-pool type BackingStore") ;; ok
  | StoreTypeOther _ => fail invalidBSType
  end.

Definition ValidateAWSSTSARN bs : verdict :=
  match bss_AWSS3 (bs_Spec bs) with
  | Some a =>
      reject! isNil (aws_AWSSTSRoleARN a)
        with ValidationError (Lit "Failed creating the Backingstore, please provide a valid ARN or secret name") ;; ok
  | None => ok
  end.

Definition ValidateAzureSTSCredentials bs : verdict :=
  match bss_AzureBlob (bs_Spec bs) with
  | Some a =>
      reject! isNil (azb_ClientId a)
        with ValidationError (Lit "Failed creating the Backingstore, please provide secret name or Azure STS clientId") ;; ok
  | None => ok
  end.

Definition ValidateBSEmptySecretName bs : verdict :=
  let spec := bs_Spec bs in
  match bss_Type spec with
  | StoreTypeAWSS3 =>
      a ← deref (bss_AWSS3 spec);
      if (len (sr_Name (aws_Secret a)) =? 0)%Z then check! ValidateAWSSTSARN bs ;; ok else ok
  | StoreTypeS3Compatible =>
      s ← deref (bss_S3Compatible spec);
      reject! (len (sr_Name (s3c_Secret s)) =? 0)%Z with missingBSSecret ;; ok
  | StoreTypeIBMCos =>
      s ← deref (bss_IBMCos spec);
      reject! (len (sr_Name (ibm_Secret s)) =? 0)%Z with missingBSSecret ;; ok
  | StoreTypeAzureBlob =>
      a ← deref (bss_AzureBlob spec);
      if (len (sr_Name (azb_Secret a)) =? 0)%Z then check! ValidateAzureSTSCredentials bs ;; ok else ok
  | StoreTypeGoogleCloudStorage =>
      g ← deref (bss_GoogleCloudStorage spec);
      reject! (len (sr_Name (gcs_Secret g)) =? 0)%Z with missingBSSecret ;; ok
  | StoreTypePVPool => ok
  | StoreTypeOther _ => fail invalidBSType
  end.

Definition ValidateBSEmptyTargetBucket bs : verdict :=
  let spec := bs_Spec bs in
  match bss_Type spec with
  | StoreTypeAWSS3 =>
      a ← deref (bss_AWSS3 spec);
      reject! (len (aws_TargetBucket a) =? 0)%Z with missingBSBucket ;; ok
  | StoreTypeS3Compatible =>
      s ← deref (bss_S3Compatible spec);
      reject! (len (s3c_TargetBucket s) =? 0)%Z with missingBSBucket ;; ok
  | StoreTypeIBMCos =>
      s ← deref (bss_IBMCos spec);
      reject! (len (ibm_TargetBucket s) =? 0)%Z with missingBSBucket ;; ok
  | StoreTypeAzureBlob =>
      a ← deref (bss_AzureBlob spec);
      reject! (len (azb_TargetBlobContainer a) =? 0)%Z with missingBSBucket ;; ok
  | StoreTypeGoogleCloudStorage =>
      g ← deref (bss_GoogleCloudStorage spec);
      reject! (len (gcs_TargetBucket g) =? 0)%Z with missingBSBucket ;; ok
  | StoreTypePVPool => ok
  | StoreTypeOther _ => fail invalidBSType
  end.

Definition ValidatePvpoolNameLength bs : verdict :=
  reject! (len (om_Name (bs_meta bs)) >? MaximumPvpoolNameLength)%Z
    with ValidationError (Lit "Unsupported BackingStore name length, please provide a name shorter then 43 characters") ;; ok.

Definition ValidatePvpoolMinVolSize bs : verdict :=
  p ← deref (bss_PVPool (bs_Spec bs));
  match pvp_VolumeResources p with
  | None => ok
  | Some vr =>
      let min := NewQuantity MinimumVolumeSize in
      reject! (Quantity_Cmp (Storage (rr_Requests vr)) min =? -1)%Z
        with ValidationError (Lit "Invalid volume size, minimum volume size is 16Gi") ;; ok
  end.

Definition ValidateSigVersion (sigver : S3SignatureVersion) : verdict :=
  match sigver with
  | S3SignatureVersionV2 | S3SignatureVersionV4 | S3SignatureVersionNone => ok
  | S3SignatureVersionOther _ =>
      fail (ValidationError (Lit "Invalid S3 compatible Backingstore signature version, please choose either v2/v4"))
  end.

Definition ValidateMaxVolumeCount bs : verdict :=
  p ← deref (bss_PVPool (bs_Spec bs));
  reject! (pvp_NumVolumes p >? MaximumVolumeCount)%Z
    with ValidationError (Lit "Unsupported volume count, the maximum supported volume count is 20") ;; ok.

Definition ValidateMinVolumeCount bs : verdict :=
  p ← deref (bss_PVPool (bs_Spec bs));
  reject! (pvp_NumVolumes p <=? 0)%Z
    with ValidationError (Lit "Unsupported volume count, the minimum supported volume count is 1") ;; ok.

(** One iteration of the loop over [cpu] and [memory]. *)
Definition validatePvpoolResource (vr : ResourceRequirements QA) (rName : string) : verdict :=
  check! match rl_lookup (rr_Requests vr) rName with
         | Some qty =>
             zero ← MustParse "0";
             reject! (Quantity_Cmp qty zero <? 0)%Z
               with ValidationError (Sprintf "Invalid PV pool resource: request %s must not be negative" [AStr rName]) ;; ok
         | None => ok
         end ;;
  check! match rl_lookup (rr_Limits vr) rName with
         | Some qty =>
             zero ← MustParse "0";
             reject! (Quantity_Cmp qty zero <? 0)%Z
               with ValidationError (Sprintf "Invalid PV pool resource: limit %s must not be negative" [AStr rName]) ;; ok
         | None => ok
         end ;;
  match rl_lookup (rr_Requests vr) rName, rl_lookup (rr_Limits vr) rName with
  | Some req, Some lim =>
      reject! (Quantity_Cmp req lim >? 0)%Z
        with ValidationError (Sprintf "Invalid PV pool resource: request %s (%s) exceeds limit (%s)"
                                [AStr rName; AStr (Quantity_String req); AStr (Quantity_String lim)]) ;; ok
  | _, _ => ok
  end.

Definition ValidatePvpoolResources bs : verdict :=
  match bss_PVPool (bs_Spec bs) with
  | None => ok
  | Some p =>
      match pvp_VolumeResources p with
      | None => ok
      | Some vr => check_all (validatePvpoolResource vr) [ResourceCPU; ResourceMemory]
      end
  end.

Definition ValidateBackingStore bs : verdict :=
  check! ValidateBSInValidSpec bs ;;
  check! ValidateBSEmptySecretName bs ;;
  check! ValidateBSEmptyTargetBucket bs ;;
  match bss_Type (bs_Spec bs) with
  | StoreTypePVPool =>
      check! ValidatePvpoolNameLength bs ;;
      check! ValidatePvpoolMinVolSize bs ;;
      check! ValidateMaxVolumeCount bs ;;
      check! ValidateMinVolumeCount bs ;;
      check! ValidatePvpoolResources bs ;;
      ok
  | StoreTypeS3Compatible =>
      s ← deref (bss_S3Compatible (bs_Spec bs)); ValidateSigVersion (s3c_SignatureVersion s)
  | StoreTypeIBMCos =>
      s ← deref (bss_IBMCos (bs_Spec bs)); ValidateSigVersion (ibm_SignatureVersion s)
  | StoreTypeAWSS3 | StoreTypeAzureBlob | StoreTypeGoogleCloudStorage => ok
  | StoreTypeOther _ => fail invalidBSType
  end.

Definition ValidatePvpoolScaleDown bs oldBs : verdict :=
  o ← deref (bss_PVPool (bs_Spec oldBs));
  n ← deref (bss_PVPool (bs_Spec bs));
  reject! (pvp_NumVolumes o >? pvp_NumVolumes n)%Z
    with ValidationError (Lit "Scaling down the number of nodes is not currently supported") ;; ok.

Definition ValidateTargetBSBucketChange bs oldBs : verdict :=
  let spec := bs_Spec bs in
  let oldSpec := bs_Spec oldBs in
  match bss_Type spec with
  | StoreTypeAWSS3 =>
      o ← deref (bss_AWSS3 oldSpec); n ← deref (bss_AWSS3 spec);
      reject! aws_TargetBucket o != aws_TargetBucket n with bsBucketChanged ;; ok
  | StoreTypeS3Compatible =>
      o ← deref (bss_S3Compatible oldSpec); n ← deref (bss_S3Compatible spec);
      reject! s3c_TargetBucket o != s3c_TargetBucket n with bsBucketChanged ;; ok
  | StoreTypeIBMCos =>
      o ← deref (bss_IBMCos oldSpec); n ← deref (bss_IBMCos spec);
      reject! ibm_TargetBucket o != ibm_TargetBucket n with bsBucketChanged ;; ok
  | StoreTypeAzureBlob =>
      o ← deref (bss_AzureBlob oldSpec); n ← deref (bss_AzureBlob spec);
      reject! azb_TargetBlobContainer o != azb_TargetBlobContainer n with bsBucketChanged ;; ok
  | StoreTypeGoogleCloudStorage =>
      o ← deref (bss_GoogleCloudStorage oldSpec); n ← deref (bss_GoogleCloudStorage spec);
      reject! gcs_TargetBucket o != gcs_TargetBucket n with bsBucketChanged ;; ok
  | _ => fail (ValidationError (Lit "Failed to identify Backingstore type"))
  end.

(** The loop over the pools stops at the first pool with the store's name. *)
Fixpoint validatePoolsDeletion (name : string) (pools : list PoolInfo) : verdict :=
  match pools with
  | [] => ok
  | pool :: pools =>
      if pool_Name pool == name then
        if (pool_Undeletable pool == "IS_BACKINGSTORE") || (pool_Undeletable pool == "BEING_DELETED") then ok
        else if pool_Undeletable pool == "CONNECTED_BUCKET_DELETING" then
          fail (ValidationError (Sprintf "cannot complete because objects in Backingstore %q are still being deleted, Please try later"
                                   [AStr (pool_Name pool)]))
        else fail (ValidationError (Sprintf "cannot complete because pool %q in %q state"
                                      [AStr (pool_Name pool); AStr (pool_Undeletable pool)]))
      else validatePoolsDeletion name pools
  end.

Definition ValidateBackingstoreDeletion bs (systemInfo : SystemInfo) : verdict :=
  validatePoolsDeletion (om_Name (bs_meta bs)) (si_Pools systemInfo).

Definition isMissing (v : option string) : bool :=
  match v with None => true | Some s => TrimSpace s == "" end.

Definition ValidateAzureSTSCredsPresent (targetBlobContainer accountName tenantID clientID : option string) : verdict :=
  reject! isMissing targetBlobContainer with ValidationError (Lit "Target blob container is required") ;;
  reject! isMissing accountName with ValidationError (Lit "Azure storage account name is required") ;;
  reject! isMissing tenantID with ValidationError (Lit "Azure tenant ID is required") ;;
  reject! isMissing clientID with ValidationError (Lit "Azure client ID is required") ;;
  ok.

End Checks.

(** ** What is accepted *)

Section Specification.
Context {QA : QuantityApi} {QL : QuantityLaws QA}.
Implicit Types bs oldBs : BackingStore QA.

(** CPU or memory of a PV pool: requests and limits are not negative, and the
    request does not exceed the limit. *)
Definition resource_valid (vr : ResourceRequirements QA) (rName : string) : Prop :=
  (∀ q, rl_lookup (rr_Requests vr) rName = Some q → (0 ≤ amount q)%Z) ∧
  (∀ q, rl_lookup (rr_Limits vr) rName = Some q → (0 ≤ amount q)%Z) ∧
  (∀ q l, rl_lookup (rr_Requests vr) rName = Some q →
          rl_lookup (rr_Limits vr) rName = Some l → (amount q ≤ amount l)%Z).

Definition sig_valid (v : S3SignatureVersion) : Prop :=
  v = S3SignatureVersionNone ∨ v = S3SignatureVersionV2 ∨ v = S3SignatureVersionV4.

Definition pvpool_valid (name : string) (p : PVPoolSpec QA) : Prop :=
  (len name ≤ 43)%Z ∧ (1 ≤ pvp_NumVolumes p ≤ 20)%Z ∧
  ∀ vr, pvp_VolumeResources p = Some vr →
    (16 * 1024 ^ 3 * 10 ^ 9 ≤ amount (Storage (rr_Requests vr)))%Z ∧
    resource_valid vr ResourceCPU ∧ resource_valid vr ResourceMemory.

(** A BackingStore the operator accepts. *)
Definition bs_valid bs : Prop :=
  let spec := bs_Spec bs in
  match bss_Type spec with
  | StoreTypeAWSS3 => ∃ a, bss_AWSS3 spec = Some a ∧ aws_TargetBucket a ≠ "" ∧
      (sr_Name (aws_Secret a) ≠ "" ∨ is_Some (aws_AWSSTSRoleARN a))
  | StoreTypeS3Compatible => ∃ s, bss_S3Compatible spec = Some s ∧ s3c_TargetBucket s ≠ "" ∧
      sr_Name (s3c_Secret s) ≠ "" ∧ sig_valid (s3c_SignatureVersion s)
  | StoreTypeIBMCos => ∃ s, bss_IBMCos spec = Some s ∧ ibm_TargetBucket s ≠ "" ∧
      sr_Name (ibm_Secret s) ≠ "" ∧ sig_valid (ibm_SignatureVersion s)
  | StoreTypeAzureBlob => ∃ a, bss_AzureBlob spec = Some a ∧ azb_TargetBlobContainer a ≠ "" ∧
      (sr_Name (azb_Secret a) ≠ "" ∨ is_Some (azb_ClientId a))
  | StoreTypeGoogleCloudStorage => ∃ g, bss_GoogleCloudStorage spec = Some g ∧
      gcs_TargetBucket g ≠ "" ∧ sr_Name (gcs_Secret g) ≠ ""
  | StoreTypePVPool => ∃ p, bss_PVPool spec = Some p ∧ pvpool_valid (om_Name (bs_meta bs)) p
  | StoreTypeOther _ => False
  end.

Lemma isNil_false {A} (p : option A) : isNil p = false ↔ is_Some p.
Proof. destruct p; simpl; split; [eauto|done|done|by intros [??]]. Qed.

Lemma len_eqb_false s : (len s =? 0)%Z = false ↔ s ≠ "".
Proof. by rewrite Z.eqb_neq, len_zero. Qed.

Lemma reject_ok c e : guard c e ok = ok ↔ c = false.
Proof. rewrite guard_ok. intuition. Qed.

Lemma ex_Some {A} (a : A) (P : A → Prop) : (∃ x, Some a = Some x ∧ P x) ↔ P a.
Proof. split; [by intros (? & [= <-] & ?)|eauto]. Qed.

Lemma ex_None {A} (P : A → Prop) : (∃ x, None = Some x ∧ P x) ↔ False.
Proof. split; [by intros (? & ? & _)|done]. Qed.

Lemma nonempty_check s e : guard (len s =? 0)%Z e ok = ok ↔ s ≠ "".
Proof. by rewrite reject_ok, len_eqb_false. Qed.

(** A secret name, or the short-lived credential that replaces it. *)
Lemma secret_or_check {A} s (cred : option A) e :
  (if (len s =? 0)%Z then check (guard (isNil cred) e ok) ok else ok) = ok ↔ s ≠ "" ∨ is_Some cred.
Proof.
  rewrite check_ok_r. destruct (len s =? 0)%Z eqn:E.
  - apply Z.eqb_eq, len_zero in E. rewrite reject_ok, isNil_false. tauto.
  - apply len_eqb_false in E. tauto.
Qed.

Lemma MustParse_zero : ∃ q, MustParse "0" = Ret q ∧ amount q = 0%Z.
Proof. destruct Parse_zero as (q & Hq & ?). exists q. unfold MustParse. by rewrite Hq. Qed.

Lemma validatePvpoolResource_ok vr rName :
  validatePvpoolResource vr rName = ok ↔ resource_valid vr rName.
Proof.
  unfold validatePvpoolResource, resource_valid.
  destruct MustParse_zero as (z & -> & Hz). rewrite !check_ok.
  assert (Hneg : ∀ o m, match o with
                       | Some qty => zero ← Ret z;
                           guard (Quantity_Cmp qty zero <? 0)%Z m ok
                       | None => ok end = ok ↔ ∀ q, o = Some q → (0 ≤ amount q)%Z).
  { intros [q|] m; [|by split]. unfold mbind, outcome_bind. rewrite reject_ok.
    rewrite Z.ltb_ge. pose proof (Cmp_neg q z). split; [intros ? ? [= <-]; lia|].
    intros H'. specialize (H' q eq_refl). lia. }
  rewrite !Hneg. clear Hneg. do 2 apply and_iff_compat_l.
  destruct (rl_lookup (rr_Requests vr) rName) as [q|], (rl_lookup (rr_Limits vr) rName) as [l|]; [|by split..].
  rewrite reject_ok. pose proof (Cmp_pos q l). split.
  - intros ? ? ? [= <-] [= <-]. lia.
  - intros H'. specialize (H' q l eq_refl eq_refl). lia.
Qed.

Lemma ValidateSigVersion_ok v : ValidateSigVersion v = ok ↔ sig_valid v.
Proof.
  unfold sig_valid. destruct v; simpl; split; try done; [tauto..|].
  by intros [|[|]].
Qed.

Lemma ValidatePvpoolMinVolSize_ok bs p :
  bss_PVPool (bs_Spec bs) = Some p →
  ValidatePvpoolMinVolSize bs = ok ↔
  ∀ vr, pvp_VolumeResources p = Some vr →
    (16 * 1024 ^ 3 * 10 ^ 9 ≤ amount (Storage (rr_Requests vr)))%Z.
Proof.
  intros Hp. unfold ValidatePvpoolMinVolSize. rewrite Hp.
  cbn [deref mbind outcome_bind]. destruct (pvp_VolumeResources p) as [vr|]; [|by split].
  rewrite reject_ok, Z.eqb_neq, Cmp_lt, amount_New. unfold MinimumVolumeSize.
  split; [intros ? ? [= <-]; lia|]. intros H. specialize (H vr eq_refl). lia.
Qed.

Lemma ValidatePvpoolResources_ok bs p :
  bss_PVPool (bs_Spec bs) = Some p →
  ValidatePvpoolResources bs = ok ↔
  ∀ vr, pvp_VolumeResources p = Some vr →
    resource_valid vr ResourceCPU ∧ resource_valid vr ResourceMemory.
Proof.
  intros Hp. unfold ValidatePvpoolResources. rewrite Hp.
  destruct (pvp_VolumeResources p) as [vr|]; [|by split].
  rewrite check_all_ok, !Forall_cons, Forall_nil, !validatePvpoolResource_ok.
  split; [intros (? & ? & _) ? [= <-]; done|]. intros H. by destruct (H vr eq_refl).
Qed.

Lemma ValidateBackingStore_pvpool bs :
  bss_Type (bs_Spec bs) = StoreTypePVPool → ValidateBackingStore bs = ok ↔ bs_valid bs.
Proof.
  intros Ht. unfold ValidateBackingStore, bs_valid, ValidateBSInValidSpec,
    ValidateBSEmptySecretName, ValidateBSEmptyTargetBucket. rewrite Ht.
  rewrite !check_ok, reject_ok. destruct (bss_PVPool (bs_Spec bs)) as [p|] eqn:Hp.
  2: { split; [by intros [? _]|by intros (? & ? & _)]. }
  rewrite (ValidatePvpoolMinVolSize_ok bs p Hp), (ValidatePvpoolResources_ok bs p Hp).
  unfold ValidatePvpoolNameLength, ValidateMaxVolumeCount, ValidateMinVolumeCount. rewrite Hp.
  cbn [deref mbind outcome_bind]. rewrite !reject_ok.
  unfold MaximumPvpoolNameLength, MaximumVolumeCount, pvpool_valid. split.
  - intros (_ & _ & _ & ? & Hv & ? & ? & Hr & _). exists p. split_and!; [done|lia..|].
    intros vr Hvr. split; [by apply Hv|by apply Hr].
  - intros (? & [= <-] & ? & ? & H). split_and!; try done; try lia; intros vr Hvr; by apply H.
Qed.

Lemma ValidateBackingStore_ok bs : ValidateBackingStore bs = ok ↔ bs_valid bs.
Proof.
  destruct (bool_decide_reflect (bss_Type (bs_Spec bs) = StoreTypePVPool)) as [?|Hp];
    [by apply ValidateBackingStore_pvpool|].
  unfold ValidateBackingStore, bs_valid, ValidateBSInValidSpec, ValidateBSEmptySecretName,
    ValidateBSEmptyTargetBucket, ValidateAWSSTSARN, ValidateAzureSTSCredentials.
  rewrite !check_ok.
  destruct (bss_Type (bs_Spec bs)); try done.
  - destruct (bss_AWSS3 (bs_Spec bs)) as [a|]; rewrite ?ex_Some, ?ex_None; [|by split; [intros [? _]|]].
    cbn [isNil deref mbind outcome_bind]. rewrite secret_or_check, nonempty_check. unfold guard. tauto.
  - destruct (bss_S3Compatible (bs_Spec bs)) as [a|]; rewrite ?ex_Some, ?ex_None; [|by split; [intros [? _]|]].
    cbn [isNil deref mbind outcome_bind]. rewrite !nonempty_check, ValidateSigVersion_ok. unfold guard. tauto.
  - destruct (bss_IBMCos (bs_Spec bs)) as [a|]; rewrite ?ex_Some, ?ex_None; [|by split; [intros [? _]|]].
    cbn [isNil deref mbind outcome_bind]. rewrite !nonempty_check, ValidateSigVersion_ok. unfold guard. tauto.
  - destruct (bss_GoogleCloudStorage (bs_Spec bs)) as [a|]; rewrite ?ex_Some, ?ex_None; [|by split; [intros [? _]|]].
    cbn [isNil deref mbind outcome_bind]. rewrite !nonempty_check. unfold guard. tauto.
  - destruct (bss_AzureBlob (bs_Spec bs)) as [a|]; rewrite ?ex_Some, ?ex_None; [|by split; [intros [? _]|]].
    cbn [isNil deref mbind outcome_bind]. rewrite secret_or_check, nonempty_check. unfold guard. tauto.
  - by split; [intros [? _]|].
Qed.

(** ** Totality *)

Lemma ValidatePvpoolResources_decides bs : decides (ValidatePvpoolResources bs).
Proof.
  unfold ValidatePvpoolResources, validatePvpoolResource.
  destruct MustParse_zero as (z & -> & _). cbn [mbind outcome_bind]. decides_steps.
Qed.

Lemma ValidateBackingStore_decides bs : decides (ValidateBackingStore bs).
Proof.
  unfold ValidateBackingStore. apply decides_check.
  { unfold ValidateBSInValidSpec. case_match; auto with go; apply decides_fail. }
  intros Hspec. unfold ValidateBSInValidSpec in Hspec.
  unfold ValidateBSEmptySecretName, ValidateBSEmptyTargetBucket, missingBSSecret, missingBSBucket,
    ValidateAWSSTSARN, ValidateAzureSTSCredentials, ValidateSigVersion.
  destruct (bss_Type (bs_Spec bs)) eqn:Ht; rewrite ?reject_ok, ?isNil_false in Hspec; try discriminate;
    destruct Hspec as [sub Hsub]; rewrite ?Hsub; cbn [deref mbind outcome_bind];
    decides_steps.
  - unfold ValidatePvpoolMinVolSize. rewrite Hsub. cbn. case_match; auto with go.
  - unfold ValidateMaxVolumeCount. rewrite Hsub. cbn. auto with go.
  - unfold ValidateMinVolumeCount. rewrite Hsub. cbn. auto with go.
  - apply ValidatePvpoolResources_decides.
Qed.

End Specification.
