(* ===== verification/GoUrl.v ===== *)
(** * Package [net/url], as far as endpoint validation uses it.

    [Parse] and [String] of the Go standard library.  The grammar of the authority
    (user information, host and port) has been tightened from one Go release to
    the next; it is the operation of the class [AuthoritySyntax], everything
    around it is defined here. *)

From S2P Require Import Prelude GoStrings Util StoreAccess.
From Stdlib Require Import Ascii.
Open Scope Z_scope.

Record URL := mkURL {
  u_Scheme : string;
  u_Opaque : string;
  u_User : option string;   (* [User.String()], [nil] being [None] *)
  u_Host : string;
  u_Path : string;
  u_RawPath : string;
  u_OmitHost : bool;
  u_ForceQuery : bool;
  u_RawQuery : string;
  u_Fragment : string;
  u_RawFragment : string;
}.

(** [parseAuthority(scheme, authority)]: the user information and the host. *)
Class AuthoritySyntax : Type := {
  parseAuthority : string → string → msg + (option string * string);
}.

(** ** Escapes *)

Inductive encoding := encodePath | encodeFragment.

Definition isAlnum (b : Z) : bool := in_range 97 122 b || in_range 65 90 b || in_range 48 57 b.
Definition oneOf (a : ascii) (set : string) : bool := Contains_str set (String a "").

Definition shouldEscape (mode : encoding) (a : ascii) : bool :=
  if isAlnum (byte a) then false
  else if oneOf a "-_.~" then false
  else if oneOf a "$&+,/:;=?@" then
    match mode with encodePath => a == "?"%char | encodeFragment => false end
  else match mode with
       | encodePath => true
       | encodeFragment => negb (oneOf a "!()*")
       end.

Fixpoint escape (mode : encoding) (s : string) : string :=
  match s with
  | EmptyString => EmptyString
  | String a s =>
      if shouldEscape mode a
      then let b := N_of_ascii a in
           String "%" (String (upperhex (b / 16)) (String (upperhex (b mod 16)) (escape mode s)))
      else String a (escape mode s)
  end.

Definition unhex (a : ascii) : option Z :=
  let b := byte a in
  if in_range 48 57 b then Some (b - 48)
  else if in_range 97 102 b then Some (b - 97 + 10)
  else if in_range 65 70 b then Some (b - 65 + 10)
  else None.

(** [unescape] in the modes of paths and fragments. *)
Fixpoint unescape (s : string) : option string :=
  match s with
  | EmptyString => Some EmptyString
  | String a rest =>
      if a == "%"%char then
        match rest with
        | String h (String l rest') =>
            match unhex h, unhex l with
            | Some x, Some y =>
                t ← unescape rest'; Some (String (ascii_of_N (Z.to_N (16 * x + y))) t)
            | _, _ => None
            end
        | _ => None
        end
      else t ← unescape rest; Some (String a t)
  end.

Definition validEncoded (mode : encoding) (s : string) : bool :=
  forallb (λ a, oneOf a "!$&'()*+,;=:@[]%" || negb (shouldEscape mode a)) (String.list_ascii_of_string s).

(** [setPath] and [setFragment]: the decoded form and, when it is not the default
    encoding, the raw one. *)
Definition setEncoded (mode : encoding) (p : string) : msg + (string * string) :=
  match unescape p with
  | None => inl (Sprintf "invalid URL escape %q" [AStr p])
  | Some path => inr (path, if p == escape mode path then ""%string else p)
  end.

(** [EscapedPath] and [EscapedFragment]. *)
Definition escaped (mode : encoding) (star : bool) (decoded raw : string) : string :=
  if (raw != "") && validEncoded mode raw && (unescape raw == Some decoded) then raw
  else if star && (decoded == "*") then "*"
  else escape mode decoded.

(** ** [Parse] *)

Definition isLetter (b : Z) : bool := in_range 97 122 b || in_range 65 90 b.
Definition isSchemeTail (a : ascii) : bool := in_range 48 57 (byte a) || oneOf a "+-.".

(** The scan of [getScheme] from its second byte on: the scheme and the rest, or
    [None] when there is none. *)
Fixpoint schemeTail (s : string) : option (string * string) :=
  match s with
  | EmptyString => None
  | String a s' =>
      if isLetter (byte a) || isSchemeTail a then
        '(sch, rest) ← schemeTail s'; Some (String a sch, rest)
      else if a == ":"%char then Some (""%string, s')
      else None
  end.

Definition getScheme (rawURL : string) : msg + (string * string) :=
  match rawURL with
  | EmptyString => inr (""%string, rawURL)
  | String a s' =>
      if isLetter (byte a) then
        match schemeTail s' with
        | Some (sch, rest) => inr (String a sch, rest)
        | None => inr (""%string, rawURL)
        end
      else if a == ":"%char then inl (Lit "missing protocol scheme")
      else inr (""%string, rawURL)
  end.

Definition containsCTLByte (s : string) : bool :=
  existsb (λ a, (byte a <? 32) || (byte a =? 127)) (String.list_ascii_of_string s).

(** [rest[i:]] from the first occurrence of the separator on, and what precedes. *)
Fixpoint splitAt (s : string) (sep : ascii) : string * string :=
  match s with
  | EmptyString => (""%string, ""%string)
  | String a s' => if a == sep then (""%string, s)
                   else let '(x, y) := splitAt s' sep in (String a x, y)
  end.

Section Parse.
Context `{AuthoritySyntax}.

(** [viaRequest]: only what may stand in an HTTP request, an absolute URI or path. *)
Definition parse (rawURL : string) (viaRequest : bool) : msg + URL :=
  if containsCTLByte rawURL then inl (Lit "net/url: invalid control character in URL")
  else if (rawURL == "") && viaRequest then inl (Lit "empty url")
  else if rawURL == "*" then inr (mkURL "" "" None "" "*" "" false false "" "" "")
  else
    match getScheme rawURL with
    | inl e => inl e
    | inr (sch, rest) =>
        let scheme := ToLower sch in
        let '(forceQuery, rest, rawQuery) :=
          if HasSuffix rest "?" && (Count rest "?" =? 1) then (true, TrimSuffix rest "?", ""%string)
          else let '(before, after, _) := Cut rest "?" in (false, before, after) in
        if negb (HasPrefix rest "/") && (scheme != "") then
          inr (mkURL scheme rest None "" "" "" false forceQuery rawQuery "" "")
        else if negb (HasPrefix rest "/") && viaRequest then inl (Lit "invalid URI for request")
        else if negb (HasPrefix rest "/") && Contains_str (Cut rest "/").1.1 ":" then
          inl (Lit "first path segment in URL cannot contain colon")
        else
          let withAuthority := ((scheme != "") || negb viaRequest && negb (HasPrefix rest "///")) && HasPrefix rest "//" in
          let '(authority, path) := if withAuthority then splitAt (TrimPrefix rest "//") "/" else (""%string, rest) in
          match (if withAuthority then parseAuthority scheme authority else inr (None, ""%string)) with
          | inl e => inl e
          | inr (user, host) =>
              let omitHost := negb withAuthority && (scheme != "") && HasPrefix rest "/" in
              match setEncoded encodePath path with
              | inl e => inl e
              | inr (path, rawPath) =>
                  inr (mkURL scheme "" user host path rawPath omitHost forceQuery rawQuery "" "")
              end
          end
    end.

Definition Parse (rawURL : string) : msg + URL :=
  let '(u, frag, _) := Cut rawURL "#" in
  match parse u false with
  | inl e => inl (Sprintf "parse %q: %v" [AStr u; AMsg e])
  | inr url =>
      if frag == "" then inr url
      else match setEncoded encodeFragment frag with
           | inl e => inl (Sprintf "parse %q: %v" [AStr rawURL; AMsg e])
           | inr (f, raw) =>
               inr (mkURL (u_Scheme url) (u_Opaque url) (u_User url) (u_Host url) (u_Path url)
                      (u_RawPath url) (u_OmitHost url) (u_ForceQuery url) (u_RawQuery url) f raw)
           end
  end.

Definition ParseRequestURI (rawURL : string) : msg + URL :=
  match parse rawURL true with
  | inl e => inl (Sprintf "parse %q: %v" [AStr rawURL; AMsg e])
  | inr url => inr url
  end.

End Parse.

(** ** Host and port *)

(** The text before the last colon and the text after it. *)
Fixpoint lastColon (s : string) : option (string * string) :=
  match s with
  | EmptyString => None
  | String a s' =>
      match lastColon s' with
      | Some (before, after) => Some (String a before, after)
      | None => if a == ":"%char then Some (EmptyString, s') else None
      end
  end.

Fixpoint every (f : ascii → bool) (s : string) : bool :=
  match s with EmptyString => true | String a s' => f a && every f s' end.
Definition isDigit (a : ascii) : bool := in_range 48 57 (byte a).

Definition splitHostPort (hostPort : string) : string * string :=
  let '(host, port) :=
    match lastColon hostPort with
    | Some (before, after) => if every isDigit after then (before, after) else (hostPort, ""%string)
    | None => (hostPort, ""%string)
    end in
  ((if HasPrefix host "[" && HasSuffix host "]" then TrimSuffix (TrimPrefix host "[") "]" else host), port).

Definition Hostname (u : URL) : string := (splitHostPort (u_Host u)).1.
Definition Port (u : URL) : string := (splitHostPort (u_Host u)).2.

(** ** [String] *)

Definition set_Scheme (s : string) (u : URL) : URL :=
  mkURL s (u_Opaque u) (u_User u) (u_Host u) (u_Path u) (u_RawPath u) (u_OmitHost u)
    (u_ForceQuery u) (u_RawQuery u) (u_Fragment u) (u_RawFragment u).

Definition URL_text (u : URL) : string :=
  let scheme := if u_Scheme u != "" then u_Scheme u +:+ ":" else ""%string in
  let noUser := bool_decide (u_User u = None) in
  let hier :=
    if u_Opaque u != "" then u_Opaque u
    else
      let authority :=
        if (u_Scheme u != "") || (u_Host u != "") || negb noUser then
          if u_OmitHost u && (u_Host u == "") && noUser then ""%string
          else (if (u_Host u != "") || (u_Path u != "") || negb noUser then "//"%string else ""%string)
               +:+ match u_User u with Some ui => ui +:+ "@" | None => ""%string end
               +:+ escapeHost (u_Host u)
        else ""%string in
      let path := escaped encodePath true (u_Path u) (u_RawPath u) in
      let slash := if (path != "") && negb (HasPrefix path "/") && (u_Host u != "") then "/"%string else ""%string in
      let dot := if (scheme +:+ authority +:+ slash == "") && Contains_str (Cut path "/").1.1 ":"
                 then "./"%string else ""%string in
      authority +:+ slash +:+ dot +:+ path in
  let query := if u_ForceQuery u || (u_RawQuery u != "") then "?" +:+ u_RawQuery u else ""%string in
  let fragment := if u_Fragment u != ""
                  then "#" +:+ escaped encodeFragment false (u_Fragment u) (u_RawFragment u) else ""%string in
  scheme +:+ hier +:+ query +:+ fragment.

(** ** A plain authority: a host name or address with an optional port *)

(** Used by the examples: no user information, no brackets, no escapes, at most
    one colon and only digits after it. *)
#[export] Instance PlainAuthority : AuthoritySyntax := {|
  parseAuthority _ authority :=
    let '(host, port, _) := Cut authority ":" in
    if forallb (λ a, isAlnum (byte a) || oneOf a "-._~") (String.list_ascii_of_string host)
       && forallb (λ a, in_range 48 57 (byte a)) (String.list_ascii_of_string port)
    then inr (None, authority)
    else inl (Sprintf "invalid character in host name" [])
|}.

(** ** Facts on hosts and ports *)

Lemma every_app f s t : every f (s +:+ t) = every f s && every f t.
Proof. induction s as [|a s IH]; [done|]. cbn. by rewrite IH, andb_assoc. Qed.

Lemma every_impl f g s : (∀ a, f a = true → g a = true) → every f s = true → every g s = true.
Proof.
  intros Hfg. induction s as [|a s IH]; [done|]. cbn. intros [Ha Hs]%andb_true_iff.
  by rewrite Hfg, IH.
Qed.

(** No character of the text is the separator. *)
Abbreviation without sep := (every (λ a, negb (a == sep))).

Lemma Cut_without s sep : without sep s = true → Cut s sep = (s, ""%string, false).
Proof.
  induction s as [|a s IH]; [done|]. cbn. intros [Ha Hs]%andb_true_iff. apply negb_true_iff in Ha.
  by rewrite Ha, IH.
Qed.

Lemma splitAt_without s sep : without sep s = true → splitAt s sep = (s, ""%string).
Proof.
  induction s as [|a s IH]; [done|]. cbn. intros [Ha Hs]%andb_true_iff. apply negb_true_iff in Ha.
  by rewrite Ha, IH.
Qed.

Lemma HasSuffix_without s sep : without sep s = true → HasSuffix s (String sep "") = false.
Proof.
  intros Hs. apply not_true_iff_false. rewrite HasSuffix_spec. intros [t ->]. rewrite every_app in Hs.
  apply andb_true_iff in Hs as [_ Hs]. cbn in Hs. by rewrite bool_decide_true in Hs.
Qed.

Lemma Contains_without s sep : Contains_str s (String sep "") = negb (without sep s).
Proof.
  induction s as [|a s IH]; [done|]. cbn -[HasPrefix]. rewrite IH, negb_andb, negb_involutive. f_equal.
  cbn. rewrite andb_true_r. by apply bool_decide_ext.
Qed.

Lemma lastColon_none s : without ":"%char s = true → lastColon s = None.
Proof.
  induction s as [|a s IH]; [done|]. cbn. intros [Ha Hs]%andb_true_iff. apply negb_true_iff in Ha.
  by rewrite IH, Ha.
Qed.

Lemma lastColon_app h p : without ":"%char p = true → lastColon (h +:+ ":" +:+ p) = Some (h, p).
Proof.
  intros Hp. induction h as [|a h IH]; cbn; [by rewrite lastColon_none|]. cbn in IH. by rewrite IH.
Qed.

Lemma digits_without_colon p : every isDigit p = true → without ":"%char p = true.
Proof.
  apply every_impl. intros a Ha. apply negb_true_iff, bool_decide_eq_false. by intros ->.
Qed.

(** A host in brackets, or any other text that is not in brackets, with a numeric
    port, is taken apart again. *)
Lemma splitHostPort_plain h p :
  every isDigit p = true → HasPrefix h "[" && HasSuffix h "]" = false →
  splitHostPort (h +:+ ":" +:+ p) = (h, p).
Proof.
  intros Hp Hh. unfold splitHostPort. rewrite lastColon_app by (by apply digits_without_colon). by rewrite Hp, Hh.
Qed.

Lemma splitHostPort_bracketed h p :
  every isDigit p = true → splitHostPort ("[" +:+ h +:+ "]:" +:+ p) = (h, p).
Proof.
  intros Hp. unfold splitHostPort.
  replace ("[" +:+ h +:+ "]:" +:+ p)%string with (("[" +:+ h +:+ "]") +:+ ":" +:+ p)%string
    by (by rewrite !string_app_assoc).
  rewrite lastColon_app by (by apply digits_without_colon). rewrite Hp.
  assert (Hpre : HasPrefix ("[" +:+ h +:+ "]") "[" = true) by (apply HasPrefix_spec; eauto).
  assert (Hsuf : HasSuffix ("[" +:+ h +:+ "]") "]" = true).
  { apply HasSuffix_spec. exists ("[" +:+ h). by rewrite string_app_assoc. }
  rewrite Hpre, Hsuf. cbn [andb]. by rewrite TrimPrefix_app, TrimSuffix_app.
Qed.

(** Names and IPv4 addresses. *)
Definition hostChar (a : ascii) : bool := isAlnum (byte a) || oneOf a ".-".

Definition hostOrPortChar (a : ascii) : bool := hostChar a || (a == ":"%char).

Lemma hostOrPort_char f :
  (∀ n, (n < 256)%nat → hostOrPortChar (ascii_of_nat n) = true → f (ascii_of_nat n) = true) →
  ∀ a, hostOrPortChar a = true → f a = true.
Proof.
  intros Hf a Ha. rewrite <-(ascii_nat_embedding a) in *. apply Hf; [|done]. apply nat_ascii_bounded.
Qed.

(** A decidable fact about every byte of a host or port, by enumeration. *)
Definition check_bytes (f : ascii → bool) : bool :=
  forallb (λ n, negb (hostOrPortChar (ascii_of_nat n)) || f (ascii_of_nat n)) (seq 0 256).

Lemma check_bytes_spec f : check_bytes f = true → ∀ a, hostOrPortChar a = true → f a = true.
Proof.
  intros H. apply hostOrPort_char. intros n Hn Hc. unfold check_bytes in H. rewrite forallb_forall in H.
  assert (Hin : In n (seq 0 256)) by (apply in_seq; lia). specialize (H n Hin). by rewrite Hc in H.
Qed.

Lemma hostPort_every h p f :
  check_bytes f = true → every hostChar h = true → every isDigit p = true → every f (h +:+ ":" +:+ p) = true.
Proof.
  intros Hf Hh Hp. apply (every_impl hostOrPortChar); [by apply check_bytes_spec|].
  rewrite !every_app, andb_true_iff. split.
  - revert Hh. apply every_impl. intros a Ha. unfold hostOrPortChar. by rewrite Ha.
  - cbn. revert Hp. apply every_impl. intros a Ha. unfold hostOrPortChar, hostChar, isAlnum, isDigit in *.
    by rewrite Ha, !orb_true_r.
Qed.

(** The part of the grammar of authorities that never changed: a plain host with a
    numeric port is itself. *)
Class AuthorityLaws `{AuthoritySyntax} : Prop := {
  parseAuthority_plain scheme h p :
    h ≠ ""%string → every hostChar h = true → every isDigit p = true →
    parseAuthority scheme (h +:+ ":" +:+ p) = inr (None, h +:+ ":" +:+ p);
}.

Lemma Parse_https `{AuthorityLaws} h p :
  h ≠ ""%string → every hostChar h = true → every isDigit p = true →
  ∃ u, Parse ("https://" +:+ h +:+ ":" +:+ p) = inr u ∧ u_Host u = h +:+ ":" +:+ p.
Proof.
  intros Hne Hh Hp. unfold Parse.
  assert (Hall : ∀ f, check_bytes f = true → every f "https://" = true →
            every f ("https://" +:+ h +:+ ":" +:+ p) = true).
  { intros f Hf Hs. rewrite every_app, Hs. by apply hostPort_every. }
  rewrite Cut_without by (by apply Hall; vm_compute).
  assert (Hctl : containsCTLByte ("https://" +:+ h +:+ ":" +:+ p) = false).
  { unfold containsCTLByte. apply not_true_iff_false. rewrite existsb_exists. intros (a & Ha & Hc).
    specialize (Hall (λ a, negb ((byte a <? 32) || (byte a =? 127))) eq_refl eq_refl).
    induction ("https://" +:+ h +:+ ":" +:+ p)%string as [|b s IH]; [done|].
    cbn in Hall, Ha. apply andb_true_iff in Hall as [Hb Hs]. destruct Ha as [->|Ha]; [by rewrite Hc in Hb|auto]. }
  unfold parse. rewrite Hctl. rewrite (bool_decide_false (_ = "*"%string)) by done.
  assert (Hsch : getScheme ("https://" +:+ h +:+ ":" +:+ p) = inr ("https"%string, "//" +:+ h +:+ ":" +:+ p)) by reflexivity.
  rewrite Hsch. cbn [andb]. rewrite andb_false_r.
  assert (Hq : ∀ c, check_bytes (λ a, negb (a == c)) = true → negb ("/"%char == c) = true →
            without c ("//" +:+ h +:+ ":" +:+ p) = true).
  { intros c Hc Hs. change ("//" +:+ h +:+ ":" +:+ p)%string with (String "/" (String "/" (h +:+ ":" +:+ p))).
    cbn [every]. rewrite Hs. by apply hostPort_every. }
  rewrite HasSuffix_without by (by apply Hq). cbn [andb]. rewrite Cut_without by (by apply Hq).
  assert (Hpre : HasPrefix ("//" +:+ h +:+ ":" +:+ p) "/" = true) by reflexivity.
  assert (Hpre2 : HasPrefix ("//" +:+ h +:+ ":" +:+ p) "//" = true) by reflexivity.
  rewrite Hpre, Hpre2. cbn [negb andb]. change (ToLower "https") with "https"%string.
  rewrite bool_decide_false by done. cbn [negb orb andb].
  rewrite TrimPrefix_app, splitAt_without by (by apply hostPort_every).
  rewrite parseAuthority_plain by done. cbn. eauto.
Qed.
