(* ===== verification/NamespaceStoreValidation.v ===== *)
(** * Validation of NamespaceStore resources: [pkg/validations/namespacestore_validations.go].

    [ValidateNamespaceStore] works on a pointer: the endpoint of an s3-compatible
    or ibm-cos store is rewritten in place to its normal form, so the function
    returns the store with its verdict. *)

From S2P Require Import Prelude GoStrings Types NbTypes Kube Util StoreAccess GoUrl BackingStoreValidation.
From Stdlib Require Import Ascii.

Definition defaultEndPointURI : string := "https://127.0.0.1:6443".
Definition MaximumMountPathLength : Z := 63.

Definition invalidNSType : error :=
  ValidationError (Lit "Invalid Namespacestore type, please provide a valid Namespacestore type").
Definition missingNSSecret : error :=
  ValidationError (Lit "Failed creating the namespacestore, please provide secret name").
Definition missingNSBucket : error :=
  ValidationError (Lit "Failed creating the namespacestore, please provide target bucket").
Definition nsBucketChanged : error :=
  ValidationError (Lit "Changing a NamespaceStore target bucket is unsupported").
Definition nsEndpointChanged : error :=
  ValidationError (Lit "Changing a NamespaceStore endpoint is unsupported; delete and re-create the NamespaceStore").

(** ** The checks on the spec alone *)

Section Checks.
Implicit Types ns oldNs : NamespaceStore.

Definition ValidateNSInValidSpec ns : verdict :=
  let spec := ns_Spec ns in
  match nss_Type spec with
  | NSStoreTypeNSFS =>
      reject! isNil (nss_NSFS spec)
        with ValidationError (Lit "NSFS spec must be provided for nsfs type Namespacestore") ;; ok
  | NSStoreTypeAWSS3 =>
      reject! isNil (nss_AWSS3 spec)
        with ValidationError (Lit "AWSS3 spec must be provided for aws-s3 type Namespacestore") ;; ok
  | NSStoreTypeS3Compatible =>
      reject! isNil (nss_S3Compatible spec)
        with ValidationError (Lit "S3Compatible spec must be provided for s3-compatible type Namespacestore") ;; ok
  | NSStoreTypeIBMCos =>
      reject! isNil (nss_IBMCos spec)
        with ValidationError (Lit "IBMCos spec must be provided for ibm-cos type Namespacestore") ;; ok
  | NSStoreTypeAzureBlob =>
      reject! isNil (nss_AzureBlob spec)
        with ValidationError (Lit "AzureBlob spec must be provided for azure-blob type Namespacestore") ;; ok
  | NSStoreTypeGoogleCloudStorage =>
      reject! isNil (nss_GoogleCloudStorage spec)
        with ValidationError (Lit "GoogleCloudStorage spec must be provided for google-cloud-storage type Namespacestore") ;; ok
  | NSStoreTypeOther _ => fail invalidNSType
  end.

Definition ValidateNsStoreNSFS ns : verdict :=
  match nss_NSFS (ns_Spec ns) with
  | None => ok
  | Some nsfs =>
      reject! nsfs_PvcName nsfs == "" with ValidationError (Lit "PvcName must not be empty") ;;
      check! (let path := nsfs_SubPath nsfs in
              if path != "" then
                reject! (len path >? 0)%Z && HasPrefix path "/"
                  with ValidationError (Sprintf "SubPath %s must be a relative path" [AStr path]) ;;
                check_all (λ item,
                  reject! item == ".."
                    with ValidationError (Sprintf "SubPath %s must not contain '..'" [AStr path]) ;; ok)
                  (Split path "/")
              else ok) ;;
      let mountPath := "/nsfs/" +:+ om_Name (ns_meta ns) in
      reject! (len mountPath >? MaximumMountPathLength)%Z
        with ValidationError (Sprintf "MountPath %v must be no more than 63 characters" [AStr mountPath]) ;; ok
  end.

Definition ValidateNsStoreAzureBlob ns : verdict :=
  if negb (IsAzureSTSClusterNS ns) then ok
  else
    az ← deref (nss_AzureBlob (ns_Spec ns));
    reject! TrimSpace (azb_TargetBlobContainer az) == ""
      with ValidationError (Lit "Failed creating the namespacestore, please provide target blob container (required for Azure STS)") ;;
    reject! match azb_ClientId az with None => true | Some c => TrimSpace c == "" end
      with ValidationError (Lit "Azure STS requires a non-empty client-id on the namespacestore spec") ;; ok.

Definition ValidateAzureSTSRequiredFlags (targetBlobContainer clientID tenantID accountName : string) : verdict :=
  reject! TrimSpace targetBlobContainer == "" with ValidationError (Lit "target-blob-container is required and must be non-empty") ;;
  reject! TrimSpace clientID == "" with ValidationError (Lit "client-id is required and must be non-empty") ;;
  reject! TrimSpace tenantID == "" with ValidationError (Lit "tenant-id is required and must be non-empty") ;;
  reject! TrimSpace accountName == "" with ValidationError (Lit "account-name is required and must be non-empty") ;;
  ok.

Definition ValidateNSEmptyAWSARN ns : verdict :=
  match nss_AWSS3 (ns_Spec ns) with
  | Some a =>
      reject! isNil (aws_AWSSTSRoleARN a)
        with ValidationError (Lit "Failed creating the NamespaceStore, please provide a valid ARN or secret name") ;; ok
  | None => ok
  end.

Definition ValidateNSEmptySecretName ns : verdict :=
  let spec := ns_Spec ns in
  match nss_Type spec with
  | NSStoreTypeAWSS3 =>
      a ← deref (nss_AWSS3 spec);
      if (len (sr_Name (aws_Secret a)) =? 0)%Z then check! ValidateNSEmptyAWSARN ns ;; ok else ok
  | NSStoreTypeS3Compatible =>
      s ← deref (nss_S3Compatible spec);
      reject! (len (sr_Name (s3c_Secret s)) =? 0)%Z with missingNSSecret ;; ok
  | NSStoreTypeIBMCos =>
      s ← deref (nss_IBMCos spec);
      reject! (len (sr_Name (ibm_Secret s)) =? 0)%Z with missingNSSecret ;; ok
  | NSStoreTypeAzureBlob =>
      a ← deref (nss_AzureBlob spec);
      if (len (sr_Name (azb_Secret a)) =? 0)%Z then
        reject! IsAzureSTSClusterNS ns
          with ValidationError (Lit "Azure STS requires a secret (containing azure_tenant_id and azure_client_id); provide --secret-name or omit it to create one from flags") ;;
        fail (ValidationError (Lit "Failed creating the namespacestore: secret name (secret must contain AccountName and AccountKey) and target blob container are both required"))
      else ok
  | NSStoreTypeGoogleCloudStorage =>
      g ← deref (nss_GoogleCloudStorage spec);
      reject! (len (sr_Name (gcs_Secret g)) =? 0)%Z with missingNSSecret ;; ok
  | NSStoreTypeNSFS => ok
  | NSStoreTypeOther _ => fail invalidNSType
  end.

Definition ValidateNSEmptyTargetBucket ns : verdict :=
  let spec := ns_Spec ns in
  match nss_Type spec with
  | NSStoreTypeAWSS3 =>
      a ← deref (nss_AWSS3 spec);
      reject! (len (aws_TargetBucket a) =? 0)%Z with missingNSBucket ;; ok
  | NSStoreTypeS3Compatible =>
      s ← deref (nss_S3Compatible spec);
      reject! (len (s3c_TargetBucket s) =? 0)%Z with missingNSBucket ;; ok
  | NSStoreTypeIBMCos =>
      s ← deref (nss_IBMCos spec);
      reject! (len (ibm_TargetBucket s) =? 0)%Z with missingNSBucket ;; ok
  | NSStoreTypeAzureBlob =>
      a ← deref (nss_AzureBlob spec);
      reject! (len (azb_TargetBlobContainer a) =? 0)%Z with missingNSBucket ;; ok
  | NSStoreTypeGoogleCloudStorage =>
      g ← deref (nss_GoogleCloudStorage spec);
      reject! (len (gcs_TargetBucket g) =? 0)%Z with missingNSBucket ;; ok
  | NSStoreTypeNSFS => ok
  | NSStoreTypeOther _ => fail invalidNSType
  end.

Definition ValidateNSArchiveSpec ns : verdict :=
  if negb (nss_Archive (ns_Spec ns)) then ok
  else
    reject! nss_Type (ns_Spec ns) != NSStoreTypeS3Compatible
      with ValidationError (Lit "archive can only be set on s3-compatible type NamespaceStore") ;;
    reject! isNil (nss_S3Compatible (ns_Spec ns))
      with ValidationError (Lit "S3Compatible spec must be provided when archive is enabled") ;; ok.

Definition ValidateTargetNSBucketChange ns oldNs : verdict :=
  let spec := ns_Spec ns in
  let oldSpec := ns_Spec oldNs in
  match nss_Type spec with
  | NSStoreTypeAWSS3 =>
      o ← deref (nss_AWSS3 oldSpec); n ← deref (nss_AWSS3 spec);
      reject! aws_TargetBucket o != aws_TargetBucket n with nsBucketChanged ;; ok
  | NSStoreTypeS3Compatible =>
      o ← deref (nss_S3Compatible oldSpec); n ← deref (nss_S3Compatible spec);
      reject! s3c_TargetBucket o != s3c_TargetBucket n with nsBucketChanged ;; ok
  | NSStoreTypeIBMCos =>
      o ← deref (nss_IBMCos oldSpec); n ← deref (nss_IBMCos spec);
      reject! ibm_TargetBucket o != ibm_TargetBucket n with nsBucketChanged ;; ok
  | NSStoreTypeAzureBlob =>
      o ← deref (nss_AzureBlob oldSpec); n ← deref (nss_AzureBlob spec);
      reject! azb_TargetBlobContainer o != azb_TargetBlobContainer n with nsBucketChanged ;; ok
  | NSStoreTypeGoogleCloudStorage =>
      o ← deref (nss_GoogleCloudStorage oldSpec); n ← deref (nss_GoogleCloudStorage spec);
      reject! gcs_TargetBucket o != gcs_TargetBucket n with nsBucketChanged ;; ok
  | _ => fail (ValidationError (Lit "Failed to identify NamespaceStore type"))
  end.

Fixpoint validateResourcesDeletion (name : string) (l : list NamespaceResourceInfo) : verdict :=
  match l with
  | [] => ok
  | nsr :: l =>
      if nsr_Name nsr == name then
        reject! nsr_Undeletable nsr == "IN_USE"
          with ValidationError (Sprintf "cannot complete because nsr %q in %q state"
                                  [AStr (nsr_Name nsr); AStr (nsr_Undeletable nsr)]) ;; ok
      else validateResourcesDeletion name l
  end.

Definition ValidateNamespacestoreDeletion ns (systemInfo : SystemInfo) : verdict :=
  validateResourcesDeletion (om_Name (ns_meta ns)) (si_NamespaceResources systemInfo).

End Checks.

(** ** Endpoints *)

(** [^\w+://] *)
Definition isWord (a : ascii) : bool := isAlnum (byte a) || (a == "_"%char).

Fixpoint dropWord (s : string) : string :=
  match s with
  | EmptyString => EmptyString
  | String a s' => if isWord a then dropWord s' else s
  end.

Definition matchScheme (s : string) : bool :=
  match s with
  | EmptyString => false
  | String a s' => isWord a && HasPrefix (dropWord s') "://"
  end.

Section Endpoints.
Context `{AuthoritySyntax}.

(** [ValidateEndPoint]: the new value of the string it is given a pointer to.  The
    pattern is a constant that compiles, so [MatchString] has no error. *)
Definition ValidateEndPoint (endPoint : string) : error + string :=
  let endPoint := if endPoint == "" then defaultEndPointURI else endPoint in
  let endPoint := if negb (matchScheme endPoint) then "https://" +:+ endPoint else endPoint in
  match Parse endPoint with
  | inl err => inl (ValidationError (Sprintf "Invalid endpoint url %q: %v" [AStr endPoint; AMsg err]))
  | inr u =>
      let u := if u_Scheme u == "" then set_Scheme "https" u else u in
      inr (URL_text u)
  end.

Definition EndpointsEquivalent (endpointA endpointB : string) : error + bool :=
  match ValidateEndPoint endpointA with
  | inl err => inl err
  | inr a =>
      match ValidateEndPoint endpointB with
      | inl err => inl err
      | inr b => inr (a == b)
      end
  end.

(** [u, _ := url.Parse(...)] drops the error; [u] is nil then. *)
Definition ValidateSignatureVersion (signature : S3SignatureVersion) (nsStoreEndpoint nsStoreName : string) : verdict :=
  reject! (signature != S3SignatureVersionNone) && (signature != S3SignatureVersionV2)
          && (signature != S3SignatureVersionV4)
    with ValidationError (Sprintf "Invalid s3 signature version %q for namespace store %q"
                            [AStr (S3SignatureVersion_string signature); AStr nsStoreName]) ;;
  if nsStoreEndpoint != "" then
    u ← deref (match Parse nsStoreEndpoint with inr u => Some u | inl _ => None end);
    if u_Scheme u == "http" then
      reject! signature == S3SignatureVersionV4
        with ValidationError (Sprintf "Non-secure endpoint works only with signature-version %q. Please select signature version v2 for namespacestore" [AStr "v2"]) ;; ok
    else ok
  else ok.

Definition set_s3c_Endpoint e (s : S3CompatibleSpec) : S3CompatibleSpec :=
  mkS3CompatibleSpec (s3c_TargetBucket s) (s3c_Secret s) e (s3c_SignatureVersion s).
Definition set_ibm_Endpoint e (s : IBMCosSpec) : IBMCosSpec :=
  mkIBMCosSpec (ibm_TargetBucket s) (ibm_Secret s) e (ibm_SignatureVersion s).
Definition set_ns_S3Compatible v (n : NamespaceStore) : NamespaceStore :=
  let s := ns_Spec n in
  mkNamespaceStore (ns_meta n)
    (mkNamespaceStoreSpec (nss_Type s) (nss_Archive s) (nss_AccessMode s) (nss_AWSS3 s) v
       (nss_IBMCos s) (nss_AzureBlob s) (nss_GoogleCloudStorage s) (nss_NSFS s)) (ns_Status n).
Definition set_ns_IBMCos v (n : NamespaceStore) : NamespaceStore :=
  let s := ns_Spec n in
  mkNamespaceStore (ns_meta n)
    (mkNamespaceStoreSpec (nss_Type s) (nss_Archive s) (nss_AccessMode s) (nss_AWSS3 s) (nss_S3Compatible s)
       v (nss_AzureBlob s) (nss_GoogleCloudStorage s) (nss_NSFS s)) (ns_Status n).

Definition ValidateNsStoreS3Compatible (ns : NamespaceStore) : outcome (NamespaceStore * option error) :=
  match nss_S3Compatible (ns_Spec ns) with
  | None => Ret (ns, None)
  | Some s3 =>
      err ← ValidateSignatureVersion (s3c_SignatureVersion s3) (s3c_Endpoint s3) (om_Name (ns_meta ns));
      match err with
      | Some e => Ret (ns, Some e)
      | None =>
          match ValidateEndPoint (s3c_Endpoint s3) with
          | inl e => Ret (ns, Some e)
          | inr ep => Ret (set_ns_S3Compatible (Some (set_s3c_Endpoint ep s3)) ns, None)
          end
      end
  end.

Definition ValidateNsStoreIBMCos (ns : NamespaceStore) : outcome (NamespaceStore * option error) :=
  match nss_IBMCos (ns_Spec ns) with
  | None => Ret (ns, None)
  | Some ibm =>
      err ← ValidateSignatureVersion (ibm_SignatureVersion ibm) "" (om_Name (ns_meta ns));
      match err with
      | Some e => Ret (ns, Some e)
      | None =>
          match ValidateEndPoint (ibm_Endpoint ibm) with
          | inl e => Ret (ns, Some e)
          | inr ep => Ret (set_ns_IBMCos (Some (set_ibm_Endpoint ep ibm)) ns, None)
          end
      end
  end.

(** The checks before the switch leave the store alone. *)
Definition unchanged (ns : NamespaceStore) (r : verdict) : outcome (NamespaceStore * option error) :=
  err ← r; Ret (ns, err).

Definition ValidateNamespaceStore (ns : NamespaceStore) : outcome (NamespaceStore * option error) :=
  err ← (check! ValidateNSInValidSpec ns ;;
         check! ValidateNSEmptySecretName ns ;;
         check! ValidateNSEmptyTargetBucket ns ;;
         check! ValidateNSArchiveSpec ns ;; ok);
  match err with
  | Some e => Ret (ns, Some e)
  | None =>
      match nss_Type (ns_Spec ns) with
      | NSStoreTypeNSFS => unchanged ns (ValidateNsStoreNSFS ns)
      | NSStoreTypeAWSS3 => Ret (ns, None)
      | NSStoreTypeS3Compatible => ValidateNsStoreS3Compatible ns
      | NSStoreTypeIBMCos => ValidateNsStoreIBMCos ns
      | NSStoreTypeAzureBlob => unchanged ns (ValidateNsStoreAzureBlob ns)
      | NSStoreTypeGoogleCloudStorage => Ret (ns, None)
      | NSStoreTypeOther _ => Ret (ns, Some invalidNSType)
      end
  end.

Definition ValidateNSEndpointChange (ns oldNs : NamespaceStore) : verdict :=
  let compare old new :=
    match EndpointsEquivalent old new with
    | inl err => fail err
    | inr equal => reject! negb equal with nsEndpointChanged ;; ok
    end in
  match nss_Type (ns_Spec ns) with
  | NSStoreTypeS3Compatible =>
      match nss_S3Compatible (ns_Spec oldNs), nss_S3Compatible (ns_Spec ns) with
      | Some o, Some n => compare (s3c_Endpoint o) (s3c_Endpoint n)
      | _, _ => ok
      end
  | NSStoreTypeIBMCos =>
      match nss_IBMCos (ns_Spec oldNs), nss_IBMCos (ns_Spec ns) with
      | Some o, Some n => compare (ibm_Endpoint o) (ibm_Endpoint n)
      | _, _ => ok
      end
  | _ => ok
  end.

End Endpoints.

(** ** Sub paths *)

(** Resolution of a relative path by the file system, from a directory given by
    the components below the volume's root; [None] when it leaves the volume. *)
Fixpoint resolve (dir : list string) (components : list string) : option (list string) :=
  match components with
  | [] => Some dir
  | c :: cs =>
      if (c == "") || (c == ".") then resolve dir cs
      else if c == ".." then
        match dir with [] => None | _ => resolve (removelast dir) cs end
      else resolve (dir ++ [c]) cs
  end.

Lemma resolve_below dir cs :
  Forall (λ c, c ≠ "..") cs → ∃ rest, resolve dir cs = Some (dir ++ rest).
Proof.
  intros H. revert dir. induction H as [|c cs Hc _ IH]; intros dir; cbn [resolve].
  - exists []. by rewrite app_nil_r.
  - destruct ((c == "") || (c == ".")); [apply IH|]. rewrite bool_decide_false by done.
    destruct (IH (dir ++ [c])) as [rest ->]. exists (c :: rest). by rewrite <-app_assoc.
Qed.

Definition subpath_valid (path : string) : Prop :=
  path = "" ∨ (HasPrefix path "/" = false ∧ ".." ∉ Split path "/").

Lemma check_items_ok (items : list string) e :
  check_all (λ item, guard (item == "..") e ok) items = ok ↔ ".." ∉ items.
Proof.
  rewrite check_all_ok, Forall_forall. split.
  - intros H Hin. apply H in Hin. by rewrite reject_ok, bool_decide_eq_false in Hin.
  - intros Hn x Hx. rewrite reject_ok, bool_decide_eq_false. by intros ->.
Qed.

Lemma ValidateNsStoreNSFS_ok ns f :
  nss_NSFS (ns_Spec ns) = Some f →
  ValidateNsStoreNSFS ns = ok ↔
  nsfs_PvcName f ≠ "" ∧ subpath_valid (nsfs_SubPath f) ∧ (len (om_Name (ns_meta ns)) ≤ 57)%Z.
Proof.
  intros Hf. unfold ValidateNsStoreNSFS, MaximumMountPathLength, subpath_valid. rewrite Hf.
  rewrite guard_ok, check_ok, reject_ok, bool_decide_eq_false, len_app.
  apply and_iff_compat_l. f_equiv.
  2: { change (len "/nsfs/") with 6%Z. split; lia. }
  case_bool_decide as Hp; cbn [negb]; [by split; [left|]|].
  rewrite guard_ok, check_items_ok. assert (((len (nsfs_SubPath f) >? 0) = true)%Z) as ->.
  { apply Z.gtb_lt. rewrite <-len_zero in Hp. unfold len in *. lia. }
  simpl. split; [by right|by intros [?|?]].
Qed.

(** ** What is accepted, and what the endpoint becomes *)

Section Specification.
Context {AS : AuthoritySyntax}.

(** [ns_accepted ns ns']: the store is accepted and left as [ns']. *)
Definition ns_accepted (ns ns' : NamespaceStore) : Prop :=
  let spec := ns_Spec ns in
  match nss_Type spec with
  | NSStoreTypeNSFS => ns' = ns ∧ nss_Archive spec = false ∧ ∃ f, nss_NSFS spec = Some f ∧
      nsfs_PvcName f ≠ "" ∧ subpath_valid (nsfs_SubPath f) ∧ (len (om_Name (ns_meta ns)) ≤ 57)%Z
  | NSStoreTypeAWSS3 => ns' = ns ∧ nss_Archive spec = false ∧ ∃ a, nss_AWSS3 spec = Some a ∧
      (sr_Name (aws_Secret a) ≠ "" ∨ is_Some (aws_AWSSTSRoleARN a)) ∧ aws_TargetBucket a ≠ ""
  | NSStoreTypeS3Compatible => ∃ s ep, nss_S3Compatible spec = Some s ∧
      sr_Name (s3c_Secret s) ≠ "" ∧ s3c_TargetBucket s ≠ "" ∧ sig_valid (s3c_SignatureVersion s) ∧
      (s3c_Endpoint s ≠ "" → ∃ u, Parse (s3c_Endpoint s) = inr u ∧
        ¬ (u_Scheme u = "http" ∧ s3c_SignatureVersion s = S3SignatureVersionV4)) ∧
      ValidateEndPoint (s3c_Endpoint s) = inr ep ∧
      ns' = set_ns_S3Compatible (Some (set_s3c_Endpoint ep s)) ns
  | NSStoreTypeIBMCos => nss_Archive spec = false ∧ ∃ s ep, nss_IBMCos spec = Some s ∧
      sr_Name (ibm_Secret s) ≠ "" ∧ ibm_TargetBucket s ≠ "" ∧ sig_valid (ibm_SignatureVersion s) ∧
      ValidateEndPoint (ibm_Endpoint s) = inr ep ∧
      ns' = set_ns_IBMCos (Some (set_ibm_Endpoint ep s)) ns
  | NSStoreTypeAzureBlob => ns' = ns ∧ nss_Archive spec = false ∧ ∃ a, nss_AzureBlob spec = Some a ∧
      sr_Name (azb_Secret a) ≠ "" ∧ azb_TargetBlobContainer a ≠ "" ∧
      (∀ c, azb_ClientId a = Some c → TrimSpace (azb_TargetBlobContainer a) ≠ "" ∧ TrimSpace c ≠ "")
  | NSStoreTypeGoogleCloudStorage => ns' = ns ∧ nss_Archive spec = false ∧
      ∃ g, nss_GoogleCloudStorage spec = Some g ∧ sr_Name (gcs_Secret g) ≠ "" ∧ gcs_TargetBucket g ≠ ""
  | NSStoreTypeOther _ => False
  end.

Lemma sig_valid_test v :
  (v != S3SignatureVersionNone) && (v != S3SignatureVersionV2) && (v != S3SignatureVersionV4) = false ↔ sig_valid v.
Proof. unfold sig_valid. destruct v; simpl; split; try done; try tauto. by intros [|[|]]. Qed.

Lemma ValidateSignatureVersion_ok v ep name :
  ValidateSignatureVersion v ep name = ok ↔
  sig_valid v ∧ (ep ≠ "" → ∃ u, Parse ep = inr u ∧ ¬ (u_Scheme u = "http" ∧ v = S3SignatureVersionV4)).
Proof.
  unfold ValidateSignatureVersion. rewrite guard_ok, sig_valid_test. apply and_iff_compat_l.
  case_bool_decide as Hep; cbn [negb]; [by split|].
  destruct (Parse ep) as [e|u]; cbn [deref mbind outcome_bind].
  { split; [done|]. intros H. by destruct (H Hep) as (? & ? & _). }
  destruct (bool_decide_reflect (u_Scheme u = "http")) as [Hu|Hu].
  - rewrite reject_ok, bool_decide_eq_false. split; [intros ? _; exists u; split; [done|by intros []]|].
    intros H Hv. destruct (H Hep) as (? & [= <-] & Hn). by apply Hn.
  - split; [intros _ _; exists u; split; [done|by intros []]|done].
Qed.

(** The check panics exactly on an endpoint [url.Parse] refuses. *)
Lemma ValidateSignatureVersion_panic v ep name p :
  ValidateSignatureVersion v ep name = Panic p ↔
  sig_valid v ∧ ep ≠ "" ∧ p = NilDeref ∧ ∃ e, Parse ep = inl e.
Proof.
  unfold ValidateSignatureVersion, guard. rewrite <-sig_valid_test.
  destruct ((v != S3SignatureVersionNone) && _ && _); [by split; [|intros [? _]]|].
  case_bool_decide as Hep; cbn [negb]; [by split; [|intros (_ & ? & _)]|].
  destruct (Parse ep) as [e|u]; cbn [deref mbind outcome_bind].
  - split; [intros [= <-]; eauto|]. by intros (_ & _ & -> & _).
  - split; [repeat case_bool_decide; done|]. by intros (_ & _ & _ & ? & ?).
Qed.

Lemma ValidateNSArchiveSpec_ok ns :
  ValidateNSArchiveSpec ns = ok ↔
  (nss_Archive (ns_Spec ns) = true →
   nss_Type (ns_Spec ns) = NSStoreTypeS3Compatible ∧ is_Some (nss_S3Compatible (ns_Spec ns))).
Proof.
  unfold ValidateNSArchiveSpec. destruct (nss_Archive (ns_Spec ns)); cbn [negb]; [|by split].
  rewrite guard_ok, reject_ok, isNil_false, negb_false_iff, bool_decide_eq_true. split; auto.
Qed.

(** The four checks every type goes through. *)
Definition ns_common (ns : NamespaceStore) : verdict :=
  check! ValidateNSInValidSpec ns ;;
  check! ValidateNSEmptySecretName ns ;;
  check! ValidateNSEmptyTargetBucket ns ;;
  check! ValidateNSArchiveSpec ns ;; ok.

Definition ns_common_valid (ns : NamespaceStore) : Prop :=
  let spec := ns_Spec ns in
  (nss_Archive spec = true → nss_Type spec = NSStoreTypeS3Compatible) ∧
  match nss_Type spec with
  | NSStoreTypeNSFS => is_Some (nss_NSFS spec)
  | NSStoreTypeAWSS3 => ∃ a, nss_AWSS3 spec = Some a ∧
      (sr_Name (aws_Secret a) ≠ "" ∨ is_Some (aws_AWSSTSRoleARN a)) ∧ aws_TargetBucket a ≠ ""
  | NSStoreTypeS3Compatible => ∃ s, nss_S3Compatible spec = Some s ∧
      sr_Name (s3c_Secret s) ≠ "" ∧ s3c_TargetBucket s ≠ ""
  | NSStoreTypeIBMCos => ∃ s, nss_IBMCos spec = Some s ∧
      sr_Name (ibm_Secret s) ≠ "" ∧ ibm_TargetBucket s ≠ ""
  | NSStoreTypeAzureBlob => ∃ a, nss_AzureBlob spec = Some a ∧
      sr_Name (azb_Secret a) ≠ "" ∧ azb_TargetBlobContainer a ≠ ""
  | NSStoreTypeGoogleCloudStorage => ∃ g, nss_GoogleCloudStorage spec = Some g ∧
      sr_Name (gcs_Secret g) ≠ "" ∧ gcs_TargetBucket g ≠ ""
  | NSStoreTypeOther _ => False
  end.

Lemma secret_required s c e1 e2 :
  (if (len s =? 0)%Z then guard c e1 (fail e2) else ok) = ok ↔ s ≠ "".
Proof.
  destruct (len s =? 0)%Z eqn:E.
  - apply Z.eqb_eq, len_zero in E. by destruct c; split.
  - by apply len_eqb_false in E.
Qed.

Lemma ns_common_ok ns : ns_common ns = ok ↔ ns_common_valid ns.
Proof.
  unfold ns_common, ns_common_valid. rewrite !check_ok, ValidateNSArchiveSpec_ok.
  unfold ValidateNSInValidSpec, ValidateNSEmptySecretName, ValidateNSEmptyTargetBucket, ValidateNSEmptyAWSARN.
  destruct (nss_Type (ns_Spec ns)) eqn:Ht.
  - destruct (nss_AWSS3 (ns_Spec ns)) as [a|]; rewrite ?ex_Some, ?ex_None; [|by split; [intros [? _]|intros [_ ?]]].
    cbn [isNil deref mbind outcome_bind]. rewrite secret_or_check, nonempty_check. unfold guard.
    destruct (nss_Archive _); intuition congruence.
  - destruct (nss_S3Compatible (ns_Spec ns)) as [a|]; rewrite ?ex_Some, ?ex_None; [|by split; [intros [? _]|intros [_ ?]]].
    cbn [isNil deref mbind outcome_bind]. rewrite !nonempty_check. unfold guard.
    destruct (nss_Archive _); intuition eauto.
  - destruct (nss_IBMCos (ns_Spec ns)) as [a|]; rewrite ?ex_Some, ?ex_None; [|by split; [intros [? _]|intros [_ ?]]].
    cbn [isNil deref mbind outcome_bind]. rewrite !nonempty_check. unfold guard.
    destruct (nss_Archive _); intuition congruence.
  - destruct (nss_AzureBlob (ns_Spec ns)) as [a|]; rewrite ?ex_Some, ?ex_None; [|by split; [intros [? _]|intros [_ ?]]].
    cbn [isNil deref mbind outcome_bind]. rewrite secret_required, nonempty_check. unfold guard.
    destruct (nss_Archive _); intuition congruence.
  - destruct (nss_GoogleCloudStorage (ns_Spec ns)) as [a|]; rewrite ?ex_Some, ?ex_None; [|by split; [intros [? _]|intros [_ ?]]].
    cbn [isNil deref mbind outcome_bind]. rewrite !nonempty_check. unfold guard.
    destruct (nss_Archive _); intuition congruence.
  - rewrite reject_ok, isNil_false. destruct (nss_Archive _); intuition congruence.
  - by split; [intros [? _]|intros [_ ?]].
Qed.

Lemma unchanged_ok ns ns' r : unchanged ns r = Ret (ns', None) ↔ ns' = ns ∧ r = ok.
Proof.
  unfold unchanged, ok. destruct r as [[e|]|p]; cbn; (split; [intros [=]|intros [? [=]]]); by subst.
Qed.

Lemma ValidateNsStoreAzureBlob_ok ns a :
  nss_Type (ns_Spec ns) = NSStoreTypeAzureBlob → nss_AzureBlob (ns_Spec ns) = Some a →
  ValidateNsStoreAzureBlob ns = ok ↔
  ∀ c, azb_ClientId a = Some c → TrimSpace (azb_TargetBlobContainer a) ≠ "" ∧ TrimSpace c ≠ "".
Proof.
  intros Ht Ha. unfold ValidateNsStoreAzureBlob, IsAzureSTSClusterNS. rewrite Ht, Ha.
  rewrite bool_decide_true by done. destruct (azb_ClientId a) as [c|] eqn:Hc; [|by split].
  rewrite bool_decide_true by (by exists c). cbn [deref mbind outcome_bind negb]. rewrite Hc, guard_ok, reject_ok, !bool_decide_eq_false. split; [by intros ? ? [= <-]|auto].
Qed.

(** The endpoint of an s3-compatible store is checked, then rewritten. *)
Lemma ValidateNsStoreS3Compatible_ok ns ns' s :
  nss_S3Compatible (ns_Spec ns) = Some s →
  ValidateNsStoreS3Compatible ns = Ret (ns', None) ↔
  ValidateSignatureVersion (s3c_SignatureVersion s) (s3c_Endpoint s) (om_Name (ns_meta ns)) = ok ∧
  ∃ ep, ValidateEndPoint (s3c_Endpoint s) = inr ep ∧
        ns' = set_ns_S3Compatible (Some (set_s3c_Endpoint ep s)) ns.
Proof.
  intros Hs. unfold ValidateNsStoreS3Compatible. rewrite Hs. unfold ok.
  destruct (ValidateSignatureVersion _ _ _) as [[e|]|p]; cbn; [by split; [|intros [? _]]| |by split; [|intros [? _]]].
  destruct (ValidateEndPoint _) as [e|ep]; split; [done|by intros (_ & ? & ? & _)|intros [= <-]; eauto|].
  by intros (_ & ? & [= <-] & ->).
Qed.

Lemma ValidateNsStoreIBMCos_ok ns ns' s :
  nss_IBMCos (ns_Spec ns) = Some s →
  ValidateNsStoreIBMCos ns = Ret (ns', None) ↔
  ValidateSignatureVersion (ibm_SignatureVersion s) "" (om_Name (ns_meta ns)) = ok ∧
  ∃ ep, ValidateEndPoint (ibm_Endpoint s) = inr ep ∧
        ns' = set_ns_IBMCos (Some (set_ibm_Endpoint ep s)) ns.
Proof.
  intros Hs. unfold ValidateNsStoreIBMCos. rewrite Hs. unfold ok.
  destruct (ValidateSignatureVersion _ _ _) as [[e|]|p]; cbn; [by split; [|intros [? _]]| |by split; [|intros [? _]]].
  destruct (ValidateEndPoint _) as [e|ep]; split; [done|by intros (_ & ? & ? & _)|intros [= <-]; eauto|].
  by intros (_ & ? & [= <-] & ->).
Qed.

Lemma ValidateNamespaceStore_split ns ns' :
  ValidateNamespaceStore ns = Ret (ns', None) ↔
  ns_common ns = ok ∧
  match nss_Type (ns_Spec ns) with
  | NSStoreTypeNSFS => unchanged ns (ValidateNsStoreNSFS ns)
  | NSStoreTypeS3Compatible => ValidateNsStoreS3Compatible ns
  | NSStoreTypeIBMCos => ValidateNsStoreIBMCos ns
  | NSStoreTypeAzureBlob => unchanged ns (ValidateNsStoreAzureBlob ns)
  | NSStoreTypeAWSS3 | NSStoreTypeGoogleCloudStorage => Ret (ns, None)
  | NSStoreTypeOther _ => Ret (ns, Some invalidNSType)
  end = Ret (ns', None).
Proof.
  unfold ValidateNamespaceStore. fold (ns_common ns). unfold ok.
  destruct (ns_common ns) as [[e|]|p]; cbn [mbind outcome_bind]; [by split; [|intros [? _]]| |by split; [|intros [? _]]].
  destruct (nss_Type (ns_Spec ns)); tauto.
Qed.

Lemma ValidateNamespaceStore_ok ns ns' :
  ValidateNamespaceStore ns = Ret (ns', None) ↔ ns_accepted ns ns'.
Proof.
  rewrite ValidateNamespaceStore_split, ns_common_ok. unfold ns_common_valid, ns_accepted.
  destruct (nss_Type (ns_Spec ns)) eqn:Ht.
  - split; [intros [[Harch ?] [= <-]]|by intros (-> & -> & ?)].
    destruct (nss_Archive (ns_Spec ns)); [by specialize (Harch eq_refl)|done].
  - split.
    + intros [(_ & s & Hs & ? & ?) Hk]. rewrite (ValidateNsStoreS3Compatible_ok _ _ s Hs) in Hk.
      rewrite ValidateSignatureVersion_ok in Hk. destruct Hk as ((? & ?) & ep & ? & ?). by exists s, ep.
    + intros (s & ep & Hs & ? & ? & ? & ? & ? & ?).
      rewrite (ValidateNsStoreS3Compatible_ok _ _ s Hs), ValidateSignatureVersion_ok. split; eauto 10.
  - split.
    + intros [(Harch & s & Hs & ? & ?) Hk]. rewrite (ValidateNsStoreIBMCos_ok _ _ s Hs) in Hk.
      rewrite ValidateSignatureVersion_ok in Hk. destruct Hk as ((? & ?) & ep & ? & ?).
      split; [|by exists s, ep]. by destruct (nss_Archive (ns_Spec ns)); [specialize (Harch eq_refl)|].
    + intros (-> & s & ep & Hs & ? & ? & ? & ? & ?).
      rewrite (ValidateNsStoreIBMCos_ok _ _ s Hs), ValidateSignatureVersion_ok. split; [split; [done|by exists s]|].
      split; [by split|eauto].
  - rewrite unchanged_ok. split.
    + intros [(Harch & a & Ha & ? & ?) [-> Hk]]. rewrite (ValidateNsStoreAzureBlob_ok ns a Ht Ha) in Hk.
      split; [done|]. split; [|by exists a]. by destruct (nss_Archive (ns_Spec ns)); [specialize (Harch eq_refl)|].
    + intros (-> & -> & a & Ha & ? & ? & ?). rewrite (ValidateNsStoreAzureBlob_ok ns a Ht Ha). split; [|done]. split; [done|by exists a].
  - split; [intros [[Harch ?] [= <-]]|by intros (-> & -> & ?)].
    destruct (nss_Archive (ns_Spec ns)); [by specialize (Harch eq_refl)|done].
  - rewrite unchanged_ok. split.
    + intros [(Harch & f & Hf) [-> Hk]]. rewrite (ValidateNsStoreNSFS_ok ns f Hf) in Hk.
      split; [done|]. split; [|by exists f]. by destruct (nss_Archive (ns_Spec ns)); [specialize (Harch eq_refl)|].
    + intros (-> & -> & f & Hf & ?). rewrite (ValidateNsStoreNSFS_ok ns f Hf). split; [|done]. split; [done|by exists f].
  - split; [by intros [[_ ?] _]|done].
Qed.

(** ** Where a check can panic *)

Lemma ns_common_decides ns : decides (ns_common ns).
Proof.
  unfold ns_common. apply decides_check.
  { unfold ValidateNSInValidSpec, invalidNSType. decides_steps. }
  intros Hspec. unfold ValidateNSInValidSpec in Hspec.
  unfold ValidateNSEmptySecretName, ValidateNSEmptyTargetBucket, ValidateNSEmptyAWSARN,
    missingNSSecret, missingNSBucket.
  assert (Harch : decides (ValidateNSArchiveSpec ns)) by (unfold ValidateNSArchiveSpec; decides_steps).
  destruct (nss_Type (ns_Spec ns)); rewrite ?reject_ok, ?isNil_false in Hspec; try discriminate;
    destruct Hspec as [sub Hsub]; rewrite ?Hsub; cbn [deref mbind outcome_bind];
    repeat (apply decides_check; [|intros _]); try done; decides_steps.
Qed.

Lemma ValidateNsStoreNSFS_decides ns : decides (ValidateNsStoreNSFS ns).
Proof. unfold ValidateNsStoreNSFS. decides_steps. Qed.

Lemma ValidateNsStoreAzureBlob_decides ns : decides (ValidateNsStoreAzureBlob ns).
Proof.
  unfold ValidateNsStoreAzureBlob, IsAzureSTSClusterNS.
  case_bool_decide; [|apply decides_ok]. destruct (nss_AzureBlob (ns_Spec ns)) as [a|]; [|apply decides_ok].
  cbn [deref mbind outcome_bind]. destruct (bool_decide _); cbn [negb]; decides_steps.
Qed.

Lemma unchanged_returns ns r p : decides r → unchanged ns r ≠ Panic p.
Proof. by intros [->|[m ->]]. Qed.

(** The namespace-store check panics in exactly one case: an s3-compatible store
    that passes the earlier checks with an endpoint that [url.Parse] refuses. *)
Theorem ValidateNamespaceStore_panic ns p :
  ValidateNamespaceStore ns = Panic p ↔
  p = NilDeref ∧ nss_Type (ns_Spec ns) = NSStoreTypeS3Compatible ∧
  ∃ s e, nss_S3Compatible (ns_Spec ns) = Some s ∧ sr_Name (s3c_Secret s) ≠ "" ∧
    s3c_TargetBucket s ≠ "" ∧ sig_valid (s3c_SignatureVersion s) ∧
    s3c_Endpoint s ≠ "" ∧ Parse (s3c_Endpoint s) = inl e.
Proof.
  pose proof (ns_common_ok ns) as Hok. unfold ns_common_valid in Hok.
  unfold ValidateNamespaceStore. fold (ns_common ns).
  destruct (ns_common_decides ns) as [Hc|[m Hc]]; rewrite Hc in *; cbn [mbind outcome_bind ok fail].
  2: { split; [done|]. intros (_ & Ht & s & e & Hs & Hn & Hb & _). rewrite Ht in Hok.
       assert (fail (ValidationError m) = ok) as [=]. apply Hok. split; [done|by exists s]. }
  destruct (nss_Type (ns_Spec ns)) eqn:Ht.
  - split; [done|by intros (_ & ? & _)].
  - unfold ValidateNsStoreS3Compatible. destruct (proj1 Hok eq_refl) as (_ & s & Hs & Hn & Hb). rewrite Hs.
    destruct (ValidateSignatureVersion _ _ _) as [[e|]|q] eqn:Hv; cbn [mbind outcome_bind].
    + split; [done|]. intros (_ & _ & ? & ? & [= <-] & _ & _ & Hsig & Hep & Hparse).
      assert (Hp : ValidateSignatureVersion (s3c_SignatureVersion s) (s3c_Endpoint s) (om_Name (ns_meta ns)) = Panic NilDeref)
        by (apply ValidateSignatureVersion_panic; eauto). congruence.
    + split; [by case_match|]. intros (_ & _ & ? & ? & [= <-] & _ & _ & Hsig & Hep & Hparse).
      assert (Hp : ValidateSignatureVersion (s3c_SignatureVersion s) (s3c_Endpoint s) (om_Name (ns_meta ns)) = Panic NilDeref)
        by (apply ValidateSignatureVersion_panic; eauto). congruence.
    + apply ValidateSignatureVersion_panic in Hv as (Hsig & Hep & -> & e & He).
      split; [intros [= <-]; split_and!; try done; by exists s, e|]. by intros (-> & _).
  - unfold ValidateNsStoreIBMCos. split; [|by intros (_ & ? & _)].
    destruct (proj1 Hok eq_refl) as (_ & s & Hs & _). rewrite Hs.
    destruct (ValidateSignatureVersion _ _ _) as [[e|]|q] eqn:Hv; cbn [mbind outcome_bind]; [done|by case_match|].
    by apply ValidateSignatureVersion_panic in Hv as (_ & ? & _).
  - split; [|by intros (_ & ? & _)]. intros Hp.
    by apply unchanged_returns in Hp; [|apply ValidateNsStoreAzureBlob_decides].
  - split; [done|by intros (_ & ? & _)].
  - split; [|by intros (_ & ? & _)]. intros Hp.
    by apply unchanged_returns in Hp; [|apply ValidateNsStoreNSFS_decides].
  - split; [done|by intros (_ & ? & _)].
Qed.

(** ** The normal form of an endpoint *)

Lemma matchScheme_https x : matchScheme ("https://" +:+ x) = true.
Proof. reflexivity. Qed.

Lemma ValidateEndPoint_https x :
  x ≠ "" → matchScheme x = false → ValidateEndPoint ("https://" +:+ x) = ValidateEndPoint x.
Proof.
  intros Hx Hm. unfold ValidateEndPoint. rewrite (bool_decide_false (x = "")) by done.
  rewrite (bool_decide_false ("https://" +:+ x = "")) by done. by rewrite Hm, matchScheme_https.
Qed.

Lemma ValidateEndPoint_empty : ValidateEndPoint "" = ValidateEndPoint defaultEndPointURI.
Proof. done. Qed.

(** An accepted endpoint is written back with a scheme. *)
Lemma ValidateEndPoint_scheme x y :
  ValidateEndPoint x = inr y → ∃ scheme rest, scheme ≠ "" ∧ y = scheme +:+ ":" +:+ rest.
Proof.
  unfold ValidateEndPoint. destruct (Parse _) as [e|u]; [done|]. intros [= <-].
  set (v := if u_Scheme u == "" then set_Scheme "https" u else u).
  assert (Hv : u_Scheme v ≠ "") by (unfold v; case_bool_decide; done).
  exists (u_Scheme v). unfold URL_text. rewrite (bool_decide_false (u_Scheme v = "")) by done.
  change (negb false) with true. cbv iota. eexists. split; [done|]. apply string_app_assoc.
Qed.

(** Two endpoints count as equivalent exactly when both are valid and have the
    same normal form. *)
Theorem EndpointsEquivalent_true x y :
  EndpointsEquivalent x y = inr true ↔ ∃ z, ValidateEndPoint x = inr z ∧ ValidateEndPoint y = inr z.
Proof.
  unfold EndpointsEquivalent. destruct (ValidateEndPoint x) as [e|a]; [by split; [|intros (? & ? & _)]|].
  destruct (ValidateEndPoint y) as [e|b]; [by split; [|intros (? & _ & ?)]|].
  split; [intros [= ->%bool_decide_eq_true]; eauto|].
  intros (z & [= ->] & [= ->]). by rewrite bool_decide_true.
Qed.

(** Every rejection is a [ValidationError]. *)
Lemma ValidateSignatureVersion_error v ep name e :
  ValidateSignatureVersion v ep name = Ret (Some e) → ∃ m, e = ValidationError m.
Proof.
  unfold ValidateSignatureVersion, guard, fail, ok. case_match; [intros [= <-]; eauto|].
  case_match; [|done]. destruct (Parse ep); [done|]. cbn [deref mbind outcome_bind].
  repeat case_match; try done. intros [= <-]. eauto.
Qed.

Lemma ValidateEndPoint_error x e : ValidateEndPoint x = inl e → ∃ m, e = ValidationError m.
Proof. unfold ValidateEndPoint. destruct (Parse _); intros [= <-]; eauto. Qed.

Lemma EndpointsEquivalent_error x y e : EndpointsEquivalent x y = inl e → ∃ m, e = ValidationError m.
Proof.
  unfold EndpointsEquivalent. destruct (ValidateEndPoint x) eqn:Hx; [intros [= <-]; by eapply ValidateEndPoint_error|].
  destruct (ValidateEndPoint y) eqn:Hy; intros [= <-]. by eapply ValidateEndPoint_error.
Qed.

Lemma unchanged_error ns ns' r e :
  decides r → unchanged ns r = Ret (ns', Some e) → ∃ m, e = ValidationError m.
Proof. intros [->|[m ->]]; [done|]. intros [= _ <-]. eauto. Qed.

Lemma ValidateNamespaceStore_error ns ns' e :
  ValidateNamespaceStore ns = Ret (ns', Some e) → ∃ m, e = ValidationError m.
Proof.
  unfold ValidateNamespaceStore. fold (ns_common ns).
  destruct (ns_common_decides ns) as [->|[m ->]]; cbn [mbind outcome_bind ok fail].
  2: { intros [= _ <-]. eauto. }
  destruct (nss_Type (ns_Spec ns)); try done.
  - unfold ValidateNsStoreS3Compatible. case_match; [|done].
    destruct (ValidateSignatureVersion _ _ _) as [[e'|]|] eqn:Hs; cbn [mbind outcome_bind]; [|case_match|done].
    + intros [= _ <-]. by eapply ValidateSignatureVersion_error.
    + intros [= _ <-]. by eapply ValidateEndPoint_error.
    + done.
  - unfold ValidateNsStoreIBMCos. case_match; [|done].
    destruct (ValidateSignatureVersion _ _ _) as [[e'|]|] eqn:Hs; cbn [mbind outcome_bind]; [|case_match|done].
    + intros [= _ <-]. by eapply ValidateSignatureVersion_error.
    + intros [= _ <-]. by eapply ValidateEndPoint_error.
    + done.
  - apply unchanged_error, ValidateNsStoreAzureBlob_decides.
  - apply unchanged_error, ValidateNsStoreNSFS_decides.
  - intros [= _ <-]. unfold invalidNSType. eauto.
Qed.

End Specification.
