(* ===== verification/BucketClassValidation.v ===== *)
(** * Validation of BucketClass resources: [pkg/validations/bucketclass_validation.go].

    The policies of a bucket class name other resources; the checks read them from
    the API server, [w] being the state of the cluster at that time. *)

From S2P Require Import Prelude GoStrings Types Kube Util StoreAccess BackingStoreValidation.

(** The objects the checks ask the server about: a name, a namespace and the zero
    value for the rest. *)
Definition newNamespaceStore (name namespace : string) : NamespaceStore :=
  mkNamespaceStore (named namespace name)
    (mkNamespaceStoreSpec (NSStoreTypeOther "") false "" None None None None None None)
    (mkNamespaceStoreStatus NamespaceStorePhaseNone [] "").

Definition newBackingStore {QA : QuantityApi} (name namespace : string) : BackingStore QA :=
  mkBackingStore _ (named namespace name)
    (mkBackingStoreSpec _ (StoreTypeOther "") None None None None None None)
    (mkBackingStoreStatus BackingStorePhaseNone [] "").

Section Checks.
Context {QA : QuantityApi} {W : Type}.
Context {SN : ApiServer W NamespaceStore} {SB : ApiServer W (BackingStore QA)}.
Implicit Types (w : W) (bc oldBC : BucketClass).

Definition ValidateArchivePolicyNS w bc : verdict :=
  match bcs_ArchivePolicy (bc_Spec bc) with
  | None => ok
  | Some ap =>
      let nsName := ap_DeepArchiveResource ap in
      let bcName := om_Name (bc_meta bc) in
      let namespace := om_Namespace (bc_meta bc) in
      reject! nsName == ""
        with ValidationError (Sprintf "BucketClass %q has archivePolicy but empty DeepArchiveResource; DeepArchiveResource must reference an s3-compatible NamespaceStore with spec.archive=true" [AStr bcName]) ;;
      '(ns, found) ← KubeCheck w (newNamespaceStore nsName namespace);
      reject! negb found
        with NewPersistentError "InvalidArchivePolicy"
               (Sprintf "BucketClass %q archivePolicy references NamespaceStore %q which does not exist in namespace %q"
                  [AStr bcName; AStr nsName; AStr namespace]) ;;
      reject! (nss_Type (ns_Spec ns) != NSStoreTypeS3Compatible) || negb (nss_Archive (ns_Spec ns))
        with NewPersistentError "InvalidArchivePolicy"
               (Sprintf "BucketClass %q archivePolicy references NamespaceStore %q of type %q; must be %q with archive=true"
                  [AStr bcName; AStr nsName; AStr (NSType_string (nss_Type (ns_Spec ns)));
                   AStr (NSType_string NSStoreTypeS3Compatible)]) ;;
      reject! nst_Phase (ns_Status ns) != NamespaceStorePhaseReady
        with Errorf (Sprintf "BucketClass %q archivePolicy NamespaceStore %q is not Ready (phase: %q); will retry"
                       [AStr bcName; AStr nsName; AStr (NamespaceStorePhase_string (nst_Phase (ns_Status ns)))]) ;;
      ok
  end.

Definition ValidateArchivePolicy w bc : verdict :=
  match bcs_ArchivePolicy (bc_Spec bc) with
  | None => ok
  | Some _ =>
      reject! isNil (bcs_PlacementPolicy (bc_Spec bc))
        with ValidationError (Sprintf "BucketClass %q has archivePolicy but no placementPolicy; placementPolicy is required when archivePolicy is set" [AStr (om_Name (bc_meta bc))]) ;;
      ValidateArchivePolicyNS w bc
  end.

(** [immuts] in the order in which the map happens to be visited. *)
Definition ValidateImmutLabelChange bc oldBC (immuts : list string) : verdict :=
  check_all (λ immutableLabel,
    let val1 := map_get (om_Labels (bc_meta oldBC)) immutableLabel in
    let val2 := map_get (om_Labels (bc_meta bc)) immutableLabel in
    reject! val1 != val2
      with ValidationError (Sprintf "immutable label %q cannot be changed" [AStr immutableLabel]) ;; ok) immuts.

Definition ValidateQuotaConfig (bcName : string) (quota : option Quota) : verdict :=
  match quota with
  | None => ok
  | Some q => ValidateQuotaConfig_util bcName (quota_MaxSize q) (quota_MaxObjects q)
  end.

Definition ValidateTiersNumber (tiers : list Tier) : verdict :=
  reject! (length tiers != 1%nat) && (length tiers != 2%nat)
    with ValidationError (Lit "unsupported number of tiers, bucketclass supports only 1 or 2 tiers") ;; ok.

Definition GetBucketclassNamespaceStoreArray (np : NamespacePolicy) : outcome (list string) :=
  match np_Type np with
  | NSBucketClassTypeCache => c ← deref (np_Cache np); Ret [cnp_HubResource c]
  | NSBucketClassTypeMulti =>
      m ← deref (np_Multi np);
      if mnp_WriteResource m == "" then Ret (mnp_ReadResources m)
      else Ret (mnp_ReadResources m ++ [mnp_WriteResource m])
  | NSBucketClassTypeSingle => s ← deref (np_Single np); Ret [snp_Resource s]
  | NSBucketClassTypeOther _ => Ret []
  end.

(** The body of the loop over the backing stores of a tier. *)
Definition validateTierStore w (namespace backingStoreName : string) : verdict :=
  '(backStore, found) ← KubeCheck w (newBackingStore (QA:=QA) backingStoreName namespace);
  reject! negb found
    with NewPersistentError "MissingBackingStore"
           (Sprintf "NooBaa BackingStore %q not found or deleted" [AStr backingStoreName]) ;;
  reject! bst_Phase (bs_Status backStore) == BackingStorePhaseRejected
    with NewPersistentError "RejectedBackingStore"
           (Sprintf "NooBaa BackingStore %q is in rejected phase" [AStr backingStoreName]) ;;
  reject! bst_Phase (bs_Status backStore) != BackingStorePhaseReady
    with Errorf (Sprintf "NooBaa BackingStore %q is not yet ready" [AStr backingStoreName]) ;;
  ok.

Definition ValidatePlacementPolicy w (pp : option PlacementPolicy) (namespace : string) : verdict :=
  match pp with
  | None => ok
  | Some pp => check_all (λ tier, check_all (validateTierStore w namespace) (tier_BackingStores tier)) (pp_Tiers pp)
  end.

(** The body of the loop over the namespace stores of a policy. *)
Definition validateResource w (namespace name : string) : verdict :=
  '(nsStore, found) ← KubeCheck w (newNamespaceStore name namespace);
  reject! negb found
    with NewPersistentError "MissingNamespaceStore"
           (Sprintf "NooBaa NamespaceStore %q not found or deleted" [AStr name]) ;;
  reject! IsArchiveNamespaceStore (Some nsStore)
    with NewPersistentError "InvalidNamespaceStore"
           (Sprintf "NamespaceStore %q is an archive store and cannot be referenced in a namespacePolicy; use archivePolicy instead" [AStr name]) ;;
  reject! nst_Phase (ns_Status nsStore) == NamespaceStorePhaseRejected
    with NewPersistentError "RejectedNamespaceStore"
           (Sprintf "NooBaa NamespaceStore %q is in rejected phase" [AStr name]) ;;
  reject! nst_Phase (ns_Status nsStore) != NamespaceStorePhaseReady
    with Errorf (Sprintf "NooBaa NamespaceStore %q is not yet ready" [AStr name]) ;;
  ok.

Definition ValidateNamespacePolicy w (np : option NamespacePolicy) (namespace : string) : verdict :=
  match np with
  | None => ok
  | Some np =>
      namespaceStoresArr ← GetBucketclassNamespaceStoreArray np;
      check_all (validateResource w namespace) namespaceStoresArr
  end.

Definition ValidateVectorPolicy w (vp : option VectorPolicy) (pp : option PlacementPolicy)
    (np : option NamespacePolicy) (namespace : string) : verdict :=
  match vp with
  | None => ok
  | Some vp =>
      reject! negb (isNil pp) || negb (isNil np)
        with ValidationError (Lit "VectorPolicy cannot be used together with PlacementPolicy or NamespacePolicy") ;;
      reject! vp_Resource vp == ""
        with NewPersistentError "InvalidVectorPolicy" (Lit "VectorPolicy resource must not be empty") ;;
      '(nsStore, found) ← KubeCheck w (newNamespaceStore (vp_Resource vp) namespace);
      reject! negb found
        with NewPersistentError "MissingNamespaceStore"
               (Sprintf "NooBaa NamespaceStore %q not found or deleted" [AStr (vp_Resource vp)]) ;;
      reject! nst_Phase (ns_Status nsStore) == NamespaceStorePhaseRejected
        with NewPersistentError "RejectedNamespaceStore"
               (Sprintf "NooBaa NamespaceStore %q is in rejected phase" [AStr (vp_Resource vp)]) ;;
      reject! nst_Phase (ns_Status nsStore) != NamespaceStorePhaseReady
        with Errorf (Sprintf "NooBaa NamespaceStore %q is not yet ready" [AStr (vp_Resource vp)]) ;;
      reject! nss_Type (ns_Spec nsStore) != NSStoreTypeNSFS
        with NewPersistentError "InvalidNamespaceStoreType"
               (Sprintf "NooBaa NamespaceStore %q must be of type NSFS for vector policy, got %q"
                  [AStr (vp_Resource vp); AStr (NSType_string (nss_Type (ns_Spec nsStore)))]) ;;
      ok
  end.

Definition validateNotNSFS w (namespace name : string) : verdict :=
  '(nsStore, found) ← KubeCheck w (newNamespaceStore name namespace);
  reject! negb found
    with Errorf (Lit "failed to KubeCheck namespacestore in NSFS single bucketclass type validation") ;;
  reject! nss_Type (ns_Spec nsStore) == NSStoreTypeNSFS
    with ValidationError (Sprintf "invalid namespaceStore types, nsfs namespacestore %q is allowed on bucketclass of type single" [AStr name]) ;;
  ok.

Definition ValidateNSFSSingleBC w bc : verdict :=
  np ← deref (bcs_NamespacePolicy (bc_Spec bc));
  if np_Type np == NSBucketClassTypeSingle then ok
  else
    namespaceStoresArr ← GetBucketclassNamespaceStoreArray np;
    check_all (validateNotNSFS w (om_Namespace (bc_meta bc))) namespaceStoresArr.

Definition ValidateBucketClass w (bc : option BucketClass) : verdict :=
  match bc with
  | None => ok
  | Some bc =>
      let spec := bc_Spec bc in
      check! ValidateVectorPolicy w (bcs_VectorPolicy spec) (bcs_PlacementPolicy spec)
               (bcs_NamespacePolicy spec) (om_Namespace (bc_meta bc)) ;;
      check! match bcs_NamespacePolicy spec with Some _ => ValidateNSFSSingleBC w bc | None => ok end ;;
      check! match bcs_PlacementPolicy spec with Some pp => ValidateTiersNumber (pp_Tiers pp) | None => ok end ;;
      check! ValidateArchivePolicy w bc ;;
      ValidateQuotaConfig (om_Name (bc_meta bc)) (bcs_Quota spec)
  end.

End Checks.

(** ** What is accepted *)

Section Specification.
Context {QA : QuantityApi} {W : Type}.
Context {SN : ApiServer W NamespaceStore} {SB : ApiServer W (BackingStore QA)}.
Implicit Types (w : W) (bc : BucketClass).

(** The store of a name, as the server has it. *)
Definition ns_at w (namespace name : string) (ns : NamespaceStore) : Prop :=
  srv_Get w (namespace, name) = inr ns.
Definition bs_at w (namespace name : string) (bs : BackingStore QA) : Prop :=
  srv_Get w (namespace, name) = inr bs.

(** A lookup through [KubeCheck] followed by checks on the object found. *)
Lemma KubeCheck_then {O} {KO : KubeObject O} {AS : ApiServer W O} w (obj : O) e (k : O → verdict) :
  ('(x, found) ← KubeCheck w obj; guard (negb found) e (k x)) = ok ↔
  ∃ y, srv_Get w (ObjectKey obj) = inr y ∧ k (resetStringData y) = ok.
Proof.
  destruct (srv_Get w (ObjectKey obj)) as [err|y] eqn:Hg.
  - split; [|by intros (? & ? & _)]. unfold KubeCheck, KubeGet. rewrite Hg.
    by repeat (case_match; cbn [mbind outcome_bind guard negb]).
  - rewrite (KubeCheck_found w obj y Hg). cbn [mbind outcome_bind negb guard].
    split; [by exists y|by intros (? & [= <-] & ?)].
Qed.

Definition placement_ready w (namespace : string) (pp : PlacementPolicy) : Prop :=
  ∀ tier name, tier ∈ pp_Tiers pp → name ∈ tier_BackingStores tier →
    ∃ bs, bs_at w namespace name bs ∧ bst_Phase (bs_Status bs) = BackingStorePhaseReady.

Lemma validateTierStore_ok w namespace name :
  validateTierStore w namespace name = ok ↔
  ∃ bs, bs_at w namespace name bs ∧ bst_Phase (bs_Status bs) = BackingStorePhaseReady.
Proof.
  unfold validateTierStore, bs_at. rewrite KubeCheck_then. unfold ObjectKey. cbn [meta newBackingStore BackingStore_MetaObject ko_meta BackingStore_KubeObject bs_meta named om_Name om_Namespace].
  f_equiv; intros bs. apply and_iff_compat_l. cbn [resetStringData BackingStore_KubeObject id].
  rewrite guard_ok, reject_ok, bool_decide_eq_false, negb_false_iff, bool_decide_eq_true.
  split; [by intros [_ ?]|by intros ->].
Qed.

Lemma ValidatePlacementPolicy_ok w pp namespace :
  ValidatePlacementPolicy w (Some pp) namespace = ok ↔ placement_ready w namespace pp.
Proof.
  unfold ValidatePlacementPolicy, placement_ready. rewrite check_all_ok, Forall_forall.
  setoid_rewrite check_all_ok. setoid_rewrite Forall_forall. setoid_rewrite validateTierStore_ok. split; eauto.
Qed.

(** The stores a namespace policy names, by its type. *)
Definition policy_stores (np : NamespacePolicy) (names : list string) : Prop :=
  match np_Type np with
  | NSBucketClassTypeSingle => ∃ s, np_Single np = Some s ∧ names = [snp_Resource s]
  | NSBucketClassTypeCache => ∃ c, np_Cache np = Some c ∧ names = [cnp_HubResource c]
  | NSBucketClassTypeMulti => ∃ m, np_Multi np = Some m ∧
      ∀ name, name ∈ names ↔ name ∈ mnp_ReadResources m ∨ (name = mnp_WriteResource m ∧ name ≠ "")
  | NSBucketClassTypeOther _ => names = []
  end.

Lemma GetBucketclassNamespaceStoreArray_spec np names :
  GetBucketclassNamespaceStoreArray np = Ret names → policy_stores np names.
Proof.
  unfold GetBucketclassNamespaceStoreArray, policy_stores. destruct (np_Type np).
  - destruct (np_Single np) as [s|]; [|done]. intros [= <-]. eauto.
  - destruct (np_Multi np) as [m|]; [|done]. cbn [deref mbind outcome_bind]. intros H. exists m. split; [done|].
    intros name. case_bool_decide as Hw; injection H as <-.
    + split; [by left|]. intros [?|[-> ?]]; done.
    + rewrite elem_of_app, list_elem_of_singleton. split; intros [?|?]; auto.
      * right. by subst.
      * right. tauto.
  - destruct (np_Cache np) as [c|]; [|done]. intros [= <-]. eauto.
  - by intros [= <-].
Qed.

Lemma validateResource_ok w namespace name :
  validateResource w namespace name = ok ↔
  ∃ ns, ns_at w namespace name ns ∧ nst_Phase (ns_Status ns) = NamespaceStorePhaseReady ∧
        ¬ (nss_Type (ns_Spec ns) = NSStoreTypeS3Compatible ∧ nss_Archive (ns_Spec ns) = true).
Proof.
  unfold validateResource, ns_at. rewrite KubeCheck_then.
  f_equiv; intros ns. apply and_iff_compat_l. cbn [resetStringData NamespaceStore_KubeObject id].
  rewrite !guard_ok, !bool_decide_eq_false, negb_false_iff, bool_decide_eq_true.
  unfold IsArchiveNamespaceStore. rewrite andb_false_iff, bool_decide_eq_false.
  destruct (nss_Archive (ns_Spec ns)); split.
  - intros ([?|?] & _ & ? & _); [|done]. split; [done|]. by intros [? _].
  - intros [-> Hn]. split_and!; try done. left. tauto.
  - intros (_ & _ & ? & _). split; [done|]. by intros [_ ?].
  - intros [-> _]. split_and!; try done. by right.
Qed.

Lemma validateNotNSFS_ok w namespace name :
  validateNotNSFS w namespace name = ok ↔
  ∃ ns, ns_at w namespace name ns ∧ nss_Type (ns_Spec ns) ≠ NSStoreTypeNSFS.
Proof.
  unfold validateNotNSFS, ns_at. rewrite KubeCheck_then.
  f_equiv; intros ns. apply and_iff_compat_l. cbn [resetStringData NamespaceStore_KubeObject id].
  by rewrite reject_ok, bool_decide_eq_false.
Qed.

(** Every store a policy names is there, ready, and not an archive. *)
Lemma ValidateNamespacePolicy_ok w np namespace :
  ValidateNamespacePolicy w (Some np) namespace = ok ↔
  ∃ names, GetBucketclassNamespaceStoreArray np = Ret names ∧ ∀ name, name ∈ names →
    ∃ ns, ns_at w namespace name ns ∧ nst_Phase (ns_Status ns) = NamespaceStorePhaseReady ∧
          ¬ (nss_Type (ns_Spec ns) = NSStoreTypeS3Compatible ∧ nss_Archive (ns_Spec ns) = true).
Proof.
  unfold ValidateNamespacePolicy. unfold ok at 1. rewrite bind_Ret. f_equiv; intros names.
  apply and_iff_compat_l. change (Ret None) with ok. rewrite check_all_ok, Forall_forall.
  by setoid_rewrite validateResource_ok.
Qed.

Lemma ValidateNSFSSingleBC_ok w bc np :
  bcs_NamespacePolicy (bc_Spec bc) = Some np →
  ValidateNSFSSingleBC w bc = ok ↔
  np_Type np = NSBucketClassTypeSingle ∨
  ∃ names, GetBucketclassNamespaceStoreArray np = Ret names ∧ ∀ name, name ∈ names →
    ∃ ns, ns_at w (om_Namespace (bc_meta bc)) name ns ∧ nss_Type (ns_Spec ns) ≠ NSStoreTypeNSFS.
Proof.
  intros Hnp. unfold ValidateNSFSSingleBC. rewrite Hnp. cbn [deref mbind outcome_bind].
  case_bool_decide as Ht; [by split; [left|]|].
  transitivity (∃ names, GetBucketclassNamespaceStoreArray np = Ret names ∧
    check_all (validateNotNSFS w (om_Namespace (bc_meta bc))) names = ok); [apply bind_Ret|].
  setoid_rewrite check_all_ok. setoid_rewrite Forall_forall. setoid_rewrite validateNotNSFS_ok.
  split; [by right|by intros [?|?]].
Qed.

Definition archive_ready w bc (ap : ArchivePolicy) : Prop :=
  ap_DeepArchiveResource ap ≠ "" ∧
  ∃ ns, ns_at w (om_Namespace (bc_meta bc)) (ap_DeepArchiveResource ap) ns ∧
    nss_Type (ns_Spec ns) = NSStoreTypeS3Compatible ∧ nss_Archive (ns_Spec ns) = true ∧
    nst_Phase (ns_Status ns) = NamespaceStorePhaseReady.

Lemma ValidateArchivePolicy_ok w bc :
  ValidateArchivePolicy w bc = ok ↔
  ∀ ap, bcs_ArchivePolicy (bc_Spec bc) = Some ap →
    is_Some (bcs_PlacementPolicy (bc_Spec bc)) ∧ archive_ready w bc ap.
Proof.
  unfold ValidateArchivePolicy, ValidateArchivePolicyNS, archive_ready, ns_at.
  destruct (bcs_ArchivePolicy (bc_Spec bc)) as [ap|]; [|by split].
  rewrite !guard_ok, isNil_false, bool_decide_eq_false, KubeCheck_then.
  cbn [resetStringData NamespaceStore_KubeObject id].
  setoid_rewrite guard_ok. setoid_rewrite reject_ok.
  setoid_rewrite orb_false_iff. setoid_rewrite negb_false_iff. setoid_rewrite bool_decide_eq_true.
  split.
  - intros (? & ? & ns & ? & [? ?] & ?) ? [= <-]. eauto 10.
  - intros H. destruct (H ap eq_refl) as (? & ? & ns & ? & ? & ? & ?). eauto 10.
Qed.

Definition vector_ready w (vp : VectorPolicy) (namespace : string) : Prop :=
  vp_Resource vp ≠ "" ∧
  ∃ ns, ns_at w namespace (vp_Resource vp) ns ∧
    nst_Phase (ns_Status ns) = NamespaceStorePhaseReady ∧ nss_Type (ns_Spec ns) = NSStoreTypeNSFS.

Lemma ValidateVectorPolicy_ok w vp pp np namespace :
  ValidateVectorPolicy w vp pp np namespace = ok ↔
  ∀ v, vp = Some v → pp = None ∧ np = None ∧ vector_ready w v namespace.
Proof.
  unfold ValidateVectorPolicy, vector_ready, ns_at. destruct vp as [vp|]; [|by split].
  rewrite !guard_ok, orb_false_iff, !negb_false_iff, bool_decide_eq_false, KubeCheck_then.
  cbn [resetStringData NamespaceStore_KubeObject id]. setoid_rewrite guard_ok. setoid_rewrite guard_ok.
  setoid_rewrite reject_ok. setoid_rewrite negb_false_iff. setoid_rewrite bool_decide_eq_true.
  assert (Hnil : ∀ A (o : option A), isNil o = true ↔ o = None) by (by intros A []).
  rewrite !Hnil. split.
  - intros ([? ?] & ? & ns & ? & _ & ? & ?) ? [= <-]. eauto 10.
  - intros H. destruct (H vp eq_refl) as (? & ? & ? & ns & ? & Hph & ?).
    split_and!; try done. exists ns. split_and!; try done. by rewrite Hph.
Qed.

End Specification.
