(* ===== verification/GoNet.v ===== *)
(** * Package [net]: [ParseCIDR], with [netip.ParseAddr] it is built on.

    The operator only looks at the error, so an IPv6 address is checked and its
    bytes are not kept; the fields of an IPv4 address are. *)

From S2P Require Import Prelude GoStrings GoUrl.
From Stdlib Require Import Ascii.
Open Scope Z_scope.

(** ** [netip.ParseAddr] *)

(** [parseIPv4Fields]: [prev] is the byte before the current one, [fields] the
    octets found so far. *)
Fixpoint parseIPv4Fields (s : string) (prev : option ascii) (val : Z) (digLen : nat) (fields : list Z) :
    option (list Z) :=
  match s with
  | EmptyString => if (length fields <? 3)%nat then None else Some (fields ++ [val])
  | String c s' =>
      match digit c with
      | Some d =>
          if (digLen =? 1)%nat && (val =? 0) then None
          else
            let val := val * 10 + d in
            if val >? 255 then None
            else parseIPv4Fields s' (Some c) val (S digLen) fields
      | None =>
          if c == "."%char then
            if (prev == None) || (s' == "") || (prev == Some "."%char) then None
            else if (length fields =? 3)%nat then None
            else parseIPv4Fields s' (Some c) 0 0%nat (fields ++ [val])
          else None
      end
  end.

Definition parseIPv4 (s : string) : option (list Z) := parseIPv4Fields s None 0 0%nat [].

(** The hexadecimal digits at the head of [s], at most four: the rest after them,
    and how many there were. *)
Fixpoint hexGroup (s : string) (off : nat) : option (nat * string) :=
  match s with
  | EmptyString => Some (off, s)
  | String c s' =>
      match unhex c with
      | Some _ => if (3 <? off)%nat then None else hexGroup s' (S off)
      | None => Some (off, s)
      end
  end.

(** The loop of [parseIPv6], [i] being the number of bytes filled in and
    [ellipsis] whether a [::] was seen.  A group fills two bytes, so eight rounds
    are all there can be. *)
Fixpoint parseIPv6Loop (fuel : nat) (s : string) (i : Z) (ellipsis : bool) : bool :=
  let finish (s : string) (i : Z) (ellipsis : bool) : bool :=
    (s == "") && (if i <? 16 then ellipsis else negb ellipsis) in
  match fuel with
  | 0%nat => finish s i ellipsis
  | S fuel =>
      if negb (i <? 16) then finish s i ellipsis
      else
        match hexGroup s 0 with
        | None => false
        | Some (0%nat, _) => false
        | Some (S _, rest) =>
            if HasPrefix rest "." then
              if negb ellipsis && negb (i =? 12) then false
              else if i + 4 >? 16 then false
              else match parseIPv4 s with
                   | None => false
                   | Some _ => finish ""%string (i + 4) ellipsis
                   end
            else
              let i := i + 2 in
              match rest with
              | EmptyString => finish ""%string i ellipsis
              | String c rest' =>
                  if negb (c == ":"%char) then false
                  else match rest' with
                       | EmptyString => false
                       | String c' rest'' =>
                           if c' == ":"%char then
                             if ellipsis then false
                             else if rest'' == "" then finish ""%string i true
                             else parseIPv6Loop fuel rest'' i true
                           else parseIPv6Loop fuel rest' i ellipsis
                       end
              end
        end
  end.

(** An IPv6 address with its zone. *)
Definition parseIPv6 (s : string) : option string :=
  let '(addr, zone, hasZone) := Cut s "%" in
  if hasZone && (zone == "") then None
  else if HasPrefix addr "::" then
    let rest := TrimPrefix addr "::" in
    if rest == "" then Some zone
    else if parseIPv6Loop 8 rest 0 true then Some zone else None
  else if parseIPv6Loop 8 addr 0 false then Some zone else None.

(** The first byte that tells the family: ["."], [":"] or ["%"]. *)
Fixpoint family (s : string) : option ascii :=
  match s with
  | EmptyString => None
  | String c s' => if oneOf c ".:%" then Some c else family s'
  end.

(** [BitLen] and [Zone] of the address. *)
Definition ParseAddr (s : string) : option (Z * string) :=
  match family s with
  | Some c =>
      if c == "."%char then match parseIPv4 s with Some _ => Some (32, ""%string) | None => None end
      else if c == ":"%char then match parseIPv6 s with Some zone => Some (128, zone) | None => None end
      else None
  | None => None
  end.

(** ** [ParseCIDR] *)

(** [dtoi]: the digits at the head, with the rest after them. *)
Fixpoint dtoiLoop (s : string) (n : Z) (i : nat) : option (Z * nat * string) :=
  match s with
  | EmptyString => Some (n, i, s)
  | String c s' =>
      match digit c with
      | Some d => let n := n * 10 + d in if n >=? 16777215 then None else dtoiLoop s' n (S i)
      | None => Some (n, i, s)
      end
  end.

Definition dtoi (s : string) : option (Z * string) :=
  match dtoiLoop s 0 0 with
  | Some (n, S _, rest) => Some (n, rest)
  | _ => None
  end.

Definition cidrError (s : string) : error := Errorf (Sprintf "invalid CIDR address: %s" [AStr s]).

(** The prefix length, the only part of the result that is kept. *)
Definition ParseCIDR (s : string) : error + Z :=
  let '(addr, mask, found) := Cut s "/" in
  if negb found then inl (cidrError s)
  else
    match ParseAddr addr with
    | None => inl (cidrError s)
    | Some (bitLen, zone) =>
        if zone != "" then inl (cidrError s)
        else match dtoi mask with
             | None => inl (cidrError s)
             | Some (n, rest) =>
                 if (rest != "") || (n <? 0) || (n >? bitLen) then inl (cidrError s) else inr n
             end
    end.

(** ** IPv4 networks in their usual notation are accepted *)

(** Decimal notation of a number below 1000. *)
Definition chr (d : Z) : ascii := ascii_of_N (Z.to_N (48 + d)).
Definition itoa (v : Z) : string :=
  (if 100 <=? v then String (chr (v / 100)) "" else ""%string) +:+
  (if 10 <=? v then String (chr (v / 10 mod 10)) "" else ""%string) +:+
  String (chr (v mod 10)) "".

Definition range256 : list Z := Z.of_nat <$> seq 0 256.

Lemma range256_elem v : 0 ≤ v < 256 → v ∈ range256.
Proof.
  intros Hv. apply list_elem_of_fmap. exists (Z.to_nat v). split; [lia|].
  apply elem_of_seq. lia.
Qed.

(** Reading the notation of an octet. *)
Lemma scan_octet v s prev fields :
  0 ≤ v < 256 →
  ∃ c k, c ≠ "."%char ∧ parseIPv4Fields (itoa v +:+ s) prev 0 0 fields = parseIPv4Fields s (Some c) v k fields.
Proof.
  intros Hv%range256_elem. revert s prev fields. pattern v. revert v Hv.
  apply Forall_forall. unfold range256. cbn [seq fmap list_fmap].
  repeat (apply Forall_cons; split; [intros s prev fields; do 2 eexists; split; [|reflexivity]; done|]).
  apply Forall_nil_2.
Qed.

Lemma scan_dot s c v k fields :
  c ≠ "."%char → s ≠ "" → (length fields < 3)%nat →
  parseIPv4Fields ("." +:+ s) (Some c) v k fields =
  parseIPv4Fields s (Some "."%char) 0 0 (fields ++ [v]).
Proof.
  intros Hc Hs Hf. change (parseIPv4Fields ("." +:+ s) (Some c) v k fields) with
    (if (Some c == None) || (s == "") || (Some c == Some "."%char) then None
     else if (length fields =? 3)%nat then None
     else parseIPv4Fields s (Some "."%char) 0 0%nat (fields ++ [v])).
  rewrite !bool_decide_false by congruence. simpl.
  destruct (Nat.eqb_spec (length fields) 3); [lia|done].
Qed.

Definition dotted (a b c d : Z) : string :=
  itoa a +:+ "." +:+ itoa b +:+ "." +:+ itoa c +:+ "." +:+ itoa d.

Lemma itoa_nonempty v s : itoa v +:+ s ≠ "".
Proof. unfold itoa. by destruct (100 <=? v), (10 <=? v). Qed.

Lemma parseIPv4_dotted a b c d :
  0 ≤ a < 256 → 0 ≤ b < 256 → 0 ≤ c < 256 → 0 ≤ d < 256 →
  parseIPv4 (dotted a b c d) = Some [a; b; c; d].
Proof.
  intros Ha Hb Hc Hd. unfold parseIPv4, dotted.
  destruct (scan_octet a ("." +:+ itoa b +:+ "." +:+ itoa c +:+ "." +:+ itoa d) None [] Ha) as (c1 & k1 & ? & ->).
  rewrite (scan_dot (itoa b +:+ _)); [|done|apply itoa_nonempty|simpl; lia].
  destruct (scan_octet b ("." +:+ itoa c +:+ "." +:+ itoa d) (Some "."%char) ([] ++ [a]) Hb) as (c2 & k2 & ? & ->).
  rewrite (scan_dot (itoa c +:+ _)); [|done|apply itoa_nonempty|simpl; lia].
  destruct (scan_octet c ("." +:+ itoa d) (Some "."%char) (([] ++ [a]) ++ [b]) Hc) as (c3 & k3 & ? & ->).
  rewrite (scan_dot (itoa d)); [|done| |simpl; lia].
  2: { rewrite <-(string_app_nil_r (itoa d)). apply itoa_nonempty. }
  destruct (scan_octet d "" (Some "."%char) ((([] ++ [a]) ++ [b]) ++ [c]) Hd) as (c4 & k4 & ? & Hs).
  rewrite string_app_nil_r in Hs. by rewrite Hs.
Qed.

(** The address ends at the slash, the length after it is read back. *)
Lemma Cut_app_notin s t sep : Count s sep = 0 → Cut (s +:+ String sep t) sep = (s, t, true).
Proof.
  induction s as [|a s IH]; intros Hc.
  - cbn. by rewrite bool_decide_true.
  - cbn [Count] in Hc. pose proof (Count_nonneg s sep).
    change (Cut (String a s +:+ String sep t) sep) with
      (if a == sep then (""%string, s +:+ String sep t, true)
       else let '(before, after, found) := Cut (s +:+ String sep t) sep in (String a before, after, found)).
    destruct (bool_decide_reflect (a = sep)); [lia|]. by rewrite IH by lia.
Qed.

Lemma itoa_no_slash v : 0 ≤ v < 256 → Count (itoa v) "/" = 0.
Proof.
  intros Hv%range256_elem. revert v Hv. apply Forall_forall. unfold range256. cbn [seq fmap list_fmap].
  repeat (apply Forall_cons; split; [reflexivity|]). apply Forall_nil_2.
Qed.

Lemma dtoi_itoa v : 0 ≤ v < 256 → dtoi (itoa v) = Some (v, ""%string).
Proof.
  intros Hv%range256_elem. revert v Hv. apply Forall_forall. unfold range256. cbn [seq fmap list_fmap].
  repeat (apply Forall_cons; split; [reflexivity|]). apply Forall_nil_2.
Qed.

Lemma family_itoa v s : 0 ≤ v < 256 → family (itoa v +:+ s) = family s.
Proof.
  intros Hv%range256_elem. revert s. pattern v. revert v Hv. apply Forall_forall. unfold range256.
  cbn [seq fmap list_fmap]. repeat (apply Forall_cons; split; [intros s; reflexivity|]). apply Forall_nil_2.
Qed.

Lemma ParseCIDR_dotted a b c d n :
  0 ≤ a < 256 → 0 ≤ b < 256 → 0 ≤ c < 256 → 0 ≤ d < 256 → 0 ≤ n ≤ 32 →
  ParseCIDR (dotted a b c d +:+ "/" +:+ itoa n) = inr n.
Proof.
  intros Ha Hb Hc Hd Hn. unfold ParseCIDR.
  assert (Hcount : Count (dotted a b c d) "/" = 0).
  { unfold dotted. rewrite !Count_app, !itoa_no_slash by done. done. }
  change ("/" +:+ itoa n) with (String "/" (itoa n)).
  rewrite (Cut_app_notin (dotted a b c d) (itoa n) "/" Hcount). cbn [negb].
  assert (Haddr : ParseAddr (dotted a b c d) = Some (32, ""%string)).
  { unfold ParseAddr. unfold dotted at 1. rewrite family_itoa by done.
    change (family ("." +:+ _)) with (Some "."%char). cbv iota beta. rewrite bool_decide_true by done.
    by rewrite parseIPv4_dotted. }
  rewrite Haddr. rewrite bool_decide_true by done. cbn [negb]. rewrite dtoi_itoa by lia.
  rewrite bool_decide_true by done. cbn [negb orb].
  destruct (Z.ltb_spec n 0); [lia|]. destruct (Z.gtb_spec n 32); [lia|done].
Qed.
