(* ===== verification/NooBaaValidation.v ===== *)
(** * Validation of NooBaa and NooBaaAccount resources and of bucket options.

    [noobaa_validation.go], [noobaaaccount_validation.go] and
    [common_bucket_validations.go] of [pkg/validations]. *)

From S2P Require Import Prelude GoStrings Types Kube Util StoreAccess Tls GoNet BackingStoreValidation BucketClassValidation.

(** ** [noobaa_validation.go] *)

Definition ValidateNoobaaDeletion (nb : NooBaa) : verdict :=
  reject! negb (cp_AllowNoobaaDeletion (nbs_CleanupPolicy (nb_Spec nb)))
    with ValidationError (Lit "Noobaa cleanup policy is not set, blocking Noobaa deletion") ;; ok.

Definition validateCIDR (cidr : string) : option error :=
  match ParseCIDR cidr with inl err => Some err | inr _ => None end.

(** One of the three loops over subnets. *)
Definition validateSubnets (format : string) (subnets : list string) : verdict :=
  check_all (λ subnet,
    match validateCIDR subnet with
    | Some err => fail (ValidationError (Sprintf format [AStr subnet; AMsg (Error err)]))
    | None => ok
    end) subnets.

Definition validateNoobaaLoadbalancerSourceSubnets (nb : NooBaa) : verdict :=
  let subnets := nbs_LoadBalancerSourceSubnets (nb_Spec nb) in
  check! validateSubnets "Invalid S3 loadbalancer source subnet %s: %s" (lb_S3 subnets) ;;
  check! validateSubnets "Invalid STS loadbalancer source subnet %s: %s" (lb_STS subnets) ;;
  check! validateSubnets "Invalid Vectors loadbalancer source subnet %s: %s" (lb_Vectors subnets) ;;
  ok.

Definition validateNoobaaAutoscalerConfig (nb : NooBaa) : verdict :=
  let a := nbs_Autoscaler (nb_Spec nb) in
  reject! ((as_AutoscalerType a == AutoscalerTypeKeda) || (as_AutoscalerType a == AutoscalerTypeHPAV2))
          && (as_PrometheusNamespace a == "")
    with ValidationError (Sprintf "Autoscaler %s missing prometheusNamespace property"
                            [AStr (AutoscalerTypes_string (as_AutoscalerType a))]) ;; ok.

Definition validateTLSSecurity (Getenv : string → string) (nb : NooBaa) : verdict :=
  match sec_APIServerSecurity (nbs_Security (nb_Spec nb)) with
  | None => ok
  | Some spec =>
      match ValidateTLSSpec Getenv (Some spec) with
      | Some err => fail (ValidationError (Error err))
      | None => ok
      end
  end.

Definition ValidateNoobaaUpdate (Getenv : string → string) (nb : NooBaa) : verdict :=
  check! validateNoobaaAutoscalerConfig nb ;;
  check! validateNoobaaLoadbalancerSourceSubnets nb ;;
  validateTLSSecurity Getenv nb.

Definition ValidateNoobaaCreation (Getenv : string → string) (nb : NooBaa) : verdict :=
  check! validateNoobaaAutoscalerConfig nb ;;
  check! validateNoobaaLoadbalancerSourceSubnets nb ;;
  validateTLSSecurity Getenv nb.

(** ** [noobaaaccount_validation.go] *)

Section Account.
Context {QA : QuantityApi} {W : Type}.
Context {SN : ApiServer W NamespaceStore} {SB : ApiServer W (BackingStore QA)}.
Context (Namespace : string).   (* [options.Namespace] *)

Definition checkResourceBackingStore (w : W) (resourceName : string) : outcome (bool * BackingStore QA) :=
  '(obj, res) ← KubeCheckQuiet w (newBackingStore resourceName Namespace); Ret (res, obj).

Definition checkResourceNamespaceStore (w : W) (resourceName : string) : outcome (bool * NamespaceStore) :=
  '(obj, res) ← KubeCheckQuiet w (newNamespaceStore resourceName Namespace); Ret (res, obj).

Definition ValidateAccountDefaultResource (w : W) (na : NooBaaAccount) : verdict :=
  let resource := nas_DefaultResource (na_Spec na) in
  if resource == "" then ok
  else
    '(isBackingStore, _) ← checkResourceBackingStore w resource;
    '(isNamespaceStore, namespaceStoreObj) ← checkResourceNamespaceStore w resource;
    reject! negb isBackingStore && negb isNamespaceStore
      with NewPersistentError "MissingDefaultResource"
             (Sprintf "Account %q default resource %q was not found" [AStr (om_Name (na_meta na)); AStr resource]) ;;
    reject! isBackingStore && isNamespaceStore
      with NewPersistentError "MissingDefaultResource"
             (Sprintf "BackingStore and NamespaceStore should not have the same name: %q" [AStr resource]) ;;
    reject! IsArchiveNamespaceStore (Some namespaceStoreObj)
      with NewPersistentError "InvalidDefaultResource"
             (Sprintf "NamespaceStore %q is an archive store and cannot be used as a default resource"
                [AStr (om_Name (ns_meta namespaceStoreObj))]) ;;
    ok.

End Account.

Definition ValidateRemoveNSFSConfig (na oldNa : NooBaaAccount) : verdict :=
  reject! negb (isNil (nas_NsfsAccountConfig (na_Spec oldNa))) && isNil (nas_NsfsAccountConfig (na_Spec na))
    with ValidationError (Lit "Removing the NsfsAccountConfig is unsupported") ;; ok.

Definition ValidateNSFSConfig (na : NooBaaAccount) : verdict :=
  match nas_NsfsAccountConfig (na_Spec na) with
  | None => ok
  | Some nsfsConf =>
      uid ← deref (nac_UID nsfsConf);
      reject! (uid <? 0)%Z with ValidationError (Lit "UID must be a whole positive number") ;;
      gid ← deref (nac_GID nsfsConf);
      reject! (gid <? 0)%Z with ValidationError (Lit "GID must be a whole positive number") ;;
      ok
  end.

(** ** [common_bucket_validations.go] *)

(** [\s], and the class of [^[^-:\s][^\s:]{0,30}[^-:\s]$] *)
Definition isReSpace (r : Z) : bool :=
  (r =? 9)%Z || (r =? 10)%Z || (r =? 12)%Z || (r =? 13)%Z || (r =? 32)%Z.
Definition notColonSpace (r : Z) : bool := negb (isReSpace r) && negb (r =? 58)%Z.
Definition notDashColonSpace (r : Z) : bool := notColonSpace r && negb (r =? 45)%Z.

Definition linuxUsernameRegex : re :=
  RSeq (RClass notDashColonSpace) (RSeq (RRepeat (RClass notColonSpace) 0 30) (RClass notDashColonSpace)).

Section BucketOptions.
(** [json.Unmarshal] into an [AccountNsfsConfig]. *)
Context (UnmarshalNsfs : string → msg + AccountNsfsConfig).

Definition ValidateNSFSAccountConfig (NSFSConfig bucketclass : string) : verdict :=
  if NSFSConfig == "" then ok
  else
    match UnmarshalNsfs NSFSConfig with
    | inl err => fail (Errorf (Sprintf "failed to parse NSFS account config %q: %v" [AStr NSFSConfig; AMsg err]))
    | inr configObj =>
        reject! bucketclass == ""
          with Errorf (Lit "a bucketclass backed by an NSFS namespacestore is required for NSFS account config usage") ;;
        reject! isNil (nac_UID configObj) && isNil (nac_GID configObj) && (nac_DistinguishedName configObj == "")
          with Errorf (Lit "UID and GID, or DistinguishedName must be provided") ;;
        if negb (isNil (nac_UID configObj)) || negb (isNil (nac_GID configObj)) then
          uid ← deref (nac_UID configObj);
          (* [*UID < 0 || *GID < 0] reads GID only when UID is not negative *)
          if (uid <? 0)%Z then fail (Errorf (Lit "UID and GID must be positive integers"))
          else
            gid ← deref (nac_GID configObj);
            reject! (gid <? 0)%Z with Errorf (Lit "UID and GID must be positive integers") ;;
            reject! (nac_DistinguishedName configObj != "") && ((gid >? -1)%Z || (uid >? -1)%Z)
              with Errorf (Lit "NSFS account config cannot include both distinguished name and UID/GID") ;;
            ok
        else if nac_DistinguishedName configObj != "" then
          reject! negb (MatchString linuxUsernameRegex (nac_DistinguishedName configObj))
            with Errorf (Lit "DistinguishedName must be a valid username by Linux standards") ;; ok
        else ok
    end.

(** Replication rules are opaque to the operator; the server judges them. *)
Context {Rule : Type} (UnmarshalReplication : string → msg + list Rule).
Context (connect : bool → option error) (ValidateReplicationAPI : string → list Rule → option error).

Definition ValidateReplicationPolicy (bucketName replicationPolicy : string) (update isCLI : bool) : verdict :=
  if replicationPolicy == "" then ok
  else
    match UnmarshalReplication replicationPolicy with
    | inl err => fail (Errorf (Sprintf "Failed to parse replication json %q: %v" [AMsg err]))
    | inr rules =>
        match rules with
        | [] =>
            if update then ok
            else fail (Errorf (Sprintf "replication rules array of bucket %q is empty %q" [AStr bucketName]))
        | _ =>
            match connect isCLI with
            | Some err => fail (Errorf (Sprintf "Provisioner Failed to validate replication of bucket %q with error: %v"
                                          [AStr bucketName; AMsg (Error err)]))
            | None =>
                match ValidateReplicationAPI bucketName rules with
                | None => ok
                | Some err =>
                    match err with
                    | RPCError code _ =>
                        if code == "INVALID_REPLICATION_POLICY" then
                          fail (Errorf (Lit "Bucket replication configuration is invalid"))
                        else if code == "INVALID_LOG_REPLICATION_INFO" then
                          fail (Errorf (Lit "Bucket log replication info configuration is invalid"))
                        else fail (Errorf (Sprintf "Provisioner Failed to validate replication of bucket %q with error: %v"
                                             [AStr bucketName; AMsg (Error err)]))
                    | _ => fail (Errorf (Sprintf "Provisioner Failed to validate replication of bucket %q with error: %v"
                                           [AStr bucketName; AMsg (Error err)]))
                    end
                end
            end
        end
    end.

End BucketOptions.

(** ** What is accepted *)

Definition cidr_valid (s : string) : Prop := ∃ n, ParseCIDR s = inr n.

Definition autoscaler_valid (a : AutoscalerSpec) : Prop :=
  as_AutoscalerType a = AutoscalerTypeKeda ∨ as_AutoscalerType a = AutoscalerTypeHPAV2 →
  as_PrometheusNamespace a ≠ "".

Definition noobaa_valid (Getenv : string → string) (nb : NooBaa) : Prop :=
  let spec := nb_Spec nb in
  autoscaler_valid (nbs_Autoscaler spec) ∧
  (∀ s, s ∈ lb_S3 (nbs_LoadBalancerSourceSubnets spec) ++ lb_STS (nbs_LoadBalancerSourceSubnets spec)
          ++ lb_Vectors (nbs_LoadBalancerSourceSubnets spec) → cidr_valid s) ∧
  (∀ tls, sec_APIServerSecurity (nbs_Security spec) = Some tls →
     IsTLSConfigDisabled Getenv = true ∨ tls_spec_valid tls).

Lemma validateSubnets_ok format l :
  validateSubnets format l = ok ↔ ∀ s, s ∈ l → cidr_valid s.
Proof.
  unfold validateSubnets, validateCIDR, cidr_valid. rewrite check_all_ok, Forall_forall.
  assert (Hs : ∀ s, match match ParseCIDR s with inl err => Some err | inr _ => None end with
                    | Some err => fail (ValidationError (Sprintf format [AStr s; AMsg (Error err)]))
                    | None => ok end = ok ↔ ∃ n, ParseCIDR s = inr n).
  { intros s. destruct (ParseCIDR s) as [e|n]; split; [done|by intros [? ?]|eauto|done]. }
  by setoid_rewrite Hs.
Qed.

Lemma validateNoobaaAutoscalerConfig_ok nb :
  validateNoobaaAutoscalerConfig nb = ok ↔ autoscaler_valid (nbs_Autoscaler (nb_Spec nb)).
Proof.
  unfold validateNoobaaAutoscalerConfig, autoscaler_valid.
  rewrite reject_ok, andb_false_iff, orb_false_iff, !bool_decide_eq_false.
  destruct (decide (as_PrometheusNamespace (nbs_Autoscaler (nb_Spec nb)) = "")); tauto.
Qed.

Lemma validateTLSSecurity_ok Getenv nb :
  validateTLSSecurity Getenv nb = ok ↔
  ∀ tls, sec_APIServerSecurity (nbs_Security (nb_Spec nb)) = Some tls →
     IsTLSConfigDisabled Getenv = true ∨ tls_spec_valid tls.
Proof.
  unfold validateTLSSecurity.
  destruct (sec_APIServerSecurity (nbs_Security (nb_Spec nb))) as [tls|]; [|by split].
  pose proof (ValidateTLSSpec_None Getenv tls) as H.
  destruct (ValidateTLSSpec Getenv (Some tls)) as [e|].
  - split; [done|]. intros Hv. by pose proof (proj2 H (Hv tls eq_refl)).
  - split; [|done]. intros _ ? [= <-]. by apply H.
Qed.

(** The creation of a NooBaa system passes exactly when the autoscaler type is
    known, every load-balancer subnet of S3, STS and vectors is a CIDR, and the TLS
    settings are consistent. *)
Theorem ValidateNoobaaCreation_ok Getenv nb :
  ValidateNoobaaCreation Getenv nb = ok ↔ noobaa_valid Getenv nb.
Proof.
  unfold ValidateNoobaaCreation, validateNoobaaLoadbalancerSourceSubnets, noobaa_valid.
  rewrite !check_ok, !validateSubnets_ok, validateNoobaaAutoscalerConfig_ok, validateTLSSecurity_ok.
  setoid_rewrite elem_of_app. setoid_rewrite elem_of_app. split.
  - intros (? & (H1 & H2 & H3 & _) & ?). split_and!; [done| |done]. intros s [?|[?|?]]; auto.
  - intros (? & Hs & ?). split_and!; auto.
Qed.

(** The check of a NooBaa system always ends in a verdict: it accepts, or rejects
    with a validation error, and never panics. *)
Theorem ValidateNoobaaCreation_decides Getenv nb : decides (ValidateNoobaaCreation Getenv nb).
Proof.
  unfold ValidateNoobaaCreation, validateNoobaaAutoscalerConfig, validateNoobaaLoadbalancerSourceSubnets,
    validateTLSSecurity, validateSubnets. decides_steps.
Qed.

Section AccountSpec.
Context {QA : QuantityApi} {W : Type}.
Context {SN : ApiServer W NamespaceStore} {SB : ApiServer W (BackingStore QA)}.

Lemma KubeCheckQuiet_read {O} {KO : KubeObject O} {AS : ApiServer W O} w (obj x : O) b :
  KubeCheckQuiet w obj = Ret (x, b) →
  (b = true ∧ srv_Get w (ObjectKey obj) = inr x) ∨
  (b = false ∧ x = obj ∧ ∃ e, srv_Get w (ObjectKey obj) = inl e).
Proof.
  unfold KubeCheckQuiet, KubeGet. destruct (srv_Get w (ObjectKey obj)) as [e|y].
  - case_match; [|done]. intros [= <- <-]. eauto.
  - intros [= <- <-]. auto.
Qed.

(** The default resource of an accepted account names exactly one store of the
    namespace, and not an archive. *)
Theorem ValidateAccountDefaultResource_sound Namespace (w : W) (na : NooBaaAccount) :
  ValidateAccountDefaultResource (QA:=QA) Namespace w na = ok → nas_DefaultResource (na_Spec na) ≠ "" →
  let r := nas_DefaultResource (na_Spec na) in
  ((∃ bs : BackingStore QA, bs_at w Namespace r bs) ∧ ¬ ∃ ns, ns_at w Namespace r ns) ∨
  ((¬ ∃ bs : BackingStore QA, bs_at w Namespace r bs) ∧
   ∃ ns, ns_at w Namespace r ns ∧
     ¬ (nss_Type (ns_Spec ns) = NSStoreTypeS3Compatible ∧ nss_Archive (ns_Spec ns) = true)).
Proof.
  intros H Hr r. unfold ValidateAccountDefaultResource in H. fold r in H, Hr. rewrite bool_decide_false in H by done.
  unfold checkResourceBackingStore, checkResourceNamespaceStore, bs_at, ns_at in *.
  destruct (KubeCheckQuiet w (newBackingStore r Namespace)) as [[bs b1]|] eqn:Hb; [|done].
  cbn [mbind outcome_bind] in H.
  destruct (KubeCheckQuiet w (newNamespaceStore r Namespace)) as [[ns b2]|] eqn:Hn; [|done].
  cbn [mbind outcome_bind] in H.
  apply KubeCheckQuiet_read in Hb as [[-> Hb]|(-> & _ & eb & Hb)];
    apply KubeCheckQuiet_read in Hn as [[-> Hn]|(-> & _ & en & Hn)];
    change (Namespace, r) with (ObjectKey (newBackingStore (QA:=QA) r Namespace)) in Hb; try done.
  - left. split; [by exists bs|]. intros [ns' Hns]. unfold ObjectKey in Hn. cbn in Hn. congruence.
  - right. rewrite !guard_ok in H. destruct H as (_ & _ & H & _). split.
    + intros [bs' Hbs]. unfold ObjectKey in Hb. cbn in Hb. congruence.
    + exists ns. split; [done|]. intros [Ht Ha]. unfold IsArchiveNamespaceStore in H.
      by rewrite Ht, Ha in H.
Qed.

End AccountSpec.

(** ** Accounts of a namespace file system *)

(** A user name by Linux standards: 2 to 32 runes, no space or colon, no dash at
    the ends. *)
Definition username_valid (s : string) : Prop :=
  ∃ a m b, runes s = a :: m ++ [b] ∧ (length m ≤ 30)%nat ∧
    notDashColonSpace a = true ∧ Forall (λ r, notColonSpace r = true) m ∧ notDashColonSpace b = true.

Lemma linuxUsernameRegex_spec s : MatchString linuxUsernameRegex s = true ↔ username_valid s.
Proof.
  unfold MatchString, linuxUsernameRegex, username_valid. rewrite re_match_lang, lang_seq_inv. split.
  - intros (w1 & w2 & Hw & (a & -> & Ha)%lang_class_inv & H2).
    apply lang_seq_inv in H2 as (m & w3 & -> & Hm & (b & -> & Hb)%lang_class_inv).
    apply lang_repeat_class in Hm as [Hm Hlen]. exists a, m, b. split_and!; try done. lia.
  - intros (a & m & b & Hs & Hlen & Ha & Hm & Hb). exists [a], (m ++ [b]).
    split; [done|]. split; [by constructor|]. constructor; [|by constructor].
    apply lang_repeat_class. split; [done|lia].
Qed.

Section BucketOptionsSpec.
Context (UnmarshalNsfs : string → msg + AccountNsfsConfig).

(** The identity of a file-system account: user and group, or a user name. *)
Definition nsfs_identity (c : AccountNsfsConfig) : Prop :=
  (∃ u g, nac_UID c = Some u ∧ nac_GID c = Some g ∧ (0 ≤ u)%Z ∧ (0 ≤ g)%Z ∧ nac_DistinguishedName c = "") ∨
  (nac_UID c = None ∧ nac_GID c = None ∧ username_valid (nac_DistinguishedName c)).

Lemma username_nonempty : ¬ username_valid "".
Proof. by intros (a & m & b & H & _). Qed.

(** An NSFS account configuration is accepted exactly when it is empty, or comes
    with a bucket class and gives either two non-negative identifiers and no user
    name, or a Linux user name alone. *)
Theorem ValidateNSFSAccountConfig_ok cfg bc :
  ValidateNSFSAccountConfig UnmarshalNsfs cfg bc = ok ↔
  cfg = "" ∨ (bc ≠ "" ∧ ∃ c, UnmarshalNsfs cfg = inr c ∧ nsfs_identity c).
Proof.
  unfold ValidateNSFSAccountConfig, nsfs_identity. case_bool_decide as Hcfg; [by split; [left|]|].
  destruct (UnmarshalNsfs cfg) as [e|c]; [by split; [|intros [?|(_ & ? & ? & _)]]|].
  transitivity (bc ≠ "" ∧ nsfs_identity c); [|split; [intros [? ?]; right; split; [done|by exists c]|by intros [?|(? & ? & [= <-] & ?)]]].
  rewrite guard_ok, bool_decide_eq_false. apply and_iff_compat_l. unfold nsfs_identity.
  destruct (nac_UID c) as [u|], (nac_GID c) as [g|]; cbn [isNil negb andb orb deref mbind outcome_bind guard].
  - destruct (Z.ltb_spec u 0); [split; [done|intros [(? & ? & [= <-] & ? & ? & _)|(? & _)]; [lia|done]]|].
    rewrite guard_ok, reject_ok, andb_false_iff, negb_false_iff, bool_decide_eq_true. split.
    + intros [? [?|?]]; [left; exists u, g; split_and!; try done; lia|lia].
    + intros [(? & ? & [= <-] & [= <-] & ? & ? & ?)|(? & _)]; [|done]. split; [lia|by left].
  - split; [by case_match|by intros [(? & ? & _ & ? & _)|(? & _)]].
  - split; [done|by intros [(? & ? & ? & _)|(_ & ? & _)]].
  - rewrite guard_ok, bool_decide_eq_false. split.
    + intros [Hn H]. right. rewrite bool_decide_false in H by done. cbn [negb] in H.
      rewrite reject_ok, negb_false_iff, linuxUsernameRegex_spec in H. done.
    + intros [(? & ? & ? & _)|(_ & _ & H)]; [done|]. split; [intros Hn; rewrite Hn in H; by apply username_nonempty in H|].
      case_bool_decide; [done|]. cbn [negb]. by rewrite reject_ok, negb_false_iff, linuxUsernameRegex_spec.
Qed.

(** The check of an NSFS account configuration panics exactly when one of the two
    identifiers is missing and the other one does not reject first. *)
Theorem ValidateNSFSAccountConfig_panic cfg bc p :
  ValidateNSFSAccountConfig UnmarshalNsfs cfg bc = Panic p ↔
  p = NilDeref ∧ cfg ≠ "" ∧ bc ≠ "" ∧ ∃ c, UnmarshalNsfs cfg = inr c ∧
    ((nac_UID c = None ∧ is_Some (nac_GID c)) ∨ (∃ u, nac_UID c = Some u ∧ (0 ≤ u)%Z ∧ nac_GID c = None)).
Proof.
  unfold ValidateNSFSAccountConfig, guard, fail, ok.
  case_bool_decide as Hcfg; [by split; [|intros (_ & ? & _)]|].
  destruct (UnmarshalNsfs cfg) as [e|c]; [by split; [|intros (_ & _ & _ & ? & ? & _)]|].
  case_bool_decide as Hbc; [by split; [|intros (_ & _ & ? & _)]|].
  transitivity (p = NilDeref ∧ ((nac_UID c = None ∧ is_Some (nac_GID c)) ∨
     (∃ u, nac_UID c = Some u ∧ (0 ≤ u)%Z ∧ nac_GID c = None))).
  2: { split; [intros [? ?]; eauto 10|by intros (? & _ & _ & ? & [= <-] & ?)]. }
  destruct (nac_UID c) as [u|], (nac_GID c) as [g|]; cbn [isNil negb andb orb deref mbind outcome_bind].
  - split; [by repeat case_match|by intros [_ [[? _]|(? & _ & _ & ?)]]].
  - destruct (Z.ltb_spec u 0).
    + split; [done|]. intros [_ [[? _]|(? & [= <-] & ? & _)]]; [done|lia].
    + split; [intros [= <-]; eauto 10|by intros [-> _]].
  - split; [intros [= <-]; eauto|by intros [-> _]].
  - split; [by repeat case_match|]. by intros [_ [[_ [? ?]]|(? & ? & _)]].
Qed.

End BucketOptionsSpec.
