(* ===== verification/Admission.v ===== *)
(** * The admission webhook: [pkg/admission].

    A request names a resource kind and an operation and carries the JSON of the
    object before and after; a handler answers with a verdict.  Decoding is the
    work of [encoding/json]: the parameters [unmarshal*] give the value it leaves
    in the variable, also when it reports an error (the handlers only log it).
    The state of the cluster is [w]; [readSystem] is the outcome of connecting to
    the NooBaa server and reading its system. *)

From S2P Require Import Prelude GoStrings Types NbTypes Kube Util StoreAccess GoUrl.
From S2P Require Import BackingStoreValidation NamespaceStoreValidation BucketClassValidation NooBaaValidation.

Inductive Operation := OpCreate | OpUpdate | OpDelete | OpOther (s : string).

Record AdmissionRequest := mkAdmissionRequest {
  req_UID : string;
  req_Resource : string;
  req_Operation : Operation;
  req_Object : string;
  req_OldObject : string;
}.

Record AdmissionResponse := mkAdmissionResponse {
  resp_UID : string;
  resp_Allowed : bool;
  resp_Message : msg;
}.

(** What the constructors of the five validators build: the request's UID, allowed. *)
Definition NewValidatorResponse (req : AdmissionRequest) : AdmissionResponse :=
  mkAdmissionResponse (req_UID req) true (Lit "allowed").

Definition SetValidationResult (isAllowed : bool) (message : msg) (resp : AdmissionResponse) : AdmissionResponse :=
  mkAdmissionResponse (resp_UID resp) isAllowed message.

(** [if err := r; err != nil && util.IsValidationError(err) { SetValidationResult(false, ...); return }] *)
Definition denyInvalid (r : verdict) (resp : AdmissionResponse) (k : outcome AdmissionResponse) : outcome AdmissionResponse :=
  err ← r;
  match err with
  | Some e => if IsValidationError (Some e) then Ret (SetValidationResult false (Error e) resp) else k
  | None => k
  end.

(** [if err := r; err != nil { SetValidationResult(false, ...); return }] *)
Definition denyAny (r : verdict) (resp : AdmissionResponse) (k : outcome AdmissionResponse) : outcome AdmissionResponse :=
  err ← r;
  match err with
  | Some e => Ret (SetValidationResult false (Error e) resp)
  | None => k
  end.

Notation "'deny!' r 'on' resp ;; k" := (denyInvalid r resp k)
  (at level 100, r at level 99, resp at level 99, k at level 200, right associativity) : go_scope.
Notation "'deny_any!' r 'on' resp ;; k" := (denyAny r resp k)
  (at level 100, r at level 99, resp at level 99, k at level 200, right associativity) : go_scope.

Section Handlers.
Context {QA : QuantityApi} {AU : AuthoritySyntax} {W : Type}.
Context {SN : ApiServer W NamespaceStore} {SB : ApiServer W (BackingStore QA)}.
Context (unmarshalBS : string → BackingStore QA) (unmarshalNS : string → NamespaceStore)
        (unmarshalBC : string → BucketClass) (unmarshalNA : string → NooBaaAccount)
        (unmarshalNB : string → NooBaa).
Context (Namespace : string) (Getenv : string → string) (readSystem : option SystemInfo).
Implicit Types (w : W) (req : AdmissionRequest) (resp : AdmissionResponse).

(** ** [validate_backingstore.go] *)

Definition ValidateCreateBS req resp : outcome AdmissionResponse :=
  let bs := unmarshalBS (req_Object req) in
  deny! ValidateBackingStore bs on resp ;; Ret resp.

Definition ValidateUpdateBS req resp : outcome AdmissionResponse :=
  let bs := unmarshalBS (req_Object req) in
  let oldBS := unmarshalBS (req_OldObject req) in
  deny! ValidateBackingStore bs on resp ;;
  match bss_Type (bs_Spec bs) with
  | StoreTypePVPool => deny! ValidatePvpoolScaleDown bs oldBS on resp ;; Ret resp
  | StoreTypeAWSS3 | StoreTypeIBMCos | StoreTypeAzureBlob | StoreTypeGoogleCloudStorage =>
      deny! ValidateTargetBSBucketChange bs oldBS on resp ;; Ret resp
  | _ => Ret resp
  end.

Definition ValidateDeleteBS req resp : outcome AdmissionResponse :=
  let bs := unmarshalBS (req_OldObject req) in
  match readSystem with
  | None => Ret resp
  | Some systemInfo => deny! ValidateBackingstoreDeletion bs systemInfo on resp ;; Ret resp
  end.

Definition ValidateBackingstore req resp : outcome AdmissionResponse :=
  match req_Operation req with
  | OpCreate => ValidateCreateBS req resp
  | OpUpdate => ValidateUpdateBS req resp
  | OpDelete => ValidateDeleteBS req resp
  | OpOther _ => Ret resp
  end.

(** ** [validate_namespacestore.go] *)

Definition ValidateCreateNS req resp : outcome AdmissionResponse :=
  let ns := unmarshalNS (req_Object req) in
  '(_, err) ← ValidateNamespaceStore ns;
  deny! Ret err on resp ;; Ret resp.

Definition ValidateUpdateNS req resp : outcome AdmissionResponse :=
  let ns := unmarshalNS (req_Object req) in
  let oldNS := unmarshalNS (req_OldObject req) in
  deny! ValidateNSEndpointChange ns oldNS on resp ;;
  '(ns, err) ← ValidateNamespaceStore ns;
  deny! Ret err on resp ;;
  match nss_Type (ns_Spec ns) with
  | NSStoreTypeAWSS3 | NSStoreTypeS3Compatible | NSStoreTypeIBMCos | NSStoreTypeAzureBlob
  | NSStoreTypeGoogleCloudStorage =>
      deny! ValidateTargetNSBucketChange ns oldNS on resp ;; Ret resp
  | _ => Ret resp
  end.

Definition ValidateDeleteNS req resp : outcome AdmissionResponse :=
  let ns := unmarshalNS (req_OldObject req) in
  match readSystem with
  | None => Ret resp
  | Some systemInfo => deny! ValidateNamespacestoreDeletion ns systemInfo on resp ;; Ret resp
  end.

Definition ValidateNamespaceStoreRequest req resp : outcome AdmissionResponse :=
  match req_Operation req with
  | OpCreate => ValidateCreateNS req resp
  | OpUpdate => ValidateUpdateNS req resp
  | OpDelete => ValidateDeleteNS req resp
  | OpOther _ => Ret resp
  end.

(** ** [validate_bucketclass.go] *)

Definition ValidateCreateBC w req resp : outcome AdmissionResponse :=
  let bc := unmarshalBC (req_Object req) in
  let spec := bc_Spec bc in
  let namespace := om_Namespace (bc_meta bc) in
  deny! ValidateQuotaConfig (om_Name (bc_meta bc)) (bcs_Quota spec) on resp ;;
  deny_any! match bcs_VectorPolicy spec with
            | Some _ => ValidateVectorPolicy w (bcs_VectorPolicy spec) (bcs_PlacementPolicy spec)
                          (bcs_NamespacePolicy spec) namespace
            | None => ok
            end on resp ;;
  deny_any! match bcs_NamespacePolicy spec with
            | Some _ => ValidateNamespacePolicy w (bcs_NamespacePolicy spec) namespace
            | None => ok
            end on resp ;;
  deny! match bcs_NamespacePolicy spec with Some _ => ValidateNSFSSingleBC w bc | None => ok end on resp ;;
  deny_any! match bcs_PlacementPolicy spec with
            | Some pp => ValidateTiersNumber (pp_Tiers pp)
            | None => ok
            end on resp ;;
  deny_any! ValidateArchivePolicy w bc on resp ;;
  Ret resp.

Definition ValidateUpdateBC w req resp : outcome AdmissionResponse :=
  let oldBC := unmarshalBC (req_OldObject req) in
  let newBC := unmarshalBC (req_Object req) in
  deny_any! ValidateImmutLabelChange newBC oldBC ["noobaa-operator"] on resp ;;
  if negb (isNil (bcs_VectorPolicy (bc_Spec newBC))) then
    Ret (SetValidationResult false (Lit "Updating a vector bucket class is not yet supported") resp)
  else
    deny_any! ValidateArchivePolicy w newBC on resp ;;
    Ret resp.

Definition ValidateBucketClassRequest w req resp : outcome AdmissionResponse :=
  match req_Operation req with
  | OpCreate => ValidateCreateBC w req resp
  | OpUpdate => ValidateUpdateBC w req resp
  | _ => Ret resp
  end.

(** ** [validate_noobaaaccount.go] *)

Definition ValidateCreateNA w req resp : outcome AdmissionResponse :=
  let na := unmarshalNA (req_Object req) in
  deny! ValidateNSFSConfig na on resp ;;
  deny_any! ValidateAccountDefaultResource (QA:=QA) Namespace w na on resp ;;
  Ret resp.

Definition ValidateUpdateNA req resp : outcome AdmissionResponse :=
  let na := unmarshalNA (req_Object req) in
  let oldNA := unmarshalNA (req_OldObject req) in
  deny! ValidateRemoveNSFSConfig na oldNA on resp ;;
  if nas_NsfsAccountConfig (na_Spec oldNA) != nas_NsfsAccountConfig (na_Spec na) then
    deny! ValidateNSFSConfig na on resp ;; Ret resp
  else Ret resp.

Definition ValidateNoobaAaccount w req resp : outcome AdmissionResponse :=
  match req_Operation req with
  | OpCreate => ValidateCreateNA w req resp
  | OpUpdate => ValidateUpdateNA req resp
  | _ => Ret resp
  end.

(** ** [validate_noobaa.go] *)

Definition ValidateDeleteNoobaa req resp : outcome AdmissionResponse :=
  deny! ValidateNoobaaDeletion (unmarshalNB (req_OldObject req)) on resp ;; Ret resp.

Definition ValidateNoobaaUpdateRequest req resp : outcome AdmissionResponse :=
  deny! ValidateNoobaaUpdate Getenv (unmarshalNB (req_Object req)) on resp ;; Ret resp.

Definition ValidateNoobaaCreate req resp : outcome AdmissionResponse :=
  deny! ValidateNoobaaCreation Getenv (unmarshalNB (req_Object req)) on resp ;; Ret resp.

Definition ValidateNoobaa req resp : outcome AdmissionResponse :=
  match req_Operation req with
  | OpCreate => ValidateNoobaaCreate req resp
  | OpUpdate => ValidateNoobaaUpdateRequest req resp
  | OpDelete => ValidateDeleteNoobaa req resp
  | OpOther _ => Ret resp
  end.

(** ** [validator.go] *)

Inductive HttpResponse :=
  | HttpError (message : msg) (code : Z)
  | HttpOK (body : AdmissionResponse).

(** [json.Unmarshal] of the body into an [AdmissionReview]: an error, or the review
    with its request, a pointer. *)
Context (unmarshalReview : string → msg + option AdmissionRequest).

(** [serve].  The response value is encoded by [json.Marshal], which has no error
    for this type, and written to the connection. *)
Definition serve w (body path : string) : outcome HttpResponse :=
  if (len body =? 0)%Z then Ret (HttpError (Lit "empty body") 400)
  else if path != "/validate" then Ret (HttpError (Lit "no validate") 400)
  else
    match unmarshalReview body with
    | inl _ => Ret (HttpError (Lit "incorrect body") 400)
    | inr review =>
        req ← deref review;
        let resp := NewValidatorResponse req in
        let reply (r : outcome AdmissionResponse) := r' ← r; Ret (HttpOK r') in
        if req_Resource req == "backingstores" then reply (ValidateBackingstore req resp)
        else if req_Resource req == "namespacestores" then reply (ValidateNamespaceStoreRequest req resp)
        else if req_Resource req == "bucketclasses" then reply (ValidateBucketClassRequest w req resp)
        else if req_Resource req == "noobaaaccounts" then reply (ValidateNoobaAaccount w req resp)
        else if req_Resource req == "noobaas" then reply (ValidateNoobaa req resp)
        else Ret (HttpError (Lit "incorrect resource") 400)
    end.

End Handlers.

(** ** Admission as a predicate *)

(** The handler answers, and the answer allows the request. *)
Definition admits (o : outcome AdmissionResponse) : Prop := ∃ x, o = Ret x ∧ resp_Allowed x = true.

Lemma admits_Ret resp : admits (Ret resp) ↔ resp_Allowed resp = true.
Proof. split; [by intros (? & [= <-] & ?)|by exists resp]. Qed.

Lemma admits_deny r resp k :
  admits (denyInvalid r resp k) ↔ (∃ e, r = Ret e ∧ IsValidationError e = false) ∧ admits k.
Proof.
  unfold denyInvalid. destruct r as [[e|]|p]; cbn [mbind outcome_bind].
  - destruct (IsValidationError (Some e)) eqn:E.
    + split; [by intros (? & [= <-] & ?)|]. intros [(? & [= <-] & ?) _]. congruence.
    + split; [eauto|tauto].
  - split; [eauto|tauto].
  - split; [by intros (? & ? & _)|by intros [(? & ? & _) _]].
Qed.

Lemma admits_deny_decides r resp k :
  decides r → admits (denyInvalid r resp k) ↔ r = ok ∧ admits k.
Proof.
  intros Hr. rewrite admits_deny. apply and_iff_compat_r. destruct Hr as [->|[m ->]].
  - split; [done|]. intros _. by exists None.
  - split; [|done]. by intros (? & [= <-] & ?).
Qed.

Lemma admits_deny_any r resp k : admits (denyAny r resp k) ↔ r = ok ∧ admits k.
Proof.
  unfold denyAny, ok. destruct r as [[e|]|p]; cbn [mbind outcome_bind].
  - split; [by intros (? & [= <-] & ?)|by intros [? _]].
  - tauto.
  - split; [by intros (? & ? & _)|by intros [? _]].
Qed.

(** Every answer carries the request's UID, and an allowing one the standard text. *)
Definition answers (req : AdmissionRequest) (x : AdmissionResponse) : Prop :=
  resp_UID x = req_UID req ∧ (resp_Allowed x = true → resp_Message x = Lit "allowed").

Definition always_answers req (o : outcome AdmissionResponse) : Prop := ∀ x, o = Ret x → answers req x.

Lemma always_answers_new req : always_answers req (Ret (NewValidatorResponse req)).
Proof. intros x [= <-]. by split. Qed.

Lemma always_answers_set req m :
  always_answers req (Ret (SetValidationResult false m (NewValidatorResponse req))).
Proof. intros x [= <-]. by split. Qed.

Lemma always_answers_deny req r k :
  always_answers req k → always_answers req (denyInvalid r (NewValidatorResponse req) k).
Proof.
  intros Hk x. unfold denyInvalid. destruct r as [[e|]|p]; cbn [mbind outcome_bind]; [|auto|done].
  case_match; [|auto]. intros [= <-]. by split.
Qed.

Lemma always_answers_deny_any req r k :
  always_answers req k → always_answers req (denyAny r (NewValidatorResponse req) k).
Proof.
  intros Hk x. unfold denyAny. destruct r as [[e|]|p]; cbn [mbind outcome_bind]; [|auto|done].
  intros [= <-]. by split.
Qed.

Lemma always_answers_bind {A} req (m : outcome A) (k : A → outcome AdmissionResponse) :
  (∀ a, always_answers req (k a)) → always_answers req (a ← m; k a).
Proof. intros Hk x. destruct m as [a|p]; [apply Hk|done]. Qed.

Create HintDb admission.
#[export] Hint Resolve always_answers_new always_answers_set always_answers_deny
  always_answers_deny_any : admission.

(** ** What the handlers admit *)

Section Verdicts.
Context {QA : QuantityApi} {QL : QuantityLaws QA} {AU : AuthoritySyntax} {W : Type}.
Context {SN : ApiServer W NamespaceStore} {SB : ApiServer W (BackingStore QA)}.
Context (unmarshalBS : string → BackingStore QA) (unmarshalNS : string → NamespaceStore)
        (unmarshalBC : string → BucketClass) (unmarshalNA : string → NooBaaAccount)
        (unmarshalNB : string → NooBaa).
Context (Namespace : string) (Getenv : string → string) (readSystem : option SystemInfo).
Implicit Types (w : W) (req : AdmissionRequest).

(** Every verdict the webhook sends out answers the request it was sent: it
    carries the request's UID, and one that allows the request carries the standard
    text. *)
Theorem serve_answers unmarshalReview w body path x :
  serve unmarshalBS unmarshalNS unmarshalBC unmarshalNA unmarshalNB Namespace Getenv readSystem
    unmarshalReview w body path = Ret (HttpOK x) →
  ∃ req, unmarshalReview body = inr (Some req) ∧ answers req x.
Proof.
  unfold serve. destruct (len body =? 0)%Z; [done|]. destruct (path != "/validate"); [done|].
  destruct (unmarshalReview body) as [e|[req|]]; [done| |done]. cbn [deref mbind outcome_bind].
  intros H. exists req. split; [done|].
  set (good o := always_answers req o).
  assert (Hreply : ∀ o : outcome AdmissionResponse, good o → (r' ← o; Ret (HttpOK r')) = Ret (HttpOK x) → answers req x).
  { intros [r|p] Hg; [|done]. cbn. intros [= <-]. by apply Hg. }
  repeat (case_bool_decide; [apply Hreply in H; [done|]; unfold good|]); [..|done].
  - unfold ValidateBackingstore, ValidateCreateBS, ValidateUpdateBS, ValidateDeleteBS.
    repeat case_match; auto with admission.
  - unfold ValidateNamespaceStoreRequest, ValidateCreateNS, ValidateUpdateNS, ValidateDeleteNS.
    destruct (req_Operation req); auto with admission.
    + apply always_answers_bind. intros [? ?]. auto with admission.
    + apply always_answers_deny, always_answers_bind. intros [? ?].
      apply always_answers_deny. repeat case_match; auto with admission.
    + case_match; auto with admission.
  - unfold ValidateBucketClassRequest, ValidateCreateBC, ValidateUpdateBC.
    destruct (req_Operation req); auto 10 with admission.
    apply always_answers_deny_any. case_match; auto with admission.
  - unfold ValidateNoobaAaccount, ValidateCreateNA, ValidateUpdateNA.
    destruct (req_Operation req); auto with admission. apply always_answers_deny. case_match; auto with admission.
  - unfold ValidateNoobaa, ValidateNoobaaCreate, ValidateNoobaaUpdateRequest, ValidateDeleteNoobaa.
    destruct (req_Operation req); auto with admission.
Qed.

(** *** Backing stores *)

(** The webhook admits the creation of a backing store exactly when the store is
    valid: the sub-spec of its type is there with a bucket and a secret or token role,
    the signature version is known, and a PV pool respects the bounds on name, volumes
    and resources. *)
Theorem ValidateCreateBS_admits req resp :
  resp_Allowed resp = true →
  admits (ValidateCreateBS unmarshalBS req resp) ↔ bs_valid (unmarshalBS (req_Object req)).
Proof.
  intros Hr. unfold ValidateCreateBS. rewrite admits_deny_decides by apply ValidateBackingStore_decides.
  rewrite ValidateBackingStore_ok, admits_Ret. tauto.
Qed.

(** The bucket a store keeps its data in, and the volumes of a pool. *)
Definition target_bucket (bs : BackingStore QA) : option string :=
  let spec := bs_Spec bs in
  match bss_Type spec with
  | StoreTypeAWSS3 => aws_TargetBucket <$> bss_AWSS3 spec
  | StoreTypeS3Compatible => s3c_TargetBucket <$> bss_S3Compatible spec
  | StoreTypeIBMCos => ibm_TargetBucket <$> bss_IBMCos spec
  | StoreTypeAzureBlob => azb_TargetBlobContainer <$> bss_AzureBlob spec
  | StoreTypeGoogleCloudStorage => gcs_TargetBucket <$> bss_GoogleCloudStorage spec
  | _ => None
  end.

Definition num_volumes (bs : BackingStore QA) : Z :=
  match bss_PVPool (bs_Spec bs) with Some p => pvp_NumVolumes p | None => 0 end.

(** What the update of a store is checked for, beyond the validity of the result. *)
Definition bs_update_ok (old new : BackingStore QA) : Prop :=
  match bss_Type (bs_Spec new) with
  | StoreTypePVPool => is_Some (bss_PVPool (bs_Spec old)) ∧ (num_volumes old ≤ num_volumes new)%Z
  | StoreTypeAWSS3 => aws_TargetBucket <$> bss_AWSS3 (bs_Spec old) = target_bucket new
  | StoreTypeIBMCos => ibm_TargetBucket <$> bss_IBMCos (bs_Spec old) = target_bucket new
  | StoreTypeAzureBlob => azb_TargetBlobContainer <$> bss_AzureBlob (bs_Spec old) = target_bucket new
  | StoreTypeGoogleCloudStorage => gcs_TargetBucket <$> bss_GoogleCloudStorage (bs_Spec old) = target_bucket new
  | _ => True
  end.

Lemma bucket_compare {A} (o n : option A) (f : A → string) m resp :
  is_Some n →
  admits (denyInvalid (x ← deref o; y ← deref n; guard (f x != f y) (ValidationError m) ok) resp (Ret resp)) ↔
  resp_Allowed resp = true ∧ f <$> o = f <$> n.
Proof.
  intros [y ->]. rewrite admits_deny, admits_Ret. destruct o as [x|]; cbn [deref mbind outcome_bind fmap option_fmap option_map].
  - destruct (bool_decide_reflect (f x = f y)) as [->|Hne]; cbn [negb guard].
    + split; [tauto|]. intros [? _]. split; [|done]. by exists None.
    + split; [by intros [(? & [= <-] & ?) _]|]. by intros [_ [= ?]].
  - split; [by intros [(? & ? & _) _]|by intros [_ ?]].
Qed.

Lemma bs_valid_sub bs : bs_valid bs →
  match bss_Type (bs_Spec bs) with
  | StoreTypeAWSS3 => is_Some (bss_AWSS3 (bs_Spec bs))
  | StoreTypeS3Compatible => is_Some (bss_S3Compatible (bs_Spec bs))
  | StoreTypeIBMCos => is_Some (bss_IBMCos (bs_Spec bs))
  | StoreTypeAzureBlob => is_Some (bss_AzureBlob (bs_Spec bs))
  | StoreTypeGoogleCloudStorage => is_Some (bss_GoogleCloudStorage (bs_Spec bs))
  | StoreTypePVPool => is_Some (bss_PVPool (bs_Spec bs))
  | StoreTypeOther _ => False
  end.
Proof.
  unfold bs_valid. by destruct (bss_Type (bs_Spec bs)); try (intros (a & -> & _); exists a).
Qed.

Lemma ValidateUpdateBS_admits req resp :
  resp_Allowed resp = true →
  admits (ValidateUpdateBS unmarshalBS req resp) ↔
  bs_valid (unmarshalBS (req_Object req)) ∧
  bs_update_ok (unmarshalBS (req_OldObject req)) (unmarshalBS (req_Object req)).
Proof.
  intros Hr. unfold ValidateUpdateBS. rewrite admits_deny_decides by apply ValidateBackingStore_decides.
  rewrite ValidateBackingStore_ok.
  set (new := unmarshalBS (req_Object req)). set (old := unmarshalBS (req_OldObject req)).
  cut (bs_valid new → (admits (match bss_Type (bs_Spec new) with
    | StoreTypePVPool => denyInvalid (ValidatePvpoolScaleDown new old) resp (Ret resp)
    | StoreTypeAWSS3 | StoreTypeIBMCos | StoreTypeAzureBlob | StoreTypeGoogleCloudStorage =>
        denyInvalid (ValidateTargetBSBucketChange new old) resp (Ret resp)
    | _ => Ret resp end) ↔ bs_update_ok old new)); [tauto|].
  intros Hv%bs_valid_sub. unfold ValidateTargetBSBucketChange, ValidatePvpoolScaleDown, bs_update_ok, target_bucket, bsBucketChanged.
  destruct (bss_Type (bs_Spec new)) eqn:Ht; rewrite ?bucket_compare by done; rewrite ?admits_Ret; try tauto.
  destruct Hv as [n Hn]. unfold num_volumes. rewrite Hn.
  destruct (bss_PVPool (bs_Spec old)) as [o|]; cbn [deref mbind outcome_bind].
  - rewrite admits_deny_decides by decides_steps. rewrite reject_ok, admits_Ret. split; [|intros [_ ?]; split; [lia|done]].
    intros [? _]. split; [eauto|lia].
  - split; [by intros (? & ? & _)|by intros [[? ?] _]].
Qed.

(** *** Histories of a backing store *)

(** An update that passes the webhook and keeps the type of the store. *)
Definition bs_step (old new : BackingStore QA) : Prop :=
  bss_Type (bs_Spec new) = bss_Type (bs_Spec old) ∧
  ∃ req resp, resp_Allowed resp = true ∧ unmarshalBS (req_OldObject req) = old ∧
    unmarshalBS (req_Object req) = new ∧ admits (ValidateUpdateBS unmarshalBS req resp).

Lemma bs_step_ok old new : bs_step old new →
  bss_Type (bs_Spec new) = bss_Type (bs_Spec old) ∧ bs_valid new ∧ bs_update_ok old new.
Proof.
  intros (Ht & req & resp & Hr & <- & <- & Hadm). by apply ValidateUpdateBS_admits in Hadm as [? ?].
Qed.

(** C1: along any sequence of admitted updates that keep the type of a backing store,
    its target bucket stays what it was, for every type but s3-compatible. *)
Theorem bs_history_bucket old new :
  rtc bs_step old new → bss_Type (bs_Spec old) ≠ StoreTypeS3Compatible →
  bss_Type (bs_Spec new) = bss_Type (bs_Spec old) ∧ target_bucket new = target_bucket old.
Proof.
  induction 1 as [bs|old mid new (Ht & _ & Hu)%bs_step_ok _ IH]; intros Hs3; [done|].
  destruct IH as [-> ->]; [by rewrite Ht|]. split; [done|].
  unfold bs_update_ok, target_bucket in *. rewrite <-Ht in *.
  by destruct (bss_Type (bs_Spec mid)).
Qed.

(** Along any sequence of admitted updates that keep a store a PV pool, its
    volumes never become fewer. *)
Theorem bs_history_volumes old new :
  rtc bs_step old new → bss_Type (bs_Spec old) = StoreTypePVPool →
  (num_volumes old ≤ num_volumes new)%Z.
Proof.
  induction 1 as [bs|old mid new (Ht & _ & Hu)%bs_step_ok _ IH]; intros Hp; [done|].
  unfold bs_update_ok in Hu. rewrite Ht, Hp in Hu. destruct Hu as [_ Hu].
  rewrite Ht in IH. specialize (IH Hp). lia.
Qed.

(** *** Namespace stores *)

Definition ns_target_bucket (ns : NamespaceStore) : option string :=
  let spec := ns_Spec ns in
  match nss_Type spec with
  | NSStoreTypeAWSS3 => aws_TargetBucket <$> nss_AWSS3 spec
  | NSStoreTypeS3Compatible => s3c_TargetBucket <$> nss_S3Compatible spec
  | NSStoreTypeIBMCos => ibm_TargetBucket <$> nss_IBMCos spec
  | NSStoreTypeAzureBlob => azb_TargetBlobContainer <$> nss_AzureBlob spec
  | NSStoreTypeGoogleCloudStorage => gcs_TargetBucket <$> nss_GoogleCloudStorage spec
  | _ => None
  end.

Definition ns_endpoint (ns : NamespaceStore) : option string :=
  match nss_Type (ns_Spec ns) with
  | NSStoreTypeS3Compatible => s3c_Endpoint <$> nss_S3Compatible (ns_Spec ns)
  | NSStoreTypeIBMCos => ibm_Endpoint <$> nss_IBMCos (ns_Spec ns)
  | _ => None
  end.

Lemma bind_admits {A} (m : outcome A) k : admits (x ← m; k x) ↔ ∃ x, m = Ret x ∧ admits (k x).
Proof. destruct m as [a|p]; cbn; split; [eauto|by intros (? & [= <-] & ?)|by intros (? & ? & _)|by intros (? & ? & _)]. Qed.

(** Two writings of one endpoint. *)
Definition same_endpoint (x y : string) : Prop := EndpointsEquivalent x y = inr true.

Lemma endpoint_compare x y resp k :
  admits (denyInvalid match EndpointsEquivalent x y with
                      | inl err => fail err
                      | inr equal => guard (negb equal) nsEndpointChanged ok
                      end resp k) → same_endpoint x y.
Proof.
  rewrite admits_deny. unfold same_endpoint. destruct (EndpointsEquivalent x y) as [e|[|]] eqn:E; [|done|].
  - apply EndpointsEquivalent_error in E as [m ->]. by intros [(? & [= <-] & ?) _].
  - by intros [(? & [= <-] & ?) _].
Qed.

Lemma bucket_compare_sound {A} (o n : option A) (f : A → string) m resp k :
  admits (denyInvalid (x ← deref o; y ← deref n; guard (f x != f y) (ValidationError m) ok) resp k) →
  f <$> o = f <$> n.
Proof.
  rewrite admits_deny. intros [(e & He & Hv) _]. destruct o as [x|]; [|done]. destruct n as [y|]; [|done].
  cbn in *. destruct (bool_decide_reflect (f x = f y)) as [->|]; [done|].
  cbn in He. by injection He as <-.
Qed.

(** Normalising the endpoint leaves the rest of the store alone. *)
Lemma ns_accepted_same ns ns' :
  ns_accepted ns ns' → nss_Type (ns_Spec ns') = nss_Type (ns_Spec ns) ∧ ns_target_bucket ns' = ns_target_bucket ns.
Proof.
  unfold ns_accepted, ns_target_bucket. destruct (nss_Type (ns_Spec ns)) eqn:Ht.
  - intros (-> & _). by rewrite Ht.
  - intros (s & ep & Hs & _ & _ & _ & _ & _ & ->). cbn. by rewrite Ht, Hs.
  - intros (_ & s & ep & Hs & _ & _ & _ & _ & ->). cbn. by rewrite Ht, Hs.
  - intros (-> & _). by rewrite Ht.
  - intros (-> & _). by rewrite Ht.
  - intros (-> & _). by rewrite Ht.
  - done.
Qed.

(** An admitted update of a namespace store that keeps its type leaves it valid,
    with the same target bucket and an equivalent endpoint. *)
Theorem ValidateUpdateNS_admits req resp :
  let old := unmarshalNS (req_OldObject req) in
  let new := unmarshalNS (req_Object req) in
  admits (ValidateUpdateNS unmarshalNS req resp) →
  nss_Type (ns_Spec old) = nss_Type (ns_Spec new) →
  (∃ new', ns_accepted new new') ∧ ns_target_bucket new = ns_target_bucket old ∧
  ∀ x y, ns_endpoint old = Some x → ns_endpoint new = Some y → same_endpoint x y.
Proof.
  intros old new. unfold ValidateUpdateNS. fold old new. intros Hadm Ht.
  assert (Hep : ∀ x y, ns_endpoint old = Some x → ns_endpoint new = Some y → same_endpoint x y).
  { unfold ns_endpoint. rewrite Ht. unfold ValidateNSEndpointChange in Hadm. intros x y Hx Hy.
    destruct (nss_Type (ns_Spec new)); try done.
    - destruct (nss_S3Compatible (ns_Spec old)); simplify_eq/=.
      destruct (nss_S3Compatible (ns_Spec new)); simplify_eq/=. by eapply endpoint_compare.
    - destruct (nss_IBMCos (ns_Spec old)); simplify_eq/=.
      destruct (nss_IBMCos (ns_Spec new)); simplify_eq/=. by eapply endpoint_compare. }
  rewrite admits_deny, bind_admits in Hadm. destruct Hadm as (_ & [new' err] & Hv & Hadm).
  rewrite admits_deny in Hadm. destruct Hadm as [(? & [= <-] & Herr) Hb].
  destruct err as [e|]; [apply ValidateNamespaceStore_error in Hv as [m ->]; done|].
  apply ValidateNamespaceStore_ok in Hv. split; [by exists new'|]. split; [|done].
  destruct (ns_accepted_same _ _ Hv) as [Ht' <-]. unfold ns_target_bucket. rewrite Ht, Ht' in *.
  unfold ValidateTargetNSBucketChange, nsBucketChanged in Hb. rewrite Ht' in Hb.
  destruct (nss_Type (ns_Spec new)); try done; by apply bucket_compare_sound in Hb.
Qed.

(** *** Bucket classes *)

(** Once every store of a namespace policy is known to be there, the check that
    none is a file system decides. *)
Lemma ValidateNSFSSingleBC_decides w bc np :
  bcs_NamespacePolicy (bc_Spec bc) = Some np →
  ValidateNamespacePolicy w (Some np) (om_Namespace (bc_meta bc)) = ok →
  decides (ValidateNSFSSingleBC w bc).
Proof.
  intros Hnp Hok. apply ValidateNamespacePolicy_ok in Hok as (names & Hnames & Hall).
  unfold ValidateNSFSSingleBC. rewrite Hnp. cbn [deref mbind outcome_bind].
  case_bool_decide; [apply decides_ok|]. rewrite Hnames. cbn [mbind outcome_bind].
  apply decides_check_all. intros name Hname. destruct (Hall name Hname) as (ns & Hns & _).
  unfold validateNotNSFS. rewrite (KubeCheck_found w (newNamespaceStore name (om_Namespace (bc_meta bc))) ns Hns). cbn [mbind outcome_bind]. decides_steps.
Qed.

(** Every store of a namespace policy is there, ready and no archive, and only a
    policy of type single uses a file system. *)
Definition namespace_admissible w (bc : BucketClass) (np : NamespacePolicy) : Prop :=
  ∃ names, GetBucketclassNamespaceStoreArray np = Ret names ∧ ∀ name, name ∈ names →
    ∃ ns, ns_at w (om_Namespace (bc_meta bc)) name ns ∧ nst_Phase (ns_Status ns) = NamespaceStorePhaseReady ∧
      ¬ (nss_Type (ns_Spec ns) = NSStoreTypeS3Compatible ∧ nss_Archive (ns_Spec ns) = true) ∧
      (np_Type np = NSBucketClassTypeSingle ∨ nss_Type (ns_Spec ns) ≠ NSStoreTypeNSFS).

(** What a new bucket class must satisfy. *)
Definition bc_admissible w (bc : BucketClass) : Prop :=
  let spec := bc_Spec bc in
  let namespace := om_Namespace (bc_meta bc) in
  (∀ q, bcs_Quota spec = Some q →
     quota_valid (quota_MaxSize q) (quota_MaxObjects q) ∨
     (∃ m, ValidateQuotaConfig_util (om_Name (bc_meta bc)) (quota_MaxSize q) (quota_MaxObjects q) = fail (Errorf m))) ∧
  (∀ vp, bcs_VectorPolicy spec = Some vp →
     bcs_PlacementPolicy spec = None ∧ bcs_NamespacePolicy spec = None ∧ vector_ready w vp namespace) ∧
  (∀ np, bcs_NamespacePolicy spec = Some np → namespace_admissible w bc np) ∧
  (∀ pp, bcs_PlacementPolicy spec = Some pp → length (pp_Tiers pp) = 1%nat ∨ length (pp_Tiers pp) = 2%nat) ∧
  (∀ ap, bcs_ArchivePolicy spec = Some ap → is_Some (bcs_PlacementPolicy spec) ∧ archive_ready w bc ap).

Lemma ValidateTiersNumber_ok tiers :
  ValidateTiersNumber tiers = ok ↔ length tiers = 1%nat ∨ length tiers = 2%nat.
Proof.
  unfold ValidateTiersNumber. rewrite reject_ok, andb_false_iff, !negb_false_iff, !bool_decide_eq_true. done.
Qed.

Lemma ValidateQuotaConfig_not_invalid name q :
  (∃ e, ValidateQuotaConfig name (Some q) = Ret e ∧ IsValidationError e = false) ↔
  quota_valid (quota_MaxSize q) (quota_MaxObjects q) ∨
  (∃ m, ValidateQuotaConfig_util name (quota_MaxSize q) (quota_MaxObjects q) = fail (Errorf m)).
Proof.
  rewrite <-(ValidateQuotaConfig_util_ok name). unfold ValidateQuotaConfig. split.
  - intros (e & He & Hv). rewrite He. destruct e as [e|]; [|by left]. right.
    exists (Error e). unfold fail. do 2 f_equal. unfold ValidateQuotaConfig_util, check, guard, ok, fail in He.
    repeat case_match; simplify_eq/=; try done.
  - intros [->|[m ->]]; eauto.
Qed.

(** The two checks of a namespace policy, together. *)
Lemma namespace_checks w bc resp k :
  (match bcs_NamespacePolicy (bc_Spec bc) with
   | Some _ => ValidateNamespacePolicy w (bcs_NamespacePolicy (bc_Spec bc)) (om_Namespace (bc_meta bc))
   | None => ok
   end = ok ∧
   admits (denyInvalid match bcs_NamespacePolicy (bc_Spec bc) with
                       | Some _ => ValidateNSFSSingleBC w bc | None => ok end resp k)) ↔
  (∀ np, bcs_NamespacePolicy (bc_Spec bc) = Some np → namespace_admissible w bc np) ∧ admits k.
Proof.
  destruct (bcs_NamespacePolicy (bc_Spec bc)) as [np|] eqn:Hnp.
  2: { rewrite admits_deny_decides by apply decides_ok. split; [intros (_ & _ & ?)|intros [_ ?]]; done. }
  split.
  - intros [Hok Hk]. rewrite admits_deny_decides in Hk by (by eapply ValidateNSFSSingleBC_decides).
    destruct Hk as [Hs Hk]. split; [|done]. intros ? [= <-].
    apply ValidateNamespacePolicy_ok in Hok as (names & Hnames & Hall). exists names. split; [done|].
    rewrite (ValidateNSFSSingleBC_ok w bc np Hnp), Hnames in Hs. intros name Hn.
    destruct (Hall name Hn) as (ns & Hns & Hp & Ha). exists ns. split_and!; try done.
    destruct Hs as [?|(? & [= <-] & Hs)]; [by left|]. right.
    destruct (Hs name Hn) as (ns' & Hns' & ?). unfold ns_at in *. congruence.
  - intros [Hnpok Hk]. destruct (Hnpok np eq_refl) as (names & Hnames & Hall).
    assert (Hok : ValidateNamespacePolicy w (Some np) (om_Namespace (bc_meta bc)) = ok).
    { apply ValidateNamespacePolicy_ok. exists names. split; [done|]. intros name Hn.
      destruct (Hall name Hn) as (ns & ? & ? & ? & _). by exists ns. }
    split; [done|]. rewrite admits_deny_decides by (by eapply ValidateNSFSSingleBC_decides). split; [|done].
    apply (ValidateNSFSSingleBC_ok w bc np Hnp).
    destruct (decide (np_Type np = NSBucketClassTypeSingle)) as [?|Hne]; [by left|]. right.
    exists names. split; [done|]. intros name Hn. destruct (Hall name Hn) as (ns & ? & _ & _ & [?|?]); [done|]. by exists ns.
Qed.

(** The webhook admits the creation of a bucket class exactly when its quota is
    in bounds or its size cannot be parsed, its placement has one or two tiers, and
    the stores that its vector, namespace and archive policies name exist and fit the
    policy. *)
Theorem ValidateCreateBC_admits w req resp :
  resp_Allowed resp = true →
  admits (ValidateCreateBC unmarshalBC w req resp) ↔ bc_admissible w (unmarshalBC (req_Object req)).
Proof.
  intros Hr. unfold ValidateCreateBC, bc_admissible. set (bc := unmarshalBC (req_Object req)).
  rewrite admits_deny. f_equiv.
  { destruct (bcs_Quota (bc_Spec bc)) as [q|].
    - rewrite ValidateQuotaConfig_not_invalid. split; [by intros ? ? [= <-]|]. intros H. by apply H.
    - split; [done|]. intros _. by exists None. }
  rewrite admits_deny_any. f_equiv.
  { destruct (bcs_VectorPolicy (bc_Spec bc)) as [vp|]; [apply ValidateVectorPolicy_ok|by split]. }
  rewrite admits_deny_any, namespace_checks. f_equiv.
  rewrite !admits_deny_any, ValidateArchivePolicy_ok, admits_Ret. f_equiv; [|tauto].
  destruct (bcs_PlacementPolicy (bc_Spec bc)) as [pp|]; [|by split].
  rewrite ValidateTiersNumber_ok. split; [by intros ? ? [= <-]|]. intros H. by apply H.
Qed.

End Verdicts.
