(* ===== verification/Secrets.v ===== *)
(** * Secrets of stores: [pkg/util/util.go].

    Finding the secret a store refers to, and another secret of the namespace that
    already holds the same credentials. *)

From S2P Require Import Prelude GoStrings Types Kube Util StoreAccess Gcp.

(** [KubeObject] of deploy/internal/secret-empty.yaml, whose last step resets the
    string data, with a name and a namespace. *)
Definition emptySecret (name namespace : string) : Secret :=
  SecretResetStringDataFromData
    (mkSecret (set_om_Labels (Some {["app" := "noobaa"]}) (named namespace name)) None (Some ∅)).

(** [MapStorTypeToMandatoryProperties]. *)
Definition MapStorTypeToMandatoryProperties (storeTypeStr : string) : option (list string) :=
  if (storeTypeStr == "aws-s3") || (storeTypeStr == "s3-compatible")
  then Some ["AWS_ACCESS_KEY_ID"; "AWS_SECRET_ACCESS_KEY"]
  else if storeTypeStr == "ibm-cos" then Some ["IBM_COS_ACCESS_KEY_ID"; "IBM_COS_SECRET_ACCESS_KEY"]
  else if storeTypeStr == "google-cloud-storage" then Some [GoogleCredentialsJson; GoogleServiceAccountPrivateKeyJson]
  else if storeTypeStr == "azure-blob" then Some ["AccountName"; "AccountKey"]
  else if (storeTypeStr == "pv-pool") || (storeTypeStr == "nsfs") then Some []
  else None.

Section Secrets.
Context {QA : QuantityApi} {W : Type}.
Context {SS : ApiServer W Secret} {SN : ApiServer W NamespaceStore} {SB : ApiServer W (BackingStore QA)}.
Implicit Types (w : W) (secret : Secret).

Definition GetSecretFromSecretReference w (secretRef : option SecretReference) : outcome (error + option Secret) :=
  match secretRef with
  | None => Ret (inr None)
  | Some ref =>
      if sr_Name ref == "" then Ret (inr None)
      else
        '(secret, found) ← KubeCheck w (emptySecret (sr_Name ref) (sr_Namespace ref));
        if negb found then
          Ret (inl (Errorf (Sprintf "Could not get Secret %q in namespace %q"
                              [AStr (om_Name (sec_meta secret)); AStr (om_Namespace (sec_meta secret))])))
        else Ret (inr (Some secret))
  end.

(** The loop over the mandatory properties: values that are both empty are skipped. *)
Definition sameCreds (mandatoryProp : list string) (usedSecret secret : Secret) : bool :=
  foldl (λ found key,
    let usedValue := MapAlternateKeysValue (sec_StringData usedSecret) key in
    let secretValue := MapAlternateKeysValue (sec_StringData secret) key in
    if (usedValue != "") || (secretValue != "") then found && (usedValue == secretValue) else found)
    true mandatoryProp.

(** One round of either loop: the secret of a store of type [typeStr] whose secret
    reference is [secretRef]. *)
Definition identicalSecret w secret (storeTypeStr : string) (mandatoryProp : list string)
    (typeStr : string) (secretRef : option SecretReference) : outcome (option Secret) :=
  match secretRef with
  | None => Ret None
  | Some ref =>
      used ← GetSecretFromSecretReference w (Some ref);
      Ret match used with
          | inr (Some usedSecret) =>
              if (om_Name (sec_meta usedSecret) != om_Name (sec_meta secret)) && (typeStr == storeTypeStr)
                 && sameCreds mandatoryProp usedSecret secret
              then Some usedSecret else None
          | _ => None
          end
  end.

Fixpoint identicalInBackingStores w secret storeTypeStr mandatoryProp (items : list (BackingStore QA)) :
    outcome (option Secret) :=
  match items with
  | [] => Ret None
  | bs :: items =>
      r ← (if bss_Type (bs_Spec bs) != StoreTypePVPool then
             ref ← GetBackingStoreSecret bs;
             identicalSecret w secret storeTypeStr mandatoryProp (StoreType_string (bss_Type (bs_Spec bs)))
               (match ref with inr ref => Some ref | inl _ => None end)
           else Ret None);
      match r with
      | Some s => Ret (Some s)
      | None => identicalInBackingStores w secret storeTypeStr mandatoryProp items
      end
  end.

Fixpoint identicalInNamespaceStores w secret storeTypeStr mandatoryProp (items : list NamespaceStore) :
    outcome (option Secret) :=
  match items with
  | [] => Ret None
  | ns :: items =>
      r ← (if nss_Type (ns_Spec ns) != NSStoreTypeNSFS then
             ref ← GetNamespaceStoreSecret ns;
             identicalSecret w secret storeTypeStr mandatoryProp (NSType_string (nss_Type (ns_Spec ns)))
               (match ref with inr ref => ref | inl _ => None end)
           else Ret None);
      match r with
      | Some s => Ret (Some s)
      | None => identicalInNamespaceStores w secret storeTypeStr mandatoryProp items
      end
  end.

Definition CheckForIdenticalSecretsCreds w (secret : option Secret) (storeTypeStr : string) : outcome (option Secret) :=
  let mandatoryProp := default [] (MapStorTypeToMandatoryProperties storeTypeStr) in
  match secret with
  | None => Ret None
  | Some secret =>
      match mandatoryProp with
      | [] => Ret None
      | _ =>
          let namespace := om_Namespace (sec_meta secret) in
          '(bsList, _) ← KubeList w (λ bs : BackingStore QA, om_Namespace (bs_meta bs) == namespace);
          '(nsList, _) ← KubeList w (λ ns : NamespaceStore, om_Namespace (ns_meta ns) == namespace);
          r ← identicalInBackingStores w secret storeTypeStr mandatoryProp bsList;
          match r with
          | Some s => Ret (Some s)
          | None => identicalInNamespaceStores w secret storeTypeStr mandatoryProp nsList
          end
      end
  end.

(** ** Google credentials of a store *)

Context {GJ : GoogleJson}.

Definition isGoogleSTSClusterStore w (isGoogleCloudStorage : bool) (secretRef : option SecretReference) (err : bool) :
    outcome bool :=
  if negb isGoogleCloudStorage then Ret false
  else
    match secretRef with
    | None => Ret false
    | Some ref =>
        if err || (sr_Name ref == "") then Ret false
        else
          secret ← GetSecretFromSecretReference w secretRef;
          Ret match secret with inl _ => false | inr secret => isGoogleSTSSecret secret end
    end.

Definition IsGoogleSTSClusterBS w (bs : BackingStore QA) : outcome bool :=
  let isGoogleCloudStorage :=
    (bss_Type (bs_Spec bs) == StoreTypeGoogleCloudStorage) && bool_decide (is_Some (bss_GoogleCloudStorage (bs_Spec bs))) in
  ref ← GetBackingStoreSecret bs;
  match ref with
  | inr ref => isGoogleSTSClusterStore w isGoogleCloudStorage (Some ref) false
  | inl _ => isGoogleSTSClusterStore w isGoogleCloudStorage None true
  end.

Definition IsGoogleSTSClusterNS w (ns : NamespaceStore) : outcome bool :=
  let isGoogleCloudStorage :=
    (nss_Type (ns_Spec ns) == NSStoreTypeGoogleCloudStorage) && bool_decide (is_Some (nss_GoogleCloudStorage (ns_Spec ns))) in
  ref ← GetNamespaceStoreSecret ns;
  match ref with
  | inr ref => isGoogleSTSClusterStore w isGoogleCloudStorage ref false
  | inl _ => isGoogleSTSClusterStore w isGoogleCloudStorage None true
  end.

End Secrets.

(** ** What a reused secret is *)

Definition credential (s : Secret) (key : string) : string := MapAlternateKeysValue (sec_StringData s) key.

Lemma sameCreds_loop props used secret found :
  foldl (λ found key,
    let usedValue := MapAlternateKeysValue (sec_StringData used) key in
    let secretValue := MapAlternateKeysValue (sec_StringData secret) key in
    if (usedValue != "") || (secretValue != "") then found && (usedValue == secretValue) else found)
    found props = true ↔
  found = true ∧ ∀ key, key ∈ props → credential used key = credential secret key.
Proof.
  unfold credential. revert found. induction props as [|k props IH]; intros found; cbn [foldl].
  - split; [|by intros [? _]]. intros ->. split; [done|]. intros key Hk. by apply not_elem_of_nil in Hk.
  - rewrite IH. clear IH. setoid_rewrite elem_of_cons.
    assert (Hk : (if (MapAlternateKeysValue (sec_StringData used) k != "")
                     || (MapAlternateKeysValue (sec_StringData secret) k != "")
                  then found && (MapAlternateKeysValue (sec_StringData used) k == MapAlternateKeysValue (sec_StringData secret) k)
                  else found) = true ↔
                 found = true ∧ MapAlternateKeysValue (sec_StringData used) k = MapAlternateKeysValue (sec_StringData secret) k).
    { destruct (bool_decide_reflect (MapAlternateKeysValue (sec_StringData used) k = "")) as [H1|H1],
        (bool_decide_reflect (MapAlternateKeysValue (sec_StringData secret) k = "")) as [H2|H2]; cbn [negb orb];
        rewrite ?andb_true_iff, ?bool_decide_eq_true; [|done..]. rewrite H1, H2. by split; [|intros [? _]]. }
    rewrite Hk. split.
    + intros [[? ?] Hall]. split; [done|]. intros key [->|?]; auto.
    + intros [? Hall]. split_and!; auto.
Qed.

(** Two secrets are taken to hold the same credentials when they agree on every
    mandatory property, absent ones included. *)
Lemma sameCreds_spec props used secret :
  sameCreds props used secret = true ↔ ∀ key, key ∈ props → credential used key = credential secret key.
Proof. unfold sameCreds. rewrite sameCreds_loop. by split; [intros [_ ?]|]. Qed.

Section SecretsSpec.
Context {QA : QuantityApi} {W : Type}.
Context {SS : ApiServer W Secret} {SN : ApiServer W NamespaceStore} {SB : ApiServer W (BackingStore QA)}.
Implicit Types (w : W).

(** A secret the server has, as the operator reads it. *)
Definition secret_at w (name namespace : string) (s : Secret) : Prop :=
  ∃ x, srv_Get w (namespace, name) = inr x ∧ s = SecretResetStringDataFromData x.

Lemma GetSecretFromSecretReference_found w ref s :
  GetSecretFromSecretReference w (Some ref) = Ret (inr (Some s)) →
  sr_Name ref ≠ "" ∧ secret_at w (sr_Name ref) (sr_Namespace ref) s.
Proof.
  unfold GetSecretFromSecretReference. case_bool_decide as Hn; [done|].
  destruct (KubeCheck _ _) as [[x [|]]|p] eqn:Hk; cbn; try done. intros [= <-].
  split; [done|]. apply KubeCheck_true in Hk as (y & Hy & ->). by exists y.
Qed.

(** What either loop may return. *)
Definition reusable w (secret : Secret) (storeTypeStr : string) (s : Secret) : Prop :=
  om_Name (sec_meta s) ≠ om_Name (sec_meta secret) ∧
  (∃ name namespace, secret_at w name namespace s) ∧
  ∀ key props, MapStorTypeToMandatoryProperties storeTypeStr = Some props → key ∈ props →
    credential s key = credential secret key.

Lemma identicalSecret_sound w secret storeTypeStr props typeStr ref s :
  MapStorTypeToMandatoryProperties storeTypeStr = Some props →
  identicalSecret w secret storeTypeStr props typeStr ref = Ret (Some s) →
  typeStr = storeTypeStr ∧ reusable w secret storeTypeStr s.
Proof.
  intros Hp. unfold identicalSecret. destruct ref as [ref|]; [|done].
  destruct (GetSecretFromSecretReference w (Some ref)) as [[e|[u|]]|p] eqn:Hg; cbn [mbind outcome_bind]; try done.
  destruct ((om_Name (sec_meta u) != om_Name (sec_meta secret)) && (typeStr == storeTypeStr) && sameCreds props u secret) eqn:Hc;
    [|done]. intros [= <-].
  apply andb_true_iff in Hc as [[Hn Ht]%andb_true_iff Hs].
  apply negb_true_iff, bool_decide_eq_false in Hn. apply bool_decide_eq_true in Ht. rewrite sameCreds_spec in Hs.
  split; [done|]. split; [done|]. apply GetSecretFromSecretReference_found in Hg as [_ Hg]. split; [eauto|].
  intros key props' Hp' Hk. rewrite Hp in Hp'. injection Hp' as <-. by apply Hs.
Qed.

Lemma identicalInBackingStores_sound w secret storeTypeStr props items s :
  MapStorTypeToMandatoryProperties storeTypeStr = Some props →
  identicalInBackingStores w secret storeTypeStr props items = Ret (Some s) → reusable w secret storeTypeStr s.
Proof.
  intros Hp. induction items as [|bs items IH]; cbn [identicalInBackingStores]; [done|].
  intros ([x|] & Hx & Hr)%bind_Ret; [|auto]. injection Hr as <-. case_match; [|done].
  apply bind_Ret in Hx as (ref & _ & Hx). by apply (identicalSecret_sound _ _ _ _ _ _ _ Hp) in Hx as [_ ?].
Qed.

Lemma identicalInNamespaceStores_sound w secret storeTypeStr props items s :
  MapStorTypeToMandatoryProperties storeTypeStr = Some props →
  identicalInNamespaceStores w secret storeTypeStr props items = Ret (Some s) → reusable w secret storeTypeStr s.
Proof.
  intros Hp. induction items as [|ns items IH]; cbn [identicalInNamespaceStores]; [done|].
  intros ([x|] & Hx & Hr)%bind_Ret; [|auto]. injection Hr as <-. case_match; [|done].
  apply bind_Ret in Hx as (ref & _ & Hx). by apply (identicalSecret_sound _ _ _ _ _ _ _ Hp) in Hx as [_ ?].
Qed.

(** A secret suggested in place of another one is in the cluster under a
    different name and holds the same value for every property that is mandatory for
    the store type. *)
Theorem CheckForIdenticalSecretsCreds_reusable w secret storeTypeStr s :
  CheckForIdenticalSecretsCreds (QA:=QA) w (Some secret) storeTypeStr = Ret (Some s) →
  reusable w secret storeTypeStr s.
Proof.
  unfold CheckForIdenticalSecretsCreds. destruct (MapStorTypeToMandatoryProperties storeTypeStr) as [[|k props]|] eqn:Hp;
    cbn [default]; try done.
  intros ([bsl ?] & _ & H)%bind_Ret. apply bind_Ret in H as ([nsl ?] & _ & H).
  apply bind_Ret in H as ([x|] & Hx & H).
  - injection H as <-. by eapply identicalInBackingStores_sound.
  - by eapply identicalInNamespaceStores_sound.
Qed.

End SecretsSpec.
