(* ===== verification/Profiles.v ===== *)
(** * Performance profiles: [pkg/system/performance_profiles.go].

    The table of resource bundles and counts, and how the settings of a NooBaa
    resource override it.  The table holds the texts of the quantities;
    [profileResources] parses them with [resource.MustParse].  The start-up
    adjustment for the s390x architecture is not modelled. *)

From S2P Require Import Prelude GoStrings Types.

(** The four arguments of [profileResources]. *)
Record resourceTexts := mkResourceTexts {
  rt_cpuReq : string;
  rt_cpuLim : string;
  rt_memReq : string;
  rt_memLim : string;
}.

Record performanceProfile := mkPerformanceProfile {
  coreResources : resourceTexts;
  logResources : resourceTexts;
  dbResources : resourceTexts;
  endpointResources : resourceTexts;
  pvPoolResources : resourceTexts;
  endpointMinCount : Z;
  endpointMaxCount : Z;
  dbInstances : Z;
  pvPoolNumVolumes : Z;
}.

Definition performanceProfiles (t : PerformanceProfileType) : option performanceProfile :=
  match t with
  | PerformanceProfileDefault => Some (mkPerformanceProfile
      (mkResourceTexts "500m" "1" "1Gi" "4Gi") (mkResourceTexts "200m" "200m" "500Mi" "500Mi")
      (mkResourceTexts "1" "1" "2Gi" "2Gi") (mkResourceTexts "500m" "2" "1Gi" "3Gi")
      (mkResourceTexts "400m" "400m" "800Mi" "800Mi") 1 2 2 3)
  | PerformanceProfileMixedWorkload => Some (mkPerformanceProfile
      (mkResourceTexts "1" "2" "2Gi" "4Gi") (mkResourceTexts "200m" "200m" "500Mi" "500Mi")
      (mkResourceTexts "4" "4" "8Gi" "8Gi") (mkResourceTexts "2" "4" "2Gi" "4Gi")
      (mkResourceTexts "1" "1" "2Gi" "2Gi") 2 4 2 3)
  | PerformanceProfileSmallObjects => Some (mkPerformanceProfile
      (mkResourceTexts "1" "2" "2Gi" "6Gi") (mkResourceTexts "200m" "200m" "500Mi" "500Mi")
      (mkResourceTexts "6" "6" "16Gi" "16Gi") (mkResourceTexts "1" "4" "2Gi" "4Gi")
      (mkResourceTexts "1" "1" "2Gi" "2Gi") 2 4 2 3)
  | PerformanceProfileDevEnv => Some (mkPerformanceProfile
      (mkResourceTexts "500m" "500m" "1Gi" "1Gi") (mkResourceTexts "200m" "200m" "500Mi" "500Mi")
      (mkResourceTexts "1" "1" "2Gi" "2Gi") (mkResourceTexts "500m" "500m" "500Mi" "500Mi")
      (mkResourceTexts "500m" "500m" "500Mi" "500Mi") 1 1 1 1)
  | PerformanceProfileMiniEnv => Some (mkPerformanceProfile
      (mkResourceTexts "100m" "100m" "1Gi" "1Gi") (mkResourceTexts "50m" "50m" "200Mi" "200Mi")
      (mkResourceTexts "100m" "100m" "500Mi" "500Mi") (mkResourceTexts "100m" "100m" "500Mi" "500Mi")
      (mkResourceTexts "100m" "100m" "400Mi" "400Mi") 1 1 1 1)
  | PerformanceProfileNone | PerformanceProfileOther _ => None
  end.

(** The entry of the default profile, which the table has. *)
Definition defaultProfile : performanceProfile :=
  mkPerformanceProfile
    (mkResourceTexts "500m" "1" "1Gi" "4Gi") (mkResourceTexts "200m" "200m" "500Mi" "500Mi")
    (mkResourceTexts "1" "1" "2Gi" "2Gi") (mkResourceTexts "500m" "2" "1Gi" "3Gi")
    (mkResourceTexts "400m" "400m" "800Mi" "800Mi") 1 2 2 3.

Definition lookupProfile (profileType : PerformanceProfileType) : performanceProfile :=
  match performanceProfiles profileType with
  | Some profile => profile
  | None => default defaultProfile (performanceProfiles PerformanceProfileDefault)
  end.

Section Resources.
Context {QA : QuantityApi}.

Definition profileResources (t : resourceTexts) : outcome (ResourceRequirements QA) :=
  cpuReq ← MustParse (rt_cpuReq t);
  memReq ← MustParse (rt_memReq t);
  cpuLim ← MustParse (rt_cpuLim t);
  memLim ← MustParse (rt_memLim t);
  Ret (mkResourceRequirements _ (Some {[ResourceCPU := cpuReq; ResourceMemory := memReq]})
         (Some {[ResourceCPU := cpuLim; ResourceMemory := memLim]})).

(** The getters of the four components: the user's resources, or the profile's. *)
Definition getResources (component : performanceProfile → resourceTexts)
    (override : option (ResourceRequirements QA)) (profileType : PerformanceProfileType) :
    outcome (ResourceRequirements QA) :=
  match override with
  | Some r => Ret r
  | None => profileResources (component (lookupProfile profileType))
  end.

Definition getCoreResources := getResources coreResources.
Definition getLogResources := getResources logResources.
Definition getDBResources := getResources dbResources.
Definition getEndpointResources := getResources endpointResources.

Definition GetPVPoolResources (isTestEnv : bool) (profileType : PerformanceProfileType) :
    outcome (ResourceRequirements QA) :=
  if isTestEnv then profileResources (mkResourceTexts "50m" "50m" "200Mi" "200Mi")
  else profileResources (pvPoolResources (lookupProfile profileType)).

End Resources.

Definition getDBInstances (override : option Z) (profileType : PerformanceProfileType) : Z :=
  match override with Some n => n | None => dbInstances (lookupProfile profileType) end.

Definition getPVPoolNumVolumes (profileType : PerformanceProfileType) (existingVolumes : Z) : Z :=
  let profile := lookupProfile profileType in
  if (existingVolumes <=? 0)%Z then pvPoolNumVolumes profile
  else if (profileType == PerformanceProfileNone) || (profileType == PerformanceProfileDefault) then existingVolumes
  else if (pvPoolNumVolumes profile >? existingVolumes)%Z then pvPoolNumVolumes profile
  else existingVolumes.

(** [endpoints]: the counts of [Spec.Endpoints], when it is set. *)
Definition getEndpointMinMax (profileType : PerformanceProfileType) (endpoints : option (Z * Z)) : Z * Z :=
  let profile := lookupProfile profileType in
  match endpoints with
  | None => (endpointMinCount profile, endpointMaxCount profile)
  | Some (minCount, maxCount) =>
      ((if (minCount >? 0)%Z then minCount else endpointMinCount profile),
       (if (maxCount >? 0)%Z then maxCount else endpointMaxCount profile))
  end.

(** ** Facts *)

(** The number of volumes that a performance profile sets is at least one, never
    below the existing number, within the limit of twenty when the existing number is,
    and unchanged for the default profile. *)
Theorem getPVPoolNumVolumes_bounds profileType existing :
  (1 ≤ getPVPoolNumVolumes profileType existing)%Z ∧
  (existing ≤ getPVPoolNumVolumes profileType existing)%Z ∧
  (existing ≤ 20 → getPVPoolNumVolumes profileType existing ≤ 20)%Z ∧
  (1 ≤ existing → profileType = PerformanceProfileNone ∨ profileType = PerformanceProfileDefault →
   getPVPoolNumVolumes profileType existing = existing)%Z.
Proof.
  unfold getPVPoolNumVolumes. destruct (Z.leb_spec existing 0).
  - destruct profileType; simpl; lia.
  - case_bool_decide as H1; [subst; simpl; lia|]. case_bool_decide as H2; [subst; simpl; lia|]. cbn [orb].
    split_and!; [..|tauto]; destruct (Z.gtb_spec (pvPoolNumVolumes (lookupProfile profileType)) existing); try lia;
      destruct profileType; simpl in *; lia.
Qed.

Lemma getEndpointMinMax_ordered profileType :
  let '(lo, hi) := getEndpointMinMax profileType None in (1 ≤ lo ≤ hi)%Z.
Proof. by destruct profileType. Qed.
