(* ===== verification/PvPool.v ===== *)
(** * Agent pods and volumes of a PV pool: [pkg/backingstore/reconciler.go].

    A pool of [NumVolumes] agents: one PersistentVolumeClaim and one pod per
    volume.  The functions keep the two sets complete, recreate pods whose
    settings are out of date, and wait until every agent is attached. *)

From S2P Require Import Prelude GoStrings Types NbTypes Kube Util StoreAccess Profiles.
From Stdlib Require Import Ascii.

(** ** Kubernetes objects, with the fields that are read or written *)

Record Container {QA : QuantityApi} := mkContainer {
  ct_Image : string;
  ct_Env : list EnvVar;
  ct_Resources : ResourceRequirements QA;
}.
Arguments Container QA : clear implicits.

(** [corev1.Affinity]: three pointers, opaque here. *)
Record Affinity := mkAffinity {
  aff_NodeAffinity : option string;
  aff_PodAffinity : option string;
  aff_PodAntiAffinity : option string;
}.
#[export] Instance Affinity_eq_dec : EqDecision Affinity.
Proof. solve_decision. Defined.

Record Pod {QA : QuantityApi} := mkPod {
  pod_meta : ObjectMeta;
  pod_Containers : list (Container QA);
  pod_Volumes : list Volume;
  pod_AutomountServiceAccountToken : option bool;
  pod_ServiceAccountName : string;
  pod_ImagePullSecrets : list string;
  pod_Tolerations : list Toleration;
  pod_Affinity : option Affinity;
  pod_PriorityClassName : string;
  pod_SpreadLabel : option string;   (* the label of the one topology spread constraint *)
}.
Arguments Pod QA : clear implicits.

Record PersistentVolumeClaim {QA : QuantityApi} := mkPvc {
  pvc_meta : ObjectMeta;
  pvc_StorageClassName : option string;
  pvc_Requests : option (gmap string Quantity);
}.
Arguments PersistentVolumeClaim QA : clear implicits.

Record ServiceAccount := mkServiceAccount { sa_meta : ObjectMeta; sa_ImagePullSecrets : list string }.

#[export, refine] Instance Pod_MetaObject {QA} : MetaObject (Pod QA) :=
  {| meta := pod_meta; set_meta := λ m p, mkPod _ m (pod_Containers p) (pod_Volumes p)
       (pod_AutomountServiceAccountToken p) (pod_ServiceAccountName p) (pod_ImagePullSecrets p)
       (pod_Tolerations p) (pod_Affinity p) (pod_PriorityClassName p) (pod_SpreadLabel p) |}.
Proof. done. Defined.
#[export, refine] Instance Pod_KubeObject {QA} : KubeObject (Pod QA) := {| resetStringData := id |}.
Proof. done. Defined.
#[export, refine] Instance Pvc_MetaObject {QA} : MetaObject (PersistentVolumeClaim QA) :=
  {| meta := pvc_meta; set_meta := λ m p, mkPvc _ m (pvc_StorageClassName p) (pvc_Requests p) |}.
Proof. done. Defined.
#[export, refine] Instance Pvc_KubeObject {QA} : KubeObject (PersistentVolumeClaim QA) := {| resetStringData := id |}.
Proof. done. Defined.
#[export, refine] Instance ServiceAccount_MetaObject : MetaObject ServiceAccount :=
  {| meta := sa_meta; set_meta := λ m s, mkServiceAccount m (sa_ImagePullSecrets s) |}.
Proof. done. Defined.
#[export, refine] Instance ServiceAccount_KubeObject : KubeObject ServiceAccount := {| resetStringData := id |}.
Proof. done. Defined.

(** The settings of the NooBaa resource the pods are built from. *)
Record AgentSettings := mkAgentSettings {
  nbp_ActualImage : string;
  nbp_ImagePullSecret : option string;
  nbp_Tolerations : option (list Toleration);
  nbp_Affinity : option Affinity;
  nbp_PVPoolDefaultStorageClass : option string;
  nbp_PerformanceProfile : PerformanceProfileType;
}.

(** ** Resources of the agent container *)

Section Resources.
Context {QA : QuantityApi}.

Definition setQuantity (l : option (gmap string Quantity)) (k : string) (q : Quantity) :
    outcome (option (gmap string Quantity)) :=
  match l with Some m => Ret (Some (<[k:=q]> m)) | None => Panic NilMapWrite end.

(** [overrideList]: CPU and memory of [src], when present, into [dst]. *)
Definition overrideList (dst src : option (gmap string Quantity)) : outcome (option (gmap string Quantity)) :=
  match src with
  | None => Ret dst
  | Some _ =>
      dst ← match rl_lookup src ResourceCPU with Some q => setQuantity dst ResourceCPU q | None => Ret dst end;
      match rl_lookup src ResourceMemory with Some q => setQuantity dst ResourceMemory q | None => Ret dst end
  end.

Definition applyResourceOverrides (dst src : ResourceRequirements QA) : outcome (ResourceRequirements QA) :=
  requests ← overrideList (rr_Requests dst) (rr_Requests src);
  limits ← overrideList (rr_Limits dst) (rr_Limits src);
  Ret (mkResourceRequirements _ requests limits).

Definition validateResourceRequestsVsLimits (res : ResourceRequirements QA) : option error :=
  let exceeds rName :=
    match rl_lookup (rr_Requests res) rName, rl_lookup (rr_Limits res) rName with
    | Some req, Some lim =>
        if (Quantity_Cmp req lim >? 0)%Z
        then Some (Errorf (Sprintf "request %s (%s) exceeds limit (%s)"
                             [AStr rName; AStr (Quantity_String req); AStr (Quantity_String lim)]))
        else None
    | _, _ => None
    end in
  match exceeds ResourceCPU with Some e => Some e | None => exceeds ResourceMemory end.

(** A missing entry of the container is the zero quantity. *)
Definition compareResourceList (template container : option (gmap string Quantity)) : bool :=
  existsb (λ res,
    match rl_lookup template res with
    | Some qty => negb (Quantity_Cmp qty (default Quantity_zero (rl_lookup container res)) =? 0)%Z
    | None => false
    end) [ResourceCPU; ResourceMemory].

Definition needUpdateResources (pvPool : option (PVPoolSpec QA)) (c : Container QA) : bool :=
  match pvPool with
  | None => false
  | Some p =>
      match pvp_VolumeResources p with
      | None => false
      | Some vr => compareResourceList (rr_Requests vr) (rr_Requests (ct_Resources c))
                   || compareResourceList (rr_Limits vr) (rr_Limits (ct_Resources c))
      end
  end.

End Resources.

(** ** Templates, deploy/internal/pod-agent.yaml and pvc-agent.yaml *)

Definition agentVolumes : list Volume :=
  [mkVolume "tmp-logs-vol" None None; mkVolume "noobaastorage" None (Some "noobaa-pv-claim");
   mkVolume "agent-config-secret" (Some "AGENT_CONFIG_SECRET_NAME") None].

Definition agentEnv : list EnvVar :=
  [mkEnvVar "CONTAINER_PLATFORM" "KUBERNETES" None;
   mkEnvVar "AGENT_CONFIG_PATH" "/etc/agent-config/agent_config" None;
   mkEnvVar "NOOBAA_LOG_LEVEL" "" None; mkEnvVar "NOOBAA_LOG_COLOR" "" None].

Section PvPool.
Context {QA : QuantityApi} {W N : Type}.
Context {SP : ApiServer W (Pod QA)} {SV : ApiServer W (PersistentVolumeClaim QA)}.
Context {SA : ApiServer W ServiceAccount} {SS : ApiServer W Secret}.
(** The environment of the operator and its options. *)
Context (LookupEnv : string → option string) (Namespace SystemName : string) (isTestEnv : bool).
(** [HasNodeInclusionPolicyInPodTopologySpread], from the version of the cluster. *)
Context (hasNodeInclusionPolicy : bool).
(** [controllerutil.SetControllerReference], for an owner. *)
Context (SetControllerReference : ObjectMeta → ObjectMeta → msg + ObjectMeta).
(** [util.RandomHex(4)] of the i-th call, and the clock. *)
Context (RandomHex : nat → string) (now : Z).
(** How long a deletion is polled, and what the cluster does meanwhile. *)
Context (fuel : nat) (tick : W → W).
(** [GetHostsPoolAgentConfigAPI] of the NooBaa server. *)
Context (GetHostsPoolAgentConfig : N → string → error + string).

Implicit Types (w : W) (bs : BackingStore QA) (nb : AgentSettings) (pod : Pod QA).

Definition Own {O} `{MetaObject O} bs (obj : O) : outcome O :=
  match SetControllerReference (bs_meta bs) (meta obj) with
  | inl m => Panic (Panicked m)
  | inr m => Ret (set_meta m obj)
  end.

(** [coreConfig]: the data of the ConfigMap noobaa-config. *)
Context (coreConfig : option (gmap string string)).

Definition updateEnvTemplate (env : list EnvVar) : list EnvVar :=
  let env := (λ e, if (ev_Name e == "NOOBAA_LOG_LEVEL") || (ev_Name e == "NOOBAA_LOG_COLOR")
                   then set_ev_Value (map_get coreConfig (ev_Name e)) e else e) <$> env in
  ReflectEnvVariable LookupEnv (ReflectEnvVariable LookupEnv (ReflectEnvVariable LookupEnv env
    "HTTP_PROXY") "HTTPS_PROXY") "NO_PROXY".

Definition backingstoreLabel bs : string :=
  if map_get (om_Labels (bs_meta bs)) "backingstore" == "" then "noobaa"
  else map_get (om_Labels (bs_meta bs)) "backingstore".

Definition updatePodResourcesTemplate bs nb : outcome (error + ResourceRequirements QA) :=
  profileDefaults ← GetPVPoolResources isTestEnv (nbp_PerformanceProfile nb);
  res ← match bss_PVPool (bs_Spec bs) with
        | Some p => match pvp_VolumeResources p with
                    | Some vr => applyResourceOverrides profileDefaults vr
                    | None => Ret profileDefaults
                    end
        | None => Ret profileDefaults
        end;
  Ret match validateResourceRequestsVsLimits res with
      | Some err => inl (NewPersistentError "InvalidResources"
                           (Sprintf "BackingStore %q has invalid resources: %v"
                              [AStr (om_Name (bs_meta bs)); AMsg (Error err)]))
      | None => inr res
      end.

(** The template of deploy/internal/pod-agent.yaml after [updatePodTemplate]. *)
Definition updatePodTemplate bs nb (secretName : string) : outcome (error + Pod QA) :=
  resources ← updatePodResourcesTemplate bs nb;
  Ret match resources with
  | inl err => inl err
  | inr res =>
      inr (mkPod _
        (set_om_Labels (Some {["app" := "noobaa"; "pool" := om_Name (bs_meta bs);
                               "backingstore" := backingstoreLabel bs]}) (named "" "noobaa-agent"))
        [mkContainer _ (nbp_ActualImage nb) (updateEnvTemplate agentEnv) res]
        ((λ v, if vol_SecretName v == Some "AGENT_CONFIG_SECRET_NAME"
               then mkVolume (vol_Name v) (Some secretName) (vol_ClaimName v) else v) <$> agentVolumes)
        (Some false) "noobaa-core"
        (match nbp_ImagePullSecret nb with None => [] | Some s => [s] end)
        (default [] (nbp_Tolerations nb))
        (nbp_Affinity nb)
        (match bss_PVPool (bs_Spec bs) with Some p => pvp_PriorityClassName p | None => ""%string end)
        (if hasNodeInclusionPolicy then Some (backingstoreLabel bs) else None))
  end.

Definition defaultVolumeSize : Z := 20 * 1024 * 1024 * 1024.

(** The template of deploy/internal/pvc-agent.yaml after [updatePvcTemplate]. *)
Definition updatePvcTemplate bs nb : outcome (PersistentVolumeClaim QA) :=
  p ← deref (bss_PVPool (bs_Spec bs));
  let volumeSize :=
    match pvp_VolumeResources p with
    | Some vr => default Quantity_zero (rl_lookup (rr_Requests vr) ResourceStorage)
    | None => NewQuantity defaultVolumeSize
    end in
  Ret (mkPvc _
    (set_om_Labels (Some {["app" := "noobaa"; "pool" := om_Name (bs_meta bs)]}) (named "" "noobaa-pv-claim"))
    (if pvp_StorageClass p != "" then Some (pvp_StorageClass p) else nbp_PVPoolDefaultStorageClass nb)
    (Some {[ResourceStorage := volumeSize]})).

(** [i] to [NumVolumes]: one claim per missing volume. *)
Fixpoint createPvcs w bs (template : PersistentVolumeClaim QA) (i missing : nat) : outcome W :=
  match missing with
  | 0%nat => Ret w
  | S missing =>
      let name := om_Name (bs_meta bs) +:+ "-" +:+ SystemName +:+ "-pvc-" +:+ RandomHex i in
      newPvc ← Own bs (set_meta (set_om_Namespace Namespace (set_om_Name name (pvc_meta template))) template);
      '(w, _, _) ← KubeCreateSkipExisting w newPvc;
      createPvcs w bs template (S i) missing
  end.

Definition reconcileMissingPvcs w bs nb (pvcs : list (PersistentVolumeClaim QA)) : outcome W :=
  template ← updatePvcTemplate bs nb;
  p ← deref (bss_PVPool (bs_Spec bs));
  createPvcs w bs template (length pvcs) (Z.to_nat (pvp_NumVolumes p) - length pvcs).

(** [pod.Spec.Volumes[1].PersistentVolumeClaim.ClaimName] *)
Definition claimName pod : outcome string :=
  match pod_Volumes pod !! 1%nat with
  | Some v => deref (vol_ClaimName v)
  | None => Panic IndexOutOfRange
  end.

Fixpoint claimNames (pods : list (Pod QA)) : outcome (list string) :=
  match pods with
  | [] => Ret []
  | pod :: pods => c ← claimName pod; cs ← claimNames pods; Ret (c :: cs)
  end.

Definition set_claim (name : string) (vols : list Volume) : list Volume :=
  alter (λ v, mkVolume (vol_Name v) (vol_SecretName v) (Some name)) 1%nat vols.

Definition newAgentPod bs (template : Pod QA) (pvcName : string) : Pod QA :=
  let postfix := default pvcName (AfterLast pvcName "-") in
  let name := om_Name (bs_meta bs) +:+ "-" +:+ SystemName +:+ "-pod-" +:+ postfix in
  mkPod _ (set_om_Namespace Namespace (set_om_Name name (pod_meta template))) (pod_Containers template)
    (set_claim pvcName (pod_Volumes template)) (pod_AutomountServiceAccountToken template)
    (pod_ServiceAccountName template) (pod_ImagePullSecrets template) (pod_Tolerations template)
    (pod_Affinity template) (pod_PriorityClassName template) (pod_SpreadLabel template).

Fixpoint createPods w bs (template : Pod QA) (claims : list string) (pvcs : list (PersistentVolumeClaim QA)) : outcome W :=
  match pvcs with
  | [] => Ret w
  | pvc :: pvcs =>
      if negb (Contains claims (om_Name (pvc_meta pvc))) then
        newPod ← Own bs (newAgentPod bs template (om_Name (pvc_meta pvc)));
        '(w, _, _) ← KubeCreateSkipExisting w newPod;
        createPods w bs template claims pvcs
      else createPods w bs template claims pvcs
  end.

Definition reconcileMissingPods w bs nb (secretName : string) (pods : list (Pod QA))
    (pvcs : list (PersistentVolumeClaim QA)) : outcome (W * option error) :=
  claims ← claimNames pods;
  template ← updatePodTemplate bs nb secretName;
  match template with
  | inl err => Ret (w, Some err)
  | inr template => w ← createPods w bs template claims pvcs; Ret (w, None)
  end.

(** ** Pods whose settings are out of date *)

Definition envValue (env : list EnvVar) (name : string) : option string :=
  i ← GetEnvVariable env name; ev_Value <$> env !! i.

Definition proxyChanged (c : Container QA) (name : string) : bool :=
  match envValue (ct_Env c) name, LookupEnv name with
  | None, Some _ => true
  | Some v, Some val => v != val
  | Some _, None => true
  | None, None => false
  end.

Definition logChanged (c : Container QA) (name : string) : bool :=
  let configMapValue := map_get coreConfig name in
  match envValue (ct_Env c) name with
  | None => configMapValue != ""
  | Some v => configMapValue != v
  end.

Definition newServiceAccount (name : string) : ServiceAccount :=
  mkServiceAccount (named Namespace name) [].

Definition pullSecretsChanged w nb pod : outcome bool :=
  match nbp_ImagePullSecret nb with
  | None =>
      '(sa, found) ← KubeCheck w (newServiceAccount (pod_ServiceAccountName pod));
      Ret (found && (sa_ImagePullSecrets sa != pod_ImagePullSecrets pod))
  | Some s => Ret (match pod_ImagePullSecrets pod with [] => true | x :: _ => x != s end)
  end.

(** [podAffinities := *noobaaAffinitiesPtr] is compared with the value it was read
    from. *)
Definition affinityChanged nb pod : bool :=
  match nbp_Affinity nb with
  | Some noobaaAffinities =>
      match pod_Affinity pod with
      | None => true
      | Some _ => let podAffinities := noobaaAffinities in podAffinities != noobaaAffinities
      end
  | None => bool_decide (is_Some (pod_Affinity pod))
  end.

Definition needUpdate w bs nb pod : outcome bool :=
  c ← match pod_Containers pod with c :: _ => Ret c | [] => Panic IndexOutOfRange end;
  if existsb (proxyChanged c) ["HTTP_PROXY"; "HTTPS_PROXY"; "NO_PROXY"] then Ret true
  else
    let pod_label := map_get (om_Labels (pod_meta pod)) "backingstore" in
    let bs_label := map_get (om_Labels (bs_meta bs)) "backingstore" in
    if (bs_label != "") && (pod_label != bs_label) then Ret true
    else if existsb (logChanged c) ["NOOBAA_LOG_LEVEL"; "NOOBAA_LOG_COLOR"] then Ret true
    else if ct_Image c != nbp_ActualImage nb then Ret true
    else if needUpdateResources (bss_PVPool (bs_Spec bs)) c then Ret true
    else if pod_AutomountServiceAccountToken pod != Some false then Ret true
    else
      pullSecretsChanged w nb pod ≫= λ secretsChanged : bool,
      if secretsChanged then Ret true
      else if existsb (λ t, negb (ContainsAny (pod_Tolerations pod) t (IsTolerationSuperset false)))
                (default [] (nbp_Tolerations nb)) then Ret true
      else if affinityChanged nb pod then Ret true
      else
        let desiredPriorityClassName :=
          match bss_PVPool (bs_Spec bs) with Some p => pvp_PriorityClassName p | None => ""%string end in
        Ret (pod_PriorityClassName pod != desiredPriorityClassName).

Definition isPodinNoobaa (hosts : list string) pod : bool :=
  existsb (λ host, HasPrefix host (om_Name (pod_meta pod))) hosts.

(** The loop over the pods: the number not attached, and of those the number that
    had ten minutes for it. *)
Fixpoint countPods w bs nb (hosts : list string) (pods : list (Pod QA)) : outcome (W * Z * Z) :=
  match pods with
  | [] => Ret (w, 0%Z, 0%Z)
  | pod :: pods =>
      needUpdate w bs nb pod ≫= λ outdated : bool,
      if outdated then
        '(w, _) ← KubeDelete fuel tick w pod;
        countPods w bs nb hosts pods
      else
        '(w, none, failed) ← countPods w bs nb hosts pods;
        if negb (isPodinNoobaa hosts pod) then
          Ret (w, (none + 1)%Z,
               (if (now - om_CreationTimestamp (pod_meta pod) >? 10 * 60 * 10 ^ 9)%Z then failed + 1 else failed)%Z)
        else Ret (w, none, failed)
  end.

Definition reconcileExistingPods w bs nb (hosts : list string) (pods : list (Pod QA)) : outcome (W * option error) :=
  '(w, none, failed) ← countPods w bs nb hosts pods;
  p ← deref (bss_PVPool (bs_Spec bs));
  let started := Z.of_nat (length pods) in
  if (started <? pvp_NumVolumes p)%Z then
    Ret (w, Some (Errorf (Sprintf "BackingStore Still didn't start all the pods. %d from %d has started"
                            [AInt started; AInt (pvp_NumVolumes p)])))
  else if (started - none <? pvp_NumVolumes p)%Z then
    if (failed =? none)%Z then
      Ret (w, Some (NewPersistentError "Failed connecting all pods in backingstore for more than 10 minutes"
                      (Sprintf "Current failing: %d from requested: %d" [AInt failed; AInt (pvp_NumVolumes p)])))
    else Ret (w, Some (Errorf (Sprintf "BackingStore Still didn't connect all requested pods. %d from %d are pending"
                                 [AInt none; AInt (pvp_NumVolumes p)])))
  else Ret (w, None).

(** ** [reconcilePvPool] *)

Definition inPool {O} `{MetaObject O} bs (o : O) : bool :=
  (om_Namespace (meta o) == Namespace)
  && bool_decide (om_Labels (meta o) ≫= lookup "pool"%string = Some (om_Name (bs_meta bs))).

Definition set_agent_config (v : string) (s : Secret) : outcome Secret :=
  sd ← map_set (sec_StringData s) "agent_config" v;
  Ret (mkSecret (sec_meta s) sd (sec_Data s)).

(** The secret is written back through the server, which fills it in. *)
Definition storeAgentConfig w (s : Secret) (config : string) : outcome (W * Secret) :=
  s ← set_agent_config config s;
  '(w, s, _) ← KubeUpdate w s;
  Ret (w, s).

Definition reconcilePvPool w (n : N) bs nb (secret : Secret) (hosts : list string) :
    outcome (W * Secret * option error) :=
  match sec_StringData secret with
  | None => Ret (w, secret, Some (Errorf (Lit "reconcilePvPool: r.Secret.StringData is not initialized yet")))
  | Some _ =>
      config ← (if map_get (sec_StringData secret) "agent_config" == "" then
                  match GetHostsPoolAgentConfig n (om_Name (bs_meta bs)) with
                  | inl err => Ret (w, secret, Some err)
                  | inr res => '(w, secret) ← storeAgentConfig w secret res; Ret (w, secret, None)
                  end
                else Ret (w, secret, None));
      match config with
      | (w, secret, Some err) => Ret (w, secret, Some err)
      | (w, secret, None) =>
          '(pods, _) ← KubeList w (inPool (O:=Pod QA) bs);
          '(pvcs, _) ← KubeList w (inPool (O:=PersistentVolumeClaim QA) bs);
          p ← deref (bss_PVPool (bs_Spec bs));
          '(w, pvcs) ← (if (Z.of_nat (length pvcs) <? pvp_NumVolumes p)%Z then
                          w ← reconcileMissingPvcs w bs nb pvcs;
                          relisted ← KubeList w (inPool (O:=PersistentVolumeClaim QA) bs);
                          Ret (w, match relisted with (pvcs', true) => pvcs' | (_, false) => pvcs end)
                        else Ret (w, pvcs));
          '(w, err) ← (if (length pods <? length pvcs)%nat
                       then reconcileMissingPods w bs nb (om_Name (sec_meta secret)) pods pvcs
                       else Ret (w, None));
          match err with
          | Some e => Ret (w, secret, Some e)
          | None =>
              '(w, err) ← reconcileExistingPods w bs nb hosts pods;
              Ret (w, secret, err)
          end
      end
  end.

End PvPool.

(** ** Resource overrides *)

Section ResourceSpec.
Context {QA : QuantityApi} {QL : QuantityLaws QA}.

Lemma setQuantity_lookup l k q l' :
  setQuantity l k q = Ret l' → ∀ k', rl_lookup l' k' = if k' == k then Some q else rl_lookup l k'.
Proof.
  destruct l as [m|]; [|done]. intros [= <-] k'. unfold rl_lookup. cbn.
  case_bool_decide as Hk; [subst; by rewrite lookup_insert_eq|by rewrite lookup_insert_ne].
Qed.

Lemma overrideList_lookup dst src d :
  overrideList dst src = Ret d → ∀ k, rl_lookup d k =
    if (k == ResourceCPU) || (k == ResourceMemory) then
      match rl_lookup src k with Some q => Some q | None => rl_lookup dst k end
    else rl_lookup dst k.
Proof.
  unfold overrideList. destruct src as [s|]; [|intros [= <-] k; by case_match].
  intros (d1 & H1 & H2)%bind_Ret k.
  assert (Hd1 : rl_lookup d1 k = if k == ResourceCPU then
            match rl_lookup (Some s) k with Some q => Some q | None => rl_lookup dst k end else rl_lookup dst k).
  { destruct (rl_lookup (Some s) ResourceCPU) as [q|] eqn:Hq.
    - rewrite (setQuantity_lookup _ _ _ _ H1). case_bool_decide; [subst; by rewrite Hq|done].
    - injection H1 as <-. case_bool_decide; [subst; by rewrite Hq|done]. }
  destruct (rl_lookup (Some s) ResourceMemory) as [q|] eqn:Hq.
  - rewrite (setQuantity_lookup _ _ _ _ H2), Hd1.
    destruct (bool_decide_reflect (k = ResourceMemory)) as [->|]; [by rewrite Hq, orb_true_r|].
    by destruct (k == ResourceCPU).
  - injection H2 as <-. rewrite Hd1.
    destruct (bool_decide_reflect (k = ResourceMemory)) as [->|]; [by rewrite Hq|].
    by destruct (k == ResourceCPU).
Qed.

Lemma Cmp_refl q : (Quantity_Cmp q q =? 0)%Z = true.
Proof. apply Z.eqb_eq. by apply Cmp_eq. Qed.

(** Overridden values compare equal to the override. *)
Lemma compareResourceList_override dst src d :
  overrideList dst src = Ret d → compareResourceList src d = false.
Proof.
  intros Ho. pose proof (overrideList_lookup _ _ _ Ho) as H. unfold compareResourceList. cbn [existsb].
  rewrite (H ResourceCPU), (H ResourceMemory). cbn.
  destruct (rl_lookup src ResourceCPU), (rl_lookup src ResourceMemory); cbn; by rewrite ?Cmp_refl.
Qed.

Lemma compareResourceList_false template container :
  compareResourceList template container = false ↔
  ∀ k q, k = ResourceCPU ∨ k = ResourceMemory → rl_lookup template k = Some q →
    amount q = amount (default Quantity_zero (rl_lookup container k)).
Proof.
  unfold compareResourceList. cbn [existsb]. rewrite orb_false_r, orb_false_iff.
  assert (Hk : ∀ k, match rl_lookup template k with
     | Some qty => negb (Quantity_Cmp qty (default Quantity_zero (rl_lookup container k)) =? 0)%Z
     | None => false end = false ↔
     ∀ q, rl_lookup template k = Some q → amount q = amount (default Quantity_zero (rl_lookup container k))).
  { intros k. destruct (rl_lookup template k) as [q|]; [|by split].
    rewrite negb_false_iff, Z.eqb_eq, Cmp_eq. split; [by intros ? ? [= <-]|auto]. }
  rewrite !Hk. split.
  - intros [H1 H2] k q [->| ->]; auto.
  - intros H. split; intros q; apply H; auto.
Qed.

Lemma IsTolerationSuperset_refl t :
  (∀ s, tol_Operator t ≠ TolerationOpOther s) → IsTolerationSuperset false t t = true.
Proof.
  intros Hop. unfold IsTolerationSuperset.
  rewrite (bool_decide_true (t = t)), (bool_decide_true (tol_Key t = tol_Key t)),
    (bool_decide_true (tol_Effect t = tol_Effect t)), (bool_decide_true (tol_Value t = tol_Value t)) by done.
  cbn [negb andb orb]. case_match; [done|].
  assert (Hs : match tol_TolerationSeconds t with
    | None => false | Some s => match tol_TolerationSeconds t with None => true | Some s' => (s <? s')%Z end end = false).
  { destruct (tol_TolerationSeconds t); [apply Z.ltb_irrefl|done]. }
  rewrite Hs, andb_false_r. destruct (tol_Operator t) eqn:Ho; [done..|by destruct (Hop s)].
Qed.

End ResourceSpec.

(** ** Agents are recreated until they match, and no further *)

Section Convergence.
Context {QA : QuantityApi} {QL : QuantityLaws QA} {W : Type}.
Context {SA : ApiServer W ServiceAccount}.
Context (LookupEnv : string → option string) (Namespace SystemName : string) (isTestEnv : bool).
Context (hasNodeInclusionPolicy : bool) (coreConfig : option (gmap string string)).
Implicit Types (w : W) (bs : BackingStore QA) (nb : AgentSettings) (pod : Pod QA).

Abbreviation template := (updatePodTemplate LookupEnv isTestEnv hasNodeInclusionPolicy coreConfig).
Abbreviation outdated := (needUpdate LookupEnv Namespace coreConfig).

Lemma template_env_proxy name :
  name ∈ ["HTTP_PROXY"; "HTTPS_PROXY"; "NO_PROXY"]%string →
  envValue (updateEnvTemplate LookupEnv coreConfig agentEnv) name = LookupEnv name.
Proof.
  unfold updateEnvTemplate, ReflectEnvVariable.
  destruct (LookupEnv "HTTP_PROXY") eqn:H1, (LookupEnv "HTTPS_PROXY") eqn:H2, (LookupEnv "NO_PROXY") eqn:H3;
    rewrite !elem_of_cons; intros [->|[->|[->|Hn%not_elem_of_nil]]]; try done; rewrite ?H1, ?H2, ?H3; reflexivity.
Qed.

Lemma template_env_log name :
  name ∈ ["NOOBAA_LOG_LEVEL"; "NOOBAA_LOG_COLOR"]%string →
  envValue (updateEnvTemplate LookupEnv coreConfig agentEnv) name = Some (map_get coreConfig name).
Proof.
  unfold updateEnvTemplate, ReflectEnvVariable.
  destruct (LookupEnv "HTTP_PROXY"), (LookupEnv "HTTPS_PROXY"), (LookupEnv "NO_PROXY");
    rewrite !elem_of_cons; intros [->|[->|Hn%not_elem_of_nil]]; try done; reflexivity.
Qed.

Lemma existsb_false {A} (f : A → bool) l : (∀ x, x ∈ l → f x = false) → existsb f l = false.
Proof.
  induction l as [|x l IH]; intros H; [done|]. cbn. rewrite H by (by left). apply IH.
  intros y Hy. apply H. by right.
Qed.

Lemma template_resources bs nb res :
  updatePodResourcesTemplate isTestEnv bs nb = Ret (inr res) →
  ∀ c, ct_Resources c = res → needUpdateResources (bss_PVPool (bs_Spec bs)) c = false.
Proof.
  unfold updatePodResourcesTemplate, needUpdateResources. intros (defaults & _ & H)%bind_Ret c <-.
  apply bind_Ret in H as (res' & Hres & H). case_match; [done|]. injection H as ->.
  destruct (bss_PVPool (bs_Spec bs)) as [p|]; [|done]. destruct (pvp_VolumeResources p) as [vr|]; [|done].
  unfold applyResourceOverrides in Hres. apply bind_Ret in Hres as (rq & Hrq & Hres).
  apply bind_Ret in Hres as (lm & Hlm & Hres). injection Hres as <-. cbn [rr_Requests rr_Limits].
  by rewrite (compareResourceList_override _ _ _ Hrq), (compareResourceList_override _ _ _ Hlm).
Qed.

(** The pull secrets the server fills in for a pod without any are those of its
    service account. *)
Definition pull_secrets_settled w nb (secrets : list string) : Prop :=
  nbp_ImagePullSecret nb = None →
  ∃ sa found, KubeCheck w (newServiceAccount Namespace "noobaa-core") = Ret (sa, found) ∧
              (found = true → sa_ImagePullSecrets sa = secrets).

(** A pod that is left alone. *)
Definition settled w bs nb pod : Prop :=
  ∃ c rest, pod_Containers pod = c :: rest ∧
  (∀ name, name ∈ ["HTTP_PROXY"; "HTTPS_PROXY"; "NO_PROXY"]%string → envValue (ct_Env c) name = LookupEnv name) ∧
  (map_get (om_Labels (bs_meta bs)) "backingstore" ≠ "" →
     map_get (om_Labels (pod_meta pod)) "backingstore" = map_get (om_Labels (bs_meta bs)) "backingstore") ∧
  (∀ name, name ∈ ["NOOBAA_LOG_LEVEL"; "NOOBAA_LOG_COLOR"]%string →
     default "" (envValue (ct_Env c) name) = map_get coreConfig name) ∧
  ct_Image c = nbp_ActualImage nb ∧
  needUpdateResources (bss_PVPool (bs_Spec bs)) c = false ∧
  pod_AutomountServiceAccountToken pod = Some false ∧
  pullSecretsChanged Namespace w nb pod = Ret false ∧
  (∀ t, t ∈ default [] (nbp_Tolerations nb) →
     ∃ t', t' ∈ pod_Tolerations pod ∧ IsTolerationSuperset false t' t = true) ∧
  (is_Some (nbp_Affinity nb) ↔ is_Some (pod_Affinity pod)) ∧
  pod_PriorityClassName pod = match bss_PVPool (bs_Spec bs) with Some p => pvp_PriorityClassName p | None => "" end.

Lemma existsb_false_iff {A} (f : A → bool) l : existsb f l = false ↔ ∀ x, x ∈ l → f x = false.
Proof.
  split; [|apply existsb_false]. induction l as [|x l IH]; cbn; intros H y Hy; [by apply not_elem_of_nil in Hy|].
  apply orb_false_iff in H as [? ?]. apply elem_of_cons in Hy as [->|Hy]; auto.
Qed.

Lemma proxyChanged_false c name :
  proxyChanged LookupEnv c name = false ↔ envValue (ct_Env c) name = LookupEnv name.
Proof.
  unfold proxyChanged. destruct (envValue (ct_Env c) name), (LookupEnv name); try by split.
  rewrite negb_false_iff, bool_decide_eq_true. split; [by intros ->|by intros [= ->]].
Qed.

Lemma logChanged_false c name :
  logChanged coreConfig c name = false ↔ default "" (envValue (ct_Env c) name) = map_get coreConfig name.
Proof.
  unfold logChanged. destruct (envValue (ct_Env c) name); cbn; rewrite negb_false_iff, bool_decide_eq_true; done.
Qed.

Lemma affinityChanged_false nb pod :
  affinityChanged nb pod = false ↔ (is_Some (nbp_Affinity nb) ↔ is_Some (pod_Affinity pod)).
Proof.
  unfold affinityChanged. destruct (nbp_Affinity nb) as [a|], (pod_Affinity pod) as [b|].
  - rewrite bool_decide_true by done. split; [|done]. intros _. split; eauto.
  - split; [done|]. intros [H _]. by destruct H.
  - rewrite bool_decide_true by eauto. split; [done|]. intros [_ H]. by destruct H.
  - rewrite bool_decide_false by (by intros [? ?]). by split.
Qed.

Lemma tolerations_covered (have want : list Toleration) :
  existsb (λ t, negb (ContainsAny have t (IsTolerationSuperset false))) want = false ↔
  ∀ t, t ∈ want → ∃ t', t' ∈ have ∧ IsTolerationSuperset false t' t = true.
Proof.
  rewrite existsb_false_iff. split; intros H t Ht.
  - apply ContainsAny_spec, negb_false_iff, H, Ht.
  - apply negb_false_iff, ContainsAny_spec, H, Ht.
Qed.

Lemma if_true_false (b : bool) (k : outcome bool) : (if b then Ret true else k) = Ret false ↔ b = false ∧ k = Ret false.
Proof. destruct b; split; [done|by intros [? _]|done|by intros [_ ?]]. Qed.

Lemma bind_if_false (m k : outcome bool) :
  (m ≫= λ b : bool, if b then Ret true else k) = Ret false ↔ m = Ret false ∧ k = Ret false.
Proof. destruct m as [[|]|p]; cbn; split; try done; by intros [? ?]. Qed.

Lemma label_test (a b : string) : (b != "") && (a != b) = false ↔ (b ≠ "" → a = b).
Proof.
  rewrite andb_false_iff, !negb_false_iff, !bool_decide_eq_true.
  destruct (decide (b = "")); tauto.
Qed.

(** An agent pod is kept exactly when it is settled: every property that the
    controller compares agrees with the current configuration. *)
Theorem needUpdate_false w bs nb pod : outdated w bs nb pod = Ret false ↔ settled w bs nb pod.
Proof.
  unfold needUpdate, settled. destruct (pod_Containers pod) as [|c rest]; cbn [mbind outcome_bind].
  { split; [done|by intros (? & ? & ? & _)]. }
  change (outcome_bind bool bool ?f ?m) with (m ≫= f).
  rewrite !if_true_false, bind_if_false, !if_true_false, tolerations_covered, affinityChanged_false, label_test,
    !existsb_false_iff, !negb_false_iff, !bool_decide_eq_true.
  setoid_rewrite proxyChanged_false. setoid_rewrite logChanged_false.
  assert (Hret : ∀ b : bool, Ret (negb b) = Ret false ↔ b = true) by (by intros []).
  rewrite Hret, bool_decide_eq_true. split.
  - intros H. by exists c, rest.
  - by intros (? & ? & [= <- <-] & H).
Qed.

(** A pod made from the current template is settled, whatever the proxy and log
    settings, resources, pull secret, tolerations and affinity: the controller does
    not recreate the pods it has just created. *)
Theorem needUpdate_template w bs nb secretName t pvc :
  template bs nb secretName = Ret (inr t) →
  pull_secrets_settled w nb [] →
  (∀ tol s, tol ∈ default [] (nbp_Tolerations nb) → tol_Operator tol ≠ TolerationOpOther s) →
  settled w bs nb (newAgentPod Namespace SystemName bs t pvc).
Proof.
  intros (res & Hres & Ht)%bind_Ret Hsecrets Htol. destruct res as [e|res]; [done|]. injection Ht as <-.
  eexists _, []. split; [reflexivity|]. split_and!.
  - intros name Hn. by apply template_env_proxy.
  - intros Hl. transitivity (backingstoreLabel bs); [reflexivity|].
    unfold backingstoreLabel. by rewrite bool_decide_false.
  - intros name Hn. cbn [ct_Env]. by rewrite (template_env_log name Hn).
  - done.
  - by apply (template_resources _ _ _ Hres).
  - done.
  - unfold pullSecretsChanged. destruct (nbp_ImagePullSecret nb) as [s|] eqn:Hs.
    + cbn [newAgentPod pod_ImagePullSecrets]. by rewrite bool_decide_true.
    + destruct (Hsecrets Hs) as (sa & found & Hk & Hf). cbn [newAgentPod pod_ServiceAccountName].
      rewrite Hk. cbn [mbind outcome_bind pod_ImagePullSecrets]. destruct found; [|done].
      rewrite Hf by done. by rewrite bool_decide_true.
  - intros tol Hin. exists tol. split; [done|]. apply IsTolerationSuperset_refl. intros s. by apply Htol.
  - done.
  - done.
Qed.

End Convergence.
