(* ===== verification/ConnectionParams.v ===== *)
(** * Connection parameters of a backing store: [MakeExternalConnectionParams] of
    [pkg/backingstore/reconciler.go].

    The spec and the secret of a cloud store are translated to the parameters of
    NooBaa's external connection.  The function works on the fields of the
    reconciler and writes to two of them: missing access keys of the secret are
    filled from alternative names, and an endpoint without a scheme gets one. *)

From S2P Require Import Prelude GoStrings Types NbTypes Kube Util StoreAccess Gcp GoUrl NamespaceStoreValidation.

Section ConnectionParams.
Context {QA : QuantityApi} {AU : AuthoritySyntax} {GJ : GoogleJson}.
(** [unicode.IsGraphic]. *)
Context (IsGraphic : Z → bool).
Implicit Types (bs : BackingStore QA) (secret : Secret).

Definition IsStringGraphicOrSpacesCharsOnly (s : string) : bool :=
  forallb (λ c, IsGraphic c || IsSpace c) (runes s).

(** ** The secret *)

(** One round of [fixAlternateKeysNames]: a write to a nil map panics. *)
Definition fixKey secret (key : string) : outcome Secret :=
  if map_get (sec_StringData secret) key == "" then
    sd ← map_set (sec_StringData secret) key (MapAlternateKeysValue (sec_StringData secret) key);
    Ret (mkSecret (sec_meta secret) sd (sec_Data secret))
  else Ret secret.

Definition fixAlternateKeysNames secret : outcome Secret :=
  secret ← fixKey secret "AWS_ACCESS_KEY_ID";
  fixKey secret "AWS_SECRET_ACCESS_KEY".

(** ** The endpoint of an s3-compatible or ibm-cos store *)

(** The endpoint field afterwards, and the endpoint of the connection. *)
Definition connEndpoint (endpoint : string) : string * (error + string) :=
  if endpoint == "" then (endpoint, inr (URL_String "https" "127.0.0.1:6443"))
  else
    let endpoint := if negb (matchScheme endpoint) then "https://" +:+ endpoint else endpoint in
    match Parse endpoint with
    | inl err => (endpoint, inl (NewPersistentError "InvalidEndpoint"
                                   (Sprintf "Invalid endpoint url %q: %v" [AStr endpoint; AMsg err])))
    | inr u => (endpoint, inr (URL_text (if u_Scheme u == "" then set_Scheme "https" u else u)))
    end.

Definition authMethod (v : S3SignatureVersion) : CloudAuthMethod :=
  match v with
  | S3SignatureVersionV4 => CloudAuthMethodAwsV4
  | S3SignatureVersionV2 => CloudAuthMethodAwsV2
  | _ => CloudAuthMethodNone
  end.

Definition with_s3c bs (s : S3CompatibleSpec) : BackingStore QA :=
  let 'mkBackingStoreSpec _ t aws s3c ibm azb gcs pvp := bs_Spec bs in
  with_spec (mkBackingStoreSpec _ t aws (Some s) ibm azb gcs pvp) bs.
Definition with_ibm bs (s : IBMCosSpec) : BackingStore QA :=
  let 'mkBackingStoreSpec _ t aws s3c ibm azb gcs pvp := bs_Spec bs in
  with_spec (mkBackingStoreSpec _ t aws s3c (Some s) azb gcs pvp) bs.

(** ** The parameters *)

Definition newConn (name : string) (t : EndpointType) (endpoint ident secret : string)
    (auth : CloudAuthMethod) : AddExternalConnectionParams :=
  mkAddExternalConnectionParams name t endpoint ident secret auth "" None "" None.

(** The switch on the type; the store and the secret are returned as they are left. *)
Definition connectionByType bs secret :
    outcome (BackingStore QA * (error + AddExternalConnectionParams)) :=
  let name := om_Name (bs_meta bs) in
  let get key := map_get (sec_StringData secret) key in
  match bss_Type (bs_Spec bs) with
  | StoreTypeAWSS3 =>
      sts ← IsAWSSTSClusterBS bs;
      awsS3 ← deref (bss_AWSS3 (bs_Spec bs));
      let region := aws_Region awsS3 in
      if sts : bool then
        arn ← deref (aws_AWSSTSRoleARN awsS3);
        Ret (bs, inr (mkAddExternalConnectionParams name EndpointTypeAwsSTS (awsEndpoint awsS3) "" ""
                        CloudAuthMethodNone arn None region None))
      else
        Ret (bs, inr (mkAddExternalConnectionParams name EndpointTypeAws (awsEndpoint awsS3)
                        (get "AWS_ACCESS_KEY_ID") (get "AWS_SECRET_ACCESS_KEY")
                        CloudAuthMethodNone "" None region None))
  | StoreTypeS3Compatible =>
      s ← deref (bss_S3Compatible (bs_Spec bs));
      let '(endpoint, conn) := connEndpoint (s3c_Endpoint s) in
      let bs := with_s3c bs (set_s3c_Endpoint endpoint s) in
      Ret (bs, match conn with
               | inl err => inl err
               | inr ep => inr (newConn name EndpointTypeS3Compat ep (get "AWS_ACCESS_KEY_ID")
                                  (get "AWS_SECRET_ACCESS_KEY") (authMethod (s3c_SignatureVersion s)))
               end)
  | StoreTypeIBMCos =>
      s ← deref (bss_IBMCos (bs_Spec bs));
      let '(endpoint, conn) := connEndpoint (ibm_Endpoint s) in
      let bs := with_ibm bs (set_ibm_Endpoint endpoint s) in
      Ret (bs, match conn with
               | inl err => inl err
               | inr ep => inr (newConn name EndpointTypeIBMCos ep (get "IBM_COS_ACCESS_KEY_ID")
                                  (get "IBM_COS_SECRET_ACCESS_KEY") (authMethod (ibm_SignatureVersion s)))
               end)
  | StoreTypeAzureBlob =>
      let tenantID := get "TenantID" in
      let appID := get "ApplicationID" in
      let appSecret := get "ApplicationSecret" in
      let workspaceID := get "LogsAnalyticsWorkspaceID" in
      let logKeys :=
        if (tenantID != "") && (appID != "") && (appSecret != "") && (workspaceID != "")
        then Some (mkAzureLogAccessKeysParams tenantID appID appSecret workspaceID) else None in
      let sts := IsAzureSTSClusterBS bs in
      Ret (bs, inr (mkAddExternalConnectionParams name
        (if sts then EndpointTypeAzureSTS else EndpointTypeAzure) "https://blob.core.windows.net"
        (get "AccountName") (if sts then ""%string else get "AccountKey") CloudAuthMethodNone ""
        (if sts then Some (mkAzureSTSCredentials (get "azure_tenant_id") (get "azure_client_id")) else None)
        "" logKeys))
  | StoreTypeGoogleCloudStorage =>
      Ret (bs,
        match GoogleCredentialsFromStoreSecret (Some secret) with
        | inl err => inl (NewPersistentError "InvalidGoogleSecret"
                            (Sprintf "Invalid google credentials secret: %v" [AMsg (Error err)]))
        | inr json =>
            match ParseGoogleCredentials json with
            | inl err => inl (NewPersistentError "InvalidGoogleSecret"
                                (Sprintf "Invalid secret for google type %q: invalid GCP credentials JSON: %v"
                                   [AStr (om_Name (sec_meta secret)); AMsg (Error err)]))
            | inr (isExternal, ident) =>
                inr (newConn name (if isExternal : bool then EndpointTypeGoogleSTS else EndpointTypeGoogle)
                       "https://www.googleapis.com" ident json CloudAuthMethodNone)
            end
        end)
  | StoreTypePVPool =>
      Ret (bs, inl (NewPersistentError "InvalidType"
                      (Sprintf "%q type does not have external connection params" [AStr (StoreType_string StoreTypePVPool)])))
  | StoreTypeOther s =>
      Ret (bs, inl (NewPersistentError "InvalidType" (Sprintf "Invalid backing store type %q" [AStr s])))
  end.

Definition MakeExternalConnectionParams bs secret :
    outcome (BackingStore QA * Secret * (error + AddExternalConnectionParams)) :=
  secret ← fixAlternateKeysNames secret;
  '(bs, conn) ← connectionByType bs secret;
  match conn with
  | inl err => Ret (bs, secret, inl err)
  | inr conn =>
      sts ← IsAWSSTSClusterBS bs;
      if negb sts && (negb (IsStringGraphicOrSpacesCharsOnly (aec_Identity conn))
                      || negb (IsStringGraphicOrSpacesCharsOnly (aec_Secret conn))) then
        Ret (bs, secret, inl (NewPersistentError "InvalidSecret"
              (Sprintf "Invalid secret containing non graphic characters (perhaps not base64 encoded?) %q"
                 [AStr (om_Name (sec_meta secret))])))
      else Ret (bs, secret, inr conn)
  end.

(** ** Facts *)

(** The controller connects to the endpoint in the normal form that the
    validation of namespace stores computes, and fails on the same inputs. *)
Theorem connEndpoint_ValidateEndPoint ep x :
  ep ≠ "" → (connEndpoint ep).2 = inr x ↔ ValidateEndPoint ep = inr x.
Proof.
  intros Hep. unfold connEndpoint, ValidateEndPoint. rewrite bool_decide_false by done.
  destruct (Parse _) as [e|u]; cbn [snd]; [by split|]. done.
Qed.

(** Keys already there are kept; a missing one is filled from its alternatives. *)
Lemma fixKey_get secret key secret' :
  fixKey secret key = Ret secret' →
  map_get (sec_StringData secret') key = MapAlternateKeysValue (sec_StringData secret) key ∧
  ∀ k, k ≠ key → map_get (sec_StringData secret') k = map_get (sec_StringData secret) k.
Proof.
  unfold fixKey. case_bool_decide as Hk.
  - intros (sd & Hsd & [= <-])%bind_Ret. split; [by eapply map_get_set|].
    intros k Hne. by apply (map_get_set_ne _ key k _ _ (not_eq_sym Hne) Hsd).
  - intros [= <-]. split; [|done]. unfold MapAlternateKeysValue. by rewrite bool_decide_false.
Qed.

(** The step panics exactly on a secret without string data. *)
Lemma fixAlternateKeysNames_returns secret :
  returns (fixAlternateKeysNames secret) ↔ sec_StringData secret ≠ None.
Proof.
  unfold fixAlternateKeysNames, fixKey. destruct (sec_StringData secret) as [m|] eqn:Hm.
  - split; [done|]. intros _. unfold returns. destruct (map_get (Some m) "AWS_ACCESS_KEY_ID" == ""); cbn;
      [|rewrite Hm]; case_bool_decide; cbn; eauto.
  - split; [|done]. by intros [? ?].
Qed.

(** The store keeps its metadata, type and status, and names the connection. *)
Lemma connectionByType_frame bs secret bs' r :
  connectionByType bs secret = Ret (bs', r) →
  bs_meta bs' = bs_meta bs ∧ bss_Type (bs_Spec bs') = bss_Type (bs_Spec bs) ∧ bs_Status bs' = bs_Status bs ∧
  ∀ conn, r = inr conn → aec_Name conn = om_Name (bs_meta bs).
Proof.
  unfold connectionByType, with_s3c, with_ibm, deref. destruct (bs_Spec bs) eqn:Hspec.
  intros H. repeat (case_match; simplify_eq/=);
    try (destruct (IsAWSSTSClusterBS bs) as [[]|]; simplify_eq/=);
    (split_and!; [done|by rewrite ?Hspec|done|intros ? ?; by simplify_eq/=]).
Qed.

Lemma MakeExternalConnectionParams_frame bs secret bs' secret' r :
  MakeExternalConnectionParams bs secret = Ret (bs', secret', r) →
  bs_meta bs' = bs_meta bs ∧ bss_Type (bs_Spec bs') = bss_Type (bs_Spec bs) ∧ bs_Status bs' = bs_Status bs ∧
  ∀ conn, r = inr conn → aec_Name conn = om_Name (bs_meta bs).
Proof.
  unfold MakeExternalConnectionParams.
  intros (s1 & _ & ([bs1 r1] & H1%connectionByType_frame & H)%bind_Ret)%bind_Ret.
  destruct H1 as (? & ? & ? & Hn). destruct r1 as [e|conn].
  - simplify_eq. split_and!; try done.
  - apply bind_Ret in H as (sts & _ & H). case_match; simplify_eq; split_and!; try done.
Qed.

(** With the sub-spec of its type and a loaded secret, the translation of a store
    to connection parameters does not panic, on any type and any key material. *)
Theorem MakeExternalConnectionParams_returns bs secret :
  bs_has_subspec bs → sec_StringData secret ≠ None → returns (MakeExternalConnectionParams bs secret).
Proof.
  intros Hsub Hs. unfold MakeExternalConnectionParams.
  destruct (proj2 (fixAlternateKeysNames_returns secret) Hs) as [s1 ->]. cbn [mbind outcome_bind].
  destruct bs as [m [t aws s3c ibm azb gcs pvp] st].
  unfold connectionByType, IsAWSSTSClusterBS, bs_has_subspec, with_s3c, with_ibm, returns in *. simpl in *.
  destruct t; try destruct Hsub as [x ->]; cbn;
    repeat (case_match; simplify_eq/=; try case_bool_decide; cbn); eauto.
  destruct H as [arn ->]. cbn. repeat (case_match; simplify_eq/=; try case_bool_decide; cbn); eauto.
Qed.

End ConnectionParams.
