(* ===== verification/Controller.v ===== *)
(** * What the controllers share.

    The reconcilers of [pkg/backingstore], [pkg/namespacestore], [pkg/bucketclass] and
    [pkg/noobaaaccount] are written to one pattern: steps that return an error, a
    client of NooBaa's management API, a check of the system resource, and the same
    judgement of an external connection.  This file holds that pattern. *)

From S2P Require Import Prelude GoStrings Types NbTypes Kube Util.

(** ** The NooBaa server *)

(** The calls of the management API the store controllers make.  [nb_Connect] is
    [system.Connect]: it fails while the server cannot be reached. *)
Class NBClient (N : Type) : Type := {
  nb_Connect : N → option error;
  nb_ReadSystem : N → error + SystemInfo;
  nb_ListHosts : N → string → error + list string;
  nb_CheckExternalConnection : N → CheckExternalConnectionParams → error + CheckExternalConnectionReply;
  nb_GetHostsPoolAgentConfig : N → string → error + string;
  nb_AddExternalConnection : N → AddExternalConnectionParams → N * option error;
  nb_UpdateExternalConnection : N → UpdateExternalConnectionParams → N * option error;
  nb_DeleteExternalConnection : N → string → N * option error;
  nb_CreateCloudPool : N → CreateCloudPoolParams → N * option error;
  nb_CreateHostsPool : N → CreateHostsPoolParams → N * (error + string);
  nb_UpdateHostsPool : N → UpdateHostsPoolParams → N * option error;
  nb_DeletePool : N → string → N * option error;
  nb_UpdateAccountS3Access : N → UpdateAccountS3AccessParams → N * option error;
  nb_UpdateAllBucketsDefaultPool : N → string → N * option error;
}.

(** The calls on accounts. *)
Class NBAccountClient (N : Type) : Type := {
  nb_ReadAccount : N → string → error + AccountInfo;
  nb_CreateAccount : N → CreateAccountParams → N * (error + CreateAccountReply);
  nb_DeleteAccount : N → string → N * option error;
}.

Definition PauseReconcile : string := "noobaa.io/pause-reconcile".
Definition GracefulFinalizer : string := "noobaa.io/graceful_finalizer".

(** [reconcile.Result]: the seconds after which the request comes back. *)
Record Result := mkResult { RequeueAfter : option Z }.

(** ** Steps *)

Section Steps.
Context {St : Type}.

(** [if err := m; err != nil { return err }; k] *)
Definition try_step (m : outcome (St * option error)) (k : St → outcome (St * option error)) :
    outcome (St * option error) :=
  '(st, err) ← m;
  match err with Some e => Ret (st, Some e) | None => k st end.

Lemma try_step_ok m k st' :
  try_step m k = Ret (st', None) ↔ ∃ st1, m = Ret (st1, None) ∧ k st1 = Ret (st', None).
Proof.
  unfold try_step. destruct m as [[st1 [e|]]|p]; simpl; split; try done.
  - by intros (? & [=] & _).
  - intros ?. by exists st1.
  - by intros (? & [= <-] & ?).
  - by intros (? & [=] & _).
Qed.

Lemma try_step_err m k st1 e : m = Ret (st1, Some e) → try_step m k = Ret (st1, Some e).
Proof. by intros ->. Qed.

(** What a step preserves is preserved by the sequence. *)
Lemma try_step_inv (P : St → Prop) m k st' err :
  (∀ st1 e, m = Ret (st1, e) → P st1) →
  (∀ st1 st2 e, P st1 → k st1 = Ret (st2, e) → P st2) →
  try_step m k = Ret (st', err) → P st'.
Proof.
  unfold try_step. intros Hm Hk. destruct m as [[st1 [e|]]|p]; simpl; intros H; simplify_eq.
  - by eapply Hm.
  - by eapply Hk; [eapply Hm|].
Qed.
End Steps.

(** ** The system resource *)

(** [system.CheckSystem]: whether there is a NooBaa system that is not being deleted. *)
Definition CheckSystem {W} `{ApiServer W NooBaa} (w : W) (sys : NooBaa) : outcome (W * NooBaa * bool) :=
  '(sys, found) ← KubeCheck w sys;
  match om_DeletionTimestamp (nb_meta sys) with
  | Some _ => Ret (w, sys, false)
  | None =>
      let '(sys, changed) := EnsureCommonMetaFields sys GracefulFinalizer in
      '(w, sys, ok) ← (if changed then KubeUpdate w sys else Ret (w, sys, true));
      if negb ok then Ret (w, sys, false)
      else
        let status := nb_Status sys in
        let sys := mkNooBaa (nb_meta sys) (nb_Spec sys)
                     (set_nbst_AdminSecret (Some (default (mkSecretReference "" "") (nbst_AdminSecret status)))
                        (set_nbst_Services (Some (default noServices (nbst_Services status))) status)) in
        Ret (w, sys, found && (om_UID (nb_meta sys) != ""))
  end.

(** The message of a phase: its number and its quoted name. *)
Definition startedPhase (number name : string) : msg :=
  let quote := String (Ascii.ascii_of_nat 34) "" in
  Lit ("noobaa operator started phase " +:+ number +:+ " - " +:+ quote +:+ name +:+ quote).

(** Five minutes, in nanoseconds. *)
Definition young (now : Z) (m : ObjectMeta) : bool := (now - om_CreationTimestamp m <? 5 * 60 * 10 ^ 9)%Z.

(** ** Pools, accounts and connections of the server *)

Definition findPool (name : string) (pools : list PoolInfo) : option PoolInfo :=
  List.find (λ p, pool_Name p == name) pools.

(** The pool that accounts are moved to when their default resource goes away. *)
Definition internalPool (info : SystemInfo) : string :=
  match findPool "backingstores" (si_Pools info) with Some p => pool_Name p | None => "" end.

Section Server.
Context {N : Type} {NB : NBClient N}.

(** The accounts that use the resource as their default are moved to the internal
    pool; the first failure ends the loop. *)
Fixpoint moveAccounts (n : N) (resource internalPoolName : string) (accounts : list AccountInfo) : N * option error :=
  match accounts with
  | [] => (n, None)
  | account :: accounts =>
      if acc_DefaultResource account == resource then
        match nb_UpdateAccountS3Access n
                (mkUpdateAccountS3AccessParams (acc_Email account) (acc_HasS3Access account) (Some internalPoolName)
                   None None None) with
        | (n, Some e) => (n, Some e)
        | (n, None) => moveAccounts n resource internalPoolName accounts
        end
      else moveAccounts n resource internalPoolName accounts
  end.

(** A connection that is still in use is left alone. *)
Definition deleteConnection (n : N) (name : string) : N * option error :=
  let '(n, err) := nb_DeleteExternalConnection n name in
  (n, match err with
      | Some (RPCError code m) => if code != "IN_USE" then Some (RPCError code m) else None
      | _ => err
      end).
End Server.

Definition set_aec_Name (name : string) (c : AddExternalConnectionParams) : AddExternalConnectionParams :=
  mkAddExternalConnectionParams name (aec_EndpointType c) (aec_Endpoint c) (aec_Identity c) (aec_Secret c)
    (aec_AuthMethod c) (aec_AWSSTSARN c) (aec_AzureSTSCredentials c) (aec_Region c) (aec_AzureLogAccessKeys c).

Definition checkParams (c : AddExternalConnectionParams) (ignoreName : bool) : CheckExternalConnectionParams :=
  mkCheckExternalConnectionParams (aec_Name c) (aec_EndpointType c) (aec_Endpoint c) (aec_Identity c)
    (aec_Secret c) (aec_AuthMethod c) (aec_AWSSTSARN c) ignoreName (aec_AzureLogAccessKeys c)
    (aec_Region c) (aec_AzureSTSCredentials c) "".

(** ** The judgement of a connection *)

Definition ExternalConnectionStatus_string (s : ExternalConnectionStatus) : string :=
  match s with
  | ExternalConnectionSuccess => "SUCCESS"
  | ExternalConnectionTimeout => "TIMEOUT"
  | ExternalConnectionInvalidEndpoint => "INVALID_ENDPOINT"
  | ExternalConnectionInvalidCredentials => "INVALID_CREDENTIALS"
  | ExternalConnectionNotSupported => "NOT_SUPPORTED"
  | ExternalConnectionTimeSkew => "TIME_SKEW"
  | ExternalConnectionUnknownFailure => "UNKNOWN_FAILURE"
  | ExternalConnectionInvalidArchiveTarget => "INVALID_ARCHIVE_TARGET"
  | ExternalConnectionStatusOther s => s
  end.

(** The switch of [CheckExternalConnection], with its [fallthrough]s.  [kind] is the
    kind of store and [credentials] the message for credentials that may still have
    to propagate; [isYoung] says whether the store is less than five minutes old. *)
Definition judgeConnection (kind credentials name : string) (isYoung : bool) (res : CheckExternalConnectionReply) : option error :=
  let status := ExternalConnectionStatus_string (cer_Status res) in
  let rejected := NewPersistentError status
        (Sprintf (kind +:+ " %q invalid external connection %q") [AStr name; AStr status]) in
  match cer_Status res with
  | ExternalConnectionSuccess => None
  | ExternalConnectionInvalidCredentials =>
      if isYoung then Some (Errorf (Lit credentials))
      else if isYoung then Some (Errorf (Lit "got invalid endpoint. requeue again"))
      else Some rejected
  | ExternalConnectionInvalidEndpoint =>
      if isYoung then Some (Errorf (Lit "got invalid endpoint. requeue again")) else Some rejected
  | ExternalConnectionTimeSkew | ExternalConnectionNotSupported => Some rejected
  | _ => Some (Errorf (Sprintf "CheckExternalConnection Status=%s Error=%s Message=%s"
                         [AStr status; AStr (cer_ErrorCode res); AStr (cer_ErrorMessage res)]))
  end.

(** The failures that are given five minutes to go away. *)
Definition transientWhileYoung (s : ExternalConnectionStatus) : bool :=
  match s with ExternalConnectionInvalidCredentials | ExternalConnectionInvalidEndpoint => true | _ => false end.

(** The failures that reject a store that is no longer young. *)
Definition definite (s : ExternalConnectionStatus) : bool :=
  match s with
  | ExternalConnectionInvalidCredentials | ExternalConnectionInvalidEndpoint
  | ExternalConnectionTimeSkew | ExternalConnectionNotSupported => true
  | _ => false
  end.

Lemma judgeConnection_none kind credentials name isYoung res :
  judgeConnection kind credentials name isYoung res = None ↔ cer_Status res = ExternalConnectionSuccess.
Proof. unfold judgeConnection. destruct (cer_Status res), isYoung; by split. Qed.

Lemma judgeConnection_persistent kind credentials name isYoung res :
  IsPersistentError (judgeConnection kind credentials name isYoung res) =
  definite (cer_Status res) && negb (isYoung && transientWhileYoung (cer_Status res)).
Proof. unfold judgeConnection. by destruct (cer_Status res), isYoung. Qed.

(** ** Facts on the server *)

Lemma findPool_Some name pools p : findPool name pools = Some p → pool_Name p = name.
Proof. intros [_ H]%find_some. by apply bool_decide_eq_true in H. Qed.

Lemma findPool_None name pools : findPool name pools = None ↔ name ∉ (pool_Name <$> pools).
Proof.
  unfold findPool. induction pools as [|p l IH]; simpl; [split; [by intros _ ?%elem_of_nil|done]|].
  rewrite not_elem_of_cons. case_bool_decide as Hp; [split; [done|by intros [? _]]|].
  rewrite IH. split; [intros ?; split; [congruence|done]|by intros [_ ?]].
Qed.

(** A failing deletion of a connection is never one that is in use. *)
Lemma deleteConnection_err {N} {NB : NBClient N} (n : N) name e :
  (deleteConnection n name).2 = Some e → ∀ m, e ≠ RPCError "IN_USE" m.
Proof.
  unfold deleteConnection. destruct (nb_DeleteExternalConnection n name) as [n' [[]|]]; simpl; try congruence.
  case_match eqn:Hc; [|done]. intros [= <-] m [= -> ->]. by rewrite bool_decide_true in Hc.
Qed.
