(* ===== verification/BackingStoreReconciler.v ===== *)
(** * The BackingStore controller: [pkg/backingstore/reconciler.go].

    One call of [Reconcile] reads the store, its secret and the NooBaa system, and
    drives the store through the phases Verifying, Connecting and Creating, or
    through its deletion.  The state is the cluster [W], the NooBaa server [N], the
    store and the secret the reconciler holds in memory; [Plan] collects the fields
    [ReadSystemInfo] fills in for the later steps.  Log lines and Kubernetes events
    are left out. *)

From S2P Require Import Prelude GoStrings Types NbTypes Kube Util StoreAccess Gcp GoUrl.
From S2P Require Import BackingStoreValidation NamespaceStoreValidation Secrets Profiles PvPool ConnectionParams Controller.

(** ** Modes *)

(** [modeInfoMap], without the severity of the event. *)
Definition bsModeInfoMap : gmap string BackingStorePhase :=
  list_to_map [("INITIALIZING", BackingStorePhaseCreating); ("DELETING", BackingStorePhaseReady);
    ("SCALING", BackingStorePhaseReady); ("MOST_NODES_ISSUES", BackingStorePhaseReady);
    ("MANY_NODES_ISSUES", BackingStorePhaseReady); ("MOST_STORAGE_ISSUES", BackingStorePhaseReady);
    ("MANY_STORAGE_ISSUES", BackingStorePhaseReady); ("MANY_NODES_OFFLINE", BackingStorePhaseReady);
    ("LOW_CAPACITY", BackingStorePhaseReady); ("OPTIMAL", BackingStorePhaseReady);
    ("HAS_NO_NODES", BackingStorePhaseRejected); ("ALL_NODES_OFFLINE", BackingStorePhaseRejected);
    ("NO_CAPACITY", BackingStorePhaseRejected); ("IO_ERRORS", BackingStorePhaseRejected);
    ("STORAGE_NOT_EXIST", BackingStorePhaseRejected); ("AUTH_FAILED", BackingStorePhaseRejected)]%string.

(** The fields of the reconciler that describe the work to do. *)
Record Plan := mkPlan {
  pl_SystemInfo : option SystemInfo;
  pl_PoolInfo : option PoolInfo;
  pl_ExternalConnectionInfo : option ExternalConnectionInfo;
  pl_HostsInfo : option (list string);
  pl_AddExternalConnection : option AddExternalConnectionParams;
  pl_CreateCloudPool : option CreateCloudPoolParams;
  pl_CreateHostsPool : option CreateHostsPoolParams;
  pl_UpdateHostsPool : option UpdateHostsPoolParams;
  pl_UpdateExternalConnection : option UpdateExternalConnectionParams;
}.
Definition emptyPlan : Plan := mkPlan None None None None None None None None None.

Record State {QA : QuantityApi} {W N : Type} := mkState {
  st_cluster : W;
  st_noobaa : N;
  st_store : BackingStore QA;
  st_secret : Secret;
}.
Arguments State QA W N : clear implicits.

Section Reconciler.
Context {QA : QuantityApi} {AU : AuthoritySyntax} {GJ : GoogleJson} {CA : ConditionApi}.
Context {W N : Type} {NB : NBClient N}.
Context {SS : ApiServer W Secret} {SB : ApiServer W (BackingStore QA)} {SNS : ApiServer W NamespaceStore}
        {SNB : ApiServer W NooBaa} {SP : ApiServer W (Pod QA)} {SV : ApiServer W (PersistentVolumeClaim QA)}
        {SA : ApiServer W ServiceAccount} {DP : ApiBulkDelete W (Pod QA)} {DV : ApiBulkDelete W (PersistentVolumeClaim QA)}.
Context (IsGraphic : Z → bool) (groupOf : string → option string).
Context (LookupEnv : string → option string) (Namespace SystemName : string) (isTestEnv hasNodeInclusionPolicy : bool).
Context (SetControllerReference : ObjectMeta → ObjectMeta → msg + ObjectMeta).
Context (RandomHex : nat → string) (now : Z) (fuel : nat) (tick : W → W).
(** The data of the ConfigMap noobaa-config, and the CephCluster ocs-storagecluster:
    when there is one, the available bytes of its [CephStatus], a pointer. *)
Context (coreConfig : option (gmap string string)) (cephCluster : W → option (option Z)).
(** [Client.Status().Update]: only the status is stored. *)
Context (statusUpdate : W → BackingStore QA → W * option error).
(** The settings of the NooBaa resource for agent pods. *)
Context (settings : AgentSettings).

Abbreviation St := (State QA W N).
Implicit Types (st : St) (bs : BackingStore QA).

Definition set_store bs st : St := mkState QA W N (st_cluster st) (st_noobaa st) bs (st_secret st).
Definition set_secret s st : St := mkState QA W N (st_cluster st) (st_noobaa st) (st_store st) s.
Definition set_cluster w st : St := mkState QA W N w (st_noobaa st) (st_store st) (st_secret st).
Definition set_noobaa n st : St := mkState QA W N (st_cluster st) n (st_store st) (st_secret st).

(** A step: the new state and the error it returns. *)
Abbreviation Step := (outcome (St * option error)).

(** A call of the server that changes it. *)
Definition nb_call st (r : N * option error) : Step := Ret (set_noobaa r.1 st, r.2).

(** ** Status *)

Definition SetPhase bs (phase : BackingStorePhase) (reason message : msg) : BackingStore QA :=
  let status := bs_Status bs in
  let conds := bst_Conditions status in
  let with_status s := mkBackingStore QA (bs_meta bs) (bs_Spec bs) s in
  match phase with
  | BackingStorePhaseNone =>
      with_status (mkBackingStoreStatus (bst_Phase status) (SetProgressingCondition now conds reason message) (bst_ModeCode status))
  | BackingStorePhaseReady =>
      with_status (mkBackingStoreStatus phase (SetAvailableCondition now conds reason message) (bst_ModeCode status))
  | BackingStorePhaseRejected =>
      with_status (mkBackingStoreStatus phase (SetErrorCondition now conds reason message) (bst_ModeCode status))
  | _ =>
      with_status (mkBackingStoreStatus phase (SetProgressingCondition now conds reason message) (bst_ModeCode status))
  end.

Definition set_phase (phase : BackingStorePhase) (reason message : msg) st : St :=
  set_store (SetPhase (st_store st) phase reason message) st.

Definition UpdateStatus st : Step :=
  let '(w, err) := statusUpdate (st_cluster st) (st_store st) in Ret (set_cluster w st, err).

Definition completeReconcile st (err : option error) : outcome (St * Result) :=
  let '(st, res) :=
    match err with
    | Some (PersistentError reason message) =>
        (set_phase BackingStorePhaseRejected (Sprintf reason []) message st, mkResult None)
    | Some e => (set_phase BackingStorePhaseNone (Lit "TemporaryError") (Error e) st, mkResult (Some 3%Z))
    | None =>
        let mode := bst_ModeCode (bs_Status (st_store st)) in
        match bsModeInfoMap !! mode with
        | Some phase =>
            if phase != bst_Phase (bs_Status (st_store st)) then
              (set_phase phase (Sprintf "Backing store mode: %s" [AStr mode])
                 (Sprintf "BackingStorePhase%s" [AStr (BackingStorePhase_string phase)]) st, mkResult None)
            else (st, mkResult None)
        | None =>
            (set_phase BackingStorePhaseReady (Lit "BackingStorePhaseReady")
               (Lit "noobaa operator completed reconcile - backing store is ready") st, mkResult None)
        end
    end in
  '(st, err) ← UpdateStatus st;
  Ret (st, match err with Some _ => mkResult (Some 3%Z) | None => res end).

(** ** The secret of the store *)

Definition set_secret_names (name namespace : string) (s : Secret) : Secret :=
  mkSecret (set_om_Name name (set_om_Namespace namespace (sec_meta s))) (sec_StringData s) (sec_Data s).

Definition reload_secret st : Step :=
  '(secret, _) ← KubeCheck (st_cluster st) (st_secret st);
  Ret (set_secret secret st, None).

(** The secret of a PV pool without a reference is created by the operator. *)
Definition loadPoolSecret st : Step :=
  let bs := st_store st in
  let name := "backing-store-" +:+ StoreType_string StoreTypePVPool +:+ "-" +:+ om_Name (bs_meta bs) in
  let secret := set_secret_names name (om_Namespace (bs_meta bs)) (mkSecret (sec_meta (st_secret st)) (Some ∅) None) in
  '(secret, found) ← KubeCheck (st_cluster st) secret;
  match found with
  | true => reload_secret (set_secret secret st)
  | false =>
      secret ← Own SetControllerReference bs secret;
      '(w, secret, created) ← KubeCreateFailExisting (st_cluster st) secret;
      let st := set_secret secret (set_cluster w st) in
      match created with
      | false =>
          Ret (st, Some (NewPersistentError "EmptySecretName"
                 (Sprintf "Could not create Secret %q in Namespace %q (conflict)"
                    [AStr (om_Name (sec_meta secret)); AStr (om_Namespace (sec_meta secret))])))
      | true => reload_secret st
      end
  end.

(** Make the store an owner of a secret the operator created. *)
Definition shareSecret st (secret : Secret) : Step :=
  let bs := st_store st in
  if IsOwnedByNoobaa (om_OwnerReferences (sec_meta secret)) then
    match SetOwnerReference groupOf "noobaa.io/v1alpha1" "BackingStore" (bs_meta bs) (sec_meta secret) with
    | AlreadyOwned => Ret (st, None)
    | OwnErr err => Ret (st, Some err)
    | Owned refs =>
        '(w, _, updated) ← KubeUpdate (st_cluster st)
            (set_meta (set_om_OwnerReferences refs (sec_meta secret)) secret);
        Ret (set_cluster w st,
             match updated with
             | true => None
             | false => Some (Errorf (Sprintf "failed to update secret: %q owner reference" [AStr (om_Name (bs_meta bs))]))
             end)
    end
  else Ret (st, None).

(** A reference to a secret: another secret with the same credentials is preferred.
    The first result says whether the function goes on to reload the secret. *)
Definition loadReferencedSecret st (secretRef : SecretReference) : outcome (bool * St * option error) :=
  found ← GetSecretFromSecretReference (st_cluster st) (Some secretRef);
  match found with
  | inl _ => Ret (false, st, None)
  | inr None => Ret (true, st, None)
  | inr (Some secret) =>
      let bs := st_store st in
      suggested ← CheckForIdenticalSecretsCreds (QA:=QA) (st_cluster st) (Some secret) (StoreType_string (bss_Type (bs_Spec bs)));
      '(st, secret, err) ←
        match suggested with
        | None => Ret (st, secret, None)
        | Some s =>
            '(bs, err) ← SetBackingStoreSecretRef bs (mkSecretReference (om_Name (sec_meta s)) (om_Namespace (sec_meta s)));
            match err with
            | Some e => Ret (set_store bs st, secret, Some e)
            | None =>
                '(w, bs, updated) ← KubeUpdate (st_cluster st) bs;
                let st := set_store bs (set_cluster w st) in
                match updated with
                | true => Ret (st, s, None)
                | false => Ret (st, secret, Some (Errorf (Sprintf "failed to update Backingstore: %q secret reference" [AStr (om_Name (bs_meta bs))])))
                end
            end
        end;
      match err with
      | Some e => Ret (true, st, Some e)
      | None => '(st, err) ← shareSecret st secret; Ret (true, st, err)
      end
  end.

Definition LoadBackingStoreSecret st : Step :=
  sts ← IsAWSSTSClusterBS (st_store st);
  match sts with
  | true => Ret (st, None)
  | false =>
      ref ← GetBackingStoreSecret (st_store st);
      match ref with
      | inl err => Ret (st, Some err)
      | inr secretRef =>
          let st := set_secret (set_secret_names (sr_Name secretRef) (sr_Namespace secretRef) (st_secret st)) st in
          if sr_Name secretRef == "" then
            if bss_Type (bs_Spec (st_store st)) != StoreTypePVPool then
              Ret (st, Some (NewPersistentError "EmptySecretName" (Lit "BackingStore Secret reference has an empty name")))
            else loadPoolSecret st
          else
            '(go_on, st, err) ← loadReferencedSecret st secretRef;
            match err, go_on with
            | Some e, _ => Ret (st, Some e)
            | None, false => Ret (st, None)
            | None, true => reload_secret st
            end
      end
  end.

(** ** Reading the NooBaa system *)

Definition unexpectedResourceType bs (pool : PoolInfo) : error :=
  NewPersistentError "InvalidBackingStore"
    (Sprintf "BackingStore %q w/existing pool %+v has unexpected resource type %+v"
       [AStr (om_Name (bs_meta bs)); AStr (pool_Name pool); AStr (pool_ResourceType pool)]).

(** The last match wins, over all accounts and their connections. *)
Definition matchConnection (conn : AddExternalConnectionParams) (accounts : list AccountInfo) :
    option ExternalConnectionInfo :=
  foldl (λ found c,
    if (eci_EndpointType c == aec_EndpointType conn) && (eci_Endpoint c == aec_Endpoint conn)
       && (eci_Identity c == aec_Identity conn)
    then Some c else found) None (accounts ≫= acc_ExternalConnections).

(** The PV-pool half of [ReadSystemInfo]. *)
Definition planHostsPool st (nbNamespace : string) (info : SystemInfo) (pool : option PoolInfo) :
    outcome (Plan * option error) :=
  let bs := st_store st in
  let name := om_Name (bs_meta bs) in
  let base := mkPlan (Some info) pool None None None None None None None in
  pvPool ← deref (bss_PVPool (bs_Spec bs));
  let volumeSize :=
    match pvp_VolumeResources pvPool with
    | Some vr => Quantity_Value (default Quantity_zero (rl_lookup (rr_Requests vr) ResourceStorage))
    | None => defaultVolumeSize
    end in
  match pool with
  | None =>
      Ret (mkPlan (Some info) None None (Some []) None None
             (Some (mkCreateHostsPoolParams name true (pvp_NumVolumes pvPool) volumeSize
                      (Some (mkBackingStoreInfo name nbNamespace)))) None None, None)
  | Some p =>
      match nb_ListHosts (st_noobaa st) name with
      | inl err => Ret (base, Some err)
      | inr hosts =>
          if (Z.of_nat (length hosts) >? pvp_NumVolumes pvPool)%Z then
            Ret (base, Some (NewPersistentError "InvalidBackingStore"
                               (Lit "Scaling down the number of nodes is not currently supported")))
          else
            poolHosts ← deref (pool_Hosts p);
            let update := if (pvp_NumVolumes pvPool =? ph_ConfiguredCount poolHosts)%Z then None
                          else Some (mkUpdateHostsPoolParams name None) in
            Ret (mkPlan (Some info) pool None (Some hosts) None None None update None, None)
      end
  end.

(** The cloud half. *)
Definition planCloudPool st (nbNamespace : string) (info : SystemInfo) (pool : option PoolInfo) :
    outcome (St * Plan * option error) :=
  let base := mkPlan (Some info) pool None None None None None None None in
  '(bs, secret, made) ← MakeExternalConnectionParams IsGraphic (st_store st) (st_secret st);
  let st := set_store bs (set_secret secret st) in
  match made with
  | inl err => Ret (st, base, Some err)
  | inr conn =>
      let mismatch :=
        match pool with
        | None => false
        | Some p =>
            match pool_CloudInfo p with
            | None => true
            | Some ci => (ci_EndpointType ci != aec_EndpointType conn) || (ci_Endpoint ci != aec_Endpoint conn)
                         || (ci_Identity ci != aec_Identity conn)
            end
        end in
      let update := if mismatch then
          Some (mkUpdateExternalConnectionParams (aec_Name conn) None (aec_Identity conn) (aec_Secret conn)
                  (aec_AzureLogAccessKeys conn) (aec_Region conn)) else None in
      let existing := matchConnection conn (si_Accounts info) in
      let conn := match existing with Some c => set_aec_Name (eci_Name c) conn | None => conn end in
      '(bucket, err) ← GetBackingStoreTargetBucket bs;
      match err with
      | Some e => Ret (st, mkPlan (Some info) pool existing None (Some conn) None None None update, Some e)
      | None =>
          let name := om_Name (bs_meta bs) in
          Ret (st, mkPlan (Some info) pool existing None (Some conn)
                     (Some (mkCreateCloudPoolParams name (aec_Name conn) bucket
                              (Some (mkBackingStoreInfo name nbNamespace)) None)) None None update, None)
      end
  end.

Definition ReadSystemInfo st (nbNamespace : string) : outcome (St * Plan * option error) :=
  match nb_Connect (st_noobaa st) with
  | Some err => Ret (st, emptyPlan, Some err)
  | None =>
      match nb_ReadSystem (st_noobaa st) with
      | inl err => Ret (st, emptyPlan, Some err)
      | inr info =>
          let bs := st_store st in
          let pool := findPool (om_Name (bs_meta bs)) (si_Pools info) in
          let base := mkPlan (Some info) pool None None None None None None None in
          let wrongType (t : string) := match pool with Some p => pool_ResourceType p != t | None => false end in
          let bad := match pool with Some p => Some (unexpectedResourceType bs p) | None => None end in
          if bss_Type (bs_Spec bs) == StoreTypePVPool then
            if wrongType "HOSTS" then Ret (st, base, bad)
            else '(plan, err) ← planHostsPool st nbNamespace info pool; Ret (st, plan, err)
          else
            if wrongType "CLOUD" then Ret (st, base, bad)
            else planCloudPool st nbNamespace info pool
      end
  end.

(** ** The external connection *)

Definition CheckExternalConnection st (params : CheckExternalConnectionParams) : option error :=
  match nb_CheckExternalConnection (st_noobaa st) params with
  | inl err => Some err
  | inr res =>
      judgeConnection "BackingStore" "got InvalidCredentials. requeue again" (om_Name (bs_meta (st_store st)))
        (young now (bs_meta (st_store st))) res
  end.

Definition ReconcileExternalConnection st (plan : Plan) : Step :=
  match pl_ExternalConnectionInfo plan, pl_AddExternalConnection plan with
  | Some _, _ | _, None => Ret (st, None)
  | None, Some conn =>
      match pl_UpdateExternalConnection plan with
      | Some update =>
          match CheckExternalConnection st (checkParams conn true) with
          | Some err => Ret (st, Some err)
          | None => nb_call st (nb_UpdateExternalConnection (st_noobaa st) update)
          end
      | None =>
          match CheckExternalConnection st (checkParams conn false) with
          | Some err => Ret (st, Some err)
          | None => nb_call st (nb_AddExternalConnection (st_noobaa st) conn)
          end
      end
  end.

(** ** The pool *)

Definition pvPoolStep st (hosts : list string) : Step :=
  '(w, secret, err) ← reconcilePvPool LookupEnv Namespace SystemName isTestEnv hasNodeInclusionPolicy
      SetControllerReference RandomHex now fuel tick nb_GetHostsPoolAgentConfig coreConfig
      (st_cluster st) (st_noobaa st) (st_store st) settings (st_secret st) hosts;
  Ret (set_secret secret (set_cluster w st), err).

Definition UInt64ToBigInt (value : Z) : BigInt :=
  let petaInBytes := (1024 * 1024 * 1024 * 1024 * 1024)%Z in
  mkBigInt (value mod petaInBytes) (value / petaInBytes).

Definition createHostsPool st (params : CreateHostsPoolParams) (hosts : list string) : Step :=
  let '(n, res) := nb_CreateHostsPool (st_noobaa st) params in
  let st := set_noobaa n st in
  match res with
  | inl err =>
      Ret (st, Some match err with
                    | RPCError code message =>
                        if code == "BAD_REQUEST" then
                          NewPersistentError "SmallVolumeSize"
                            (Sprintf "NooBaa BackingStore is in rejected phase due to %s" [AMsg message])
                        else err
                    | _ => err
                    end)
  | inr config =>
      st ← (if map_get (sec_StringData (st_secret st)) "agent_config" == "" then
              '(w, secret) ← storeAgentConfig (st_cluster st) (st_secret st) config;
              Ret (set_secret secret (set_cluster w st))
            else Ret st);
      try_step (nb_call st (nb_UpdateAllBucketsDefaultPool (st_noobaa st) (chp_Name params))) (λ st,
      pvPoolStep st hosts)
  end.

Definition createCloudPool st (params : CreateCloudPoolParams) : Step :=
  let rgw := bool_decide (is_Some (om_Annotations (bs_meta (st_store st)) ≫= lookup "rgw"%string)) in
  capacity ← (match (if rgw then cephCluster (st_cluster st) else None) with
              | None => Ret (ccp_AvailableCapacity params)
              | Some status => bytes ← deref status; Ret (Some (UInt64ToBigInt bytes))
              end);
  let params := mkCreateCloudPoolParams (ccp_Name params) (ccp_Connection params) (ccp_TargetBucket params)
                  (ccp_Backingstore params) capacity in
  try_step (nb_call st (nb_CreateCloudPool (st_noobaa st) params)) (λ st,
  if ccp_Name params != "" then
    nb_call st (nb_UpdateAllBucketsDefaultPool (st_noobaa st) (ccp_Name params))
  else Ret (st, None)).

Definition ReconcilePool st (plan : Plan) : Step :=
  match pl_PoolInfo plan with
  | Some _ =>
      if bss_Type (bs_Spec (st_store st)) == StoreTypePVPool then
        try_step (match pl_UpdateHostsPool plan with
                  | Some update => nb_call st (nb_UpdateHostsPool (st_noobaa st) update)
                  | None => Ret (st, None)
                  end) (λ st, hosts ← deref (pl_HostsInfo plan); pvPoolStep st hosts)
      else Ret (st, None)
  | None =>
      match pl_CreateHostsPool plan with
      | Some params => hosts ← deref (pl_HostsInfo plan); createHostsPool st params hosts
      | None =>
          match pl_CreateCloudPool plan with
          | Some params => createCloudPool st params
          | None => Ret (st, None)
          end
      end
  end.

(** ** The three phases *)

Definition ReconcilePhaseVerifying st (nb : NooBaa) : Step :=
  let st := set_phase BackingStorePhaseVerifying (Lit "BackingStorePhaseVerifying")
              (startedPhase "1/3" "Verifying") st in
  let bs := st_store st in
  err ← ValidateBackingStore bs;
  match err with
  | Some e => Ret (st, Some (NewPersistentError "BackingStoreValidationError" (Error e)))
  | None =>
      let secretName := om_Name (sec_meta (st_secret st)) in
      if om_UID (nb_meta nb) == "" then
        Ret (st, Some (NewPersistentError "MissingSystem"
               (Sprintf "NooBaa system %q not found or deleted" [AStr (om_Name (nb_meta nb))])))
      else if (secretName != "") && (om_UID (sec_meta (st_secret st)) == "") then
        Ret (st, Some (if young now (bs_meta bs) then
            Errorf (Sprintf "BackingStore Secret %q not found, but not rejecting the young as it might be in process" [AStr secretName])
          else NewPersistentError "MissingSecret"
                 (Sprintf "BackingStore Secret %q not found or deleted" [AStr secretName])))
      else Ret (st, None)
  end.

Definition ReconcilePhaseConnecting st (nb : NooBaa) : outcome (St * Plan * option error) :=
  let st := set_phase BackingStorePhaseConnecting (Lit "BackingStorePhaseConnecting")
              (startedPhase "2/3" "Connecting") st in
  ReadSystemInfo st (om_Namespace (nb_meta nb)).

Definition ReconcilePhaseCreating st (plan : Plan) : Step :=
  let st := set_phase BackingStorePhaseCreating (Lit "BackingStorePhaseCreating")
              (startedPhase "3/3" "Creating") st in
  try_step (ReconcileExternalConnection st plan) (λ st, ReconcilePool st plan).

Definition ReconcilePhases st (nb : NooBaa) : Step :=
  try_step (ReconcilePhaseVerifying st nb) (λ st,
  '(st, plan, err) ← ReconcilePhaseConnecting st nb;
  match err with
  | Some e => Ret (st, Some e)
  | None => ReconcilePhaseCreating st plan
  end).

(** ** Deletion *)

Definition deletePool st (poolName : string) : Step :=
  let '(n, err) := nb_DeletePool (st_noobaa st) poolName in
  let st := set_noobaa n st in
  match err with
  | None => Ret (st, None)
  | Some (RPCError code m) =>
      if code == "DEFAULT_RESOURCE" then
        Ret (st, Some (NewPersistentError "DefaultResource"
               (Sprintf "DeletePoolAPI cannot complete because pool %q is an account default resource" [AStr poolName])))
      else if code == "IN_USE" then
        Ret (st, Some (Errorf (Sprintf "DeletePoolAPI cannot complete because pool %q has buckets attached" [AStr poolName])))
      else Ret (st, Some (RPCError code m))
  | Some e => Ret (st, Some e)
  end.

Definition finalizeCore st (nbNamespace : string) : Step :=
  '(st, plan, err) ← ReadSystemInfo st nbNamespace;
  if bool_decide (is_Some err) && negb (IsPersistentError err) then Ret (st, err)
  else
    try_step
      match pl_PoolInfo plan with
      | None => Ret (st, None)
      | Some pool =>
          info ← deref (pl_SystemInfo plan);
          try_step (nb_call st (moveAccounts (st_noobaa st) (pool_Name pool) (internalPool info) (si_Accounts info))) (λ st,
          deletePool st (pool_Name pool))
      end (λ st,
    match pl_ExternalConnectionInfo plan with
    | None => Ret (st, None)
    | Some c => nb_call st (deleteConnection (st_noobaa st) (eci_Name c))
    end).

Definition FinalizeDeletion st : Step :=
  let '(bs, _) := RemoveFinalizer (st_store st) Finalizer in
  '(w, bs, updated) ← KubeUpdate (st_cluster st) bs;
  let st := set_store bs (set_cluster w st) in
  match updated with
  | true => Ret (st, None)
  | false => Ret (st, Some (Errorf (Sprintf "BackingStore %q failed to remove finalizer %q"
                                      [AStr (om_Name (bs_meta bs)); AStr Finalizer])))
  end.

Definition deletePvPool st : Step :=
  let bs := st_store st in
  '(_, _) ← KubeList (st_cluster st) (inPool Namespace (O:=Pod QA) bs);
  '(w, _) ← KubeDeleteAllOf (st_cluster st) (inPool Namespace (O:=Pod QA) bs);
  '(w, _) ← KubeDeleteAllOf w (inPool Namespace (O:=PersistentVolumeClaim QA) bs);
  Ret (set_cluster w st, None).

Definition ReconcileDeletion st (nb : NooBaa) (systemFound : bool) : Step :=
  try_step
    (if bst_Phase (bs_Status (st_store st)) != BackingStorePhaseDeleting then
       UpdateStatus (set_phase BackingStorePhaseDeleting (Lit "BackingStorePhaseDeleting")
                       (Lit "noobaa operator started deletion") st)
     else Ret (st, None)) (λ st,
  try_step (if systemFound then finalizeCore st (om_Namespace (nb_meta nb)) else Ret (st, None)) (λ st,
  try_step (if bss_Type (bs_Spec (st_store st)) == StoreTypePVPool then deletePvPool st else Ret (st, None)) (λ st,
  FinalizeDeletion st))).

(** ** [Reconcile] *)

(** The steps after the store, its secret and the system have been loaded. *)
Definition reconcileLoaded st (nb : NooBaa) (systemFound : bool) : outcome (St * Result) :=
  let bs := st_store st in
  match om_DeletionTimestamp (bs_meta bs) with
  | Some _ => '(st, err) ← ReconcileDeletion st nb systemFound; completeReconcile st err
  | None =>
      if negb systemFound then completeReconcile st None
      else if bool_decide (om_Annotations (bs_meta bs) ≫= lookup PauseReconcile = Some "true"%string) then
        Ret (st, mkResult (Some 5%Z))
      else
        '(bs, changed) ← Ret (EnsureCommonMetaFields bs Finalizer);
        '(st, ok) ← (if changed : bool then
                       '(w, bs, updated) ← KubeUpdate (st_cluster st) bs;
                       Ret (set_store bs (set_cluster w st), updated)
                     else Ret (st, true));
        match ok with
        | false => completeReconcile st (Some (Errorf (Sprintf "❌ BackingStore %q failed to add mandatory meta fields"
                                                         [AStr (om_Name (bs_meta (st_store st)))])))
        | true => '(st, err) ← ReconcilePhases st nb; completeReconcile st err
        end
  end.

Definition Reconcile st (sys : NooBaa) : outcome (St * Result) :=
  '(w, nb, systemFound) ← CheckSystem (st_cluster st) sys;
  let st := set_cluster w st in
  '(bs, found) ← KubeCheck (st_cluster st) (st_store st);
  let st := set_store bs st in
  match found with
  | false => Ret (st, mkResult None)
  | true =>
      '(st, err) ← LoadBackingStoreSecret st;
      match err with
      | Some e => completeReconcile st (Some e)
      | None => reconcileLoaded st nb systemFound
      end
  end.

Set Default Proof Using "Type".

(** ** Status *)

Abbreviation phaseOf st := (bst_Phase (bs_Status (st_store st))).

(** [SetPhase] leaves the metadata, the spec and the mode alone. *)
Lemma SetPhase_frame bs phase reason message :
  bs_meta (SetPhase bs phase reason message) = bs_meta bs ∧
  bs_Spec (SetPhase bs phase reason message) = bs_Spec bs ∧
  bst_ModeCode (bs_Status (SetPhase bs phase reason message)) = bst_ModeCode (bs_Status bs).
Proof. by destruct phase. Qed.

Lemma SetPhase_phase bs phase reason message :
  bst_Phase (bs_Status (SetPhase bs phase reason message)) =
  if phase == BackingStorePhaseNone then bst_Phase (bs_Status bs) else phase.
Proof. by destruct phase. Qed.

Lemma UpdateStatus_Ret st :
  UpdateStatus st = Ret (set_cluster (statusUpdate (st_cluster st) (st_store st)).1 st,
                         (statusUpdate (st_cluster st) (st_store st)).2).
Proof. unfold UpdateStatus. by destruct (statusUpdate _ _). Qed.

(** The phase a reconcile that ended with [err] leaves behind. *)
Definition finalPhase bs (err : option error) : BackingStorePhase :=
  match err with
  | Some (PersistentError _ _) => BackingStorePhaseRejected
  | Some _ => bst_Phase (bs_Status bs)
  | None => default BackingStorePhaseReady (bsModeInfoMap !! bst_ModeCode (bs_Status bs))
  end.

Lemma bsModeInfoMap_phase mode phase :
  bsModeInfoMap !! mode = Some phase → phase ≠ BackingStorePhaseNone.
Proof.
  intros H. apply elem_of_list_to_map_2 in H.
  repeat (apply elem_of_cons in H as [[= -> ->]|H]; [done|]). by apply not_elem_of_nil in H.
Qed.

Lemma completeReconcile_classify st err :
  ∃ st' res, completeReconcile st err = Ret (st', res) ∧
    phaseOf st' = finalPhase (st_store st) err ∧
    (statusUpdate (st_cluster st) (st_store st')).1 = st_cluster st' ∧
    (RequeueAfter res = None ∨ RequeueAfter res = Some 3%Z) ∧
    (RequeueAfter res = None ↔
       (err = None ∨ IsPersistentError err = true) ∧
       (statusUpdate (st_cluster st) (st_store st')).2 = None).
Proof.
  unfold completeReconcile.
  destruct (match err with Some (PersistentError _ _) => _ | Some _ => _ | None => _ end)
    as [st1 res] eqn:E.
  rewrite UpdateStatus_Ret. cbn [mbind outcome_bind].
  eexists _, _. split; [reflexivity|]. cbn [set_cluster st_store st_cluster].
  assert (H : st_cluster st1 = st_cluster st ∧ phaseOf st1 = finalPhase (st_store st) err ∧
    RequeueAfter res = (if bool_decide (err = None ∨ IsPersistentError err = true) then None else Some 3%Z)).
  { destruct err as [[]|].
    1,2,3,4,5,6,7,8: injection E as <- <-; split_and!; [done|apply SetPhase_phase|first [by rewrite bool_decide_true by (by right)|by rewrite bool_decide_false by (by intros [?|?])]].
    rewrite bool_decide_true by auto.
    cbn [finalPhase]. destruct (bsModeInfoMap !! bst_ModeCode (bs_Status (st_store st))) as [p|] eqn:Hm; simpl.
    - apply bsModeInfoMap_phase in Hm. case_bool_decide as Hp; simpl in E; injection E as <- <-; [done|].
      split_and!; [done| |done]. cbn [set_phase set_store st_store]. rewrite SetPhase_phase.
      by rewrite bool_decide_false.
    - injection E as <- <-. done. }
  destruct H as (Hc & Hp & Hr). rewrite Hc. split_and!; [done|done|..].
  - destruct (statusUpdate _ _).2; simpl; [by right|]. rewrite Hr. case_bool_decide; auto.
  - destruct (statusUpdate _ _).2; simpl; [split; [done|by intros [_ ?]]|]. rewrite Hr.
    case_bool_decide as Hd; [split; [by intros _|done]|split; [done|by intros [? _]]].
Qed.

(** ** Connections *)

Lemma CheckExternalConnection_none st params :
  CheckExternalConnection st params = None ↔
  ∃ res, nb_CheckExternalConnection (st_noobaa st) params = inr res ∧
         cer_Status res = ExternalConnectionSuccess.
Proof.
  unfold CheckExternalConnection. destruct (nb_CheckExternalConnection _ _) as [e|res].
  - by split; [|intros (? & [=] & _)].
  - rewrite judgeConnection_none. split; [eauto|by intros (? & [= <-] & ?)].
Qed.

(** The server has just confirmed the connection of the plan. *)
Definition confirmed st (plan : Plan) : Prop :=
  ∃ conn ignore res, pl_AddExternalConnection plan = Some conn ∧
    nb_CheckExternalConnection (st_noobaa st) (checkParams conn ignore) = inr res ∧
    cer_Status res = ExternalConnectionSuccess.

(** The controller adds or updates an external connection only when the system
    has no matching one and the server has just confirmed the credentials; otherwise
    the server is left as it was.  Kubernetes objects are never touched. *)
Theorem ReconcileExternalConnection_confirmed st plan st' err :
  ReconcileExternalConnection st plan = Ret (st', err) →
  st_cluster st' = st_cluster st ∧ st_store st' = st_store st ∧
  (st_noobaa st' = st_noobaa st ∨
   pl_ExternalConnectionInfo plan = None ∧ confirmed st plan).
Proof.
  unfold ReconcileExternalConnection. intros H.
  destruct (pl_ExternalConnectionInfo plan); [by simplify_eq; auto|].
  destruct (pl_AddExternalConnection plan) as [conn|] eqn:Hc; [|by simplify_eq; auto].
  assert (Hconf : ∀ b, CheckExternalConnection st (checkParams conn b) = None → confirmed st plan).
  { intros b (res & ? & ?)%CheckExternalConnection_none. by exists conn, b, res. }
  destruct (pl_UpdateExternalConnection plan) as [u|];
    destruct (CheckExternalConnection _ _) eqn:Hk; injection H as <- <-; simpl; eauto 10.
Qed.

(** The connection found is one of the system's, with the endpoint and the identity
    asked for, and no later one has them. *)
Definition sameConnection (conn : AddExternalConnectionParams) (c : ExternalConnectionInfo) : Prop :=
  eci_EndpointType c = aec_EndpointType conn ∧ eci_Endpoint c = aec_Endpoint conn ∧
  eci_Identity c = aec_Identity conn.

Lemma matchConnection_spec conn accounts :
  match matchConnection conn accounts with
  | Some c => sameConnection conn c ∧ ∃ l1 l2,
      accounts ≫= acc_ExternalConnections = l1 ++ c :: l2 ∧ Forall (λ d, ¬ sameConnection conn d) l2
  | None => Forall (λ d, ¬ sameConnection conn d) (accounts ≫= acc_ExternalConnections)
  end.
Proof.
  set (f c := (eci_EndpointType c == aec_EndpointType conn) && (eci_Endpoint c == aec_Endpoint conn)
              && (eci_Identity c == aec_Identity conn)).
  assert (Hf : ∀ c, f c = true ↔ sameConnection conn c).
  { intros c. unfold f, sameConnection. rewrite !andb_true_iff, !bool_decide_eq_true. symmetry. apply and_assoc. }
  assert (Hn : ∀ l, Forall (λ d, f d = false) l → Forall (λ d, ¬ sameConnection conn d) l).
  { intros l Hl. eapply Forall_impl; [exact Hl|]. intros d Hd Hs%Hf. simpl in Hd. congruence. }
  pose proof (foldl_last f (accounts ≫= acc_ExternalConnections) None) as H.
  unfold matchConnection. change (foldl _ None _) with
    (foldl (λ found c, if f c then Some c else found) None (accounts ≫= acc_ExternalConnections)).
  destruct (foldl _ _ _) as [c|]; [|by apply Hn, H].
  destruct H as [(l1 & l2 & ? & ? & ?)|[[=] _]]. split; [by apply Hf|]. exists l1, l2. auto.
Qed.

(** ** The plan *)

(** What a successful [ReadSystemInfo] leaves for the Creating phase: a PV pool has
    its hosts and either an existing pool or the parameters of a new one; a cloud
    store has its connection, and a pool that uses exactly that connection. *)
Definition plan_wf st (plan : Plan) : Prop :=
  let name := om_Name (bs_meta (st_store st)) in
  ∃ info, nb_ReadSystem (st_noobaa st) = inr info ∧ pl_SystemInfo plan = Some info ∧
    pl_PoolInfo plan = findPool name (si_Pools info) ∧
    if bss_Type (bs_Spec (st_store st)) == StoreTypePVPool then
      is_Some (pl_HostsInfo plan) ∧ (is_Some (pl_CreateHostsPool plan) ↔ pl_PoolInfo plan = None) ∧
      pl_AddExternalConnection plan = None ∧ pl_CreateCloudPool plan = None ∧ pl_ExternalConnectionInfo plan = None
    else
      pl_CreateHostsPool plan = None ∧
      ∃ conn pool, pl_AddExternalConnection plan = Some conn ∧ pl_CreateCloudPool plan = Some pool ∧
        ccp_Name pool = name ∧ ccp_Connection pool = aec_Name conn ∧
        match pl_ExternalConnectionInfo plan with
        | Some c => aec_Name conn = eci_Name c ∧ sameConnection conn c
        | None => aec_Name conn = name
        end.

(** [ReadSystemInfo] reads: it changes nothing but the fields of the store and the
    secret that the connection parameters normalise. *)
Lemma ReadSystemInfo_frame st ns st' plan err :
  ReadSystemInfo st ns = Ret (st', plan, err) →
  st_cluster st' = st_cluster st ∧ st_noobaa st' = st_noobaa st ∧
  bs_meta (st_store st') = bs_meta (st_store st) ∧ bs_Status (st_store st') = bs_Status (st_store st) ∧
  bss_Type (bs_Spec (st_store st')) = bss_Type (bs_Spec (st_store st)).
Proof.
  unfold ReadSystemInfo, planCloudPool. intros H.
  destruct (nb_Connect _); [by simplify_eq|]. destruct (nb_ReadSystem _) as [|info]; [by simplify_eq|].
  destruct (bss_Type (bs_Spec (st_store st)) == StoreTypePVPool).
  - case_match; [by simplify_eq|]. apply bind_Ret in H as ([p e] & _ & H). by simplify_eq.
  - case_match; [by simplify_eq|]. apply bind_Ret in H as ([[bs s] made] & Hm & H).
    apply MakeExternalConnectionParams_frame in Hm as (? & ? & ? & _).
    destruct made; [by simplify_eq/=|]. apply bind_Ret in H as ([b e] & _ & H).
    destruct e; by simplify_eq/=.
Qed.

Lemma planHostsPool_wf st ns info pool plan :
  planHostsPool st ns info pool = Ret (plan, None) →
  pl_SystemInfo plan = Some info ∧ pl_PoolInfo plan = pool ∧ is_Some (pl_HostsInfo plan) ∧
  (is_Some (pl_CreateHostsPool plan) ↔ pool = None) ∧
  pl_AddExternalConnection plan = None ∧ pl_CreateCloudPool plan = None ∧ pl_ExternalConnectionInfo plan = None.
Proof.
  unfold planHostsPool. intros (pv & _ & H)%bind_Ret. destruct pool as [p|].
  - destruct (nb_ListHosts _ _) as [|hosts]; [done|]. case_match; [done|].
    apply bind_Ret in H as (ph & _ & H). simplify_eq/=. split_and!; try done.
  - by simplify_eq/=.
Qed.

Lemma planCloudPool_wf st ns info pool st' plan :
  planCloudPool st ns info pool = Ret (st', plan, None) →
  pl_SystemInfo plan = Some info ∧ pl_PoolInfo plan = pool ∧ pl_CreateHostsPool plan = None ∧
  ∃ conn cp, pl_AddExternalConnection plan = Some conn ∧ pl_CreateCloudPool plan = Some cp ∧
    ccp_Name cp = om_Name (bs_meta (st_store st)) ∧ ccp_Connection cp = aec_Name conn ∧
    match pl_ExternalConnectionInfo plan with
    | Some c => aec_Name conn = eci_Name c ∧ sameConnection conn c
    | None => aec_Name conn = om_Name (bs_meta (st_store st))
    end.
Proof.
  unfold planCloudPool. intros ([[bs s] made] & Hm & H)%bind_Ret.
  apply MakeExternalConnectionParams_frame in Hm as (Hmeta & _ & _ & Hn).
  destruct made as [|conn]; [done|]. apply bind_Ret in H as ([b e] & _ & H).
  destruct e; simplify_eq/=. split_and!; try done. eexists _, _. split_and!; try done; [by rewrite Hmeta|].
  pose proof (matchConnection_spec conn (si_Accounts info)) as Hs.
  destruct (matchConnection _ _) as [c|]; [|by apply Hn]. split; [done|]. apply Hs.
Qed.

Lemma ReadSystemInfo_wf st ns st' plan :
  ReadSystemInfo st ns = Ret (st', plan, None) → plan_wf st' plan.
Proof.
  intros H. pose proof (ReadSystemInfo_frame _ _ _ _ _ H) as (_ & Hn & Hm & _ & Ht).
  unfold plan_wf. rewrite Hn, Hm, Ht. revert H. unfold ReadSystemInfo.
  destruct (nb_Connect _); [done|]. destruct (nb_ReadSystem _) as [|info]; [done|].
  intros H. exists info. split; [done|]. cbv zeta in H |- *. revert H.
  generalize (findPool (om_Name (bs_meta (st_store st))) (si_Pools info)) as pool. intros pool.
  destruct (bss_Type (bs_Spec (st_store st)) == StoreTypePVPool); intros H.
  - destruct pool as [p|]; [destruct (pool_ResourceType p != "HOSTS"); [done|]|];
      apply bind_Ret in H as ([p' e] & H & [= <- <- ->]);
      apply planHostsPool_wf in H as (? & Hp & ? & ? & ?); rewrite Hp; auto.
  - destruct pool as [p|]; [destruct (pool_ResourceType p != "CLOUD"); [done|]|];
      by apply planCloudPool_wf in H.
Qed.

(** ** The phases *)

(** Validation does not look at the status. *)
Lemma ValidateBackingStore_SetPhase bs phase reason message :
  ValidateBackingStore (SetPhase bs phase reason message) = ValidateBackingStore bs.
Proof. by destruct phase. Qed.

Lemma ReconcilePhaseVerifying_frame st nb st' err :
  ReconcilePhaseVerifying st nb = Ret (st', err) →
  st_cluster st' = st_cluster st ∧ st_noobaa st' = st_noobaa st ∧ st_secret st' = st_secret st ∧
  bs_meta (st_store st') = bs_meta (st_store st) ∧ bs_Spec (st_store st') = bs_Spec (st_store st).
Proof.
  unfold ReconcilePhaseVerifying. intros (v & _ & H)%bind_Ret. repeat case_match; by simplify_eq.
Qed.

(** An invalid store is rejected in the first phase, and nothing is asked of the server. *)
Lemma ReconcilePhases_invalid st nb e :
  ValidateBackingStore (st_store st) = fail e →
  ∃ st', ReconcilePhases st nb = Ret (st', Some (PersistentError "BackingStoreValidationError" (Error e))) ∧
    st_cluster st' = st_cluster st ∧ st_noobaa st' = st_noobaa st ∧ st_secret st' = st_secret st.
Proof.
  intros He. unfold ReconcilePhases, ReconcilePhaseVerifying.
  cbn [set_phase set_store st_store]. rewrite ValidateBackingStore_SetPhase, He.
  eexists. split; [reflexivity|done].
Qed.

(** A secret that is named but not found: a temporary error for a young store, a
    rejection afterwards. *)
Lemma ReconcilePhases_missing_secret st nb :
  ValidateBackingStore (st_store st) = ok → om_UID (nb_meta nb) ≠ "" →
  om_Name (sec_meta (st_secret st)) ≠ "" → om_UID (sec_meta (st_secret st)) = "" →
  ∃ st' e, ReconcilePhases st nb = Ret (st', Some e) ∧ st_noobaa st' = st_noobaa st ∧
    IsPersistentError (Some e) = negb (young now (bs_meta (st_store st))).
Proof.
  intros Hv Hnb Hn Hu. unfold ReconcilePhases, ReconcilePhaseVerifying.
  cbn [set_phase set_store st_store st_secret]. rewrite ValidateBackingStore_SetPhase, Hv.
  cbn [mbind outcome_bind]. rewrite (bool_decide_false (om_UID (nb_meta nb) = "")) by done.
  rewrite bool_decide_false, bool_decide_true by done. eexists _, _. split; [reflexivity|].
  split; [done|]. cbn [SetPhase bs_meta]. by destruct (young _ _).
Qed.

(** What the creating phase did about the connection, between two states of the server:
    nothing when the system has a matching one or none is planned; else the server
    confirmed it and then accepted it. *)
Definition connectionMade (n : N) (plan : Plan) (n' : N) : Prop :=
  match pl_ExternalConnectionInfo plan, pl_AddExternalConnection plan with
  | None, Some conn =>
      ∃ res, nb_CheckExternalConnection n (checkParams conn (bool_decide (is_Some (pl_UpdateExternalConnection plan)))) = inr res ∧
        cer_Status res = ExternalConnectionSuccess ∧
        match pl_UpdateExternalConnection plan with
        | Some update => nb_UpdateExternalConnection n update = (n', None)
        | None => nb_AddExternalConnection n conn = (n', None)
        end
  | _, _ => n' = n
  end.
Lemma ReconcileExternalConnection_connected st plan st' :
  ReconcileExternalConnection st plan = Ret (st', None) → connectionMade (st_noobaa st) plan (st_noobaa st').
Proof.
  unfold ReconcileExternalConnection, connectionMade, nb_call.
  destruct (pl_ExternalConnectionInfo plan); [by intros [= <-]|]. destruct (pl_AddExternalConnection plan) as [conn|]; [|by intros [= <-]].
  destruct (pl_UpdateExternalConnection plan) as [update|]; destruct (CheckExternalConnection _ _) eqn:Hk; try done; intros H;
    apply CheckExternalConnection_none in Hk as (res & Hres & Hst); exists res; (split; [done|]); (split; [done|]);
    [destruct (nb_UpdateExternalConnection _ _)|destruct (nb_AddExternalConnection _ _)]; by injection H as <- ->.
Qed.

(** C5: a store comes out of the three phases without an error only if its spec is
    valid, the NooBaa system exists, its secret was found, the system could be read,
    and the connection that was planned from what was read exists there, or the server
    confirmed it and then accepted it, before the pool was reconciled. *)
Theorem ReconcilePhases_success {QL : QuantityLaws QA} st nb st' :
  ReconcilePhases st nb = Ret (st', None) →
  bs_valid (st_store st) ∧ om_UID (nb_meta nb) ≠ "" ∧
  (om_Name (sec_meta (st_secret st)) = "" ∨ om_UID (sec_meta (st_secret st)) ≠ "") ∧
  ∃ st1 st2 st3 plan,
    ReconcilePhaseVerifying st nb = Ret (st1, None) ∧ ReconcilePhaseConnecting st1 nb = Ret (st2, plan, None) ∧
    st_noobaa st2 = st_noobaa st ∧ st_cluster st2 = st_cluster st ∧ plan_wf st2 plan ∧
    connectionMade (st_noobaa st) plan (st_noobaa st3) ∧ ReconcilePool st3 plan = Ret (st', None).
Proof.
  unfold ReconcilePhases. intros (st1 & Hv & H)%try_step_ok.
  pose proof (ReconcilePhaseVerifying_frame _ _ _ _ Hv) as (Hw1 & Hn1 & _ & Hm1 & Hs1). pose proof Hv as Hver.
  unfold ReconcilePhaseVerifying in Hv. cbn [set_phase set_store st_store st_secret] in Hv.
  rewrite ValidateBackingStore_SetPhase in Hv. apply bind_Ret in Hv as ([e|] & Hval & Hv); [done|].
  split; [by apply ValidateBackingStore_ok|].
  case_bool_decide as Hu; [done|]. split; [done|].
  destruct (negb _ && _) eqn:Hs; [done|]. split.
  { apply andb_false_iff in Hs as [Hs%negb_false_iff%bool_decide_eq_true|Hs%bool_decide_eq_false]; auto. }
  apply bind_Ret in H as ([[st2 plan] [e|]] & Hc & H); [done|]. pose proof Hc as Hr. unfold ReconcilePhaseConnecting in Hr.
  pose proof (ReadSystemInfo_frame _ _ _ _ _ Hr) as (Hw2 & Hn2 & Hm2 & _ & Ht2). apply ReadSystemInfo_wf in Hr.
  unfold ReconcilePhaseCreating in H. apply try_step_ok in H as (st3 & Hx & Hp).
  apply ReconcileExternalConnection_connected in Hx. cbn [set_phase set_store st_noobaa] in *.
  rewrite Hn2, Hn1 in Hx. exists st1, st2, st3, plan. split_and!; try done; [by rewrite Hn2|by rewrite Hw2].
Qed.

(** ** Deletion *)

Definition has_pool (n : N) (name : string) : Prop :=
  ∃ info, nb_ReadSystem n = inr info ∧ name ∈ (pool_Name <$> si_Pools info).

Lemma nb_call_frame st r st' err :
  nb_call st r = Ret (st', err) → st_cluster st' = st_cluster st ∧ st_store st' = st_store st.
Proof. unfold nb_call. intros; by simplify_eq. Qed.

Lemma deletePool_frame st name st' err :
  deletePool st name = Ret (st', err) → st_cluster st' = st_cluster st ∧ st_store st' = st_store st.
Proof. unfold deletePool. destruct (nb_DeletePool _ _) as [n [[]|]]; repeat case_match; intros; by simplify_eq. Qed.

(** The cluster, and what identifies the store, are untouched. *)
Definition core_frame st st' : Prop :=
  st_cluster st' = st_cluster st ∧ bs_meta (st_store st') = bs_meta (st_store st) ∧
  bss_Type (bs_Spec (st_store st')) = bss_Type (bs_Spec (st_store st)).

Lemma finalizeCore_frame st ns st' err : finalizeCore st ns = Ret (st', err) → core_frame st st'.
Proof.
  unfold finalizeCore. intros ([[st1 plan] e1] & Hr & H)%bind_Ret.
  apply ReadSystemInfo_frame in Hr as (Hw & _ & Hm & _ & Ht).
  assert (H1 : core_frame st st1) by (by split_and!).
  destruct (_ && _); [by simplify_eq|].
  refine (try_step_inv (core_frame st) _ _ _ _ _ _ H).
  - destruct (pl_PoolInfo plan) as [pool|]; [|intros; by simplify_eq].
    intros st2 e (info & _ & H2)%bind_Ret. refine (try_step_inv (core_frame st) _ _ _ _ _ _ H2).
    + intros st3 e3 [Hc Hs]%nb_call_frame. unfold core_frame. by rewrite Hc, Hs.
    + intros st3 st4 e4 H3 [Hc Hs]%deletePool_frame. unfold core_frame. by rewrite Hc, Hs.
  - intros st2 st3 e H2. destruct (pl_ExternalConnectionInfo plan); [|intros; by simplify_eq].
    intros [Hc Hs]%nb_call_frame. unfold core_frame. by rewrite Hc, Hs.
Qed.

(** What the management API promises: its transport errors are temporary, a
    successful deletion removes the pool, and deleting a connection adds no pool. *)
Class NBLaws : Prop := {
  Connect_temporary n e : nb_Connect n = Some e → IsPersistentError (Some e) = false;
  ReadSystem_temporary n e : nb_ReadSystem n = inl e → IsPersistentError (Some e) = false;
  DeletePool_ok n name n' : nb_DeletePool n name = (n', None) → ¬ has_pool n' name;
  DeleteExternalConnection_pools n c n' e name :
    nb_DeleteExternalConnection n c = (n', e) → has_pool n' name → has_pool n name;
}.

(** Unless the system could not be read, the plan names the pool of the store. *)
Lemma ReadSystemInfo_pool {NL : NBLaws} st ns st' plan err :
  ReadSystemInfo st ns = Ret (st', plan, err) → (err = None ∨ IsPersistentError err = true) →
  ∃ info, nb_ReadSystem (st_noobaa st) = inr info ∧
    pl_PoolInfo plan = findPool (om_Name (bs_meta (st_store st))) (si_Pools info) ∧ pl_SystemInfo plan = Some info.
Proof.
  unfold ReadSystemInfo, planHostsPool, planCloudPool. intros H Herr.
  destruct (nb_Connect _) eqn:Hc.
  { apply Connect_temporary in Hc. simplify_eq. destruct Herr; congruence. }
  destruct (nb_ReadSystem _) as [e|info] eqn:Hr.
  { apply ReadSystem_temporary in Hr. simplify_eq. destruct Herr; congruence. }
  exists info. split; [done|]. revert H. cbv zeta.
  generalize (findPool (om_Name (bs_meta (st_store st))) (si_Pools info)) as pool. intros pool H.
  destruct (bss_Type (bs_Spec (st_store st)) == StoreTypePVPool).
  - destruct pool as [p|]; [destruct (pool_ResourceType p != "HOSTS"); [by simplify_eq|]|];
      apply bind_Ret in H as ([p' e] & (pv & _ & Hp)%bind_Ret & [= <- <- ->]); [|by simplify_eq].
    destruct (nb_ListHosts _ _); [by simplify_eq|]. case_match; [by simplify_eq|].
    apply bind_Ret in Hp as (? & _ & ?). by simplify_eq.
  - destruct pool as [p|]; [destruct (pool_ResourceType p != "CLOUD"); [by simplify_eq|]|];
      apply bind_Ret in H as ([[bs s] [e|conn]] & _ & H); try by simplify_eq.
    all: apply bind_Ret in H as ([b [e|]] & _ & H); by simplify_eq.
Qed.

Lemma deletePool_ok {NL : NBLaws} st name st' :
  deletePool st name = Ret (st', None) → ¬ has_pool (st_noobaa st') name.
Proof.
  unfold deletePool. destruct (nb_DeletePool _ _) as [n e] eqn:Hd.
  destruct e as [[]|]; repeat case_match; intros; simplify_eq. by apply DeletePool_ok in Hd.
Qed.

Lemma deleteConnection_pools {NL : NBLaws} (n : N) c name :
  has_pool (deleteConnection n c).1 name → has_pool n name.
Proof.
  unfold deleteConnection. destruct (nb_DeleteExternalConnection _ _) as [n' e] eqn:Hd.
  by eapply DeleteExternalConnection_pools.
Qed.

(** What the release of a store did to the server: it was read, and if it had a pool of the
    store, the accounts were moved off it and its deletion was accepted. *)
Definition poolReleased (n : N) (name : string) (n' : N) : Prop :=
  ∃ info, nb_ReadSystem n = inr info ∧
    (∀ pool, findPool name (si_Pools info) = Some pool →
       ∃ n1 n2, moveAccounts n name (internalPool info) (si_Accounts info) = (n1, None) ∧ nb_DeletePool n1 name = (n2, None)) ∧
    ¬ has_pool n' name.

Lemma finalizeCore_released {NL : NBLaws} st ns st' :
  finalizeCore st ns = Ret (st', None) → poolReleased (st_noobaa st) (om_Name (bs_meta (st_store st))) (st_noobaa st').
Proof.
  unfold finalizeCore. intros ([[st1 plan] e1] & Hr & H)%bind_Ret.
  pose proof (ReadSystemInfo_frame _ _ _ _ _ Hr) as (_ & Hn & _).
  destruct (_ && _) eqn:He.
  { by simplify_eq. }
  apply ReadSystemInfo_pool in Hr as (info & Hi & Hp & Hsi).
  2: { destruct e1; [right|by left]. by destruct (IsPersistentError (Some e)). }
  apply try_step_ok in H as (st2 & H2 & H3). exists info. split; [done|]. rewrite Hp in H2. clear Hp.
  assert (¬ has_pool (st_noobaa st2) (om_Name (bs_meta (st_store st))) → ¬ has_pool (st_noobaa st') (om_Name (bs_meta (st_store st)))) as Hkeep.
  { destruct (pl_ExternalConnectionInfo plan); [|by simplify_eq]. injection H3 as <- _. intros Hno Hh. by apply Hno, (deleteConnection_pools _ _ _ Hh). }
  destruct (findPool _ _) as [pool|] eqn:Hf.
  - rewrite Hsi in H2. cbn [deref mbind outcome_bind] in H2. apply try_step_ok in H2 as (st3 & Hmv & Hd).
    apply findPool_Some in Hf as Hname. split.
    + intros pool' [= <-]. rewrite <-Hname. exists (st_noobaa st3), (st_noobaa st2). split.
      * revert Hmv. unfold nb_call. rewrite Hn. destruct (moveAccounts _ _ _ _) as [n1 e] eqn:Em. by intros [= <- ->].
      * revert Hd. unfold deletePool. destruct (nb_DeletePool _ _) as [n e] eqn:Ed. destruct e as [[]|]; repeat case_match; intros; by simplify_eq.
    + apply Hkeep. rewrite <-Hname. by apply deletePool_ok in Hd.
  - split; [done|]. apply Hkeep. apply findPool_None in Hf. simplify_eq. rewrite Hn. intros (i & Hi' & Hin). rewrite Hi in Hi'. by injection Hi' as <-.
Qed.

Lemma FinalizeDeletion_ok st st' :
  FinalizeDeletion st = Ret (st', None) →
  st_noobaa st' = st_noobaa st ∧
  ∃ bs, srv_Update (st_cluster st) bs = (st_cluster st', inr (st_store st')) ∧
    ObjectKey bs = ObjectKey (st_store st) ∧ bs_Spec bs = bs_Spec (st_store st) ∧
    om_Finalizers (bs_meta bs) = filter (λ f, f ≠ Finalizer) (om_Finalizers (bs_meta (st_store st))).
Proof.
  unfold FinalizeDeletion.
  destruct (RemoveFinalizer (st_store st) Finalizer) as [bs b] eqn:Hr.
  pose proof (RemoveFinalizer_eq (st_store st) Finalizer) as [Hf _]. rewrite Hr in Hf.
  intros ([[w o] []] & Hu & H)%bind_Ret; [|done]. simplify_eq/=. split; [done|]. exists bs.
  unfold KubeUpdate, fill in Hu.
  destruct (srv_Update _ _) as [w' [e|o']]; [by repeat case_match; simplify_eq|].
  simplify_eq. split; [done|]. unfold RemoveFinalizer in Hr. by destruct (foldl _ _ _) as [[arr n] found]; simplify_eq/=.
Qed.

Lemma deletePvPool_noobaa st st' err :
  deletePvPool st = Ret (st', err) → st_noobaa st' = st_noobaa st ∧ st_store st' = st_store st.
Proof.
  unfold deletePvPool. intros (? & _ & H)%bind_Ret. destruct x as [pods found].
  apply bind_Ret in H as ([w1 b1] & _ & ([w2 b2] & _ & H)%bind_Ret). by simplify_eq.
Qed.

(** C2: the finalizer of a store comes off last.  When the deletion of a store reports
    success and the NooBaa system runs, the server was read, the accounts were moved off the
    pool of the store and its deletion was accepted, and the server has no such pool any
    more; when no system runs, the server is left alone.  In both cases the last request was
    an accepted update of the store that removed the operator's finalizer and no other. *)
Theorem ReconcileDeletion_released {NL : NBLaws} st nb systemFound st' :
  ReconcileDeletion st nb systemFound = Ret (st', None) →
  (if systemFound then poolReleased (st_noobaa st) (om_Name (bs_meta (st_store st))) (st_noobaa st') else st_noobaa st' = st_noobaa st) ∧
  ∃ w bs, srv_Update w bs = (st_cluster st', inr (st_store st')) ∧
    ObjectKey bs = ObjectKey (st_store st) ∧
    om_Finalizers (bs_meta bs) = filter (λ f, f ≠ Finalizer) (om_Finalizers (bs_meta (st_store st))).
Proof.
  unfold ReconcileDeletion. intros (st1 & H1 & (st2 & H2 & (st3 & H3 & H4)%try_step_ok)%try_step_ok)%try_step_ok.
  assert (bs_meta (st_store st1) = bs_meta (st_store st) ∧ st_noobaa st1 = st_noobaa st) as [Hm1 Hn1].
  { destruct (_ != _); [rewrite UpdateStatus_Ret in H1; by injection H1 as <- _|by injection H1 as <-]. }
  assert (bs_meta (st_store st2) = bs_meta (st_store st1) ∧
    if systemFound then poolReleased (st_noobaa st1) (om_Name (bs_meta (st_store st1))) (st_noobaa st2) else st_noobaa st2 = st_noobaa st1) as [Hm2 Hrel].
  { destruct systemFound; [|by injection H2 as <-]. split; [apply (finalizeCore_frame _ _ _ _ H2)|by eapply finalizeCore_released]. }
  assert (st_noobaa st3 = st_noobaa st2 ∧ st_store st3 = st_store st2) as [Hn3 Hs3].
  { destruct (bss_Type _ == StoreTypePVPool); [by apply deletePvPool_noobaa in H3|by simplify_eq]. }
  apply FinalizeDeletion_ok in H4 as (Hn4 & bs & Hu & Hk & _ & Hf).
  rewrite Hn4, Hn3, <-Hn1, <-Hm1. split; [done|]. exists (st_cluster st3), bs. split; [done|]. split.
  - rewrite Hk, Hs3. unfold ObjectKey. simpl. by rewrite Hm2, Hm1.
  - by rewrite Hf, Hs3, Hm2.
Qed.

(** As long as the NooBaa core refuses to release the store, the deletion stops
    there: the error is reported as it is, no Kubernetes object has been touched
    and the store keeps its metadata, finalizer included. *)
Theorem ReconcileDeletion_blocked st nb st1 e :
  phaseOf st = BackingStorePhaseDeleting →
  finalizeCore st (om_Namespace (nb_meta nb)) = Ret (st1, Some e) →
  ReconcileDeletion st nb true = Ret (st1, Some e) ∧
  st_cluster st1 = st_cluster st ∧ bs_meta (st_store st1) = bs_meta (st_store st).
Proof.
  intros Hp Hf. pose proof (finalizeCore_frame _ _ _ _ Hf) as (Hc & Hm & _).
  split; [|done]. unfold ReconcileDeletion. rewrite bool_decide_true by done.
  cbn [negb]. unfold try_step at 1. cbn [mbind outcome_bind]. by apply try_step_err.
Qed.

(** ** Outcomes of a reconcile *)

(** Every ending of a reconcile is classified.  A persistent error rejects the
    store, with the Degraded condition carrying its reason and message; any other
    error keeps the phase; success takes the phase that the mode of the pool stands
    for, Ready when the mode is unknown.  The request comes back after three seconds
    exactly when the error was temporary or the status could not be stored. *)
Theorem completeReconcile_outcome {CL : ConditionLaws CA} st err :
  ∃ st' res, completeReconcile st err = Ret (st', res) ∧
    phaseOf st' = finalPhase (st_store st) err ∧
    (RequeueAfter res = None ∨ RequeueAfter res = Some 3%Z) ∧
    (RequeueAfter res = None ↔
       (err = None ∨ IsPersistentError err = true) ∧
       (statusUpdate (st_cluster st) (st_store st')).2 = None) ∧
    ∀ reason message, err = Some (PersistentError reason message) →
      ∃ c, find_condition (bst_Conditions (bs_Status (st_store st'))) ConditionDegraded = Some c ∧
        c_Status c = ConditionTrue ∧ c_Reason c = Sprintf reason [] ∧ c_Message c = message.
Proof.
  destruct (completeReconcile_classify st err) as (st' & res & Hc & Hp & _ & Hr & Hi).
  exists st', res. split_and!; try done. intros reason message ->.
  revert Hc. unfold completeReconcile. rewrite UpdateStatus_Ret. cbn [mbind outcome_bind].
  intros [= <- _]. apply SetFour_find. right. right. left.
Qed.

(** A store with an invalid spec that got past the webhook is rejected by the
    controller, without any request to the NooBaa server. *)
Theorem reconcileLoaded_invalid {QL : QuantityLaws QA} st nb :
  om_DeletionTimestamp (bs_meta (st_store st)) = None →
  om_Annotations (bs_meta (st_store st)) ≫= lookup PauseReconcile ≠ Some "true"%string →
  map_get (om_Labels (bs_meta (st_store st))) "app" = "noobaa" →
  Finalizer ∈ om_Finalizers (bs_meta (st_store st)) →
  ¬ bs_valid (st_store st) →
  ∃ st' res, reconcileLoaded st nb true = Ret (st', res) ∧
    phaseOf st' = BackingStorePhaseRejected ∧ st_noobaa st' = st_noobaa st ∧
    (RequeueAfter res = None ↔ (statusUpdate (st_cluster st) (st_store st')).2 = None).
Proof.
  intros Hd Ha Hl Hf Hv. unfold reconcileLoaded. rewrite Hd. cbn [negb].
  rewrite (bool_decide_false _ Ha), EnsureCommonMetaFields_keep by done. cbn [mbind outcome_bind].
  destruct (ValidateBackingStore_decides (st_store st)) as [?%ValidateBackingStore_ok|[m He]]; [done|].
  destruct (ReconcilePhases_invalid st nb _ He) as (st1 & -> & Hc1 & Hn1 & _). cbn [mbind outcome_bind].
  set (err := Some (PersistentError _ _)).
  destruct (completeReconcile_classify st1 err) as (st' & res & Hr & Hp & _ & _ & Hi).
  exists st', res. split; [done|]. split; [done|]. split.
  - rewrite <-Hn1. revert Hr. unfold completeReconcile, err. rewrite UpdateStatus_Ret. by intros [= <- _].
  - rewrite Hi, Hc1. split; [by intros [_ ?]|]. intros ?. split; [by right|done].
Qed.

(** The plan of a successful [ReadSystemInfo] is complete and consistent, so
    that the Creating phase never misses a parameter: the pool of a cloud store uses
    the connection the plan adds or reuses, a PV pool has its hosts, and a pool is
    created exactly when the system has none of that name. *)
Theorem ReadSystemInfo_plan st ns st' plan :
  ReadSystemInfo st ns = Ret (st', plan, None) → plan_wf st' plan.
Proof. apply ReadSystemInfo_wf. Qed.

(** A connection check passes exactly on the status SUCCESS.  Wrong credentials
    and unreachable endpoints are held against a store only after its first five
    minutes; a time skew or an unsupported endpoint always is; every other failure
    is temporary. *)
Theorem CheckExternalConnection_judges st params :
  match nb_CheckExternalConnection (st_noobaa st) params with
  | inl err => CheckExternalConnection st params = Some err
  | inr res =>
      (CheckExternalConnection st params = None ↔ cer_Status res = ExternalConnectionSuccess) ∧
      IsPersistentError (CheckExternalConnection st params) =
        definite (cer_Status res) && negb (young now (bs_meta (st_store st)) && transientWhileYoung (cer_Status res))
  end.
Proof.
  unfold CheckExternalConnection. destruct (nb_CheckExternalConnection _ _); [done|].
  split; [apply judgeConnection_none|apply judgeConnection_persistent].
Qed.

End Reconciler.

(** The capacity of a Ceph cluster survives its split into petabytes and a rest
    that stays below one petabyte; both parts fit the signed 64-bit fields. *)
Theorem UInt64ToBigInt_value value :
  (0 ≤ value < 2 ^ 64)%Z →
  (bi_N (UInt64ToBigInt value) + bi_Peta (UInt64ToBigInt value) * 2 ^ 50 = value ∧
   0 ≤ bi_N (UInt64ToBigInt value) < 2 ^ 50 ∧ 0 ≤ bi_Peta (UInt64ToBigInt value) < 2 ^ 14)%Z.
Proof.
  intros H. unfold UInt64ToBigInt. cbn [bi_N bi_Peta].
  replace (1024 * 1024 * 1024 * 1024 * 1024)%Z with (2 ^ 50)%Z by done.
  pose proof (Z.mod_pos_bound value (2 ^ 50) eq_refl). pose proof (Z.div_mod value (2 ^ 50)).
  split; [lia|]. split; [lia|]. split; [apply Z.div_pos; lia|]. apply Z.div_lt_upper_bound; lia.
Qed.
