(* ===== verification/NamespaceStoreReconciler.v ===== *)
(** * The NamespaceStore controller: [pkg/namespacestore/reconciler.go].

    One call of [Reconcile] reads the store, its secret and the NooBaa system, and
    drives the store through Verifying, Connecting and Creating, or through its
    deletion.  The state is the cluster [W], the NooBaa server [N], and the store and
    the secret the reconciler holds in memory; [Plan] collects the fields that
    [ReadSystemInfo] fills in.  Log lines and Kubernetes events are left out. *)

From S2P Require Import Prelude GoStrings Types NbTypes Kube Util StoreAccess Gcp GoUrl.
From S2P Require Import NamespaceStoreValidation Secrets ConnectionParams Controller.

(** ** The NooBaa server *)

(** The calls on namespace resources. *)
Class NBNamespaceClient (N : Type) : Type := {
  nb_CreateNamespaceResource : N → CreateNamespaceResourceParams → N * option error;
  nb_DeleteNamespaceResource : N → string → N * option error;
}.

(** [modeInfoMap], without the severity of the event. *)
Definition nsrModeInfoMap : gmap string NamespaceStorePhase :=
  list_to_map [("OPTIMAL", NamespaceStorePhaseReady); ("IO_ERRORS", NamespaceStorePhaseRejected);
    ("STORAGE_NOT_EXIST", NamespaceStorePhaseRejected); ("AUTH_FAILED", NamespaceStorePhaseRejected)]%string.

(** The fields of the reconciler that describe the work to do; [pl_connected] says
    whether its client has been set. *)
Record Plan := mkPlan {
  pl_connected : bool;
  pl_SystemInfo : option SystemInfo;
  pl_Resource : option NamespaceResourceInfo;
  pl_ExternalConnectionInfo : option ExternalConnectionInfo;
  pl_AddExternalConnection : option AddExternalConnectionParams;
  pl_CreateNamespaceResource : option CreateNamespaceResourceParams;
  pl_UpdateExternalConnection : option UpdateExternalConnectionParams;
}.

Record State {W N : Type} := mkState {
  st_cluster : W;
  st_noobaa : N;
  st_store : NamespaceStore;
  st_secret : Secret;
}.
Arguments State W N : clear implicits.

(** ** Connection parameters *)

Definition getAuthMethod (signature : S3SignatureVersion) : CloudAuthMethod :=
  if signature == S3SignatureVersionV4 then CloudAuthMethodAwsV4
  else if signature == S3SignatureVersionV2 then CloudAuthMethodAwsV2
  else CloudAuthMethodNone.

(** The first alternative name with a value fills a missing key. *)
Definition fixKey (secret : Secret) (key : string) (alternatives : list string) : outcome Secret :=
  let get k := map_get (sec_StringData secret) k in
  if get key == "" then
    match List.find (λ k, get k != "") alternatives with
    | None => Ret secret
    | Some k => sd ← map_set (sec_StringData secret) key (get k); Ret (mkSecret (sec_meta secret) sd (sec_Data secret))
    end
  else Ret secret.

Definition fixAlternateKeysNames (secret : Secret) : outcome Secret :=
  secret ← fixKey secret "AWS_ACCESS_KEY_ID" ["aws_access_key_id"; "AccessKey"]%string;
  fixKey secret "AWS_SECRET_ACCESS_KEY" ["aws_secret_access_key"; "SecretKey"]%string.

Section Connection.
Context {GJ : GoogleJson} (IsGraphic : Z → bool).
Implicit Types (ns : NamespaceStore) (secret : Secret).

Definition azureConnection ns secret : error + AddExternalConnectionParams :=
  let get key := map_get (sec_StringData secret) key in
  let sts := IsAzureSTSClusterNS ns in
  if sts && (TrimSpace (get "azure_tenant_id") == "") then
    inl (NewPersistentError "InvalidAzureSTSSecret"
           (Sprintf "Azure STS requires non-empty azure_tenant_id in secret %q" [AStr (om_Name (sec_meta secret))]))
  else
    let logKeys :=
      if (get "TenantID" != "") && (get "ApplicationID" != "") && (get "ApplicationSecret" != "")
         && (get "LogsAnalyticsWorkspaceID" != "")
      then Some (mkAzureLogAccessKeysParams (get "TenantID") (get "ApplicationID") (get "ApplicationSecret")
                   (get "LogsAnalyticsWorkspaceID")) else None in
    inr (mkAddExternalConnectionParams (om_Name (ns_meta ns))
      (if sts then EndpointTypeAzureSTS else EndpointTypeAzure) "https://blob.core.windows.net"
      (get "AccountName") (if sts then ""%string else get "AccountKey") CloudAuthMethodNone ""
      (if sts then Some (mkAzureSTSCredentials (get "azure_tenant_id") (get "azure_client_id")) else None)
      "" logKeys).

Definition googleConnection ns secret : error + AddExternalConnectionParams :=
  match GoogleCredentialsFromStoreSecret (Some secret) with
  | inl err => inl (NewPersistentError "InvalidGoogleSecret"
                      (Sprintf "Invalid google credentials secret: %v" [AMsg (Error err)]))
  | inr json =>
      match ParseGoogleCredentials json with
      | inl err => inl (NewPersistentError "InvalidGoogleSecret"
                          (Sprintf "Invalid secret for google type %q: invalid GCP credentials JSON: %v"
                             [AStr (om_Name (sec_meta secret)); AMsg (Error err)]))
      | inr (isExternal, ident) =>
          inr (newConn (om_Name (ns_meta ns)) (if isExternal : bool then EndpointTypeGoogleSTS else EndpointTypeGoogle)
                 "https://www.googleapis.com" ident json CloudAuthMethodNone)
      end
  end.

(** The switch on the type. *)
Definition connectionByType ns secret : outcome (error + AddExternalConnectionParams) :=
  let name := om_Name (ns_meta ns) in
  let get key := map_get (sec_StringData secret) key in
  match nss_Type (ns_Spec ns) with
  | NSStoreTypeAWSS3 =>
      sts ← IsAWSSTSClusterNS ns;
      awsS3 ← deref (nss_AWSS3 (ns_Spec ns));
      if sts : bool then
        arn ← deref (aws_AWSSTSRoleARN awsS3);
        Ret (inr (mkAddExternalConnectionParams name EndpointTypeAwsSTS (awsEndpoint awsS3) "" ""
                    CloudAuthMethodNone arn None (aws_Region awsS3) None))
      else
        Ret (inr (mkAddExternalConnectionParams name EndpointTypeAws (awsEndpoint awsS3)
                    (get "AWS_ACCESS_KEY_ID") (get "AWS_SECRET_ACCESS_KEY")
                    CloudAuthMethodNone "" None (aws_Region awsS3) None))
  | NSStoreTypeS3Compatible =>
      s ← deref (nss_S3Compatible (ns_Spec ns));
      Ret (inr (newConn name EndpointTypeS3Compat (s3c_Endpoint s) (get "AWS_ACCESS_KEY_ID")
                  (get "AWS_SECRET_ACCESS_KEY") (getAuthMethod (s3c_SignatureVersion s))))
  | NSStoreTypeIBMCos =>
      s ← deref (nss_IBMCos (ns_Spec ns));
      Ret (inr (newConn name EndpointTypeIBMCos (ibm_Endpoint s) (get "IBM_COS_ACCESS_KEY_ID")
                  (get "IBM_COS_SECRET_ACCESS_KEY") (getAuthMethod (ibm_SignatureVersion s))))
  | NSStoreTypeAzureBlob => Ret (azureConnection ns secret)
  | NSStoreTypeGoogleCloudStorage => Ret (googleConnection ns secret)
  | t => Ret (inl (NewPersistentError "InvalidType"
                     (Sprintf "Invalid namespace store type %q" [AStr (NSType_string t)])))
  end.

(** The secret is returned as it is left.  The check for graphic characters is made
    for the STS types only. *)
Definition MakeExternalConnectionParams ns secret : outcome (Secret * (error + AddExternalConnectionParams)) :=
  secret ← fixAlternateKeysNames secret;
  conn ← connectionByType ns secret;
  match conn with
  | inl err => Ret (secret, inl err)
  | inr conn =>
      awsSts ← IsAWSSTSClusterNS ns;
      if (awsSts || IsAzureSTSClusterNS ns)
         && (negb (IsStringGraphicOrSpacesCharsOnly IsGraphic (aec_Identity conn))
             || negb (IsStringGraphicOrSpacesCharsOnly IsGraphic (aec_Secret conn))) then
        Ret (secret, inl (NewPersistentError "InvalidSecret"
              (Sprintf "Invalid secret containing non graphic characters (perhaps not base64 encoded?) %q"
                 [AStr (om_Name (sec_meta secret))])))
      else Ret (secret, inr conn)
  end.
End Connection.

Section Reconciler.
Context {QA : QuantityApi} {AU : AuthoritySyntax} {GJ : GoogleJson} {CA : ConditionApi}.
Context {W N : Type} {NB : NBClient N} {NN : NBNamespaceClient N}.
Context {SS : ApiServer W Secret} {SB : ApiServer W (BackingStore QA)} {SNS : ApiServer W NamespaceStore}
        {SNB : ApiServer W NooBaa}.
Context (IsGraphic : Z → bool) (groupOf : string → option string) (Namespace : string) (now : Z).
(** [Client.Status().Update]: only the status is stored. *)
Context (statusUpdate : W → NamespaceStore → W * option error).

Abbreviation St := (State W N).
Implicit Types (st : St) (ns : NamespaceStore).

Definition set_store ns st : St := mkState W N (st_cluster st) (st_noobaa st) ns (st_secret st).
Definition set_secret s st : St := mkState W N (st_cluster st) (st_noobaa st) (st_store st) s.
Definition set_cluster w st : St := mkState W N w (st_noobaa st) (st_store st) (st_secret st).
Definition set_noobaa n st : St := mkState W N (st_cluster st) n (st_store st) (st_secret st).

Abbreviation Step := (outcome (St * option error)).

(** A call of the server that changes it. *)
Definition nb_call st (r : N * option error) : Step := Ret (set_noobaa r.1 st, r.2).

(** ** Status *)

Definition SetPhase ns (phase : NamespaceStorePhase) (reason message : msg) : NamespaceStore :=
  let status := ns_Status ns in
  let conds := nst_Conditions status in
  let with_status p c := mkNamespaceStore (ns_meta ns) (ns_Spec ns) (mkNamespaceStoreStatus p c (nst_ModeCode status)) in
  match phase with
  | NamespaceStorePhaseNone => with_status (nst_Phase status) (SetProgressingCondition now conds reason message)
  | NamespaceStorePhaseReady => with_status phase (SetAvailableCondition now conds reason message)
  | NamespaceStorePhaseRejected => with_status phase (SetErrorCondition now conds reason message)
  | _ => with_status phase (SetProgressingCondition now conds reason message)
  end.

Definition set_phase (phase : NamespaceStorePhase) (reason message : msg) st : St :=
  set_store (SetPhase (st_store st) phase reason message) st.

Definition UpdateStatus st : Step :=
  let '(w, err) := statusUpdate (st_cluster st) (st_store st) in Ret (set_cluster w st, err).

Definition completeReconcile st (err : option error) : outcome (St * Result) :=
  let '(st, res) :=
    match err with
    | Some (PersistentError reason message) =>
        (set_phase NamespaceStorePhaseRejected (Sprintf reason []) message st, mkResult None)
    | Some e => (set_phase NamespaceStorePhaseNone (Lit "TemporaryError") (Error e) st, mkResult (Some 3%Z))
    | None =>
        let mode := nst_ModeCode (ns_Status (st_store st)) in
        let ready := set_phase NamespaceStorePhaseReady (Lit "NamespaceStorePhaseReady")
               (Lit "noobaa operator completed reconcile - namespace store is ready") st in
        (match nsrModeInfoMap !! mode with
         | Some phase =>
             if phase != nst_Phase (ns_Status (st_store st)) then
               set_phase phase (Sprintf "Namespace store mode: %s" [AStr mode])
                 (Sprintf "NamespaceStorePhase%s" [AStr (NamespaceStorePhase_string phase)]) st
             else ready
         | None => ready
         end, mkResult None)
    end in
  '(st, err) ← UpdateStatus st;
  Ret (st, match err with Some _ => mkResult (Some 3%Z) | None => res end).

(** ** The secret of the store *)

(** Another secret with the same credentials is preferred: the store is pointed to
    it.  The result is the secret to go on with and its reference. *)
Definition preferIdentical st (secret : Secret) (ref : SecretReference) :
    outcome (St * Secret * SecretReference * option error) :=
  let ns := st_store st in
  suggested ← CheckForIdenticalSecretsCreds (QA:=QA) (st_cluster st) (Some secret) (NSType_string (nss_Type (ns_Spec ns)));
  match suggested with
  | None => Ret (st, secret, ref, None)
  | Some s =>
      let ref := mkSecretReference (om_Name (sec_meta s)) (om_Namespace (sec_meta s)) in
      '(ns, err) ← SetNamespaceStoreSecretRef ns ref;
      match err with
      | Some e => Ret (set_store ns st, secret, ref, Some e)
      | None =>
          '(w, ns, updated) ← KubeUpdate (st_cluster st) ns;
          let st := set_store ns (set_cluster w st) in
          match updated with
          | true => Ret (st, s, ref, None)
          | false => Ret (st, secret, ref, Some (Errorf (Sprintf "failed to update NamespaceStore: %q secret reference"
                                                           [AStr (om_Name (ns_meta ns))])))
          end
      end
  end.

(** Make the store an owner of a secret the operator created. *)
Definition shareSecret st (secret : Secret) : Step :=
  let ns := st_store st in
  if IsOwnedByNoobaa (om_OwnerReferences (sec_meta secret)) then
    match SetOwnerReference groupOf "noobaa.io/v1alpha1" "NamespaceStore" (ns_meta ns) (sec_meta secret) with
    | AlreadyOwned => Ret (st, None)
    | OwnErr err => Ret (st, Some err)
    | Owned refs =>
        '(w, _, updated) ← KubeUpdate (st_cluster st)
            (set_meta (set_om_OwnerReferences refs (sec_meta secret)) secret);
        Ret (set_cluster w st,
             match updated with
             | true => None
             | false => Some (Errorf (Sprintf "failed to update secret: %q owner reference" [AStr (om_Name (ns_meta ns))]))
             end)
    end
  else Ret (st, None).

Definition set_secret_names (name namespace : string) (s : Secret) : Secret :=
  mkSecret (set_om_Name name (set_om_Namespace namespace (sec_meta s))) (sec_StringData s) (sec_Data s).

Definition reload_secret st (ref : SecretReference) : Step :=
  let namespace := if sr_Namespace ref == "" then om_Namespace (ns_meta (st_store st)) else sr_Namespace ref in
  '(secret, _) ← KubeCheck (st_cluster st) (set_secret_names (sr_Name ref) namespace (st_secret st));
  Ret (set_secret secret st, None).

Definition loadReferencedSecret st (ref : SecretReference) : Step :=
  found ← GetSecretFromSecretReference (st_cluster st) (Some ref);
  match found with
  | inl err => Ret (st, Some err)
  | inr None => reload_secret st ref
  | inr (Some secret) =>
      '(st, secret, ref, err) ← preferIdentical st secret ref;
      match err with
      | Some e => Ret (st, Some e)
      | None => try_step (shareSecret st secret) (λ st, reload_secret st ref)
      end
  end.

Definition LoadNamespaceStoreSecret st : Step :=
  let ns := st_store st in
  awsSts ← IsAWSSTSClusterNS ns;
  let azureSecret := match nss_AzureBlob (ns_Spec ns) with Some az => sr_Name (azb_Secret az) | None => ""%string end in
  if awsSts || (IsAzureSTSClusterNS ns && (azureSecret == "")) then Ret (st, None)
  else
    ref ← GetNamespaceStoreSecret ns;
    match ref with
    | inl err => Ret (st, Some err)
    | inr None => Ret (st, None)
    | inr (Some ref) => loadReferencedSecret st ref
    end.

(** ** Reading the NooBaa system *)

Definition findResource (name : string) (l : list NamespaceResourceInfo) : option NamespaceResourceInfo :=
  List.find (λ r, nsr_Name r == name) l.

(** The loop over the connections of all accounts: the last match wins, and an
    endpoint that cannot be parsed ends the loop with an error. *)
Fixpoint matchConnection (conn : AddExternalConnectionParams) (found : option ExternalConnectionInfo)
    (cs : list ExternalConnectionInfo) : option ExternalConnectionInfo * option error :=
  match cs with
  | [] => (found, None)
  | c :: cs =>
      match EndpointsEquivalent (eci_Endpoint c) (aec_Endpoint conn) with
      | inl err => (found, Some err)
      | inr endpointsEqual =>
          matchConnection conn
            (if (eci_EndpointType c == aec_EndpointType conn) && endpointsEqual && (eci_Identity c == aec_Identity conn)
             then Some c else found) cs
      end
  end.

Definition accessMode ns : string :=
  if nss_AccessMode (ns_Spec ns) == "ReadOnly" then APIAccessModeReadOnly else APIAccessModeReadWrite.

(** A filesystem store has no connection. *)
Definition planNSFS ns (info : SystemInfo) (nsr : option NamespaceResourceInfo) : outcome Plan :=
  nsfs ← deref (nss_NSFS (ns_Spec ns));
  let name := om_Name (ns_meta ns) in
  Ret (mkPlan true (Some info) nsr None None
         (Some (mkCreateNamespaceResourceParams name "" "" (accessMode ns)
                  (Some (mkNSFSConfig (nsfs_FsBackend nsfs) ("/nsfs/" +:+ name)))
                  (Some (mkNamespaceStoreInfo name Namespace)) false)) None).

Definition planConnection st (info : SystemInfo) (nsr : option NamespaceResourceInfo) : outcome (St * Plan * option error) :=
  let ns := st_store st in
  let base := mkPlan true (Some info) nsr None None None None in
  '(secret, made) ← MakeExternalConnectionParams IsGraphic ns (st_secret st);
  let st := set_secret secret st in
  match made with
  | inl err => Ret (st, base, Some err)
  | inr conn =>
      let mismatch :=
        match nsr with
        | None => false
        | Some r => (nsr_EndpointType r != aec_EndpointType conn) || (nsr_Endpoint r != aec_Endpoint conn)
                    || (nsr_Identity r != aec_Identity conn)
        end in
      let update := if mismatch then
          Some (mkUpdateExternalConnectionParams (aec_Name conn) None (aec_Identity conn) (aec_Secret conn)
                  (aec_AzureLogAccessKeys conn) (aec_Region conn)) else None in
      let '(existing, err) := matchConnection conn None (si_Accounts info ≫= acc_ExternalConnections) in
      match err with
      | Some e => Ret (st, mkPlan true (Some info) nsr existing None None update, Some e)
      | None =>
          let conn := match existing with Some c => set_aec_Name (eci_Name c) conn | None => conn end in
          '(bucket, err) ← GetNamespaceStoreTargetBucket ns;
          match err with
          | Some e => Ret (st, mkPlan true (Some info) nsr existing (Some conn) None update, Some e)
          | None =>
              let name := om_Name (ns_meta ns) in
              Ret (st, mkPlan true (Some info) nsr existing (Some conn)
                     (Some (mkCreateNamespaceResourceParams name (aec_Name conn) bucket (accessMode ns) None
                              (Some (mkNamespaceStoreInfo name Namespace)) (nss_Archive (ns_Spec ns)))) update, None)
          end
      end
  end.

Definition ReadSystemInfo st : outcome (St * Plan * option error) :=
  match nb_Connect (st_noobaa st) with
  | Some err => Ret (st, mkPlan false None None None None None None, Some err)
  | None =>
      match nb_ReadSystem (st_noobaa st) with
      | inl err => Ret (st, mkPlan true None None None None None None, Some err)
      | inr info =>
          let ns := st_store st in
          let nsr := findResource (om_Name (ns_meta ns)) (si_NamespaceResources info) in
          match om_DeletionTimestamp (ns_meta ns) with
          | Some _ => Ret (st, mkPlan true (Some info) nsr None None None None, None)
          | None =>
              if nss_Type (ns_Spec ns) == NSStoreTypeNSFS then
                plan ← planNSFS ns info nsr; Ret (st, plan, None)
              else planConnection st info nsr
          end
      end
  end.

(** ** The external connection and the resource *)

Definition CheckExternalConnection st (params : CheckExternalConnectionParams) : option error :=
  match nb_CheckExternalConnection (st_noobaa st) params with
  | inl err => Some err
  | inr res =>
      judgeConnection "NamespaceStore" "Got InvalidCredentials. requeue again" (om_Name (ns_meta (st_store st)))
        (young now (ns_meta (st_store st))) res
  end.

Definition ReconcileExternalConnection st (plan : Plan) : Step :=
  match pl_ExternalConnectionInfo plan, pl_UpdateExternalConnection plan, pl_AddExternalConnection plan with
  | Some _, None, _ | _, _, None => Ret (st, None)
  | _, Some update, Some conn =>
      match CheckExternalConnection st (checkParams conn true) with
      | Some err => Ret (st, Some err)
      | None => nb_call st (nb_UpdateExternalConnection (st_noobaa st) update)
      end
  | _, None, Some conn =>
      match CheckExternalConnection st (checkParams conn false) with
      | Some err => Ret (st, Some err)
      | None => nb_call st (nb_AddExternalConnection (st_noobaa st) conn)
      end
  end.

Definition ReconcileNamespaceStore st (plan : Plan) : Step :=
  match pl_Resource plan, pl_CreateNamespaceResource plan with
  | Some _, _ | None, None => Ret (st, None)
  | None, Some params =>
      let '(n, err) := nb_CreateNamespaceResource (st_noobaa st) params in
      Ret (set_noobaa n st,
           match err with
           | Some (RPCError code m) =>
               Some (if code == ExternalConnectionStatus_string ExternalConnectionInvalidArchiveTarget then
                       NewPersistentError code
                         (Sprintf "NamespaceStore %q invalid archive target %q"
                            [AStr (om_Name (ns_meta (st_store st))); AStr (cnr_TargetBucket params)])
                     else RPCError code m)
           | _ => err
           end)
  end.

(** ** The three phases *)

Definition ReconcilePhaseVerifying st (nb : NooBaa) : Step :=
  let st := set_phase NamespaceStorePhaseVerifying (Lit "NamespaceStorePhaseVerifying")
              (startedPhase "1/3" "Verifying") st in
  '(ns, err) ← ValidateNamespaceStore (st_store st);
  let st := set_store ns st in
  match err with
  | Some e => Ret (st, Some (NewPersistentError "NamespaceStoreValidationError" (Error e)))
  | None =>
      let secretName := om_Name (sec_meta (st_secret st)) in
      if om_UID (nb_meta nb) == "" then
        Ret (st, Some (NewPersistentError "MissingSystem"
               (Sprintf "NooBaa system %q not found or deleted" [AStr (om_Name (nb_meta nb))])))
      else if (secretName != "") && (om_UID (sec_meta (st_secret st)) == "") then
        Ret (st, Some (if young now (ns_meta ns) then
            Errorf (Sprintf "NamespaceStore Secret %q not found, but not rejecting the young as it might be in process" [AStr secretName])
          else NewPersistentError "MissingSecret"
                 (Sprintf "NamespaceStore Secret %q not found or deleted" [AStr secretName])))
      else Ret (st, None)
  end.

Definition ReconcilePhaseConnecting st : outcome (St * Plan * option error) :=
  ReadSystemInfo (set_phase NamespaceStorePhaseConnecting (Lit "NamespaceStorePhaseConnecting")
                    (startedPhase "2/3" "Connecting") st).

Definition ReconcilePhaseCreating st (plan : Plan) : Step :=
  let st := set_phase NamespaceStorePhaseCreating (Lit "NamespaceStorePhaseCreating")
              (startedPhase "3/3" "Creating") st in
  try_step (ReconcileExternalConnection st plan) (λ st, ReconcileNamespaceStore st plan).

Definition ReconcilePhases st (nb : NooBaa) : Step :=
  try_step (ReconcilePhaseVerifying st nb) (λ st,
  '(st, plan, err) ← ReconcilePhaseConnecting st;
  match err with
  | Some e => Ret (st, Some e)
  | None => ReconcilePhaseCreating st plan
  end).

(** ** Deletion *)

Definition hasOwnedExternalConnection ns (info : option SystemInfo) : bool :=
  match info with
  | None => false
  | Some info => existsb (λ c, eci_Name c == om_Name (ns_meta ns)) (si_Accounts info ≫= acc_ExternalConnections)
  end.

Definition deleteResource st (name : string) : Step :=
  let '(n, err) := nb_DeleteNamespaceResource (st_noobaa st) name in
  Ret (set_noobaa n st,
       match err with
       | Some (RPCError code m) =>
           Some (if code == "IN_USE" then
                   Errorf (Sprintf "DeleteNamespaceResourceAPI cannot complete because namespace store %q has buckets attached" [AStr name])
                 else RPCError code m)
       | _ => err
       end).

(** The part of [ReconcileDeletion] that asks the running system to let go. *)
Definition releaseResource st : Step :=
  '(st, plan, err) ← ReadSystemInfo st;
  if bool_decide (is_Some err) && negb (IsPersistentError err) then Ret (st, err)
  else
    try_step
      match pl_Resource plan with
      | None => Ret (st, None)
      | Some nsr =>
          info ← deref (pl_SystemInfo plan);
          try_step (nb_call st (moveAccounts (st_noobaa st) (nsr_Name nsr) (internalPool info) (si_Accounts info))) (λ st,
          deleteResource st (nsr_Name nsr))
      end (λ st,
    if pl_connected plan && (nss_Type (ns_Spec (st_store st)) != NSStoreTypeNSFS)
       && hasOwnedExternalConnection (st_store st) (pl_SystemInfo plan)
    then nb_call st (deleteConnection (st_noobaa st) (om_Name (ns_meta (st_store st))))
    else Ret (st, None)).

Definition FinalizeDeletion st : Step :=
  let '(ns, _) := RemoveFinalizer (st_store st) Finalizer in
  '(w, ns, updated) ← KubeUpdate (st_cluster st) ns;
  let st := set_store ns (set_cluster w st) in
  match updated with
  | true => Ret (st, None)
  | false => Ret (st, Some (Errorf (Sprintf "NamespaceStore %q failed to remove finalizer %q"
                                      [AStr (om_Name (ns_meta ns)); AStr Finalizer])))
  end.

Definition ReconcileDeletion st (systemFound : bool) : Step :=
  try_step
    (if nst_Phase (ns_Status (st_store st)) != NamespaceStorePhaseDeleting then
       UpdateStatus (set_phase NamespaceStorePhaseDeleting (Lit "NamespaceStorePhaseDeleting")
                       (Lit "noobaa operator started deletion") st)
     else Ret (st, None)) (λ st,
  try_step (if systemFound then releaseResource st else Ret (st, None)) FinalizeDeletion).

(** ** [Reconcile] *)

(** The steps after the store, its secret and the system have been loaded. *)
Definition reconcileLoaded st (nb : NooBaa) (systemFound : bool) : outcome (St * Result) :=
  let ns := st_store st in
  match om_DeletionTimestamp (ns_meta ns) with
  | Some _ => '(st, err) ← ReconcileDeletion st systemFound; completeReconcile st err
  | None =>
      if negb systemFound then completeReconcile st None
      else if bool_decide (om_Annotations (ns_meta ns) ≫= lookup PauseReconcile = Some "true"%string) then
        Ret (st, mkResult (Some 5%Z))
      else
        '(ns, changed) ← Ret (EnsureCommonMetaFields ns Finalizer);
        '(st, ok) ← (if changed : bool then
                       '(w, ns, updated) ← KubeUpdate (st_cluster st) ns;
                       Ret (set_store ns (set_cluster w st), updated)
                     else Ret (st, true));
        match ok with
        | false => completeReconcile st (Some (Errorf (Sprintf "❌ NamespaceStore %q failed to add mandatory meta fields"
                                                         [AStr (om_Name (ns_meta (st_store st)))])))
        | true => '(st, err) ← ReconcilePhases st nb; completeReconcile st err
        end
  end.

Definition Reconcile st (sys : NooBaa) : outcome (St * Result) :=
  '(w, nb, systemFound) ← CheckSystem (st_cluster st) sys;
  let st := set_cluster w st in
  '(ns, found) ← KubeCheck (st_cluster st) (st_store st);
  let st := set_store ns st in
  match found with
  | false => Ret (st, mkResult None)
  | true =>
      '(st, err) ← LoadNamespaceStoreSecret st;
      match err with
      | Some e => completeReconcile st (Some e)
      | None => reconcileLoaded st nb systemFound
      end
  end.

Set Default Proof Using "Type".

(** ** Status *)

Abbreviation phaseOf st := (nst_Phase (ns_Status (st_store st))).

Lemma ns_SetPhase_phase ns phase reason message :
  nst_Phase (ns_Status (SetPhase ns phase reason message)) =
  if phase == NamespaceStorePhaseNone then nst_Phase (ns_Status ns) else phase.
Proof. by destruct phase. Qed.

Lemma ns_SetPhase_frame ns phase reason message :
  ns_meta (SetPhase ns phase reason message) = ns_meta ns ∧
  ns_Spec (SetPhase ns phase reason message) = ns_Spec ns.
Proof. by destruct phase. Qed.

Lemma ns_UpdateStatus_Ret st :
  UpdateStatus st = Ret (set_cluster (statusUpdate (st_cluster st) (st_store st)).1 st,
                         (statusUpdate (st_cluster st) (st_store st)).2).
Proof. unfold UpdateStatus. by destruct (statusUpdate _ _). Qed.

(** The phase a reconcile that ended with [err] leaves behind.  A mode whose phase is
    already the current one counts as an unknown mode. *)
Definition ns_finalPhase ns (err : option error) : NamespaceStorePhase :=
  match err with
  | Some (PersistentError _ _) => NamespaceStorePhaseRejected
  | Some _ => nst_Phase (ns_Status ns)
  | None =>
      match nsrModeInfoMap !! nst_ModeCode (ns_Status ns) with
      | Some phase => if phase == nst_Phase (ns_Status ns) then NamespaceStorePhaseReady else phase
      | None => NamespaceStorePhaseReady
      end
  end.

Lemma nsrModeInfoMap_phase mode phase :
  nsrModeInfoMap !! mode = Some phase → phase = NamespaceStorePhaseReady ∨ phase = NamespaceStorePhaseRejected.
Proof.
  intros H. apply elem_of_list_to_map_2 in H.
  repeat (apply elem_of_cons in H as [[= -> ->]|H]; [auto|]). by apply not_elem_of_nil in H.
Qed.

(** The ending of a reconcile, with what it leaves alone. *)
Lemma ns_completeReconcile_classify st err :
  ∃ st' res, completeReconcile st err = Ret (st', res) ∧
    phaseOf st' = ns_finalPhase (st_store st) err ∧
    st_noobaa st' = st_noobaa st ∧ ns_meta (st_store st') = ns_meta (st_store st) ∧
    st_cluster st' = (statusUpdate (st_cluster st) (st_store st')).1 ∧
    RequeueAfter res =
      (if bool_decide ((err = None ∨ IsPersistentError err = true) ∧
                       (statusUpdate (st_cluster st) (st_store st')).2 = None) then None else Some 3%Z).
Proof.
  unfold completeReconcile.
  destruct (match err with Some (PersistentError _ _) => _ | Some _ => _ | None => _ end)
    as [st1 res] eqn:E.
  rewrite ns_UpdateStatus_Ret. cbn [mbind outcome_bind].
  assert (H : st_cluster st1 = st_cluster st ∧ st_noobaa st1 = st_noobaa st ∧
    ns_meta (st_store st1) = ns_meta (st_store st) ∧ phaseOf st1 = ns_finalPhase (st_store st) err ∧
    RequeueAfter res = (if bool_decide (err = None ∨ IsPersistentError err = true) then None else Some 3%Z)).
  { destruct err as [[]|].
    1,2,3,4,5,6,7,8: injection E as <- <-; split_and!; [done..|apply ns_SetPhase_phase|
      first [by rewrite bool_decide_true by (by right)|by rewrite bool_decide_false by (by intros [?|?])]].
    rewrite bool_decide_true by auto. injection E as <- <-.
    cbn [ns_finalPhase]. destruct (nsrModeInfoMap !! _) as [p|] eqn:Hm; [|by split_and!].
    apply nsrModeInfoMap_phase in Hm. case_bool_decide as Hp; cbn [negb]; split_and!; try done.
    - by destruct Hm as [-> | ->].
    - cbn [set_phase set_store st_store]. rewrite ns_SetPhase_phase. by destruct Hm as [-> | ->]. }
  destruct H as (Hc & Hn & Hm & Hp & Hr). eexists _, _. split; [reflexivity|].
  cbn [set_cluster st_store st_cluster st_noobaa]. rewrite Hc. split_and!; try done.
  destruct (statusUpdate _ _).2; cbn [RequeueAfter]; [by rewrite bool_decide_false by (by intros [_ ?])|].
  rewrite Hr. apply (f_equal (λ b : bool, if b then None else Some 3%Z)), bool_decide_ext.
  split; [by intros ?|by intros [? _]].
Qed.

(** ** The plan *)

(** The resource of a store on the server. *)
Definition has_resource (n : N) (name : string) : Prop :=
  ∃ info, nb_ReadSystem n = inr info ∧ name ∈ (nsr_Name <$> si_NamespaceResources info).

Lemma findResource_Some name l r : findResource name l = Some r → nsr_Name r = name ∧ r ∈ l.
Proof. intros [Hi H]%find_some. apply bool_decide_eq_true in H. by rewrite list_elem_of_In. Qed.

Lemma findResource_None name l : findResource name l = None → name ∉ (nsr_Name <$> l).
Proof.
  intros Hf (r & -> & Hin)%list_elem_of_fmap. apply list_elem_of_In in Hin.
  apply (find_none _ _ Hf) in Hin. by rewrite bool_decide_true in Hin.
Qed.

Definition sameConnection (conn : AddExternalConnectionParams) (c : ExternalConnectionInfo) : Prop :=
  eci_EndpointType c = aec_EndpointType conn ∧ eci_Identity c = aec_Identity conn ∧
  EndpointsEquivalent (eci_Endpoint c) (aec_Endpoint conn) = inr true.

(** The connection found is the one carried in, or one of the system's with the
    type, the identity and an equivalent endpoint. *)
Lemma ns_matchConnection_spec conn found cs c err :
  matchConnection conn found cs = (Some c, err) → found = Some c ∨ (c ∈ cs ∧ sameConnection conn c).
Proof.
  revert found. induction cs as [|d cs IH]; intros found; cbn [matchConnection]; [intros [= ->]; auto|].
  destruct (EndpointsEquivalent _ _) as [e|b] eqn:He; [intros [= -> _]; auto|].
  intros [Hf|[Hin Hs]]%IH; [|right; split; [by right|done]].
  destruct ((eci_EndpointType d == aec_EndpointType conn) && b && (eci_Identity d == aec_Identity conn)) eqn:Hb; [|by left].
  injection Hf as <-. right. split; [left|].
  rewrite !andb_true_iff, !bool_decide_eq_true in Hb. destruct Hb as [[? ->] ?]. done.
Qed.

(** The loop ends with an error exactly when the endpoint asked for, or that of a
    connection in the list, has no normal form. *)
Lemma ns_matchConnection_error conn found cs :
  (matchConnection conn found cs).2 = None ↔
  Forall (λ c, ∃ b, EndpointsEquivalent (eci_Endpoint c) (aec_Endpoint conn) = inr b) cs.
Proof.
  revert found. induction cs as [|d cs IH]; intros found; cbn [matchConnection]; [by split; [constructor|]|].
  rewrite Forall_cons. destruct (EndpointsEquivalent _ _) as [e|b] eqn:He; cbn [snd].
  - by split; [|intros [[b ?] _]].
  - rewrite IH. split; [eauto|by intros [_ ?]].
Qed.

(** [ReadSystemInfo] reads: only missing keys of the secret are filled in. *)
Lemma ns_ReadSystemInfo_frame st st' plan err :
  ReadSystemInfo st = Ret (st', plan, err) →
  st_cluster st' = st_cluster st ∧ st_noobaa st' = st_noobaa st ∧ st_store st' = st_store st.
Proof.
  unfold ReadSystemInfo, planConnection. intros H.
  destruct (nb_Connect _); [by simplify_eq|]. destruct (nb_ReadSystem _) as [|info]; [by simplify_eq|].
  destruct (om_DeletionTimestamp _); [by simplify_eq|]. case_match.
  { apply bind_Ret in H as (p & _ & H). by simplify_eq. }
  apply bind_Ret in H as ([s [e|conn]] & _ & H); [by simplify_eq|].
  destruct (matchConnection _ _ _) as [c [e|]]; [by simplify_eq|].
  apply bind_Ret in H as ([b [e|]] & _ & H); by simplify_eq.
Qed.

(** The server answered and the plan has what it knows of the store. *)
Definition knows_resource st (plan : Plan) : Prop :=
  ∃ info, nb_Connect (st_noobaa st) = None ∧ nb_ReadSystem (st_noobaa st) = inr info ∧
    pl_connected plan = true ∧ pl_SystemInfo plan = Some info ∧
    pl_Resource plan = findResource (om_Name (ns_meta (st_store st))) (si_NamespaceResources info).

(** What the server promises the namespace stores: transport errors are temporary,
    a deletion that succeeds removes the resource, one that is created is there, and
    the calls on connections do not touch resources. *)
Class NBNamespaceLaws : Prop := {
  ns_Connect_temporary n e : nb_Connect n = Some e → IsPersistentError (Some e) = false;
  ns_ReadSystem_temporary n e : nb_ReadSystem n = inl e → IsPersistentError (Some e) = false;
  DeleteNamespaceResource_ok n name n' : nb_DeleteNamespaceResource n name = (n', None) → ¬ has_resource n' name;
  CreateNamespaceResource_ok n p n' : nb_CreateNamespaceResource n p = (n', None) → has_resource n' (cnr_Name p);
  DeleteExternalConnection_resources n c name :
    has_resource (nb_DeleteExternalConnection n c).1 name ↔ has_resource n name;
  UpdateExternalConnection_resources n c name :
    has_resource (nb_UpdateExternalConnection n c).1 name ↔ has_resource n name;
  AddExternalConnection_resources n c name :
    has_resource (nb_AddExternalConnection n c).1 name ↔ has_resource n name;
}.

Lemma ns_ReadSystemInfo_knows {NL : NBNamespaceLaws} st st' plan err :
  ReadSystemInfo st = Ret (st', plan, err) → (err = None ∨ IsPersistentError err = true) → knows_resource st plan.
Proof.
  unfold ReadSystemInfo, planConnection, planNSFS, knows_resource. intros H Herr.
  destruct (nb_Connect _) eqn:Hc.
  { apply ns_Connect_temporary in Hc. simplify_eq. destruct Herr; congruence. }
  destruct (nb_ReadSystem _) as [e|info] eqn:Hr.
  { apply ns_ReadSystem_temporary in Hr. simplify_eq. destruct Herr; congruence. }
  exists info. split_and!; [done..| | |]; destruct (om_DeletionTimestamp _); try by simplify_eq.
  all: case_match; [apply bind_Ret in H as (p & (f & _ & [= <-])%bind_Ret & H); by simplify_eq|].
  all: apply bind_Ret in H as ([s [e|conn]] & _ & H); [by simplify_eq|].
  all: destruct (matchConnection _ _ _) as [c [e|]]; [by simplify_eq|].
  all: apply bind_Ret in H as ([b [e|]] & _ & H); by simplify_eq.
Qed.

Lemma ns_connection_name ns secret secret' conn :
  MakeExternalConnectionParams IsGraphic ns secret = Ret (secret', inr conn) → aec_Name conn = om_Name (ns_meta ns).
Proof.
  unfold MakeExternalConnectionParams. intros (s & _ & (r & Hr & H)%bind_Ret)%bind_Ret.
  destruct r as [e|c]; [done|]. apply bind_Ret in H as (b & _ & H).
  destruct (_ && _); [done|]. injection H as _ <-. revert Hr.
  unfold connectionByType, azureConnection, googleConnection.
  destruct (nss_Type (ns_Spec ns)); [|intros (x & _ & [= <-])%bind_Ret; done..| | | |]; try done.
  - intros (sts & _ & (a & _ & H')%bind_Ret)%bind_Ret. destruct sts; [|by injection H' as <-].
    apply bind_Ret in H' as (arn & _ & [= <-]). done.
  - case_match; [done|]. by intros [= <-].
  - destruct (GoogleCredentialsFromStoreSecret _); [done|]. destruct (ParseGoogleCredentials _) as [|[? ?]]; [done|].
    by intros [= <-].
Qed.

(** What a successful [ReadSystemInfo] leaves for the Creating phase of a store: the
    parameters of its resource, on the connection that is added or reused, or on a
    file system. *)
Definition ns_plan_wf st (plan : Plan) : Prop :=
  let name := om_Name (ns_meta (st_store st)) in
  ∃ params, pl_CreateNamespaceResource plan = Some params ∧ cnr_Name params = name ∧
    if nss_Type (ns_Spec (st_store st)) == NSStoreTypeNSFS then
      pl_AddExternalConnection plan = None ∧ is_Some (cnr_NSFSConfig params)
    else
      ∃ conn, pl_AddExternalConnection plan = Some conn ∧ cnr_Connection params = aec_Name conn ∧
        match pl_ExternalConnectionInfo plan with
        | Some c => aec_Name conn = eci_Name c ∧ sameConnection conn c
        | None => aec_Name conn = name
        end.

Lemma ns_ReadSystemInfo_wf st st' plan :
  om_DeletionTimestamp (ns_meta (st_store st)) = None →
  ReadSystemInfo st = Ret (st', plan, None) → ns_plan_wf st plan.
Proof.
  unfold ReadSystemInfo, ns_plan_wf. intros -> H.
  destruct (nb_Connect _); [done|]. destruct (nb_ReadSystem _) as [|info]; [done|].
  destruct (nss_Type (ns_Spec (st_store st)) == NSStoreTypeNSFS).
  - apply bind_Ret in H as (p & (f & _ & [= <-])%bind_Ret & [= _ <-]). cbn. eauto 10.
  - unfold planConnection in H. apply bind_Ret in H as ([s [e|conn]] & Hc & H); [done|].
    apply ns_connection_name in Hc.
    destruct (matchConnection _ _ _) as [c [e|]] eqn:Hm; [done|].
    apply bind_Ret in H as ([b [e|]] & _ & H); [done|]. injection H as _ <-. cbn.
    eexists. split; [reflexivity|]. split; [done|]. eexists. split; [reflexivity|]. split; [done|].
    destruct c as [c|]; [|done]. split; [done|].
    apply ns_matchConnection_spec in Hm as [?|[_ ?]]; done.
Qed.

(** ** The phases *)

Lemma ns_CheckExternalConnection_none st params :
  CheckExternalConnection st params = None ↔
  ∃ res, nb_CheckExternalConnection (st_noobaa st) params = inr res ∧
         cer_Status res = ExternalConnectionSuccess.
Proof.
  unfold CheckExternalConnection. destruct (nb_CheckExternalConnection _ _) as [e|res].
  - by split; [|intros (? & [=] & _)].
  - rewrite judgeConnection_none. split; [eauto|by intros (? & [= <-] & ?)].
Qed.

(** The server has confirmed the connection of the plan. *)
Definition ns_confirmed st (plan : Plan) : Prop :=
  ∃ conn ignore res, pl_AddExternalConnection plan = Some conn ∧
    nb_CheckExternalConnection (st_noobaa st) (checkParams conn ignore) = inr res ∧
    cer_Status res = ExternalConnectionSuccess.

(** The connection needs no confirmation: there is none, or a known one is reused as
    it is. *)
Definition ns_settled (plan : Plan) : Prop :=
  pl_AddExternalConnection plan = None ∨
  is_Some (pl_ExternalConnectionInfo plan) ∧ pl_UpdateExternalConnection plan = None.

Lemma ns_ReconcileExternalConnection_cases st plan st' err :
  ReconcileExternalConnection st plan = Ret (st', err) →
  st_cluster st' = st_cluster st ∧ st_store st' = st_store st ∧
  (ns_settled plan ∧ st_noobaa st' = st_noobaa st ∧ err = None ∨
   ¬ ns_settled plan ∧ (err = None → ns_confirmed st plan) ∧
     (st_noobaa st' = st_noobaa st ∨ ns_confirmed st plan)).
Proof.
  unfold ReconcileExternalConnection, ns_settled. intros H.
  destruct (pl_AddExternalConnection plan) as [conn|] eqn:Hc.
  2: { destruct (pl_ExternalConnectionInfo plan), (pl_UpdateExternalConnection plan); injection H as <- <-; auto 10. }
  assert (Hconf : ∀ b, CheckExternalConnection st (checkParams conn b) = None → ns_confirmed st plan).
  { intros b (res & ? & ?)%ns_CheckExternalConnection_none. by exists conn, b, res. }
  destruct (pl_ExternalConnectionInfo plan) as [c|], (pl_UpdateExternalConnection plan) as [u|].
  2: { injection H as <- <-. split_and!; try done. left. split_and!; try done. right. eauto. }
  all: destruct (CheckExternalConnection _ _) eqn:Hk; injection H as <- <-; split_and!; try done; right;
    (split; [by intros [?|[[? ?] ?]]|split; [try done; eauto|eauto]]).
Qed.

(** Validation does not look at the status, and leaves the metadata alone. *)
Lemma ns_Validate_meta ns ns' : ns_accepted ns ns' → ns_meta ns' = ns_meta ns ∧ ns_has_subspec ns'.
Proof.
  unfold ns_accepted, ns_has_subspec.
  destruct (nss_Type (ns_Spec ns)) eqn:Ht; intros H; try done.
  all: repeat match goal with
    | H : _ ∧ _ |- _ => destruct H
    | H : ∃ _, _ |- _ => destruct H
    end; subst; cbn [set_ns_S3Compatible set_ns_IBMCos ns_meta ns_Spec nss_Type nss_S3Compatible nss_IBMCos];
    rewrite ?Ht; split; eauto.
Qed.

(** Reading the system panics only on a store without the sub-spec of its type: the
    secret is only written to where it had a value. *)
Lemma fixKey_returns secret key alternatives : ∃ secret', fixKey secret key alternatives = Ret secret'.
Proof.
  unfold fixKey. case_bool_decide; [|eauto]. destruct (List.find _ _) as [k|] eqn:Hf; [|eauto].
  apply find_some in Hf as [_ Hk]. destruct (sec_StringData secret); [cbn; eauto|done].
Qed.

Lemma ns_MakeExternalConnectionParams_returns ns secret :
  ns_has_subspec ns → ∃ secret' r, MakeExternalConnectionParams IsGraphic ns secret = Ret (secret', r).
Proof.
  intros Hsub. unfold MakeExternalConnectionParams, fixAlternateKeysNames.
  destruct (fixKey_returns secret "AWS_ACCESS_KEY_ID" ["aws_access_key_id"; "AccessKey"]%string) as [s1 ->].
  cbn [mbind outcome_bind].
  destruct (fixKey_returns s1 "AWS_SECRET_ACCESS_KEY" ["aws_secret_access_key"; "SecretKey"]%string) as [s2 ->].
  cbn [mbind outcome_bind].
  assert (Hr : ∃ r, connectionByType ns s2 = Ret r).
  { unfold connectionByType, IsAWSSTSClusterNS, ns_has_subspec in *.
    destruct (nss_Type (ns_Spec ns)) eqn:Ht; try destruct Hsub as [x ->]; cbn; eauto.
    rewrite bool_decide_true by done. cbn. case_bool_decide as Ha; [|eauto]. destruct Ha as [arn ->]. cbn. eauto. }
  destruct Hr as [r ->]. cbn [mbind outcome_bind]. destruct r as [e|c]; [eauto|].
  assert (Hb : ∃ b, IsAWSSTSClusterNS ns = Ret b).
  { unfold IsAWSSTSClusterNS, ns_has_subspec in *. case_bool_decide as Ht; [|eauto]. rewrite Ht in Hsub.
    destruct Hsub as [x ->]. cbn. eauto. }
  destruct Hb as [b ->]. cbn [mbind outcome_bind]. destruct (_ && _); eauto.
Qed.

Lemma ns_ReadSystemInfo_returns st :
  ns_has_subspec (st_store st) → ∃ r, ReadSystemInfo st = Ret r.
Proof.
  intros Hsub. unfold ReadSystemInfo. destruct (nb_Connect _); [eauto|]. destruct (nb_ReadSystem _); [eauto|].
  destruct (om_DeletionTimestamp _); [eauto|]. case_bool_decide as Ht.
  - unfold planNSFS. unfold ns_has_subspec in Hsub. rewrite Ht in Hsub. destruct Hsub as [f ->]. cbn. eauto.
  - unfold planConnection. destruct (ns_MakeExternalConnectionParams_returns (st_store st) (st_secret st) Hsub)
      as (s' & [e|c] & ->); cbn [mbind outcome_bind]; [eauto|].
    destruct (matchConnection _ _ _) as [x [e|]]; [eauto|].
    assert (Hb : ∃ r, GetNamespaceStoreTargetBucket (st_store st) = Ret r).
    { unfold GetNamespaceStoreTargetBucket, ns_has_subspec in *.
      destruct (nss_Type _); try destruct Hsub as [y ->]; cbn; eauto. }
    destruct Hb as [[b [e|]] ->]; cbn [mbind outcome_bind]; eauto.
Qed.

Lemma ReconcilePhaseCreating_returns st plan : ∃ r, ReconcilePhaseCreating st plan = Ret r.
Proof.
  unfold ReconcilePhaseCreating, try_step, nb_call.
  set (st1 := set_phase _ _ _ st).
  assert (H : ∃ r, ReconcileExternalConnection st1 plan = Ret r).
  { unfold ReconcileExternalConnection. repeat case_match; eauto; unfold nb_call; eauto. }
  destruct H as [[st2 [e|]] ->]; cbn [mbind outcome_bind]; [eauto|].
  unfold ReconcileNamespaceStore. repeat case_match; eauto.
Qed.

(** Validation does not look at the status, and carries it along. *)
Definition with_status ns s : NamespaceStore := mkNamespaceStore (ns_meta ns) (ns_Spec ns) s.

Lemma ValidateNamespaceStore_status ns s :
  ValidateNamespaceStore (with_status ns s) =
  ('(n, err) ← ValidateNamespaceStore ns; Ret (with_status n s, err)).
Proof.
  unfold ValidateNamespaceStore. fold (ns_common (with_status ns s)) (ns_common ns).
  change (ns_common (with_status ns s)) with (ns_common ns).
  destruct (ns_common ns) as [[e|]|p]; cbn [mbind outcome_bind]; [done| |done].
  change (nss_Type (ns_Spec (with_status ns s))) with (nss_Type (ns_Spec ns)).
  destruct (nss_Type (ns_Spec ns)); try done.
  - unfold ValidateNsStoreS3Compatible. cbn [with_status ns_Spec ns_meta]. destruct (nss_S3Compatible _) as [s3|]; [|done].
    destruct (ValidateSignatureVersion _ _ _) as [[e|]|p]; [done| |done]. cbn. by destruct (ValidateEndPoint _).
  - unfold ValidateNsStoreIBMCos. cbn [with_status ns_Spec ns_meta]. destruct (nss_IBMCos _) as [s3|]; [|done].
    destruct (ValidateSignatureVersion _ _ _) as [[e|]|p]; [done| |done]. cbn. by destruct (ValidateEndPoint _).
  - change (ValidateNsStoreAzureBlob (with_status ns s)) with (ValidateNsStoreAzureBlob ns).
    by destruct (ValidateNsStoreAzureBlob ns).
  - change (ValidateNsStoreNSFS (with_status ns s)) with (ValidateNsStoreNSFS ns). by destruct (ValidateNsStoreNSFS ns).
Qed.

Lemma SetPhase_with_status ns phase reason message : ∃ s, SetPhase ns phase reason message = with_status ns s.
Proof. destruct phase; eexists; reflexivity. Qed.

(** The first phase, in terms of the validation of the store it started with. *)
Lemma ns_ReconcilePhaseVerifying_ok st nb st' :
  ReconcilePhaseVerifying st nb = Ret (st', None) →
  (∃ ns', ns_accepted (st_store st) ns' ∧ ns_Spec (st_store st') = ns_Spec ns') ∧
  ns_has_subspec (st_store st') ∧ ns_meta (st_store st') = ns_meta (st_store st) ∧
  om_UID (nb_meta nb) ≠ "" ∧ (om_Name (sec_meta (st_secret st)) = "" ∨ om_UID (sec_meta (st_secret st)) ≠ "") ∧
  st_cluster st' = st_cluster st ∧ st_noobaa st' = st_noobaa st ∧ st_secret st' = st_secret st.
Proof.
  unfold ReconcilePhaseVerifying. cbn [set_phase set_store st_store st_secret].
  destruct (SetPhase_with_status (st_store st) NamespaceStorePhaseVerifying (Lit "NamespaceStorePhaseVerifying")
    (startedPhase "1/3" "Verifying")) as [s ->].
  rewrite ValidateNamespaceStore_status. destruct (ValidateNamespaceStore (st_store st)) as [[ns' [e|]]|p] eqn:Hv;
    cbn [mbind outcome_bind]; try done.
  apply ValidateNamespaceStore_ok in Hv. destruct (ns_Validate_meta _ _ Hv) as [Hm Hsub].
  case_bool_decide as Hu; [done|]. destruct (negb _ && _) eqn:Hs; [done|]. intros [= <-].
  split; [by exists ns'|]. split; [done|]. split; [done|]. split; [done|]. split; [|done].
  apply andb_false_iff in Hs as [Hs%negb_false_iff%bool_decide_eq_true|Hs%bool_decide_eq_false]; auto.
Qed.

(** The first phase panics exactly when the validation does. *)
Lemma ns_ReconcilePhaseVerifying_panic st nb p :
  ReconcilePhaseVerifying st nb = Panic p ↔ ValidateNamespaceStore (st_store st) = Panic p.
Proof.
  unfold ReconcilePhaseVerifying. cbn [set_phase set_store st_store st_secret].
  destruct (SetPhase_with_status (st_store st) NamespaceStorePhaseVerifying (Lit "NamespaceStorePhaseVerifying")
    (startedPhase "1/3" "Verifying")) as [s ->].
  rewrite ValidateNamespaceStore_status.
  destruct (ValidateNamespaceStore (st_store st)) as [[ns' [e|]]|q]; cbn [mbind outcome_bind];
    split; intros H; repeat case_match; simplify_eq; done.
Qed.

(** The three phases of a namespace store add no panic of their own: they panic
    exactly on the stores on which its validation does, whatever the secret holds and
    the server answers. *)
Theorem ns_ReconcilePhases_panic st nb p :
  ReconcilePhases st nb = Panic p ↔ ValidateNamespaceStore (st_store st) = Panic p.
Proof.
  rewrite <-(ns_ReconcilePhaseVerifying_panic st nb p). unfold ReconcilePhases, try_step.
  destruct (ReconcilePhaseVerifying st nb) as [[st1 [e|]]|q] eqn:Hv; cbn [mbind outcome_bind]; try done.
  split; [|done]. apply ns_ReconcilePhaseVerifying_ok in Hv as (_ & Hsub & _). unfold ReconcilePhaseConnecting.
  destruct (ns_ReadSystemInfo_returns (set_phase NamespaceStorePhaseConnecting (Lit "NamespaceStorePhaseConnecting")
                    (startedPhase "2/3" "Connecting") st1)) as [[[st2 plan] [e|]] ->]; [done|done|].
  cbn [mbind outcome_bind]. by destruct (ReconcilePhaseCreating_returns st2 plan) as [r ->].
Qed.

(** What a plan promises does not depend on the phase. *)
Lemma ns_ReconcileNamespaceStore_ok {NL : NBNamespaceLaws} st plan st' name :
  ReconcileNamespaceStore st plan = Ret (st', None) →
  (is_Some (pl_Resource plan) → has_resource (st_noobaa st) name) →
  (∀ params, pl_CreateNamespaceResource plan = Some params → cnr_Name params = name) →
  is_Some (pl_CreateNamespaceResource plan) → has_resource (st_noobaa st') name.
Proof.
  unfold ReconcileNamespaceStore. intros H Hr Hp [params Hc]. rewrite Hc in H.
  destruct (pl_Resource plan); [injection H as <-; apply Hr; eauto|].
  destruct (nb_CreateNamespaceResource _ _) as [n [[]|]] eqn:Hn; try done.
  injection H as <-. rewrite <-(Hp params Hc). by eapply CreateNamespaceResource_ok.
Qed.

Lemma ns_ReconcileExternalConnection_resources {NL : NBNamespaceLaws} st plan st' err name :
  ReconcileExternalConnection st plan = Ret (st', err) →
  has_resource (st_noobaa st) name → has_resource (st_noobaa st') name.
Proof.
  unfold ReconcileExternalConnection, nb_call. intros H Hr.
  repeat case_match; injection H as <- _; try done; cbn [set_noobaa st_noobaa];
    by apply UpdateExternalConnection_resources || apply AddExternalConnection_resources.
Qed.

Lemma knows_resource_has st plan :
  knows_resource st plan →
  is_Some (pl_Resource plan) ↔ has_resource (st_noobaa st) (om_Name (ns_meta (st_store st))).
Proof.
  intros (info & _ & Hr & _ & _ & ->). unfold has_resource. rewrite Hr. split.
  - intros [r [Hn Hin]%findResource_Some]. exists info. split; [done|]. apply list_elem_of_fmap. eauto.
  - intros (i & [= <-] & Hin). destruct (findResource _ _) eqn:Hf; [eauto|]. by apply findResource_None in Hf.
Qed.

(** A namespace store that comes out of the three phases without an error has a
    valid spec, an existing system and a secret that was found; the server has a
    resource of its name; and the connection of that resource either needed no
    confirmation or has just been confirmed by the server. *)
Theorem ns_ReconcilePhases_success {NL : NBNamespaceLaws} st nb st' :
  om_DeletionTimestamp (ns_meta (st_store st)) = None →
  ReconcilePhases st nb = Ret (st', None) →
  (∃ ns', ns_accepted (st_store st) ns') ∧ om_UID (nb_meta nb) ≠ "" ∧
  (om_Name (sec_meta (st_secret st)) = "" ∨ om_UID (sec_meta (st_secret st)) ≠ "") ∧
  has_resource (st_noobaa st') (om_Name (ns_meta (st_store st))) ∧
  ∃ st2 plan, st_noobaa st2 = st_noobaa st ∧ ns_meta (st_store st2) = ns_meta (st_store st) ∧
    ns_plan_wf st2 plan ∧ (ns_settled plan ∨ ns_confirmed st2 plan).
Proof.
  intros Hd. unfold ReconcilePhases. intros (st1 & Hv & H)%try_step_ok.
  apply ns_ReconcilePhaseVerifying_ok in Hv as ((ns' & Ha & _) & _ & Hm & Hu & Hs & _ & Hn & _).
  split; [eauto|]. split; [done|]. split; [done|].
  apply bind_Ret in H as ([[st2 plan] [e|]] & Hr & H); [done|]. unfold ReconcilePhaseConnecting in Hr.
  destruct (ns_ReadSystemInfo_frame _ _ _ _ Hr) as (_ & Hn2 & Hs2).
  cbn [set_phase set_store st_store st_noobaa] in Hn2, Hs2.
  assert (Hm2 : ns_meta (st_store st2) = ns_meta (st_store st)) by (rewrite Hs2; exact Hm).
  pose proof (ns_ReadSystemInfo_knows _ _ _ _ Hr (or_introl eq_refl)) as Hk.
  apply ns_ReadSystemInfo_wf in Hr as Hw; [|by cbn; rewrite Hm].
  unfold ns_plan_wf in Hw. cbn [set_phase set_store st_store] in Hw. rewrite <-Hs2 in Hw.
  change (ns_plan_wf st2 plan) in Hw.
  apply knows_resource_has in Hk. cbn [set_phase set_store st_store st_noobaa ns_meta SetPhase] in Hk.
  rewrite <-Hn2 in Hk. rewrite Hm in Hk.
  unfold ReconcilePhaseCreating in H. apply try_step_ok in H as (st3 & Hc & Hcr).
  split.
  - destruct Hw as (params & Hp & Hname & _). rewrite Hm2 in Hname.
    eapply ns_ReconcileNamespaceStore_ok; [exact Hcr| | |eauto].
    + intros Hres. eapply ns_ReconcileExternalConnection_resources; [exact Hc|]. by apply Hk.
    + intros q Hq. rewrite Hp in Hq. by injection Hq as <-.
  - exists st2, plan. rewrite Hn2. split_and!; try done.
    apply ns_ReconcileExternalConnection_cases in Hc as (_ & _ & [[? _]|(_ & Hc & _)]); [by left|right].
    exact (Hc eq_refl).
Qed.

(** ** Deletion *)

(** Steps that only talk to the server. *)
Definition server_only st st' : Prop := st_cluster st' = st_cluster st ∧ st_store st' = st_store st.

Lemma releaseResource_frame st st' err : releaseResource st = Ret (st', err) → server_only st st'.
Proof.
  unfold releaseResource. intros ([[st1 plan] e1] & Hr & H)%bind_Ret.
  apply ns_ReadSystemInfo_frame in Hr as (Hw & _ & Hs).
  assert (H1 : server_only st st1) by done.
  destruct (_ && _); [by simplify_eq|].
  refine (try_step_inv (server_only st) _ _ _ _ _ _ H).
  - destruct (pl_Resource plan) as [nsr|]; [|intros; by simplify_eq].
    intros st2 e (info & _ & H2)%bind_Ret. refine (try_step_inv (server_only st) _ _ _ _ _ _ H2).
    + unfold nb_call. intros; by simplify_eq.
    + intros st3 st4 e4 H3. unfold deleteResource. destruct (nb_DeleteNamespaceResource _ _).
      intros; by simplify_eq.
  - intros st2 st3 e H2. unfold nb_call. destruct (_ && _); intros [= <- _]; exact H2.
Qed.

Lemma deleteResource_ok {NL : NBNamespaceLaws} st name st' :
  deleteResource st name = Ret (st', None) → ¬ has_resource (st_noobaa st') name.
Proof.
  unfold deleteResource. destruct (nb_DeleteNamespaceResource _ _) as [n [[]|]] eqn:Hd; intros; simplify_eq.
  by apply DeleteNamespaceResource_ok in Hd.
Qed.

Lemma deleteConnection_resources {NL : NBNamespaceLaws} (n : N) c name :
  has_resource (deleteConnection n c).1 name → has_resource n name.
Proof.
  unfold deleteConnection. pose proof (DeleteExternalConnection_resources n c name) as H.
  destruct (nb_DeleteExternalConnection n c) as [n' e]. apply H.
Qed.

(** A store released by the running system has no resource left. *)
Lemma releaseResource_ok {NL : NBNamespaceLaws} st st' :
  releaseResource st = Ret (st', None) → ¬ has_resource (st_noobaa st') (om_Name (ns_meta (st_store st))).
Proof.
  unfold releaseResource. intros ([[st1 plan] e1] & Hr & H)%bind_Ret.
  pose proof (ns_ReadSystemInfo_frame _ _ _ _ Hr) as (_ & Hn & _).
  destruct (_ && _) eqn:He; [by simplify_eq|].
  apply ns_ReadSystemInfo_knows in Hr.
  2: { destruct e1; [right|by left]. by destruct (IsPersistentError (Some e)). }
  apply try_step_ok in H as (st2 & H2 & H3).
  assert (Hno : ¬ has_resource (st_noobaa st2) (om_Name (ns_meta (st_store st)))).
  { destruct (pl_Resource plan) as [nsr|] eqn:Hp.
    - destruct Hr as (info & _ & _ & _ & _ & Hf). rewrite Hp in Hf. symmetry in Hf. apply findResource_Some in Hf as [<- _].
      apply bind_Ret in H2 as (i & _ & (st3 & _ & Hd)%try_step_ok). by apply deleteResource_ok in Hd.
    - injection H2 as <-. rewrite Hn. intros Hh%(knows_resource_has _ _ Hr). rewrite Hp in Hh. by destruct Hh. }
  clear He. destruct (_ && _); [|injection H3 as <-; exact Hno]. injection H3 as <- _. intros Hh. by apply Hno, (deleteConnection_resources _ _ _ Hh).
Qed.

Lemma ns_FinalizeDeletion_ok st st' :
  FinalizeDeletion st = Ret (st', None) →
  st_noobaa st' = st_noobaa st ∧
  ∃ ns, srv_Update (st_cluster st) ns = (st_cluster st', inr (st_store st')) ∧
    ObjectKey ns = ObjectKey (st_store st) ∧
    om_Finalizers (ns_meta ns) = filter (λ f, f ≠ Finalizer) (om_Finalizers (ns_meta (st_store st))).
Proof.
  unfold FinalizeDeletion.
  destruct (RemoveFinalizer (st_store st) Finalizer) as [ns b] eqn:Hr.
  pose proof (RemoveFinalizer_eq (st_store st) Finalizer) as [Hf _]. rewrite Hr in Hf.
  intros ([[w o] []] & Hu & H)%bind_Ret; [|done]. simplify_eq/=. split; [done|]. exists ns.
  unfold KubeUpdate, fill in Hu.
  destruct (srv_Update _ _) as [w' [e|o']]; [by repeat case_match; simplify_eq|].
  simplify_eq. split; [done|]. unfold RemoveFinalizer in Hr. by destruct (foldl _ _ _) as [[arr n] found]; simplify_eq/=.
Qed.

(** The finalizer of a namespace store comes off last.  When its deletion reports
    success while the system runs, the server has no resource of that name any more,
    and the last request was an accepted update of the store without the operator's
    finalizer. *)
Theorem ns_ReconcileDeletion_released {NL : NBNamespaceLaws} st st' :
  ReconcileDeletion st true = Ret (st', None) →
  ¬ has_resource (st_noobaa st') (om_Name (ns_meta (st_store st))) ∧
  ∃ w ns, srv_Update w ns = (st_cluster st', inr (st_store st')) ∧
    ObjectKey ns = ObjectKey (st_store st) ∧ Finalizer ∉ om_Finalizers (ns_meta ns).
Proof.
  unfold ReconcileDeletion. intros (st1 & H1 & (st2 & H2 & H3)%try_step_ok)%try_step_ok.
  assert (Hm1 : ns_meta (st_store st1) = ns_meta (st_store st)).
  { destruct (_ != _); [rewrite ns_UpdateStatus_Ret in H1; by injection H1 as <- _|by injection H1 as <-]. }
  pose proof (releaseResource_frame _ _ _ H2) as [_ Hs2]. apply releaseResource_ok in H2.
  apply ns_FinalizeDeletion_ok in H3 as (Hn3 & ns & Hu & Hk & Hf).
  rewrite Hn3, <-Hm1. split; [done|]. exists (st_cluster st2), ns. split; [done|]. split.
  - rewrite Hk, Hs2. unfold ObjectKey. simpl. by rewrite Hm1.
  - rewrite Hf. intros [? _]%list_elem_of_filter. done.
Qed.

(** ** Endings of a reconcile *)

(** A namespace store whose secret is named but does not exist gets nowhere, not
    even to its deletion: every reconcile ends with a temporary error before the
    server is asked anything, the phase and the metadata (finalizer included) stay,
    and the request comes back after three seconds. *)
Theorem ns_Reconcile_missing_secret st sys w nb systemFound ns ref e :
  CheckSystem (st_cluster st) sys = Ret (w, nb, systemFound) →
  KubeCheck w (st_store st) = Ret (ns, true) →
  IsAWSSTSClusterNS ns = Ret false → IsAzureSTSClusterNS ns = false →
  GetNamespaceStoreSecret ns = Ret (inr (Some ref)) → sr_Name ref ≠ "" →
  srv_Get (O:=Secret) w (sr_Namespace ref, sr_Name ref) = inl e → IsNotFound e = true →
  ∃ st' res, Reconcile st sys = Ret (st', res) ∧ RequeueAfter res = Some 3%Z ∧
    phaseOf st' = nst_Phase (ns_Status ns) ∧ ns_meta (st_store st') = ns_meta ns ∧
    st_noobaa st' = st_noobaa st ∧ st_cluster st' = (statusUpdate w (st_store st')).1.
Proof.
  intros Hc Hk Ha Hz Hr Hn Hg He. unfold Reconcile. rewrite Hc. cbn [mbind outcome_bind].
  cbn [set_cluster st_cluster st_store]. rewrite Hk. cbn [mbind outcome_bind].
  set (st1 := set_store ns _).
  assert (Hl : ∃ m, LoadNamespaceStoreSecret st1 = Ret (st1, Some (Errorf m))).
  { unfold LoadNamespaceStoreSecret. cbn [st1 set_store st_store]. rewrite Ha. cbn [mbind outcome_bind].
    rewrite Hz, Hr. cbn [orb andb mbind outcome_bind]. unfold loadReferencedSecret, GetSecretFromSecretReference.
    rewrite bool_decide_false by done. cbn [st1 set_store set_cluster st_cluster].
    rewrite (KubeCheck_missing w _ e); [cbn; eauto|done|done]. }
  destruct Hl as [m ->]. cbn [mbind outcome_bind].
  destruct (ns_completeReconcile_classify st1 (Some (Errorf m))) as (st' & res & -> & Hp & Hno & Hm & Hw & Hq).
  exists st', res. split; [done|]. rewrite Hq, bool_decide_false by (by intros [[?|?] _]). done.
Qed.

(** Every ending of a reconcile of a namespace store is classified.  The
    phase a mode stands for is only taken when it differs from the current one; a
    store that already has it is declared Ready, whatever the mode. *)
Theorem ns_completeReconcile_outcome st err :
  ∃ st' res, completeReconcile st err = Ret (st', res) ∧
    phaseOf st' = ns_finalPhase (st_store st) err ∧
    st_noobaa st' = st_noobaa st ∧
    (RequeueAfter res = None ↔
       (err = None ∨ IsPersistentError err = true) ∧ (statusUpdate (st_cluster st) (st_store st')).2 = None).
Proof.
  destruct (ns_completeReconcile_classify st err) as (st' & res & Hc & Hp & Hn & _ & _ & Hr).
  exists st', res. split_and!; try done. rewrite Hr. by case_bool_decide.
Qed.

(** A store in a failed mode that has been rejected for it is declared Ready as
    soon as the system resource goes away. *)
Theorem ns_lost_system_ready st nb :
  om_DeletionTimestamp (ns_meta (st_store st)) = None →
  nsrModeInfoMap !! nst_ModeCode (ns_Status (st_store st)) = Some NamespaceStorePhaseRejected →
  phaseOf st = NamespaceStorePhaseRejected →
  ∃ st' res, reconcileLoaded st nb false = Ret (st', res) ∧ phaseOf st' = NamespaceStorePhaseReady.
Proof.
  intros Hd Hm Hp. unfold reconcileLoaded. rewrite Hd. cbn [negb].
  destruct (ns_completeReconcile_classify st None) as (st' & res & Hc & Hf & _).
  exists st', res. split; [done|]. rewrite Hf. unfold ns_finalPhase. rewrite Hm, Hp. by rewrite bool_decide_true.
Qed.

End Reconciler.
