(* ===== verification/Quota.v ===== *)
(** * Sizes and quotas of buckets: [pkg/nb/types.go], [pkg/nb/quota.go] and
    [GetQuotaConfig] of [pkg/obc/provisioner.go].

    Sizes are 64-bit integers that become binary64 numbers with a unit.  The
    arithmetic is that of IEEE 754 as [SpecFloat] defines it; 64-bit integer
    arithmetic wraps around. *)

From Stdlib Require Import SpecFloat.
From stdpp Require Import pretty.
From S2P Require Import Prelude GoStrings Types NbTypes Util.

(** ** Machine arithmetic *)

(** Two's complement wrap-around at 64 bits. *)
Definition int64 (z : Z) : Z := ((z + 2 ^ 63) mod 2 ^ 64 - 2 ^ 63)%Z.
Definition MaxInt64 : Z := (2 ^ 63 - 1)%Z.
Definition in_int64 (z : Z) : Prop := (- 2 ^ 63 ≤ z ≤ MaxInt64)%Z.

Abbreviation float64 := spec_float.
Definition fmul : float64 → float64 → float64 := SFmul 53 1024.
Definition fdiv : float64 → float64 → float64 := SFdiv 53 1024.
(** [float64(z)]: the nearest binary64 number. *)
Definition float_of_Z (z : Z) : float64 := binary_normalize 53 1024 z 0 false.
(** Comparisons are false on NaN. *)
Definition fgt (x y : float64) : bool := match SFcompare x y with Some Gt => true | _ => false end.
Definition fge (x y : float64) : bool := match SFcompare x y with Some Gt | Some Eq => true | _ => false end.
Definition fle (x y : float64) : bool := fge y x.

(** The integer below, towards zero, and the nearest one (half away from zero) of a
    finite number. *)
Definition scaled (f : float64) (round : Z → Z → Z) : Z :=
  match f with
  | S754_finite s m e =>
      let v := if s then Z.neg m else Z.pos m in
      if (0 <=? e)%Z then (v * 2 ^ e)%Z else round v (2 ^ (- e))%Z
  | _ => 0
  end.
Definition floorZ (f : float64) : Z := scaled f Z.div.
Definition roundZ (f : float64) : Z :=
  scaled f (λ v d, (Z.sgn v * ((2 * Z.abs v + d) / (2 * d)))%Z).
(** The nearest integer, half to even. *)
Definition nearestZ (f : float64) : Z :=
  scaled f (λ v d, let q := (v / d)%Z in
    match (2 * (v mod d) ?= d)%Z with Lt => q | Gt => (q + 1)%Z | Eq => if Z.even q then q else (q + 1)%Z end).
Definition Floor (f : float64) : float64 := float_of_Z (floorZ f).

(** ** Large integers *)

Definition petaInBytes : Z := (1024 * 1024 * 1024 * 1024 * 1024)%Z.

Definition ToBig (n : option BigInt) : Z :=
  match n with None => 0 | Some n => (bi_N n + bi_Peta n * petaInBytes)%Z end.

Definition ToString (n : BigInt) : string := pretty (int64 (bi_N n + int64 (bi_Peta n * petaInBytes))).

Definition BigIntToNonNegativeString (n : option BigInt) : string :=
  match n with
  | None => "0"
  | Some b => if (ToBig n <? 0)%Z then "0" else ToString b
  end.

(** ** Human readable sizes *)

Definition units : list string := [""; "K"; "M"; "G"; "T"; "P"; "E"; "Z"; "Y"].

(** The loop [for f >= 1024 || f <= -1024]. *)
Fixpoint reduceUnits (fuel : nat) (f : float64) (u : nat) : option (float64 * nat) :=
  if fge f (float_of_Z 1024) || fle f (float_of_Z (-1024)) then
    match fuel with
    | O => None
    | S fuel => reduceUnits fuel (fdiv f (float_of_Z 1024)) (S u)
    end
  else Some (f, u).

(** Fuel for the loop: one round per unit of the table is enough. *)
Definition unitFuel : nat := length units.

(** The index [units[u]] is checked. *)
Definition GetBytesAndUnits (bi : Z) (prec : Z) : option (float64 * string) :=
  if (bi =? 0)%Z then Some (S754_zero false, ""%string)
  else
    match reduceUnits unitFuel (float_of_Z bi) 0 with
    | None => None
    | Some (f, u) =>
        let f := if (0 <=? prec)%Z then
                   let numDigitsPow := float_of_Z (10 ^ prec) in
                   fdiv (Floor (fmul f numDigitsPow)) numDigitsPow
                 else f in
        match units !! u with None => None | Some unit => Some (f, unit) end
    end.

(** [strconv.FormatFloat(f, 'f', 3, 64)] of a number that is not negative: the exact
    value, rounded to three decimals, half to even. *)
Definition threeDecimals (f : float64) : string :=
  let n := match f with
           | S754_finite s m e =>
               let v := (Z.pos m * 1000)%Z in
               if (0 <=? e)%Z then (v * 2 ^ e)%Z
               else let d := (2 ^ (- e))%Z in let q := (v / d)%Z in
                 match (2 * (v mod d) ?= d)%Z with Lt => q | Gt => (q + 1)%Z | Eq => if Z.even q then q else (q + 1)%Z end
           | _ => 0%Z
           end in
  let frac := (n mod 1000)%Z in
  let pad := if (frac <? 10)%Z then "00" else if (frac <? 100)%Z then "0" else "" in
  pretty (n / 1000)%Z +:+ "." +:+ pad +:+ pretty frac.

Definition IntToHumanBytes (bi : Z) : option string :=
  match GetBytesAndUnits bi (-1) with
  | None => None
  | Some (f, u) =>
      let negative := fgt (S754_zero false) f in
      let s := if negative then "-" else "" in
      Some (s +:+ threeDecimals (if negative then SFopp f else f) +:+ " " +:+ u +:+ "B")
  end.

Definition BigIntToHumanBytes (n : BigInt) : option string :=
  IntToHumanBytes (int64 (bi_N n + int64 (bi_Peta n * petaInBytes))).

Definition BigIntToNonNegativeHumanBytes (n : option BigInt) : option string :=
  match n with
  | None => IntToHumanBytes 0
  | Some b => if (ToBig n <? 0)%Z then IntToHumanBytes 0 else BigIntToHumanBytes b
  end.

(** ** Quotas *)

Record SizeQuotaConfig := mkSizeQuotaConfig { sq_Value : float64; sq_Unit : string }.
Record QuantityQuotaConfig := mkQuantityQuotaConfig { qq_Value : Z }.
Record QuotaConfig := mkQuotaConfig { qc_Size : option SizeQuotaConfig; qc_Quantity : option QuantityQuotaConfig }.

#[export] Instance spec_float_eq_dec : EqDecision spec_float.
Proof. solve_decision. Defined.
#[export] Instance SizeQuotaConfig_eq_dec : EqDecision SizeQuotaConfig.
Proof. solve_decision. Defined.
#[export] Instance QuantityQuotaConfig_eq_dec : EqDecision QuantityQuotaConfig.
Proof. solve_decision. Defined.
#[export] Instance QuotaConfig_eq_dec : EqDecision QuotaConfig.
Proof. solve_decision. Defined.

(** [reflect.DeepEqual] compares numbers with [==], which NaN fails and the zeros pass. *)
Definition float_equal (x y : float64) : bool := match SFcompare x y with Some Eq => true | _ => false end.

Definition option_equal {A} (eq : A → A → bool) (x y : option A) : bool :=
  match x, y with Some x, Some y => eq x y | None, None => true | _, _ => false end.

Definition DeepEqualQuota (q q2 : QuotaConfig) : bool :=
  option_equal (λ s s2, float_equal (sq_Value s) (sq_Value s2) && (sq_Unit s == sq_Unit s2)) (qc_Size q) (qc_Size q2)
  && option_equal (λ n n2, qq_Value n =? qq_Value n2)%Z (qc_Quantity q) (qc_Quantity q2).

Definition emptyQuota (q : QuotaConfig) : bool := isNil (qc_Size q) && isNil (qc_Quantity q).

Definition IsEqual (q q2 : option QuotaConfig) : bool :=
  match q, q2 with
  | None, None => true
  | None, Some q2 => emptyQuota q2
  | Some q, None => emptyQuota q
  | Some q, Some q2 => DeepEqualQuota q q2
  end.

(** The exponent of 1024 a unit stands for. *)
Definition unitPow (unit : string) : option Z :=
  match list_find (eq unit) units with Some (i, _) => Some (Z.of_nat i) | None => None end.

(** The capacity of a bucket. *)
Record DataCapacity := mkDataCapacity { dc_Size : option BigInt; dc_Free : option BigInt }.

Record BucketInfo := mkBucketInfo {
  bkt_Name : string;
  bkt_BucketType : string;
  bkt_DataCapacity : option DataCapacity;
  bkt_NumObjects : option Z;
  bkt_Quota : option QuotaConfig;
  bkt_Namespace : option NamespaceBucketInfo;
  bkt_ArchivePolicy : option ArchivePolicyConfig;
}.

Record CreateBucketParams := mkCreateBucketParams {
  cbp_Name : string;
  cbp_Tiering : string;
  cbp_BucketClaim : option BucketClaimInfo;
  cbp_Namespace : option NamespaceBucketInfo;
  cbp_Quota : option QuotaConfig;
  cbp_ArchivePolicy : option ArchivePolicyConfig;
}.

Section Usage.
(** Go leaves the conversion of a number beyond the 64-bit integers to the
    implementation. *)
Context (outOfRange : float64 → Z).

Definition int64_of_float (f : float64) : Z :=
  let z := roundZ f in
  if ((- 2 ^ 63 <=? z) && (z <=? MaxInt64))%Z then z else outOfRange f.

Definition QuotaSizeToBytes (q : option SizeQuotaConfig) : Z * bool :=
  match q with
  | None => (0%Z, false)
  | Some q =>
      if fle (sq_Value q) (S754_zero false) then (0%Z, false)
      else
        match unitPow (sq_Unit q) with
        | None => (0%Z, false)
        | Some pow =>
            let f := fmul (sq_Value q) (float_of_Z (1024 ^ pow)) in
            match f with
            | S754_nan | S754_infinity _ => (0%Z, false)
            | _ => if fgt f (float_of_Z MaxInt64) then (0%Z, false) else (int64_of_float f, true)
            end
        end
  end.

Definition ValidateQuotaAgainstBucketUsage (bucket : option BucketInfo) (quota : option QuotaConfig) : verdict :=
  match bucket, quota with
  | Some bucket, Some quota =>
      let sizeBytes := let '(b, ok) := QuotaSizeToBytes (qc_Size quota) in if ok : bool then b else 0%Z in
      let objects := match qc_Quantity quota with Some n => if (0 <? qq_Value n)%Z then qq_Value n else 0%Z | None => 0%Z end in
      if ((sizeBytes =? 0) && (objects =? 0))%Z then ok
      else if bkt_BucketType bucket == "NAMESPACE" then ok
      else
        let currentNumObjects := default 0%Z (bkt_NumObjects bucket) in
        reject! ((0 <? objects) && (objects <? currentNumObjects))%Z
          with ValidationError (Sprintf "bucket %q validation error: maxObjects quota %d is below current usage of %d objects"
                 [AStr (bkt_Name bucket); AInt objects; AInt currentNumObjects]) ;;
        if (0 <? sizeBytes)%Z then
          let currentUsageBytes := match bkt_DataCapacity bucket with Some c => ToBig (dc_Size c) | None => 0%Z end in
          if (sizeBytes <? currentUsageBytes)%Z then
            capacity ← deref (bkt_DataCapacity bucket);
            size ← deref (dc_Size capacity);
            fail (ValidationError (Sprintf "bucket %q validation error: maxSize quota %s is below current usage of %s"
                    [AStr (bkt_Name bucket); AStr (default "" (IntToHumanBytes sizeBytes)); AStr (default "" (BigIntToHumanBytes size))]))
          else ok
        else ok
  | _, _ => ok
  end.

(** The warning for a size quota beyond what the bucket can hold anyway; [client]
    reads the bucket when it is not given. *)
Definition WarnIfQuotaCappedByFree (bucketName : string) (bucket : option BucketInfo)
    (client : option (string → error + BucketInfo)) (quota : option QuotaConfig) : option msg :=
  match quota ≫= qc_Size with
  | None => None
  | Some size =>
      let '(requestedQuotaBytes, ok) := QuotaSizeToBytes (Some size) in
      if negb ok then None
      else
        let bucket := match bucket, client with
                      | Some b, _ => Some b
                      | None, Some read => match read bucketName with inr b => Some b | inl _ => None end
                      | None, None => None
                      end in
        match bucket with
        | None => None
        | Some b =>
            match bkt_DataCapacity b with
            | Some (mkDataCapacity (Some used) (Some free)) =>
                if bkt_BucketType b == "NAMESPACE" then None
                else if (ToBig (Some free) <? requestedQuotaBytes - ToBig (Some used))%Z then
                  Some (Sprintf "bucket %q size quota (%s) exceeds current effective free capacity (%s); Data Space Avail will remain capped (min(free, quota-used))"
                          [AStr bucketName; AStr (default "" (IntToHumanBytes requestedQuotaBytes)); AStr (default "" (BigIntToHumanBytes free))])
                else None
            | _ => None
            end
        end
  end.
End Usage.

(** ** The quota of a bucket claim *)

Section Config.
Context {QA : QuantityApi}.

Definition quotaParseError (format bucketName text : string) (err : msg) : error :=
  Errorf (Sprintf ("bucket %q GetQuotaConfig: parse " +:+ format +:+ " %q: %w") [AStr bucketName; AStr text; AMsg err]).

(** A limit of the claim replaces the one of the class when there is none or when it
    is smaller. *)
Definition combineLimit (limit claim : Z) : Z := if ((limit =? 0) || (claim <? limit))%Z then claim else limit.

(** Parse a size, and a number of objects: an empty text leaves the limit alone. *)
Definition parseSize (format bucketName text : string) (limit : Z) (combine : Z → Z → Z) : error + Z :=
  if text == "" then inr limit
  else match ParseQuantity text with
       | inl err => inl (quotaParseError format bucketName text err)
       | inr q => inr (combine limit (Quantity_Value q))
       end.
Definition parseObjects (format bucketName text : string) (limit : Z) (combine : Z → Z → Z) : error + Z :=
  if text == "" then inr limit
  else match ParseInt text 32 with
       | inl err => inl (quotaParseError format bucketName text (num_error_msg err))
       | inr n => inr (combine limit n)
       end.

Definition and_then {A B} (r : error + A) (k : A → error + B) : error + B :=
  match r with inl e => inl e | inr a => k a end.

(** The size of the quota is that of [GetBytesAndUnits] with two decimals. *)
Definition sizeConfig (bytes : Z) : option SizeQuotaConfig :=
  if (0 <? bytes)%Z then
    match GetBytesAndUnits bytes 2 with Some (f, u) => Some (mkSizeQuotaConfig f u) | None => None end
  else None.

Definition GetQuotaConfig (bucketName : string) (spec : BucketClassSpec) (obAdditionalConfig : option (gmap string string)) :
    error + QuotaConfig :=
  let obMaxSize := map_get obAdditionalConfig "maxSize" in
  let obMaxObjects := map_get obAdditionalConfig "maxObjects" in
  let bcMaxSize := match bcs_Quota spec with Some q => quota_MaxSize q | None => ""%string end in
  let bcMaxObjects := match bcs_Quota spec with Some q => quota_MaxObjects q | None => ""%string end in
  if (bcMaxSize == "") && (bcMaxObjects == "") && (obMaxSize == "") && (obMaxObjects == "") then
    inr (mkQuotaConfig None None)
  else
    and_then (parseSize "bucketClass maxSize" bucketName bcMaxSize 0 (λ _ n, n)) (λ minMaxSize,
    and_then (parseObjects "bucketClass maxObjects" bucketName bcMaxObjects 0 (λ _ n, n)) (λ minMaxObjects,
    and_then (parseSize "OBC maxSize" bucketName obMaxSize minMaxSize combineLimit) (λ minMaxSize,
    and_then (parseObjects "OBC maxObjects" bucketName obMaxObjects minMaxObjects combineLimit) (λ minMaxObjects,
    inr (mkQuotaConfig (sizeConfig minMaxSize)
           (if (0 <? minMaxObjects)%Z then Some (mkQuantityQuotaConfig minMaxObjects) else None)))))).
End Config.

(** ** Facts on binary64 *)

Lemma Zdigits2_log2 m : (0 < m)%Z → Zdigits2 m = (Z.log2 m + 1)%Z.
Proof.
  destruct m as [|p|]; try done. intros _. simpl.
  assert (H : digits2_pos p = Pos.size p) by (induction p; simpl; congruence).
  rewrite H. destruct p; simpl; lia.
Qed.

Lemma Zdigits2_unique m n : (2 ^ n ≤ m < 2 ^ (n + 1))%Z → (0 ≤ n)%Z → Zdigits2 m = (n + 1)%Z.
Proof.
  intros Hm Hn. pose proof (Z.pow_pos_nonneg 2 n eq_refl Hn). rewrite Zdigits2_log2 by lia. f_equal. by apply Z.log2_unique.
Qed.

(** Shifting right drops bits of the mantissa. *)
Lemma shr_1_m mrs : (0 ≤ shr_m mrs)%Z → shr_m (shr_1 mrs) = (shr_m mrs / 2)%Z.
Proof.
  destruct mrs as [m r s]. simpl. intros Hm. destruct m as [|[p|p|]|p]; simpl; try done; try lia.
  all: rewrite <-?Z.div2_div; done.
Qed.

Lemma iter_shr_m p mrs : (0 ≤ shr_m mrs)%Z → shr_m (SpecFloat.iter_pos shr_1 p mrs) = (shr_m mrs / 2 ^ Z.pos p)%Z.
Proof.
  revert mrs. induction p as [p IH|p IH|]; intros mrs Hm; cbn [SpecFloat.iter_pos].
  - assert (H1 : (0 ≤ shr_m (shr_1 mrs))%Z) by (rewrite shr_1_m by done; apply Z.div_pos; lia).
    rewrite IH, IH by (rewrite ?IH by done; first [done|apply Z.div_pos; lia]).
    rewrite shr_1_m, !Z.div_div by lia. f_equal.
    replace (Z.pos p~1) with (1 + Z.pos p + Z.pos p)%Z by lia. rewrite !Z.pow_add_r by lia. lia.
  - rewrite IH, IH by (rewrite ?IH by done; first [done|apply Z.div_pos; lia]).
    rewrite !Z.div_div by lia. f_equal.
    replace (Z.pos p~0) with (Z.pos p + Z.pos p)%Z by lia. by rewrite Z.pow_add_r by lia.
  - by apply shr_1_m.
Qed.

(** A number with a full mantissa of 53 bits whose exponent is far from the ends. *)
Definition normal_at (f : float64) (e : Z) : Prop :=
  ∃ s m, f = S754_finite s m e ∧ (2 ^ 52 ≤ Z.pos m < 2 ^ 53)%Z.

Lemma fexp_range k : (-1000 ≤ k ≤ 1000)%Z → fexp 53 1024 k = (k - 53)%Z.
Proof. intros Hk. unfold fexp, emin. lia. Qed.

(** Dividing by 1024 moves the exponent and keeps the mantissa. *)
Lemma fdiv_1024 s m e :
  (2 ^ 52 ≤ Z.pos m < 2 ^ 53)%Z → (-900 ≤ e ≤ 900)%Z →
  fdiv (S754_finite s m e) (float_of_Z 1024) = S754_finite s m (e - 10).
Proof.
  intros Hm He.
  change (float_of_Z 1024) with (S754_finite false 4503599627370496 (-42)). unfold fdiv, SFdiv, SFdiv_core_binary.
  rewrite (Zdigits2_unique (Z.pos m) 52) by lia.
  change (Zdigits2 4503599627370496) with 53%Z.
  rewrite fexp_range by lia. rewrite Z.min_l by lia.
  replace (e - -42 - (52 + 1 + e - (53 + -42) - 53))%Z with 53%Z by lia.
  cbn [Z.shiftl]. change (IntDef.Z.shiftl (Z.pos m) 53) with (Z.shiftl (Z.pos m) 53).
  change (IntDef.Z.div_eucl ?a ?b) with (Z.div_eucl a b).
  rewrite Z.shiftl_mul_pow2 by lia.
  assert (Hd : Z.div_eucl (Z.pos m * 2 ^ 53) 4503599627370496 = ((Z.pos m~0)%Z, 0%Z)).
  { rewrite (surjective_pairing (Z.div_eucl _ _)). f_equal.
    - change (_.1) with ((Z.pos m * 2 ^ 53) / 4503599627370496)%Z.
      replace (Z.pos m * 2 ^ 53)%Z with (Z.pos m~0 * 4503599627370496)%Z by lia. by apply Z.div_mul.
    - change (_.2) with ((Z.pos m * 2 ^ 53) mod 4503599627370496)%Z.
      replace (Z.pos m * 2 ^ 53)%Z with (Z.pos m~0 * 4503599627370496)%Z by lia. by apply Z.mod_mul. }
  rewrite Hd. change (new_location 4503599627370496 0) with loc_Exact. rewrite xorb_false_r.
  unfold binary_round_aux, shr_fexp. cbn [shr_record_of_loc].
  rewrite (Zdigits2_unique (Z.pos m~0) 53) by lia. rewrite fexp_range by lia.
  replace (53 + 1 + (52 + 1 + e - (53 + -42) - 53) - 53 - (52 + 1 + e - (53 + -42) - 53))%Z with 1%Z by lia.
  cbn [shr SpecFloat.iter_pos shr_1 shr_m loc_of_shr_record round_nearest_even orb shr_record_of_loc].
  rewrite (Zdigits2_unique (Z.pos m) 52) by lia. rewrite fexp_range by lia.
  replace (52 + 1 + (52 + 1 + e - (53 + -42) - 53 + 1) - 53 - (52 + 1 + e - (53 + -42) - 53 + 1))%Z with 0%Z by lia.
  cbn [shr shr_m].
  replace (52 + 1 + e - (53 + -42) - 53 + 1)%Z with (e - 10)%Z by lia.
  by destruct (Z.leb_spec (e - 10) (1024 - 53)); [|lia].
Qed.

(** The second half of rounding: a carry out of the mantissa moves the exponent. *)
Lemma round_tail s M e :
  (2 ^ 52 ≤ M ≤ 2 ^ 53)%Z → (-900 ≤ e ≤ 900)%Z →
  ∃ e1, normal_at
    (let '(mrs, e') := shr_fexp 53 1024 M e loc_Exact in
     match shr_m mrs with
     | 0%Z => S754_zero s
     | Z.pos m => if (e' <=? 1024 - 53)%Z then S754_finite s m e' else S754_infinity s
     | Z.neg _ => S754_nan
     end) e1 ∧ (e ≤ e1 ≤ e + 1)%Z.
Proof.
  intros HM He. unfold shr_fexp. cbn [shr_record_of_loc].
  destruct (Z.eq_dec M (2 ^ 53)) as [->|Hne].
  - exists (e + 1)%Z. split; [|lia]. change (Zdigits2 (2 ^ 53)) with 54%Z. rewrite fexp_range by lia.
    replace (54 + e - 53 - e)%Z with 1%Z by lia. cbn [shr].
    change (SpecFloat.iter_pos shr_1 1 (Build_shr_record (2 ^ 53) false false))
      with (Build_shr_record (Z.pos (2 ^ 52)) false false). cbn [shr_m].
    destruct (Z.leb_spec (e + 1) (1024 - 53)); [|lia]. by exists s, (2 ^ 52)%positive.
  - exists e. split; [|lia]. rewrite (Zdigits2_unique M 52) by lia. rewrite fexp_range by lia.
    replace (52 + 1 + e - 53 - e)%Z with 0%Z by lia. cbn [shr shr_m].
    destruct M as [|m|]; try lia. destruct (Z.leb_spec e (1024 - 53)); [|lia]. exists s, m. split; [done|lia].
Qed.

Lemma iter_xO m k : Z.pos (Pos.iter xO m k) = (Z.pos m * 2 ^ Z.pos k)%Z.
Proof.
  induction k as [|k IH] using Pos.peano_ind; [simpl; lia|].
  rewrite Pos.iter_succ, Pos2Z.inj_xO, IH, Pos2Z.inj_succ, Z.pow_succ_r by lia. lia.
Qed.

(** A mantissa that is too long is shifted right, and rounded. *)
Lemma round_long s (p k : positive) :
  (2 ^ 52 ≤ Z.pos p / 2 ^ Z.pos k < 2 ^ 53)%Z → Z.log2 (Z.pos p) = (52 + Z.pos k)%Z → (Z.pos k ≤ 100)%Z →
  ∃ e, normal_at (binary_round_aux 53 1024 s (Z.pos p) 0 loc_Exact) e ∧ (Z.pos k ≤ e ≤ Z.pos k + 1)%Z.
Proof.
  intros Hb Hl Hk. unfold binary_round_aux, shr_fexp at 1. rewrite Zdigits2_log2, Hl, fexp_range by lia.
  replace (52 + Z.pos k + 1 + 0 - 53 - 0)%Z with (Z.pos k) by lia. cbn [shr shr_record_of_loc].
  set (mrs := SpecFloat.iter_pos shr_1 k _).
  assert (Hm : shr_m mrs = (Z.pos p / 2 ^ Z.pos k)%Z) by (by apply iter_shr_m).
  apply (round_tail s _ (0 + Z.pos k)); [|lia]. unfold round_nearest_even.
  destruct (loc_of_shr_record mrs) as [|[]]; try lia. destruct (Z.even _); lia.
Qed.

(** A short one is shifted left. *)
Lemma shl_align_short (p : positive) l :
  Z.log2 (Z.pos p) = l → (0 ≤ l ≤ 52)%Z →
  ∃ m, shl_align p 0 (l - 52) = (m, (l - 52)%Z) ∧ (2 ^ 52 ≤ Z.pos m < 2 ^ 53)%Z.
Proof.
  intros Hl Hr. pose proof (Z.log2_spec (Z.pos p) eq_refl) as Hs. rewrite Hl in Hs.
  unfold shl_align. destruct (l - 52 - 0)%Z as [|k|k] eqn:Hk; try lia.
  - exists p. assert (l = 52%Z) as Hl52 by lia. rewrite Hl52 in Hs |- *. split; [done|lia].
  - eexists. split; [reflexivity|]. rewrite iter_xO.
    assert (Hp1 : (2 ^ l * 2 ^ Z.pos k = 2 ^ 52)%Z) by (rewrite <-Z.pow_add_r by lia; f_equal; lia).
    assert (Hp2 : (2 ^ Z.succ l * 2 ^ Z.pos k = 2 ^ 53)%Z) by (rewrite <-Z.pow_add_r by lia; f_equal; lia).
    pose proof (Z.pow_pos_nonneg 2 (Z.pos k) eq_refl ltac:(lia)). nia.
Qed.

(** An integer of up to 64 bits becomes a number with a full mantissa. *)
Lemma float_of_pos s (p : positive) :
  (Z.pos p ≤ 2 ^ 63)%Z → ∃ e, normal_at (binary_round 53 1024 s p 0) e ∧ (-52 ≤ e ≤ 12)%Z.
Proof.
  intros Hp. unfold binary_round. change (Z.pos (digits2_pos p)) with (Zdigits2 (Z.pos p)).
  rewrite Zdigits2_log2 by lia. set (l := Z.log2 (Z.pos p)).
  assert (Hl : (0 ≤ l ≤ 63)%Z).
  { split; [apply Z.log2_nonneg|]. transitivity (Z.log2 (2 ^ 63)); [by apply Z.log2_le_mono|done]. }
  rewrite fexp_range by lia. rewrite !Z.add_0_r. replace (l + 1 - 53)%Z with (l - 52)%Z by lia.
  destruct (Z_lt_le_dec 52 l) as [Hlt|Hle].
  - pose proof (Z.log2_spec (Z.pos p) eq_refl) as Hs. fold l in Hs.
    unfold shl_align. destruct (l - 52 - 0)%Z as [|k|k] eqn:Hk; try lia.
    assert (Hb : (2 ^ 52 ≤ Z.pos p / 2 ^ Z.pos k < 2 ^ 53)%Z).
    { replace l with (52 + Z.pos k)%Z in Hs by lia. rewrite Z.pow_add_r in Hs by lia.
      replace (Z.succ (52 + Z.pos k)) with (53 + Z.pos k)%Z in Hs by lia. rewrite Z.pow_add_r in Hs by lia.
      pose proof (Z.pow_pos_nonneg 2 (Z.pos k) eq_refl ltac:(lia)).
      split; [apply Z.div_le_lower_bound; lia|apply Z.div_lt_upper_bound; lia]. }
    destruct (round_long s p k Hb ltac:(lia) ltac:(lia)) as (e & H & He). exists e. split; [exact H|lia].
  - destruct (shl_align_short p l eq_refl ltac:(lia)) as (m & -> & Hm).
    unfold binary_round_aux, shr_fexp at 1. rewrite (Zdigits2_unique (Z.pos m) 52) by lia.
    rewrite fexp_range by lia. replace (52 + 1 + (l - 52) - 53 - (l - 52))%Z with 0%Z by lia.
    cbn [shr shr_record_of_loc shr_m loc_of_shr_record round_nearest_even].
    destruct (round_tail s (Z.pos m) (l - 52) ltac:(lia) ltac:(lia)) as (e & H & He). exists e. split; [exact H|lia].
Qed.

Lemma float_of_Z_normal z :
  z ≠ 0%Z → in_int64 z → ∃ e, normal_at (float_of_Z z) e ∧ (-52 ≤ e ≤ 12)%Z.
Proof. unfold in_int64, MaxInt64. intros Hz Hr. destruct z as [|p|p]; [done|..]; apply float_of_pos; lia. Qed.

(** A number is at least 1024 in size exactly when its exponent is at least that of
    1024, whose mantissa is the least one. *)
Lemma big_compare s m K e :
  (K ≤ m)%positive →
  fge (S754_finite s m e) (S754_finite false K (-42)) || fle (S754_finite s m e) (S754_finite true K (-42)) = (-42 <=? e)%Z.
Proof.
  intros Hle. destruct s; unfold fle, fge; cbn [SFcompare orb]; rewrite ?orb_false_r.
  - change (Pos.compare_cont Eq K m) with (K ?= m)%positive.
    destruct (Z.compare_spec (-42) e) as [<-|Hlt|Hgt]; [|symmetry; apply Z.leb_le; lia|symmetry; apply Z.leb_gt; lia].
    destruct (Pos.compare_spec K m) as [_|_|Hc%Pos.lt_nle]; done.
  - change (Pos.compare_cont Eq m K) with (m ?= K)%positive.
    destruct (Z.compare_spec e (-42)) as [->|Hlt|Hgt]; [|symmetry; apply Z.leb_gt; lia|symmetry; apply Z.leb_le; lia].
    destruct (Pos.compare_spec m K) as [_|Hc%Pos.lt_nle|_]; done.
Qed.

Lemma big_normal s m e :
  (2 ^ 52 ≤ Z.pos m)%Z →
  fge (S754_finite s m e) (float_of_Z 1024) || fle (S754_finite s m e) (float_of_Z (-1024)) = (-42 <=? e)%Z.
Proof.
  intros Hm. change (float_of_Z 1024) with (S754_finite false 4503599627370496 (-42)).
  change (float_of_Z (-1024)) with (S754_finite true 4503599627370496 (-42)). apply big_compare. lia.
Qed.

(** The loop over the units: it ends, and keeps sign and mantissa. *)
Lemma reduceUnits_normal fuel s m e u :
  (2 ^ 52 ≤ Z.pos m < 2 ^ 53)%Z → (-52 ≤ e ≤ 900)%Z → (e ≤ 10 * Z.of_nat fuel - 43)%Z →
  ∃ u' e', reduceUnits fuel (S754_finite s m e) u = Some (S754_finite s m e', u') ∧
    (-52 ≤ e' < -42)%Z ∧ (e = e' + 10 * (Z.of_nat u' - Z.of_nat u))%Z.
Proof.
  intros Hm. revert e u. induction fuel as [|fuel IH]; intros e u He Hf; cbn [reduceUnits];
    rewrite big_normal by lia; destruct (Z.leb_spec (-42) e) as [Hb|Hb]; try lia.
  1,3: exists u, e; split_and!; [done|lia..].
  rewrite fdiv_1024 by lia. destruct (IH (e - 10)%Z (S u)) as (u' & e' & -> & He' & Hsum); [lia..|].
  exists u', e'. split_and!; [done|lia..].
Qed.

(** Every 64-bit size is printed: the loop over the units ends within six rounds
    and never runs out of the table.  Without rounding, the number shown is exactly
    the size, as a binary64 number, divided by a power of 1024, and is at least 1 and
    below 1024 in absolute value. *)
Theorem GetBytesAndUnits_exact bi :
  in_int64 bi → bi ≠ 0%Z →
  ∃ s m e (u : nat) unit, float_of_Z bi = S754_finite s m (e + 10 * Z.of_nat u) ∧
    GetBytesAndUnits bi (-1) = Some (S754_finite s m e, unit) ∧ units !! u = Some unit ∧ (u ≤ 6)%nat ∧
    (2 ^ (-e) ≤ Z.pos m < 1024 * 2 ^ (-e))%Z ∧ (e < 0)%Z.
Proof.
  intros Hb Hz. destruct (float_of_Z_normal bi Hz Hb) as (e & (s & m & Hf & Hm) & He).
  unfold GetBytesAndUnits. destruct (Z.eqb_spec bi 0); [done|]. rewrite Hf.
  destruct (reduceUnits_normal unitFuel s m e 0 Hm) as (u & e' & -> & He' & Hsum);
    [lia|change (Z.of_nat unitFuel) with 9%Z; lia|].
  assert (Hu : (u < length units)%nat) by (cbn [units length]; lia).
  destruct (lookup_lt_is_Some_2 units u Hu) as [unit Hunit]. cbn [Z.leb]. rewrite Hunit.
  exists s, m, e', u, unit. split; [f_equal; lia|]. split; [done|]. split; [done|]. split; [lia|]. split; [|lia].
  pose proof (Z.pow_le_mono_r 2 (- e') 52 eq_refl ltac:(lia)).
  pose proof (Z.pow_le_mono_r 2 43 (- e') eq_refl ltac:(lia)). lia.
Qed.

(** The size of a quota is computed for every positive limit. *)
Lemma sizeConfig_Some bytes : in_int64 bytes → (0 < bytes)%Z ↔ is_Some (sizeConfig bytes).
Proof.
  intros Hb. unfold sizeConfig. destruct (Z.ltb_spec 0 bytes) as [Hp|Hp]; [|split; [lia|by intros [? [=]]]].
  split; [intros _|done]. unfold GetBytesAndUnits. destruct (Z.eqb_spec bytes 0); [lia|].
  destruct (float_of_Z_normal bytes) as (e & (s & m & Hf & Hm) & He); [lia|done|]. rewrite Hf.
  destruct (reduceUnits_normal unitFuel s m e 0 Hm) as (u & e' & -> & He' & Hsum);
    [lia|change (Z.of_nat unitFuel) with 9%Z; lia|].
  assert (Hu : (u < length units)%nat) by (cbn [units length]; lia).
  destruct (lookup_lt_is_Some_2 units u Hu) as [unit Hunit]. rewrite Hunit. eauto.
Qed.

(** ** The boundary of the conversion to bytes *)

(** The guard against sizes beyond 64 bits misses the first of them: a quota of
    8E, 2^63 bytes, passes the comparison with the largest integer, which is rounded
    up to 2^63, and is converted to whatever the implementation makes of it. *)
Theorem QuotaSizeToBytes_overflow outOfRange :
  let q := mkSizeQuotaConfig (float_of_Z 8) "E" in
  let f := float_of_Z (2 ^ 63) in
  fmul (sq_Value q) (float_of_Z (1024 ^ 6)) = f ∧ ¬ in_int64 (roundZ f) ∧
  QuotaSizeToBytes outOfRange (Some q) = (outOfRange f, true).
Proof. split; [reflexivity|]. split; [by vm_compute; intros [_ ?]|]. reflexivity. Qed.

(** Sizes that the operator itself writes, with two decimals, come back as no more
    than they were: some examples. *)
Example quota_size_truncates :
  (λ q, QuotaSizeToBytes (λ _, 0%Z) q) <$> [sizeConfig (2 ^ 30); sizeConfig (2 ^ 30 + 1); sizeConfig (3 * 2 ^ 29)] =
  [(2 ^ 30, true); (2 ^ 30, true); (3 * 2 ^ 29, true)]%Z.
Proof. reflexivity. Qed.

(** ** Quotas and usage *)

(** The limits of a quota: zero stands for none. *)
Definition sizeLimit outOfRange (q : QuotaConfig) : Z :=
  let '(b, ok) := QuotaSizeToBytes outOfRange (qc_Size q) in if ok : bool then b else 0%Z.
Definition objectLimit (q : QuotaConfig) : Z :=
  match qc_Quantity q with Some n => Z.max 0 (qq_Value n) | None => 0%Z end.

Definition usedBytes (b : BucketInfo) : Z := match bkt_DataCapacity b with Some c => ToBig (dc_Size c) | None => 0%Z end.
Definition usedObjects (b : BucketInfo) : Z := default 0%Z (bkt_NumObjects b).

(** A new quota is accepted exactly when no positive limit of it lies below what
    the bucket already holds, namespace buckets apart; the check never panics,
    although it dereferences the capacity of the bucket for its message. *)
Theorem ValidateQuotaAgainstBucketUsage_ok outOfRange b q :
  decides (ValidateQuotaAgainstBucketUsage outOfRange (Some b) (Some q)) ∧
  (ValidateQuotaAgainstBucketUsage outOfRange (Some b) (Some q) = ok ↔
   bkt_BucketType b = "NAMESPACE" ∨
   ((0 < objectLimit q → usedObjects b ≤ objectLimit q) ∧
    (0 < sizeLimit outOfRange q → usedBytes b ≤ sizeLimit outOfRange q))%Z).
Proof.
  unfold ValidateQuotaAgainstBucketUsage. fold (sizeLimit outOfRange q). fold (usedObjects b). fold (usedBytes b).
  assert (Ho : match qc_Quantity q with Some n => if (0 <? qq_Value n)%Z then qq_Value n else 0%Z | None => 0%Z end = objectLimit q).
  { unfold objectLimit. destruct (qc_Quantity q); [|done]. destruct (Z.ltb_spec 0 (qq_Value q0)); lia. }
  rewrite Ho. clear Ho. generalize (objectLimit q), (sizeLimit outOfRange q). intros o sz.
  destruct ((sz =? 0) && (o =? 0))%Z eqn:Hz.
  { split; [by left|]. split; [intros _; right; lia|done]. }
  case_bool_decide as Ht; [split; [by left|split; [by left|done]]|].
  rewrite guard_ok. destruct ((0 <? o) && (o <? usedObjects b))%Z eqn:Hob; cbn [guard].
  { split; [right; eauto|]. split; [by intros [? _]|]. intros [?|[? _]]; [done|lia]. }
  destruct (Z.ltb_spec 0 sz) as [Hs|Hs].
  2: { split; [by left|]. split; [intros _; right; lia|done]. }
  destruct (Z.ltb_spec sz (usedBytes b)) as [Hu|Hu].
  2: { split; [by left|]. split; [intros _; right; lia|done]. }
  unfold usedBytes in Hu |- *. destruct (bkt_DataCapacity b) as [[[n|] free]|]; cbn in Hu; try lia. cbn.
  split; [right; eauto|]. split; [by intros [_ ?]|]. intros [?|[_ ?]]; [done|]. exfalso. cbn in *. lia.
Qed.

(** ** The combination of two quotas *)

(** The limit of a claim, when it has one, against the one of its class. *)
Definition effectiveLimit (class : Z) (claim : option Z) : Z :=
  match claim with None => class | Some c => combineLimit class c end.

Lemma effectiveLimit_class class claim :
  (0 < class)%Z → (effectiveLimit class claim ≤ class)%Z.
Proof.
  intros Hc. unfold effectiveLimit, combineLimit. destruct claim as [c|]; [|lia].
  destruct (Z.eqb_spec class 0), (Z.ltb_spec c class); cbn [orb]; lia.
Qed.

Section Combined.
Context {QA : QuantityApi}.

(** What a text says about a limit: nothing, a number, or it cannot be read. *)
Definition objectText (text : string) : option (num_error + Z) := if text == "" then None else Some (ParseInt text 32).

(** The quota of a claim keeps to that of its class: the number of objects is the
    smaller of the two limits, a limit of the class of zero being none; a claim that
    asks for zero objects has no limit at all, whatever the class says. *)
Theorem GetQuotaConfig_objects name spec ob q class claim :
  GetQuotaConfig name spec ob = inr q →
  objectText (match bcs_Quota spec with Some q => quota_MaxObjects q | None => ""%string end) = Some (inr class) →
  objectText (map_get ob "maxObjects") = Some (inr claim) →
  (0 < class → 0 ≤ claim →
   qc_Quantity q = if claim =? 0 then None else Some (mkQuantityQuotaConfig (Z.min class claim)))%Z.
Proof.
  unfold objectText. intros H. case_bool_decide as Hbe; [done|]. intros [= Hb].
  case_bool_decide as Hoe; [done|]. intros [= Ho] Hc Hn. unfold GetQuotaConfig in H.
  rewrite (bool_decide_false _ Hbe) in H. rewrite andb_false_r in H. cbn [andb] in H.
  unfold and_then in H. destruct (parseSize _ _ _ 0 _) as [e|s1]; [done|].
  unfold parseObjects at 1 in H. rewrite bool_decide_false, Hb in H by done.
  destruct (parseSize _ _ _ s1 _) as [e|s2]; [done|].
  unfold parseObjects in H. rewrite bool_decide_false, Ho in H by done. injection H as <-. cbn [qc_Quantity].
  unfold combineLimit. destruct (Z.eqb_spec class 0); [lia|]. cbn [orb].
  destruct (Z.ltb_spec claim class), (Z.eqb_spec claim 0) as [Hz|Hz].
  - by rewrite Hz.
  - destruct (Z.ltb_spec 0 claim); [|lia]. by rewrite Z.min_r by lia.
  - lia.
  - destruct (Z.ltb_spec 0 class); [|lia]. by rewrite Z.min_l by lia.
Qed.
End Combined.
