(* ===== verification/GoTime.v ===== *)
(** * Durations: what the code uses of Go's package [time].

    A [time.Duration] is a 64-bit number of nanoseconds.  [ParseDuration] follows the
    library: a sign, then numbers with an optional fraction, each with a unit. *)

From Stdlib Require Import Ascii SpecFloat.
From S2P Require Import Prelude GoStrings Quota.

Definition Nanosecond : Z := 1.
Definition Microsecond : Z := 1000 * Nanosecond.
Definition Millisecond : Z := 1000 * Microsecond.
Definition Second : Z := 1000 * Millisecond.
Definition Minute : Z := 60 * Second.
Definition Hour : Z := 60 * Minute.

(** [unitMap]; the two letters mu are U+00B5 and U+03BC. *)
Definition mu (b0 b1 : nat) : string := String (ascii_of_nat b0) (String (ascii_of_nat b1) "s").
Definition unitMap (u : string) : option Z :=
  if u == "ns" then Some Nanosecond
  else if (u == "us") || (u == mu 194 181) || (u == mu 206 188) then Some Microsecond
  else if u == "ms" then Some Millisecond
  else if u == "s" then Some Second
  else if u == "m" then Some Minute
  else if u == "h" then Some Hour
  else None.

Definition uint64 (z : Z) : Z := (z mod 2 ^ 64)%Z.

(** The leading digits as a number, [None] beyond [1<<63], and the rest. *)
Fixpoint leadingInt (s : string) (x : Z) : option (Z * string) :=
  match s with
  | EmptyString => Some (x, s)
  | String a s' =>
      match digit a with
      | None => Some (x, s)
      | Some d =>
          if (2 ^ 63 / 10 <? x)%Z then None
          else let y := (x * 10 + d)%Z in if (2 ^ 63 <? y)%Z then None else leadingInt s' y
      end
  end.

(** The digits of a fraction with their scale; digits that do not fit are dropped. *)
Fixpoint leadingFraction (s : string) (x : Z) (scale : float64) (overflow : bool) : Z * float64 * string :=
  match s with
  | EmptyString => (x, scale, s)
  | String a s' =>
      match digit a with
      | None => (x, scale, s)
      | Some d =>
          let y := (x * 10 + d)%Z in
          if overflow || ((2 ^ 63 - 1) / 10 <? x)%Z || (2 ^ 63 <? y)%Z then leadingFraction s' x scale true
          else leadingFraction s' y (fmul scale (float_of_Z 10)) false
      end
  end.

(** A unit: the characters up to the next digit or dot. *)
Fixpoint leadingUnit (s : string) : string * string :=
  match s with
  | EmptyString => ("", s)
  | String a s' =>
      if (a == "."%char) || bool_decide (is_Some (digit a)) then ("", s)
      else let '(u, rest) := leadingUnit s' in (String a u, rest)
  end.

(** [(\.[0-9]* )?]: the digits, the scale, the rest and whether there were any digits. *)
Definition fraction (s : string) : Z * float64 * string * bool :=
  match s with
  | String "." s' => let '(f, scale, rest) := leadingFraction s' 0 (float_of_Z 1) false in (f, scale, rest, negb (rest == s'))
  | _ => (0%Z, float_of_Z 1, s, false)
  end.

(** One round of the loop: the amount of a number with its unit, and the rest. *)
Definition parsePart (s : string) : option (Z * string) :=
  match leadingInt s 0 with
  | None => None
  | Some (v, rest) =>
      let pre := negb (rest == s) in
      let '(f, scale, rest', post) := fraction rest in
      if negb pre && negb post then None
      else
        let '(u, rest'') := leadingUnit rest' in
        match unitMap u with
        | None => None
        | Some unit =>
            if (2 ^ 63 / unit <? v)%Z then None
            else
              let v := (v * unit)%Z in
              if (0 <? f)%Z then
                let v := uint64 (v + scaled (fmul (float_of_Z f) (fdiv (float_of_Z unit) scale)) Z.quot) in
                if (2 ^ 63 <? v)%Z then None else Some (v, rest'')
              else Some (v, rest'')
        end
  end.

(** Every round takes a unit off the string: its length is enough fuel. *)
Fixpoint parseParts (fuel : nat) (s : string) (d : Z) : option Z :=
  match s, fuel with
  | EmptyString, _ => Some d
  | _, O => None
  | _, S fuel =>
      match parsePart s with
      | None => None
      | Some (v, rest) =>
          let d := uint64 (d + v) in
          if (2 ^ 63 <? d)%Z then None else parseParts fuel rest d
      end
  end.

(** [time.ParseDuration]; all its errors are [None]. *)
Definition ParseDuration (s : string) : option Z :=
  let '(neg, s) :=
    match s with String "-" s' => (true, s') | String "+" s' => (false, s') | _ => (false, s) end in
  if s == "0" then Some 0%Z
  else if s == "" then None
  else
    match parseParts (String.length s) s 0 with
    | None => None
    | Some d => if neg then Some (- d)%Z else if (MaxInt64 <? d)%Z then None else Some d
    end.

(** ** The loop needs no more fuel *)

Lemma leadingInt_length s x y rest :
  leadingInt s x = Some (y, rest) → (String.length rest ≤ String.length s)%nat.
Proof.
  revert x. induction s as [|a s IH]; intros x; cbn [leadingInt]; [by intros [= _ <-]|].
  destruct (digit a); [|by intros [= _ <-]]. repeat (case_match; [done|]).
  intros Hr%IH. cbn. lia.
Qed.

Lemma leadingFraction_length s x sc o y sc' rest :
  leadingFraction s x sc o = (y, sc', rest) → (String.length rest ≤ String.length s)%nat.
Proof.
  revert x sc o. induction s as [|a s IH]; intros x sc o; cbn [leadingFraction]; [by intros [= _ _ <-]|].
  destruct (digit a); [|by intros [= _ _ <-]]. case_match; intros Hr%IH; cbn; lia.
Qed.

Lemma leadingUnit_length s u rest :
  leadingUnit s = (u, rest) → (String.length rest + String.length u = String.length s)%nat.
Proof.
  revert u. induction s as [|a s IH]; intros u; cbn [leadingUnit]; [by intros [= <- <-]|].
  case_match; [by intros [= <- <-]|]. destruct (leadingUnit s) as [u' r] eqn:Hu. intros [= <- <-].
  cbn. specialize (IH _ eq_refl). lia.
Qed.

Lemma fraction_length s f sc rest post :
  fraction s = (f, sc, rest, post) → (String.length rest ≤ String.length s)%nat.
Proof.
  unfold fraction. destruct s as [|a s]; [by intros [= _ _ <- _]|].
  destruct (decide (a = "."%char)) as [->|Ha].
  - destruct (leadingFraction s 0 (float_of_Z 1) false) as [[f' sc'] r] eqn:Hf. intros [= _ _ <- _].
    apply leadingFraction_length in Hf. cbn. lia.
  - destruct a as [[] [] [] [] [] [] [] []]; try (by intros [= _ _ <- _]); done.
Qed.

Lemma parsePart_length s v rest : parsePart s = Some (v, rest) → (String.length rest < String.length s)%nat.
Proof.
  unfold parsePart. destruct (leadingInt s 0) as [[v0 r0]|] eqn:Hi; [|done].
  destruct (fraction r0) as [[[f sc] r1] post] eqn:Hf. case_match; [done|].
  destruct (leadingUnit r1) as [u r2] eqn:Hu. destruct (unitMap u) as [unit|] eqn:Hm; [|done].
  apply leadingInt_length in Hi. apply fraction_length in Hf. apply leadingUnit_length in Hu.
  assert (String.length u ≠ 0)%nat by (destruct u; [by vm_compute in Hm|done]).
  repeat case_match; intros; simplify_eq; lia.
Qed.

Lemma parseParts_fuel fuel s d :
  (String.length s ≤ fuel)%nat → parseParts fuel s d = parseParts (String.length s) s d.
Proof.
  remember (String.length s) as n eqn:Hn. revert s fuel d Hn.
  induction (lt_wf n) as [n _ IH]. intros s fuel d -> Hf.
  destruct s as [|a s]; [by destruct fuel|]. destruct fuel as [|fuel]; [cbn in Hf; lia|].
  cbn [parseParts String.length]. destruct (parsePart (String a s)) as [[v rest]|] eqn:Hp; [|done].
  case_match; [done|]. apply parsePart_length in Hp. cbn in Hf, Hp.
  rewrite (IH (String.length rest)) by (cbn; lia). symmetry. apply IH; cbn; lia.
Qed.

(** A duration that is read is a 64-bit number. *)
Lemma parseParts_range fuel s d d' : (0 ≤ d ≤ 2 ^ 63)%Z → parseParts fuel s d = Some d' → (0 ≤ d' ≤ 2 ^ 63)%Z.
Proof.
  revert s d. induction fuel as [|fuel IH]; intros [|a s] d Hd; cbn [parseParts]; try (by intros [= <-]).
  destruct (parsePart _) as [[v rest]|]; [|done]. destruct (Z.ltb_spec (2 ^ 63) (uint64 (d + v))); [done|].
  apply IH. split; [|done]. apply Z.mod_pos_bound. lia.
Qed.

Lemma ParseDuration_range s d : ParseDuration s = Some d → in_int64 d.
Proof.
  unfold ParseDuration, in_int64, MaxInt64. set (p := match s with String "-" s' => _ | _ => _ end).
  destruct p as [neg s']. case_bool_decide; [by intros [= <-]|]. case_bool_decide; [done|].
  destruct (parseParts _ _ _) as [d'|] eqn:Hp; [|done]. apply parseParts_range in Hp; [|done].
  destruct neg; [intros [= <-]; lia|]. destruct (Z.ltb_spec (2 ^ 63 - 1) d'); [done|]. intros [= <-]. lia.
Qed.
