(* ===== verification/LeaderElect.v ===== *)
(** * The leader-election wrapper of the core pod: [pkg/leaderelect].

    The wrapper holds a lease while it runs a command.  Three goroutines share the
    fields of [runner]: the main one, which runs the elector of the Kubernetes client and
    then exits; one that waits for SIGTERM; and the callback [onStartedLeading], which
    starts the command and watches over it, with a fourth that reaps the child.  They are
    a transition system here: [step] performs one event, and every interleaving of the
    goroutines is a list of events.

    The elector is not part of the operator.  What is used of it is what its package
    documents: it calls [OnStartedLeading] in a goroutine of its own once it has the lease,
    it stops when its context is cancelled or when it fails to renew the lease in time, it
    gives up the lease when it stops, then cancels the context of the callback and returns
    without waiting for the callback. *)

From Stdlib Require Import Ascii SpecFloat.
From S2P Require Import Prelude GoStrings Quota GoTime.

(** ** Configuration *)

Definition exitOK : Z := 0.
Definition exitConfig : Z := 1.
Definition exitLost : Z := 2.

Definition envLeaseName : string := "NOOBAA_CORE_LEASE_NAME".
Definition envLeaseDuration : string := "NOOBAA_CORE_LEASE_DURATION".
Definition envRenewDeadline : string := "NOOBAA_CORE_RENEW_DEADLINE".
Definition envRetryPeriod : string := "NOOBAA_CORE_RETRY_PERIOD".
Definition envShutdownGrace : string := "NOOBAA_CORE_SHUTDOWN_GRACE".
Definition envLostGrace : string := "NOOBAA_CORE_LOST_GRACE".
Definition envPodNamespace : string := "POD_NAMESPACE".

Definition defaultLeaseDuration : Z := 20 * Second.
Definition defaultRenewDeadline : Z := 10 * Second.
Definition defaultRetryPeriod : Z := 3 * Second.
Definition defaultShutdownGrace : Z := 25 * Second.
Definition defaultLostGrace : Z := 8 * Second.
Definition childSigkillWait : Z := 5 * Second.
Definition leaseReleaseMargin : Z := 10 * Second.

Definition RecommendedTerminationGracePeriod (shutdownGrace : Z) : Z :=
  let grace := if (shutdownGrace <=? 0)%Z then defaultShutdownGrace else shutdownGrace in
  Z.quot (int64 (int64 (grace + childSigkillWait) + leaseReleaseMargin)) Second.

Record Config := mkConfig {
  LeaseName : string;
  LeaseDuration : Z;
  RenewDeadline : Z;
  RetryPeriod : Z;
  ShutdownGrace : Z;
  LostGrace : Z;
  Command : list string;
}.

Section Configuration.
(** The environment of the process, and what the conversion of a floating-point number
    outside of the range of [int64] gives on the machine. *)
Context (Getenv : string → string) (outOfRange : float64 → Z).

Definition durationFromEnv (key : string) (fallback : Z) : Z :=
  let raw := TrimSpace (Getenv key) in
  if raw == "" then fallback
  else match ParseDuration raw with
       | None => fallback
       | Some d => if (d <=? 0)%Z then fallback else d
       end.

Definition commandFromArgs (args : list string) : list string :=
  match args with
  | [] => []
  | a :: rest => if a == "--" then rest else args
  end.

(** With the command, which [defaultConfig] leaves empty. *)
Definition defaultConfig (command : list string) : Config :=
  mkConfig (Getenv envLeaseName)
    (durationFromEnv envLeaseDuration defaultLeaseDuration)
    (durationFromEnv envRenewDeadline defaultRenewDeadline)
    (durationFromEnv envRetryPeriod defaultRetryPeriod)
    (durationFromEnv envShutdownGrace defaultShutdownGrace)
    (durationFromEnv envLostGrace defaultLostGrace)
    command.

(** [leaderelection.JitterFactor], 1.2. *)
Definition JitterFactor : float64 := fdiv (float_of_Z 12) (float_of_Z 10).

(** [time.Duration(f)]. *)
Definition duration_of_float (f : float64) : Z :=
  match f with
  | S754_finite _ _ _ | S754_zero _ =>
      let z := scaled f Z.quot in if (- 2 ^ 63 <=? z)%Z && (z <=? MaxInt64)%Z then z else outOfRange f
  | _ => outOfRange f
  end.

Definition Validate (c : option Config) : option error :=
  match c with
  | None => Some (Errorf (Lit "nil config"))
  | Some c =>
      let maxLost := int64 (LeaseDuration c - RenewDeadline c) in
      let minRenew := duration_of_float (fmul JitterFactor (float_of_Z (RetryPeriod c))) in
      if LeaseName c == "" then Some (Errorf (Sprintf "$%s is required" [AStr envLeaseName]))
      else if isNil (head (Command c)) then Some (Errorf (Lit "command is required after --"))
      else if (maxLost <=? 0)%Z then
        Some (Errorf (Sprintf "%s (%v) must be greater than %s (%v)"
                [AStr envLeaseDuration; AInt (LeaseDuration c); AStr envRenewDeadline; AInt (RenewDeadline c)]))
      else if (maxLost <=? LostGrace c)%Z then
        Some (Errorf (Sprintf "%s (%v) must be < %s - %s (%v)"
                [AStr envLostGrace; AInt (LostGrace c); AStr envLeaseDuration; AStr envRenewDeadline; AInt maxLost]))
      else if (RetryPeriod c <=? 0)%Z then
        Some (Errorf (Sprintf "%s (%v) must be greater than zero" [AStr envRetryPeriod; AInt (RetryPeriod c)]))
      else if (RenewDeadline c <=? minRenew)%Z then
        Some (Errorf (Sprintf "%s (%v) must be greater than %s*%g (%v)"
                [AStr envRenewDeadline; AInt (RenewDeadline c); AStr envRetryPeriod; AStr "1.2"; AInt minRenew]))
      else None
  end.

Definition ParseArgs (args : list string) : error + Config :=
  let cfg := defaultConfig (commandFromArgs args) in
  match Validate (Some cfg) with Some err => inl err | None => inr cfg end.

(** The namespace of the pod: from the environment, the mounted service account
    ([None] when the file cannot be read), or the option of the operator. *)
Definition resolveNamespace (saNamespaceFile : option string) (Namespace : string) : string :=
  let ns := Getenv envPodNamespace in
  if ns != "" then ns
  else match saNamespaceFile with
       | Some data => let ns := TrimSpace data in if ns != "" then ns else Namespace
       | None => Namespace
       end.
End Configuration.

(** ** The fields of [runner] *)

Record runner := mkRunner {
  childPID : Z;
  childExited : option bool;   (* the channel: nil, open or closed *)
  childCode : Z;
  exitCode : Z;
  exitSet : bool;
  termRequested : bool;
}.

Definition newRunner : runner := mkRunner 0 None 0 0 false false.

Definition setExit (code : Z) (r : runner) : runner :=
  if exitSet r then r
  else mkRunner (childPID r) (childExited r) (childCode r) code true (termRequested r).
Definition forceExit (code : Z) (r : runner) : runner :=
  mkRunner (childPID r) (childExited r) (childCode r) code true (termRequested r).
Definition getExit (r : runner) : Z := if exitSet r then exitCode r else exitOK.
Definition getChildCode (r : runner) : Z := childCode r.

(** The critical sections of [stopChild] and [onStartedLeading]. *)
Definition requestTerm (r : runner) : runner :=
  mkRunner (childPID r) (childExited r) (childCode r) (exitCode r) (exitSet r) true.
Definition publishChild (pid : Z) (r : runner) : runner :=
  mkRunner pid (Some false) (childCode r) (exitCode r) (exitSet r) (termRequested r).
(** [r.childCode = code] and [close(done)]. *)
Definition reportChild (code : Z) (r : runner) : runner :=
  mkRunner (childPID r) (Some true) code (exitCode r) (exitSet r) (termRequested r).

(** ** Reaping *)

Inductive WaitStatus := Exited (ExitStatus : Z) | Signaled (Signal : Z) | OtherStatus.

Definition waitStatusExitCode (status : WaitStatus) : Z :=
  match status with
  | Exited code => code
  | Signaled sig => 128 + sig
  | OtherStatus => exitConfig
  end.

(** What [Wait4(-1)] can return: an interruption, another error, or a process. *)
Inductive WaitResult := EINTR | WaitError | Waited (wpid : Z) (status : WaitStatus).

(** The loop over the results of [Wait4], up to the report of the child's code. *)
Fixpoint waitAndReap (child : Z) (results : list WaitResult) : option Z :=
  match results with
  | [] => None
  | EINTR :: results => waitAndReap child results
  | WaitError :: _ => Some exitConfig
  | Waited wpid status :: results =>
      if (wpid =? child)%Z then Some (waitStatusExitCode status) else waitAndReap child results
  end.

(** ** The transition system *)

(** Where a goroutine is in [stopChild]: before the critical section, before the SIGTERM,
    waiting for the child, and waiting for it after the SIGKILL. *)
Inductive stop_pc := StopLock | StopTerm | StopWait | StopWaitKill.

(** The goroutine of the signals. *)
Inductive signal_pc := SigWaiting | SigStopping (pc : stop_pc) | SigForcing | SigCancelling | SigFinished.

(** The callback [onStartedLeading]. *)
Inductive lead_pc :=
  | LeadIdle                       (* not called yet *)
  | LeadStarting                   (* before [cmd.Start] *)
  | LeadSpawnFailed                (* before [setExit(exitConfig)] *)
  | LeadFailedCancel               (* before the [cancel] after it *)
  | LeadFailed                     (* returned after it *)
  | LeadPublishing (pid : Z)       (* the child runs, [childPID] is not set yet *)
  | LeadStopping (pc : stop_pc)    (* [if alreadyTerm] *)
  | LeadSelecting                  (* at the [select] *)
  | LeadChildDone                  (* [case <-childDone] *)
  | LeadSetExit                    (* before [setExit(code)] *)
  | LeadCancel                     (* before the [cancel] after it *)
  | LeadCtxDone                    (* [case <-leadCtx.Done()] *)
  | LeadWaitTerm                   (* the SIGTERM path owns the teardown *)
  | LeadLost (pc : stop_pc)        (* leadership lost *)
  | LeadForceLost                  (* before [forceExit(exitLost)] *)
  | LeadWaitLost
  | LeadReturned.

(** The elector: it waits for the lease, holds it, has given it up, has cancelled the
    context of the callback, and has returned. *)
Inductive elector_pc := ElAcquiring | ElRenewing | ElReleased | ElStopped | ElReturned.

Inductive Child := NotStarted | Running | Zombie (status : WaitStatus) | Reaped (status : WaitStatus).

(** [lost] says that the elector stopped because it could not renew the lease; [early]
    that the SIGTERM was handled before there was a child to stop; [killWaited] that a
    child outlived the wait after a SIGKILL. *)
Record State := mkState {
  elector : elector_pc;
  lost : bool;
  cancelled : bool;                (* the context of the elector *)
  sig : signal_pc;
  lead : lead_pc;
  child : Child;
  sigterm : bool;                  (* sent to the process group *)
  sigkill : bool;
  killWaited : bool;
  early : bool;
  run : runner;
  exited : option Z;
}.

Definition initial : State :=
  mkState ElAcquiring false false SigWaiting LeadIdle NotStarted false false false false newRunner None.

Definition set_elector (e : elector_pc) (s : State) : State :=
  mkState e (lost s) (cancelled s) (sig s) (lead s) (child s) (sigterm s) (sigkill s) (killWaited s) (early s) (run s) (exited s).
Definition set_lost (s : State) : State :=
  mkState (elector s) true (cancelled s) (sig s) (lead s) (child s) (sigterm s) (sigkill s) (killWaited s) (early s) (run s) (exited s).
Definition cancel (s : State) : State :=
  mkState (elector s) (lost s) true (sig s) (lead s) (child s) (sigterm s) (sigkill s) (killWaited s) (early s) (run s) (exited s).
Definition set_sig (p : signal_pc) (s : State) : State :=
  mkState (elector s) (lost s) (cancelled s) p (lead s) (child s) (sigterm s) (sigkill s) (killWaited s) (early s) (run s) (exited s).
Definition set_lead (p : lead_pc) (s : State) : State :=
  mkState (elector s) (lost s) (cancelled s) (sig s) p (child s) (sigterm s) (sigkill s) (killWaited s) (early s) (run s) (exited s).
Definition set_child (c : Child) (s : State) : State :=
  mkState (elector s) (lost s) (cancelled s) (sig s) (lead s) c (sigterm s) (sigkill s) (killWaited s) (early s) (run s) (exited s).
Definition set_signals (t k w e : bool) (s : State) : State :=
  mkState (elector s) (lost s) (cancelled s) (sig s) (lead s) (child s) t k w e (run s) (exited s).
Definition on_run (f : runner → runner) (s : State) : State :=
  mkState (elector s) (lost s) (cancelled s) (sig s) (lead s) (child s) (sigterm s) (sigkill s) (killWaited s) (early s) (f (run s)) (exited s).
Definition set_exited (c : Z) (s : State) : State :=
  mkState (elector s) (lost s) (cancelled s) (sig s) (lead s) (child s) (sigterm s) (sigkill s) (killWaited s) (early s) (run s) (Some c).

(** [<-childDone], [<-leadCtx.Done()] can be received. *)
Definition childDone (s : State) : bool := match childExited (run s) with Some true => true | _ => false end.
Definition leadCtxDone (s : State) : bool :=
  cancelled s || match elector s with ElStopped | ElReturned => true | _ => false end.

(** A step of [stopChild]: where it goes on, [None] when it returns.  A wait ends by
    the channel, or by the timer when [timeout] is true. *)
Definition stopChild (timeout : bool) (pc : stop_pc) (s : State) : option (option stop_pc * State) :=
  match pc with
  | StopLock =>
      let s := on_run requestTerm s in
      if (childPID (run s) <=? 0)%Z
      then Some (None, set_signals (sigterm s) (sigkill s) (killWaited s) true s)
      else Some (Some StopTerm, s)
  | StopTerm =>
      let s := set_signals true (sigkill s) (killWaited s) (early s) s in
      match childExited (run s) with None => Some (None, s) | Some _ => Some (Some StopWait, s) end
  | StopWait =>
      if timeout then Some (Some StopWaitKill, set_signals (sigterm s) true (killWaited s) (early s) s)
      else if childDone s then Some (None, s) else None
  | StopWaitKill =>
      if timeout then Some (None, set_signals (sigterm s) (sigkill s) true (early s) s)
      else if childDone s then Some (None, s) else None
  end.

(** The goroutine of the signals: [stopChild], [forceExit(exitOK)], [cancel]. *)
Definition signalStep (timeout : bool) (s : State) : option State :=
  match sig s with
  | SigStopping pc =>
      '(next, s) ← stopChild timeout pc s;
      Some (set_sig match next with Some pc => SigStopping pc | None => SigForcing end s)
  | SigForcing => Some (set_sig SigCancelling (on_run (forceExit exitOK) s))
  | SigCancelling => Some (set_sig SigFinished (cancel s))
  | SigWaiting | SigFinished => None
  end.

(** The callback after [cmd.Start].  Where both cases of a [select] are ready either may
    be taken: [other] takes the second one, the context or the timer. *)
Definition leadStep (other : bool) (s : State) : option State :=
  match lead s with
  | LeadSpawnFailed => Some (set_lead LeadFailedCancel (on_run (setExit exitConfig) s))
  | LeadFailedCancel => Some (set_lead LeadFailed (cancel s))
  | LeadPublishing pid =>
      let s := on_run (publishChild pid) s in
      Some (set_lead (if termRequested (run s) then LeadStopping StopLock else LeadSelecting) s)
  | LeadStopping pc =>
      '(next, s) ← stopChild other pc s;
      Some (set_lead match next with Some pc => LeadStopping pc | None => LeadReturned end s)
  | LeadSelecting =>
      if other then if leadCtxDone s then Some (set_lead LeadCtxDone s) else None
      else if childDone s then Some (set_lead LeadChildDone s) else None
  | LeadChildDone => Some (set_lead (if termRequested (run s) then LeadReturned else LeadSetExit) s)
  | LeadSetExit => Some (set_lead LeadCancel (on_run (λ r, setExit (getChildCode r) r) s))
  | LeadCancel => Some (set_lead LeadReturned (cancel s))
  | LeadCtxDone => Some (set_lead (if termRequested (run s) then LeadWaitTerm else LeadLost StopLock) s)
  | LeadWaitTerm | LeadWaitLost => if other || childDone s then Some (set_lead LeadReturned s) else None
  | LeadLost pc =>
      '(next, s) ← stopChild other pc s;
      Some (set_lead match next with Some pc => LeadLost pc | None => LeadForceLost end s)
  | LeadForceLost => Some (set_lead LeadWaitLost (on_run (forceExit exitLost) s))
  | LeadIdle | LeadStarting | LeadFailed | LeadReturned => None
  end.

Inductive event :=
  | EvAcquire                           (* the elector gets the lease *)
  | EvLose                              (* it fails to renew it in time *)
  | EvStop                              (* it stops because its context is cancelled *)
  | EvCancelLead                        (* it cancels the context of the callback *)
  | EvReturn                            (* [le.Run] returns *)
  | EvExit                              (* [os.Exit(Run(cfg))] *)
  | EvSignal                            (* SIGTERM or SIGINT arrives *)
  | EvSignalStep (timeout : bool)
  | EvSpawn (pid : option Z)            (* [cmd.Start] *)
  | EvLeadStep (other : bool)
  | EvChildExit (status : WaitStatus)   (* the child ends, by itself or by a signal *)
  | EvReap.                             (* the reaper sees it *)

Definition step (ev : event) (s : State) : option State :=
  match exited s, ev with
  | Some _, _ => None
  | None, EvAcquire =>
      match elector s with
      | ElAcquiring => if cancelled s then None else Some (set_lead LeadStarting (set_elector ElRenewing s))
      | _ => None
      end
  | None, EvLose => match elector s with ElRenewing => Some (set_lost (set_elector ElReleased s)) | _ => None end
  | None, EvStop =>
      if cancelled s then
        match elector s with
        | ElAcquiring => Some (set_elector ElReturned s)
        | ElRenewing => Some (set_elector ElReleased s)
        | _ => None
        end
      else None
  | None, EvCancelLead => match elector s with ElReleased => Some (set_elector ElStopped s) | _ => None end
  | None, EvReturn => match elector s with ElStopped => Some (set_elector ElReturned s) | _ => None end
  | None, EvExit => match elector s with ElReturned => Some (set_exited (getExit (run s)) s) | _ => None end
  | None, EvSignal => match sig s with SigWaiting => Some (set_sig (SigStopping StopLock) s) | _ => None end
  | None, EvSignalStep timeout => signalStep timeout s
  | None, EvSpawn pid =>
      match lead s, pid with
      | LeadStarting, None => Some (set_lead LeadSpawnFailed s)
      | LeadStarting, Some pid => if (0 <? pid)%Z then Some (set_lead (LeadPublishing pid) (set_child Running s)) else None
      | _, _ => None
      end
  | None, EvLeadStep other => leadStep other s
  | None, EvChildExit status => match child s with Running => Some (set_child (Zombie status) s) | _ => None end
  | None, EvReap =>
      match child s with
      | Zombie status =>
          if (0 <? childPID (run s))%Z then
            code ← waitAndReap (childPID (run s)) [Waited (childPID (run s)) status];
            Some (set_child (Reaped status) (on_run (reportChild code) s))
          else None
      | _ => None
      end
  end.

(** The states of the wrapper under every interleaving. *)
Definition steps (s s' : State) : Prop := ∃ ev, step ev s = Some s'.
Definition reachable (s : State) : Prop := rtc steps initial s.
Definition runEvents (evs : list event) (s : State) : option State := foldl (λ o ev, o ≫= step ev) (Some s) evs.

(** ** Invariants *)

(** The callback has told the others of the child. *)
Definition published (p : lead_pc) : bool :=
  match p with
  | LeadIdle | LeadStarting | LeadSpawnFailed | LeadFailedCancel | LeadFailed | LeadPublishing _ => false
  | _ => true
  end.

(** Before there is a child. *)
Definition childless (p : lead_pc) : bool :=
  match p with LeadIdle | LeadStarting | LeadSpawnFailed | LeadFailedCancel | LeadFailed => true | _ => false end.

(** The callback has seen the child end, and has asked for the end of the wrapper. *)
Definition sawExit (p : lead_pc) : bool := match p with LeadChildDone | LeadSetExit | LeadCancel => true | _ => false end.
Definition wantsEnd (p : lead_pc) : bool :=
  match p with LeadFailedCancel | LeadFailed | LeadCancel | LeadReturned => true | _ => false end.
Definition losing (p : lead_pc) : bool := match p with LeadLost _ | LeadForceLost | LeadWaitLost => true | _ => false end.
Definition stopping (p : lead_pc) : bool := match p with LeadStopping _ | LeadReturned => true | _ => false end.

(** The goroutine of the signals has stopped the child, and has set the exit code. *)
Definition sigStopped (p : signal_pc) : bool := match p with SigForcing | SigCancelling | SigFinished => true | _ => false end.
Definition forced (p : signal_pc) : bool := match p with SigCancelling | SigFinished => true | _ => false end.
Definition sigLocked (p : signal_pc) : bool := match p with SigWaiting | SigStopping StopLock => false | _ => true end.

Definition sigActive (p : signal_pc) : bool :=
  match p with SigStopping StopTerm | SigStopping StopWait | SigStopping StopWaitKill => true | _ => false end.

Definition waitsKill (p : signal_pc) (q : lead_pc) : bool :=
  match p with SigStopping StopWaitKill => true | _ => false end
  || match q with LeadStopping StopWaitKill | LeadLost StopWaitKill => true | _ => false end.

Definition isReaped (c : Child) : bool := match c with Reaped _ => true | _ => false end.
Definition isFinal (e : elector_pc) : bool := match e with ElReleased | ElStopped | ElReturned => true | _ => false end.

(** The code that the end of the child stands for. *)
Definition ownCode (c : Child) : Z := match c with Reaped status => waitStatusExitCode status | _ => exitConfig end.

(** Nobody waits for the child in vain. *)
Definition settledChild (s : State) : bool := early s || killWaited s || isReaped (child s).

Record inv (s : State) : Prop := {
  inv_pid : (0 <? childPID (run s))%Z = published (lead s);
  inv_chan : negb (isNil (childExited (run s))) = published (lead s);
  inv_done : childDone s = isReaped (child s);
  inv_code : isReaped (child s) = true → childCode (run s) = ownCode (child s);
  inv_child : childless (lead s) = true → child s = NotStarted;
  inv_seen : sawExit (lead s) = true → isReaped (child s) = true;
  inv_sigStopped : sigStopped (sig s) = true → settledChild s = true;
  inv_term : sigLocked (sig s) = true → termRequested (run s) = true;
  inv_active : sigActive (sig s) = true → published (lead s) = true;
  inv_early : early s = true → termRequested (run s) = true ∧ (published (lead s) = true → stopping (lead s) = true);
  inv_cancelled : cancelled s = true →
    sig s = SigFinished ∨ lead s = LeadFailed ∨ (lead s = LeadReturned ∧ isReaped (child s) = true);
  inv_idle : elector s = ElAcquiring → lead s = LeadIdle;
  inv_final : isFinal (elector s) = true → lost s = true ∨ cancelled s = true;
  inv_exited : ∀ c, exited s = Some c → isFinal (elector s) = true ∧ c = getExit (run s);
  inv_losing : losing (lead s) = true → lost s = true;
  inv_ctx : lead s = LeadCtxDone → lost s = true ∨ cancelled s = true;
  inv_publishing : ∀ pid, lead s = LeadPublishing pid → (0 <? pid)%Z = true;
  inv_forced : lost s = false → forced (sig s) = true → exitSet (run s) = true ∧ exitCode (run s) = exitOK;
  inv_own : lost s = false → forced (sig s) = false → exitSet (run s) = true →
    exitCode (run s) = ownCode (child s) ∧ wantsEnd (lead s) = true ∧ (lead s = LeadCancel ∨ lead s = LeadReturned → isReaped (child s) = true);
  inv_kill : waitsKill (sig s) (lead s) || killWaited s = true → sigkill s = true;
  inv_finished : sig s = SigFinished → cancelled s = true;
  inv_set : cancelled s = true → forced (sig s) = false → exitSet (run s) = true;
  inv_cancelSet : lead s = LeadFailedCancel ∨ lead s = LeadCancel → exitSet (run s) = true;
}.

Lemma inv_initial : inv initial.
Proof. by constructor; cbn; try naive_solver. Qed.

(** The cases of a step. *)
Ltac step_cases H :=
  repeat match type of H with
  | context [match ?x with _ => _ end] => destruct x eqn:?; try discriminate H
  end; simplify_eq H; intros; subst.

Ltac inv_solve :=
  repeat match goal with |- context [if ?b then mkRunner _ _ _ _ _ _ else _] => destruct b end;
  intros; simplify_eq; cbn in *; rewrite ?orb_true_r; try done;
  match goal with
  | |- ?a || ?b || _ = true => destruct a, b; cbn in *; solve [done | intuition congruence]
  | _ => solve [eauto 2 | intuition congruence]
  end.

Lemma inv_step ev s s' : inv s → step ev s = Some s' → inv s'.
Proof.
  destruct s as [el lo ca si le ch st sk kw ea [pid chan cc ec es tr] ex].
  intros [] Hs. unfold step in Hs. unfold settledChild, childDone, getExit in *. cbn in *.
  destruct ex; [done|].
  destruct ev; unfold signalStep, leadStep, stopChild, leadCtxDone, childDone in Hs; cbn in Hs;
    rewrite ?Z.leb_antisym, ?inv_pid0 in Hs; step_cases Hs.
  all: clear Hs; constructor; unfold settledChild, childDone, getExit, setExit, waitsKill in *; cbn in *; try assumption; try done.
  all: try inv_solve.
  all: try (intros; destruct chan as [[]|]; cbn in *; inv_solve).
  all: try (intros; destruct le; cbn in *; inv_solve).
  all: try (intros; destruct ca, el; cbn in *; inv_solve).
  all: try (rewrite inv_child0 by done; destruct es; cbn in *; intuition congruence).
  all: intros; destruct si as [|[]| | |]; cbn in *; inv_solve.
Qed.

Lemma reachable_inv s : reachable s → inv s.
Proof.
  revert s. apply (rtc_ind_r inv initial); [apply inv_initial|]. intros s s' _ [ev Hs] Hi. by eapply inv_step.
Qed.

Lemma runEvents_cons ev evs s : runEvents (ev :: evs) s = step ev s ≫= runEvents evs.
Proof.
  unfold runEvents. cbn [foldl]. change (Some s ≫= step ev) with (step ev s).
  destruct (step ev s); cbn [mbind option_bind]; [done|]. by induction evs.
Qed.

Lemma runEvents_reachable evs s s' : reachable s → runEvents evs s = Some s' → reachable s'.
Proof.
  revert s. induction evs as [|ev evs IH]; intros s Hr; [by intros [= <-]|].
  rewrite runEvents_cons. destruct (step ev s) as [s1|] eqn:Hs; [|done]. cbn. apply IH.
  eapply rtc_r; [exact Hr|by exists ev].
Qed.

(** C31: The wrapper gives up its lease of its own accord only when its child is gone.
    When the context of the elector is cancelled there never was a child, or it has been
    reaped, or it has outlived the wait after a SIGKILL, or the SIGTERM was handled before
    the child was started: then the callback does not watch over the child but stops it. *)
Theorem Run_cancel_order s :
  reachable s → cancelled s = true →
  child s = NotStarted ∨ (∃ status, child s = Reaped status) ∨ (killWaited s = true ∧ sigkill s = true) ∨
  (early s = true ∧ (published (lead s) = true → stopping (lead s) = true)).
Proof.
  intros Hi%reachable_inv Hc.
  destruct (inv_cancelled s Hi Hc) as [Hf|[Hf|[_ Hr]]].
  - pose proof (inv_sigStopped s Hi ltac:(by rewrite Hf)) as Hs. unfold settledChild in Hs.
    apply orb_prop in Hs as [[He|Hk]%orb_prop|Hr].
    + right; right; right. by split; [|apply (inv_early s Hi)].
    + right; right; left. split; [done|]. apply (inv_kill s Hi). by rewrite Hk, orb_true_r.
    + right; left. destruct (child s); try done. by eexists.
  - left. apply (inv_child s Hi). by rewrite Hf.
  - right; left. destruct (child s); try done. by eexists.
Qed.

(** C33: As long as the lease is not lost, the exit code is that of the child: 1 when it could
    not be started, its own when it ended by itself or by a signal, and 0 when the
    wrapper was asked to stop and has got to the point where it says so. *)
Theorem Run_exit_code s code :
  reachable s → lost s = false → exited s = Some code →
  code = if forced (sig s) then exitOK else ownCode (child s).
Proof.
  intros Hi%reachable_inv Hl He. destruct (inv_exited s Hi _ He) as [Hf ->].
  destruct (inv_final s Hi Hf) as [Hx|Hc]; [congruence|]. unfold getExit.
  destruct (forced (sig s)) eqn:Hforced.
  - by destruct (inv_forced s Hi Hl Hforced) as [-> ->].
  - pose proof (inv_set s Hi Hc Hforced) as Hset. rewrite Hset.
    by destruct (inv_own s Hi Hl Hforced Hset) as [-> _].
Qed.

(** The steps that need neither the child nor the rest of the cluster. *)
Definition ownEvent (ev : event) : bool :=
  match ev with EvSignalStep true | EvStop | EvCancelLead | EvReturn | EvExit => true | _ => false end.

Definition exits (s : State) : Prop :=
  ∃ evs s', forallb ownEvent evs = true ∧ runEvents evs s = Some s' ∧ is_Some (exited s').

Lemma exits_step ev s s' : ownEvent ev = true → step ev s = Some s' → exits s' → exits s.
Proof.
  intros Ho Hs (evs & s2 & Hf & Hr & He). exists (ev :: evs), s2. split_and!; [cbn; by rewrite Ho|by rewrite runEvents_cons, Hs|done].
Qed.

Lemma exits_cancelled s : exited s = None → cancelled s = true → exits s.
Proof.
  destruct s as [el lo ca si le ch st sk kw ea r ex]. cbn. intros -> ->.
  destruct el;
    [exists [EvStop; EvExit]|exists [EvStop; EvCancelLead; EvReturn; EvExit]|exists [EvCancelLead; EvReturn; EvExit]
    |exists [EvReturn; EvExit]|exists [EvExit]]; eexists; (split_and!; [done|reflexivity|by eexists]).
Qed.

Lemma exits_signal s s' : exited s = None → signalStep true s = Some s' → exits s' → exits s.
Proof. intros He Hs. eapply (exits_step (EvSignalStep true)); [done|]. unfold step. by rewrite He. Qed.

Lemma exits_cancelling s : exited s = None → sig s = SigCancelling → exits s.
Proof. intros He Hp. eapply exits_signal; [done|unfold signalStep; by rewrite Hp|]. by apply exits_cancelled. Qed.

Lemma exits_forcing s : exited s = None → sig s = SigForcing → exits s.
Proof. intros He Hp. eapply exits_signal; [done|unfold signalStep; by rewrite Hp|]. by apply exits_cancelling. Qed.

(** [stopChild] always returns: each of its waits is bounded by a timer. *)
Lemma exits_stopping pc s : exited s = None → sig s = SigStopping pc → exits s.
Proof.
  revert s.
  assert (Hk : ∀ s, exited s = None → sig s = SigStopping StopWaitKill → exits s).
  { intros s He Hp. eapply exits_signal; [done|unfold signalStep; by rewrite Hp|]. by apply exits_forcing. }
  assert (Hw : ∀ s, exited s = None → sig s = SigStopping StopWait → exits s).
  { intros s He Hp. eapply exits_signal; [done|unfold signalStep; by rewrite Hp|]. by apply Hk. }
  assert (Ht : ∀ s, exited s = None → sig s = SigStopping StopTerm → exits s).
  { intros s He Hp. destruct (childExited (run s)) eqn:Hc;
      (eapply exits_signal; [done|unfold signalStep; rewrite Hp; cbn [stopChild]; cbn; by rewrite Hc|]);
      [by apply Hw|by apply exits_forcing]. }
  destruct pc; try done. intros s He Hp. destruct (childPID (run s) <=? 0)%Z eqn:Hc;
    (eapply exits_signal; [done|unfold signalStep; rewrite Hp; cbn [stopChild]; cbn; by rewrite Hc|]);
    [by apply exits_forcing|by apply Ht].
Qed.

(** C32: Once a signal has arrived the wrapper can always exit, whatever the child, the
    callback and the cluster do: the goroutine of the signals and the elector get there by
    steps of their own, without waiting for the child. *)
Theorem Run_stops s : reachable s → exited s = None → sig s ≠ SigWaiting → exits s.
Proof.
  intros Hi%reachable_inv He Hw.
  destruct (sig s) eqn:Hp; [done|by eapply exits_stopping|by apply exits_forcing|by apply exits_cancelling|].
  apply exits_cancelled; [done|by apply (inv_finished s Hi)].
Qed.

(** A lost lease ends the wrapper before it has stopped its child: the elector does not
    wait for the callback, so that the process can exit, and with the code of an orderly
    end, while the child runs and has not been told to stop. *)
Theorem Run_lost_exits_ok :
  ∃ s, reachable s ∧ lost s = true ∧ sig s = SigWaiting ∧ child s = Running ∧ sigterm s = false ∧ exited s = Some exitOK.
Proof.
  destruct (runEvents [EvAcquire; EvSpawn (Some 7); EvLeadStep false; EvLose; EvCancelLead; EvReturn; EvExit] initial)
    as [s|] eqn:Hr; [|by vm_compute in Hr].
  exists s. split; [eapply runEvents_reachable; [apply rtc_refl|exact Hr]|]. vm_compute in Hr. by injection Hr as <-.
Qed.

(** ** Timings *)

Lemma int64_id z : in_int64 z → int64 z = z.
Proof. unfold int64, in_int64, MaxInt64. intros Hz. rewrite Z.mod_small; lia. Qed.

Lemma durationFromEnv_range Getenv key fallback :
  (0 < fallback ≤ MaxInt64)%Z → (0 < durationFromEnv Getenv key fallback ≤ MaxInt64)%Z.
Proof.
  intros Hf. unfold durationFromEnv. case_bool_decide; [done|].
  destruct (ParseDuration _) as [d|] eqn:Hd; [|done]. apply ParseDuration_range in Hd. unfold in_int64 in Hd.
  destruct (Z.leb_spec d 0); [done|lia].
Qed.

(** A configuration that is accepted names a lease and a command, all its timings are
    positive, and a child that is stopped when the deadline of the renewal has passed gets
    its SIGKILL before another pod can take the lease: the deadline and the grace together
    are shorter than the lease. *)
Theorem ParseArgs_timing Getenv outOfRange args cfg :
  ParseArgs Getenv outOfRange args = inr cfg →
  LeaseName cfg ≠ ""%string ∧ Command cfg = commandFromArgs args ∧ Command cfg ≠ [] ∧
  (0 < RetryPeriod cfg ∧ 0 < ShutdownGrace cfg ∧ 0 < LostGrace cfg ∧
   RenewDeadline cfg + LostGrace cfg < LeaseDuration cfg ∧
   duration_of_float outOfRange (fmul JitterFactor (float_of_Z (RetryPeriod cfg))) < RenewDeadline cfg)%Z.
Proof.
  assert (Hr : ∀ key fallback, (0 < fallback ≤ MaxInt64)%Z → (0 < durationFromEnv Getenv key fallback ≤ MaxInt64)%Z)
    by (intros; by apply durationFromEnv_range).
  unfold ParseArgs. destruct (Validate _ _) eqn:Hv; [done|]. intros [= <-]. revert Hv.
  unfold Validate, defaultConfig. cbn [LeaseName LeaseDuration RenewDeadline RetryPeriod ShutdownGrace LostGrace Command].
  pose proof (Hr envLeaseDuration defaultLeaseDuration ltac:(done)). pose proof (Hr envRenewDeadline defaultRenewDeadline ltac:(done)).
  pose proof (Hr envRetryPeriod defaultRetryPeriod ltac:(done)). pose proof (Hr envShutdownGrace defaultShutdownGrace ltac:(done)).
  pose proof (Hr envLostGrace defaultLostGrace ltac:(done)).
  rewrite int64_id by (unfold in_int64, MaxInt64 in *; lia).
  case_bool_decide; [done|]. destruct (commandFromArgs args) as [|c l] eqn:Hc; [done|]. cbn [head isNil].
  repeat match goal with |- (if (?a <=? ?b)%Z then _ else _) = _ → _ => destruct (Z.leb_spec a b); [done|] end.
  intros _. split_and!; (done || lia).
Qed.

(** The recommended grace period of the pod covers the grace of the child, the wait
    after a SIGKILL and, up to the second that the division drops, the margin. *)
Lemma RecommendedTerminationGracePeriod_covers grace :
  (0 < grace ≤ MaxInt64 - 15 * Second)%Z →
  (grace + childSigkillWait + leaseReleaseMargin - Second < RecommendedTerminationGracePeriod grace * Second
     ≤ grace + childSigkillWait + leaseReleaseMargin)%Z.
Proof.
  intros Hg. unfold RecommendedTerminationGracePeriod. destruct (Z.leb_spec grace 0); [lia|].
  unfold childSigkillWait, leaseReleaseMargin in *.
  assert (0 < Second)%Z by done. assert (15 * Second < MaxInt64)%Z by done.
  rewrite (int64_id (grace + 5 * Second)) by (unfold in_int64, MaxInt64 in *; lia).
  rewrite int64_id by (unfold in_int64, MaxInt64 in *; lia).
  rewrite Z.quot_div_nonneg by lia. set (t := (grace + 5 * Second + 10 * Second)%Z).
  pose proof (Z.mod_pos_bound t Second ltac:(done)). pose proof (Z.div_mod t Second ltac:(done)). lia.
Qed.

(** Orphans and interruptions do not keep the reaper from reporting the child. *)
Lemma waitAndReap_child pid l status l' :
  Forall (λ r, r = EINTR ∨ ∃ wpid st, r = Waited wpid st ∧ wpid ≠ pid) l →
  waitAndReap pid (l ++ Waited pid status :: l') = Some (waitStatusExitCode status).
Proof.
  induction 1 as [|r l [->|(wpid & st & -> & Hw)] _ IH]; cbn [waitAndReap app]; [by rewrite Z.eqb_refl|done|].
  by rewrite (proj2 (Z.eqb_neq wpid pid) Hw).
Qed.
