(* ===== verification/AlertSilencer.v ===== *)
(** * The silencer of the disruption-budget alert: [pkg/system/pdb_alert_silencer.go].

    The cluster of the database has a pod disruption budget that never allows a
    disruption, for which the cluster's monitoring raises an alert all the time.  The
    operator keeps a silence for it in Alertmanager and looks after it once an hour.
    Times are nanoseconds since the epoch; HTTP and JSON are parameters. *)

From S2P Require Import Prelude GoStrings Types Quota GoTime.

Definition PodDisruptionBudgetAtLimitAlertName : string := "PodDisruptionBudgetAtLimit".
Definition AlertmanagerSvcHost : string := "https://alertmanager-main.openshift-monitoring.svc.cluster.local:9094".
Definition ServiceAccountTokenPath : string := "/var/run/secrets/kubernetes.io/serviceaccount/token".
Definition SilenceCheckInterval : Z := 1 * Hour.
Definition AlertmanagerHostOverride : string := "noobaa.io/alertmanager_host_override".

Record SilenceStatus := mkSilenceStatus { ss_State : string }.

Record SilenceMatcher := mkSilenceMatcher {
  sm_Name : string;
  sm_Value : string;
  sm_IsRegex : bool;
  sm_IsEqual : bool;
}.

Record AlertmanagerSilence := mkAlertmanagerSilence {
  sil_ID : string;
  sil_Status : option SilenceStatus;
  sil_Matchers : list SilenceMatcher;
  sil_StartsAt : Z;
  sil_EndsAt : Z;
  sil_CreatedBy : string;
  sil_Comment : msg;
}.

Definition set_ID (id : string) (s : AlertmanagerSilence) : AlertmanagerSilence :=
  mkAlertmanagerSilence id (sil_Status s) (sil_Matchers s) (sil_StartsAt s) (sil_EndsAt s) (sil_CreatedBy s) (sil_Comment s).

(** [t.Sub(u)]: a difference that does not fit is the extreme duration. *)
Definition time_Sub (t u : Z) : Z := (Z.max (- 2 ^ 63) (Z.min MaxInt64 (t - u)))%Z.

(** [time.Date(3000, 1, 1, 0, 0, 0, 0, time.UTC)]: 32503680000 seconds after the epoch. *)
Definition maxTime : Z := (32503680000 * Second)%Z.

(** ** HTTP *)

(** Errors of a request; a host name that does not resolve is recognised. *)
Inductive http_error := DNSError (m : msg) | HttpError (m : msg).
Definition http_error_msg (e : http_error) : msg := match e with DNSError m | HttpError m => m end.

(** The network with the state of Alertmanager behind it, and the JSON of silences. *)
Class AlertmanagerHttp (A : Type) : Type := {
  os_ReadFile : A → string → msg + string;
  http_NewRequest : string → option msg;
  http_Get : A → string → string → http_error + (Z * string);
  http_Post : A → string → string → string → A * (http_error + (Z * string));
  json_decode : string → msg + list AlertmanagerSilence;
  json_encode : AlertmanagerSilence → msg + string;
}.

Section Silencer.
Context {A : Type} {AH : AlertmanagerHttp A}.
(** The namespace of the request and the resource, with the name of the database cluster
    ([None] before it exists). *)
Context (Namespace : string) (NooBaa : NooBaa) (CNPGCluster : option string).

Definition shouldReconcileCNPGCluster : bool :=
  negb (isNil (nbs_DBSpec (nb_Spec NooBaa))) && isNil (nbs_ExternalPgSecret (nb_Spec NooBaa)).

(** An [AlertmanagerClient] is its base URL and its token. *)
Record AlertmanagerClient := mkAlertmanagerClient { amc_baseURL : string; amc_token : string }.

Definition newAlertmanagerClient (a : A) (baseURL : string) : error + AlertmanagerClient :=
  match os_ReadFile a ServiceAccountTokenPath with
  | inl m => inl (Errorf (Sprintf "failed to read service account token: %w" [AMsg m]))
  | inr token => inr (mkAlertmanagerClient baseURL token)
  end.

Definition silencesURL (c : AlertmanagerClient) : string := amc_baseURL c +:+ "/api/v2/silences".

(** The error says whether it is a [net.DNSError]. *)
Definition listSilences (a : A) (c : AlertmanagerClient) : (bool * error) + list AlertmanagerSilence :=
  match http_NewRequest (silencesURL c) with
  | Some m => inl (false, Errorf (Sprintf "failed to create request: %w" [AMsg m]))
  | None =>
      match http_Get a (silencesURL c) (amc_token c) with
      | inl (DNSError m) => inl (true, Errorf m)
      | inl (HttpError m) => inl (false, Errorf m)
      | inr (status, body) =>
          if negb (status =? 200)%Z then inl (false, Errorf (Sprintf "unexpected status code %d: %s" [AInt status; AStr body]))
          else match json_decode body with
               | inl m => inl (false, Errorf (Sprintf "failed to decode response: %w" [AMsg m]))
               | inr silences => inr silences
               end
      end
  end.

Definition createOrUpdateSilence (a : A) (c : AlertmanagerClient) (silence : AlertmanagerSilence) : A * option error :=
  match json_encode silence with
  | inl m => (a, Some (Errorf (Sprintf "failed to marshal silence: %w" [AMsg m])))
  | inr body =>
      match http_NewRequest (silencesURL c) with
      | Some m => (a, Some (Errorf (Sprintf "failed to create request: %w" [AMsg m])))
      | None =>
          match http_Post a (silencesURL c) (amc_token c) body with
          | (a, inl e) => (a, Some (Errorf (Sprintf "failed to execute request: %w" [AMsg (http_error_msg e)])))
          | (a, inr (status, respBody)) =>
              if negb (status =? 200)%Z && negb (status =? 201)%Z
              then (a, Some (Errorf (Sprintf "unexpected status code %d: %s" [AInt status; AStr respBody])))
              else (a, None)
          end
      end
  end.

(** ** The silence *)

Definition budgetName (cluster : string) : string := cluster +:+ "-primary".

Definition equalMatcher (name value : string) : SilenceMatcher := mkSilenceMatcher name value false true.

Definition silenceComment (cluster : string) : msg :=
  Sprintf ("The PodDisruptionBudgetAtLimit alert for the NooBaa CNPG cluster %s is silenced by noobaa-operator. " +:+
    "The alert is expected and does not indicate a problem. " +:+
    "The PDB %s has disruptionsAllowed=0 by design to prevent the primary instance from being deleted during node drains. " +:+
    "This is safe because CNPG automatically performs a graceful switchover to a secondary instance when a node is drained. " +:+
    "Once the instance in the node is downgraded and is no longer the primary, draining can resume. ")
    [AStr cluster; AStr (budgetName cluster)].

Definition CreateCNPGPDBSilence (now : Z) (cluster : string) : AlertmanagerSilence :=
  mkAlertmanagerSilence "" None
    [equalMatcher "alertname" PodDisruptionBudgetAtLimitAlertName;
     equalMatcher "namespace" Namespace;
     equalMatcher "poddisruptionbudget" (budgetName cluster)]
    now maxTime "noobaa-operator" (silenceComment cluster).

(** A matcher of the loop. *)
Definition matches (name value : string) (m : SilenceMatcher) : bool :=
  (sm_Name m == name) && (sm_Value m == value) && negb (sm_IsRegex m).

Definition IsCNPGPDBSilence (cluster : string) (silence : AlertmanagerSilence) : bool :=
  if negb (sil_CreatedBy silence == "noobaa-operator") then false
  else existsb (matches "alertname" PodDisruptionBudgetAtLimitAlertName) (sil_Matchers silence)
       && existsb (matches "namespace" Namespace) (sil_Matchers silence)
       && existsb (matches "poddisruptionbudget" (budgetName cluster)) (sil_Matchers silence).

(** ** The reconciliation *)

(** Looks after the silence, once Alertmanager has listed the silences it has. *)
Definition keepSilence (now : Z) (cluster : string) (c : AlertmanagerClient) (existingSilences : list AlertmanagerSilence) (a : A) :
    A * option error :=
  let silence := CreateCNPGPDBSilence now cluster in
  match List.find (IsCNPGPDBSilence cluster) existingSilences with
  | Some existing =>
      if (time_Sub (sil_EndsAt existing) now <? 24 * Hour)%Z
      then createOrUpdateSilence a c (set_ID (sil_ID existing) silence)
      else (a, None)
  | None => createOrUpdateSilence a c silence
  end.

(** [last] is the package variable [lastSilenceCheckTime], [None] being the zero time. *)
Definition ReconcilePDBAlertSilencer (now : Z) (last : option Z) (a : A) : A * option Z * option error :=
  if negb shouldReconcileCNPGCluster then (a, last, None)
  else
    match CNPGCluster with
    | None | Some EmptyString => (a, last, None)
    | Some cluster =>
        if match last with Some t => (time_Sub now t <? SilenceCheckInterval)%Z | None => false end then (a, last, None)
        else
          let host := map_get (om_Annotations (nb_meta NooBaa)) AlertmanagerHostOverride in
          match newAlertmanagerClient a (if host == "" then AlertmanagerSvcHost else host) with
          | inl err => (a, last, Some err)
          | inr c =>
              match listSilences a c with
              | inl (true, _) => (a, Some now, None)
              | inl (false, err) => (a, last, Some err)
              | inr existing =>
                  match keepSilence now cluster c existing a with
                  | (a, Some err) => (a, last, Some err)
                  | (a, None) => (a, Some now, None)
                  end
              end
          end
    end.
End Silencer.

(** ** Recognising the silence *)

Lemma append_inj_r (a b s : string) : a +:+ s = b +:+ s → a = b.
Proof.
  revert b. induction a as [|c a IH]; intros [|c' b] H; [done| | |].
  - apply (f_equal String.length) in H. rewrite !string_length_app in H. cbn in H. lia.
  - apply (f_equal String.length) in H. rewrite !string_length_app in H. cbn in H. lia.
  - injection H as -> H. f_equal. by apply IH.
Qed.

#[export] Instance budgetName_inj : Inj (=) (=) budgetName.
Proof. intros c c' H. by apply append_inj_r in H. Qed.

Lemma matches_equalMatcher name value name' value' :
  matches name value (equalMatcher name' value') = bool_decide (name' = name) && bool_decide (value' = value).
Proof. unfold matches. cbn. by rewrite andb_true_r. Qed.

(** The operator recognises the silences that it creates, and only those for the same
    namespace and the same database cluster: the operators of two systems do not take
    each other's silences for their own. *)
Theorem IsCNPGPDBSilence_own namespace namespace' now cluster cluster' id :
  IsCNPGPDBSilence namespace cluster (set_ID id (CreateCNPGPDBSilence namespace' now cluster')) = true ↔
  namespace = namespace' ∧ cluster = cluster'.
Proof.
  unfold IsCNPGPDBSilence. cbn [set_ID CreateCNPGPDBSilence sil_CreatedBy sil_Matchers existsb].
  rewrite !matches_equalMatcher.
  rewrite (bool_decide_true ("noobaa-operator"%string = _)), (bool_decide_true ("alertname"%string = "alertname"%string)),
    (bool_decide_true (PodDisruptionBudgetAtLimitAlertName = _)) by done.
  rewrite (bool_decide_false ("alertname"%string = "namespace"%string)), (bool_decide_true ("namespace"%string = "namespace"%string)),
    (bool_decide_false ("poddisruptionbudget"%string = "namespace"%string)),
    (bool_decide_false ("alertname"%string = "poddisruptionbudget"%string)),
    (bool_decide_false ("namespace"%string = "poddisruptionbudget"%string)),
    (bool_decide_true ("poddisruptionbudget"%string = "poddisruptionbudget"%string)) by done.
  cbn [negb andb orb]. rewrite !orb_false_r, andb_true_iff, !bool_decide_eq_true. split.
  - by intros [<- H%(inj budgetName)].
  - by intros [-> ->].
Qed.

(** ** When Alertmanager is left alone *)

Section Quiet.
Context {A : Type} {AH : AlertmanagerHttp A} (Namespace : string) (nb : NooBaa) (cluster : string).

(** The address that the client is made for. *)
Definition alertmanagerHost : string :=
  let host := map_get (om_Annotations (nb_meta nb)) AlertmanagerHostOverride in
  if host == "" then AlertmanagerSvcHost else host.

(** Alertmanager answers, and the silence that it lists for the cluster is the one that
    the operator creates, under some identifier. *)
Definition silenced (a : A) : Prop :=
  ∃ c silences id start, newAlertmanagerClient a alertmanagerHost = inr c ∧ listSilences a c = inr silences ∧
    List.find (IsCNPGPDBSilence Namespace cluster) silences = Some (set_ID id (CreateCNPGPDBSilence Namespace start cluster)).

(** Whether the last look is less than an hour old. *)
Definition recent (now : Z) (last : option Z) : bool :=
  match last with Some t => (time_Sub now t <? SilenceCheckInterval)%Z | None => false end.

Lemma ReconcilePDBAlertSilencer_skips now last a :
  shouldReconcileCNPGCluster nb = false ∨ cluster = ""%string ∨ recent now last = true →
  ReconcilePDBAlertSilencer Namespace nb (Some cluster) now last a = (a, last, None).
Proof.
  unfold ReconcilePDBAlertSilencer. destruct (shouldReconcileCNPGCluster nb); [|done].
  intros [?|[->|Hr]]; [done|done|]. cbn [negb]. destruct cluster; [done|]. unfold recent in Hr. by rewrite Hr.
Qed.

Lemma ReconcilePDBAlertSilencer_silenced now last a :
  silenced a → (now + 24 * Hour ≤ maxTime)%Z →
  shouldReconcileCNPGCluster nb = true → cluster ≠ ""%string → recent now last = false →
  ReconcilePDBAlertSilencer Namespace nb (Some cluster) now last a = (a, Some now, None).
Proof.
  intros (c & silences & id & start & Hc & Hl & Hf) Hn Hs Hne Hr. unfold ReconcilePDBAlertSilencer. rewrite Hs. cbn [negb].
  unfold recent in Hr. rewrite Hr. fold alertmanagerHost. rewrite Hc, Hl. unfold keepSilence. rewrite Hf.
  cbn [set_ID CreateCNPGPDBSilence sil_EndsAt]. destruct (Z.ltb_spec (time_Sub maxTime now) (24 * Hour)) as [Hx|_].
  - exfalso. unfold time_Sub in Hx. assert (24 * Hour < MaxInt64)%Z by done. lia.
  - by destruct cluster.
Qed.

(** Within an hour of a recorded look nothing is asked: the reconcile is the same whatever
    the network and Alertmanager behind it would do. *)
Lemma ReconcilePDBAlertSilencer_hour now t {A' : Type} (AH' : AlertmanagerHttp A') (a : A') :
  (t ≤ now < t + SilenceCheckInterval)%Z →
  ReconcilePDBAlertSilencer (AH:=AH') Namespace nb (Some cluster) now (Some t) a = (a, Some t, None).
Proof.
  intros Ht. unfold ReconcilePDBAlertSilencer. destruct (shouldReconcileCNPGCluster nb); [|done]. cbn [negb].
  destruct cluster; [done|]. destruct (Z.ltb_spec (time_Sub now t) SilenceCheckInterval) as [|Hx]; [done|].
  exfalso. unfold time_Sub in Hx. assert (SilenceCheckInterval < MaxInt64)%Z by done. lia.
Qed.

(** Every reconcile that asked and met no error records when it did; one that failed does
    not, and so the next one asks again. *)
Lemma ReconcilePDBAlertSilencer_recorded now last a a' last' err :
  ReconcilePDBAlertSilencer Namespace nb (Some cluster) now last a = (a', last', err) →
  shouldReconcileCNPGCluster nb = true → cluster ≠ ""%string → recent now last = false →
  last' = match err with None => Some now | Some _ => last end.
Proof.
  intros Hrun Hs Hne Hr. revert Hrun. unfold ReconcilePDBAlertSilencer. rewrite Hs. cbn [negb].
  unfold recent in Hr. rewrite Hr. destruct cluster; [done|]. intros Hrun.
  repeat case_match; by simplify_eq.
Qed.

(** C37: The operator asks Alertmanager at most once an hour: a reconcile that asks and meets
    no error records the time, and during the hour after a recorded time the outcome of a
    reconcile is the same whatever the network and Alertmanager would answer.  Once the
    silence is there the operator only looks: until a day before the year 3000 no reconcile
    changes anything in Alertmanager, and none fails. *)
Theorem ReconcilePDBAlertSilencer_quiet now last a a' last' err :
  ReconcilePDBAlertSilencer Namespace nb (Some cluster) now last a = (a', last', err) →
  shouldReconcileCNPGCluster nb = true → cluster ≠ ""%string →
  last' = (if recent now last then last else match err with None => Some now | Some _ => last end) ∧
  (∀ (B : Type) (BH : AlertmanagerHttp B) (b : B) now' t, last' = Some t → (t ≤ now' < t + SilenceCheckInterval)%Z →
     ReconcilePDBAlertSilencer (AH:=BH) Namespace nb (Some cluster) now' last' b = (b, last', None)) ∧
  (silenced a → (now + 24 * Hour ≤ maxTime)%Z → a' = a ∧ err = None).
Proof.
  intros Hrun Hs Hne. split_and!.
  - destruct (recent now last) eqn:Hr; [|by eapply ReconcilePDBAlertSilencer_recorded].
    rewrite ReconcilePDBAlertSilencer_skips in Hrun by auto. by injection Hrun.
  - intros B BH b now' t -> Ht. by apply ReconcilePDBAlertSilencer_hour.
  - intros Hsil Hn. destruct (recent now last) eqn:Hr.
    + rewrite ReconcilePDBAlertSilencer_skips in Hrun by auto. by injection Hrun.
    + rewrite ReconcilePDBAlertSilencer_silenced in Hrun by done. by injection Hrun.
Qed.
End Quiet.
