(* ===== verification/Watches.v ===== *)
(** * What wakes the controllers up: [pkg/util/predicates.go], the watches of
    [pkg/controller], the functions that map a changed object to the resources that
    depend on it, and the high-availability controller of [pkg/hac].

    A predicate is a function from events to whether they are let through; those of
    controller-runtime that the code composes its own with are parameters. *)

From S2P Require Import Prelude GoStrings Types NbTypes Kube Util StoreAccess BucketClassValidation Controller.
From S2P Require BackingStoreReconciler.

(** ** Predicates *)

(** The four events of a watched object; an object can be nil. *)
Inductive Event (O : Type) :=
  | CreateEvent (Object : option O)
  | DeleteEvent (Object : option O)
  | UpdateEvent (ObjectOld ObjectNew : option O)
  | GenericEvent (Object : option O).
Arguments CreateEvent {O}.
Arguments DeleteEvent {O}.
Arguments UpdateEvent {O}.
Arguments GenericEvent {O}.

Abbreviation Predicate O := (Event O → outcome bool).

(** [predicate.Funcs] with only [UpdateFunc] set lets the other events through. *)
Definition OnUpdate {O} (f : option O → option O → bool) (e : Event O) : outcome bool :=
  Ret match e with UpdateEvent old new => f old new | _ => true end.

(** The loop over predicates, nil ones apart. *)
Fixpoint ComposePredicates {O} (predicates : list (option (Predicate O))) (e : Event O) : outcome bool :=
  match predicates with
  | [] => Ret false
  | None :: rest => ComposePredicates rest e
  | Some p :: rest => b ← p e; if b : bool then Ret true else ComposePredicates rest e
  end.

Section Predicates.
Context {O : Type} `{MetaObject O}.

(** An update that both objects of are there and that changes [f]. *)
Definition changed {A} `{EqDecision A} (f : ObjectMeta → A) (old new : option O) : bool :=
  match old, new with Some o, Some n => negb (f (meta o) == f (meta n)) | _, _ => false end.

Definition LabelsChangedPredicate : Predicate O := OnUpdate (changed om_Labels).

Definition FinalizersChangedPredicate : Predicate O := OnUpdate (changed om_Finalizers).

(** The first owner that is a controller has the kind of the expected owner;
    [kinds] is what the scheme knows of it. *)
Definition hasCorrectOwner (kinds : error + list string) (arr : list OwnerReference) : bool :=
  match List.find (λ r, match or_Controller r with Some c => c | None => false end) arr with
  | None => false
  | Some controllerRef => match kinds with inr [kind] => or_Kind controllerRef == kind | _ => false end
  end.

Definition FilterForOwner (kinds : error + list string) : Predicate O := λ e,
  obj ← deref match e with CreateEvent o | DeleteEvent o | GenericEvent o => o | UpdateEvent _ n => n end;
  Ret (hasCorrectOwner kinds (om_OwnerReferences (meta obj))).

(** It lets everything through and logs it. *)
Definition LogEventsPredicate : Predicate O := λ _, Ret true.

Definition IgnoreIfNotInNamespace (ns : string) : Predicate O := λ e,
  Ret match match e with CreateEvent o | DeleteEvent o | GenericEvent o => o | UpdateEvent _ n => n end with
      | None => false
      | Some obj => om_Namespace (meta obj) == ns
      end.

Definition isObjectForProvisioner (obj : O) (noobaaOperatorNamespace : string) : bool :=
  match default ∅ (om_Labels (meta obj)) !! "noobaa-operator"%string with
  | None => om_Namespace (meta obj) == noobaaOperatorNamespace
  | Some provisionerLabel => provisionerLabel == noobaaOperatorNamespace
  end.

Definition ignoreUnmatchedProvisioner (noobaaOperatorNamespace : string) : Predicate O := λ e,
  obj ← deref match e with CreateEvent o | DeleteEvent o | GenericEvent o => o | UpdateEvent _ n => n end;
  Ret (isObjectForProvisioner obj noobaaOperatorNamespace).

(** Events that change the spec, the labels or the finalizers; [generationChanged] is
    [predicate.GenerationChangedPredicate] of controller-runtime. *)
Definition specPredicate (generationChanged : Predicate O) (more : list (option (Predicate O))) : Predicate O :=
  ComposePredicates (Some generationChanged :: Some LabelsChangedPredicate :: Some FinalizersChangedPredicate :: more).

(** A watch lets an event through when all its predicates do. *)
Fixpoint watched (predicates : list (Predicate O)) (e : Event O) : outcome bool :=
  match predicates with
  | [] => Ret true
  | p :: rest => b ← p e; if b : bool then watched rest e else Ret false
  end.
End Predicates.

(** ** The watches of the controllers *)

Definition backingStoreModeChangedPredicate {QA} : Predicate (BackingStore QA) :=
  OnUpdate (λ old new, match old, new with
                       | Some o, Some n => negb (bst_ModeCode (bs_Status o) == bst_ModeCode (bs_Status n))
                       | _, _ => false
                       end).

Definition namespaceStoreModeChangedPredicate : Predicate NamespaceStore :=
  OnUpdate (λ old new, match old, new with
                       | Some o, Some n => negb (nst_ModeCode (ns_Status o) == nst_ModeCode (ns_Status n))
                       | _, _ => false
                       end).

Definition watchBackingStore {QA} (generationChanged : Predicate (BackingStore QA)) : Predicate (BackingStore QA) :=
  watched [specPredicate generationChanged [Some backingStoreModeChangedPredicate]; LogEventsPredicate].

Definition watchNamespaceStore (generationChanged : Predicate NamespaceStore) : Predicate NamespaceStore :=
  watched [specPredicate generationChanged [Some namespaceStoreModeChangedPredicate]; LogEventsPredicate].

Definition watchBucketClass (Namespace : string) (generationChanged : Predicate BucketClass) : Predicate BucketClass :=
  watched [ignoreUnmatchedProvisioner Namespace; specPredicate generationChanged []; LogEventsPredicate].

(** The capacity of a Ceph cluster, [None] before it has a status. *)
Definition CephCapacityChangedPredicate {O} (capacity : O → option Z) (e : Event O) : outcome bool :=
  match e with
  | UpdateEvent (Some old) (Some new) =>
      match capacity old with
      | None => Ret (negb (isNil (capacity new)))
      | Some a => b ← deref (capacity new); Ret (negb (a =? b)%Z)
      end
  | UpdateEvent _ _ => Ret false
  | _ => Ret true
  end.

(** ** From a changed object to the resources that depend on it *)

Section Mapping.
Context {W : Type} {QA : QuantityApi}.
Context {SB : ApiServer W BucketClass} {SS : ApiServer W (BackingStore QA)} {SN : ApiServer W NamespaceStore}.

(** The loop over the items: as many requests for an item as it asks for. *)
Fixpoint requestsOf {O} `{MetaObject O} (f : O → outcome nat) (items : list O) : outcome (list ObjectKeyT) :=
  match items with
  | [] => Ret []
  | o :: rest => n ← f o; reqs ← requestsOf f rest; Ret (replicate n (ObjectKey o) ++ reqs)
  end.

(** Lists the objects of a namespace; nothing is requested when there is no list. *)
Definition mapNamespace {O} `{ApiServer W O} (w : W) (namespace : string) (f : O → outcome nat) : outcome (list ObjectKeyT) :=
  r ← KubeList (O:=O) w (λ o, om_Namespace (meta o) == namespace);
  let '(items, found) := r : list O * bool in
  if found then requestsOf f items else Ret [].

Definition countName (name : string) (names : list string) : nat := length (filter (λ n, n = name) names).

Definition MapBackingstoreToBucketclasses (w : W) (backingstore : ObjectKeyT) : outcome (list ObjectKeyT) :=
  let '(namespace, name) := backingstore in
  mapNamespace w namespace (λ bc : BucketClass,
    Ret match bcs_PlacementPolicy (bc_Spec bc) with
        | None => 0%nat
        | Some pp => countName name (mjoin (tier_BackingStores <$> pp_Tiers pp))
        end).

Definition namespacePolicyRequests (name : string) (np : NamespacePolicy) : outcome nat :=
  match np_Type np with
  | NSBucketClassTypeSingle => s ← deref (np_Single np); Ret (countName name [snp_Resource s])
  | NSBucketClassTypeCache => c ← deref (np_Cache np); Ret (countName name [cnp_HubResource c])
  | NSBucketClassTypeMulti => m ← deref (np_Multi np); Ret (countName name (mnp_WriteResource m :: mnp_ReadResources m))
  | NSBucketClassTypeOther _ => Ret 0%nat
  end.

Definition MapNamespacestoreToBucketclasses (w : W) (namespacestore : ObjectKeyT) : outcome (list ObjectKeyT) :=
  let '(namespace, name) := namespacestore in
  mapNamespace w namespace (λ bc : BucketClass,
    let spec := bc_Spec bc in
    if match bcs_ArchivePolicy spec with Some ap => ap_DeepArchiveResource ap == name | None => false end then Ret 1%nat
    else match bcs_VectorPolicy spec, bcs_NamespacePolicy spec with
         | Some vp, _ => Ret (if vp_Resource vp == name then 1%nat else 0%nat)
         | None, Some np => namespacePolicyRequests name np
         | None, None => Ret 0%nat
         end).

(** The error of a store without a secret is logged. *)
Definition MapSecretToBackingStores (w : W) (secret : ObjectKeyT) : outcome (list ObjectKeyT) :=
  let '(namespace, name) := secret in
  mapNamespace w namespace (λ bs : BackingStore QA,
    r ← GetBackingStoreSecret bs;
    Ret match r with inr ref => if sr_Name ref == name then 1%nat else 0%nat | inl _ => 0%nat end).

Definition MapNoobaaToBackingStores (w : W) (noobaa : ObjectKeyT) : outcome (list ObjectKeyT) :=
  mapNamespace w noobaa.1 (λ _ : BackingStore QA, Ret 1%nat).

Definition MapSecretToNamespaceStores (w : W) (secret : ObjectKeyT) : outcome (list ObjectKeyT) :=
  let '(namespace, name) := secret in
  mapNamespace w namespace (λ ns : NamespaceStore,
    r ← GetNamespaceStoreSecret ns;
    Ret match r with inr (Some ref) => if sr_Name ref == name then 1%nat else 0%nat | _ => 0%nat end).

(** The storage class of the provisioner wakes up the system. *)
Definition storageClassHandler (provisioner : option string) (ObjectBucketProvisionerName Namespace SystemName : string) :
    list ObjectKeyT :=
  match provisioner with
  | Some p => if p == ObjectBucketProvisionerName then [(Namespace, SystemName)] else []
  | None => []
  end.
End Mapping.

(** ** The high-availability controller *)

(** A node and a pod as far as the controller looks at them. *)
Record Node := mkNode { node_meta : ObjectMeta; node_Conditions : list (string * string) }.
#[export, refine] Instance Node_MetaObject : MetaObject Node :=
  {| meta := node_meta; set_meta := λ m n, mkNode m (node_Conditions n) |}.
Proof. done. Defined.
#[export, refine] Instance Node_KubeObject : KubeObject Node := {| resetStringData := id |}.
Proof. done. Defined.

Record NodePod := mkNodePod { npod_meta : ObjectMeta; npod_NodeName : string }.
#[export, refine] Instance NodePod_MetaObject : MetaObject NodePod :=
  {| meta := npod_meta; set_meta := λ m p, mkNodePod m (npod_NodeName p) |}.
Proof. done. Defined.
#[export, refine] Instance NodePod_KubeObject : KubeObject NodePod := {| resetStringData := id |}.
Proof. done. Defined.

Definition nodeIsReady (node : Node) : bool :=
  existsb (λ '(t, status), (t == "Ready") && (status == "True")) (node_Conditions node).

(** Nodes that were ready and are no longer. *)
Definition nodeNotReadyPredicate (e : Event Node) : outcome bool :=
  match e with
  | UpdateEvent old new => oldNode ← deref old; newNode ← deref new; Ret (nodeIsReady oldNode && negb (nodeIsReady newNode))
  | _ => Ret false
  end.

Section HighAvailability.
Context {W : Type} {SP : ApiServer W NodePod} {SD : ApiServer W Node}.
Context (Namespace : string).

(** The pods of NooBaa on a node, in the watched namespace. *)
Definition podsOnNode (NodeName : string) (p : NodePod) : bool :=
  (map_get (om_Labels (npod_meta p)) "app" == "noobaa") && (om_Namespace (npod_meta p) == Namespace)
  && (npod_NodeName p == NodeName).

Definition isDBPod (p : NodePod) : bool := HasPrefix (om_Name (npod_meta p)) "noobaa-db-pg-".

(** The loop over the pods; [Delete] is the request with a grace period of zero. *)
Fixpoint deletePods (w : W) (pods : list NodePod) : W * option error :=
  match pods with
  | [] => (w, None)
  | pod :: rest =>
      if isDBPod pod then deletePods w rest
      else match srv_Delete w pod with
           | (w, Some e) => (w, Some (Errorf (api_error_msg e)))
           | (w, None) => deletePods w rest
           end
  end.

Definition DeletePodsOnNode (w : W) (NodeName : string) : outcome (W * option error) :=
  '(pods, found) ← KubeList w (podsOnNode NodeName);
  Ret (if found : bool then deletePods w pods
       else (w, Some (Errorf (Sprintf "failed to list noobaa pods on the node %v in namespace %v" [AStr NodeName; AStr Namespace])))).

Definition deletionFailed (NodeName : string) : error :=
  Errorf (Sprintf "failed to delete noobaa pods on the node %v in namespace %v" [AStr NodeName; AStr Namespace]).

(** [Reconcile] of a node that became unavailable. *)
Definition HAC_Reconcile (w : W) (NodeName : string) : outcome (W * option error) :=
  '(w, err) ← DeletePodsOnNode w NodeName;
  Ret (w, match err with Some _ => Some (deletionFailed NodeName) | None => None end).

Fixpoint deletePodsOnNodes (w : W) (nodes : list Node) : outcome (W * option error) :=
  match nodes with
  | [] => Ret (w, None)
  | node :: rest =>
      if nodeIsReady node then deletePodsOnNodes w rest
      else
        '(w, err) ← DeletePodsOnNode w (om_Name (node_meta node));
        match err with
        | Some _ => Ret (w, Some (deletionFailed (om_Name (node_meta node))))
        | None => deletePodsOnNodes w rest
        end
  end.

Definition deletePodsOnStartup (w : W) : outcome (W * option error) :=
  '(nodes, found) ← KubeList (O:=Node) w (λ _, true);
  if found : bool then deletePodsOnNodes w nodes else Ret (w, Some (Errorf (Lit "failed to list nodes"))).

(** ** What a deletion does *)

(** Documented behaviour of a deletion without grace: an accepted one removes an object
    that has no finalizers, and no deletion touches another object. *)
Class ForceDeletion : Prop := {
  force_gone w (p : NodePod) w' :
    om_Finalizers (npod_meta p) = [] → srv_Delete w p = (w', None) → ∃ e, srv_Get (O:=NodePod) w' (ObjectKey p) = inl e;
  force_other w (p : NodePod) w' r k : srv_Delete w p = (w', r) → k ≠ ObjectKey p → srv_Get (O:=NodePod) w' k = srv_Get w k;
}.
Context {FD : ForceDeletion}.

Lemma deletePods_spares w pods w' err k :
  deletePods w pods = (w', err) → HasPrefix k.2 "noobaa-db-pg-" = true → srv_Get (O:=NodePod) w' k = srv_Get w k.
Proof.
  intros Hd Hk. revert w Hd. induction pods as [|p pods IH]; intros w; cbn [deletePods]; [by intros [= <- _]|].
  destruct (isDBPod p) eqn:Hp; [apply IH|]. assert (Hne : k ≠ ObjectKey p) by (intros ->; change (isDBPod p = true) in Hk; congruence).
  destruct (srv_Delete w p) as [w1 [e|]] eqn:Hs.
  - intros [= <- _]. by apply (force_other _ _ _ _ _ Hs).
  - intros Hr. rewrite (IH _ Hr). by apply (force_other _ _ _ _ _ Hs).
Qed.

(** What is gone stays gone: a pod is read only as it was before. *)
Lemma deletePods_gone w pods w' p :
  om_Finalizers (npod_meta p) = [] → deletePods w pods = (w', None) →
  (∃ e, srv_Get (O:=NodePod) w (ObjectKey p) = inl e) → (∀ q, q ∈ pods → ObjectKey q = ObjectKey p → om_Finalizers (npod_meta q) = []) →
  ∃ e, srv_Get (O:=NodePod) w' (ObjectKey p) = inl e.
Proof.
  intros Hf. revert w. induction pods as [|q pods IH]; intros w; cbn [deletePods]; [by intros [= <-]|].
  intros Hd Hg Hq. destruct (isDBPod q); [apply (IH w); [done|done|intros; apply Hq; [by right|done]]|].
  destruct (srv_Delete w q) as [w1 [e|]] eqn:Hs; [done|]. apply (IH _ Hd); [|intros; apply Hq; [by right|done]].
  destruct (decide (ObjectKey q = ObjectKey p)) as [He|Hne]; [|by rewrite (force_other _ _ _ _ _ Hs)].
  rewrite <-He. eapply force_gone; [apply Hq; [by left|done]|done].
Qed.

Lemma deletePods_success w pods w' :
  deletePods w pods = (w', None) → NoDup (ObjectKey <$> pods) →
  ∀ p, p ∈ pods → isDBPod p = false → om_Finalizers (npod_meta p) = [] → ∃ e, srv_Get (O:=NodePod) w' (ObjectKey p) = inl e.
Proof.
  revert w. induction pods as [|p pods IH]; intros w; cbn [deletePods]; [by intros _ _ ? ?%elem_of_nil|].
  intros Hd [Hnew Hnd]%NoDup_cons q [->|Hq]%elem_of_cons Hdb.
  - rewrite Hdb in Hd. destruct (srv_Delete w p) as [w1 [e|]] eqn:Hs; [done|]. intros Hf.
    eapply deletePods_gone; [done|done|by eapply force_gone|]. intros q Hq He. destruct Hnew. rewrite <-He. by apply list_elem_of_fmap_2.
  - destruct (isDBPod p); [by eapply IH|]. destruct (srv_Delete w p) as [w1 [e|]]; [done|]. by eapply IH.
Qed.

(** C34: When the controller reports that a node has been cleared, every pod of NooBaa that
    was listed there, is not of the database and has no finalizers is gone; and whatever it
    reports, the pods of the database are untouched. *)
Theorem HAC_Reconcile_clears w node w' err pods :
  HAC_Reconcile w node = Ret (w', err) → srv_List w (podsOnNode node) = inr pods → NoDup (ObjectKey <$> pods) →
  (err = None → ∀ p, p ∈ pods → isDBPod p = false → om_Finalizers (npod_meta p) = [] →
     ∃ e, srv_Get (O:=NodePod) w' (ObjectKey p) = inl e) ∧
  (∀ k, HasPrefix k.2 "noobaa-db-pg-" = true → srv_Get (O:=NodePod) w' k = srv_Get w k).
Proof.
  unfold HAC_Reconcile, DeletePodsOnNode, KubeList. intros H Hl Hnd. rewrite Hl in H. cbn [mbind outcome_bind] in H.
  destruct (deletePods w pods) as [w1 e1] eqn:Hd. injection H as <- He. split.
  - intros ->. destruct e1; [done|]. by eapply deletePods_success.
  - intros k Hk. by eapply deletePods_spares.
Qed.
End HighAvailability.

(** ** Which events get through *)

(** A composition lets through what one of its predicates does. *)
Lemma ComposePredicates_any {O} (predicates : list (option (Predicate O))) e (f : Predicate O → bool) :
  Forall (λ o, ∀ p, o = Some p → p e = Ret (f p)) predicates →
  ComposePredicates predicates e = Ret (existsb (λ o, match o with Some p => f p | None => false end) predicates).
Proof.
  induction 1 as [|[p|] l Hp _ IH]; cbn [ComposePredicates existsb]; [done| |done].
  rewrite (Hp p eq_refl). cbn [mbind outcome_bind]. by destruct (f p).
Qed.

Section Updates.
Context {O : Type} `{MetaObject O}.
(** Documented behaviour of [predicate.GenerationChangedPredicate]. *)
Context (generationChanged : Predicate O).
Hypothesis generationChanged_spec : ∀ e, generationChanged e = OnUpdate (changed om_Generation) e.

Lemma specPredicate_update more old new b :
  ComposePredicates more (UpdateEvent (Some old) (Some new)) = Ret b →
  specPredicate generationChanged more (UpdateEvent (Some old) (Some new)) =
  Ret (negb ((om_Generation (meta old) == om_Generation (meta new)) && (om_Labels (meta old) == om_Labels (meta new))
             && (om_Finalizers (meta old) == om_Finalizers (meta new))) || b).
Proof.
  intros Hm. unfold specPredicate. cbn [ComposePredicates]. rewrite generationChanged_spec.
  unfold LabelsChangedPredicate, FinalizersChangedPredicate, OnUpdate, changed. cbn [mbind outcome_bind].
  destruct (om_Generation (meta old) == _); cbn [negb andb]; [|done].
  destruct (om_Labels (meta old) == _); cbn [negb andb]; [|done].
  destruct (om_Finalizers (meta old) == _); cbn [negb andb orb]; [|done]. done.
Qed.
End Updates.

(** Two versions of a store that differ in nothing the watch looks at. *)
Definition sameForWatch {QA} (old new : BackingStore QA) : Prop :=
  om_Generation (bs_meta old) = om_Generation (bs_meta new) ∧ om_Labels (bs_meta old) = om_Labels (bs_meta new) ∧
  om_Finalizers (bs_meta old) = om_Finalizers (bs_meta new) ∧ bst_ModeCode (bs_Status old) = bst_ModeCode (bs_Status new).

(** An update of a backing store wakes its controller exactly when it changes the spec,
    the labels, the finalizers or the mode. *)
Lemma watchBackingStore_silent {QA} generationChanged (old new : BackingStore QA) :
  (∀ e, generationChanged e = OnUpdate (changed om_Generation) e) →
  watchBackingStore generationChanged (UpdateEvent (Some old) (Some new)) = Ret false ↔ sameForWatch old new.
Proof.
  intros Hg. unfold watchBackingStore, sameForWatch. cbn [watched].
  rewrite (specPredicate_update _ Hg _ _ _ (negb (bst_ModeCode (bs_Status old) == bst_ModeCode (bs_Status new)))).
  - cbn [mbind outcome_bind LogEventsPredicate]. unfold meta. cbn [BackingStore_MetaObject].
    repeat case_bool_decide; cbn; naive_solver.
  - cbn. by case_bool_decide.
Qed.

(** The controller does not wake itself up: whatever a reconcile of a backing store ended
    with, the status that it writes at its end is not an event that gets through. *)
Theorem completeReconcile_unwatched {QA CA W N} now statusUpdate generationChanged
    (st st' : BackingStoreReconciler.State QA W N) err res :
  (∀ e, generationChanged e = OnUpdate (changed om_Generation) e) →
  BackingStoreReconciler.completeReconcile (CA:=CA) now statusUpdate st err = Ret (st', res) →
  watchBackingStore generationChanged
    (UpdateEvent (Some (BackingStoreReconciler.st_store st)) (Some (BackingStoreReconciler.st_store st'))) = Ret false.
Proof.
  intros Hg Hc. apply watchBackingStore_silent; [done|].
  assert (Hp : ∀ phase reason message bs, sameForWatch bs (BackingStoreReconciler.SetPhase (QA:=QA) (CA:=CA) now bs phase reason message))
    by (by intros [] ? ? bs).
  revert Hc. unfold BackingStoreReconciler.completeReconcile.
  destruct (match err with Some (PersistentError _ _) => _ | Some _ => _ | None => _ end) as [st1 r1] eqn:E.
  unfold BackingStoreReconciler.UpdateStatus. destruct (statusUpdate _ _) as [w e]. cbn [mbind outcome_bind].
  intros [= <- _]. cbn [BackingStoreReconciler.set_cluster BackingStoreReconciler.st_store].
  repeat case_match; simplify_eq; (apply Hp || done).
Qed.

(** ** Which resources are reconciled *)

Section MappingFacts.
Context {W : Type} {QA : QuantityApi}.
Context {SB : ApiServer W BucketClass} {SS : ApiServer W (BackingStore QA)} {SN : ApiServer W NamespaceStore}.

Lemma countName_pos name names : (0 < countName name names)%nat ↔ name ∈ names.
Proof.
  unfold countName. induction names as [|n l IH]; [split; [cbn; lia|by intros ?%elem_of_nil]|].
  rewrite filter_cons, elem_of_cons. destruct (decide (n = name)) as [->|Hn]; [cbn; split; [by left|lia]|].
  rewrite IH. naive_solver.
Qed.

Lemma requestsOf_elem {O} `{MetaObject O} (f : O → outcome nat) items reqs :
  requestsOf f items = Ret reqs →
  ∀ k, k ∈ reqs ↔ ∃ o n, o ∈ items ∧ f o = Ret n ∧ (0 < n)%nat ∧ k = ObjectKey o.
Proof.
  revert reqs. induction items as [|o items IH]; intros reqs; cbn [requestsOf].
  - intros [= <-] k. split; [by intros ?%elem_of_nil|]. by intros (? & ? & ?%elem_of_nil & _).
  - intros (n & Hn & (rest & Hr & [= <-])%bind_Ret)%bind_Ret k. rewrite elem_of_app, elem_of_replicate, (IH _ Hr).
    split.
    + intros [[-> ?]|(o' & n' & ? & ? & ? & ->)]; [exists o, n|exists o', n']; rewrite elem_of_cons; naive_solver lia.
    + intros (o' & n' & [->|?]%elem_of_cons & ? & ? & ->); [left|right; eauto 10].
      assert (n' = n) as -> by congruence. split; [done|lia].
Qed.

Lemma mapNamespace_elem {O} `{ApiServer W O} (w : W) namespace (f : O → outcome nat) reqs items :
  mapNamespace w namespace f = Ret reqs →
  srv_List w (λ o, om_Namespace (meta o) == namespace) = inr items →
  ∀ k, k ∈ reqs ↔ ∃ o n, o ∈ items ∧ f o = Ret n ∧ (0 < n)%nat ∧ k = ObjectKey o.
Proof. unfold mapNamespace, KubeList. intros Hm Hl. rewrite Hl in Hm. by apply requestsOf_elem. Qed.

(** A change of a backing store reconciles exactly the bucket classes of its namespace
    that name it in a tier. *)
Theorem MapBackingstoreToBucketclasses_exact w namespace name items :
  srv_List (O:=BucketClass) w (λ bc, om_Namespace (bc_meta bc) == namespace) = inr items →
  ∃ reqs, MapBackingstoreToBucketclasses w (namespace, name) = Ret reqs ∧
    ∀ k, k ∈ reqs ↔ ∃ bc pp tier, bc ∈ items ∧ k = ObjectKey bc ∧ bcs_PlacementPolicy (bc_Spec bc) = Some pp ∧
      tier ∈ pp_Tiers pp ∧ name ∈ tier_BackingStores tier.
Proof.
  intros Hl. set (f := λ bc : BucketClass, Ret match bcs_PlacementPolicy (bc_Spec bc) with
    | None => 0%nat | Some pp => countName name (mjoin (tier_BackingStores <$> pp_Tiers pp)) end).
  assert (Hr : ∃ reqs, MapBackingstoreToBucketclasses w (namespace, name) = Ret reqs).
  { unfold MapBackingstoreToBucketclasses, mapNamespace, KubeList. change (@meta BucketClass _) with bc_meta. rewrite Hl.
    cbn [mbind outcome_bind]. clear. induction items as [|bc items [reqs IH]]; cbn [requestsOf]; [eauto|].
    cbn [mbind outcome_bind]. rewrite IH. cbn. eauto. }
  destruct Hr as [reqs Hr]. exists reqs. split; [done|]. intros k.
  rewrite (mapNamespace_elem _ _ _ _ _ Hr Hl). split.
  - intros (bc & n & Hin & [= <-] & Hpos & ->). destruct (bcs_PlacementPolicy (bc_Spec bc)) as [pp|] eqn:Hp; [|lia].
    apply countName_pos, list_elem_of_join in Hpos as (stores & Hs & (tier & -> & Ht)%list_elem_of_fmap). naive_solver.
  - intros (bc & pp & tier & Hin & -> & Hp & Ht & Hs). eexists bc, _. split_and!; [done|done| |done].
    rewrite Hp. apply countName_pos, list_elem_of_join. exists (tier_BackingStores tier). split; [done|]. by apply list_elem_of_fmap_2.
Qed.

(** A bucket class that the verification of which looks at a namespace store. *)
Definition usesNamespaceStore (spec : BucketClassSpec) (name : string) : Prop :=
  (∃ ap, bcs_ArchivePolicy spec = Some ap ∧ ap_DeepArchiveResource ap = name) ∨
  (∃ vp, bcs_VectorPolicy spec = Some vp ∧ vp_Resource vp = name) ∨
  (bcs_VectorPolicy spec = None ∧ ∃ np names, bcs_NamespacePolicy spec = Some np ∧
     GetBucketclassNamespaceStoreArray np = Ret names ∧ name ∈ names).

Lemma namespacePolicyRequests_spec name np names :
  name ≠ ""%string → GetBucketclassNamespaceStoreArray np = Ret names →
  ∃ n, namespacePolicyRequests name np = Ret n ∧ ((0 < n)%nat ↔ name ∈ names).
Proof.
  intros Hne. unfold GetBucketclassNamespaceStoreArray, namespacePolicyRequests. destruct (np_Type np).
  - destruct (np_Single np) as [s|]; [|done]. intros [= <-]. eexists. split; [done|apply countName_pos].
  - destruct (np_Multi np) as [m|]; [|done]. cbn [deref mbind outcome_bind]. intros H. eexists. split; [done|].
    rewrite countName_pos, elem_of_cons. case_bool_decide as Hw; injection H as <-; [rewrite Hw; naive_solver|].
    rewrite elem_of_app, list_elem_of_singleton. naive_solver.
  - destruct (np_Cache np) as [c|]; [|done]. intros [= <-]. eexists. split; [done|apply countName_pos].
  - intros [= <-]. exists 0%nat. split; [done|]. split; [lia|by intros ?%elem_of_nil].
Qed.

(** C35: A change of a namespace store reconciles exactly the bucket classes of its namespace
    that use it, through any of their policies; the sub-policy of each type has to be there. *)
Theorem MapNamespacestoreToBucketclasses_exact w namespace name items :
  name ≠ ""%string →
  srv_List (O:=BucketClass) w (λ bc, om_Namespace (bc_meta bc) == namespace) = inr items →
  Forall (λ bc, ∀ np, bcs_NamespacePolicy (bc_Spec bc) = Some np → returns (GetBucketclassNamespaceStoreArray np)) items →
  ∃ reqs, MapNamespacestoreToBucketclasses w (namespace, name) = Ret reqs ∧
    ∀ k, k ∈ reqs ↔ ∃ bc, bc ∈ items ∧ k = ObjectKey bc ∧ usesNamespaceStore (bc_Spec bc) name.
Proof.
  intros Hne Hl Hf. unfold MapNamespacestoreToBucketclasses. set (f := λ bc : BucketClass, _).
  assert (Hspec : ∀ bc, bc ∈ items → ∃ n, f bc = Ret n ∧ ((0 < n)%nat ↔ usesNamespaceStore (bc_Spec bc) name)).
  { intros bc Hin. rewrite Forall_forall in Hf. specialize (Hf bc Hin). subst f. cbv beta zeta.
    unfold usesNamespaceStore. destruct (bc_Spec bc) as [pp np q r vp ap].
    cbn [bcs_NamespacePolicy bcs_VectorPolicy bcs_ArchivePolicy] in *.
    destruct (match ap with Some a => _ | None => _ end) eqn:Ha.
    - exists 1%nat. split; [done|]. split; [|lia]. intros _. left. destruct ap as [a|]; [|done].
      apply bool_decide_eq_true in Ha. eauto.
    - assert (Hna : ¬ ∃ a, ap = Some a ∧ ap_DeepArchiveResource a = name).
      { intros (a & -> & He). by rewrite bool_decide_true in Ha. }
      destruct vp as [v|].
      + eexists. split; [reflexivity|]. destruct (bool_decide_reflect (vp_Resource v = name)); split; (lia || naive_solver).
      + destruct np as [p|]; [|exists 0%nat; split; [done|split; [lia|naive_solver]]].
        destruct (Hf p eq_refl) as [names Hn]. destruct (namespacePolicyRequests_spec name p names Hne Hn) as (n & -> & Hc).
        exists n. split; [done|]. rewrite Hc. split; [intros ?; right; right; eauto 10|].
        intros [?|[(? & ? & _)|(_ & p' & names' & [= <-] & Hn' & ?)]]; [done|done|]. rewrite Hn in Hn'. by injection Hn' as <-. }
  assert (Hr : ∃ reqs, mapNamespace w namespace f = Ret reqs).
  { unfold mapNamespace, KubeList. change (@meta BucketClass _) with bc_meta. rewrite Hl. cbn [mbind outcome_bind].
    clear Hl Hf. induction items as [|bc items IH]; cbn [requestsOf]; [eauto|].
    destruct (Hspec bc) as (n & -> & _); [by left|]. cbn [mbind outcome_bind].
    destruct IH as [reqs ->]; [|cbn; eauto]. intros bc' ?. apply Hspec. by right. }
  destruct Hr as [reqs Hr]. exists reqs. split; [done|]. intros k. rewrite (mapNamespace_elem _ _ _ _ _ Hr Hl). split.
  - intros (bc & n & Hin & Hn & Hpos & ->). destruct (Hspec bc Hin) as (n' & Hn' & Hu). exists bc. split_and!; try done.
    apply Hu. congruence.
  - intros (bc & Hin & -> & Hu). destruct (Hspec bc Hin) as (n & Hn & Hc). exists bc, n. naive_solver.
Qed.
End MappingFacts.

(** ** The controller of Ceph clusters: [pkg/controller/cephcluster] *)

(** The available bytes of a Ceph cluster, [None] before it has a status. *)
Record CephCluster := mkCephCluster { ceph_meta : ObjectMeta; ceph_AvailableBytes : option Z }.
#[export, refine] Instance CephCluster_MetaObject : MetaObject CephCluster :=
  {| meta := ceph_meta; set_meta := λ m c, mkCephCluster m (ceph_AvailableBytes c) |}.
Proof. done. Defined.
#[export, refine] Instance CephCluster_KubeObject : KubeObject CephCluster := {| resetStringData := id |}.
Proof. done. Defined.

Section Ceph.
Context {W N : Type} {QA : QuantityApi}.
Context {SY : ApiServer W NooBaa} {SF : ApiServer W CephCluster} {SS : ApiServer W (BackingStore QA)}.
Context (Namespace SystemName : string).
(** [system.Connect] and [UpdateCloudPoolAPI]. *)
Context (connect : N → option error) (UpdateCloudPool : N → string → BigInt → N * option error).

(** A store on the object gateway of the cluster. *)
Definition isRGW (bs : BackingStore QA) : bool :=
  negb (isNil (bss_S3Compatible (bs_Spec bs)))
  && match om_Annotations (bs_meta bs) with Some m => negb (isNil (m !! "rgw"%string)) | None => false end.

Fixpoint updateCapacities (n : N) (avail : BigInt) (stores : list (BackingStore QA)) : N * option error :=
  match stores with
  | [] => (n, None)
  | bs :: rest =>
      if isRGW bs then
        match UpdateCloudPool n (om_Name (bs_meta bs)) avail with
        | (n, Some err) => (n, Some err)
        | (n, None) => updateCapacities n avail rest
        end
      else updateCapacities n avail rest
  end.

(** [log.Fatalf] ends the process: it is a panic here. *)
Definition doReconcile (w : W) (n : N) (namespace name : string) : outcome (N * option error) :=
  '(w, _, found) ← CheckSystem w (mkNooBaa (named namespace SystemName) emptyNooBaaSpec noStatus);
  if negb found then Ret (n, None)
  else
    '(ceph, found) ← KubeCheck w (mkCephCluster (named namespace name) None);
    if negb found then
      Panic (Panicked (Sprintf "❌ Could not find CephCluster CR %q in namespace %q" [AStr name; AStr namespace]))
    else
      match ceph_AvailableBytes ceph with
      | None => Ret (n, None)
      | Some bytes =>
          match connect n with
          | Some err => Ret (n, Some err)
          | None =>
              '(stores, _) ← KubeList w (λ bs : BackingStore QA, om_Namespace (bs_meta bs) == Namespace);
              Ret (updateCapacities n (BackingStoreReconciler.UInt64ToBigInt bytes) stores)
          end
      end.

(** The deletion of a Ceph cluster is let through and, while the system exists, ends the
    operator: the reconcile does not find the cluster. *)
Theorem ceph_deletion_ends_operator w n namespace name w1 nb e (ceph : CephCluster) :
  CheckSystem w (mkNooBaa (named namespace SystemName) emptyNooBaaSpec noStatus) = Ret (w1, nb, true) →
  srv_Get (O:=CephCluster) w1 (namespace, name) = inl e → IsNotFound e = true →
  CephCapacityChangedPredicate ceph_AvailableBytes (DeleteEvent (Some ceph)) = Ret true ∧
  ∃ m, doReconcile w n namespace name = Panic (Panicked m).
Proof.
  intros Hc Hg He. split; [done|]. unfold doReconcile. rewrite Hc. cbn [mbind outcome_bind negb].
  rewrite (KubeCheck_missing w1 (mkCephCluster (named namespace name) None) e Hg He). cbn [mbind outcome_bind negb]. eauto.
Qed.
End Ceph.
