(* ===== verification/Buckets.v ===== *)
(** * Buckets of the NooBaa server and their Kubernetes resources.

    The types of object buckets and claims (of the bucket provisioner library), the
    calls of the management API on buckets, tiers and replication, and the functions
    of [pkg/bucketclass/bucketclass.go] that turn a bucket class into tiers or into a
    namespace configuration. *)

From stdpp Require Import pretty.
From S2P Require Import Prelude GoStrings Types NbTypes Kube Util Quota.

(** ** Object buckets and claims *)

Record ObjectBucketEndpoint := mkObjectBucketEndpoint {
  obe_BucketHost : string;
  obe_BucketPort : Z;
  obe_BucketName : string;
  obe_AdditionalConfigData : option (gmap string string);
}.

Record ObjectBucketAccessKeys := mkObjectBucketAccessKeys { obk_AccessKeyID : string; obk_SecretAccessKey : string }.

(** [AdditionalState] and [Endpoint] are fields of the embedded connection. *)
Record ObjectBucketConnection := mkObjectBucketConnection {
  obn_Endpoint : option ObjectBucketEndpoint;
  obn_Authentication : option ObjectBucketAccessKeys;
  obn_AdditionalState : option (gmap string string);
}.

Record ObjectBucket := mkObjectBucket {
  ob_meta : ObjectMeta;
  ob_Connection : option ObjectBucketConnection;
  ob_ClaimNamespace : option string;   (* [ClaimRef.Namespace] *)
}.
#[export, refine] Instance ObjectBucket_MetaObject : MetaObject ObjectBucket :=
  {| meta := ob_meta; set_meta := λ m o, mkObjectBucket m (ob_Connection o) (ob_ClaimNamespace o) |}.
Proof. done. Defined.
#[export, refine] Instance ObjectBucket_KubeObject : KubeObject ObjectBucket := {| resetStringData := id |}.
Proof. done. Defined.

Record ObjectBucketClaim := mkObjectBucketClaim {
  obc_meta : ObjectMeta;
  obc_StorageClassName : string;
  obc_BucketName : string;
  obc_AdditionalConfig : option (gmap string string);
}.

(** [options.SubDomainNS]. *)
Definition SubDomainNS (Namespace : string) : string := Namespace +:+ ".noobaa.io".

(** ** The management API *)

Class NBTierClient (N : Type) : Type := {
  nb_CreateTier : N → CreateTierParams → N * option error;
  nb_CreateTieringPolicy : N → TieringPolicyInfo → N * option error;
  nb_UpdateBucketClass : N → UpdateBucketClassParams → N * (error + BucketClassInfo);
}.

Class NBBucketClient (N : Type) : Type := {
  nb_ReadBucket : N → string → error + BucketInfo;
  nb_CreateBucket : N → CreateBucketParams → N * option error;
  nb_UpdateBucket : N → CreateBucketParams → N * option error;
  nb_DeleteBucket : N → string → N * option error;
  nb_DeleteBucketAndObjects : N → string → N * option error;
  nb_GetVectorBucket : N → string → option error;
  nb_CreateVectorBucket : N → CreateVectorBucketParams → N * option error;
  nb_DeleteVectorBucket : N → string → N * option error;
}.

(** Replication rules are opaque to the operator. *)
Class NBReplicationClient (N R : Type) : Type := {
  nb_PutBucketReplication : N → string → R → N * option error;
  nb_DeleteBucketReplication : N → string → N * option error;
}.

(** [errors.Join]. *)
Definition errors_Join (errs : list error) : option error :=
  match errs with
  | [] => None
  | _ => Some (Errorf (Sprintf (Join ((λ _, "%v"%string) <$> errs) (String (Ascii.ascii_of_nat 10) "")) ((λ e, AMsg (Error e)) <$> errs)))
  end.

(** ** Tiers *)

(** [%x] of a number that is not negative. *)
Fixpoint hexDigits (fuel : nat) (z : Z) (acc : string) : string :=
  match fuel with
  | O => acc
  | S fuel =>
      let d := (z mod 16)%Z in
      let c := Ascii.ascii_of_N (Z.to_N (if (d <? 10)%Z then 48 + d else 87 + d)%Z) in
      if (z <? 16)%Z then String c acc else hexDigits fuel (z / 16)%Z (String c acc)
  end.
Definition FormatHex (z : Z) : string := hexDigits 16 z "".

(** The placement of a tier as the server names it. *)
Definition placementName (p : TierPlacement) : string :=
  match p with TierPlacementMirror => "MIRROR" | _ => "SPREAD" end.

Section Tiers.
Context {N : Type} {NT : NBTierClient N}.

(** The loop of [CreateTieringStructure] from tier [i] on. *)
Fixpoint createTiers (n : N) (tierName : string) (i : nat) (tiers : list Tier) (items : list TierItem) :
    N * (error + list TierItem) :=
  match tiers with
  | [] => (n, inr items)
  | tier :: tiers =>
      let name := tierName +:+ "." +:+ pretty i in
      let items := items ++ [mkTierItem (Z.of_nat i) name] in
      match nb_CreateTier n (mkCreateTierParams name (placementName (tier_Placement tier)) (tier_BackingStores tier)) with
      | (n, Some err) => (n, inl (Errorf (Sprintf "Failed to create tier %q with error: %v" [AStr name; AMsg (Error err)])))
      | (n, None) => createTiers n tierName (S i) tiers items
      end
  end.

(** [unixTime] is the clock, in seconds. *)
Definition CreateTieringStructure (n : N) (policy : PlacementPolicy) (BucketName : string) (unixTime : Z) :
    N * string * option error :=
  let tierName := BucketName +:+ "." +:+ FormatHex unixTime in
  match createTiers n tierName 0 (pp_Tiers policy) [] with
  | (n, inl err) => (n, tierName, Some err)
  | (n, inr tiers) =>
      match nb_CreateTieringPolicy n (mkTieringPolicyInfo tierName tiers) with
      | (n, Some err) => (n, tierName, Some (Errorf (Sprintf "Failed to create tiering policy %q with error: %v"
                                                       [AStr tierName; AMsg (Error err)])))
      | (n, None) => (n, tierName, None)
      end
  end.
End Tiers.

(** ** Namespace buckets *)

Definition noResource : NamespaceResourceFullConfig := mkNamespaceResourceFullConfig "" "".

Definition CreateNamespaceBucketInfoStructure (policy : NamespacePolicy) (path : string) : outcome NamespaceBucketInfo :=
  let read r := mkNamespaceResourceFullConfig r "" in
  match np_Type policy with
  | NSBucketClassTypeSingle =>
      s ← deref (np_Single policy);
      Ret (mkNamespaceBucketInfo (mkNamespaceResourceFullConfig (snp_Resource s) path) [read (snp_Resource s)] None)
  | NSBucketClassTypeMulti =>
      m ← deref (np_Multi policy);
      Ret (mkNamespaceBucketInfo
             (if mnp_WriteResource m != "" then mkNamespaceResourceFullConfig (mnp_WriteResource m) path else noResource)
             (read <$> mnp_ReadResources m) None)
  | NSBucketClassTypeCache =>
      c ← deref (np_Cache policy);
      caching ← deref (cnp_Caching c);
      Ret (mkNamespaceBucketInfo (read (cnp_HubResource c)) [read (cnp_HubResource c)] (Some (mkNBCacheSpec (cache_TTL caching))))
  | NSBucketClassTypeOther _ => Ret (mkNamespaceBucketInfo noResource [] None)
  end.

(** ** The default bucket class *)

Definition newBucketClass (name namespace : string) : BucketClass :=
  mkBucketClass (named namespace name) (mkBucketClassSpec None None None "" None None) (mkBucketClassStatus BucketClassPhaseNone [] "").

Definition BucketClassPhase_string (p : BucketClassPhase) : string :=
  match p with
  | BucketClassPhaseNone => ""
  | BucketClassPhaseRejected => "Rejected"
  | BucketClassPhaseVerifying => "Verifying"
  | BucketClassPhaseConfiguring => "Configuring"
  | BucketClassPhaseReady => "Ready"
  | BucketClassPhaseDeleting => "Deleting"
  end.

Definition GetDefaultBucketClass {W} `{ApiServer W BucketClass} (w : W) (SystemName Namespace : string) :
    outcome (error + BucketClass) :=
  let bucketClassName := SystemName +:+ "-default-bucket-class" in
  '(bc, found) ← KubeCheck w (newBucketClass bucketClassName Namespace);
  Ret (if negb found then
         inl (Errorf (Sprintf "GetDefaultBucketClass BucketClass %q not found in provisioner namespace %q"
                        [AStr bucketClassName; AStr Namespace]))
       else if bcst_Phase (bc_Status bc) != BucketClassPhaseReady then
         inl (Errorf (Sprintf "GetDefaultBucketClass BucketClass %q is %v"
                        [AStr bucketClassName; AStr (BucketClassPhase_string (bcst_Phase (bc_Status bc)))]))
       else inr bc).

(** ** Facts *)

(** The names of the tiers of a policy are distinct, and in order. *)
Lemma createTiers_items {N} {NT : NBTierClient N} (n n' : N) tierName i tiers items items' :
  createTiers n tierName i tiers items = (n', inr items') →
  items' = items ++ imap (λ k _, mkTierItem (Z.of_nat (i + k)) (tierName +:+ "." +:+ pretty (i + k)%nat)) tiers.
Proof.
  revert n i items. induction tiers as [|tier tiers IH]; intros n i items; cbn [createTiers imap].
  - intros [= <- <-]. by rewrite app_nil_r.
  - destruct (nb_CreateTier _ _) as [n1 [e|]]; [done|]. intros ->%IH. rewrite Nat.add_0_r, <-app_assoc.
    cbn [app]. do 2 f_equal. apply imap_ext. intros k x _. unfold compose. by rewrite Nat.add_succ_r.
Qed.

Lemma append_inj_l (s a b : string) : s +:+ a = s +:+ b → a = b.
Proof. induction s as [|c s IH]; [done|]. cbn. intros [= H]. auto. Qed.

(** The tiers of a new bucket have distinct names, numbered from zero in the order of
    the placement policy, so that the policy refers to each exactly once. *)
Lemma createTiers_NoDup {N} {NT : NBTierClient N} (n n' : N) tierName tiers items :
  createTiers n tierName 0 tiers [] = (n', inr items) →
  NoDup (ti_Tier <$> items) ∧ ti_Order <$> items = Z.of_nat <$> seq 0 (length tiers).
Proof.
  intros ->%createTiers_items. cbn [app]. split.
  - apply NoDup_alt. intros i j x. rewrite !list_lookup_fmap, !list_lookup_imap. unfold compose.
    destruct (tiers !! i), (tiers !! j); try done. cbn. intros [= <-] [= H].
    apply append_inj_l in H. injection H as H. symmetry. by apply (inj pretty) in H.
  - apply list_eq. intros i. rewrite !list_lookup_fmap, list_lookup_imap. unfold compose.
    destruct (tiers !! i) eqn:Hi; cbn.
    + apply lookup_lt_Some in Hi. by rewrite lookup_seq_lt.
    + apply lookup_ge_None in Hi. by rewrite lookup_seq_ge.
Qed.

(** C28: the tiering policy of a new bucket is well formed: it has one tier for each tier of
    the placement policy, in order, the orders count from zero and the names are
    distinct. *)
Theorem CreateTieringStructure_wellformed {N} {NT : NBTierClient N} (n n' : N) policy bucket unixTime name :
  CreateTieringStructure n policy bucket unixTime = (n', name, None) →
  ∃ n1 items, nb_CreateTieringPolicy n1 (mkTieringPolicyInfo name items) = (n', None) ∧
    NoDup (ti_Tier <$> items) ∧ ti_Order <$> items = Z.of_nat <$> seq 0 (length (pp_Tiers policy)).
Proof.
  unfold CreateTieringStructure. destruct (createTiers _ _ _ _ _) as [n1 [e|items]] eqn:Hc; [done|].
  destruct (nb_CreateTieringPolicy _ _) as [n2 [e|]] eqn:Hp; [done|]. intros [= <- <-].
  exists n1, items. split; [done|]. by apply createTiers_NoDup in Hc.
Qed.
