(* ===== verification/BucketClassReconciler.v ===== *)
(** * The BucketClass controller: [pkg/bucketclass/reconciler.go].

    A bucket class is verified against the stores it names, and a change of it is
    carried over to the buckets that were provisioned with an earlier generation.
    The state is the cluster [W], the NooBaa server [N] and the class in memory. *)

From stdpp Require Import pretty.
From S2P Require Import Prelude GoStrings Types NbTypes Kube Util BucketClassValidation Quota Buckets Controller.

Record State {W N : Type} := mkState {
  st_cluster : W;
  st_noobaa : N;
  st_class : BucketClass;
}.
Arguments State W N : clear implicits.

(** ** Tiers, to and from the server *)

Definition tierInfo (tier : Tier) : TierInfo :=
  mkTierInfo "TEMP" (placementName (tier_Placement tier)) (tier_BackingStores tier).

Definition revertTier (t : TierInfo) : Tier :=
  mkTier (if tin_DataPlacement t == "MIRROR" then TierPlacementMirror else TierPlacementSpread) (tin_AttachedPools t).

Definition set_tiers (tiers : list Tier) (bc : BucketClass) : BucketClass :=
  let s := bc_Spec bc in
  mkBucketClass (bc_meta bc)
    (mkBucketClassSpec (Some (mkPlacementPolicy tiers)) (bcs_NamespacePolicy s) (bcs_Quota s) (bcs_ReplicationPolicy s)
       (bcs_VectorPolicy s) (bcs_ArchivePolicy s)) (bc_Status bc).

Definition updateParams (bc : BucketClass) (pp : PlacementPolicy) : UpdateBucketClassParams :=
  mkUpdateBucketClassParams (om_Name (bc_meta bc))
    (mkTieringPolicyInfo "TEMP" (imap (λ i _, mkTierItem (Z.of_nat i) "TEMP") (pp_Tiers pp)))
    (tierInfo <$> pp_Tiers pp).

Section Reconciler.
Context {QA : QuantityApi} {CA : ConditionApi}.
Context {W N : Type} {NB : NBClient N} {NT : NBTierClient N} {NK : NBBucketClient N}.
Context {SBC : ApiServer W BucketClass} {SB : ApiServer W (BackingStore QA)} {SNS : ApiServer W NamespaceStore}
        {SNB : ApiServer W NooBaa} {SOB : ApiServer W ObjectBucket}.
Context (Namespace : string) (now : Z).
(** [Client.Status().Update]: only the status is stored. *)
Context (statusUpdate : W → BucketClass → W * option error).

Abbreviation St := (State W N).
Abbreviation Step := (outcome (St * option error)).
Implicit Types (st : St) (bc : BucketClass).

Definition set_class bc st : St := mkState W N (st_cluster st) (st_noobaa st) bc.
Definition set_cluster w st : St := mkState W N w (st_noobaa st) (st_class st).
Definition set_noobaa n st : St := mkState W N (st_cluster st) n (st_class st).

(** ** Status *)

Definition SetPhase bc (phase : BucketClassPhase) (reason message : msg) : BucketClass :=
  let status := bc_Status bc in
  let conds := bcst_Conditions status in
  let with_status p c := mkBucketClass (bc_meta bc) (bc_Spec bc) (mkBucketClassStatus p c (bcst_Mode status)) in
  match phase with
  | BucketClassPhaseNone => with_status (bcst_Phase status) (SetProgressingCondition now conds reason message)
  | BucketClassPhaseReady => with_status phase (SetAvailableCondition now conds reason message)
  | BucketClassPhaseRejected => with_status phase (SetErrorCondition now conds reason message)
  | _ => with_status phase (SetProgressingCondition now conds reason message)
  end.

Definition set_phase (phase : BucketClassPhase) (reason message : msg) st : St :=
  set_class (SetPhase (st_class st) phase reason message) st.

Definition UpdateStatus st : Step :=
  let '(w, err) := statusUpdate (st_cluster st) (st_class st) in Ret (set_cluster w st, err).

(** ** Verifying *)

Definition ReconcilePhaseVerifying st (nb : NooBaa) : Step :=
  let st := set_phase BucketClassPhaseVerifying (Lit "BucketClassPhaseVerifying") (startedPhase "1/2" "Verifying") st in
  let spec := bc_Spec (st_class st) in
  let w := st_cluster st in
  let namespace := om_Namespace (nb_meta nb) in
  err ← ValidateBucketClass (QA:=QA) w (Some (st_class st));
  match err with
  | Some e => Ret (st, Some (NewPersistentError "ValidationError" (Error e)))
  | None =>
      if om_UID (nb_meta nb) == "" then
        Ret (st, Some (NewPersistentError "MissingSystem"
               (Sprintf "NooBaa system %q not found or deleted" [AStr (om_Name (nb_meta nb))])))
      else
        err ← (check! ValidatePlacementPolicy (QA:=QA) w (bcs_PlacementPolicy spec) namespace ;;
               check! ValidateNamespacePolicy w (bcs_NamespacePolicy spec) namespace ;;
               ValidateVectorPolicy w (bcs_VectorPolicy spec) (bcs_PlacementPolicy spec) (bcs_NamespacePolicy spec) namespace);
        Ret (st, err)
  end.

(** ** Configuring *)

(** The buckets of the class that were provisioned with another generation of it. *)
Definition staleBucket bc (ob : ObjectBucket) : outcome (option string) :=
  conn ← deref (ob_Connection ob);
  let bucketClass := map_get (obn_AdditionalState conn) "bucketclass" in
  let generation := map_get (obn_AdditionalState conn) "bucketclassgeneration" in
  endpoint ← deref (obn_Endpoint conn);
  Ret (if bucketClass != om_Name (bc_meta bc) then None
       else if generation == pretty (om_Generation (bc_meta bc)) then None
       else Some (obe_BucketName endpoint)).

Fixpoint staleBuckets bc (obs : list ObjectBucket) : outcome (list string) :=
  match obs with
  | [] => Ret []
  | ob :: obs =>
      name ← staleBucket bc ob;
      names ← staleBuckets bc obs;
      Ret (match name with Some n => n :: names | None => names end)
  end.

Definition ofDomain (ob : ObjectBucket) : bool :=
  bool_decide (om_Labels (ob_meta ob) ≫= lookup "noobaa-domain"%string = Some (SubDomainNS Namespace)).

Fixpoint updateBuckets (n : N) (namespaceInfo : NamespaceBucketInfo) (bucketNames : list string) : N * option error :=
  match bucketNames with
  | [] => (n, None)
  | name :: names =>
      match nb_UpdateBucket n (mkCreateBucketParams name "" None (Some namespaceInfo) None None) with
      | (n, Some err) => (n, Some (Errorf (Sprintf "Failed to update obcs %q with error: %v" [AStr name; AMsg (Error err)])))
      | (n, None) => updateBuckets n namespaceInfo names
      end
  end.

Definition updateNamespaceBucketClass st (bucketNames : list string) : Step :=
  match bcs_NamespacePolicy (bc_Spec (st_class st)) with
  | None => Ret (st, None)
  | Some policy =>
      info ← CreateNamespaceBucketInfoStructure policy "";
      let '(n, err) := updateBuckets (st_noobaa st) info bucketNames in
      Ret (set_noobaa n st, err)
  end.

(** One round of the loop of [updateArchivePolicyForExistingBuckets]. *)
Definition archiveBucket (n : N) (archiveResource bucketName : string) : N * option error :=
  match nb_ReadBucket n bucketName with
  | inl err => (n, Some (Errorf (Sprintf "failed to read bucket %q for archive policy update: %w" [AStr bucketName; AMsg (Error err)])))
  | inr info =>
      match bkt_ArchivePolicy info with
      | Some _ => (n, None)
      | None =>
          let '(n, err) := nb_UpdateBucket n (mkCreateBucketParams bucketName "" None None None
              (Some (mkArchivePolicyConfig (Some (mkNamespaceResourceFullConfig archiveResource ""))))) in
          (n, match err with
              | None => None
              | Some err =>
                  let failed := Some (Errorf (Sprintf "failed to apply archive policy to bucket %q: %w" [AStr bucketName; AMsg (Error err)])) in
                  match err with
                  | RPCError code _ => if code == "BUCKET_HAS_ARCHIVED_OBJECTS" then None else failed
                  | _ => failed
                  end
              end)
      end
  end.

Fixpoint archiveBuckets (n : N) (archiveResource : string) (bucketNames : list string) : N * list error :=
  match bucketNames with
  | [] => (n, [])
  | name :: names =>
      let '(n, err) := archiveBucket n archiveResource name in
      let '(n, errs) := archiveBuckets n archiveResource names in
      (n, option_list err ++ errs)
  end.

Definition updateArchivePolicyForExistingBuckets st (bucketNames : list string) : Step :=
  match bcs_ArchivePolicy (bc_Spec (st_class st)) with
  | None => Ret (st, None)
  | Some ap =>
      if ap_DeepArchiveResource ap == "" then Ret (st, None)
      else
        let '(n, errs) := archiveBuckets (st_noobaa st) (ap_DeepArchiveResource ap) bucketNames in
        Ret (set_noobaa n st, errors_Join errs)
  end.

Definition UpdateBucketClass st (bucketNames : list string) : Step :=
  let bc := st_class st in
  let spec := bc_Spec bc in
  if negb (isNil (bcs_VectorPolicy spec)) then
    Ret (st, Some (Errorf (Sprintf "updating vector bucket class %q is not yet supported" [AStr (om_Name (bc_meta bc))])))
  else if isNil (bcs_PlacementPolicy spec) && negb (isNil (bcs_NamespacePolicy spec)) then
    updateNamespaceBucketClass st bucketNames
  else
    pp ← deref (bcs_PlacementPolicy spec);
    let '(n, result) := nb_UpdateBucketClass (st_noobaa st) (updateParams bc pp) in
    let st := set_noobaa n st in
    match result with
    | inl err => Ret (st, Some (Errorf (Sprintf "Failed to update bucket class %q with error: %v - Can't revert changes"
                                          [AStr (om_Name (bc_meta bc)); AMsg (Error err)])))
    | inr info =>
        if bcinfo_ShouldRevert info then
          '(w, bc, _) ← KubeUpdate (st_cluster st) (set_tiers (revertTier <$> ubc_Tiers (bcinfo_RevertToPolicy info)) bc);
          Ret (set_class bc (set_cluster w st),
               Some (NewPersistentError "InvalidConfReverting"
                       (Sprintf "Unable to change bucketclass due to error: %v" [AStr (bcinfo_ErrorMessage info)])))
        else updateArchivePolicyForExistingBuckets st bucketNames
    end.

Definition ReconcilePhaseConfiguring st : Step :=
  let st := set_phase BucketClassPhaseConfiguring (Lit "BucketClassPhaseConfiguring") (startedPhase "2/2" "Configuring") st in
  '(obs, _) ← KubeList (st_cluster st) ofDomain;
  bucketNames ← staleBuckets (st_class st) obs;
  match bucketNames with
  | [] => Ret (st, None)
  | _ =>
      match nb_Connect (st_noobaa st) with
      | Some err => Ret (st, Some err)
      | None => UpdateBucketClass st bucketNames
      end
  end.

Definition ReconcilePhases st (nb : NooBaa) : Step :=
  try_step (ReconcilePhaseVerifying st nb) ReconcilePhaseConfiguring.

(** ** Deletion *)

Definition FinalizeDeletion st : Step :=
  let '(bc, _) := RemoveFinalizer (st_class st) Finalizer in
  '(w, bc, updated) ← KubeUpdate (st_cluster st) bc;
  let st := set_class bc (set_cluster w st) in
  match updated with
  | true => Ret (st, None)
  | false => Ret (st, Some (Errorf (Sprintf "BucketClass %q failed to remove finalizer %q"
                                      [AStr (om_Name (bc_meta bc)); AStr Finalizer])))
  end.

Definition ReconcileDeletion st : Step :=
  try_step
    (if bcst_Phase (bc_Status (st_class st)) != BucketClassPhaseDeleting then
       UpdateStatus (set_phase BucketClassPhaseDeleting (Lit "BucketClassPhaseDeleting")
                       (Lit "noobaa operator started deletion") st)
     else Ret (st, None)) FinalizeDeletion.

(** ** [Reconcile] *)

(** The phase, the conditions and the result after the phases. *)
Definition completeReconcile st (err : option error) : outcome (St * Result) :=
  let '(st, res) :=
    match err with
    | Some (PersistentError reason message) =>
        (set_phase BucketClassPhaseRejected (Sprintf reason []) message st, mkResult None)
    | Some e => (set_phase BucketClassPhaseNone (Lit "TemporaryError") (Error e) st, mkResult (Some 3%Z))
    | None => (set_phase BucketClassPhaseReady (Lit "BucketClassPhaseReady")
                 (Lit "noobaa operator completed reconcile - bucket class is ready") st, mkResult None)
    end in
  '(st, err) ← UpdateStatus st;
  Ret (st, match err with Some _ => mkResult (Some 3%Z) | None => res end).

(** The error of a deletion goes back to the queue as it is. *)
Definition Reconcile st (sys : NooBaa) : outcome (St * Result * option error) :=
  '(w, nb, systemFound) ← CheckSystem (st_cluster st) sys;
  '(bc, found) ← KubeCheck w (st_class st);
  let st := set_class bc (set_cluster w st) in
  if negb found then Ret (st, mkResult None, None)
  else if negb (isNil (om_DeletionTimestamp (bc_meta bc))) then
    '(st, err) ← ReconcileDeletion st; Ret (st, mkResult None, err)
  else if negb systemFound then Ret (st, mkResult None, None)
  else
    let '(bc, changed) := EnsureCommonMetaFields bc Finalizer in
    '(st, ok) ← (if changed : bool then
                   '(w, bc, updated) ← KubeUpdate (st_cluster st) bc;
                   Ret (set_class bc (set_cluster w st), updated)
                 else Ret (st, true));
    if negb ok then Ret (st, mkResult (Some 3%Z), None)
    else
      '(st, err) ← ReconcilePhases st nb;
      '(st, res) ← completeReconcile st err;
      Ret (st, res, None).

Set Default Proof Using "Type".

(** ** Verifying *)

(** What the first phase has established about a class: every store it names exists,
    is ready and fits. *)
Definition bc_verified (w : W) (spec : BucketClassSpec) (namespace : string) : Prop :=
  (∀ pp, bcs_PlacementPolicy spec = Some pp → placement_ready (QA:=QA) w namespace pp) ∧
  (∀ np, bcs_NamespacePolicy spec = Some np →
     ∃ names, GetBucketclassNamespaceStoreArray np = Ret names ∧ ∀ name, name ∈ names →
       ∃ ns, ns_at w namespace name ns ∧ nst_Phase (ns_Status ns) = NamespaceStorePhaseReady ∧
             ¬ (nss_Type (ns_Spec ns) = NSStoreTypeS3Compatible ∧ nss_Archive (ns_Spec ns) = true)) ∧
  (∀ vp, bcs_VectorPolicy spec = Some vp →
     bcs_PlacementPolicy spec = None ∧ bcs_NamespacePolicy spec = None ∧ vector_ready w vp namespace).

Lemma bc_verify_ok w spec namespace :
  check (ValidatePlacementPolicy (QA:=QA) w (bcs_PlacementPolicy spec) namespace)
    (check (ValidateNamespacePolicy w (bcs_NamespacePolicy spec) namespace)
       (ValidateVectorPolicy w (bcs_VectorPolicy spec) (bcs_PlacementPolicy spec) (bcs_NamespacePolicy spec) namespace)) = ok ↔
  bc_verified w spec namespace.
Proof.
  rewrite !check_ok, ValidateVectorPolicy_ok. unfold bc_verified. f_equiv; [|f_equiv].
  - destruct (bcs_PlacementPolicy spec) as [pp|]; [|by split].
    rewrite ValidatePlacementPolicy_ok. by split; [intros ? ? [= <-]|eauto].
  - destruct (bcs_NamespacePolicy spec) as [np|]; [|by split].
    rewrite ValidateNamespacePolicy_ok. by split; [intros ? ? [= <-]|eauto].
Qed.

Lemma bc_SetPhase_frame bc phase reason message :
  bc_meta (SetPhase bc phase reason message) = bc_meta bc ∧ bc_Spec (SetPhase bc phase reason message) = bc_Spec bc.
Proof. by destruct phase. Qed.

(** The validation of a class does not look at its status. *)
Lemma ValidateBucketClass_SetPhase w bc phase reason message :
  ValidateBucketClass (QA:=QA) w (Some (SetPhase bc phase reason message)) = ValidateBucketClass (QA:=QA) w (Some bc).
Proof. by destruct phase. Qed.

Lemma bc_ReconcilePhaseVerifying_ok st nb st' :
  ReconcilePhaseVerifying st nb = Ret (st', None) ↔
  st' = set_phase BucketClassPhaseVerifying (Lit "BucketClassPhaseVerifying") (startedPhase "1/2" "Verifying") st ∧
  ValidateBucketClass (QA:=QA) (st_cluster st) (Some (st_class st)) = ok ∧ om_UID (nb_meta nb) ≠ "" ∧
  bc_verified (st_cluster st) (bc_Spec (st_class st)) (om_Namespace (nb_meta nb)).
Proof.
  unfold ReconcilePhaseVerifying. set (st1 := set_phase _ _ _ st).
  cbn [st1 set_phase set_class st_class st_cluster]. rewrite ValidateBucketClass_SetPhase, <-bc_verify_ok.
  rewrite (proj2 (bc_SetPhase_frame _ _ _ _)). fold st1.
  destruct (ValidateBucketClass _ _) as [[e|]|p]; cbn [mbind outcome_bind].
  - by split; [|intros (_ & [=] & _)].
  - case_bool_decide as Hu; [split; [done|intros (_ & _ & [] & _); done]|].
    destruct (check _ _) as [[e|]|p]; cbn [mbind outcome_bind]; unfold ok.
    + by split; [|intros (_ & _ & _ & [=])].
    + split; [by intros [= <-]|by intros (-> & _)].
    + by split; [|intros (_ & _ & _ & [=])].
  - by split; [|intros (_ & [=] & _)].
Qed.

(** ** Stale buckets *)

Lemma staleBuckets_SetPhase bc phase reason message obs :
  staleBuckets (SetPhase bc phase reason message) obs = staleBuckets bc obs.
Proof.
  assert (Hm : bc_meta (SetPhase bc phase reason message) = bc_meta bc) by apply bc_SetPhase_frame.
  induction obs as [|ob obs IH]; [done|]. cbn [staleBuckets]. rewrite IH. unfold staleBucket. by rewrite Hm.
Qed.

(** The names collected are those of the buckets of the class with another
    generation. *)
Lemma staleBuckets_elem bc obs names name :
  staleBuckets bc obs = Ret names →
  name ∈ names ↔ ∃ ob conn ep, ob ∈ obs ∧ ob_Connection ob = Some conn ∧ obn_Endpoint conn = Some ep ∧
    obe_BucketName ep = name ∧ map_get (obn_AdditionalState conn) "bucketclass" = om_Name (bc_meta bc) ∧
    map_get (obn_AdditionalState conn) "bucketclassgeneration" ≠ pretty (om_Generation (bc_meta bc)).
Proof.
  revert names. induction obs as [|ob obs IH]; intros names; cbn [staleBuckets].
  { intros [= <-]. split; [by intros ?%not_elem_of_nil|]. by intros (ob & ? & ? & ?%not_elem_of_nil & _). }
  intros (r & Hr & (rest & Hrest & [= <-])%bind_Ret)%bind_Ret. specialize (IH _ Hrest). unfold staleBucket in Hr.
  apply bind_Ret in Hr as (conn & Hc & Hr). apply bind_Ret in Hr as (ep & He & Hr). injection Hr as Hr.
  destruct (ob_Connection ob) as [c|] eqn:Hoc; [|done]. injection Hc as ->.
  destruct (obn_Endpoint conn) as [e|] eqn:Hoe; [|done]. injection He as ->.
  assert (Hhead : r = Some name ↔ obe_BucketName ep = name ∧
    map_get (obn_AdditionalState conn) "bucketclass" = om_Name (bc_meta bc) ∧
    map_get (obn_AdditionalState conn) "bucketclassgeneration" ≠ pretty (om_Generation (bc_meta bc))).
  { subst r. case_bool_decide as H1; cbn [negb]; [|by split; [|intros (_ & ? & _)]].
    case_bool_decide as H2; [by split; [|intros (_ & _ & [])]|]. split; [by intros [= <-]|by intros (-> & _)]. }
  assert (Hmem : name ∈ match r with Some n => n :: rest | None => rest end ↔ r = Some name ∨ name ∈ rest).
  { destruct r as [n|]; [|by split; [right|intros [?|?]]]. rewrite elem_of_cons. split; (intros [H|H]; [left|by right]); congruence. }
  rewrite Hmem, Hhead, IH. split.
  - intros [(? & ? & ?)|(ob' & conn' & ep' & ? & ?)]; [exists ob, conn, ep; split; [left|done]|].
    exists ob', conn', ep'. split; [by right|done].
  - intros (ob' & conn' & ep' & [->|Hin]%elem_of_cons & Hc' & He' & Hrest'); [left|right].
    + rewrite Hoc in Hc'. injection Hc' as <-. rewrite Hoe in He'. injection He' as <-. done.
    + exists ob', conn', ep'. done.
Qed.

(** The buckets the Configuring phase of a class works on. *)
Definition stale_in (w : W) bc : outcome (list string) :=
  '(obs, _) ← KubeList w ofDomain; staleBuckets bc obs.

Lemma stale_in_SetPhase w bc phase reason message :
  stale_in w (SetPhase bc phase reason message) = stale_in w bc.
Proof.
  unfold stale_in. destruct (KubeList _ _) as [[obs b]|p]; cbn [mbind outcome_bind]; [|done]. apply staleBuckets_SetPhase.
Qed.

Lemma ReconcilePhaseConfiguring_stale st :
  ReconcilePhaseConfiguring st =
  (bucketNames ← stale_in (st_cluster st) (st_class st);
   let st := set_phase BucketClassPhaseConfiguring (Lit "BucketClassPhaseConfiguring") (startedPhase "2/2" "Configuring") st in
   match bucketNames with
   | [] => Ret (st, None)
   | _ => match nb_Connect (st_noobaa st) with Some err => Ret (st, Some err) | None => UpdateBucketClass st bucketNames end
   end).
Proof.
  unfold ReconcilePhaseConfiguring, stale_in. set (st1 := set_phase _ _ _ st).
  cbn [st1 set_phase set_class st_cluster st_class].
  destruct (KubeList _ _) as [[obs b]|p]; cbn [mbind outcome_bind]; [|done]. by rewrite staleBuckets_SetPhase.
Qed.

(** Updating a class without an error leaves the cluster alone. *)
Lemma UpdateBucketClass_cluster st names st' :
  UpdateBucketClass st names = Ret (st', None) →
  st_cluster st' = st_cluster st ∧ st_class st' = st_class st.
Proof.
  unfold UpdateBucketClass, updateNamespaceBucketClass, updateArchivePolicyForExistingBuckets.
  destruct (negb (isNil (bcs_VectorPolicy _))); [done|]. destruct (_ && _).
  - destruct (bcs_NamespacePolicy _); [|by intros [= <-]].
    intros (info & _ & H)%bind_Ret. destruct (updateBuckets _ _ _). by simplify_eq.
  - intros (pp & _ & H)%bind_Ret. destruct (nb_UpdateBucketClass _ _) as [n [e|info]]; [done|].
    destruct (bcinfo_ShouldRevert info); [by apply bind_Ret in H as ([[w b] u] & _ & [=])|].
    cbn [set_noobaa st_class] in H. destruct (bcs_ArchivePolicy _) as [ap|]; [|by simplify_eq].
    case_bool_decide; [by simplify_eq|]. destruct (archiveBuckets _ _ _). by simplify_eq.
Qed.

(** C6: a bucket class becomes ready only when its spec is valid, the system exists and
    every store it names exists, is ready and fits; and the server is only asked to
    change anything when some bucket carries another generation of the class. *)
Theorem bc_ReconcilePhases_success st nb st' :
  ReconcilePhases st nb = Ret (st', None) →
  ValidateBucketClass (QA:=QA) (st_cluster st) (Some (st_class st)) = ok ∧ om_UID (nb_meta nb) ≠ "" ∧
  bc_verified (st_cluster st) (bc_Spec (st_class st)) (om_Namespace (nb_meta nb)) ∧
  ∃ names, stale_in (st_cluster st) (st_class st) = Ret names ∧
    (names = [] → st_noobaa st' = st_noobaa st) ∧ (names ≠ [] → nb_Connect (st_noobaa st) = None).
Proof.
  unfold ReconcilePhases. intros (st1 & (-> & Hv & Hu & Hver)%bc_ReconcilePhaseVerifying_ok & H)%try_step_ok.
  split_and!; [done..|]. rewrite ReconcilePhaseConfiguring_stale in H.
  cbn [set_phase set_class st_cluster st_class st_noobaa] in H.
  apply bind_Ret in H as (names & Hs & H). exists names. rewrite stale_in_SetPhase in Hs. split; [done|].
  destruct names as [|name names]; [split; [by intros _; simplify_eq|done]|]. split; [done|].
  intros _. by destruct (nb_Connect (st_noobaa st)).
Qed.

(** Configuring never settles: a successful pass leaves the object buckets as they
    were, so that the buckets that were stale are stale for the next pass, which asks
    the server for the same update again. *)
Theorem bc_configuring_repeats st st' :
  ReconcilePhaseConfiguring st = Ret (st', None) →
  st_cluster st' = st_cluster st ∧ stale_in (st_cluster st') (st_class st') = stale_in (st_cluster st) (st_class st).
Proof.
  rewrite ReconcilePhaseConfiguring_stale. intros (names & Hs & H)%bind_Ret.
  assert (Hf : st_cluster st' = st_cluster st ∧
    st_class st' = SetPhase (st_class st) BucketClassPhaseConfiguring (Lit "BucketClassPhaseConfiguring") (startedPhase "2/2" "Configuring")).
  { cbv zeta in H. destruct names; [by injection H as <-|]. destruct (nb_Connect _); [done|].
    by apply UpdateBucketClass_cluster in H as [-> ->]. }
  destruct Hf as [-> ->]. split; [done|]. apply stale_in_SetPhase.
Qed.

(** A class with neither a placement, a namespace nor a vector policy passes
    verification, and the first stale bucket of it crashes the controller. *)
Theorem bc_no_policy_panics st nb names :
  ValidateBucketClass (QA:=QA) (st_cluster st) (Some (st_class st)) = ok → om_UID (nb_meta nb) ≠ "" →
  bcs_PlacementPolicy (bc_Spec (st_class st)) = None → bcs_NamespacePolicy (bc_Spec (st_class st)) = None →
  bcs_VectorPolicy (bc_Spec (st_class st)) = None →
  stale_in (st_cluster st) (st_class st) = Ret names → names ≠ [] → nb_Connect (st_noobaa st) = None →
  ReconcilePhases st nb = Panic NilDeref.
Proof.
  intros Hv Hu Hpp Hnp Hvp Hs Hne Hc. unfold ReconcilePhases, try_step.
  rewrite (proj2 (bc_ReconcilePhaseVerifying_ok st nb
    (set_phase BucketClassPhaseVerifying (Lit "BucketClassPhaseVerifying") (startedPhase "1/2" "Verifying") st))).
  2: { split_and!; try done; unfold bc_verified; by rewrite ?Hpp, ?Hnp, ?Hvp. }
  cbn [mbind outcome_bind]. rewrite ReconcilePhaseConfiguring_stale.
  cbn [set_phase set_class st_cluster st_class st_noobaa]. rewrite stale_in_SetPhase, Hs. cbn [mbind outcome_bind].
  destruct names as [|name names]; [done|]. cbn [st_noobaa]. rewrite Hc.
  unfold UpdateBucketClass. cbn [set_phase set_class st_class SetPhase bc_Spec]. by rewrite Hpp, Hnp, Hvp.
Qed.

(** ** Archive policies *)

(** What the server promises on updates of buckets: only the bucket named can change,
    and a refused update changes nothing. *)
Class NBBucketLaws : Prop := {
  UpdateBucket_other n p name : name ≠ cbp_Name p → nb_ReadBucket (nb_UpdateBucket n p).1 name = nb_ReadBucket n name;
  UpdateBucket_refused n p n' e name : nb_UpdateBucket n p = (n', Some e) → nb_ReadBucket n' name = nb_ReadBucket n name;
  UpdateBucket_archive n p n' a : nb_UpdateBucket n p = (n', None) → cbp_ArchivePolicy p = Some a →
    ∃ info, nb_ReadBucket n' (cbp_Name p) = inr info ∧ bkt_ArchivePolicy info = Some a;
}.

(** The archive policy of a bucket, as the server reports it. *)
Definition archive_of (n : N) (name : string) : option (option ArchivePolicyConfig) :=
  match nb_ReadBucket n name with inl _ => None | inr info => Some (bkt_ArchivePolicy info) end.

Lemma archiveBucket_keeps {NL : NBBucketLaws} n res name other a :
  archive_of n other = Some (Some a) → archive_of (archiveBucket n res name).1 other = Some (Some a).
Proof.
  unfold archive_of, archiveBucket. intros Ho. destruct (nb_ReadBucket n name) as [e|info] eqn:Hr; [done|].
  destruct (bkt_ArchivePolicy info) eqn:Ha; [done|].
  set (p := mkCreateBucketParams _ _ _ _ _ _). destruct (nb_UpdateBucket n p) as [n' err] eqn:Hu. cbn [fst].
  destruct (decide (other = name)) as [->|Hne].
  - rewrite Hr, Ha in Ho. done.
  - change n' with (n', err).1. rewrite <-Hu, UpdateBucket_other by done. done.
Qed.

Lemma archiveBuckets_keeps {NL : NBBucketLaws} n res names other a :
  archive_of n other = Some (Some a) → archive_of (archiveBuckets n res names).1 other = Some (Some a).
Proof.
  revert n. induction names as [|name names IH]; intros n Ho; [done|]. cbn [archiveBuckets].
  pose proof (archiveBucket_keeps n res name other a Ho) as H1. destruct (archiveBucket n res name) as [n1 err].
  specialize (IH n1 H1). by destruct (archiveBuckets n1 res names) as [n2 errs].
Qed.

(** Applying the archive policy of a class to its buckets never changes a policy
    that a bucket already has, in whichever order the buckets come and whatever the
    server refuses on the way. *)
Theorem updateArchivePolicy_keeps {NL : NBBucketLaws} st names st' err other a :
  updateArchivePolicyForExistingBuckets st names = Ret (st', err) →
  archive_of (st_noobaa st) other = Some (Some a) → archive_of (st_noobaa st') other = Some (Some a).
Proof.
  unfold updateArchivePolicyForExistingBuckets. destruct (bcs_ArchivePolicy _) as [ap|]; [|by intros [= <- _]].
  case_bool_decide; [by intros [= <- _]|].
  pose proof (archiveBuckets_keeps (st_noobaa st) (ap_DeepArchiveResource ap) names other a) as H1.
  destruct (archiveBuckets _ _ _) as [n errs]. intros [= <- _]. exact H1.
Qed.

End Reconciler.

(** ** Reverting *)

(** Reverting is stable: the tiers that a class takes over from the server are,
    when they are sent again, those the server asked to revert to. *)
Theorem revert_roundtrip bc tiers :
  Forall (λ t, tin_DataPlacement t = "MIRROR" ∨ tin_DataPlacement t = "SPREAD") tiers →
  let bc' := set_tiers (revertTier <$> tiers) bc in
  ∃ pp, bcs_PlacementPolicy (bc_Spec bc') = Some pp ∧
    ubc_Tiers (updateParams bc' pp) = (λ t, mkTierInfo "TEMP" (tin_DataPlacement t) (tin_AttachedPools t)) <$> tiers.
Proof.
  intros Ht bc'. eexists. split; [reflexivity|]. cbn. rewrite <-list_fmap_compose.
  apply list_fmap_ext. intros i t Hi. unfold compose, tierInfo, revertTier. cbn.
  rewrite Forall_forall in Ht. by destruct (Ht t (list_elem_of_lookup_2 _ _ _ Hi)) as [-> | ->].
Qed.
