(* ===== verification/AccountReconciler.v ===== *)
(** * The NooBaaAccount controller: [pkg/noobaaaccount/reconciler.go].

    An account resource is turned into an account of the NooBaa server, whose keys
    are handed out in a secret.  The state is the cluster [W], the server [N], and
    the account and the secret in memory. *)

From S2P Require Import Prelude GoStrings Types NbTypes Kube Util NooBaaValidation Quota Controller.

Record State {W N : Type} := mkState {
  st_cluster : W;
  st_noobaa : N;
  st_account : NooBaaAccount;
  st_secret : Secret;
}.
Arguments State W N : clear implicits.

(** ** Parameters of the account *)

(** The configuration that is sent: the distinguished name is not copied. *)
Definition sentNsfsConfig (c : AccountNsfsConfig) : AccountNsfsConfig :=
  mkAccountNsfsConfig (nac_UID c) (nac_GID c) (nac_NewBucketsPath c) (nac_NsfsOnly c) "".

Definition createParams (na : NooBaaAccount) : CreateAccountParams :=
  let name := om_Name (na_meta na) in
  let spec := na_Spec na in
  mkCreateAccountParams name name false true (nas_AllowBucketCreate spec) (nas_DefaultResource spec)
    (nas_ForceMd5Etag spec) "" (sentNsfsConfig <$> nas_NsfsAccountConfig spec).

Definition updateParams (na : NooBaaAccount) : UpdateAccountS3AccessParams :=
  let spec := na_Spec na in
  mkUpdateAccountS3AccessParams (om_Name (na_meta na)) true (Some (nas_DefaultResource spec)) (nas_ForceMd5Etag spec)
    (Some (nas_AllowBucketCreate spec)) (sentNsfsConfig <$> nas_NsfsAccountConfig spec).

Definition needUpdate (na : NooBaaAccount) (info : AccountInfo) : bool :=
  let spec := na_Spec na in
  (nas_AllowBucketCreate spec != acc_CanCreateBuckets info)
  || (nas_DefaultResource spec != acc_DefaultResource info)
  || (nas_NsfsAccountConfig spec != acc_NsfsAccountConfig info)
  || (negb (isNil (nas_NsfsAccountConfig spec)) && isNil (acc_NsfsAccountConfig info)).

Definition IsBucketInBucketsArray (buckets : list BucketInfo) (bucketName : string) : bool :=
  existsb (λ b, bkt_Name b == bucketName) buckets.

Section Reconciler.
Context {QA : QuantityApi} {CA : ConditionApi}.
Context {W N : Type} {NB : NBClient N} {NA : NBAccountClient N}.
Context {SA : ApiServer W NooBaaAccount} {SS : ApiServer W Secret} {SB : ApiServer W (BackingStore QA)}
        {SNS : ApiServer W NamespaceStore} {SNB : ApiServer W NooBaa}.
Context (Namespace : string) (now : Z).
Context (SetControllerReference : ObjectMeta → ObjectMeta → msg + ObjectMeta).
(** [Client.Status().Update]: only the status is stored. *)
Context (statusUpdate : W → NooBaaAccount → W * option error).

Abbreviation St := (State W N).
Abbreviation Step := (outcome (St * option error)).
Implicit Types (st : St) (na : NooBaaAccount).

Definition set_account na st : St := mkState W N (st_cluster st) (st_noobaa st) na (st_secret st).
Definition set_secret s st : St := mkState W N (st_cluster st) (st_noobaa st) (st_account st) s.
Definition set_cluster w st : St := mkState W N w (st_noobaa st) (st_account st) (st_secret st).
Definition set_noobaa n st : St := mkState W N (st_cluster st) n (st_account st) (st_secret st).

(** ** Status *)

Definition SetPhase na (phase : NooBaaAccountPhase) (reason message : msg) : NooBaaAccount :=
  let conds := nast_Conditions (na_Status na) in
  let with_status p c := mkNooBaaAccount (na_meta na) (na_Spec na) (mkNooBaaAccountStatus p c) in
  match phase with
  | NooBaaAccountPhaseNone => with_status (nast_Phase (na_Status na)) (SetProgressingCondition now conds reason message)
  | NooBaaAccountPhaseReady => with_status phase (SetAvailableCondition now conds reason message)
  | NooBaaAccountPhaseRejected => with_status phase (SetErrorCondition now conds reason message)
  | _ => with_status phase (SetProgressingCondition now conds reason message)
  end.

Definition set_phase (phase : NooBaaAccountPhase) (reason message : msg) st : St :=
  set_account (SetPhase (st_account st) phase reason message) st.

Definition UpdateStatus st : Step :=
  let '(w, err) := statusUpdate (st_cluster st) (st_account st) in Ret (set_cluster w st, err).

(** ** The secret *)

Definition Own na (s : Secret) : outcome Secret :=
  match SetControllerReference (na_meta na) (sec_meta s) with
  | inl m => Panic (Panicked m)
  | inr m => Ret (set_meta m s)
  end.

Definition accountKeys (keys : S3AccessKeys) (arn : string) : gmap string string :=
  <["ARN" := arn]> (<["AWS_SECRET_ACCESS_KEY" := s3k_SecretKey keys]> {["AWS_ACCESS_KEY_ID" := s3k_AccessKey keys]}).

Definition createNoobaaAccountSecret st (keys : S3AccessKeys) (arn : string) : Step :=
  let secret := mkSecret (sec_meta (st_secret st)) (Some (accountKeys keys arn)) (sec_Data (st_secret st)) in
  secret ← Own (st_account st) secret;
  '(w, secret, created) ← KubeCreateSkipExisting (st_cluster st) secret;
  Ret (set_secret secret (set_cluster w st),
       if created : bool then None
       else Some (Errorf (Sprintf "Failed to create NoobaaAccount secret %q" [AStr (om_Name (sec_meta secret))]))).

Definition ensureNoobaaAccountSecret st : Step :=
  '(secret, found) ← KubeCheck (st_cluster st) (st_secret st);
  let st := set_secret secret st in
  if found : bool then Ret (st, None)
  else
    match nb_ReadAccount (st_noobaa st) (om_Name (na_meta (st_account st))) with
    | inl err => Ret (st, Some err)
    | inr info =>
        match acc_AccessKeys info with
        | [] => Ret (st, Some (Errorf (Sprintf "NooBaaAccount %q has no access keys" [AStr (om_Name (na_meta (st_account st)))])))
        | keys :: _ => createNoobaaAccountSecret st keys (acc_ARN info)
        end
    end.

(** ** The account on the server *)

(** [a[0]]. *)
Definition head_or_panic {A} (l : list A) : outcome A :=
  match l with a :: _ => Ret a | [] => Panic (Panicked (Lit "index out of range [0] with length 0")) end.

Definition CreateNooBaaAccount st : Step :=
  let na := st_account st in
  let '(n, reply) := nb_CreateAccount (st_noobaa st) (createParams na) in
  let st := set_noobaa n st in
  match reply with
  | inl err => Ret (st, Some (NewPersistentError "InvalidCreateAccountParams" (Sprintf "%v" [AMsg (Error err)])))
  | inr info =>
      match car_AccessKeys info with
      | keys :: _ => createNoobaaAccountSecret st keys (car_ARN info)
      | [] =>
          match nb_ReadAccount n (om_Name (na_meta na)) with
          | inl err => Ret (st, Some err)
          | inr read =>
              keys ← head_or_panic (acc_AccessKeys read);
              createNoobaaAccountSecret st keys (if car_ARN info == "" then acc_ARN read else car_ARN info)
          end
      end
  end.

Definition UpdateNooBaaAccount st (info : AccountInfo) : Step :=
  if needUpdate (st_account st) info then
    let '(n, err) := nb_UpdateAccountS3Access (st_noobaa st) (updateParams (st_account st)) in
    Ret (set_noobaa n st,
         match err with
         | Some e => Some (NewPersistentError "InvalidUpdateAccountS3AccessParams" (Sprintf "%v" [AMsg (Error e)]))
         | None => None
         end)
  else Ret (st, None).

Definition findAccount (name : string) (accounts : list AccountInfo) : option AccountInfo :=
  List.find (λ a, acc_Name a == name) accounts.

Definition ReadSystemInfo st : error + option AccountInfo :=
  match nb_Connect (st_noobaa st) with
  | Some err => inl err
  | None =>
      match nb_ReadSystem (st_noobaa st) with
      | inl err => inl err
      | inr info => inr (findAccount (om_Name (na_meta (st_account st))) (si_Accounts info))
      end
  end.

(** ** The phases *)

Definition ReconcilePhaseVerifying st (nb : NooBaa) : Step :=
  let st := set_phase NooBaaAccountPhaseVerifying (Lit "NooBaaAccountPhaseVerifying") (startedPhase "1/2" "Verifying") st in
  let na := st_account st in
  let name := om_Name (na_meta na) in
  if om_UID (nb_meta nb) == "" then
    Ret (st, Some (NewPersistentError "MissingSystem"
           (Sprintf "NooBaa system %q not found or deleted" [AStr (om_Name (nb_meta nb))])))
  else if nas_AllowBucketCreate (na_Spec na) && (nas_DefaultResource (na_Spec na) == "") then
    Ret (st, Some (NewPersistentError "MissingDefaultResource"
           (Sprintf "Account %q is allowed to create buckets, but no resource is provided" [AStr name])))
  else if nas_DefaultResource (na_Spec na) != "" then
    err ← ValidateAccountDefaultResource (QA:=QA) Namespace (st_cluster st) na;
    Ret (st, match err with Some e => Some (NewPersistentError "InvalidDefaultResource" (Error e)) | None => None end)
  else Ret (st, None).

Definition ReconcilePhaseConnecting st : St * (error + option AccountInfo) :=
  let st := set_phase NooBaaAccountPhaseConnecting (Lit "NooBaaAccountPhaseConnecting") (startedPhase "2/3" "Connecting") st in
  (st, ReadSystemInfo st).

Definition ReconcilePhaseConfiguring st (info : option AccountInfo) : Step :=
  let st := set_phase NooBaaAccountPhaseConfiguring (Lit "NooBaaAccountPhaseConfiguring") (startedPhase "2/2" "Configuring") st in
  match nb_Connect (st_noobaa st) with
  | Some err => Ret (st, Some err)
  | None =>
      try_step (match info with Some info => UpdateNooBaaAccount st info | None => CreateNooBaaAccount st end)
        ensureNoobaaAccountSecret
  end.

Definition ReconcilePhases st (nb : NooBaa) : Step :=
  try_step (ReconcilePhaseVerifying st nb) (λ st,
  let '(st, info) := ReconcilePhaseConnecting st in
  match info with
  | inl err => Ret (st, Some err)
  | inr info => ReconcilePhaseConfiguring st info
  end).

(** ** Deletion *)

Definition FinalizeDeletion st : Step :=
  let '(na, _) := RemoveFinalizer (st_account st) Finalizer in
  '(w, na, updated) ← KubeUpdate (st_cluster st) na;
  let st := set_account na (set_cluster w st) in
  Ret (st, if updated : bool then None
           else Some (Errorf (Sprintf "BucketClass %q failed to remove finalizer %q" [AStr (om_Name (na_meta na)); AStr Finalizer]))).

Definition deleteAccount st : Step :=
  let name := om_Name (na_meta (st_account st)) in
  let '(n, err) := nb_DeleteAccount (st_noobaa st) name in
  let failed e := Some (Errorf (Sprintf "failed to delete account %q. got error: %v" [AStr name; AMsg (Error e)])) in
  Ret (set_noobaa n st,
       match err with
       | None => None
       | Some (RPCError code m) => if code == "NO_SUCH_ACCOUNT" then None else failed (RPCError code m)
       | Some e => failed e
       end).

Definition ReconcileDeletion st (nb : NooBaa) : Step :=
  try_step
    (if nast_Phase (na_Status (st_account st)) != NooBaaAccountPhaseDeleting then
       UpdateStatus (set_phase NooBaaAccountPhaseDeleting (Lit "BucketClassPhaseDeleting")
                       (Lit "noobaa operator started deletion") st)
     else Ret (st, None)) (λ st,
  if om_UID (nb_meta nb) == "" then FinalizeDeletion st
  else
    match nb_Connect (st_noobaa st) with
    | Some err => Ret (st, Some err)
    | None => try_step (deleteAccount st) FinalizeDeletion
    end).

(** ** [Reconcile] *)

Definition completeReconcile st (err : option error) : outcome (St * Result) :=
  let '(st, res) :=
    match err with
    | Some (PersistentError reason message) =>
        (set_phase NooBaaAccountPhaseRejected (Sprintf reason []) message st, mkResult None)
    | Some e => (set_phase NooBaaAccountPhaseNone (Lit "TemporaryError") (Error e) st, mkResult (Some 3%Z))
    | None => (set_phase NooBaaAccountPhaseReady (Lit "NooBaaAccountPhaseReady")
                 (Lit "noobaa operator completed reconcile - noobaa account is ready") st, mkResult None)
    end in
  '(st, err) ← UpdateStatus st;
  Ret (st, match err with Some _ => mkResult (Some 3%Z) | None => res end).

(** After the account has been loaded and has its metadata. *)
Definition reconcileLoaded st (sys : NooBaa) : outcome (St * Result) :=
  '(w, nb, _) ← CheckSystem (st_cluster st) sys;
  let st := set_cluster w st in
  '(st, err) ← (if negb (isNil (om_DeletionTimestamp (na_meta (st_account st)))) then ReconcileDeletion st nb
                else ReconcilePhases st nb);
  completeReconcile st err.

Definition Reconcile st (sys : NooBaa) : outcome (St * Result) :=
  '(na, _) ← KubeCheck (st_cluster st) (st_account st);
  let st := set_account na st in
  if om_UID (na_meta na) == "" then Ret (st, mkResult None)
  else
    let '(na, changed) := EnsureCommonMetaFields na Finalizer in
    '(st, ok) ← (if changed : bool then
                   '(w, na, updated) ← KubeUpdate (st_cluster st) na;
                   Ret (set_account na (set_cluster w st), updated)
                 else Ret (st, true));
    if negb ok then Ret (st, mkResult (Some 3%Z)) else reconcileLoaded st sys.

Set Default Proof Using "Type".

(** ** The secret of a ready account *)

Section ReadySecret.
(** A secret is stored with its string data; setting a controller reference keeps the
    name of the object. *)
Context {AL : ApiLaws W Secret (option (gmap string string))}.
Context (payload_data : ∀ s, payload s = sec_StringData s).
Context (Own_keeps : ∀ o m m', SetControllerReference o m = inr m' → om_Name m' = om_Name m ∧ om_Namespace m' = om_Namespace m).

Lemma createNoobaaAccountSecret_ok st keys arn st' :
  createNoobaaAccountSecret st keys arn = Ret (st', None) →
  st_noobaa st' = st_noobaa st ∧ ObjectKey (st_secret st') = ObjectKey (st_secret st) ∧
  st_account st' = st_account st ∧
  match srv_Get (O:=Secret) (st_cluster st) (ObjectKey (st_secret st)) with
  | inr _ => st_cluster st' = st_cluster st
  | inl _ => ∃ s, srv_Get (st_cluster st') (ObjectKey (st_secret st)) = inr s ∧ sec_StringData s = Some (accountKeys keys arn)
  end.
Proof using AL payload_data Own_keeps.
  change (@ObjectKey Secret Secret_MetaObject) with (@ObjectKey Secret ko_meta).
  unfold createNoobaaAccountSecret, Own. set (sec := mkSecret _ _ _).
  destruct (SetControllerReference _ _) as [m|m] eqn:Ho; [done|]. apply Own_keeps in Ho as [Hn Hs].
  cbn [mbind outcome_bind]. set (sec' := set_meta m sec).
  assert (Hk : @ObjectKey _ ko_meta sec' = @ObjectKey _ ko_meta (st_secret st)) by (unfold ObjectKey; cbn; by rewrite Hn, Hs).
  unfold KubeCreateSkipExisting, kubeCreateSkipOrFailExisting, fill. rewrite Hk.
  destruct (srv_Get (st_cluster st) _) as [e|x] eqn:Hg; cbn [mbind outcome_bind].
  - destruct (IsNoMatchOrNotRegistered e); [done|]. destruct (IsNotFound e).
    + destruct (srv_Create _ _) as [w' [e'|o']] eqn:Hc; [by repeat case_match|].
      intros [= <-]. apply Create_ok in Hc as (Hk' & Hp & Hget & _ & _). rewrite Hk in Hk', Hget.
      split; [done|]. split; [done|]. split; [done|]. exists o'. split; [done|]. by rewrite <-payload_data, Hp, payload_data.
    + by repeat case_match.
  - intros [= <-]. done.
Qed.

Lemma ensureNoobaaAccountSecret_ok st st' :
  ensureNoobaaAccountSecret st = Ret (st', None) →
  match srv_Get (O:=Secret) (st_cluster st) (ObjectKey (st_secret st)) with
  | inr _ => st_cluster st' = st_cluster st
  | inl _ => ∃ s read keys l, nb_ReadAccount (st_noobaa st) (om_Name (na_meta (st_account st))) = inr read ∧ acc_AccessKeys read = keys :: l ∧
      srv_Get (st_cluster st') (ObjectKey (st_secret st)) = inr s ∧ sec_StringData s = Some (accountKeys keys (acc_ARN read))
  end.
Proof using AL payload_data Own_keeps.
  unfold ensureNoobaaAccountSecret. intros ([sec found] & Hk & H)%bind_Ret.
  change (@ObjectKey Secret Secret_MetaObject) with (@ObjectKey Secret ko_meta). destruct found.
  { injection H as <-. apply KubeCheck_true in Hk as (y & Hy & _). by rewrite Hy. }
  apply KubeCheck_false in Hk as [-> [e He]]. rewrite He. cbn [set_secret st_noobaa st_account] in H.
  destruct (nb_ReadAccount _ _) as [|info]; [done|]. destruct (acc_AccessKeys info) as [|keys l] eqn:Ha; [done|].
  apply createNoobaaAccountSecret_ok in H as (_ & _ & _ & H). cbn [set_secret st_secret st_cluster] in H.
  change (@ObjectKey Secret Secret_MetaObject) with (@ObjectKey Secret ko_meta) in H.
  rewrite He in H. destruct H as (s & Hs & Hd). by exists s, info, keys, l.
Qed.

Lemma UpdateNooBaaAccount_frame st info st' err :
  UpdateNooBaaAccount st info = Ret (st', err) →
  st_cluster st' = st_cluster st ∧ st_secret st' = st_secret st ∧ st_account st' = st_account st ∧
  (err = None → if needUpdate (st_account st) info then nb_UpdateAccountS3Access (st_noobaa st) (updateParams (st_account st)) = (st_noobaa st', None)
                else st_noobaa st' = st_noobaa st).
Proof.
  unfold UpdateNooBaaAccount. destruct (needUpdate _ _); [|by intros [= <- _]].
  destruct (nb_UpdateAccountS3Access _ _) as [n [e|]]; by intros [= <- <-].
Qed.

(** The keys and the name that the server has issued for an account: in the reply to its
    creation, or, for a known account and when that reply had none, when it was read. *)
Definition issued (n : N) (na : NooBaaAccount) (known : option AccountInfo) (keys : S3AccessKeys) (arn : string) : Prop :=
  let name := om_Name (na_meta na) in
  match known with
  | Some info =>
      ∃ n' read l, (if needUpdate na info then nb_UpdateAccountS3Access n (updateParams na) = (n', None) else n' = n) ∧
        nb_ReadAccount n' name = inr read ∧ acc_AccessKeys read = keys :: l ∧ arn = acc_ARN read
  | None =>
      ∃ n' info, nb_CreateAccount n (createParams na) = (n', inr info) ∧
        match car_AccessKeys info with
        | k :: _ => keys = k ∧ arn = car_ARN info
        | [] => ∃ read l, nb_ReadAccount n' name = inr read ∧ acc_AccessKeys read = keys :: l ∧
                  arn = (if car_ARN info == "" then acc_ARN read else car_ARN info)
        end
  end.

Lemma CreateNooBaaAccount_ok st st' :
  CreateNooBaaAccount st = Ret (st', None) → ObjectKey (st_secret st') = ObjectKey (st_secret st) ∧
  match srv_Get (O:=Secret) (st_cluster st) (ObjectKey (st_secret st)) with
  | inr _ => st_cluster st' = st_cluster st
  | inl _ => ∃ s keys arn, issued (st_noobaa st) (st_account st) None keys arn ∧
      srv_Get (st_cluster st') (ObjectKey (st_secret st)) = inr s ∧ sec_StringData s = Some (accountKeys keys arn)
  end.
Proof using AL payload_data Own_keeps.
  unfold CreateNooBaaAccount, issued. destruct (nb_CreateAccount _ _) as [n [e|info]]; [done|].
  destruct (car_AccessKeys info) as [|keys l] eqn:Hi.
  - destruct (nb_ReadAccount _ _) as [e|read] eqn:Hr; [done|]. intros (keys & Hk & H)%bind_Ret.
    destruct (acc_AccessKeys read) as [|k l] eqn:Ha; [done|]. injection Hk as <-.
    apply createNoobaaAccountSecret_ok in H as (_ & Hkey & _ & H). split; [done|]. cbn [set_noobaa st_cluster st_secret] in H.
    destruct (srv_Get (st_cluster st) _); [|done]. destruct H as (s & Hs & Hd). eexists s, _, _. split; [|by split].
    exists n, info. split; [done|]. rewrite Hi. by exists read, l.
  - intros H. apply createNoobaaAccountSecret_ok in H as (_ & Hkey & _ & H). split; [done|]. cbn [set_noobaa st_cluster st_secret] in H.
    destruct (srv_Get (st_cluster st) _); [|done]. destruct H as (s & Hs & Hd). eexists s, _, _. split; [|by split].
    exists n, info. split; [done|]. by rewrite Hi.
Qed.

(** The two steps on a secret that did not exist. *)
Lemma configure_secret st info st2 st' e :
  srv_Get (O:=Secret) (st_cluster st) (ObjectKey (st_secret st)) = inl e →
  match info with Some i => UpdateNooBaaAccount st i | None => CreateNooBaaAccount st end = Ret (st2, None) →
  ensureNoobaaAccountSecret st2 = Ret (st', None) →
  ∃ s keys arn, srv_Get (st_cluster st') (ObjectKey (st_secret st)) = inr s ∧ issued (st_noobaa st) (st_account st) info keys arn ∧
    sec_StringData s = Some (accountKeys keys arn).
Proof using AL payload_data Own_keeps.
  intros He H2 H3%ensureNoobaaAccountSecret_ok. destruct info as [info|].
  - apply UpdateNooBaaAccount_frame in H2 as (Hc & Hs & Ha & Hn). rewrite Hc, Hs, Ha, He in H3.
    destruct H3 as (s & read & keys & l & Hr & Hk & Hg & Hd). exists s, keys, (acc_ARN read). split_and!; [done| |done].
    exists (st_noobaa st2), read, l. split_and!; [by apply Hn|done..].
  - apply CreateNooBaaAccount_ok in H2 as [Hkey H2]. rewrite He in H2. destruct H2 as (s & keys & arn & Hi & Hg & Hd).
    rewrite Hkey, Hg in H3. exists s, keys, arn. by rewrite H3.
Qed.

Lemma na_ReconcilePhaseVerifying_ok st nb st' :
  ReconcilePhaseVerifying st nb = Ret (st', None) →
  st_cluster st' = st_cluster st ∧ st_noobaa st' = st_noobaa st ∧ st_secret st' = st_secret st ∧
  na_meta (st_account st') = na_meta (st_account st) ∧ na_Spec (st_account st') = na_Spec (st_account st) ∧
  om_UID (nb_meta nb) ≠ "" ∧
  (nas_AllowBucketCreate (na_Spec (st_account st)) = true → nas_DefaultResource (na_Spec (st_account st)) ≠ "").
Proof.
  unfold ReconcilePhaseVerifying. cbn [set_phase set_account st_account SetPhase na_Spec].
  case_bool_decide as Hu; [done|]. destruct (nas_AllowBucketCreate _); cbn [andb].
  - case_bool_decide as Hd; [done|]. cbn [negb]. by intros ([e|] & _ & [= <-])%bind_Ret.
  - destruct (_ != _); [by intros ([e|] & _ & [= <-])%bind_Ret|by intros [= <-]].
Qed.


(** The keys of a new account are written only to a secret that did not exist.
    An account that is created while a secret of its name is there is declared done
    although the secret keeps what it had. *)
Theorem CreateNooBaaAccount_secret st st' n info keys l :
  nb_CreateAccount (st_noobaa st) (createParams (st_account st)) = (n, inr info) →
  car_AccessKeys info = keys :: l →
  CreateNooBaaAccount st = Ret (st', None) →
  match srv_Get (O:=Secret) (st_cluster st) (ObjectKey (st_secret st)) with
  | inr _ => st_cluster st' = st_cluster st
  | inl _ => ∃ s, srv_Get (st_cluster st') (ObjectKey (st_secret st)) = inr s ∧
                  sec_StringData s = Some (accountKeys keys (car_ARN info))
  end.
Proof using AL payload_data Own_keeps.
  unfold CreateNooBaaAccount. intros -> ->. cbn. intros H. by apply createNoobaaAccountSecret_ok in H as (_ & _ & _ & H).
Qed.
End ReadySecret.

(** ** Deletion *)

(** The account of a name on the server. *)
Definition has_account (n : N) (email : string) : Prop := ∃ info, nb_ReadAccount n email = inr info.

(** A deletion that succeeds, or that finds no such account, leaves none. *)
Class NBAccountLaws : Prop := {
  DeleteAccount_ok n email n' : nb_DeleteAccount n email = (n', None) → ¬ has_account n' email;
  DeleteAccount_missing n email n' m : nb_DeleteAccount n email = (n', Some (RPCError "NO_SUCH_ACCOUNT" m)) → ¬ has_account n' email;
}.

Lemma deleteAccount_ok {NL : NBAccountLaws} st st' :
  deleteAccount st = Ret (st', None) →
  ¬ has_account (st_noobaa st') (om_Name (na_meta (st_account st))) ∧ st_account st' = st_account st.
Proof.
  unfold deleteAccount. destruct (nb_DeleteAccount _ _) as [n [[]|]] eqn:Hd; try done.
  - case_bool_decide as Hc; [|done]. intros [= <-]. subst. split; [|done]. by eapply DeleteAccount_missing.
  - intros [= <-]. split; [|done]. by eapply DeleteAccount_ok.
Qed.

(** When the deletion of an account reports success while the system exists, the
    server has no account of that name any more, and the last request was an accepted
    update of the resource without the operator's finalizer. *)
Theorem na_ReconcileDeletion_released {NL : NBAccountLaws} st nb st' :
  om_UID (nb_meta nb) ≠ "" →
  ReconcileDeletion st nb = Ret (st', None) →
  ¬ has_account (st_noobaa st') (om_Name (na_meta (st_account st))) ∧
  ∃ w na, srv_Update w na = (st_cluster st', inr (st_account st')) ∧
    ObjectKey na = ObjectKey (st_account st) ∧ Finalizer ∉ om_Finalizers (na_meta na).
Proof.
  intros Hu. unfold ReconcileDeletion. intros (st1 & H1 & H)%try_step_ok.
  assert (Hm1 : na_meta (st_account st1) = na_meta (st_account st)).
  { destruct (_ != _); [|by injection H1 as <-]. unfold UpdateStatus in H1.
    destruct (statusUpdate _ _). by injection H1 as <- _. }
  rewrite bool_decide_false in H by done. destruct (nb_Connect _); [done|].
  apply try_step_ok in H as (st2 & [Hno Ha]%deleteAccount_ok & H3). rewrite Hm1 in Hno.
  unfold FinalizeDeletion in H3. destruct (RemoveFinalizer (st_account st2) Finalizer) as [na b] eqn:Hr.
  pose proof (RemoveFinalizer_eq (st_account st2) Finalizer) as [Hf _]. rewrite Hr in Hf. cbn [fst] in Hf.
  apply bind_Ret in H3 as ([[w o] []] & Hup & H3); [|done]. injection H3 as <-. split; [done|].
  exists (st_cluster st2), na. unfold KubeUpdate, fill in Hup.
  destruct (srv_Update _ _) as [w' [e|o']]; [by repeat case_match; simplify_eq|]. injection Hup as <- <-.
  split; [done|]. split.
  - unfold RemoveFinalizer in Hr. destruct (foldl _ _ _) as [[arr n] found]. injection Hr as <- _.
    rewrite Ha. unfold ObjectKey. cbn. by rewrite Hm1.
  - change (om_Finalizers (na_meta na)) with (om_Finalizers (meta na)). rewrite Hf.
    intros [? _]%list_elem_of_filter. done.
Qed.

End Reconciler.

(** ** Updates settle, or do not *)

(** What the server reports once it has applied an update as it was sent. *)
Definition applied (na : NooBaaAccount) (info : AccountInfo) : Prop :=
  Some (acc_CanCreateBuckets info) = uas_AllowBucketCreation (updateParams na) ∧
  Some (acc_DefaultResource info) = uas_DefaultResource (updateParams na) ∧
  acc_NsfsAccountConfig info = uas_NsfsAccountConfig (updateParams na).

(** Once the server has applied an update, the next reconcile finds nothing to
    change, unless the account has a distinguished name: that is never sent, and such
    an account is updated on every reconcile. *)
Theorem needUpdate_settles na info :
  applied na info →
  needUpdate na info = false ↔
  ∀ c, nas_NsfsAccountConfig (na_Spec na) = Some c → nac_DistinguishedName c = "".
Proof.
  unfold applied, updateParams, needUpdate. cbn. intros (Hc & Hd & Hn). injection Hc as ->. injection Hd as ->.
  rewrite Hn, !(bool_decide_true (_ = _)) by done. cbn [negb orb].
  destruct (nas_NsfsAccountConfig (na_Spec na)) as [[uid gid path only dn]|]; cbn.
  - unfold sentNsfsConfig. cbn. rewrite orb_false_r. case_bool_decide as He; cbn.
    + split; [intros _ c [= <-]; by injection He|done].
    + split; [done|]. intros H. destruct He. pose proof (H _ eq_refl) as Hq. cbn in Hq. by rewrite Hq.
  - done.
Qed.

(** The comparison leaves out the MD5 ETag setting: a change of it alone is never
    carried over. *)
Lemma na_needUpdate_false na info :
  needUpdate na info = false ↔
  nas_AllowBucketCreate (na_Spec na) = acc_CanCreateBuckets info ∧
  nas_DefaultResource (na_Spec na) = acc_DefaultResource info ∧
  nas_NsfsAccountConfig (na_Spec na) = acc_NsfsAccountConfig info.
Proof.
  unfold needUpdate. rewrite !orb_false_iff, !negb_false_iff, !bool_decide_eq_true.
  split; [by intros [[[? ?] ?] _]|]. intros (-> & -> & ->). split; [done|]. by destruct (acc_NsfsAccountConfig info).
Qed.
