(* ===== verification/SystemServices.v ===== *)
(** * Addresses of the system and the way to it: [pkg/system/phase3_connecting.go],
    [Connect] of [pkg/system/system.go] and the routers of [pkg/nb/router.go].

    The connecting phase of the system controller collects the addresses of the
    services; everything else in the operator reaches the system through [Connect],
    which reads them back.  The port forwarding of the Kubernetes client is a
    parameter. *)

From Stdlib Require Import Ascii.
From stdpp Require Import pretty.
From S2P Require Import Prelude GoStrings Types Kube Util BackingStoreValidation GoUrl Controller.

(** ** Kubernetes objects *)

Inductive IntOrString := FromInt (IntVal : Z) | FromString (StrVal : string).

(** [IntValue] ignores the error of [strconv.Atoi], which saturates. *)
Definition IntValue (p : IntOrString) : Z :=
  match p with
  | FromInt z => z
  | FromString s =>
      match ParseInt s 64 with
      | inr z => z
      | inl ErrSyntax => 0
      | inl ErrRange => if HasPrefix s "-" then - 2 ^ 63 else 2 ^ 63 - 1
      end
  end%Z.

Record ServicePort := mkServicePort {
  sp_Name : string;
  sp_Port : Z;
  sp_TargetPort : IntOrString;
  sp_NodePort : Z;
}.

Record LoadBalancerIngress := mkLoadBalancerIngress { lbi_IP : string; lbi_Hostname : string }.

Record Service := mkService {
  svc_meta : ObjectMeta;
  svc_Selector : gmap string string;
  svc_Ports : list ServicePort;
  svc_ClusterIP : string;
  svc_ExternalIPs : list string;
  svc_Ingress : list LoadBalancerIngress;
}.
#[export, refine] Instance Service_MetaObject : MetaObject Service :=
  {| meta := svc_meta;
     set_meta := λ m s, mkService m (svc_Selector s) (svc_Ports s) (svc_ClusterIP s) (svc_ExternalIPs s) (svc_Ingress s) |}.
Proof. done. Defined.
#[export, refine] Instance Service_KubeObject : KubeObject Service := {| resetStringData := id |}.
Proof. done. Defined.

Record ContainerPort := mkContainerPort { cport_Name : string; cport_ContainerPort : Z }.

(** A pod as its status reports it. *)
Record RunningPod := mkRunningPod {
  rp_meta : ObjectMeta;
  rp_ContainerPorts : list (list ContainerPort);
  rp_Phase : string;
  rp_HostIP : string;
  rp_PodIP : string;
  rp_Conditions : list (string * string);   (* type and status *)
}.
#[export, refine] Instance RunningPod_MetaObject : MetaObject RunningPod :=
  {| meta := rp_meta;
     set_meta := λ m p, mkRunningPod m (rp_ContainerPorts p) (rp_Phase p) (rp_HostIP p) (rp_PodIP p) (rp_Conditions p) |}.
Proof. done. Defined.
#[export, refine] Instance RunningPod_KubeObject : KubeObject RunningPod := {| resetStringData := id |}.
Proof. done. Defined.

(** [labels.SelectorFromSet]: an empty set selects everything. *)
Definition matchesLabels (selector : gmap string string) (m : ObjectMeta) : bool :=
  bool_decide (map_Forall (λ k v, default ∅ (om_Labels m) !! k = Some v) selector).

Definition selectPods (namespace : string) (selector : gmap string string) (p : RunningPod) : bool :=
  (om_Namespace (rp_meta p) == namespace) && matchesLabels selector (rp_meta p).

(** ** Addresses *)

(** [net.JoinHostPort] *)
Definition JoinHostPort (host port : string) : string :=
  if Contains_str host ":" then "[" +:+ host +:+ "]:" +:+ port else host +:+ ":" +:+ port.

Definition GetFormattedEndpoint (scheme host : string) (port : Z) : string :=
  scheme +:+ "://" +:+ JoinHostPort host (pretty port).

(** [FindPortByName] returns an empty port when there is none of that name. *)
Definition FindPortByName (srv : Service) (portName : string) : ServicePort :=
  default (mkServicePort "" 0 (FromInt 0) 0) (find (λ p, sp_Name p == portName) (svc_Ports srv)).

Definition GetAPIPortName (api : string) : string :=
  if api == "scrubber_api" then "bg-https"
  else if api == "hosted_agents_api" then "hosted-agents-https"
  else "mgmt-https".

(** The implementations of [APIRouter]. *)
Inductive APIRouter :=
  | SimpleRouter (Address : string)
  | APIRouterPortForward (ServiceMgmt : Service) (MapRemotePortToLocal : gmap Z Z)
  | APIRouterPodPort (ServiceMgmt : Service) (PodIP : string)
  | APIRouterNodePort (ServiceMgmt : Service) (NodeIP : string)
  | APIRouterServicePort (ServiceMgmt : Service).

Definition GetAddress (r : APIRouter) (api : string) : string :=
  match r with
  | SimpleRouter address => address
  | APIRouterPortForward srv ports =>
      let port := IntValue (sp_TargetPort (FindPortByName srv (GetAPIPortName api))) in
      "wss://localhost:" +:+ pretty (default 0%Z (ports !! (port mod 65536)%Z)) +:+ "/rpc/"
  | APIRouterPodPort srv podIP =>
      let port := IntValue (sp_TargetPort (FindPortByName srv (GetAPIPortName api))) in
      "wss://" +:+ JoinHostPort podIP (pretty port) +:+ "/rpc/"
  | APIRouterNodePort srv nodeIP =>
      GetFormattedEndpoint "wss" nodeIP (sp_NodePort (FindPortByName srv (GetAPIPortName api)))
  | APIRouterServicePort srv =>
      "wss://" +:+ om_Name (svc_meta srv) +:+ "." +:+ om_Namespace (svc_meta srv) +:+ ".svc.cluster.local:"
        +:+ pretty (sp_Port (FindPortByName srv (GetAPIPortName api))) +:+ "/rpc/"
  end.

(** The port of a container of the pod by its name. *)
Definition podTargetPortNumber (pod : RunningPod) (targetPort : IntOrString) : Z * bool :=
  match targetPort with
  | FromInt z => (z, true)
  | FromString name =>
      match find (λ p, cport_Name p == name) (concat (rp_ContainerPorts pod)) with
      | Some p => (cport_ContainerPort p, true)
      | None => (0%Z, false)
      end
  end.

(** [path.Clean] and [path.Join]: one element of the path at a time, on the stack of
    the elements kept so far. *)
Definition Clean_step (rooted : bool) (stack : list string) (e : string) : list string :=
  if (e == "") || (e == ".") then stack
  else if e == ".." then
    match stack with
    | top :: rest => if top == ".." then e :: stack else rest
    | [] => if rooted then [] else [e]
    end
  else e :: stack.

Definition Clean (p : string) : string :=
  let rooted := HasPrefix p "/" in
  let elements := reverse (foldl (Clean_step rooted) [] (Split p "/"%char)) in
  let cleaned := (if rooted then "/"%string else ""%string) +:+ Join elements "/" in
  if cleaned == "" then "." else cleaned.

Definition path_Join (elements : list string) : string :=
  match filter (λ e, e ≠ ""%string) elements with
  | [] => ""
  | elements => Clean (Join elements "/")
  end.

Definition set_Path (p : string) (u : URL) : URL :=
  mkURL (u_Scheme u) (u_Opaque u) (u_User u) (u_Host u) p (u_RawPath u) (u_OmitHost u) (u_ForceQuery u)
    (u_RawQuery u) (u_Fragment u) (u_RawFragment u).

(** ** Collecting the addresses of a service *)

Section Status.
Context {W : Type} {SP : ApiServer W RunningPod}.
Context (Namespace : string).   (* of the request *)

(** The addresses of the running pods: the ports on their nodes and their own. *)
Definition podPorts (proto : string) (port : ServicePort) (pods : list RunningPod) : list string * list string :=
  let running := filter (λ p, rp_Phase p = "Running"%string) pods in
  ((λ p, GetFormattedEndpoint proto (rp_HostIP p) (sp_NodePort port)) <$> filter (λ p, rp_HostIP p ≠ ""%string) running,
   concat ((λ p, match podTargetPortNumber p (sp_TargetPort port) with
                 | (number, true) => [GetFormattedEndpoint proto (rp_PodIP p) number]
                 | (_, false) => []
                 end) <$> filter (λ p, rp_PodIP p ≠ ""%string) running)).

(** [routeHost] is [route.Spec.Host]. *)
Definition CheckServiceStatus (w : W) (srv : Service) (routeHost : string) (portName : string) : ServiceStatus :=
  let port := FindPortByName srv portName in
  let proto := if HasSuffix portName "https" then "https"%string else "http"%string in
  let '(nodePorts, podPorts) :=
    match srv_List w (selectPods Namespace (svc_Selector srv)) with
    | inr pods => podPorts proto port pods
    | inl _ => ([], [])
    end in
  let endpoint host := GetFormattedEndpoint proto host (sp_Port port) in
  let plain host := proto +:+ "://" +:+ host +:+ ":" +:+ pretty (sp_Port port) in
  let hasIP := svc_ClusterIP srv != "" in
  mkServiceStatus nodePorts podPorts
    (if hasIP then [endpoint (svc_ClusterIP srv)] else [])
    (if hasIP then [plain (om_Name (svc_meta srv) +:+ "." +:+ om_Namespace (svc_meta srv) +:+ ".svc")] else [])
    ((endpoint <$> filter (λ ip, ip ≠ ""%string) (lbi_IP <$> svc_Ingress srv)) ++ (endpoint <$> svc_ExternalIPs srv))
    ((if routeHost != "" then [endpoint routeHost] else [])
     ++ (plain <$> filter (λ h, h ≠ ""%string) (lbi_Hostname <$> svc_Ingress srv))).
End Status.

(** ** The connecting phase *)

Record StatefulSetSize := mkStatefulSetSize { sts_Replicas : option Z; sts_ReadyReplicas : Z }.

(** The fields of the system reconciler that the phase uses. *)
Record SystemState := mkSystemState {
  sys_NooBaa : NooBaa;
  sys_JoinSecret : option Secret;
  sys_ExternalPgSecret : option Secret;
  sys_ExternalPgSSLSecret : option Secret;
  sys_CoreApp : StatefulSetSize;
  sys_ServiceMgmt : Service;
  sys_ServiceS3 : Service;
  sys_ServiceSts : Service;
  sys_ServiceIam : Service;
  sys_ServiceVectors : Service;
  sys_RouteMgmt : string;     (* the hosts of the routes *)
  sys_RouteS3 : string;
  sys_RouteSts : string;
  sys_RouteIam : string;
  sys_RouteVectors : string;
  sys_NBClient : option APIRouter;
}.

Definition set_NooBaa (nb : NooBaa) (s : SystemState) : SystemState :=
  mkSystemState nb (sys_JoinSecret s) (sys_ExternalPgSecret s) (sys_ExternalPgSSLSecret s) (sys_CoreApp s) (sys_ServiceMgmt s) (sys_ServiceS3 s) (sys_ServiceSts s)
    (sys_ServiceIam s) (sys_ServiceVectors s) (sys_RouteMgmt s) (sys_RouteS3 s) (sys_RouteSts s) (sys_RouteIam s)
    (sys_RouteVectors s) (sys_NBClient s).
Definition set_NBClient (c : APIRouter) (s : SystemState) : SystemState :=
  mkSystemState (sys_NooBaa s) (sys_JoinSecret s) (sys_ExternalPgSecret s) (sys_ExternalPgSSLSecret s) (sys_CoreApp s) (sys_ServiceMgmt s) (sys_ServiceS3 s)
    (sys_ServiceSts s) (sys_ServiceIam s) (sys_ServiceVectors s) (sys_RouteMgmt s) (sys_RouteS3 s) (sys_RouteSts s)
    (sys_RouteIam s) (sys_RouteVectors s) (Some c).

Section Connecting.
Context {CA : ConditionApi} `{AuthoritySyntax}.
Context {W : Type} {SP : ApiServer W RunningPod}.
Context (Namespace : string) (now : Z).
(** [ReadAuthAPI] of the server behind a router. *)
Context (ReadAuth : APIRouter → option error).

Definition set_status (f : NooBaaStatus → NooBaaStatus) (s : SystemState) : SystemState :=
  let nb := sys_NooBaa s in set_NooBaa (mkNooBaa (nb_meta nb) (nb_Spec nb) (f (nb_Status nb))) s.

(** [SetPhase], without the readme. *)
Definition SetPhase (phase : SystemPhase) (reason message : msg) : SystemState → SystemState :=
  set_status (λ st,
    let conds := nbst_Conditions st in
    match phase with
    | SystemPhaseNone =>
        set_nbst_Phase (nbst_Phase st) (SetProgressingCondition now conds reason message) st
    | SystemPhaseReady => set_nbst_Phase phase (SetAvailableCondition now conds reason message) st
    | SystemPhaseRejected => set_nbst_Phase phase (SetErrorCondition now conds reason message) st
    | _ => set_nbst_Phase phase (SetProgressingCondition now conds reason message) st
    end).

(** A write through [&r.NooBaa.Status.Services.Service...]. *)
Definition update_services (f : ServicesStatus → ServicesStatus) (s : SystemState) : outcome SystemState :=
  svcs ← deref (nbst_Services (nb_Status (sys_NooBaa s)));
  Ret (set_status (set_nbst_Services (Some (f svcs))) s).

Definition set_mgmt (x : ServiceStatus) (v : ServicesStatus) : ServicesStatus :=
  mkServicesStatus x (svcs_ServiceS3 v) (svcs_ServiceSts v) (svcs_ServiceIam v) (svcs_ServiceVectors v) (svcs_ServiceSyslog v).
Definition set_s3 (x : ServiceStatus) (v : ServicesStatus) : ServicesStatus :=
  mkServicesStatus (svcs_ServiceMgmt v) x (svcs_ServiceSts v) (svcs_ServiceIam v) (svcs_ServiceVectors v) (svcs_ServiceSyslog v).
Definition set_sts (x : ServiceStatus) (v : ServicesStatus) : ServicesStatus :=
  mkServicesStatus (svcs_ServiceMgmt v) (svcs_ServiceS3 v) x (svcs_ServiceIam v) (svcs_ServiceVectors v) (svcs_ServiceSyslog v).
Definition set_iam (x : ServiceStatus) (v : ServicesStatus) : ServicesStatus :=
  mkServicesStatus (svcs_ServiceMgmt v) (svcs_ServiceS3 v) (svcs_ServiceSts v) x (svcs_ServiceVectors v) (svcs_ServiceSyslog v).
Definition set_vectors (x : ServiceStatus) (v : ServicesStatus) : ServicesStatus :=
  mkServicesStatus (svcs_ServiceMgmt v) (svcs_ServiceS3 v) (svcs_ServiceSts v) (svcs_ServiceIam v) x (svcs_ServiceSyslog v).

Definition InitNBClient (s : SystemState) : SystemState * option error :=
  match sys_JoinSecret s with
  | None =>
      let router := APIRouterServicePort (sys_ServiceMgmt s) in
      (set_NBClient router s, ReadAuth router)
  | Some join =>
      match Parse (map_get (sec_StringData join) "mgmt_addr") with
      | inl err => (s, Some (Errorf err))
      | inr u =>
          let router := SimpleRouter (URL_text (set_Path (path_Join [u_Path u; "rpc"%string]) u)) in
          (set_NBClient router s, ReadAuth router)
      end
  end.

Definition ReconcilePhaseConnecting (w : W) (s : SystemState) : outcome (SystemState * option error) :=
  let s := SetPhase SystemPhaseConnecting (Lit "SystemPhaseConnecting") (startedPhase "3/4" "Connecting") s in
  let check srv route port := CheckServiceStatus Namespace w srv route port in
  s ← (if isNil (sys_JoinSecret s)
       then update_services (set_mgmt (check (sys_ServiceMgmt s) (sys_RouteMgmt s) "mgmt-https")) s else Ret s);
  match sts_Replicas (sys_CoreApp s) with
  | None => Ret (s, Some (Errorf (Lit "noobaa core statefulset replicas is nil, cannot proceed")))
  | Some replicas =>
      let ready := sts_ReadyReplicas (sys_CoreApp s) in
      if (ready <? 1)%Z then
        Ret (s, Some (Errorf (Sprintf "waiting for noobaa core pod to be ready, currently ready replicas: %d, expected: at least 1 (%d configured)"
                                [AInt ready; AInt replicas])))
      else
        let '(s, err) := InitNBClient s in
        match err with
        | Some err => Ret (s, Some err)
        | None =>
            s ← update_services (set_s3 (check (sys_ServiceS3 s) (sys_RouteS3 s) "s3-https")) s;
            s ← update_services (set_sts (check (sys_ServiceSts s) (sys_RouteSts s) "sts-https")) s;
            s ← update_services (set_iam (check (sys_ServiceIam s) (sys_RouteIam s) "iam-https")) s;
            s ← update_services (set_vectors (check (sys_ServiceVectors s) (sys_RouteVectors s) "vectors-https")) s;
            Ret (s, None)
        end
  end.
End Connecting.

(** ** Connecting to the system *)

Record Client := mkClient {
  cl_NooBaa : NooBaa;
  cl_ServiceMgmt : Service;
  cl_SecretOp : Secret;
  cl_SecretAdmin : Secret;
  cl_NBClient : APIRouter;
  cl_AuthToken : string;
  cl_MgmtURL : URL;
  cl_S3URL : URL;
  cl_VectorsURL : URL;
}.

Definition isPodReady (pod : RunningPod) : bool :=
  existsb (λ c, (c.1 == "Ready") && (c.2 == "True")) (rp_Conditions pod).

Definition pickReadyPodName (pods : list RunningPod) : error + string :=
  match find (λ p, isNil (om_DeletionTimestamp (rp_meta p)) && isPodReady p) pods with
  | Some pod => inr (om_Name (rp_meta pod))
  | None => inl (Errorf (Lit "no Ready mgmt/core pod found for port-forward"))
  end.

Section Connect.
Context `{AuthoritySyntax}.
Context {W : Type} {SP : ApiServer W RunningPod} {SV : ApiServer W Service} {SS : ApiServer W Secret} {SN : ApiServer W NooBaa}.
Context (Namespace SystemName : string).
(** The custom resource and the service of the bundle, under the names of the request. *)
Context (bundleNooBaa : NooBaa) (bundleService : Service).
(** [Start] of a port forwarder to a pod: the local ports by the remote ones. *)
Context (forwardPorts : Service → string → string → outcome (gmap Z Z)).

Definition findReadyMgmtPod (w : W) (svc : Service) : outcome (error + string) :=
  if bool_decide (svc_Selector svc = ∅) then
    Ret (inl (Errorf (Sprintf "mgmt service %q has empty selector" [AStr (om_Name (svc_meta svc))])))
  else
    '(pods, ok) ← KubeList w (selectPods (om_Namespace (svc_meta svc)) (svc_Selector svc));
    Ret (if negb ok then inl (Errorf (Sprintf "failed listing pods for mgmt service %q" [AStr (om_Name (svc_meta svc))]))
         else pickReadyPodName pods).

Definition secretNamed (suffix : string) : Secret := mkSecret (named Namespace (SystemName +:+ suffix)) None None.

(** The first address of a list, or the one before. *)
Definition firstOr (l : list string) (dflt : string) : string := match l with a :: _ => a | [] => dflt end.

Definition parseEndpoint (what endpoint : string) : error + URL :=
  match Parse endpoint with
  | inl err => inl (Errorf (Sprintf ("Connect(): Failed to parse " +:+ what +:+ " url %q. got error: %v") [AStr endpoint; AMsg err]))
  | inr u => inr u
  end.

Definition Connect (w : W) (isExternal : bool) : outcome (W * (error + Client)) :=
  let failed w m := Ret (w, inl (Errorf (Lit ("Connect(): " +:+ m)))) in
  '(w, nb, found) ← CheckSystem w (set_meta (set_om_Namespace Namespace (set_om_Name SystemName (nb_meta bundleNooBaa))) bundleNooBaa);
  if negb found then failed w "System not found" else
  '(mgmt, found) ← KubeCheck w (set_meta (set_om_Namespace Namespace (set_om_Name (SystemName +:+ "-mgmt") (svc_meta bundleService))) bundleService);
  if negb found then failed w "ServiceMgmt not found" else
  '(secretOp, found) ← KubeCheck w (secretNamed "-operator");
  if negb found then failed w "SecretOp not found" else
  '(secretAdmin, found) ← KubeCheck w (secretNamed "-admin");
  if negb found then failed w "SecretAdmin not found" else
  let authToken := map_get (sec_StringData secretOp) "auth_token" in
  services ← deref (nbst_Services (nb_Status nb));
  let s3Status := svcs_ServiceS3 services in
  let vectorsStatus := svcs_ServiceVectors services in
  if authToken == "" then failed w "Operator secret with auth token is not ready" else
  match svs_NodePorts (svcs_ServiceMgmt services), svs_InternalDNS s3Status, svs_InternalDNS vectorsStatus with
  | [], _, _ => failed w "System mgmt service (NodePorts) is not ready"
  | _, [], _ => failed w "System s3 service (InternalDNS) is not ready"
  | _, _, [] => failed w "System vectors service (InternalDNS) is not ready"
  | mgmtNodePort :: _, s3Internal :: _, vectorsInternal :: _ =>
      route ← (if isExternal then
                 pod ← findReadyMgmtPod w mgmt;
                 match pod with
                 | inl err => Ret (inl (Errorf (Sprintf "Connect(): %w" [AMsg (Error err)])))
                 | inr podName =>
                     ports ← forwardPorts mgmt (om_Namespace (nb_meta nb)) podName;
                     let router := APIRouterPortForward mgmt ports in
                     Ret (inr (router, TrimSuffix (GetAddress router "") "/rpc/",
                               firstOr (svs_ExternalIP s3Status) (firstOr (svs_NodePorts s3Status) s3Internal),
                               firstOr (svs_ExternalIP vectorsStatus) (firstOr (svs_NodePorts vectorsStatus) vectorsInternal)))
                 end
               else Ret (inr (APIRouterServicePort mgmt, mgmtNodePort, s3Internal, vectorsInternal)));
      match route with
      | inl err => Ret (w, inl err)
      | inr (router, mgmtEndpoint, s3Endpoint, vectorsEndpoint) =>
          match parseEndpoint "mgmt" mgmtEndpoint, parseEndpoint "s3" s3Endpoint, parseEndpoint "vectors" vectorsEndpoint with
          | inl err, _, _ => Ret (w, inl err)
          | _, inl err, _ => Ret (w, inl err)
          | _, _, inl err => Ret (w, inl err)
          | inr mgmtURL, inr s3URL, inr vectorsURL =>
              Ret (w, inr (mkClient nb mgmt secretOp secretAdmin router authToken mgmtURL s3URL vectorsURL))
          end
      end
  end.
End Connect.

(** ** Facts: numbers in addresses *)

Lemma digit_char x : (x < 10)%N → digit (pretty_N_char x) = Some (Z.of_N x).
Proof.
  intros Hx.
  assert (x = 0 ∨ x = 1 ∨ x = 2 ∨ x = 3 ∨ x = 4 ∨ x = 5 ∨ x = 6 ∨ x = 7 ∨ x = 8 ∨ x = 9)%N as Hc by lia.
  repeat destruct Hc as [->|Hc]; by subst.
Qed.

Lemma isDigit_digit a d : digit a = Some d → isDigit a = true.
Proof. unfold digit, isDigit. by destruct (in_range 48 57 (byte a)). Qed.

Lemma ParseUint_loop_go (m : Z) x s :
  (Z.of_N x ≤ m)%Z → ParseUint_loop (pretty_N_go x s) 0 m = ParseUint_loop s (Z.of_N x) m.
Proof.
  revert s. induction (N.lt_wf_0 x) as [x _ IH]. intros s Hm.
  assert (x = 0 ∨ 0 < x)%N as [->|Hx] by lia; [done|].
  assert (Hdiv : (Z.of_N (x / 10) ≤ m)%Z) by (rewrite N2Z.inj_div; apply Z.div_le_upper_bound; lia).
  rewrite pretty_N_go_step, IH by (done || by apply N.div_lt).
  cbn [ParseUint_loop]. rewrite digit_char by (apply N.mod_lt; lia).
  assert (Heq : (Z.of_N (x / 10) * 10 + Z.of_N (x mod 10) = Z.of_N x)%Z).
  { rewrite N2Z.inj_div, N2Z.inj_mod. pose proof (Z.div_mod (Z.of_N x) 10). lia. }
  rewrite Heq. by rewrite (proj2 (Z.ltb_ge m (Z.of_N x))).
Qed.

Lemma pretty_N_go_digits x s : every isDigit (pretty_N_go x s) = every isDigit s.
Proof.
  revert s. induction (N.lt_wf_0 x) as [x _ IH]. intros s.
  assert (x = 0 ∨ 0 < x)%N as [->|Hx] by lia; [done|].
  rewrite pretty_N_go_step, IH by (try apply N.div_lt; lia). cbn [every].
  erewrite isDigit_digit; [done|]. apply digit_char, N.mod_lt. lia.
Qed.

Lemma pretty_Z_N z : (0 ≤ z)%Z → pretty z = pretty (Z.to_N z).
Proof. intros Hz. destruct z; [done|done|lia]. Qed.

Lemma pretty_digits (z : Z) : (0 ≤ z)%Z → every isDigit (pretty z) = true.
Proof.
  intros Hz. rewrite pretty_Z_N by done. unfold pretty, pretty_N. case_decide; [done|]. by rewrite pretty_N_go_digits.
Qed.

Lemma pretty_nonempty (z : Z) : (0 ≤ z)%Z → pretty z ≠ ""%string.
Proof.
  intros Hz. rewrite pretty_Z_N by done. unfold pretty, pretty_N. case_decide as H0; [done|]. intros He.
  rewrite pretty_N_go_step in He by lia.
  assert (Hl : ∀ x s, s ≠ ""%string → pretty_N_go x s ≠ ""%string).
  { intros x. induction (N.lt_wf_0 x) as [x _ IH]. intros s Hs.
    assert (x = 0 ∨ 0 < x)%N as [->|Hx] by lia; [done|].
    rewrite pretty_N_go_step by done. by apply IH; [apply N.div_lt|]. }
  by eapply Hl; [|exact He].
Qed.

(** [strconv.Atoi] reads back what [%d] writes. *)
Lemma Atoi_pretty (z : Z) : (0 ≤ z < 2 ^ 63)%Z → ParseInt (pretty z) 64 = inr z.
Proof.
  intros Hz. pose proof (pretty_digits z (proj1 Hz)) as Hd. pose proof (pretty_nonempty z (proj1 Hz)) as Hn.
  assert (HU : ParseUint (pretty z) 64 = inr z).
  { unfold ParseUint. rewrite bool_decide_false by done. rewrite pretty_Z_N by lia. unfold pretty, pretty_N.
    case_decide as H0; [by assert (z = 0%Z) as -> by lia|]. rewrite ParseUint_loop_go by lia. cbn. f_equal. lia. }
  destruct (pretty z) as [|a s] eqn:Hp; [done|]. unfold ParseInt. cbn [every] in Hd. apply andb_true_iff in Hd as [Ha _].
  assert (Hm : a ≠ "-"%char) by (by intros ->). assert (Hpl : a ≠ "+"%char) by (by intros ->).
  rewrite !bool_decide_false by done. cbn [orb negb andb]. rewrite HU.
  by rewrite (proj2 (Z.leb_gt (2 ^ (64 - 1)) z)) by lia.
Qed.

(** ** Facts: addresses are read back *)

Lemma hostChar_no_colon h : every hostChar h = true → without ":"%char h = true.
Proof. apply every_impl. intros a Ha. apply negb_true_iff, bool_decide_eq_false. by intros ->. Qed.

Lemma JoinHostPort_plain h p : every hostChar h = true → JoinHostPort h p = h +:+ ":" +:+ p.
Proof. intros Hh%hostChar_no_colon. unfold JoinHostPort. by rewrite Contains_without, Hh. Qed.

Lemma hostChar_no_bracket h : every hostChar h = true → HasPrefix h "[" = false.
Proof.
  destruct h as [|a h]; [done|]. cbn. intros [Ha _]%andb_true_iff. rewrite andb_true_r.
  apply bool_decide_eq_false. by intros <-.
Qed.

Lemma endpoint_parses `{AuthorityLaws} host port :
  host ≠ ""%string → every hostChar host = true → (0 ≤ port < 2 ^ 63)%Z →
  ∃ u, Parse ("https://" +:+ host +:+ ":" +:+ pretty port) = inr u ∧
    Hostname u = host ∧ ParseInt (Port u) 64 = inr port.
Proof.
  intros Hne Hh Hp. destruct (Parse_https host (pretty port)) as (u & Hu & Hhost); [done..|by apply pretty_digits; lia|].
  exists u. split; [done|]. unfold Hostname, Port. rewrite Hhost.
  rewrite splitHostPort_plain by (by rewrite ?hostChar_no_bracket by done; try apply pretty_digits; lia).
  split; [done|]. by apply Atoi_pretty.
Qed.

(** An address of the status is taken apart into the host and the port it was
    made of, also when the host is an IPv6 address.  A host that is in brackets
    already and has no colon is the exception. *)
Theorem endpoint_roundtrip host port :
  (0 ≤ port < 2 ^ 63)%Z →
  Contains_str host ":" = true ∨ HasPrefix host "[" && HasSuffix host "]" = false →
  (splitHostPort (JoinHostPort host (pretty port))).1 = host ∧
  ParseInt (splitHostPort (JoinHostPort host (pretty port))).2 64 = inr port.
Proof.
  intros Hp Hh. unfold JoinHostPort. pose proof (pretty_digits port ltac:(lia)) as Hd.
  destruct (Contains_str host ":") eqn:Hc.
  - rewrite splitHostPort_bracketed by done. split; [done|by apply Atoi_pretty].
  - rewrite splitHostPort_plain by (done || by destruct Hh). split; [done|by apply Atoi_pretty].
Qed.

(** ** Facts: the connecting phase and [Connect] *)

Lemma update_services_ok f s s' :
  update_services f s = Ret s' →
  ∃ v, nbst_Services (nb_Status (sys_NooBaa s)) = Some v ∧
    s' = set_status (set_nbst_Services (Some (f v))) s.
Proof. unfold update_services. destruct (nbst_Services _) as [v|]; [|done]. intros [= <-]. eauto. Qed.

(** The phase does not touch the objects of the reconciler. *)
Lemma SetPhase_services {CA : ConditionApi} now phase reason message s :
  let s' := SetPhase now phase reason message s in
  sys_JoinSecret s' = sys_JoinSecret s ∧ sys_CoreApp s' = sys_CoreApp s ∧ sys_ServiceMgmt s' = sys_ServiceMgmt s ∧
  sys_ServiceS3 s' = sys_ServiceS3 s ∧ sys_ServiceVectors s' = sys_ServiceVectors s ∧ sys_RouteMgmt s' = sys_RouteMgmt s ∧
  sys_RouteS3 s' = sys_RouteS3 s ∧ sys_RouteVectors s' = sys_RouteVectors s.
Proof. done. Qed.

Section AfterConnecting.
Context {CA : ConditionApi} `{AuthorityLaws}.
Context {W : Type} {SP : ApiServer W RunningPod} {SV : ApiServer W Service} {SS : ApiServer W Secret} {SN : ApiServer W NooBaa}.
Context (Namespace SystemName : string) (now : Z) (ReadAuth : APIRouter → option error).
Context (bundleNooBaa : NooBaa) (bundleService : Service) (forwardPorts : Service → string → string → outcome (gmap Z Z)).

(** What the phase leaves in the status when it succeeds without a join secret. *)
Lemma ReconcilePhaseConnecting_ok w s s' :
  sys_JoinSecret s = None →
  ReconcilePhaseConnecting Namespace now ReadAuth w s = Ret (s', None) →
  ∃ v, nbst_Services (nb_Status (sys_NooBaa s')) = Some v ∧
    svcs_ServiceMgmt v = CheckServiceStatus Namespace w (sys_ServiceMgmt s) (sys_RouteMgmt s) "mgmt-https" ∧
    svcs_ServiceS3 v = CheckServiceStatus Namespace w (sys_ServiceS3 s) (sys_RouteS3 s) "s3-https" ∧
    svcs_ServiceVectors v = CheckServiceStatus Namespace w (sys_ServiceVectors s) (sys_RouteVectors s) "vectors-https" ∧
    sys_NBClient s' = Some (APIRouterServicePort (sys_ServiceMgmt s)) ∧
    ReadAuth (APIRouterServicePort (sys_ServiceMgmt s)) = None ∧
    (1 ≤ sts_ReadyReplicas (sys_CoreApp s))%Z.
Proof.
  unfold ReconcilePhaseConnecting. pose proof (SetPhase_services now SystemPhaseConnecting (Lit "SystemPhaseConnecting") (startedPhase "3/4" "Connecting") s) as Hs.
  destruct (SetPhase now SystemPhaseConnecting _ _ s) as [nb join pgs pgssl core mgmt s3 sts iam vec rm rs3 rsts riam rvec cl].
  destruct Hs as (<- & <- & <- & <- & <- & <- & <- & <-). cbv zeta. cbn [sys_JoinSecret sys_CoreApp sys_ServiceMgmt sys_ServiceS3 sys_ServiceVectors sys_RouteMgmt sys_RouteS3 sys_RouteVectors isNil].
  intros -> Hr. apply bind_Ret in Hr as (s1 & (v1 & Hv1 & ->)%update_services_ok & Hr). cbn [sys_NooBaa set_status set_NooBaa sys_CoreApp] in Hr.
  cbv zeta in Hr. destruct (sts_Replicas core) as [reps|]; [|done]. destruct (Z.ltb_spec (sts_ReadyReplicas core) 1) as [|Hready]; [done|].
  unfold InitNBClient in Hr. cbn [sys_JoinSecret sys_ServiceMgmt] in Hr. cbv zeta beta in Hr. destruct (ReadAuth _) eqn:Hauth; [done|].
  apply bind_Ret in Hr as (s2 & (v2 & Hv2 & ->)%update_services_ok & Hr). apply bind_Ret in Hr as (s3' & (v3 & Hv3 & ->)%update_services_ok & Hr).
  apply bind_Ret in Hr as (s4 & (v4 & Hv4 & ->)%update_services_ok & Hr). apply bind_Ret in Hr as (s5 & (v5 & Hv5 & ->)%update_services_ok & Hr).
  injection Hr as <-. injection Hv2 as <-. injection Hv3 as <-. injection Hv4 as <-. injection Hv5 as <-.
  eexists. split; [reflexivity|]. by repeat split.
Qed.

Lemma parse_plain host port what :
  host ≠ ""%string → every hostChar host = true → (0 ≤ port < 2 ^ 63)%Z →
  ∃ u, parseEndpoint what ("https://" +:+ host +:+ ":" +:+ pretty port) = inr u ∧
    Hostname u = host ∧ ParseInt (Port u) 64 = inr port.
Proof.
  intros Hne Hh Hp. destruct (endpoint_parses host port Hne Hh Hp) as (u & Hu & ?). exists u.
  unfold parseEndpoint. by rewrite Hu.
Qed.

(** Names that may stand in an address, and a port. *)
Definition addressable (srv : Service) (portName : string) : Prop :=
  svc_ClusterIP srv ≠ ""%string ∧ om_Name (svc_meta srv) ≠ ""%string ∧
  every hostChar (om_Name (svc_meta srv)) = true ∧ every hostChar (om_Namespace (svc_meta srv)) = true ∧
  (0 ≤ sp_Port (FindPortByName srv portName) < 2 ^ 31)%Z.

(** The address of a service inside the cluster. *)
Definition clusterHost (srv : Service) : string :=
  om_Name (svc_meta srv) +:+ "." +:+ om_Namespace (svc_meta srv) +:+ ".svc".

Lemma InternalDNS_parses w srv route portName what :
  addressable srv portName → HasSuffix portName "https" = true →
  ∃ a u, svs_InternalDNS (CheckServiceStatus Namespace w srv route portName) = [a] ∧
    parseEndpoint what a = inr u ∧ Hostname u = clusterHost srv ∧
    ParseInt (Port u) 64 = inr (sp_Port (FindPortByName srv portName)).
Proof.
  intros (Hip & Hne & Hname & Hns & Hport) Hs. unfold CheckServiceStatus. rewrite Hs.
  destruct (match srv_List _ _ with inr _ => _ | inl _ => _ end) as [a b]. cbn.
  rewrite bool_decide_false by done. cbn. eexists.
  destruct (parse_plain (clusterHost srv) (sp_Port (FindPortByName srv portName)) what) as (u & Hu & Hr).
  - unfold clusterHost. by destruct (om_Name (svc_meta srv)).
  - unfold clusterHost. by rewrite !every_app, Hname, Hns.
  - split; [lia|]. eapply Z.lt_trans; [apply Hport|]. by apply Z.pow_lt_mono_r.
  - exists u. split; [done|]. split; [exact Hu|exact Hr].
Qed.

(** A pod whose node can be addressed. *)
Definition onNode (p : RunningPod) : Prop :=
  rp_Phase p = "Running"%string ∧ rp_HostIP p ≠ ""%string ∧ every hostChar (rp_HostIP p) = true.

Lemma NodePorts_parse w srv route pods :
  srv_List w (selectPods Namespace (svc_Selector srv)) = inr pods → pods ≠ [] → Forall onNode pods →
  (0 ≤ sp_NodePort (FindPortByName srv "mgmt-https") < 2 ^ 31)%Z →
  ∃ a l u, svs_NodePorts (CheckServiceStatus Namespace w srv route "mgmt-https") = a :: l ∧
    parseEndpoint "mgmt" a = inr u.
Proof.
  intros Hl Hne Hall Hp. unfold CheckServiceStatus. rewrite Hl. cbn.
  destruct pods as [|p pods]; [done|]. apply Forall_cons in Hall as [(Hr & Hip & Hh) _].
  rewrite (filter_cons_True _ p pods), filter_cons_True by done. cbn.
  destruct (parse_plain (rp_HostIP p) (sp_NodePort (FindPortByName srv "mgmt-https")) "mgmt") as (u & Hu & _);
    [done|done|split; [lia|eapply Z.lt_trans; [apply Hp|by apply Z.pow_lt_mono_r]]|].
  do 3 eexists. split; [reflexivity|]. unfold GetFormattedEndpoint. rewrite JoinHostPort_plain by done. exact Hu.
Qed.

Abbreviation connect := (Connect Namespace SystemName bundleNooBaa bundleService forwardPorts).

(** The objects that [Connect] looks for, besides the system itself. *)
Definition client_objects (w : W) (mgmt : Service) (secretOp secretAdmin : Secret) : Prop :=
  srv_Get w (Namespace, SystemName +:+ "-mgmt")%string = inr mgmt ∧
  srv_Get w (Namespace, SystemName +:+ "-operator")%string = inr secretOp ∧
  srv_Get w (Namespace, SystemName +:+ "-admin")%string = inr secretAdmin ∧
  map_get (sec_Data secretOp) "auth_token" ≠ ""%string.

Lemma KubeCheck_Get {O} {KO : KubeObject O} {AS : ApiServer W O} w (o found : O) :
  srv_Get w (ObjectKey o) = inr found → KubeCheck w o = Ret (resetStringData found, true).
Proof. intros Hg. unfold KubeCheck, KubeGet. by rewrite Hg. Qed.

(** C26: once the connecting phase of a system of its own (not a joined one) has succeeded,
    [Connect] from inside the cluster succeeds if the status that the phase set is stored,
    the system passes its check, the management service, the admin secret and the operator
    secret with a token are in the cluster, the pods behind the management service run on
    nodes with an address, and the services have names and ports that can be addressed.
    The client it returns has that token, and the S3 and vectors addresses at the cluster
    names and ports of their services. *)
Theorem Connect_after_connecting w s s' w1 w2 nb pods mgmt secretOp secretAdmin :
  sys_JoinSecret s = None →
  ReconcilePhaseConnecting Namespace now ReadAuth w s = Ret (s', None) →
  addressable (sys_ServiceS3 s) "s3-https" → addressable (sys_ServiceVectors s) "vectors-https" →
  srv_List w (selectPods Namespace (svc_Selector (sys_ServiceMgmt s))) = inr pods → pods ≠ [] → Forall onNode pods →
  (0 ≤ sp_NodePort (FindPortByName (sys_ServiceMgmt s) "mgmt-https") < 2 ^ 31)%Z →
  CheckSystem w1 (set_meta (set_om_Namespace Namespace (set_om_Name SystemName (nb_meta bundleNooBaa))) bundleNooBaa)
    = Ret (w2, nb, true) →
  nb_Status nb = nb_Status (sys_NooBaa s') →
  client_objects w2 mgmt secretOp secretAdmin →
  ∃ cl, connect w1 false = Ret (w2, inr cl) ∧
    cl_NBClient cl = APIRouterServicePort mgmt ∧ cl_AuthToken cl = map_get (sec_Data secretOp) "auth_token" ∧
    Hostname (cl_S3URL cl) = clusterHost (sys_ServiceS3 s) ∧
    ParseInt (Port (cl_S3URL cl)) 64 = inr (sp_Port (FindPortByName (sys_ServiceS3 s) "s3-https")) ∧
    Hostname (cl_VectorsURL cl) = clusterHost (sys_ServiceVectors s) ∧
    ParseInt (Port (cl_VectorsURL cl)) 64 = inr (sp_Port (FindPortByName (sys_ServiceVectors s) "vectors-https")).
Proof.
  intros Hj Hphase Hs3 Hvec Hl Hne Hall Hnp Hsys Hst (Hm & Ho & Ha & Htok).
  apply ReconcilePhaseConnecting_ok in Hphase as (v & Hv & Hmgmt & Hv3 & Hvv & _); [|done].
  destruct (NodePorts_parse w _ (sys_RouteMgmt s) pods Hl Hne Hall Hnp) as (na & nl & nu & Hna & Hnu).
  destruct (InternalDNS_parses w _ (sys_RouteS3 s) "s3-https" "s3" Hs3 eq_refl) as (sa & su & Hsa & Hsu & Hsh & Hsp).
  destruct (InternalDNS_parses w _ (sys_RouteVectors s) "vectors-https" "vectors" Hvec eq_refl) as (va & vu & Hva & Hvu & Hvh & Hvp).
  unfold Connect. rewrite Hsys. cbn [mbind outcome_bind negb].
  rewrite (KubeCheck_Get w2 _ mgmt) by exact Hm. cbn [mbind outcome_bind negb].
  rewrite (KubeCheck_Get w2 (secretNamed Namespace SystemName "-operator") secretOp) by exact Ho. cbn [mbind outcome_bind negb].
  rewrite (KubeCheck_Get w2 (secretNamed Namespace SystemName "-admin") secretAdmin) by exact Ha.
  cbn [mbind outcome_bind negb]. rewrite Hst, Hv. cbn [deref mbind outcome_bind].
  replace (map_get (sec_StringData (resetStringData secretOp)) "auth_token") with (map_get (sec_Data secretOp) "auth_token")
    by (cbn; by destruct (sec_Data secretOp)).
  rewrite bool_decide_false by done. rewrite Hmgmt, Hv3, Hvv, Hna, Hsa, Hva. cbn [mbind outcome_bind].
  rewrite Hnu, Hsu, Hvu. eexists. split; [reflexivity|]. cbn. by repeat split.
Qed.
End AfterConnecting.
