(* ===== verification/SystemObjects.v ===== *)
(** * Objects of the system and how they are reconciled: [pkg/system/reconciler.go].

    [ReconcileObject] puts an object of the system into the cluster through
    [controllerutil.CreateOrUpdate] of controller-runtime, which is a parameter with the
    behaviour it documents: it reads the object, applies the mutation to what it read, or
    to the given object when there is none, and creates or updates the result. *)

From S2P Require Import Prelude Effects GoStrings Types Kube Util SystemServices.

(** ** [controllerutil] *)

Inductive OperationResult :=
  | OperationResultNone
  | OperationResultCreated
  | OperationResultUpdated
  | OperationResultUpdatedStatus
  | OperationResultUpdatedStatusOnly.
#[export] Instance OperationResult_eq_dec : EqDecision OperationResult.
Proof. solve_decision. Defined.

(** The error of [CreateOrUpdate]: of the mutation, or of a request; and
    [equality.Semantic.DeepEqual], by which it decides that there is nothing to update. *)
Class ControllerUtil (W O : Type) `{ApiServer W O} : Type := {
  DeepEqual : O → O → bool;
  CreateOrUpdate {R : Type} :
    W → R → O → (O → M R O) → outcome (W * R * O * OperationResult * option (error + api_error));
}.

(** The object the mutation starts from. *)
Definition current {W O} `{ApiServer W O} (w : W) (obj base : O) : Prop :=
  match srv_Get w (ObjectKey obj) with
  | inr o => base = o
  | inl e => IsNotFound e = true ∧ base = obj
  end.

(** What became of the cluster. *)
Definition applied {W O} `{ControllerUtil W O} (w : W) (base o : O) (op : OperationResult) (w' : W) (o' : O) : Prop :=
  match op with
  | OperationResultNone => w' = w ∧ o' = o ∧ srv_Get w (ObjectKey o) = inr base ∧ DeepEqual (W:=W) base o = true
  | OperationResultCreated => srv_Create w o = (w', inr o')
  | OperationResultUpdated => srv_Update w o = (w', inr o')
  | _ => False
  end.

(** The cluster took over an object: it had an equal one, or it accepted the request. *)
Definition accepted {W O} `{ControllerUtil W O} (w : W) (o : O) (w' : W) : Prop :=
  (w' = w ∧ ∃ s, srv_Get w (ObjectKey o) = inr s ∧ DeepEqual (W:=W) s o = true) ∨
  ∃ x, srv_Create w o = (w', inr x) ∨ srv_Update w o = (w', inr x).
Lemma applied_accepted {W O} `{ControllerUtil W O} (w : W) (base o : O) op w' x : applied w base o op w' x → accepted w o w'.
Proof.
  destruct op; cbn; try done; [|intros Hx; right; eauto..]. intros (-> & _ & Hg & He). left. eauto.
Qed.

Class ControllerUtilLaws (W O : Type) `{ControllerUtil W O} : Prop := {
  CreateOrUpdate_ok {R} w (r : R) obj f w' r' obj' op :
    CreateOrUpdate w r obj f = Ret (w', r', obj', op, None) →
    ∃ base o, current w obj base ∧ f base r = Ret (r', inr o) ∧ ObjectKey o = ObjectKey obj ∧ applied w base o op w' obj';
  (** After an error nothing was written: at most a request was refused. *)
  CreateOrUpdate_err {R} w (r : R) obj f w' r' obj' op err :
    CreateOrUpdate w r obj f = Ret (w', r', obj', op, Some err) →
    w' = w ∨ ∃ o e, srv_Create w o = (w', inl e) ∨ srv_Update w o = (w', inl e);
  (** The mutation is the only thing that touches the state it threads, and it is run at
      most once, on the object that was read. *)
  CreateOrUpdate_state {R} w (r : R) obj f w' r' obj' op err :
    CreateOrUpdate w r obj f = Ret (w', r', obj', op, err) → r' = r ∨ ∃ base res, current w obj base ∧ f base r = Ret (r', res);
}.

(** ** [ReconcileObject] *)

Section ReconcileObject.
Context {W R : Type}.
(** [r.NooBaa], and [controllerutil.SetControllerReference]. *)
Context (NooBaaOf : R → NooBaa) (SetControllerReference : ObjectMeta → ObjectMeta → msg + ObjectMeta).

(** Requests that only read the cluster. *)
Definition reads {A} (f : W → outcome A) : M (W * R) A := λ '(w, r), a ← f w; Ret ((w, r), inr a).
Definition state {A} (f : R → A) : M (W * R) A := gets (λ s, f s.2).
Definition update (f : R → R) : M (W * R) () := modify (λ s, (s.1, f s.2)).

Definition Own {O} `{MetaObject O} (nb : NooBaa) (obj : O) : outcome O :=
  match SetControllerReference (nb_meta nb) (meta obj) with
  | inl m => Panic (Panicked m)
  | inr m => Ret (set_meta m obj)
  end.

Definition reconcileObjectAndGetResult {O} `{ControllerUtil W O} (obj : O) (desired : O → M R O) (optionalCRD : bool) :
    M (W * R) (O * OperationResult) := λ '(w, r),
  obj ← Own (NooBaaOf r) obj;
  '(w, r, obj, op, err) ← CreateOrUpdate w r obj desired;
  let obj := resetStringData obj in
  Ret ((w, r), match err with
               | None => inr (obj, op)
               | Some (inl e) => inl e
               | Some (inr e) =>
                   if optionalCRD && IsNoMatchOrNotRegistered e then inr (obj, op) else inl (Errorf (api_error_msg e))
               end).

Definition reconcileObject {O} `{ControllerUtil W O} (obj : O) (desired : O → M R O) (optionalCRD : bool) : M (W * R) O :=
  '(obj, _) ← reconcileObjectAndGetResult obj desired optionalCRD; mret obj.
Definition ReconcileObject {O} `{ControllerUtil W O} (obj : O) (desired : O → M R O) : M (W * R) O :=
  reconcileObject obj desired false.
Definition ReconcileObjectOptional {O} `{ControllerUtil W O} (obj : O) (desired : O → M R O) : M (W * R) O :=
  reconcileObject obj desired true.

Definition isObjectUpdated (result : OperationResult) : bool :=
  negb (result == OperationResultNone) && negb (result == OperationResultUpdatedStatusOnly).

(** A reconciled object is in the cluster as the mutation made it. *)
Lemma ReconcileObject_ok {O} `{CL : ControllerUtilLaws W O} (obj : O) desired w r w' r' obj' :
  ReconcileObject obj desired (w, r) = Ret ((w', r'), inr obj') →
  ∃ owned base o op x, Own (NooBaaOf r) obj = Ret owned ∧ current w owned base ∧ desired base r = Ret (r', inr o) ∧
    ObjectKey o = ObjectKey owned ∧ applied w base o op w' x ∧ obj' = resetStringData x.
Proof.
  unfold ReconcileObject, reconcileObject. intros Hrun. apply M_bind_ok in Hrun as ([w1 r1] & [x op] & Hrun & Heq).
  apply mret_ok in Heq as [[= <- <-] ->]. revert Hrun. unfold reconcileObjectAndGetResult.
  destruct (Own (NooBaaOf r) obj) as [owned|p]; cbn; [|done].
  destruct (CreateOrUpdate w r owned desired) as [[[[[w2 r2] o2] op2] [[e|e]|]]|p] eqn:E; cbn; intros; simplify_eq.
  apply CreateOrUpdate_ok in E as (base & o & Hb & Hf & Hk & Ha).
  exists owned, base, o, op, o2. eauto 10.
Qed.

(** One that fails has written nothing. *)
Lemma ReconcileObject_err {O} `{CL : ControllerUtilLaws W O} (obj : O) desired w r w' r' e :
  ReconcileObject obj desired (w, r) = Ret ((w', r'), inl e) →
  w' = w ∨ ∃ o e, srv_Create w o = (w', inl e) ∨ srv_Update w o = (w', inl e).
Proof.
  unfold ReconcileObject, reconcileObject. intros Hrun. apply M_bind_inv in Hrun as [(e' & Hrun & _)|(s1 & [x op] & _ & Heq)]; [|done].
  revert Hrun. unfold reconcileObjectAndGetResult. destruct (Own (NooBaaOf r) obj) as [owned|p]; cbn; [|done].
  destruct (CreateOrUpdate w r owned desired) as [[[[[w2 r2] o2] op2] [err|]]|p] eqn:E; cbn; [|done|done].
  intros [= <- _ _]. by eapply CreateOrUpdate_err.
Qed.

(** The controller reference keeps the key of an object. *)
Lemma Own_ObjectKey {O} `{MetaObject O} nb (obj owned : O) :
  (∀ o m m', SetControllerReference o m = inr m' → om_Name m' = om_Name m ∧ om_Namespace m' = om_Namespace m) →
  Own nb obj = Ret owned → ObjectKey owned = ObjectKey obj.
Proof.
  intros Hkeep. unfold Own. destruct (SetControllerReference _ _) as [m|m] eqn:E; [done|]. intros [= <-].
  apply Hkeep in E as [Hn Hns]. unfold ObjectKey. rewrite meta_set_meta. by rewrite Hn, Hns.
Qed.
End ReconcileObject.

Arguments reads {W R A} f.
Arguments state {W R A} f.
Arguments update {W R} f.

Lemma reads_run {W R A} (f : W → outcome A) (w : W) (r : R) a : f w = Ret a → reads f (w, r) = Ret ((w, r), inr a).
Proof. unfold reads. by intros ->. Qed.
Lemma reads_ok {W R A} (f : W → outcome A) (w : W) (r : R) s' a :
  reads f (w, r) = Ret (s', inr a) ↔ s' = (w, r) ∧ f w = Ret a.
Proof.
  unfold reads. destruct (f w); cbn; split; try done; [by intros [= <- <-]|by intros [-> [= ->]]|by intros [_ ?]].
Qed.

(** Runs the first call of a sequence in the goal. *)
Ltac run_next := erewrite M_bind_run by (first [reflexivity | apply reads_run; eassumption]); cbv beta iota.

(** ** Keys *)

(** Objects keep their keys: what is read has the key it was read by, and what is written
    the key of what was sent. *)
Class KeyedServer (W O : Type) `{ApiServer W O} : Prop := {
  Get_key w k (o : O) : srv_Get w k = inr o → ObjectKey o = k;
  Create_key w (o : O) w' o' : srv_Create w o = (w', inr o') → ObjectKey o' = ObjectKey o;
  Update_key w (o : O) w' o' : srv_Update w o = (w', inr o') → ObjectKey o' = ObjectKey o;
}.

Lemma KubeCheck_key {W O} `{KS : KeyedServer W O} w (obj obj' : O) b : KubeCheck w obj = Ret (obj', b) → ObjectKey obj' = ObjectKey obj.
Proof.
  destruct b; intros Hc.
  - apply KubeCheck_true in Hc as (y & Hy & ->). apply Get_key in Hy. rewrite <-Hy. unfold ObjectKey. by rewrite meta_reset.
  - by apply KubeCheck_false in Hc as [-> _].
Qed.

(** ** Workloads *)

(** The fields of a stateful set and of a deployment that are read or written here. *)
Record StatefulSet := mkStatefulSet {
  ss_meta : ObjectMeta;
  ss_Replicas : option Z;
  ss_TemplateAnnotations : option (gmap string string);
  ss_UpdateRevision : string;
}.
#[export, refine] Instance StatefulSet_MetaObject : MetaObject StatefulSet :=
  {| meta := ss_meta; set_meta := λ m s, mkStatefulSet m (ss_Replicas s) (ss_TemplateAnnotations s) (ss_UpdateRevision s) |}.
Proof. done. Defined.
#[export, refine] Instance StatefulSet_KubeObject : KubeObject StatefulSet := {| resetStringData := id |}.
Proof. done. Defined.
Definition set_ss_Replicas (n : Z) (s : StatefulSet) : StatefulSet :=
  mkStatefulSet (ss_meta s) (Some n) (ss_TemplateAnnotations s) (ss_UpdateRevision s).

Record Deployment := mkDeployment { dep_meta : ObjectMeta; dep_Replicas : option Z }.
#[export, refine] Instance Deployment_MetaObject : MetaObject Deployment :=
  {| meta := dep_meta; set_meta := λ m d, mkDeployment m (dep_Replicas d) |}.
Proof. done. Defined.
#[export, refine] Instance Deployment_KubeObject : KubeObject Deployment := {| resetStringData := id |}.
Proof. done. Defined.
Definition set_dep_Replicas (n : Z) (d : Deployment) : Deployment := mkDeployment (dep_meta d) (Some n).

Section Workloads.
Context {W R : Type} (NooBaaOf : R → NooBaa) (SetControllerReference : ObjectMeta → ObjectMeta → msg + ObjectMeta).
Context {SS : ApiServer W StatefulSet} {CS : ControllerUtil W StatefulSet}.
Context {SD : ApiServer W Deployment} {CD : ControllerUtil W Deployment}.
Context {SP : ApiServer W RunningPod}.
(** [options.Namespace]. *)
Context (Namespace : string).

Definition stopNoobaaPodsAndGetNumRunningPods (coreApp : StatefulSet) (endpoint : Deployment) :
    M (W * R) (StatefulSet * Deployment * nat) :=
  coreApp ← ReconcileObject NooBaaOf SetControllerReference coreApp (λ s, mret (set_ss_Replicas 0 s));
  endpoint ← ReconcileObject NooBaaOf SetControllerReference endpoint (λ d, mret (set_dep_Replicas 0 d));
  '(core, found) ← reads (λ w, KubeList w (selectPods Namespace {["noobaa-core" := "noobaa"]}%string));
  if negb found then throw (Errorf (Lit "got error listing noobaa-core pods")) else
  '(endpoints, found) ← reads (λ w, KubeList w (selectPods Namespace {["noobaa-s3" := "noobaa"]}%string));
  if negb found then throw (Errorf (Lit "got error listing noobaa-endpoints pods")) else
  mret (coreApp, endpoint, length core + length endpoints)%nat.
End Workloads.
