(* ===== verification/SystemVerifying.v ===== *)
(** * The verifying phase of the system controller: [pkg/system/phase1_verifying.go].

    The phase checks the NooBaa resource and what it refers to before anything is
    created.  The parsers of image names and versions, the check of host names and the
    SQL driver are libraries: they are parameters, as are the files and the environment of
    the process, which the phase writes for the driver. *)

From S2P Require Import Prelude GoStrings Types Kube Util Tls Profiles GoUrl Controller SystemServices.

(** ** Options *)

Definition ContainerImageOrg : string := "noobaa".
Definition ContainerImageRepo : string := "noobaa-core".
Definition ContainerImageTag : string := "master-20260808".
Definition ContainerImageSemverLowerBound : string := "5.0.0".
Definition ContainerImageSemverUpperBound : string := "6.0.0".
Definition ContainerImageName : string := ContainerImageOrg +:+ "/" +:+ ContainerImageRepo.
Definition ContainerImage : string := ContainerImageName +:+ ":" +:+ ContainerImageTag.

(** ** Kubernetes objects *)

Record StorageClass := mkStorageClass { sc_meta : ObjectMeta; sc_Provisioner : string; sc_Parameters : option (gmap string string) }.
#[export, refine] Instance StorageClass_MetaObject : MetaObject StorageClass :=
  {| meta := sc_meta; set_meta := λ m s, mkStorageClass m (sc_Provisioner s) (sc_Parameters s) |}.
Proof. done. Defined.
#[export, refine] Instance StorageClass_KubeObject : KubeObject StorageClass := {| resetStringData := id |}.
Proof. done. Defined.

(** A claim with its access modes. *)
Record LoggingPVC := mkLoggingPVC { lp_meta : ObjectMeta; lp_AccessModes : list string }.
#[export, refine] Instance LoggingPVC_MetaObject : MetaObject LoggingPVC :=
  {| meta := lp_meta; set_meta := λ m p, mkLoggingPVC m (lp_AccessModes p) |}.
Proof. done. Defined.
#[export, refine] Instance LoggingPVC_KubeObject : KubeObject LoggingPVC := {| resetStringData := id |}.
Proof. done. Defined.

(** ** Libraries *)

(** A parsed image reference: its name and tag, where it has them. *)
Record ImageRef := mkImageRef { ir_Name : option string; ir_Tag : option string }.

Class ImageSyntax : Type := {
  dockerref_Parse : string → msg + ImageRef;
  semver_Version : Type;
  semver_NewVersion : string → option semver_Version;
  (** -1, 0 or 1. *)
  semver_Compare : semver_Version → semver_Version → Z;
  govalidator_IsDNSName : string → bool;
}.

(** The files and the environment of the process, and the database driver that reads them. *)
Class Process (W : Type) : Type := {
  os_Getenv : W → string → string;
  os_WriteFile : W → string → string → W * option msg;
  os_Setenv : W → string → string → W;
  sql_Open : W → string → option msg;
  sql_Ping : W → string → option msg;
  sql_MajorVersion : W → string → msg + string;
  sql_Collation : W → string → msg + string;
}.

(** [semver.New] panics on a text that is not a version. *)
Definition mustVersion `{ImageSyntax} (text : string) : outcome semver_Version :=
  match semver_NewVersion text with
  | Some v => Ret v
  | None => Panic (Panicked (Sprintf "%q is not a version" [AStr text]))
  end.

Section Verifying.
Context {CA : ConditionApi} `{IS : ImageSyntax} {W : Type} `{PR : Process W}.
Context {SC : ApiServer W StorageClass} {SL : ApiServer W LoggingPVC}.
Context (SystemName Namespace : string) (now : Z).

(** ** [CheckSystemCR] *)

(** The image to run: that of the resource, of the environment, or the default. *)
Definition specImageOf (w : W) (spec : NooBaaSpec) : string :=
  let specImage := if os_Getenv w "NOOBAA_CORE_IMAGE" != "" then os_Getenv w "NOOBAA_CORE_IMAGE" else ContainerImage in
  default specImage (nbs_Image spec).

(** The version of an image of NooBaa lies within the bounds; other images are not checked. *)
Definition checkImageVersion (specImage : string) (imageRef : ImageRef) : verdict :=
  if default ""%string (ir_Name imageRef) == ContainerImageName then
    match semver_NewVersion (default ""%string (ir_Tag imageRef)) with
    | None => ok
    | Some version =>
        minver ← mustVersion ContainerImageSemverLowerBound;
        maxver ← mustVersion ContainerImageSemverUpperBound;
        guard (negb (semver_Compare version minver =? 1)%Z || negb (semver_Compare version maxver =? -1)%Z)
          (NewPersistentError "InvalidImageVersion"
             (Sprintf "Invalid image version %q not matching version constraints: >=%v, <%v"
                [AStr specImage; AStr ContainerImageSemverLowerBound; AStr ContainerImageSemverUpperBound])) ok
    end
  else ok.

Definition invalidEndpoints (m : msg) : error := NewPersistentError "InvalidEndpointsConfiguration" m.

(** The counts of the endpoints and their virtual hosts. *)
Definition checkEndpoints (spec : NooBaaSpec) : verdict :=
  match nbs_Endpoints spec with
  | None => ok
  | Some endpointsSpec =>
      let '(minCount, maxCount) :=
        getEndpointMinMax (nbs_PerformanceProfile spec) (Some (eps_MinCount endpointsSpec, eps_MaxCount endpointsSpec)) in
      guard (minCount <=? 0)%Z (invalidEndpoints (Lit "Invalid endpoint min count (must be greater than 0)"))
        (guard (maxCount <? minCount)%Z
           (invalidEndpoints (Lit "Invalid endpoint maximum count (must be higher than or equal to minimum count)"))
           (check_all (λ host, guard (negb (govalidator_IsDNSName host))
              (invalidEndpoints (Sprintf "Invalid virtual host %s, not a fully qualified DNS name" [AStr host])) ok)
              (eps_AdditionalVirtualHosts endpointsSpec)))
  end.

(** The deprecated default store and the autoscaler.  The message of the former prints
    the error of the image, which is nil here. *)
Definition checkDeprecated (spec : NooBaaSpec) : verdict :=
  guard (nbs_DefaultBackingStoreSpec spec)
    (NewPersistentError "Invalid, DefaultBackingStoreSpec was deprecated" (Lit "%!s(<nil>)"))
    (guard (((as_AutoscalerType (nbs_Autoscaler spec) == AutoscalerTypeKeda)
              || (as_AutoscalerType (nbs_Autoscaler spec) == AutoscalerTypeHPAV2))
            && (as_PrometheusNamespace (nbs_Autoscaler spec) == ""))
       (NewPersistentError "InvalidEndpointsAutoscalerConfiguration"
          (Sprintf "Autoscaler %s missing prometheusNamespace property "
             [AStr (AutoscalerTypes_string (as_AutoscalerType (nbs_Autoscaler spec)))]))
       ok).

Definition set_ActualImage (image : string) (s : SystemState) : SystemState :=
  set_status (set_nbst_ActualImage image) s.

Definition CheckSystemCR (w : W) (s : SystemState) : outcome (SystemState * option error) :=
  let nb := sys_NooBaa s in
  let spec := nb_Spec nb in
  if negb (om_Name (nb_meta nb) == SystemName) then
    Ret (s, Some (NewPersistentError "InvalidSystemName"
           (Sprintf "Invalid system name %q expected %q" [AStr (om_Name (nb_meta nb)); AStr SystemName])))
  else
    let specImage := specImageOf w spec in
    match dockerref_Parse specImage with
    | inl err => Ret (s, Some (NewPersistentError "InvalidImage" (Sprintf "Invalid image requested %q %v" [AStr specImage; AMsg err])))
    | inr imageRef =>
        err ← checkImageVersion specImage imageRef;
        match err with
        | Some e => Ret (s, Some e)
        | None =>
            let s := set_ActualImage specImage s in
            err ← check (checkEndpoints spec) (checkDeprecated spec);
            Ret (s, err)
        end
    end.

(** ** Secrets, the external database and claims *)

Definition CheckJoinSecret (secret : Secret) : verdict :=
  check_all (λ key, guard (map_get (sec_StringData secret) key == "")
      (NewPersistentError "InvalidJoinSecert" (Sprintf ("JoinSecret is missing " +:+ key) [])) ok)
    ["mgmt_addr"; "auth_token"; "bg_addr"; "md_addr"; "hosted_agents_addr"]%string.

Definition pgURL (spec : NooBaaSpec) (db_url : string) : string :=
  if nbs_ExternalPgSSLRequired spec
  then if negb (nbs_ExternalPgSSLUnauthorized spec) then db_url +:+ "?sslmode=verify-full" else db_url
  else db_url +:+ "?sslmode=disable".

Definition pgError (reason format dbURL : string) (m : msg) : error := NewPersistentError reason (Sprintf format [AStr dbURL; AMsg m]).

Definition checkExternalPg (w : W) (spec : NooBaaSpec) (secret : Secret) : option error :=
  let dbURL := pgURL spec (map_get (sec_StringData secret) "db_url") in
  match sql_Open w dbURL with
  | Some m => Some (pgError "InvalidExternalPgUrl" "failed openning a connection to external DB url: %q, error: %s" dbURL m)
  | None =>
  match sql_Ping w dbURL with
  | Some m => Some (pgError "InvalidExternalPgUrl" "failed pinging external DB url: %q, error: %s" dbURL m)
  | None =>
  match sql_MajorVersion w dbURL with
  | inl m => Some (pgError "InvalidExternalPgVersion" "failed getting version of external DB url: %q, error: %s" dbURL m)
  | inr version =>
      if negb (version == "15") then
        Some (pgError "InvalidExternalPgVersion" "version of external DB %q, is not supported: %s" dbURL (Sprintf version []))
      else
  match sql_Collation w dbURL with
  | inl m => Some (pgError "InvalidExternalPgCollation" "failed getting database collation of external DB url: %q, error: %s" dbURL m)
  | inr collation =>
      if negb (collation == "C") then
        Some (pgError "InvalidExternalPgCollation" "collation of external DB url: %q, is not supported: %s" dbURL (Sprintf collation []))
      else None
  end end end end.

(** The certificates of the database, written to files for the driver. *)
Definition writeCertificates (w : W) (ssl : Secret) : W * option error :=
  let key := map_get (sec_StringData ssl) "tls.key" in
  let crt := map_get (sec_StringData ssl) "tls.crt" in
  if (key == "") || (crt == "") then
    (w, Some (NewPersistentError "InvalidExternalPgCert"
          (Sprintf "%q is missing private key (must be tls.key) or missing cert key (must be tls.cert)"
             [AStr (om_Name (sec_meta ssl))])))
  else
    let failed m := Errorf (Sprintf "failed to write k8s secret tls.key content to a file %v" [AMsg m]) in
    match os_WriteFile w "/tmp/tls.key" key with
    | (w, Some m) => (w, Some (failed m))
    | (w, None) =>
        match os_WriteFile w "/tmp/tls.crt" crt with
        | (w, Some m) => (w, Some (failed m))
        | (w, None) => (os_Setenv (os_Setenv w "PGSSLKEY" "/tmp/tls.key") "PGSSLCERT" "/tmp/tls.crt", None)
        end
    end.

Definition verifyExternalPg (w : W) (s : SystemState) : W * option error :=
  match sys_ExternalPgSecret s with
  | None => (w, None)
  | Some secret =>
      if map_get (sec_StringData secret) "db_url" == "" then
        (w, Some (NewPersistentError "InvalidExternalPgSecert" (Lit "ExternalPgSecret is missing db_url")))
      else
        let '(w, err) := match sys_ExternalPgSSLSecret s with None => (w, None) | Some ssl => writeCertificates w ssl end in
        match err with
        | Some e => (w, Some e)
        | None => (w, checkExternalPg w (nb_Spec (sys_NooBaa s)) secret)
        end
  end.

Definition checkPersistentLoggingPVC (w : W) (pvcName : option string) (errorName : string) : verdict :=
  match pvcName with
  | None =>
      '(_, found) ← KubeCheck (O:=StorageClass) w (mkStorageClass (named "" "ocs-storagecluster-cephfs") "" None);
      guard (negb found) (NewPersistentError errorName
        (Lit "Persistent Volume Claim (PVC) was not specified (and CephFS was not found for a defualt PVC)")) ok
  | Some name =>
      '(pvc, found) ← KubeCheck (O:=LoggingPVC) w (mkLoggingPVC (named Namespace name) []);
      guard (negb found) (NewPersistentError errorName
        (Sprintf "The specified persistent logging pvc '%s' was not found" [AStr name]))
        (guard (negb (existsb (λ m, m == "ReadWriteMany"%string) (lp_AccessModes pvc))) (NewPersistentError errorName
           (Sprintf "The specified persistent logging pvc '%s' does not support RWX access mode" [AStr name])) ok)
  end.

(** The claims of logs and notifications, and the TLS settings. *)
Definition verifyClaims (w : W) (spec : NooBaaSpec) : verdict :=
  check (if bl_LoggingType (nbs_BucketLogging spec) == BucketLoggingTypeGuaranteed
         then checkPersistentLoggingPVC w (bl_BucketLoggingPVC (nbs_BucketLogging spec)) "InvalidBucketLoggingConfiguration"
         else ok)
    (check (if bn_Enabled (nbs_BucketNotifications spec)
            then checkPersistentLoggingPVC w (bn_PVC (nbs_BucketNotifications spec)) "InvalidBucketNotificationConfiguration"
            else ok)
       (Ret match ValidateTLSSpec (os_Getenv w) (sec_APIServerSecurity (nbs_Security spec)) with
            | Some err => Some (NewPersistentError "InvalidTLSConfiguration" (Error err))
            | None => None
            end)).

Definition ReconcilePhaseVerifying (w : W) (s : SystemState) : outcome (W * SystemState * option error) :=
  let s := SetPhase now SystemPhaseVerifying (Lit "SystemPhaseVerifying") (startedPhase "1/4" "Verifying") s in
  '(s, err) ← CheckSystemCR w s;
  match err with
  | Some e => Ret (w, s, Some e)
  | None =>
      err ← match sys_JoinSecret s with None => ok | Some secret => CheckJoinSecret secret end;
      match err with
      | Some e => Ret (w, s, Some e)
      | None =>
          let '(w, err) := verifyExternalPg w s in
          match err with
          | Some e => Ret (w, s, Some e)
          | None => err ← verifyClaims w (nb_Spec (sys_NooBaa s)); Ret (w, s, err)
          end
      end
  end.
End Verifying.

(** ** Failures of the checks are final *)

Definition rejects (v : verdict) : Prop := ∀ e, v = fail e → IsPersistentError (Some e) = true.

Lemma rejects_ok : rejects ok.
Proof. done. Qed.

Lemma rejects_guard c reason m k : rejects k → rejects (guard c (NewPersistentError reason m) k).
Proof. intros Hk e [[_ <-]|[_ He]]%guard_fail; [done|by apply Hk]. Qed.

Lemma rejects_check r k : rejects r → rejects k → rejects (check r k).
Proof. intros Hr Hk e [He|[_ He]]%check_fail; [by apply Hr|by apply Hk]. Qed.

Lemma rejects_check_all {A} (f : A → verdict) l : (∀ x, rejects (f x)) → rejects (check_all f l).
Proof. intros Hf e (l1 & x & l2 & _ & _ & He)%check_all_fail. by eapply Hf. Qed.

Lemma rejects_bind {A} (m : outcome A) (f : A → verdict) : (∀ a, rejects (f a)) → rejects (m ≫= f).
Proof. intros Hf e (a & _ & He)%bind_Ret. by eapply Hf. Qed.

Lemma rejects_Ret o : (∀ e, o = Some e → IsPersistentError (Some e) = true) → rejects (Ret o).
Proof. intros Ho e [= He]. by apply Ho. Qed.

#[export] Hint Resolve rejects_ok rejects_guard rejects_check rejects_check_all rejects_bind : go.

(** The count of endpoints is positive in every profile, so that the check of it never fails. *)
Lemma getEndpointMinMax_pos profile endpoints : (0 < (getEndpointMinMax profile endpoints).1)%Z.
Proof.
  unfold getEndpointMinMax. destruct endpoints as [[mn mx]|]; cbn [fst]; [|by destruct profile].
  destruct (Z.gtb_spec mn 0); [lia|by destruct profile].
Qed.

Section VerifyingFacts.
Context {CA : ConditionApi} `{IS : ImageSyntax} {W : Type} `{PR : Process W}.
Context {SC : ApiServer W StorageClass} {SL : ApiServer W LoggingPVC}.
Context (SystemName Namespace : string) (now : Z).

Lemma checkImageVersion_rejects image ref : rejects (checkImageVersion image ref).
Proof. unfold checkImageVersion. case_bool_decide; [|apply rejects_ok]. case_match; auto with go. Qed.

Lemma checkSpec_rejects spec : rejects (check (checkEndpoints spec) (checkDeprecated spec)).
Proof.
  apply rejects_check; [|unfold checkDeprecated; auto with go]. unfold checkEndpoints.
  destruct (nbs_Endpoints spec) as [e|]; [|apply rejects_ok]. destruct (getEndpointMinMax _ _) as [mn mx].
  unfold invalidEndpoints. auto with go.
Qed.

Lemma CheckJoinSecret_rejects secret : rejects (CheckJoinSecret secret).
Proof. unfold CheckJoinSecret. auto with go. Qed.

Lemma checkPersistentLoggingPVC_rejects (w : W) name errorName : rejects (checkPersistentLoggingPVC Namespace w name errorName).
Proof. unfold checkPersistentLoggingPVC. destruct name; apply rejects_bind; intros []; auto with go. Qed.

Lemma verifyClaims_rejects (w : W) spec : rejects (verifyClaims Namespace w spec).
Proof.
  unfold verifyClaims. repeat (apply rejects_check; [case_match; auto using checkPersistentLoggingPVC_rejects with go|]).
  apply rejects_Ret. intros e. destruct (ValidateTLSSpec _ _); [by intros [= <-]|done].
Qed.

Lemma checkExternalPg_rejects (w : W) spec secret e :
  checkExternalPg w spec secret = Some e → IsPersistentError (Some e) = true.
Proof. unfold checkExternalPg. repeat (case_match; try (by intros [= <-])); done. Qed.

(** Of all the failures of the verifying phase only that of writing the certificates
    is retried; every other one rejects the system until its resource changes. *)
Theorem Verifying_rejects w s w' s' e :
  ReconcilePhaseVerifying SystemName Namespace now w s = Ret (w', s', Some e) →
  IsPersistentError (Some e) = true ∨
  ∃ w1 path content w2 m, os_WriteFile w1 path content = (w2, Some m).
Proof.
  unfold ReconcilePhaseVerifying. set (s0 := SetPhase _ _ _ _ s). clearbody s0.
  intros ([s1 err] & Hc & H)%bind_Ret. destruct err as [e1|].
  { injection H as _ _ <-. left. revert Hc. unfold CheckSystemCR. case_match; [by intros [= _ <-]|].
    destruct (dockerref_Parse _) as [m|ref]; [by intros [= _ <-]|].
    intros (err & Hi & Hr)%bind_Ret. destruct err as [e2|].
    - injection Hr as _ <-. by apply (checkImageVersion_rejects _ _ _ Hi).
    - apply bind_Ret in Hr as (err & Hs & [= _ ->]). by apply (checkSpec_rejects _ _ Hs). }
  apply bind_Ret in H as (err & Hj & H). destruct err as [e1|].
  { injection H as _ _ <-. left. destruct (sys_JoinSecret s1); [by apply (CheckJoinSecret_rejects _ _ Hj)|done]. }
  destruct (verifyExternalPg w s1) as [w1 [e1|]] eqn:Hp.
  - injection H as _ _ <-. revert Hp. unfold verifyExternalPg. destruct (sys_ExternalPgSecret s1) as [secret|]; [|done].
    case_bool_decide; [intros Hp; simplify_eq; by left|]. destruct (sys_ExternalPgSSLSecret s1) as [ssl|].
    + destruct (writeCertificates w ssl) as [w2 [e2|]] eqn:Hw; intros Hp; simplify_eq; [|left; by eapply checkExternalPg_rejects].
      revert Hw. unfold writeCertificates. destruct (_ || _); [intros Hp; simplify_eq; by left|].
      destruct (os_WriteFile w _ _) as [w3 [m|]] eqn:H1; [right; eauto 10|].
      destruct (os_WriteFile w3 _ _) as [w4 [m|]] eqn:H2; [right; eauto 10|done].
    + intros Hp. simplify_eq. left. by eapply checkExternalPg_rejects.
  - apply bind_Ret in H as (err & Hv & [= _ _ ->]). left. by apply (verifyClaims_rejects _ _ _ Hv).
Qed.

(** ** What a verified system has *)

(** An image that may be run: it can be parsed, and if it is one of NooBaa with a
    version, this lies strictly between the bounds. *)
Definition image_supported (image : string) : Prop :=
  ∃ ref, dockerref_Parse image = inr ref ∧
    (ir_Name ref = Some ContainerImageName → ∀ version, semver_NewVersion (default ""%string (ir_Tag ref)) = Some version →
     ∃ minver maxver, semver_NewVersion ContainerImageSemverLowerBound = Some minver ∧
       semver_NewVersion ContainerImageSemverUpperBound = Some maxver ∧
       semver_Compare version minver = 1%Z ∧ semver_Compare version maxver = (-1)%Z).

Definition endpoints_valid (spec : NooBaaSpec) : Prop :=
  ∀ e, nbs_Endpoints spec = Some e →
  let counts := getEndpointMinMax (nbs_PerformanceProfile spec) (Some (eps_MinCount e, eps_MaxCount e)) in
  (counts.1 ≤ counts.2)%Z ∧ Forall (λ host, govalidator_IsDNSName host = true) (eps_AdditionalVirtualHosts e).

(** A claim for logs: the named one can be written by many nodes; without a name there
    is a CephFS storage class to make one with. *)
Definition claim_ready (w : W) (name : option string) : Prop :=
  match name with
  | None => ∃ sc : StorageClass, srv_Get w (""%string, "ocs-storagecluster-cephfs"%string) = inr sc
  | Some name => ∃ pvc : LoggingPVC, srv_Get w (Namespace, name) = inr pvc ∧ "ReadWriteMany"%string ∈ lp_AccessModes pvc
  end.

Lemma checkImageVersion_ok image ref :
  dockerref_Parse image = inr ref → checkImageVersion image ref = ok → image_supported image.
Proof.
  intros Hp Hc. exists ref. split; [done|]. intros Hn version Hv. unfold checkImageVersion in Hc.
  rewrite Hn, Hv in Hc. cbn [default] in Hc. rewrite bool_decide_true in Hc by done. unfold mustVersion in Hc.
  destruct (semver_NewVersion ContainerImageSemverLowerBound) as [minver|]; [|done].
  destruct (semver_NewVersion ContainerImageSemverUpperBound) as [maxver|]; [|done]. cbn [mbind outcome_bind] in Hc.
  apply guard_ok in Hc as [[H1%negb_false_iff H2%negb_false_iff]%orb_false_iff _].
  exists minver, maxver. split_and!; try done; by apply Z.eqb_eq.
Qed.

Lemma checkSpec_ok spec :
  check (checkEndpoints spec) (checkDeprecated spec) = ok →
  endpoints_valid spec ∧ nbs_DefaultBackingStoreSpec spec = false ∧
  (as_AutoscalerType (nbs_Autoscaler spec) = AutoscalerTypeKeda ∨ as_AutoscalerType (nbs_Autoscaler spec) = AutoscalerTypeHPAV2 →
   as_PrometheusNamespace (nbs_Autoscaler spec) ≠ ""%string).
Proof.
  intros [He Hd]%check_ok. split.
  - intros e Hs. unfold checkEndpoints in He. rewrite Hs in He. destruct (getEndpointMinMax _ _) as [mn mx].
    apply guard_ok in He as [_ [H2 H3]%guard_ok]. apply check_all_ok in H3. split; [by apply Z.ltb_ge|].
    eapply Forall_impl; [exact H3|]. intros host [Hh _]%guard_ok. by apply negb_false_iff.
  - unfold checkDeprecated in Hd. apply guard_ok in Hd as [-> [Ha _]%guard_ok]. split; [done|].
    intros Ht Hn. apply andb_false_iff in Ha as [[Hk Hh]%orb_false_iff|Ha]; [|by apply bool_decide_eq_false in Ha].
    apply bool_decide_eq_false in Hk, Hh. tauto.
Qed.

Lemma checkPersistentLoggingPVC_ok (w : W) name errorName :
  checkPersistentLoggingPVC Namespace w name errorName = ok → claim_ready w name.
Proof.
  unfold checkPersistentLoggingPVC, claim_ready. destruct name as [name|].
  - intros ([pvc found] & Hk & [Hf%negb_false_iff [He%negb_false_iff _]%guard_ok]%guard_ok)%bind_Ret. subst found.
    apply KubeCheck_true in Hk as (x & Hx & ->). exists x. split; [done|].
    apply existsb_exists in He as (m & Hm & ->%bool_decide_eq_true). by apply list_elem_of_In.
  - intros ([sc found] & Hk & [Hf%negb_false_iff _]%guard_ok)%bind_Ret. subst found.
    apply KubeCheck_true in Hk as (x & Hx & _). eauto.
Qed.

Lemma checkExternalPg_ok (w : W) spec secret :
  checkExternalPg w spec secret = None →
  let url := pgURL spec (map_get (sec_StringData secret) "db_url") in
  sql_Ping w url = None ∧ sql_MajorVersion w url = inr "15"%string ∧ sql_Collation w url = inr "C"%string.
Proof.
  unfold checkExternalPg. destruct (sql_Open _ _); [done|]. destruct (sql_Ping _ _); [done|].
  destruct (sql_MajorVersion _ _) as [?|v]; [done|]. case_bool_decide as Hv; [|done]. cbn [negb].
  destruct (sql_Collation _ _) as [?|c]; [done|]. case_bool_decide as Hc; [|done]. by subst.
Qed.

Lemma writeCertificates_ok (w : W) ssl w' :
  writeCertificates w ssl = (w', None) →
  Forall (λ key, map_get (sec_StringData ssl) key ≠ ""%string) ["tls.key"; "tls.crt"]%string.
Proof.
  unfold writeCertificates. destruct (_ || _) eqn:Hk; [done|]. apply orb_false_iff in Hk as [Hk Hc].
  intros _. apply bool_decide_eq_false in Hk, Hc. by repeat constructor.
Qed.

Lemma verifyExternalPg_ok (w : W) s secret w' :
  verifyExternalPg w s = (w', None) → sys_ExternalPgSecret s = Some secret →
  map_get (sec_StringData secret) "db_url" ≠ ""%string ∧
  (∀ ssl, sys_ExternalPgSSLSecret s = Some ssl →
     Forall (λ key, map_get (sec_StringData ssl) key ≠ ""%string) ["tls.key"; "tls.crt"]%string) ∧
  let url := pgURL (nb_Spec (sys_NooBaa s)) (map_get (sec_StringData secret) "db_url") in
  sql_Ping w' url = None ∧ sql_MajorVersion w' url = inr "15"%string ∧ sql_Collation w' url = inr "C"%string.
Proof.
  unfold verifyExternalPg. intros Hp Hsec. rewrite Hsec in Hp. case_bool_decide as Hu; [done|].
  split; [done|]. destruct (sys_ExternalPgSSLSecret s) as [ssl|].
  - destruct (writeCertificates w ssl) as [w1 [e|]] eqn:Hw; [done|]. injection Hp as -> Hp. split; [|by apply checkExternalPg_ok].
    intros ssl' [= <-]. by eapply writeCertificates_ok.
  - injection Hp as -> Hp. split; [done|]. by apply checkExternalPg_ok.
Qed.

End VerifyingFacts.
