(* ===== verification/SystemReconciler.v ===== *)
(** * The reconcile of a system: [pkg/system/reconciler.go].

    [Reconcile] reads the system and the secrets it names, runs the four phases, and writes
    the status; for a system that is being deleted it waits until its object buckets are
    gone, and then removes the finalizer that kept the system.  The creating and the
    configuring phase are parameters, as are the certificates of the process and the
    deletion of the root key, which [RootKey] models. *)

From S2P Require Import Prelude Effects GoStrings GoUrl Types Kube Util Controller Buckets SystemServices SystemVerifying.

(** The fields of the reconciler that are set here. *)
Definition set_JoinSecret (x : option Secret) (s : SystemState) : SystemState :=
  mkSystemState (sys_NooBaa s) x (sys_ExternalPgSecret s) (sys_ExternalPgSSLSecret s) (sys_CoreApp s) (sys_ServiceMgmt s)
    (sys_ServiceS3 s) (sys_ServiceSts s) (sys_ServiceIam s) (sys_ServiceVectors s) (sys_RouteMgmt s) (sys_RouteS3 s) (sys_RouteSts s)
    (sys_RouteIam s) (sys_RouteVectors s) (sys_NBClient s).
Definition set_ExternalPgSecret (x : option Secret) (s : SystemState) : SystemState :=
  mkSystemState (sys_NooBaa s) (sys_JoinSecret s) x (sys_ExternalPgSSLSecret s) (sys_CoreApp s) (sys_ServiceMgmt s)
    (sys_ServiceS3 s) (sys_ServiceSts s) (sys_ServiceIam s) (sys_ServiceVectors s) (sys_RouteMgmt s) (sys_RouteS3 s) (sys_RouteSts s)
    (sys_RouteIam s) (sys_RouteVectors s) (sys_NBClient s).
Definition set_ExternalPgSSLSecret (x : option Secret) (s : SystemState) : SystemState :=
  mkSystemState (sys_NooBaa s) (sys_JoinSecret s) (sys_ExternalPgSecret s) x (sys_CoreApp s) (sys_ServiceMgmt s)
    (sys_ServiceS3 s) (sys_ServiceSts s) (sys_ServiceIam s) (sys_ServiceVectors s) (sys_RouteMgmt s) (sys_RouteS3 s) (sys_RouteSts s)
    (sys_RouteIam s) (sys_RouteVectors s) (sys_NBClient s).

Definition DeleteOBCConfirmation : string := "yes-really-destroy-obc".

(** [util.CombineCaBundle]. *)
Inductive CaBundle := CaCombined | CaNotExist | CaFailed.

Definition IsPostgresql12Image (image : string) : bool := Contains_str image "postgresql-12".

Section Reconcile.
Context {CA : ConditionApi} {IS : ImageSyntax} `{AuthoritySyntax} {W : Type} {PR : Process W}.
Context {SN : ApiServer W NooBaa} {SS : ApiServer W Secret} {SC : ApiServer W StorageClass} {SB : ApiServer W ObjectBucket}.
Context {SL : ApiServer W LoggingPVC} {SP : ApiServer W RunningPod}.
Context (SystemName Namespace : string) (now : Z) (ReadAuth : APIRouter → option error).
(** How long the deletion of the storage class is waited for. *)
Context (fuel : nat) (tick : W → W) (OBCStorageClass : StorageClass).
(** [Client.Status().Update], the certificates, and the image of the old database. *)
Context (statusUpdate : W → NooBaa → W * option error) (CombineCaBundle : W → CaBundle) (postgresImage : SystemState → string).
Context (deleteRootSecret : W → NooBaa → outcome (W * option error)).
Context (ReconcilePhaseCreating ReconcilePhaseConfiguring : W → SystemState → outcome (W * SystemState * option error)).

Definition SubDomainNS : string := Namespace +:+ ".noobaa.io".
Definition ofSystem (ob : ObjectBucket) : bool := matchesLabels {["noobaa-domain"%string := SubDomainNS]} (meta ob).

(** The storage class is deleted and the finalizer removed; failures are logged. *)
Definition releaseSystem (w : W) (nb : NooBaa) : outcome (W * NooBaa) :=
  '(w, r) ← KubeDelete fuel tick w OBCStorageClass;
  match r with
  | None => Panic Unfinished
  | Some _ =>
      let '(nb, _) := RemoveFinalizer nb GracefulFinalizer in
      '(w, nb, _) ← KubeUpdate w nb;
      Ret (w, nb)
  end.

Definition VerifyObjectBucketCleanup (w : W) (nb : NooBaa) : outcome (W * NooBaa * option error) :=
  match om_DeletionTimestamp (nb_meta nb) with
  | None => Ret (w, nb, None)
  | Some _ =>
      if cp_Confirmation (nbs_CleanupPolicy (nb_Spec nb)) == DeleteOBCConfirmation then
        '(w, nb) ← releaseSystem w nb; Ret (w, nb, None)
      else
        '(items, _) ← KubeList w ofSystem;
        match items with
        | [] => '(w, nb) ← releaseSystem w nb; Ret (w, nb, None)
        | _ =>
            Ret (w, nb, Some (Errorf (Sprintf
              "Failed to delete NooBaa. object buckets in namespace %q are not cleaned up. remaining buckets: %+v"
              [AStr (om_Namespace (nb_meta nb)); AStr (Join ((λ ob, om_Name (meta ob)) <$> items) " ")])))
        end
  end.

(** A phase that may fail. *)
Definition thenPhase (m : outcome (W * SystemState * option error))
    (k : W → SystemState → outcome (W * SystemState * option error)) : outcome (W * SystemState * option error) :=
  '(w, s, err) ← m; match err with Some e => Ret (w, s, Some e) | None => k w s end.

Definition ReconcilePhases (w : W) (s : SystemState) : outcome (W * SystemState * option error) :=
  thenPhase (ReconcilePhaseVerifying SystemName Namespace now w s) (λ w s,
  thenPhase (ReconcilePhaseCreating w s) (λ w s,
  thenPhase ('(s, err) ← ReconcilePhaseConnecting Namespace now ReadAuth w s; Ret (w, s, err)) (λ w s,
  thenPhase (ReconcilePhaseConfiguring w s) (λ w s, Ret (w, s, None))))).

Definition UpdateStatus (w : W) (s : SystemState) : W * SystemState * option error :=
  let s := set_status (set_nbst_ObservedGeneration (om_Generation (nb_meta (sys_NooBaa s)))) s in
  let '(w, err) := statusUpdate w (sys_NooBaa s) in (w, s, err).

(** The phase that the outcome of the phases leads to. *)
Definition concludePhases (s : SystemState) (err : option error) : SystemState * option Z :=
  match err with
  | Some (PersistentError reason message) => (SetPhase now SystemPhaseRejected (Sprintf reason []) message s, None)
  | Some e => (SetPhase now SystemPhaseNone (Lit "TemporaryError") (Error e) s, Some 3%Z)
  | None =>
      if IsPostgresql12Image (postgresImage s) then
        (SetPhase now SystemPhaseRejected (Lit "PostgresImageVersion")
           (Lit "Noobaa is using Postgresql-12 which indicates a failure to upgrade to Postgresql-15. Please contact support.") s, None)
      else
        (SetPhase now SystemPhaseReady (Lit "SystemPhaseReady")
           (Lit "noobaa operator completed reconcile - system is ready") s, None)
  end.

(** A secret that the system names. *)
Definition readSecret (w : W) (ref : SecretReference) : outcome (Secret * bool) :=
  KubeCheck w (mkSecret (named (sr_Namespace ref) (sr_Name ref)) None None).

Definition RunPhases (w : W) (s : SystemState) : outcome (W * SystemState * Result * option error) :=
  '(w, s, err) ← ReconcilePhases w s;
  let '(s, requeue) := concludePhases s err in
  let '(w, s, err) := UpdateStatus w s in
  Ret (w, s, mkResult (match err with Some _ => Some 3%Z | None => requeue end), None).

Definition ReadExternalPg (w : W) (s : SystemState) : outcome (W * SystemState * Result * option error) :=
  let spec := nb_Spec (sys_NooBaa s) in
  '(s, ok) ← match nbs_ExternalPgSecret spec with
             | None => Ret (s, true)
             | Some ref => '(secret, found) ← readSecret w ref; Ret (set_ExternalPgSecret (Some secret) s, found)
             end;
  if negb ok then Ret (w, s, mkResult None, None) else
  match nbs_ExternalPgSSLSecret spec with
  | None => RunPhases w s
  | Some ref =>
      '(secret, found) ← readSecret w ref;
      let s := set_ExternalPgSSLSecret (Some secret) s in
      if negb found then
        (* the message names the other secret *)
        _ ← deref (nbs_ExternalPgSecret spec);
        Ret (w, s, mkResult None, None)
      else RunPhases w s
  end.

Definition Reconcile (w : W) (s : SystemState) : outcome (W * SystemState * Result * option error) :=
  '(w, nb, ok) ← CheckSystem w (sys_NooBaa s);
  let s := set_NooBaa nb s in
  if negb ok then
    match om_DeletionTimestamp (nb_meta nb) with
    | Some _ =>
        '(w, _) ← deleteRootSecret w nb;
        '(w, nb, err) ← VerifyObjectBucketCleanup w nb;
        let s := set_NooBaa nb s in
        Ret (w, match err with Some e => SetPhase now SystemPhaseNone (Lit "TemporaryError") (Error e) s | None => s end,
             mkResult None, err)
    | None => Ret (w, s, mkResult (Some 3%Z), None)
    end
  else
    '(s, joined) ← match nbs_JoinSecret (nb_Spec nb) with
                   | None => Ret (s, true)
                   | Some ref => '(secret, found) ← readSecret w ref; Ret (set_JoinSecret (Some secret) s, found)
                   end;
    if negb joined then Ret (w, s, mkResult None, None)
    else match CombineCaBundle w with
         | CaFailed => Ret (w, s, mkResult (Some 3%Z), None)
         | _ => ReadExternalPg w s
         end.
End Reconcile.

(** ** Facts *)

Section Facts.
Context {CA : ConditionApi} {IS : ImageSyntax} `{AuthoritySyntax} {W : Type} {PR : Process W}.
Context {SN : ApiServer W NooBaa} {SS : ApiServer W Secret} {SC : ApiServer W StorageClass} {SB : ApiServer W ObjectBucket}.
Context {SL : ApiServer W LoggingPVC} {SP : ApiServer W RunningPod}.
Context (SystemName Namespace : string) (now : Z) (ReadAuth : APIRouter → option error).
Context (fuel : nat) (tick : W → W) (OBCStorageClass : StorageClass).
Context (statusUpdate : W → NooBaa → W * option error) (CombineCaBundle : W → CaBundle) (postgresImage : SystemState → string).
Context (deleteRootSecret : W → NooBaa → outcome (W * option error)).
Context (ReconcilePhaseCreating ReconcilePhaseConfiguring : W → SystemState → outcome (W * SystemState * option error)).

Abbreviation reconcileSystem := (Reconcile SystemName Namespace now ReadAuth fuel tick OBCStorageClass statusUpdate CombineCaBundle
  postgresImage deleteRootSecret ReconcilePhaseCreating ReconcilePhaseConfiguring).
Abbreviation runPhases := (ReconcilePhases SystemName Namespace now ReadAuth ReconcilePhaseCreating ReconcilePhaseConfiguring).

(** C18: A system that is being deleted while object buckets of it are listed is kept, unless
    the deletion of the buckets was confirmed: nothing but the deletion of its root key is
    asked of the cluster, the finalizer stays, and the reconcile fails.  When it was
    confirmed, or no bucket is listed, the system is released; a list that fails counts as
    one without buckets. *)
Theorem Reconcile_waits_for_buckets w s nb items listed w1 e :
  srv_Get w (ObjectKey (sys_NooBaa s)) = inr nb → is_Some (om_DeletionTimestamp (nb_meta nb)) →
  deleteRootSecret w nb = Ret (w1, e) → KubeList w1 (ofSystem Namespace) = Ret (items, listed) →
  (listed = false → items = []) ∧
  let confirmed := cp_Confirmation (nbs_CleanupPolicy (nb_Spec nb)) = DeleteOBCConfirmation in
  (¬ confirmed ∧ items ≠ [] →
     ∃ s' err, reconcileSystem w s = Ret (w1, s', mkResult None, Some err) ∧
       nb_meta (sys_NooBaa s') = nb_meta nb ∧ nb_Spec (sys_NooBaa s') = nb_Spec nb) ∧
  (confirmed ∨ items = [] →
     reconcileSystem w s = ('(w', nb') ← releaseSystem fuel tick OBCStorageClass w1 nb;
                            Ret (w', set_NooBaa nb' s, mkResult None, None))).
Proof.
  intros Hget [ts Hts] Hroot Hlist. split.
  { intros ->. revert Hlist. unfold KubeList. destruct (srv_List w1 _) as [err|l]; [|done]. repeat case_match; intros; by simplify_eq. }
  intros confirmed. unfold Reconcile, CheckSystem.
  rewrite (KubeCheck_found w (sys_NooBaa s) nb Hget), !bind_ret_l. cbn [resetStringData NooBaa_KubeObject id].
  rewrite Hts, bind_ret_l. cbn [negb]. rewrite Hts, Hroot, bind_ret_l. unfold VerifyObjectBucketCleanup. rewrite Hts, Hlist.
  assert (∀ m, ('(w, nb, err) ← ('(w, nb) ← m; Ret (w, nb, None));
      Ret (w, match err with Some e => SetPhase now SystemPhaseNone (Lit "TemporaryError") (Error e) (set_NooBaa nb s) | None => set_NooBaa nb s end,
           mkResult None, err)) =
    ('(w', nb') ← m; Ret (w', set_NooBaa nb' s, mkResult None, None)) :> outcome (W * SystemState * Result * option error)) as Hbind.
  { by intros [[w2 nb2]|p]. }
  split.
  - intros [Hconf Hne]. rewrite bool_decide_eq_false_2 by done. rewrite bind_ret_l. destruct items as [|ob items]; [done|].
    rewrite bind_ret_l. eexists _, _. split; [reflexivity|]. done.
  - case_bool_decide as Hc; [intros _; exact (Hbind _)|]. intros [?| ->]; [done|]. rewrite bind_ret_l. exact (Hbind _).
Qed.

End Facts.
