(* ===== verification/CloudPlatform.v ===== *)
(** * The platform of the cluster: [pkg/util/util.go].

    The operator asks the first node of the cluster which cloud it runs in, once per
    process: the answers are kept behind a [sync.Once] each.  Also the region of the
    cluster in AWS and in IBM Cloud, and the names of the buckets that are made for the
    default backing store. *)

From Stdlib Require Import Ascii.
From stdpp Require Import pretty.
From S2P Require Import Prelude GoStrings Types Kube Util GoUrl SystemServices SystemVerifying Gcp.

(** ** Kubernetes objects *)

Record Node := mkNode { node_meta : ObjectMeta; node_ProviderID : string }.
#[export, refine] Instance Node_MetaObject : MetaObject Node :=
  {| meta := node_meta; set_meta := λ m n, mkNode m (node_ProviderID n) |}.
Proof. done. Defined.
#[export, refine] Instance Node_KubeObject : KubeObject Node := {| resetStringData := id |}.
Proof. done. Defined.

(** Of the infrastructure of OpenShift the region in AWS, when it has one. *)
Record Infrastructure := mkInfrastructure { infra_meta : ObjectMeta; infra_AWSRegion : option string }.
#[export, refine] Instance Infrastructure_MetaObject : MetaObject Infrastructure :=
  {| meta := infra_meta; set_meta := λ m i, mkInfrastructure m (infra_AWSRegion i) |}.
Proof. done. Defined.
#[export, refine] Instance Infrastructure_KubeObject : KubeObject Infrastructure := {| resetStringData := id |}.
Proof. done. Defined.

(** ** [sync.Once] *)

(** A flag that is set once, with its value; a function that panics has run, and leaves the
    zero value. *)
Definition once (flag : option bool) (f : outcome bool) : option bool * outcome bool :=
  match flag with
  | Some b => (flag, Ret b)
  | None => match f with Ret b => (Some b, Ret b) | Panic p => (Some false, Panic p) end
  end.

(** The flags of the process. *)
Record Platforms := mkPlatforms {
  pf_aws : option bool;
  pf_azure : option bool;
  pf_gcp : option bool;
  pf_ibm : option bool;
  pf_fusion : option bool;
}.
Definition noPlatforms : Platforms := mkPlatforms None None None None None.
Definition set_pf_aws v (p : Platforms) := mkPlatforms v (pf_azure p) (pf_gcp p) (pf_ibm p) (pf_fusion p).
Definition set_pf_azure v (p : Platforms) := mkPlatforms (pf_aws p) v (pf_gcp p) (pf_ibm p) (pf_fusion p).
Definition set_pf_gcp v (p : Platforms) := mkPlatforms (pf_aws p) (pf_azure p) v (pf_ibm p) (pf_fusion p).
Definition set_pf_ibm v (p : Platforms) := mkPlatforms (pf_aws p) (pf_azure p) (pf_gcp p) v (pf_fusion p).
Definition set_pf_fusion v (p : Platforms) := mkPlatforms (pf_aws p) (pf_azure p) (pf_gcp p) (pf_ibm p) v.

(** ** The platform *)

(** The regions of AWS, by the names that the code accepts for them. *)
Definition mapValidAWSRegions : gmap string string :=
  <["compute-1"%string := "us-east-1"%string]> (<["ec2"%string := "us-east-1"%string]>
  (list_to_map ((λ r, (r, r)) <$>
    ["us-east-1"; "us-east-2"; "us-west-1"; "us-west-2"; "ca-central-1"; "ca-west-1"; "eu-central-1"; "eu-central-2";
     "eu-west-1"; "eu-west-2"; "eu-west-3"; "eu-north-1"; "eu-south-1"; "eu-south-2"; "ap-east-1"; "ap-east-2";
     "ap-northeast-1"; "ap-northeast-2"; "ap-northeast-3"; "ap-southeast-1"; "ap-southeast-2"; "ap-southeast-3";
     "ap-southeast-4"; "ap-southeast-5"; "ap-southeast-6"; "ap-southeast-7"; "ap-south-1"; "ap-south-2"; "me-south-1";
     "me-central-1"; "sa-east-1"; "us-gov-west-1"; "us-gov-east-1"; "af-south-1"; "il-central-1"; "mx-central-1";
     "cn-north-1"; "cn-northwest-1"]%string))).

Definition ibmRegion : string := "ibm-cloud.kubernetes.io/region".

Section Platform.
Context {W : Type} {SN : ApiServer W Node} {SI : ApiServer W Infrastructure} {SC : ApiServer W StorageClass}.
Implicit Types (w : W) (p : Platforms).

(** The first node; a cluster without nodes is a panic. *)
Definition firstNode w : outcome Node :=
  '(items, found) ← KubeList w (λ _ : Node, true);
  match items with
  | node :: _ => if negb found then Panic (Panicked (Lit "failed to list kubernetes nodes")) else Ret node
  | [] => Panic (Panicked (Lit "failed to list kubernetes nodes"))
  end.

Definition isAWS (n : Node) : bool := HasPrefix (node_ProviderID n) "aws".
(** The government and defense regions of Azure do not count. *)
Definition isAzureNonGovernment (n : Node) : bool :=
  HasPrefix (node_ProviderID n) "azure" &&
  match default ∅ (om_Labels (node_meta n)) !! "topology.kubernetes.io/region"%string with
  | None => true
  | Some region => negb (HasPrefix region "usgov" || HasPrefix region "usdod")
  end.
Definition isGCP (n : Node) : bool := HasPrefix (node_ProviderID n) "gce".
(** A Satellite cluster runs on infrastructure of the user. *)
Definition isIBM (n : Node) : bool :=
  HasPrefix (node_ProviderID n) "ibm" && negb (Contains_str (node_ProviderID n) "/sat-").

Definition IsAWSPlatform w p : Platforms * outcome bool :=
  let '(v, b) := once (pf_aws p) (node ← firstNode w; Ret (isAWS node)) in (set_pf_aws v p, b).
Definition IsAzurePlatformNonGovernment w p : Platforms * outcome bool :=
  let '(v, b) := once (pf_azure p) (node ← firstNode w; Ret (isAzureNonGovernment node)) in (set_pf_azure v p, b).
Definition IsGCPPlatform w p : Platforms * outcome bool :=
  let '(v, b) := once (pf_gcp p) (node ← firstNode w; Ret (isGCP node)) in (set_pf_gcp v p, b).
Definition IsIBMPlatform w p : Platforms * outcome bool :=
  let '(v, b) := once (pf_ibm p) (node ← firstNode w; Ret (isIBM node)) in (set_pf_ibm v p, b).

Definition spectrumScaleClass : string := "ibm-spectrum-scale-csi-storageclass-version2".
Definition IsFusionHCIWithScale w p : Platforms * outcome bool :=
  let '(v, b) := once (pf_fusion p)
    ('(_, found) ← KubeCheckQuiet w (mkStorageClass (named "" spectrumScaleClass) "" None); Ret found) in (set_pf_fusion v p, b).

Definition GetIBMRegion w : outcome (error + string) :=
  '(items, found) ← KubeList w (λ n : Node, negb (isNil (om_Labels (node_meta n) ≫= lookup ibmRegion)));
  Ret (if negb found then inl (Errorf (Lit "failed to list Kubernetes nodes with the IBM region label"))
       else match items with
            | [] => inl (Errorf (Lit "no Kubernetes nodes with the IBM region label found"))
            | node :: _ => inr (map_get (om_Labels (node_meta node)) ibmRegion)
            end).

(** The second part of the name of the first node.  That there is no node, or no second
    part, is logged only. *)
Definition regionOfNode w : outcome string :=
  '(items, _) ← KubeList w (λ _ : Node, true);
  match items with
  | [] => Panic IndexOutOfRange
  | node :: _ =>
      match Split (om_Name (node_meta node)) "."%char with
      | _ :: part :: _ => Ret (default ""%string (mapValidAWSRegions !! part))
      | _ => Panic IndexOutOfRange
      end
  end.

Definition GetAWSRegion w : outcome (error + string) :=
  let '(infrastructure, _) := KubeGet w (mkInfrastructure (named "" "cluster") None) in
  let awsRegion := match infra_AWSRegion infrastructure with
                   | Some region => default ""%string (mapValidAWSRegions !! region)
                   | None => ""%string
                   end in
  awsRegion ← (if awsRegion == "" then regionOfNode w else Ret awsRegion);
  Ret (if awsRegion == "" then inl (Errorf (Lit "Failed to determine the AWS region")) else inr awsRegion).

(** ** Facts *)

(** An answer is for the life of the process. *)
Lemma once_twice flag f g v b : once flag f = (v, Ret b) → once v g = (v, Ret b).
Proof. destruct flag; cbn; [by intros [= <- <-]|]. destruct f; cbn; [|done]. by intros [= <- <-]. Qed.

(** A single failure to list the nodes makes the process believe for good that it does not
    run in AWS: the panic leaves the flag set. *)
Theorem IsAWSPlatform_failed_once w w' p e :
  pf_aws p = None → srv_List (O:=Node) w (λ _, true) = inl e →
  let '(p', r) := IsAWSPlatform w p in (∃ x, r = Panic x) ∧ IsAWSPlatform w' p' = (p', Ret false).
Proof.
  intros Hp He. unfold IsAWSPlatform, firstNode, KubeList. rewrite Hp, He.
  destruct (IsNoMatchOrNotRegistered e), (IsNotFound e), (IsConflict e); cbn; by eauto.
Qed.

(** The platforms exclude each other, so the order in which they are asked for is irrelevant. *)
Lemma HasPrefix_first s a b t u : a ≠ b → HasPrefix s (String a t) = true → HasPrefix s (String b u) = false.
Proof.
  destruct s as [|c s]; [done|]. cbn. intros Hab. destruct (decide (a = c)) as [<-|Hac].
  - intros _. by rewrite (bool_decide_eq_false_2 (b = a)) by congruence.
  - by rewrite bool_decide_eq_false_2 by done.
Qed.

Theorem platforms_exclusive n :
  (isAWS n = true → isAzureNonGovernment n = false ∧ isGCP n = false ∧ isIBM n = false) ∧
  (isAzureNonGovernment n = true → isGCP n = false ∧ isIBM n = false) ∧ (isGCP n = true → isIBM n = false).
Proof.
  unfold isAWS, isAzureNonGovernment, isGCP, isIBM. split_and!.
  - intros Ha. rewrite (HasPrefix_first _ "a" "g" _ "ce") by done. rewrite (HasPrefix_first _ "a" "i" _ "bm") by done.
    destruct (node_ProviderID n) as [|a [|b s]]; [done|cbn in Ha; by rewrite andb_false_r in Ha|]. cbn in Ha |- *.
    destruct (decide ("w"%char = b)) as [<-|Hb]; [by rewrite andb_false_r|].
    by rewrite (bool_decide_eq_false_2 ("w"%char = b)), andb_false_r in Ha by done.
  - intros [Ha _]%andb_prop. rewrite (HasPrefix_first _ "a" "g" _ "ce") by done. by rewrite (HasPrefix_first _ "a" "i" _ "bm") by done.
  - intros Ha. by rewrite (HasPrefix_first _ "g" "i" _ "bm") by done.
Qed.

#[local] Opaque mapValidAWSRegions.
(** A region that is found is one that the table knows. *)
Theorem GetAWSRegion_known w region : GetAWSRegion w = Ret (inr region) → ∃ key, mapValidAWSRegions !! key = Some region.
Proof.
  assert (Hdef : ∀ key, default ""%string (mapValidAWSRegions !! key) = region → region ≠ ""%string →
    ∃ key, mapValidAWSRegions !! key = Some region).
  { intros key. destruct (mapValidAWSRegions !! key) as [r|] eqn:E; cbn; intros <-; [eauto|done]. }
  unfold GetAWSRegion. destruct (KubeGet w _) as [infra _].
  set (known := match infra_AWSRegion infra with Some r => default ""%string (mapValidAWSRegions !! r) | None => ""%string end).
  intros H. apply bind_Ret in H as (r & Hr & H). destruct (bool_decide_reflect (r = ""%string)) as [|Hne]; [done|]. injection H as ->.
  destruct (bool_decide_reflect (known = ""%string)) as [Hk|Hk].
  - unfold regionOfNode in Hr. apply bind_Ret in Hr as ([items found] & _ & Hr).
    destruct items as [|node items]; [done|]. destruct (Split _ _) as [|x [|part l]]; [done|done|]. injection Hr as Hr. by apply (Hdef part).
  - injection Hr as <-. unfold known in *. destruct (infra_AWSRegion infra) as [r|]; [|done]. by apply (Hdef r).
Qed.
End Platform.

(** ** Names of buckets *)

(** [strings.Trim(s, "-.")]. *)
Definition edge (a : ascii) : bool := (a == "-"%char) || (a == "."%char).
Fixpoint TrimLeft (s : string) : string :=
  match s with String a s' => if edge a then TrimLeft s' else s | EmptyString => "" end.
Fixpoint TrimRight (s : string) : string :=
  match s with
  | EmptyString => ""
  | String a s' => let t := TrimRight s' in if (t == "") && edge a then "" else String a t
  end.
Definition Trim (s : string) : string := TrimRight (TrimLeft s).

(** [^(([a-z0-9]|[a-z0-9][a-z0-9-]*[a-z0-9])\.)*([a-z0-9]|[a-z0-9][a-z0-9-]*[a-z0-9])$] *)
Definition bucketLabel : re :=
  RAlt (RClass isLowerDigit) (RSeq (RClass isLowerDigit) (RSeq (RStar (RClass isLowerDigitDash)) (RClass isLowerDigit))).
Definition validBucketNameRegex : re := RSeq (RStar (RSeq bucketLabel (RClass (λ c, (c =? 46)%Z)))) bucketLabel.
Definition IsValidS3BucketName (name : string) : bool := MatchString validBucketNameRegex name.

(** The parts of the host, from the last, as long as the name is not too long. *)
Fixpoint hostSuffix (name : string) (items : list string) (suffix : string) : string :=
  match items with
  | [] => suffix
  | item :: items =>
      let hostItem := Trim item in
      if (len name + 1 + len hostItem + 1 + len suffix >? 63)%Z then suffix
      else hostSuffix name items (hostItem +:+ "." +:+ suffix)
  end.

(** At time [now] in nanoseconds, for the host of the management route. *)
Definition generateBackingStoreTargetName (now : Z) (host : string) : string :=
  let tsMilli := pretty (Z.quot now 1000000) in
  let name := "nb." +:+ tsMilli in
  let long := if host == "" then name else name +:+ "." +:+ hostSuffix name (rev (Split host ".")) "" in
  let trimmed := Trim long in
  if IsValidS3BucketName trimmed then trimmed else name.

(** ** Facts on names *)

Lemma TrimRight_app s a t : edge a = false → TrimRight (s +:+ String a t) = s +:+ String a (TrimRight t).
Proof.
  intros Ha. induction s as [|b s IH]; cbn.
  - by rewrite Ha, andb_false_r.
  - rewrite IH. by rewrite bool_decide_eq_false_2 by (by destruct s).
Qed.

Lemma TrimRight_length s : (len (TrimRight s) ≤ len s)%Z.
Proof.
  unfold len. induction s as [|a s IH]; cbn [TrimRight String.length]; [lia|]. cbv zeta. case_match; cbn; lia.
Qed.

Lemma hostSuffix_length name items suffix :
  (len name + 1 + len suffix ≤ 63)%Z → (len name + 1 + len (hostSuffix name items suffix) ≤ 63)%Z.
Proof.
  revert suffix. induction items as [|item items IH]; intros suffix Hl; cbn [hostSuffix]; [done|]. cbv zeta.
  case_match eqn:E; [done|]. rewrite Z.gtb_ltb, Z.ltb_ge in E. apply IH. rewrite !len_app. change (len ".") with 1%Z. lia.
Qed.

Lemma pretty_N_go_length x s k : (x < 10 ^ N.of_nat k)%N → (String.length (pretty_N_go x s) ≤ k + String.length s)%nat.
Proof.
  revert x s. induction k as [|k IH]; intros x s Hx.
  - assert (x = 0)%N as ->; [|done]. change (10 ^ N.of_nat 0)%N with 1%N in Hx. lia.
  - assert (x = 0 ∨ 0 < x)%N as [->|Hp] by lia; [change (pretty_N_go 0 s) with s; lia|].
    rewrite pretty_N_go_step by done. rewrite IH; [cbn [String.length]; lia|].
    apply N.Div0.div_lt_upper_bound. rewrite Nat2N.inj_succ, N.pow_succ_r' in Hx. lia.
Qed.

Lemma pretty_length (z : Z) k : (0 ≤ z < 10 ^ Z.of_nat k)%Z → (1 ≤ k)%nat → (len (pretty z) ≤ Z.of_nat k)%Z.
Proof.
  intros Hz Hk. rewrite pretty_Z_N by lia. unfold pretty, pretty_N, len. case_decide; [cbn; lia|].
  pose proof (pretty_N_go_length (Z.to_N z) "" k) as Hl. cbn [String.length] in Hl.
  assert (Z.to_N z < 10 ^ N.of_nat k)%N; [|lia].
  apply N2Z.inj_lt. rewrite N2Z.inj_pow, nat_N_Z, Z2N.id by lia. change (Z.of_N 10) with 10%Z. lia.
Qed.

(** Digits are their own runes, and make a label. *)
Lemma runes_digits s : every GoUrl.isDigit s = true → Forall (λ c, isDigit c = true) (runes s) ∧ (s ≠ ""%string → runes s ≠ []).
Proof.
  unfold runes. induction s as [|a s IH]; cbn [every]; [done|]. intros [Ha Hs]%andb_prop. destruct (IH Hs) as [Hf _].
  assert (byte a < 128)%Z by (unfold GoUrl.isDigit, in_range in Ha; lia).
  rewrite segments_ascii by done. cbn. split; [|done]. by constructor.
Qed.

Lemma lang_label_digits w : w ≠ [] → Forall (λ c, isDigit c = true) w → lang bucketLabel w.
Proof.
  intros Hne Hw. assert (Hd : ∀ c, isDigit c = true → isLowerDigit c = true) by (intros c Hc; unfold isLowerDigit; by rewrite Hc, orb_true_r).
  destruct w as [|a w]; [done|]. apply Forall_cons in Hw as [Ha Hw]. destruct w as [|b w] using rev_ind.
  - apply lang_alt_l. constructor. auto.
  - clear IHw. apply lang_alt_r, (lang_seq _ _ [a] (w ++ [b])); [constructor; auto|]. apply Forall_app in Hw as [Hw Hb].
    constructor; [|constructor; apply Hd; by apply Forall_cons in Hb as [Hb _]].
    apply lang_star_class. eapply Forall_impl; [exact Hw|]. intros c Hc. by apply isLowerDigit_dash, Hd.
Qed.

Lemma timestamp_name_valid (z : Z) : (0 ≤ z)%Z → IsValidS3BucketName ("nb." +:+ pretty z) = true.
Proof.
  intros Hz. unfold IsValidS3BucketName, MatchString. apply re_match_lang.
  destruct (runes_digits (pretty z) (pretty_digits z Hz)) as [Hd Hne].
  change (runes ("nb." +:+ pretty z)) with ([110; 98; 46]%Z ++ runes (pretty z)).
  constructor; [|apply lang_label_digits; [apply Hne, pretty_nonempty|]; done].
  apply (lang_star_cons _ 110%Z [98; 46]%Z []); [|constructor]. apply (lang_seq _ _ [110; 98]%Z [46]%Z); [|by constructor].
  apply lang_alt_r, (lang_seq _ _ [110]%Z [98]%Z); [by constructor|]. apply (lang_seq _ _ [] [98]%Z); constructor. done.
Qed.

Lemma every_last f s : every f s = true → s ≠ ""%string → ∃ t a, s = t +:+ String a "" ∧ f a = true.
Proof.
  induction s as [|a s IH]; [done|]. intros [Ha Hs]%andb_prop _. destruct s as [|b s]; [by exists "", a|].
  destruct (IH Hs ltac:(done)) as (t & c & -> & Hc). by exists (String a t), c.
Qed.

(** C39: The name of a bucket is valid, has at most 63 characters, and starts with the time. *)
Theorem generateBackingStoreTargetName_valid now host :
  (0 ≤ now < 2 ^ 63)%Z →
  let name := generateBackingStoreTargetName now host in
  IsValidS3BucketName name = true ∧ (len name ≤ 63)%Z ∧ HasPrefix name ("nb." +:+ pretty (Z.quot now 1000000)) = true.
Proof.
  intros Hn. unfold generateBackingStoreTargetName. set (ts := Z.quot now 1000000).
  assert (0 ≤ ts < 10 ^ 13)%Z as Hts.
  { unfold ts. rewrite Z.quot_div_nonneg by lia. split; [apply Z.div_pos; lia|]. apply Z.div_lt_upper_bound; lia. }
  pose proof (pretty_length ts 13 Hts ltac:(lia)) as Hlen. set (name := "nb." +:+ pretty ts).
  assert (len name ≤ 16)%Z as Hname by (unfold name; rewrite len_app; change (len "nb.") with 3%Z; lia).
  cbv zeta. case_match eqn:Hv; [|split_and!; [apply timestamp_name_valid; lia|lia|apply HasPrefix_spec; exists ""; by rewrite string_app_nil_r]].
  split; [done|]. clear Hv. set (long := if host == "" then name else _).
  assert (∃ rest, long = name +:+ rest ∧ (len name + len rest ≤ 63)%Z) as (rest & -> & Hrest).
  { unfold long. case_bool_decide; [exists ""; rewrite string_app_nil_r; split; [done|change (len "") with 0%Z; lia]|].
    eexists. split; [reflexivity|]. rewrite len_app. change (len ".") with 1%Z.
    pose proof (hostSuffix_length name (rev (Split host ".")) "") as Hh. change (len "") with 0%Z in Hh. lia. }
  destruct (every_last _ (pretty ts) (pretty_digits ts (proj1 Hts)) (pretty_nonempty ts (proj1 Hts))) as (t & a & Ht & Ha).
  assert (edge a = false) as He.
  { unfold edge. unfold GoUrl.isDigit in Ha. apply orb_false_iff. split; apply bool_decide_eq_false; intros ->; by vm_compute in Ha. }
  assert (Trim (name +:+ rest) = name +:+ TrimRight rest) as ->.
  { unfold Trim. change (TrimLeft (name +:+ rest)) with (name +:+ rest). unfold name. rewrite Ht.
    rewrite !string_app_assoc. change (String a "" +:+ rest) with (String a rest). rewrite <-!string_app_assoc, TrimRight_app by done.
    by rewrite !string_app_assoc. }
  split; [rewrite len_app; pose proof (TrimRight_length rest); lia|]. apply HasPrefix_spec. eauto.
Qed.
