(* ===== verification/CloudCredentials.v ===== *)
(** * Credentials for the default backing store: [pkg/system/phase2_creating.go].

    In the creating phase the controller asks the cloud-credentials operator of OpenShift
    for credentials on the platform it runs on, or rook for a user of its object store; in
    IBM Cloud a secret is expected.  For AWS the request names the bucket that the default
    backing store will use.  The codec of provider specifications is a parameter, as are
    the recognition of role names and the environment of the process. *)

From stdpp Require Import pretty.
From S2P Require Import Prelude Effects GoStrings Types Kube Util Gcp SystemVerifying SystemObjects CloudPlatform.

(** ** [cloudcredsv1] of the cloud-credentials operator *)

Record StatementEntry := mkStatementEntry { se_Effect : string; se_Action : list string; se_Resource : string }.
Record AWSProviderSpec := mkAWSProviderSpec { awsp_StatementEntries : list StatementEntry; awsp_STSIAMRoleARN : string }.
Record AzureProviderSpec := mkAzureProviderSpec {
  azp_RoleBindings : list string;
  azp_AzureClientID : string;
  azp_AzureTenantID : string;
  azp_AzureSubscriptionID : string;
  azp_AzureRegion : string;
}.
Record GCPProviderSpec := mkGCPProviderSpec {
  gcpp_PredefinedRoles : list string;
  gcpp_Audience : string;
  gcpp_ServiceAccountEmail : string;
}.

(** [cloudcredsv1.Codec]. *)
Class ProviderCodec : Type := {
  RawExtension : Type;
  DecodeAWS : RawExtension → msg + AWSProviderSpec;
  EncodeAWS : AWSProviderSpec → msg + RawExtension;
  DecodeAzure : RawExtension → msg + AzureProviderSpec;
  EncodeAzure : AzureProviderSpec → msg + RawExtension;
  DecodeGCP : RawExtension → msg + GCPProviderSpec;
  EncodeGCP : GCPProviderSpec → msg + RawExtension;
}.
(** What is encoded can be decoded. *)
Class ProviderCodecLaws (PC : ProviderCodec) : Prop := {
  DecodeAWS_Encode spec raw : EncodeAWS spec = inr raw → DecodeAWS raw = inr spec;
}.

Record CredentialsRequest {PC : ProviderCodec} := mkCredentialsRequest {
  cr_meta : ObjectMeta;
  cr_SecretRef : SecretReference;
  cr_ProviderSpec : RawExtension;
  cr_CloudTokenPath : string;
}.
Arguments CredentialsRequest PC : clear implicits.
#[export, refine] Instance CredentialsRequest_MetaObject {PC} : MetaObject (CredentialsRequest PC) :=
  {| meta := cr_meta; set_meta := λ m c, mkCredentialsRequest _ m (cr_SecretRef c) (cr_ProviderSpec c) (cr_CloudTokenPath c) |}.
Proof. done. Defined.
#[export, refine] Instance CredentialsRequest_KubeObject {PC} : KubeObject (CredentialsRequest PC) := {| resetStringData := id |}.
Proof. done. Defined.

(** ** [cephv1] of rook *)

Record ObjectStoreUserStatus := mkObjectStoreUserStatus { ous_Phase : string; ous_Info : option (gmap string string) }.
Record CephObjectStoreUser := mkCephObjectStoreUser {
  cu_meta : ObjectMeta;
  cu_Store : string;
  cu_Status : option ObjectStoreUserStatus;
}.
#[export, refine] Instance CephObjectStoreUser_MetaObject : MetaObject CephObjectStoreUser :=
  {| meta := cu_meta; set_meta := λ m c, mkCephObjectStoreUser m (cu_Store c) (cu_Status c) |}.
Proof. done. Defined.
#[export, refine] Instance CephObjectStoreUser_KubeObject : KubeObject CephObjectStoreUser := {| resetStringData := id |}.
Proof. done. Defined.
Record CephObjectStore := mkCephObjectStore { cos_meta : ObjectMeta }.
#[export, refine] Instance CephObjectStore_MetaObject : MetaObject CephObjectStore :=
  {| meta := cos_meta; set_meta := λ m _, mkCephObjectStore m |}.
Proof. done. Defined.
#[export, refine] Instance CephObjectStore_KubeObject : KubeObject CephObjectStore := {| resetStringData := id |}.
Proof. done. Defined.

(** The claim of the default namespace store. *)
Record NsfsPvc {QA : QuantityApi} := mkNsfsPvc {
  np_meta : ObjectMeta;
  np_AccessModes : list string;
  np_StorageClassName : option string;
  np_Requests : option (gmap string Quantity);
}.
Arguments NsfsPvc QA : clear implicits.
#[export, refine] Instance NsfsPvc_MetaObject {QA} : MetaObject (NsfsPvc QA) :=
  {| meta := np_meta; set_meta := λ m p, mkNsfsPvc _ m (np_AccessModes p) (np_StorageClassName p) (np_Requests p) |}.
Proof. done. Defined.
#[export, refine] Instance NsfsPvc_KubeObject {QA} : KubeObject (NsfsPvc QA) := {| resetStringData := id |}.
Proof. done. Defined.

(** ** The reconciler *)

(** The fields of the reconciler, and the flags of the process, that the default resources
    depend on. *)
Record Cloud {QA : QuantityApi} {PC : ProviderCodec} := mkCloud {
  cl_NooBaa : NooBaa;
  cl_JoinSecret : option Secret;
  cl_Platforms : Platforms;
  cl_IsAWSSTSCluster : bool;
  cl_IsAzureSTSCluster : bool;
  cl_IsGCPSTSCluster : bool;
  cl_AWSCloudCreds : CredentialsRequest PC;
  cl_AzureCloudCreds : CredentialsRequest PC;
  cl_GCPCloudCreds : CredentialsRequest PC;
  cl_AzureContainerCreds : Secret;
  cl_GCPBucketCreds : Secret;
  cl_IBMCosBucketCreds : Secret;
  cl_CephObjectStoreUser : CephObjectStoreUser;
  cl_DefaultBackingStore : BackingStore QA;
  cl_DefaultNsfsPvc : NsfsPvc QA;
  cl_DefaultNamespaceStore : NamespaceStore;
  cl_DefaultBucketClass : BucketClass;
  cl_OBCStorageClass : StorageClass;
}.
Arguments Cloud QA PC : clear implicits.
Arguments mkCloud {QA PC}.

Section Setters.
Context {QA : QuantityApi} {PC : ProviderCodec}.
Implicit Type r : Cloud QA PC.
Definition set_Platforms v r : Cloud QA PC :=
  mkCloud (cl_NooBaa r) (cl_JoinSecret r) v (cl_IsAWSSTSCluster r) (cl_IsAzureSTSCluster r) (cl_IsGCPSTSCluster r)
    (cl_AWSCloudCreds r) (cl_AzureCloudCreds r) (cl_GCPCloudCreds r) (cl_AzureContainerCreds r) (cl_GCPBucketCreds r)
    (cl_IBMCosBucketCreds r) (cl_CephObjectStoreUser r) (cl_DefaultBackingStore r) (cl_DefaultNsfsPvc r)
    (cl_DefaultNamespaceStore r) (cl_DefaultBucketClass r) (cl_OBCStorageClass r).
Definition set_IsAWSSTSCluster v r : Cloud QA PC :=
  mkCloud (cl_NooBaa r) (cl_JoinSecret r) (cl_Platforms r) v (cl_IsAzureSTSCluster r) (cl_IsGCPSTSCluster r)
    (cl_AWSCloudCreds r) (cl_AzureCloudCreds r) (cl_GCPCloudCreds r) (cl_AzureContainerCreds r) (cl_GCPBucketCreds r)
    (cl_IBMCosBucketCreds r) (cl_CephObjectStoreUser r) (cl_DefaultBackingStore r) (cl_DefaultNsfsPvc r)
    (cl_DefaultNamespaceStore r) (cl_DefaultBucketClass r) (cl_OBCStorageClass r).
Definition set_IsAzureSTSCluster v r : Cloud QA PC :=
  mkCloud (cl_NooBaa r) (cl_JoinSecret r) (cl_Platforms r) (cl_IsAWSSTSCluster r) v (cl_IsGCPSTSCluster r)
    (cl_AWSCloudCreds r) (cl_AzureCloudCreds r) (cl_GCPCloudCreds r) (cl_AzureContainerCreds r) (cl_GCPBucketCreds r)
    (cl_IBMCosBucketCreds r) (cl_CephObjectStoreUser r) (cl_DefaultBackingStore r) (cl_DefaultNsfsPvc r)
    (cl_DefaultNamespaceStore r) (cl_DefaultBucketClass r) (cl_OBCStorageClass r).
Definition set_IsGCPSTSCluster v r : Cloud QA PC :=
  mkCloud (cl_NooBaa r) (cl_JoinSecret r) (cl_Platforms r) (cl_IsAWSSTSCluster r) (cl_IsAzureSTSCluster r) v
    (cl_AWSCloudCreds r) (cl_AzureCloudCreds r) (cl_GCPCloudCreds r) (cl_AzureContainerCreds r) (cl_GCPBucketCreds r)
    (cl_IBMCosBucketCreds r) (cl_CephObjectStoreUser r) (cl_DefaultBackingStore r) (cl_DefaultNsfsPvc r)
    (cl_DefaultNamespaceStore r) (cl_DefaultBucketClass r) (cl_OBCStorageClass r).
Definition set_AWSCloudCreds v r : Cloud QA PC :=
  mkCloud (cl_NooBaa r) (cl_JoinSecret r) (cl_Platforms r) (cl_IsAWSSTSCluster r) (cl_IsAzureSTSCluster r)
    (cl_IsGCPSTSCluster r) v (cl_AzureCloudCreds r) (cl_GCPCloudCreds r) (cl_AzureContainerCreds r) (cl_GCPBucketCreds r)
    (cl_IBMCosBucketCreds r) (cl_CephObjectStoreUser r) (cl_DefaultBackingStore r) (cl_DefaultNsfsPvc r)
    (cl_DefaultNamespaceStore r) (cl_DefaultBucketClass r) (cl_OBCStorageClass r).
Definition set_AzureCloudCreds v r : Cloud QA PC :=
  mkCloud (cl_NooBaa r) (cl_JoinSecret r) (cl_Platforms r) (cl_IsAWSSTSCluster r) (cl_IsAzureSTSCluster r)
    (cl_IsGCPSTSCluster r) (cl_AWSCloudCreds r) v (cl_GCPCloudCreds r) (cl_AzureContainerCreds r) (cl_GCPBucketCreds r)
    (cl_IBMCosBucketCreds r) (cl_CephObjectStoreUser r) (cl_DefaultBackingStore r) (cl_DefaultNsfsPvc r)
    (cl_DefaultNamespaceStore r) (cl_DefaultBucketClass r) (cl_OBCStorageClass r).
Definition set_GCPCloudCreds v r : Cloud QA PC :=
  mkCloud (cl_NooBaa r) (cl_JoinSecret r) (cl_Platforms r) (cl_IsAWSSTSCluster r) (cl_IsAzureSTSCluster r)
    (cl_IsGCPSTSCluster r) (cl_AWSCloudCreds r) (cl_AzureCloudCreds r) v (cl_AzureContainerCreds r) (cl_GCPBucketCreds r)
    (cl_IBMCosBucketCreds r) (cl_CephObjectStoreUser r) (cl_DefaultBackingStore r) (cl_DefaultNsfsPvc r)
    (cl_DefaultNamespaceStore r) (cl_DefaultBucketClass r) (cl_OBCStorageClass r).
Definition set_AzureContainerCreds v r : Cloud QA PC :=
  mkCloud (cl_NooBaa r) (cl_JoinSecret r) (cl_Platforms r) (cl_IsAWSSTSCluster r) (cl_IsAzureSTSCluster r)
    (cl_IsGCPSTSCluster r) (cl_AWSCloudCreds r) (cl_AzureCloudCreds r) (cl_GCPCloudCreds r) v (cl_GCPBucketCreds r)
    (cl_IBMCosBucketCreds r) (cl_CephObjectStoreUser r) (cl_DefaultBackingStore r) (cl_DefaultNsfsPvc r)
    (cl_DefaultNamespaceStore r) (cl_DefaultBucketClass r) (cl_OBCStorageClass r).
Definition set_GCPBucketCreds v r : Cloud QA PC :=
  mkCloud (cl_NooBaa r) (cl_JoinSecret r) (cl_Platforms r) (cl_IsAWSSTSCluster r) (cl_IsAzureSTSCluster r)
    (cl_IsGCPSTSCluster r) (cl_AWSCloudCreds r) (cl_AzureCloudCreds r) (cl_GCPCloudCreds r) (cl_AzureContainerCreds r) v
    (cl_IBMCosBucketCreds r) (cl_CephObjectStoreUser r) (cl_DefaultBackingStore r) (cl_DefaultNsfsPvc r)
    (cl_DefaultNamespaceStore r) (cl_DefaultBucketClass r) (cl_OBCStorageClass r).
Definition set_IBMCosBucketCreds v r : Cloud QA PC :=
  mkCloud (cl_NooBaa r) (cl_JoinSecret r) (cl_Platforms r) (cl_IsAWSSTSCluster r) (cl_IsAzureSTSCluster r)
    (cl_IsGCPSTSCluster r) (cl_AWSCloudCreds r) (cl_AzureCloudCreds r) (cl_GCPCloudCreds r) (cl_AzureContainerCreds r)
    (cl_GCPBucketCreds r) v (cl_CephObjectStoreUser r) (cl_DefaultBackingStore r) (cl_DefaultNsfsPvc r)
    (cl_DefaultNamespaceStore r) (cl_DefaultBucketClass r) (cl_OBCStorageClass r).
Definition set_CephObjectStoreUser v r : Cloud QA PC :=
  mkCloud (cl_NooBaa r) (cl_JoinSecret r) (cl_Platforms r) (cl_IsAWSSTSCluster r) (cl_IsAzureSTSCluster r)
    (cl_IsGCPSTSCluster r) (cl_AWSCloudCreds r) (cl_AzureCloudCreds r) (cl_GCPCloudCreds r) (cl_AzureContainerCreds r)
    (cl_GCPBucketCreds r) (cl_IBMCosBucketCreds r) v (cl_DefaultBackingStore r) (cl_DefaultNsfsPvc r)
    (cl_DefaultNamespaceStore r) (cl_DefaultBucketClass r) (cl_OBCStorageClass r).
Definition set_DefaultBackingStore v r : Cloud QA PC :=
  mkCloud (cl_NooBaa r) (cl_JoinSecret r) (cl_Platforms r) (cl_IsAWSSTSCluster r) (cl_IsAzureSTSCluster r)
    (cl_IsGCPSTSCluster r) (cl_AWSCloudCreds r) (cl_AzureCloudCreds r) (cl_GCPCloudCreds r) (cl_AzureContainerCreds r)
    (cl_GCPBucketCreds r) (cl_IBMCosBucketCreds r) (cl_CephObjectStoreUser r) v (cl_DefaultNsfsPvc r)
    (cl_DefaultNamespaceStore r) (cl_DefaultBucketClass r) (cl_OBCStorageClass r).
Definition set_DefaultNsfsPvc v r : Cloud QA PC :=
  mkCloud (cl_NooBaa r) (cl_JoinSecret r) (cl_Platforms r) (cl_IsAWSSTSCluster r) (cl_IsAzureSTSCluster r)
    (cl_IsGCPSTSCluster r) (cl_AWSCloudCreds r) (cl_AzureCloudCreds r) (cl_GCPCloudCreds r) (cl_AzureContainerCreds r)
    (cl_GCPBucketCreds r) (cl_IBMCosBucketCreds r) (cl_CephObjectStoreUser r) (cl_DefaultBackingStore r) v
    (cl_DefaultNamespaceStore r) (cl_DefaultBucketClass r) (cl_OBCStorageClass r).
Definition set_DefaultNamespaceStore v r : Cloud QA PC :=
  mkCloud (cl_NooBaa r) (cl_JoinSecret r) (cl_Platforms r) (cl_IsAWSSTSCluster r) (cl_IsAzureSTSCluster r)
    (cl_IsGCPSTSCluster r) (cl_AWSCloudCreds r) (cl_AzureCloudCreds r) (cl_GCPCloudCreds r) (cl_AzureContainerCreds r)
    (cl_GCPBucketCreds r) (cl_IBMCosBucketCreds r) (cl_CephObjectStoreUser r) (cl_DefaultBackingStore r)
    (cl_DefaultNsfsPvc r) v (cl_DefaultBucketClass r) (cl_OBCStorageClass r).
Definition set_DefaultBucketClass v r : Cloud QA PC :=
  mkCloud (cl_NooBaa r) (cl_JoinSecret r) (cl_Platforms r) (cl_IsAWSSTSCluster r) (cl_IsAzureSTSCluster r)
    (cl_IsGCPSTSCluster r) (cl_AWSCloudCreds r) (cl_AzureCloudCreds r) (cl_GCPCloudCreds r) (cl_AzureContainerCreds r)
    (cl_GCPBucketCreds r) (cl_IBMCosBucketCreds r) (cl_CephObjectStoreUser r) (cl_DefaultBackingStore r)
    (cl_DefaultNsfsPvc r) (cl_DefaultNamespaceStore r) v (cl_OBCStorageClass r).
Definition set_OBCStorageClass v r : Cloud QA PC :=
  mkCloud (cl_NooBaa r) (cl_JoinSecret r) (cl_Platforms r) (cl_IsAWSSTSCluster r) (cl_IsAzureSTSCluster r)
    (cl_IsGCPSTSCluster r) (cl_AWSCloudCreds r) (cl_AzureCloudCreds r) (cl_GCPCloudCreds r) (cl_AzureContainerCreds r)
    (cl_GCPBucketCreds r) (cl_IBMCosBucketCreds r) (cl_CephObjectStoreUser r) (cl_DefaultBackingStore r)
    (cl_DefaultNsfsPvc r) (cl_DefaultNamespaceStore r) (cl_DefaultBucketClass r) v.
End Setters.

Definition set_bss_AWSS3 {QA} v (s : BackingStoreSpec QA) : BackingStoreSpec QA :=
  mkBackingStoreSpec QA (bss_Type s) v (bss_S3Compatible s) (bss_IBMCos s) (bss_AzureBlob s) (bss_GoogleCloudStorage s) (bss_PVPool s).
Definition set_bss_AzureBlob {QA} v (s : BackingStoreSpec QA) : BackingStoreSpec QA :=
  mkBackingStoreSpec QA (bss_Type s) (bss_AWSS3 s) (bss_S3Compatible s) (bss_IBMCos s) v (bss_GoogleCloudStorage s) (bss_PVPool s).
(** [r.DefaultBackingStore.Spec]. *)
Definition update_store {QA PC} (f : BackingStoreSpec QA → BackingStoreSpec QA) (r : Cloud QA PC) : Cloud QA PC :=
  let bs := cl_DefaultBackingStore r in set_DefaultBackingStore (mkBackingStore _ (bs_meta bs) (f (bs_Spec bs)) (bs_Status bs)) r.

Definition roleARNEnvVar : string := "ROLEARN".
Definition clientIDEnvVar : string := "CLIENTID".
Definition tenantIDEnvVar : string := "TENANTID".
Definition subscriptionIDEnvVar : string := "SUBSCRIPTIONID".
Definition resourcegroupIDEnvVar : string := "RESOURCEGROUP".
Definition azureRegionEnvVar : string := "AZUREREGION".
Definition gcpProjectNumberEnvVar : string := "PROJECT_NUMBER".
Definition gcpPoolIdEnvVar : string := "POOL_ID".
Definition gcpProviderIdEnvVar : string := "PROVIDER_ID".
Definition gcpServiceAccountEmailEnvVar : string := "SERVICE_ACCOUNT_EMAIL".

Definition validateAzureSTSParams (clientID resourcegroupID tenantID subscriptionID : string) : bool :=
  let count := (((if clientID != "" then 1 else 0) + (if resourcegroupID != "" then 1 else 0)) +
                (if tenantID != "" then 1 else 0)) + (if subscriptionID != "" then 1 else 0) in
  (count =? 0)%Z || (count =? 4)%Z.

(** The prefix of names of buckets, by the partition of the region. *)
Definition arnPrefixOf (region : error + string) : string :=
  match region with
  | inl _ => "arn:aws:s3:::"
  | inr region =>
      if (region == "us-gov-east-1") || (region == "us-gov-west-1") then "arn:aws-us-gov:s3:::"
      else if (region == "cn-north-1") || (region == "cn-northwest-1") then "arn:aws-cn:s3:::"
      else "arn:aws:s3:::"
  end.

Definition set_Resource (v : string) (e : StatementEntry) : StatementEntry := mkStatementEntry (se_Effect e) (se_Action e) v.
(** The first two statements are for the bucket, and for the objects in it. *)
Definition allowBucket (arnPrefix bucketName : string) (spec : AWSProviderSpec) : outcome AWSProviderSpec :=
  match awsp_StatementEntries spec with
  | e0 :: e1 :: rest =>
      Ret (mkAWSProviderSpec (set_Resource (arnPrefix +:+ bucketName) e0 :: set_Resource (arnPrefix +:+ bucketName +:+ "/*") e1 :: rest)
             (awsp_STSIAMRoleARN spec))
  | _ => Panic IndexOutOfRange
  end.

Section Credentials.
Context {QA : QuantityApi} {PC : ProviderCodec} {W : Type}.
Context {SN : ApiServer W Node} {SI : ApiServer W Infrastructure} {SC : ApiServer W StorageClass}.
Context {SR : ApiServer W (CredentialsRequest PC)} {SS : ApiServer W Secret}.
Context {SU : ApiServer W CephObjectStoreUser} {SO : ApiServer W CephObjectStore}.
Context (SetControllerReference : ObjectMeta → ObjectMeta → msg + ObjectMeta).
(** [os.Getenv], [arn.IsARN], [options.Namespace], the time, and the host of the management
    route. *)
Context (Getenv : string → string) (IsARN : string → bool) (Namespace : string) (now : Z) (Host : string).

Abbreviation S := (W * Cloud QA PC)%type.

(** [r.Client.Get] into an object. *)
Definition clientGet {O} `{ApiServer W O} (obj : O) : M S (option api_error * O) :=
  reads (λ w, let '(obj, err) := KubeGet w obj in Ret (err, obj)).
(** [r.Client.Create] of an object that the system owns. *)
Definition clientCreate {O} `{ApiServer W O} (obj : O) : M S O := λ '(w, r),
  let '(w, obj, err) := fill (srv_Create w obj) obj in
  Ret ((w, r), match err with Some e => inl (Errorf (api_error_msg e)) | None => inr obj end).
Definition own {O} `{MetaObject O} (obj : O) : M S O :=
  nb ← state cl_NooBaa; lift (Own SetControllerReference nb obj).
(** A question about the platform. *)
Definition ask (f : W → Platforms → Platforms * outcome bool) : M S bool := λ '(w, r),
  let '(p, b) := f w (cl_Platforms r) in b ← b; Ret ((w, set_Platforms p r), inr b).

Definition orError {A} (x : msg + A) : M S A := match x with inl m => throw (Errorf m) | inr a => mret a end.

Definition ReconcileRGWCredentials : M S () :=
  user ← state cl_CephObjectStoreUser;
  '(user, _) ← reads (λ w, KubeCheck w user);
  do! update (set_CephObjectStoreUser user) ;;
  if om_UID (cu_meta user) != "" then mret ()
  else
    '(_, found) ← reads (λ w, KubeList w (λ u : CephObjectStoreUser, om_Namespace (cu_meta u) == Namespace));
    if negb found then mret ()
    else
      '(stores, found) ← reads (λ w, KubeList w (λ s : CephObjectStore, om_Namespace (cos_meta s) == Namespace));
      if negb found then mret ()
      else match stores with
           | [] => mret ()
           | store :: _ =>
               user ← own (mkCephObjectStoreUser (cu_meta user) (om_Name (cos_meta store)) (cu_Status user));
               do! update (set_CephObjectStoreUser user) ;;
               user ← clientCreate user;
               update (set_CephObjectStoreUser user)
           end.

(** The bucket of the default backing store, with the role of a cluster that uses tokens. *)
Definition bucketSpec (bucketName : string) (roleARN : option string) : AWSS3Spec :=
  mkAWSS3Spec bucketName (mkSecretReference "" "") "" false roleARN.

Definition ReconcileAWSCredentials : M S () :=
  let roleARN := Getenv roleARNEnvVar in
  if (roleARN != "") && negb (IsARN roleARN) then throw (Errorf (Sprintf "provided role ARN is invalid: %q" [AStr roleARN]))
  else
    do! when (roleARN != "") (update (set_IsAWSSTSCluster true)) ;;
    awsRegion ← reads GetAWSRegion;
    let arnPrefix := arnPrefixOf awsRegion in
    creds ← state cl_AWSCloudCreds;
    '(err, creds) ← clientGet creds;
    do! update (set_AWSCloudCreds creds) ;;
    sts ← state cl_IsAWSSTSCluster;
    match err with
    | None =>
        awsProviderSpec ← orError (DecodeAWS (cr_ProviderSpec creds));
        match awsp_StatementEntries awsProviderSpec with
        | [] => lift (Panic IndexOutOfRange)
        | e :: _ =>
            let bucketName := TrimPrefix (se_Resource e) arnPrefix in
            update (update_store (set_bss_AWSS3 (Some (bucketSpec bucketName (if (sts : bool) then Some roleARN else None)))))
        end
    | Some err =>
        if IsNoMatchOrNotRegistered err then mret ()
        else if IsNotFound err then
          let bucketName := generateBackingStoreTargetName now Host in
          awsProviderSpec ← orError (DecodeAWS (cr_ProviderSpec creds));
          awsProviderSpec ← lift (allowBucket arnPrefix bucketName awsProviderSpec);
          let awsProviderSpec := if (sts : bool) then mkAWSProviderSpec (awsp_StatementEntries awsProviderSpec) roleARN else awsProviderSpec in
          updatedProviderSpec ← orError (EncodeAWS awsProviderSpec);
          let creds := mkCredentialsRequest PC (cr_meta creds) (cr_SecretRef creds) updatedProviderSpec
                         (if (sts : bool) then WebIdentityTokenPath else cr_CloudTokenPath creds) in
          creds ← own creds;
          do! update (set_AWSCloudCreds creds) ;;
          creds ← clientCreate creds;
          do! update (set_AWSCloudCreds creds) ;;
          update (update_store (set_bss_AWSS3 (Some (bucketSpec bucketName None))))
        else throw (Errorf (api_error_msg err))
    end.

Definition ReconcileAzureCredentials : M S () :=
  let clientID := Getenv clientIDEnvVar in
  do! when (clientID != "") (update (set_IsAzureSTSCluster true)) ;;
  let resourcegroupID := Getenv resourcegroupIDEnvVar in
  let tenantID := Getenv tenantIDEnvVar in
  let subscriptionID := Getenv subscriptionIDEnvVar in
  let azureRegion := if Getenv azureRegionEnvVar == "" then "centralus"%string else Getenv azureRegionEnvVar in
  if negb (validateAzureSTSParams clientID resourcegroupID tenantID subscriptionID) then
    throw (Errorf (Sprintf "One or more required param missing for Azure STS, clientID: %q" [AStr clientID]))
  else
    creds ← state cl_AzureCloudCreds;
    '(err, creds) ← clientGet creds;
    do! update (set_AzureCloudCreds creds) ;;
    sts ← state cl_IsAzureSTSCluster;
    match err with
    | None =>
        update (update_store (set_bss_AzureBlob (Some
          (if (sts : bool) then mkAzureBlobSpec "" (mkSecretReference "" "") (Some clientID) (Some tenantID) (Some subscriptionID) (Some resourcegroupID)
           else mkAzureBlobSpec "" (mkSecretReference "" "") None None None None))))
    | Some err =>
        if IsNoMatchOrNotRegistered err then mret ()
        else if IsNotFound err then
          azureProviderSpec ← orError (DecodeAzure (cr_ProviderSpec creds));
          let azureProviderSpec :=
            if (sts : bool) then mkAzureProviderSpec (azp_RoleBindings azureProviderSpec) clientID tenantID subscriptionID azureRegion
            else azureProviderSpec in
          updatedProviderSpec ← orError (EncodeAzure azureProviderSpec);
          creds ← own (mkCredentialsRequest PC (cr_meta creds) (cr_SecretRef creds) updatedProviderSpec
                         (if (sts : bool) then WebIdentityTokenPath else cr_CloudTokenPath creds));
          do! update (set_AzureCloudCreds creds) ;;
          creds ← clientCreate creds;
          update (set_AzureCloudCreds creds)
        else throw (Errorf (api_error_msg err))
    end.

Definition ReconcileGCPCredentials : M S () :=
  let projectNumber := Getenv gcpProjectNumberEnvVar in
  let poolId := Getenv gcpPoolIdEnvVar in
  let providerId := Getenv gcpProviderIdEnvVar in
  let serviceAccountEmail := Getenv gcpServiceAccountEmailEnvVar in
  do! (if (projectNumber != "") || (poolId != "") || (providerId != "") || (serviceAccountEmail != "") then
         err ← lift (ValidateGCPWIFParams projectNumber poolId providerId serviceAccountEmail);
         match err with
         | Some e => throw (Errorf (Sprintf "invalid GCP WIF (STS) parameters: %w" [AMsg (Error e)]))
         | None => update (set_IsGCPSTSCluster true)
         end
       else mret ()) ;;
  creds ← state cl_GCPCloudCreds;
  '(err, creds) ← clientGet creds;
  do! update (set_GCPCloudCreds creds) ;;
  sts ← state cl_IsGCPSTSCluster;
  match err with
  | None => mret ()
  | Some err =>
      if IsNoMatchOrNotRegistered err then mret ()
      else if IsNotFound err then
        creds ← (if (sts : bool) then
                   gcpProviderSpec ← orError (DecodeGCP (cr_ProviderSpec creds));
                   updatedProviderSpec ← orError (EncodeGCP (mkGCPProviderSpec (gcpp_PredefinedRoles gcpProviderSpec)
                     (GoogleWIFAudience projectNumber poolId providerId) serviceAccountEmail));
                   mret (mkCredentialsRequest PC (cr_meta creds) (cr_SecretRef creds) updatedProviderSpec WebIdentityTokenPath)
                 else mret creds);
        creds ← own creds;
        do! update (set_GCPCloudCreds creds) ;;
        creds ← clientCreate creds;
        update (set_GCPCloudCreds creds)
      else throw (Errorf (api_error_msg err))
  end.

Definition ReconcileIBMCredentials : M S () :=
  creds ← state cl_IBMCosBucketCreds;
  '(creds, _) ← reads (λ w, KubeCheck w creds);
  update (set_IBMCosBucketCreds creds).

Definition ReconcileBackingStoreCredentials : M S () :=
  r ← state id;
  if negb (isNil (cl_JoinSecret r)) then mret ()
  else if nbs_ManualDefaultBackingStore (nb_Spec (cl_NooBaa r)) then mret ()
  else
    aws ← ask IsAWSPlatform;
    if (aws : bool) then ReconcileAWSCredentials else
    azure ← ask IsAzurePlatformNonGovernment;
    if (azure : bool) then ReconcileAzureCredentials else
    gcp ← ask IsGCPPlatform;
    if (gcp : bool) then ReconcileGCPCredentials else
    ibm ← ask IsIBMPlatform;
    if (ibm : bool) then ReconcileIBMCredentials else
    ReconcileRGWCredentials.
End Credentials.

(** ** Facts *)

Section Facts.
Context {QA : QuantityApi} {PC : ProviderCodec} {PL : ProviderCodecLaws PC} {W P : Type}.
Context {SN : ApiServer W Node} {SI : ApiServer W Infrastructure} {SC : ApiServer W StorageClass}.
Context {SR : ApiServer W (CredentialsRequest PC)} {AL : ApiLaws W (CredentialsRequest PC) P} {SS : ApiServer W Secret}.
(** The server stores the specification of a request. *)
Context (payload_ProviderSpec : ∀ a b : CredentialsRequest PC, payload a = payload b → cr_ProviderSpec a = cr_ProviderSpec b).
Context (SetControllerReference : ObjectMeta → ObjectMeta → msg + ObjectMeta).
Implicit Types (w : W) (r : Cloud QA PC).

(** The bucket of the default backing store. *)
Definition targetBucket r : option string := aws_TargetBucket <$> bss_AWSS3 (bs_Spec (cl_DefaultBackingStore r)).

Lemma clientGet_found {O} `{ApiServer W O} (obj o : O) w r :
  srv_Get w (ObjectKey obj) = inr o → clientGet obj (w, r) = Ret ((w, r), inr (None, o)).
Proof. unfold clientGet, KubeGet, reads. by intros ->. Qed.
Lemma clientGet_missing {O} `{ApiServer W O} (obj : O) e w r :
  srv_Get w (ObjectKey obj) = inl e → clientGet obj (w, r) = Ret ((w, r), inr (Some e, obj)).
Proof. unfold clientGet, KubeGet, reads. by intros ->. Qed.

Lemma clientCreate_ok {O} `{ApiServer W O} (obj obj' : O) w r s' :
  clientCreate obj (w, r) = Ret (s', inr obj') → ∃ w', s' = (w', r) ∧ srv_Create w obj = (w', inr obj').
Proof.
  unfold clientCreate, fill. destruct (srv_Create w obj) as [w' [e|o]]; [done|]. intros [= <- <-]. eauto.
Qed.

Lemma own_ok {O} `{MetaObject O} (obj obj' : O) w r s' :
  own SetControllerReference obj (w, r) = Ret (s', inr obj') → s' = (w, r) ∧ ∃ m, obj' = set_meta m obj.
Proof.
  unfold own. intros Hrun. erewrite M_bind_run in Hrun by reflexivity. apply lift_ok in Hrun as [<- Hown]. split; [done|].
  unfold Own in Hown. destruct (SetControllerReference _ _) as [m|m]; [done|]. injection Hown as <-. eauto.
Qed.

Lemma orError_ok {A} (x : msg + A) w r s' a : orError (W:=W) x (w, r) = Ret (s', inr a) → s' = (w, r) ∧ x = inr a.
Proof. destruct x; [done|]. by intros [= <- <-]. Qed.

(** A request that is there: its first statement names the bucket, and nothing is written. *)
Lemma ReconcileAWSCredentials_found Getenv IsARN now Host w r w' r' creds :
  srv_Get w (ObjectKey (cl_AWSCloudCreds r)) = inr creds →
  ReconcileAWSCredentials SetControllerReference Getenv IsARN now Host (w, r) = Ret ((w', r'), inr ()) →
  w' = w ∧ cl_AWSCloudCreds r' = creds ∧ ∃ region spec e rest, GetAWSRegion w = Ret region ∧
    DecodeAWS (cr_ProviderSpec creds) = inr spec ∧ awsp_StatementEntries spec = e :: rest ∧
    targetBucket r' = Some (TrimPrefix (se_Resource e) (arnPrefixOf region)).
Proof.
  intros Hget H. unfold ReconcileAWSCredentials in H. cbv zeta in H.
  destruct (_ && _); [done|]. apply M_bind_ok in H as ([w1 r1] & [] & Hw & H).
  assert (w1 = w ∧ cl_AWSCloudCreds r1 = cl_AWSCloudCreds r) as [-> Hc].
  { destruct (_ != _); injection Hw as <- <-; done. }
  apply M_bind_ok in H as ([w2 r2] & region & Hr & H). apply reads_ok in Hr as [[= -> ->] Hr].
  erewrite M_bind_run in H by reflexivity. cbn [snd] in H. rewrite Hc in H.
  erewrite M_bind_run in H by (apply clientGet_found; exact Hget). cbv beta iota in H.
  do 2 (erewrite M_bind_run in H by reflexivity). cbv beta iota in H.
  apply M_bind_ok in H as ([w3 r3] & spec & Hd & H). apply orError_ok in Hd as [[= -> ->] Hd].
  destruct (awsp_StatementEntries spec) as [|e rest] eqn:He; [done|]. injection H as <- <-. split_and!; [done|done|].
  by exists region, spec, e, rest.
Qed.

(** A request that is made: it is for a bucket with a new name, which the store gets. *)
Lemma ReconcileAWSCredentials_created Getenv IsARN now Host w r w' r' e :
  srv_Get w (ObjectKey (cl_AWSCloudCreds r)) = inl e → IsNoMatchOrNotRegistered e = false → IsNotFound e = true →
  ReconcileAWSCredentials SetControllerReference Getenv IsARN now Host (w, r) = Ret ((w', r'), inr ()) →
  targetBucket r' = Some (generateBackingStoreTargetName now Host) ∧
  srv_Get w' (ObjectKey (cl_AWSCloudCreds r')) = inr (cl_AWSCloudCreds r') ∧
  ∃ region spec e0 rest, GetAWSRegion w = Ret region ∧
    DecodeAWS (cr_ProviderSpec (cl_AWSCloudCreds r')) = inr spec ∧ awsp_StatementEntries spec = e0 :: rest ∧
    se_Resource e0 = arnPrefixOf region +:+ generateBackingStoreTargetName now Host.
Proof.
  intros Hget Hnm Hnf H. unfold ReconcileAWSCredentials in H. cbv zeta in H.
  destruct (_ && _); [done|]. apply M_bind_ok in H as ([w1 r1] & [] & Hw & H).
  assert (w1 = w ∧ cl_AWSCloudCreds r1 = cl_AWSCloudCreds r) as [-> Hc].
  { destruct (_ != _); injection Hw as <- <-; done. }
  apply M_bind_ok in H as ([w2 r2] & region & Hr & H). apply reads_ok in Hr as [[= -> ->] Hr].
  erewrite M_bind_run in H by reflexivity. cbn [snd] in H. rewrite Hc in H.
  erewrite M_bind_run in H by (apply clientGet_missing; exact Hget). cbv beta iota in H.
  do 2 (erewrite M_bind_run in H by reflexivity). cbv beta iota in H. rewrite Hnm, Hnf in H.
  set (r2 := (w, set_AWSCloudCreds (cl_AWSCloudCreds r) r1).2) in H.
  apply M_bind_ok in H as ([w3 r3] & spec & Hd & H). apply orError_ok in Hd as [[= -> ->] Hd].
  apply M_bind_ok in H as ([w4 r4] & spec' & Ha & H). apply lift_ok in Ha as [[= <- <-] Ha].
  apply M_bind_ok in H as ([w5 r5] & raw & He & H). apply orError_ok in He as [[= -> ->] He].
  apply M_bind_ok in H as ([w6 r6] & owned & Ho & H). apply own_ok in Ho as [[= -> ->] [m ->]].
  erewrite M_bind_run in H by reflexivity.
  apply M_bind_ok in H as ([w7 r7] & created & Hcr & H). apply clientCreate_ok in Hcr as (w8 & [= -> ->] & Hcr).
  erewrite M_bind_run in H by reflexivity. injection H as <- <-. cbn [cl_AWSCloudCreds update_store set_DefaultBackingStore set_AWSCloudCreds].
  destruct (Create_ok _ _ _ _ Hcr) as (Hk & Hp & Hg & _). rewrite <-Hk in Hg. split_and!; [done|exact Hg|].
  apply payload_ProviderSpec in Hp. rewrite Hp. cbn [cr_ProviderSpec set_meta CredentialsRequest_MetaObject ko_meta CredentialsRequest_KubeObject].
  apply DecodeAWS_Encode in He. unfold allowBucket in Ha.
  destruct (awsp_StatementEntries spec) as [|e0 [|e1 rest]]; [done|done|]. injection Ha as <-.
  destruct (cl_IsAWSSTSCluster _) in He |- *; eexists region, _, _, _; (split; [exact Hr|]; split; [exact He|]; by split).
Qed.

(** The prefixes of the partitions; none starts another. *)
Lemma arnPrefixOf_cases region : arnPrefixOf region ∈ ["arn:aws:s3:::"; "arn:aws-us-gov:s3:::"; "arn:aws-cn:s3:::"]%string.
Proof. unfold arnPrefixOf. destruct region; [set_solver|]. repeat case_match; set_solver. Qed.
Lemma TrimPrefix_arn region region' bucket :
  TrimPrefix (arnPrefixOf region +:+ bucket) (arnPrefixOf region') =
  if arnPrefixOf region == arnPrefixOf region' then bucket else arnPrefixOf region +:+ bucket.
Proof.
  case_bool_decide as Heq; [rewrite Heq; apply TrimPrefix_app|]. revert Heq.
  pose proof (arnPrefixOf_cases region) as H1. pose proof (arnPrefixOf_cases region') as H2.
  generalize dependent (arnPrefixOf region). generalize dependent (arnPrefixOf region'). intros p' H2 p H1 Hne.
  repeat match goal with H : _ ∈ _ :: _ |- _ => apply elem_of_cons in H as [->|H] | H : _ ∈ [] |- _ => by apply elem_of_nil in H end;
    done || reflexivity.
Qed.

(** C21: The bucket that a request was made for is the bucket that a later reconcile reads
    back from the request, whenever it runs, when the region that it finds is in the same
    partition; in another one, such as after a failed lookup in a region of the government or
    of China, it takes the whole resource name for the bucket.  In both cases no bucket is
    made up again, and the cluster is left alone. *)
Theorem ReconcileAWSCredentials_roundtrip Getenv IsARN now Host w r w1 r1 e Getenv' now' Host' w2 r2 w3 r3 :
  srv_Get w (ObjectKey (cl_AWSCloudCreds r)) = inl e → IsNoMatchOrNotRegistered e = false → IsNotFound e = true →
  ReconcileAWSCredentials SetControllerReference Getenv IsARN now Host (w, r) = Ret ((w1, r1), inr ()) →
  srv_Get w2 (ObjectKey (cl_AWSCloudCreds r2)) = srv_Get w1 (ObjectKey (cl_AWSCloudCreds r1)) →
  ReconcileAWSCredentials SetControllerReference Getenv' IsARN now' Host' (w2, r2) = Ret ((w3, r3), inr ()) →
  let bucket := generateBackingStoreTargetName now Host in
  targetBucket r1 = Some bucket ∧ w3 = w2 ∧
  ∃ region region', GetAWSRegion w = Ret region ∧ GetAWSRegion w2 = Ret region' ∧
    targetBucket r3 = Some (if arnPrefixOf region == arnPrefixOf region' then bucket else arnPrefixOf region +:+ bucket).
Proof.
  intros Hget Hnm Hnf H1 Hsame H2.
  destruct (ReconcileAWSCredentials_created _ _ _ _ _ _ _ _ _ Hget Hnm Hnf H1) as (Ht & Hst & region & spec & e0 & rest & Hr & Hd & He & Hres).
  rewrite Hst in Hsame.
  destruct (ReconcileAWSCredentials_found _ _ _ _ _ _ _ _ _ Hsame H2) as (-> & _ & region' & spec' & e0' & rest' & Hr' & Hd' & He' & Ht').
  rewrite Hd in Hd'. injection Hd' as <-. rewrite He in He'. injection He' as <- <-.
  split; [done|]. split; [done|]. exists region, region'. split; [done|]. split; [done|]. by rewrite Ht', Hres, TrimPrefix_arn.
Qed.
End Facts.
