(* ===== verification/CoreHa.v ===== *)
(** * High availability of the core: [pkg/system/phase2_creating.go].

    With high availability the core runs as two pods that elect a leader.  They should be
    on different nodes, their configuration is a config map with a hash, and pods that run
    an outdated configuration or revision are deleted one at a time, standbys first. *)

From Stdlib Require Import Strings.String.
From stdpp Require Import sorting.
From S2P Require Import Prelude Effects GoStrings Types Kube Util GoTime SystemServices SystemObjects LeaderElect.

Definition CoreHAReplicaCount : Z := 2.
Definition coreConfigMapHashAnnotation : string := "noobaa.io/configmap-hash".
Definition LabelHostname : string := "kubernetes.io/hostname".
Definition ControllerRevisionHashLabelKey : string := "controller-revision-hash".

Definition isCoreHAEnabled (nooBaa : NooBaa) : bool := negb (nbs_DisableCoreHA (nb_Spec nooBaa)).
Definition getDesiredCoreReplicas (nooBaa : NooBaa) : Z := if isCoreHAEnabled nooBaa then CoreHAReplicaCount else 1.

(** ** Affinity *)

(** [corev1.Affinity]. *)
Record Affinity := mkAffinity {
  af_NodeAffinity : option string;
  af_PodAffinity : option string;
  af_PodAntiAffinity : option PodAntiAffinity;
}.

Definition GetAffinity (nooBaa : NooBaa) : option Affinity :=
  (λ a, mkAffinity (afs_NodeAffinity a) (afs_PodAffinity a) (afs_PodAntiAffinity a)) <$> nbs_Affinity (nb_Spec nooBaa).

(** [maps.Equal]: a nil map is an empty one. *)
Definition mapsEqual (a : option (gmap string string)) (b : gmap string string) : bool := default ∅ a == b.

Definition hasEquivalentPreferredAntiAffinity (terms : list WeightedPodAffinityTerm) (matchLabels : gmap string string)
    (topologyKey : string) : bool :=
  existsb (λ t,
    let term := wpat_PodAffinityTerm t in
    (pat_TopologyKey term == topologyKey) &&
    match pat_LabelSelector term with
    | None => false
    | Some selector => (length (ls_MatchExpressions selector) =? 0)%nat && mapsEqual (ls_MatchLabels selector) matchLabels
    end) terms.

Definition antiAffinityTerm (matchLabels : gmap string string) (topologyKey : string) : WeightedPodAffinityTerm :=
  mkWeightedPodAffinityTerm 100 (mkPodAffinityTerm (Some (mkLabelSelector (Some matchLabels) [])) topologyKey).

Definition ensurePreferredAntiAffinity (matchLabels : gmap string string) (topologyKey : string) (aff : Affinity) : Affinity :=
  let anti := default (mkPodAntiAffinity [] []) (af_PodAntiAffinity aff) in
  let anti := if hasEquivalentPreferredAntiAffinity (paa_Preferred anti) matchLabels topologyKey then anti
              else mkPodAntiAffinity (paa_Required anti) (paa_Preferred anti ++ [antiAffinityTerm matchLabels topologyKey]) in
  mkAffinity (af_NodeAffinity aff) (af_PodAffinity aff) (Some anti).

(** The copy of the affinity of the specification is what is extended. *)
Definition desiredCoreAffinity (RequestName : string) (nooBaa : NooBaa) : option Affinity :=
  let base := GetAffinity nooBaa in
  if negb (isCoreHAEnabled nooBaa) then base
  else
    let base := default (mkAffinity None None None) base in
    let topologyKey := match nbs_Affinity (nb_Spec nooBaa) with Some a => afs_TopologyKey a | None => "" end in
    let peerLabels : gmap string string := {["noobaa-core"%string := RequestName]} in
    let base := ensurePreferredAntiAffinity peerLabels LabelHostname base in
    Some (if (topologyKey != "") && (topologyKey != LabelHostname) then ensurePreferredAntiAffinity peerLabels topologyKey base
          else base).

(** ** Configuration *)

Record ConfigMap := mkConfigMap { cm_meta : ObjectMeta; cm_Data : option (gmap string string) }.

Definition DefaultConfigMapData : gmap string string := list_to_map
  [("NOOBAA_DISABLE_COMPRESSION", "false"); ("DISABLE_DEV_RANDOM_SEED", "true"); ("NOOBAA_LOG_LEVEL", "default_level");
   ("NOOBAA_LOG_COLOR", "true"); ("NOOBAA_METRICS_AUTH_ENABLED", "true"); ("NOOBAA_VERSION_AUTH_ENABLED", "true");
   ("ENDPOINT_SYSTEM_STORE_SOURCE", "core"); ("OPERATOR_LOG_LEVEL", "info"); ("NOOBAA_CORE_LEASE_DURATION", "20s");
   ("NOOBAA_CORE_RENEW_DEADLINE", "10s"); ("NOOBAA_CORE_RETRY_PERIOD", "3s"); ("NOOBAA_CORE_SHUTDOWN_GRACE", "25s");
   ("NOOBAA_CORE_LOST_GRACE", "8s")]%string.

Section ConfigHash.
(** [hex.EncodeToString] of [sha256.Sum256]. *)
Context (sha256Hex : string → string).

(** The bytes that are hashed: the entries in the order of their keys. *)
Definition cmText (input : gmap string string) : string :=
  String.concat "" ((λ k : string, k +:+ "=" +:+ String (Ascii.ascii_of_nat 34) (default ""%string (input !! k)) +:+
                                   String (Ascii.ascii_of_nat 34) (String (Ascii.ascii_of_nat 10) ""))
                      <$> merge_sort (λ a b, Is_true (String.leb a b)) (map_to_list input).*1).
Definition GetCmDataHash (input : gmap string string) : string := sha256Hex (cmText input).

(** Without the owner reference, which is set again.  A nil map is written to. *)
Definition SetDesiredCoreAppConfig (c : ConfigMap) : outcome ConfigMap :=
  data ← match cm_Data c with Some m => Ret (m ∪ DefaultConfigMapData) | None => Panic NilMapWrite end;
  let coreData := filter (λ kv, kv.1 ≠ "OPERATOR_LOG_LEVEL"%string) data in
  let annotations := <[coreConfigMapHashAnnotation := GetCmDataHash coreData]> (default ∅ (om_Annotations (cm_meta c))) in
  Ret (mkConfigMap (set_om_Annotations (Some annotations) (cm_meta c)) (Some data)).
End ConfigHash.

Definition coreTerminationGracePeriodSeconds (c : ConfigMap) : Z :=
  let raw := TrimSpace (map_get (cm_Data c) "NOOBAA_CORE_SHUTDOWN_GRACE") in
  let shutdownGrace := if raw == "" then 0%Z
                       else match ParseDuration raw with Some d => if (0 <? d)%Z then d else 0%Z | None => 0%Z end in
  RecommendedTerminationGracePeriod shutdownGrace.

(** The labels of the lease of the leader. *)
Definition SetDesiredCoreLease (RequestName : string) (lease : ObjectMeta) : ObjectMeta :=
  set_om_Labels (Some (<["noobaa-core-lease"%string := RequestName]> (<["app"%string := "noobaa"%string]> (default ∅ (om_Labels lease))))) lease.

(** ** Outdated pods *)

Definition isCorePodStale (pod : RunningPod) (desiredHash updateRevision : string) : bool :=
  let podHash := map_get (om_Annotations (rp_meta pod)) coreConfigMapHashAnnotation in
  if (desiredHash != "") && (podHash != "") && (podHash != desiredHash) then true
  else if (updateRevision == "") || isNil (om_Labels (rp_meta pod)) then false
  else
    let podRevision := map_get (om_Labels (rp_meta pod)) ControllerRevisionHashLabelKey in
    (podRevision != "") && (podRevision != updateRevision).

(** The loop: the first outdated standby and the first outdated leader, unless a pod is
    being deleted. *)
Fixpoint stalePods (pods : list RunningPod) (desiredHash updateRevision : string) (standby leader : option RunningPod) :
    option (option RunningPod * option RunningPod) :=
  match pods with
  | [] => Some (standby, leader)
  | pod :: rest =>
      if negb (isNil (om_DeletionTimestamp (rp_meta pod))) then None
      else if negb (isCorePodStale pod desiredHash updateRevision) then stalePods rest desiredHash updateRevision standby leader
      else if isPodReady pod then
        stalePods rest desiredHash updateRevision standby (if isNil leader then Some pod else leader)
      else stalePods rest desiredHash updateRevision (if isNil standby then Some pod else standby) leader
  end.

Definition pickStaleCorePodToDelete (pods : list RunningPod) (desiredHash updateRevision : string) : option RunningPod :=
  match stalePods pods desiredHash updateRevision None None with
  | None => None
  | Some (Some standby, _) => Some standby
  | Some (None, leader) => leader
  end.

Section Restart.
Context {W : Type} {SST : ApiServer W StatefulSet} {SPD : ApiServer W RunningPod}.
Context (RequestName RequestNamespace : string).

Definition restartStaleCorePods (w : W) (coreApp : StatefulSet) : outcome (W * StatefulSet * option error) :=
  if om_UID (ss_meta coreApp) == "" then Ret (w, coreApp, None)
  else
    '(coreApp, found) ← KubeCheckQuiet w coreApp;
    if negb found then Ret (w, coreApp, None)
    else
      let desiredHash := map_get (ss_TemplateAnnotations coreApp) coreConfigMapHashAnnotation in
      '(pods, listed) ← KubeList w (selectPods RequestNamespace {["noobaa-core"%string := RequestName]});
      if negb listed then Ret (w, coreApp, Some (Errorf (Lit "failed listing core pods to restart stale revisions")))
      else match pickStaleCorePodToDelete pods desiredHash (ss_UpdateRevision coreApp) with
           | None => Ret (w, coreApp, None)
           | Some pod => '(w, _) ← KubeDeleteNoPolling w pod; Ret (w, coreApp, None)
           end.
End Restart.

(** ** Facts *)

(** *** Spreading *)

Lemma hasEquivalent_app terms labels key :
  hasEquivalentPreferredAntiAffinity (terms ++ [antiAffinityTerm labels key]) labels key = true.
Proof.
  unfold hasEquivalentPreferredAntiAffinity. rewrite existsb_app. apply orb_true_iff. right. cbn.
  unfold mapsEqual. cbn. by rewrite !bool_decide_eq_true_2.
Qed.

(** The preferred terms of an affinity. *)
Definition preferred (aff : Affinity) : list WeightedPodAffinityTerm :=
  match af_PodAntiAffinity aff with Some anti => paa_Preferred anti | None => [] end.

Lemma ensurePreferredAntiAffinity_spec labels key aff :
  let aff' := ensurePreferredAntiAffinity labels key aff in
  hasEquivalentPreferredAntiAffinity (preferred aff') labels key = true ∧
  (∃ added, preferred aff' = preferred aff ++ added ∧ (length added ≤ 1)%nat ∧
     (hasEquivalentPreferredAntiAffinity (preferred aff) labels key = true → added = [])) ∧
  af_NodeAffinity aff' = af_NodeAffinity aff ∧ af_PodAffinity aff' = af_PodAffinity aff.
Proof.
  cbv zeta. unfold ensurePreferredAntiAffinity, preferred. cbn [af_PodAntiAffinity].
  set (anti := default (mkPodAntiAffinity [] []) (af_PodAntiAffinity aff)).
  assert (match af_PodAntiAffinity aff with Some a => paa_Preferred a | None => [] end = paa_Preferred anti) as ->
    by (unfold anti; by destruct (af_PodAntiAffinity aff)).
  destruct (hasEquivalentPreferredAntiAffinity (paa_Preferred anti) labels key) eqn:Hhas.
  - split; [done|]. split; [|done]. exists []. rewrite app_nil_r. split_and!; [done|cbn; lia|done].
  - split; [apply hasEquivalent_app|]. split; [|done]. eexists. split_and!; [reflexivity|cbn; lia|done].
Qed.

Lemma hasEquivalent_prefix terms added labels key :
  hasEquivalentPreferredAntiAffinity terms labels key = true → hasEquivalentPreferredAntiAffinity (terms ++ added) labels key = true.
Proof. unfold hasEquivalentPreferredAntiAffinity. rewrite existsb_app. by intros ->. Qed.

(** With high availability the core pods prefer different nodes, and different zones when
    the system names a topology; what the user asked for stays in front, and at most two
    terms are added. *)
Theorem desiredCoreAffinity_spreads RequestName nb :
  isCoreHAEnabled nb = true →
  let labels : gmap string string := {["noobaa-core"%string := RequestName]} in
  let asked := default (mkAffinity None None None) (GetAffinity nb) in
  ∃ aff added, desiredCoreAffinity RequestName nb = Some aff ∧
    hasEquivalentPreferredAntiAffinity (preferred aff) labels LabelHostname = true ∧
    (∀ spec, nbs_Affinity (nb_Spec nb) = Some spec → afs_TopologyKey spec ≠ ""%string →
       hasEquivalentPreferredAntiAffinity (preferred aff) labels (afs_TopologyKey spec) = true) ∧
    preferred aff = preferred asked ++ added ∧ (length added ≤ 2)%nat ∧
    af_NodeAffinity aff = af_NodeAffinity asked ∧ af_PodAffinity aff = af_PodAffinity asked.
Proof.
  intros Hha. cbv zeta. unfold desiredCoreAffinity. rewrite Hha. cbn [negb].
  set (labels := {["noobaa-core"%string := RequestName]}). set (asked := default _ _).
  destruct (ensurePreferredAntiAffinity_spec labels LabelHostname asked) as (Hhost & (added & Hadd & Hlen & _) & Hn & Hp).
  set (aff1 := ensurePreferredAntiAffinity labels LabelHostname asked) in *.
  set (key := match nbs_Affinity (nb_Spec nb) with Some a => afs_TopologyKey a | None => "" end).
  destruct ((key != "") && (key != LabelHostname)) eqn:Hkey.
  - destruct (ensurePreferredAntiAffinity_spec labels key aff1) as (Hk & (added' & Hadd' & Hlen' & _) & Hn' & Hp').
    eexists _, (added ++ added'). split; [reflexivity|]. split; [rewrite Hadd'; by apply hasEquivalent_prefix|]. split.
    { intros spec Hs _. assert (afs_TopologyKey spec = key) as -> by (unfold key; by rewrite Hs). exact Hk. }
    split; [by rewrite Hadd', Hadd, (assoc_L (++))|]. rewrite length_app. split; [lia|]. split; congruence.
  - eexists aff1, added. split; [reflexivity|]. split_and!; try done; [|lia].
    intros spec Hs Hne. unfold key in Hkey. rewrite Hs in Hkey.
    rewrite bool_decide_eq_false_2 in Hkey by done. cbn in Hkey. apply negb_false_iff, bool_decide_eq_true in Hkey. by rewrite Hkey.
Qed.

(** *** The configuration *)

(** The log level of the operator is not part of the hash, and settings of the user stay. *)
Theorem SetDesiredCoreAppConfig_log_level sha c c' level :
  SetDesiredCoreAppConfig sha c = Ret c' →
  (∀ k v, default ∅ (cm_Data c) !! k = Some v → default ∅ (cm_Data c') !! k = Some v) ∧
  (∀ k, is_Some (DefaultConfigMapData !! k) → is_Some (default ∅ (cm_Data c') !! k)) ∧
  ∃ c'', SetDesiredCoreAppConfig sha (mkConfigMap (cm_meta c) ((<["OPERATOR_LOG_LEVEL"%string := level]>) <$> cm_Data c)) = Ret c'' ∧
    map_get (om_Annotations (cm_meta c'')) coreConfigMapHashAnnotation = map_get (om_Annotations (cm_meta c')) coreConfigMapHashAnnotation.
Proof.
  unfold SetDesiredCoreAppConfig. destruct (cm_Data c) as [m|] eqn:Hm; cbn; [|done]. intros [= <-]. cbn [cm_Data from_option id]. split_and!.
  - intros k v Hk. by apply lookup_union_Some_l.
  - intros k [v Hv]. destruct (m !! k) as [v'|] eqn:Hk; [exists v'; by apply lookup_union_Some_l|].
    exists v. by rewrite lookup_union_r.
  - eexists. split; [reflexivity|]. unfold map_get. cbn [cm_meta om_Annotations set_om_Annotations from_option id mbind option_bind].
    rewrite !lookup_insert_eq. cbn [from_option id]. unfold GetCmDataHash. do 2 f_equal.
    rewrite <-insert_union_l, map_filter_insert_False by (cbn; tauto). rewrite map_filter_delete.
    apply delete_id, map_lookup_filter_None_2. right. intros x _. cbn. tauto.
Qed.

(** *** Outdated pods *)

Lemma stalePods_spec pods h rev standby leader :
  match stalePods pods h rev standby leader with
  | None => ∃ p, p ∈ pods ∧ om_DeletionTimestamp (rp_meta p) ≠ None
  | Some (s, l) => (∀ p, p ∈ pods → om_DeletionTimestamp (rp_meta p) = None) ∧
      s = match standby with Some x => Some x | None => List.find (λ p, isCorePodStale p h rev && negb (isPodReady p)) pods end ∧
      l = match leader with Some x => Some x | None => List.find (λ p, isCorePodStale p h rev && isPodReady p) pods end
  end.
Proof.
  revert standby leader. induction pods as [|p pods IH]; intros standby leader; cbn [stalePods List.find].
  { split; [by intros p ?%elem_of_nil|]. by destruct standby, leader. }
  destruct (om_DeletionTimestamp (rp_meta p)) as [ts|] eqn:Hts; cbn [isNil negb].
  { exists p. split; [apply list_elem_of_here|congruence]. }
  assert (∀ s l, match stalePods pods h rev s l with
    | None => ∃ x, x ∈ p :: pods ∧ om_DeletionTimestamp (rp_meta x) ≠ None
    | Some (s', l') => (∀ x, x ∈ p :: pods → om_DeletionTimestamp (rp_meta x) = None) ∧
        s' = match s with Some x => Some x | None => List.find (λ p, isCorePodStale p h rev && negb (isPodReady p)) pods end ∧
        l' = match l with Some x => Some x | None => List.find (λ p, isCorePodStale p h rev && isPodReady p) pods end end) as Hrest.
  { intros s l. specialize (IH s l). destruct (stalePods pods h rev s l) as [[s' l']|].
    - destruct IH as (Hall & -> & ->). split; [|done]. intros x [->|Hx]%elem_of_cons; [done|by apply Hall].
    - destruct IH as (x & Hx & Hd). exists x. split; [by right|done]. }
  destruct (isCorePodStale p h rev) eqn:Hst; cbn [negb andb]; [destruct (isPodReady p) eqn:Hr; cbn [negb]|].
  - specialize (Hrest standby (if isNil leader then Some p else leader)). by destruct leader.
  - specialize (Hrest (if isNil standby then Some p else standby) leader). by destruct standby.
  - apply Hrest.
Qed.

Lemma find_elem {A} (f : A → bool) l x : List.find f l = Some x → x ∈ l ∧ f x = true.
Proof. intros H. apply List.find_some in H as [Hin Hf]. by apply list_elem_of_In in Hin. Qed.

(** Whom the choice falls on: an outdated pod while no pod is being deleted, and a leader
    only when no standby is outdated; it falls on none only when a pod is being deleted or
    none is outdated. *)
Lemma pickStaleCorePodToDelete_spec pods h rev :
  match pickStaleCorePodToDelete pods h rev with
  | Some p => p ∈ pods ∧ isCorePodStale p h rev = true ∧ (∀ x, x ∈ pods → om_DeletionTimestamp (rp_meta x) = None) ∧
      (isPodReady p = true → ∀ x, x ∈ pods → isCorePodStale x h rev = true → isPodReady x = true)
  | None => (∃ x, x ∈ pods ∧ om_DeletionTimestamp (rp_meta x) ≠ None) ∨ ∀ x, x ∈ pods → isCorePodStale x h rev = false
  end.
Proof.
  unfold pickStaleCorePodToDelete. pose proof (stalePods_spec pods h rev None None) as Hs.
  destruct (stalePods pods h rev None None) as [[s l]|]; [|by left]. destruct Hs as (Hdel & Hstand & Hlead). cbv beta iota in Hstand, Hlead.
  assert (∀ f, List.find f pods = None → ∀ x, x ∈ pods → f x = false) as Hnone.
  { intros f Hf x Hx. eapply List.find_none; [exact Hf|]. by apply list_elem_of_In. }
  destruct s as [p|].
  { apply symmetry, find_elem in Hstand as [Hin [Hst Hr]%andb_true_iff]. split_and!; [done..|]. intros Hr'. by rewrite Hr' in Hr. }
  apply symmetry in Hstand. pose proof (Hnone _ Hstand) as Hn. cbn in Hn.
  destruct l as [p|].
  { apply symmetry, find_elem in Hlead as [Hin [Hst Hr]%andb_true_iff]. split_and!; [done..|]. intros _ x Hx Hxs.
    specialize (Hn x Hx). rewrite Hxs in Hn. by destruct (isPodReady x). }
  right. intros x Hx. apply symmetry in Hlead. pose proof (Hnone _ Hlead x Hx) as Hl. cbn in Hl. specialize (Hn x Hx).
  destruct (isCorePodStale x h rev), (isPodReady x); done.
Qed.

Section RestartFacts.
Context {W : Type} {SST : ApiServer W StatefulSet} {SPD : ApiServer W RunningPod}.
Context (RequestName RequestNamespace : string).

(** C19: A round of restarts asks for the deletion of at most one pod: an outdated one, while no
    pod is being deleted, and the leader only when no standby is outdated.  When none is
    asked for although the pods could be listed, one is being deleted or all are up to
    date. *)
Theorem restartStaleCorePods_one w coreApp sts pods w' coreApp' err :
  om_UID (ss_meta coreApp) ≠ ""%string → srv_Get w (ObjectKey coreApp) = inr sts →
  srv_List w (selectPods RequestNamespace {["noobaa-core"%string := RequestName]}) = inr pods →
  restartStaleCorePods RequestName RequestNamespace w coreApp = Ret (w', coreApp', err) →
  let stale p := isCorePodStale p (map_get (ss_TemplateAnnotations sts) coreConfigMapHashAnnotation) (ss_UpdateRevision sts) in
  err = None ∧
  ((w' = w ∧ ((∃ x, x ∈ pods ∧ om_DeletionTimestamp (rp_meta x) ≠ None) ∨ ∀ x, x ∈ pods → stale x = false)) ∨
   (∃ p e, p ∈ pods ∧ stale p = true ∧ srv_Delete w p = (w', e) ∧ (∀ x, x ∈ pods → om_DeletionTimestamp (rp_meta x) = None) ∧
      (isPodReady p = true → ∀ x, x ∈ pods → stale x = true → isPodReady x = true))).
Proof.
  intros Huid Hget Hlist. unfold restartStaleCorePods, KubeList.
  rewrite bool_decide_eq_false_2 by done. rewrite (KubeCheckQuiet_found w coreApp sts Hget), bind_ret_l. cbn [negb]. rewrite Hlist, bind_ret_l. cbn [negb]. cbv zeta.
  pose proof (pickStaleCorePodToDelete_spec pods (map_get (ss_TemplateAnnotations sts) coreConfigMapHashAnnotation) (ss_UpdateRevision sts)) as Hs.
  destruct (pickStaleCorePodToDelete _ _ _) as [p|]; [|intros [= <- <- <-]; by split; [|left]].
  destruct Hs as (Hin & Hst & Hdel & Hr). unfold KubeDeleteNoPolling. destruct (srv_Delete w p) as [w1 e] eqn:Hd.
  intros H. assert (w1 = w' ∧ err = None) as [-> ->]; [|split; [done|right; by exists p, e]].
  destruct e as [e|]; [destruct (negb (IsConflict e) && IsNotFound e)|]; [by injection H as -> _ ->|done|by injection H as -> _ ->].
Qed.
End RestartFacts.
