(* ===== verification/KeyManagement.v ===== *)
(** * Key management: [pkg/util/kms].

    The root master key of a system is kept in a key management system: in secrets of the
    cluster, or in an external one.  A driver knows how the key is named there; the
    storage, of the [libopenstorage/secrets] library or of the operator, reads and writes
    it.  A key is kept as a single string, or as a map from key names to keys with an entry
    that names the active one, which is what lets it rotate. *)

From Stdlib Require Import Sorting.Sorted Ascii.
From stdpp Require Import pretty.
From S2P Require Import Prelude Effects GoStrings Types Kube Util SystemObjects.

(** ** Names *)

(** Constants of the libraries. *)
Class SecretsLib : Type := {
  TypeK8s : string;
  k8s_Name : string;
  vault_Name : string;
  azure_Name : string;
  k8s_SecretNamespace : string;
  DestroySecret : string;
  vault_AuthMethod : string;
  AuthMethodKubernetes : string;
  AzureClientCertPath : string;
}.

Definition Provider : string := "KMS_PROVIDER".
Definition ActiveRootKey : string := "active_root_key".
Definition VaultCaCert : string := "VAULT_CACERT".
Definition VaultClientCert : string := "VAULT_CLIENT_CERT".
Definition VaultClientKey : string := "VAULT_CLIENT_KEY".
Definition VaultToken : string := "VAULT_TOKEN".
Definition RootSecretPath : string := "NOOBAA_ROOT_SECRET_PATH".
Definition AzureClientCertSecretName : string := "AZURE_CERT_SECRET_NAME".
Definition IbmKpSecretStorageName : string := "ibmkeyprotect".
Definition IbmServiceAPIKey : string := "IBM_KP_SERVICE_API_KEY".
Definition IbmInstanceIDKey : string := "IBM_KP_SERVICE_INSTANCE_ID".
Definition IBMSecret : string := "secret".
Definition KMIPSecretStorageName : string := "kmip".
Definition KMIPEndpoint : string := "KMIP_ENDPOINT".
Definition KMIPTLSServerName : string := "TLS_SERVER_NAME".
Definition KMIPReadTimeOut : string := "READ_TIMEOUT".
Definition KMIPWriteTimeOut : string := "WRITE_TIMEOUT".
Definition KMPSecret : string := "secret".
Definition KMIPCACERT : string := "CA_CERT".
Definition KMIPCLIENTCERT : string := "CLIENT_CERT".
Definition KMIPCLIENTKEY : string := "CLIENT_KEY".

(** ** Drivers *)

(** The drivers, with the name and namespace of the system and its UID. *)
Inductive Driver :=
  | K8S (name ns : string)
  | Vault (UID name ns : string)
  | AzureVault (UID name ns : string)
  | IBM (UID name namespace : string)
  | KMIP (UID name ns : string).

Definition DriverCtor : Type := string → string → string → Driver.
Definition NewK8S : DriverCtor := λ name namespace _, K8S name namespace.
Definition NewVault : DriverCtor := λ name namespace uid, Vault uid name namespace.
Definition NewAzureVault : DriverCtor := λ name namespace uid, AzureVault uid name namespace.
Definition NewIBM : DriverCtor := λ name namespace uid, IBM uid name namespace.
Definition NewKMIP : DriverCtor := λ name namespace uid, KMIP uid name namespace.

(** Where the single key is, and under which name there. *)
Definition Path (d : Driver) : string :=
  match d with
  | K8S name _ => name +:+ "-root-master-key"
  | Vault UID _ _ => RootSecretPath +:+ "/rootkeyb64-" +:+ UID
  | AzureVault UID _ _ => "/rootkeyb64-" +:+ UID
  | IBM UID _ _ => "rootkeyb64-" +:+ UID
  | KMIP _ _ _ => "KMIPSecret"
  end.
Definition Name (d : Driver) : string :=
  match d with
  | K8S _ _ => "cipher_key_b64"
  | Vault UID _ _ | AzureVault UID _ _ | IBM UID _ _ => "rootkeyb64-" +:+ UID
  | KMIP _ _ _ => "KMIPSecret"
  end.

(** What a call to the storage is given besides the name. *)
Abbreviation KeyContext := (option (gmap string string)).

Section Contexts.
Context {SL : SecretsLib}.

Definition k8sContext (ns : string) : KeyContext := Some {[k8s_SecretNamespace := ns]}.
Definition GetContext (d : Driver) : KeyContext := match d with K8S _ ns => k8sContext ns | _ => None end.
Definition SetContext (d : Driver) : KeyContext := match d with K8S _ ns => k8sContext ns | _ => None end.
Definition DeleteContext (d : Driver) : KeyContext :=
  match d with
  | K8S _ ns => k8sContext ns
  | Vault _ _ _ | AzureVault _ _ _ => Some {[DestroySecret := "true"%string]}
  | _ => None
  end.

(** *** The registry *)

Abbreviation Registry := (gmap string DriverCtor).

Definition RegisterDriver (name : string) (ctor : DriverCtor) (kmsDrivers : Registry) : error + Registry :=
  match kmsDrivers !! name with
  | Some _ => inl (Errorf (Sprintf "KMS driver %v is already registered" [AStr name]))
  | None => inr (<[name := ctor]> kmsDrivers)
  end.

(** The [init] functions of the package, in the order of its files. *)
Definition kmsDrivers : outcome Registry :=
  foldl (λ reg '(name, ctor), reg ← reg; match RegisterDriver name ctor reg with
                                         | inl e => Panic (Panicked (Error e))
                                         | inr reg => Ret reg
                                         end)
    (Ret ∅)
    [(azure_Name, NewAzureVault); (IbmKpSecretStorageName, NewIBM); (k8s_Name, NewK8S); (KMIPSecretStorageName, NewKMIP);
     (vault_Name, NewVault)].

Definition NewDriver (dType name namespace uid : string) (reg : Registry) : option Driver :=
  (λ ctor : DriverCtor, ctor name namespace uid) <$> reg !! dType.

Definition kmsType (connectionDetails : option (gmap string string)) : string :=
  match default ∅ connectionDetails !! Provider with Some provider => provider | None => TypeK8s end.
End Contexts.

(** ** Configuration *)

(** The process: its environment, its temporary files, the clock and the random source. *)
Class KmsProcess (W : Type) : Type := {
  kp_LookupEnv : W → string → option string;
  kp_Setenv : W → string → string → W * option msg;
  kp_CreateTemp : W → W * (msg + string);
  kp_WriteFile : W → string → string → W * option msg;
  kp_UnixNano : W → W * Z;
  kp_RandomBase64 : W → nat → W * string;
}.

(** A value of the configuration of a storage. *)
Inductive ConfigValue :=
  | CfgStr (s : string)
  | CfgInt (z : Z)
  | CfgSecret (s : Secret).
Abbreviation Config := (gmap string ConfigValue).

(** [v.(string)] *)
Definition asString (v : ConfigValue) : outcome string :=
  match v with CfgStr s => Ret s | _ => Panic TypeAssertion end.

Section Config.
Context {SL : SecretsLib} {W : Type} {KP : KmsProcess W} {SS : ApiServer W Secret}.

(** Calls that only read the cluster, and calls of the process that may fail. *)
Definition readsW {A} (f : W → outcome A) : M W A := λ w, a ← f w; Ret (w, inr a).
Definition calls {A} (f : W → W * (msg + A)) (wrap : msg → error) : M W A := λ w,
  let '(w, r) := f w in Ret (w, match r with inl m => inl (wrap m) | inr a => inr a end).
Definition runs (f : W → W * option msg) (wrap : msg → error) : M W () := λ w,
  let '(w, r) := f w in Ret (w, match r with Some m => inl (wrap m) | None => inr () end).

Definition secretIn (namespace name : string) : Secret := mkSecret (named namespace name) None None.
Definition noSecret (namespace name : string) : error :=
  Errorf (Sprintf "Could not find secret %q in namespace %q" [AStr name; AStr namespace]).

(** [util.SafeSetEnv] *)
Definition SafeSetEnv (envVarName envVarValue : string) : M W () := λ w,
  let '(w, _) := kp_Setenv w envVarName envVarValue in Ret (w, inr ()).

Definition writeCrtsToFile (secretName secretValue envVarName : string) : M W string :=
  found ← gets (λ w, kp_LookupEnv w envVarName);
  if default ""%string found != "" then mret (default ""%string found)
  else
    file ← calls kp_CreateTemp
             (λ m, Errorf (Sprintf "failed to generate temp file for k8s secret %q content, %v" [AStr secretName; AMsg m]));
    do! runs (λ w, kp_WriteFile w file secretValue)
          (λ m, Errorf (Sprintf "failed to write k8s secret %q content to a file %v" [AStr secretName; AMsg m])) ;;
    do! runs (λ w, kp_Setenv w envVarName file)
          (λ _, Errorf (Sprintf "can not set env var %v %v" [AStr envVarName; AStr file])) ;;
    mret file.

(** A secret that the configuration names, written to a file: the path of the file is put
    into the configuration. *)
Definition certFile (namespace key field target : string) (config : Config) : M W Config :=
  match config !! key with
  | None => mret config
  | Some v =>
      name ← lift (asString v);
      '(secret, found) ← readsW (λ w, KubeCheckOptional w (secretIn namespace name));
      if negb found then throw (noSecret namespace name)
      else
        file ← attempt (writeCrtsToFile name (map_get (sec_Data secret) field) key);
        match file with
        | inl e => throw (Errorf (Sprintf "can not write crt %v to file %v" [AStr key; AMsg (Error e)]))
        | inr file => mret (<[target := CfgStr file]> config)
        end
  end.

Definition tlsConfig (namespace : string) (config : Config) : M W Config :=
  config ← certFile namespace VaultCaCert "cert" VaultCaCert config;
  config ← certFile namespace VaultClientCert "cert" VaultClientCert config;
  certFile namespace VaultClientKey "key" VaultClientKey config.

Definition createCertTempFile (namespace : string) (config : Config) : M W Config :=
  certFile namespace AzureClientCertSecretName "CLIENT_CERT" AzureClientCertPath config.

(** An error that replaces the one of a call; the configuration it prints is left out. *)
Definition replacing {A} (m : M W A) (e : error) : M W A :=
  r ← attempt m; match r with inl _ => throw e | inr a => mret a end.

(** [keysFromSecret]: the API key, also cached in the environment. *)
Definition keysFromSecret (tokenSecretName namespace : string) (c : Config) : M W Config :=
  '(secret, found) ← readsW (λ w, KubeCheck w (secretIn namespace tokenSecretName));
  if negb found then throw (noSecret namespace tokenSecretName)
  else match default ∅ (sec_StringData secret) !! IbmServiceAPIKey with
       | None => throw (Errorf (Sprintf "Could not find key %v in secret %q in namespace %q"
                                  [AStr IbmServiceAPIKey; AStr tokenSecretName; AStr namespace]))
       | Some val => do! SafeSetEnv IbmServiceAPIKey val ;; mret (<[IbmServiceAPIKey := CfgStr val]> c)
       end.

(** A timeout, when it is a number. *)
Definition timeoutOf (config : gmap string string) (key : string) (c : Config) : Config :=
  match config !! key with
  | Some text => match ParseInt text 64 with inr n => <[key := CfgInt n]> c | inl _ => c end
  | None => c
  end.

Definition Config_ (d : Driver) (connectionDetails : option (gmap string string)) (tokenSecretName namespace : string) : M W Config :=
  let config := default ∅ connectionDetails in
  let c : Config := CfgStr <$> config in
  match d with
  | K8S _ _ => mret ∅
  | Vault _ _ _ =>
      c ← replacing (tlsConfig namespace c)
            (Errorf (Sprintf "Could not init vault tls config in namespace %q" [AStr namespace]));
      if default ""%string (config !! vault_AuthMethod) == AuthMethodKubernetes then mret c
      else
        '(secret, found) ← readsW (λ w, KubeCheck w (secretIn namespace tokenSecretName));
        if negb found then throw (noSecret namespace tokenSecretName)
        else mret (<[VaultToken := CfgStr (map_get (sec_StringData secret) "token")]> c)
  | AzureVault _ _ _ =>
      replacing (createCertTempFile namespace c)
        (Errorf (Sprintf "Could not init azure vault config in namespace %q" [AStr namespace]))
  | IBM _ _ _ =>
      match config !! IbmInstanceIDKey with
      | None => throw (Errorf (Sprintf "Unable to find IBM Key Protect instance ID in CR %v" [AStr IbmInstanceIDKey]))
      | Some instanceID =>
          do! SafeSetEnv IbmInstanceIDKey instanceID ;;
          api ← gets (λ w, kp_LookupEnv w IbmServiceAPIKey);
          c ← match api with Some _ => mret c | None => keysFromSecret tokenSecretName namespace c end;
          mret (<[IBMSecret := CfgSecret (mkSecret (named namespace tokenSecretName) (Some ∅) None)]> c)
      end
  | KMIP _ _ _ =>
      '(secret, found) ← readsW (λ w, KubeCheck w (secretIn namespace tokenSecretName));
      if negb found then throw (noSecret namespace tokenSecretName)
      else
        let text key := CfgStr (map_get (sec_StringData secret) key) in
        let c : Config := list_to_map [(KMPSecret, CfgSecret secret); (KMIPCACERT, text KMIPCACERT);
                                       (KMIPCLIENTCERT, text KMIPCLIENTCERT); (KMIPCLIENTKEY, text KMIPCLIENTKEY)] in
        match config !! KMIPEndpoint with
        | None => throw (Errorf (Sprintf "Could not find in config KMP Endpoint %v" [AStr KMIPEndpoint]))
        | Some endpoint =>
            let c := <[KMIPEndpoint := CfgStr endpoint]> c in
            let c := match config !! KMIPTLSServerName with Some name => <[KMIPTLSServerName := CfgStr name]> c | None => c end in
            mret (timeoutOf config KMIPWriteTimeOut (timeoutOf config KMIPReadTimeOut c))
        end
  end.
End Config.

(** ** Storage *)

(** A value of a secret: [interface{}]. *)
Inductive Any := AnyString (s : string) | AnyValue.
#[export] Instance Any_eq_dec : EqDecision Any.
Proof. solve_decision. Defined.
Abbreviation SecretData := (gmap string Any).

Definition anyString (a : Any) : option string := match a with AnyString s => Some s | AnyValue => None end.
(** The strings of a secret; [v.(string)] panics on any other value. *)
Definition toStrings (s : SecretData) : outcome (gmap string string) :=
  if bool_decide (map_Forall (λ _ a, is_Some (anyString a)) s) then Ret (omap anyString s) else Panic TypeAssertion.
Definition toInterfaceMap (s : gmap string string) : SecretData := AnyString <$> s.

(** [secrets.Secrets]: a storage [B], which may use the cluster. *)
Class Secrets (W B : Type) : Type := {
  GetSecret : string → KeyContext → M (W * B) SecretData;
  PutSecret : string → SecretData → KeyContext → M (W * B) ();
  DeleteSecret : string → KeyContext → M (W * B) ();
}.

(** ** Versions *)

(** The two ways a key is kept, with what was read of it. *)
Inductive Version :=
  | VersionSingleSecret (data : option string)
  | VersionRotatingSecret (data : option (gmap string string)) (name ns : string).

(** [d.Version(k)] *)
Definition versionOf (d : Driver) : Version :=
  match d with
  | K8S name ns | Vault _ name ns | AzureVault _ name ns | IBM _ name ns | KMIP _ name ns => VersionRotatingSecret None name ns
  end.

Record KMS {B : Type} := mkKMS {
  k_Secrets : B;
  k_Version : Version;
  k_Type : string;
  k_driver : Driver;
}.
Arguments KMS B : clear implicits.
Arguments mkKMS {B}.

(** [SecretReconciler], the system reconciler [R]: it may change the map it is given. *)
Class SecretReconciler (W R : Type) : Type := {
  ReconcileSecretString : string → M (W * R) ();
  ReconcileSecretMap : gmap string string → M (W * R) (gmap string string);
}.

Definition StatusValid (st : ConditionStatus) : bool :=
  (st == ConditionStatusOther "Sync") || (st == ConditionStatusOther "Init") || (st == ConditionStatusOther "KeyRotate").

Definition keyName (nanos : Z) : string := "key-" +:+ pretty nanos.
Definition backendSecretName (name : string) : string := name +:+ "-root-master-key-backend".

(** Errors of a storage that say that a secret is missing. *)
Definition saysMissing (e : error) : bool :=
  match e with
  | TextError text => Contains_str text "not found" || Contains_str text "does not exist"
  | _ => false
  end.

Section Version.
Context {SL : SecretsLib} {W B : Type} {KP : KmsProcess W} {SS : ApiServer W Secret} {ST : Secrets W B}.
(** How long the deletion of a secret is waited for. *)
Context (fuel : nat) (tick : W → W).

Abbreviation KM := (M (W * KMS B)).

Definition set_storage (b : B) (k : KMS B) : KMS B := mkKMS b (k_Version k) (k_Type k) (k_driver k).
Definition set_version (v : Version) (k : KMS B) : KMS B := mkKMS (k_Secrets k) v (k_Type k) (k_driver k).

(** Calls of the storage and of the process, and [util.KubeDelete] of a secret. *)
Definition onStorage {A} (m : M (W * B) A) : KM A := λ '(w, k),
  '((w, b), r) ← m (w, k_Secrets k); Ret ((w, set_storage b k), r).
Definition UnixNano : KM Z := λ '(w, k), let '(w, t) := kp_UnixNano w in Ret ((w, k), inr t).
Definition deleteSecretObject (namespace name : string) : KM bool := λ '(w, k),
  '(w, r) ← KubeDelete fuel tick w (secretIn namespace name);
  match r with Some deleted => Ret ((w, k), inr deleted) | None => Panic Unfinished end.

Definition driver : KM Driver := state k_driver.

(** The error of a failed read. *)
Definition getError (e : error) : error := if saysMissing e then ErrInvalidSecretId else e.

Definition single_Get : KM string :=
  d ← driver;
  s ← attempt (onStorage (GetSecret (Path d) (GetContext d)));
  match s with
  | inl e => throw (getError e)
  | inr s => match s !! Name d with Some (AnyString v) => mret v | _ => throw ErrInvalidSecretId end
  end.

Definition single_Set (val : string) : KM () :=
  d ← driver;
  do! update (set_version (VersionSingleSecret (Some val))) ;;
  onStorage (PutSecret (Path d) {[Name d := AnyString val]} (SetContext d)).

Definition single_Delete : KM () := d ← driver; onStorage (DeleteSecret (Path d) (DeleteContext d)).

Definition rotating_Get (name ns : string) : KM () :=
  d ← driver;
  s ← attempt (onStorage (GetSecret (backendSecretName name) (GetContext d)));
  match s with
  | inl e => throw (getError e)
  | inr s => rc ← lift (toStrings s); update (set_version (VersionRotatingSecret (Some rc) name ns))
  end.

Definition rotating_Set (data : option (gmap string string)) (name ns val : string) : KM () :=
  t ← UnixNano;
  d ← driver;
  let key := keyName t in
  let s := <[key := val]> (<[ActiveRootKey := key]> (default ∅ data)) in
  do! update (set_version (VersionRotatingSecret (Some s) name ns)) ;;
  onStorage (PutSecret (backendSecretName name) (toInterfaceMap s) (SetContext d)).

Definition deleteSingleStringSecret (ns : string) : KM bool := d ← driver; deleteSecretObject ns (Path d).

Definition rotating_Delete (name ns : string) : KM () :=
  deleted ← deleteSecretObject ns (backendSecretName name);
  if negb deleted then throw (Errorf (Lit "KMS Delete error for the rotating master root secret backend"))
  else d ← driver; onStorage (DeleteSecret (backendSecretName name) (DeleteContext d)).

(** *** By version *)

Definition version : KM Version := state k_Version.

Definition Get : KM () :=
  v ← version;
  match v with
  | VersionSingleSecret _ => val ← single_Get; update (set_version (VersionSingleSecret (Some val)))
  | VersionRotatingSecret _ name ns => rotating_Get name ns
  end.

Definition Set_ (val : string) : KM () :=
  v ← version;
  match v with
  | VersionSingleSecret _ => single_Set val
  | VersionRotatingSecret data name ns => rotating_Set data name ns val
  end.

Definition Delete : KM () :=
  v ← version;
  match v with
  | VersionSingleSecret _ => single_Delete
  | VersionRotatingSecret _ name ns => rotating_Delete name ns
  end.

(** A failed call, with a word of the step that failed. *)
Definition step_ {A} (format : string) (m : KM A) : KM A :=
  r ← attempt m; match r with inl e => throw (Errorf (Sprintf format [AMsg (Error e)])) | inr a => mret a end.

(** A single key becomes the first key of the map. *)
Definition Upgrade : KM () :=
  v ← version;
  match v with
  | VersionSingleSecret _ => mret ()
  | VersionRotatingSecret _ _ ns =>
      r ← attempt single_Get;
      match r with
      | inl ErrInvalidSecretId => mret ()
      | inl e => throw (Errorf (Sprintf "KMS Upgrade Get error %w" [AMsg (Error e)]))
      | inr val =>
          do! step_ "KMS Upgrade Set error %w" (Set_ val) ;;
          do! step_ "KMS Upgrade Delete error %w" single_Delete ;;
          deleted ← deleteSingleStringSecret ns;
          if negb deleted then throw (Errorf (Lit "KMS Delete error for single secret")) else mret ()
      end
  end.

(** The key is handed to the reconciler [r]; it may drop keys of the map. *)
Definition Reconcile {R} `{SecretReconciler W R} (k : KMS B) : M (W * R) (KMS B) :=
  match k_Version k with
  | VersionSingleSecret data =>
      match data with
      | Some s => do! ReconcileSecretString s ;; mret k
      | None => lift (Panic TypeAssertion)
      end
  | VersionRotatingSecret data name ns =>
      match data with
      | Some m => m ← ReconcileSecretMap m; mret (set_version (VersionRotatingSecret (Some m) name ns) k)
      | None => lift (Panic TypeAssertion)
      end
  end.

(** *** A new client *)

(** [secrets.New] of the libraries. *)
Context (secrets_New : string → Config → M W B).

(** The client, when there is one, with the state of the world. *)
Definition NewKMS (connectionDetails : option (gmap string string)) (tokenSecretName name namespace uid : string) : M W (KMS B) :=
  let t := kmsType connectionDetails in
  reg ← lift kmsDrivers;
  match NewDriver t name namespace uid reg with
  | None => throw (Errorf (Sprintf "Unsupported KMS driver type %v" [AStr t]))
  | Some d =>
      c ← Config_ d connectionDetails tokenSecretName namespace;
      s ← secrets_New t c;
      let k := mkKMS s (versionOf d) t d in
      λ w, '((w, k), r) ← Upgrade (w, k); Ret (w, match r with inl e => inl e | inr _ => inr k end)
  end.
End Version.

(** ** Old keys *)

Section OldKeys.
(** [sort.Slice] by time: the order of equal times is not specified. *)
Context (sortByTime : list (string * Z) → list (string * Z)).

(** The time in the name of a key. *)
Definition keyTime (k : string) : error + Z :=
  match Split k "-" with
  | [_; t] => match ParseInt t 64 with
              | inr n => inr n
              | inl _ => inl (Errorf (Sprintf "KMS Key is not in the correct format %w" [AStr t]))
              end
  | _ => inl (Errorf (Lit "KMS Key is not in the correct format"))
  end.

(** The keys with their times.  With several malformed keys, which one is reported is not
    specified. *)
Fixpoint keyEntries (keys : list string) : error + list (string * Z) :=
  match keys with
  | [] => inr []
  | k :: rest =>
      if k == ActiveRootKey then keyEntries rest
      else match keyTime k, keyEntries rest with
           | inl e, _ => inl e
           | _, inl e => inl e
           | inr t, inr l => inr ((k, t) :: l)
           end
  end.

Fixpoint removeOld (entries : list (string * Z)) (givenTime : Z) (minKeys leftKeys : nat) (data : gmap string string) (deleted : nat) :
    gmap string string * nat :=
  match entries with
  | [] => (data, deleted)
  | (k, t) :: rest =>
      if (leftKeys <=? minKeys)%nat then (data, deleted)
      else if (t <? givenTime)%Z then removeOld rest givenTime minKeys (leftKeys - 1) (delete k data) (S deleted)
      else removeOld rest givenTime minKeys leftKeys data deleted
  end.

(** The map after the call, and the number of deleted keys. *)
Definition RemoveOldKeysFromSecret (data : gmap string string) (givenTime : Z) (minKeys : nat) :
    error + (gmap string string * nat) :=
  if (size data <=? minKeys)%nat then inr (data, 0%nat)
  else match keyEntries (map_to_list data).*1 with
       | inl e => inl e
       | inr entries => let entries := sortByTime entries in inr (removeOld entries givenTime minKeys (length entries) data 0)
       end.
End OldKeys.

(** ** Facts: old keys *)

Definition deleteAll (keys : list string) (data : gmap string string) : gmap string string := foldl (λ m k, delete k m) data keys.

Lemma deleteAll_lookup keys data k : deleteAll keys data !! k = if bool_decide (k ∈ keys) then None else data !! k.
Proof.
  revert data. induction keys as [|x keys IH]; intros data; [done|]. cbn. unfold deleteAll in IH. rewrite IH.
  destruct (decide (k = x)) as [->|Hne].
  - rewrite lookup_delete_eq, (bool_decide_eq_true_2 (x ∈ x :: keys)) by apply list_elem_of_here. by case_bool_decide.
  - rewrite lookup_delete_ne by done. rewrite (bool_decide_ext (k ∈ x :: keys) (k ∈ keys)); [done|]. set_solver.
Qed.

Abbreviation byTime := (StronglySorted (λ a b : string * Z, a.2 ≤ b.2)%Z).

(** Of entries in the order of their times, the first ones are removed. *)
Lemma removeOld_prefix entries g minKeys left data d :
  byTime entries → (length entries ≤ left)%nat →
  ∃ n, removeOld entries g minKeys left data d = (deleteAll (take n entries).*1 data, d + n)%nat ∧
    (n ≤ length entries)%nat ∧ Forall (λ e, e.2 < g)%Z (take n entries) ∧ (n ≠ 0 → minKeys ≤ left - n)%nat.
Proof.
  intros Hs. revert left data d. induction Hs as [|[k t] entries Hs IH Hall]; intros left data d Hlen; cbn [removeOld].
  { exists 0%nat. rewrite Nat.add_0_r. by split_and!. }
  assert (removed_none : ∃ n, (data, d) = (deleteAll (take n ((k, t) :: entries)).*1 data, d + n)%nat ∧
    (n ≤ length ((k, t) :: entries))%nat ∧ Forall (λ e, e.2 < g)%Z (take n ((k, t) :: entries)) ∧ (n ≠ 0 → minKeys ≤ left - n)%nat).
  { exists 0%nat. rewrite Nat.add_0_r. split_and!; [done|lia|constructor|done]. }
  cbn [length] in Hlen. destruct (Nat.leb_spec left minKeys); [done|].
  destruct (Z.ltb_spec t g) as [Hlt|Hge].
  - destruct (IH (left - 1)%nat (delete k data) (S d)) as (n & -> & Hn & Hf & Hm); [lia|].
    exists (S n). cbn [take fmap list_fmap fst]. split_and!; [f_equal; lia|cbn; lia|by constructor|].
    intros _. destruct n; [lia|]. specialize (Hm ltac:(done)). lia.
  - replace (removeOld entries g minKeys left data d) with (data, d); [done|].
    assert (Forall (λ e, g ≤ e.2)%Z entries) as Hlate by (eapply Forall_impl; [exact Hall|cbn; lia]).
    clear -Hlate. induction Hlate as [|[k' t'] l Ht _ IHl]; cbn; [done|]. cbn in Ht.
    destruct (left <=? minKeys)%nat; [done|]. destruct (Z.ltb_spec t' g); [lia|done].
Qed.

Lemma keyEntries_keys keys entries :
  keyEntries keys = inr entries → entries.*1 = filter (λ k, k ≠ ActiveRootKey) keys ∧ Forall (λ e, keyTime e.1 = inr e.2) entries.
Proof.
  revert entries. induction keys as [|k keys IH]; intros entries; cbn [keyEntries]; [by intros [= <-]|].
  case_bool_decide as Hk; [rewrite filter_cons_False by tauto; apply IH|]. rewrite filter_cons_True by done.
  destruct (keyTime k) as [e|t] eqn:Ht; [done|]. destruct (keyEntries keys) as [e|l]; [done|]. intros [= <-].
  destruct (IH l eq_refl) as [Hl Hf]. cbn. rewrite Hl. split; [done|]. by constructor.
Qed.

Section OldKeysFacts.
Context (sortByTime : list (string * Z) → list (string * Z)).
Context (sort_perm : ∀ l, sortByTime l ≡ₚ l) (sort_sorted : ∀ l, byTime (sortByTime l)).

(** What the call removes: the first entries, in the order of time, of those it found. *)
Lemma RemoveOldKeysFromSecret_removes data givenTime minKeys data' n :
  RemoveOldKeysFromSecret sortByTime data givenTime minKeys = inr (data', n) →
  ∃ entries, data' = deleteAll (take n entries).*1 data ∧ byTime entries ∧ NoDup entries.*1 ∧
    Forall (λ e, keyTime e.1 = inr e.2) entries ∧ (n ≤ length entries)%nat ∧
    Forall (λ e, e.2 < givenTime)%Z (take n entries) ∧ (n ≠ 0 → minKeys ≤ length entries - n)%nat ∧
    (n ≠ 0%nat → ∀ k, k ∈ entries.*1 ↔ k ≠ ActiveRootKey ∧ is_Some (data !! k)).
Proof.
  unfold RemoveOldKeysFromSecret. destruct (Nat.leb_spec (size data) minKeys).
  { intros [= <- <-]. exists []. split_and!; try done; constructor. }
  destruct (keyEntries _) as [e|entries0] eqn:He; [done|]. intros [= Hrem].
  apply keyEntries_keys in He as [Hkeys Htimes].
  set (entries := sortByTime entries0) in *. assert (entries ≡ₚ entries0) as Hp by apply sort_perm.
  destruct (removeOld_prefix entries givenTime minKeys (length entries) data 0) as (m & Hrun & Hm & Hold & Hmin);
    [apply sort_sorted|done|]. rewrite Hrem in Hrun. injection Hrun as -> ->.
  exists entries. split_and!; [done|apply sort_sorted|rewrite Hp, Hkeys; apply NoDup_filter, NoDup_fst_map_to_list|by rewrite Hp|done..|].
  intros _ k. rewrite Hp, Hkeys, list_elem_of_filter. apply and_iff_compat_l. split.
  - intros ([k' v] & -> & Hv%elem_of_map_to_list)%list_elem_of_fmap. eauto.
  - intros [v Hv]. apply list_elem_of_fmap. exists (k, v). split; [done|]. by apply elem_of_map_to_list.
Qed.

(** The pointer to the active key stays, and a key that is removed is old. *)
Lemma RemoveOldKeysFromSecret_subset data givenTime minKeys data' n :
  RemoveOldKeysFromSecret sortByTime data givenTime minKeys = inr (data', n) →
  data' ⊆ data ∧ data' !! ActiveRootKey = data !! ActiveRootKey ∧
  (∀ k v, data !! k = Some v → data' !! k = Some v ∨ ∃ t, keyTime k = inr t ∧ (t < givenTime)%Z).
Proof.
  intros (entries & -> & _ & _ & Ht & Hn & Hold & _ & Hin)%RemoveOldKeysFromSecret_removes. split_and!.
  - apply map_subseteq_spec. intros k v. rewrite deleteAll_lookup. by case_bool_decide.
  - rewrite deleteAll_lookup, bool_decide_eq_false_2; [done|]. intros Hk. destruct n as [|n]; [by apply not_elem_of_nil in Hk|].
    rewrite fmap_take in Hk. apply elem_of_take_sub, Hin in Hk; naive_solver.
  - intros k v Hk. rewrite deleteAll_lookup. case_bool_decide as Hr; [right|by left].
    apply list_elem_of_fmap in Hr as ([k' t] & -> & Hkt). exists t. rewrite List.Forall_forall in Hold, Ht. split.
    + apply (Ht (k', t)), list_elem_of_In. by eapply elem_of_take_sub.
    + by apply (Hold (k', t)), list_elem_of_In.
Qed.

(** C16: Only keys that are older than the given time are removed, the oldest first, and when
    any is removed at least the minimal number of keys stays; the pointer to the active
    key and every value stay as they are. *)
Theorem RemoveOldKeysFromSecret_oldest data givenTime minKeys data' n :
  RemoveOldKeysFromSecret sortByTime data givenTime minKeys = inr (data', n) →
  data' ⊆ data ∧ data' !! ActiveRootKey = data !! ActiveRootKey ∧
  (∀ k, is_Some (data !! k) → data' !! k = None → ∃ t, keyTime k = inr t ∧ (t < givenTime)%Z ∧
     ∀ k' t', is_Some (data' !! k') → k' ≠ ActiveRootKey → keyTime k' = inr t' → (t ≤ t')%Z) ∧
  (n ≠ 0%nat → ∃ kept, NoDup kept ∧ length kept = minKeys ∧ ∀ k, k ∈ kept → k ≠ ActiveRootKey ∧ is_Some (data' !! k)).
Proof.
  intros Hrun. destruct (RemoveOldKeysFromSecret_subset _ _ _ _ _ Hrun) as (Hsub & Hact & _).
  apply RemoveOldKeysFromSecret_removes in Hrun as (entries & -> & Hs & Hnd & Ht & Hn & Hold & Hmin & Hin).
  split_and!; [done|done|..].
  - intros k Hk Hnone. rewrite deleteAll_lookup in Hnone. case_bool_decide as Hr; [|rewrite Hnone in Hk; by destruct Hk].
    apply list_elem_of_fmap in Hr as ([k0 t] & -> & Hkt). exists t. rewrite List.Forall_forall in Hold, Ht.
    assert (n ≠ 0%nat) as Hn0 by (intros ->; by apply not_elem_of_nil in Hkt). split_and!.
    + apply (Ht (k0, t)), list_elem_of_In. by eapply elem_of_take_sub.
    + by apply (Hold (k0, t)), list_elem_of_In.
    + intros k' t' [v' Hv'] Hne Ht'. rewrite deleteAll_lookup in Hv'. case_bool_decide as Hnot; [done|].
      assert (k' ∈ entries.*1) as ([k1 t1] & -> & Hk1)%list_elem_of_fmap by (apply Hin; eauto). cbn in Ht'.
      assert (keyTime k1 = inr t1) as Ht1 by (by apply (Ht (k1, t1)), list_elem_of_In). rewrite Ht1 in Ht'. injection Ht' as <-.
      rewrite <-(take_drop n entries) in Hk1. apply elem_of_app in Hk1 as [Hk1|Hk1].
      * destruct Hnot. apply list_elem_of_fmap. by exists (k1, t1).
      * exact (StronglySorted_take_drop _ _ _ (k0, t) (k1, t1) Hs Hkt Hk1).
  - intros Hn0. specialize (Hmin Hn0). exists (take minKeys (drop n entries.*1)). split_and!.
    + eapply sublist_NoDup; [exact Hnd|]. etrans; [apply sublist_take|apply sublist_drop].
    + rewrite length_take, length_drop, length_fmap. lia.
    + intros k Hk%elem_of_take_sub. assert (k ∈ entries.*1) as Hk' by (rewrite <-(take_drop n entries.*1); set_solver).
      apply Hin in Hk' as [Hne Hk']; [|done]. split; [done|]. rewrite deleteAll_lookup, bool_decide_eq_false_2; [done|].
      rewrite fmap_take. intros Htk. rewrite <-(take_drop n entries.*1) in Hnd. apply NoDup_app in Hnd as (_ & Hdisj & _).
      by apply (Hdisj k).
Qed.
End OldKeysFacts.

(** ** What a storage promises *)

(** What a read may answer about a secret that is kept: at least the active key, or an
    error that does not say that the secret is missing. *)
Definition answers (m : SecretData) (r : error + SecretData) : Prop :=
  match r with
  | inr m' => m' ⊆ m ∧ m' !! ActiveRootKey = m !! ActiveRootKey ∧
      ∀ a, m !! ActiveRootKey = Some (AnyString a) → m' !! a = m !! a
  | inl e => getError e ≠ ErrInvalidSecretId
  end.

Section Laws.
Context {SL : SecretsLib} {W B : Type} {KP : KmsProcess W} {SS : ApiServer W Secret} {ST : Secrets W B}.
Context (fuel : nat) (tick : W → W) (secrets_New : string → Config → M W B).

(** A property of the world that the process and its clock do not touch. *)
Class ProcessKeeps (P : W → Prop) : Prop := {
  keeps_Setenv w k v : P w → P (kp_Setenv w k v).1;
  keeps_CreateTemp w : P w → P (kp_CreateTemp w).1;
  keeps_WriteFile w f c : P w → P (kp_WriteFile w f c).1;
  keeps_UnixNano w : P w → P (kp_UnixNano w).1;
  keeps_RandomBase64 w n : P w → P (kp_RandomBase64 w n).1;
}.

(** A storage as the clients of one driver see it: [holds] says which secret is kept under
    a name, [gone] that none is, [fresh] that no key was ever stored under a name. *)
Class StorageLaws (d : Driver) : Type := {
  client : B → Prop;
  holds : W → string → SecretData → Prop;
  gone : W → string → Prop;
  fresh : W → string → Prop;
  New_client w t c w' b : secrets_New t c w = Ret (w', inr b) → client b;
  New_world w t c w' r : secrets_New t c w = Ret (w', r) → w' = w;
  get_answers w b id w' b' r : client b → GetSecret id (GetContext d) (w, b) = Ret ((w', b'), r) →
    w' = w ∧ client b' ∧ (∀ m, holds w id m → answers m r) ∧ (gone w id → ∀ m, r ≠ inr m);
  put_holds w b id m w' b' r : client b → PutSecret id m (SetContext d) (w, b) = Ret ((w', b'), r) →
    client b' ∧ (∀ id', id' ≠ id → gone w id' → gone w' id') ∧
    (r = inr () → (∀ a, m !! ActiveRootKey = Some (AnyString a) → fresh w a) → holds w' id m);
  delete_gone w b id w' b' r : client b → DeleteSecret id (DeleteContext d) (w, b) = Ret ((w', b'), r) →
    client b' ∧ (∀ id' m, id' ≠ id → holds w id' m → holds w' id' m) ∧ (r = inr () → gone w' id);
  kube_holds w ns name id m w' deleted : KubeDelete fuel tick w (secretIn ns name) = Ret (w', deleted) →
    id ≠ name → holds w id m → holds w' id m;
  kube_gone w ns name id w' deleted : KubeDelete fuel tick w (secretIn ns name) = Ret (w', deleted) → gone w id → gone w' id;
  holds_not_fresh w id m a v : holds w id m → m !! a = Some v → ¬ fresh w a;
  holds_process id m :: ProcessKeeps (λ w, holds w id m);
  gone_process id :: ProcessKeeps (λ w, gone w id);
}.
End Laws.
Arguments StorageLaws {SL W B KP SS ST} fuel tick secrets_New d.
Arguments client {SL W B KP SS ST fuel tick secrets_New d _}.
Arguments holds {SL W B KP SS ST fuel tick secrets_New d _}.
Arguments gone {SL W B KP SS ST fuel tick secrets_New d _}.
Arguments fresh {SL W B KP SS ST fuel tick secrets_New d _}.
Arguments New_client {SL W B KP SS ST fuel tick secrets_New d _}.
Arguments New_world {SL W B KP SS ST fuel tick secrets_New d _}.
Arguments get_answers {SL W B KP SS ST fuel tick secrets_New d _}.
Arguments put_holds {SL W B KP SS ST fuel tick secrets_New d _}.
Arguments delete_gone {SL W B KP SS ST fuel tick secrets_New d _}.
Arguments kube_holds {SL W B KP SS ST fuel tick secrets_New d _}.
Arguments kube_gone {SL W B KP SS ST fuel tick secrets_New d _}.
Arguments holds_not_fresh {SL W B KP SS ST fuel tick secrets_New d _}.

(** ** Facts: the active key *)

Lemma keyName_active t : keyName t ≠ ActiveRootKey.
Proof. done. Qed.

Section ActiveKey.
Context {SL : SecretsLib} {W B : Type} {KP : KmsProcess W} {SS : ApiServer W Secret} {ST : Secrets W B}.
Context {fuel : nat} {tick : W → W} {secrets_New : string → Config → M W B} {d : Driver}.
Context {L : StorageLaws fuel tick secrets_New d}.
Implicit Types (w : W) (k : KMS B).

(** The storage keeps [val] as the active key of a system. *)
Definition activeIn (m : SecretData) (val : string) : Prop :=
  ∃ a, a ≠ ActiveRootKey ∧ m !! ActiveRootKey = Some (AnyString a) ∧ m !! a = Some (AnyString val).
Definition holdsKey (w : W) (name val : string) : Prop := ∃ m, holds w (backendSecretName name) m ∧ activeIn m val.

(** A client of this driver and its system. *)
Definition clientOf (name ns : string) (k : KMS B) : Prop :=
  k_driver k = d ∧ client (k_Secrets k) ∧ ∃ data, k_Version k = VersionRotatingSecret data name ns.
Definition dataOf (k : KMS B) : option (gmap string string) :=
  match k_Version k with VersionRotatingSecret data _ _ => data | VersionSingleSecret _ => None end.
(** What a client read of a map: some of its keys, with the active one. *)
Definition readKey (k : KMS B) (m : SecretData) (val : string) : Prop :=
  ∃ data a, dataOf k = Some data ∧ data !! ActiveRootKey = Some a ∧ data !! a = Some val ∧ a ≠ ActiveRootKey ∧
    ∀ key, is_Some (data !! key) → is_Some (m !! key).

Lemma toStrings_lookup s rc (key : string) : toStrings s = Ret rc → rc !! key = s !! key ≫= anyString.
Proof. unfold toStrings. case_bool_decide; [|done]. intros [= <-]. by rewrite lookup_omap. Qed.

Lemma onStorage_run {A} (m : M (W * B) A) w k s' r :
  onStorage m (w, k) = Ret (s', r) → ∃ w' b', m (w, k_Secrets k) = Ret ((w', b'), r) ∧ s' = (w', set_storage b' k).
Proof. unfold onStorage. destruct (m (w, k_Secrets k)) as [[[w' b'] r']|p]; cbn; [|done]. intros [= <- <-]. eauto. Qed.

(** A read of the map: the world stays, and what is kept is what is read. *)
Lemma Get_active name ns w k w' k' r :
  clientOf name ns k → Get (w, k) = Ret ((w', k'), r) →
  w' = w ∧ clientOf name ns k' ∧ 
  ∀ m val, holds w (backendSecretName name) m → activeIn m val → r ≠ inl ErrInvalidSecretId ∧ (r = inr () → readKey k' m val).
Proof.
  intros (Hd & Hc & data & Hv) H. unfold Get in H.
  erewrite M_bind_run in H by reflexivity. cbn [snd] in H. rewrite Hv in H. unfold rotating_Get in H.
  erewrite M_bind_run in H by reflexivity. cbn [snd] in H. rewrite Hd in H.
  apply M_bind_inv in H as [(e & Ha & ->)|(s1 & s & Ha & H)].
  { by apply attempt_run in Ha as (x & [=] & _). }
  apply attempt_run in Ha as (x & [= <-] & Ha). apply onStorage_run in Ha as (w1 & b1 & Hget & ->).
  destruct (get_answers _ _ _ _ _ _ Hc Hget) as (-> & Hc' & Hans & _).
  assert (clientOf name ns (set_storage b1 k)) as Hk by (split_and!; eauto).
  destruct s as [e|s].
  { injection H as <- <- <-. split_and!; [done|done|]. intros m val Hm _.
    specialize (Hans m Hm). cbn in Hans. split; [congruence|done]. }
  apply M_bind_inv in H as [(e & Hl & _)|(s2 & rc & Hl & H)]; [by apply lift_inv in Hl as (_ & ? & _ & [=])|].
  apply lift_ok in Hl as [<- Hrc]. injection H as <- <- <-. split; [done|]. split; [split_and!; eauto|].
  intros m val Hm (a & Hne & Hact & Hval). specialize (Hans m Hm) as (Hsub & Ha & Hx). split; [done|]. intros _.
  exists rc, a. split; [done|]. rewrite !(toStrings_lookup _ _ _ Hrc), Ha, (Hx a Hact), Hact, Hval. split_and!; [done|done|done|].
  intros key. rewrite (toStrings_lookup _ _ _ Hrc). intros [v Hv']. destruct (s !! key) as [y|] eqn:Hs; [|done].
  exists y. by eapply lookup_weaken.
Qed.

(** A write: the storage and the client have the new key, and the client still has the
    others. *)
Lemma Set_active name ns val w k w' k' r :
  clientOf name ns k → Set_ val (w, k) = Ret ((w', k'), r) →
  let '(w1, nanos) := kp_UnixNano w in let key := keyName nanos in
  clientOf name ns k' ∧ dataOf k' = Some (<[key := val]> (<[ActiveRootKey := key]> (default ∅ (dataOf k)))) ∧
  (Path d ≠ backendSecretName name → gone w (Path d) → gone w' (Path d)) ∧
  (r = inr () → fresh w1 key → holdsKey w' name val).
Proof.
  intros (Hd & Hc & data & Hv) H. unfold Set_ in H.
  erewrite M_bind_run in H by reflexivity. cbn [snd] in H. rewrite Hv in H. unfold rotating_Set in H.
  destruct (kp_UnixNano w) as [w1 nanos] eqn:Ht.
  erewrite M_bind_run in H by (unfold UnixNano; rewrite Ht; reflexivity).
  erewrite M_bind_run in H by reflexivity. cbn [snd] in H. rewrite Hd in H. cbv zeta in H.
  erewrite M_bind_run in H by reflexivity. apply onStorage_run in H as (w2 & b2 & Hput & [= -> ->]).
  cbn [fst snd] in Hput. destruct (put_holds _ _ _ _ _ _ _ Hc Hput) as (Hc' & Hgone & Hholds).
  split_and!; [split_and!; eauto|by unfold dataOf; rewrite Hv| |].
  - intros Hp Hg. apply Hgone; [done|]. pose proof (keeps_UnixNano (P:=λ w, gone w (Path d)) w Hg) as Hk. by rewrite Ht in Hk.
  - intros Hr Hf. eexists. split; [apply Hholds; [done|]|].
    + intros a. unfold toInterfaceMap. rewrite lookup_fmap, lookup_insert_ne, lookup_insert_eq by (apply keyName_active). by intros [= <-].
    + exists (keyName nanos). split; [apply keyName_active|]. unfold toInterfaceMap. rewrite !lookup_fmap, lookup_insert_eq.
      by rewrite lookup_insert_ne, lookup_insert_eq by apply keyName_active.
Qed.

(** A read of the single key. *)
Lemma single_Get_run name ns w k w' k' r :
  clientOf name ns k → single_Get (w, k) = Ret ((w', k'), r) →
  w' = w ∧ clientOf name ns k' ∧ dataOf k' = dataOf k ∧ (gone w (Path d) → ∀ val, r ≠ inr val).
Proof.
  intros (Hd & Hc & data & Hv) H. unfold single_Get in H.
  erewrite M_bind_run in H by reflexivity. cbn [snd] in H. rewrite Hd in H.
  apply M_bind_inv in H as [(e & Ha & ->)|(s1 & s & Ha & H)]; [by apply attempt_run in Ha as (x & [=] & _)|].
  apply attempt_run in Ha as (x & [= <-] & Ha). apply onStorage_run in Ha as (w1 & b1 & Hget & ->).
  destruct (get_answers _ _ _ _ _ _ Hc Hget) as (-> & Hc' & _ & Hnone).
  assert (clientOf name ns (set_storage b1 k)) as Hk by (split_and!; eauto).
  destruct s as [e|s]; [injection H as <- <- <-; by split_and!|].
  assert (w' = w ∧ k' = set_storage b1 k) as [-> ->] by (destruct (s !! Name d) as [[]|]; by injection H as <- <- _).
  split_and!; [done|done|by unfold dataOf|]. intros Hg val ->. by apply (Hnone Hg s).
Qed.

(** With no single key there is nothing to upgrade: the world stays. *)
Lemma Upgrade_none name ns w k w' k' r :
  clientOf name ns k → gone w (Path d) → Upgrade fuel tick (w, k) = Ret ((w', k'), r) →
  w' = w ∧ clientOf name ns k' ∧ dataOf k' = dataOf k.
Proof.
  intros Hk Hg H. pose proof Hk as (_ & _ & data & Hv). unfold Upgrade in H.
  erewrite M_bind_run in H by reflexivity. cbn [snd] in H. rewrite Hv in H.
  apply M_bind_inv in H as [(e & Ha & ->)|(s1 & s & Ha & H)]; [by apply attempt_run in Ha as (x & [=] & _)|].
  apply attempt_run in Ha as (x & [= <-] & Ha). destruct s1 as [w1 k1].
  destruct (single_Get_run _ _ _ _ _ _ _ Hk Ha) as (-> & Hk1 & Hdata & Hnone).
  destruct s as [e|val]; [|by destruct (Hnone Hg val)].
  assert (w' = w ∧ k' = k1) as [-> ->]; [|done]. destruct e; by injection H as <- <- _.
Qed.

Lemma step_ok {A} format (m : M (W * KMS B) A) s s' a : step_ format m s = Ret (s', inr a) → m s = Ret (s', inr a).
Proof.
  unfold step_. intros H. apply M_bind_ok in H as (s1 & x & Ha & H). apply attempt_run in Ha as (y & [= <-] & Ha).
  destruct x; [done|]. by apply mret_ok in H as [-> ->].
Qed.

(** C15: An upgrade moves the single key: it becomes the active key of the map, and only then is
    the single key deleted. *)
Theorem Upgrade_root_key name ns w k w1 k1 val w' k' :
  clientOf name ns k → Path d ≠ backendSecretName name →
  single_Get (w, k) = Ret ((w1, k1), inr val) →
  fresh (kp_UnixNano w).1 (keyName (kp_UnixNano w).2) →
  Upgrade fuel tick (w, k) = Ret ((w', k'), inr ()) →
  holdsKey w' name val ∧ gone w' (Path d).
Proof.
  intros Hk Hpath Hsingle Hfresh H. pose proof Hk as (_ & _ & data & Hv). unfold Upgrade in H.
  erewrite M_bind_run in H by reflexivity. cbn [snd] in H. rewrite Hv in H.
  erewrite M_bind_run in H by (unfold attempt; rewrite Hsingle; reflexivity). cbv beta iota in H.
  destruct (single_Get_run _ _ _ _ _ _ _ Hk Hsingle) as (-> & Hk1 & _).
  apply M_bind_ok in H as ([w2 k2] & [] & Hset & H). apply step_ok in Hset.
  pose proof (Set_active _ _ _ _ _ _ _ _ Hk1 Hset) as Hs. destruct (kp_UnixNano w) as [w3 nanos].
  destruct Hs as (Hk2 & _ & _ & Hheld). specialize (Hheld eq_refl Hfresh) as (m & Hm & Hact).
  apply M_bind_ok in H as ([w4 k4] & [] & Hdel & H). apply step_ok in Hdel. unfold single_Delete in Hdel.
  erewrite M_bind_run in Hdel by reflexivity. cbn [snd] in Hdel. destruct Hk2 as (Hd2 & Hc2 & data2 & Hv2). rewrite Hd2 in Hdel.
  apply onStorage_run in Hdel as (w5 & b5 & Hdel & [= -> ->]).
  destruct (delete_gone _ _ _ _ _ _ Hc2 Hdel) as (_ & Hkeep & Hgone).
  apply M_bind_ok in H as ([w6 k6] & deleted & Hobj & H). unfold deleteSingleStringSecret in Hobj.
  erewrite M_bind_run in Hobj by reflexivity. cbn [snd] in Hobj. unfold set_storage, deleteSecretObject in Hobj. cbn [k_driver] in Hobj.
  rewrite Hd2 in Hobj. destruct (KubeDelete fuel tick w5 (secretIn ns (Path d))) as [[w7 [x|]]|p] eqn:Hkube; cbn in Hobj; [|done..].
  injection Hobj as <- <- <-. destruct x; [|done]. injection H as <- <-.
  split; [|eapply kube_gone; [exact Hkube|by apply Hgone]]. exists m. split; [|done].
  eapply kube_holds; [exact Hkube|done|]. apply Hkeep; [done|exact Hm].
Qed.

(** *** The configuration and a new client touch no secret *)

Definition preserving (P : W → Prop) : relation W := λ w w', P w → P w'.
#[local] Instance preserving_preorder P : PreOrder (preserving P).
Proof. unfold preserving. split; intros x; [exact id|]. intros y z. auto. Qed.

Section Preserves.
Context (P : W → Prop) {PK : ProcessKeeps P}.

Lemma keeps_readsW {A} (f : W → outcome A) : keeps (preserving P) (readsW f).
Proof. intros w w' r. unfold readsW. destruct (f w); cbn; [|done]. by intros [= <- _]. Qed.
Lemma keeps_calls {A} (f : W → W * (msg + A)) wrap : (∀ w, P w → P (f w).1) → keeps (preserving P) (calls f wrap).
Proof. intros Hf w w' r. unfold calls. specialize (Hf w). destruct (f w). by intros [= <- _]. Qed.
Lemma keeps_runs f wrap : (∀ w, P w → P (f w).1) → keeps (preserving P) (runs f wrap).
Proof. intros Hf w w' r. unfold runs. specialize (Hf w). destruct (f w). by intros [= <- _]. Qed.
Lemma keeps_SafeSetEnv name value : keeps (preserving P) (SafeSetEnv name value).
Proof. intros w w' r. unfold SafeSetEnv. pose proof (keeps_Setenv w name value) as Hf. destruct (kp_Setenv _ _ _). by intros [= <- _]. Qed.

Lemma keeps_pair {S A X Y} {R : relation S} (x : X * Y) (f : X → Y → M S A) :
  (∀ a b, keeps R (f a b)) → keeps R (let '(a, b) := x in f a b).
Proof. by destruct x. Qed.
Lemma keeps_sum {S A X Y} {R : relation S} (x : X + Y) (f : X → M S A) (g : Y → M S A) :
  (∀ a, keeps R (f a)) → (∀ b, keeps R (g b)) → keeps R (match x with inl a => f a | inr b => g b end).
Proof. by destruct x. Qed.

#[local] Hint Resolve keeps_readsW keeps_SafeSetEnv keeps_pair keeps_sum : keeps.

Lemma keeps_writeCrtsToFile a b c : keeps (preserving P) (writeCrtsToFile a b c).
Proof.
  unfold writeCrtsToFile. apply (keeps_bind _); [by apply keeps_gets; apply _|]. intros found.
  apply keeps_if; [by apply keeps_ret; apply _|].
  apply (keeps_bind _); [apply keeps_calls, keeps_CreateTemp|]. intros file.
  apply (keeps_bind _); [apply keeps_runs; intros w; apply keeps_WriteFile|]. intros _.
  apply (keeps_bind _); [apply keeps_runs; intros w; apply keeps_Setenv|]. intros _. by apply keeps_ret; apply _.
Qed.
#[local] Hint Resolve keeps_writeCrtsToFile : keeps.
Lemma keeps_certFile a b c e f : keeps (preserving P) (certFile a b c e f).
Proof. unfold certFile. eauto 20 with keeps typeclass_instances. Qed.
#[local] Hint Resolve keeps_certFile : keeps.
Lemma keeps_keysFromSecret a b c : keeps (preserving P) (keysFromSecret a b c).
Proof. unfold keysFromSecret. eauto 20 with keeps typeclass_instances. Qed.
#[local] Hint Resolve keeps_keysFromSecret : keeps.

Lemma keeps_Config d' details token namespace : keeps (preserving P) (Config_ d' details token namespace).
Proof. unfold Config_, replacing, tlsConfig, createCertTempFile. destruct d'; eauto 20 with keeps typeclass_instances. Qed.
End Preserves.

(** Every registered driver keeps a map for the system it is made for. *)
Lemma NewDriver_version reg t name namespace uid d' :
  kmsDrivers = Ret reg → NewDriver t name namespace uid reg = Some d' → versionOf d' = VersionRotatingSecret None name namespace.
Proof.
  intros Hreg Hd.
  assert (∀ l reg0, Forall (λ x, ∀ n s u, versionOf (x.2 n s u) = VersionRotatingSecret None n s) l →
    (∀ t c, reg0 !! t = Some c → ∀ n s u, versionOf (c n s u) = VersionRotatingSecret None n s) →
    foldl (λ reg '(name, ctor), reg ← reg; match RegisterDriver name ctor reg with
                                           | inl e => Panic (Panicked (Error e)) | inr reg => Ret reg end) (Ret reg0) l = Ret reg →
    ∀ t c, reg !! t = Some c → ∀ n s u, versionOf (c n s u) = VersionRotatingSecret None n s) as Hall.
  { clear. induction l as [|[x c] l IH]; intros reg0 Hl Hreg0; cbn; [by intros [= <-]|]. apply Forall_cons in Hl as [Hc Hl].
    unfold RegisterDriver at 2. destruct (reg0 !! x) eqn:Hx.
    - clear IH. intros H. exfalso. revert H. induction l as [|[y c'] l IHl]; cbn; [done|]. apply IHl. by apply Forall_cons in Hl as [_ Hl].
    - apply IH; [done|]. intros t' c' [[<- <-]|[_ Ht]]%lookup_insert_Some; [exact Hc|by apply (Hreg0 t')]. }
  unfold NewDriver in Hd. apply fmap_Some in Hd as (c & Hc & ->). refine (Hall _ ∅ _ _ Hreg t c Hc name namespace uid).
  - repeat constructor.
  - intros t' c'. by rewrite lookup_empty.
Qed.

(** A new client of a system that has no single key: whatever it does and however it
    fails, the storage keeps what it held. *)
Lemma NewKMS_keeps reg details token name namespace uid (P : W → Prop) `{!ProcessKeeps P} w w' r :
  kmsDrivers = Ret reg → NewDriver (kmsType details) name namespace uid reg = Some d → gone w (Path d) →
  NewKMS fuel tick secrets_New details token name namespace uid w = Ret (w', r) →
  (P w → P w') ∧ gone w' (Path d) ∧ ∀ k, r = inr k → clientOf name namespace k ∧ dataOf k = None.
Proof.
  intros Hreg Hd Hg H. unfold NewKMS in H. cbv zeta in H. rewrite Hreg in H.
  apply M_bind_inv in H as [(e & Hl & _)|(w0 & reg' & Hl & H)]; [by apply lift_inv in Hl as (_ & ? & _ & [=])|].
  apply lift_ok in Hl as [<- [= <-]]. rewrite Hd in H.
  apply M_bind_inv in H as [(e & Hc & ->)|(w1 & c & Hc & H)].
  { pose proof (keeps_Config P _ _ _ _ _ _ _ Hc) as HP. pose proof (keeps_Config (λ w, gone w (Path d)) _ _ _ _ _ _ _ Hc Hg). done. }
  pose proof (keeps_Config P _ _ _ _ _ _ _ Hc) as HP. pose proof (keeps_Config (λ w, gone w (Path d)) _ _ _ _ _ _ _ Hc Hg) as Hg1.
  apply M_bind_inv in H as [(e & Hs & ->)|(w2 & b & Hs & H)]; [by rewrite (New_world _ _ _ _ _ Hs)|].
  pose proof (New_world _ _ _ _ _ Hs) as ->. pose proof (New_client _ _ _ _ _ Hs) as Hb.
  set (k := mkKMS b (versionOf d) (kmsType details) d) in *.
  assert (clientOf name namespace k) as Hk.
  { split_and!; [done|done|]. exists None. by eapply NewDriver_version. }
  destruct (Upgrade fuel tick (w1, k)) as [[[w3 k3] r3]|p] eqn:Hup; cbn in H; [|done]. injection H as <- <-.
  destruct (Upgrade_none _ _ _ _ _ _ _ Hk Hg1 Hup) as (-> & Hk3 & Hdata).
  split_and!; [done|done|]. intros k' Hr. destruct r3 as [e|[]]; [done|]. injection Hr as <-. split; [done|].
  rewrite Hdata. unfold k, dataOf. cbn. by rewrite (NewDriver_version _ _ _ _ _ _ Hreg Hd).
Qed.
End ActiveKey.
