(* ===== verification/KeyProtect.v ===== *)
(** * IBM Key Protect as a storage: [pkg/util/kms/kms_ibm_kp_storage.go].

    The keys are standard keys of the service, found by their name; a secret of the cluster
    tracks which of them is active.  The service is a parameter. *)

From S2P Require Import Prelude Effects GoStrings Types Kube Util SystemObjects KeyManagement.

Definition IbmBaseURLKey : string := "IBM_KP_BASE_URL".
Definition IbmTokenURLKey : string := "IBM_KP_TOKEN_URL".
Definition IBMKPActiveKeyID : string := "IBM_KP_ACTIVE_KEY_ID".
Definition IBMKPKeyPrefix : string := "IBM_KP_KEY_".
Definition pageLimit : nat := 2000.

Record IbmClient := mkIbmClient { ibc_BaseURL : string; ibc_APIKey : string; ibc_TokenURL : string; ibc_InstanceID : string }.
Record IbmKey := mkIbmKey { ibk_ID : string; ibk_Name : string }.

(** The client library: errors are their texts. *)
Class KeyProtect (W : Type) : Type := {
  DefaultBaseURL : string;
  DefaultTokenURL : string;
  ibm_NewWithLogger : IbmClient → option string;
  kp_GetKeys : IbmClient → W → nat → nat → string + list IbmKey;
  kp_GetKey : IbmClient → W → string → string + string;
  kp_CreateImportedStandardKey : IbmClient → W → string → string → W * (string + IbmKey);
  kp_DeleteKey : IbmClient → W → string → W * option string;
}.

Record ibmKpSecretStorage := mkIbmStorage { ibs_kp : IbmClient; ibs_secret : Secret }.
Definition set_ibs_secret (s : Secret) (b : ibmKpSecretStorage) : ibmKpSecretStorage := mkIbmStorage (ibs_kp b) s.

Section Storage.
Context {SL : SecretsLib} {W : Type} {KP : KmsProcess W} {SS : ApiServer W Secret} {IB : KeyProtect W}.

Definition getIbmParam (secretConfig : Config) (name : string) : M W string :=
  match secretConfig !! name with
  | Some v => lift (asString v)
  | None => gets (λ w, default ""%string (kp_LookupEnv w name))
  end.

Definition notSet (name : string) : error := TextError (name +:+ " is not set").

Definition NewIBMKpSecretStorage (secretConfig : Config) : M W ibmKpSecretStorage :=
  serviceAPIKey ← getIbmParam secretConfig IbmServiceAPIKey;
  if serviceAPIKey == "" then throw (notSet IbmServiceAPIKey) else
  instanceID ← getIbmParam secretConfig IbmInstanceIDKey;
  if instanceID == "" then throw (notSet IbmInstanceIDKey) else
  baseURL ← getIbmParam secretConfig IbmBaseURLKey;
  tokenURL ← getIbmParam secretConfig IbmTokenURLKey;
  let cc := mkIbmClient (if baseURL == "" then DefaultBaseURL else baseURL) serviceAPIKey
              (if tokenURL == "" then DefaultTokenURL else tokenURL) instanceID in
  match ibm_NewWithLogger cc with
  | Some text => throw (TextError text)
  | None =>
      match secretConfig !! IBMSecret with
      | None => throw (TextError "Missing IBM secret")
      | Some (CfgSecret secret) => mret (mkIbmStorage cc secret)
      | Some _ => lift (Panic TypeAssertion)
      end
  end.

(** The pages are looked through until one is empty. *)
Fixpoint getKeyByName (fuel : nat) (c : IbmClient) (w : W) (secretID : string) (pageNo : nat) : outcome (error + IbmKey) :=
  match fuel with
  | 0%nat => Panic Unfinished
  | S fuel =>
      match kp_GetKeys c w pageLimit (pageNo * pageLimit) with
      | inl text => Ret (inl (TextError text))
      | inr [] => Ret (inl ErrInvalidSecretId)
      | inr keys =>
          match List.find (λ k, ibk_Name k == secretID) keys with
          | Some k => Ret (inr k)
          | None => getKeyByName fuel c w secretID (pageNo + 1)
          end
      end
  end.

Context (fuel : nat).
Abbreviation Ibm := (M (W * ibmKpSecretStorage)).

(** [HasSuffix]: the name of a secret with several keys. *)
Definition isRotating (secretID : string) : bool := HasSuffix secretID "-root-master-key-backend".

Definition findKey (secretID : string) : Ibm IbmKey :=
  b ← state id;
  res ← reads (λ w, getKeyByName fuel (ibs_kp b) w secretID 0);
  match res with inl e => throw e | inr k => mret k end.

Definition tracked (b : ibmKpSecretStorage) (key : string) : option string := default ∅ (sec_StringData (ibs_secret b)) !! key.

Definition ibm_GetSecret (secretID : string) (keyContext : KeyContext) : Ibm SecretData :=
  b ← state id;
  '(secret, _) ← reads (λ w, KubeCheck w (ibs_secret b));
  do! update (set_ibs_secret secret) ;;
  b ← state id;
  activeKeyID ← (if isRotating secretID then
                   match tracked b IBMKPActiveKeyID with None => throw ErrInvalidSecretId | Some a => mret a end
                 else mret ""%string);
  keyNameToFind ← (if activeKeyID != "" then
                     match tracked b (IBMKPKeyPrefix +:+ activeKeyID) with None => throw ErrInvalidSecretId | Some n => mret n end
                   else mret secretID);
  key ← findKey keyNameToFind;
  payload ← reads (λ w, Ret (kp_GetKey (ibs_kp b) w (ibk_ID key)));
  match payload with
  | inl text => throw (TextError text)
  | inr payload =>
      mret (if activeKeyID != "" then <[activeKeyID := AnyString payload]> {[ActiveRootKey := AnyString activeKeyID]}
            else {[secretID := AnyString payload]})
  end.

(** The active key of a map and its value, or the value of a single key. *)
Definition valueToPut (secretID : string) (plainText : SecretData) : outcome (error + (string * string)) :=
  if isRotating secretID then
    match plainText !! ActiveRootKey with
    | None => Ret (inl (TextError "missing active_root_key in rotating secret format"))
    | Some (AnyString activeKey) =>
        match plainText !! activeKey with
        | None => Ret (inl (TextError ("missing value for active key " +:+ activeKey)))
        | Some (AnyString value) => Ret (inr (activeKey, value))
        | Some AnyValue => Panic TypeAssertion
        end
    | Some AnyValue => Panic TypeAssertion
    end
  else
    match plainText !! secretID with
    | None => Ret (inl (TextError ("invalid secret value format for secretID " +:+ secretID)))
    | Some (AnyString value) => Ret (inr (""%string, value))
    | Some AnyValue => Panic TypeAssertion
    end.

Definition createKey (name value : string) : Ibm IbmKey := λ '(w, b),
  let '(w, r) := kp_CreateImportedStandardKey (ibs_kp b) w name value in
  Ret ((w, b), match r with inl text => inl (TextError text) | inr k => inr k end).

(** [util.KubeUpdate] of the tracking secret. *)
Definition updateTracking : Ibm bool := λ '(w, b),
  '(w, s, updated) ← KubeUpdate w (ibs_secret b); Ret ((w, set_ibs_secret s b), inr updated).

Definition track (key value : string) : Ibm () :=
  b ← state id;
  sd ← lift (map_set (sec_StringData (ibs_secret b)) key value);
  update (set_ibs_secret (mkSecret (sec_meta (ibs_secret b)) sd (sec_Data (ibs_secret b)))).

Definition ibm_PutSecret (secretID : string) (plainText : SecretData) (keyContext : KeyContext) : Ibm () :=
  v ← lift (valueToPut secretID plainText);
  match v with
  | inl e => throw e
  | inr (activeKey, value) =>
      key ← createKey (if activeKey != "" then activeKey else secretID) value;
      if activeKey != "" then
        do! track IBMKPActiveKeyID activeKey ;;
        do! track (IBMKPKeyPrefix +:+ activeKey) (ibk_Name key) ;;
        updated ← updateTracking;
        b ← state id;
        if negb updated then throw (TextError ("failed to update IBM KP tracking secret " +:+ om_Name (sec_meta (ibs_secret b)) +:+
                                               " in ns " +:+ om_Namespace (sec_meta (ibs_secret b))))
        else mret ()
      else mret ()
  end.

Definition deleteKey (id : string) : Ibm () := λ '(w, b),
  let '(w, r) := kp_DeleteKey (ibs_kp b) w id in
  Ret ((w, b), match r with Some text => inl (TextError text) | None => inr () end).

Definition ibm_DeleteSecret (secretID : string) (keyContext : KeyContext) : Ibm () :=
  k ← findKey secretID; deleteKey (ibk_ID k).

#[export] Instance Ibm_Secrets : Secrets W ibmKpSecretStorage :=
  {| GetSecret := ibm_GetSecret; PutSecret := ibm_PutSecret; DeleteSecret := ibm_DeleteSecret |}.
End Storage.

(** ** Facts *)

(** Documented behaviour of the service: the keys are a list, [GetKeys] returns the page at
    an offset, and a new key is added at the end with its payload. *)
Class KeyProtectLaws (W : Type) `{KeyProtect W} {SS : ApiServer W Secret} (c : IbmClient) : Type := {
  keysOf : W → list IbmKey;
  GetKeys_page w limit offset : kp_GetKeys c w limit offset = inr (take limit (drop offset (keysOf w)));
  Create_added w name value w' key : kp_CreateImportedStandardKey c w name value = (w', inr key) →
    keysOf w' = keysOf w ++ [key] ∧ ibk_Name key = name ∧ kp_GetKey c w' (ibk_ID key) = inr value;
  Create_secrets w name value k : srv_Get (O:=Secret) (kp_CreateImportedStandardKey c w name value).1 k = srv_Get w k;
  (** The cluster: an updated secret has its string data in its data, and the service does
      not change. *)
  Update_data w (s : Secret) w' s' : srv_Update w s = (w', inr s') →
    ∃ x, srv_Get (O:=Secret) w' (ObjectKey s) = inr x ∧ default ∅ (sec_StringData s) ⊆ default ∅ (sec_Data x) ∧
      ObjectKey s' = ObjectKey s;
  Update_keys w (s : Secret) : keysOf (srv_Update w s).1 = keysOf w;
  Update_payload w (s : Secret) id : kp_GetKey c (srv_Update w s).1 id = kp_GetKey c w id;
}.

Lemma find_app_first {A} (f : A → bool) l1 l2 :
  List.find f (l1 ++ l2) = match List.find f l1 with Some x => Some x | None => List.find f l2 end.
Proof. induction l1 as [|x l1 IH]; cbn; [done|]. by destruct (f x). Qed.

Section Facts.
Context {SL : SecretsLib} {W : Type} {KP : KmsProcess W} {SS : ApiServer W Secret} {IB : KeyProtect W}.
Context (c : IbmClient) {L : KeyProtectLaws W c}.
Implicit Types (w : W) (b : ibmKpSecretStorage).

Definition named_ (name : string) (k : IbmKey) : bool := ibk_Name k == name.

(** The loop over the pages ends, and finds the first key of the name. *)
Lemma getKeyByName_finds fuel w name page :
  (length (drop (page * pageLimit) (keysOf w)) < fuel)%nat →
  getKeyByName fuel c w name page =
    Ret match List.find (named_ name) (drop (page * pageLimit) (keysOf w)) with Some k => inr k | None => inl ErrInvalidSecretId end.
Proof.
  revert page. induction fuel as [|fuel IH]; intros page Hlen; [lia|]. cbn [getKeyByName].
  rewrite GetKeys_page. set (rest := drop (page * pageLimit) (keysOf w)) in *.
  assert (drop ((page + 1) * pageLimit) (keysOf w) = drop pageLimit rest) as Hnext.
  { unfold rest. rewrite drop_drop. f_equal. lia. }
  rewrite <-(take_drop pageLimit rest) at 2. rewrite (find_app_first (named_ name)).
  destruct (take pageLimit rest) as [|k keys] eqn:Hpage.
  { assert (rest = []) as -> by (destruct rest; [done|discriminate Hpage]). done. }
  change (List.find (λ k0, ibk_Name k0 == name) (k :: keys)) with (List.find (named_ name) (k :: keys)).
  destruct (List.find (named_ name) (k :: keys)) as [k0|]; [done|].
  rewrite IH, Hnext; [done|]. rewrite Hnext, length_drop. destruct rest; [discriminate Hpage|]. cbn [length] in *. unfold pageLimit. lia.
Qed.

Lemma findKey_run fuel name w b :
  ibs_kp b = c → (length (keysOf w) < fuel)%nat →
  findKey fuel name (w, b) =
    Ret ((w, b), match List.find (named_ name) (keysOf w) with Some k => inr k | None => inl ErrInvalidSecretId end).
Proof.
  intros Hc Hf. unfold findKey. erewrite M_bind_run by reflexivity. cbn [snd id]. rewrite Hc.
  erewrite M_bind_run by (apply reads_run, (getKeyByName_finds fuel w name 0 Hf)). cbn [drop Nat.mul].
  by destruct (List.find _ _).
Qed.

Lemma track_run key value w b s' : track key value (w, b) = Ret (s', inr ()) →
  s'.1 = w ∧ ibs_kp s'.2 = ibs_kp b ∧ ObjectKey (ibs_secret s'.2) = ObjectKey (ibs_secret b) ∧
  sec_StringData (ibs_secret s'.2) = Some (<[key := value]> (default ∅ (sec_StringData (ibs_secret b)))).
Proof.
  unfold track. erewrite M_bind_run by reflexivity. cbn [snd id]. intros H. apply M_bind_ok in H as (s1 & sd & Hl & H).
  apply lift_ok in Hl as [<- Hsd]. injection H as <-. cbn. split_and!; [done..|]. revert Hsd. unfold map_set.
  destruct (sec_StringData _); [|done]. by intros [= <-].
Qed.

(** What a write of a map leaves: a key of the service, and a secret that tracks it. *)
Lemma ibm_PutSecret_stores id m ctx a v w b w' b' :
  isRotating id = true → m !! ActiveRootKey = Some (AnyString a) → m !! a = Some (AnyString v) → a ≠ ""%string → ibs_kp b = c →
  ibm_PutSecret id m ctx (w, b) = Ret ((w', b'), inr ()) →
  ibs_kp b' = c ∧ ∃ key x, keysOf w' = keysOf w ++ [key] ∧ ibk_Name key = a ∧ kp_GetKey c w' (ibk_ID key) = inr v ∧
    srv_Get (O:=Secret) w' (ObjectKey (ibs_secret b')) = inr x ∧
    default ∅ (sec_Data x) !! IBMKPActiveKeyID = Some a ∧ default ∅ (sec_Data x) !! (IBMKPKeyPrefix +:+ a) = Some a.
Proof.
  intros Hid Ha Hv Hne Hc H. unfold ibm_PutSecret in H.
  erewrite M_bind_run in H by (unfold valueToPut; rewrite Hid, Ha, Hv; reflexivity). cbv beta iota in H.
  rewrite bool_decide_eq_false_2 in H by done. cbn [negb] in H.
  apply M_bind_ok in H as (s1 & key & Hcr & H). unfold createKey in Hcr. rewrite Hc in Hcr.
  destruct (kp_CreateImportedStandardKey c w a v) as [w1 [text|k]] eqn:Hcreate; [done|]. injection Hcr as <- <-.
  destruct (Create_added _ _ _ _ _ Hcreate) as (Hkeys & Hname & Hpay).
  apply M_bind_ok in H as ([w2 b2] & [] & Ht1 & H). apply track_run in Ht1 as (Hw2 & Hk2 & Ho2 & Hd2). cbn in Hw2, Hk2, Ho2, Hd2. subst w2.
  apply M_bind_ok in H as ([w3 b3] & [] & Ht2 & H). apply track_run in Ht2 as (Hw3 & Hk3 & Ho3 & Hd3). cbn in Hw3, Hk3, Ho3, Hd3. subst w3.
  apply M_bind_ok in H as ([w4 b4] & updated & Hu & H). unfold updateTracking, KubeUpdate, fill in Hu.
  destruct (srv_Update w1 (ibs_secret b3)) as [w5 [e|s5]] eqn:Hup; cbn in Hu.
  { assert (updated = false) as -> by (revert Hu; repeat (case_match; cbn); congruence). by apply M_bind_ok in H as (s6 & b6 & [= <- <-] & H). }
  injection Hu as <- <- <-. apply M_bind_ok in H as (s6 & b6 & [= <- <-] & H). injection H as <- <-. cbn.
  destruct (Update_data _ _ _ _ Hup) as (x & Hget & Hsub & Hobj). split; [congruence|]. exists k, x.
  pose proof (Update_keys w1 (ibs_secret b3)) as Hk5. pose proof (Update_payload w1 (ibs_secret b3) (ibk_ID k)) as Hp5.
  rewrite Hup in Hk5, Hp5. cbn in Hk5, Hp5. rewrite Hk5, Hp5, Hobj. split_and!; try done; rewrite Hd3, Hd2, Hname in Hsub;
    eapply lookup_weaken; [|exact Hsub| |exact Hsub]; cbn.
  - by rewrite lookup_insert_ne, lookup_insert_eq by done.
  - by rewrite lookup_insert_eq.
Qed.

(** C17: A key that is written under a new name is what is read: the active key and its value,
    and nothing else of the map. *)
Theorem ibm_Put_Get fuel id m ctx ctx' a v w b w' b' :
  isRotating id = true → m !! ActiveRootKey = Some (AnyString a) → m !! a = Some (AnyString v) → a ≠ ""%string → ibs_kp b = c →
  List.find (named_ a) (keysOf w) = None → (length (keysOf w) + 1 < fuel)%nat →
  ibm_PutSecret id m ctx (w, b) = Ret ((w', b'), inr ()) →
  ∃ b'', ibm_GetSecret fuel id ctx' (w', b') = Ret ((w', b''), inr (<[a := AnyString v]> {[ActiveRootKey := AnyString a]})).
Proof.
  intros Hid Ha Hv Hne Hc Hnone Hf H.
  destruct (ibm_PutSecret_stores _ _ _ _ _ _ _ _ _ Hid Ha Hv Hne Hc H) as (Hc' & key & x & Hkeys & Hname & Hpay & Hget & Hact & Htrack).
  pose proof (KubeCheck_found _ _ _ Hget) as Hcheck.
  exists (set_ibs_secret (resetStringData x) b'). unfold ibm_GetSecret.
  erewrite M_bind_run by reflexivity. cbn [snd Datatypes.id]. erewrite M_bind_run by (apply reads_run; exact Hcheck). cbv beta iota.
  erewrite M_bind_run by reflexivity. erewrite M_bind_run by reflexivity. cbn [fst snd Datatypes.id]. rewrite Hid.
  erewrite M_bind_run by (unfold tracked; cbn; rewrite Hact; reflexivity).
  rewrite bool_decide_eq_false_2 by done. cbn [negb].
  erewrite M_bind_run by (unfold tracked; cbn -[IBMKPKeyPrefix String.append]; rewrite Htrack; reflexivity).
  erewrite M_bind_run.
  2:{ rewrite findKey_run; [|done|rewrite Hkeys, length_app; cbn; lia].
      rewrite Hkeys, find_app_first, Hnone. cbn. unfold named_. rewrite Hname, bool_decide_eq_true_2 by done. reflexivity. }
  cbn [set_ibs_secret ibs_kp]. rewrite Hc'. erewrite M_bind_run by (apply reads_run; reflexivity). by rewrite Hpay.
Qed.

(** The deletion of a map looks for a key that has the name of the map, which is not how the
    keys of a map are named: it fails, and the keys stay. *)
Theorem ibm_Delete_leaves fuel id m ctx ctx' a v w b w' b' :
  isRotating id = true → m !! ActiveRootKey = Some (AnyString a) → m !! a = Some (AnyString v) → a ≠ ""%string → ibs_kp b = c →
  List.find (named_ id) (keysOf w) = None → a ≠ id → (length (keysOf w) + 1 < fuel)%nat →
  ibm_PutSecret id m ctx (w, b) = Ret ((w', b'), inr ()) →
  ibm_DeleteSecret fuel id ctx' (w', b') = Ret ((w', b'), inl ErrInvalidSecretId).
Proof.
  intros Hid Ha Hv Hne Hc Hnone Hnid Hf H.
  destruct (ibm_PutSecret_stores _ _ _ _ _ _ _ _ _ Hid Ha Hv Hne Hc H) as (Hc' & key & x & Hkeys & Hname & _).
  unfold ibm_DeleteSecret. apply M_bind_err. rewrite findKey_run; [|done|rewrite Hkeys, length_app; cbn; lia].
  rewrite Hkeys, find_app_first, Hnone. cbn. unfold named_. by rewrite Hname, bool_decide_eq_false_2.
Qed.
End Facts.
