(* ===== verification/RootKey.v ===== *)
(** * The root key of a system: [pkg/system/phase2_creating.go] and [reconciler.go].

    The controller reads the root master key from the key management system, creates it
    when there is none, rotates it on a schedule, and mounts it into the pods through a
    secret.  The state is the cluster with the parts of the reconciler that this works on. *)

From Stdlib Require Import Sorting.Sorted.
From S2P Require Import Prelude Effects GoStrings Types Kube Util SystemObjects KeyManagement.

Record RootKeys := mkRootKeys {
  rk_NooBaa : NooBaa;
  rk_SecretRootMasterKey : string;
  rk_SecretRootMasterMap : Secret;
}.
Definition set_rk_NooBaa nb (r : RootKeys) : RootKeys := mkRootKeys nb (rk_SecretRootMasterKey r) (rk_SecretRootMasterMap r).
Definition set_rk_Key s (r : RootKeys) : RootKeys := mkRootKeys (rk_NooBaa r) s (rk_SecretRootMasterMap r).
Definition set_rk_Map s (r : RootKeys) : RootKeys := mkRootKeys (rk_NooBaa r) (rk_SecretRootMasterKey r) s.

Definition ConditionTypeKMSStatus : ConditionType := ConditionTypeOther "KMS-Status".
Definition ConditionTypeKMSType : ConditionType := ConditionTypeOther "KMS-Type".
Definition ConditionKMSInit : ConditionStatus := ConditionStatusOther "Init".
Definition ConditionKMSSync : ConditionStatus := ConditionStatusOther "Sync".
Definition ConditionKMSKeyRotate : ConditionStatus := ConditionStatusOther "KeyRotate".
Definition ConditionKMSInvalid : ConditionStatus := ConditionStatusOther "Invalid".
Definition ConditionKMSErrorRead : ConditionStatus := ConditionStatusOther "ErrorRead".
Definition ConditionKMSErrorWrite : ConditionStatus := ConditionStatusOther "ErrorWrite".
Definition ConditionKMSErrorSecretReconcile : ConditionStatus := ConditionStatusOther "ErrorSecretReconcile".

(** [cron] of robfig. *)
Class Cron : Type := {
  Schedule : Type;
  ParseStandard : string → msg + Schedule;
  schedule_Next : Schedule → Z → Z;
}.

Section RootKey.
Context {CA : ConditionApi} {CR : Cron} {SL : SecretsLib} {W B : Type} {KP : KmsProcess W}.
Context {SS : ApiServer W Secret} {CS : ControllerUtil W Secret} {ST : Secrets W B}.
Context (SetControllerReference : ObjectMeta → ObjectMeta → msg + ObjectMeta).
Context (fuel : nat) (tick : W → W) (secrets_New : string → Config → M W B).
(** [r.Request], the time of the reconcile, and [AddDate(0, -6, 0)], which depends on the
    time zone of the process. *)
Context (RequestName RequestNamespace : string) (now : Z) (sixMonthsBefore : Z → Z).
Context (sortByTime : list (string * Z) → list (string * Z)).

Abbreviation S := (W * RootKeys)%type.

Definition setCondition (t : ConditionType) (s : ConditionStatus) : M S () := update (λ r,
  let nb := rk_NooBaa r in let st := nb_Status nb in
  set_rk_NooBaa (mkNooBaa (nb_meta nb) (nb_Spec nb)
    (set_nbst_Phase (nbst_Phase st) (SetStatusCondition (nbst_Conditions st) (mkCondition t s (Lit "") (Lit "") now)) st)) r).
Definition setKMSConditionStatus (s : ConditionStatus) : M S () := setCondition ConditionTypeKMSStatus s.
Definition setKMSConditionType (t : string) : M S () := setCondition ConditionTypeKMSType (ConditionStatusOther t).

(** An error that is also recorded as the condition. *)
Definition failing {A} (s : ConditionStatus) (e : error) : M S A := do! setKMSConditionStatus s ;; throw e.

(** The map is never nil here.  The keys that were dropped are gone from the map of the
    caller too. *)
Definition reconcileSecretMap (data : gmap string string) : M S (gmap string string) :=
  match RemoveOldKeysFromSecret sortByTime data (sixMonthsBefore now) 50 with
  | inl e => throw (Errorf (Sprintf "Failed removing old keys from secret %w" [AMsg (Error e)]))
  | inr (data, numDeletedKeys) =>
      obj ← state rk_SecretRootMasterMap;
      obj ← ReconcileObject rk_NooBaa SetControllerReference obj
              (λ s, mret (mkSecret (sec_meta s) (Some data) (if (0 <? numDeletedKeys)%nat then None else sec_Data s)));
      do! update (set_rk_Map obj) ;;
      mret data
  end.

Definition reconcileSecretString (data : string) : M S () :=
  if data == "" then throw (Errorf (Lit "system Reconciler ReconcileSecretString data len is zero"))
  else update (set_rk_Key data).

#[local] Instance RootKeys_reconciler : SecretReconciler W RootKeys :=
  {| ReconcileSecretString := reconcileSecretString; ReconcileSecretMap := reconcileSecretMap |}.

(** Calls of the key management system. *)
Definition newKMS : M S (KMS B) := λ '(w, r),
  let spec := sec_KeyManagementService (nbs_Security (nb_Spec (rk_NooBaa r))) in
  '(w, x) ← NewKMS fuel tick secrets_New (kms_ConnectionDetails spec) (kms_TokenSecretName spec) RequestName RequestNamespace
              (om_UID (nb_meta (rk_NooBaa r))) w;
  Ret ((w, r), x).
Definition onKMS {A} (m : M (W * KMS B) A) (k : KMS B) : M S (KMS B * (error + A)) := λ '(w, r),
  '((w, k), x) ← m (w, k); Ret ((w, r), inr (k, x)).
Definition RandomBase64 (n : nat) : M S string := λ '(w, r), let '(w, s) := kp_RandomBase64 w n in Ret ((w, r), inr s).

(** [newKMS] with its error recorded. *)
Definition openKMS : M S (KMS B) :=
  k ← attempt newKMS; match k with inl e => failing ConditionKMSInvalid e | inr k => mret k end.
(** A new random key. *)
Definition setKey (k : KMS B) : M S (KMS B) :=
  key ← RandomBase64 32;
  '(k, res) ← onKMS (Set_ key) k;
  match res with inl e => failing ConditionKMSErrorWrite e | inr _ => mret k end.
(** The key is mounted. *)
Definition mountKey (k : KMS B) : M S () :=
  res ← attempt (Reconcile k);
  match res with inl e => failing ConditionKMSErrorSecretReconcile e | inr _ => mret () end.

Definition keyRotate : M S () :=
  key ← state rk_SecretRootMasterKey;
  if key != "" then throw (Errorf (Lit "Master root key rotation is not supported by the KMS backend"))
  else
    k ← openKMS;
    '(k, res) ← onKMS Get k;
    match res with
    | inl e => failing ConditionKMSErrorRead e
    | inr _ =>
        k ← setKey k;
        do! mountKey k ;;
        setKMSConditionStatus ConditionKMSKeyRotate
    end.

Definition setLastRotation : M S () := update (λ r,
  let nb := rk_NooBaa r in set_rk_NooBaa (mkNooBaa (nb_meta nb) (nb_Spec nb) (set_nbst_LastKeyRotateTime (Some now) (nb_Status nb))) r).

Definition ReconcileKeyRotation : M S () :=
  r ← state id;
  let spec := sec_KeyManagementService (nbs_Security (nb_Spec (rk_NooBaa r))) in
  if rk_SecretRootMasterKey r != "" then mret ()
  else if negb (kms_EnableKeyRotation spec) then mret ()
  else match ParseStandard (if kms_Schedule spec == "" then "0 0 1 * *" else kms_Schedule spec) with
       | inl m => throw (Errorf m)
       | inr schedule =>
           match nbst_LastKeyRotateTime (nb_Status (rk_NooBaa r)) with
           | None => setLastRotation
           | Some lastTime =>
               if (now <? schedule_Next schedule lastTime)%Z then mret ()
               else do! keyRotate ;; setLastRotation
           end
       end.

Definition ReconcileRootSecret : M S () :=
  k ← openKMS;
  do! setKMSConditionType (k_Type k) ;;
  '(k, res) ← onKMS Get k;
  '(k, conditionStatus) ←
    match res with
    | inr _ => mret (k, ConditionKMSSync)
    | inl ErrInvalidSecretId => k ← setKey k; mret (k, ConditionKMSInit)
    | inl e => failing ConditionKMSErrorRead e
    end;
  do! mountKey k ;;
  do! setKMSConditionStatus conditionStatus ;;
  ReconcileKeyRotation.

(** A client that cannot be made does not block the deletion of a system. *)
Definition deleteRootSecret : M S () :=
  k ← attempt newKMS;
  match k with
  | inl _ => mret ()
  | inr k =>
      '(_, res) ← onKMS (Delete fuel tick) k;
      match res with inl e => throw (Errorf (Sprintf "deleteRootSecret: %v" [AMsg (Error e)])) | inr _ => mret () end
  end.
End RootKey.

(** ** Facts *)

Section Facts.
Context {CA : ConditionApi} {CR : Cron} {SL : SecretsLib} {W B : Type} {KP : KmsProcess W}.
Context {SS : ApiServer W Secret} {CS : ControllerUtil W Secret} {CL : ControllerUtilLaws W Secret} {ST : Secrets W B}.
Context (SetControllerReference : ObjectMeta → ObjectMeta → msg + ObjectMeta).
Context (fuel : nat) (tick : W → W) (secrets_New : string → Config → M W B).
Context (RequestName RequestNamespace : string) (now : Z) (sixMonthsBefore : Z → Z).
Context (sortByTime : list (string * Z) → list (string * Z)).
Context (sort_perm : ∀ l, sortByTime l ≡ₚ l) (sort_sorted : ∀ l, byTime (sortByTime l)).
Context (reference_key : ∀ o m m', SetControllerReference o m = inr m' → om_Name m' = om_Name m ∧ om_Namespace m' = om_Namespace m).
Context {d : Driver} {L : StorageLaws fuel tick secrets_New d}.
Implicit Types (w : W) (r : RootKeys).

Abbreviation open := (openKMS fuel tick secrets_New RequestName RequestNamespace now).
Abbreviation mount := (mountKey SetControllerReference now sixMonthsBefore sortByTime).
Abbreviation rotate := (ReconcileKeyRotation SetControllerReference fuel tick secrets_New RequestName RequestNamespace now sixMonthsBefore sortByTime).
Abbreviation reconcile := (ReconcileRootSecret SetControllerReference fuel tick secrets_New RequestName RequestNamespace now sixMonthsBefore sortByTime).

(** The system uses this driver. *)
Definition usesDriver r : Prop := ∃ reg, kmsDrivers = Ret reg ∧
  NewDriver (kmsType (kms_ConnectionDetails (sec_KeyManagementService (nbs_Security (nb_Spec (rk_NooBaa r))))))
    RequestName RequestNamespace (om_UID (nb_meta (rk_NooBaa r))) reg = Some d.

(** Nothing that decides on rotation differs. *)
Definition sameKeys r r' : Prop :=
  rk_SecretRootMasterKey r' = rk_SecretRootMasterKey r ∧ nb_Spec (rk_NooBaa r') = nb_Spec (rk_NooBaa r) ∧
  nbst_LastKeyRotateTime (nb_Status (rk_NooBaa r')) = nbst_LastKeyRotateTime (nb_Status (rk_NooBaa r)) ∧
  rk_SecretRootMasterMap r' = rk_SecretRootMasterMap r.

Lemma sameKeys_refl r : sameKeys r r.
Proof. done. Qed.
Lemma sameKeys_trans r1 r2 r3 : sameKeys r1 r2 → sameKeys r2 r3 → sameKeys r1 r3.
Proof. unfold sameKeys. intros (?&?&?&?) (?&?&?&?). split_and!; congruence. Qed.

Lemma setCondition_run t s w r s' x : setCondition now t s (w, r) = Ret (s', x) → s'.1 = w ∧ sameKeys r s'.2 ∧ x = inr ().
Proof. intros [= <- <-]. done. Qed.

Lemma failing_run {A} s e w r s' (x : error + A) : failing now s e (w, r) = Ret (s', x) → s'.1 = w ∧ sameKeys r s'.2 ∧ x = inl e.
Proof.
  intros H. unfold failing in H. apply M_bind_inv in H as [(e' & Hs & ->)|(s1 & [] & Hs & H)].
  - by apply setCondition_run in Hs as (_ & _ & [=]).
  - apply setCondition_run in Hs as (Hw & Hk & _). destruct s1. by injection H as <- <-.
Qed.

(** When a rotation is due. *)
Definition rotationDue r : bool :=
  let spec := sec_KeyManagementService (nbs_Security (nb_Spec (rk_NooBaa r))) in
  (rk_SecretRootMasterKey r == "") && kms_EnableKeyRotation spec &&
  match ParseStandard (if kms_Schedule spec == "" then "0 0 1 * *" else kms_Schedule spec),
        nbst_LastKeyRotateTime (nb_Status (rk_NooBaa r)) with
  | inr schedule, Some last => negb (now <? schedule_Next schedule last)%Z
  | _, _ => false
  end.

Lemma rotationDue_same r r' : sameKeys r r' → rotationDue r' = rotationDue r.
Proof. intros (Hk & Hs & Hl & _). unfold rotationDue. by rewrite Hk, Hs, Hl. Qed.

(** A rotation that is not due leaves the cluster alone. *)
Lemma ReconcileKeyRotation_idle w r s' x : rotationDue r = false → rotate (w, r) = Ret (s', x) → s'.1 = w.
Proof.
  unfold ReconcileKeyRotation, rotationDue. intros Hdue H. erewrite M_bind_run in H by reflexivity. cbn [snd id] in H. cbv zeta in H.
  destruct (rk_SecretRootMasterKey r == ""); [|by injection H as <- _]. cbn [andb negb] in *.
  destruct (kms_EnableKeyRotation _); [|by injection H as <- _]. cbn [andb negb] in *.
  destruct (ParseStandard _) as [m|schedule]; [by injection H as <- _|].
  destruct (nbst_LastKeyRotateTime _) as [last|]; [|by injection H as <- _].
  destruct (now <? schedule_Next schedule last)%Z; [by injection H as <- _|done].
Qed.

#[local] Instance holdsKey_process name val : ProcessKeeps (λ w, holdsKey w name val).
Proof.
  split; intros w; unfold holdsKey; intros; destruct_and?; match goal with H : ∃ m, _ |- _ => destruct H as (m & Hm & Ha) end;
    exists m; (split; [|done]); revert Hm.
  - apply (keeps_Setenv (P:=λ w, holds w _ m)).
  - apply (keeps_CreateTemp (P:=λ w, holds w _ m)).
  - apply (keeps_WriteFile (P:=λ w, holds w _ m)).
  - apply (keeps_UnixNano (P:=λ w, holds w _ m)).
  - apply (keeps_RandomBase64 (P:=λ w, holds w _ m)).
Qed.

Lemma openKMS_run val w r s' x :
  usesDriver r → gone w (Path d) → holdsKey w RequestName val → open (w, r) = Ret (s', x) →
  holdsKey s'.1 RequestName val ∧ gone s'.1 (Path d) ∧ sameKeys r s'.2 ∧ ∀ k, x = inr k → clientOf RequestName RequestNamespace k.
Proof.
  intros (reg & Hreg & Hd) Hg Hh H. unfold openKMS in H.
  apply M_bind_inv in H as [(e & Ha & ->)|(s1 & k & Ha & H)]; [by apply attempt_run in Ha as (y & [=] & _)|].
  apply attempt_run in Ha as (y & [= <-] & Ha). unfold newKMS in Ha. cbv zeta in Ha.
  destruct (NewKMS _ _ _ _ _ _ _ _ w) as [[w1 y]|p] eqn:Hnew; cbn in Ha; [|done]. injection Ha as <- <-.
  destruct (NewKMS_keeps _ _ _ _ _ _ (λ w, holdsKey w RequestName val) _ _ _ Hreg Hd Hg Hnew) as (Hh' & Hg' & Hk).
  destruct y as [e|k].
  - apply failing_run in H as (Hw & Hs & ->). rewrite Hw. split_and!; auto. done.
  - injection H as <- <-. split_and!; auto; [done|]. intros k' [= <-]. by apply Hk.
Qed.

(** The secret that is mounted is none of those that the storage keeps. *)
Definition mountsElsewhere r : Prop := ∀ w r1 desired w' r' x m,
  rk_SecretRootMasterMap r1 = rk_SecretRootMasterMap r →
  ReconcileObject rk_NooBaa SetControllerReference (rk_SecretRootMasterMap r) desired (w, r1) = Ret ((w', r'), x) →
  holds w (backendSecretName RequestName) m → holds w' (backendSecretName RequestName) m.

(** What the cluster took over last: the secret of this key, with the keys of a map in its
    strings, from which only keys that are older than six months are left out. *)
Definition mountedMap w' (key : ObjectKeyT) (data : gmap string string) : Prop := ∃ w o strings,
  accepted w o w' ∧ ObjectKey o = key ∧ sec_StringData o = Some strings ∧
  strings ⊆ data ∧ strings !! ActiveRootKey = data !! ActiveRootKey ∧
  ∀ k v, data !! k = Some v → strings !! k = Some v ∨ ∃ t, keyTime k = inr t ∧ (t < sixMonthsBefore now)%Z.
Definition activeOf (data : gmap string string) val : Prop := ∃ a, data !! ActiveRootKey = Some a ∧ data !! a = Some val.

Lemma ReconcileSecret_state (obj : Secret) (f : Secret → Secret) w r w' r' x :
  ReconcileObject rk_NooBaa SetControllerReference obj (λ s, mret (f s)) (w, r) = Ret ((w', r'), x) → r' = r.
Proof.
  unfold ReconcileObject, reconcileObject. intros H.
  assert (∃ y, reconcileObjectAndGetResult rk_NooBaa SetControllerReference obj (λ s, mret (f s)) false (w, r) = Ret ((w', r'), y)) as (y & Hy).
  { apply M_bind_inv in H as [(e & He & ->)|(s1 & [a b] & Ha & Hb)]; [eauto|]. injection Hb as <- _. eauto. }
  revert Hy. unfold reconcileObjectAndGetResult. destruct (Own _ _ obj) as [owned|p]; cbn; [|done].
  destruct (CreateOrUpdate w r owned _) as [[[[[w1 r1] o1] op] err]|p] eqn:Hc; cbn; [|done]. intros [= <- <- _].
  destruct (CreateOrUpdate_state _ _ _ _ _ _ _ _ _ Hc) as [->|(base & res & _ & Hf)]; [done|]. by injection Hf as -> _.
Qed.

Lemma reconcileSecretMap_run r0 data val w r w' r' x :
  mountsElsewhere r0 → rk_SecretRootMasterMap r = rk_SecretRootMasterMap r0 →
  reconcileSecretMap SetControllerReference now sixMonthsBefore sortByTime data (w, r) = Ret ((w', r'), x) →
  holdsKey w RequestName val →
  holdsKey w' RequestName val ∧ rotationDue r' = rotationDue r ∧
  ∀ data', x = inr data' → mountedMap w' (ObjectKey (rk_SecretRootMasterMap r0)) data.
Proof.
  intros Helse Hmap H (m & Hm & Hact). unfold reconcileSecretMap in H.
  destruct (RemoveOldKeysFromSecret _ _ _ _) as [e|[data1 n]] eqn:Hrem; [injection H as <- <- <-; split_and!; [by exists m|done|done]|].
  erewrite M_bind_run in H by reflexivity. cbn [snd] in H. rewrite Hmap in H.
  apply M_bind_inv in H as [(e & Hr & ->)|([w1 r1] & obj & Hr & H)].
  { pose proof (ReconcileSecret_state _ _ _ _ _ _ _ Hr) as ->. split_and!; [|done|done]. exists m. split; [|done].
    eapply Helse; [exact Hmap|exact Hr|done]. }
  pose proof (ReconcileSecret_state _ _ _ _ _ _ _ Hr) as ->.
  erewrite M_bind_run in H by reflexivity. injection H as <- <- <-. split_and!; [|done|].
  { exists m. split; [|done]. eapply Helse; [exact Hmap|exact Hr|done]. }
  intros data' [= <-]. destruct (RemoveOldKeysFromSecret_subset _ sort_perm sort_sorted _ _ _ _ _ Hrem) as (Hsub & Hp & Hkept).
  destruct (ReconcileObject_ok _ _ _ _ _ _ _ _ _ Hr) as (owned & base & o & op & y & Hown & _ & Hf & Hkey & Happ & _).
  apply mret_ok in Hf as [_ <-]. eexists w, _, data1. split; [by eapply applied_accepted|]. split; [|done].
  transitivity (ObjectKey owned); [exact Hkey|]. exact (Own_ObjectKey _ _ _ _ reference_key Hown).
Qed.

Lemma mountKey_run r0 k val w r w' r' x :
  mountsElsewhere r0 → rk_SecretRootMasterMap r = rk_SecretRootMasterMap r0 → clientOf RequestName RequestNamespace k →
  mount k (w, r) = Ret ((w', r'), x) → holdsKey w RequestName val →
  holdsKey w' RequestName val ∧ rotationDue r' = rotationDue r ∧ (x = inr () → ∃ data, dataOf k = Some data ∧ mountedMap w' (ObjectKey (rk_SecretRootMasterMap r0)) data).
Proof.
  intros Helse Hmap (_ & _ & data & Hv) H Hh. unfold mountKey in H.
  apply M_bind_inv in H as [(e & Ha & ->)|([w1 r1] & res & Ha & H)]; [by apply attempt_run in Ha as (y & [=] & _)|].
  apply attempt_run in Ha as (y & [= <-] & Ha). unfold Reconcile in Ha. rewrite Hv in Ha.
  destruct data as [data|]; [|done].
  assert (w' = w1 ∧ rotationDue r' = rotationDue r1 ∧ (x = inr () → ∃ k', res = inr k')) as (-> & -> & Hx).
  { destruct res as [e|k']; [|injection H as <- <- <-; eauto]. apply failing_run in H as (Hw & Hs & ->). cbn in Hw, Hs. subst.
    split_and!; [done|by apply rotationDue_same|done]. }
  apply M_bind_inv in Ha as [(e & Hr & ->)|([w2 r2] & data' & Hr & Ha)];
    destruct (reconcileSecretMap_run _ _ _ _ _ _ _ _ Helse Hmap Hr Hh) as (Hh' & Hdue & Hm).
  - split_and!; [done|done|]. intros [k' [=]]%Hx.
  - injection Ha as <- <- <-. split_and!; [done|done|]. intros _. exists data. unfold dataOf. rewrite Hv. eauto.
Qed.


Lemma setKey_run k w r s' x :
  clientOf RequestName RequestNamespace k → setKey now k (w, r) = Ret (s', x) →
  sameKeys r s'.2 ∧ ∀ k', x = inr k' →
    let '(w1, new) := kp_RandomBase64 w 32 in let '(w2, nanos) := kp_UnixNano w1 in let key := keyName nanos in
    clientOf RequestName RequestNamespace k' ∧
    dataOf k' = Some (<[key := new]> (<[ActiveRootKey := key]> (default ∅ (dataOf k)))) ∧
    (fresh w2 key → holdsKey s'.1 RequestName new).
Proof.
  intros Hk H. unfold setKey in H. destruct (kp_RandomBase64 w 32) as [w1 new] eqn:Hrnd.
  erewrite M_bind_run in H by (unfold RandomBase64; rewrite Hrnd; reflexivity).
  apply M_bind_inv in H as [(e & Hs & ->)|([w3 r3] & [k3 res] & Hs & H)];
    unfold onKMS in Hs; destruct (Set_ new (w1, k)) as [[[w4 k4] y]|p] eqn:Hset; cbn in Hs; try done.
  injection Hs as <- <- <- <-. pose proof (Set_active _ _ _ _ _ _ _ _ Hk Hset) as Hact.
  destruct y as [e|[]].
  - apply failing_run in H as (_ & Hs & ->). done.
  - injection H as <- <-. split; [done|]. intros k' [= <-]. destruct (kp_UnixNano w1) as [w2 nanos].
    destruct Hact as (Hk4 & Hdata & _ & Hh). split_and!; [done|done|]. by apply Hh.
Qed.

(** C14: A rotation that succeeds: the storage holds as the active key the random string that
    was drawn once the client was made, and the last thing that was put into the cluster is
    the secret that the pods mount, with that key as the active one and with the key that was
    active before, unless that is older than six months. *)
Theorem keyRotate_keeps_old val w r w' r' :
  usesDriver r → mountsElsewhere r → gone w (Path d) → holdsKey w RequestName val →
  (∀ w0, fresh (kp_UnixNano w0).1 (keyName (kp_UnixNano w0).2)) →
  keyRotate SetControllerReference fuel tick secrets_New RequestName RequestNamespace now sixMonthsBefore sortByTime (w, r) =
    Ret ((w', r'), inr ()) →
  ∃ w0 r0 k data old, let new := (kp_RandomBase64 w0 32).2 in
    open (w, r) = Ret ((w0, r0), inr k) ∧ holdsKey w' RequestName new ∧
    mountedMap w' (ObjectKey (rk_SecretRootMasterMap r)) data ∧ activeOf data new ∧ data !! old = Some val.
Proof.
  intros Hd Helse Hg Hh Hclock H. unfold keyRotate in H.
  erewrite M_bind_run in H by reflexivity. cbn [snd] in H. destruct (rk_SecretRootMasterKey r == ""); [|done]. cbn [negb] in H.
  apply M_bind_ok in H as ([w1 r1] & k & Ho & H).
  destruct (openKMS_run _ _ _ _ _ Hd Hg Hh Ho) as (Hh1 & _ & Hs1 & Hk). specialize (Hk k eq_refl). cbn in Hh1, Hs1.
  apply M_bind_ok in H as ([w2 r2] & [k2 res] & Hget & H).
  unfold onKMS in Hget. destruct (Get (w1, k)) as [[[w3 k3] y]|p] eqn:HGet; cbn in Hget; [|done]. injection Hget as <- <- <- <-.
  destruct (Get_active _ _ _ _ _ _ _ Hk HGet) as (-> & Hk3 & Hread). destruct Hh1 as (m & Hm & Hact).
  destruct y as [e|[]]; [by apply failing_run in H as (_ & _ & [=])|].
  destruct (Hread m val Hm Hact) as [_ Hr]. destruct (Hr eq_refl) as (data & a & Hdata & Ha & Hval & Hna & Hkeys). clear Hr Hread.
  apply M_bind_ok in H as ([w4 r4] & k4 & Hset & H). pose proof (setKey_run _ _ _ _ _ Hk3 Hset) as [Hs4 Hk4]. specialize (Hk4 k4 eq_refl).
  destruct (kp_RandomBase64 w1 32) as [w5 new] eqn:Hrnd. pose proof (Hclock w5) as Hfresh.
  assert (holds (kp_UnixNano w5).1 (backendSecretName RequestName) m) as Hm5.
  { apply (keeps_UnixNano (P:=λ w, holds w _ m)). pose proof (keeps_RandomBase64 (P:=λ w, holds w (backendSecretName RequestName) m) w1 32 Hm) as Hq.
    by rewrite Hrnd in Hq. }
  destruct (kp_UnixNano w5) as [w6 nanos]. cbn in Hfresh, Hm5. destruct Hk4 as (Hk4 & Hdata4 & Hh4). specialize (Hh4 Hfresh).
  assert (∀ key0, is_Some (data !! key0) → key0 ≠ keyName nanos) as Hne.
  { intros key0 Hin ->. destruct (Hkeys _ Hin) as [v Hv]. by apply (holds_not_fresh _ _ _ _ _ Hm5 Hv). }
  apply M_bind_ok in H as ([w7 r7] & [] & Hmount & H).
  assert (rk_SecretRootMasterMap r4 = rk_SecretRootMasterMap r) as Hmap.
  { pose proof (sameKeys_trans _ _ _ Hs1 Hs4) as (_ & _ & _ & Hq). exact Hq. }
  destruct (mountKey_run _ _ new _ _ _ _ _ Helse Hmap Hk4 Hmount Hh4) as (Hh7 & _ & Hmounted).
  destruct (Hmounted eq_refl) as (data7 & Hdata7 & Hm7). rewrite Hdata4, Hdata in Hdata7. injection Hdata7 as <-.
  injection H as <- <-. exists w1, r1, k, (<[keyName nanos := new]> (<[ActiveRootKey := keyName nanos]> data)), a.
  rewrite Hrnd. cbv zeta. cbn [snd]. split_and!; [done|done|exact Hm7| |].
  - exists (keyName nanos). by rewrite lookup_insert_ne, lookup_insert_eq, lookup_insert_eq by apply keyName_active.
  - rewrite lookup_insert_ne by (apply not_eq_sym, Hne; eauto). by rewrite lookup_insert_ne.
Qed.
End Facts.
