(* ===== verification/DbConfig.v ===== *)
(** * Settings of the database cluster: [pkg/system/db_reconciler.go].

    The functions that compute what the database cluster is asked for: its version and
    image, its volume, the parameters of PostgreSQL, and the schedule of its backups.
    Numbers are 64-bit integers: products wrap, quotients round towards zero, and a
    division by zero panics. *)

From Stdlib Require Import Ascii.
From stdpp Require Import pretty.
From S2P Require Import Prelude GoStrings Types Kube Util Tls Profiles Quota SystemServices SystemVerifying.

Definition noobaaDBUser : string := "noobaa".
Definition noobaaDBName : string := "nbcore".
Definition defaultCalcMemoryKB : Z := 16 * 1024 * 1024.
Definition defaultCalcCPU : Z := 4.
Definition defaultFailoverDelaySec : Z := 30.

(** [options.DBImage], [options.PostgresMajorVersion] and [options.DefaultDBVolumeSize]
    are flags with these defaults. *)
Record DbOptions := mkDbOptions {
  opt_DBImage : string;
  opt_PostgresMajorVersion : Z;
  opt_DefaultDBVolumeSize : string;
}.
Definition defaultDbOptions : DbOptions := mkDbOptions "quay.io/sclorg/postgresql-16-c9s" 16 "50Gi".

Definition getDesiredMajorVersion (opts : DbOptions) (dbSpec : NooBaaDBSpec) : Z :=
  default (opt_PostgresMajorVersion opts) (dbs_PostgresMajorVersion dbSpec).

Definition getDesiredDbImage (opts : DbOptions) (dbSpec : NooBaaDBSpec) : string :=
  default (opt_DBImage opts) (dbs_DBImage dbSpec).

(** ** Parameters of PostgreSQL *)

(** [x / y]. *)
Definition divide (x y : Z) : outcome Z :=
  if (y =? 0)%Z then Panic (Panicked (Lit "runtime error: integer divide by zero")) else Ret (Z.quot x y).

Definition gbInKB : Z := 1024 * 1024.
Definition mbInKB : Z := 1024.

Definition formatBytesKB (kb : Z) : string :=
  if (gbInKB <=? kb)%Z && (Z.rem kb gbInKB =? 0)%Z then pretty (Z.quot kb gbInKB) +:+ "GB"
  else if (mbInKB <=? kb)%Z && (Z.rem kb mbInKB =? 0)%Z then pretty (Z.quot kb mbInKB) +:+ "MB"
  else pretty kb +:+ "kB".

Definition walKeepSizeMB (volumeBytes : Z) : Z :=
  let volMB := Z.quot volumeBytes (1024 * 1024) in
  let walKeepMB := Z.quot (int64 (volMB * 12)) 100 in
  let walKeepMB := if (walKeepMB >? 16 * 1024)%Z then 16 * 1024 else walKeepMB in
  if (walKeepMB <? 1024)%Z then 1024 else walKeepMB.

Definition calculateWalKeepSize {QA : QuantityApi} (dataVolumeSize : string) : string :=
  match ParseQuantity dataVolumeSize with
  | inl _ => "6GB"
  | inr qty => formatBytesKB (int64 (walKeepSizeMB (Quantity_Value qty) * 1024))
  end.

Definition calculateMaxConnections (numEndpoints : Z) : Z := int64 (3 * 20 + int64 (numEndpoints * 80) + 3).

Definition maintenanceWorkMemKB (totalMemoryKB : Z) : Z :=
  let kb := Z.quot totalMemoryKB 16 in
  if (kb >? 8 * 1024 * 1024)%Z then 8 * 1024 * 1024 else kb.

Definition walBuffersKB (sharedBuffersKB : Z) : Z :=
  let kb := Z.quot (int64 (3 * sharedBuffersKB)) 100 in
  let kb := if (kb >? 16 * 1024)%Z then 16 * 1024 else if (kb >? 14 * 1024)%Z then 16 * 1024 else kb in
  if (kb <? 32)%Z then 32 else kb.

(** The workers of a query, for four cores or more. *)
Definition workersPerGather (cpuNum : Z) : Z :=
  let n := Z.quot (int64 (cpuNum + 1)) 2 in if (n >? 4)%Z then 4 else n.

Definition parallelParams (cpuNum : Z) : gmap string string :=
  if (4 <=? cpuNum)%Z then
    list_to_map [("max_worker_processes", pretty cpuNum);
                 ("max_parallel_workers", pretty cpuNum);
                 ("max_parallel_workers_per_gather", pretty (workersPerGather cpuNum));
                 ("max_parallel_maintenance_workers", pretty (workersPerGather cpuNum))]%string
  else ∅.

(** The workers that share the memory: the default of PostgreSQL, or one per core. *)
Definition parallelForWorkMem (cpuNum : Z) : Z := if (4 <=? cpuNum)%Z then cpuNum else 8.

Definition workMemKB (totalMemoryKB sharedBuffersKB maxConnections workers : Z) : outcome Z :=
  kb ← divide (int64 (totalMemoryKB - sharedBuffersKB)) (int64 (int64 (maxConnections + workers) * 3));
  Ret (if (kb <? 4 * 1024)%Z then 4 * 1024 else kb).

Definition calculatePGConfig {QA : QuantityApi} (totalMemoryKB cpuNum numEndpoints : Z) (dataVolumeSize : string) :
    outcome (gmap string string) :=
  let maxConnections := calculateMaxConnections numEndpoints in
  let sharedBuffersKB := Z.quot totalMemoryKB 4 in
  workMem ← workMemKB totalMemoryKB sharedBuffersKB maxConnections (parallelForWorkMem cpuNum);
  Ret (list_to_map [("shared_buffers", formatBytesKB sharedBuffersKB);
                    ("effective_cache_size", formatBytesKB (Z.quot (int64 (totalMemoryKB * 3)) 4));
                    ("maintenance_work_mem", formatBytesKB (maintenanceWorkMemKB totalMemoryKB));
                    ("wal_buffers", formatBytesKB (walBuffersKB sharedBuffersKB));
                    ("max_connections", pretty maxConnections);
                    ("work_mem", formatBytesKB workMem);
                    ("wal_keep_size", calculateWalKeepSize dataVolumeSize)]%string
       ∪ parallelParams cpuNum).

Definition defaultParameters : gmap string string := list_to_map
  [("huge_pages", "off"); ("checkpoint_completion_target", "0.9"); ("default_statistics_target", "100");
   ("random_page_cost", "1.1"); ("effective_io_concurrency", "300"); ("min_wal_size", "2GB"); ("max_wal_size", "8GB");
   ("jit", "off"); ("wal_compression", "lz4"); ("wal_level", "replica"); ("wal_sender_timeout", "60s");
   ("wal_receiver_timeout", "60s"); ("pg_stat_statements.track", "all")]%string.

Section Settings.
Context {QA : QuantityApi}.
(** [os.Getenv], for the TLS switch. *)
Context (Getenv : string → string).

(** [l.Memory()] and [l.Cpu()]: the zero quantity when the list has no entry. *)
Definition resourceOf (l : option (gmap string Quantity)) (name : string) : Quantity := default Quantity_zero (rl_lookup l name).

(** The first of the limit and the request that is not zero. *)
Definition limitOrRequest (res : ResourceRequirements QA) (name : string) : option Quantity :=
  if negb (Quantity_IsZero (resourceOf (rr_Limits res) name)) then Some (resourceOf (rr_Limits res) name)
  else if negb (Quantity_IsZero (resourceOf (rr_Requests res) name)) then Some (resourceOf (rr_Requests res) name)
  else None.

Definition calcMemoryKB (res : ResourceRequirements QA) : Z :=
  match limitOrRequest res ResourceMemory with
  | Some q => Z.quot (Quantity_Value q) 1024
  | None => defaultCalcMemoryKB
  end.

Definition calcCPU (res : ResourceRequirements QA) : Z :=
  let cpuNum := match limitOrRequest res ResourceCPU with
                | Some q => Z.quot (Quantity_MilliValue q) 1000
                | None => defaultCalcCPU
                end in
  if (cpuNum <? 1)%Z then 1 else cpuNum.

(** The TLS settings of the system for the server of the database. *)
Definition tlsParameters (tlsSec : option TLSSecuritySpec) : gmap string string :=
  match tlsSec with
  | None => ∅
  | Some tls =>
      if IsTLSConfigDisabled Getenv then ∅
      else match tls_TLSCiphers tls with [] => ∅ | ciphers => {["ssl_ciphers"%string := MapCiphersToOpenSSL ciphers]} end
           ∪ match tls_TLSMinVersion tls with None => ∅ | Some v => {["ssl_min_protocol_version"%string := v]} end
  end.

(** The values that are set, the later ones over the earlier: the defaults, the
    calculated ones, TLS, and those of the user. *)
Definition overrideParameters (nb : NooBaa) (dbSpec : NooBaaDBSpec) (res : ResourceRequirements QA) (volumeSize : string) :
    outcome (gmap string string) :=
  let endpoints := (λ e, (eps_MinCount e, eps_MaxCount e)) <$> nbs_Endpoints (nb_Spec nb) in
  let endpointMaxCount := (getEndpointMinMax (nbs_PerformanceProfile (nb_Spec nb)) endpoints).2 in
  calculated ← calculatePGConfig (calcMemoryKB res) (calcCPU res) endpointMaxCount volumeSize;
  Ret (default ∅ (dbs_DBConf dbSpec) ∪ tlsParameters (sec_APIServerSecurity (nbs_Security (nb_Spec nb)))
       ∪ calculated ∪ defaultParameters).

(** The parameters of the cluster after [setPostgresConfig]. *)
Definition setPostgresConfig (nb : NooBaa) (dbSpec : NooBaaDBSpec) (res : ResourceRequirements QA) (volumeSize : string)
    (parameters : option (gmap string string)) : outcome (option (gmap string string)) :=
  overrides ← overrideParameters nb dbSpec res volumeSize;
  Ret (Some (overrides ∪ default ∅ parameters)).
End Settings.

(** ** The volume *)

Definition PVCAccessModeRWO : string := "noobaa.io/pvc_access_mode_rwo".

Definition getDesiredDBPVCAccessMode (annotations : option (gmap string string)) : string :=
  if map_get annotations PVCAccessModeRWO == "true" then "ReadWriteOnce" else "ReadWriteOncePod".

(** [cnpgv1.StorageConfiguration]; of the template of the claim the access modes. *)
Record StorageConfiguration := mkStorageConfiguration {
  stc_AccessModes : option (list string);
  stc_StorageClass : option string;
  stc_Size : string;
}.

Section Volume.
Context {QA : QuantityApi} {W : Type} {SC : ApiServer W StorageClass}.
Context (opts : DbOptions).

(** The default storage class, or the only local one. *)
Definition findLocalStorageClass (w : W) : outcome (error + string) :=
  '(items, _) ← KubeList (O:=StorageClass) w (λ _, true);
  Ret match List.find (λ sc, map_get (om_Annotations (sc_meta sc)) "storageclass.kubernetes.io/is-default-class" == "true") items with
      | Some sc => inr (om_Name (sc_meta sc))
      | None =>
          match filter (λ sc, sc_Provisioner sc = "kubernetes.io/no-provisioner"%string) items with
          | [] => inl (Errorf (Lit "Error: found no LSO storage class and no storage class was marked as default"))
          | [sc] => inr (om_Name (sc_meta sc))
          | _ => inl (Errorf (Lit "Error: found more than one LSO storage class and none was marked as default"))
          end
      end.

(** The size: that of the specification, unless the volume is larger already. *)
Definition desiredSize (dbSpec : NooBaaDBSpec) (currentSize : string) : error + string :=
  let desired := if dbs_DBMinVolumeSize dbSpec != "" then dbs_DBMinVolumeSize dbSpec else opt_DefaultDBVolumeSize opts in
  if currentSize == "" then inr desired
  else match ParseQuantity currentSize with
       | inl m => inl (Errorf m)
       | inr currentQuantity =>
           match ParseQuantity desired with
           | inl m => inl (Errorf m)
           | inr desiredQuantity =>
               inr (if (Quantity_Cmp currentQuantity desiredQuantity >? 0)%Z then currentSize else desired)
           end
       end.

Definition setDesiredStorageConf (w : W) (conf : StorageConfiguration) (dbSpec : NooBaaDBSpec)
    (annotations : option (gmap string string)) : outcome (error + StorageConfiguration) :=
  let accessModes := Some [getDesiredDBPVCAccessMode annotations] in
  storageClass ← match dbs_DBStorageClass dbSpec with
                 | Some sc => Ret (inr sc)
                 | None => findLocalStorageClass w
                 end;
  Ret match storageClass with
      | inl e => inl e
      | inr sc =>
          match desiredSize dbSpec (stc_Size conf) with
          | inl e => inl e
          | inr size => inr (mkStorageConfiguration accessModes (Some sc) size)
          end
      end.
End Volume.

(** ** Schedules *)

Definition convertToSixFieldCron (schedule : string) : error + string :=
  match schedule with
  | String "@"%char _ => inr schedule
  | _ =>
      if (length (Fields schedule) =? 6)%nat then inr schedule
      else if (length (Fields schedule) =? 5)%nat then inr ("0 " +:+ schedule)
      else inl (Errorf (Sprintf "invalid cron schedule %q" [AStr schedule]))
  end.

(** ** Facts *)

#[local] Ltac Zify.zify_post_hook ::= Z.to_euclidean_division_equations.

(** An entry of a map that is written out. *)
#[local] Ltac entry_of := apply elem_of_list_to_map_1; [apply (bool_decide_unpack _); vm_compute; exact I|repeat constructor].

(** Sizes for PostgreSQL are printed exactly, in the largest unit that divides them. *)
Lemma formatBytesKB_exact kb :
  (0 ≤ kb)%Z →
  ∃ n unit size, formatBytesKB kb = pretty n +:+ unit ∧ (n * size = kb)%Z ∧
    (unit, size) ∈ [("GB", gbInKB); ("MB", mbInKB); ("kB", 1)]%string.
Proof.
  intros Hkb. unfold formatBytesKB.
  destruct ((gbInKB <=? kb)%Z && (Z.rem kb gbInKB =? 0)%Z) eqn:Hg.
  { apply andb_true_iff in Hg as [_ Hr%Z.eqb_eq]. exists (Z.quot kb gbInKB), "GB"%string, gbInKB.
    split; [done|]. split; [|set_solver]. pose proof (Z.quot_rem kb gbInKB). unfold gbInKB in *. lia. }
  destruct ((mbInKB <=? kb)%Z && (Z.rem kb mbInKB =? 0)%Z) eqn:Hm.
  { apply andb_true_iff in Hm as [_ Hr%Z.eqb_eq]. exists (Z.quot kb mbInKB), "MB"%string, mbInKB.
    split; [done|]. split; [|set_solver]. pose proof (Z.quot_rem kb mbInKB). unfold mbInKB in *. lia. }
  exists kb, "kB"%string, 1. split; [done|]. split; [lia|set_solver].
Qed.

Lemma walBuffersKB_exact shared : (0 ≤ shared < 2 ^ 60)%Z →
  walBuffersKB shared = (if 14 * 1024 <? 3 * shared / 100 then 16 * 1024 else Z.max 32 (3 * shared / 100))%Z.
Proof.
  intros Hs. unfold walBuffersKB. assert (int64 (3 * shared) = 3 * shared)%Z as -> by (unfold int64; lia).
  rewrite Z.quot_div_nonneg by lia. set (kb := (3 * shared / 100)%Z). cbv zeta.
  destruct (Z.gtb_spec kb (16 * 1024)), (Z.gtb_spec kb (14 * 1024)), (Z.ltb_spec (14 * 1024) kb); case_match; lia.
Qed.

Lemma maintenanceWorkMemKB_exact total : (0 ≤ total)%Z → maintenanceWorkMemKB total = Z.min (total / 16) (8 * gbInKB).
Proof.
  intros Ht. unfold maintenanceWorkMemKB, gbInKB. cbv zeta. rewrite Z.quot_div_nonneg by lia.
  destruct (Z.gtb_spec (total / 16) (8 * 1024 * 1024)); lia.
Qed.

Lemma walKeepSizeMB_bounds volume : (1024 ≤ walKeepSizeMB volume ≤ 16384)%Z.
Proof.
  unfold walKeepSizeMB. set (mb := Z.quot (int64 _) 100). cbv zeta.
  destruct (mb >? 16 * 1024)%Z eqn:?; case_match; lia.
Qed.

Lemma calculateMaxConnections_exact n : (0 ≤ n < 2 ^ 31)%Z → calculateMaxConnections n = (63 + 80 * n)%Z.
Proof. intros Hn. unfold calculateMaxConnections, int64. lia. Qed.

Lemma parallelForWorkMem_bounds cpu : (cpu < 2 ^ 31)%Z → (4 ≤ parallelForWorkMem cpu < 2 ^ 31)%Z.
Proof. intros Hc. unfold parallelForWorkMem. case_match; lia. Qed.

(** The memory of a query: what all connections and workers can use three times next to the
    shared buffers, but at least 4 MB. *)
Lemma workMemKB_exact total conns workers :
  (0 ≤ total < 2 ^ 60)%Z → (0 < conns < 2 ^ 40)%Z → (0 < workers < 2 ^ 40)%Z →
  workMemKB total (total / 4) conns workers = Ret (Z.max (4 * mbInKB) ((total - total / 4) / (3 * (conns + workers)))%Z).
Proof.
  intros Ht Hc Hw. unfold workMemKB, divide.
  assert (int64 (total - total / 4) = total - total / 4)%Z as -> by (unfold int64; lia).
  assert (int64 (int64 (conns + workers) * 3) = 3 * (conns + workers))%Z as -> by (unfold int64; lia).
  destruct (Z.eqb_spec (3 * (conns + workers)) 0); [lia|]. cbn. rewrite Z.quot_div_nonneg by lia. f_equal. unfold mbInKB.
  generalize ((total - total / 4) / (3 * (conns + workers)))%Z as kb. intros kb. destruct (Z.ltb_spec kb (4 * 1024)); lia.
Qed.

Lemma parallelParams_other cpu k :
  k ∉ ["max_worker_processes"; "max_parallel_workers"; "max_parallel_workers_per_gather"; "max_parallel_maintenance_workers"]%string →
  parallelParams cpu !! k = None.
Proof. intros Hk. unfold parallelParams. case_match; [|done]. apply not_elem_of_list_to_map. set_solver. Qed.


Lemma setPostgresConfig_ok {QA : QuantityApi} Getenv nb dbSpec res volume parameters result :
  setPostgresConfig Getenv nb dbSpec res volume parameters = Ret result →
  ∃ overrides, overrideParameters Getenv nb dbSpec res volume = Ret overrides ∧ result = Some (overrides ∪ default ∅ parameters).
Proof.
  unfold setPostgresConfig. generalize (overrideParameters Getenv nb dbSpec res volume). intros o (overrides & -> & [= <-])%bind_Ret. eauto.
Qed.

Lemma setPostgresConfig_again {QA : QuantityApi} Getenv nb dbSpec res volume parameters result :
  setPostgresConfig Getenv nb dbSpec res volume parameters = Ret result →
  setPostgresConfig Getenv nb dbSpec res volume result = Ret result.
Proof.
  unfold setPostgresConfig. intros (overrides & -> & [= <-])%bind_Ret. rewrite bind_ret_l. cbn.
  by rewrite (assoc_L (∪)), (idemp_L (∪)).
Qed.

(** The settings of the user come first. *)
Lemma overrideParameters_parts {QA : QuantityApi} Getenv nb dbSpec res volume overrides :
  overrideParameters Getenv nb dbSpec res volume = Ret overrides → ∃ rest, overrides = default ∅ (dbs_DBConf dbSpec) ∪ rest.
Proof.
  unfold overrideParameters. generalize defaultParameters. generalize (tlsParameters Getenv (sec_APIServerSecurity (nbs_Security (nb_Spec nb)))).
  intros tls defaults. cbv zeta. destruct (calculatePGConfig _ _ _ _) as [c|p]; [|done]. intros H.
  exists (tls ∪ c ∪ defaults). injection H as <-. by rewrite !(assoc_L (∪)).
Qed.

(** What the user sets is what the cluster gets, and settings that are applied again
    change nothing. *)
Theorem setPostgresConfig_settles {QA : QuantityApi} Getenv nb dbSpec res volume parameters result :
  setPostgresConfig Getenv nb dbSpec res volume parameters = Ret result →
  (∀ k v, default ∅ (dbs_DBConf dbSpec) !! k = Some v → default ∅ result !! k = Some v) ∧
  setPostgresConfig Getenv nb dbSpec res volume result = Ret result.
Proof.
  intros H. split; [|exact (setPostgresConfig_again _ _ _ _ _ _ _ H)].
  intros k v Hk. destruct (setPostgresConfig_ok _ _ _ _ _ _ _ H) as (overrides & Ho & ->). clear H.
  destruct (overrideParameters_parts _ _ _ _ _ _ Ho) as (rest & ->). clear Ho.
  by apply lookup_union_Some_l, lookup_union_Some_l.
Qed.

(** The volume never shrinks, and a size that was chosen is chosen again. *)
Lemma desiredSize_grows {QA : QuantityApi} {QL : QuantityLaws QA} opts dbSpec current size :
  desiredSize opts dbSpec current = inr size → current ≠ ""%string →
  ∃ q q', ParseQuantity current = inr q ∧ ParseQuantity size = inr q' ∧ (amount q ≤ amount q')%Z.
Proof.
  unfold desiredSize. intros Hd Hne. rewrite bool_decide_eq_false_2 in Hd by done.
  destruct (ParseQuantity current) as [m|q] eqn:Hq; [done|].
  destruct (ParseQuantity _) as [m|q'] eqn:Hq' in Hd; [done|]. injection Hd as <-.
  destruct (Quantity_Cmp q q' >? 0)%Z eqn:Hcmp.
  - exists q, q. by rewrite Hq.
  - exists q, q'. split; [done|]. split; [done|]. rewrite Z.gtb_ltb in Hcmp. apply Z.ltb_ge in Hcmp.
    destruct (Z.le_gt_cases (amount q) (amount q')) as [|Hgt]; [done|]. apply Cmp_gt in Hgt. lia.
Qed.

Lemma desiredSize_settles {QA : QuantityApi} opts dbSpec current size q :
  desiredSize opts dbSpec current = inr size → ParseQuantity size = inr q → desiredSize opts dbSpec size = inr size.
Proof.
  unfold desiredSize. set (desired := if dbs_DBMinVolumeSize dbSpec != "" then _ else _) in *. intros Hd Hq.
  assert (size = desired ∨ ∃ q', ParseQuantity desired = inr q' ∧ (Quantity_Cmp q q' >? 0)%Z = true) as [->|(q' & Hq' & Hcmp)].
  { case_bool_decide; [left; congruence|]. destruct (ParseQuantity current) as [m|qc] eqn:Hc; [done|].
    destruct (ParseQuantity desired) as [m|q']; [done|]. destruct (Quantity_Cmp qc q' >? 0)%Z eqn:E; injection Hd as <-; [|by left].
    right. exists q'. rewrite Hc in Hq. by injection Hq as <-. }
  - destruct (bool_decide (desired = ""%string)); [done|]. rewrite Hq. by destruct (Quantity_Cmp q q >? 0)%Z.
  - rewrite Hq, Hq', Hcmp. destruct (bool_decide_reflect (size = ""%string)) as [->|]; [|done].
    revert Hd. case_bool_decide; [done|]. repeat case_match; congruence.
Qed.

(** A schedule that is accepted is a descriptor, kept as it is, or has six fields: the
    given ones, with a zero for the seconds when there were five. *)
Theorem convertToSixFieldCron_fields schedule result :
  convertToSixFieldCron schedule = inr result →
  (HasPrefix schedule "@" = true ∧ result = schedule) ∨
  (length (Fields result) = 6%nat ∧
   (Fields result = Fields schedule ∨ Fields result = "0"%string :: Fields schedule)).
Proof.
  intros H.
  assert (HasPrefix schedule "@" = true ∧ result = schedule ∨
    (if (length (Fields schedule) =? 6)%nat then inr schedule
     else if (length (Fields schedule) =? 5)%nat then inr ("0 " +:+ schedule)
     else inl (Errorf (Sprintf "invalid cron schedule %q" [AStr schedule]))) = inr result) as [Hat|Hcount].
  { destruct schedule as [|[[] [] [] [] [] [] [] []] s]; try (right; exact H). left. by injection H as <-. }
  - by left.
  - right. destruct (Nat.eqb_spec (length (Fields schedule)) 6); [injection Hcount as <-; auto|].
    destruct (Nat.eqb_spec (length (Fields schedule)) 5) as [H5|]; [|done]. injection Hcount as <-.
    change ("0 " +:+ schedule) with (String "0" (String " " schedule)). rewrite Fields_char by done.
    simpl. rewrite H5. auto.
Qed.
