(* ===== verification/DbCluster.v ===== *)
(** * The database cluster: [pkg/system/db_reconciler.go].

    [ReconcileCNPGCluster] keeps the image catalog, the cluster, its scheduled backup and
    the snapshots of CloudNativePG as the system asks for them, and recovers a deleted
    cluster from a snapshot once the core and endpoint pods are gone.  The kinds of
    CloudNativePG are records with the fields the controller reads or writes; the state
    is the cluster with the reconciler. *)

From Stdlib Require Import Sorting.Sorted.
From S2P Require Import Prelude Effects GoStrings Types Kube Util Profiles SystemServices SystemObjects SystemVerifying.
From S2P Require Import DbConfig AlertSilencer.

(** ** Kinds of CloudNativePG *)

Record CatalogImage := mkCatalogImage { ci_Major : Z; ci_Image : string }.
Record ImageCatalog := mkImageCatalog { ic_meta : ObjectMeta; ic_Images : list CatalogImage }.
#[export, refine] Instance ImageCatalog_MetaObject : MetaObject ImageCatalog :=
  {| meta := ic_meta; set_meta := λ m c, mkImageCatalog m (ic_Images c) |}.
Proof. done. Defined.
#[export, refine] Instance ImageCatalog_KubeObject : KubeObject ImageCatalog := {| resetStringData := id |}.
Proof. done. Defined.

Record EmbeddedObjectMetadata := mkEmbeddedObjectMetadata {
  em_Labels : option (gmap string string);
  em_Annotations : option (gmap string string);
}.
Record ImageCatalogRef := mkImageCatalogRef { icr_Kind : string; icr_APIGroup : string; icr_Name : string; icr_Major : Z }.
Record AffinityConfiguration := mkAffinityConfiguration {
  afc_NodeAffinity : option string;
  afc_TopologyKey : string;
  afc_Tolerations : list Toleration;
}.
Record MonitoringConfiguration := mkMonitoringConfiguration { mon_EnablePodMonitor : bool; mon_TLSEnabled : option bool }.
Record VolumeSnapshotConfiguration := mkVolumeSnapshotConfiguration { vsc_ClassName : string; vsc_Online : option bool }.
Record BackupConfiguration := mkBackupConfiguration { bkc_VolumeSnapshot : option VolumeSnapshotConfiguration }.
Record BootstrapInitDB := mkBootstrapInitDB { ini_Database : string; ini_Owner : string; ini_LocaleCollate : string }.
Record BootstrapRecovery := mkBootstrapRecovery { rec_Database : string; rec_Owner : string; rec_SnapshotName : string }.
Record BootstrapConfiguration := mkBootstrapConfiguration {
  boot_InitDB : option BootstrapInitDB;
  boot_Recovery : option BootstrapRecovery;
}.

(** Equality of the pieces, for [reflect.DeepEqual]. *)
#[export] Instance EmbeddedObjectMetadata_eq_dec : EqDecision EmbeddedObjectMetadata.
Proof. solve_decision. Defined.
#[export] Instance ImageCatalogRef_eq_dec : EqDecision ImageCatalogRef.
Proof. solve_decision. Defined.
#[export] Instance AffinityConfiguration_eq_dec : EqDecision AffinityConfiguration.
Proof. solve_decision. Defined.
#[export] Instance MonitoringConfiguration_eq_dec : EqDecision MonitoringConfiguration.
Proof. solve_decision. Defined.
#[export] Instance VolumeSnapshotConfiguration_eq_dec : EqDecision VolumeSnapshotConfiguration.
Proof. solve_decision. Defined.
#[export] Instance BackupConfiguration_eq_dec : EqDecision BackupConfiguration.
Proof. solve_decision. Defined.

Record ClusterSpec {QA : QuantityApi} := mkClusterSpec {
  cs_InheritedMetadata : option EmbeddedObjectMetadata;
  cs_ImageCatalogRef : option ImageCatalogRef;
  cs_Instances : Z;
  cs_Resources : ResourceRequirements QA;
  cs_StorageConfiguration : StorageConfiguration;
  cs_Affinity : AffinityConfiguration;
  cs_PriorityClassName : string;
  cs_Monitoring : option MonitoringConfiguration;
  cs_ServerAltDNSNames : option (list string);      (* of the certificates, when they are set *)
  cs_FailoverDelay : Z;
  cs_Parameters : option (gmap string string);
  cs_Backup : option BackupConfiguration;
  cs_Bootstrap : option BootstrapConfiguration;
}.
Arguments ClusterSpec QA : clear implicits.
Arguments mkClusterSpec {QA}.

Record Cluster {QA : QuantityApi} := mkCluster {
  cl_meta : ObjectMeta;
  cl_Spec : ClusterSpec QA;
  cl_Conditions : list (string * string);
}.
Arguments Cluster QA : clear implicits.
Arguments mkCluster {QA}.
#[export, refine] Instance Cluster_MetaObject {QA} : MetaObject (Cluster QA) :=
  {| meta := cl_meta; set_meta := λ m c, mkCluster m (cl_Spec c) (cl_Conditions c) |}.
Proof. done. Defined.
#[export, refine] Instance Cluster_KubeObject {QA} : KubeObject (Cluster QA) := {| resetStringData := id |}.
Proof. done. Defined.

Record ScheduledBackup := mkScheduledBackup {
  sb_meta : ObjectMeta;
  sb_Schedule : string;
  sb_ClusterName : string;
  sb_Method : string;
  sb_Online : option bool;
  sb_Target : string;
  sb_LastScheduleTime : option Z;
  sb_NextScheduleTime : option Z;
}.
#[export, refine] Instance ScheduledBackup_MetaObject : MetaObject ScheduledBackup :=
  {| meta := sb_meta;
     set_meta := λ m b, mkScheduledBackup m (sb_Schedule b) (sb_ClusterName b) (sb_Method b) (sb_Online b) (sb_Target b)
                          (sb_LastScheduleTime b) (sb_NextScheduleTime b) |}.
Proof. done. Defined.
#[export, refine] Instance ScheduledBackup_KubeObject : KubeObject ScheduledBackup := {| resetStringData := id |}.
Proof. done. Defined.

Record Backup := mkBackup { bk_meta : ObjectMeta }.
#[export, refine] Instance Backup_MetaObject : MetaObject Backup := {| meta := bk_meta; set_meta := λ m _, mkBackup m |}.
Proof. done. Defined.
#[export, refine] Instance Backup_KubeObject : KubeObject Backup := {| resetStringData := id |}.
Proof. done. Defined.

Record VolumeSnapshot := mkVolumeSnapshot { vs_meta : ObjectMeta }.
#[export, refine] Instance VolumeSnapshot_MetaObject : MetaObject VolumeSnapshot := {| meta := vs_meta; set_meta := λ m _, mkVolumeSnapshot m |}.
Proof. done. Defined.
#[export, refine] Instance VolumeSnapshot_KubeObject : KubeObject VolumeSnapshot := {| resetStringData := id |}.
Proof. done. Defined.

(** [pkg/cnpg]: new objects with a name. *)
Definition GetCnpgImageCatalogObj (namespace name : string) : ImageCatalog := mkImageCatalog (named namespace name) [].
Definition GetCnpgScheduledBackupObj (namespace name : string) : ScheduledBackup :=
  mkScheduledBackup (named namespace name) "" "" "" None "" None None.
Definition GetCnpgBackupObj (namespace name : string) : Backup := mkBackup (named namespace name).
Definition getCnpgAPIGroup (Getenv : string → string) : string :=
  if Getenv "USE_CNPG_API_GROUP" == "true" then "postgresql.cnpg.io" else "postgresql.cnpg.noobaa.io".

(** ** The reconciler *)

(** The fields of the reconciler that the database code works on, with Alertmanager and
    the time of the last look at its silences, for [ReconcilePDBAlertSilencer]. *)
Record Db {QA : QuantityApi} {A : Type} := mkDb {
  db_NooBaa : NooBaa;
  db_CNPGImageCatalog : ImageCatalog;
  db_CNPGCluster : Cluster QA;
  db_CoreApp : StatefulSet;
  db_DeploymentEndpoint : Deployment;
  db_Alertmanager : A;
  db_lastSilenceCheckTime : option Z;
}.
Arguments Db QA A : clear implicits.
Arguments mkDb {QA A}.

Section Setters.
Context {QA : QuantityApi} {A : Type}.
Implicit Types r : Db QA A.

Definition set_db_NooBaa nb r : Db QA A :=
  mkDb nb (db_CNPGImageCatalog r) (db_CNPGCluster r) (db_CoreApp r) (db_DeploymentEndpoint r) (db_Alertmanager r) (db_lastSilenceCheckTime r).
Definition set_db_Catalog c r : Db QA A :=
  mkDb (db_NooBaa r) c (db_CNPGCluster r) (db_CoreApp r) (db_DeploymentEndpoint r) (db_Alertmanager r) (db_lastSilenceCheckTime r).
Definition set_db_Cluster c r : Db QA A :=
  mkDb (db_NooBaa r) (db_CNPGImageCatalog r) c (db_CoreApp r) (db_DeploymentEndpoint r) (db_Alertmanager r) (db_lastSilenceCheckTime r).
Definition set_db_Workloads s d r : Db QA A :=
  mkDb (db_NooBaa r) (db_CNPGImageCatalog r) (db_CNPGCluster r) s d (db_Alertmanager r) (db_lastSilenceCheckTime r).
Definition set_db_Alerts a t r : Db QA A :=
  mkDb (db_NooBaa r) (db_CNPGImageCatalog r) (db_CNPGCluster r) (db_CoreApp r) (db_DeploymentEndpoint r) a t.

Definition db_Status r : option NooBaaDBStatus := nbst_DBStatus (nb_Status (db_NooBaa r)).
Definition set_db_Status st r : Db QA A :=
  let nb := db_NooBaa r in
  set_db_NooBaa (mkNooBaa (nb_meta nb) (nb_Spec nb) (set_nbst_DBStatus (Some st) (nb_Status nb))) r.
Definition set_cluster_spec (s : ClusterSpec QA) r : Db QA A :=
  set_db_Cluster (mkCluster (cl_meta (db_CNPGCluster r)) s (cl_Conditions (db_CNPGCluster r))) r.
Definition db_Spec r : option NooBaaDBSpec := nbs_DBSpec (nb_Spec (db_NooBaa r)).
End Setters.

(** Fields of [NooBaaDBStatus]. *)
Definition set_cluster_status v (st : NooBaaDBStatus) : NooBaaDBStatus :=
  mkNooBaaDBStatus v (dbst_DBCurrentImage st) (dbst_CurrentPgMajorVersion st) (dbst_ActualVolumeSize st) (dbst_BackupStatus st)
    (dbst_RecoveryStatus st).
Definition set_image major image (st : NooBaaDBStatus) : NooBaaDBStatus :=
  mkNooBaaDBStatus (dbst_DBClusterStatus st) image major (dbst_ActualVolumeSize st) (dbst_BackupStatus st) (dbst_RecoveryStatus st).
Definition set_volume_size v (st : NooBaaDBStatus) : NooBaaDBStatus :=
  mkNooBaaDBStatus (dbst_DBClusterStatus st) (dbst_DBCurrentImage st) (dbst_CurrentPgMajorVersion st) v (dbst_BackupStatus st)
    (dbst_RecoveryStatus st).
Definition set_backup_status v (st : NooBaaDBStatus) : NooBaaDBStatus :=
  mkNooBaaDBStatus (dbst_DBClusterStatus st) (dbst_DBCurrentImage st) (dbst_CurrentPgMajorVersion st) (dbst_ActualVolumeSize st) v
    (dbst_RecoveryStatus st).
Definition set_recovery_status v (st : NooBaaDBStatus) : NooBaaDBStatus :=
  mkNooBaaDBStatus (dbst_DBClusterStatus st) (dbst_DBCurrentImage st) (dbst_CurrentPgMajorVersion st) (dbst_ActualVolumeSize st)
    (dbst_BackupStatus st) v.

Definition dbClusterStatusAfterSpecUpdate (current : DBClusterStatus) : DBClusterStatus :=
  if current == DBClusterStatusReady then DBClusterStatusUpdating else current.

Definition isClusterReady {QA} (cluster : Cluster QA) : bool :=
  existsb (λ '(t, status), (t == "Ready") && (status == "True")) (cl_Conditions cluster).

(** The image of a major version: set on its first entry, or appended. *)
Fixpoint setCatalogImage (major : Z) (image : string) (images : list CatalogImage) : list CatalogImage :=
  match images with
  | [] => [mkCatalogImage major image]
  | i :: rest =>
      if (ci_Major i =? major)%Z then mkCatalogImage (ci_Major i) image :: rest
      else i :: setCatalogImage major image rest
  end.

Definition DisableDBDefaultMonitoring : string := "noobaa.io/disable_db_default_monitoring".
Definition RequiredSCCAnnotation : string := "openshift.io/required-scc".

Section Reconcile.
Context {QA : QuantityApi} {W A : Type} {AH : AlertmanagerHttp A}.
Context {SIC : ApiServer W ImageCatalog} {CIC : ControllerUtil W ImageCatalog}.
Context {SCL : ApiServer W (Cluster QA)}.
Context {SSB : ApiServer W ScheduledBackup} {CSB : ControllerUtil W ScheduledBackup}.
Context {SBK : ApiServer W Backup} {SVS : ApiServer W VolumeSnapshot}.
Context {SST : ApiServer W StatefulSet} {CST : ControllerUtil W StatefulSet}.
Context {SDE : ApiServer W Deployment} {CDE : ControllerUtil W Deployment}.
Context {SPD : ApiServer W RunningPod} {SSC : ApiServer W StorageClass}.
Context (SetControllerReference : ObjectMeta → ObjectMeta → msg + ObjectMeta).
(** [os.Getenv], [time.Now], the options, [r.Request.Namespace] and [options.Namespace]. *)
Context (Getenv : string → string) (now : Z) (opts : DbOptions) (RequestNamespace Namespace : string).
(** The name of the service of the database, and [Spec.DBSpec.DBResources]. *)
Context (ServiceDbPg : string) (DBResources : option (ResourceRequirements QA)).
(** [reflect.DeepEqual] of resources. *)
Context (equalResources : ResourceRequirements QA → ResourceRequirements QA → bool).
(** [slices.SortFunc] by creation time: the order of equal times is not specified. *)
Context (sortByCreation : list VolumeSnapshot → list VolumeSnapshot).

Abbreviation S := (W * Db QA A)%type.

(** [r.NooBaa.Status.DBStatus] is dereferenced and changed. *)
Definition onDBStatus (f : NooBaaDBStatus → outcome NooBaaDBStatus) : M S () :=
  st ← state db_Status;
  st ← lift (st ← deref st; f st);
  update (set_db_Status st).
(** [r.NooBaa.Spec.DBSpec] is dereferenced. *)
Definition getDBSpec : M S NooBaaDBSpec := spec ← state db_Spec; lift (deref spec).

(** A request of the client: the new cluster with the error. *)
Definition request {O} (f : W → W * (api_error + O)) : M S O := λ '(w, r),
  let '(w, res) := f w in
  Ret ((w, r), match res with inl e => inl (Errorf (api_error_msg e)) | inr o => inr o end).
(** [Client.Delete], tolerating an object that is gone. *)
Definition requestDelete {O} `{ApiServer W O} (obj : O) : M S () := λ '(w, r),
  let '(w, err) := srv_Delete w obj in
  Ret ((w, r), match err with
               | Some e => if IsNotFound e then inr () else inl (Errorf (api_error_msg e))
               | None => inr ()
               end).

Abbreviation Reconciled obj desired := (ReconcileObject db_NooBaa SetControllerReference obj desired).

(** *** The image catalog *)

Definition reconcileCNPGImageCatalog : M S () :=
  dbSpec ← getDBSpec;
  let major := getDesiredMajorVersion opts dbSpec in
  let image := getDesiredDbImage opts dbSpec in
  catalog ← state db_CNPGImageCatalog;
  catalog ← Reconciled catalog (λ c, mret (mkImageCatalog (ic_meta c) (setCatalogImage major image (ic_Images c))));
  do! update (set_db_Catalog catalog) ;;
  onDBStatus (λ st, Ret (set_image major image st)).

(** *** The specification of the cluster *)

Definition desiredMetadata (m : option EmbeddedObjectMetadata) : EmbeddedObjectMetadata :=
  let m := default (mkEmbeddedObjectMetadata None None) m in
  mkEmbeddedObjectMetadata (Some (<["app"%string := "noobaa"%string]> (default ∅ (em_Labels m)))) (em_Annotations m).

Definition desiredAffinity (nb : NooBaa) (a : AffinityConfiguration) : AffinityConfiguration :=
  let '(node, key) :=
    match nbs_Affinity (nb_Spec nb) with
    | Some spec => (afs_NodeAffinity spec, if afs_TopologyKey spec != "" then afs_TopologyKey spec else afc_TopologyKey a)
    | None => (None, ""%string)
    end in
  mkAffinityConfiguration node key (default (afc_Tolerations a) (nbs_Tolerations (nb_Spec nb))).

Definition desiredMonitoring (nb : NooBaa) : MonitoringConfiguration :=
  mkMonitoringConfiguration (map_get (om_Annotations (nb_meta nb)) DisableDBDefaultMonitoring != "true") (Some true).

(** [None]: the backup has no snapshot configuration, which is an error. *)
Definition desiredBackup (dbSpec : NooBaaDBSpec) : option (option BackupConfiguration) :=
  match dbs_DBBackup dbSpec with
  | None => Some None
  | Some backup =>
      match dbb_VolumeSnapshot backup with
      | None => None
      | Some v => Some (Some (mkBackupConfiguration (Some (mkVolumeSnapshotConfiguration (vsb_VolumeSnapshotClass v) (Some false)))))
      end
  end.

Definition noSnapshotConfiguration : error := Errorf (Lit "volume snapshot backup configuration is not specified").

Definition reconcileClusterSpec (w : W) (nb : NooBaa) (catalogName : string) (spec : ClusterSpec QA) :
    outcome (error + ClusterSpec QA) :=
  dbSpec ← deref (nbs_DBSpec (nb_Spec nb));
  resources ← getDBResources DBResources (nbs_PerformanceProfile (nb_Spec nb));
  storage ← setDesiredStorageConf opts w (cs_StorageConfiguration spec) dbSpec (om_Annotations (nb_meta nb));
  match storage with
  | inl e => Ret (inl e)
  | inr storage =>
      parameters ← setPostgresConfig Getenv nb dbSpec resources (stc_Size storage) (cs_Parameters spec);
      Ret match desiredBackup dbSpec with
          | None => inl noSnapshotConfiguration
          | Some backup =>
              inr (mkClusterSpec (Some (desiredMetadata (cs_InheritedMetadata spec)))
                     (Some (mkImageCatalogRef "ImageCatalog" (getCnpgAPIGroup Getenv) catalogName (getDesiredMajorVersion opts dbSpec)))
                     (getDBInstances (dbs_Instances dbSpec) (nbs_PerformanceProfile (nb_Spec nb)))
                     resources storage (desiredAffinity nb (cs_Affinity spec)) (nbs_DBPriorityClassName (nb_Spec nb))
                     (Some (desiredMonitoring nb))
                     (Some [ServiceDbPg; ServiceDbPg +:+ "." +:+ RequestNamespace; ServiceDbPg +:+ "." +:+ RequestNamespace +:+ ".svc"])
                     defaultFailoverDelaySec parameters backup (cs_Bootstrap spec))
          end
  end.

Definition wasClusterSpecChanged (old new : ClusterSpec QA) : bool :=
  (cs_InheritedMetadata old != cs_InheritedMetadata new)
  || (cs_ImageCatalogRef old != cs_ImageCatalogRef new)
  || (cs_Instances old != cs_Instances new)
  || (cs_Affinity old != cs_Affinity new)
  || negb (equalResources (cs_Resources old) (cs_Resources new))
  || (stc_StorageClass (cs_StorageConfiguration old) != stc_StorageClass (cs_StorageConfiguration new))
  || (stc_Size (cs_StorageConfiguration old) != stc_Size (cs_StorageConfiguration new))
  || (stc_AccessModes (cs_StorageConfiguration old) != stc_AccessModes (cs_StorageConfiguration new))
  || (cs_Monitoring old != cs_Monitoring new)
  || (cs_Parameters old != cs_Parameters new)
  || (cs_Backup old != cs_Backup new)
  || (cs_ServerAltDNSNames old != cs_ServerAltDNSNames new)
  || (cs_PriorityClassName old != cs_PriorityClassName new)
  || (cs_FailoverDelay old != cs_FailoverDelay new).

(** *** Backups *)

Definition getBackupResourceName (r : Db QA A) : string := om_Name (cl_meta (db_CNPGCluster r)) +:+ "-scheduled-backup".
Definition clusterNamespace (r : Db QA A) : string := om_Namespace (cl_meta (db_CNPGCluster r)).

Definition cleanupDBBackup : M S () :=
  r ← state id;
  '(backup, found) ← reads (λ w, KubeCheckQuiet w (GetCnpgScheduledBackupObj (clusterNamespace r) (getBackupResourceName r)));
  when found (requestDelete backup).

(** The status of the backup, with the times of the scheduled one. *)
Definition recordTimes (b : ScheduledBackup) (st : NooBaaDBStatus) : outcome NooBaaDBStatus :=
  match sb_LastScheduleTime b, sb_NextScheduleTime b with
  | None, None => Ret st
  | last, next =>
      status ← deref (dbst_BackupStatus st);
      Ret (set_backup_status (Some (mkDBBackupStatus
        match last with Some t => Some t | None => dbbs_LastBackupTime status end
        match next with Some t => Some t | None => dbbs_NextBackupTime status end
        (dbbs_TotalSnapshots status) (dbbs_AvailableSnapshots status))) st)
  end.

(** The mutation of the scheduled backup, which also updates the status. *)
Definition desiredScheduledBackup (schedule clusterName : string) (b : ScheduledBackup) : M (Db QA A) ScheduledBackup :=
  let b := mkScheduledBackup (sb_meta b) schedule clusterName "volumeSnapshot" (Some false) "prefer-standby"
             (sb_LastScheduleTime b) (sb_NextScheduleTime b) in
  st ← gets db_Status;
  st ← lift (st ← deref st; recordTimes b st);
  modify (set_db_Status st) ≫= λ _, mret b.

Definition reconcileScheduledBackup (backupSpec : DBBackupSpec) : M S () :=
  match convertToSixFieldCron (dbb_Schedule backupSpec) with
  | inl e => throw e
  | inr schedule =>
      r ← state id;
      _ ← Reconciled (GetCnpgScheduledBackupObj (clusterNamespace r) (getBackupResourceName r))
            (desiredScheduledBackup schedule (om_Name (cl_meta (db_CNPGCluster r))));
      mret ()
  end.

Definition ofCluster (r : Db QA A) (s : VolumeSnapshot) : bool :=
  (om_Namespace (vs_meta s) == clusterNamespace r)
  && (map_get (om_Labels (vs_meta s)) "cnpg.io/cluster" == om_Name (cl_meta (db_CNPGCluster r))).

Definition listVolumeSnapshotsOrderByCreate : M S (list VolumeSnapshot) := λ '(w, r),
  Ret ((w, r), match srv_List w (ofCluster r) with
               | inl e => inl (Errorf (api_error_msg e))
               | inr items =>
                   inr (sortByCreation (filter (λ s, HasPrefix (om_Name (vs_meta s)) (getBackupResourceName r) = true) items))
               end).

(** Whether a snapshot is the one to recover from. *)
Definition isRecoverySnapshot (dbSpec : NooBaaDBSpec) (s : VolumeSnapshot) : bool :=
  match dbs_DBRecovery dbSpec with Some rec => dbr_VolumeSnapshotName rec == om_Name (vs_meta s) | None => false end.

(** The loop over the oldest snapshots: it counts what is left and collects what is kept. *)
Fixpoint deleteSnapshots (dbSpec : NooBaaDBSpec) (snapshots : list VolumeSnapshot) (total : Z) (available : list VolumeSnapshot) :
    M S (Z * list VolumeSnapshot) :=
  match snapshots with
  | [] => mret (total, available)
  | s :: rest =>
      if isRecoverySnapshot dbSpec s then deleteSnapshots dbSpec rest total (available ++ [s])
      else
        res ← attempt (requestDelete s);
        match res with
        | inl _ => deleteSnapshots dbSpec rest total available
        | inr _ =>
            r ← state id;
            _ ← attempt (requestDelete (GetCnpgBackupObj (clusterNamespace r) (om_Name (vs_meta s))));
            deleteSnapshots dbSpec rest (total - 1) available
        end
  end.

(** [l[:n]] and [l[n:]]. *)
Definition slices {B} (l : list B) (n : Z) : outcome (list B * list B) :=
  if (Z.of_nat (length l) <? n)%Z then Panic IndexOutOfRange else Ret (take (Z.to_nat n) l, drop (Z.to_nat n) l).

Definition reconcileBackupRetention (backup : VolumeSnapshotBackupSpec) : M S () :=
  let maxSnapshots := vsb_MaxSnapshots backup in
  if (maxSnapshots =? 0)%Z then mret ()
  else
    dbSpec ← getDBSpec;
    snapshots ← listVolumeSnapshotsOrderByCreate;
    let total := Z.of_nat (length snapshots) in
    '(total, available) ←
      (if (total >? maxSnapshots)%Z then
         '(oldest, newest) ← lift (slices snapshots (total - maxSnapshots));
         deleteSnapshots dbSpec oldest total newest
       else mret (total, snapshots));
    onDBStatus (λ st,
      status ← deref (dbst_BackupStatus st);
      Ret (set_backup_status (Some (mkDBBackupStatus (dbbs_LastBackupTime status) (dbbs_NextBackupTime status) total
        ((λ s, om_Name (vs_meta s)) <$> available))) st)).

Definition reconcileDBBackup : M S () :=
  dbSpec ← getDBSpec;
  match dbs_DBBackup dbSpec with
  | None => do! cleanupDBBackup ;; onDBStatus (λ st, Ret (set_backup_status None st))
  | Some backup =>
      do! onDBStatus (λ st, Ret (set_backup_status (Some (default (mkDBBackupStatus None None 0 []) (dbst_BackupStatus st))) st)) ;;
      match dbb_VolumeSnapshot backup with
      | None => throw noSnapshotConfiguration
      | Some snapshots => do! reconcileScheduledBackup backup ;; reconcileBackupRetention snapshots
      end
  end.

(** *** The cluster *)

Definition set_Bootstrap (b : BootstrapConfiguration) (s : ClusterSpec QA) : ClusterSpec QA :=
  mkClusterSpec (cs_InheritedMetadata s) (cs_ImageCatalogRef s) (cs_Instances s) (cs_Resources s) (cs_StorageConfiguration s)
    (cs_Affinity s) (cs_PriorityClassName s) (cs_Monitoring s) (cs_ServerAltDNSNames s) (cs_FailoverDelay s) (cs_Parameters s)
    (cs_Backup s) (Some b).
Definition set_InheritedMetadata (m : EmbeddedObjectMetadata) (s : ClusterSpec QA) : ClusterSpec QA :=
  mkClusterSpec (Some m) (cs_ImageCatalogRef s) (cs_Instances s) (cs_Resources s) (cs_StorageConfiguration s)
    (cs_Affinity s) (cs_PriorityClassName s) (cs_Monitoring s) (cs_ServerAltDNSNames s) (cs_FailoverDelay s) (cs_Parameters s)
    (cs_Backup s) (cs_Bootstrap s).

Definition reconcileClusterRecovery (recovery : DBRecoverySpec) : M S () :=
  let snapshot := dbr_VolumeSnapshotName recovery in
  do! onDBStatus (λ st, Ret (set_recovery_status (Some (mkDBRecoveryStatus DBRecoveryStatusPending snapshot None)) st)) ;;
  r ← state id;
  '(coreApp, endpoint, numRunningPods) ← stopNoobaaPodsAndGetNumRunningPods db_NooBaa SetControllerReference Namespace
                                           (db_CoreApp r) (db_DeploymentEndpoint r);
  do! update (set_db_Workloads coreApp endpoint) ;;
  if negb (numRunningPods =? 0)%nat then throw (Errorf (Lit "waiting for noobaa-core and noobaa-endpoint pods to be terminated"))
  else
    do! update (λ r, set_cluster_spec (set_Bootstrap (mkBootstrapConfiguration None
          (Some (mkBootstrapRecovery noobaaDBName noobaaDBUser snapshot))) (cl_Spec (db_CNPGCluster r))) r) ;;
    cleanupDBBackup.

(** A new cluster for an empty database. *)
Definition freshCluster (s : ClusterSpec QA) : outcome (ClusterSpec QA) :=
  m ← deref (cs_InheritedMetadata s);
  let s := set_InheritedMetadata (mkEmbeddedObjectMetadata (em_Labels m)
             (Some (<[RequiredSCCAnnotation := "restricted-v2"%string]> (default ∅ (em_Annotations m))))) s in
  Ret match cs_Bootstrap s with
      | Some _ => s
      | None => set_Bootstrap (mkBootstrapConfiguration (Some (mkBootstrapInitDB noobaaDBName noobaaDBUser "C")) None) s
      end.

(** The status of a cluster that was just created. *)
Definition createdStatus (dbSpec : NooBaaDBSpec) (recovering : bool) (st : NooBaaDBStatus) : NooBaaDBStatus :=
  if recovering then
    let snapshotName := match dbs_DBRecovery dbSpec with
                        | Some rec => dbr_VolumeSnapshotName rec
                        | None => match dbst_RecoveryStatus st with Some s => dbrs_SnapshotName s | None => "" end
                        end in
    set_recovery_status (Some (mkDBRecoveryStatus DBRecoveryStatusRunning snapshotName (Some now)))
      (set_cluster_status DBClusterStatusRecovering st)
  else set_cluster_status DBClusterStatusCreating st.

Definition createCluster (dbSpec : NooBaaDBSpec) : M S () :=
  do! match dbs_DBRecovery dbSpec with
      | None =>
          s ← state (λ r, cl_Spec (db_CNPGCluster r));
          s ← lift (freshCluster s);
          update (set_cluster_spec s)
      | Some recovery => reconcileClusterRecovery recovery
      end ;;
  r ← state id;
  cluster ← lift (Own SetControllerReference (db_NooBaa r) (db_CNPGCluster r));
  cluster ← request (λ w, srv_Create w cluster);
  do! update (set_db_Cluster cluster) ;;
  bootstrap ← lift (deref (cs_Bootstrap (cl_Spec cluster)));
  onDBStatus (λ st, Ret (createdStatus dbSpec (negb (isNil (boot_Recovery bootstrap))) st)).

Definition reconcileDBCluster : M S () :=
  cluster ← state db_CNPGCluster;
  '(cluster, _) ← reads (λ w, KubeCheck w cluster);
  do! update (set_db_Cluster cluster) ;;
  r ← state id;
  let existing := cl_Spec cluster in
  spec ← reads (λ w, reconcileClusterSpec w (db_NooBaa r) (om_Name (ic_meta (db_CNPGImageCatalog r))) existing);
  match spec with
  | inl e => throw e
  | inr spec =>
      do! update (set_cluster_spec spec) ;;
      if om_UID (cl_meta cluster) == "" then dbSpec ← getDBSpec; createCluster dbSpec
      else when (wasClusterSpecChanged existing spec)
             (r ← state id;
              cluster ← request (λ w, srv_Update w (db_CNPGCluster r));
              do! update (set_db_Cluster cluster) ;;
              onDBStatus (λ st, Ret (set_cluster_status (dbClusterStatusAfterSpecUpdate (dbst_DBClusterStatus st)) st)))
  end.

(** *** The whole *)

Definition initDBStatus (r : Db QA A) : Db QA A :=
  match db_Status r with
  | Some _ => r
  | None => set_db_Status (mkNooBaaDBStatus DBClusterStatusNone "" 0 "" None None) r
  end.

Definition readyStatus (size : string) (st : NooBaaDBStatus) : NooBaaDBStatus :=
  let st := set_volume_size size (set_cluster_status DBClusterStatusReady st) in
  match dbst_RecoveryStatus st with
  | Some s => set_recovery_status (Some (mkDBRecoveryStatus DBRecoveryStatusCompleted (dbrs_SnapshotName s) (dbrs_RecoveryTime s))) st
  | None => st
  end.

(** An error of the silencer is logged and ignored. *)
Definition silence : M S () := update (λ r,
  let '(a, last, _) := ReconcilePDBAlertSilencer RequestNamespace (db_NooBaa r) (Some (om_Name (cl_meta (db_CNPGCluster r)))) now
                         (db_lastSilenceCheckTime r) (db_Alertmanager r) in
  set_db_Alerts a last r).

Definition ReconcileCNPGCluster : M S () :=
  do! update initDBStatus ;;
  do! reconcileCNPGImageCatalog ;;
  do! reconcileDBCluster ;;
  cluster ← state db_CNPGCluster;
  if negb (isClusterReady cluster) then throw (Errorf (Lit "cnpg cluster is not ready"))
  else
    do! onDBStatus (λ st, Ret (readyStatus (stc_Size (cs_StorageConfiguration (cl_Spec cluster))) st)) ;;
    do! reconcileDBBackup ;;
    silence.
End Reconcile.

(** ** Facts *)

(** The catalog maps the version to the image and keeps the entries of the others. *)
Lemma setCatalogImage_maps major image images :
  List.find (λ i, ci_Major i =? major)%Z (setCatalogImage major image images) = Some (mkCatalogImage major image) ∧
  filter (λ i, ci_Major i ≠ major) (setCatalogImage major image images) = filter (λ i, ci_Major i ≠ major) images.
Proof.
  induction images as [|[m i] images [IHf IHn]]; cbn [setCatalogImage List.find ci_Major].
  - rewrite Z.eqb_refl. by rewrite filter_cons_False by (intros H; by apply H).
  - destruct (Z.eqb_spec m major) as [->|Hne]; cbn [List.find ci_Major].
    + rewrite Z.eqb_refl. by rewrite !filter_cons_False by (intros H; by apply H).
    + rewrite (proj2 (Z.eqb_neq m major) Hne). split; [done|]. by rewrite !filter_cons_True, IHn by done.
Qed.

Section Facts.
Context {QA : QuantityApi} {W A : Type} {AH : AlertmanagerHttp A}.
Context {SIC : ApiServer W ImageCatalog} {CIC : ControllerUtil W ImageCatalog}.
Context {SCL : ApiServer W (Cluster QA)}.
Context {SSB : ApiServer W ScheduledBackup} {CSB : ControllerUtil W ScheduledBackup}.
Context {SBK : ApiServer W Backup} {SVS : ApiServer W VolumeSnapshot}.
Context {SST : ApiServer W StatefulSet} {CST : ControllerUtil W StatefulSet}.
Context {SDE : ApiServer W Deployment} {CDE : ControllerUtil W Deployment}.
Context {SPD : ApiServer W RunningPod} {SSC : ApiServer W StorageClass}.
Context (SetControllerReference : ObjectMeta → ObjectMeta → msg + ObjectMeta).
Context (Getenv : string → string) (now : Z) (opts : DbOptions) (RequestNamespace Namespace : string).
Context (ServiceDbPg : string) (DBResources : option (ResourceRequirements QA)).
Context (equalResources : ResourceRequirements QA → ResourceRequirements QA → bool).
Context (sortByCreation : list VolumeSnapshot → list VolumeSnapshot).
Implicit Types (w : W) (r : Db QA A).

Abbreviation clusterSpec := (reconcileClusterSpec Getenv opts RequestNamespace ServiceDbPg DBResources).
Abbreviation dbCluster := (reconcileDBCluster SetControllerReference Getenv now opts RequestNamespace Namespace ServiceDbPg
                             DBResources equalResources).

(** *** The specification settles *)

Lemma desiredMetadata_idemp m : desiredMetadata (Some (desiredMetadata m)) = desiredMetadata m.
Proof. unfold desiredMetadata. cbn. by rewrite insert_insert_eq. Qed.

Lemma desiredAffinity_idemp nb a : desiredAffinity nb (desiredAffinity nb a) = desiredAffinity nb a.
Proof.
  unfold desiredAffinity. destruct (nbs_Affinity _) as [spec|]; cbn; [|by destruct (nbs_Tolerations _)].
  destruct (afs_TopologyKey spec != ""); cbn; by destruct (nbs_Tolerations _).
Qed.

Lemma setDesiredStorageConf_settles w conf dbSpec ann conf' q :
  setDesiredStorageConf opts w conf dbSpec ann = Ret (inr conf') → ParseQuantity (stc_Size conf') = inr q →
  setDesiredStorageConf opts w conf' dbSpec ann = Ret (inr conf').
Proof.
  unfold setDesiredStorageConf.
  destruct (match dbs_DBStorageClass dbSpec with Some sc => _ | None => _ end) as [[e|sc]|p]; cbn; [done| |done].
  destruct (desiredSize _ _ (stc_Size conf)) as [e|size] eqn:Hs; [done|]. intros [= <-] Hq. cbn in *.
  by rewrite (desiredSize_settles _ _ _ _ _ Hs Hq).
Qed.

(** A specification that the controller computed is the one it computes from it. *)
Lemma reconcileClusterSpec_settles w nb name spec spec' q :
  clusterSpec w nb name spec = Ret (inr spec') → ParseQuantity (stc_Size (cs_StorageConfiguration spec')) = inr q →
  clusterSpec w nb name spec' = Ret (inr spec').
Proof.
  unfold reconcileClusterSpec. intros H Hq.
  apply bind_Ret in H as (dbSpec & -> & H). rewrite bind_ret_l.
  apply bind_Ret in H as (res & -> & H). rewrite bind_ret_l.
  apply bind_Ret in H as ([e|storage] & Hst & H); [done|].
  apply bind_Ret in H as (params & Hpg & H).
  destruct (desiredBackup dbSpec) as [backup|]; [|done]. injection H as <-.
  cbn [cs_StorageConfiguration cs_Parameters cs_InheritedMetadata cs_Affinity cs_Bootstrap] in Hq |- *.
  rewrite (setDesiredStorageConf_settles _ _ _ _ _ _ Hst Hq), bind_ret_l.
  rewrite (setPostgresConfig_again _ _ _ _ _ _ _ Hpg), bind_ret_l.
  by rewrite desiredMetadata_idemp, desiredAffinity_idemp.
Qed.

Lemma wasClusterSpecChanged_refl spec : equalResources (cs_Resources spec) (cs_Resources spec) = true →
  wasClusterSpecChanged equalResources spec spec = false.
Proof. intros He. unfold wasClusterSpecChanged. rewrite He. by rewrite !bool_decide_eq_true_2. Qed.

(** C10: A cluster that has the specification the controller computed for the system is left
    alone: no request is sent, whatever the status says. *)
Theorem reconcileDBCluster_settles w r c spec0 q :
  srv_Get w (ObjectKey (db_CNPGCluster r)) = inr c → om_UID (cl_meta c) ≠ ""%string →
  clusterSpec w (db_NooBaa r) (om_Name (ic_meta (db_CNPGImageCatalog r))) spec0 = Ret (inr (cl_Spec c)) →
  ParseQuantity (stc_Size (cs_StorageConfiguration (cl_Spec c))) = inr q →
  (∀ res, equalResources res res = true) →
  dbCluster (w, r) = Ret ((w, set_db_Cluster c r), inr ()).
Proof.
  intros Hget Huid Hspec Hq Heq. pose proof (reconcileClusterSpec_settles _ _ _ _ _ _ Hspec Hq) as Hsame.
  assert (KubeCheck w (db_CNPGCluster r) = Ret (c, true)) as Hcheck by (exact (KubeCheck_found w (db_CNPGCluster r) c Hget)).
  unfold reconcileDBCluster. do 6 run_next.
  rewrite bool_decide_eq_false_2 by done. cbn [negb]. rewrite wasClusterSpecChanged_refl by done.
  unfold set_cluster_spec, set_db_Cluster. cbn. by destruct c.
Qed.

(** *** Recovery *)

(** The scheduled backup was not there, or its deletion was accepted. *)
Definition backupRemoved w w' (key : ObjectKeyT) : Prop :=
  ((∃ e, srv_Get (O:=ScheduledBackup) w key = inl e) ∧ w' = w) ∨
  ∃ b, srv_Get (O:=ScheduledBackup) w key = inr b ∧
    (srv_Delete w b = (w', None) ∨ ∃ e, srv_Delete w b = (w', Some e) ∧ IsNotFound e = true).

Lemma cleanupDBBackup_ok w r w' r' :
  cleanupDBBackup (w, r) = Ret ((w', r'), inr ()) →
  r' = r ∧ backupRemoved w w' (clusterNamespace r, getBackupResourceName r).
Proof.
  unfold cleanupDBBackup. intros H. apply M_bind_ok in H as (s1 & r1 & [= <- <-] & H).
  apply M_bind_ok in H as (s2 & [b found] & Hr & H). apply reads_ok in Hr as [-> Hcheck].
  unfold KubeCheckQuiet, KubeGet in Hcheck. unfold backupRemoved.
  change (ObjectKey (GetCnpgScheduledBackupObj _ _)) with (clusterNamespace r, getBackupResourceName r) in Hcheck.
  apply when_ok in H as [[-> H]|[-> [= <- <-]]].
  - destruct (srv_Get w _) as [e|b'] eqn:Hget; [by destruct (_ || _) in Hcheck|]. injection Hcheck as ->.
    unfold requestDelete in H. destruct (srv_Delete w b) as [w1 [e|]] eqn:Hd; [destruct (IsNotFound e) eqn:He|];
      simplify_eq; split; eauto 10.
  - destruct (srv_Get w _) as [e|b'] eqn:Hget; [|done]. split; eauto.
Qed.

(** The state of the reconciler is threaded through [ReconcileObject] as the mutation
    leaves it. *)
Lemma ReconcileObject_pure {O} `{CL : ControllerUtilLaws W O} (obj : O) (f : O → O) w r w' r' obj' :
  ReconcileObject db_NooBaa SetControllerReference obj (λ o, mret (f o)) (w, r) = Ret ((w', r'), inr obj') → r' = r.
Proof.
  intros Hrun. destruct (ReconcileObject_ok _ _ _ _ _ _ _ _ _ Hrun) as (owned & base & o & op & x & _ & _ & Hf & _).
  by apply mret_ok in Hf as [-> _].
Qed.

Section Recovery.
Context {LST : ControllerUtilLaws W StatefulSet} {LDE : ControllerUtilLaws W Deployment}.
Context (reference_key : ∀ o m m', SetControllerReference o m = inr m' → om_Name m' = om_Name m ∧ om_Namespace m' = om_Namespace m).

(** The workloads of the core and of the endpoints were given no replicas, one after the
    other, and after that neither had a pod. *)
Definition stopped w (coreApp : StatefulSet) (endpoint : Deployment) w' : Prop :=
  ∃ core ep wc,
    ObjectKey core = ObjectKey coreApp ∧ ss_Replicas core = Some 0%Z ∧ accepted w core wc ∧
    ObjectKey ep = ObjectKey endpoint ∧ dep_Replicas ep = Some 0%Z ∧ accepted wc ep w' ∧
    KubeList w' (selectPods Namespace {["noobaa-core" := "noobaa"]}%string) = Ret ([], true) ∧
    KubeList w' (selectPods Namespace {["noobaa-s3" := "noobaa"]}%string) = Ret ([], true).

Lemma ReconcileObject_accepted {O} `{CL : ControllerUtilLaws W O} (obj : O) (f : O → O) w r w' r' obj' :
  ReconcileObject db_NooBaa SetControllerReference obj (λ o, mret (f o)) (w, r) = Ret ((w', r'), inr obj') →
  r' = r ∧ ∃ base, ObjectKey (f base) = ObjectKey obj ∧ accepted w (f base) w'.
Proof.
  intros Hrun. destruct (ReconcileObject_ok _ _ _ _ _ _ _ _ _ Hrun) as (owned & base & o & op & x & Hown & _ & Hf & Hk & Happ & _).
  apply mret_ok in Hf as [-> <-]. split; [done|]. exists base. split; [|by eapply applied_accepted].
  rewrite Hk. by eapply Own_ObjectKey.
Qed.

Lemma stopNoobaaPods_ok w r coreApp endpoint w' r' ca ep n :
  stopNoobaaPodsAndGetNumRunningPods db_NooBaa SetControllerReference Namespace coreApp endpoint (w, r) = Ret ((w', r'), inr (ca, ep, n)) →
  r' = r ∧ (n = 0%nat → stopped w coreApp endpoint w').
Proof.
  unfold stopNoobaaPodsAndGetNumRunningPods. intros H.
  apply M_bind_ok in H as ([w1 r1] & ca' & H1 & H). apply ReconcileObject_accepted in H1 as (-> & s & Hks & Hs).
  apply M_bind_ok in H as ([w2 r2] & ep' & H2 & H). apply ReconcileObject_accepted in H2 as (-> & d & Hkd & Hd).
  apply M_bind_ok in H as (s3 & [core found] & Hr & H). apply reads_ok in Hr as [-> Hcore].
  destruct found; [|done]. cbv beta iota in H.
  apply M_bind_ok in H as (s4 & [endpoints found] & Hr & H). apply reads_ok in Hr as [-> Hend].
  destruct found; [|done]. apply mret_ok in H as [[= <- <-] [= <- <- <-]]. split; [done|]. intros Hn.
  destruct core; [|done]. destruct endpoints; [|done]. eexists _, _, w1. split_and!; try done.
Qed.

(** What a cluster is created with when the system asks for a recovery, and what came
    before: no core or endpoint pods, no scheduled backup. *)
Lemma reconcileClusterRecovery_ok rec w r w' r' :
  reconcileClusterRecovery SetControllerReference Namespace rec (w, r) = Ret ((w', r'), inr ()) →
  cl_meta (db_CNPGCluster r') = cl_meta (db_CNPGCluster r) ∧
  ∃ w1,
    stopped w (db_CoreApp r) (db_DeploymentEndpoint r) w1 ∧
    backupRemoved w1 w' (clusterNamespace r, getBackupResourceName r) ∧
    cs_Bootstrap (cl_Spec (db_CNPGCluster r')) =
      Some (mkBootstrapConfiguration None (Some (mkBootstrapRecovery noobaaDBName noobaaDBUser (dbr_VolumeSnapshotName rec)))).
Proof.
  unfold reconcileClusterRecovery. intros H.
  apply M_bind_ok in H as ([w1 r1] & [] & Hst & H). apply M_bind_ok in Hst as (s1 & st & [= <- <-] & Hst).
  apply M_bind_ok in Hst as (s1 & st' & Hl & Hst). apply lift_ok in Hl as [<- _]. injection Hst as <- <-.
  apply M_bind_ok in H as (s2 & r2 & [= <- <-] & H).
  apply M_bind_ok in H as ([w3 r3] & [[ca ep] n] & Hstop & H). apply stopNoobaaPods_ok in Hstop as (-> & Hst).
  apply M_bind_ok in H as (s4 & [] & [= <-] & H).
  destruct (Nat.eqb_spec n 0) as [->|]; [|done]. cbn [negb] in H. specialize (Hst eq_refl).
  apply M_bind_ok in H as (s5 & [] & [= <-] & H).
  apply cleanupDBBackup_ok in H as [-> Hrem]. split; [done|]. eauto 10.
Qed.

Lemma createCluster_recovery dbSpec rec w r w' r' :
  dbs_DBRecovery dbSpec = Some rec →
  createCluster SetControllerReference now Namespace dbSpec (w, r) = Ret ((w', r'), inr ()) →
  ∃ w1 w2 cluster created,
    stopped w (db_CoreApp r) (db_DeploymentEndpoint r) w1 ∧
    backupRemoved w1 w2 (clusterNamespace r, getBackupResourceName r) ∧
    srv_Create w2 cluster = (w', inr created) ∧
    cs_Bootstrap (cl_Spec cluster) =
      Some (mkBootstrapConfiguration None (Some (mkBootstrapRecovery noobaaDBName noobaaDBUser (dbr_VolumeSnapshotName rec)))).
Proof.
  unfold createCluster. intros -> H. apply M_bind_ok in H as ([w2 r2] & [] & Hrec & H).
  apply reconcileClusterRecovery_ok in Hrec as (_ & w1 & Hst & Hrem & Hboot).
  apply M_bind_ok in H as (s3 & r3 & [= <- <-] & H).
  apply M_bind_ok in H as (s4 & owned & Hown & H). apply lift_ok in Hown as [<- Hown].
  apply M_bind_ok in H as ([w5 r5] & created & Hreq & H). unfold request in Hreq.
  destruct (srv_Create w2 owned) as [w6 [e|o]] eqn:Hcreate; simplify_eq.
  apply M_bind_ok in H as (s7 & [] & [= <-] & H). apply M_bind_ok in H as (s8 & boot & Hl & H). apply lift_ok in Hl as [<- _].
  apply M_bind_ok in H as (s9 & st & [= <- <-] & H). apply M_bind_ok in H as (s10 & st' & Hl & H). apply lift_ok in Hl as [<- _].
  injection H as <- <-. exists w1, w2, owned, created.
  assert (cl_Spec owned = cl_Spec (db_CNPGCluster r5)) as ->.
  { revert Hown. unfold Own. destruct (SetControllerReference _ _); [done|]. by intros [= <-]. }
  eauto 10.
Qed.

(** C9: A deleted cluster is recovered from the named snapshot only after the workloads of
    the core and of the endpoints were given no replicas, no pod of them was left, and the
    scheduled backup of the cluster was removed: only then is the cluster created, and it is
    created with that snapshot. *)
Theorem reconcileDBCluster_recovery w r w' r' c found dbSpec rec :
  dbCluster (w, r) = Ret ((w', r'), inr ()) →
  KubeCheck w (db_CNPGCluster r) = Ret (c, found) → om_UID (cl_meta c) = ""%string →
  db_Spec r = Some dbSpec → dbs_DBRecovery dbSpec = Some rec →
  ∃ w1 w2 cluster created,
    stopped w (db_CoreApp r) (db_DeploymentEndpoint r) w1 ∧
    backupRemoved w1 w2 (om_Namespace (cl_meta c), om_Name (cl_meta c) +:+ "-scheduled-backup") ∧
    srv_Create w2 cluster = (w', inr created) ∧
    cs_Bootstrap (cl_Spec cluster) =
      Some (mkBootstrapConfiguration None (Some (mkBootstrapRecovery noobaaDBName noobaaDBUser (dbr_VolumeSnapshotName rec)))).
Proof.
  intros H Hcheck Huid Hdb Hrec. unfold reconcileDBCluster in H.
  apply M_bind_ok in H as (s1 & c0 & [= <- <-] & H).
  apply M_bind_ok in H as (s2 & [c' f'] & Hr & H). apply reads_ok in Hr as [-> Hc]. rewrite Hcheck in Hc. injection Hc as <- <-.
  apply M_bind_ok in H as (s3 & [] & [= <-] & H). apply M_bind_ok in H as (s4 & r4 & [= <- <-] & H).
  apply M_bind_ok in H as (s5 & [e|spec] & Hr & H); [done|]. apply reads_ok in Hr as [-> _].
  apply M_bind_ok in H as (s6 & [] & [= <-] & H). rewrite bool_decide_eq_true_2 in H by done.
  apply M_bind_ok in H as (s7 & dbSpec' & Hget & H). unfold getDBSpec in Hget.
  apply M_bind_ok in Hget as (s8 & o & [= <- <-] & Hl). apply lift_ok in Hl as [<- Hl]. cbn in Hl.
  unfold db_Spec, set_cluster_spec in *. cbn in Hdb, Hl. rewrite Hdb in Hl. injection Hl as <-.
  exact (createCluster_recovery _ _ _ _ _ _ Hrec H).
Qed.
End Recovery.

Lemma getDBSpec_run w r dbSpec : db_Spec r = Some dbSpec → getDBSpec (w, r) = Ret ((w, r), inr dbSpec).
Proof. intros Hdb. unfold getDBSpec. erewrite M_bind_run by reflexivity. cbn [snd]. by rewrite Hdb. Qed.

End Facts.

(** ** Retention *)

Section Retention.
Context {QA : QuantityApi} {W A : Type} {SBK : ApiServer W Backup} {SVS : ApiServer W VolumeSnapshot}.
Context (sortByCreation : list VolumeSnapshot → list VolumeSnapshot).
Implicit Types (w : W) (r : Db QA A).

(** Documented behaviour of a deletion of a snapshot: an accepted one, or one of an
    object that is gone, leaves no such snapshot, and no other is touched; the deletion
    of a backup object touches no snapshot. *)
Class SnapshotDeletion : Prop := {
  snapshot_gone w (s : VolumeSnapshot) w' err : srv_Delete w s = (w', err) →
    match err with None => True | Some e => IsNotFound e = true end → ∃ e, srv_Get (O:=VolumeSnapshot) w' (ObjectKey s) = inl e;
  snapshot_other w (s : VolumeSnapshot) w' err k : srv_Delete w s = (w', err) → k ≠ ObjectKey s →
    srv_Get (O:=VolumeSnapshot) w' k = srv_Get w k;
  backup_other w (b : Backup) w' err k : srv_Delete w b = (w', err) → srv_Get (O:=VolumeSnapshot) w' k = srv_Get w k;
}.
Context {SD : SnapshotDeletion}.

(** The server refused to delete a snapshot at some time. *)
Definition refused (s : VolumeSnapshot) : Prop := ∃ w w' e, srv_Delete w s = (w', Some e) ∧ IsNotFound e = false.

Lemma requestDelete_returns {O} `{ApiServer W O} (o : O) w r : ∃ s' res, attempt (requestDelete o) (w, r) = Ret (s', inr res).
Proof. unfold attempt, requestDelete. destruct (srv_Delete w o). cbn. eauto. Qed.

Lemma requestDelete_backup w r s' res (b : Backup) k :
  attempt (requestDelete b) (w, r) = Ret (s', inr res) → s'.2 = r ∧ srv_Get (O:=VolumeSnapshot) s'.1 k = srv_Get w k.
Proof.
  unfold attempt, requestDelete. destruct (srv_Delete w b) as [w1 err] eqn:Hd. cbn. intros [= <- _]. cbn.
  eauto using backup_other.
Qed.

(** One round of the loop. *)
Lemma requestDelete_snapshot w r s' res (s : VolumeSnapshot) :
  attempt (requestDelete s) (w, r) = Ret (s', inr res) →
  s'.2 = r ∧ (∀ k, k ≠ ObjectKey s → srv_Get (O:=VolumeSnapshot) s'.1 k = srv_Get w k) ∧
  match res with inl _ => refused s | inr _ => ∃ e, srv_Get (O:=VolumeSnapshot) s'.1 (ObjectKey s) = inl e end.
Proof.
  unfold attempt, requestDelete. destruct (srv_Delete w s) as [w1 err] eqn:Hd. cbn. intros [= <- <-]. cbn.
  split; [done|]. split; [eauto using snapshot_other|].
  destruct err as [e|]; [destruct (IsNotFound e) eqn:He|].
  - by apply (snapshot_gone _ _ _ _ Hd).
  - by exists w, w1, e.
  - by apply (snapshot_gone _ _ _ _ Hd).
Qed.

(** The snapshots the loop deletes. *)
Abbreviation others dbSpec := (filter (λ s, isRecoverySnapshot dbSpec s = false)).
Abbreviation recovered dbSpec := (filter (λ s, isRecoverySnapshot dbSpec s = true)).

Lemma deleteSnapshots_run dbSpec l total available w r s' res :
  NoDup (ObjectKey <$> l) → deleteSnapshots dbSpec l total available (w, r) = Ret (s', res) →
  s'.2 = r ∧ ∃ deleted failed, others dbSpec l ≡ₚ deleted ++ failed ∧
  res = inr (total - Z.of_nat (length deleted), available ++ recovered dbSpec l)%Z ∧
  (∀ k, (∀ s, s ∈ l → isRecoverySnapshot dbSpec s = false → k ≠ ObjectKey s) → srv_Get (O:=VolumeSnapshot) s'.1 k = srv_Get w k) ∧
  (∀ s, s ∈ deleted → ∃ e, srv_Get (O:=VolumeSnapshot) s'.1 (ObjectKey s) = inl e) ∧ Forall refused failed.
Proof.
  revert total available w. induction l as [|s l IH]; intros total available w Hnd; cbn [deleteSnapshots].
  { intros [= <- <-]. split; [done|]. exists [], [].
    split_and!; [done| |done|set_solver|done]. by rewrite filter_nil, app_nil_r, Z.sub_0_r. }
  rewrite fmap_cons in Hnd. apply NoDup_cons in Hnd as [Hnin Hnd].
  destruct (isRecoverySnapshot dbSpec s) eqn:Hrec.
  { intros H. apply IH in H as (Hr & deleted & failed & Hperm & -> & Hk & Hg & Hf); [|done]. split; [done|].
    exists deleted, failed. rewrite filter_cons_False, filter_cons_True, <-(assoc_L (++)) by congruence.
    split_and!; [done..| |done|done]. intros k Hne. apply Hk. intros x Hx. apply Hne. by right. }
  rewrite filter_cons_True, filter_cons_False by congruence.
  intros Hrun. destruct (requestDelete_returns s w r) as ([w1 r1] & res1 & Hd). rewrite (M_bind_run _ _ _ _ _ Hd) in Hrun.
  apply requestDelete_snapshot in Hd as (Hr1 & Hother & Hs). cbn in Hr1, Hother, Hs. subst r1.
  assert (∀ w2 k, (∀ k, srv_Get (O:=VolumeSnapshot) w2 k = srv_Get w1 k) →
    (∀ k, (∀ x, x ∈ l → isRecoverySnapshot dbSpec x = false → k ≠ ObjectKey x) → srv_Get (O:=VolumeSnapshot) s'.1 k = srv_Get w2 k) →
    (∀ x, x ∈ s :: l → isRecoverySnapshot dbSpec x = false → k ≠ ObjectKey x) → srv_Get (O:=VolumeSnapshot) s'.1 k = srv_Get w k) as Hframe.
  { intros w2 k Hsame Hk Hne. rewrite Hk by (intros x Hx; apply Hne; by right). rewrite Hsame. apply Hother, Hne; [by left|done]. }
  destruct res1 as [e|[]].
  { apply IH in Hrun as (Hr & deleted & failed & Hperm & -> & Hk & Hg & Hf); [|done]. split; [done|].
    exists deleted, (s :: failed). rewrite Hperm. split_and!; [solve_Permutation|done| |done|by constructor].
    intros k Hne. by eapply Hframe. }
  erewrite M_bind_run in Hrun by reflexivity.
  destruct (requestDelete_returns (GetCnpgBackupObj (clusterNamespace r) (om_Name (vs_meta s))) w1 r) as ([w2 r2] & res2 & Hb).
  cbn [id] in Hrun. rewrite (M_bind_run _ _ _ _ _ Hb) in Hrun.
  destruct (requestDelete_backup _ _ _ _ _ (ObjectKey s) Hb) as [Hr2 _]. cbn in Hr2. subst r2.
  assert (∀ k, srv_Get (O:=VolumeSnapshot) w2 k = srv_Get w1 k) as Hsame.
  { intros k. by apply (requestDelete_backup _ _ _ _ _ k Hb). }
  apply IH in Hrun as (Hr & deleted & failed & Hperm & -> & Hk & Hg & Hf); [|done]. split; [done|].
  exists (s :: deleted), failed. rewrite Hperm. split_and!; [done| | | |done].
  - cbn [length]. do 2 f_equal. lia.
  - intros k Hne. by eapply Hframe.
  - intros x [->|Hx]%elem_of_cons; [|by apply Hg]. destruct Hs as [e Hs]. exists e. rewrite Hk, Hsame; [done|].
    intros y Hy _ Heq. apply Hnin. rewrite Heq. by apply list_elem_of_fmap_2.
Qed.

Lemma NoDup_fmap_inj {X Y} (f : X → Y) l x y : NoDup (f <$> l) → x ∈ l → y ∈ l → f x = f y → x = y.
Proof.
  induction l as [|z l IH]; [set_solver|]. rewrite fmap_cons. intros [Hz Hl]%NoDup_cons Hx Hy Hf.
  apply elem_of_cons in Hx as [->|Hx], Hy as [->|Hy]; auto.
  - destruct Hz. rewrite Hf. by apply list_elem_of_fmap_2.
  - destruct Hz. rewrite <-Hf. by apply list_elem_of_fmap_2.
Qed.

Definition creation (s : VolumeSnapshot) : Z := om_CreationTimestamp (vs_meta s).
(** [slices.SortFunc] sorts. *)
Context (sort_perm : ∀ l, sortByCreation l ≡ₚ l).
Context (sort_sorted : ∀ l, StronglySorted (λ a b, creation a ≤ creation b)%Z (sortByCreation l)).

Lemma retained_count dbSpec l n deleted failed :
  others dbSpec (take n l) ≡ₚ deleted ++ failed →
  (Z.of_nat (length l) - Z.of_nat (length deleted))%Z = Z.of_nat (length (drop n l ++ recovered dbSpec (take n l) ++ failed)).
Proof.
  intros Hold%Permutation_length. rewrite length_app in Hold. rewrite !length_app, length_drop.
  assert (length (take n l) = length (others dbSpec (take n l)) + length (recovered dbSpec (take n l)))%nat as Hsplit.
  { clear. induction (take n l) as [|s k IH]; [done|]. rewrite !filter_cons. destruct (isRecoverySnapshot dbSpec s); cbn [length] in *; repeat case_decide; cbn [length] in *; lia || congruence. }
  rewrite length_take in Hsplit. lia.
Qed.

(** The last step of retention writes the status. *)
Lemma recordSnapshots_run w r total available s' res :
  onDBStatus (λ st, status ← deref (dbst_BackupStatus st);
    Ret (set_backup_status (Some (mkDBBackupStatus (dbbs_LastBackupTime status) (dbbs_NextBackupTime status) total
      ((λ s, om_Name (vs_meta s)) <$> available))) st)) (w, r) = Ret (s', res) →
  s'.1 = w ∧ res = inr () ∧ ∃ status, db_Status s'.2 ≫= dbst_BackupStatus = Some status ∧
    dbbs_TotalSnapshots status = total ∧ dbbs_AvailableSnapshots status = (λ s, om_Name (vs_meta s)) <$> available.
Proof.
  unfold onDBStatus. erewrite M_bind_run by reflexivity. cbn [snd]. unfold mbind at 1, M_bind, lift.
  destruct (db_Status r) as [st|]; cbn; [|done]. destruct (dbst_BackupStatus st) as [b|]; cbn; [|done].
  intros [= <- <-]. cbn. split; [done|]. split; [done|]. eexists. split; [done|]. done.
Qed.

End Retention.
