(* ===== verification/DefaultStore.v ===== *)
(** * The default resources of a system: [pkg/system/phase4_configuring.go].

    The configuring phase gives a new system a backing store: on a bucket, or on a
    container, of the cloud that [CloudCredentials] has obtained credentials for, on a
    bucket of rook, or on volumes of the cluster when credentials do not arrive in time.
    On top of it come a bucket class and a storage class; on IBM Fusion it is a namespace
    store on a shared volume instead.  The clouds, the random names and the files of the
    process are services, with the calls that the code makes. *)

From Stdlib Require Import Ascii.
From stdpp Require Import pretty.
From S2P Require Import Prelude Effects GoStrings GoUrl GoTime Types Kube Util Gcp Profiles BackingStoreValidation.
From S2P Require Import SystemVerifying SystemObjects DbConfig CloudPlatform CloudCredentials.

(** ** The clouds *)

(** [aws.Config]. *)
Record AwsConfig := mkAwsConfig {
  ac_AccessKey : string;
  ac_SecretKey : string;
  ac_SessionToken : string;
  ac_Region : string;
  ac_Endpoint : option string;
  ac_S3ForcePathStyle : bool;
}.

(** The error of [CreateBucket]. *)
Inductive s3_error := BucketAlreadyOwnedByYou | S3Error (m : msg).

(** The data that an Azure client is made from. *)
Record AzureAuth := mkAzureAuth {
  aza_tenant : string;
  aza_client : string;
  aza_secret : option string;   (* [None]: a token from a file *)
  aza_subscription : string;
}.

Class CloudServices (W : Type) : Type := {
  session_New : AwsConfig → option msg;
  s3_CreateBucket : W → AwsConfig → string → W * option s3_error;
  sts_AssumeRoleWithWebIdentity : W → string → string → string → string → W * (msg + string * string * string);
  fs_ReadFile : W → string → msg + string;
  gcs_NewClient : string → option msg;
  gcs_CreateBucket : W → string → string → string → W * option msg;
  json_ProjectID : string → msg + string;
  (** [azidentity] and [NewAccountsClient]. *)
  arm_NewAccountsClient : AzureAuth → option msg;
  arm_BeginCreate : W → AzureAuth → string → string → string → W * option msg;
  arm_PollUntilDone : W → string → W * option msg;
  arm_ListKeys : W → AzureAuth → string → string → msg + list (option string);
  blob_CreateContainer : W → string → string → string → W * option msg;
  (** [randname.GenerateWithPrefix(prefix, 5)]. *)
  randname : W → string → W * string;
}.

Definition ibmEndpoint (region : string) : string := "https://s3.direct." +:+ region +:+ ".cloud-object-storage.appdomain.cloud".
Definition ibmLocation (region : string) : string := region +:+ "-standard".
Definition minutesToWaitForDefaultBSCreation : Z := 10.
Definition credentialsKey : string := "credentials".

(** [strings.Split(s, sep)] for a separator of two bytes. *)
Fixpoint Split2 (s : string) (a b : ascii) : list string :=
  match s with
  | EmptyString => [""%string]
  | String c s1 =>
      match s1 with
      | EmptyString => [String c ""]
      | String d s2 =>
          if (c == a) && (d == b) then ""%string :: Split2 s2 a b
          else match Split2 s1 a b with [] => [] | w :: ws => String c w :: ws end
      end
  end.

(** The lines after the first two; a line without the separator is only logged before its
    second part is read. *)
Fixpoint credentialPairs (lines : list string) (result : gmap string string) : outcome (gmap string string) :=
  match lines with
  | [] => Ret result
  | line :: lines =>
      match Split2 line " " "=" with
      | key :: value :: _ => credentialPairs lines (<[TrimSpace key := TrimSpace value]> result)
      | _ => Panic IndexOutOfRange
      end
  end.
Definition getInfoFromAwsStsSecret (data : string) : outcome (gmap string string) :=
  match Split data "010" with
  | _ :: _ :: lines => credentialPairs lines ∅
  | _ => Panic IndexOutOfRange
  end.

Definition derefAzureBlobString (p : option string) : string := default ""%string p.

(** Parts of the specification of a backing store. *)
Definition set_bss_Type {QA} v (s : BackingStoreSpec QA) : BackingStoreSpec QA :=
  mkBackingStoreSpec QA v (bss_AWSS3 s) (bss_S3Compatible s) (bss_IBMCos s) (bss_AzureBlob s) (bss_GoogleCloudStorage s) (bss_PVPool s).
Definition set_bss_S3Compatible {QA} v (s : BackingStoreSpec QA) : BackingStoreSpec QA :=
  mkBackingStoreSpec QA (bss_Type s) (bss_AWSS3 s) v (bss_IBMCos s) (bss_AzureBlob s) (bss_GoogleCloudStorage s) (bss_PVPool s).
Definition set_bss_IBMCos {QA} v (s : BackingStoreSpec QA) : BackingStoreSpec QA :=
  mkBackingStoreSpec QA (bss_Type s) (bss_AWSS3 s) (bss_S3Compatible s) v (bss_AzureBlob s) (bss_GoogleCloudStorage s) (bss_PVPool s).
Definition set_bss_GoogleCloudStorage {QA} v (s : BackingStoreSpec QA) : BackingStoreSpec QA :=
  mkBackingStoreSpec QA (bss_Type s) (bss_AWSS3 s) (bss_S3Compatible s) (bss_IBMCos s) (bss_AzureBlob s) v (bss_PVPool s).
Definition set_bss_PVPool {QA} v (s : BackingStoreSpec QA) : BackingStoreSpec QA :=
  mkBackingStoreSpec QA (bss_Type s) (bss_AWSS3 s) (bss_S3Compatible s) (bss_IBMCos s) (bss_AzureBlob s) (bss_GoogleCloudStorage s) v.

Section Default.
Context {QA : QuantityApi} {PC : ProviderCodec} {GJ : GoogleJson} `{AuthoritySyntax} {W : Type} {CS : CloudServices W}.
Context {SN : ApiServer W Node} {SI : ApiServer W Infrastructure} {SC : ApiServer W StorageClass}.
Context {SS : ApiServer W Secret} {SU : ApiServer W CephObjectStoreUser}.
Context {SB : ApiServer W (BackingStore QA)} {SP : ApiServer W (NsfsPvc QA)} {SNS : ApiServer W NamespaceStore} {SBC : ApiServer W BucketClass}.
Context (SetControllerReference : ObjectMeta → ObjectMeta → msg + ObjectMeta).
(** [options.Namespace], the time, the host of the management route, and the size of an
    [int64]. *)
Context (Namespace : string) (now : Z) (Host : string).

Abbreviation S := (W * Cloud QA PC)%type.
Abbreviation own := (own SetControllerReference).

(** A call of a service. *)
Definition call {A} (f : W → W * A) : M S A := λ '(w, r), let '(w, a) := f w in Ret ((w, r), inr a).
Definition failsWith (format : string) (m : option msg) : M S () :=
  match m with Some m => throw (Errorf (Sprintf format [AMsg m])) | None => mret () end.
(** [r.Client.Update]. *)
Definition clientUpdate {O} `{ApiServer W O} (obj : O) : M S (option api_error * O) := λ '(w, r),
  let '(w, obj, err) := fill (srv_Update w obj) obj in Ret ((w, r), inr (err, obj)).

(** ** On volumes *)

Definition defaultPVPool (profile : PerformanceProfileType) (existingVolumes : Z) (storageClass : string) : PVPoolSpec QA :=
  mkPVPoolSpec QA storageClass (getPVPoolNumVolumes profile existingVolumes)
    (Some (mkResourceRequirements QA (Some {[ResourceStorage := NewQuantity (50 * 1024 * 1024 * 1024)]}) None)) "" (mkSecretReference "" "").
Definition setPVPool (p : PVPoolSpec QA) : Cloud QA PC → Cloud QA PC :=
  update_store (λ s, set_bss_PVPool (Some p) (set_bss_Type StoreTypePVPool s)).

Definition preparePVPoolBackingStore : M S () :=
  r ← state id;
  let spec := nb_Spec (cl_NooBaa r) in
  let existingVolumes := match bss_PVPool (bs_Spec (cl_DefaultBackingStore r)) with Some p => pvp_NumVolumes p | None => 0%Z end in
  let pool := defaultPVPool (nbs_PerformanceProfile spec) existingVolumes in
  do! update (setPVPool (pool ""%string)) ;;
  match nbs_PVPoolDefaultStorageClass spec with
  | Some storageClass => update (setPVPool (pool storageClass))
  | None =>
      name ← reads findLocalStorageClass;
      match name with inl e => throw e | inr name => update (setPVPool (pool name)) end
  end.

Definition defaultBSCreationTimedout (timestampCreation : Z) : bool :=
  (minutesToWaitForDefaultBSCreation * Minute <? now - timestampCreation)%Z.

(** With an event. *)
Definition fallbackToPVPoolWithEvent (backingStoreType : StoreType) (secretName : string) : M S () := preparePVPoolBackingStore.

(** The secret of a credentials request; [Some] once it is there. *)
Definition credentialsSecret (creds : CredentialsRequest PC) : M S Secret :=
  '(secret, _) ← reads (λ w, KubeCheck w (mkSecret (named (sr_Namespace (cr_SecretRef creds)) (sr_Name (cr_SecretRef creds))) None None));
  mret secret.
(** Without the secret: wait, or fall back. *)
Definition awaitSecret (creds : CredentialsRequest PC) (t : StoreType) : M S () :=
  let secretName := sr_Name (cr_SecretRef creds) in
  if defaultBSCreationTimedout (om_CreationTimestamp (cr_meta creds)) then fallbackToPVPoolWithEvent t secretName
  else throw (Errorf (Sprintf "cloud credentials secret %q is not ready yet" [AStr secretName])).

(** ** On AWS *)

Definition createS3BucketForBackingStore (s3Config : AwsConfig) (bucketName : string) : M S () :=
  do! failsWith "%v" (session_New s3Config) ;;
  err ← call (λ w, s3_CreateBucket w s3Config bucketName);
  match err with
  | None | Some BucketAlreadyOwnedByYou => mret ()
  | Some (S3Error m) => throw (Errorf m)
  end.

(** The credentials of a cluster that uses tokens. *)
Definition stsConfig (AWSSTSRoleSessionName region : string) (secret : Secret) : M S AwsConfig :=
  let data := map_get (sec_StringData secret) credentialsKey in
  if (len data =? 0)%Z then
    throw (Errorf (Sprintf "invalid secret for aws sts credentials (should contain %s under data)" [AStr credentialsKey]))
  else
    info ← lift (getInfoFromAwsStsSecret data);
    let roleARNInput := map_get (Some info) "role_arn" in
    let webIdentityTokenPathInput := map_get (Some info) "web_identity_token_file" in
    do! failsWith "could not create AWS Session %v" (session_New (mkAwsConfig "" "" "" region None false)) ;;
    token ← reads (λ w, Ret (fs_ReadFile w webIdentityTokenPathInput));
    match token with
    | inl m => throw (Errorf (Sprintf "could not read WebIdentityToken from path %s, %v" [AStr webIdentityTokenPathInput; AMsg m]))
    | inr token =>
        result ← call (λ w, sts_AssumeRoleWithWebIdentity w region roleARNInput AWSSTSRoleSessionName token);
        match result with
        | inl m => throw (Errorf (Sprintf "could not use AWS AssumeRoleWithWebIdentity with role name %s and web identity token file %s, %v"
                     [AStr roleARNInput; AStr webIdentityTokenPathInput; AMsg m]))
        | inr (accessKey, secretKey, sessionToken) => mret (mkAwsConfig accessKey secretKey sessionToken region None false)
        end
    end.

Definition AWSSTSRoleSessionName : string := "noobaa-sts-default-backing-store-session".

Definition prepareAWSBackingStore : M S () :=
  creds ← state cl_AWSCloudCreds;
  cloudCredsSecret ← credentialsSecret creds;
  if om_UID (sec_meta cloudCredsSecret) == "" then awaitSecret creds StoreTypeAWSS3
  else
    region ← reads GetAWSRegion;
    let region := match region with inl _ => "us-east-1"%string | inr region => region end in
    sts ← state cl_IsAWSSTSCluster;
    s3Config ← (if (sts : bool) then stsConfig AWSSTSRoleSessionName region cloudCredsSecret
                else mret (mkAwsConfig (map_get (sec_StringData cloudCredsSecret) "aws_access_key_id")
                             (map_get (sec_StringData cloudCredsSecret) "aws_secret_access_key") "" region None false));
    bs ← state cl_DefaultBackingStore;
    aws ← lift (deref (bss_AWSS3 (bs_Spec bs)));
    do! createS3BucketForBackingStore s3Config (aws_TargetBucket aws) ;;
    update (update_store (λ s, set_bss_AWSS3 (Some (mkAWSS3Spec (aws_TargetBucket aws)
      (mkSecretReference (om_Name (sec_meta cloudCredsSecret)) (om_Namespace (sec_meta cloudCredsSecret))) region
      (aws_SSLDisabled aws) (aws_AWSSTSRoleARN aws))) (set_bss_Type StoreTypeAWSS3 s))).

(** ** On Azure *)

(** [r.AzureContainerCreds.StringData[k]], read and written. *)
Definition azureGet (k : string) : M S string := state (λ r, map_get (sec_StringData (cl_AzureContainerCreds r)) k).
Definition set_StringData (d : option (gmap string string)) (s : Secret) : Secret := mkSecret (sec_meta s) d (sec_Data s).
Definition azureSet (k v : string) : M S () :=
  creds ← state cl_AzureContainerCreds;
  data ← lift (map_set (sec_StringData creds) k v);
  update (set_AzureContainerCreds (set_StringData data creds)).

Definition azureAuth (r : Cloud QA PC) : AzureAuth :=
  let get := map_get (sec_StringData (cl_AzureContainerCreds r)) in
  mkAzureAuth (get "azure_tenant_id") (get "azure_client_id")
    (if cl_IsAzureSTSCluster r then None else Some (get "azure_client_secret")) (get "azure_subscription_id").

Definition getStorageAccountsClient : M S AzureAuth :=
  auth ← state azureAuth;
  do! failsWith "%v" (arm_NewAccountsClient auth) ;;
  mret auth.

Definition CreateStorageAccount (accountName accountGroupName : string) : M S () :=
  auth ← getStorageAccountsClient;
  location ← azureGet "azure_region";
  err ← call (λ w, arm_BeginCreate w auth accountGroupName accountName location);
  do! failsWith "failed to start creating storage account: %+v" err ;;
  err ← call (λ w, arm_PollUntilDone w accountName);
  failsWith "failed to finish creating storage account: %+v" err.

Definition GetAccountKeys (accountName accountGroupName : string) : M S (list (option string)) :=
  auth ← getStorageAccountsClient;
  keys ← reads (λ w, Ret (arm_ListKeys w auth accountGroupName accountName));
  orError keys.

Definition getAccountPrimaryKey (accountName accountGroupName : string) : M S string :=
  keys ← attempt (GetAccountKeys accountName accountGroupName);
  match keys with
  | inl e => throw (Errorf (Sprintf "failed to list keys: %+v" [AMsg (Error e)]))
  | inr (Some key :: _) => mret key
  | inr _ => throw (Errorf (Sprintf "no storage account keys returned for accountName: %s" [AStr accountName]))
  end.

(** The container is reached with the primary key; that there is none is not noticed. *)
Definition CreateContainer (accountName accountGroupName containerName : string) : M S () :=
  key ← attempt (getAccountPrimaryKey accountName accountGroupName);
  let key := match key with inl _ => ""%string | inr key => key end in
  err ← call (λ w, blob_CreateContainer w accountName key containerName);
  failsWith "%v" err.

(** The secret with the names of what was made; made from that of the credentials. *)
Definition ensureContainerCreds (cloudCredsSecret : Secret) : M S () :=
  creds ← state cl_AzureContainerCreds;
  '(creds, _) ← reads (λ w, KubeCheck w (SecretResetStringDataFromData creds));
  do! update (set_AzureContainerCreds creds) ;;
  if om_UID (sec_meta creds) != "" then mret ()
  else
    do! update (set_AzureContainerCreds (set_StringData (sec_StringData cloudCredsSecret) creds)) ;;
    r ← state id;
    do! (if cl_IsAzureSTSCluster r then
           az ← lift (deref (bss_AzureBlob (bs_Spec (cl_DefaultBackingStore r))));
           clientId ← lift (deref (azb_ClientId az));
           do! azureSet "azure_client_id" clientId ;;
           do! azureSet "azure_tenant_id" (derefAzureBlobString (azb_TenantId az)) ;;
           do! azureSet "azure_subscription_id" (derefAzureBlobString (azb_SubscriptionId az)) ;;
           azureSet "azure_resourcegroup" (derefAzureBlobString (azb_ResourcegroupId az))
         else mret ()) ;;
    creds ← state cl_AzureContainerCreds;
    creds ← own creds;
    do! update (set_AzureContainerCreds creds) ;;
    res ← attempt (clientCreate creds);
    match res with
    | inl e => throw (Errorf (Sprintf "got error on AzureContainerCreds creation. error: %v" [AMsg (Error e)]))
    | inr creds => update (set_AzureContainerCreds creds)
    end.

Definition ensureAccount (azureGroupName : string) : M S () :=
  name ← azureGet "AccountName";
  if name != "" then mret ()
  else
    name ← call (λ w, randname w "noobaaaccount");
    let azureAccountName := ToLower name in
    do! CreateStorageAccount azureAccountName azureGroupName ;;
    azureSet "AccountName" azureAccountName.

Definition ensureAccountKey (azureGroupName : string) : M S () :=
  key ← azureGet "AccountKey";
  if key != "" then mret ()
  else
    azureAccountName ← azureGet "AccountName";
    key ← getAccountPrimaryKey azureAccountName azureGroupName;
    azureSet "AccountKey" key.

Definition ensureContainer (azureGroupName : string) : M S string :=
  azureContainerName ← azureGet "targetBlobContainer";
  if azureContainerName != "" then mret azureContainerName
  else
    name ← call (λ w, randname w "noobaacontainer");
    let azureContainerName := ToLower name in
    accountName ← azureGet "AccountName";
    do! CreateContainer accountName azureGroupName azureContainerName ;;
    do! azureSet "targetBlobContainer" azureContainerName ;;
    mret azureContainerName.

Definition prepareAzureBackingStore : M S () :=
  creds ← state cl_AzureCloudCreds;
  cloudCredsSecret ← credentialsSecret creds;
  if om_UID (sec_meta cloudCredsSecret) == "" then awaitSecret creds StoreTypeAzureBlob
  else
    do! ensureContainerCreds cloudCredsSecret ;;
    azureGroupName ← azureGet "azure_resourcegroup";
    do! ensureAccount azureGroupName ;;
    do! ensureAccountKey azureGroupName ;;
    azureContainerName ← ensureContainer azureGroupName;
    creds ← state cl_AzureContainerCreds;
    '(err, creds) ← clientUpdate creds;
    do! update (set_AzureContainerCreds creds) ;;
    do! failsWith "got error on AzureContainerCreds update. error: %v" (api_error_msg <$> err) ;;
    bs ← state cl_DefaultBackingStore;
    az ← lift (deref (bss_AzureBlob (bs_Spec bs)));
    update (update_store (λ s, set_bss_AzureBlob (Some (mkAzureBlobSpec azureContainerName
      (mkSecretReference (om_Name (sec_meta creds)) (om_Namespace (sec_meta creds)))
      (azb_ClientId az) (azb_TenantId az) (azb_SubscriptionId az) (azb_ResourcegroupId az))) (set_bss_Type StoreTypeAzureBlob s))).

(** ** On GCP *)

Definition createGCPBucketForBackingStore (credentialsJSON projectID bucketName : string) : M S () :=
  err ← call (λ w, gcs_CreateBucket w credentialsJSON projectID bucketName);
  failsWith "%v" err.

Definition createGCPBucketWithCredentialsJSON (credentialsJSON projectID : string) : M S string :=
  name ← call (λ w, randname w "noobaabucket");
  let bucketName := ToLower name in
  do! failsWith "%v" (gcs_NewClient credentialsJSON) ;;
  do! createGCPBucketForBackingStore credentialsJSON projectID bucketName ;;
  mret bucketName.

Definition ensureBucketCreds (cloudCredsSecret : Secret) : M S () :=
  creds ← state cl_GCPBucketCreds;
  '(creds, _) ← reads (λ w, KubeCheck w creds);
  do! update (set_GCPBucketCreds creds) ;;
  if om_UID (sec_meta creds) != "" then mret ()
  else
    creds ← own (set_StringData (sec_StringData cloudCredsSecret) creds);
    do! update (set_GCPBucketCreds creds) ;;
    res ← attempt (clientCreate creds);
    match res with
    | inl e => throw (Errorf (Sprintf "got error on GCPBucketCreds creation. error: %v" [AMsg (Error e)]))
    | inr creds => update (set_GCPBucketCreds creds)
    end.

(** The credentials under the name that their kind has in the secret of a store. *)
Definition storeCredentials (isExternalAccount : bool) (credsJSON : string) (data : gmap string string) : gmap string string :=
  if isExternalAccount then <[GoogleCredentialsJson := credsJSON]> (delete GoogleServiceAccountPrivateKeyJson data)
  else <[GoogleServiceAccountPrivateKeyJson := credsJSON]> (delete GoogleCredentialsJson data).

Definition prepareGCPBackingStore : M S () :=
  creds ← state cl_GCPCloudCreds;
  let secretName := sr_Name (cr_SecretRef creds) in
  cloudCredsSecret ← credentialsSecret creds;
  if om_UID (sec_meta cloudCredsSecret) == "" then awaitSecret creds StoreTypeGoogleCloudStorage
  else
    do! ensureBucketCreds cloudCredsSecret ;;
    let credsJSON := map_get (sec_StringData cloudCredsSecret) "service_account.json" in
    if credsJSON == "" then
      throw (Errorf (Sprintf "cloud credentials secret %q is missing service_account.json" [AStr secretName]))
    else match ParseGoogleCredentials credsJSON with
    | inl e => throw (Errorf (Sprintf "failed to parse GCP credentials from secret %q: %w" [AStr secretName; AMsg (Error e)]))
    | inr (isExternalAccount, serviceAccountEmail) =>
        bucketCreds ← state cl_GCPBucketCreds;
        match sec_StringData bucketCreds with
        | None => throw (Errorf (Sprintf "cloud credentials secret %q is not ready yet (does not contain a map of StringData yet)" [AStr secretName]))
        | Some data =>
            do! update (set_GCPBucketCreds (set_StringData (Some (storeCredentials isExternalAccount credsJSON data)) bucketCreds)) ;;
            bucketName ←
              (if (isExternalAccount : bool) then
                 match GcpProjectIDFromServiceAccountEmail serviceAccountEmail with
                 | inl e => throw e
                 | inr projectID => createGCPBucketWithCredentialsJSON credsJSON projectID
                 end
               else match json_ProjectID credsJSON with
                    | inl m => throw (Errorf (Sprintf "failed to parse service_account credentials: %w" [AMsg m]))
                    | inr projectID => createGCPBucketWithCredentialsJSON credsJSON projectID
                    end);
            bucketCreds ← state cl_GCPBucketCreds;
            '(err, bucketCreds) ← clientUpdate bucketCreds;
            do! update (set_GCPBucketCreds bucketCreds) ;;
            do! failsWith "got error on GCPBucketCreds update. error: %v" (api_error_msg <$> err) ;;
            update (update_store (λ s, set_bss_GoogleCloudStorage (Some (mkGoogleCloudStorageSpec bucketName
              (mkSecretReference (om_Name (sec_meta bucketCreds)) (om_Namespace (sec_meta bucketCreds)))))
              (set_bss_Type StoreTypeGoogleCloudStorage s)))
        end
    end.

(** ** On IBM Cloud *)

(** The endpoint and the location, of the secret or of the region. *)
Definition ibmAddress (creds : Secret) : M S (string * string) :=
  match sec_StringData creds ≫= lookup "IBM_COS_Endpoint"%string with
  | Some endpoint => mret (endpoint, map_get (sec_StringData creds) "IBM_COS_Location")
  | None =>
      region ← reads GetIBMRegion;
      match region with
      | inl _ => throw (Errorf (Lit "Failed to get IBM Region"))
      | inr region => mret (ibmEndpoint region, ibmLocation region)
      end
  end.

Definition prepareIBMBackingStore : M S () :=
  creds ← state cl_IBMCosBucketCreds;
  let secretName := om_Name (sec_meta creds) in
  '(creds, _) ← reads (λ w, KubeCheck w creds);
  do! update (set_IBMCosBucketCreds creds) ;;
  if om_UID (sec_meta creds) == "" then
    if defaultBSCreationTimedout (om_CreationTimestamp (sec_meta creds)) then fallbackToPVPoolWithEvent StoreTypeIBMCos secretName
    else throw (Errorf (Sprintf "Cloud credentials secret %q is not ready yet" [AStr secretName]))
  else
    '(endpoint, location) ← ibmAddress creds;
    match Parse endpoint with
    | inl _ => throw (Errorf (Sprintf "Invalid formate URL %q" [AStr endpoint]))
    | inr _ =>
        match sec_StringData creds ≫= lookup "IBM_COS_ACCESS_KEY_ID"%string, sec_StringData creds ≫= lookup "IBM_COS_SECRET_ACCESS_KEY"%string with
        | None, _ => throw (Errorf (Lit "Missing IBM_COS_ACCESS_KEY_ID in the secret"))
        | _, None => throw (Errorf (Lit "Missing IBM_COS_SECRET_ACCESS_KEY in the secret"))
        | Some accessKeyID, Some secretAccessKey =>
            let bucketName := generateBackingStoreTargetName now Host in
            do! createS3BucketForBackingStore (mkAwsConfig accessKeyID secretAccessKey "" location (Some endpoint) true) bucketName ;;
            update (update_store (λ s, set_bss_IBMCos (Some (mkIBMCosSpec bucketName
              (mkSecretReference secretName (om_Namespace (sec_meta creds))) endpoint S3SignatureVersionV2)) (set_bss_Type StoreTypeIBMCos s)))
        end
    end.

(** ** On rook *)

Definition prepareCephBackingStore : M S () :=
  user ← state cl_CephObjectStoreUser;
  let objectStoreUserName := om_Name (cu_meta user) in
  '(user, _) ← reads (λ w, KubeCheck w user);
  do! update (set_CephObjectStoreUser user) ;;
  notReady ← (if om_UID (cu_meta user) == "" then mret true
              else status ← lift (deref (cu_Status user)); mret (ous_Phase status != "Ready"));
  if (notReady : bool) then
    if defaultBSCreationTimedout (om_CreationTimestamp (cu_meta user)) then fallbackToPVPoolWithEvent StoreTypeS3Compatible objectStoreUserName
    else throw (Errorf (Sprintf "Ceph objectstore user %q is not ready" [AStr objectStoreUserName]))
  else
    status ← lift (deref (cu_Status user));
    let secretName := map_get (ous_Info status) "secretName" in
    if secretName == "" then
      throw (NewPersistentError "InvalidCephObjectStoreUser" (Lit "Ceph objectstore user is ready but a secret name was not provided"))
    else
      '(secret, _) ← reads (λ w, KubeCheck w (mkSecret (named Namespace secretName) None None));
      if om_UID (sec_meta secret) == "" then
        if defaultBSCreationTimedout (om_CreationTimestamp (sec_meta secret)) then fallbackToPVPoolWithEvent StoreTypeS3Compatible secretName
        else throw (Errorf (Sprintf "Ceph objectstore user secret %q is not ready yet" [AStr secretName]))
      else
        let endpoint := map_get (sec_StringData secret) "Endpoint" in
        let bucketName := generateBackingStoreTargetName now Host in
        do! createS3BucketForBackingStore (mkAwsConfig (map_get (sec_StringData secret) "AccessKey") (map_get (sec_StringData secret) "SecretKey")
              "" "us-east-1" (Some endpoint) true) bucketName ;;
        update (λ r,
          let bs := cl_DefaultBackingStore r in
          let m := set_om_Annotations (Some (<["rgw"%string := ""%string]> (default ∅ (om_Annotations (bs_meta bs))))) (bs_meta bs) in
          set_DefaultBackingStore (mkBackingStore _ m (set_bss_S3Compatible (Some (mkS3CompatibleSpec bucketName
            (mkSecretReference secretName Namespace) endpoint S3SignatureVersionV4)) (set_bss_Type StoreTypeS3Compatible (bs_Spec bs))) (bs_Status bs)) r).

(** ** The default resources *)

(** The store by what credentials there are; [false]: a young system waits for them. *)
Definition prepareBackingStore : M S bool :=
  r ← state id;
  if om_UID (cu_meta (cl_CephObjectStoreUser r)) != "" then do! prepareCephBackingStore ;; mret true
  else if om_UID (cr_meta (cl_AWSCloudCreds r)) != "" then do! prepareAWSBackingStore ;; mret true
  else if om_UID (cr_meta (cl_AzureCloudCreds r)) != "" then do! prepareAzureBackingStore ;; mret true
  else if om_UID (cr_meta (cl_GCPCloudCreds r)) != "" then do! prepareGCPBackingStore ;; mret true
  else if om_UID (sec_meta (cl_IBMCosBucketCreds r)) != "" then do! prepareIBMBackingStore ;; mret true
  else if (now - om_CreationTimestamp (nb_meta (cl_NooBaa r)) <? 2 * Minute)%Z then mret false
  else do! preparePVPoolBackingStore ;; mret true.

Definition ReconcileDefaultBackingStore : M S () :=
  r ← state id;
  if negb (isNil (cl_JoinSecret r)) then mret ()
  else
    fusion ← ask IsFusionHCIWithScale;
    if (fusion : bool) then mret ()
    else
      bs ← state cl_DefaultBackingStore;
      '(bs, _) ← reads (λ w, KubeCheck w bs);
      do! update (set_DefaultBackingStore bs) ;;
      if om_UID (bs_meta bs) != "" then mret ()
      else if nbs_ManualDefaultBackingStore (nb_Spec (cl_NooBaa r)) then mret ()
      else
        prepared ← prepareBackingStore;
        if negb prepared then mret ()
        else
          bs ← state cl_DefaultBackingStore;
          bs ← own bs;
          do! update (set_DefaultBackingStore bs) ;;
          bs ← clientCreate bs;
          update (set_DefaultBackingStore bs).

Definition ReconcileDefaultNsfsPvc : M S () :=
  r ← state id;
  if negb (isNil (cl_JoinSecret r)) then mret ()
  else
    fusion ← ask IsFusionHCIWithScale;
    if negb fusion then mret ()
    else
      pvc ← state cl_DefaultNsfsPvc;
      '(pvc, _) ← reads (λ w, KubeCheck w pvc);
      do! update (set_DefaultNsfsPvc pvc) ;;
      if om_UID (np_meta pvc) != "" then mret ()
      else if nbs_ManualDefaultBackingStore (nb_Spec (cl_NooBaa r)) then mret ()
      else match np_Requests pvc with
      | None => lift (Panic NilMapWrite)
      | Some requests =>
          pvc ← own (mkNsfsPvc QA (np_meta pvc) ["ReadWriteMany"%string] (Some spectrumScaleClass)
                       (Some (<[ResourceStorage := NewQuantity (30 * 1024 * 1024 * 1024)]> requests)));
          do! update (set_DefaultNsfsPvc pvc) ;;
          pvc ← clientCreate pvc;
          update (set_DefaultNsfsPvc pvc)
      end.

Definition ReconcileDefaultNamespaceStore : M S () :=
  r ← state id;
  if negb (isNil (cl_JoinSecret r)) then mret ()
  else if om_UID (np_meta (cl_DefaultNsfsPvc r)) == "" then mret ()
  else
    '(ns, _) ← reads (λ w, KubeCheck w (cl_DefaultNamespaceStore r));
    do! update (set_DefaultNamespaceStore ns) ;;
    if om_UID (ns_meta ns) != "" then mret ()
    else
      let spec := ns_Spec ns in
      ns ← own (mkNamespaceStore (ns_meta ns)
                  (mkNamespaceStoreSpec NSStoreTypeNSFS (nss_Archive spec) (nss_AccessMode spec) (nss_AWSS3 spec) (nss_S3Compatible spec)
                     (nss_IBMCos spec) (nss_AzureBlob spec) (nss_GoogleCloudStorage spec)
                     (Some (mkNSFSSpec (om_Name (np_meta (cl_DefaultNsfsPvc r))) "" ""))) (ns_Status ns));
      do! update (set_DefaultNamespaceStore ns) ;;
      ns ← clientCreate ns;
      update (set_DefaultNamespaceStore ns).

Definition ReconcileDefaultBucketClass : M S () :=
  r ← state id;
  if negb (isNil (cl_JoinSecret r)) then mret ()
  else
    '(bc, _) ← reads (λ w, KubeCheck w (cl_DefaultBucketClass r));
    do! update (set_DefaultBucketClass bc) ;;
    if om_UID (bc_meta bc) != "" then mret ()
    else
      '(ns, found) ← reads (λ w, KubeCheck w (cl_DefaultNamespaceStore r));
      do! update (set_DefaultNamespaceStore ns) ;;
      let spec := bc_Spec bc in
      let spec :=
        if (found : bool) then
          mkBucketClassSpec (bcs_PlacementPolicy spec)
            (Some (mkNamespacePolicy NSBucketClassTypeSingle (Some (mkSingleNamespacePolicy (om_Name (ns_meta ns)))) None None))
            (bcs_Quota spec) (bcs_ReplicationPolicy spec) (bcs_VectorPolicy spec) (bcs_ArchivePolicy spec)
        else
          mkBucketClassSpec (Some (mkPlacementPolicy [mkTier TierPlacementSingle [om_Name (bs_meta (cl_DefaultBackingStore r))]]))
            (bcs_NamespacePolicy spec) (bcs_Quota spec) (bcs_ReplicationPolicy spec) (bcs_VectorPolicy spec) (bcs_ArchivePolicy spec) in
      bc ← own (mkBucketClass (bc_meta bc) spec (bc_Status bc));
      do! update (set_DefaultBucketClass bc) ;;
      bc ← clientCreate bc;
      update (set_DefaultBucketClass bc).

Definition ReconcileOBCStorageClass : M S () :=
  r ← state id;
  if negb (isNil (cl_JoinSecret r)) then mret ()
  else
    '(sc, _) ← reads (λ w, KubeCheck w (cl_OBCStorageClass r));
    do! update (set_OBCStorageClass sc) ;;
    if om_UID (sc_meta sc) != "" then mret ()
    else
      let sc := mkStorageClass (sc_meta sc) (sc_Provisioner sc)
                  (Some {["bucketclass"%string := om_Name (bc_meta (cl_DefaultBucketClass r))]}) in
      do! update (set_OBCStorageClass sc) ;;
      sc ← clientCreate sc;
      update (set_OBCStorageClass sc).

(** The part of the configuring phase that makes them. *)
Definition ReconcileDefaults : M S () :=
  do! ReconcileDefaultBackingStore ;;
  do! ReconcileDefaultNsfsPvc ;;
  do! ReconcileDefaultNamespaceStore ;;
  do! ReconcileDefaultBucketClass ;;
  ReconcileOBCStorageClass.
End Default.

(** ** Facts *)

Section Facts.
Context {QA : QuantityApi} {QL : QuantityLaws QA} {PC : ProviderCodec} {GJ : GoogleJson} `{AuthoritySyntax} {W : Type} {CS : CloudServices W}.
Context {SN : ApiServer W Node} {SI : ApiServer W Infrastructure} {SC : ApiServer W StorageClass}.
Context {SS : ApiServer W Secret} {KS : KeyedServer W Secret} {SU : ApiServer W CephObjectStoreUser}.
Context {SB : ApiServer W (BackingStore QA)}.
Context (SetControllerReference : ObjectMeta → ObjectMeta → msg + ObjectMeta).
(** Owner references are all that changes, and names are not empty. *)
Context (reference_name : ∀ o m m', SetControllerReference o m = inr m' → om_Name m' = om_Name m).
Context (randname_prefix : ∀ (w : W) prefix, HasPrefix (randname w prefix).2 prefix = true).
Context (Namespace : string) (now : Z) (Host : string).
Implicit Types (w : W) (r : Cloud QA PC).

Abbreviation S := (W * Cloud QA PC)%type.

(** What the preparation of a store leaves alone until it succeeds. *)
Definition frame (s s' : S) : Prop :=
  cl_DefaultBackingStore s'.2 = cl_DefaultBackingStore s.2 ∧ cl_NooBaa s'.2 = cl_NooBaa s.2 ∧
  om_Name (sec_meta (cl_AzureContainerCreds s'.2)) = om_Name (sec_meta (cl_AzureContainerCreds s.2)) ∧
  om_Name (sec_meta (cl_GCPBucketCreds s'.2)) = om_Name (sec_meta (cl_GCPBucketCreds s.2)).
#[local] Instance frame_preorder : PreOrder frame.
Proof. split; [done|]. intros s1 s2 s3 (?&?&?&?) (?&?&?&?). unfold frame. split_and!; congruence. Qed.

Lemma keeps_reads {A} (f : W → outcome A) : keeps frame (reads f).
Proof. intros [w r] s' x. unfold reads. destruct (f w); [|done]. by intros [= <- <-]. Qed.
Lemma keeps_state {A} (f : Cloud QA PC → A) : keeps frame (state (W:=W) f).
Proof. by intros [w r] s' x [= <- <-]. Qed.
Lemma keeps_call {A} (f : W → W * A) : keeps frame (call f).
Proof. intros [w r] s' x. unfold call. destruct (f w). by intros [= <- <-]. Qed.
Lemma keeps_failsWith format m : keeps frame (failsWith format m).
Proof. destruct m; by intros [w r] s' x [= <- <-]. Qed.
Lemma keeps_orError {A} (x : msg + A) : keeps frame (orError x).
Proof. destruct x; by intros [w r] s' y [= <- <-]. Qed.
Hint Resolve keeps_reads keeps_state keeps_call keeps_failsWith keeps_orError : keeps.
Ltac keep :=
  cbv zeta;
  lazymatch goal with
  | |- keeps _ (mbind _ _) => apply keeps_bind; [apply _|keep|intros ?; keep]
  | |- keeps _ (match ?x with _ => _ end) => destruct x; keep
  | |- _ => eauto with keeps typeclass_instances
  end.

Lemma keeps_createS3Bucket c b : keeps frame (createS3BucketForBackingStore c b).
Proof. unfold createS3BucketForBackingStore. keep. Qed.
Lemma keeps_stsConfig n region s : keeps frame (stsConfig n region s).
Proof. unfold stsConfig. keep. Qed.
Lemma keeps_credentialsSecret creds : keeps frame (credentialsSecret creds).
Proof. unfold credentialsSecret. keep. Qed.
Lemma keeps_accountsClient : keeps frame getStorageAccountsClient.
Proof. unfold getStorageAccountsClient. keep. Qed.
Lemma keeps_azureGet k : keeps frame (azureGet k).
Proof. apply keeps_state. Qed.
Hint Resolve keeps_createS3Bucket keeps_stsConfig keeps_credentialsSecret keeps_accountsClient keeps_azureGet : keeps.
Lemma keeps_GetAccountKeys a g : keeps frame (GetAccountKeys a g).
Proof. unfold GetAccountKeys. keep. Qed.
Hint Resolve keeps_GetAccountKeys : keeps.
Lemma keeps_getAccountPrimaryKey a g : keeps frame (getAccountPrimaryKey a g).
Proof. unfold getAccountPrimaryKey. keep. Qed.
Lemma keeps_CreateStorageAccount a g : keeps frame (CreateStorageAccount a g).
Proof. unfold CreateStorageAccount. keep. Qed.
Hint Resolve keeps_getAccountPrimaryKey keeps_CreateStorageAccount : keeps.
Lemma keeps_CreateContainer a g c : keeps frame (CreateContainer a g c).
Proof. unfold CreateContainer. keep. Qed.
Lemma keeps_createGCPBucket c p : keeps frame (createGCPBucketWithCredentialsJSON c p).
Proof. unfold createGCPBucketWithCredentialsJSON, createGCPBucketForBackingStore. keep. Qed.
Lemma keeps_ibmAddress c : keeps frame (ibmAddress c).
Proof. unfold ibmAddress. keep. Qed.
Hint Resolve keeps_CreateContainer keeps_createGCPBucket keeps_ibmAddress : keeps.

(** Writes to the secret of the container. *)
Lemma keeps_azureSet k v : keeps frame (azureSet k v).
Proof.
  intros [w r] s' x Hrun. unfold azureSet in Hrun. erewrite M_bind_run in Hrun by reflexivity.
  apply M_bind_inv in Hrun as [(e & Hl & ->)|(s1 & data & Hl & Hrun)]; apply lift_inv in Hl as [-> _]; [done|]. by injection Hrun as <- <-.
Qed.
Hint Resolve keeps_azureSet : keeps.
Lemma keeps_ensureAccount g : keeps frame (ensureAccount g).
Proof. unfold ensureAccount. keep. Qed.
Lemma keeps_ensureAccountKey g : keeps frame (ensureAccountKey g).
Proof. unfold ensureAccountKey. keep. Qed.
Lemma keeps_ensureContainer g : keeps frame (ensureContainer g).
Proof. unfold ensureContainer. keep. Qed.

Lemma own_name {O} `{MetaObject O} (obj obj' : O) w r s' :
  CloudCredentials.own SetControllerReference obj (w, r) = Ret (s', inr obj') → s' = (w, r) ∧ om_Name (meta obj') = om_Name (meta obj).
Proof.
  unfold CloudCredentials.own. intros Hrun. erewrite M_bind_run in Hrun by reflexivity. apply lift_ok in Hrun as [<- Hown]. split; [done|].
  unfold Own in Hown. destruct (SetControllerReference _ _) as [m|m] eqn:E; [done|]. injection Hown as <-.
  rewrite meta_set_meta. by eapply reference_name.
Qed.

Lemma KubeCheck_name w (obj obj' : Secret) b : KubeCheck w obj = Ret (obj', b) → om_Name (sec_meta obj') = om_Name (sec_meta obj).
Proof. intros Hc. apply KubeCheck_key in Hc. by injection Hc. Qed.

Lemma create_name (obj : Secret) w r s' res :
  attempt (clientCreate obj) (w, r) = Ret (s', inr res) → s'.2 = r ∧ ∀ obj', res = inr obj' → om_Name (sec_meta obj') = om_Name (sec_meta obj).
Proof.
  intros Hrun. apply attempt_run in Hrun as (y & [= <-] & Hrun). unfold clientCreate, fill in Hrun.
  destruct (srv_Create w obj) as [w1 [e|o]] eqn:Hc; injection Hrun as <- <-; (split; [done|]); [done|].
  intros obj' [= <-]. apply Create_key in Hc. by injection Hc.
Qed.

(** The secrets of the containers and of the buckets are made under their names. *)
Lemma ensureContainerCreds_frame secret w r s' : ensureContainerCreds SetControllerReference secret (w, r) = Ret (s', inr ()) → frame (w, r) s'.
Proof.
  intros Hrun. unfold ensureContainerCreds in Hrun. erewrite M_bind_run in Hrun by reflexivity.
  apply M_bind_ok in Hrun as (s1 & [creds b] & Hc & Hrun). apply reads_ok in Hc as [-> Hc].
  apply KubeCheck_name in Hc. cbn [snd] in Hc. erewrite M_bind_run in Hrun by reflexivity. cbv beta iota in Hrun.
  destruct (om_UID (sec_meta creds) != ""); [by injection Hrun as <-|]. erewrite M_bind_run in Hrun by reflexivity.
  set (r1 := (_, _)) in Hrun. assert (Hf : frame (w, r) r1) by done. clearbody r1. clear Hc.
  erewrite M_bind_run in Hrun by reflexivity. apply M_bind_ok in Hrun as ([w2 r2] & [] & Hsts & Hrun).
  assert (Hf2 : frame r1 (w2, r2)).
  { revert Hsts. match goal with |- ?m _ = _ → _ => assert (keeps frame m) as Hk by keep end. apply Hk. }
  erewrite M_bind_run in Hrun by reflexivity. cbn [snd] in Hrun.
  apply M_bind_ok in Hrun as (s3 & owned & Ho & Hrun). apply own_name in Ho as [-> Ho].
  erewrite M_bind_run in Hrun by reflexivity. apply M_bind_ok in Hrun as ([w4 r4] & res & Hcr & Hrun).
  apply create_name in Hcr as [Hr4 Hname]. cbn in Hr4. subst r4. destruct res as [e|made]; [done|]. injection Hrun as <-.
  specialize (Hname made eq_refl). transitivity r1; [done|]. transitivity (w2, r2); [done|]. unfold frame. cbn. cbn in Ho. split_and!; congruence.
Qed.

Lemma ensureBucketCreds_frame secret w r s' : ensureBucketCreds SetControllerReference secret (w, r) = Ret (s', inr ()) → frame (w, r) s'.
Proof.
  intros Hrun. unfold ensureBucketCreds in Hrun. erewrite M_bind_run in Hrun by reflexivity.
  apply M_bind_ok in Hrun as (s1 & [creds b] & Hc & Hrun). apply reads_ok in Hc as [-> Hc].
  apply KubeCheck_name in Hc. cbn [snd] in Hc. erewrite M_bind_run in Hrun by reflexivity. cbv beta iota in Hrun.
  destruct (om_UID (sec_meta creds) != ""); [by injection Hrun as <-|].
  apply M_bind_ok in Hrun as (s3 & owned & Ho & Hrun). apply own_name in Ho as [-> Ho].
  erewrite M_bind_run in Hrun by reflexivity. apply M_bind_ok in Hrun as ([w4 r4] & res & Hcr & Hrun).
  apply create_name in Hcr as [Hr4 Hname]. cbn in Hr4. subst r4. destruct res as [e|made]; [done|]. injection Hrun as <-.
  specialize (Hname made eq_refl). unfold frame. cbn. cbn in Ho. split_and!; congruence.
Qed.

(** ** Valid stores *)

(** A reconciler as [NewReconciler] and the creating phase leave it. *)
Definition ready r : Prop :=
  let bs := cl_DefaultBackingStore r in
  (len (om_Name (bs_meta bs)) ≤ MaximumPvpoolNameLength)%Z ∧ bss_PVPool (bs_Spec bs) = None ∧
  (∀ a, bss_AWSS3 (bs_Spec bs) = Some a → aws_TargetBucket a ≠ ""%string) ∧
  sr_Name (cr_SecretRef (cl_AWSCloudCreds r)) ≠ ""%string ∧ om_Name (sec_meta (cl_AzureContainerCreds r)) ≠ ""%string ∧
  om_Name (sec_meta (cl_GCPBucketCreds r)) ≠ ""%string ∧ om_Name (sec_meta (cl_IBMCosBucketCreds r)) ≠ ""%string.
Abbreviation storeOf s := (cl_DefaultBackingStore s.2).

(** A pool of volumes of 50 GB, as many as the profile has. *)
Lemma defaultPVPool_valid name profile sc : (len name ≤ MaximumPvpoolNameLength)%Z → pvpool_valid name (defaultPVPool profile 0 sc).
Proof.
  intros Hlen. split_and!; [done|by destruct profile..|]. intros vr [= <-]. split_and!.
  - unfold Storage. cbn [rr_Requests mbind option_bind]. unfold ResourceStorage. rewrite lookup_singleton_eq. cbn [from_option id].
    rewrite amount_New. lia.
  - by split_and!; unfold rl_lookup; cbn [rr_Requests rr_Limits mbind option_bind]; intros ?; rewrite ?lookup_singleton_ne.
  - by split_and!; unfold rl_lookup; cbn [rr_Requests rr_Limits mbind option_bind]; intros ?; rewrite ?lookup_singleton_ne.
Qed.

Lemma preparePVPool_valid w r s' :
  (len (om_Name (bs_meta (cl_DefaultBackingStore r))) ≤ MaximumPvpoolNameLength)%Z → bss_PVPool (bs_Spec (cl_DefaultBackingStore r)) = None →
  preparePVPoolBackingStore (w, r) = Ret (s', inr ()) → bs_valid (storeOf s').
Proof.
  intros Hlen Hpool Hrun. unfold preparePVPoolBackingStore in Hrun. erewrite M_bind_run in Hrun by reflexivity. cbn [snd id] in Hrun.
  rewrite Hpool in Hrun. cbv zeta in Hrun. erewrite M_bind_run in Hrun by reflexivity.
  set (pool := defaultPVPool _ _) in Hrun.
  assert (Hv : ∀ sc, bs_valid (cl_DefaultBackingStore (setPVPool (pool sc) (setPVPool (pool "") r)))).
  { intros sc. eexists. split; [reflexivity|]. by apply defaultPVPool_valid. }
  destruct (nbs_PVPoolDefaultStorageClass _) as [sc|]; [injection Hrun as <-; by apply Hv|].
  apply M_bind_ok in Hrun as (s1 & name & Hn & Hrun). apply reads_ok in Hn as [-> _].
  destruct name as [e|name]; [done|]. injection Hrun as <-. by apply Hv.
Qed.

Lemma credentialsSecret_ok creds w r s' secret :
  credentialsSecret creds (w, r) = Ret (s', inr secret) → s' = (w, r) ∧ om_Name (sec_meta secret) = sr_Name (cr_SecretRef creds).
Proof.
  unfold credentialsSecret. intros Hrun. apply M_bind_ok in Hrun as (s1 & [x b] & Hc & Hrun). apply reads_ok in Hc as [-> Hc].
  apply KubeCheck_name in Hc. injection Hrun as <- <-. by split.
Qed.

Lemma awaitSecret_valid creds t w r s' : ready r → awaitSecret now creds t (w, r) = Ret (s', inr ()) → bs_valid (storeOf s').
Proof.
  intros (Hlen & Hpool & _) Hrun. unfold awaitSecret in Hrun. cbv zeta in Hrun. destruct (defaultBSCreationTimedout _ _); [|done].
  by eapply preparePVPool_valid.
Qed.

(** A store that was given a specification of its type. *)
Lemma update_store_spec f r : bs_Spec (cl_DefaultBackingStore (update_store f r)) = f (bs_Spec (cl_DefaultBackingStore r)).
Proof. done. Qed.

Lemma target_name_nonempty : generateBackingStoreTargetName now Host ≠ ""%string.
Proof.
  unfold generateBackingStoreTargetName. cbv zeta. case_match eqn:Hv; [|done]. intros He. rewrite He in Hv. by vm_compute in Hv.
Qed.

Lemma prepareAWS_valid w r s' : ready r → prepareAWSBackingStore now (w, r) = Ret (s', inr ()) → bs_valid (storeOf s').
Proof.
  intros Hready Hrun. unfold prepareAWSBackingStore in Hrun. erewrite M_bind_run in Hrun by reflexivity. cbn [snd] in Hrun.
  apply M_bind_ok in Hrun as (s1 & secret & Hs & Hrun). apply credentialsSecret_ok in Hs as [-> Hname].
  destruct (om_UID _ == ""); [by eapply awaitSecret_valid|].
  apply M_bind_ok in Hrun as (s2 & region & Hr & Hrun). apply reads_ok in Hr as [-> _]. cbv zeta in Hrun.
  erewrite M_bind_run in Hrun by reflexivity. apply M_bind_ok in Hrun as ([w3 r3] & conf & Hc & Hrun).
  assert (Hf : frame (w, r) (w3, r3)).
  { destruct (cl_IsAWSSTSCluster _); [by eapply keeps_stsConfig|by injection Hc as <- <- _]. }
  destruct Hf as (Hbs & _). cbn in Hbs. erewrite M_bind_run in Hrun by reflexivity. cbn [snd] in Hrun.
  apply M_bind_ok in Hrun as ([w4 r4] & aws & Ha & Hrun). apply lift_ok in Ha as [[= <- <-] Ha].
  apply M_bind_ok in Hrun as ([w5 r5] & [] & Hcr & Hrun). injection Hrun as <-.
  destruct Hready as (_ & _ & Htarget & Hsec & _). eexists. split; [reflexivity|]. cbn. rewrite Hname. split; [|by left].
  rewrite Hbs in Ha. unfold deref in Ha. destruct (bss_AWSS3 _) as [a|] eqn:E; [|done]. injection Ha as <-. by apply Htarget.
Qed.

Lemma ToLower_nonempty s : s ≠ ""%string → ToLower s ≠ ""%string.
Proof. by destruct s. Qed.
Lemma randname_nonempty w prefix : prefix ≠ ""%string → (randname w prefix).2 ≠ ""%string.
Proof. intros Hne He. pose proof (randname_prefix w prefix) as Hp. rewrite He in Hp. by destruct prefix. Qed.

Lemma ensureContainer_nonempty g s s' name : ensureContainer g s = Ret (s', inr name) → name ≠ ""%string.
Proof.
  destruct s as [w r]. intros Hrun. unfold ensureContainer in Hrun. erewrite M_bind_run in Hrun by reflexivity.
  destruct (bool_decide_reflect (map_get (sec_StringData (cl_AzureContainerCreds (w, r).2)) "targetBlobContainer" = ""%string)) as [He|Hne];
    [|by injection Hrun as _ <-]. cbn [negb] in Hrun.
  apply M_bind_ok in Hrun as (s1 & n & Hn & Hrun). cbv zeta in Hrun. apply M_bind_ok in Hrun as (s2 & a & _ & Hrun).
  apply M_bind_ok in Hrun as (s3 & [] & _ & Hrun). apply M_bind_ok in Hrun as (s4 & [] & _ & Hrun). injection Hrun as _ <-.
  apply ToLower_nonempty. unfold call in Hn. pose proof (randname_nonempty w "noobaacontainer" ltac:(done)) as Hr.
  destruct (randname w "noobaacontainer"). by injection Hn as _ <-.
Qed.

Lemma clientUpdate_name (obj obj' : Secret) err w r s' :
  clientUpdate obj (w, r) = Ret (s', inr (err, obj')) → s'.2 = r ∧ om_Name (sec_meta obj') = om_Name (sec_meta obj).
Proof.
  unfold clientUpdate, fill. destruct (srv_Update w obj) as [w1 [e|o]] eqn:Hu; intros [= <- <- <-]; (split; [done|]); [done|].
  apply Update_key in Hu. by injection Hu.
Qed.

Lemma prepareAzure_valid w r s' : ready r → prepareAzureBackingStore SetControllerReference now (w, r) = Ret (s', inr ()) → bs_valid (storeOf s').
Proof.
  intros Hready Hrun. unfold prepareAzureBackingStore in Hrun. erewrite M_bind_run in Hrun by reflexivity. cbn [snd] in Hrun.
  apply M_bind_ok in Hrun as (s1 & secret & Hs & Hrun). apply credentialsSecret_ok in Hs as [-> _].
  destruct (om_UID _ == ""); [by eapply awaitSecret_valid|].
  apply M_bind_ok in Hrun as (s2 & [] & H2 & Hrun). apply ensureContainerCreds_frame in H2.
  apply M_bind_ok in Hrun as (s3 & g & H3 & Hrun). apply keeps_azureGet in H3.
  apply M_bind_ok in Hrun as (s4 & [] & H4 & Hrun). apply keeps_ensureAccount in H4.
  apply M_bind_ok in Hrun as (s5 & [] & H5 & Hrun). apply keeps_ensureAccountKey in H5.
  apply M_bind_ok in Hrun as ([w6 r6] & name & H6 & Hrun). pose proof (ensureContainer_nonempty _ _ _ _ H6) as Hn. apply keeps_ensureContainer in H6.
  assert (frame (w, r) (w6, r6)) as (_ & _ & Haz & _) by (by do 4 (etrans; [eassumption|])). clear H2 H3 H4 H5 H6.
  erewrite M_bind_run in Hrun by reflexivity. apply M_bind_ok in Hrun as ([w7 r7] & [err creds] & H7 & Hrun).
  apply clientUpdate_name in H7 as [Hr7 Hcreds]. cbn [snd] in *. subst r7. erewrite M_bind_run in Hrun by reflexivity. cbv beta iota in Hrun.
  apply M_bind_ok in Hrun as ([w8 r8] & [] & H8 & Hrun). erewrite M_bind_run in Hrun by reflexivity.
  apply M_bind_ok in Hrun as ([w9 r9] & az & H9 & Hrun). injection Hrun as <-. eexists. split; [reflexivity|]. split; [done|].
  left. cbn. destruct Hready as (_ & _ & _ & _ & Hname & _). congruence.
Qed.

Lemma createGCPBucket_nonempty c p s s' name : createGCPBucketWithCredentialsJSON c p s = Ret (s', inr name) → name ≠ ""%string.
Proof.
  destruct s as [w r]. unfold createGCPBucketWithCredentialsJSON. intros Hrun. apply M_bind_ok in Hrun as (s1 & n & Hn & Hrun).
  cbv zeta in Hrun. apply M_bind_ok in Hrun as (s2 & [] & _ & Hrun). apply M_bind_ok in Hrun as (s3 & [] & _ & Hrun). injection Hrun as _ <-.
  apply ToLower_nonempty. unfold call in Hn. pose proof (randname_nonempty w "noobaabucket" ltac:(done)) as Hr.
  destruct (randname w "noobaabucket"). by injection Hn as _ <-.
Qed.

Lemma prepareGCP_valid w r s' : ready r → prepareGCPBackingStore SetControllerReference now (w, r) = Ret (s', inr ()) → bs_valid (storeOf s').
Proof.
  intros Hready Hrun. unfold prepareGCPBackingStore in Hrun. erewrite M_bind_run in Hrun by reflexivity. cbn [snd] in Hrun. cbv zeta in Hrun.
  apply M_bind_ok in Hrun as (s1 & secret & Hs & Hrun). apply credentialsSecret_ok in Hs as [-> _].
  destruct (om_UID _ == ""); [by eapply awaitSecret_valid|].
  apply M_bind_ok in Hrun as ([w2 r2] & [] & H2 & Hrun). apply ensureBucketCreds_frame in H2 as (_ & _ & _ & Hg). cbn [snd] in Hg.
  destruct (_ == ""); [done|]. destruct (ParseGoogleCredentials _) as [e|[ext email]]; [done|]. erewrite M_bind_run in Hrun by reflexivity.
  cbn [snd] in Hrun. destruct (sec_StringData _) as [data|]; [|done]. erewrite M_bind_run in Hrun by reflexivity.
  apply M_bind_ok in Hrun as ([w3 r3] & name & H3 & Hrun).
  assert (frame (w2, set_GCPBucketCreds (set_StringData (Some (storeCredentials ext (map_get (sec_StringData secret) "service_account.json") data))
    (cl_GCPBucketCreds r2)) r2) (w3, r3) ∧ name ≠ ""%string) as [(_ & _ & _ & Hg3) Hn].
  { destruct ext; [destruct (GcpProjectIDFromServiceAccountEmail email) as [e|pid]|destruct (json_ProjectID _) as [m|pid]]; try done;
      (split; [by eapply keeps_createGCPBucket|by eapply createGCPBucket_nonempty]). }
  cbn [snd] in Hg3. erewrite M_bind_run in Hrun by reflexivity. apply M_bind_ok in Hrun as ([w4 r4] & [err creds] & H4 & Hrun).
  apply clientUpdate_name in H4 as [Hr4 Hcreds]. cbn [snd] in *. subst r4. erewrite M_bind_run in Hrun by reflexivity. cbv beta iota in Hrun.
  apply M_bind_ok in Hrun as ([w5 r5] & [] & H5 & Hrun). injection Hrun as <-. eexists. split; [reflexivity|]. split; [done|].
  cbn. cbn in Hg3. destruct Hready as (_ & _ & _ & _ & _ & Hname & _). congruence.
Qed.

Lemma prepareIBM_valid w r s' : ready r → prepareIBMBackingStore now Host (w, r) = Ret (s', inr ()) → bs_valid (storeOf s').
Proof.
  intros Hready Hrun. unfold prepareIBMBackingStore in Hrun. erewrite M_bind_run in Hrun by reflexivity. cbn [snd] in Hrun. cbv zeta in Hrun.
  apply M_bind_ok in Hrun as (s1 & [creds b] & Hc & Hrun). apply reads_ok in Hc as [-> _]. cbv beta iota in Hrun.
  erewrite M_bind_run in Hrun by reflexivity. destruct Hready as (Hlen & Hpool & _ & _ & _ & _ & Hname).
  destruct (om_UID _ == ""). { destruct (defaultBSCreationTimedout _ _); [|done]. by eapply preparePVPool_valid; [..|exact Hrun]. }
  apply M_bind_ok in Hrun as ([w2 r2] & [endpoint location] & Hadr & Hrun). destruct (Parse endpoint) as [m|u]; [done|].
  destruct (sec_StringData creds ≫= lookup "IBM_COS_ACCESS_KEY_ID"%string) as [ak|]; [|done].
  destruct (sec_StringData creds ≫= lookup "IBM_COS_SECRET_ACCESS_KEY"%string) as [sk|]; [|done].
  apply M_bind_ok in Hrun as ([w3 r3] & [] & Hcr & Hrun). injection Hrun as <-.
  eexists. split; [reflexivity|]. split_and!; [apply target_name_nonempty|done|]. right. by left.
Qed.

Lemma prepareCeph_valid w r s' : ready r → prepareCephBackingStore Namespace now Host (w, r) = Ret (s', inr ()) → bs_valid (storeOf s').
Proof.
  intros (Hlen & Hpool & _) Hrun. unfold prepareCephBackingStore in Hrun. erewrite M_bind_run in Hrun by reflexivity. cbn [snd] in Hrun.
  cbv zeta in Hrun. apply M_bind_ok in Hrun as (s1 & [user b] & Hc & Hrun). apply reads_ok in Hc as [-> _]. cbv beta iota in Hrun.
  erewrite M_bind_run in Hrun by reflexivity. apply M_bind_ok in Hrun as ([w2 r2] & notReady & Hnr & Hrun).
  assert (r2 = set_CephObjectStoreUser user r) as ->.
  { destruct (om_UID _ == ""); [by injection Hnr as <- <- _|].
    apply M_bind_ok in Hnr as ([w3 r3] & st & Hd & Hnr). apply lift_ok in Hd as [[= <- <-] _]. by injection Hnr as <- <- _. }
  destruct notReady. { destruct (defaultBSCreationTimedout _ _); [|done]. by eapply preparePVPool_valid; [..|exact Hrun]. }
  apply M_bind_ok in Hrun as ([w3 r3] & st & Hd & Hrun). apply lift_ok in Hd as [[= <- <-] _].
  destruct (bool_decide_reflect (map_get (ous_Info st) "secretName" = ""%string)) as [|Hname]; [done|].
  apply M_bind_ok in Hrun as (s4 & [secret b4] & Hs & Hrun). apply reads_ok in Hs as [-> _]. cbv beta iota in Hrun.
  destruct (om_UID _ == ""). { destruct (defaultBSCreationTimedout _ _); [|done]. by eapply preparePVPool_valid; [..|exact Hrun]. }
  apply M_bind_ok in Hrun as ([w5 r5] & [] & Hcr & Hrun). injection Hrun as <-.
  eexists. split; [reflexivity|]. split_and!; [apply target_name_nonempty|done|]. right. by right.
Qed.

Lemma prepareBackingStore_valid w r s' b :
  ready r → prepareBackingStore SetControllerReference Namespace now Host (w, r) = Ret (s', inr b) →
  if b then bs_valid (storeOf s') else s' = (w, r).
Proof.
  intros Hready Hrun. unfold prepareBackingStore in Hrun. erewrite M_bind_run in Hrun by reflexivity. cbn [snd id] in Hrun.
  assert (Hdone : ∀ m : M S (), (m (w, r) = Ret (s', inr ()) → bs_valid (storeOf s')) →
    (m ≫= λ _, mret true) (w, r) = Ret (s', inr b) → if b then bs_valid (storeOf s') else s' = (w, r)).
  { intros m Hm Hr. apply M_bind_ok in Hr as (s1 & [] & Hr & Heq). apply mret_ok in Heq as [-> <-]. by apply Hm. }
  destruct (_ != _); [revert Hrun; apply Hdone, prepareCeph_valid; done|].
  destruct (_ != _); [revert Hrun; apply Hdone, prepareAWS_valid; done|].
  destruct (_ != _); [revert Hrun; apply Hdone, prepareAzure_valid; done|].
  destruct (_ != _); [revert Hrun; apply Hdone, prepareGCP_valid; done|].
  destruct (_ != _); [revert Hrun; apply Hdone, prepareIBM_valid; done|].
  destruct (_ <? _)%Z; [by apply mret_ok in Hrun as [<- <-]|].
  revert Hrun. apply Hdone. destruct Hready as (Hlen & Hpool & _). by apply preparePVPool_valid.
Qed.

Lemma bs_valid_meta (bs : BackingStore QA) m : om_Name m = om_Name (bs_meta bs) → bs_valid bs → bs_valid (set_meta m bs).
Proof. intros Hm. unfold bs_valid. cbn. destruct (bss_Type (bs_Spec bs)); try done. by rewrite Hm. Qed.

Lemma ask_run f w r s' b : ask f (w, r) = Ret (s', inr b) → s' = (w, set_Platforms (f w (cl_Platforms r)).1 r).
Proof. unfold ask. destruct (f w (cl_Platforms r)) as [p [x|x]]; cbn; [|done]. by intros [= <- <-]. Qed.

(** C20: A reconcile of the default backing store that succeeds either leaves the cluster and the
    clouds alone, or ends with the creation of a store that the admission webhook accepts,
    whatever platform it is on. *)
Theorem ReconcileDefaultBackingStore_valid w r w' r' :
  ready r → srv_Get (O:=BackingStore QA) w (ObjectKey (cl_DefaultBackingStore r)) = inl not_found →
  ReconcileDefaultBackingStore SetControllerReference Namespace now Host (w, r) = Ret ((w', r'), inr ()) →
  w' = w ∨ ∃ w1 (bs : BackingStore QA), srv_Create w1 bs = (w', inr (cl_DefaultBackingStore r')) ∧ ValidateBackingStore bs = ok.
Proof.
  intros Hready Hget Hrun. unfold ReconcileDefaultBackingStore in Hrun. erewrite M_bind_run in Hrun by reflexivity. cbn [snd id] in Hrun.
  destruct (negb _); [injection Hrun as <- _; by left|]. apply M_bind_ok in Hrun as (s1 & fusion & Hask & Hrun). apply ask_run in Hask as ->.
  destruct fusion; [injection Hrun as <- _; by left|]. erewrite M_bind_run in Hrun by reflexivity. cbn [snd] in Hrun.
  apply M_bind_ok in Hrun as (s2 & [bs b] & Hc & Hrun). apply reads_ok in Hc as [-> Hc].
  assert (bs = cl_DefaultBackingStore r) as ->. { by injection (eq_trans (eq_sym (KubeCheck_missing w (cl_DefaultBackingStore r) not_found Hget eq_refl)) Hc). }
  erewrite M_bind_run in Hrun by reflexivity. cbv beta iota in Hrun.
  do 2 (case_match; [injection Hrun as <- _; by left|]).
  apply M_bind_ok in Hrun as (s3 & prepared & Hprep & Hrun). apply prepareBackingStore_valid in Hprep; [|exact Hready].
  destruct prepared; [|subst; injection Hrun as <- _; by left]. destruct s3 as [w3 r3]. cbn [negb] in Hrun.
  erewrite M_bind_run in Hrun by reflexivity. apply M_bind_ok in Hrun as (s4 & owned & Ho & Hrun).
  pose proof (own_name _ _ _ _ _ Ho) as [-> Hname]. apply own_ok in Ho as [_ [m Howned]]. cbn [snd] in *.
  erewrite M_bind_run in Hrun by reflexivity. apply M_bind_ok in Hrun as (s5 & made & Hcr & Hrun).
  apply clientCreate_ok in Hcr as (w5 & -> & Hcr). injection Hrun as <- <-. right. exists w3, owned. split; [exact Hcr|].
  apply ValidateBackingStore_ok. subst owned. apply bs_valid_meta; [|done]. exact Hname.
Qed.

(** A default backing store that is there is left as it is, and no bucket is made. *)
Theorem ReconcileDefaultBackingStore_once w r w' r' x bs :
  srv_Get w (ObjectKey (cl_DefaultBackingStore r)) = inr bs → om_UID (bs_meta bs) ≠ ""%string →
  ReconcileDefaultBackingStore SetControllerReference Namespace now Host (w, r) = Ret ((w', r'), x) → w' = w.
Proof.
  intros Hget Huid Hrun. unfold ReconcileDefaultBackingStore in Hrun. erewrite M_bind_run in Hrun by reflexivity. cbn [snd id] in Hrun.
  destruct (negb _); [by injection Hrun as <- _|].
  apply M_bind_inv in Hrun as [(e & Hask & ->)|(s1 & fusion & Hask & Hrun)].
  { unfold ask in Hask. destruct (IsFusionHCIWithScale _ _) as [p [y|y]]; cbn in Hask; [|done]. by injection Hask as <- _. }
  apply ask_run in Hask as ->. destruct fusion; [by injection Hrun as <- _|]. erewrite M_bind_run in Hrun by reflexivity. cbn [snd] in Hrun.
  erewrite M_bind_run in Hrun by (apply reads_run; exact (KubeCheck_found _ _ _ Hget)). cbv beta iota in Hrun.
  erewrite M_bind_run in Hrun by reflexivity. cbn [resetStringData BackingStore_KubeObject id] in Hrun.
  rewrite bool_decide_eq_false_2 in Hrun by done. by injection Hrun as <- _.
Qed.

(** The user of rook is ready, and its secret is not there yet: its age is that of an object
    that does not exist, so the volumes are used at once instead of after ten minutes. *)
Theorem prepareCephBackingStore_no_wait w r user status secretName :
  srv_Get w (ObjectKey (cl_CephObjectStoreUser r)) = inr user → om_UID (cu_meta user) ≠ ""%string →
  cu_Status user = Some status → ous_Phase status = "Ready"%string → map_get (ous_Info status) "secretName" = secretName →
  secretName ≠ ""%string → srv_Get (O:=Secret) w (Namespace, secretName) = inl not_found → (10 * Minute < now)%Z →
  prepareCephBackingStore Namespace now Host (w, r) = preparePVPoolBackingStore (w, set_CephObjectStoreUser user r).
Proof.
  intros Hget Huid Hst Hphase Hinfo Hne Hsec Hnow. unfold prepareCephBackingStore. erewrite M_bind_run by reflexivity. cbn [snd]. cbv zeta.
  erewrite M_bind_run by (apply reads_run; exact (KubeCheck_found _ _ _ Hget)). cbv beta iota.
  erewrite M_bind_run by reflexivity. cbn [resetStringData CephObjectStoreUser_KubeObject id].
  rewrite bool_decide_eq_false_2 by done. rewrite Hst. cbn [deref].
  erewrite M_bind_run by (erewrite M_bind_run by reflexivity; reflexivity). rewrite Hphase. cbn [negb]. rewrite bool_decide_eq_true_2 by done. cbn [negb].
  erewrite M_bind_run by reflexivity. rewrite Hinfo, bool_decide_eq_false_2 by done.
  erewrite M_bind_run by (apply reads_run; exact (KubeCheck_missing w (mkSecret (named Namespace secretName) None None) not_found Hsec eq_refl)).
  cbv beta iota. cbn [sec_meta named om_UID om_CreationTimestamp]. rewrite bool_decide_eq_true_2 by done.
  unfold defaultBSCreationTimedout, minutesToWaitForDefaultBSCreation. by rewrite (proj2 (Z.ltb_lt _ _)) by lia.
Qed.
End Facts.

(** ** The credentials file *)

(** A line without an equals sign, such as the empty one after a final newline, is a panic. *)
Theorem getInfoFromAwsStsSecret_panics l1 l2 lines line :
  line ∈ lines → (∀ a b l, Split2 line " " "=" ≠ a :: b :: l) →
  ∀ data, Split data "010" = l1 :: l2 :: lines → getInfoFromAwsStsSecret data = Panic IndexOutOfRange.
Proof.
  intros Hin Hline data Hd. unfold getInfoFromAwsStsSecret. rewrite Hd. clear Hd. generalize (∅ : gmap string string).
  induction lines as [|l lines IH]; intros result; [by apply elem_of_nil in Hin|]. cbn [credentialPairs].
  apply elem_of_cons in Hin as [<-|Hin].
  - destruct (Split2 line " " "=") as [|a [|b rest]] eqn:E; [done|done|]. by destruct (Hline a b rest eq_refl).
  - destruct (Split2 l " " "=") as [|a [|b rest]]; [done|done|]. by apply IH.
Qed.
