(* ===== verification/SystemSecrets.v ===== *)
(** * The secrets of a system: [pkg/system/phase4_configuring.go].

    The configuring phase keeps the secrets with which the parts of a system know each
    other: the account of the administrator, the token of the operator, for which the
    system is created in the core when it does not exist, the token of the endpoints, and
    that of the metrics.  The management API of the core, the random source and the signing
    of tokens are parameters.  Also here: the registration with the core, and the reload of
    the TLS settings of the admission webhook. *)

From S2P Require Import Prelude Effects GoStrings Types Kube Util Profiles SystemObjects.

(** ** [util.MakeAuthToken] *)

Section Token.
(** [jwt.NewWithClaims(HS256, claims).SignedString(secret)]. *)
Context (SignedString : gmap string string → string → error + string).

Definition allowedFields : list string := ["account_id"; "system_id"; "role"; "extra"; "authorized_by"; "email"; "system"]%string.
Definition MakeAuthToken (payload : gmap string string) (secret : string) : error + string :=
  if (len secret =? 0)%Z then inl (Errorf (Lit "jwt signing secret missing"))
  else SignedString (filter (λ kv, kv.1 ∈ allowedFields) payload) secret.
End Token.

Definition AdminAccountEmail : string := "admin@noobaa.io".
Definition OperatorAccountEmail : string := "operator@noobaa.io".
Definition metricsAuthKey : string := "metrics_token".

(** ** The management API *)

Record CreateSystemParams := mkCreateSystemParams { csp_Name : string; csp_Email : string; csp_Password : string }.
Record UpdateEndpointGroupParams := mkUpdateEndpointGroupParams {
  ueg_GroupName : string;
  ueg_IsRemote : bool;
  ueg_Region : string;
  ueg_Min : Z;
  ueg_Max : Z;
}.

(** Of the core [C], and of the process [G]. *)
Class CoreApi (C : Type) : Type := {
  ReadSystemStatusAPI : C → error + string;
  CreateSystemAPI : C → CreateSystemParams → C * (error + string);
  ReadAccountAPI : C → string → error + list (string * string);
  RegisterToClusterAPI : C → C * option error;
  UpdateEndpointGroupAPI : C → UpdateEndpointGroupParams → C * option error;
}.
Class RandomSource (G : Type) : Type := { random_Base64 : G → nat → G * string }.

Record SystemSecrets {C G : Type} := mkSystemSecrets {
  sy_NooBaa : NooBaa;
  sy_JoinSecret : option Secret;
  sy_SecretServer : Secret;
  sy_SecretAdmin : Secret;
  sy_SecretOp : Secret;
  sy_SecretEndpoints : Secret;
  sy_SecretMetricsAuth : Secret;
  sy_AuthToken : string;
  sy_core : C;
  sy_random : G;
}.
Arguments SystemSecrets C G : clear implicits.
Arguments mkSystemSecrets {C G}.

Section Setters.
Context {C G : Type}.
Implicit Type r : SystemSecrets C G.
Definition set_sy_NooBaa v r : SystemSecrets C G :=
  mkSystemSecrets v (sy_JoinSecret r) (sy_SecretServer r) (sy_SecretAdmin r) (sy_SecretOp r) (sy_SecretEndpoints r) (sy_SecretMetricsAuth r)
    (sy_AuthToken r) (sy_core r) (sy_random r).
Definition set_sy_SecretAdmin v r : SystemSecrets C G :=
  mkSystemSecrets (sy_NooBaa r) (sy_JoinSecret r) (sy_SecretServer r) v (sy_SecretOp r) (sy_SecretEndpoints r) (sy_SecretMetricsAuth r)
    (sy_AuthToken r) (sy_core r) (sy_random r).
Definition set_sy_SecretOp v r : SystemSecrets C G :=
  mkSystemSecrets (sy_NooBaa r) (sy_JoinSecret r) (sy_SecretServer r) (sy_SecretAdmin r) v (sy_SecretEndpoints r) (sy_SecretMetricsAuth r)
    (sy_AuthToken r) (sy_core r) (sy_random r).
Definition set_sy_SecretEndpoints v r : SystemSecrets C G :=
  mkSystemSecrets (sy_NooBaa r) (sy_JoinSecret r) (sy_SecretServer r) (sy_SecretAdmin r) (sy_SecretOp r) v (sy_SecretMetricsAuth r)
    (sy_AuthToken r) (sy_core r) (sy_random r).
Definition set_sy_SecretMetricsAuth v r : SystemSecrets C G :=
  mkSystemSecrets (sy_NooBaa r) (sy_JoinSecret r) (sy_SecretServer r) (sy_SecretAdmin r) (sy_SecretOp r) (sy_SecretEndpoints r) v
    (sy_AuthToken r) (sy_core r) (sy_random r).
Definition set_sy_AuthToken v r : SystemSecrets C G :=
  mkSystemSecrets (sy_NooBaa r) (sy_JoinSecret r) (sy_SecretServer r) (sy_SecretAdmin r) (sy_SecretOp r) (sy_SecretEndpoints r)
    (sy_SecretMetricsAuth r) v (sy_core r) (sy_random r).
Definition set_sy_core v r : SystemSecrets C G :=
  mkSystemSecrets (sy_NooBaa r) (sy_JoinSecret r) (sy_SecretServer r) (sy_SecretAdmin r) (sy_SecretOp r) (sy_SecretEndpoints r)
    (sy_SecretMetricsAuth r) (sy_AuthToken r) v (sy_random r).
Definition set_sy_random v r : SystemSecrets C G :=
  mkSystemSecrets (sy_NooBaa r) (sy_JoinSecret r) (sy_SecretServer r) (sy_SecretAdmin r) (sy_SecretOp r) (sy_SecretEndpoints r)
    (sy_SecretMetricsAuth r) (sy_AuthToken r) (sy_core r) v.
End Setters.

(** [secret.StringData[k]], read and written after [SecretResetStringDataFromData], which
    leaves a map. *)
Definition secretString (k : string) (s : Secret) : string := map_get (sec_StringData s) k.
Definition putString (k v : string) (s : Secret) : Secret :=
  mkSecret (sec_meta s) (Some (<[k := v]> (default ∅ (sec_StringData s)))) (sec_Data s).

Section Secrets.
Context {C G W : Type} {CA : CoreApi C} {RS : RandomSource G} {SS : ApiServer W Secret} {CS : ControllerUtil W Secret}.
Context (SignedString : gmap string string → string → error + string).
Context (SetControllerReference : ObjectMeta → ObjectMeta → msg + ObjectMeta).
(** [r.Request.Name]. *)
Context (RequestName : string).

Abbreviation R := (SystemSecrets C G).
Abbreviation token system role email := (λ r : R, MakeAuthToken SignedString
  (<["system" := system]> (<["role" := role]> {["email" := email]}))%string (secretString "jwt" (sy_SecretServer r))).

Definition RandomBase64 (n : nat) : M R string := λ r,
  let '(g, s) := random_Base64 (sy_random r) n in Ret (set_sy_random g r, inr s).
(** The error of a call, under a message. *)
Definition explained {A} (format : string) (x : error + A) : M R A :=
  match x with inl e => throw (Errorf (Sprintf format [AMsg (Error e)])) | inr a => mret a end.
Definition onCore {A} (f : C → C * A) : M R A := λ r, let '(c, a) := f (sy_core r) in Ret (set_sy_core c r, inr a).

Definition SetDesiredSecretAdmin (s : Secret) : M R Secret :=
  let s := SecretResetStringDataFromData s in
  nb ← gets sy_NooBaa;
  let s := putString "email" AdminAccountEmail (putString "system" (om_Name (nb_meta nb)) s) in
  if secretString "password" s == "" then password ← RandomBase64 16; mret (putString "password" password s) else mret s.

Definition SetDesiredSecretOp (s : Secret) : M R Secret :=
  let s := SecretResetStringDataFromData s in
  if secretString "auth_token" s != "" then mret s
  else
    r ← get;
    match sy_JoinSecret r with
    | Some joinSecret => mret (putString "auth_token" (secretString "auth_token" joinSecret) s)
    | None =>
        state ← explained "Could not read the system status, error: %v" (ReadSystemStatusAPI (sy_core r));
        if state == "DOES_NOT_EXIST" then
          res ← onCore (λ c, CreateSystemAPI c (mkCreateSystemParams RequestName (secretString "email" (sy_SecretAdmin r))
                                                  (secretString "password" (sy_SecretAdmin r))));
          operatorToken ← explained "system creation failed, error: %v" res;
          mret (putString "auth_token" operatorToken s)
        else if state == "COULD_NOT_INITIALIZE" then
          throw (NewPersistentError "SystemCouldNotInitialize" (Lit "Something went wrong during system initialization"))
        else if state == "READY" then
          t ← explained "cannot create an auth token for operator, error: %v" (token RequestName "operator" OperatorAccountEmail r);
          mret (putString "auth_token" t s)
        else mret s
    end.

Definition SetDesiredSecretAdminAccountInfo (s : Secret) : M R Secret :=
  let s := SecretResetStringDataFromData s in
  r ← get;
  keys ← explained "cannot read admin account info, error: %v" (ReadAccountAPI (sy_core r) (secretString "email" s));
  match keys with
  | [] => throw (Errorf (Lit "admin account has no access keys yet"))
  | (accessKey, secretKey) :: _ => mret (putString "AWS_SECRET_ACCESS_KEY" secretKey (putString "AWS_ACCESS_KEY_ID" accessKey s))
  end.

Definition SetDesiredSecretEndpoints (s : Secret) : M R Secret :=
  if om_UID (sec_meta s) != "" then mret s
  else
    let s := SecretResetStringDataFromData s in
    r ← get;
    t ← explained "cannot create auth token for use by endpoints, error: %v" (token RequestName "admin" AdminAccountEmail r);
    mret (putString "auth_token" t s).

Definition SetDesiredMetricsAuth (s : Secret) : M R Secret :=
  let s := SecretResetStringDataFromData s in
  if secretString metricsAuthKey s != "" then mret s
  else
    r ← get;
    t ← explained "cannot create an auth token for metrics, error: %v" (token (om_Name (nb_meta (sy_NooBaa r))) "metrics" OperatorAccountEmail r);
    mret (putString metricsAuthKey t s).

(** A secret of the reconciler, reconciled in place. *)
Definition reconcileSecret (field : R → Secret) (set : Secret → R → R) (desired : Secret → M R Secret) : M (W * R) () :=
  s ← state field;
  s ← ReconcileObject sy_NooBaa SetControllerReference s desired;
  update (set s).

Definition pointToAdmin (r : R) : R :=
  let nb := sy_NooBaa r in
  set_sy_NooBaa (mkNooBaa (nb_meta nb) (nb_Spec nb) (set_nbst_AdminSecret
    (Some (mkSecretReference (om_Name (sec_meta (sy_SecretAdmin r))) (om_Namespace (sec_meta (sy_SecretAdmin r))))) (nb_Status nb))) r.

Definition ReconcileSystemSecrets : M (W * R) () :=
  join ← state sy_JoinSecret;
  do! when (isNil join) (
    do! reconcileSecret sy_SecretAdmin set_sy_SecretAdmin SetDesiredSecretAdmin ;;
    update pointToAdmin) ;;
  do! reconcileSecret sy_SecretOp set_sy_SecretOp SetDesiredSecretOp ;;
  do! update (λ r, set_sy_AuthToken (secretString "auth_token" (sy_SecretOp r)) r) ;;
  do! when (isNil join) (reconcileSecret sy_SecretAdmin set_sy_SecretAdmin SetDesiredSecretAdminAccountInfo) ;;
  do! reconcileSecret sy_SecretEndpoints set_sy_SecretEndpoints SetDesiredSecretEndpoints ;;
  reconcileSecret sy_SecretMetricsAuth set_sy_SecretMetricsAuth SetDesiredMetricsAuth.

Definition RegisterToCluster : M (W * R) () :=
  join ← state sy_JoinSecret;
  if negb (isNil join) then mret ()
  else λ '(w, r), let '(c, err) := RegisterToClusterAPI (sy_core r) in
       Ret ((w, set_sy_core c r), match err with Some e => inl e | None => inr () end).

Definition getEndpointMinMaxCount (nb : NooBaa) : Z * Z :=
  getEndpointMinMax (nbs_PerformanceProfile (nb_Spec nb)) ((λ e, (eps_MinCount e, eps_MaxCount e)) <$> nbs_Endpoints (nb_Spec nb)).

Definition updateNoobaaEndpoint : M (W * R) () := λ '(w, r),
  let nb := sy_NooBaa r in
  let '(min, max) := getEndpointMinMaxCount nb in
  let '(c, err) := UpdateEndpointGroupAPI (sy_core r) (mkUpdateEndpointGroupParams (om_UID (nb_meta nb)) (negb (isNil (sy_JoinSecret r)))
                     (default ""%string (nbs_Region (nb_Spec nb))) min max) in
  Ret ((w, set_sy_core c r), match err with Some e => inl e | None => inr () end).
End Secrets.

(** ** Facts *)

(** What Kubernetes documents about the two maps of a secret: the strings are written into
    the data, over what is there.  An object that is being deleted may disappear. *)
Class SecretStorage (W : Type) {SS : ApiServer W Secret} : Prop := {
  secret_written w o w' o' :
    srv_Create w o = (w', inr o') ∨ srv_Update w o = (w', inr o') → om_DeletionTimestamp (sec_meta o) = None →
    srv_Get w' (ObjectKey o) = inr o' ∧ om_DeletionTimestamp (sec_meta o') = None ∧
    default ∅ (sec_Data o') = default ∅ (sec_StringData o) ∪ default ∅ (sec_Data o);
  secret_others w (o : Secret) w' o' k :
    srv_Create w o = (w', inr o') ∨ srv_Update w o = (w', inr o') → k ≠ ObjectKey o → srv_Get (O:=Secret) w' k = srv_Get w k;
  secret_refused w (o : Secret) w' e : srv_Create w o = (w', inl e) ∨ srv_Update w o = (w', inl e) → w' = w;
}.

Section Facts.
Context {C G W : Type} {CA : CoreApi C} {RS : RandomSource G} {SS : ApiServer W Secret} {CS : ControllerUtil W Secret}.
Context {CL : ControllerUtilLaws W Secret} {KS : KeyedServer W Secret} {ST : SecretStorage W}.
Context (SignedString : gmap string string → string → error + string).
Context (SetControllerReference : ObjectMeta → ObjectMeta → msg + ObjectMeta).
Context (reference_key : ∀ o m m', SetControllerReference o m = inr m' → om_Name m' = om_Name m ∧ om_Namespace m' = om_Namespace m).
Context (RequestName : string).
Abbreviation R := (SystemSecrets C G).
Implicit Types (w : W) (r : R).

(** The cluster has a secret with this entry. *)
Definition secretHas w (key : ObjectKeyT) (k v : string) : Prop :=
  ∃ s : Secret, srv_Get w key = inr s ∧ om_DeletionTimestamp (sec_meta s) = None ∧ default ∅ (sec_Data s) !! k = Some v.

(** What the server makes of a secret. *)
Definition contents (s : Secret) : gmap string string := default ∅ (sec_StringData s) ∪ default ∅ (sec_Data s).

(** A mutation that touches neither the metadata nor an entry. *)
Definition keepsMeta (desired : Secret → M R Secret) : Prop :=
  ∀ base r r' o, desired base r = Ret (r', inr o) → sec_meta o = sec_meta base.
Definition keepsEntry (k v : string) (desired : Secret → M R Secret) : Prop :=
  ∀ base r r' o, desired base r = Ret (r', inr o) → default ∅ (sec_Data base) !! k = Some v → contents o !! k = Some v.

Lemma contents_reset s : contents (SecretResetStringDataFromData s) = default ∅ (sec_Data s).
Proof. unfold contents. cbn. apply (right_id_L ∅ (∪)). Qed.
Lemma contents_put k v k' s : contents (putString k v s) !! k' = if bool_decide (k = k') then Some v else contents s !! k'.
Proof.
  unfold contents. cbn. rewrite <-insert_union_l. case_bool_decide; [subst; by rewrite lookup_insert_eq|by rewrite lookup_insert_ne].
Qed.
Lemma secretString_reset k s : secretString k (SecretResetStringDataFromData s) = default ""%string (default ∅ (sec_Data s) !! k).
Proof. done. Qed.
Lemma secretString_put k v k' s : secretString k' (putString k v s) = if bool_decide (k = k') then v else secretString k' s.
Proof.
  unfold secretString, map_get. cbn. case_bool_decide; [subst; by rewrite lookup_insert_eq|rewrite lookup_insert_ne by done].
  by destruct (sec_StringData s).
Qed.

Lemma explained_ok {A} format (x : error + A) r s' a : explained format x r = Ret (s', inr a) → s' = r ∧ x = inr a.
Proof. destruct x; [done|]. by intros [= <- <-]. Qed.
Lemma explained_state {A} format (x : error + A) r s' y : explained format x r = Ret (s', y) → s' = r.
Proof. destruct x; by intros [= <- _]. Qed.

Lemma keepsMeta_admin : keepsMeta SetDesiredSecretAdmin.
Proof.
  intros base r r' o Hrun. unfold SetDesiredSecretAdmin in Hrun. cbv zeta in Hrun. erewrite M_bind_run in Hrun by reflexivity.
  destruct (_ == ""); [|by injection Hrun as _ <-]. apply M_bind_ok in Hrun as (r1 & p & _ & Hrun). by injection Hrun as _ <-.
Qed.
Lemma keepsMeta_info : keepsMeta SetDesiredSecretAdminAccountInfo.
Proof.
  intros base r r' o Hrun. unfold SetDesiredSecretAdminAccountInfo in Hrun. cbv zeta in Hrun. erewrite M_bind_run in Hrun by reflexivity.
  apply M_bind_ok in Hrun as (r1 & keys & _ & Hrun). destruct keys as [|[a s] keys]; [done|]. by injection Hrun as _ <-.
Qed.
Lemma keepsMeta_endpoints : keepsMeta (SetDesiredSecretEndpoints SignedString RequestName).
Proof.
  intros base r r' o Hrun. unfold SetDesiredSecretEndpoints in Hrun. destruct (_ != _); [by injection Hrun as _ <-|]. cbv zeta in Hrun.
  erewrite M_bind_run in Hrun by reflexivity. apply M_bind_ok in Hrun as (r1 & t & _ & Hrun). by injection Hrun as _ <-.
Qed.
Lemma keepsMeta_metrics : keepsMeta (SetDesiredMetricsAuth SignedString).
Proof.
  intros base r r' o Hrun. unfold SetDesiredMetricsAuth in Hrun. cbv zeta in Hrun. destruct (_ != _); [by injection Hrun as _ <-|].
  erewrite M_bind_run in Hrun by reflexivity. apply M_bind_ok in Hrun as (r1 & t & _ & Hrun). by injection Hrun as _ <-.
Qed.
Lemma keepsMeta_op : keepsMeta (SetDesiredSecretOp SignedString RequestName).
Proof.
  intros base r r' o Hrun. unfold SetDesiredSecretOp in Hrun. cbv zeta in Hrun. destruct (_ != _); [by injection Hrun as _ <-|].
  erewrite M_bind_run in Hrun by reflexivity. destruct (sy_JoinSecret r); [by injection Hrun as _ <-|].
  apply M_bind_ok in Hrun as (r1 & st & _ & Hrun). destruct (_ == _).
  { apply M_bind_ok in Hrun as (r2 & res & _ & Hrun). apply M_bind_ok in Hrun as (r3 & t & _ & Hrun). by injection Hrun as _ <-. }
  destruct (_ == _); [done|]. destruct (_ == _); [|by injection Hrun as _ <-].
  apply M_bind_ok in Hrun as (r2 & t & _ & Hrun). by injection Hrun as _ <-.
Qed.

(** The password of the administrator, once there is one. *)
Lemma keepsEntry_admin p : p ≠ ""%string → keepsEntry "password" p SetDesiredSecretAdmin.
Proof.
  intros Hp base r r' o Hrun Hd. unfold SetDesiredSecretAdmin in Hrun. cbv zeta in Hrun. erewrite M_bind_run in Hrun by reflexivity.
  rewrite !secretString_put, secretString_reset, Hd in Hrun. cbn -[mret bool_decide] in Hrun.
  rewrite !bool_decide_eq_false_2 in Hrun by done. injection Hrun as _ <-.
  rewrite !contents_put, contents_reset. by rewrite !bool_decide_eq_false_2 by done.
Qed.
Lemma keepsEntry_info p : keepsEntry "password" p SetDesiredSecretAdminAccountInfo.
Proof.
  intros base r r' o Hrun Hd. unfold SetDesiredSecretAdminAccountInfo in Hrun. cbv zeta in Hrun. erewrite M_bind_run in Hrun by reflexivity.
  apply M_bind_ok in Hrun as (r1 & keys & _ & Hrun). destruct keys as [|[a s] keys]; [done|]. injection Hrun as _ <-.
  rewrite !contents_put, contents_reset. by rewrite !bool_decide_eq_false_2 by done.
Qed.
(** The token of the operator, once there is one; the core is not asked. *)
Lemma SetDesiredSecretOp_token base t r : default ∅ (sec_Data base) !! "auth_token"%string = Some t → t ≠ ""%string →
  SetDesiredSecretOp SignedString RequestName base r = Ret (r, inr (SecretResetStringDataFromData base)).
Proof.
  intros Hd Ht. unfold SetDesiredSecretOp. cbv zeta. rewrite secretString_reset, Hd. cbn -[mret bool_decide]. by rewrite bool_decide_eq_false_2.
Qed.
Lemma keepsEntry_op t : t ≠ ""%string → keepsEntry "auth_token" t (SetDesiredSecretOp SignedString RequestName).
Proof.
  intros Ht base r r' o Hrun Hd. rewrite (SetDesiredSecretOp_token _ _ _ Hd Ht) in Hrun. injection Hrun as _ <-. by rewrite contents_reset.
Qed.

Lemma Own_key nb (s owned : Secret) : Own SetControllerReference nb s = Ret owned → ObjectKey owned = ObjectKey s.
Proof.
  unfold Own. destruct (SetControllerReference _ _) as [m|m] eqn:E; [done|]. intros [= <-]. apply reference_key in E as [Hn Hns].
  unfold ObjectKey. cbn in *. by rewrite Hn, Hns.
Qed.

Lemma current_key w (owned base : Secret) : current w owned base → ObjectKey base = ObjectKey owned.
Proof.
  unfold current. destruct (srv_Get w (ObjectKey owned)) as [e|o] eqn:Hg; [by intros [_ ->]|]. intros ->. by apply Get_key in Hg.
Qed.

Lemma current_found w (owned base s : Secret) : srv_Get w (ObjectKey owned) = inr s → current w owned base → base = s.
Proof. unfold current. intros Hg. cbn in *. by rewrite Hg. Qed.

(** A successful reconcile of a secret. *)
Lemma reconcileSecret_ok field set desired w r w' r' :
  keepsMeta desired → reconcileSecret SetControllerReference field set desired (w, r) = Ret ((w', r'), inr ()) →
  ∃ owned base o op x r1, ObjectKey owned = ObjectKey (field r) ∧ current w owned base ∧ desired base r = Ret (r1, inr o) ∧
    sec_meta o = sec_meta base ∧ ObjectKey o = ObjectKey (field r) ∧ applied w base o op w' x ∧
    r' = set (SecretResetStringDataFromData x) r1 ∧ ObjectKey x = ObjectKey (field r).
Proof.
  intros Hmeta Hrun. unfold reconcileSecret in Hrun. erewrite M_bind_run in Hrun by reflexivity. cbn [snd] in Hrun.
  apply M_bind_ok in Hrun as ([w1 r1] & s & Hobj & Hrun). injection Hrun as <- <-.
  destruct (ReconcileObject_ok _ _ _ _ _ _ _ _ _ Hobj) as (owned & base & o & op & x & Hown & Hcur & Hf & _ & Happ & ->).
  apply Own_key in Hown. pose proof (current_key _ _ _ Hcur) as Hk. pose proof (Hmeta _ _ _ _ Hf) as Hm.
  assert (Ho : ObjectKey o = ObjectKey (field r)).
  { transitivity (ObjectKey base); [unfold ObjectKey; cbn; by rewrite Hm|]. congruence. }
  exists owned, base, o, op, x, r1. split_and!; try done.
  destruct op; cbn in Happ; try done.
  - by destruct Happ as (_ & -> & _).
  - rewrite <-Ho. exact (Create_key _ _ _ _ Happ).
  - rewrite <-Ho. exact (Update_key _ _ _ _ Happ).
Qed.

(** A failed one has changed nothing in the cluster. *)
Lemma reconcileSecret_err field set desired w r w' r' e :
  reconcileSecret SetControllerReference field set desired (w, r) = Ret ((w', r'), inl e) → w' = w.
Proof.
  intros Hrun. unfold reconcileSecret in Hrun. erewrite M_bind_run in Hrun by reflexivity. cbn [snd] in Hrun.
  apply M_bind_inv in Hrun as [(e' & Hobj & _)|(s1 & s & _ & Hrun)]; [|done].
  destruct (ReconcileObject_err _ _ _ _ _ _ _ _ _ Hobj) as [->|(o & e0 & Hw)]; [done|]. exact (secret_refused _ _ _ _ Hw).
Qed.

(** Entries of the cluster that a reconcile of a secret keeps: those of other secrets, and
    those that its mutation keeps. *)
Lemma reconcileSecret_keeps field set desired w r w' r' key k v :
  keepsMeta desired → (key = ObjectKey (field r) → keepsEntry k v desired) →
  reconcileSecret SetControllerReference field set desired (w, r) = Ret ((w', r'), inr ()) →
  secretHas w key k v → secretHas w' key k v.
Proof.
  intros Hmeta Hentry Hrun (s & Hget & Hdel & Hs).
  destruct (reconcileSecret_ok _ _ _ _ _ _ _ Hmeta Hrun) as (owned & base & o & op & x & r1 & Hown & Hcur & Hf & Hm & Ho & Happ & _ & _).
  assert (Hwrite : srv_Create w o = (w', inr x) ∨ srv_Update w o = (w', inr x) → secretHas w' key k v).
  { intros Hw. destruct (decide (key = ObjectKey (field r))) as [->|Hne].
    - assert (srv_Get w (ObjectKey owned) = inr s) as Hg by (rewrite Hown; exact Hget). apply (current_found _ _ _ _ Hg) in Hcur as ->. clear Hg.
      destruct (secret_written _ _ _ _ Hw ltac:(by rewrite Hm)) as (Hg & Hd & Hc). exists x. split; [rewrite <-Ho; exact Hg|]. split; [done|].
      rewrite Hc. by apply (Hentry eq_refl _ _ _ _ Hf).
    - exists s. split; [|done]. rewrite (secret_others _ _ _ _ _ Hw); [done|]. by rewrite Ho. }
  destruct op; cbn in Happ; try done; [|by apply Hwrite; left|by apply Hwrite; right].
  destruct Happ as (-> & _). by exists s.
Qed.

(** Whatever becomes of it, the mutation is run on what the cluster has. *)
Lemma reconcileSecret_state field set desired w r s' x :
  reconcileSecret SetControllerReference field set desired (w, r) = Ret (s', x) →
  ∃ r1, (r1 = r ∨ ∃ owned base res, ObjectKey owned = ObjectKey (field r) ∧ current w owned base ∧ desired base r = Ret (r1, res)) ∧
        (s'.2 = r1 ∨ ∃ o, s'.2 = set o r1).
Proof.
  intros Hrun. unfold reconcileSecret in Hrun. erewrite M_bind_run in Hrun by reflexivity. cbn [snd] in Hrun.
  assert (Hrec : ∀ s1 y, ReconcileObject sy_NooBaa SetControllerReference (field r) desired (w, r) = Ret (s1, y) →
    s1.2 = r ∨ ∃ owned base res, ObjectKey owned = ObjectKey (field r) ∧ current w owned base ∧ desired base r = Ret (s1.2, res)).
  { intros s1 y Hobj. unfold ReconcileObject, reconcileObject in Hobj.
    assert (∃ z, reconcileObjectAndGetResult sy_NooBaa SetControllerReference (field r) desired false (w, r) = Ret (s1, z)) as (z & Hz).
    { apply M_bind_inv in Hobj as [(e & He & _)|(s2 & [a b] & Ha & Hb)]; [eauto|]. injection Hb as <- _. eauto. }
    unfold reconcileObjectAndGetResult in Hz. destruct (Own _ _ (field r)) as [owned|p] eqn:Hown; cbn in Hz; [|done].
    destruct (CreateOrUpdate w r owned desired) as [[[[[w2 r2] o2] op] err]|p] eqn:Hc; cbn in Hz; [|done]. injection Hz as <- _.
    destruct (CreateOrUpdate_state _ _ _ _ _ _ _ _ _ Hc) as [->|(base & res & Hcur & Hf)]; [by left|].
    right. exists owned, base, res. split_and!; [by eapply Own_key|done|done]. }
  apply M_bind_inv in Hrun as [(e & Hobj & _)|([w1 r1] & o & Hobj & Hrun)]; apply Hrec in Hobj.
  - exists s'.2. split; [exact Hobj|by left].
  - exists r1. split; [exact Hobj|]. injection Hrun as <- _. right. by exists o.
Qed.

(** Mutations that leave the core alone. *)
Definition quiet (desired : Secret → M R Secret) (base : Secret) : Prop :=
  ∀ r r1 res, desired base r = Ret (r1, res) → ∃ g, r1 = set_sy_random g r.

Lemma set_random_same r : set_sy_random (sy_random r) r = r.
Proof. by destruct r. Qed.

Lemma quiet_admin base : quiet SetDesiredSecretAdmin base.
Proof.
  intros r r1 res Hrun. unfold SetDesiredSecretAdmin in Hrun. cbv zeta in Hrun. erewrite M_bind_run in Hrun by reflexivity.
  destruct (_ == ""); [|injection Hrun as <- _; exists (sy_random r); by rewrite set_random_same].
  unfold RandomBase64 in Hrun. destruct (random_Base64 (sy_random r) 16) as [g p] eqn:Hg.
  erewrite M_bind_run in Hrun by (rewrite Hg; reflexivity). injection Hrun as <- _. by exists g.
Qed.
Lemma quiet_info base : quiet SetDesiredSecretAdminAccountInfo base.
Proof.
  intros r r1 res Hrun. unfold SetDesiredSecretAdminAccountInfo in Hrun. cbv zeta in Hrun. erewrite M_bind_run in Hrun by reflexivity.
  exists (sy_random r). rewrite set_random_same. apply M_bind_inv in Hrun as [(e & He & _)|(r2 & keys & He & Hrun)];
    apply explained_state in He as ->; [done|]. destruct keys as [|[a k] keys]; by injection Hrun as <- _.
Qed.
Lemma quiet_endpoints base : quiet (SetDesiredSecretEndpoints SignedString RequestName) base.
Proof.
  intros r r1 res Hrun. exists (sy_random r). rewrite set_random_same. unfold SetDesiredSecretEndpoints in Hrun.
  destruct (_ != _); [by injection Hrun as <- _|]. cbv zeta in Hrun. erewrite M_bind_run in Hrun by reflexivity.
  apply M_bind_inv in Hrun as [(e & He & _)|(r2 & t & He & Hrun)]; apply explained_state in He as ->; [done|]. by injection Hrun as <- _.
Qed.
Lemma quiet_metrics base : quiet (SetDesiredMetricsAuth SignedString) base.
Proof.
  intros r r1 res Hrun. exists (sy_random r). rewrite set_random_same. unfold SetDesiredMetricsAuth in Hrun. cbv zeta in Hrun.
  destruct (_ != _); [by injection Hrun as <- _|]. erewrite M_bind_run in Hrun by reflexivity.
  apply M_bind_inv in Hrun as [(e & He & _)|(r2 & t & He & Hrun)]; apply explained_state in He as ->; [done|]. by injection Hrun as <- _.
Qed.
Lemma quiet_op base t :
  default ∅ (sec_Data base) !! "auth_token"%string = Some t → t ≠ ""%string → quiet (SetDesiredSecretOp SignedString RequestName) base.
Proof.
  intros Hd Ht r r1 res Hrun. exists (sy_random r). rewrite set_random_same.
  rewrite (SetDesiredSecretOp_token _ _ _ Hd Ht) in Hrun. by injection Hrun as <- _.
Qed.

(** What the reconcile of one secret does to the reconciler. *)
Definition sameSecrets r r' : Prop :=
  sy_core r' = sy_core r ∧ sy_JoinSecret r' = sy_JoinSecret r ∧ ObjectKey (sy_SecretAdmin r') = ObjectKey (sy_SecretAdmin r) ∧
  ObjectKey (sy_SecretOp r') = ObjectKey (sy_SecretOp r) ∧ ObjectKey (sy_SecretEndpoints r') = ObjectKey (sy_SecretEndpoints r) ∧
  ObjectKey (sy_SecretMetricsAuth r') = ObjectKey (sy_SecretMetricsAuth r).
#[local] Instance sameSecrets_preorder : PreOrder sameSecrets.
Proof. split; [done|]. intros r1 r2 r3 (?&?&?&?&?&?) (?&?&?&?&?&?). unfold sameSecrets. split_and!; congruence. Qed.

Lemma reconcileSecret_run field set desired w r w' r' x :
  (∀ o r1, ObjectKey o = ObjectKey (field r1) → sameSecrets r1 (set o r1)) → (∀ o r1, sy_core (set o r1) = sy_core r1) →
  (∀ g, field (set_sy_random g r) = field r) → keepsMeta desired →
  (∀ owned base, ObjectKey owned = ObjectKey (field r) → current w owned base → quiet desired base) →
  reconcileSecret SetControllerReference field set desired (w, r) = Ret ((w', r'), x) →
  sy_core r' = sy_core r ∧ (x = inr () → sameSecrets r r').
Proof.
  intros Hset Hcore Hfield Hmeta Hquiet Hrun. split.
  - destruct (reconcileSecret_state _ _ _ _ _ _ _ Hrun) as (r1 & Hr1 & Hr'). cbn [snd] in Hr'.
    assert (sy_core r1 = sy_core r) as <-.
    { destruct Hr1 as [->|(owned & base & res & Hk & Hcur & Hf)]; [done|]. by apply (Hquiet _ _ Hk Hcur) in Hf as [g ->]. }
    destruct Hr' as [->|[o ->]]; [done|apply Hcore].
  - intros ->. destruct (reconcileSecret_ok _ _ _ _ _ _ _ Hmeta Hrun) as (owned & base & o & op & y & r1 & Hk & Hcur & Hf & _ & _ & _ & -> & Hy).
    apply (Hquiet _ _ Hk Hcur) in Hf as [g ->]. transitivity (set_sy_random g r); [done|]. apply Hset. rewrite Hfield. exact Hy.
Qed.

Lemma NoDup_four {A} (a b c d : A) : NoDup [a; b; c; d] → a ≠ b ∧ a ≠ c ∧ b ≠ c ∧ a ≠ d ∧ b ≠ d.
Proof. rewrite !NoDup_cons, !not_elem_of_cons. naive_solver. Qed.

Section Settled.
Context (p t : string) (r0 : R) (Hp : p ≠ ""%string) (Ht : t ≠ ""%string).
Context (Hkeys : NoDup [ObjectKey (sy_SecretAdmin r0); ObjectKey (sy_SecretOp r0); ObjectKey (sy_SecretEndpoints r0);
                        ObjectKey (sy_SecretMetricsAuth r0)]).

Definition keptSecrets w : Prop :=
  secretHas w (ObjectKey (sy_SecretAdmin r0)) "password" p ∧ secretHas w (ObjectKey (sy_SecretOp r0)) "auth_token" t.
Definition settled w r : Prop := sameSecrets r0 r ∧ keptSecrets w.
(** A step of the phase: whatever becomes of it, the core and the entries are kept. *)
Definition settles (m : M (W * R) ()) : Prop :=
  ∀ w r w' r' x, settled w r → m (w, r) = Ret ((w', r'), x) → sy_core r' = sy_core r0 ∧ keptSecrets w' ∧ (x = inr () → settled w' r').

Lemma settles_bind m k : settles m → settles k → settles (do! m ;; k).
Proof.
  intros Hm Hk w r w' r' x Hs Hrun. apply M_bind_inv in Hrun as [(e & He & ->)|([w1 r1] & [] & H1 & Hrun)].
  - by destruct (Hm _ _ _ _ _ Hs He) as (? & ? & _).
  - destruct (Hm _ _ _ _ _ Hs H1) as (_ & _ & Hs1). exact (Hk _ _ _ _ _ (Hs1 eq_refl) Hrun).
Qed.
Lemma settles_when b m : settles m → settles (when b m).
Proof. destruct b; [done|]. intros _ w r w' r' x Hs Hrun. injection Hrun as <- <- _. destruct (Hs) as [(? & _) ?]. by split_and!. Qed.
Lemma settles_update f : (∀ r, sameSecrets r (f r)) → settles (update f).
Proof.
  intros Hf w r w' r' x [Hs Hk] Hrun. injection Hrun as <- <- _. assert (sameSecrets r0 (f r)) as Hf' by (by etrans).
  split_and!; [apply Hf'|apply Hk..|done].
Qed.

Lemma settles_reconcile field set desired :
  (∀ o r1, ObjectKey o = ObjectKey (field r1) → sameSecrets r1 (set o r1)) → (∀ o r1, sy_core (set o r1) = sy_core r1) →
  (∀ g r, field (set_sy_random g r) = field r) → (∀ r, sameSecrets r0 r → ObjectKey (field r) = ObjectKey (field r0)) → keepsMeta desired →
  (∀ w owned base, secretHas w (ObjectKey (sy_SecretOp r0)) "auth_token" t → ObjectKey owned = ObjectKey (field r0) → current w owned base → quiet desired base) →
  (ObjectKey (sy_SecretAdmin r0) = ObjectKey (field r0) → keepsEntry "password" p desired) →
  (ObjectKey (sy_SecretOp r0) = ObjectKey (field r0) → keepsEntry "auth_token" t desired) →
  settles (reconcileSecret SetControllerReference field set desired).
Proof.
  intros Hset Hcore Hfield Hkey Hmeta Hquiet Ha Ho w r w' r' x (Hs & HA & HO) Hrun.
  destruct (reconcileSecret_run field set desired w r w' r' x) as [Hc Hsame]; try done.
  { intros owned base. rewrite (Hkey _ Hs). by apply Hquiet. }
  assert (keptSecrets w') as Hkept.
  { destruct x as [e|[]]; [by apply reconcileSecret_err in Hrun as ->|].
    split; (eapply reconcileSecret_keeps; [done| |exact Hrun|done]); by rewrite (Hkey _ Hs). }
  split; [rewrite Hc; apply Hs|]. split; [done|]. intros Hx. split; [|done]. etrans; [exact Hs|by apply Hsame].
Qed.

Lemma settles_all : settles (ReconcileSystemSecrets SignedString SetControllerReference RequestName).
Proof.
  destruct (NoDup_four _ _ _ _ Hkeys) as (Hao & Hae & Hoe & Ham & Hom). intros w r w' r' x Hs Hrun.
  unfold ReconcileSystemSecrets in Hrun. erewrite M_bind_run in Hrun by reflexivity. revert w r w' r' x Hs Hrun.
  intros w r. generalize (isNil (sy_JoinSecret (w, r).2)) as join. intros join. revert w r.
  change (settles (do! when join (do! reconcileSecret SetControllerReference sy_SecretAdmin set_sy_SecretAdmin SetDesiredSecretAdmin ;; update pointToAdmin) ;;
    do! reconcileSecret SetControllerReference sy_SecretOp set_sy_SecretOp (SetDesiredSecretOp SignedString RequestName) ;;
    do! update (λ r, set_sy_AuthToken (secretString "auth_token" (sy_SecretOp r)) r) ;;
    do! when join (reconcileSecret SetControllerReference sy_SecretAdmin set_sy_SecretAdmin SetDesiredSecretAdminAccountInfo) ;;
    do! reconcileSecret SetControllerReference sy_SecretEndpoints set_sy_SecretEndpoints (SetDesiredSecretEndpoints SignedString RequestName) ;;
    reconcileSecret SetControllerReference sy_SecretMetricsAuth set_sy_SecretMetricsAuth (SetDesiredMetricsAuth SignedString))).
  repeat first [apply settles_bind|apply settles_when|apply settles_update; done].
  - apply settles_reconcile; try done; [by intros r (?&?&?&?)|apply keepsMeta_admin|intros; apply quiet_admin|intros _; by apply keepsEntry_admin].
  - apply settles_reconcile; try done; [by intros r (?&?&?&?&?&?)|apply keepsMeta_op| |intros _; by apply keepsEntry_op].
    intros w owned base (s & Hg & _ & Hd) Hk Hcur. apply (quiet_op _ t); [|done].
    assert (srv_Get w (ObjectKey owned) = inr s) as Hg' by (rewrite Hk; exact Hg). by apply (current_found _ _ _ _ Hg') in Hcur as ->.
  - apply settles_reconcile; try done; [by intros r (?&?&?&?)|apply keepsMeta_info|intros; apply quiet_info|intros _; apply keepsEntry_info].
  - apply settles_reconcile; try done; [by intros r (?&?&?&?&?&?)|apply keepsMeta_endpoints|intros; apply quiet_endpoints].
  - apply settles_reconcile; try done; [by intros r (?&?&?&?&?&?)|apply keepsMeta_metrics|intros; apply quiet_metrics].
Qed.
End Settled.

(** C22: The password of the administrator and the token of the operator stay what they are once
    the cluster has them, and a system whose operator has a token is never created again in
    the core, whether the reconcile succeeds or fails at any step. *)
Theorem ReconcileSystemSecrets_settled p t w r w' r' x :
  NoDup [ObjectKey (sy_SecretAdmin r); ObjectKey (sy_SecretOp r); ObjectKey (sy_SecretEndpoints r); ObjectKey (sy_SecretMetricsAuth r)] →
  p ≠ ""%string → secretHas w (ObjectKey (sy_SecretAdmin r)) "password" p →
  t ≠ ""%string → secretHas w (ObjectKey (sy_SecretOp r)) "auth_token" t →
  ReconcileSystemSecrets SignedString SetControllerReference RequestName (w, r) = Ret ((w', r'), x) →
  sy_core r' = sy_core r ∧
  secretHas w' (ObjectKey (sy_SecretAdmin r)) "password" p ∧ secretHas w' (ObjectKey (sy_SecretOp r)) "auth_token" t.
Proof.
  intros Hkeys Hp Ha Ht Ho Hrun. destruct (settles_all p t r Hp Ht Hkeys w r w' r' x) as (Hc & (? & ?) & _); [by split|done|]. done.
Qed.

(** A system in a state that the code does not know: the operator gets no token, and nothing
    fails. *)
Theorem SetDesiredSecretOp_unknown base r state :
  default ""%string (default ∅ (sec_Data base) !! "auth_token"%string) = ""%string → sy_JoinSecret r = None →
  ReadSystemStatusAPI (sy_core r) = inr state → state ∉ ["DOES_NOT_EXIST"; "COULD_NOT_INITIALIZE"; "READY"]%string →
  SetDesiredSecretOp SignedString RequestName base r = Ret (r, inr (SecretResetStringDataFromData base)).
Proof.
  intros Hd Hj Hst Hno. unfold SetDesiredSecretOp. cbv zeta. rewrite secretString_reset, Hd. cbn [negb]. rewrite bool_decide_eq_true_2 by done.
  cbn [negb]. erewrite M_bind_run by reflexivity. rewrite Hj. erewrite M_bind_run by (unfold explained; rewrite Hst; reflexivity).
  rewrite !bool_decide_eq_false_2; [done|set_solver..].
Qed.
End Facts.

(** ** The TLS settings of the webhook *)

Section AdmissionTLS.
(** The process: its environment, and the callback, which may fail. *)
Context {P : Type} (LookupEnv : string → option string) (OnAdmissionTLSChanged : option (P → P * option error)).

(** [reflect.DeepEqual], and [spec.DeepCopy()]. *)
#[local] Instance TLSSecuritySpec_eq_dec : EqDecision TLSSecuritySpec.
Proof. solve_decision. Defined.

(** [lastAdmissionTLSSpec] is the last argument. *)
Definition reconcileAdmissionTLSConf (nb : NooBaa) (proc : P) (last : option TLSSecuritySpec) : P * option TLSSecuritySpec * option error :=
  if LookupEnv "ENABLE_NOOBAA_ADMISSION" != Some "true"%string then (proc, last, None)
  else
    let spec := sec_APIServerSecurity (nbs_Security (nb_Spec nb)) in
    if spec == last then (proc, last, None)
    else match OnAdmissionTLSChanged with
         | Some f =>
             let '(proc, err) := f proc in
             match err with Some e => (proc, last, Some e) | None => (proc, spec, None) end
         | None => (proc, spec, None)
         end.

(** A reload that succeeded is not repeated until the settings change; one that failed is
    repeated by the next reconcile. *)
Theorem reconcileAdmissionTLSConf_once nb proc last proc' last' err :
  reconcileAdmissionTLSConf nb proc last = (proc', last', err) →
  reconcileAdmissionTLSConf nb proc' last' = match err with Some _ => reconcileAdmissionTLSConf nb proc' last | None => (proc', last', None) end ∧
  (is_Some err → last' = last).
Proof.
  unfold reconcileAdmissionTLSConf. destruct (_ != _) eqn:Henv; [intros [= <- <- <-]; by split; [|intros []]|].
  destruct (bool_decide_reflect (sec_APIServerSecurity (nbs_Security (nb_Spec nb)) = last)) as [->|Hne].
  { intros [= <- <- <-]. by rewrite bool_decide_eq_true_2 by done; split; [|intros []]. }
  destruct OnAdmissionTLSChanged as [f|].
  - destruct (f proc) as [p1 [e|]] eqn:Hf; intros [= <- <- <-].
    + rewrite bool_decide_eq_false_2 by done. by split.
    + rewrite bool_decide_eq_true_2 by done. by split; [|intros []].
  - intros [= <- <- <-]. rewrite bool_decide_eq_true_2 by done. by split; [|intros []].
Qed.
End AdmissionTLS.
