(* ===== verification/StoreSync.v ===== *)
(** * Reading the system back: [pkg/system/phase4_configuring.go].

    At the end of the configuring phase the controller reads the system from the core: it
    creates the namespace stores of resources that were made there and ask for it, and
    copies the modes of pools, resources and buckets into the status of the stores and
    classes they belong to.  The management API is a parameter. *)

From S2P Require Import Prelude GoStrings Types NbTypes Kube Util.

(** ** The reply *)

(** Of a bucket: the mode of its tiering policy, and the class that its claim names. *)
Record BucketMode := mkBucketMode { bm_Tiering : option string; bm_BucketClass : option string }.
Record SystemReply := mkSystemReply {
  sr_Version : string;
  sr_Pools : list PoolInfo;
  sr_NamespaceResources : list NamespaceResourceInfo;
  sr_Buckets : list BucketMode;
}.
Record NamespaceResourceOperatorInfo := mkNamespaceResourceOperatorInfo {
  nroi_AccessKey : string;
  nroi_SecretKey : string;
  nroi_NeedK8sSync : bool;
}.

Class SyncApi (N : Type) : Type := {
  ReadSystemAPI : N → error + SystemReply;
  ReadNamespaceResourceOperatorInfoAPI : N → string → error + NamespaceResourceOperatorInfo;
  (** [SetNamespaceStoreInfo], of the resource and of its namespace. *)
  SetNamespaceStoreInfoAPI : N → string → string → N * option error;
}.

(** [Client.Status().Update]. *)
Class StatusApi (W O : Type) : Type := { status_Update : W → O → W * (api_error + O) }.

(** ** Modes *)

(** An object with a mode in its status. *)
Class Moded (O : Type) : Type := { mode_name : O → string; mode_of : O → string; set_mode : string → O → O }.

Section Modes.
Context {W O : Type} {MO : Moded O} {SU : StatusApi W O}.

(** The modes of one object, by the names of what they belong to; an update that fails is
    logged.  [touched]: whether one was tried. *)
Fixpoint applyModes (modes : list (string * string)) (w : W) (o : O) (touched : bool) : W * O * bool :=
  match modes with
  | [] => (w, o, touched)
  | (name, mode) :: modes =>
      if (name == mode_name o) && (mode_of o != mode) then
        let '(w, o, _) := fill (status_Update w (set_mode mode o)) (set_mode mode o) in applyModes modes w o true
      else applyModes modes w o touched
  end.

(** Of all objects. *)
Fixpoint applyAllModes (modes : list (string * string)) (items : list O) (w : W) (touched : bool) : W * bool :=
  match items with
  | [] => (w, touched)
  | o :: items => let '(w, _, touched) := applyModes modes w o touched in applyAllModes modes items w touched
  end.

(** Then the generation of the system counts as observed. *)
Definition observe (touched : bool) (nb : NooBaa) : NooBaa :=
  if touched then mkNooBaa (nb_meta nb) (nb_Spec nb) (set_nbst_ObservedGeneration (om_Generation (nb_meta nb)) (nb_Status nb)) else nb.
End Modes.

#[export] Instance BackingStore_moded {QA} : Moded (BackingStore QA) := {|
  mode_name bs := om_Name (bs_meta bs);
  mode_of bs := bst_ModeCode (bs_Status bs);
  set_mode m bs := mkBackingStore QA (bs_meta bs) (bs_Spec bs)
                     (mkBackingStoreStatus (bst_Phase (bs_Status bs)) (bst_Conditions (bs_Status bs)) m);
|}.
#[export] Instance NamespaceStore_moded : Moded NamespaceStore := {|
  mode_name ns := om_Name (ns_meta ns);
  mode_of ns := nst_ModeCode (ns_Status ns);
  set_mode m ns := mkNamespaceStore (ns_meta ns) (ns_Spec ns)
                     (mkNamespaceStoreStatus (nst_Phase (ns_Status ns)) (nst_Conditions (ns_Status ns)) m);
|}.
#[export] Instance BucketClass_moded : Moded BucketClass := {|
  mode_name bc := om_Name (bc_meta bc);
  mode_of bc := bcst_Mode (bc_Status bc);
  set_mode m bc := mkBucketClass (bc_meta bc) (bc_Spec bc) (mkBucketClassStatus (bcst_Phase (bc_Status bc)) (bcst_Conditions (bc_Status bc)) m);
|}.

Section Sync.
Context {QA : QuantityApi} {W N : Type} {SA : SyncApi N}.
Context {SB : ApiServer W (BackingStore QA)} {UB : StatusApi W (BackingStore QA)}.
Context {SN : ApiServer W NamespaceStore} {UN : StatusApi W NamespaceStore} {SC : ApiServer W BucketClass} {UC : StatusApi W BucketClass}.
Context {SS : ApiServer W Secret}.
(** [options.Namespace], [controllerutil.SetControllerReference], and the empty secret of
    the bundle. *)
Context (Namespace : string) (SetControllerReference : ObjectMeta → ObjectMeta → msg + ObjectMeta) (emptySecret : Secret).

Definition inNamespace {O} `{MetaObject O} (o : O) : bool := om_Namespace (meta o) == Namespace.

(** A list that fails is empty, and logged. *)
Definition UpdateBackingStoresPhase (pools : list PoolInfo) (w : W) (nb : NooBaa) : outcome (W * NooBaa) :=
  '(items, _) ← KubeList (O:=BackingStore QA) w inNamespace;
  let '(w, touched) := applyAllModes ((λ p, (pool_Name p, pool_Mode p)) <$> pools) items w false in
  Ret (w, observe touched nb).

Definition UpdateNamespaceStoresPhase (resources : list NamespaceResourceInfo) (w : W) (nb : NooBaa) : outcome (W * NooBaa) :=
  '(items, _) ← KubeList (O:=NamespaceStore) w inNamespace;
  let '(w, touched) := applyAllModes ((λ p, (nsr_Name p, nsr_Mode p)) <$> resources) items w false in
  Ret (w, observe touched nb).

(** A bucket without a tiering policy is skipped, one without a claim is of no class. *)
Definition bucketModes (buckets : list BucketMode) : list (string * string) :=
  omap (λ b, (λ mode, (default ""%string (bm_BucketClass b), mode)) <$> bm_Tiering b) buckets.

Definition UpdateBucketClassesPhase (buckets : list BucketMode) (w : W) (nb : NooBaa) : outcome (W * NooBaa) :=
  '(items, _) ← KubeList (O:=BucketClass) w inNamespace;
  let '(w, touched) := applyAllModes (bucketModes buckets) items w false in
  Ret (w, observe touched nb).

(** ** Namespace stores of the core *)

Definition signatureOf (m : CloudAuthMethod) : S3SignatureVersion :=
  match m with
  | CloudAuthMethodAwsV4 => S3SignatureVersionV4
  | CloudAuthMethodAwsV2 => S3SignatureVersionV2
  | _ => S3SignatureVersionNone
  end.

(** The specification of a resource, the name of its secret, and the credentials. *)
Definition noStoreSpec (t : NSType) : NamespaceStoreSpec := mkNamespaceStoreSpec t false "" None None None None None None.
Definition storeOfResource (nsr : NamespaceResourceInfo) (secretKey : string) : option (NamespaceStoreSpec * string * gmap string string) :=
  let secretName t := ("namespace-store-" +:+ NSType_string t +:+ "-" +:+ nsr_Name nsr)%string in
  let ref t := mkSecretReference (secretName t) Namespace in
  let aws := <["AWS_SECRET_ACCESS_KEY"%string := secretKey]> {["AWS_ACCESS_KEY_ID"%string := nsr_Identity nsr]} in
  match nsr_EndpointType nsr with
  | EndpointTypeAws => let t := NSStoreTypeAWSS3 in
      Some (mkNamespaceStoreSpec t false "" (Some (mkAWSS3Spec (nsr_TargetBucket nsr) (ref t) "" false None)) None None None None None,
            secretName t, aws)
  | EndpointTypeAzure => let t := NSStoreTypeAzureBlob in
      Some (mkNamespaceStoreSpec t false "" None None None (Some (mkAzureBlobSpec (nsr_TargetBucket nsr) (ref t) None None None None)) None None,
            secretName t, <["AccountKey"%string := secretKey]> {["AccountName"%string := nsr_Identity nsr]})
  | EndpointTypeS3Compat => let t := NSStoreTypeS3Compatible in
      Some (mkNamespaceStoreSpec t false "" None
              (Some (mkS3CompatibleSpec (nsr_TargetBucket nsr) (ref t) (nsr_Endpoint nsr) (signatureOf (nsr_AuthMethod nsr)))) None None None None,
            secretName t, aws)
  | EndpointTypeIBMCos => let t := NSStoreTypeIBMCos in
      Some (mkNamespaceStoreSpec t false "" None None
              (Some (mkIBMCosSpec (nsr_TargetBucket nsr) (ref t) (nsr_Endpoint nsr) (signatureOf (nsr_AuthMethod nsr)))) None None None,
            secretName t, aws)
  | _ => None
  end.

(** [util.Panic(controllerutil.SetControllerReference(...))]. *)
Definition controlled {O} `{MetaObject O} (owner : ObjectMeta) (o : O) : outcome O :=
  match SetControllerReference owner (meta o) with inl m => Panic (Panicked m) | inr m => Ret (set_meta m o) end.

(** The secret of a store that was just made, and whether it is there. *)
Definition syncSecret (w : W) (owner : ObjectMeta) (secret : Secret) : outcome (W * bool) :=
  '(secret, found) ← KubeCheck w secret;
  if (found : bool) then Ret (w, true)
  else
    secret ← controlled owner secret;
    '(w, _, created) ← KubeCreateFailExisting w secret;
    Ret (w, created).

(** One resource; whatever fails is logged, and the next one is looked at. *)
Definition syncResource (nb : NooBaa) (w : W) (n : N) (nsr : NamespaceResourceInfo) : outcome (W * N) :=
  let nsStore := mkNamespaceStore (named Namespace (nsr_Name nsr)) (noStoreSpec (NSStoreTypeOther ""))
                   (mkNamespaceStoreStatus NamespaceStorePhaseNone [] "") in
  '(nsStore, found) ← KubeCheck w nsStore;
  if (found : bool) then Ret (w, n)
  else match ReadNamespaceResourceOperatorInfoAPI n (nsr_Name nsr) with
  | inl _ => Ret (w, n)
  | inr info =>
      if negb (nroi_NeedK8sSync info) then Ret (w, n)
      else match storeOfResource nsr (nroi_SecretKey info) with
      | None => Ret (w, n)
      | Some (spec, secretName, data) =>
          let secret := mkSecret (set_om_Name secretName (set_om_Namespace Namespace (sec_meta emptySecret))) (Some data) None in
          nsStore ← controlled (nb_meta nb) (mkNamespaceStore (ns_meta nsStore) spec (ns_Status nsStore));
          '(w, nsStore, created) ← KubeCreateFailExisting w nsStore;
          if negb created then Ret (w, n)
          else
            '(w, secretReady) ← syncSecret w (ns_meta nsStore) secret;
            if negb secretReady then Ret (w, n)
            else let '(n, _) := SetNamespaceStoreInfoAPI n (nsr_Name nsr) Namespace in Ret (w, n)
      end
  end.

Fixpoint ReconcileNamespaceStores (nb : NooBaa) (w : W) (n : N) (resources : list NamespaceResourceInfo) : outcome (W * N) :=
  match resources with
  | [] => Ret (w, n)
  | nsr :: resources => '(w, n) ← syncResource nb w n nsr; ReconcileNamespaceStores nb w n resources
  end.

(** The version of the core is kept in the reconciler. *)
Definition ReconcileReadSystem (joined : bool) (w : W) (n : N) (nb : NooBaa) (CoreVersion : string) :
    outcome (W * N * NooBaa * string * option error) :=
  if joined then Ret (w, n, nb, CoreVersion, None)
  else match ReadSystemAPI n with
  | inl e => Ret (w, n, nb, CoreVersion, Some e)
  | inr systemInfo =>
      '(w, n) ← (match sr_NamespaceResources systemInfo with [] => Ret (w, n) | resources => ReconcileNamespaceStores nb w n resources end);
      '(w, nb) ← UpdateBackingStoresPhase (sr_Pools systemInfo) w nb;
      '(w, nb) ← UpdateNamespaceStoresPhase (sr_NamespaceResources systemInfo) w nb;
      '(w, nb) ← UpdateBucketClassesPhase (sr_Buckets systemInfo) w nb;
      Ret (w, n, nb, sr_Version systemInfo, None)
  end.
End Sync.

(** ** Facts: modes *)

Class ModedLaws (W O : Type) {MO : Moded O} {SU : StatusApi W O} : Prop := {
  mode_set m (o : O) : mode_of (set_mode m o) = m ∧ mode_name (set_mode m o) = mode_name o;
  (** The server keeps the name and the status that it is given. *)
  status_kept (w : W) (o : O) w' o' : status_Update w o = (w', inr o') → mode_of o' = mode_of o ∧ mode_name o' = mode_name o;
}.

(** The mode that counts: that of the last entry with the name. *)
Definition lastMode (name : string) (modes : list (string * string)) (mode : string) : string :=
  foldl (λ mode e, if e.1 == name then e.2 else mode) mode modes.

Section ModeFacts.
Context {W O : Type} {MO : Moded O} {SU : StatusApi W O} {ML : ModedLaws W O}.

Lemma applyModes_final modes (w : W) (o : O) touched w' o' touched' :
  applyModes modes w o touched = (w', o', touched') → mode_name o' = mode_name o ∧ mode_of o' = lastMode (mode_name o) modes (mode_of o).
Proof.
  revert w o touched. induction modes as [|[name mode] modes IH]; intros w o touched; cbn; [by intros [= <- <- <-]|].
  case_bool_decide as Hn; cbn; [|by apply IH]. case_bool_decide as Hm; cbn.
  - intros H. apply IH in H as [-> ->]. by subst.
  - destruct (mode_set (W:=W) mode o) as [Hmode Hname]. unfold fill.
    destruct (status_Update w (set_mode mode o)) as [w1 [e|o1]] eqn:Hs; intros H; apply IH in H as [-> ->].
    + by rewrite Hname, Hmode.
    + apply status_kept in Hs as [-> ->]. by rewrite Hname, Hmode.
Qed.

End ModeFacts.

Section QuietFacts.
Context {W O : Type} {MO : Moded O} {SU : StatusApi W O}.

(** An object whose mode is right is not written. *)
Lemma applyModes_quiet modes (w : W) (o : O) touched :
  (∀ m, (mode_name o, m) ∈ modes → m = mode_of o) → applyModes modes w o touched = (w, o, touched).
Proof.
  induction modes as [|[name mode] modes IH]; intros Hm; cbn; [done|].
  case_bool_decide as Hn; cbn; [|apply IH; set_solver]. rewrite (bool_decide_eq_true_2 (mode_of o = mode)); [apply IH; set_solver|].
  symmetry. apply Hm. subst. by left.
Qed.

Lemma applyAllModes_quiet modes (items : list O) (w : W) touched :
  (∀ o m, o ∈ items → (mode_name o, m) ∈ modes → m = mode_of o) → applyAllModes modes items w touched = (w, touched).
Proof.
  induction items as [|o items IH]; intros Hm; cbn; [done|]. rewrite applyModes_quiet by (intros m; apply Hm; by left).
  apply IH. intros x m Hx. apply Hm. by right.
Qed.
End QuietFacts.

(** ** Facts: the stores *)

Section SyncFacts.
Context {QA : QuantityApi} {W N : Type} {SA : SyncApi N}.
Context {SB : ApiServer W (BackingStore QA)} {UB : StatusApi W (BackingStore QA)}.
Context {SN : ApiServer W NamespaceStore} {UN : StatusApi W NamespaceStore} {SC : ApiServer W BucketClass} {UC : StatusApi W BucketClass}.
Context {SS : ApiServer W Secret}.
Context (Namespace : string) (SetControllerReference : ObjectMeta → ObjectMeta → msg + ObjectMeta) (emptySecret : Secret).

(** A reconcile that finds every pool in the mode of its store writes nothing, and the
    generation of the system stays unobserved. *)
Theorem UpdateBackingStoresPhase_quiet pools (w : W) nb items found :
  KubeList (O:=BackingStore QA) w (inNamespace Namespace) = Ret (items, found) →
  (∀ bs p, bs ∈ items → p ∈ pools → pool_Name p = om_Name (bs_meta bs) → pool_Mode p = bst_ModeCode (bs_Status bs)) →
  UpdateBackingStoresPhase Namespace pools w nb = Ret (w, nb).
Proof.
  intros Hl Hm. unfold UpdateBackingStoresPhase. rewrite Hl. cbn. rewrite applyAllModes_quiet; [done|].
  intros bs m Hbs Hin. apply list_elem_of_fmap in Hin as (p & [= Hn ->] & Hp). by apply (Hm bs p).
Qed.

Section Stores.
Context {AN : ApiLaws W NamespaceStore NamespaceStoreSpec} (payload_spec : ∀ ns, payload ns = ns_Spec ns).
(** What a secret holds: its strings, written over its data. *)
Definition secretContents (s : Secret) : gmap string string := default ∅ (sec_StringData s) ∪ default ∅ (sec_Data s).
Context {AS : ApiLaws W Secret (gmap string string)} (payload_contents : ∀ s, payload s = secretContents s).
(** The server keeps the kinds apart. *)
Context (Create_secret_stores : ∀ (w : W) (s : Secret) w' res k, srv_Create w s = (w', res) → srv_Get (O:=NamespaceStore) w' k = srv_Get w k).
Context (Create_store_secrets : ∀ (w : W) (s : NamespaceStore) w' res k, srv_Create w s = (w', res) → srv_Get (O:=Secret) w' k = srv_Get w k).
(** An owner reference leaves the name alone. *)
Context (reference_key : ∀ owner m m', SetControllerReference owner m = inr m' → om_Name m' = om_Name m ∧ om_Namespace m' = om_Namespace m).
(** The core keeps the resources apart. *)
Context (info_others : ∀ n r ns name, name ≠ r →
  ReadNamespaceResourceOperatorInfoAPI (SetNamespaceStoreInfoAPI n r ns).1 name = ReadNamespaceResourceOperatorInfoAPI n name).

Definition resourceKey (nsr : NamespaceResourceInfo) : ObjectKeyT := (Namespace, nsr_Name nsr).

(** The secret that a new store refers to: one that was there stays as it was, else it holds
    the credentials of the resource, or there is none, and then the core was not told of
    the store. *)
Definition credentialed (w : W) (n : N) (w' : W) (n' : N) (name secretName : string) (data : gmap string string) : Prop :=
  match srv_Get (O:=Secret) w (Namespace, secretName) with
  | inr s => srv_Get w' (Namespace, secretName) = inr s
  | inl _ =>
      (∃ s : Secret, srv_Get w' (Namespace, secretName) = inr s ∧ secretContents s = data) ∨
      (∃ e, srv_Get (O:=Secret) w' (Namespace, secretName) = inl e) ∧
      ReadNamespaceResourceOperatorInfoAPI n' name = ReadNamespaceResourceOperatorInfoAPI n name
  end.

(** The store of one of the resources appeared, of one for which the core asked for it, with
    the specification of the resource and with its secret. *)
Definition synced (w : W) (n : N) (w' : W) (n' : N) (resources : list NamespaceResourceInfo) (k : ObjectKeyT) : Prop :=
  (∃ e, srv_Get (O:=NamespaceStore) w k = inl e) ∧
  ∃ nsr info ns secretName data, nsr ∈ resources ∧ k = resourceKey nsr ∧
    ReadNamespaceResourceOperatorInfoAPI n (nsr_Name nsr) = inr info ∧ nroi_NeedK8sSync info = true ∧
    srv_Get w' k = inr ns ∧ storeOfResource Namespace nsr (nroi_SecretKey info) = Some (ns_Spec ns, secretName, data) ∧
    credentialed w n w' n' (nsr_Name nsr) secretName data.

(** The names of the secrets tell the resources apart. *)
Lemma storeOfResource_secret nsr1 k1 spec1 data1 nsr2 k2 spec2 data2 secretName :
  storeOfResource Namespace nsr1 k1 = Some (spec1, secretName, data1) →
  storeOfResource Namespace nsr2 k2 = Some (spec2, secretName, data2) → nsr_Name nsr1 = nsr_Name nsr2.
Proof.
  unfold storeOfResource. destruct (nsr_EndpointType nsr1); try done; intros [= _ <- _];
    destruct (nsr_EndpointType nsr2); try done; intros H; injection H; intros; simplify_eq; try done.
Qed.

Lemma Create_frame {O O'} `{ApiServer W O} `{ApiServer W O'}
    (Hframe : ∀ w (o : O) w' res k, srv_Create w o = (w', res) → srv_Get (O:=O') w' k = srv_Get w k) w (o o1 : O) w' b k :
  KubeCreateFailExisting w o = Ret (w', o1, b) → srv_Get (O:=O') w' k = srv_Get w k.
Proof.
  unfold KubeCreateFailExisting, kubeCreateSkipOrFailExisting, KubeGet, fill.
  destruct (srv_Get w (ObjectKey o)) as [e|y]; cbn; [|by intros [= <- <- <-]].
  destruct (srv_Create w o) as [w1 [e1|y1]] eqn:Hc; cbn; repeat case_match; intros; simplify_eq; try done; by eapply Hframe.
Qed.

Lemma controlled_meta {O} `{MetaObject O} owner (o o' : O) :
  controlled SetControllerReference owner o = Ret o' →
  ∃ m, o' = set_meta m o ∧ om_Name m = om_Name (meta o) ∧ om_Namespace m = om_Namespace (meta o).
Proof.
  unfold controlled. destruct (SetControllerReference owner (meta o)) as [m|m] eqn:E; [done|]. intros [= <-].
  exists m. split; [done|]. by eapply reference_key.
Qed.

Lemma syncSecret_spec w owner secret w' ready :
  syncSecret SetControllerReference w owner secret = Ret (w', ready) →
  (∀ k, srv_Get (O:=NamespaceStore) w' k = srv_Get w k) ∧
  (∀ k, k ≠ ObjectKey secret → srv_Get (O:=Secret) w' k = srv_Get w k) ∧
  match srv_Get (O:=Secret) w (ObjectKey secret) with
  | inr s => srv_Get w' (ObjectKey secret) = inr s
  | inl _ => (∃ s : Secret, srv_Get w' (ObjectKey secret) = inr s ∧ secretContents s = secretContents secret) ∨ w' = w ∧ ready = false
  end.
Proof.
  unfold syncSecret. destruct (KubeCheck w secret) as [[s [|]]|] eqn:Hc; cbn; [| |done].
  { intros [= <- <-]. apply KubeCheck_true in Hc as (y & Hy & _). change (srv_Get w (ObjectKey secret) = inr y) in Hy. by rewrite Hy. }
  apply KubeCheck_false in Hc as [-> [e He]]. change (srv_Get (O:=Secret) w (ObjectKey secret) = inl e) in He. rewrite He.
  destruct (controlled _ owner secret) as [s2|] eqn:Ho; cbn; [|done]. apply controlled_meta in Ho as (m & -> & Hn & Hns).
  assert (Hk : ObjectKey (set_meta m secret) = ObjectKey secret) by (unfold ObjectKey; cbn in *; by rewrite Hn, Hns).
  destruct (KubeCreateFailExisting w _) as [[[w1 s3] b]|] eqn:Hcr; cbn; [|done]. intros [= <- <-].
  split; [intros k; by apply (Create_frame Create_secret_stores _ _ _ _ _ k Hcr)|].
  pose proof (kubeCreateSkipOrFailExisting_spec _ _ _ _ _ _ Hcr) as Hspec.
  unfold stored in Hspec. change (@ObjectKey Secret ko_meta) with (@ObjectKey Secret Secret_MetaObject) in Hspec. rewrite Hk in Hspec.
  destruct Hspec as [([x Hx] & _)|[(_ & _ & Hst & Hpay & Hfr)|(_ & -> & -> & _)]].
  - congruence.
  - split; [done|]. left. exists s3. split; [done|]. by rewrite !payload_contents in Hpay.
  - split; [done|]. by right.
Qed.

(** One resource: nothing happens, or its store is made, its secret if it is missing, and
    the core is told unless that failed. *)
Lemma syncResource_spec nb w n nsr w' n' :
  syncResource Namespace SetControllerReference emptySecret nb w n nsr = Ret (w', n') →
  w' = w ∧ n' = n ∨
  ∃ info ns secretName data,
    (∃ e, srv_Get (O:=NamespaceStore) w (resourceKey nsr) = inl e) ∧
    ReadNamespaceResourceOperatorInfoAPI n (nsr_Name nsr) = inr info ∧ nroi_NeedK8sSync info = true ∧
    srv_Get w' (resourceKey nsr) = inr ns ∧ (∀ k, k ≠ resourceKey nsr → srv_Get (O:=NamespaceStore) w' k = srv_Get w k) ∧
    storeOfResource Namespace nsr (nroi_SecretKey info) = Some (ns_Spec ns, secretName, data) ∧
    (∀ k, k ≠ (Namespace, secretName) → srv_Get (O:=Secret) w' k = srv_Get w k) ∧
    credentialed w n w' n' (nsr_Name nsr) secretName data ∧
    (n' = n ∨ n' = (SetNamespaceStoreInfoAPI n (nsr_Name nsr) Namespace).1).
Proof.
  unfold syncResource. set (o := mkNamespaceStore _ _ _). destruct (KubeCheck w o) as [[o' [|]]|] eqn:Hc; cbn; [intros [= <- <-]; by left| |done].
  apply KubeCheck_false in Hc as [-> He].
  destruct (ReadNamespaceResourceOperatorInfoAPI n (nsr_Name nsr)) as [e|info] eqn:Hi; [intros [= <- <-]; by left|].
  destruct (nroi_NeedK8sSync info) eqn:Hy; cbn; [|intros [= <- <-]; by left].
  destruct (storeOfResource Namespace nsr (nroi_SecretKey info)) as [[[spec secretName] data]|] eqn:Hs; [|intros [= <- <-]; by left].
  destruct (controlled SetControllerReference (nb_meta nb) _) as [o2|] eqn:Ho; cbn; [|done].
  apply controlled_meta in Ho as (m & -> & Hn & Hns). set (o2 := set_meta m _).
  assert (Hk : ObjectKey o2 = resourceKey nsr) by (unfold ObjectKey; cbn in *; by rewrite Hn, Hns).
  destruct (KubeCreateFailExisting w o2) as [[[w1 o3] b]|] eqn:Hcr; cbn; [|done].
  pose proof (kubeCreateSkipOrFailExisting_spec _ _ _ _ _ _ Hcr) as Hspec.
  unfold stored in Hspec. change (@ObjectKey NamespaceStore ko_meta) with (@ObjectKey NamespaceStore NamespaceStore_MetaObject) in Hspec.
  rewrite Hk in Hspec. destruct Hspec as [(_ & -> & _ & ->)|[(_ & -> & Hst & Hpay & Hfr)|(_ & -> & -> & _)]];
    [intros [= <- <-]; by left| |intros [= <- <-]; by left]. cbn [negb].
  pose proof (λ k, Create_frame Create_store_secrets _ _ _ _ _ k Hcr) as Hsec.
  set (secret := mkSecret _ _ _). intros Hrest. right.
  destruct (syncSecret _ w1 _ secret) as [[w2 ready]|] eqn:Hss; cbn in Hrest; [|done].
  assert (w2 = w' ∧ n' = if ready then (SetNamespaceStoreInfoAPI n (nsr_Name nsr) Namespace).1 else n) as [-> Hn']
    by (revert Hrest; destruct ready; [destruct (SetNamespaceStoreInfoAPI _ _ _)|]; by intros [= <- <-]).
  apply syncSecret_spec in Hss as (Hstores & Hothers & Hcase).
  change (ObjectKey secret) with (Namespace, secretName) in Hothers, Hcase.
  exists info, o3, secretName, data. split_and!; try done.
  - by rewrite Hstores.
  - intros k Hne. rewrite Hstores. by apply Hfr.
  - rewrite !payload_spec in Hpay. by rewrite Hpay.
  - intros k Hne. rewrite Hothers by done. apply Hsec.
  - unfold credentialed. rewrite <- Hsec. destruct (srv_Get w1 (Namespace, secretName)) as [e|s] eqn:Hg; [|done].
    destruct Hcase as [(s & Hs1 & Hs2)|[-> ->]]; [left; exists s; split; [done|]|right; split; [by eexists|by rewrite Hn']].
    rewrite Hs2. unfold secretContents. cbn. apply (right_id_L ∅ (∪)).
  - destruct ready; auto.
Qed.

(** What a step says of a resource of another name. *)
Lemma syncResource_other nb w n nsr w' n' nsr2 k2 spec2 secretName2 data2 :
  syncResource Namespace SetControllerReference emptySecret nb w n nsr = Ret (w', n') →
  storeOfResource Namespace nsr2 k2 = Some (spec2, secretName2, data2) → nsr_Name nsr2 ≠ nsr_Name nsr →
  srv_Get (O:=Secret) w' (Namespace, secretName2) = srv_Get w (Namespace, secretName2) ∧
  ReadNamespaceResourceOperatorInfoAPI n' (nsr_Name nsr2) = ReadNamespaceResourceOperatorInfoAPI n (nsr_Name nsr2).
Proof.
  intros [[-> ->]|(info & ns & sn & data & _ & _ & _ & _ & _ & Hs & Hsec & _ & Hn')]%syncResource_spec Hs2 Hne; [done|]. split.
  - apply Hsec. intros [= ->]. by eapply Hne, storeOfResource_secret.
  - destruct Hn' as [->| ->]; [done|]. by apply info_others.
Qed.

(** The store of a resource that has one is left alone, and its secret. *)
Lemma ReconcileNamespaceStores_settled nb w n resources w' n' nsr k spec secretName data :
  ReconcileNamespaceStores Namespace SetControllerReference emptySecret nb w n resources = Ret (w', n') →
  storeOfResource Namespace nsr k = Some (spec, secretName, data) →
  (∃ ns : NamespaceStore, srv_Get w (resourceKey nsr) = inr ns) →
  srv_Get (O:=NamespaceStore) w' (resourceKey nsr) = srv_Get w (resourceKey nsr) ∧
  srv_Get (O:=Secret) w' (Namespace, secretName) = srv_Get w (Namespace, secretName) ∧
  ReadNamespaceResourceOperatorInfoAPI n' (nsr_Name nsr) = ReadNamespaceResourceOperatorInfoAPI n (nsr_Name nsr).
Proof.
  intros Hr Hs. revert w n Hr. induction resources as [|x resources IH]; intros w n; cbn; [by intros [= <- <-]|].
  destruct (syncResource _ _ _ nb w n x) as [[w1 n1]|] eqn:Hx; cbn; [|done]. intros Hr [ns Hns].
  pose proof (syncResource_spec _ _ _ _ _ _ Hx) as [[-> ->]|(info & ns1 & sn1 & d1 & [e He] & _ & _ & _ & Hother & _)]; [by eauto|].
  assert (nsr_Name nsr ≠ nsr_Name x) as Hne by (intros Heq; unfold resourceKey in *; rewrite Heq, He in Hns; done).
  destruct (syncResource_other _ _ _ _ _ _ _ _ _ _ _ Hx Hs Hne) as [H1 H2].
  assert (srv_Get (O:=NamespaceStore) w1 (resourceKey nsr) = srv_Get w (resourceKey nsr)) as H3 by (apply Hother; intros [= ?]; done).
  destruct (IH w1 n1 Hr) as (-> & -> & ->); [exists ns; by rewrite H3|done].
Qed.

(** C38: [ReconcileNamespaceStores] changes no namespace store that exists: a store is as it
    was, or it is a new one, of a resource for which the core asked for it, with the
    specification of the resource.  The secret to which that refers is the one that was
    there before, unchanged, or holds the credentials of the resource; only when it could
    not be created is there none, and then the core is not told of the store, though the
    store stays. *)
Theorem ReconcileNamespaceStores_only_creates nb w n resources w' n' k :
  ReconcileNamespaceStores Namespace SetControllerReference emptySecret nb w n resources = Ret (w', n') →
  srv_Get (O:=NamespaceStore) w' k = srv_Get w k ∨ synced w n w' n' resources k.
Proof.
  revert w n. induction resources as [|x resources IH]; intros w n; cbn; [intros [= <- <-]; by left|].
  destruct (syncResource _ _ _ nb w n x) as [[w1 n1]|] eqn:Hx; cbn; [|done]. intros Hr.
  pose proof (syncResource_spec _ _ _ _ _ _ Hx) as
    [[-> ->]|(info & ns & sn & data & [e He] & Hi & Hy & Hns & Hother & Hs & _ & Hcred & _)].
  { destruct (IH w n Hr) as [?|[He (nsr & Hnsr)]]; [by left|right; split; [done|]]. set_solver. }
  destruct (decide (k = resourceKey x)) as [->|Hk].
  - right. split; [eauto|]. destruct (ReconcileNamespaceStores_settled _ _ _ _ _ _ _ _ _ _ _ Hr Hs) as (H1 & H2 & H3); [eauto|].
    exists x, info, ns, sn, data. split_and!; try done; [by left|by rewrite H1|]. unfold credentialed. by rewrite H2, H3.
  - destruct (IH w1 n1 Hr) as [H|[He' (nsr & info' & ns' & sn' & data' & Hin & -> & Hi' & Hy' & Hns' & Hs' & Hcred')]];
      [left; rewrite H; by apply Hother|right]. rewrite Hother in He' by done. split; [done|].
    assert (nsr_Name nsr ≠ nsr_Name x) as Hne by (intros Heq; apply Hk; unfold resourceKey; by rewrite Heq).
    destruct (syncResource_other _ _ _ _ _ _ _ _ _ _ _ Hx Hs' Hne) as [H1 H2].
    exists nsr, info', ns', sn', data'. unfold credentialed in *. rewrite H1, H2 in Hcred'. rewrite H2 in Hi'.
    split_and!; try done. by right.
Qed.
End Stores.
End SyncFacts.
