(* ===== verification/Workloads.v ===== *)
(** * The pods of a system: [pkg/system/phase2_creating.go], [pkg/system/phase4_configuring.go].

    The stateful set of the core and the deployment of the endpoints: what the reconcilers
    make of their pods, from the defaults of the bundle and from the specification of the
    system: the environment of the containers, their volumes and mounts, and the volumes of
    the namespace stores on file systems.  The JSON of the agent profile, and whether the
    cluster knows the policy for tainted nodes, are parameters. *)

From Stdlib Require Import Ascii.
From stdpp Require Import pretty.
From S2P Require Import Prelude GoStrings GoUrl Types Kube Util Tls NamespaceStoreValidation Profiles AlertSilencer SystemServices CoreHa SystemSecrets.
From S2P Require DbCluster.

(** ** Pods *)

Inductive VolumeSource :=
  | SecretVolume (SecretName : string) (Optional : option bool)
  | ConfigMapVolume (Name : string) (Items : list (string * string))
  | ClaimVolume (ClaimName : string)
  | OtherVolume.
Record PodVolume := mkPodVolume { pvl_Name : string; pvl_Source : VolumeSource }.
Record PodMount := mkPodMount { pm_Name : string; pm_MountPath : string; pm_SubPath : string; pm_ReadOnly : bool }.
Record ContainerPort := mkContainerPort { ctp_Name : string; ctp_ContainerPort : Z; ctp_Protocol : string }.
(** A probe of a TCP port. *)
Record Probe := mkProbe { prb_Port : Z; prb_InitialDelaySeconds : Z; prb_TimeoutSeconds : Z }.

Record Container {QA : QuantityApi} := mkContainer {
  ct_Name : string;
  ct_Image : string;
  ct_Command : list string;
  ct_Env : list EnvVar;
  ct_Resources : ResourceRequirements QA;
  ct_VolumeMounts : list PodMount;
  ct_Ports : list ContainerPort;
  ct_ReadinessProbe : option Probe;
  ct_Capabilities : option (list string);
}.
Arguments Container QA : clear implicits.
Arguments mkContainer {QA}.

Record TopologySpreadConstraint := mkTopologySpreadConstraint {
  tsc_MaxSkew : Z;
  tsc_TopologyKey : string;
  tsc_WhenUnsatisfiable : string;
  tsc_NodeTaintsPolicy : option string;
  tsc_MatchLabels : gmap string string;
}.
(** The user and the group. *)
Record PodSecurityContext := mkPodSecurityContext { psc_RunAsUser : option Z; psc_RunAsGroup : option Z }.

Record PodSpec {QA : QuantityApi} := mkPodSpec {
  pod_InitContainers : list (Container QA);
  pod_Containers : list (Container QA);
  pod_Volumes : list PodVolume;
  pod_Tolerations : option (list Toleration);
  pod_Affinity : option Affinity;
  pod_PriorityClassName : string;
  pod_ImagePullSecrets : list string;
  pod_SecurityContext : option PodSecurityContext;
  pod_ServiceAccountName : string;
  pod_TopologySpreadConstraints : list TopologySpreadConstraint;
  pod_TerminationGracePeriodSeconds : option Z;
}.
Arguments PodSpec QA : clear implicits.
Arguments mkPodSpec {QA}.

(** A stateful set or a deployment; [wk_MatchLabels] is the map of its selector. *)
Record Workload {QA : QuantityApi} := mkWorkload {
  wk_meta : ObjectMeta;
  wk_MatchLabels : option (gmap string string);
  wk_Labels : option (gmap string string);
  wk_Annotations : option (gmap string string);
  wk_Replicas : option Z;
  wk_ServiceName : string;
  wk_UpdateStrategy : string;
  wk_Pod : PodSpec QA;
  wk_StatusReplicas : Z;
  wk_AvailableReplicas : Z;
  wk_ReadyReplicas : Z;
  wk_Conditions : list string;      (* the statuses *)
}.
Arguments Workload QA : clear implicits.
Arguments mkWorkload {QA}.
#[export, refine] Instance Workload_MetaObject {QA} : MetaObject (Workload QA) :=
  {| meta := wk_meta;
     set_meta := λ m w, mkWorkload m (wk_MatchLabels w) (wk_Labels w) (wk_Annotations w) (wk_Replicas w) (wk_ServiceName w) (wk_UpdateStrategy w)
       (wk_Pod w) (wk_StatusReplicas w) (wk_AvailableReplicas w) (wk_ReadyReplicas w) (wk_Conditions w) |}.
Proof. done. Defined.
#[export, refine] Instance Workload_KubeObject {QA} : KubeObject (Workload QA) := {| resetStringData := id |}.
Proof. done. Defined.

#[export, refine] Instance ConfigMap_MetaObject : MetaObject ConfigMap := {| meta := cm_meta; set_meta := λ m c, mkConfigMap m (cm_Data c) |}.
Proof. done. Defined.
#[export, refine] Instance ConfigMap_KubeObject : KubeObject ConfigMap := {| resetStringData := id |}.
Proof. done. Defined.

(** ** The reconciler *)

Record WorkloadSystem {QA : QuantityApi} := mkWorkloadSystem {
  wl_NooBaa : NooBaa;
  wl_RequestName : string;
  wl_RequestNamespace : string;
  wl_JoinSecret : option Secret;
  wl_ServiceMgmt : Service;
  wl_ServiceS3 : Service;
  wl_ServiceSyslog : Service;
  wl_CoreAppConfig : ConfigMap;
  wl_DefaultCoreApp : PodSpec QA;
  wl_DefaultDeploymentEndpoint : PodSpec QA;
  wl_CNPGCluster : string;                         (* its name *)
  wl_NooBaaPostgresDB : ObjectMeta * string;       (* and the name of its service *)
  wl_SecretDB : string;
  wl_SecretRootMasterKey : string;
  wl_SecretRootMasterMap : Secret;
  wl_CaBundleConf : ConfigMap;
  wl_ExternalPgSecret : option Secret;
  wl_ExternalPgSSLSecret : option Secret;
  wl_SecretOIDCKeyCloakConfig : Secret;
  wl_BucketLoggingVolume : string;
  wl_BucketLoggingVolumeMount : string;
  wl_BucketLoggingPVC : string;
  wl_BucketNotificationsPVC : string;
  wl_OAuthEndpoints : option (string * string);    (* for authorization, and for tokens *)
  wl_ApplyCAsToPods : string;
  wl_CoreLease : string;
}.
Arguments WorkloadSystem QA : clear implicits.
Arguments mkWorkloadSystem {QA}.

Definition postgresSecretMountPath : string := "/etc/postgres-secret".
Definition notificationsVolume : string := "notif-vol".
Definition SkipTopologyConstraints : string := "noobaa.io/skip_topology_spread_constraints".

Definition shouldReconcileStandaloneDB (nb : NooBaa) : bool := isNil (nbs_DBSpec (nb_Spec nb)) && isNil (nbs_ExternalPgSecret (nb_Spec nb)).

(** The agent profile is a JSON object. *)
Class AgentProfileJson : Type := {
  JsonValue : Type;
  json_text : string → JsonValue;
  (** What the map has after [json.Unmarshal], whose error is logged only. *)
  profile_Unmarshal : string → gmap string JsonValue;
  profile_Marshal : gmap string JsonValue → msg + string;
}.

(** [net.SplitHostPort]. *)
Definition has (s : string) (a : ascii) : bool := (Cut s a).2.
Definition SplitHostPort (hostport : string) : option (string * string) :=
  match hostport with
  | String "[" rest =>
      let '(host, rest, found) := Cut rest "]" in
      match rest with
      | String ":" port =>
          if negb found || has host "[" || has port "[" || has port "]" || has port ":" then None else Some (host, port)
      | _ => None
      end
  | _ =>
      let '(host, port, found) := Cut hostport ":" in
      if negb found || has port ":" || has hostport "[" || has hostport "]" then None else Some (host, port)
  end.

(** ** The environment *)

Section Environment.
Context {QA : QuantityApi} `{AuthoritySyntax} {AP : AgentProfileJson} (Getenv : string → string).
Implicit Types (r : WorkloadSystem QA) (e : EnvVar).

Definition SetDesiredAgentProfile r (profileString : string) : outcome string :=
  let agentProfile := <["image"%string := json_text (nbst_ActualImage (nb_Status (wl_NooBaa r)))]> (profile_Unmarshal profileString) in
  let agentProfile :=
    match nbs_PVPoolDefaultStorageClass (nb_Spec (wl_NooBaa r)) with
    | Some storageClass => <["storage_class"%string := json_text storageClass]> agentProfile
    | None => delete "storage_class"%string agentProfile
    end in
  match profile_Marshal agentProfile with inl m => Panic (Panicked m) | inr s => Ret s end.

(** A [ValueFrom] of a key of a secret; names of secrets have no slash. *)
Definition secretKeyRef (secret key : string) : option string := Some (secret +:+ "/" +:+ key).
Definition cleared e : EnvVar := mkEnvVar (ev_Name e) "" None.

(** The credentials of the database: from its secret, or as files. *)
Definition dbCredential r (key : string) e : EnvVar :=
  if shouldReconcileStandaloneDB (wl_NooBaa r) then mkEnvVar (ev_Name e) "" (secretKeyRef (wl_SecretDB r) key)
  else if shouldReconcileCNPGCluster (wl_NooBaa r) then cleared e
  else set_ev_Value "" e.

Definition guaranteedLogs r : string :=
  match bl_LoggingType (nbs_BucketLogging (nb_Spec (wl_NooBaa r))) with
  | BucketLoggingTypeGuaranteed => wl_BucketLoggingVolumeMount r
  | _ => ""
  end.
Definition notificationLogs r : string :=
  if bn_Enabled (nbs_BucketNotifications (nb_Spec (wl_NooBaa r))) then "/var/logs/notifications" else "".
Definition providerMode r : string :=
  let '(value, found) := GetAnnotationValue (om_Annotations (nb_meta (wl_NooBaa r))) "MulticloudObjectGatewayProviderMode" in
  if found && (ToLower value == "true") then "true" else "false".

Definition coreVariable r e : outcome EnvVar :=
  let spec := nb_Spec (wl_NooBaa r) in
  let cnpg := shouldReconcileCNPGCluster (wl_NooBaa r) in
  let var name := ev_Name e == name in
  let set v := Ret (set_ev_Value v e) in
  if var "AGENT_PROFILE"%string then v ← SetDesiredAgentProfile r (ev_Value e); set v
  else if var "POSTGRES_HOST"%string then
    if shouldReconcileStandaloneDB (wl_NooBaa r) then
      let '(m, service) := wl_NooBaaPostgresDB r in set (om_Name m +:+ "-0." +:+ service +:+ "." +:+ om_Namespace m +:+ ".svc")
    else Ret (cleared e)
  else if var "POSTGRES_HOST_RO"%string then if cnpg then set (wl_CNPGCluster r +:+ "-ro") else Ret e
  else if var "DB_TYPE"%string then set "postgres"%string
  else if var "OAUTH_AUTHORIZATION_ENDPOINT"%string then match wl_OAuthEndpoints r with Some (a, _) => set a | None => Ret e end
  else if var "OAUTH_TOKEN_ENDPOINT"%string then match wl_OAuthEndpoints r with Some (_, t) => set t | None => Ret e end
  else if var "POSTGRES_USER"%string then Ret (dbCredential r "user" e)
  else if var "POSTGRES_PASSWORD"%string then Ret (dbCredential r "password" e)
  else if var "POSTGRES_CONNECTION_STRING"%string then Ret (cleared e)
  else if var "POSTGRES_SSL_REQUIRED"%string then if nbs_ExternalPgSSLRequired spec || cnpg then set "true"%string else Ret e
  else if var "POSTGRES_SSL_UNAUTHORIZED"%string then if nbs_ExternalPgSSLUnauthorized spec || cnpg then set "true"%string else Ret e
  else if var "POSTGRES_DBNAME_PATH"%string then set (postgresSecretMountPath +:+ "/dbname")
  else if var "POSTGRES_PASSWORD_PATH"%string then set (postgresSecretMountPath +:+ "/password")
  else if var "POSTGRES_PORT_PATH"%string then set (postgresSecretMountPath +:+ "/port")
  else if var "POSTGRES_USER_PATH"%string then set (postgresSecretMountPath +:+ "/username")
  else if var "POSTGRES_HOST_PATH"%string then set (postgresSecretMountPath +:+ "/host")
  else if var "POSTGRES_CONNECTION_STRING_PATH"%string then
    Ret (match wl_ExternalPgSecret r with
         | Some _ => mkEnvVar (ev_Name e) (postgresSecretMountPath +:+ "/db_url") None
         | None => cleared e
         end)
  else if var "NODE_EXTRA_CA_CERTS"%string then set (wl_ApplyCAsToPods r)
  else if var "GUARANTEED_LOGS_PATH"%string then set (guaranteedLogs r)
  else if var "RESTRICT_RESOURCE_DELETION"%string then set (providerMode r)
  else if var "NOOBAA_CORE_LEASE_NAME"%string then set (wl_CoreLease r)
  else if var "NOTIFICATION_LOG_DIR"%string then set (notificationLogs r)
  else Ret e.

(** The root secret is not passed in the environment any more. *)
Definition setDesiredCoreEnv r (env : list EnvVar) : outcome (list EnvVar) :=
  env ← mapM (coreVariable r) (filter (λ e, ev_Name e ≠ "NOOBAA_ROOT_SECRET"%string) env);
  Ret (ApplyTLSEnvVars Getenv env (sec_APIServerSecurity (nbs_Security (nb_Spec (wl_NooBaa r))))).

(** The hosts of addresses; malformed ones are left out. *)
Definition hostsOf (addresses : list string) : list string :=
  omap (λ addr, match Parse addr with inr u => fst <$> SplitHostPort (u_Host u) | inl _ => None end) addresses.
Definition virtualHosts r : outcome (list string) :=
  services ← deref (nbst_Services (nb_Status (wl_NooBaa r)));
  let s3 := svcs_ServiceS3 services in
  Ret (hostsOf (svs_InternalDNS s3) ++ hostsOf (svs_ExternalDNS s3) ++
       match nbs_Endpoints (nb_Spec (wl_NooBaa r)) with Some e => eps_AdditionalVirtualHosts e | None => [] end).

(** An address of the core: of a service, or of the join secret. *)
Definition coreAddress r (scheme : string) (srv : Service) (port key : string) : string :=
  match wl_JoinSecret r with
  | None => scheme +:+ "://" +:+ om_Name (svc_meta srv) +:+ "." +:+ wl_RequestNamespace r +:+ ".svc:" +:+ pretty (sp_Port (FindPortByName srv port))
  | Some secret => map_get (sec_StringData secret) key
  end.

Definition endpointVariable r e : outcome EnvVar :=
  let var name := ev_Name e == name in
  let set v := Ret (set_ev_Value v e) in
  if var "MGMT_ADDR"%string then set (coreAddress r "wss" (wl_ServiceMgmt r) "mgmt-https" "mgmt_addr")
  else if var "SYSLOG_ADDR"%string then set (coreAddress r "udp" (wl_ServiceSyslog r) "syslog" "syslog")
  else if var "BG_ADDR"%string then set (coreAddress r "wss" (wl_ServiceMgmt r) "bg-https" "bg_addr")
  else if var "MD_ADDR"%string then set (coreAddress r "wss" (wl_ServiceS3 r) "md-https" "md_addr")
  else if var "HOSTED_AGENTS_ADDR"%string then set (coreAddress r "wss" (wl_ServiceMgmt r) "hosted-agents-https" "hosted_agents_addr")
  else if var "LOCAL_MD_SERVER"%string || var "LOCAL_N2N_AGENT"%string then if isNil (wl_JoinSecret r) then set "true"%string else Ret e
  else if var "VIRTUAL_HOSTS"%string then hosts ← virtualHosts r; set (Join hosts " ")
  else if var "ENDPOINT_GROUP_ID"%string then set (om_UID (nb_meta (wl_NooBaa r)))
  else if var "REGION"%string then set (default ""%string (nbs_Region (nb_Spec (wl_NooBaa r))))
  else if var "NODE_EXTRA_CA_CERTS"%string then set (wl_ApplyCAsToPods r)
  else if var "GUARANTEED_LOGS_PATH"%string then set (guaranteedLogs r)
  else if var "NOTIFICATION_LOG_DIR"%string then set (notificationLogs r)
  else Ret e.
End Environment.

Definition reflectProxies (LookupEnv : string → option string) (env : list EnvVar) : list EnvVar :=
  foldl (ReflectEnvVariable LookupEnv) env ["HTTP_PROXY"; "HTTPS_PROXY"; "NO_PROXY"]%string.

(** ** Volumes and mounts *)

(** The volumes of a pod, with the mounts and the environment of one container. *)
Record Mounts := mkMounts { mn_Volumes : list PodVolume; mn_VolumeMounts : list PodMount; mn_Env : list EnvVar }.
Definition mergeVolume (v : PodVolume) (m : Mounts) : Mounts :=
  mkMounts (MergeByName pvl_Name (mn_Volumes m) [v]) (mn_VolumeMounts m) (mn_Env m).
Definition mergeMount (x : PodMount) (m : Mounts) : Mounts :=
  mkMounts (mn_Volumes m) (MergeByName pm_Name (mn_VolumeMounts m) [x]) (mn_Env m).
(** A volume, and its mount. *)
Definition attach (v : PodVolume) (path : string) (readOnly : bool) (m : Mounts) : Mounts :=
  mergeMount (mkPodMount (pvl_Name v) path "" readOnly) (mergeVolume v m).

Definition secretVolume (name : string) : PodVolume := mkPodVolume name (SecretVolume name None).
Definition caBundleVolume (name : string) : PodVolume := mkPodVolume name (ConfigMapVolume name [("ca-bundle.crt", "ca-bundle.crt")%string]).
Definition rootKeysPath : string := "/etc/noobaa-server/root_keys".
Definition caBundlePath : string := "/etc/ocp-injected-ca-bundle".
Definition notificationsPath : string := "/var/logs/notifications".

Section Pods.
Context {QA : QuantityApi} `{AuthoritySyntax} {AP : AgentProfileJson} (Getenv : string → string) (LookupEnv : string → option string).
Context {W : Type} {SS : ApiServer W Secret} {SM : ApiServer W ConfigMap} {SN : ApiServer W NamespaceStore} {SD : ApiServer W (Workload QA)}.
(** [options.Namespace] and [options.OperatorImage], the operator deployment of the bundle,
    the version check of the cluster, and the resources of the specification. *)
Context (Namespace OperatorImage : string) (operatorDeployment : ObjectMeta) (HasNodeInclusionPolicy : bool).
Context (coreOverride logOverride endpointOverride : option (ResourceRequirements QA)).
Implicit Types (w : W) (r : WorkloadSystem QA) (m : Mounts) (ns : NamespaceStore).

(** The secret of the database: the name of its volume, and its own. *)
Definition dbSecret r : option (string * string) :=
  if shouldReconcileCNPGCluster (wl_NooBaa r) then Some (wl_CNPGCluster r, wl_CNPGCluster r +:+ "-app")
  else (λ s, (sr_Name s, sr_Name s)) <$> nbs_ExternalPgSecret (nb_Spec (wl_NooBaa r)).
Definition mountDb r m : Mounts :=
  match dbSecret r with Some (name, _) => mergeMount (mkPodMount name postgresSecretMountPath "" true) m | None => m end.
Definition dbVolume r m : Mounts :=
  match dbSecret r with Some (name, secret) => mergeVolume (mkPodVolume name (SecretVolume secret None)) m | None => m end.

(** The certificates that are in the cluster, and not empty. *)
Definition caBundle w r : outcome (option string) :=
  '(conf, found) ← KubeCheckQuiet w (wl_CaBundleConf r);
  Ret (if found && negb (default ∅ (cm_Data conf) == ∅) then Some (om_Name (cm_meta conf)) else None).
Definition presentSecret w (s : Secret) : outcome (option string) :=
  '(s, found) ← KubeCheckQuiet w s; Ret (if (found : bool) then Some (om_Name (sec_meta s)) else None).
Definition pgSSLSecret w r : outcome (option string) :=
  match wl_ExternalPgSSLSecret r with Some s => presentSecret w s | None => Ret None end.

Definition guaranteed r : bool :=
  match bl_LoggingType (nbs_BucketLogging (nb_Spec (wl_NooBaa r))) with BucketLoggingTypeGuaranteed => true | _ => false end.
Definition loggingVolume r : PodVolume := mkPodVolume (wl_BucketLoggingVolume r) (ClaimVolume (wl_BucketLoggingPVC r)).
Definition notificationsVolumeOf r : PodVolume := mkPodVolume notificationsVolume (ClaimVolume (wl_BucketNotificationsPVC r)).
Definition notifications r : BucketNotificationsSpec := nbs_BucketNotifications (nb_Spec (wl_NooBaa r)).
Definition connectionPath (name : string) : string := "/etc/notif_connect/" +:+ name.
(** The secrets of the connections. *)
Definition attachConnections r m : Mounts :=
  foldl (λ m s, mergeVolume (secretVolume (sr_Name s)) (mergeMount (mkPodMount (sr_Name s) (connectionPath (sr_Name s)) "" true) m))
    m (bn_Connections (notifications r)).

(** A string is used in place of the map. *)
Definition setDesiredRootMasterKeyMounts w r m : outcome Mounts :=
  if (len (wl_SecretRootMasterKey r) >? 0)%Z then Ret m
  else
    name ← presentSecret w (wl_SecretRootMasterMap r);
    Ret match name with Some name => attach (secretVolume name) rootKeysPath true m | None => m end.

(** *** Namespace stores on file systems *)

Definition validateNsStoreNSFS ns : bool :=
  match nss_NSFS (ns_Spec ns) with
  | None => true
  | Some nsfs =>
      let path := nsfs_SubPath nsfs in
      negb (nsfs_PvcName nsfs == "") && negb (len ("/nsfs/" +:+ om_Name (ns_meta ns)) >? 63)%Z &&
      ((path == "") || negb (HasPrefix path "/") && forallb (λ item, negb (item == "..")) (Split path "/"))
  end.

Definition claimIs (pvcName : string) (v : PodVolume) : bool :=
  match pvl_Source v with ClaimVolume c => c == pvcName | _ => false end.

(** The claim is attached once, under the name of the first store that has it; a path in it
    is mounted once. *)
Definition attachStore m ns : Mounts :=
  if negb (validateNsStoreNSFS ns) then m
  else match nss_NSFS (ns_Spec ns) with
  | None => m
  | Some nsfs =>
      let name := om_Name (ns_meta ns) in
      let '(volumes, volumeName) :=
        match find (claimIs (nsfs_PvcName nsfs)) (mn_Volumes m) with
        | Some volume => (mn_Volumes m, pvl_Name volume)
        | None => (mn_Volumes m ++ [mkPodVolume ("nsfs-" +:+ name) (ClaimVolume (nsfs_PvcName nsfs))], "nsfs-" +:+ name)
        end in
      let mounts :=
        if existsb (λ x, (pm_Name x == volumeName) && (pm_SubPath x == nsfs_SubPath nsfs)) (mn_VolumeMounts m) then mn_VolumeMounts m
        else mn_VolumeMounts m ++ [mkPodMount volumeName ("/nsfs/" +:+ name) (nsfs_SubPath nsfs) false] in
      mkMounts volumes mounts (MergeEnvArrays (mn_Env m) [mkEnvVar ("NSFS_NSR_" +:+ name) "mounted" None])
  end.

(** What the first container has before the namespace stores. *)
Definition mountsBeforeStores w r (env : list EnvVar) : outcome Mounts :=
  let defaults := wl_DefaultDeploymentEndpoint r in
  container ← match pod_Containers defaults with c :: _ => Ret c | [] => Panic IndexOutOfRange end;
  let m := mountDb r (mkMounts (pod_Volumes defaults) (ct_VolumeMounts container) env) in
  ca ← caBundle w r;
  let m := match ca with Some name => attach (caBundleVolume name) caBundlePath true m | None => m end in
  ssl ← pgSSLSecret w r;
  let m := match ssl with Some name => attach (secretVolume name) "/etc/external-db-secret" true m | None => m end in
  let m := if guaranteed r then attach (loggingVolume r) (wl_BucketLoggingVolumeMount r) false m else m in
  let m := if bn_Enabled (notifications r) then attach (notificationsVolumeOf r) notificationsPath false m else m in
  setDesiredRootMasterKeyMounts w r m.

Definition setDesiredEndpointMounts w r (env : list EnvVar) : outcome (error + Mounts) :=
  '(stores, found) ← KubeList w (λ ns : NamespaceStore, om_Namespace (ns_meta ns) == Namespace);
  if negb found then Ret (inl (Errorf (Lit "Error: Cant list namespacestores")))
  else
    m ← mountsBeforeStores w r env;
    let m := foldl attachStore m stores in
    let m := dbVolume r (attachConnections r m) in
    oidc ← presentSecret w (wl_SecretOIDCKeyCloakConfig r);
    Ret (inr match oidc with
             | Some name => attach (mkPodVolume name (SecretVolume name (Some true))) "/etc/noobaa-server/oidc/keycloak_config" true m
             | None => m
             end).

(** ** The endpoints *)

Definition addContainerPortsIfNotExist (existing ports : list ContainerPort) : list ContainerPort := MergeByName ctp_Name existing ports.
Definition endpointPorts : list ContainerPort := [mkContainerPort "iam-https" 13443 "TCP"; mkContainerPort "metrics-https" 9443 "TCP"].

Definition topologyConstraint r (key : string) : TopologySpreadConstraint :=
  mkTopologySpreadConstraint 1 key "ScheduleAnyway" (Some "Honor"%string) {["noobaa-s3"%string := wl_RequestName r]}.
(** None of the ones that are there, when the cluster does not know the policy, or when the
    annotation says so. *)
Definition topologyConstraints r (current : list TopologySpreadConstraint) : list TopologySpreadConstraint :=
  if negb HasNodeInclusionPolicy then current
  else if map_get (om_Annotations (nb_meta (wl_NooBaa r))) SkipTopologyConstraints == "true" then current
  else
    let key := match nbs_Affinity (nb_Spec (wl_NooBaa r)) with Some a => afs_TopologyKey a | None => ""%string end in
    topologyConstraint r LabelHostname :: (if (key != "") && (key != LabelHostname) then [topologyConstraint r key] else []).

Definition pullSecrets r : list string := match nbs_ImagePullSecret (nb_Spec (wl_NooBaa r)) with Some s => [s] | None => [] end.

(** The container named so, with the volumes of the pod. *)
Definition endpointContainer w r (c : Container QA) : outcome (error + Container QA * list PodVolume) :=
  resources ← getEndpointResources endpointOverride (nbs_PerformanceProfile (nb_Spec (wl_NooBaa r)));
  defaults ← match pod_Containers (wl_DefaultDeploymentEndpoint r) with d :: _ => Ret d | [] => Panic IndexOutOfRange end;
  let env := MergeEnvArrays (ct_Env c) (ct_Env defaults) in
  env ← (match wl_JoinSecret r with None => setDesiredCoreEnv Getenv r env | Some _ => Ret env end);
  env ← mapM (endpointVariable r) env;
  let env := ApplyTLSEnvVars Getenv env (sec_APIServerSecurity (nbs_Security (nb_Spec (wl_NooBaa r)))) in
  mounted ← setDesiredEndpointMounts w r (reflectProxies LookupEnv env);
  Ret match mounted with
      | inl e => inl e
      | inr m => inr (mkContainer (ct_Name c) (nbst_ActualImage (nb_Status (wl_NooBaa r))) (ct_Command c) (mn_Env m) resources (mn_VolumeMounts m)
                        (addContainerPortsIfNotExist (ct_Ports c) endpointPorts) (ct_ReadinessProbe c) (Some ["SETUID"; "SETGID"]%string), mn_Volumes m)
      end.

(** The first container with the name of the endpoint; [None] when there is none. *)
Fixpoint endpointContainers w r (containers : list (Container QA)) : outcome (error + option (list (Container QA) * list PodVolume)) :=
  match containers with
  | [] => Ret (inr None)
  | c :: containers =>
      if ct_Name c == "endpoint" then
        res ← endpointContainer w r c;
        Ret match res with inl e => inl e | inr (c, volumes) => inr (Some (c :: containers, volumes)) end
      else
        res ← endpointContainers w r containers;
        Ret match res with inr (Some (l, volumes)) => inr (Some (c :: l, volumes)) | x => x end
  end.

Definition SetDesiredDeploymentEndpoint w r (d : Workload QA) : outcome (error + Workload QA) :=
  matchLabels ← map_set (wk_MatchLabels d) "noobaa-s3" (wl_RequestName r);
  labels ← map_set (wk_Labels d) "noobaa-s3" (wl_RequestName r);
  labels ← map_set labels "app" (wl_RequestName r);
  let pod := wk_Pod d in
  let spec := nb_Spec (wl_NooBaa r) in
  let replicas := if wk_Replicas d == Some 0%Z then Some (getEndpointMinMaxCount (wl_NooBaa r)).1 else wk_Replicas d in
  '_ ← deref (pod_SecurityContext pod);
  let podWith containers volumes :=
    mkPodSpec (pod_InitContainers pod) containers volumes (nbs_Tolerations spec) (GetAffinity (wl_NooBaa r)) (nbs_EndpointPriorityClassName spec)
      (pullSecrets r) (Some (mkPodSecurityContext (Some 0%Z) (Some 0%Z))) "noobaa-endpoint" (topologyConstraints r (pod_TopologySpreadConstraints pod))
      (pod_TerminationGracePeriodSeconds pod) in
  let workload annotations pod :=
    mkWorkload (wk_meta d) matchLabels labels annotations replicas (wk_ServiceName d) (wk_UpdateStrategy d) pod
      (wk_StatusReplicas d) (wk_AvailableReplicas d) (wk_ReadyReplicas d) (wk_Conditions d) in
  res ← endpointContainers w r (pod_Containers pod);
  Ret match res with
      | inl e => inl e
      | inr None => inr (workload (wk_Annotations d) (podWith (pod_Containers pod) (pod_Volumes pod)))
      | inr (Some (containers, volumes)) =>
          let hash := map_get (om_Annotations (cm_meta (wl_CoreAppConfig r))) coreConfigMapHashAnnotation in
          let annotations := <[DbCluster.RequiredSCCAnnotation := "noobaa-endpoint"%string]>
            (<[coreConfigMapHashAnnotation := hash]> (default ∅ (wk_Annotations d))) in
          inr (workload (Some annotations) (podWith containers volumes))
      end.

Definition awaitEndpointDeploymentPods (d : Workload QA) : option error :=
  if (wk_AvailableReplicas d =? 0)%Z || negb (wk_AvailableReplicas d =? wk_StatusReplicas d)%Z then
    Some (Errorf (Lit "not enough available replicas in endpoint deployment"))
  else if existsb (λ status, negb (status == "True")) (wk_Conditions d) then Some (Errorf (Lit "endpoint deployment is not ready"))
  else None.

(** The hosts that the endpoints were given. *)
Definition statusHosts (containers : list (Container QA)) : list string :=
  c ← filter (λ c, ct_Name c = "endpoint"%string) containers;
  e ← filter (λ e, ev_Name e = "VIRTUAL_HOSTS"%string) (ct_Env c);
  Fields (ev_Value e).
Definition ReconcileDeploymentEndpointStatus w (d : Workload QA) (nb : NooBaa) : outcome (error + Workload QA * NooBaa) :=
  '(d, found) ← KubeCheck w d;
  Ret (if negb found then inl (Errorf (Lit "Could not load endpoint deployment"))
       else if (wk_ReadyReplicas d =? 0)%Z then inl (Errorf (Lit "First endpoint is not ready yet"))
       else inr (d, mkNooBaa (nb_meta nb) (nb_Spec nb)
                      (set_nbst_Endpoints (Some (mkEndpointsStatus (wk_ReadyReplicas d) (statusHosts (pod_Containers (wk_Pod d))))) (nb_Status nb)))).

(** ** The core *)

Definition GetRunningOperatorImage w : outcome string :=
  '(d, found) ← KubeCheckQuiet w (mkWorkload (QA:=QA) operatorDeployment None None None None "" ""
     (mkPodSpec [] [] [] None None "" [] None "" [] None) 0 0 0 []);
  Ret match pod_Containers (wk_Pod d) with c :: _ => if (found : bool) then ct_Image c else OperatorImage | [] => OperatorImage end.

(** The init containers of the defaults replace those of their names; others stay. *)
Definition set_ct_Image (image : string) (c : Container QA) : Container QA :=
  mkContainer (ct_Name c) image (ct_Command c) (ct_Env c) (ct_Resources c) (ct_VolumeMounts c) (ct_Ports c) (ct_ReadinessProbe c) (ct_Capabilities c).
Fixpoint upsert (desired : Container QA) (l : list (Container QA)) : list (Container QA) :=
  match l with
  | [] => [desired]
  | c :: l => if ct_Name c == ct_Name desired then desired :: l else c :: upsert desired l
  end.
Definition initContainers (operatorImage : string) (defaults current : list (Container QA)) : list (Container QA) :=
  foldl (λ l d, upsert (if ct_Name d == "copy-leader-elect" then set_ct_Image operatorImage d else d) l) current defaults.

(** What a container takes over from the default at its place. *)
Definition overDefault r (c : Container QA) (d : option (Container QA)) : outcome (Container QA) :=
  let c := match d with
           | Some d => mkContainer (ct_Name c) (ct_Image c) (ct_Command d) (MergeEnvArrays (ct_Env c) (ct_Env d)) (ct_Resources c)
                         (ct_VolumeMounts d) (ct_Ports c) (ct_ReadinessProbe c) (ct_Capabilities c)
           | None => c
           end in
  env ← setDesiredCoreEnv Getenv r (ct_Env c);
  Ret (mkContainer (ct_Name c) (ct_Image c) (ct_Command c) env (ct_Resources c) (ct_VolumeMounts c) (ct_Ports c) (ct_ReadinessProbe c) (ct_Capabilities c)).

Definition mountCa w r m : outcome Mounts :=
  ca ← caBundle w r;
  Ret match ca with Some name => mergeMount (mkPodMount name caBundlePath "" true) m | None => m end.

Definition coreMounts w r (volumes : list PodVolume) (c : Container QA) : outcome Mounts :=
  m ← setDesiredRootMasterKeyMounts w r (mkMounts volumes (ct_VolumeMounts c) (ct_Env c));
  let m := mountDb r (mkMounts (mn_Volumes m) (mn_VolumeMounts m) (reflectProxies LookupEnv (mn_Env m))) in
  m ← mountCa w r m;
  ssl ← pgSSLSecret w r;
  let m := match ssl with Some name => mergeMount (mkPodMount name "/etc/external-db-secret" "" true) m | None => m end in
  let m := if guaranteed r then mergeMount (mkPodMount (wl_BucketLoggingVolume r) (wl_BucketLoggingVolumeMount r) "" false) m else m in
  Ret (if bn_Enabled (notifications r) then
         attachConnections r (mergeVolume (notificationsVolumeOf r) (mergeMount (mkPodMount notificationsVolume notificationsPath "" false) m))
       else m).

Definition coreContainer w r (volumes : list PodVolume) (c : Container QA) (d : option (Container QA)) : outcome (Container QA * list PodVolume) :=
  c ← overDefault r c d;
  let image := nbst_ActualImage (nb_Status (wl_NooBaa r)) in
  let profile := nbs_PerformanceProfile (nb_Spec (wl_NooBaa r)) in
  if ct_Name c == "core" then
    m ← coreMounts w r volumes c;
    resources ← getCoreResources coreOverride profile;
    Ret (mkContainer (ct_Name c) image (ct_Command c) (mn_Env m) resources (mn_VolumeMounts m) (ct_Ports c)
           (Some (default (mkProbe 8080 5 2) (ct_ReadinessProbe c))) (ct_Capabilities c), mn_Volumes m)
  else if ct_Name c == "noobaa-log-processor" then
    resources ← getLogResources logOverride profile;
    m ← mountCa w r (mkMounts volumes (ct_VolumeMounts c) (ct_Env c));
    Ret (mkContainer (ct_Name c) image (ct_Command c) (mn_Env m) resources (mn_VolumeMounts m) (ct_Ports c) (ct_ReadinessProbe c) (ct_Capabilities c),
         mn_Volumes m)
  else Ret (c, volumes).

(** With the default containers at the same places, as many as there are. *)
Fixpoint coreContainers w r (volumes : list PodVolume) (cs ds : list (Container QA)) : outcome (list (Container QA) * list PodVolume) :=
  match cs with
  | [] => Ret ([], volumes)
  | c :: cs =>
      '(c, volumes) ← coreContainer w r volumes c (head ds);
      '(cs, volumes) ← coreContainers w r volumes cs (tail ds);
      Ret (c :: cs, volumes)
  end.

(** The volumes that are added after the containers. *)
Definition coreVolumes w r (volumes : list PodVolume) : outcome (list PodVolume) :=
  let m := mkMounts volumes [] [] in
  ca ← caBundle w r;
  let m := match ca with Some name => mergeVolume (caBundleVolume name) m | None => m end in
  ssl ← pgSSLSecret w r;
  let m := match ssl with Some name => mergeVolume (secretVolume name) m | None => m end in
  let m := if guaranteed r then mergeVolume (loggingVolume r) m else m in
  Ret (mn_Volumes (dbVolume r m)).

Definition SetDesiredCoreApp w r (s : Workload QA) : outcome (Workload QA) :=
  let spec := nb_Spec (wl_NooBaa r) in
  let labels := default (wk_Labels s) (nbs_Labels spec !! "core"%string) in
  let annotations := default (wk_Annotations s) (nbs_Annotations spec !! "core"%string) in
  labels ← map_set labels "noobaa-core" (wl_RequestName r);
  labels ← map_set labels "noobaa-mgmt" (wl_RequestName r);
  matchLabels ← map_set (wk_MatchLabels s) "noobaa-core" (wl_RequestName r);
  image ← GetRunningOperatorImage w;
  let pod := wk_Pod s in
  let defaults := wl_DefaultCoreApp r in
  '(containers, volumes) ← coreContainers w r (pod_Volumes defaults) (pod_Containers pod) (pod_Containers defaults);
  volumes ← coreVolumes w r volumes;
  let annotations := <[DbCluster.RequiredSCCAnnotation := "noobaa-core"%string]>
    (<[coreConfigMapHashAnnotation := map_get (om_Annotations (cm_meta (wl_CoreAppConfig r))) coreConfigMapHashAnnotation]> (default ∅ annotations)) in
  Ret (mkWorkload (wk_meta s) matchLabels labels (Some annotations) (Some (getDesiredCoreReplicas (wl_NooBaa r)))
         (om_Name (svc_meta (wl_ServiceMgmt r))) "OnDelete"
         (mkPodSpec (initContainers image (pod_InitContainers defaults) (pod_InitContainers pod)) containers volumes
            (nbs_Tolerations spec) (desiredCoreAffinity (wl_RequestName r) (wl_NooBaa r)) (nbs_CorePriorityClassName spec) (pullSecrets r)
            (pod_SecurityContext pod) "noobaa-core" (pod_TopologySpreadConstraints pod)
            (Some (coreTerminationGracePeriodSeconds (wl_CoreAppConfig r))))
         (wk_StatusReplicas s) (wk_AvailableReplicas s) (wk_ReadyReplicas s) (wk_Conditions s)).
End Pods.

(** ** Facts: mounts *)

Lemma MergeByName_one {A} (name : A → string) l x n :
  n ∈ (name <$> MergeByName name l [x]) ↔ n ∈ (name <$> l) ∨ n = name x.
Proof.
  rewrite MergeByName_filter, fmap_app, elem_of_app. split.
  - intros [?|(y & -> & Hy)%list_elem_of_fmap]; [by left|right]. apply list_elem_of_filter in Hy as [_ Hy]. set_solver.
  - intros [?| ->]; [by left|]. destruct (decide (name x ∈ (name <$> l))) as [?|Hn]; [by left|right].
    apply list_elem_of_fmap. exists x. split; [done|]. apply list_elem_of_filter. by split; [|left].
Qed.
Lemma MergeByName_keeps {A} (name : A → string) l t x : x ∈ l → x ∈ MergeByName name l t.
Proof. rewrite MergeByName_filter. set_solver. Qed.

(** The volume of every mount is in the pod, or one of some names. *)
Definition pending (P : string → Prop) (volumes : list PodVolume) (mounts : list PodMount) : Prop :=
  ∀ n, n ∈ (pm_Name <$> mounts) → P n ∨ n ∈ (pvl_Name <$> volumes).
Definition resolved (volumes : list PodVolume) (mounts : list PodMount) : Prop :=
  ∀ x, x ∈ mounts → ∃ v, v ∈ volumes ∧ pvl_Name v = pm_Name x.
Lemma resolved_pending volumes mounts : resolved volumes mounts ↔ pending (λ _, False) volumes mounts.
Proof.
  split.
  - intros Hr n (x & -> & Hx)%list_elem_of_fmap. right. destruct (Hr x Hx) as (v & Hv & <-). by apply list_elem_of_fmap_2.
  - intros Hp x Hx. destruct (Hp (pm_Name x)) as [[]|Hn]; [by apply list_elem_of_fmap_2|].
    apply list_elem_of_fmap in Hn as (v & Hv & Hin). eauto.
Qed.

Abbreviation pends P m := (pending P (mn_Volumes m) (mn_VolumeMounts m)).
Lemma pends_weaken (P Q : string → Prop) m : (∀ n, P n → Q n) → pends P m → pends Q m.
Proof. intros HPQ Hm n Hn. destruct (Hm n Hn); eauto. Qed.
Lemma pends_mergeMount (P : string → Prop) x m : P (pm_Name x) ∨ pm_Name x ∈ (pvl_Name <$> mn_Volumes m) → pends P m → pends P (mergeMount x m).
Proof. intros Hx Hm n Hn. apply MergeByName_one in Hn as [Hn| ->]; [by apply Hm|done]. Qed.
Lemma pends_mergeVolume P v m : pends (λ n, P n ∨ n = pvl_Name v) m → pends P (mergeVolume v m).
Proof. intros Hm n Hn. cbn [mergeVolume mn_Volumes]. rewrite MergeByName_one. destruct (Hm n Hn) as [[?|?]|?]; auto. Qed.
Lemma pends_keepVolume P v m : pends P m → pends P (mergeVolume v m).
Proof. intros Hm. apply pends_mergeVolume. eapply pends_weaken; [|done]. auto. Qed.
Lemma pends_attach P v path ro m : pends P m → pends P (attach v path ro m).
Proof. intros Hm. apply pends_mergeMount; [|by apply pends_keepVolume]. right. cbn [mergeVolume mn_Volumes pm_Name]. rewrite MergeByName_one. auto. Qed.
Create HintDb mounts.
#[export] Hint Resolve pends_attach pends_keepVolume : mounts.

Lemma pends_connections {QA} P (r : WorkloadSystem QA) m : pends P m → pends P (attachConnections r m).
Proof.
  unfold attachConnections. generalize (bn_Connections (notifications r)). intros l. revert m.
  induction l as [|s l IH]; intros m Hm; [done|]. apply IH. apply pends_mergeVolume, pends_mergeMount; [by left; right|].
  eapply pends_weaken; [|done]. auto.
Qed.

Lemma pends_attachStore P m ns : pends P m → pends P (attachStore m ns).
Proof.
  intros Hm. unfold attachStore. destruct (validateNsStoreNSFS ns); cbn; [|done]. destruct (nss_NSFS (ns_Spec ns)) as [f|]; [|done].
  set (vols := match find _ _ with Some _ => _ | None => _ end).
  assert (Hv : vols.2 ∈ (pvl_Name <$> vols.1) ∧ ∀ n, n ∈ (pvl_Name <$> mn_Volumes m) → n ∈ (pvl_Name <$> vols.1)).
  { unfold vols. destruct (find _ _) as [v|] eqn:Hf; cbn.
    - split; [|done]. apply list_elem_of_fmap_2. apply list_elem_of_In, (find_some _ _ Hf).
    - rewrite fmap_app. split; [set_solver|]. intros n Hn. apply elem_of_app. by left. }
  destruct vols as [volumes volumeName]. destruct Hv as [Hv Hincl]. cbn [mn_Volumes mn_VolumeMounts].
  intros n Hn. destruct (existsb _ _); [destruct (Hm n Hn); eauto|].
  rewrite fmap_app, elem_of_app in Hn. destruct Hn as [Hn|Hn]; [destruct (Hm n Hn); eauto|].
  apply list_elem_of_singleton in Hn as ->. by right.
Qed.
Lemma pends_attachStores P m l : pends P m → pends P (foldl attachStore m l).
Proof. revert m. induction l as [|ns l IH]; intros m Hm; [done|]. by apply IH, pends_attachStore. Qed.
#[export] Hint Resolve pends_connections pends_attachStores : mounts.

(** Optional parts. *)
Lemma pends_option {A} P (x : option A) f m : (∀ a, pends P (f a)) → pends P m → pends P (match x with Some a => f a | None => m end).
Proof. destruct x; auto. Qed.

Section MountFacts.
Context {QA : QuantityApi} {W : Type} {SS : ApiServer W Secret} {SM : ApiServer W ConfigMap} {SN : ApiServer W NamespaceStore}.
Context (Namespace : string).
Implicit Types (w : W) (r : WorkloadSystem QA) (m : Mounts) (ns : NamespaceStore).

(** The mounts of the database wait for its volume, which comes last. *)
Definition isDb r (n : string) : Prop := ∃ secret, dbSecret r = Some (n, secret).
Lemma pends_mountDb r m : pends (λ _, False) m → pends (isDb r) (mountDb r m).
Proof.
  intros Hm. unfold mountDb. destruct (dbSecret r) as [[name secret]|] eqn:E.
  - apply pends_mergeMount; [left; by exists secret|]. eapply pends_weaken; [|done]. done.
  - eapply pends_weaken; [|done]. done.
Qed.
Lemma pends_dbVolume r m : pends (isDb r) m → pends (λ _, False) (dbVolume r m).
Proof.
  intros Hm. unfold dbVolume. destruct (dbSecret r) as [[name secret]|] eqn:E.
  - apply pends_mergeVolume. eapply pends_weaken; [|done]. intros n [s Hs]. right. cbn. congruence.
  - eapply pends_weaken; [|done]. intros n [s Hs]. congruence.
Qed.
Lemma pends_rootKeys P w r m m' : setDesiredRootMasterKeyMounts w r m = Ret m' → pends P m → pends P m'.
Proof.
  unfold setDesiredRootMasterKeyMounts. destruct (_ >? _)%Z; [by intros [= <-]|].
  destruct (presentSecret w _) as [[name|]|]; cbn; [| |done]; intros [= <-]; auto with mounts.
Qed.

(** The pods of the endpoints can be admitted: every mount of the container is of a volume
    of the pod, if that is so in the defaults. *)
Theorem setDesiredEndpointMounts_resolved w r env m :
  (∀ c, head (pod_Containers (wl_DefaultDeploymentEndpoint r)) = Some c →
    resolved (pod_Volumes (wl_DefaultDeploymentEndpoint r)) (ct_VolumeMounts c)) →
  setDesiredEndpointMounts Namespace w r env = Ret (inr m) → resolved (mn_Volumes m) (mn_VolumeMounts m).
Proof.
  intros Hdef Hrun. apply resolved_pending. unfold setDesiredEndpointMounts in Hrun.
  apply bind_Ret in Hrun as ([stores found] & _ & Hrun). destruct found; cbn [negb] in Hrun; [|done].
  apply bind_Ret in Hrun as (m1 & Hk & Hrun). unfold mountsBeforeStores in Hk. cbv zeta in Hk.
  destruct (pod_Containers (wl_DefaultDeploymentEndpoint r)) as [|c cs]; [done|]. cbn [mbind outcome_bind] in Hk.
  specialize (Hdef c eq_refl). apply resolved_pending in Hdef.
  set (m0 := mountDb r _) in Hk. assert (H0 : pends (isDb r) m0) by (by apply pends_mountDb). clearbody m0.
  apply bind_Ret in Hk as (ca & _ & Hk). apply bind_Ret in Hk as (ssl & _ & Hk). apply (pends_rootKeys (isDb r)) in Hk.
  2: { destruct ca, ssl, (guaranteed r), (bn_Enabled (notifications r)); auto 10 with mounts. }
  apply bind_Ret in Hrun as (oidc & _ & Hrun). injection Hrun as <-.
  apply pends_option; [intros a; apply pends_attach|]; by apply pends_dbVolume, pends_connections, pends_attachStores.
Qed.

(** ** Namespace stores on file systems *)

(** Nothing is taken away. *)
Definition grows m m' : Prop :=
  (∀ v, v ∈ mn_Volumes m → v ∈ mn_Volumes m') ∧ (∀ x, x ∈ mn_VolumeMounts m → x ∈ mn_VolumeMounts m') ∧ (∀ e, e ∈ mn_Env m → e ∈ mn_Env m').
#[local] Instance grows_preorder : PreOrder grows.
Proof. split; [by intros m; split_and!|]. intros a b c (?&?&?) (?&?&?). unfold grows. split_and!; eauto. Qed.
Lemma grows_mergeVolume v m : grows m (mergeVolume v m).
Proof. split_and!; [|done|done]. intros x. apply MergeByName_keeps. Qed.
Lemma grows_mergeMount x m : grows m (mergeMount x m).
Proof. split_and!; [done| |done]. intros y. apply MergeByName_keeps. Qed.
Lemma grows_attachStore m ns : grows m (attachStore m ns).
Proof.
  unfold attachStore. destruct (validateNsStoreNSFS ns); cbn [negb]; [|done]. destruct (nss_NSFS (ns_Spec ns)) as [f|]; [|done].
  destruct (find _ _); (split_and!; cbn [mn_Volumes mn_VolumeMounts mn_Env]; [set_solver| |intros e; apply MergeByName_keeps]);
    destruct (existsb _ _); set_solver.
Qed.
Lemma grows_foldl {A} (f : Mounts → A → Mounts) l m : (∀ m a, grows m (f m a)) → grows m (foldl f m l).
Proof. intros Hf. revert m. induction l as [|a l IH]; intros m; [done|]. etrans; [apply Hf|apply IH]. Qed.

(** Two stores on the same path of the same claim. *)
Definition samePlace (f : NSFSSpec) ns : Prop :=
  validateNsStoreNSFS ns = true ∧
  ∃ f', nss_NSFS (ns_Spec ns) = Some f' ∧ nsfs_PvcName f' = nsfs_PvcName f ∧ nsfs_SubPath f' = nsfs_SubPath f.
Definition storePath ns : string := "/nsfs/" +:+ om_Name (ns_meta ns).
Definition storeVolume ns : string := "nsfs-" +:+ om_Name (ns_meta ns).

(** The claim of a store is in the pod, the path in it is mounted, and the container is told. *)
Definition attached m ns (f : NSFSSpec) : Prop :=
  (∃ v x, v ∈ mn_Volumes m ∧ pvl_Source v = ClaimVolume (nsfs_PvcName f) ∧
     x ∈ mn_VolumeMounts m ∧ pm_Name x = pvl_Name v ∧ pm_SubPath x = nsfs_SubPath f) ∧
  ("NSFS_NSR_" +:+ om_Name (ns_meta ns)) ∈ (ev_Name <$> mn_Env m).
(** And it is mounted where the core looks for a store on that place. *)
Definition serves m (stores : list NamespaceStore) ns (f : NSFSSpec) : Prop :=
  (∃ v x ns', v ∈ mn_Volumes m ∧ pvl_Source v = ClaimVolume (nsfs_PvcName f) ∧
     x ∈ mn_VolumeMounts m ∧ pm_Name x = pvl_Name v ∧ pm_SubPath x = nsfs_SubPath f ∧
     ns' ∈ stores ∧ samePlace f ns' ∧ pm_MountPath x = storePath ns') ∧
  ("NSFS_NSR_" +:+ om_Name (ns_meta ns)) ∈ (ev_Name <$> mn_Env m).

Lemma attached_grows m m' ns f : grows m m' → attached m ns f → attached m' ns f.
Proof.
  intros (Hv & Hm & He) [(v & x & ? & ? & ? & ? & ?) (e & Hn & Hin)%list_elem_of_fmap]. split; [exists v, x; auto 10|].
  rewrite Hn. apply list_elem_of_fmap_2. auto.
Qed.
Lemma serves_grows m m' stores ns f : grows m m' → serves m stores ns f → serves m' stores ns f.
Proof.
  intros (Hv & Hm & He) [(v & x & ns' & ? & ? & ? & ? & ? & ?) (e & Hn & Hin)%list_elem_of_fmap]. split; [exists v, x, ns'; auto 10|].
  rewrite Hn. apply list_elem_of_fmap_2. auto.
Qed.

(** What a store that is attached adds: the volume of its claim, unless there is one, and a
    mount of that volume, unless there is one of its path. *)
Lemma attachStore_cases m ns f : validateNsStoreNSFS ns = true → nss_NSFS (ns_Spec ns) = Some f →
  ∃ v, pvl_Source v = ClaimVolume (nsfs_PvcName f) ∧
    (v ∈ mn_Volumes m ∧ mn_Volumes (attachStore m ns) = mn_Volumes m ∨
     pvl_Name v = storeVolume ns ∧ mn_Volumes (attachStore m ns) = mn_Volumes m ++ [v]) ∧
    let x := mkPodMount (pvl_Name v) (storePath ns) (nsfs_SubPath f) false in
    (mn_VolumeMounts (attachStore m ns) = mn_VolumeMounts m ++ [x] ∨
     mn_VolumeMounts (attachStore m ns) = mn_VolumeMounts m ∧
       ∃ y, y ∈ mn_VolumeMounts m ∧ pm_Name y = pvl_Name v ∧ pm_SubPath y = nsfs_SubPath f).
Proof.
  intros Hv Hf. unfold attachStore. rewrite Hv, Hf. cbn [negb].
  assert (∃ v, pvl_Source v = ClaimVolume (nsfs_PvcName f) ∧ let '(volumes, name) :=
      match find (claimIs (nsfs_PvcName f)) (mn_Volumes m) with
      | Some volume => (mn_Volumes m, pvl_Name volume)
      | None => (mn_Volumes m ++ [mkPodVolume (storeVolume ns) (ClaimVolume (nsfs_PvcName f))], storeVolume ns)
      end in name = pvl_Name v ∧ (v ∈ mn_Volumes m ∧ volumes = mn_Volumes m ∨ pvl_Name v = storeVolume ns ∧ volumes = mn_Volumes m ++ [v])) as (v & Hs & Hvol).
  { destruct (find _ _) as [v|] eqn:E; [exists v|eexists (mkPodVolume _ _); by split_and!; [|done|right]].
    apply find_some in E as [Hin Hc]. unfold claimIs in Hc. destruct (pvl_Source v); try done. apply bool_decide_eq_true in Hc as ->.
    split_and!; [done..|left]. split; [by apply list_elem_of_In|done]. }
  exists v. split; [done|]. unfold storeVolume in Hvol. destruct (match find _ _ with Some _ => _ | None => _ end) as [volumes name].
  destruct Hvol as [-> Hvol]. cbn [mn_Volumes mn_VolumeMounts]. split; [done|]. cbv zeta.
  destruct (existsb _ _) eqn:Ex; [right|by left]. split; [done|]. apply existsb_exists in Ex as (y & Hy & Hp).
  apply andb_prop in Hp as [Hn%bool_decide_eq_true Hsub%bool_decide_eq_true]. exists y. split_and!; [by apply list_elem_of_In|done..].
Qed.
Lemma attachStore_attached m ns f : validateNsStoreNSFS ns = true → nss_NSFS (ns_Spec ns) = Some f → attached (attachStore m ns) ns f.
Proof.
  intros Hv Hf. split.
  - destruct (attachStore_cases m ns f Hv Hf) as (v & Hs & Hvol & Hmount). exists v.
    assert (v ∈ mn_Volumes (attachStore m ns)) by (destruct Hvol as [[? ->]|[_ ->]]; set_solver).
    destruct Hmount as [->|(-> & y & Hy & Hn & Hsub)]; [eexists; split_and!; [done|done|apply elem_of_app; right; by left|done..]|by exists y].
  - unfold attachStore. rewrite Hv, Hf. cbn [negb]. destruct (match find _ _ with Some _ => _ | None => _ end). apply MergeByName_one. by right.
Qed.
Lemma attachStore_skipped m ns : (validateNsStoreNSFS ns = false ∨ nss_NSFS (ns_Spec ns) = None) → attachStore m ns = m.
Proof. unfold attachStore. intros [->| ->]; [done|]. by destruct (validateNsStoreNSFS ns). Qed.

(** Volumes and mounts of the stores [done], over those of [m1]. *)
Definition placed m1 (done : list NamespaceStore) (f : NSFSSpec) m : Prop :=
  NoDup (pvl_Name <$> mn_Volumes m) ∧
  (∀ n, n ∈ (pvl_Name <$> mn_Volumes m) → n ∈ (pvl_Name <$> mn_Volumes m1) ∨ n ∈ (storeVolume <$> done)) ∧
  (∀ n, n ∈ (pm_Name <$> mn_VolumeMounts m) → n ∈ (pm_Name <$> mn_VolumeMounts m1) ∨ n ∈ (pvl_Name <$> mn_Volumes m)) ∧
  ∀ v x, v ∈ mn_Volumes m → pvl_Source v = ClaimVolume (nsfs_PvcName f) → x ∈ mn_VolumeMounts m → pm_Name x = pvl_Name v →
    pm_SubPath x = nsfs_SubPath f → ∃ ns', ns' ∈ done ∧ samePlace f ns' ∧ pm_MountPath x = storePath ns'.

Lemma NoDup_names {A} (name : A → string) l x y : NoDup (name <$> l) → x ∈ l → y ∈ l → name x = name y → x = y.
Proof.
  intros Hnd [i Hi]%list_elem_of_lookup [j Hj]%list_elem_of_lookup Heq.
  assert (i = j) as <-; [|congruence]. eapply NoDup_lookup; [exact Hnd| |]; rewrite list_lookup_fmap; [by rewrite Hi|by rewrite Hj, Heq].
Qed.

Lemma placed_step m1 done f m a :
  placed m1 done f m → storeVolume a ∉ (storeVolume <$> done) →
  storeVolume a ∉ (pvl_Name <$> mn_Volumes m1) → storeVolume a ∉ (pm_Name <$> mn_VolumeMounts m1) →
  placed m1 (done ++ [a]) f (attachStore m a).
Proof.
  intros (Hnd & Hvol & Hmnt & Hat) Hfresh Hv1 Hm1.
  assert (Hweak : placed m1 (done ++ [a]) f m).
  { split_and!; [done|intros n [?|?]%Hvol; [by left|right; set_solver]|done|].
    intros v x Hv Hs Hx Hn Hsub. destruct (Hat v x Hv Hs Hx Hn Hsub) as (ns' & ? & ?). exists ns'. set_solver. }
  destruct (validateNsStoreNSFS a) eqn:Hva; [|by rewrite attachStore_skipped by auto].
  destruct (nss_NSFS (ns_Spec a)) as [fa|] eqn:Hfa; [|by rewrite attachStore_skipped by auto].
  destruct (attachStore_cases m a fa Hva Hfa) as (va & Hsa & Hvols & Hmounts). cbv zeta in Hmounts.
  assert (Hnew : storeVolume a ∉ (pvl_Name <$> mn_Volumes m)) by (intros [?|?]%Hvol; done).
  assert (Hold : storeVolume a ∉ (pm_Name <$> mn_VolumeMounts m)) by (intros [?|?]%Hmnt; done).
  assert (Hva' : va ∈ mn_Volumes (attachStore m a)) by (destruct Hvols as [[? ->]|[_ ->]]; set_solver).
  assert (Hnd' : NoDup (pvl_Name <$> mn_Volumes (attachStore m a))).
  { destruct Hvols as [[_ ->]|[Hn ->]]; [done|]. rewrite fmap_app. apply NoDup_app. split_and!; [done| |apply NoDup_singleton].
    intros n Hin ->%list_elem_of_singleton. by rewrite Hn in Hin. }
  split_and!; [done| | |].
  - intros n. destruct Hvols as [[_ ->]|[Hn ->]]; [intros [?|?]%Hvol; [by left|right; set_solver]|].
    rewrite fmap_app, elem_of_app. intros [[?|?]%Hvol| ->%list_elem_of_singleton]; [by left|right; set_solver|right].
    rewrite Hn, fmap_app. set_solver.
  - intros n Hin. assert (n ∈ (pm_Name <$> mn_VolumeMounts m) ∨ n = pvl_Name va) as [Hin'| ->].
    { destruct Hmounts as [E|[E _]]; rewrite E in Hin; [|by left]. rewrite fmap_app in Hin. set_solver. }
    + destruct (Hmnt n Hin') as [?|?]; [by left|right]. destruct Hvols as [[_ ->]|[_ ->]]; [done|]. rewrite fmap_app. set_solver.
    + right. by apply list_elem_of_fmap_2.
  - intros v x Hv Hs Hx Hn Hsub.
    assert (x ∈ mn_VolumeMounts m ∨ x = mkPodMount (pvl_Name va) (storePath a) (nsfs_SubPath fa) false) as [Hxm| ->].
    { destruct Hmounts as [E|[E _]]; rewrite E in Hx; [set_solver|by left]. }
    + destruct Hweak as (_ & _ & _ & Hweak). apply (Hweak v x); try done.
      destruct Hvols as [[_ E]|[Hname E]]; rewrite E in Hv; [done|]. apply elem_of_app in Hv as [?| ->%list_elem_of_singleton]; [done|].
      destruct Hold. rewrite <-Hname, <-Hn. by apply list_elem_of_fmap_2.
    + cbn in Hn, Hsub. assert (v = va) as -> by (by eapply (NoDup_names pvl_Name); [exact Hnd'|..]).
      exists a. split_and!; [set_solver| |done]. split; [done|]. exists fa. split_and!; [done|congruence|done].
Qed.

Lemma placed_all m1 stores f :
  NoDup (pvl_Name <$> mn_Volumes m1) → NoDup (storeVolume <$> stores) →
  (∀ a, a ∈ stores → (storeVolume a ∉ (pvl_Name <$> mn_Volumes m1)) ∧ (storeVolume a ∉ (pm_Name <$> mn_VolumeMounts m1))) →
  (∀ v, v ∈ mn_Volumes m1 → pvl_Source v ≠ ClaimVolume (nsfs_PvcName f)) →
  placed m1 stores f (foldl attachStore m1 stores).
Proof.
  intros Hnd1 Hnd Hfresh Hclaim. induction stores as [|a stores IH] using rev_ind.
  - split_and!; [done|by left|by left|]. intros v x Hv Hs. by destruct (Hclaim v Hv).
  - rewrite fmap_app in Hnd. apply NoDup_app in Hnd as (Hnd & Hdis & _). rewrite foldl_app. apply placed_step; try (apply Hfresh; set_solver).
    + apply IH; [done|]. intros b Hb. apply Hfresh. set_solver.
    + intros Hin. apply (Hdis _ Hin). set_solver.
Qed.


(** Two stores on one path of one claim: only the first has the mount that is named after
    it, although the containers are told that the second is mounted as well. *)
Theorem attachStore_shared m a b fa fb :
  validateNsStoreNSFS a = true → validateNsStoreNSFS b = true → nss_NSFS (ns_Spec a) = Some fa → nss_NSFS (ns_Spec b) = Some fb →
  nsfs_PvcName fa = nsfs_PvcName fb → nsfs_SubPath fa = nsfs_SubPath fb →
  (∀ v v', v ∈ mn_Volumes (attachStore m a) → v' ∈ mn_Volumes (attachStore m a) → claimIs (nsfs_PvcName fb) v → claimIs (nsfs_PvcName fb) v' → v = v') →
  let m1 := attachStore m a in
  mn_VolumeMounts (attachStore m1 b) = mn_VolumeMounts m1 ∧ ("NSFS_NSR_" +:+ om_Name (ns_meta b)) ∈ (ev_Name <$> mn_Env (attachStore m1 b)).
Proof.
  intros Hva Hvb Hfa Hfb Hc Hs Hone m1. split; [|by destruct (attachStore_attached m1 b fb Hvb Hfb)].
  destruct (attachStore_attached m a fa Hva Hfa) as [(v & x & Hv & Hsrc & Hx & Hn & Hsub) _]. fold m1 in Hv, Hx. rewrite Hc in Hsrc.
  assert (Hcl : claimIs (nsfs_PvcName fb) v = true) by (unfold claimIs; rewrite Hsrc; by apply bool_decide_eq_true).
  unfold attachStore at 1. rewrite Hvb, Hfb. cbn [negb].
  destruct (find (claimIs (nsfs_PvcName fb)) (mn_Volumes m1)) as [v'|] eqn:E.
  2: { eapply find_none in E; [|by apply list_elem_of_In]. congruence. }
  apply find_some in E as [Hin%list_elem_of_In Hcl'].
  assert (v = v') as <- by (apply Hone; [exact Hv|exact Hin|by rewrite Hcl|by rewrite Hcl']). cbn [mn_VolumeMounts].
  assert (existsb (λ x, (pm_Name x == pvl_Name v) && (pm_SubPath x == nsfs_SubPath fb)) (mn_VolumeMounts m1) = true) as ->; [|done].
  apply existsb_exists. exists x. split; [by apply list_elem_of_In|]. rewrite !bool_decide_eq_true_2; [done|congruence|done].
Qed.
End MountFacts.

(** ** The pods of the core *)

Section CoreFacts.
Context {QA : QuantityApi} `{AuthoritySyntax} {AP : AgentProfileJson} (Getenv : string → string) (LookupEnv : string → option string).
Context {W : Type} {SS : ApiServer W Secret} {SM : ApiServer W ConfigMap} {SD : ApiServer W (Workload QA)}.
Context (OperatorImage : string) (operatorDeployment : ObjectMeta) (coreOverride logOverride : option (ResourceRequirements QA)).
Implicit Types (w : W) (r : WorkloadSystem QA) (m : Mounts) (volumes : list PodVolume).

(** The volumes that are added after the containers have mounted them. *)
Definition isLate w r (n : string) : Prop :=
  isDb r n ∨ caBundle w r = Ret (Some n) ∨ pgSSLSecret w r = Ret (Some n) ∨ (guaranteed r = true ∧ n = wl_BucketLoggingVolume r).
Definition more volumes volumes' : Prop := ∀ n, n ∈ (pvl_Name <$> volumes) → n ∈ (pvl_Name <$> volumes').
#[local] Instance more_preorder : PreOrder more.
Proof. split; [by intros v n|]. intros a b c Hab Hbc n Hn. auto. Qed.
Lemma more_mergeVolume v m : more (mn_Volumes m) (mn_Volumes (mergeVolume v m)).
Proof. intros n Hn. apply MergeByName_one. by left. Qed.
Lemma pending_more P volumes volumes' mounts : more volumes volumes' → pending P volumes mounts → pending P volumes' mounts.
Proof. intros Hv Hm n Hn. destruct (Hm n Hn); auto. Qed.
Lemma more_connections r m : more (mn_Volumes m) (mn_Volumes (attachConnections r m)).
Proof.
  unfold attachConnections. generalize (bn_Connections (notifications r)). intros l. revert m.
  induction l as [|s l IH]; intros m; [done|]. etrans; [|apply IH]. exact (more_mergeVolume _ (mergeMount _ m)).
Qed.
Lemma more_rootKeys w r m m' : setDesiredRootMasterKeyMounts w r m = Ret m' → more (mn_Volumes m) (mn_Volumes m').
Proof.
  unfold setDesiredRootMasterKeyMounts. destruct (_ >? _)%Z; [by intros [= <-]|].
  destruct (presentSecret w _) as [[name|]|]; cbn [mbind outcome_bind]; [| |done]; intros [= <-]; [apply more_mergeVolume|done].
Qed.

Lemma mountCa_pends w r m m' : mountCa w r m = Ret m' → pends (isLate w r) m → pends (isLate w r) m' ∧ mn_Volumes m' = mn_Volumes m.
Proof.
  unfold mountCa. destruct (caBundle w r) as [[name|]|] eqn:E; cbn [mbind outcome_bind]; [| |done]; intros [= <-] Hm; [|done].
  split; [|done]. apply pends_mergeMount; [|done]. left. right. by left.
Qed.

Lemma coreMounts_pends w r volumes c m :
  coreMounts LookupEnv w r volumes c = Ret m → pending (isLate w r) volumes (ct_VolumeMounts c) → pends (isLate w r) m ∧ more volumes (mn_Volumes m).
Proof.
  intros Hrun Hm. unfold coreMounts in Hrun. apply bind_Ret in Hrun as (m0 & H0 & Hrun). pose proof (more_rootKeys _ _ _ _ H0) as Hmore.
  cbn [mn_Volumes] in Hmore. apply (pends_rootKeys (isLate w r)) in H0; [|done].
  set (m1 := mountDb r _) in Hrun. assert (pends (isLate w r) m1 ∧ mn_Volumes m1 = mn_Volumes m0) as [H1 Hv1].
  { unfold m1, mountDb. destruct (dbSecret r) as [[name secret]|] eqn:E; [|done]. split; [|done].
    apply pends_mergeMount; [|done]. left. left. by exists secret. }
  clearbody m1. apply bind_Ret in Hrun as (m2 & H2 & Hrun). apply mountCa_pends in H2 as [H2 Hv2]; [|done].
  apply bind_Ret in Hrun as (ssl & Hs & Hrun). cbv zeta in Hrun. injection Hrun as <-.
  set (m3 := match ssl with Some _ => _ | None => _ end). assert (pends (isLate w r) m3 ∧ mn_Volumes m3 = mn_Volumes m2) as [H3 Hv3].
  { unfold m3. destruct ssl as [name|]; [|done]. split; [|done]. apply pends_mergeMount; [|done]. left. right. right. by left. }
  clearbody m3. set (m4 := if guaranteed r then _ else _). assert (pends (isLate w r) m4 ∧ mn_Volumes m4 = mn_Volumes m3) as [H4 Hv4].
  { unfold m4. destruct (guaranteed r) eqn:E; [|done]. split; [|done]. apply pends_mergeMount; [|done]. left. right. right. by right. }
  clearbody m4. assert (Hall : more volumes (mn_Volumes m4)) by (rewrite Hv4, Hv3, Hv2, Hv1; done).
  destruct (bn_Enabled (notifications r)); [|done]. split.
  - apply pends_connections, pends_mergeVolume, pends_mergeMount; [by left; right|]. eapply pends_weaken; [|done]. auto.
  - etrans; [exact Hall|]. etrans; [|apply more_connections]. exact (more_mergeVolume _ (mergeMount _ m4)).
Qed.

Definition startsResolved (P : string → Prop) volumes (c : Container QA) (d : option (Container QA)) : Prop :=
  pending P volumes (ct_VolumeMounts (default c d)).
Lemma coreContainer_pends w r volumes c d c' volumes' :
  coreContainer Getenv LookupEnv coreOverride logOverride w r volumes c d = Ret (c', volumes') → startsResolved (isLate w r) volumes c d →
  pending (isLate w r) volumes' (ct_VolumeMounts c') ∧ more volumes volumes'.
Proof.
  intros Hrun Hm. unfold coreContainer in Hrun. apply bind_Ret in Hrun as (c1 & Hc & Hrun).
  assert (H1 : pending (isLate w r) volumes (ct_VolumeMounts c1)).
  { unfold overDefault in Hc. apply bind_Ret in Hc as (env & _ & Hc). injection Hc as <-. by destruct d. }
  cbv zeta in Hrun. destruct (ct_Name c1 == "core").
  - apply bind_Ret in Hrun as (m & Hcm & Hrun). apply bind_Ret in Hrun as (res & _ & Hrun). injection Hrun as <- <-.
    by apply coreMounts_pends in Hcm.
  - destruct (ct_Name c1 == "noobaa-log-processor"); [|by injection Hrun as <- <-].
    apply bind_Ret in Hrun as (res & _ & Hrun). apply bind_Ret in Hrun as (m & Hca & Hrun). injection Hrun as <- <-.
    apply mountCa_pends in Hca as [? Hv]; [|done]. split; [done|]. by rewrite Hv.
Qed.

Fixpoint startResolved (P : string → Prop) volumes (cs ds : list (Container QA)) : Prop :=
  match cs with
  | [] => True
  | c :: cs => startsResolved P volumes c (head ds) ∧ startResolved P volumes cs (tail ds)
  end.
Lemma coreContainers_pends w r volumes cs ds cs' volumes' :
  coreContainers Getenv LookupEnv coreOverride logOverride w r volumes cs ds = Ret (cs', volumes') → startResolved (isLate w r) volumes cs ds →
  Forall (λ c, pending (isLate w r) volumes' (ct_VolumeMounts c)) cs' ∧ more volumes volumes'.
Proof.
  revert volumes ds cs'. induction cs as [|c cs IH]; intros volumes ds cs' Hrun Hm; cbn [coreContainers] in Hrun; [by injection Hrun as <- <-|].
  destruct Hm as [Hc Hcs]. apply bind_Ret in Hrun as ([c1 v1] & H1 & Hrun). apply bind_Ret in Hrun as ([cs1 v2] & H2 & Hrun). injection Hrun as <- <-.
  apply coreContainer_pends in H1 as [H1 Hmore1]; [|done]. apply IH in H2 as [H2 Hmore2].
  - split; [constructor; [by eapply pending_more|done]|by etrans].
  - clear -Hcs Hmore1. revert ds Hcs. induction cs as [|x cs IH]; intros ds; [done|]. cbn. intros [Hx Hxs]. split; [|apply IH, Hxs].
    by eapply pending_more.
Qed.

Lemma coreVolumes_late w r volumes volumes' : coreVolumes w r volumes = Ret volumes' →
  more volumes volumes' ∧ ∀ n, isLate w r n → n ∈ (pvl_Name <$> volumes').
Proof.
  intros Hrun. unfold coreVolumes in Hrun. apply bind_Ret in Hrun as (ca & Hca & Hrun). apply bind_Ret in Hrun as (ssl & Hssl & Hrun).
  cbv zeta in Hrun. injection Hrun as <-.
  set (m1 := match ca with Some _ => _ | None => _ end). set (m2 := match ssl with Some _ => _ | None => _ end). set (m3 := if guaranteed r then _ else _).
  assert (H1 : more volumes (mn_Volumes m1) ∧ ∀ n, ca = Some n → n ∈ (pvl_Name <$> mn_Volumes m1)).
  { unfold m1. destruct ca as [name|]; [|done]. split; [exact (more_mergeVolume _ (mkMounts volumes [] []))|]. intros n [= <-]. apply MergeByName_one. by right. }
  assert (H2 : more (mn_Volumes m1) (mn_Volumes m2) ∧ ∀ n, ssl = Some n → n ∈ (pvl_Name <$> mn_Volumes m2)).
  { unfold m2. destruct ssl as [name|]; [|done]. split; [apply more_mergeVolume|]. intros n [= <-]. apply MergeByName_one. by right. }
  assert (H3 : more (mn_Volumes m2) (mn_Volumes m3) ∧ (guaranteed r = true → wl_BucketLoggingVolume r ∈ (pvl_Name <$> mn_Volumes m3))).
  { unfold m3. destruct (guaranteed r); [|done]. split; [apply more_mergeVolume|]. intros _. apply MergeByName_one. by right. }
  clearbody m1 m2 m3. assert (H4 : more (mn_Volumes m3) (mn_Volumes (dbVolume r m3)) ∧ ∀ n, isDb r n → n ∈ (pvl_Name <$> mn_Volumes (dbVolume r m3))).
  { unfold dbVolume, isDb. destruct (dbSecret r) as [[name secret]|]; [|split; [done|by intros n [s Hs]]]. split; [apply more_mergeVolume|].
    intros n [s [= -> _]]. apply MergeByName_one. by right. }
  destruct H1 as [M1 H1], H2 as [M2 H2], H3 as [M3 H3], H4 as [M4 H4]. split; [by do 3 (etrans; [eassumption|])|].
  intros n [Hn|[Hn|[Hn|[Hg ->]]]]; [by apply H4|apply M4, M3, M2, H1|apply M4, M3, H2|by apply M4, H3]; congruence.
Qed.

(** C23: The pods of the core can be admitted: every mount of every container is of a volume of
    the pod, if that is so for the defaults and for the containers that have none. *)
Theorem SetDesiredCoreApp_resolved w r s s' :
  startResolved (λ _, False) (pod_Volumes (wl_DefaultCoreApp r)) (pod_Containers (wk_Pod s)) (pod_Containers (wl_DefaultCoreApp r)) →
  SetDesiredCoreApp Getenv LookupEnv OperatorImage operatorDeployment coreOverride logOverride w r s = Ret s' →
  Forall (λ c, resolved (pod_Volumes (wk_Pod s')) (ct_VolumeMounts c)) (pod_Containers (wk_Pod s')).
Proof.
  intros Hstart Hrun. unfold SetDesiredCoreApp in Hrun. cbv zeta in Hrun. do 4 (apply bind_Ret in Hrun as (? & _ & Hrun)).
  apply bind_Ret in Hrun as ([containers volumes] & Hc & Hrun). apply bind_Ret in Hrun as (volumes' & Hv & Hrun). injection Hrun as <-.
  cbn [wk_Pod pod_Volumes pod_Containers]. apply coreContainers_pends in Hc as [Hc _].
  - apply coreVolumes_late in Hv as [Hmore Hlate]. eapply Forall_impl; [exact Hc|]. intros c Hp. apply resolved_pending. intros n Hn. right.
    destruct (Hp n Hn); auto.
  - clear -Hstart. revert Hstart. generalize (pod_Containers (wl_DefaultCoreApp r)). induction (pod_Containers (wk_Pod s)) as [|c cs IH]; intros ds; [done|].
    cbn. intros [Hx Hxs]. split; [|by apply IH]. intros n Hn. destruct (Hx n Hn) as [[]|?]. by right.
Qed.

(** ** Secrets in the environment *)

Lemma mapM_Ret {A B} (f : A → outcome B) l k : mapM f l = Ret k → ∀ y, y ∈ k → ∃ x, x ∈ l ∧ f x = Ret y.
Proof.
  revert k. induction l as [|x l IH]; intros k; cbn [mapM]; [intros [= <-] y Hy; by apply elem_of_nil in Hy|].
  intros Hr. apply bind_Ret in Hr as (y0 & Hy0 & Hr). apply bind_Ret in Hr as (k0 & Hk0 & Hr). injection Hr as <-.
  intros y [->|Hy]%elem_of_cons; [exists x; split; [by left|done]|]. destruct (IH _ Hk0 y Hy) as (x' & ? & ?). exists x'. split; [by right|done].
Qed.
Lemma coreVariable_name r e e' : coreVariable r e = Ret e' → ev_Name e' = ev_Name e.
Proof.
  unfold coreVariable, dbCredential, cleared. intros Hr.
  repeat match type of Hr with (if ?b then _ else _) = _ => destruct b end;
    repeat match type of Hr with
    | mbind _ _ = _ => apply bind_Ret in Hr as (? & _ & Hr)
    | (let '(_, _) := ?x in _) = _ => destruct x
    | (match ?x with _ => _ end) = _ => destruct x as [[? ?]|]
    end; injection Hr as <-; by repeat case_match.
Qed.
(** The entries about TLS are no secrets. *)
Lemma ApplyTLSEnvVars_in env tls e : e ∈ ApplyTLSEnvVars Getenv env tls →
  ∃ e0, e0 ∈ env ∧ ev_Name e = ev_Name e0 ∧ (HasPrefix (ev_Name e) "TLS_" = false → e = e0).
Proof.
  unfold ApplyTLSEnvVars. intros (e0 & -> & Hin)%list_elem_of_fmap. exists e0. split; [done|].
  repeat case_bool_decide; (split; [done|]); cbn; intros Hp; try done;
    by match goal with Heq : ev_Name e0 = _ |- _ => rewrite Heq in Hp; vm_compute in Hp end.
Qed.

(** C25: The root secret never reaches the environment of a container, and the password of the
    database never does in plain text; with a database cluster there is no reference
    either. *)
Theorem setDesiredCoreEnv_secrets r env env' e :
  setDesiredCoreEnv Getenv r env = Ret env' → e ∈ env' →
  ev_Name e ≠ "NOOBAA_ROOT_SECRET"%string ∧
  (ev_Name e = "POSTGRES_PASSWORD"%string → ev_Value e = ""%string ∧
    (shouldReconcileStandaloneDB (wl_NooBaa r) = true → ev_From e = secretKeyRef (wl_SecretDB r) "password") ∧
    (shouldReconcileCNPGCluster (wl_NooBaa r) = true → ev_From e = None)) ∧
  (ev_Name e = "POSTGRES_CONNECTION_STRING"%string → ev_Value e = ""%string ∧ ev_From e = None).
Proof.
  intros Hr He. unfold setDesiredCoreEnv in Hr. apply bind_Ret in Hr as (env1 & Hm & Hr). injection Hr as <-.
  apply ApplyTLSEnvVars_in in He as (e1 & He1 & Hn1 & Htls). destruct (mapM_Ret _ _ _ Hm e1 He1) as (e0 & He0 & Hv).
  apply list_elem_of_filter in He0 as [Hroot _]. pose proof (coreVariable_name _ _ _ Hv) as Hn0. split_and!; [congruence| |].
  - intros Hn. rewrite Htls by by rewrite Hn. clear Htls. destruct e0 as [n v f]. cbn [ev_Name] in *. assert (n = "POSTGRES_PASSWORD"%string) as -> by congruence.
    assert (coreVariable r (mkEnvVar "POSTGRES_PASSWORD" v f) = Ret (dbCredential r "password" (mkEnvVar "POSTGRES_PASSWORD" v f))) as Hd by reflexivity.
    rewrite Hd in Hv. injection Hv as <-. unfold dbCredential, shouldReconcileStandaloneDB, shouldReconcileCNPGCluster.
    by destruct (nbs_DBSpec (nb_Spec (wl_NooBaa r))), (nbs_ExternalPgSecret (nb_Spec (wl_NooBaa r))).
  - intros Hn. rewrite Htls by by rewrite Hn. destruct e0 as [n v f]. cbn [ev_Name] in *. assert (n = "POSTGRES_CONNECTION_STRING"%string) as -> by congruence.
    assert (coreVariable r (mkEnvVar "POSTGRES_CONNECTION_STRING" v f) = Ret (cleared (mkEnvVar "POSTGRES_CONNECTION_STRING" v f))) as Hd by reflexivity.
    rewrite Hd in Hv. by injection Hv as <-.
Qed.
End CoreFacts.

(** ** Validation *)

(** C40: The check of the endpoints, which the code says is a copy, accepts the stores that the
    check of the namespace stores accepts. *)
Theorem validateNsStoreNSFS_same ns : validateNsStoreNSFS ns = true ↔ ValidateNsStoreNSFS ns = ok.
Proof.
  destruct (nss_NSFS (ns_Spec ns)) as [f|] eqn:Hf.
  2: { unfold validateNsStoreNSFS, ValidateNsStoreNSFS. by rewrite Hf. }
  rewrite (ValidateNsStoreNSFS_ok ns f Hf). unfold validateNsStoreNSFS, subpath_valid. rewrite Hf. cbv zeta.
  rewrite !andb_true_iff, !negb_true_iff, bool_decide_eq_false, len_app, orb_true_iff, bool_decide_eq_true, andb_true_iff, negb_true_iff.
  change (len "/nsfs/") with 6%Z. rewrite Z.gtb_ltb, Z.ltb_ge.
  assert (Hitems : forallb (λ item, negb (item == "..")) (Split (nsfs_SubPath f) "/") = true ↔ ".."%string ∉ Split (nsfs_SubPath f) "/").
  { rewrite forallb_forall. split.
    - intros Ha Hin. apply list_elem_of_In, Ha in Hin. by rewrite bool_decide_eq_true_2 in Hin.
    - intros Hn x Hx%list_elem_of_In. apply negb_true_iff, bool_decide_eq_false. by intros ->. }
  rewrite Hitems. split; [intros [[? ?] ?]|intros (? & ? & ?)]; split_and!; try done; lia.
Qed.

(** ** Hosts *)

(** A text without spaces is one field. *)
Definition plain (a : ascii) : bool := (byte a <? 128)%Z && negb (IsSpace (byte a)).
Definition word (s : string) : Prop := s ≠ ""%string ∧ every plain s = true.

Lemma fields_word s cur l : every plain s = true →
  fields (Some cur) (segments s ++ l) = fields (Some (cur +:+ s)) l.
Proof.
  revert cur. induction s as [|a s IH]; intros cur; cbn [every]; [by rewrite string_app_nil_r|].
  intros [Ha Hs]%andb_prop. apply andb_prop in Ha as [Hb%Z.ltb_lt Hsp%negb_true_iff]. rewrite segments_ascii by done.
  cbn [app fields]. rewrite Hsp. cbn [default]. rewrite IH by done. by rewrite string_app_assoc.
Qed.
Lemma segments_plain_app s t : every plain s = true → segments (s +:+ t) = segments s ++ segments t.
Proof.
  induction s as [|a s IH]; cbn [every]; [done|]. intros [Ha Hs]%andb_prop. apply andb_prop in Ha as [Hb%Z.ltb_lt _].
  change (String a s +:+ t) with (String a (s +:+ t)). rewrite !segments_ascii by done. by rewrite IH.
Qed.
Lemma fields_start s l : word s → fields None (segments s ++ l) = fields (Some s) l.
Proof.
  intros [Hne Hs]. destruct s as [|a s]; [done|]. cbn [every] in Hs. apply andb_prop in Hs as [Ha Hs].
  apply andb_prop in Ha as [Hb%Z.ltb_lt Hsp%negb_true_iff]. rewrite segments_ascii by done. cbn [app fields]. rewrite Hsp. cbn [default].
  by rewrite fields_word.
Qed.
Lemma Fields_Join l : Forall word l → Fields (Join l " ") = l.
Proof.
  unfold Fields. induction 1 as [|s l Hs Hl IH]; [done|]. destruct l as [|t l].
  - cbn [Join]. rewrite <-(app_nil_r (segments s)). by rewrite fields_start.
  - change (Join (s :: t :: l) " ") with (s +:+ " " +:+ Join (t :: l) " "). rewrite segments_plain_app by apply Hs.
    rewrite fields_start by done. change (" " +:+ Join (t :: l) " ") with (String " " (Join (t :: l) " ")).
    rewrite segments_ascii by done. cbn [fields]. change (IsSpace (byte " ")) with true. cbv iota. by rewrite IH.
Qed.

Definition hostname (h : string) : Prop := h ≠ ""%string ∧ every hostChar h = true.
Lemma hostname_word h : hostname h → word h.
Proof.
  intros [Hne Hh]. split; [done|]. revert Hh. apply every_impl. intros a Ha. apply (check_bytes_spec plain); [by vm_compute|].
  unfold hostOrPortChar. by rewrite Ha.
Qed.

Lemma has_without s a : without a s = true → has s a = false.
Proof. intros Hs. unfold has. by rewrite Cut_without. Qed.
Lemma Cut_first s t a : without a s = true → Cut (s +:+ String a t) a = (s, t, true).
Proof.
  induction s as [|b s IH]; intros Hs.
  - cbn. by rewrite bool_decide_true.
  - cbn [every] in Hs. apply andb_prop in Hs as [Hb%negb_true_iff Hs]. change (String b s +:+ String a t) with (String b (s +:+ String a t)).
    cbn [Cut]. by rewrite Hb, IH.
Qed.
Lemma SplitHostPort_plain h p : hostname h → every isDigit p = true → SplitHostPort (h +:+ ":" +:+ p) = Some (h, p).
Proof.
  intros [Hne Hh] Hp. assert (Hw : ∀ a, check_bytes (λ b, negb (b == a)) = true → without a (h +:+ ":" +:+ p) = true).
  { intros a Ha. by apply hostPort_every. }
  assert (Hhc : without ":"%char h = true). { revert Hh. apply every_impl. intros a Ha. apply negb_true_iff, bool_decide_eq_false. by intros ->. }
  assert (Hpc : without ":"%char p = true). { revert Hp. apply every_impl. intros a Ha. apply negb_true_iff, bool_decide_eq_false. by intros ->. }
  assert (Hres : (let '(host, port, found) := Cut (h +:+ ":" +:+ p) ":" in
      if negb found || has port ":" || has (h +:+ ":" +:+ p) "[" || has (h +:+ ":" +:+ p) "]" then None else Some (host, port)) = Some (h, p)).
  { change (h +:+ ":" +:+ p) with (h +:+ String ":" p). rewrite (Cut_first h p ":") by done.
    rewrite (has_without p ":") by done. rewrite !has_without by (by apply Hw). done. }
  destruct h as [|b h]; [done|]. destruct (decide (b = "["%char)) as [->|Hb]; [by vm_compute in Hh|].
  rewrite <-Hres. unfold SplitHostPort. cbn [String.append]. clear -Hb.
  by destruct b as [[] [] [] [] [] [] [] []].
Qed.

(** The host of an address that [CheckServiceStatus] reports. *)
Lemma hostsOf_formatted `{AuthorityLaws} (l : list (string * Z)) :
  Forall (λ '(h, p), hostname h ∧ (0 ≤ p)%Z) l → hostsOf ((λ '(h, p), GetFormattedEndpoint "https" h p) <$> l) = fst <$> l.
Proof.
  unfold hostsOf. induction 1 as [|[h p] l [[Hne Hh] Hp] Hl IH]; [done|]. cbn [fmap list_fmap omap list_omap].
  destruct (Parse_https h (pretty p)) as (u & Hu & Hhost); [done|done|by apply pretty_digits|].
  unfold GetFormattedEndpoint. rewrite JoinHostPort_plain by done.
  change ("https" +:+ "://" +:+ h +:+ ":" +:+ pretty p) with ("https://" +:+ h +:+ ":" +:+ pretty p). rewrite Hu, Hhost.
  rewrite SplitHostPort_plain by (done || by apply pretty_digits). cbn. by f_equal.
Qed.

(** The virtual hosts that the status of a system shows are the names of its S3 service,
    those under which it is reached from outside, and those of the specification. *)
Theorem virtual_hosts_roundtrip `{AuthorityLaws} {QA} (r : WorkloadSystem QA) e e' services internal external (extra : list string) :
  nbst_Services (nb_Status (wl_NooBaa r)) = Some services →
  svs_InternalDNS (svcs_ServiceS3 services) = ((λ '(h, p), GetFormattedEndpoint "https" h p) <$> internal) →
  svs_ExternalDNS (svcs_ServiceS3 services) = ((λ '(h, p), GetFormattedEndpoint "https" h p) <$> external) →
  Forall (λ '(h, p), hostname h ∧ (0 ≤ p)%Z) (internal ++ external) →
  (default [] (eps_AdditionalVirtualHosts <$> nbs_Endpoints (nb_Spec (wl_NooBaa r)))) = extra → Forall word extra →
  ev_Name e = "VIRTUAL_HOSTS"%string → endpointVariable r e = Ret e' →
  Fields (ev_Value e') = (fst <$> internal) ++ (fst <$> external) ++ extra.
Proof.
  intros Hs Hi He Hplain Hextra Hwords Hname Hrun. apply Forall_app in Hplain as [Hpi Hpe].
  assert (Hvar : endpointVariable r e = hosts ← virtualHosts r; Ret (set_ev_Value (Join hosts " ") e)).
  { destruct e as [n v f]. cbn in Hname. subst n. reflexivity. }
  rewrite Hvar in Hrun. unfold virtualHosts in Hrun. rewrite Hs in Hrun. cbn [deref mbind outcome_bind] in Hrun.
  rewrite Hi, He, !hostsOf_formatted in Hrun by done. injection Hrun as <-. cbn [ev_Value set_ev_Value].
  assert ((match nbs_Endpoints (nb_Spec (wl_NooBaa r)) with Some e => eps_AdditionalVirtualHosts e | None => [] end) = extra) as ->
    by (rewrite <-Hextra; by destruct (nbs_Endpoints (nb_Spec (wl_NooBaa r)))).
  apply Fields_Join. rewrite !Forall_app. split_and!; [| |done]; rewrite Forall_fmap; (eapply Forall_impl; [eassumption|]);
    intros [h p] [Hh _]; by apply hostname_word.
Qed.
