(* ===== verification/Obc.v ===== *)
(** * Object bucket claims: [pkg/obc/provisioner.go] and [pkg/obc/validation.go].

    The callbacks of the bucket provisioner library: [Provision], [Grant], [Delete],
    [Revoke] and [Update].  A request connects to the system, resolves the bucket
    class, and then creates, updates or deletes a bucket and its account on the NooBaa
    server.  The state is the cluster [W] and the server [N]; log lines and Kubernetes
    events are left out. *)

From stdpp Require Import pretty.
From S2P Require Import Prelude GoStrings Types NbTypes Kube Util.
From S2P Require Import BackingStoreValidation GoUrl NooBaaValidation Controller Quota Buckets SystemServices.

(** What the library hands to [Provision] and [Grant]. *)
Record BucketOptions := mkBucketOptions {
  bo_ObjectBucketClaim : option ObjectBucketClaim;
  bo_BucketName : string;
  bo_Parameters : option (gmap string string);
}.

Record BucketRequest := mkBucketRequest {
  br_OB : ObjectBucket;
  br_OBC : option ObjectBucketClaim;
  br_BucketName : string;
  br_AccountName : string;
  br_SysClient : Client;
  br_BucketClass : option BucketClass;
}.

(** Labels that do not become tags of the bucket. *)
Definition excludeBucketTaggingLabelKeysSet : gset string :=
  list_to_set ["app"; "noobaa-domain"; "bucket-provisioner"; "remote-obc-name"; "remote-obc-namespace"; "remote-obc-uid";
               "storage-consumer-name"; "storage-consumer-uuid"]%string.

Inductive externalDNSService := externalDNSServiceS3 | externalDNSServiceVectors.
Definition externalDNSService_string (s : externalDNSService) : string :=
  match s with externalDNSServiceS3 => "s3" | externalDNSServiceVectors => "vectors" end.

(** [additionalConfig["..."]] of a claim. *)
Definition config (obc : ObjectBucketClaim) (k : string) : string := map_get (obc_AdditionalConfig obc) k.

Definition isVectorClass (bc : option BucketClass) : bool :=
  match bc with Some bc => negb (isNil (bcs_VectorPolicy (bc_Spec bc))) | None => false end.

(** [r.OB.Spec.Endpoint], a field of the connection. *)
Definition ob_Endpoint (ob : ObjectBucket) : outcome ObjectBucketEndpoint :=
  conn ← deref (ob_Connection ob); deref (obn_Endpoint conn).

(** ** Validation *)

Section Validation.
Context {QA : QuantityApi}.
Context (UnmarshalNsfs : string → msg + AccountNsfsConfig).
Context {Rule : Type} (UnmarshalReplication : string → msg + list Rule).
Context (connect : bool → option error) (ValidateReplicationAPI : string → list Rule → option error).

Definition validateAdditionalConfig (objectName : string) (additionalConfig : option (gmap string string)) (update isCLI : bool) : verdict :=
  match additionalConfig with
  | None => ok
  | Some _ =>
      let get := map_get additionalConfig in
      check (ValidateQuotaConfig_util objectName (get "maxSize") (get "maxObjects"))
      (check (ValidateReplicationPolicy UnmarshalReplication connect ValidateReplicationAPI objectName (get "replicationPolicy") update isCLI)
      (check (ValidateNSFSAccountConfig UnmarshalNsfs (get "nsfsAccountConfig") (get "bucketclass"))
      (reject! (get "bucketType" != "") && (get "bucketType" != "vector")
         with Errorf (Sprintf "OBC %q specifies unsupported bucketType %q (valid values: vector)" [AStr objectName; AStr (get "bucketType")]) ;;
       ok)))
  end.

Definition ValidateOBC (obc : option ObjectBucketClaim) (isCLI : bool) : verdict :=
  match obc with
  | None => ok
  | Some obc => validateAdditionalConfig (om_Name (obc_meta obc)) (obc_AdditionalConfig obc) false isCLI
  end.

Definition ValidateOB (ob : option ObjectBucket) (isCLI : bool) : verdict :=
  match ob with
  | None => ok
  | Some ob =>
      endpoint ← ob_Endpoint ob;
      validateAdditionalConfig (om_Name (ob_meta ob)) (obe_AdditionalConfigData endpoint) true isCLI
  end.
End Validation.

(** ** The bucket class of a request *)

Section ClassLookup.
Context {W : Type} {SC : ApiServer W BucketClass}.

Definition set_class_namespace (ns : string) (bc : BucketClass) : BucketClass := set_meta (set_om_Namespace ns (bc_meta bc)) bc.

Definition getBucketClassByName (w : W) (bucketClassName obcNamespace provisionerNS : string) : outcome (BucketClass * bool) :=
  if bucketClassName == "" then Ret (newBucketClass "" "", false)
  else
    '(bc, found) ← (if obcNamespace != "" then KubeCheck w (newBucketClass bucketClassName obcNamespace)
                    else Ret (newBucketClass bucketClassName "", false));
    if found : bool then Ret (bc, true) else KubeCheck w (set_class_namespace provisionerNS bc).

Definition getBucketClass (w : W) (obc : option ObjectBucketClaim) (options : option BucketOptions) (provisionerNS : string) :
    outcome (BucketClass * bool) :=
  match obc with
  | None => Ret (newBucketClass "" "", false)
  | Some obc =>
      let name := config obc "bucketclass" in
      let name := match options with
                  | Some o => if name == "" then map_get (bo_Parameters o) "bucketclass" else name
                  | None => name
                  end in
      getBucketClassByName w name (om_Namespace (obc_meta obc)) provisionerNS
  end.
End ClassLookup.

Definition getExternalDNSDetails `{AuthoritySyntax} (nb : option NooBaa) (svc : externalDNSService) : error + (string * Z) :=
  match nb ≫= (λ nb, nbst_Services (nb_Status nb)) with
  | None => inl (Errorf (Lit "no services found in status"))
  | Some services =>
      let externalDNS := svs_ExternalDNS (match svc with
                                          | externalDNSServiceS3 => svcs_ServiceS3 services
                                          | externalDNSServiceVectors => svcs_ServiceVectors services
                                          end) in
      let name := AStr (externalDNSService_string svc) in
      match externalDNS with
      | [] => inl (Errorf (Sprintf "no external %q service endpoint in status (Route or LoadBalancer)" [name]))
      | primaryExternalDNS :: _ =>
          match ParseRequestURI primaryExternalDNS with
          | inl err => inl (Errorf err)
          | inr uri =>
              match ParseInt (Port uri) 64 with
              | inl _ => inl (Errorf (Sprintf "failed to parse external DNS in %q service: port %q. got error: %v" [name; AStr (Port uri)]))
              | inr port => inr (Hostname uri, port)
              end
          end
      end
  end.

(** The error of an RPC, unless it has the given code. *)
Definition ignoring (code : string) (f : error → error) (err : option error) : option error :=
  match err with
  | Some (RPCError c m) => if c == code then None else Some (f (RPCError c m))
  | Some e => Some (f e)
  | None => None
  end.

Lemma ignoring_None code f err : ignoring code f err = None → err = None ∨ ∃ m, err = Some (RPCError code m).
Proof. destruct err as [[]|]; cbn; try done; [|by left]. case_bool_decide; [subst; eauto|done]. Qed.

Lemma map_get_lookup (m : gmap string string) k v : m !! k = Some v → map_get (Some m) k = v.
Proof. intros H. unfold map_get. change (Some m ≫= lookup k) with (m !! k). by rewrite H. Qed.

Definition emptyObjectMeta : ObjectMeta := named "" "".

(** ** Requests *)

(** A result with the state it leaves. *)
Abbreviation Reply N A := (outcome (N * (error + A))).

Section Provisioner.
Context {QA : QuantityApi} {AU : AuthoritySyntax}.
Context {W N : Type}.
Context {SP : ApiServer W RunningPod} {SV : ApiServer W Service} {SS : ApiServer W Secret} {SN : ApiServer W NooBaa}
        {SC : ApiServer W BucketClass}.
Context {NB : NBBucketClient N} {NT : NBTierClient N} {NA : NBAccountClient N}.
Context {Rule : Type} {NR : NBReplicationClient N (list Rule)}.
Context (Namespace SystemName : string) (bundleNooBaa : NooBaa) (bundleService : Service)
        (forwardPorts : Service → string → string → outcome (gmap Z Z)).
Context (UnmarshalNsfs : string → msg + AccountNsfsConfig) (UnmarshalReplication : string → msg + list Rule).
(** The connection and the check that the validation of replication rules makes. *)
Context (validatorConnect : bool → option error) (ValidateReplicationAPI : string → list Rule → option error).
(** [PutBucketTagging] of the S3 service: endpoint, keys, bucket, tags. *)
Context (PutBucketTagging : N → string → string → string → string → gmap string string → N * option error).
(** How a 64-bit conversion of a number out of range ends. *)
Context (outOfRange : float64 → Z).
(** The clock, in seconds. *)
Context (unixTime : Z).

Abbreviation connect := (Connect Namespace SystemName bundleNooBaa bundleService forwardPorts).

(** The new object bucket of a claim. *)
Definition newObjectBucket (host : string) (port : Z) (bucket account className : string) (generation : Z)
    (additionalConfig : gmap string string) : ObjectBucket :=
  mkObjectBucket emptyObjectMeta
    (Some (mkObjectBucketConnection (Some (mkObjectBucketEndpoint host port bucket (Some additionalConfig))) None
             (Some (<["account" := account]> (<["bucketclass" := className]> {["bucketclassgeneration" := pretty generation]})))))
    None.

(** [strconv.Atoi(url.Port())]. *)
Definition parsePort (what : string) (u : URL) : error + Z :=
  match ParseInt (Port u) 64 with
  | inl _ => inl (Errorf (Sprintf ("failed to parse " +:+ what +:+ " port %q. got error: %v") [AStr (URL_text u)]))
  | inr port => inr port
  end.

(** [NewBucketRequest(p, nil, bucketOptions)]. *)
Definition requestOfClaim (w : W) (client : Client) (s3Port vectorsPort : Z) (options : BucketOptions) :
    outcome (error + BucketRequest) :=
  obc ← deref (bo_ObjectBucketClaim options);
  let bucketName := bo_BucketName options in
  let accountName := "obc-account." +:+ bucketName +:+ "." +:+ FormatHex unixTime +:+ "@noobaa.io" in
  let ownName := config obc "bucketclass" in
  let bucketClassName := if ownName == "" then map_get (bo_Parameters options) "bucketclass" else ownName in
  if bucketClassName == "" then
    Ret (inl (Errorf (Sprintf "failed to find bucket class in OBC %s or storage class %s"
                        [AStr (om_Name (obc_meta obc)); AStr (obc_StorageClassName obc)])))
  else
    '(bc, exists_) ← getBucketClass w (Some obc) (Some options) Namespace;
    if negb exists_ then
      Ret (inl (Errorf (if om_Name (bc_meta bc) == "" then
                          Sprintf "failed to find bucket class name in OBC %s or storage class %s"
                            [AStr (om_Name (obc_meta obc)); AStr (obc_StorageClassName obc)]
                        else Sprintf "BucketClass %q not found in namespace %q" [AStr bucketClassName; AStr Namespace])))
    else if bcst_Phase (bc_Status bc) != BucketClassPhaseReady then
      Ret (inl (Errorf (Sprintf "BucketClass %q is not ready" [AStr bucketClassName])))
    else
      let vector := isVectorClass (Some bc) in
      let internal := if vector then (Hostname (cl_VectorsURL client), vectorsPort) else (Hostname (cl_S3URL client), s3Port) in
      let '(host, port) :=
        if IsRemoteObcAnnotation (om_Annotations (obc_meta obc)) then
          match getExternalDNSDetails (Some (cl_NooBaa client))
                  (if vector then externalDNSServiceVectors else externalDNSServiceS3) with
          | inl _ => internal
          | inr external => external
          end
        else internal in
      let ob := newObjectBucket host port bucketName accountName bucketClassName (om_Generation (bc_meta bc))
                  (default ∅ (obc_AdditionalConfig obc)) in
      Ret (inr (mkBucketRequest ob (Some obc) bucketName accountName client (Some bc))).

(** [NewBucketRequest(p, ob, nil)]. *)
Definition requestOfBucket (w : W) (client : Client) (ob : ObjectBucket) : outcome (error + BucketRequest) :=
  match ob_Connection ob with
  | Some (mkObjectBucketConnection (Some endpoint) auth state) =>
      '(bc, _) ← getBucketClassByName w (map_get state "bucketclass") (default ""%string (ob_ClaimNamespace ob)) Namespace;
      let endpoint := mkObjectBucketEndpoint (obe_BucketHost endpoint) (obe_BucketPort endpoint) (obe_BucketName endpoint)
                        (Some (default ∅ (obe_AdditionalConfigData endpoint))) in
      let ob := mkObjectBucket (ob_meta ob) (Some (mkObjectBucketConnection (Some endpoint) auth state)) (ob_ClaimNamespace ob) in
      Ret (inr (mkBucketRequest ob None (obe_BucketName endpoint) (map_get state "account") client (Some bc)))
  | _ => Ret (inl (Errorf (Lit "ObjectBucket has no connection/endpoint info %+v")))
  end.

Definition NewBucketRequest (w : W) (input : BucketOptions + ObjectBucket) : outcome (W * (error + BucketRequest)) :=
  '(w, client) ← connect w false;
  match client with
  | inl err => Ret (w, inl err)
  | inr client =>
      match parsePort "s3" (cl_S3URL client), parsePort "vectors" (cl_VectorsURL client) with
      | inl err, _ => Ret (w, inl err)
      | _, inl err => Ret (w, inl err)
      | inr s3Port, inr vectorsPort =>
          r ← match input with
              | inl options => requestOfClaim w client s3Port vectorsPort options
              | inr ob => requestOfBucket w client ob
              end;
          Ret (w, r)
      end
  end.

(** ** Buckets *)

Definition UpdateBucket (n : N) (r : BucketRequest) : outcome (N * option error) :=
  match br_BucketClass r with
  | None => Ret (n, Some (Errorf (Lit "BucketClass not loaded")))
  | Some bc =>
      match nb_ReadBucket n (br_BucketName r) with
      | inl _ => Ret (n, Some (Errorf (Sprintf "Bucket %q doesn't exist" [AStr (br_BucketName r)])))
      | inr bucket =>
          endpoint ← ob_Endpoint (br_OB r);
          match GetQuotaConfig (br_BucketName r) (bc_Spec bc) (obe_AdditionalConfigData endpoint) with
          | inl err => Ret (n, Some err)
          | inr quota =>
              if IsEqual (Some quota) (bkt_Quota bucket) then Ret (n, None)
              else
                err ← ValidateQuotaAgainstBucketUsage outOfRange (Some bucket) (Some quota);
                match err with
                | Some err => Ret (n, Some err)
                | None =>
                    match nb_UpdateBucket n (mkCreateBucketParams (br_BucketName r) "" None None (Some quota) None) with
                    | (n, Some err) => Ret (n, Some (Errorf (Sprintf "failed to update bucket %q with error: %v"
                                                              [AStr (br_BucketName r); AMsg (Error err)])))
                    | (n, None) => Ret (n, None)
                    end
                end
          end
      end
  end.

Definition existsError (format bucket : string) : error := BucketExistsError (Sprintf format [AStr bucket]).

(** The request to create a bucket, or the error of an inner path or of the tiers. *)
Definition bucketParams (n : N) (r : BucketRequest) (obc : ObjectBucketClaim) (bc : BucketClass) : Reply N CreateBucketParams :=
  let spec := bc_Spec bc in
  let name := br_BucketName r in
  let claim := Some (mkBucketClaimInfo (om_Name (bc_meta bc)) (om_Namespace (obc_meta obc))) in
  '(n, tiering) ← match bcs_PlacementPolicy spec with
                  | None => Ret (n, inr (""%string, None))
                  | Some placement =>
                      if config obc "path" != "" then
                        Ret (n, inl (Errorf (Sprintf "Could not create OBC %q with inner path while missing namespace bucketclass"
                                               [AStr (om_Name (obc_meta obc))])))
                      else
                        let '(n, tierName, err) := CreateTieringStructure n placement name unixTime in
                        match err with
                        | Some err => Ret (n, inl (Errorf (Sprintf "CreateTieringStructure for PlacementPolicy failed to create policy %q with error: %v"
                                                             [AStr tierName; AMsg (Error err)])))
                        | None =>
                            Ret (n, inr (tierName,
                              (λ ap, mkArchivePolicyConfig (Some (mkNamespaceResourceFullConfig (ap_DeepArchiveResource ap) "")))
                                <$> bcs_ArchivePolicy spec))
                        end
                  end;
  match tiering with
  | inl err => Ret (n, inl err)
  | inr (tierName, archive) =>
      ns ← match bcs_NamespacePolicy spec with
           | None => Ret None
           | Some policy =>
               let path := if config obc "path" == "" then name else config obc "path" in
               info ← CreateNamespaceBucketInfoStructure policy path; Ret (Some info)
           end;
      Ret (n, inr (mkCreateBucketParams name tierName claim ns None archive))
  end.

(** The rules that a new bucket starts with: of the claim, else of the class. *)
Definition PrepareReplicationParams (bucketName replicationPolicy : string) (update : bool) : error + option (list Rule) :=
  if (replicationPolicy == "") && update then inr None
  else
    match UnmarshalReplication replicationPolicy with
    | inl err => inl (Errorf (Sprintf "PrepareReplicationParams: Failed to parse replication json %q: %v" [AMsg err]))
    | inr rules => inr (Some rules)
    end.

Definition createVectorBucket (n : N) (r : BucketRequest) (obc : ObjectBucketClaim) (bc : BucketClass) (vp : VectorPolicy) :
    N * option error :=
  let name := br_BucketName r in
  let params := mkCreateVectorBucketParams name (vp_VectorDBType vp)
                  (Some (mkNamespaceResourceFullConfig (vp_Resource vp) (config obc "path")))
                  (Some (mkBucketClaimInfo (om_Name (bc_meta bc)) (om_Namespace (obc_meta obc)))) in
  match nb_CreateVectorBucket n params with
  | (n, Some (RPCError code m)) =>
      if code == "BUCKET_ALREADY_EXISTS" then (n, Some (existsError "Vector bucket %q already exists" name))
      else (n, Some (Errorf (Sprintf "Failed to create vector bucket %q with error: %v" [AStr name; AMsg m])))
  | (n, Some err) => (n, Some (Errorf (Sprintf "Failed to create vector bucket %q with error: %v" [AStr name; AMsg (Error err)])))
  | (n, None) =>
      (n, match nb_GetVectorBucket n name with
          | Some err => Some (Errorf (Sprintf "Failed to read vector bucket %q after creation: %v" [AStr name; AMsg (Error err)]))
          | None => None
          end)
  end.

(** Whether a read of the bucket lets the creation go on. *)
Definition absent (name : string) (read : option error) : option error :=
  match read with
  | None => Some (existsError "Bucket %q already exists" name)
  | Some (RPCError code m) => if code != "NO_SUCH_BUCKET" then Some (RPCError code m) else None
  | Some _ => None
  end.

Definition CreateAndUpdateBucket (n : N) (r : BucketRequest) : outcome (N * option error) :=
  let name := br_BucketName r in
  let read := if isVectorClass (br_BucketClass r) then nb_GetVectorBucket n name
              else match nb_ReadBucket n name with inl err => Some err | inr _ => None end in
  match absent name read with
  | Some err => Ret (n, Some err)
  | None =>
      match br_BucketClass r with
      | None => Ret (n, Some (Errorf (Lit "BucketClass not loaded")))
      | Some bc =>
          obc ← deref (br_OBC r);
          if (config obc "bucketType" == "vector") && negb (isVectorClass (Some bc)) then
            Ret (n, Some (Errorf (Sprintf "OBC %q specifies bucketType %q but BucketClass %q does not have a VectorPolicy"
                                    [AStr (om_Name (obc_meta obc)); AStr (config obc "bucketType"); AStr (om_Name (bc_meta bc))])))
          else
            match bcs_VectorPolicy (bc_Spec bc) with
            | Some vp => Ret (createVectorBucket n r obc bc vp)
            | None =>
                let policy := if config obc "replicationPolicy" != "" then config obc "replicationPolicy"
                              else bcs_ReplicationPolicy (bc_Spec bc) in
                match (if policy != "" then PrepareReplicationParams name policy false else inr None) with
                | inl err => Ret (n, Some err)
                | inr replication =>
                    '(n, params) ← bucketParams n r obc bc;
                    match params with
                    | inl err => Ret (n, Some err)
                    | inr params =>
                        let '(n, err) := nb_CreateBucket n params in
                        match err with
                        | Some err =>
                            let failed := Errorf (Sprintf "Failed to create bucket %q with error: %v" [AStr name; AMsg (Error err)]) in
                            Ret (n, Some match err with
                                         | RPCError code _ =>
                                             if code == "BUCKET_ALREADY_EXISTS" then existsError "Bucket %q already exists" name else failed
                                         | _ => failed
                                         end)
                        | None =>
                            let '(n, err) := match replication with
                                             | Some rules => nb_PutBucketReplication n name rules
                                             | None => (n, None)
                                             end in
                            match err with
                            | Some err => Ret (n, Some (Errorf (Sprintf "Provisioner Failed to update replication on bucket %q with error: %v"
                                                                  [AStr name; AMsg (Error err)])))
                            | None => UpdateBucket n r
                            end
                        end
                    end
                end
            end
      end
  end.

(** Whether the deletion of a request is that of a vector bucket. *)
Definition deletesVector (r : BucketRequest) : outcome bool :=
  if isVectorClass (br_BucketClass r) then Ret true
  else endpoint ← ob_Endpoint (br_OB r); Ret (map_get (obe_AdditionalConfigData endpoint) "bucketType" == "vector").

Definition DeleteBucket (n : N) (r : BucketRequest) : outcome (N * option error) :=
  let name := br_BucketName r in
  isVector ← deletesVector r;
  let namespaced := match br_BucketClass r with Some bc => negb (isNil (bcs_NamespacePolicy (bc_Spec bc))) | None => false end in
  let '(n, err) := if isVector : bool then nb_DeleteVectorBucket n name
                   else if namespaced then nb_DeleteBucket n name
                   else nb_DeleteBucketAndObjects n name in
  Ret (n, ignoring "NO_SUCH_BUCKET" (λ err, Errorf (Sprintf "failed to delete bucket %q. got error: %v" [AStr name; AMsg (Error err)])) err).

Definition updateReplicationPolicy (n : N) (r : BucketRequest) (ob : ObjectBucket) : outcome (N * option error) :=
  endpoint ← ob_Endpoint ob;
  let newReplication := map_get (obe_AdditionalConfigData endpoint) "replicationPolicy" in
  let obName := om_Name (ob_meta ob) in
  match PrepareReplicationParams (br_BucketName r) newReplication true with
  | inl err => Ret (n, Some err)
  | inr None =>
      let '(n, err) := nb_DeleteBucketReplication n (br_BucketName r) in
      Ret (n, (λ err, Errorf (Sprintf "Provisioner Failed to remove replication of bucket %q with error: %v" [AStr obName; AMsg (Error err)])) <$> err)
  | inr (Some rules) =>
      let '(n, err) := nb_PutBucketReplication n (br_BucketName r) rules in
      Ret (n, (λ err, Errorf (Sprintf "Provisioner Failed to update replication on bucket %q with error: %v" [AStr obName; AMsg (Error err)])) <$> err)
  end.

(** ** Accounts *)

(** [Tiers[0].BackingStores[0]]. *)
Definition firstBackingStore (policy : PlacementPolicy) : outcome string :=
  match pp_Tiers policy with
  | tier :: _ => match tier_BackingStores tier with store :: _ => Ret store | [] => Panic IndexOutOfRange end
  | [] => Panic IndexOutOfRange
  end.

(** The configuration of the claim's account.  The code also compares the address of
    [UID] with that of a local variable, which are never the same. *)
Definition claimNsfsConfig (obc : ObjectBucketClaim) : error + option AccountNsfsConfig :=
  let text := config obc "nsfsAccountConfig" in
  if text == "" then inr None
  else
    match UnmarshalNsfs text with
    | inl err => inl (Errorf (Sprintf "failed to parse NSFS config %q: %w" [AStr text; AMsg err]))
    | inr c => inr (Some (mkAccountNsfsConfig (nac_UID c) (nac_GID c) "" true (nac_DistinguishedName c)))
    end.

Definition set_br_OB (ob : ObjectBucket) (r : BucketRequest) : BucketRequest :=
  mkBucketRequest ob (br_OBC r) (br_BucketName r) (br_AccountName r) (br_SysClient r) (br_BucketClass r).

(** The keys and the account of the claim in its object bucket. *)
Definition withAccount (r : BucketRequest) (keys : S3AccessKeys) (arn : string) : outcome BucketRequest :=
  conn ← deref (ob_Connection (br_OB r));
  state ← map_set (obn_AdditionalState conn) "arn" arn;
  let conn := mkObjectBucketConnection (obn_Endpoint conn)
                (Some (mkObjectBucketAccessKeys (s3k_AccessKey keys) (s3k_SecretKey keys))) state in
  Ret (set_br_OB (mkObjectBucket (ob_meta (br_OB r)) (Some conn) (ob_ClaimNamespace (br_OB r))) r).

Definition CreateAccount (n : N) (r : BucketRequest) : Reply N BucketRequest :=
  bc ← deref (br_BucketClass r);
  defaultResource ← match bcs_PlacementPolicy (bc_Spec bc) with Some policy => firstBackingStore policy | None => Ret ""%string end;
  obc ← deref (br_OBC r);
  match claimNsfsConfig obc with
  | inl err => Ret (n, inl err)
  | inr nsfs =>
      let account := br_AccountName r in
      let '(n, reply) := nb_CreateAccount n (mkCreateAccountParams account account false true false defaultResource None (br_BucketName r) nsfs) in
      match reply with
      | inl err => Ret (n, inl err)
      | inr info =>
          match car_AccessKeys info with
          | keys :: _ => r ← withAccount r keys (car_ARN info); Ret (n, inr r)
          | [] =>
              match nb_ReadAccount n account with
              | inl err => Ret (n, inl err)
              | inr read =>
                  match acc_AccessKeys read with
                  | keys :: _ => r ← withAccount r keys (car_ARN info); Ret (n, inr r)
                  | [] => Panic IndexOutOfRange
                  end
              end
          end
      end
  end.

Definition DeleteAccount (n : N) (r : BucketRequest) : N * option error :=
  let account := br_AccountName r in
  let '(n, err) := nb_DeleteAccount n account in
  (n, ignoring "NO_SUCH_ACCOUNT" (λ err, Errorf (Sprintf "failed to delete account %q. got error: %v" [AStr account; AMsg (Error err)])) err).

(** ** Callbacks *)

Definition UpdateBucketTagging (n : N) (client : Client) (obc : option ObjectBucketClaim) : outcome (N * option error) :=
  match obc ≫= (λ obc, (obc,.) <$> om_Labels (obc_meta obc)) with
  | None => Ret (n, Some (Errorf (Lit "OBC is not provided or doesn't contain any label")))
  | Some (obc, labels) =>
      services ← deref (nbst_Services (nb_Status (cl_NooBaa client)));
      match svs_InternalDNS (svcs_ServiceS3 services) with
      | [] => Panic IndexOutOfRange
      | endpoint :: _ =>
          let tags := filter (λ kv, kv.1 ∉ excludeBucketTaggingLabelKeysSet) labels in
          if bool_decide (tags = ∅) then Ret (n, None)
          else
            let secret := sec_StringData (cl_SecretAdmin client) in
            Ret (PutBucketTagging n endpoint (map_get secret "AWS_ACCESS_KEY_ID") (map_get secret "AWS_SECRET_ACCESS_KEY")
                   (obc_BucketName obc) tags)
      end
  end.

(** A system that is being deleted gracefully takes no new requests. *)
Definition deletingSystem (nb : NooBaa) : option error :=
  match om_DeletionTimestamp (nb_meta nb) with
  | Some _ => if Contains (om_Finalizers (nb_meta nb)) GracefulFinalizer
              then Some (BucketExistsError (Lit "NooBaa is in deleting state, new requests will be ignored")) else None
  | None => None
  end.

Definition Provision (w : W) (n : N) (options : BucketOptions) : outcome (W * N * (error + ObjectBucket)) :=
  err ← ValidateOBC UnmarshalNsfs UnmarshalReplication validatorConnect ValidateReplicationAPI (bo_ObjectBucketClaim options) false;
  match err with
  | Some err => Ret (w, n, inl err)
  | None =>
      '(w, r) ← NewBucketRequest w (inl options);
      match r with
      | inl err => Ret (w, n, inl err)
      | inr r =>
          match deletingSystem (cl_NooBaa (br_SysClient r)) with
          | Some err => Ret (w, n, inl err)
          | None =>
              '(n, err) ← CreateAndUpdateBucket n r;
              match err with
              | Some err => Ret (w, n, inl err)
              | None =>
                  '(n, r) ← CreateAccount n r;
                  match r with
                  | inl err => Ret (w, n, inl err)
                  | inr r =>
                      '(n, _) ← (if isVectorClass (br_BucketClass r) then Ret (n, None)
                                 else UpdateBucketTagging n (br_SysClient r) (br_OBC r));
                      Ret (w, n, inr (br_OB r))
                  end
              end
          end
      end
  end.

Definition Grant (w : W) (n : N) (options : BucketOptions) : outcome (W * N * (error + ObjectBucket)) :=
  '(w, r) ← NewBucketRequest w (inl options);
  match r with
  | inl err => Ret (w, n, inl err)
  | inr r =>
      match deletingSystem (cl_NooBaa (br_SysClient r)) with
      | Some err => Ret (w, n, inl err)
      | None =>
          '(n, r) ← CreateAccount n r;
          Ret (w, n, match r with inl err => inl err | inr r => inr (br_OB r) end)
      end
  end.

Definition Delete (w : W) (n : N) (ob : ObjectBucket) : outcome (W * N * option error) :=
  '(w, r) ← NewBucketRequest w (inr ob);
  match r with
  | inl err => Ret (w, n, Some err)
  | inr r =>
      '(n, err) ← DeleteBucket n r;
      match err with
      | Some err => Ret (w, n, Some err)
      | None => let '(n, err) := DeleteAccount n r in Ret (w, n, err)
      end
  end.

Definition Revoke (w : W) (n : N) (ob : ObjectBucket) : outcome (W * N * option error) :=
  '(w, r) ← NewBucketRequest w (inr ob);
  match r with
  | inl err => Ret (w, n, Some err)
  | inr r => let '(n, err) := DeleteAccount n r in Ret (w, n, err)
  end.

Definition Update (w : W) (n : N) (ob : ObjectBucket) : outcome (W * N * option error) :=
  err ← ValidateOB UnmarshalNsfs UnmarshalReplication validatorConnect ValidateReplicationAPI (Some ob) false;
  match err with
  | Some err => Ret (w, n, Some err)
  | None =>
      '(w, r) ← NewBucketRequest w (inr ob);
      match r with
      | inl err => Ret (w, n, Some err)
      | inr r =>
          if isVectorClass (br_BucketClass r) then Ret (w, n, None)
          else
            '(n, err) ← updateReplicationPolicy n r ob;
            match err with
            | Some err => Ret (w, n, Some err)
            | None => '(n, err) ← UpdateBucket n r; Ret (w, n, err)
            end
      end
  end.

(** ** Facts *)

Lemma getBucketClassByName_found w name ns ns' bc :
  getBucketClassByName w name ns ns' = Ret (bc, true) →
  name ≠ ""%string ∧ ∃ bc0, bc = resetStringData bc0 ∧
    ((ns ≠ ""%string ∧ srv_Get w (ns, name) = inr bc0) ∨ srv_Get w (ns', name) = inr bc0).
Proof.
  unfold getBucketClassByName. case_bool_decide as Hn; [done|]. intros H. split; [done|].
  assert (Hc : ∀ k (o o' : BucketClass), ObjectKey o' = k → KubeCheck w o' = Ret (o, true) → ∃ b, o = resetStringData b ∧ srv_Get w k = inr b).
  { intros k o o' <-. unfold KubeCheck, KubeGet. destruct (srv_Get _ _) as [e|b] eqn:Hg; [by repeat case_match|].
    intros [= <-]. eauto. }
  apply bind_Ret in H as ([bc1 found] & H1 & H2). case_bool_decide as Hns; cbn [negb] in H1.
  - injection H1 as <- <-. apply (Hc (ns', name)) in H2 as (b & -> & Hb); [eauto|done].
  - destruct found.
    + injection H2 as <-. apply (Hc (ns, name)) in H1 as (b & -> & Hb); [eauto|done].
    + apply (Hc (ns', name)) in H2 as (b & -> & Hb); [eauto|].
      unfold KubeCheck, KubeGet in H1. destruct (srv_Get _ _) as [e|b] eqn:Hg; [|done].
      repeat case_match; simplify_eq; done.
Qed.

(** The class that a claim names, in its own configuration or in its storage class. *)
Definition className (options : BucketOptions) (obc : ObjectBucketClaim) : string :=
  if config obc "bucketclass" == "" then map_get (bo_Parameters options) "bucketclass" else config obc "bucketclass".

Definition accountName (options : BucketOptions) : string :=
  "obc-account." +:+ bo_BucketName options +:+ "." +:+ FormatHex unixTime +:+ "@noobaa.io".

Lemma requestOfClaim_ok w cl p1 p2 options r :
  requestOfClaim w cl p1 p2 options = Ret (inr r) →
  ∃ obc bc host port,
    bo_ObjectBucketClaim options = Some obc ∧
    getBucketClassByName w (className options obc) (om_Namespace (obc_meta obc)) Namespace = Ret (bc, true) ∧
    bcst_Phase (bc_Status bc) = BucketClassPhaseReady ∧
    r = mkBucketRequest (newObjectBucket host port (bo_BucketName options) (accountName options) (className options obc)
                           (om_Generation (bc_meta bc)) (default ∅ (obc_AdditionalConfig obc)))
          (Some obc) (bo_BucketName options) (accountName options) cl (Some bc).
Proof.
  unfold requestOfClaim. destruct (bo_ObjectBucketClaim options) as [obc|]; [|done]. cbn [deref mbind outcome_bind].
  fold (className options obc). case_bool_decide as Hn; [done|].
  intros ([bc found] & Hg & H)%bind_Ret. change (getBucketClassByName w (className options obc) (om_Namespace (obc_meta obc)) Namespace = Ret (bc, found)) in Hg.
  destruct found; cbn [negb] in H; [|done]. case_bool_decide as Hp; cbn [negb] in H; [|done].
  exists obc, bc. destruct (if IsRemoteObcAnnotation _ then _ else _) as [host port]. exists host, port.
  by injection H as <-.
Qed.

Lemma NewBucketRequest_ok w input w' r :
  NewBucketRequest w input = Ret (w', inr r) →
  ∃ cl p1 p2, connect w false = Ret (w', inr cl) ∧ parsePort "s3" (cl_S3URL cl) = inr p1 ∧
    parsePort "vectors" (cl_VectorsURL cl) = inr p2 ∧
    match input with
    | inl options => requestOfClaim w' cl p1 p2 options
    | inr ob => requestOfBucket w' cl ob
    end = Ret (inr r).
Proof.
  unfold NewBucketRequest. intros ([w1 [e|cl]] & Hc & H)%bind_Ret; [done|].
  destruct (parsePort "s3" _) as [|p1] eqn:H1; [done|]. destruct (parsePort "vectors" _) as [|p2] eqn:H2; [done|].
  apply bind_Ret in H as (r1 & Hr & [= <- <-]). exists cl, p1, p2. by destruct input.
Qed.

Lemma withAccount_ok r keys arn r' :
  withAccount r keys arn = Ret r' →
  ∃ conn state, ob_Connection (br_OB r) = Some conn ∧ obn_AdditionalState conn = Some state ∧
    r' = set_br_OB (mkObjectBucket (ob_meta (br_OB r))
           (Some (mkObjectBucketConnection (obn_Endpoint conn)
              (Some (mkObjectBucketAccessKeys (s3k_AccessKey keys) (s3k_SecretKey keys))) (Some (<["arn" := arn]> state))))
           (ob_ClaimNamespace (br_OB r))) r.
Proof.
  unfold withAccount. destruct (ob_Connection _) as [conn|]; [|done]. cbn.
  destruct (obn_AdditionalState conn) as [state|] eqn:Hs; [|done]. cbn. intros [= <-]. eauto.
Qed.

Lemma CreateAccount_ok n r n' r' :
  CreateAccount n r = Ret (n', inr r') →
  ∃ keys arn, withAccount r keys arn = Ret r'.
Proof.
  unfold CreateAccount. destruct (br_BucketClass r); [|done]. cbn [deref mbind outcome_bind].
  intros (dr & _ & H)%bind_Ret. destruct (br_OBC r); [|done]. cbn [deref mbind outcome_bind] in H.
  destruct (claimNsfsConfig _) as [|nsfs]; [done|]. destruct (nb_CreateAccount _ _) as [n1 [|info]]; [done|].
  destruct (car_AccessKeys info) as [|keys l].
  - destruct (nb_ReadAccount _ _) as [|read]; [done|]. destruct (acc_AccessKeys read) as [|keys l]; [done|].
    apply bind_Ret in H as (r1 & Hr & [= <- <-]). eauto.
  - apply bind_Ret in H as (r1 & Hr & [= <- <-]). eauto.
Qed.

(** The parts of a successful [Provision]. *)
Lemma Provision_inv w n options w' n' ob :
  Provision w n options = Ret (w', n', inr ob) →
  ∃ r n1 n2 r', ValidateOBC UnmarshalNsfs UnmarshalReplication validatorConnect ValidateReplicationAPI
                  (bo_ObjectBucketClaim options) false = ok ∧
    NewBucketRequest w (inl options) = Ret (w', inr r) ∧ deletingSystem (cl_NooBaa (br_SysClient r)) = None ∧
    CreateAndUpdateBucket n r = Ret (n1, None) ∧ CreateAccount n1 r = Ret (n2, inr r') ∧ ob = br_OB r'.
Proof.
  unfold Provision. intros ([e|] & Hv & H)%bind_Ret; [done|].
  apply bind_Ret in H as ([w1 [e|r]] & Hr & H); [done|]. destruct (deletingSystem _) eqn:Hd; [done|].
  apply bind_Ret in H as ([n1 [e|]] & Hc & H); [done|].
  apply bind_Ret in H as ([n2 [e|r']] & Ha & H); [done|].
  apply bind_Ret in H as ([n3 ?] & _ & [= <- <- <-]). by exists r, n1, n2, r'.
Qed.

(** ** Provisioning *)

Lemma CreateAndUpdateBucket_absent n r n' :
  CreateAndUpdateBucket n r = Ret (n', None) →
  if isVectorClass (br_BucketClass r) then nb_GetVectorBucket n (br_BucketName r) ≠ None
  else ∃ e, nb_ReadBucket n (br_BucketName r) = inl e.
Proof.
  unfold CreateAndUpdateBucket. destruct (isVectorClass _).
  - by destruct (nb_GetVectorBucket _ _).
  - destruct (nb_ReadBucket _ _); [by eauto|done].
Qed.

(** C3: a claim is provisioned only with a bucket class that is ready, in the namespace of
    the claim or of the operator, and only when no bucket of that name could be read
    before: a bucket that exists is never handed to a claim. *)
Theorem Provision_fresh w n options w' n' ob :
  Provision w n options = Ret (w', n', inr ob) →
  ∃ obc bc bc0, bo_ObjectBucketClaim options = Some obc ∧ bc = resetStringData bc0 ∧
    (srv_Get w' (om_Namespace (obc_meta obc), className options obc) = inr bc0 ∨
     srv_Get w' (Namespace, className options obc) = inr bc0) ∧
    bcst_Phase (bc_Status bc) = BucketClassPhaseReady ∧
    (if isVectorClass (Some bc) then nb_GetVectorBucket n (bo_BucketName options) ≠ None
     else ∃ e, nb_ReadBucket n (bo_BucketName options) = inl e).
Proof.
  intros (r & n1 & n2 & r' & _ & Hr & _ & Hc & _ & _)%Provision_inv.
  apply NewBucketRequest_ok in Hr as (cl & p1 & p2 & _ & _ & _ & Hr).
  apply requestOfClaim_ok in Hr as (obc & bc & host & port & Ho & Hg & Hp & ->).
  apply getBucketClassByName_found in Hg as (_ & bc0 & Hb & Hg).
  apply CreateAndUpdateBucket_absent in Hc. exists obc, bc, bc0. split_and!; [done|done| |done|done].
  destruct Hg as [[_ ?]|?]; auto.
Qed.

(** The library stores the object bucket under a name of its own, with a reference
    to the claim. *)
Definition stored (m : ObjectMeta) (claimNamespace : option string) (ob : ObjectBucket) : ObjectBucket :=
  mkObjectBucket m (ob_Connection ob) claimNamespace.

(** C8: the object bucket of a claim leads back to what was created for it.  Whatever
    metadata the library stores it with, a later request on it is about the same bucket,
    the same account and the same bucket class, so that [Delete], [Revoke] and [Update]
    act on what [Provision] made. *)
Theorem Provision_request_roundtrip w n options w' n' ob obc w2 w3 cl p1 p2 m ns bc found :
  Provision w n options = Ret (w', n', inr ob) →
  bo_ObjectBucketClaim options = Some obc →
  connect w2 false = Ret (w3, inr cl) →
  parsePort "s3" (cl_S3URL cl) = inr p1 → parsePort "vectors" (cl_VectorsURL cl) = inr p2 →
  getBucketClassByName w3 (className options obc) (default ""%string ns) Namespace = Ret (bc, found) →
  ∃ r, NewBucketRequest w2 (inr (stored m ns ob)) = Ret (w3, inr r) ∧
    br_BucketName r = bo_BucketName options ∧ br_AccountName r = accountName options ∧ br_BucketClass r = Some bc.
Proof.
  intros (r & n1 & n2 & r' & _ & Hr & _ & _ & Ha & ->)%Provision_inv Ho Hc Hp1 Hp2 Hg.
  apply NewBucketRequest_ok in Hr as (cl0 & q1 & q2 & _ & _ & _ & Hr).
  apply requestOfClaim_ok in Hr as (obc0 & bc0 & host & port & Ho' & _ & _ & ->).
  rewrite Ho in Ho'. injection Ho' as <-.
  apply CreateAccount_ok in Ha as (keys & arn & Ha). apply withAccount_ok in Ha as (conn & state & [= <-] & [= <-] & ->).
  unfold NewBucketRequest. rewrite Hc. cbn [mbind outcome_bind]. rewrite Hp1, Hp2.
  unfold requestOfBucket, stored, set_br_OB, newObjectBucket. cbn [br_OB ob_Connection obn_Endpoint obn_AdditionalState ob_ClaimNamespace].
  set (state := <["arn" := arn]> _).
  assert (Hb : state !! "bucketclass"%string = Some (className options obc))
    by (unfold state; rewrite !lookup_insert_ne by done; by rewrite lookup_insert_eq).
  assert (Hacc : state !! "account"%string = Some (accountName options))
    by (unfold state; rewrite lookup_insert_ne by done; by rewrite lookup_insert_eq).
  rewrite (map_get_lookup _ _ _ Hb), Hg. cbn [mbind outcome_bind]. eexists. split; [reflexivity|].
  split; [done|]. split; [|done]. cbn [br_AccountName]. by apply map_get_lookup.
Qed.

(** ** Deletion *)

(** A deletion that succeeds, or that finds nothing, leaves no bucket and no account;
    buckets do not depend on accounts. *)
Class NBDeletionLaws : Prop := {
  DeleteVectorBucket_gone n b n' e : nb_DeleteVectorBucket n b = (n', e) →
    e = None ∨ (∃ m, e = Some (RPCError "NO_SUCH_BUCKET" m)) → nb_GetVectorBucket n' b ≠ None;
  DeleteBucket_gone n b n' e : nb_DeleteBucket n b = (n', e) →
    e = None ∨ (∃ m, e = Some (RPCError "NO_SUCH_BUCKET" m)) → ∃ e', nb_ReadBucket n' b = inl e';
  DeleteBucketAndObjects_gone n b n' e : nb_DeleteBucketAndObjects n b = (n', e) →
    e = None ∨ (∃ m, e = Some (RPCError "NO_SUCH_BUCKET" m)) → ∃ e', nb_ReadBucket n' b = inl e';
  DeleteAccount_gone n a n' e : nb_DeleteAccount n a = (n', e) →
    e = None ∨ (∃ m, e = Some (RPCError "NO_SUCH_ACCOUNT" m)) → ∃ e', nb_ReadAccount n' a = inl e';
  DeleteAccount_buckets n a b : nb_ReadBucket (nb_DeleteAccount n a).1 b = nb_ReadBucket n b;
  DeleteAccount_vectors n a b : nb_GetVectorBucket (nb_DeleteAccount n a).1 b = nb_GetVectorBucket n b;
}.

Lemma DeleteBucket_gone_ok {DL : NBDeletionLaws} n r n' :
  DeleteBucket n r = Ret (n', None) →
  ∃ v, deletesVector r = Ret v ∧
    if v then nb_GetVectorBucket n' (br_BucketName r) ≠ None else ∃ e, nb_ReadBucket n' (br_BucketName r) = inl e.
Proof.
  unfold DeleteBucket. intros (v & Hv & H)%bind_Ret. exists v. split; [done|].
  destruct v; [|destruct (match br_BucketClass r with Some _ => _ | None => _ end)].
  - destruct (nb_DeleteVectorBucket _ _) as [n1 e] eqn:Hd. injection H as <- H%ignoring_None. by eapply DeleteVectorBucket_gone.
  - destruct (nb_DeleteBucket _ _) as [n1 e] eqn:Hd. injection H as <- H%ignoring_None. by eapply DeleteBucket_gone.
  - destruct (nb_DeleteBucketAndObjects _ _) as [n1 e] eqn:Hd. injection H as <- H%ignoring_None. by eapply DeleteBucketAndObjects_gone.
Qed.

(** When the deletion of an object bucket reports success, neither its bucket, of
    the kind that was looked for, nor its account can be read from the server. *)
Theorem Delete_released {DL : NBDeletionLaws} w n ob w' n' :
  Delete w n ob = Ret (w', n', None) →
  ∃ r v, NewBucketRequest w (inr ob) = Ret (w', inr r) ∧ deletesVector r = Ret v ∧
    (if v : bool then nb_GetVectorBucket n' (br_BucketName r) ≠ None else ∃ e, nb_ReadBucket n' (br_BucketName r) = inl e) ∧
    ∃ e, nb_ReadAccount n' (br_AccountName r) = inl e.
Proof.
  unfold Delete. intros ([w1 [e|r]] & Hr & H)%bind_Ret; [done|].
  apply bind_Ret in H as ([n1 [e|]] & Hd & H); [done|]. apply DeleteBucket_gone_ok in Hd as (v & Hv & Hd).
  unfold DeleteAccount in H. pose proof (DeleteAccount_buckets n1 (br_AccountName r) (br_BucketName r)) as Hb.
  pose proof (DeleteAccount_vectors n1 (br_AccountName r) (br_BucketName r)) as Hvec.
  destruct (nb_DeleteAccount n1 (br_AccountName r)) as [n2 e] eqn:Ha. cbn [fst] in Hb, Hvec.
  injection H as <- <- H%ignoring_None. exists r, v. split_and!; [done|done|by rewrite Hb, Hvec|by eapply DeleteAccount_gone].
Qed.

(** C27: a request on an object bucket whose class is gone still succeeds, but with an
    empty class: unless the claim itself says that the bucket is a vector bucket, its
    deletion is that of a bucket with all its objects, also when the class had made it a
    namespace bucket, whose data lives elsewhere. *)
Theorem Delete_missing_class w ob w' r n conn endpoint e1 e2 :
  NewBucketRequest w (inr ob) = Ret (w', inr r) →
  ob_Connection ob = Some conn → obn_Endpoint conn = Some endpoint →
  let class := map_get (obn_AdditionalState conn) "bucketclass" in
  srv_Get (O:=BucketClass) w' (default ""%string (ob_ClaimNamespace ob), class) = inl e1 → IsNotFound e1 = true →
  srv_Get (O:=BucketClass) w' (Namespace, class) = inl e2 → IsNotFound e2 = true →
  map_get (obe_AdditionalConfigData endpoint) "bucketType" ≠ "vector"%string →
  ∃ err, DeleteBucket n r = Ret ((nb_DeleteBucketAndObjects n (obe_BucketName endpoint)).1, err).
Proof.
  intros (cl & p1 & p2 & _ & _ & _ & Hr)%NewBucketRequest_ok Hc He class Hg1 Hn1 Hg2 Hn2 Ht.
  destruct ob as [m [conn'|] ns]; cbn in Hc; [|done]. injection Hc as ->. destruct conn as [[ep|] auth state]; [|done].
  cbn in He. injection He as ->. cbn [ob_ClaimNamespace obn_AdditionalState] in *. subst class.
  unfold requestOfBucket in Hr. cbn [ob_Connection ob_ClaimNamespace ob_meta] in Hr.
  apply bind_Ret in Hr as ([bc found] & Hg & Hr). injection Hr as <-.
  assert (Hbc : bc_Spec bc = bc_Spec (newBucketClass "" "")).
  { unfold getBucketClassByName in Hg. case_bool_decide; [by injection Hg as <-|]. case_bool_decide; cbn [negb] in Hg.
    - cbn [mbind outcome_bind] in Hg. rewrite (KubeCheck_missing _ _ e2) in Hg by done. by injection Hg as <-.
    - rewrite (KubeCheck_missing _ _ e1) in Hg by done. cbn [mbind outcome_bind] in Hg.
      rewrite (KubeCheck_missing _ _ e2) in Hg by done. by injection Hg as <-. }
  unfold DeleteBucket, deletesVector, isVectorClass. cbn [br_BucketClass br_OB br_BucketName]. rewrite Hbc. cbn.
  rewrite bool_decide_false by (by destruct (obe_AdditionalConfigData endpoint)).
  destruct (nb_DeleteBucketAndObjects n (obe_BucketName endpoint)) as [n' err]. cbn. eauto.
Qed.
End Provisioner.
