(* ===== verification/Cosi.v ===== *)
(** * The COSI driver: [pkg/cosi/provisioner.go], [pkg/cosi/validation.go],
    [pkg/cosi/identityserver.go] and [CreateBucketClassSpecFromParameters].

    The four calls by which the COSI sidecar creates and deletes buckets and grants and
    revokes access to them.  They follow the bucket provisioner, with the bucket class
    as a parameter of the request instead of a resource. *)

From S2P Require Import Prelude GoStrings Types NbTypes Kube Util BackingStoreValidation.
From S2P Require Import GoUrl BucketClassValidation NooBaaValidation Controller Quota Buckets SystemServices Obc.

(** The codes of [status.Error]; other errors have none. *)
Inductive codes := AlreadyExists | InvalidArgument | Internal.
Inductive cosi_error := Status (code : codes) (m : msg) | Plain (e : error).

(** ** Requests *)

Record DriverCreateBucketRequest := mkDriverCreateBucketRequest {
  dcb_Name : string;
  dcb_Parameters : option (gmap string string);
}.
Record DriverGrantBucketAccessRequest := mkDriverGrantBucketAccessRequest { dgb_BucketId : string; dgb_Name : string }.
Record DriverRevokeBucketAccessRequest := mkDriverRevokeBucketAccessRequest { drb_BucketId : string; drb_AccountId : string }.
Record DriverGrantBucketAccessResponse := mkDriverGrantBucketAccessResponse {
  dgr_AccountId : string;
  dgr_Credentials : gmap string (gmap string string);
}.

Record APIRequest := mkAPIRequest {
  ar_BucketName : string;
  ar_AccountName : string;
  ar_SysClient : Client;
  ar_BucketClass : option BucketClassSpec;
}.

Definition DriverGetInfo (driver : string) : cosi_error + string :=
  if driver == "" then inl (Status InvalidArgument (Lit "Driver name is empty")) else inr driver.

Definition fetchUserCredentials (keys : S3AccessKeys) : gmap string (gmap string string) :=
  {["s3"%string := <["accessKeyID" := s3k_AccessKey keys]> {["accessSecretKey" := s3k_SecretKey keys]}]}.

Section Spec.
(** [json.Unmarshal] into the fields of the spec; [null] is no error and leaves [nil]. *)
Context (UnmarshalPlacement : string → msg + option PlacementPolicy) (UnmarshalNamespace : string → msg + option NamespacePolicy)
        (UnmarshalString : string → msg + string) (UnmarshalQuota : string → msg + option Quota).

(** One parameter: its value when it is absent, or what is parsed from it. *)
Definition parameter {A} (parameters : option (gmap string string)) (key what : string) (parse : string → msg + A) (zero : A) :
    error + A :=
  let text := map_get parameters key in
  if text == "" then inr zero
  else match parse text with
       | inl _ => inl (Errorf (Sprintf ("failed to parse " +:+ what +:+ " in COSI params %s") [AStr text]))
       | inr a => inr a
       end.

Definition CreateBucketClassSpecFromParameters (parameters : option (gmap string string)) : error + BucketClassSpec :=
  and_then (parameter parameters "placementPolicy" "placement policy" UnmarshalPlacement None) (λ placement,
  and_then (parameter parameters "namespacePolicy" "namespace policy" UnmarshalNamespace None) (λ namespace,
  and_then (parameter parameters "replicationPolicy" "replication policy" UnmarshalString ""%string) (λ replication,
  and_then (parameter parameters "quota" "quota policy" UnmarshalQuota None) (λ quota,
  inr (mkBucketClassSpec placement namespace quota replication None None))))).
End Spec.

Section Driver.
Context {QA : QuantityApi} {AU : AuthoritySyntax}.
Context {W N : Type}.
Context {SP : ApiServer W RunningPod} {SV : ApiServer W Service} {SS : ApiServer W Secret} {SN : ApiServer W NooBaa}
        {SB : ApiServer W (BackingStore QA)} {SNS : ApiServer W NamespaceStore}.
Context {NB : NBBucketClient N} {NT : NBTierClient N} {NA : NBAccountClient N}.
Context {Rule : Type} {NR : NBReplicationClient N (list Rule)}.
Context (Namespace SystemName : string) (bundleNooBaa : NooBaa) (bundleService : Service)
        (forwardPorts : Service → string → string → outcome (gmap Z Z)).
Context (UnmarshalReplication : string → msg + list Rule)
        (UnmarshalPlacement : string → msg + option PlacementPolicy) (UnmarshalNamespace : string → msg + option NamespacePolicy)
        (UnmarshalString : string → msg + string) (UnmarshalQuota : string → msg + option Quota).
Context (validatorConnect : bool → option error) (ValidateReplicationAPI : string → list Rule → option error).
Context (unixTime : Z).
(** [util.IsTestEnv()]. *)
Context (IsTestEnv : bool).

Abbreviation connect := (Connect Namespace SystemName bundleNooBaa bundleService forwardPorts).

(** ** Validation *)

(** Any error of a policy becomes a validation error of the claim. *)
Definition asClaimError (bucketName policy : string) (r : verdict) : verdict :=
  match r with
  | Ret (Some err) =>
      fail (ValidationError (Sprintf ("cosi bucket claim %q validation error: invalid " +:+ policy +:+ " %v, %v")
                               [AStr bucketName; AMsg (Error err)]))
  | _ => r
  end.

Definition ValidateCOSIBucketClaim (w : W) (bucketName namespace : string) (spec : BucketClassSpec) (isCLI : bool) : verdict :=
  check (asClaimError bucketName "placementPolicy" (ValidatePlacementPolicy (QA:=QA) w (bcs_PlacementPolicy spec) namespace))
  (check (asClaimError bucketName "namespacePolicy" (ValidateNamespacePolicy w (bcs_NamespacePolicy spec) namespace))
  (check (asClaimError bucketName "replicationPolicy"
            (ValidateReplicationPolicy UnmarshalReplication validatorConnect ValidateReplicationAPI bucketName (bcs_ReplicationPolicy spec) false isCLI))
  (asClaimError bucketName "quota" (ValidateQuotaConfig bucketName (bcs_Quota spec))))).

(** ** Requests *)

Definition connected {A} (w : W) (k : W → Client → outcome (W * (cosi_error + A))) : outcome (W * (cosi_error + A)) :=
  '(w, client) ← connect w IsTestEnv;
  match client with
  | inl err => Ret (w, inl (Plain err))
  | inr client => k w client
  end.

(** [NewBucketRequest(p, req, nil)] and [NewBucketRequest(p, nil, req)]. *)
Definition NewCreateRequest (w : W) (req : DriverCreateBucketRequest) : outcome (W * (cosi_error + APIRequest)) :=
  connected w (λ w client,
    Ret (w, match CreateBucketClassSpecFromParameters UnmarshalPlacement UnmarshalNamespace UnmarshalString UnmarshalQuota
                    (dcb_Parameters req) with
            | inl err => inl (Status Internal (Error err))
            | inr spec =>
                if isNil (bcs_PlacementPolicy spec) && isNil (bcs_NamespacePolicy spec) then
                  inl (Status Internal (Lit "must provide at least one of placement policy or namespace policy %+v"))
                else inr (mkAPIRequest (dcb_Name req) "" client (Some spec))
            end)).

Definition NewDeleteRequest (w : W) (bucketId : string) : outcome (W * (cosi_error + APIRequest)) :=
  connected w (λ w client, Ret (w, inr (mkAPIRequest bucketId "" client None))).

Definition NewAccountRequest (w : W) (bucketId account : string) : outcome (W * (cosi_error + APIRequest)) :=
  connected w (λ w client, Ret (w, inr (mkAPIRequest bucketId account client None))).

(** ** Buckets and accounts on the server *)

Definition bucketExists (name : string) : cosi_error := Status InvalidArgument (Sprintf "Bucket %q already exists" [AStr name]).

Definition plainErrorf (format name : string) (err : error) : cosi_error :=
  Plain (Errorf (Sprintf format [AStr name; AMsg (Error err)])).

(** The quota of the class, set on the new bucket. *)
Definition setQuota (n : N) (name : string) (spec : BucketClassSpec) : N * option cosi_error :=
  match GetQuotaConfig name spec None with
  | inl err => (n, Some (Plain err))
  | inr quota =>
      let '(n, err) := nb_UpdateBucket n (mkCreateBucketParams name "" None None (Some quota) None) in
      (n, plainErrorf "failed to update bucket %q with error: %v" name <$> err)
  end.

Definition CreateBucket (n : N) (r : APIRequest) : outcome (N * option cosi_error) :=
  let name := ar_BucketName r in
  match nb_ReadBucket n name with
  | inr _ => Ret (n, Some (bucketExists name))
  | inl err =>
      let stop := match err with RPCError code _ => if code != "NO_SUCH_BUCKET" then Some code else None | _ => None end in
      match stop, ar_BucketClass r with
      | Some code, _ => Ret (n, Some (Status Internal (Lit code)))
      | None, None => Ret (n, Some (Status Internal (Lit "BucketClass/Bucket not loaded %#v")))
      | None, Some spec =>
          match (if bcs_ReplicationPolicy spec != "" then PrepareReplicationParams UnmarshalReplication name (bcs_ReplicationPolicy spec) false
                 else inr None) with
          | inl err => Ret (n, Some (Plain err))
          | inr replication =>
              let '(n, tierName, err) :=
                match bcs_PlacementPolicy spec with
                | Some placement => CreateTieringStructure n placement name unixTime
                | None => (n, ""%string, None)
                end in
              match err with
              | Some err => Ret (n, Some (plainErrorf "CreateTieringStructure for PlacementPolicy failed to create policy %q with error: %v" tierName err))
              | None =>
                  ns ← match bcs_NamespacePolicy spec with
                       | Some policy => info ← CreateNamespaceBucketInfoStructure policy ""; Ret (Some info)
                       | None => Ret None
                       end;
                  match nb_CreateBucket n (mkCreateBucketParams name tierName None ns None None) with
                  | (n, Some err) =>
                      let failed := plainErrorf "failed to create bucket %q with error: %v" name err in
                      Ret (n, Some match err with
                                   | RPCError code _ => if code == "BUCKET_ALREADY_EXISTS" then bucketExists name else failed
                                   | _ => failed
                                   end)
                  | (n, None) =>
                      let '(n, err) := match replication with
                                       | Some rules => nb_PutBucketReplication n name rules
                                       | None => (n, None)
                                       end in
                      match err with
                      | Some err => Ret (n, Some (plainErrorf "Provisioner Failed to update replication on bucket %q with error: %v" name err))
                      | None => Ret (setQuota n name spec)
                      end
                  end
              end
          end
      end
  end.

Definition CreateAccount (n : N) (r : APIRequest) : outcome (N * (cosi_error + S3AccessKeys)) :=
  let name := ar_BucketName r in
  match nb_ReadBucket n name with
  | inl err =>
      let failed := plainErrorf "CreateAccount: failed to create bucket %q. got error: %v" name err in
      Ret (n, inl match err with
                  | RPCError code _ => if code == "NO_SUCH_BUCKET" then Status Internal (Lit code) else failed
                  | _ => failed
                  end)
  | inr _ =>
      let account := ar_AccountName r in
      let '(n, reply) := nb_CreateAccount n (mkCreateAccountParams account account false true false "" None name None) in
      match reply with
      | inl err => Ret (n, inl (Plain err))
      | inr info => match car_AccessKeys info with keys :: _ => Ret (n, inr keys) | [] => Panic IndexOutOfRange end
      end
  end.

Definition DeleteAccount (n : N) (r : APIRequest) : N * option error :=
  let '(n, err) := nb_DeleteAccount n (ar_AccountName r) in
  (n, ignoring "NO_SUCH_ACCOUNT"
        (λ err, Errorf (Sprintf "failed to delete account %q. got error: %v" [AStr (ar_AccountName r); AMsg (Error err)])) err).

Definition DeleteBucket (n : N) (r : APIRequest) : N * option error :=
  let name := ar_BucketName r in
  let failed err := Errorf (Sprintf "failed to delete bucket %q. got error: %v" [AStr name; AMsg (Error err)]) in
  match nb_ReadBucket n name with
  | inl err => (n, ignoring "NO_SUCH_BUCKET" failed (Some err))
  | inr info =>
      let '(n, err) := if negb (isNil (bkt_Namespace info)) then nb_DeleteBucket n name else nb_DeleteBucketAndObjects n name in
      (n, failed <$> err)
  end.

(** ** The driver *)

(** A system that is being deleted gracefully takes no new requests. *)
Definition driverDeleting (client : Client) : option cosi_error :=
  (λ err, Status Internal (Error err)) <$> deletingSystem (cl_NooBaa client).

Definition DriverCreateBucket (w : W) (n : N) (req : DriverCreateBucketRequest) : outcome (W * N * (cosi_error + string)) :=
  '(w, r) ← NewCreateRequest w req;
  match r with
  | inl err => Ret (w, n, inl err)
  | inr r =>
      spec ← deref (ar_BucketClass r);
      err ← ValidateCOSIBucketClaim w (dcb_Name req) Namespace spec false;
      match err, driverDeleting (ar_SysClient r) with
      | Some err, _ => Ret (w, n, inl (Plain err))
      | None, Some err => Ret (w, n, inl err)
      | None, None =>
          '(n, err) ← CreateBucket n r;
          Ret (w, n, match err with Some err => inl err | None => inr (dcb_Name req) end)
      end
  end.

Definition DriverDeleteBucket (w : W) (n : N) (bucketId : string) : outcome (W * N * option cosi_error) :=
  '(w, r) ← NewDeleteRequest w bucketId;
  match r with
  | inl err => Ret (w, n, Some err)
  | inr r => let '(n, err) := DeleteBucket n r in Ret (w, n, Plain <$> err)
  end.

Definition DriverGrantBucketAccess (w : W) (n : N) (req : DriverGrantBucketAccessRequest) :
    outcome (W * N * (cosi_error + DriverGrantBucketAccessResponse)) :=
  '(w, r) ← NewAccountRequest w (dgb_BucketId req) (dgb_Name req);
  match r with
  | inl err => Ret (w, n, inl err)
  | inr r =>
      match driverDeleting (ar_SysClient r) with
      | Some err => Ret (w, n, inl err)
      | None =>
          '(n, keys) ← CreateAccount n r;
          Ret (w, n, match keys with
                     | inl err => inl err
                     | inr keys => inr (mkDriverGrantBucketAccessResponse (ar_AccountName r) (fetchUserCredentials keys))
                     end)
      end
  end.

Definition DriverRevokeBucketAccess (w : W) (n : N) (req : DriverRevokeBucketAccessRequest) : outcome (W * N * option cosi_error) :=
  '(w, r) ← NewAccountRequest w (drb_BucketId req) (drb_AccountId req);
  match r with
  | inl err => Ret (w, n, Some err)
  | inr r => let '(n, err) := DeleteAccount n r in Ret (w, n, Plain <$> err)
  end.

(** ** Facts *)

Lemma CreateBucket_code n r n' e m : CreateBucket n r = Ret (n', Some e) → e ≠ Status AlreadyExists m.
Proof.
  unfold CreateBucket. destruct (nb_ReadBucket _ _) as [err|]; [|by intros [= _ <-]].
  destruct (match err with RPCError _ _ => _ | _ => _ end); [by intros [= _ <-]|].
  destruct (ar_BucketClass r) as [spec|]; [|by intros [= _ <-]].
  destruct (if bcs_ReplicationPolicy spec != "" then _ else _) as [|repl]; [by intros [= _ <-]|].
  destruct (match bcs_PlacementPolicy spec with Some _ => _ | None => _ end) as [[n1 tier] [e1|]]; [by intros [= _ <-]|].
  intros (ns & _ & H)%bind_Ret. destruct (nb_CreateBucket _ _) as [n2 [e2|]].
  - injection H as _ <-. destruct e2; try done. by case_bool_decide.
  - destruct (match repl with Some _ => _ | None => _ end) as [n3 [e3|]]; [by injection H as _ <-|].
    unfold setQuota in H. destruct (GetQuotaConfig _ _ _); [by injection H as _ <-|].
    destruct (nb_UpdateBucket _ _) as [n4 [e4|]]; cbn in H; [by injection H as _ <-|done].
Qed.

Lemma connected_inl {A} w k w' e :
  @connected A w k = Ret (w', inl e) →
  (∃ e', e = Plain e') ∨ ∃ w1 cl, k w1 cl = Ret (w', inl e).
Proof.
  unfold connected. intros ([w1 [e1|cl]] & _ & H)%bind_Ret; [injection H as _ <-; eauto|eauto].
Qed.

(** The driver never answers that a bucket exists already with the code the COSI
    interface asks for: a second creation of a bucket, which the interface requires to be
    idempotent, is an invalid argument. *)
Theorem DriverCreateBucket_never_AlreadyExists w n req w' n' m :
  DriverCreateBucket w n req ≠ Ret (w', n', inl (Status AlreadyExists m)).
Proof.
  unfold DriverCreateBucket. intros ([w1 [e|r]] & Hr & H)%bind_Ret.
  - injection H as _ _ ->. apply connected_inl in Hr as [[? ?]|(w2 & cl & Hr)]; [done|]. injection Hr as _ Hr.
    destruct (CreateBucketClassSpecFromParameters _ _ _ _ _) as [|spec]; [by injection Hr|].
    by destruct (isNil (bcs_PlacementPolicy spec) && isNil (bcs_NamespacePolicy spec)).
  - apply bind_Ret in H as (spec & _ & H). apply bind_Ret in H as ([e|] & _ & H); [done|].
    unfold driverDeleting in H. destruct (deletingSystem _); [done|]. cbn in H.
    apply bind_Ret in H as ([n1 [e|]] & Hc & H); [|done]. injection H as _ _ ->. by eapply CreateBucket_code.
Qed.

(** What the server says about a bucket it does not have, and that a deletion leaves
    none. *)
Class NBCosiLaws : Prop := {
  cosi_DeleteBucket_gone n b n' : nb_DeleteBucket n b = (n', None) →
    ∃ m, nb_ReadBucket n' b = inl (RPCError "NO_SUCH_BUCKET" m);
  cosi_DeleteBucketAndObjects_gone n b n' : nb_DeleteBucketAndObjects n b = (n', None) →
    ∃ m, nb_ReadBucket n' b = inl (RPCError "NO_SUCH_BUCKET" m);
}.

Lemma ignoring_code code f m : ignoring code f (Some (RPCError code m)) = None.
Proof. cbn. by rewrite bool_decide_true. Qed.

Lemma DeleteBucket_ok {CL : NBCosiLaws} n r n' :
  DeleteBucket n r = (n', None) → ∃ m, nb_ReadBucket n' (ar_BucketName r) = inl (RPCError "NO_SUCH_BUCKET" m).
Proof.
  unfold DeleteBucket. destruct (nb_ReadBucket n _) as [err|info] eqn:Hr.
  - intros H. pose proof (f_equal snd H) as Hi. apply (f_equal fst) in H. cbn [fst] in H. subst n'.
    cbn [snd] in Hi. apply ignoring_None in Hi as [?|[m Hm]]; [done|]. injection Hm as ->. eauto.
  - destruct (isNil (bkt_Namespace info)); cbn [negb].
    + destruct (nb_DeleteBucketAndObjects _ _) as [n1 [e|]] eqn:Hd; [done|]. intros [= <-]. by eapply cosi_DeleteBucketAndObjects_gone.
    + destruct (nb_DeleteBucket _ _) as [n1 [e|]] eqn:Hd; [done|]. intros [= <-]. by eapply cosi_DeleteBucket_gone.
Qed.

(** C4: the deletion of a bucket is idempotent, as the COSI interface requires: when it
    has reported success the server has no such bucket, and the same request, once
    connected again, succeeds and changes nothing. *)
Theorem DriverDeleteBucket_idempotent {CL : NBCosiLaws} w n bucketId w' n' w2 w3 cl :
  DriverDeleteBucket w n bucketId = Ret (w', n', None) →
  connect w2 IsTestEnv = Ret (w3, inr cl) →
  (∃ m, nb_ReadBucket n' bucketId = inl (RPCError "NO_SUCH_BUCKET" m)) ∧
  DriverDeleteBucket w2 n' bucketId = Ret (w3, n', None).
Proof.
  unfold DriverDeleteBucket, NewDeleteRequest. intros ([w1 [e|r]] & Hr & H)%bind_Ret Hc; [done|].
  assert (Hname : ar_BucketName r = bucketId).
  { unfold connected in Hr. apply bind_Ret in Hr as ([? [|]] & _ & Hr); [done|]. by injection Hr as _ <-. }
  destruct (DeleteBucket n r) as [n1 e] eqn:Hd. injection H as _ <- H. destruct e; [done|].
  apply DeleteBucket_ok in Hd as [m Hm]. rewrite Hname in Hm. split; [eauto|].
  unfold connected. rewrite Hc. cbn [mbind outcome_bind]. unfold DeleteBucket. cbn [ar_BucketName]. rewrite Hm.
  by rewrite ignoring_code.
Qed.

(** The driver asks the server what kind of bucket it deletes: a namespace bucket is
    deleted without its objects, whatever became of its class, and only any other bucket
    with them. *)
Theorem DriverDeleteBucket_kind w n bucketId w' cl info :
  connect w IsTestEnv = Ret (w', inr cl) →
  nb_ReadBucket n bucketId = inr info →
  ∃ err, DriverDeleteBucket w n bucketId =
    Ret (w', (if isNil (bkt_Namespace info) then nb_DeleteBucketAndObjects n bucketId else nb_DeleteBucket n bucketId).1, err).
Proof.
  intros Hc Hr. unfold DriverDeleteBucket, NewDeleteRequest, connected. rewrite Hc. cbn [mbind outcome_bind].
  unfold DeleteBucket. cbn [ar_BucketName]. rewrite Hr. destruct (isNil (bkt_Namespace info)); cbn [negb].
  - destruct (nb_DeleteBucketAndObjects n bucketId). eauto.
  - destruct (nb_DeleteBucket n bucketId). eauto.
Qed.
End Driver.
