(* ===== verification/Scenario.v ===== *)
(** * A small concrete system.

    The theorems on the controller hold for every cluster and every NooBaa server.
    Here both are concrete: an in-memory cluster that stores backing stores and
    secrets, and a server that holds the system information and refuses to delete a
    pool that is in use.  The lemmas at the end run the controller on it. *)

From S2P Require Import Prelude GoStrings Types NbTypes Kube Util StoreAccess Gcp GoUrl.
From S2P Require Import BackingStoreValidation Profiles PvPool Controller BackingStoreReconciler.

(** ** The cluster *)

Record Cluster := mkCluster {
  cl_stores : gmap ObjectKeyT (BackingStore IntQuantity);
  cl_secrets : gmap ObjectKeyT Secret;
}.

(** A server for the objects kept in one field of the cluster. *)
Definition FieldServer {W O} `{KubeObject O} (get : W → gmap ObjectKeyT O)
    (put : gmap ObjectKeyT O → W → W) : ApiServer W O := {|
  srv_Get w k := mem_Get (get w) k;
  srv_Create w o := let '(m, r) := mem_Create (get w) o in (put m w, r);
  srv_Update w o := let '(m, r) := mem_Update (get w) o in (put m w, r);
  srv_Delete w o := let '(m, r) := mem_Delete (get w) o in (put m w, r);
  srv_List w sel := inr (filter (λ o, sel o = true) (snd <$> map_to_list (get w)));
|}.

#[export] Instance Cluster_BackingStore : ApiServer Cluster (BackingStore IntQuantity) :=
  FieldServer cl_stores (λ m w, mkCluster m (cl_secrets w)).
#[export] Instance Cluster_Secret : ApiServer Cluster Secret :=
  FieldServer cl_secrets (λ m w, mkCluster (cl_stores w) m).

(** The other kinds have no objects. *)
#[export] Instance Cluster_other {O} `{KubeObject O} : ApiServer Cluster O | 100 :=
  FieldServer (λ _, ∅) (λ _ w, w).
#[export] Instance Cluster_bulk {O} : ApiBulkDelete Cluster O :=
  {| srv_DeleteAllOf w _ := (w, None) |}.

Definition storeStatus (w : Cluster) (bs : BackingStore IntQuantity) : Cluster * option error := (w, None).

(** ** The NooBaa server *)

#[export] Instance SystemClient : NBClient SystemInfo := {|
  nb_Connect _ := None;
  nb_ReadSystem n := inr n;
  nb_ListHosts _ _ := inr [];
  nb_CheckExternalConnection _ _ := inr (mkCheckExternalConnectionReply ExternalConnectionSuccess "" "");
  nb_GetHostsPoolAgentConfig _ _ := inr "config"%string;
  nb_AddExternalConnection n _ := (n, None);
  nb_UpdateExternalConnection n _ := (n, None);
  nb_DeleteExternalConnection n _ := (n, None);
  nb_CreateCloudPool n p :=
    (mkSystemInfo (si_Accounts n) (mkPoolInfo (ccp_Name p) "CLOUD" "OPTIMAL" "" None None :: si_Pools n)
       (si_NamespaceResources n), None);
  nb_CreateHostsPool n _ := (n, inr "config"%string);
  nb_UpdateHostsPool n _ := (n, None);
  nb_DeletePool n name :=
    match findPool name (si_Pools n) with
    | None => (n, Some (RPCError "NO_SUCH_POOL" (Lit "no such pool")))
    | Some p =>
        if pool_Undeletable p == "" then
          (mkSystemInfo (si_Accounts n) (filter (λ p, pool_Name p ≠ name) (si_Pools n)) (si_NamespaceResources n), None)
        else (n, Some (RPCError (pool_Undeletable p) (Lit "cannot delete pool")))
    end;
  nb_UpdateAccountS3Access n _ := (n, None);
  nb_UpdateAllBucketsDefaultPool n _ := (n, None);
|}.

Lemma SystemClient_laws : NBLaws (N:=SystemInfo).
Proof.
  split; [done..|idtac|].
  - intros n name n'. simpl. destruct (findPool _ _); [|done]. case_bool_decide; [|done].
    intros [= <-] (info & [= <-] & Hin). simpl in Hin.
    apply list_elem_of_fmap in Hin as (q & -> & [Hq _]%list_elem_of_filter). done.
  - intros n c n' e name [= <- _]. done.
Qed.

(** A JSON library that reads nothing. *)
#[export] Instance NoJson : GoogleJson := {|
  json_Unmarshal_google _ := inl (Lit "not JSON");
  json_Marshal_sts _ := inl (Lit "not JSON");
|}.

#[export] Existing Instance ListConditions.

(** ** A store, its secret and the system *)

Definition demoSecret : Secret :=
  mkSecret (mkObjectMeta "creds" "noobaa" "uid-2" 1 0 None None None [] [] 1)
    (Some (list_to_map [("AWS_ACCESS_KEY_ID", "key"); ("AWS_SECRET_ACCESS_KEY", "secret")]%string)) None.

Definition demoMeta (deleted : option Z) : ObjectMeta :=
  mkObjectMeta "store" "noobaa" "uid-1" 1 0 deleted (Some {["app"%string := "noobaa"%string]}) None [Finalizer] [] 1.

Definition demoStore (deleted : option Z) (phase : BackingStorePhase) (bucket : string) : BackingStore IntQuantity :=
  mkBackingStore IntQuantity (demoMeta deleted)
    (mkBackingStoreSpec IntQuantity StoreTypeAWSS3
       (Some (mkAWSS3Spec bucket (mkSecretReference "creds" "noobaa") "us-east-1" false None))
       None None None None None)
    (mkBackingStoreStatus phase [] "").

Definition demoNooBaa : NooBaa :=
  mkNooBaa (mkObjectMeta "noobaa" "noobaa" "uid-3" 1 0 None None None [] [] 1)
    emptyNooBaaSpec noStatus.

(** The state of a reconcile: the pool of the store exists unless [pools] is empty. *)
Definition demoState (bs : BackingStore IntQuantity) (pools : list PoolInfo) : State IntQuantity Cluster SystemInfo :=
  mkState IntQuantity Cluster SystemInfo
    (mkCluster {[("noobaa", "store")%string := bs]} {[("noobaa", "creds")%string := demoSecret]})
    (mkSystemInfo [] pools []) bs demoSecret.

Definition demoPool (undeletable : string) : PoolInfo :=
  mkPoolInfo "store" "CLOUD" "OPTIMAL" undeletable None None.

Definition graphic (c : Z) : bool := (32 <? c)%Z && (c <? 127)%Z.
Definition demoNow : Z := (10 ^ 12)%Z.
Definition noSettings : AgentSettings := mkAgentSettings "image" None None None None PerformanceProfileNone.

(** The state that a run ends in. *)
Definition run_state {A} (d : A) {B} (m : outcome (A * B)) : A :=
  match m with Ret (st, _) => st | Panic _ => d end.

Definition demoDeletion (bs : BackingStore IntQuantity) (pools : list PoolInfo) : outcome (State IntQuantity Cluster SystemInfo * option error) :=
  ReconcileDeletion graphic "noobaa" demoNow storeStatus (demoState bs pools) demoNooBaa true.

Definition demoPhases (bs : BackingStore IntQuantity) (pools : list PoolInfo) : outcome (State IntQuantity Cluster SystemInfo * option error) :=
  ReconcilePhases graphic (λ _, None) "noobaa" "noobaa" false false (λ _ m, inr m) (λ _, "0a"%string)
    demoNow 10 id None (λ _, None) noSettings (demoState bs pools) demoNooBaa.

(** ** Runs *)

Lemma ReconcileDeletion_released_witness :
  let st := demoState (demoStore (Some 1%Z) BackingStorePhaseReady "bucket") [demoPool ""] in
  let st' := run_state st (demoDeletion (demoStore (Some 1%Z) BackingStorePhaseReady "bucket") [demoPool ""]) in
  poolReleased (st_noobaa st) "store" (st_noobaa st') ∧
  ∃ w bs, srv_Update w bs = (st_cluster st', inr (st_store st')) ∧
    ObjectKey bs = ("noobaa", "store")%string ∧
    om_Finalizers (bs_meta bs) = filter (λ f, f ≠ Finalizer) (om_Finalizers (bs_meta (st_store st))).
Proof.
  intros st st'. apply (ReconcileDeletion_released graphic "noobaa" demoNow storeStatus (NL:=SystemClient_laws)
    st demoNooBaa true st'). reflexivity.
Defined.

Lemma ReconcileDeletion_blocked_witness :
  let st := demoState (demoStore (Some 1%Z) BackingStorePhaseDeleting "bucket") [demoPool "IN_USE"] in
  let r := finalizeCore graphic st "noobaa" in
  ∃ st1, ReconcileDeletion graphic "noobaa" demoNow storeStatus st demoNooBaa true =
    Ret (st1, Some (Errorf (Sprintf "DeletePoolAPI cannot complete because pool %q has buckets attached" [AStr "store"])))
  ∧ st_cluster st1 = st_cluster st ∧ bs_meta (st_store st1) = bs_meta (st_store st).
Proof.
  intros st r. exists (run_state st r).
  apply ReconcileDeletion_blocked; [reflexivity|]. reflexivity.
Defined.

Lemma completeReconcile_outcome_witness :
  let st := demoState (demoStore None BackingStorePhaseCreating "bucket") [] in
  ∃ st' res, completeReconcile demoNow storeStatus st (Some (PersistentError "MissingSecret" (Lit "gone"))) = Ret (st', res) ∧
    bst_Phase (bs_Status (st_store st')) = BackingStorePhaseRejected ∧ RequeueAfter res = None.
Proof.
  intros st. destruct (completeReconcile_outcome demoNow storeStatus (CL:=ListConditions_laws) st
    (Some (PersistentError "MissingSecret" (Lit "gone")))) as (st' & res & H & Hp & _ & Hi & _).
  exists st', res. split; [exact H|]. split; [exact Hp|]. apply Hi. split; [right|]; reflexivity.
Defined.

Lemma ReconcilePhases_success_witness :
  let st := demoState (demoStore None BackingStorePhaseNone "bucket") [] in
  let st' := run_state st (demoPhases (st_store st) []) in
  bs_valid (st_store st) ∧ has_pool (st_noobaa st') "store".
Proof.
  intros st st'.
  assert (H : demoPhases (st_store st) [] = Ret (st', None)) by (reflexivity).
  split.
  - exact (proj1 (ReconcilePhases_success _ _ _ _ _ _ _ _ _ _ _ _ _ _ (QL:=IntQuantity_laws) _ _ _ H)).
  - exists (st_noobaa st'). split; [reflexivity|]. vm_compute. left.
Defined.

Lemma reconcileLoaded_invalid_witness :
  let st := demoState (demoStore None BackingStorePhaseNone "") [] in
  ∃ st' res, reconcileLoaded graphic (λ _, None) "noobaa" "noobaa" false false (λ _ m, inr m) (λ _, "0a"%string)
      demoNow 10 id None (λ _, None) storeStatus noSettings st demoNooBaa true = Ret (st', res) ∧
    bst_Phase (bs_Status (st_store st')) = BackingStorePhaseRejected ∧ RequeueAfter res = None.
Proof.
  intros st.
  destruct (reconcileLoaded_invalid graphic (λ _, None) "noobaa" "noobaa" false false (λ _ m, inr m) (λ _, "0a"%string)
      demoNow 10 id None (λ _, None) storeStatus noSettings (QL:=IntQuantity_laws) st demoNooBaa)
    as (st' & res & H & Hp & _ & Hi).
  - reflexivity.
  - done.
  - reflexivity.
  - left.
  - intros (a & [= <-] & Hb & _). apply Hb. reflexivity.
  - exists st', res. split; [exact H|]. split; [exact Hp|]. apply Hi. reflexivity.
Defined.

Lemma ReadSystemInfo_plan_witness :
  let st := demoState (demoStore None BackingStorePhaseConnecting "bucket") [] in
  ∃ st' plan, ReadSystemInfo graphic st "noobaa" = Ret (st', plan, None) ∧ plan_wf st' plan.
Proof.
  intros st. eexists _, _. split; [reflexivity|].
  apply (ReadSystemInfo_plan graphic st "noobaa"). reflexivity.
Defined.

Definition demoPlan (st : State IntQuantity Cluster SystemInfo) : Plan :=
  match ReadSystemInfo graphic st "noobaa" with Ret (_, plan, _) => plan | Panic _ => emptyPlan end.

Lemma ReconcileExternalConnection_confirmed_witness :
  let st := demoState (demoStore None BackingStorePhaseCreating "bucket") [] in
  is_Some (pl_AddExternalConnection (demoPlan st)) ∧
  ∃ st', ReconcileExternalConnection demoNow st (demoPlan st) = Ret (st', None) ∧
    st_cluster st' = st_cluster st ∧ st_store st' = st_store st ∧
    (st_noobaa st' = st_noobaa st ∨
     pl_ExternalConnectionInfo (demoPlan st) = None ∧ confirmed st (demoPlan st)).
Proof.
  intros st. split; [eexists; reflexivity|]. exists st. split; [reflexivity|].
  apply (ReconcileExternalConnection_confirmed demoNow st (demoPlan st) st None). reflexivity.
Defined.

Lemma UInt64ToBigInt_value_witness :
  (bi_N (UInt64ToBigInt (3 * 2 ^ 50 + 7)) + bi_Peta (UInt64ToBigInt (3 * 2 ^ 50 + 7)) * 2 ^ 50 = 3 * 2 ^ 50 + 7)%Z.
Proof. apply (UInt64ToBigInt_value (3 * 2 ^ 50 + 7)). lia. Defined.
