(* ===== verification/RequestScenario.v ===== *)
(** * Requests and objects on concrete systems.

    Runs of the webhook, of the Kubernetes helpers and of the credential and pod
    routines on small inputs: each instantiates one of the theorems, with the
    libraries that the theorem leaves open replaced by concrete ones. *)

From S2P Require Import Prelude GoStrings Types NbTypes Kube Util StoreAccess Gcp GoUrl.
From S2P Require Import BackingStoreValidation NamespaceStoreValidation BucketClassValidation NooBaaValidation.
From S2P Require Import Admission Secrets Profiles PvPool ConnectionParams Controller BackingStoreReconciler Scenario.

(** ** The webhook *)

Definition poolStore (volumes : Z) : BackingStore IntQuantity :=
  mkBackingStore IntQuantity (named "noobaa" "pool")
    (mkBackingStoreSpec IntQuantity StoreTypePVPool None None None None None
       (Some (mkPVPoolSpec IntQuantity "" volumes None "" (mkSecretReference "" ""))))
    (mkBackingStoreStatus BackingStorePhaseNone [] "").

(** A decoder of three documents. *)
Definition decodeBS (s : string) : BackingStore IntQuantity :=
  if s == "pool 3" then poolStore 3 else if s == "pool 5" then poolStore 5
  else demoStore None BackingStorePhaseReady "bucket".

Definition compatStore (endpoint : string) : NamespaceStore :=
  mkNamespaceStore (named "noobaa" "ns")
    (mkNamespaceStoreSpec NSStoreTypeS3Compatible false "" None
       (Some (mkS3CompatibleSpec "bucket" (mkSecretReference "creds" "noobaa") endpoint S3SignatureVersionV4))
       None None None None)
    (mkNamespaceStoreStatus NamespaceStorePhaseNone [] "").

Definition decodeNS (s : string) : NamespaceStore := compatStore s.

Definition decodeBC (s : string) : BucketClass :=
  mkBucketClass (named "noobaa" "class")
    (mkBucketClassSpec (Some (mkPlacementPolicy [mkTier TierPlacementSpread ["store"%string]])) None None "" None None)
    (mkBucketClassStatus BucketClassPhaseNone [] "").

Definition decodeNA (s : string) : NooBaaAccount :=
  mkNooBaaAccount (named "noobaa" "account") (mkNooBaaAccountSpec true None "store" None)
    (mkNooBaaAccountStatus NooBaaAccountPhaseNone []).

Definition request (resource : string) (op : Operation) (old new : string) : AdmissionRequest :=
  mkAdmissionRequest "uid-9" resource op new old.

Definition emptyCluster : Cluster := mkCluster ∅ ∅.

Lemma serve_answers_witness :
  ∃ req, resp_UID (NewValidatorResponse (request "backingstores" OpCreate "" "pool 3")) = req_UID req ∧
    answers req (NewValidatorResponse (request "backingstores" OpCreate "" "pool 3")).
Proof.
  destruct (serve_answers (QA:=IntQuantity) decodeBS decodeNS decodeBC decodeNA (λ _, demoNooBaa) "noobaa" (λ _, ""%string) None
      (λ _, inr (Some (request "backingstores" OpCreate "" "pool 3"))) emptyCluster "{}" "/validate"
      (NewValidatorResponse (request "backingstores" OpCreate "" "pool 3")) eq_refl) as (req & Hreq & Ha).
  exists req. injection Hreq as <-. split; [reflexivity|exact Ha].
Defined.

Lemma ValidateCreateBS_admits_witness :
  admits (ValidateCreateBS decodeBS (request "backingstores" OpCreate "" "pool 3")
            (NewValidatorResponse (request "backingstores" OpCreate "" "pool 3"))) ↔ bs_valid (poolStore 3).
Proof.
  apply (ValidateCreateBS_admits (QL:=IntQuantity_laws) decodeBS decodeNS decodeBC decodeNA (λ _, demoNooBaa) "noobaa"
           (λ _, ""%string) (request "backingstores" OpCreate "" "pool 3")). reflexivity.
Defined.

(** An update of a pool from three to five volumes. *)
Lemma pool_step : bs_step decodeBS (poolStore 3) (poolStore 5).
Proof.
  split; [reflexivity|]. exists (request "backingstores" OpUpdate "pool 3" "pool 5").
  exists (NewValidatorResponse (request "backingstores" OpUpdate "pool 3" "pool 5")).
  split_and!; try reflexivity. eexists. split; reflexivity.
Qed.

Lemma bs_history_volumes_witness : (num_volumes (poolStore 3) ≤ num_volumes (poolStore 5))%Z.
Proof.
  apply (bs_history_volumes (QL:=IntQuantity_laws) decodeBS decodeNS decodeBC decodeNA (λ _, demoNooBaa) "noobaa" (λ _, ""%string)).
  - apply rtc_once, pool_step.
  - reflexivity.
Defined.

Lemma bs_history_bucket_witness :
  bss_Type (bs_Spec (poolStore 5)) = StoreTypePVPool ∧ target_bucket (poolStore 5) = target_bucket (poolStore 3).
Proof.
  apply (bs_history_bucket (QL:=IntQuantity_laws) decodeBS decodeNS decodeBC decodeNA (λ _, demoNooBaa) "noobaa" (λ _, ""%string)
           (poolStore 3) (poolStore 5)).
  - apply rtc_once, pool_step.
  - done.
Defined.

Lemma ValidateUpdateNS_admits_witness :
  same_endpoint "s3.example.com" "https://s3.example.com".
Proof.
  set (req := request "namespacestores" OpUpdate "s3.example.com" "https://s3.example.com").
  apply (ValidateUpdateNS_admits decodeNS req (NewValidatorResponse req)).
  - eexists. split; reflexivity.
  - reflexivity.
  - reflexivity.
  - reflexivity.
Defined.

Lemma ValidateCreateBC_admits_witness :
  let req := request "bucketclasses" OpCreate "" "class" in
  admits (ValidateCreateBC (QA:=IntQuantity) decodeBC emptyCluster req (NewValidatorResponse req)) ↔
  bc_admissible (QA:=IntQuantity) emptyCluster (decodeBC "class").
Proof.
  intros req. apply (ValidateCreateBC_admits (QA:=IntQuantity) decodeBS decodeNS decodeBC decodeNA (λ _, demoNooBaa) "noobaa"
    (λ _, ""%string) emptyCluster req). reflexivity.
Defined.

Lemma ValidateAccountDefaultResource_sound_witness :
  let w := mkCluster {[("noobaa", "store")%string := demoStore None BackingStorePhaseReady "bucket"]} ∅ in
  (∃ bs : BackingStore IntQuantity, bs_at w "noobaa" "store" bs) ∨ (∃ ns, ns_at w "noobaa" "store" ns).
Proof.
  intros w. destruct (ValidateAccountDefaultResource_sound (QA:=IntQuantity) "noobaa" w (decodeNA "")) as [[H _]|[_ (ns & H & _)]].
  - reflexivity.
  - done.
  - left. exact H.
  - right. exists ns. exact H.
Defined.

(** ** The Kubernetes helpers *)

Section Memory.
#[local] Existing Instance MemServer.
Abbreviation secrets := (gmap ObjectKeyT Secret).
#[local] Instance secret_laws : ApiLaws secrets Secret (option (gmap string string)) :=
  MemLaws sec_StringData (λ _ _, eq_refl).

Definition oneSecret : secrets := {[("noobaa", "creds")%string := demoSecret]}.
Definition newSecret : Secret := mkSecret (named "noobaa" "other") (Some ∅) None.

Lemma KubeApply_spec_witness :
  ∃ w' obj', KubeApply oneSecret newSecret = Ret (w', obj', true) ∧ stored oneSecret w' newSecret obj'.
Proof.
  eexists _, _. split; [reflexivity|].
  exact (proj2 (KubeApply_spec oneSecret newSecret _ _ true eq_refl eq_refl)).
Defined.

Lemma kubeCreateSkipOrFailExisting_spec_witness :
  ∃ w' obj', KubeCreateFailExisting oneSecret demoSecret = Ret (w', obj', false) ∧ w' = oneSecret.
Proof.
  exists oneSecret, demoSecret.
  assert (Hrun : kubeCreateSkipOrFailExisting oneSecret demoSecret false = Ret (oneSecret, demoSecret, false))
    by (vm_compute; reflexivity).
  split; [exact Hrun|].
  destruct (kubeCreateSkipOrFailExisting_spec oneSecret demoSecret false oneSecret demoSecret false Hrun)
    as [(_ & H & _)|[(_ & H & _)|(_ & _ & H & _)]]; [exact H|discriminate H|exact H].
Defined.

Lemma KubeUpdate_spec_witness :
  ∃ w' obj', KubeUpdate oneSecret demoSecret = Ret (w', obj', true) ∧ stored oneSecret w' demoSecret obj'.
Proof.
  eexists _, _. split; [reflexivity|].
  exact (KubeUpdate_spec oneSecret demoSecret _ _ true eq_refl eq_refl).
Defined.

Lemma KubeDelete_terminates_witness :
  KubeDelete 5 id oneSecret demoSecret = Ret (∅, Some true).
Proof.
  apply (KubeDelete_terminates id demoSecret 1).
  - eapply deletes_wait; [reflexivity|]. eapply deletes_gone. reflexivity.
  - lia.
Defined.

End Memory.

(** A server on which every deletion conflicts. *)
Definition ConflictServer : ApiServer unit Secret := {|
  srv_Get _ _ := inl not_found;
  srv_Create w _ := (w, inl not_found);
  srv_Update w _ := (w, inl not_found);
  srv_Delete w _ := (w, Some (StatusError ReasonConflict (Lit "conflict")));
  srv_List _ _ := inr [];
|}.

Lemma KubeDelete_conflict_witness :
  KubeDelete (AS:=ConflictServer) 5 id tt demoSecret = Ret (tt, Some false) ∧
  KubeDeleteNoPolling (AS:=ConflictServer) tt demoSecret = Panic (Panicked (Lit "conflict")).
Proof. apply (KubeDelete_conflict (AS:=ConflictServer) 5 id tt demoSecret tt). reflexivity. Defined.

(** ** Stores, secrets and credentials *)

Lemma SetBackingStoreSecretRef_get_witness :
  ∃ bs', SetBackingStoreSecretRef (demoStore None BackingStorePhaseReady "bucket") (mkSecretReference "new" "noobaa") = Ret (bs', None) ∧
    GetBackingStoreSecretByType bs' = Ret (inr (mkSecretReference "new" "noobaa")).
Proof.
  destruct (SetBackingStoreSecretRef_get (demoStore None BackingStorePhaseReady "bucket") (mkSecretReference "new" "noobaa"))
    as (bs' & Hs & Hg & _).
  - eexists. reflexivity.
  - exists bs'. split; [exact Hs|exact Hg].
Defined.

Lemma SetNamespaceStoreSecretRef_get_witness :
  ∃ ns', SetNamespaceStoreSecretRef (compatStore "s3.example.com") (mkSecretReference "new" "noobaa") = Ret (ns', None) ∧
    GetNamespaceStoreSecretByType ns' = Ret (inr (Some (mkSecretReference "new" "noobaa"))).
Proof.
  destruct (SetNamespaceStoreSecretRef_get (compatStore "s3.example.com") (mkSecretReference "new" "noobaa"))
    as (ns' & Hs & Hg & _).
  - eexists. reflexivity.
  - exists ns'. split; [exact Hs|exact Hg].
Defined.

(** A JSON library for external-account documents, written as their impersonation URL. *)
Definition UrlJson : GoogleJson := {|
  json_Unmarshal_google s := inr (mkGoogleCredentialsJSON "external_account" "" s);
  json_Marshal_sts c :=
    if sts_Type c == "external_account" then inr (sts_ServiceAccountImpersonationURL c)
    else inl (Lit "unsupported type");
|}.

Lemma UrlJson_laws : GoogleJsonLaws UrlJson.
Proof. intros c s. simpl. case_bool_decide as H; [|done]. intros [= <-]. by rewrite H. Qed.

Lemma BuildGoogleWIFCredentialsJSON_parse_witness :
  ∃ json, BuildGoogleWIFCredentialsJSON (GJ:=UrlJson) "123456789" "my-pool" "my-provider" "svc-acc@my-project.iam.gserviceaccount.com" = Ret (inr json) ∧
    ParseGoogleCredentials (GJ:=UrlJson) json = inr (true, "svc-acc@my-project.iam.gserviceaccount.com"%string).
Proof.
  eexists. split; [reflexivity|].
  apply (BuildGoogleWIFCredentialsJSON_parse (GL:=UrlJson_laws) "123456789" "my-pool" "my-provider"
           "svc-acc@my-project.iam.gserviceaccount.com"). reflexivity.
Defined.

Lemma MakeExternalConnectionParams_returns_witness :
  returns (MakeExternalConnectionParams graphic (demoStore None BackingStorePhaseReady "bucket") demoSecret).
Proof. apply MakeExternalConnectionParams_returns; [eexists; reflexivity|done]. Defined.

Lemma connEndpoint_ValidateEndPoint_witness :
  (connEndpoint "s3.example.com").2 = inr "https://s3.example.com"%string ↔
  ValidateEndPoint "s3.example.com" = inr "https://s3.example.com"%string.
Proof. apply connEndpoint_ValidateEndPoint. done. Defined.

(** Another secret with the credentials of [demoSecret], used by a store. *)
Definition twin : Secret :=
  mkSecret (mkObjectMeta "twin" "noobaa" "uid-4" 1 0 None None None [] [] 1) (sec_StringData demoSecret) (sec_StringData demoSecret).

Definition twinStore : BackingStore IntQuantity :=
  mkBackingStore IntQuantity (named "noobaa" "first")
    (mkBackingStoreSpec IntQuantity StoreTypeAWSS3
       (Some (mkAWSS3Spec "bucket" (mkSecretReference "twin" "noobaa") "" false None)) None None None None None)
    (mkBackingStoreStatus BackingStorePhaseReady [] "").

Definition twinCluster : Cluster :=
  mkCluster {[("noobaa", "first")%string := twinStore]}
    (<[("noobaa", "twin")%string := twin]> {[("noobaa", "creds")%string := demoSecret]}).

Lemma CheckForIdenticalSecretsCreds_reusable_witness :
  ∃ s, CheckForIdenticalSecretsCreds (QA:=IntQuantity) twinCluster (Some demoSecret) "aws-s3" = Ret (Some s) ∧
    reusable twinCluster demoSecret "aws-s3" s.
Proof.
  eexists. split; [reflexivity|].
  apply (CheckForIdenticalSecretsCreds_reusable (QA:=IntQuantity)). reflexivity.
Defined.

(** ** Agent pods, finalizers and tolerations *)

Lemma needUpdate_template_witness :
  ∃ t, updatePodTemplate (λ _, None) false false None (poolStore 3) noSettings "secret" = Ret (inr t) ∧
    settled (λ _, None) "noobaa" None emptyCluster (poolStore 3) noSettings
      (newAgentPod "noobaa" "noobaa" (poolStore 3) t "pool-noobaa-pvc-0a").
Proof.
  eexists. split; [reflexivity|].
  apply (needUpdate_template (QL:=IntQuantity_laws) (λ _, None) "noobaa" "noobaa" false false None emptyCluster
           (poolStore 3) noSettings "secret").
  - reflexivity.
  - intros _. eexists _, false. split; [reflexivity|done].
  - intros tol s Hin. by apply not_elem_of_nil in Hin.
Defined.

Lemma AddFinalizer_RemoveFinalizer_witness :
  om_Finalizers (meta (fst (RemoveFinalizer (fst (AddFinalizer (poolStore 3) Finalizer)) Finalizer))) =
  om_Finalizers (meta (poolStore 3)).
Proof. apply (AddFinalizer_RemoveFinalizer (poolStore 3) Finalizer). apply not_elem_of_nil. Defined.

Lemma IsTolerationSuperset_tolerates_witness :
  tolerates (mkToleration "" TolerationOpExists "" "" None) (mkTaint "storage" "noobaa" "NoSchedule").
Proof.
  apply (IsTolerationSuperset_tolerates false _ (mkToleration "storage" TolerationOpEqual "noobaa" "NoSchedule" None)).
  - reflexivity.
  - split; [right; reflexivity|]. split; [right; reflexivity|]. reflexivity.
Defined.
