(* ===== verification/World.v ===== *)
(** * A concrete cluster and a concrete NooBaa server.

    The theorems on the controllers and provisioners hold for every cluster and every
    server that obeys the stated laws.  Here is one of each: a cluster that keeps its
    objects in maps, and a server that keeps resources, accounts and buckets, with the
    proofs that they obey the laws.  The scenario files run the controllers on them. *)

From Stdlib Require Import Ascii.
From S2P Require Import Prelude GoStrings Types NbTypes Kube Util GoUrl Controller Quota Buckets SystemServices Obc Cosi Scenario.
From S2P Require NamespaceStoreReconciler BucketClassReconciler AccountReconciler.

(** ** The cluster *)

Record World := mkWorld {
  wd_backingStores : gmap ObjectKeyT (BackingStore IntQuantity);
  wd_namespaceStores : gmap ObjectKeyT NamespaceStore;
  wd_bucketClasses : gmap ObjectKeyT BucketClass;
  wd_accounts : gmap ObjectKeyT NooBaaAccount;
  wd_secrets : gmap ObjectKeyT Secret;
  wd_systems : gmap ObjectKeyT NooBaa;
  wd_services : gmap ObjectKeyT Service;
  wd_pods : gmap ObjectKeyT RunningPod;
  wd_buckets : gmap ObjectKeyT ObjectBucket;
}.

#[export] Instance World_BackingStore : ApiServer World (BackingStore IntQuantity) :=
  FieldServer wd_backingStores (λ m w, mkWorld m (wd_namespaceStores w) (wd_bucketClasses w) (wd_accounts w) (wd_secrets w)
    (wd_systems w) (wd_services w) (wd_pods w) (wd_buckets w)).
#[export] Instance World_NamespaceStore : ApiServer World NamespaceStore :=
  FieldServer wd_namespaceStores (λ m w, mkWorld (wd_backingStores w) m (wd_bucketClasses w) (wd_accounts w) (wd_secrets w)
    (wd_systems w) (wd_services w) (wd_pods w) (wd_buckets w)).
#[export] Instance World_BucketClass : ApiServer World BucketClass :=
  FieldServer wd_bucketClasses (λ m w, mkWorld (wd_backingStores w) (wd_namespaceStores w) m (wd_accounts w) (wd_secrets w)
    (wd_systems w) (wd_services w) (wd_pods w) (wd_buckets w)).
#[export] Instance World_NooBaaAccount : ApiServer World NooBaaAccount :=
  FieldServer wd_accounts (λ m w, mkWorld (wd_backingStores w) (wd_namespaceStores w) (wd_bucketClasses w) m (wd_secrets w)
    (wd_systems w) (wd_services w) (wd_pods w) (wd_buckets w)).
Definition put_secrets (m : gmap ObjectKeyT Secret) (w : World) : World :=
  mkWorld (wd_backingStores w) (wd_namespaceStores w) (wd_bucketClasses w) (wd_accounts w) m
    (wd_systems w) (wd_services w) (wd_pods w) (wd_buckets w).
#[export] Instance World_Secret : ApiServer World Secret := FieldServer wd_secrets put_secrets.
#[export] Instance World_NooBaa : ApiServer World NooBaa :=
  FieldServer wd_systems (λ m w, mkWorld (wd_backingStores w) (wd_namespaceStores w) (wd_bucketClasses w) (wd_accounts w) (wd_secrets w)
    m (wd_services w) (wd_pods w) (wd_buckets w)).
#[export] Instance World_Service : ApiServer World Service :=
  FieldServer wd_services (λ m w, mkWorld (wd_backingStores w) (wd_namespaceStores w) (wd_bucketClasses w) (wd_accounts w) (wd_secrets w)
    (wd_systems w) m (wd_pods w) (wd_buckets w)).
#[export] Instance World_RunningPod : ApiServer World RunningPod :=
  FieldServer wd_pods (λ m w, mkWorld (wd_backingStores w) (wd_namespaceStores w) (wd_bucketClasses w) (wd_accounts w) (wd_secrets w)
    (wd_systems w) (wd_services w) m (wd_buckets w)).
#[export] Instance World_ObjectBucket : ApiServer World ObjectBucket :=
  FieldServer wd_buckets (λ m w, mkWorld (wd_backingStores w) (wd_namespaceStores w) (wd_bucketClasses w) (wd_accounts w) (wd_secrets w)
    (wd_systems w) (wd_services w) (wd_pods w) m).

(** A field of a cluster obeys the laws of the map it holds. *)
Lemma FieldLaws {W O P : Type} {KO : KubeObject O} (get : W → gmap ObjectKeyT O) (put : gmap ObjectKeyT O → W → W)
    (pl : O → P) :
  (∀ v o, pl (set_meta (set_om_ResourceVersion v (meta o)) o) = pl o) →
  (∀ m w, get (put m w) = m) → (∀ w, put (get w) w = w) →
  { L : @ApiLaws W O _ (FieldServer get put) P | ∀ o, @payload W O _ (FieldServer get put) P L o = pl o }.
Proof.
  intros Hpl Hget Hput.
  refine (exist (λ L : @ApiLaws W O _ (FieldServer get put) P, ∀ o, @payload W O _ (FieldServer get put) P L o = pl o)
            (@Build_ApiLaws W O KO (FieldServer get put) P pl Hpl _ _ _ _ _) (λ _, eq_refl)); cbn.
  - intros w o w' o'. destruct (mem_Create (get w) o) as [m r] eqn:Hc. intros [= <- ->].
    apply mem_Create_ok in Hc as (Hn & -> & ->). rewrite Hget. split_and!.
    + apply ObjectKey_bump.
    + apply Hpl.
    + apply mem_Get_insert_eq.
    + exists not_found. unfold mem_Get. by rewrite Hn.
    + intros k Hk. by apply mem_Get_insert_ne.
  - intros w o w' e. unfold mem_Create. intros H. repeat case_match; simplify_eq; try done; by rewrite Hput.
  - intros w o w' o' _. destruct (mem_Update (get w) o) as [m r] eqn:Hc. intros [= <- ->].
    apply mem_Update_ok in Hc as (x & v & Hx & -> & ->). rewrite Hget. split_and!.
    + apply ObjectKey_bump.
    + apply Hpl.
    + apply mem_Get_insert_eq.
    + exists x. unfold mem_Get. by rewrite Hx.
    + intros k Hk. by apply mem_Get_insert_ne.
  - intros w o w' e. unfold mem_Update. intros H. repeat case_match; simplify_eq; try done; by rewrite Hput.
  - intros w o w' e. unfold mem_Delete. intros H. repeat case_match; simplify_eq; try done; by rewrite Hput.
Defined.

Definition worldSecretLaws : ApiLaws World Secret (option (gmap string string)) :=
  proj1_sig (FieldLaws wd_secrets put_secrets sec_StringData (λ _ _, eq_refl) (λ _ _, eq_refl) (λ w, match w with mkWorld _ _ _ _ _ _ _ _ _ => eq_refl end)).

Lemma worldSecret_payload (s : Secret) : @payload World Secret _ _ _ worldSecretLaws s = sec_StringData s.
Proof. exact (proj2_sig (FieldLaws _ _ _ _ _ _) s). Qed.

(** ** The server *)

Record Server := mkServer {
  sv_info : SystemInfo;
  sv_accounts : gmap string AccountInfo;
  sv_buckets : gmap string BucketInfo;
}.

Definition noSuchBucket : error := RPCError "NO_SUCH_BUCKET" (Lit "no such bucket").
Definition noSuchAccount : error := RPCError "NO_SUCH_ACCOUNT" (Lit "no such account").

Definition set_resources (l : list NamespaceResourceInfo) (n : Server) : Server :=
  mkServer (mkSystemInfo (si_Accounts (sv_info n)) (si_Pools (sv_info n)) l) (sv_accounts n) (sv_buckets n).
Definition set_accounts (m : gmap string AccountInfo) (n : Server) : Server := mkServer (sv_info n) m (sv_buckets n).
Definition set_buckets (m : gmap string BucketInfo) (n : Server) : Server := mkServer (sv_info n) (sv_accounts n) m.

#[export] Instance Server_client : NBClient Server := {|
  nb_Connect _ := None;
  nb_ReadSystem n := inr (sv_info n);
  nb_ListHosts _ _ := inr [];
  nb_CheckExternalConnection _ _ := inr (mkCheckExternalConnectionReply ExternalConnectionSuccess "" "");
  nb_GetHostsPoolAgentConfig _ _ := inr "config"%string;
  nb_AddExternalConnection n _ := (n, None);
  nb_UpdateExternalConnection n _ := (n, None);
  nb_DeleteExternalConnection n _ := (n, None);
  nb_CreateCloudPool n _ := (n, None);
  nb_CreateHostsPool n _ := (n, inr "config"%string);
  nb_UpdateHostsPool n _ := (n, None);
  nb_DeletePool n _ := (n, None);
  nb_UpdateAccountS3Access n _ := (n, None);
  nb_UpdateAllBucketsDefaultPool n _ := (n, None);
|}.

#[export] Instance Server_namespaces : NamespaceStoreReconciler.NBNamespaceClient Server := {|
  NamespaceStoreReconciler.nb_CreateNamespaceResource n p :=
    (set_resources (mkNamespaceResourceInfo (cnr_Name p) "OPTIMAL" "" EndpointTypeAws "" (cnr_TargetBucket p) "" CloudAuthMethodNone
                      :: si_NamespaceResources (sv_info n)) n, None);
  NamespaceStoreReconciler.nb_DeleteNamespaceResource n name :=
    (set_resources (filter (λ r, nsr_Name r ≠ name) (si_NamespaceResources (sv_info n))) n, None);
|}.

Definition newAccount (p : CreateAccountParams) : AccountInfo :=
  mkAccountInfo (cap_Name p) (cap_Email p) (cap_S3Access p) (cap_AllowBucketCreate p) (cap_DefaultResource p)
    [mkS3AccessKeys "key" "secret"] "arn" [] (cap_NsfsAccountConfig p).

#[export] Instance Server_accounts : NBAccountClient Server := {|
  nb_ReadAccount n email := match sv_accounts n !! email with Some a => inr a | None => inl noSuchAccount end;
  nb_CreateAccount n p :=
    (set_accounts (<[cap_Email p := newAccount p]> (sv_accounts n)) n, inr (mkCreateAccountReply "arn" [mkS3AccessKeys "key" "secret"]));
  nb_DeleteAccount n email :=
    match sv_accounts n !! email with
    | Some _ => (set_accounts (delete email (sv_accounts n)) n, None)
    | None => (n, Some noSuchAccount)
    end;
|}.

Definition deleteBucket (n : Server) (name : string) : Server * option error :=
  match sv_buckets n !! name with
  | Some _ => (set_buckets (delete name (sv_buckets n)) n, None)
  | None => (n, Some noSuchBucket)
  end.

(** Setting an option that is given, keeping one that is not. *)
Definition over {A} (new old : option A) : option A := match new with Some a => Some a | None => old end.

#[export] Instance Server_buckets : NBBucketClient Server := {|
  nb_ReadBucket n name := match sv_buckets n !! name with Some b => inr b | None => inl noSuchBucket end;
  nb_CreateBucket n p :=
    (set_buckets (<[cbp_Name p := mkBucketInfo (cbp_Name p) "REGULAR" None None (cbp_Quota p) (cbp_Namespace p) (cbp_ArchivePolicy p)]>
                    (sv_buckets n)) n, None);
  nb_UpdateBucket n p :=
    match sv_buckets n !! cbp_Name p with
    | None => (n, Some noSuchBucket)
    | Some b =>
        (set_buckets (<[cbp_Name p := mkBucketInfo (bkt_Name b) (bkt_BucketType b) (bkt_DataCapacity b) (bkt_NumObjects b)
                                        (over (cbp_Quota p) (bkt_Quota b)) (bkt_Namespace b)
                                        (over (cbp_ArchivePolicy p) (bkt_ArchivePolicy b))]> (sv_buckets n)) n, None)
    end;
  nb_DeleteBucket := deleteBucket;
  nb_DeleteBucketAndObjects := deleteBucket;
  nb_GetVectorBucket _ _ := Some noSuchBucket;
  nb_CreateVectorBucket n _ := (n, None);
  nb_DeleteVectorBucket n _ := (n, Some noSuchBucket);
|}.

#[export] Instance Server_tiers : NBTierClient Server := {|
  nb_CreateTier n _ := (n, None);
  nb_CreateTieringPolicy n _ := (n, None);
  nb_UpdateBucketClass n _ := (n, inr (mkBucketClassInfo "" false (mkUpdateBucketClassParams "" (mkTieringPolicyInfo "" []) [])));
|}.

#[export] Instance Server_replication : NBReplicationClient Server (list unit) := {|
  nb_PutBucketReplication n _ _ := (n, None);
  nb_DeleteBucketReplication n _ := (n, None);
|}.

(** ** The server obeys the laws *)

#[export] Instance Server_namespace_laws : NamespaceStoreReconciler.NBNamespaceLaws (N:=Server).
Proof.
  split; try done.
  - intros n name n' [= <-]. unfold NamespaceStoreReconciler.has_resource. intros (info & [= <-] & Hin).
    cbn in Hin. apply list_elem_of_fmap in Hin as (r & -> & [Hr _]%list_elem_of_filter). done.
  - intros n p n' [= <-]. eexists. split; [reflexivity|]. cbn. apply elem_of_cons. by left.
Qed.

#[export] Instance Server_account_laws : AccountReconciler.NBAccountLaws (N:=Server).
Proof.
  split.
  - intros n email n'. cbn. destruct (sv_accounts n !! email) eqn:Ha; [|done]. intros [= <-] [info Hi].
    cbn in Hi. by rewrite lookup_delete_eq in Hi.
  - intros n email n' m. cbn. destruct (sv_accounts n !! email) eqn:Ha; [done|]. intros [= <- _] [info Hi].
    cbn in Hi. by rewrite Ha in Hi.
Qed.

#[export] Instance Server_bucket_laws : BucketClassReconciler.NBBucketLaws (N:=Server).
Proof.
  split.
  - intros n p name Hne. cbn. destruct (sv_buckets n !! cbp_Name p); [|done]. cbn. by rewrite lookup_insert_ne.
  - intros n p n' e name. cbn. destruct (sv_buckets n !! cbp_Name p); [done|]. by intros [= <- _].
  - intros n p n' a. cbn. destruct (sv_buckets n !! cbp_Name p); [|done]. intros [= <-] Ha. cbn.
    rewrite lookup_insert_eq. eexists. split; [reflexivity|]. cbn. by rewrite Ha.
Qed.

#[export] Instance Server_cosi_laws : NBCosiLaws (N:=Server).
Proof.
  assert (Hd : ∀ n b n', deleteBucket n b = (n', None) → ∃ m, nb_ReadBucket n' b = inl (RPCError "NO_SUCH_BUCKET" m)).
  { unfold deleteBucket. intros n b n'. destruct (sv_buckets n !! b); [|done]. intros [= <-]. cbn.
    rewrite lookup_delete_eq. by eexists. }
  split; exact Hd.
Qed.

#[export] Instance PlainAuthority_laws : AuthorityLaws (H:=PlainAuthority).
Proof.
  split. intros scheme h p _ Hh Hp. cbn.
  assert (Hc : Cut (h +:+ ":" +:+ p) ":"%char = (h, p, true)).
  { apply hostChar_no_colon in Hh. induction h as [|a h IH]; [done|]. cbn in *.
    apply andb_true_iff in Hh as [Ha Hh]. apply negb_true_iff in Ha. by rewrite Ha, IH. }
  cbn in Hc. rewrite Hc.
  assert (Hl : ∀ f g s, (∀ a, f a = true → g a = true) → every f s = true → forallb g (String.list_ascii_of_string s) = true).
  { intros f g s Hfg. induction s as [|a s IH]; [done|]. cbn. intros [Ha Hs]%andb_true_iff. by rewrite Hfg, IH. }
  rewrite (Hl hostChar _ h), (Hl isDigit _ p); [done|done|done| |done].
  intros a [Ha|Ha]%orb_true_iff; [by rewrite Ha|]. apply orb_true_iff. right.
  revert Ha. unfold oneOf. cbn. rewrite !andb_true_r, !orb_true_iff, !bool_decide_eq_true. intuition.
Qed.
