(* ===== verification/ControllerScenario.v ===== *)
(** * Runs of the namespace store, bucket class and account controllers on the
    concrete cluster and server of [World]. *)

From S2P Require Import Prelude GoStrings Types NbTypes Kube Util StoreAccess GoUrl Controller Quota Buckets SystemServices Scenario World.
From S2P Require NamespaceStoreReconciler BucketClassReconciler AccountReconciler.
From S2P Require NamespaceStoreValidation BucketClassValidation.

(** ** The objects *)

Definition liveMeta (name : string) (deleted : option Z) : ObjectMeta :=
  mkObjectMeta name "noobaa" ("uid-" +:+ name) 1 0 deleted (Some {["app"%string := "noobaa"%string]}) None [Finalizer] [] 1.

Definition runNamespaceStore (deleted : option Z) (phase : NamespaceStorePhase) (mode : string) : NamespaceStore :=
  mkNamespaceStore (liveMeta "ns" deleted)
    (mkNamespaceStoreSpec NSStoreTypeAWSS3 false "" (Some (mkAWSS3Spec "bucket" (mkSecretReference "creds" "noobaa") "us-east-1" false None))
       None None None None None)
    (mkNamespaceStoreStatus phase [] mode).

Definition runSystem : NooBaa :=
  mkNooBaa (mkObjectMeta "noobaa" "noobaa" "uid-noobaa" 1 0 None None None [GracefulFinalizer; Finalizer] [] 1)
    (nb_Spec demoNooBaa) noStatus.

Definition runClass (phase : BucketClassPhase) : BucketClass :=
  mkBucketClass (liveMeta "class" None)
    (mkBucketClassSpec (Some (mkPlacementPolicy [mkTier TierPlacementSpread ["store"%string]])) None None "" None None)
    (mkBucketClassStatus phase [] "").

Definition runAccount (deleted : option Z) : NooBaaAccount :=
  mkNooBaaAccount (liveMeta "account" deleted) (mkNooBaaAccountSpec true None "store" None)
    (mkNooBaaAccountStatus NooBaaAccountPhaseNone []).

Definition accountSecret : Secret := mkSecret (named "noobaa" "noobaa-account-account") None None.

Definition runWorld (secrets : gmap ObjectKeyT Secret) (ns : NamespaceStore) (na : NooBaaAccount) : World :=
  mkWorld {[("noobaa", "store")%string := demoStore None BackingStorePhaseReady "bucket"]}
    {[("noobaa", "ns")%string := ns]} {[("noobaa", "class")%string := runClass BucketClassPhaseReady]}
    {[("noobaa", "account")%string := na]} secrets {[("noobaa", "noobaa")%string := runSystem]} ∅ ∅ ∅.

Definition runSecrets : gmap ObjectKeyT Secret := {[("noobaa", "creds")%string := demoSecret]}.

Definition runServer : Server := mkServer (mkSystemInfo [] [] []) ∅ ∅.

(** ** Namespace stores *)

Definition nsState (secrets : gmap ObjectKeyT Secret) (ns : NamespaceStore) (n : Server) : NamespaceStoreReconciler.State World Server :=
  NamespaceStoreReconciler.mkState World Server (runWorld secrets ns (runAccount None)) n ns demoSecret.

Definition nsStatus (w : World) (ns : NamespaceStore) : World * option error := (w, None).

Definition nsPhases (st : NamespaceStoreReconciler.State World Server) :
    outcome (NamespaceStoreReconciler.State World Server * option error) :=
  NamespaceStoreReconciler.ReconcilePhases graphic "noobaa" demoNow st runSystem.

Lemma ns_ReconcilePhases_success_witness :
  let st := nsState runSecrets (runNamespaceStore None NamespaceStorePhaseNone "") runServer in
  let st' := run_state st (nsPhases st) in
  (∃ ns', NamespaceStoreValidation.ns_accepted (NamespaceStoreReconciler.st_store st) ns') ∧
  NamespaceStoreReconciler.has_resource (NamespaceStoreReconciler.st_noobaa st') "ns".
Proof.
  intros st st'.
  destruct (NamespaceStoreReconciler.ns_ReconcilePhases_success graphic "noobaa" demoNow st runSystem st')
    as (Hv & _ & _ & Hr & _); [reflexivity|reflexivity|]. split; [exact Hv|exact Hr].
Defined.

Lemma ns_ReconcileDeletion_released_witness :
  let st := nsState runSecrets (runNamespaceStore (Some 1%Z) NamespaceStorePhaseReady "OPTIMAL")
              (mkServer (mkSystemInfo [] [] [mkNamespaceResourceInfo "ns" "OPTIMAL" "" EndpointTypeAws "" "bucket" "" CloudAuthMethodNone]) ∅ ∅) in
  let st' := run_state st (NamespaceStoreReconciler.ReconcileDeletion graphic "noobaa" demoNow nsStatus st true) in
  ¬ NamespaceStoreReconciler.has_resource (NamespaceStoreReconciler.st_noobaa st') "ns" ∧
  ∃ w ns, srv_Update w ns = (NamespaceStoreReconciler.st_cluster st', inr (NamespaceStoreReconciler.st_store st')) ∧
    ObjectKey ns = ("noobaa", "ns")%string ∧ Finalizer ∉ om_Finalizers (ns_meta ns).
Proof.
  intros st st'.
  apply (NamespaceStoreReconciler.ns_ReconcileDeletion_released graphic "noobaa" demoNow nsStatus st st'). reflexivity.
Defined.

Lemma ns_Reconcile_missing_secret_witness :
  let ns := runNamespaceStore (Some 1%Z) NamespaceStorePhaseReady "OPTIMAL" in
  let st := nsState ∅ ns runServer in
  ∃ st' res, NamespaceStoreReconciler.Reconcile (QA:=IntQuantity) graphic (λ _, None) "noobaa" demoNow nsStatus st runSystem = Ret (st', res) ∧
    RequeueAfter res = Some 3%Z ∧ ns_meta (NamespaceStoreReconciler.st_store st') = ns_meta ns.
Proof.
  intros ns st.
  destruct (NamespaceStoreReconciler.ns_Reconcile_missing_secret (QA:=IntQuantity) graphic (λ _, None) "noobaa" demoNow nsStatus st runSystem
    (run_state (NamespaceStoreReconciler.st_cluster st, runSystem) (CheckSystem (NamespaceStoreReconciler.st_cluster st) runSystem)).1
    (run_state (NamespaceStoreReconciler.st_cluster st, runSystem) (CheckSystem (NamespaceStoreReconciler.st_cluster st) runSystem)).2
    true ns (mkSecretReference "creds" "noobaa") not_found) as (st' & res & H & Hr & _ & Hm & _);
    [reflexivity|reflexivity|reflexivity|reflexivity|reflexivity|done|reflexivity|reflexivity|].
  exists st', res. split; [exact H|]. split; [exact Hr|exact Hm].
Defined.

Lemma ns_lost_system_ready_witness :
  let st := nsState runSecrets (runNamespaceStore None NamespaceStorePhaseRejected "AUTH_FAILED") runServer in
  ∃ st' res, NamespaceStoreReconciler.reconcileLoaded graphic "noobaa" demoNow nsStatus st runSystem false = Ret (st', res) ∧
    nst_Phase (ns_Status (NamespaceStoreReconciler.st_store st')) = NamespaceStorePhaseReady.
Proof.
  intros st. apply (NamespaceStoreReconciler.ns_lost_system_ready graphic "noobaa" demoNow nsStatus st runSystem); reflexivity.
Defined.

(** ** Bucket classes *)

Definition bcState (bc : BucketClass) (n : Server) : BucketClassReconciler.State World Server :=
  BucketClassReconciler.mkState World Server (runWorld runSecrets (runNamespaceStore None NamespaceStorePhaseReady "") (runAccount None)) n bc.

Definition bcPhases (st : BucketClassReconciler.State World Server) : outcome (BucketClassReconciler.State World Server * option error) :=
  BucketClassReconciler.ReconcilePhases (QA:=IntQuantity) "noobaa" demoNow st runSystem.

Lemma bc_ReconcilePhases_success_witness :
  let st := bcState (runClass BucketClassPhaseNone) runServer in
  let st' := run_state st (bcPhases st) in
  bcPhases st = Ret (st', None) ∧
  BucketClassReconciler.bc_verified (QA:=IntQuantity) (BucketClassReconciler.st_cluster st) (bc_Spec (BucketClassReconciler.st_class st)) "noobaa".
Proof.
  intros st st'. assert (H : bcPhases st = Ret (st', None)) by reflexivity. split; [exact H|].
  exact (proj1 (proj2 (proj2 (BucketClassReconciler.bc_ReconcilePhases_success "noobaa" demoNow st runSystem st' H)))).
Defined.

(** An object bucket of the class with another generation of it. *)
Definition staleBucket : ObjectBucket :=
  mkObjectBucket (mkObjectMeta "ob" "" "uid-ob" 1 0 None (Some {["noobaa-domain"%string := SubDomainNS "noobaa"]}) None [] [] 1)
    (Some (mkObjectBucketConnection (Some (mkObjectBucketEndpoint "host" 443 "first.bucket" (Some ∅))) None
             (Some (<["bucketclass" := "class"]> {["bucketclassgeneration" := "0"]}%string))))
    (Some "noobaa"%string).

Definition staleWorld : World :=
  let w := runWorld runSecrets (runNamespaceStore None NamespaceStorePhaseReady "") (runAccount None) in
  mkWorld (wd_backingStores w) (wd_namespaceStores w) (wd_bucketClasses w) (wd_accounts w) (wd_secrets w) (wd_systems w)
    (wd_services w) (wd_pods w) {[("", "ob")%string := staleBucket]}.

Lemma bc_configuring_repeats_witness :
  let st := BucketClassReconciler.mkState World Server staleWorld runServer (runClass BucketClassPhaseVerifying) in
  let st' := run_state st (BucketClassReconciler.ReconcilePhaseConfiguring "noobaa" demoNow st) in
  BucketClassReconciler.stale_in "noobaa" (BucketClassReconciler.st_cluster st') (BucketClassReconciler.st_class st') = Ret ["first.bucket"%string].
Proof.
  intros st st'.
  assert (H : BucketClassReconciler.ReconcilePhaseConfiguring "noobaa" demoNow st = Ret (st', None)) by (vm_compute; reflexivity).
  rewrite (proj2 (BucketClassReconciler.bc_configuring_repeats "noobaa" demoNow st st' H)). vm_compute. reflexivity.
Defined.

Definition archived (resource : string) : ArchivePolicyConfig :=
  mkArchivePolicyConfig (Some (mkNamespaceResourceFullConfig resource "")).

Lemma updateArchivePolicy_keeps_witness :
  let bucket a := mkBucketInfo "b" "REGULAR" None None None None a in
  let n := mkServer (mkSystemInfo [] [] []) ∅ (<["old" := bucket (Some (archived "deep"))]> {["new" := bucket None]})%string in
  let bc := mkBucketClass (liveMeta "class" None)
              (mkBucketClassSpec (Some (mkPlacementPolicy [mkTier TierPlacementSpread ["store"%string]])) None None "" None
                 (Some (mkArchivePolicy "other"))) (mkBucketClassStatus BucketClassPhaseVerifying [] "") in
  let st := bcState bc n in
  let st' := run_state st (BucketClassReconciler.updateArchivePolicyForExistingBuckets st ["old"; "new"]%string) in
  BucketClassReconciler.archive_of (BucketClassReconciler.st_noobaa st') "old" = Some (Some (archived "deep")) ∧
  BucketClassReconciler.archive_of (BucketClassReconciler.st_noobaa st') "new" = Some (Some (archived "other")).
Proof.
  intros bucket n bc st st'. split; [|reflexivity].
  apply (BucketClassReconciler.updateArchivePolicy_keeps st ["old"; "new"]%string st'
    (snd (match BucketClassReconciler.updateArchivePolicyForExistingBuckets st ["old"; "new"]%string with
          | Ret r => r | Panic _ => (st, None) end))); reflexivity.
Defined.

Lemma revert_roundtrip_witness :
  let tiers := [mkTierInfo "tier-1" "MIRROR" ["a"; "b"]; mkTierInfo "tier-2" "SPREAD" ["c"]]%string in
  let bc := BucketClassReconciler.set_tiers (BucketClassReconciler.revertTier <$> tiers) (runClass BucketClassPhaseReady) in
  ∃ pp, bcs_PlacementPolicy (bc_Spec bc) = Some pp ∧
    ubc_Tiers (BucketClassReconciler.updateParams bc pp) = [mkTierInfo "TEMP" "MIRROR" ["a"; "b"]; mkTierInfo "TEMP" "SPREAD" ["c"]]%string.
Proof.
  intros tiers bc. apply (BucketClassReconciler.revert_roundtrip (runClass BucketClassPhaseReady) tiers).
  constructor; [by left|]. constructor; [by right|]. constructor.
Defined.

(** ** Accounts *)

Definition naState (na : NooBaaAccount) (n : Server) : AccountReconciler.State World Server :=
  AccountReconciler.mkState World Server (runWorld runSecrets (runNamespaceStore None NamespaceStorePhaseReady "") na) n na accountSecret.

Definition naStatus (w : World) (na : NooBaaAccount) : World * option error := (w, None).

Definition naPhases (st : AccountReconciler.State World Server) : outcome (AccountReconciler.State World Server * option error) :=
  AccountReconciler.ReconcilePhases (QA:=IntQuantity) "noobaa" demoNow (λ _ m, inr m) st runSystem.


Definition oneAccount : Server :=
  mkServer (mkSystemInfo [] [] []) {["account"%string := newAccount (AccountReconciler.createParams (runAccount None))]} ∅.

Lemma na_ReconcileDeletion_released_witness :
  let st := naState (runAccount (Some 1%Z)) oneAccount in
  let st' := run_state st (AccountReconciler.ReconcileDeletion demoNow naStatus st runSystem) in
  ¬ AccountReconciler.has_account (AccountReconciler.st_noobaa st') "account" ∧
  ∃ w na, srv_Update w na = (AccountReconciler.st_cluster st', inr (AccountReconciler.st_account st')) ∧
    ObjectKey na = ("noobaa", "account")%string ∧ Finalizer ∉ om_Finalizers (na_meta na).
Proof.
  intros st st'. apply (AccountReconciler.na_ReconcileDeletion_released demoNow naStatus st runSystem st'); [done|reflexivity].
Defined.

Lemma needUpdate_settles_witness :
  let na := mkNooBaaAccount (liveMeta "account" None)
              (mkNooBaaAccountSpec true (Some (mkAccountNsfsConfig None None "/" false "user")) "store" None)
              (mkNooBaaAccountStatus NooBaaAccountPhaseReady []) in
  let info := mkAccountInfo "account" "account" true true "store" [] "arn" []
                (Some (mkAccountNsfsConfig None None "/" false "")) in
  AccountReconciler.needUpdate na info ≠ false.
Proof.
  intros na info H.
  discriminate (proj1 (AccountReconciler.needUpdate_settles na info (conj eq_refl (conj eq_refl eq_refl))) H _ eq_refl).
Defined.
