(* ===== verification/ProvisionScenario.v ===== *)
(** * Runs of the connecting phase, the bucket provisioner and the COSI driver on the
    concrete cluster and server of [World], and of the quota functions. *)

From stdpp Require Import pretty.
From S2P Require Import Prelude GoStrings Types NbTypes Kube Util GoUrl Controller Quota Buckets SystemServices Scenario World ControllerScenario.
From S2P Require Obc Cosi.

(** ** Quotas *)

Lemma GetBytesAndUnits_exact_witness :
  ∃ s m e (u : nat) unit, float_of_Z 3000 = SpecFloat.S754_finite s m (e + 10 * Z.of_nat u) ∧
    GetBytesAndUnits 3000 (-1) = Some (SpecFloat.S754_finite s m e, unit) ∧ units !! u = Some unit ∧ (u ≤ 6)%nat ∧
    (2 ^ (-e) ≤ Z.pos m < 1024 * 2 ^ (-e))%Z ∧ (e < 0)%Z.
Proof. apply (GetBytesAndUnits_exact 3000); [split; vm_compute; discriminate|discriminate]. Defined.

Lemma GetQuotaConfig_objects_witness :
  let spec := mkBucketClassSpec None None (Some (mkQuota "" "10")) "" None None in
  let ob : option (gmap string string) := Some {["maxObjects" := "20"]}%string in
  ∃ q, GetQuotaConfig (QA:=IntQuantity) "bucket" spec ob = inr q ∧ qc_Quantity q = Some (mkQuantityQuotaConfig 10).
Proof.
  intros spec ob. eexists. split; [reflexivity|].
  exact (GetQuotaConfig_objects (QA:=IntQuantity) "bucket" spec ob _ 10 20 eq_refl eq_refl eq_refl ltac:(lia) ltac:(lia)).
Defined.

Lemma CreateTieringStructure_wellformed_witness :
  let policy := mkPlacementPolicy [mkTier TierPlacementSpread ["a"%string]; mkTier TierPlacementMirror ["b"; "c"]%string] in
  ∃ n1 items, nb_CreateTieringPolicy n1 (mkTieringPolicyInfo "bucket.10" items) = (runServer, None) ∧
    NoDup (ti_Tier <$> items) ∧ ti_Order <$> items = [0; 1]%Z.
Proof.
  intros policy. apply (CreateTieringStructure_wellformed runServer runServer policy "bucket" 16 "bucket.10"). reflexivity.
Defined.

(** ** The connecting phase *)

Definition service (name port : string) (selector : gmap string string) : Service :=
  mkService (mkObjectMeta name "noobaa" ("uid-" +:+ name) 1 0 None None None [] [] 1) selector
    [mkServicePort port 443 (FromInt 6443) 30443] "10.0.0.1" [] [].

Definition corePod : RunningPod :=
  mkRunningPod (mkObjectMeta "noobaa-core-0" "noobaa" "uid-pod" 1 0 None (Some {["noobaa-mgmt" := "noobaa"]}%string) None [] [] 1)
    [] "Running" "192.168.1.5" "10.1.0.7" [("Ready", "True")%string].

Definition dataSecret (name : string) (data : gmap string string) : Secret :=
  mkSecret (mkObjectMeta name "noobaa" ("uid-" +:+ name) 1 0 None None None [] [] 1) None (Some data).

Definition systemMeta : ObjectMeta :=
  mkObjectMeta "noobaa" "noobaa" "uid-noobaa" 1 0 None (Some {["app" := "noobaa"]}%string) None [GracefulFinalizer; Finalizer] [] 1.

Definition mgmtService : Service := service "noobaa-mgmt" "mgmt-https" {["noobaa-mgmt" := "noobaa"]}%string.

Definition phaseState : SystemState :=
  mkSystemState (mkNooBaa systemMeta (nb_Spec demoNooBaa) 
    (set_nbst_Phase SystemPhaseCreating [] (set_nbst_AdminSecret (Some (mkSecretReference "" "")) (set_nbst_Services (Some noServices) noStatus)))) None None None
    (mkStatefulSetSize (Some 1%Z) 1) mgmtService (service "s3" "s3-https" ∅) (service "sts" "sts-https" ∅)
    (service "iam" "iam-https" ∅) (service "vectors" "vectors-https" ∅) "" "s3.example.com" "" "" "" None.

Definition systemSecrets : gmap ObjectKeyT Secret :=
  <[("noobaa", "noobaa-operator")%string := dataSecret "noobaa-operator" {["auth_token" := "token"]}%string]>
  {[("noobaa", "noobaa-admin")%string := dataSecret "noobaa-admin" ∅]}.

(** The cluster with a given system, bucket class and object buckets. *)
Definition systemWorld (nb : NooBaa) (classes : gmap ObjectKeyT BucketClass) : World :=
  mkWorld {[("noobaa", "store")%string := demoStore None BackingStorePhaseReady "bucket"]} ∅ classes ∅ systemSecrets
    {[("noobaa", "noobaa")%string := nb]} {[("noobaa", "noobaa-mgmt")%string := mgmtService]}
    {[("noobaa", "noobaa-core-0")%string := corePod]} ∅.

Definition readyClasses : gmap ObjectKeyT BucketClass := {[("noobaa", "class")%string := runClass BucketClassPhaseReady]}.

Definition beforeWorld : World := systemWorld (sys_NooBaa phaseState) readyClasses.
Definition connectedState : SystemState :=
  run_state phaseState (ReconcilePhaseConnecting "noobaa" demoNow (λ _, None) beforeWorld phaseState).
(** The cluster once the status of the phase is stored. *)
Definition afterWorld : World := systemWorld (sys_NooBaa connectedState) readyClasses.

Definition noForwarding (s : Service) (ns pod : string) : outcome (gmap Z Z) := Ret ∅.

Lemma Connect_after_connecting_witness :
  ∃ cl, Connect "noobaa" "noobaa" demoNooBaa mgmtService noForwarding afterWorld false = Ret (afterWorld, inr cl) ∧
    Hostname (cl_S3URL cl) = "s3.noobaa.svc"%string ∧ ParseInt (Port (cl_S3URL cl)) 64 = inr 443%Z.
Proof.
  destruct (Connect_after_connecting "noobaa" "noobaa" demoNow (λ _, None) demoNooBaa mgmtService noForwarding
    beforeWorld phaseState connectedState afterWorld afterWorld (sys_NooBaa connectedState) [corePod] mgmtService
    (dataSecret "noobaa-operator" {["auth_token" := "token"]}%string) (dataSecret "noobaa-admin" ∅))
    as (cl & Hc & _ & _ & Hh & Hp & _).
  - reflexivity.
  - vm_compute. reflexivity.
  - vm_compute. repeat split; discriminate.
  - vm_compute. repeat split; discriminate.
  - vm_compute. reflexivity.
  - discriminate.
  - constructor; [|constructor]. vm_compute. repeat split; discriminate.
  - vm_compute. split; [discriminate|reflexivity].
  - vm_compute. reflexivity.
  - reflexivity.
  - vm_compute. repeat split; discriminate.
  - exists cl. split; [exact Hc|]. split; [exact Hh|exact Hp].
Defined.

(** ** Object bucket claims *)

Definition noNsfs (s : string) : msg + AccountNsfsConfig := inl (Lit "not JSON").
Definition noRules (s : string) : msg + list unit := inl (Lit "not JSON").
Definition acceptRules (bucket : string) (rules : list unit) : option error := None.
Definition noTags (n : Server) (endpoint key secret bucket : string) (tags : gmap string string) : Server * option error := (n, None).

Definition claim : ObjectBucketClaim :=
  mkObjectBucketClaim (named "app" "claim") "noobaa.noobaa.io" "first.bucket" (Some {["bucketclass" := "class"]}%string).
Definition claimOptions : Obc.BucketOptions := Obc.mkBucketOptions (Some claim) "first.bucket" None.

Definition provisioned : outcome (World * Server * (error + ObjectBucket)) :=
  Obc.Provision (QA:=IntQuantity) "noobaa" "noobaa" demoNooBaa mgmtService noForwarding noNsfs noRules (λ _, None) acceptRules
    noTags (λ _, 0%Z) 16 afterWorld runServer claimOptions.

Definition noBucket : ObjectBucket := mkObjectBucket (named "" "") None None.
Definition provisionedServer : Server := match provisioned with Ret (_, n, _) => n | Panic _ => runServer end.
Definition provisionedBucket : ObjectBucket := match provisioned with Ret (_, _, inr ob) => ob | _ => noBucket end.

Lemma provisioned_ok : provisioned = Ret (afterWorld, provisionedServer, inr provisionedBucket).
Proof. vm_compute. reflexivity. Qed.

Lemma Provision_fresh_witness :
  (∃ b, nb_ReadBucket provisionedServer "first.bucket" = inr b) ∧
  ∃ e, nb_ReadBucket runServer "first.bucket" = inl e.
Proof.
  split; [eexists; vm_compute; reflexivity|].
  destruct (Obc.Provision_fresh (QA:=IntQuantity) "noobaa" "noobaa" demoNooBaa mgmtService noForwarding noNsfs noRules (λ _, None)
    acceptRules noTags (λ _, 0%Z) 16 afterWorld runServer claimOptions _ _ _ provisioned_ok)
    as (obc & bc & bc0 & Ho & Hb & Hg & _ & Hr).
  injection Ho as <-. destruct Hg as [Hg|Hg]; [discriminate Hg|]. injection Hg as <-. rewrite Hb in Hr. exact Hr.
Defined.

Definition theClient : option Client :=
  match Connect "noobaa" "noobaa" demoNooBaa mgmtService noForwarding afterWorld false with Ret (_, inr cl) => Some cl | _ => None end.

Lemma Provision_request_roundtrip_witness :
  ∃ r, Obc.NewBucketRequest "noobaa" "noobaa" demoNooBaa mgmtService noForwarding 16 afterWorld
         (inr (Obc.stored (named "" "obc-app-claim") (Some "app"%string) provisionedBucket)) = Ret (afterWorld, inr r) ∧
    Obc.br_BucketName r = "first.bucket"%string ∧ Obc.br_AccountName r = "obc-account.first.bucket.10@noobaa.io"%string.
Proof.
  destruct theClient as [cl|] eqn:Hcl; [|vm_compute in Hcl; discriminate Hcl].
  destruct (Obc.Provision_request_roundtrip (QA:=IntQuantity) "noobaa" "noobaa" demoNooBaa mgmtService noForwarding noNsfs noRules (λ _, None)
    acceptRules noTags (λ _, 0%Z) 16 afterWorld runServer claimOptions _ _ _ claim afterWorld afterWorld cl 443 443
    (named "" "obc-app-claim") (Some "app"%string) (runClass BucketClassPhaseReady) true provisioned_ok)
    as (r & Hr & Hb & Ha & _).
  - reflexivity.
  - vm_compute in Hcl. injection Hcl as <-. vm_compute. reflexivity.
  - vm_compute in Hcl. injection Hcl as <-. vm_compute. reflexivity.
  - vm_compute in Hcl. injection Hcl as <-. vm_compute. reflexivity.
  - vm_compute. reflexivity.
  - exists r. split; [exact Hr|]. split; [exact Hb|exact Ha].
Defined.

(** The cluster after the bucket class has been deleted. *)
Definition classlessWorld : World := systemWorld (sys_NooBaa connectedState) ∅.

(** The request that a deletion of the provisioned bucket makes then. *)
Definition lateRequest : outcome (World * (error + Obc.BucketRequest)) :=
  Obc.NewBucketRequest "noobaa" "noobaa" demoNooBaa mgmtService noForwarding 16 classlessWorld
    (inr (Obc.stored (named "" "obc-app-claim") (Some "app"%string) provisionedBucket)).

Lemma Delete_missing_class_witness :
  ∃ r err, lateRequest = Ret (classlessWorld, inr r) ∧
    Obc.DeleteBucket provisionedServer r = Ret ((nb_DeleteBucketAndObjects provisionedServer "first.bucket").1, err).
Proof.
  destruct lateRequest as [[w [e|r]]|p] eqn:Hl; try (vm_compute in Hl; discriminate Hl).
  assert (Hw : w = classlessWorld) by (vm_compute in Hl; injection Hl as <- _; vm_compute; reflexivity). subst w.
  exists r.
  destruct (Obc.Delete_missing_class "noobaa" "noobaa" demoNooBaa mgmtService noForwarding 16 classlessWorld
    (Obc.stored (named "" "obc-app-claim") (Some "app"%string) provisionedBucket) classlessWorld r provisionedServer
    (mkObjectBucketConnection (Some (mkObjectBucketEndpoint "s3.noobaa.svc" 443 "first.bucket" (Some {["bucketclass" := "class"]}%string)))
       (Some (mkObjectBucketAccessKeys "key" "secret"))
       (Some (<["arn" := "arn"]> (<["account" := "obc-account.first.bucket.10@noobaa.io"]> (<["bucketclass" := "class"]> {["bucketclassgeneration" := "1"]}))))%string)
    (mkObjectBucketEndpoint "s3.noobaa.svc" 443 "first.bucket" (Some {["bucketclass" := "class"]}%string)) not_found not_found)
    as [err Herr]; [exact Hl|vm_compute; reflexivity|reflexivity|reflexivity|reflexivity|reflexivity|reflexivity|vm_compute; discriminate|].
  exists err. split; [reflexivity|exact Herr].
Defined.

(** ** The COSI driver *)

Lemma DriverDeleteBucket_idempotent_witness :
  let delete := Cosi.DriverDeleteBucket "noobaa" "noobaa" demoNooBaa mgmtService noForwarding false in
  let n' := match delete afterWorld provisionedServer "first.bucket"%string with Ret (_, n, _) => n | Panic _ => runServer end in
  delete afterWorld provisionedServer "first.bucket"%string = Ret (afterWorld, n', None) ∧
  delete afterWorld n' "first.bucket"%string = Ret (afterWorld, n', None).
Proof.
  intros delete n'.
  destruct theClient as [cl|] eqn:Hcl; [|vm_compute in Hcl; discriminate Hcl].
  assert (H : delete afterWorld provisionedServer "first.bucket"%string = Ret (afterWorld, n', None)) by (vm_compute; reflexivity).
  split; [exact H|].
  apply (Cosi.DriverDeleteBucket_idempotent "noobaa" "noobaa" demoNooBaa mgmtService noForwarding false afterWorld provisionedServer
    "first.bucket" afterWorld n' afterWorld afterWorld cl H).
  vm_compute in Hcl. injection Hcl as <-. vm_compute. reflexivity.
Defined.
