(* ===== verification/ProcessScenario.v ===== *)
(** * Runs of the process, of its watches and of the first phase.

    Concrete inputs for the theorems on the leader election wrapper, the watches of the
    controllers, the verifying phase of a system and the alert silencer. *)

From S2P Require Import Prelude GoStrings Types NbTypes Kube Util GoTime Scenario ProvisionScenario.
From S2P Require LeaderElect Watches SystemServices SystemVerifying AlertSilencer.

(** ** The wrapper *)

Section Wrapper.
Import LeaderElect.

Definition demoEnv (key : string) : string :=
  if key == envLeaseName then "noobaa-core" else if key == envLostGrace then "1500ms" else "".

Lemma ParseArgs_timing_witness :
  ∃ cfg, ParseArgs demoEnv (λ _, 0) ["--"; "node"; "server.js"]%string = inr cfg ∧
    LostGrace cfg = 1500 * Millisecond ∧ RenewDeadline cfg + LostGrace cfg < LeaseDuration cfg.
Proof.
  eexists. split; [vm_compute; reflexivity|]. split; [vm_compute; reflexivity|].
  eapply (ParseArgs_timing demoEnv (λ _, 0) ["--"; "node"; "server.js"]%string). vm_compute. reflexivity.
Defined.

Lemma reachable_run evs s : runEvents evs initial = Some s → reachable s.
Proof. apply runEvents_reachable. constructor. Qed.

(** The wrapper gets the lease, starts its child, and is told to stop; the child ends. *)
Definition stopRun : list event :=
  [EvAcquire; EvSpawn (Some 7); EvLeadStep false; EvSignal; EvSignalStep false; EvSignalStep false;
   EvChildExit (Signaled 15); EvReap; EvSignalStep false; EvSignalStep false; EvSignalStep false].
Definition stopped : State := default initial (runEvents stopRun initial).

Lemma stopped_reachable : reachable stopped.
Proof. apply (reachable_run stopRun). vm_compute. reflexivity. Qed.

Lemma Run_cancel_order_witness : cancelled stopped = true ∧
  (child stopped = NotStarted ∨ (∃ status, child stopped = Reaped status) ∨
   (killWaited stopped = true ∧ sigkill stopped = true) ∨
   (early stopped = true ∧ (published (lead stopped) = true → stopping (lead stopped) = true))).
Proof. split; [reflexivity|]. apply (Run_cancel_order stopped stopped_reachable). reflexivity. Defined.

(** The child ends by itself with code 3, and so does the wrapper. *)
Definition crashRun : list event :=
  [EvAcquire; EvSpawn (Some 7); EvLeadStep false; EvChildExit (Exited 3); EvReap; EvLeadStep false; EvLeadStep false;
   EvLeadStep false; EvLeadStep false; EvStop; EvCancelLead; EvReturn; EvExit].
Definition crashed : State := default initial (runEvents crashRun initial).

Lemma Run_exit_code_witness : exited crashed = Some 3 ∧ 3 = ownCode (child crashed).
Proof.
  split; [reflexivity|]. apply (Run_exit_code crashed 3); [|reflexivity..].
  apply (reachable_run crashRun). vm_compute. reflexivity.
Defined.

(** A signal arrives while the child runs: whatever it does, the wrapper ends. *)
Definition signalled : State := default initial (runEvents (take 4 stopRun) initial).

Lemma Run_stops_witness : child signalled = Running ∧ exits signalled.
Proof.
  split; [reflexivity|]. apply (Run_stops signalled); [|reflexivity|discriminate].
  apply (reachable_run (take 4 stopRun)). vm_compute. reflexivity.
Defined.

End Wrapper.

(** ** Pods of a lost node *)

Section Nodes.
Import Watches.

#[local] Instance PodServer : ApiServer (gmap ObjectKeyT NodePod) NodePod := MemServer.

Lemma PodServer_ForceDeletion : ForceDeletion (W:=gmap ObjectKeyT NodePod).
Proof.
  split.
  - intros w p w' _ H. exists not_found. cbn in *. unfold mem_Delete in H.
    destruct (w !! ObjectKey p); simplify_eq. unfold mem_Get. by rewrite lookup_delete_eq.
  - intros w p w' r k H Hk. cbn in *. unfold mem_Delete in H.
    destruct (w !! ObjectKey p); simplify_eq; [|done]. unfold mem_Get. by rewrite lookup_delete_ne.
Qed.

Definition demoPod (name : string) : NodePod :=
  mkNodePod (mkObjectMeta name "noobaa" "uid-4" 1 0 None (Some {["app"%string := "noobaa"%string]}) None [] [] 1) "node-1".
Definition demoPods : gmap ObjectKeyT NodePod :=
  list_to_map [(("noobaa", "noobaa-core-0")%string, demoPod "noobaa-core-0");
               (("noobaa", "noobaa-db-pg-0")%string, demoPod "noobaa-db-pg-0")].
Definition clearedPods : gmap ObjectKeyT NodePod :=
  match HAC_Reconcile "noobaa" demoPods "node-1" with Ret (w, _) => w | Panic _ => demoPods end.

Lemma HAC_Reconcile_clears_witness :
  HAC_Reconcile "noobaa" demoPods "node-1" = Ret (clearedPods, None) ∧
  (∃ e, srv_Get clearedPods ("noobaa", "noobaa-core-0")%string = inl e) ∧
  srv_Get clearedPods ("noobaa", "noobaa-db-pg-0")%string = inr (demoPod "noobaa-db-pg-0").
Proof.
  assert (HAC_Reconcile "noobaa" demoPods "node-1" = Ret (clearedPods, None)) as Hrun by (vm_compute; reflexivity).
  destruct (HAC_Reconcile_clears "noobaa" (FD:=PodServer_ForceDeletion) demoPods "node-1" clearedPods None
    [demoPod "noobaa-core-0"; demoPod "noobaa-db-pg-0"]) as [Hgone Hkept];
    [exact Hrun|vm_compute; reflexivity|by apply (bool_decide_unpack _); vm_compute|].
  split; [exact Hrun|]. split.
  - apply (Hgone eq_refl (demoPod "noobaa-core-0")); [apply list_elem_of_here|reflexivity|reflexivity].
  - rewrite Hkept; vm_compute; reflexivity.
Defined.

(** ** Requests for the classes of a store *)

#[local] Instance ClassServer : ApiServer (gmap ObjectKeyT BucketClass) BucketClass := MemServer.

Definition classOf (name hub : string) : BucketClass :=
  mkBucketClass (mkObjectMeta name "noobaa" "uid-5" 1 0 None None None [] [] 1)
    (mkBucketClassSpec None (Some (mkNamespacePolicy NSBucketClassTypeSingle (Some (mkSingleNamespacePolicy hub)) None None))
       None "" None None)
    (mkBucketClassStatus BucketClassPhaseReady [] "").
Definition demoClasses : gmap ObjectKeyT BucketClass :=
  list_to_map [(("noobaa", "fast")%string, classOf "fast" "hub"); (("noobaa", "slow")%string, classOf "slow" "tape")].

Lemma MapNamespacestoreToBucketclasses_exact_witness :
  ∃ reqs, MapNamespacestoreToBucketclasses demoClasses ("noobaa", "hub")%string = Ret reqs ∧
    (("noobaa", "fast")%string ∈ reqs ↔
     ∃ bc, bc ∈ [classOf "slow" "tape"; classOf "fast" "hub"] ∧ ("noobaa", "fast")%string = ObjectKey bc ∧
       usesNamespaceStore (bc_Spec bc) "hub").
Proof.
  destruct (MapNamespacestoreToBucketclasses_exact demoClasses "noobaa" "hub"
    [classOf "slow" "tape"; classOf "fast" "hub"]) as (reqs & Hrun & Hreqs).
  - discriminate.
  - vm_compute. reflexivity.
  - repeat constructor; intros np [= <-]; eexists; reflexivity.
  - exists reqs. split; [exact Hrun|]. apply Hreqs.
Defined.

(** ** A status write does not wake its controller *)

Lemma completeReconcile_unwatched_witness :
  let st := demoState (demoStore None BackingStorePhaseReady "bucket") [] in
  let m := BackingStoreReconciler.completeReconcile demoNow storeStatus st
    (Some (PersistentError "InvalidBucket" (Lit "no such bucket"))) in
  let st' := run_state st m in
  bst_Phase (bs_Status (BackingStoreReconciler.st_store st')) = BackingStorePhaseRejected ∧
  watchBackingStore (OnUpdate (changed om_Generation))
    (UpdateEvent (Some (BackingStoreReconciler.st_store st)) (Some (BackingStoreReconciler.st_store st'))) = Ret false.
Proof.
  intros st m st'. split; [reflexivity|].
  apply (completeReconcile_unwatched demoNow storeStatus (OnUpdate (changed om_Generation)) st st'
    (Some (PersistentError "InvalidBucket" (Lit "no such bucket"))) (Controller.mkResult None)); reflexivity.
Defined.

End Nodes.

(** ** The verifying phase *)

Section Verify.
Import SystemServices SystemVerifying.

(** Claims in the cluster, a CephFS storage class, an empty environment and a database
    that answers. *)
#[local] Instance ClaimServer : ApiServer (gmap ObjectKeyT LoggingPVC) LoggingPVC := MemServer.
#[local] Instance ClassesServer : ApiServer (gmap ObjectKeyT LoggingPVC) StorageClass :=
  FieldServer (λ _, {[(""%string, "ocs-storagecluster-cephfs"%string) :=
    mkStorageClass (named "" "ocs-storagecluster-cephfs") "rook" None]}) (λ _ w, w).
#[local] Instance DemoProcess : Process (gmap ObjectKeyT LoggingPVC) := {|
  os_Getenv _ _ := ""%string;
  os_WriteFile w _ _ := (w, None);
  os_Setenv w _ _ := w;
  sql_Open _ _ := None;
  sql_Ping _ url := if url == "postgres://db?sslmode=disable" then None else Some (Lit "refused");
  sql_MajorVersion _ _ := inr "15"%string;
  sql_Collation _ _ := inr "C"%string;
|}.
#[local] Instance DemoImages : ImageSyntax := {|
  dockerref_Parse image := if image == "noobaa/noobaa-core:5.20.1" then inr (mkImageRef (Some ContainerImageName) (Some "5.20.1"%string))
                           else inl (Lit "not an image");
  semver_Version := Z;
  semver_NewVersion text :=
    (list_to_map [("5.0.0", 500); ("5.20.1", 520); ("6.0.0", 600)]%string : gmap string Z) !! text;
  semver_Compare v w := match (v ?= w)%Z with Lt => -1 | Eq => 0 | Gt => 1 end;
  govalidator_IsDNSName host := negb (host == "");
|}.

Definition verifySpec : NooBaaSpec :=
  mkNooBaaSpec (nbs_CleanupPolicy emptyNooBaaSpec) (nbs_Autoscaler emptyNooBaaSpec) (nbs_LoadBalancerSourceSubnets emptyNooBaaSpec)
    (nbs_Security emptyNooBaaSpec) (Some "noobaa/noobaa-core:5.20.1"%string) None (Some (mkEndpointsSpec 1 3 ["s3.example.com"%string]))
    PerformanceProfileNone false (Some (mkSecretReference "pg" "noobaa")) false false
    (mkBucketLoggingSpec BucketLoggingTypeGuaranteed (Some "logs"%string)) (mkBucketNotificationsSpec true None [])
    None None None None "" false false None None "" None false false false ∅ ∅ "".

Definition verifyState : SystemState :=
  let s := set_NooBaa (mkNooBaa systemMeta verifySpec noStatus) phaseState in
  mkSystemState (sys_NooBaa s) None (Some (mkSecret (named "noobaa" "pg") (Some {["db_url" := "postgres://db"]}%string) None))
    (Some (mkSecret (named "noobaa" "pg-tls") (Some {["tls.key" := "key"; "tls.crt" := "crt"]}%string) None))
    (sys_CoreApp s) (sys_ServiceMgmt s) (sys_ServiceS3 s) (sys_ServiceSts s) (sys_ServiceIam s) (sys_ServiceVectors s) "" "" "" "" "" None.

Definition demoClaims : gmap ObjectKeyT LoggingPVC :=
  {[("noobaa", "logs")%string := mkLoggingPVC (named "noobaa" "logs") ["ReadWriteMany"%string]]}.

Definition verified : SystemState :=
  match ReconcilePhaseVerifying "noobaa" "noobaa" demoNow demoClaims verifyState with Ret (_, s, _) => s | Panic _ => verifyState end.


End Verify.

(** ** The silence of the database budget *)

Section Silence.
Import AlertSilencer.

(** Alertmanager as the list of its silences; a body is a marker for that list. *)
#[local] Instance DemoAlertmanager : AlertmanagerHttp unit := {|
  os_ReadFile _ _ := inr "token"%string;
  http_NewRequest _ := None;
  http_Get _ _ _ := inr (200, "silences"%string);
  http_Post a _ _ _ := (a, inr (200, ""%string));
  json_decode _ := inr [set_ID "id-1" (CreateCNPGPDBSilence "noobaa" 0 "noobaa-db-pg-cluster")];
  json_encode _ := inr "silence"%string;
|}.

Definition cnpgNooBaa : NooBaa :=
  mkNooBaa systemMeta
    (mkNooBaaSpec (nbs_CleanupPolicy emptyNooBaaSpec) (nbs_Autoscaler emptyNooBaaSpec) (nbs_LoadBalancerSourceSubnets emptyNooBaaSpec)
       (nbs_Security emptyNooBaaSpec) None (Some emptyDBSpec) None PerformanceProfileNone false None false false
       (nbs_BucketLogging emptyNooBaaSpec) (nbs_BucketNotifications emptyNooBaaSpec) None None None None "" false false None None "" None false false false ∅ ∅ "") noStatus.

Lemma ReconcilePDBAlertSilencer_quiet_witness :
  ReconcilePDBAlertSilencer "noobaa" cnpgNooBaa (Some "noobaa-db-pg-cluster"%string) 1000 None tt = (tt, Some 1000%Z, None) ∧
  ∀ (B : Type) (BH : AlertmanagerHttp B) (b : B),
    ReconcilePDBAlertSilencer (AH:=BH) "noobaa" cnpgNooBaa (Some "noobaa-db-pg-cluster"%string) 2000 (Some 1000%Z) b = (b, Some 1000%Z, None).
Proof.
  destruct (ReconcilePDBAlertSilencer "noobaa" cnpgNooBaa (Some "noobaa-db-pg-cluster"%string) 1000 None tt) as [[a' last'] err] eqn:Hrun.
  destruct (ReconcilePDBAlertSilencer_quiet "noobaa" cnpgNooBaa "noobaa-db-pg-cluster" 1000 None tt a' last' err Hrun) as (Hlast & Hhour & Hsil).
  - reflexivity.
  - discriminate.
  - destruct Hsil as [-> ->]; [do 4 eexists; split; [reflexivity|]; split; reflexivity|vm_compute; discriminate|].
    cbn in Hlast. subst last'. split; [reflexivity|]. intros B BH b. apply (Hhour B BH b 2000%Z 1000%Z); [reflexivity|].
    vm_compute. split; [discriminate|reflexivity].
Defined.

End Silence.
