(* ===== verification/DatabaseScenario.v ===== *)
(** * Runs of the database reconciler.

    A cluster that keeps the objects of the database in maps, with the
    [controllerutil.CreateOrUpdate] that reads, mutates and writes, the proofs that they
    behave as documented, and concrete inputs for the theorems on the database. *)

From stdpp Require Import sorting.
From S2P Require Import Prelude Effects GoStrings Types Kube Util Profiles SystemServices SystemObjects SystemVerifying.
From S2P Require Import DbConfig DbCluster.
From S2P Require Scenario.

(** ** The cluster *)

Record DbWorld := mkDbWorld {
  dw_clusters : gmap ObjectKeyT (Cluster IntQuantity);
  dw_scheduled : gmap ObjectKeyT ScheduledBackup;
  dw_snapshots : gmap ObjectKeyT VolumeSnapshot;
  dw_statefulSets : gmap ObjectKeyT StatefulSet;
  dw_deployments : gmap ObjectKeyT Deployment;
  dw_pods : gmap ObjectKeyT RunningPod;
}.

#[export] Instance DbWorld_Cluster : ApiServer DbWorld (Cluster IntQuantity) :=
  Scenario.FieldServer dw_clusters (λ m w, mkDbWorld m (dw_scheduled w) (dw_snapshots w) (dw_statefulSets w) (dw_deployments w) (dw_pods w)).
#[export] Instance DbWorld_ScheduledBackup : ApiServer DbWorld ScheduledBackup :=
  Scenario.FieldServer dw_scheduled (λ m w, mkDbWorld (dw_clusters w) m (dw_snapshots w) (dw_statefulSets w) (dw_deployments w) (dw_pods w)).
#[export] Instance DbWorld_VolumeSnapshot : ApiServer DbWorld VolumeSnapshot :=
  Scenario.FieldServer dw_snapshots (λ m w, mkDbWorld (dw_clusters w) (dw_scheduled w) m (dw_statefulSets w) (dw_deployments w) (dw_pods w)).
#[export] Instance DbWorld_StatefulSet : ApiServer DbWorld StatefulSet :=
  Scenario.FieldServer dw_statefulSets (λ m w, mkDbWorld (dw_clusters w) (dw_scheduled w) (dw_snapshots w) m (dw_deployments w) (dw_pods w)).
#[export] Instance DbWorld_Deployment : ApiServer DbWorld Deployment :=
  Scenario.FieldServer dw_deployments (λ m w, mkDbWorld (dw_clusters w) (dw_scheduled w) (dw_snapshots w) (dw_statefulSets w) m (dw_pods w)).
#[export] Instance DbWorld_RunningPod : ApiServer DbWorld RunningPod :=
  Scenario.FieldServer dw_pods (λ m w, mkDbWorld (dw_clusters w) (dw_scheduled w) (dw_snapshots w) (dw_statefulSets w) (dw_deployments w) m).
(** The other kinds have no objects. *)
#[export] Instance DbWorld_other {O} `{KubeObject O} : ApiServer DbWorld O | 100 := Scenario.FieldServer (λ _, ∅) (λ _ w, w).

(** [CreateOrUpdate] that updates an object it finds, whether it has changed or not. *)
Definition renamed {A} : option (error + A) := Some (inl (Errorf (Lit "MutateFn cannot mutate object name and/or object namespace"))).
#[export] Instance WriteThrough {W O} `{ApiServer W O} : ControllerUtil W O | 100 := {|
  DeepEqual _ _ := false;
  CreateOrUpdate R w r obj f :=
    match srv_Get w (ObjectKey obj) with
    | inl e =>
        if IsNotFound e then
          '(r, res) ← f obj r;
          Ret match res with
              | inl e => (w, r, obj, OperationResultNone, Some (inl e))
              | inr o =>
                  if ObjectKey o == ObjectKey obj then
                    match srv_Create w o with
                    | (w, inl e) => (w, r, o, OperationResultNone, Some (inr e))
                    | (w, inr o) => (w, r, o, OperationResultCreated, None)
                    end
                  else (w, r, o, OperationResultNone, renamed)
              end
        else Ret (w, r, obj, OperationResultNone, Some (inr e))
    | inr base =>
        '(r, res) ← f base r;
        Ret match res with
            | inl e => (w, r, base, OperationResultNone, Some (inl e))
            | inr o =>
                if ObjectKey o == ObjectKey obj then
                  match srv_Update w o with
                  | (w, inl e) => (w, r, o, OperationResultNone, Some (inr e))
                  | (w, inr o) => (w, r, o, OperationResultUpdated, None)
                  end
                else (w, r, o, OperationResultNone, renamed)
            end
    end;
|}.

#[export] Instance WriteThrough_laws {W O} `{ApiServer W O} : ControllerUtilLaws W O.
Proof.
  split; cbn.
  - intros R w r obj f w' r' obj' op. unfold current. destruct (srv_Get w (ObjectKey obj)) as [e|base].
    + destruct (IsNotFound e); [|done]. destruct (f obj r) as [[r1 [e1|o]]|p] eqn:Hf; cbn; [done| |done].
      case_bool_decide as Hk; [|done]. destruct (srv_Create w o) as [w1 [e2|o1]] eqn:Hc; [done|]. intros [= <- <- <- <-]. by exists obj, o.
    + destruct (f base r) as [[r1 [e1|o]]|p] eqn:Hf; cbn; [done| |done].
      case_bool_decide as Hk; [|done]. destruct (srv_Update w o) as [w1 [e2|o1]] eqn:Hc; [done|]. intros [= <- <- <- <-]. by exists base, o.
  - intros R w r obj f w' r' obj' op err. destruct (srv_Get w (ObjectKey obj)) as [e|base].
    + destruct (IsNotFound e); [|intros [= <- _ _ _ _]; by left]. destruct (f obj r) as [[r1 [e1|o]]|p]; cbn; [by intros [= <- _ _ _ _]; left| |done].
      case_bool_decide; [|by intros [= <- _ _ _ _]; left]. destruct (srv_Create w o) as [w1 [e2|o1]] eqn:Hc; [|done]. intros [= <- _ _ _ _]. right. eauto.
    + destruct (f base r) as [[r1 [e1|o]]|p]; cbn; [by intros [= <- _ _ _ _]; left| |done].
      case_bool_decide; [|by intros [= <- _ _ _ _]; left]. destruct (srv_Update w o) as [w1 [e2|o1]] eqn:Hc; [|done]. intros [= <- _ _ _ _]. right. eauto.
  - intros R w r obj f w' r' obj' op err. unfold current. destruct (srv_Get w (ObjectKey obj)) as [e|base].
    + destruct (IsNotFound e); [|intros [= _ <- _ _ _]; by left].
      destruct (f obj r) as [[r1 res]|p] eqn:Hf; cbn; [|done]. intros Hr. right. exists obj, res.
      rewrite Hf. destruct res as [e1|o]; [|case_bool_decide; [destruct (srv_Create w o) as [w1 [e2|o1]]|]]; by injection Hr as _ <- _ _ _.
    + destruct (f base r) as [[r1 res]|p] eqn:Hf; cbn; [|done]. intros Hr. right. exists base, res.
      rewrite Hf. destruct res as [e1|o]; [|case_bool_decide; [destruct (srv_Update w o) as [w1 [e2|o1]]|]]; by injection Hr as _ <- _ _ _.
Qed.

#[export] Instance DbWorld_deletion : SnapshotDeletion (W:=DbWorld).
Proof.
  split; cbn; unfold mem_Delete.
  - intros w s w' err Hd _. destruct (dw_snapshots w !! ObjectKey s) eqn:Hs; injection Hd as <- <-; cbn; unfold mem_Get.
    + rewrite lookup_delete_eq. eauto.
    + cbn in Hs. rewrite Hs. eauto.
  - intros w s w' err k Hd Hne. destruct (dw_snapshots w !! ObjectKey s); injection Hd as <- <-; cbn; unfold mem_Get; [|done].
    by rewrite lookup_delete_ne.
  - intros w b w' err k Hd. by destruct (∅ !! ObjectKey b) in Hd; injection Hd as <- <-.
Qed.

(** Snapshots by age. *)
Definition older (a b : VolumeSnapshot) : Prop := (creation a ≤ creation b)%Z.
#[export] Instance older_dec : RelDecision older.
Proof. unfold RelDecision, older. intros a b. apply _. Defined.
#[export] Instance older_total : Total older.
Proof. intros a b. unfold older. lia. Qed.
#[export] Instance older_trans : Transitive older.
Proof. intros a b c. unfold older. lia. Qed.
Definition byAge : list VolumeSnapshot → list VolumeSnapshot := merge_sort older.

(** A run that returned without an error. *)
Definition succeeded {S A} (m : outcome (S * (error + A))) : bool := match m with Ret (_, inr _) => true | _ => false end.
Lemma succeeded_run {S A} (m : outcome (S * (error + A))) : succeeded m = true → ∃ s a, m = Ret (s, inr a).
Proof. destruct m as [[s [e|a]]|p]; [done| |done]. eauto. Qed.

(** ** Settings *)


Lemma convertToSixFieldCron_fields_witness :
  convertToSixFieldCron "30 2 * * *" = inr "0 30 2 * * *"%string ∧ length (Fields "0 30 2 * * *") = 6%nat.
Proof.
  split; [by vm_compute|]. destruct (convertToSixFieldCron_fields "30 2 * * *" "0 30 2 * * *") as [[H _]|[H _]]; [by vm_compute| |done].
  by vm_compute in H.
Defined.

(** ** The cluster *)

Definition dbSpec (recovery : option DBRecoverySpec) : NooBaaDBSpec :=
  mkNooBaaDBSpec None None (Some 2%Z) "" (Some "gp3"%string) (Some {["max_wal_size" := "4GB"]}%string)
    (Some (mkDBBackupSpec "30 2 * * *" (Some (mkVolumeSnapshotBackupSpec "csi" 2)))) recovery.
Definition dbStatus : NooBaaDBStatus := mkNooBaaDBStatus DBClusterStatusReady "" 16 "" (Some (mkDBBackupStatus None None 0 [])) None.
Definition dbSystem (recovery : option DBRecoverySpec) : NooBaa :=
  let s := emptyNooBaaSpec in
  mkNooBaa (mkObjectMeta "noobaa" "noobaa" "uid" 1 0 None None None [] [] 1)
    (mkNooBaaSpec (nbs_CleanupPolicy s) (nbs_Autoscaler s) (nbs_LoadBalancerSourceSubnets s) (nbs_Security s) None
       (Some (dbSpec recovery)) None PerformanceProfileNone false None false false (nbs_BucketLogging s) (nbs_BucketNotifications s)
       None None None None "" false false None None "" None false false false ∅ ∅ "")
    (set_nbst_DBStatus (Some dbStatus) noStatus).

Definition noSpec : ClusterSpec IntQuantity :=
  mkClusterSpec None None 0 (mkResourceRequirements IntQuantity None None) (mkStorageConfiguration None None "")
    (mkAffinityConfiguration None "" []) "" None None 0 None None None.
Definition dbReconciler (recovery : option DBRecoverySpec) : Db IntQuantity () :=
  mkDb (dbSystem recovery) (mkImageCatalog (named "noobaa" "noobaa-db-pg") []) (mkCluster (named "noobaa" "noobaa-db-pg-cluster") noSpec [])
    (mkStatefulSet (named "noobaa" "noobaa-core") None None "") (mkDeployment (named "noobaa" "noobaa-endpoint") None) () None.

Definition noEnv (_ : string) : string := "".
Definition owns (_ m : ObjectMeta) : msg + ObjectMeta := inr m.
#[local] Instance limits_eq_dec : EqDecision (option (gmap string (@Quantity IntQuantity))).
Proof. apply @option_eq_dec, gmap_eq_dec, Z.eq_dec. Defined.
Definition sameResources (a b : ResourceRequirements IntQuantity) : bool :=
  bool_decide (rr_Limits a = rr_Limits b) && bool_decide (rr_Requests a = rr_Requests b).

Abbreviation runCluster := (reconcileDBCluster owns noEnv 7 defaultDbOptions "noobaa" "noobaa" "noobaa-db-pg-cluster-rw" None sameResources).
Abbreviation wanted w nb :=
  (reconcileClusterSpec noEnv defaultDbOptions "noobaa" "noobaa-db-pg-cluster-rw" None w nb "noobaa-db-pg" noSpec).

Definition noDbWorld : DbWorld := mkDbWorld ∅ ∅ ∅ ∅ ∅ ∅.
(** The specification that the controller computes for a new cluster. *)
Definition wantedSpec : ClusterSpec IntQuantity :=
  match wanted noDbWorld (dbSystem None) with Ret (inr s) => s | _ => noSpec end.
Definition settledCluster : Cluster IntQuantity :=
  mkCluster (mkObjectMeta "noobaa-db-pg-cluster" "noobaa" "uid-7" 3 0 None None None [] [] 1) wantedSpec [("Ready", "True")%string].
Definition settledWorld : DbWorld := mkDbWorld {[("noobaa", "noobaa-db-pg-cluster")%string := settledCluster]} ∅ ∅ ∅ ∅ ∅.

Lemma wanted_found : srv_Get settledWorld (ObjectKey (db_CNPGCluster (dbReconciler None))) = inr settledCluster.
Proof. change (mem_Get {[("noobaa", "noobaa-db-pg-cluster")%string := settledCluster]} ("noobaa", "noobaa-db-pg-cluster")%string = inr settledCluster).
  unfold mem_Get. by rewrite lookup_singleton_eq. Qed.

(** The computation of the specification succeeds. *)
Lemma wanted_computed : wanted noDbWorld (dbSystem None) = Ret (inr wantedSpec).
Proof.
  assert (Hok : (λ x : outcome (error + ClusterSpec IntQuantity), match x with Ret (inr _) => true | _ => false end)
    (wanted noDbWorld (dbSystem None)) = true) by (vm_compute; reflexivity).
  unfold wantedSpec. by destruct (wanted noDbWorld (dbSystem None)) as [[e|s]|p].
Qed.

Lemma wanted_size : ParseQuantity (QuantityApi:=IntQuantity) (stc_Size (cs_StorageConfiguration wantedSpec)) = inr (50 * 2 ^ 30 * 10 ^ 9)%Z.
Proof. assert (stc_Size (cs_StorageConfiguration wantedSpec) = "50Gi"%string) as -> by (vm_compute; reflexivity). by vm_compute. Qed.

Lemma reconcileDBCluster_settles_witness :
  runCluster (settledWorld, dbReconciler None) =
    Ret ((settledWorld, set_db_Cluster settledCluster (dbReconciler None)), inr ()).
Proof.
  apply (reconcileDBCluster_settles owns noEnv 7 defaultDbOptions "noobaa" "noobaa" "noobaa-db-pg-cluster-rw" None sameResources
           settledWorld (dbReconciler None) settledCluster noSpec (50 * 2 ^ 30 * 10 ^ 9)%Z).
  - exact wanted_found.
  - discriminate.
  - exact wanted_computed.
  - exact wanted_size.
  - intros res. unfold sameResources. by rewrite !bool_decide_eq_true_2.
Defined.

(** The cluster was deleted, its pods are gone, and its scheduled backup is still there. *)
Definition snapshotToUse : DBRecoverySpec := mkDBRecoverySpec "noobaa-db-pg-cluster-scheduled-backup-1".
Definition recoveryWorld : DbWorld :=
  mkDbWorld ∅ {[("noobaa", "noobaa-db-pg-cluster-scheduled-backup")%string :=
    GetCnpgScheduledBackupObj "noobaa" "noobaa-db-pg-cluster-scheduled-backup"]} ∅ ∅ ∅ ∅.

Lemma owns_key o m m' : owns o m = inr m' → om_Name m' = om_Name m ∧ om_Namespace m' = om_Namespace m.
Proof. by intros [= <-]. Qed.

Lemma reconcileDBCluster_recovery_witness : ∃ w' r' w1 w2 cluster created,
  runCluster (recoveryWorld, dbReconciler (Some snapshotToUse)) = Ret ((w', r'), inr ()) ∧
  stopped "noobaa" recoveryWorld (db_CoreApp (dbReconciler None)) (db_DeploymentEndpoint (dbReconciler None)) w1 ∧
  backupRemoved w1 w2 ("noobaa", "noobaa-db-pg-cluster-scheduled-backup")%string ∧
  srv_Create (O:=Cluster IntQuantity) w2 cluster = (w', inr created).
Proof.
  destruct (succeeded_run (runCluster (recoveryWorld, dbReconciler (Some snapshotToUse)))) as ([w' r'] & [] & Hrun);
    [vm_compute; reflexivity|].
  destruct (reconcileDBCluster_recovery owns noEnv 7 defaultDbOptions "noobaa" "noobaa" "noobaa-db-pg-cluster-rw" None sameResources owns_key
              recoveryWorld (dbReconciler (Some snapshotToUse)) w' r' (db_CNPGCluster (dbReconciler None)) false
              (dbSpec (Some snapshotToUse)) snapshotToUse Hrun) as (w1 & w2 & cluster & created & Hst & Hrem & Hcr & _);
    [reflexivity|reflexivity|reflexivity|reflexivity|].
  exists w', r', w1, w2, cluster, created. split_and!; [exact Hrun|exact Hst|exact Hrem|exact Hcr].
Defined.

(** ** Retention *)

Definition snapshot (name : string) (created : Z) : VolumeSnapshot :=
  mkVolumeSnapshot (mkObjectMeta ("noobaa-db-pg-cluster-scheduled-backup-" +:+ name) "noobaa" "uid" 1 created None
    (Some {["cnpg.io/cluster" := "noobaa-db-pg-cluster"]}%string) None [] [] 1).
Definition snapshotMap (l : list VolumeSnapshot) : gmap ObjectKeyT VolumeSnapshot := list_to_map ((λ s, (ObjectKey s, s)) <$> l).
(** Four snapshots, of which two are to be kept and the oldest is to be recovered from. *)
Definition retentionWorld : DbWorld :=
  mkDbWorld ∅ ∅ (snapshotMap [snapshot "1" 10; snapshot "3" 30; snapshot "2" 20; snapshot "4" 40]) ∅ ∅ ∅.
Definition keepTwo : VolumeSnapshotBackupSpec := mkVolumeSnapshotBackupSpec "csi" 2.

