(* ===== verification/KeyScenario.v ===== *)
(** * Runs of key management.

    A world with secrets of the cluster, a key management system that keeps maps, and a
    Key Protect service, with the proofs that they behave as documented, and concrete
    inputs for the theorems on keys. *)

From stdpp Require Import sorting pretty.
From S2P Require Import Prelude Effects GoStrings Types Kube Util SystemObjects KeyManagement KeyProtect RootKey.
From S2P Require Scenario DatabaseScenario.

(** ** The world *)

Record KeyWorld := mkKeyWorld {
  kw_secrets : gmap ObjectKeyT Secret;
  kw_store : gmap string SecretData;
  kw_used : gset string;               (* the names of all keys that were ever stored *)
  kw_random : nat;
  kw_keys : list (IbmKey * string);    (* of Key Protect, with their payloads *)
}.

(** A secret is stored with its string data in its data, as the server does. *)
Definition stored (s : Secret) : Secret :=
  mkSecret (sec_meta s) (sec_StringData s) (Some (default ∅ (sec_StringData s) ∪ default ∅ (sec_Data s))).
Definition put_kw_secrets (m : gmap ObjectKeyT Secret) (w : KeyWorld) : KeyWorld :=
  mkKeyWorld (stored <$> m) (kw_store w) (kw_used w) (kw_random w) (kw_keys w).
#[export] Instance KeyWorld_Secret : ApiServer KeyWorld Secret := Scenario.FieldServer kw_secrets put_kw_secrets.

#[export] Instance KeyWorld_controller : ControllerUtil KeyWorld Secret := DatabaseScenario.WriteThrough.
#[export] Instance KeyWorld_controllerLaws : ControllerUtilLaws KeyWorld Secret := DatabaseScenario.WriteThrough_laws.

#[export] Instance KeyNames : SecretsLib := {|
  TypeK8s := "k8s"; k8s_Name := "k8s"; vault_Name := "vault"; azure_Name := "azure-kv"; k8s_SecretNamespace := "namespace";
  DestroySecret := "destroy"; vault_AuthMethod := "VAULT_AUTH_METHOD"; AuthMethodKubernetes := "kubernetes";
  AzureClientCertPath := "AZURE_CLIENT_CERT_PATH";
|}.

(** The clock gives a time that no key is named after. *)
Definition nextTime (used : gset string) : Z :=
  default 0%Z (List.find (λ t, bool_decide (keyName t ∉ used)) (seqZ 0 (Z.of_nat (size used) + 1))).

#[export] Instance KeyProcess : KmsProcess KeyWorld := {|
  kp_LookupEnv _ _ := None;
  kp_Setenv w _ _ := (w, None);
  kp_CreateTemp w := (w, inr "/tmp/file"%string);
  kp_WriteFile w _ _ := (w, None);
  kp_UnixNano w := (w, nextTime (kw_used w));
  kp_RandomBase64 w n := (mkKeyWorld (kw_secrets w) (kw_store w) (kw_used w) (S (kw_random w)) (kw_keys w),
                          "random" +:+ pretty (kw_random w));
|}.

Lemma nextTime_unused used : keyName (nextTime used) ∉ used.
Proof.
  unfold nextTime. destruct (List.find _ _) as [t|] eqn:Hf.
  { apply List.find_some in Hf as [_ Hf]. by apply bool_decide_eq_true in Hf. }
  exfalso. assert (∀ t, t ∈ seqZ 0 (Z.of_nat (size used) + 1) → keyName t ∈ used) as Hall.
  { intros t Ht. apply list_elem_of_In in Ht. pose proof (List.find_none _ _ Hf t Ht) as Hn. by apply bool_decide_eq_false, dec_stable in Hn. }
  set (l := keyName <$> seqZ 0 (Z.of_nat (size used) + 1)).
  assert (size (list_to_set l : gset string) ≤ size used)%nat as Hsize.
  { apply subseteq_size. intros k (t & -> & Ht)%elem_of_list_to_set%list_elem_of_fmap. by apply Hall. }
  assert (NoDup l) as Hnd.
  { unfold l. apply NoDup_fmap_2; [|apply NoDup_seqZ]. intros a b Hab. unfold keyName in Hab. cbn in Hab. by simplify_eq. }
  rewrite size_list_to_set in Hsize by done. unfold l in Hsize. rewrite length_fmap, length_seqZ in Hsize. lia.
Qed.

(** ** The key management system *)

Definition put_store (m : gmap string SecretData) (used : gset string) (w : KeyWorld) : KeyWorld :=
  mkKeyWorld (kw_secrets w) m used (kw_random w) (kw_keys w).

#[export] Instance MapStorage : Secrets KeyWorld () := {|
  GetSecret id _ := λ '(w, b), Ret ((w, b), match kw_store w !! id with Some m => inr m | None => inl (TextError "secret not found") end);
  PutSecret id m _ := λ '(w, b), Ret ((put_store (<[id := m]> (kw_store w)) (kw_used w ∪ dom m) w, b), inr ());
  DeleteSecret id _ := λ '(w, b), Ret ((put_store (delete id (kw_store w)) (kw_used w) w, b), inr ());
|}.
Definition connectMap (_ : string) (_ : Config) : M KeyWorld () := mret ().

(** Deletions of secrets of the cluster do not touch it. *)
Lemma KubeDelete_store fuel w (s : Secret) w' r :
  KubeDelete fuel id w s = Ret (w', r) → kw_store w' = kw_store w ∧ kw_used w' = kw_used w.
Proof.
  assert (∀ w err w1, srv_Delete w s = (w1, err) → kw_store w1 = kw_store w ∧ kw_used w1 = kw_used w) as Hdel.
  { intros w0 err w1. cbn. destruct (mem_Delete (kw_secrets w0) s). by intros [= <- _]. }
  assert (∀ fuel w d w' r, KubeDelete_poll fuel id w s d = Ret (w', r) → kw_store w' = kw_store w ∧ kw_used w' = kw_used w) as Hpoll.
  { clear fuel w w' r. induction fuel as [|fuel IH]; intros w d w' r; cbn [KubeDelete_poll]; [by intros [= <- _]|].
    destruct (srv_Delete w s) as [w1 err] eqn:Hd. apply Hdel in Hd as [Hs Hu]. rewrite <-Hs, <-Hu.
    destruct err as [e|]; [|apply IH]. destruct (IsConflict e); [apply IH|]. destruct (IsNoMatchOrNotRegistered e); [by intros [= <- _]|].
    destruct (IsNotFound e); [by intros [= <- _]|done]. }
  unfold KubeDelete. destruct (srv_Delete w s) as [w1 err] eqn:Hd. apply Hdel in Hd as [Hs Hu]. rewrite <-Hs, <-Hu.
  destruct err as [e|]; [|apply Hpoll]. destruct (negb (IsConflict e) && IsNotFound e); [by intros [= <- _]|].
  destruct (IsStatusError e); [by intros [= <- _]|apply Hpoll].
Qed.

Definition absent (w : KeyWorld) (id : string) : Prop := kw_store w !! id = None.
Definition kept (w : KeyWorld) (id : string) (m : SecretData) : Prop := kw_store w !! id = Some m ∧ dom m ⊆ kw_used w.

#[export, refine] Instance MapStorage_laws fuel d : StorageLaws fuel id connectMap d := {|
  client _ := True;
  holds := kept;
  gone := absent;
  fresh w a := a ∉ kw_used w;
|}.
Proof.
  - intros. exact I.
  - by intros w t c w' r [= <- _].
  - intros w [] id w' [] r _ [= <- <-]. split_and!; [done|done|..].
    + intros m [Hm _]. rewrite Hm. cbn. done.
    + intros Hg m. unfold absent in Hg. by rewrite Hg.
  - intros w [] id m w' [] r _ [= <- <-]. split_and!; [done|..].
    + intros id' Hne Hg. unfold absent. cbn. by rewrite lookup_insert_ne.
    + intros _ _. split; cbn; [by rewrite lookup_insert_eq|set_solver].
  - intros w [] id w' [] r _ [= <- <-]. split_and!; [done|..].
    + intros id' m Hne [Hm Hu]. split; cbn; [by rewrite lookup_delete_ne|done].
    + intros _. unfold absent. cbn. apply lookup_delete_eq.
  - intros w ns name id m w' deleted [Hs Hu]%KubeDelete_store _ [Hm Hd]. unfold kept. by rewrite Hs, Hu.
  - intros w ns name id w' deleted [Hs _]%KubeDelete_store Hg. unfold absent. by rewrite Hs.
  - intros w id m a v [_ Hu] Ha Hf. apply Hf, Hu. by eapply elem_of_dom_2.
  - intros id m. split; by intros.
  - intros id. split; by intros.
Defined.

(** ** Key Protect *)

Definition put_kw_keys (l : list (IbmKey * string)) (w : KeyWorld) : KeyWorld :=
  mkKeyWorld (kw_secrets w) (kw_store w) (kw_used w) (kw_random w) l.

(** The payload of the last key with an ID. *)
Definition payloadOf (id : string) (l : list (IbmKey * string)) : string + string :=
  match List.find (λ p, ibk_ID p.1 == id) (reverse l) with Some p => inr p.2 | None => inl "no such key"%string end.
#[local] Arguments payloadOf : simpl never.
Lemma payloadOf_last key value l : payloadOf (ibk_ID key) (l ++ [(key, value)]) = inr value.
Proof. unfold payloadOf. rewrite reverse_snoc. cbn. by rewrite bool_decide_eq_true_2. Qed.

#[export] Instance KeyWorld_KeyProtect : KeyProtect KeyWorld := {|
  DefaultBaseURL := "https://us-south.kms.cloud.ibm.com";
  DefaultTokenURL := "https://iam.cloud.ibm.com/oidc/token";
  ibm_NewWithLogger _ := None;
  kp_GetKeys _ w limit offset := inr (take limit (drop offset (fst <$> kw_keys w)));
  kp_GetKey _ w id := payloadOf id (kw_keys w);
  kp_CreateImportedStandardKey _ w name value :=
    (put_kw_keys (kw_keys w ++ [(mkIbmKey ("id" +:+ pretty (length (kw_keys w))) name, value)]) w,
     inr (mkIbmKey ("id" +:+ pretty (length (kw_keys w))) name));
  kp_DeleteKey _ w id := (put_kw_keys (filter (λ p, ibk_ID p.1 ≠ id) (kw_keys w)) w, None);
|}.

#[export, refine] Instance KeyWorld_KeyProtectLaws c : KeyProtectLaws KeyWorld c := {| keysOf w := fst <$> kw_keys w |}.
Proof.
  - done.
  - intros w name value w' key [= <- <-]. split_and!; [cbn [kw_keys put_kw_keys]; by rewrite fmap_app|done|apply payloadOf_last].
  - done.
  - intros w s w' s'. cbn. destruct (mem_Update (kw_secrets w) s) as [m r] eqn:Hu. intros [= <- ->].
    apply mem_Update_ok in Hu as (x & v & _ & -> & ->). eexists. split_and!.
    + unfold mem_Get. cbn. rewrite lookup_fmap, lookup_insert_eq. reflexivity.
    + cbn. apply map_union_subseteq_l.
    + done.
  - intros w s. cbn. by destruct (mem_Update (kw_secrets w) s).
  - intros w s id. cbn. by destruct (mem_Update (kw_secrets w) s).
Defined.

Definition demoClient : IbmClient := mkIbmClient "https://kp" "key" "https://token" "instance".
Definition trackingSecret : Secret := mkSecret (mkObjectMeta "kp-token" "noobaa" "uid" 1 0 None None None [] [] 1) (Some ∅) None.
Definition ibmWorld : KeyWorld := mkKeyWorld {[("noobaa", "kp-token")%string := trackingSecret]} ∅ ∅ 0 [].
Definition ibmStorage : ibmKpSecretStorage := mkIbmStorage demoClient trackingSecret.
Definition rootMap : SecretData := <["key-7"%string := AnyString "secret"]> {[ActiveRootKey := AnyString "key-7"]}.
Definition backendName : string := "noobaa-root-master-key-backend".

Lemma ibm_Put_Get_witness : ∃ w' b' b'',
  ibm_PutSecret backendName rootMap None (ibmWorld, ibmStorage) = Ret ((w', b'), inr ()) ∧
  ibm_GetSecret 5 backendName None (w', b') = Ret ((w', b''), inr (<["key-7"%string := AnyString "secret"]> {[ActiveRootKey := AnyString "key-7"]})).
Proof.
  destruct (DatabaseScenario.succeeded_run (ibm_PutSecret backendName rootMap None (ibmWorld, ibmStorage))) as ([w' b'] & [] & Hrun);
    [vm_compute; reflexivity|].
  destruct (ibm_Put_Get demoClient 5 backendName rootMap None None "key-7" "secret" ibmWorld ibmStorage w' b') as [b'' Hget];
    [reflexivity|reflexivity|reflexivity|discriminate|reflexivity|reflexivity|vm_compute; lia|exact Hrun|].
  exists w', b', b''. split; [exact Hrun|exact Hget].
Defined.

Lemma ibm_Delete_leaves_witness : ∃ w' b',
  ibm_PutSecret backendName rootMap None (ibmWorld, ibmStorage) = Ret ((w', b'), inr ()) ∧
  ibm_DeleteSecret 5 backendName None (w', b') = Ret ((w', b'), inl ErrInvalidSecretId).
Proof.
  destruct (DatabaseScenario.succeeded_run (ibm_PutSecret backendName rootMap None (ibmWorld, ibmStorage))) as ([w' b'] & [] & Hrun);
    [vm_compute; reflexivity|].
  exists w', b'. split; [exact Hrun|].
  apply (ibm_Delete_leaves demoClient 5 backendName rootMap None None "key-7" "secret" ibmWorld ibmStorage w' b');
    [reflexivity|reflexivity|reflexivity|discriminate|reflexivity|reflexivity|discriminate|vm_compute; lia|exact Hrun].
Defined.

(** ** Old keys *)

Definition earlier (a b : string * Z) : Prop := (a.2 ≤ b.2)%Z.
#[export] Instance earlier_dec : RelDecision earlier.
Proof. unfold RelDecision, earlier. intros a b. apply _. Defined.
#[export] Instance earlier_total : Total earlier.
Proof. intros a b. unfold earlier. lia. Qed.
#[export] Instance earlier_trans : Transitive earlier.
Proof. intros a b c. unfold earlier. lia. Qed.
Definition inTime : list (string * Z) → list (string * Z) := merge_sort earlier.

Definition threeKeys : gmap string string := list_to_map
  [("active_root_key", "key-30"); ("key-10", "a"); ("key-20", "b"); ("key-30", "c")]%string.

(** One of the two old keys goes, since two keys are to stay. *)
Lemma RemoveOldKeysFromSecret_oldest_witness : ∃ data',
  RemoveOldKeysFromSecret inTime threeKeys 25 2 = inr (data', 1%nat) ∧ data' ⊆ threeKeys.
Proof.
  destruct (RemoveOldKeysFromSecret inTime threeKeys 25 2) as [e|[data' n]] eqn:Hr; [by vm_compute in Hr|].
  exists data'. split.
  - do 2 f_equal. assert (n = 1%nat) as ->; [|done].
    assert (Hn : match RemoveOldKeysFromSecret inTime threeKeys 25 2 with inr (_, n) => n | inl _ => 0%nat end = 1%nat) by (vm_compute; reflexivity).
    by rewrite Hr in Hn.
  - apply (RemoveOldKeysFromSecret_oldest inTime (merge_sort_Permutation earlier) (StronglySorted_merge_sort earlier) _ _ _ _ _ Hr).
Defined.

(** ** The root key *)

Definition k8sDriver : Driver := K8S "noobaa" "noobaa".
Definition newClient : KMS () := mkKMS () (versionOf k8sDriver) "k8s" k8sDriver.

(** A system from before the keys could rotate. *)
Definition oldWorld : KeyWorld :=
  mkKeyWorld ∅ {["noobaa-root-master-key"%string := {["cipher_key_b64"%string := AnyString "root"]}]} ∅ 0 [].

Lemma Upgrade_root_key_witness : ∃ w' k',
  Upgrade 3 id (oldWorld, newClient) = Ret ((w', k'), inr ()) ∧
  holdsKey (L:=MapStorage_laws 3 k8sDriver) w' "noobaa" "root" ∧ absent w' "noobaa-root-master-key".
Proof.
  destruct (DatabaseScenario.succeeded_run (Upgrade 3 id (oldWorld, newClient))) as ([w' k'] & [] & Hrun); [vm_compute; reflexivity|].
  exists w', k'. split; [exact Hrun|].
  apply (Upgrade_root_key (L:=MapStorage_laws 3 k8sDriver) "noobaa" "noobaa" oldWorld newClient oldWorld newClient "root" w' k').
  - split; [reflexivity|]. split; [exact I|]. by exists None.
  - discriminate.
  - reflexivity.
  - apply nextTime_unused.
  - exact Hrun.
Defined.

#[export] Instance DemoCron : Cron := {| Schedule := Z; ParseStandard _ := inr 100%Z; schedule_Next s t := (t + s)%Z |}.

Definition keySystem : RootKeys :=
  mkRootKeys (mkNooBaa (mkObjectMeta "noobaa" "noobaa" "uid" 1 0 None None None [] [] 1) emptyNooBaaSpec noStatus) ""
    (mkSecret (named "noobaa" "noobaa-root-master-key-volume") None None).
Definition heldMap : SecretData := <["key-7"%string := AnyString "root"]> {[ActiveRootKey := AnyString "key-7"]}.
Definition keyWorld : KeyWorld := mkKeyWorld ∅ {[backendName := heldMap]} (dom heldMap) 0 [].

Lemma keyWorld_holds : holdsKey (L:=MapStorage_laws 3 k8sDriver) keyWorld "noobaa" "root".
Proof. exists heldMap. split; [split; [reflexivity|done]|]. exists "key-7"%string. done. Qed.

Lemma keySystem_driver : usesDriver (d:=k8sDriver) "noobaa" "noobaa" keySystem.
Proof. eexists. split; reflexivity. Qed.

(** The secret that is mounted is in the cluster, not in the key management system. *)
Lemma CreateOrUpdate_store {R} w (r : R) (obj : Secret) f w' r' obj' op err :
  CreateOrUpdate w r obj f = Ret (w', r', obj', op, err) → kw_store w' = kw_store w ∧ kw_used w' = kw_used w.
Proof.
  cbn -[ObjectKey]. destruct (mem_Get (kw_secrets w) _) as [e0|base].
  - destruct (IsNotFound e0); [|by intros [= <- _ _ _ _]]. destruct (f obj r) as [[r3 [e1|o]]|p]; cbn -[ObjectKey]; [by intros [= <- _ _ _ _]| |done].
    case_bool_decide; [|by intros [= <- _ _ _ _]]. destruct (mem_Create _ _) as [? []]; by intros [= <- _ _ _ _].
  - destruct (f base r) as [[r3 [e1|o]]|p]; cbn -[ObjectKey]; [by intros [= <- _ _ _ _]| |done].
    case_bool_decide; [|by intros [= <- _ _ _ _]]. destruct (mem_Update _ _) as [? []]; by intros [= <- _ _ _ _].
Qed.

Lemma keySystem_mounts : mountsElsewhere DatabaseScenario.owns 3 id connectMap "noobaa" (L:=MapStorage_laws 3 k8sDriver) keySystem.
Proof.
  intros w r1 desired w' r' x m _ H [Hm Hu].
  assert (kw_store w' = kw_store w ∧ kw_used w' = kw_used w) as [Hs Hd]; [|split; [by rewrite Hs|by rewrite Hd]].
  assert (∃ y, reconcileObjectAndGetResult rk_NooBaa DatabaseScenario.owns (rk_SecretRootMasterMap keySystem) desired false (w, r1) = Ret ((w', r'), y)) as (y & Hy).
  { unfold ReconcileObject, reconcileObject in H. apply M_bind_inv in H as [(e & He & _)|(s1 & [a b] & Ha & Hb)]; [eauto|].
    injection Hb as -> _. eauto. }
  revert Hy. unfold reconcileObjectAndGetResult. destruct (Own _ _ _) as [owned|p]; cbn -[CreateOrUpdate]; [|done].
  destruct (CreateOrUpdate w r1 owned _) as [[[[[w1 r2] o1] op] err]|p] eqn:Hc; cbn -[CreateOrUpdate]; [|done]. intros [= <- _ _].
  by apply CreateOrUpdate_store in Hc.
Qed.

#[export] Existing Instance ListConditions.

Definition halfYear : Z → Z := λ t, (t - 180)%Z.


Lemma keyRotate_keeps_old_witness : ∃ w' r' w0 data old,
  keyRotate DatabaseScenario.owns 3 id connectMap "noobaa" "noobaa" 1000 halfYear inTime (keyWorld, keySystem) = Ret ((w', r'), inr ()) ∧
  holdsKey (L:=MapStorage_laws 3 k8sDriver) w' "noobaa" (kp_RandomBase64 w0 32).2 ∧
  mountedMap 1000 halfYear w' (ObjectKey (rk_SecretRootMasterMap keySystem)) data ∧ activeOf data (kp_RandomBase64 w0 32).2 ∧
  data !! old = Some "root"%string.
Proof.
  destruct (DatabaseScenario.succeeded_run
    (keyRotate DatabaseScenario.owns 3 id connectMap "noobaa" "noobaa" 1000 halfYear inTime (keyWorld, keySystem))) as ([w' r'] & [] & Hrun);
    [vm_compute; reflexivity|].
  exists w', r'.
  destruct (keyRotate_keeps_old DatabaseScenario.owns 3 id connectMap "noobaa" "noobaa" 1000 halfYear inTime
    (merge_sort_Permutation earlier) (StronglySorted_merge_sort earlier) DatabaseScenario.owns_key (L:=MapStorage_laws 3 k8sDriver) "root" keyWorld keySystem w' r')
    as (w0 & r0 & k & data & old & _ & Hh & Hm & Ha & Hold).
  - exact keySystem_driver.
  - exact keySystem_mounts.
  - reflexivity.
  - exact keyWorld_holds.
  - intros w0. apply nextTime_unused.
  - exact Hrun.
  - exists w0, data, old. split_and!; [exact Hrun|exact Hh|exact Hm|exact Ha|exact Hold].
Defined.
