(* ===== verification/SystemScenario.v ===== *)
(** * Runs of the system controller.

    A cluster with a system that is being deleted while a bucket is left, and a cluster
    with two core pods of which one is outdated: concrete inputs for the theorems on the
    reconcile of a system and on the core pods. *)

From S2P Require Import Prelude GoStrings GoUrl Types Kube Util Controller Buckets SystemServices SystemObjects SystemVerifying.
From S2P Require Import SystemReconciler CoreHa Scenario.
From S2P Require ProvisionScenario.

Record SystemWorld := mkSystemWorld {
  sw_systems : gmap ObjectKeyT NooBaa;
  sw_buckets : gmap ObjectKeyT ObjectBucket;
  sw_statefulSets : gmap ObjectKeyT StatefulSet;
  sw_pods : gmap ObjectKeyT RunningPod;
}.

#[export] Instance SystemWorld_NooBaa : ApiServer SystemWorld NooBaa :=
  FieldServer sw_systems (λ m w, mkSystemWorld m (sw_buckets w) (sw_statefulSets w) (sw_pods w)).
#[export] Instance SystemWorld_ObjectBucket : ApiServer SystemWorld ObjectBucket :=
  FieldServer sw_buckets (λ m w, mkSystemWorld (sw_systems w) m (sw_statefulSets w) (sw_pods w)).
#[export] Instance SystemWorld_StatefulSet : ApiServer SystemWorld StatefulSet :=
  FieldServer sw_statefulSets (λ m w, mkSystemWorld (sw_systems w) (sw_buckets w) m (sw_pods w)).
#[export] Instance SystemWorld_RunningPod : ApiServer SystemWorld RunningPod :=
  FieldServer sw_pods (λ m w, mkSystemWorld (sw_systems w) (sw_buckets w) (sw_statefulSets w) m).
(** The other kinds have no objects. *)
#[export] Instance SystemWorld_other {O} `{KubeObject O} : ApiServer SystemWorld O | 100 := FieldServer (λ _, ∅) (λ _ w, w).

#[export] Instance SystemWorld_process : Process SystemWorld := {|
  os_Getenv _ _ := ""%string; os_WriteFile w _ _ := (w, None); os_Setenv w _ _ := w;
  sql_Open _ _ := None; sql_Ping _ _ := None; sql_MajorVersion _ _ := inr "15"%string; sql_Collation _ _ := inr "C"%string;
|}.
#[export] Instance PlainImages : ImageSyntax := {|
  dockerref_Parse _ := inl (Lit "not an image"); semver_Version := Z; semver_NewVersion _ := None;
  semver_Compare v w := match (v ?= w)%Z with Lt => -1 | Eq => 0 | Gt => 1 end; govalidator_IsDNSName _ := true;
|}.

(** ** A deletion that waits *)

Definition deletedSystem : NooBaa :=
  mkNooBaa (mkObjectMeta "noobaa" "noobaa" "uid-noobaa" 1 0 (Some 100%Z) None None [GracefulFinalizer] [] 1) emptyNooBaaSpec noStatus.
Definition leftBucket : ObjectBucket :=
  mkObjectBucket (mkObjectMeta "obc-noobaa-left" "" "uid-left" 1 0 None (Some {["noobaa-domain" := "noobaa.noobaa.io"]}%string) None [] [] 1)
    None None.
Definition leftWorld : SystemWorld :=
  mkSystemWorld {[("noobaa", "noobaa")%string := deletedSystem]} {[(""%string, "obc-noobaa-left"%string) := leftBucket]} ∅ ∅.

Lemma Reconcile_waits_for_buckets_witness : ∃ s' err,
  Reconcile "noobaa" "noobaa" 100 (λ _, None) 3 id (mkStorageClass (named "" "noobaa.noobaa.io") "" None) (λ w _, (w, None)) (λ _, CaCombined)
    (λ _, ""%string) (λ w _, Ret (w, None)) (λ w s, Ret (w, s, None)) (λ w s, Ret (w, s, None)) leftWorld ProvisionScenario.phaseState =
    Ret (leftWorld, s', mkResult None, Some err) ∧ nb_meta (sys_NooBaa s') = nb_meta deletedSystem.
Proof.
  destruct (Reconcile_waits_for_buckets "noobaa" "noobaa" 100 (λ _, None) 3 id (mkStorageClass (named "" "noobaa.noobaa.io") "" None)
    (λ w _, (w, None)) (λ _, CaCombined) (λ _, ""%string) (λ w _, Ret (w, None)) (λ w s, Ret (w, s, None)) (λ w s, Ret (w, s, None))
    leftWorld ProvisionScenario.phaseState deletedSystem [leftBucket] true leftWorld None) as (_ & Hkept & _).
  - reflexivity.
  - by eexists.
  - reflexivity.
  - vm_compute. reflexivity.
  - destruct Hkept as (s' & err & Hrun & Hmeta & _); [split; discriminate|]. exists s', err. split; [exact Hrun|exact Hmeta].
Defined.

(** ** Two core pods *)

Definition coreSet : StatefulSet :=
  mkStatefulSet (mkObjectMeta "noobaa-core" "noobaa" "uid-core" 1 0 None None None [] [] 1) (Some 2%Z)
    (Some {[coreConfigMapHashAnnotation := "new"%string]}) "rev-2".
Definition corePodOf (name hash : string) (ready : bool) : RunningPod :=
  mkRunningPod (mkObjectMeta name "noobaa" ("uid-" +:+ name) 1 0 None (Some {["noobaa-core" := "noobaa"]}%string)
    (Some {[coreConfigMapHashAnnotation := hash]}) [] [] 1) [] "Running" "" "" (if ready then [("Ready", "True")%string] else []).
Definition oldPod : RunningPod := corePodOf "noobaa-core-0" "old" true.
Definition newPod : RunningPod := corePodOf "noobaa-core-1" "new" false.
Definition coreWorld : SystemWorld :=
  mkSystemWorld ∅ ∅ {[("noobaa", "noobaa-core")%string := coreSet]}
    (<[("noobaa", "noobaa-core-0")%string := oldPod]> {[("noobaa", "noobaa-core-1")%string := newPod]}).
Definition corePods : list RunningPod :=
  match srv_List coreWorld (selectPods "noobaa" {["noobaa-core"%string := "noobaa"%string]}) with inr l => l | inl _ => [] end.

(** The outdated pod is the leader, and the other pod is up to date: the leader is deleted. *)
Lemma restartStaleCorePods_one_witness : ∃ w' p e,
  restartStaleCorePods "noobaa" "noobaa" coreWorld coreSet = Ret (w', coreSet, None) ∧ p ∈ corePods ∧ srv_Delete coreWorld p = (w', e).
Proof.
  destruct (restartStaleCorePods "noobaa" "noobaa" coreWorld coreSet) as [[[w' c'] err]|p] eqn:Hrun; [|by vm_compute in Hrun].
  destruct (restartStaleCorePods_one "noobaa" "noobaa" coreWorld coreSet coreSet corePods w' c' err) as (-> & [(_ & [(x & Hx & Hdel)|Hall])|Hone]).
  - discriminate.
  - reflexivity.
  - vm_compute. reflexivity.
  - exact Hrun.
  - exfalso. apply Hdel. revert x Hx Hdel. assert (Forall (λ x, om_DeletionTimestamp (rp_meta x) = None) corePods) as Hf by (vm_compute; repeat constructor).
    rewrite Forall_forall in Hf. intros x Hx _. by apply Hf.
  - exfalso. assert (oldPod ∈ corePods) as Hin by (vm_compute; repeat constructor). apply Hall in Hin. by vm_compute in Hin.
  - destruct Hone as (p & e & Hin & _ & Hdel & _). exists w', p, e. split; [|split; [exact Hin|exact Hdel]].
    f_equal. f_equal. f_equal. assert (match restartStaleCorePods "noobaa" "noobaa" coreWorld coreSet with Ret (_, c, _) => c | _ => coreSet end = coreSet) as Hc
      by (vm_compute; reflexivity). by rewrite Hrun in Hc.
Defined.
