(* ===== verification/CloudScenario.v ===== *)
(** * Runs of the configuring phase.

    A cluster in AWS and one on bare metal, the secrets of a system, and a core with
    resources that are not in the cluster yet: concrete inputs for the theorems on the
    default resources, on the secrets and on reading the system back. *)

From S2P Require Import Prelude Effects GoStrings GoUrl Types NbTypes Kube Util Gcp SystemVerifying SystemObjects.
From S2P Require Import CloudPlatform CloudCredentials DefaultStore SystemSecrets StoreSync World.
From S2P Require Scenario DatabaseScenario.

(** ** The cluster *)

(** The codec of provider specifications that keeps them as they are. *)
Inductive ProviderSpec := AWSSpec (s : AWSProviderSpec) | AzureSpec (s : AzureProviderSpec) | GCPSpec (s : GCPProviderSpec).
#[export] Instance PlainCodec : ProviderCodec := {|
  RawExtension := ProviderSpec;
  DecodeAWS raw := match raw with AWSSpec s => inr s | _ => inl (Lit "not for AWS") end;
  EncodeAWS s := inr (AWSSpec s);
  DecodeAzure raw := match raw with AzureSpec s => inr s | _ => inl (Lit "not for Azure") end;
  EncodeAzure s := inr (AzureSpec s);
  DecodeGCP raw := match raw with GCPSpec s => inr s | _ => inl (Lit "not for GCP") end;
  EncodeGCP s := inr (GCPSpec s);
|}.
#[export] Instance PlainCodec_laws : ProviderCodecLaws PlainCodec.
Proof. split. by intros spec raw [= <-]. Qed.

Record CloudWorld := mkCloudWorld {
  cw_nodes : gmap ObjectKeyT Node;
  cw_requests : gmap ObjectKeyT (CredentialsRequest PlainCodec);
  cw_secrets : gmap ObjectKeyT Secret;
  cw_stores : gmap ObjectKeyT (BackingStore IntQuantity);
  cw_namespaceStores : gmap ObjectKeyT NamespaceStore;
  cw_users : gmap ObjectKeyT CephObjectStoreUser;
  cw_classes : gmap ObjectKeyT StorageClass;
}.
Definition put_cw_requests m w := mkCloudWorld (cw_nodes w) m (cw_secrets w) (cw_stores w) (cw_namespaceStores w) (cw_users w) (cw_classes w).
Definition put_cw_secrets m w := mkCloudWorld (cw_nodes w) (cw_requests w) m (cw_stores w) (cw_namespaceStores w) (cw_users w) (cw_classes w).
Definition put_cw_stores m w := mkCloudWorld (cw_nodes w) (cw_requests w) (cw_secrets w) m (cw_namespaceStores w) (cw_users w) (cw_classes w).
Definition put_cw_namespaceStores m w := mkCloudWorld (cw_nodes w) (cw_requests w) (cw_secrets w) (cw_stores w) m (cw_users w) (cw_classes w).
Definition put_cw_users m w := mkCloudWorld (cw_nodes w) (cw_requests w) (cw_secrets w) (cw_stores w) (cw_namespaceStores w) m (cw_classes w).

#[export] Instance CloudWorld_Node : ApiServer CloudWorld Node :=
  Scenario.FieldServer cw_nodes (λ m w, mkCloudWorld m (cw_requests w) (cw_secrets w) (cw_stores w) (cw_namespaceStores w) (cw_users w) (cw_classes w)).
#[export] Instance CloudWorld_request : ApiServer CloudWorld (CredentialsRequest PlainCodec) := Scenario.FieldServer cw_requests put_cw_requests.
#[export] Instance CloudWorld_BackingStore : ApiServer CloudWorld (BackingStore IntQuantity) := Scenario.FieldServer cw_stores put_cw_stores.
#[export] Instance CloudWorld_NamespaceStore : ApiServer CloudWorld NamespaceStore := Scenario.FieldServer cw_namespaceStores put_cw_namespaceStores.
#[export] Instance CloudWorld_user : ApiServer CloudWorld CephObjectStoreUser := Scenario.FieldServer cw_users put_cw_users.
#[export] Instance CloudWorld_StorageClass : ApiServer CloudWorld StorageClass :=
  Scenario.FieldServer cw_classes (λ m w, mkCloudWorld (cw_nodes w) (cw_requests w) (cw_secrets w) (cw_stores w) (cw_namespaceStores w) (cw_users w) m).
(** The other kinds have no objects. *)
#[export] Instance CloudWorld_other {O} `{KubeObject O} : ApiServer CloudWorld O | 100 := Scenario.FieldServer (λ _, ∅) (λ _ w, w).

(** Secrets are stored with the strings written into their data, under their own keys. *)
Definition stored_secret (s : Secret) : Secret := mkSecret (sec_meta s) None (Some (default ∅ (sec_StringData s) ∪ default ∅ (sec_Data s))).
Definition get_secret (w : CloudWorld) (k : ObjectKeyT) : api_error + Secret :=
  match mem_Get (cw_secrets w) k with
  | inr s => if ObjectKey s == k then inr s else inl not_found
  | inl e => inl e
  end.
#[export] Instance CloudWorld_Secret : ApiServer CloudWorld Secret := {|
  srv_Get := get_secret;
  srv_Create w s := let '(m, r) := mem_Create (cw_secrets w) (stored_secret s) in (put_cw_secrets m w, r);
  srv_Update w s :=
    match get_secret w (ObjectKey s) with
    | inl e => (w, inl e)
    | inr _ => let '(m, r) := mem_Update (cw_secrets w) (stored_secret s) in (put_cw_secrets m w, r)
    end;
  srv_Delete w s := let '(m, r) := mem_Delete (cw_secrets w) s in (put_cw_secrets m w, r);
  srv_List w sel := inr (filter (λ o, sel o = true) (snd <$> map_to_list (cw_secrets w)));
|}.

(** What a write leaves in the map of secrets. *)
Lemma secret_write w (s : Secret) w' s' :
  srv_Create w s = (w', inr s') ∨ srv_Update w s = (w', inr s') →
  ∃ v, s' = bump v (stored_secret s) ∧ cw_secrets w' = <[ObjectKey s := s']> (cw_secrets w).
Proof.
  intros [H|H]; cbn in H.
  - destruct (mem_Create (cw_secrets w) (stored_secret s)) as [m r] eqn:E. injection H as <- ->.
    apply mem_Create_ok in E as (_ & -> & ->). by exists 1%Z.
  - destruct (get_secret w (ObjectKey s)); [done|].
    destruct (mem_Update (cw_secrets w) (stored_secret s)) as [m r] eqn:E. injection H as <- ->.
    apply mem_Update_ok in E as (x & v & _ & -> & ->). by exists v.
Qed.

#[export] Instance CloudWorld_storage : SecretStorage CloudWorld.
Proof.
  split.
  - intros w o w' o' Hw Hd. apply secret_write in Hw as (v & -> & Hm). split_and!; [|exact Hd|done].
    cbn. unfold get_secret. rewrite Hm, mem_Get_insert_eq. by rewrite bool_decide_eq_true_2 by done.
  - intros w o w' o' k Hw Hk. apply secret_write in Hw as (v & -> & Hm). cbn. unfold get_secret. by rewrite Hm, mem_Get_insert_ne.
  - intros w o w' e [Hw|Hw]; cbn in Hw; unfold mem_Create, mem_Update in Hw; repeat case_match; simplify_eq; try done; by destruct w.
Qed.
#[export] Instance CloudWorld_keyed : KeyedServer CloudWorld Secret.
Proof.
  split.
  - intros w k o. cbn. unfold get_secret. destruct (mem_Get (cw_secrets w) k) as [e|s]; [done|]. case_bool_decide; [|done]. by intros [= <-].
  - intros w o w' o' Hw. by destruct (secret_write w o w' o' (or_introl Hw)) as (v & -> & _).
  - intros w o w' o' Hw. by destruct (secret_write w o w' o' (or_intror Hw)) as (v & -> & _).
Qed.

Definition cloudRequestLaws : ApiLaws CloudWorld (CredentialsRequest PlainCodec) ProviderSpec :=
  proj1_sig (FieldLaws cw_requests put_cw_requests (cr_ProviderSpec (PC:=PlainCodec)) (λ _ _, eq_refl) (λ _ _, eq_refl)
    (λ w, match w with mkCloudWorld _ _ _ _ _ _ _ => eq_refl end)).
Definition cloudStoreLaws : ApiLaws CloudWorld NamespaceStore NamespaceStoreSpec :=
  proj1_sig (FieldLaws cw_namespaceStores put_cw_namespaceStores ns_Spec (λ _ _, eq_refl) (λ _ _, eq_refl)
    (λ w, match w with mkCloudWorld _ _ _ _ _ _ _ => eq_refl end)).

#[refine] Definition cloudSecretLaws : ApiLaws CloudWorld Secret (gmap string string) := {| payload := secretContents |}.
Proof.
  - done.
  - intros w o w' o' Hc. pose proof (secret_write w o w' o' (or_introl Hc)) as (v & -> & Hm). split_and!.
    + done.
    + apply (left_id_L ∅ (∪)).
    + cbn. unfold get_secret. rewrite Hm, mem_Get_insert_eq. by rewrite bool_decide_eq_true_2 by done.
    + cbn in Hc |- *. destruct (mem_Create (cw_secrets w) (stored_secret o)) as [m r] eqn:E. injection Hc as <- ->.
      apply mem_Create_ok in E as (Hx & _). unfold get_secret, mem_Get. change (ObjectKey (stored_secret o)) with (ObjectKey o) in Hx. rewrite Hx. eauto.
    + intros k Hk. cbn. unfold get_secret. by rewrite Hm, mem_Get_insert_ne.
  - intros w o w' e Hc. by apply (secret_refused w o w' e (or_introl Hc)).
  - intros w o w' o' _ Hc. pose proof (secret_write w o w' o' (or_intror Hc)) as (v & -> & Hm). split_and!.
    + done.
    + apply (left_id_L ∅ (∪)).
    + cbn. unfold get_secret. rewrite Hm, mem_Get_insert_eq. by rewrite bool_decide_eq_true_2 by done.
    + cbn in Hc |- *. destruct (get_secret w (ObjectKey o)); [done|eauto].
    + intros k Hk. cbn. unfold get_secret. by rewrite Hm, mem_Get_insert_ne.
  - intros w o w' e Hc. by apply (secret_refused w o w' e (or_intror Hc)).
  - intros w o w' e Hd. cbn in Hd. unfold mem_Delete in Hd. repeat case_match; simplify_eq; try done; by destruct w.
Defined.

(** The clouds: every bucket can be made. *)
#[export] Instance OpenClouds : CloudServices CloudWorld := {|
  session_New _ := None;
  s3_CreateBucket w _ _ := (w, None);
  sts_AssumeRoleWithWebIdentity w _ _ _ _ := (w, inl (Lit "no such role"));
  fs_ReadFile _ _ := inl (Lit "no such file");
  gcs_NewClient _ := None;
  gcs_CreateBucket w _ _ _ := (w, None);
  json_ProjectID _ := inl (Lit "no project");
  arm_NewAccountsClient _ := None;
  arm_BeginCreate w _ _ _ _ := (w, None);
  arm_PollUntilDone w _ := (w, None);
  arm_ListKeys _ _ _ _ := inr [];
  blob_CreateContainer w _ _ _ := (w, None);
  randname w prefix := (w, prefix +:+ "12345");
|}.

#[local] Existing Instances Scenario.NoJson DatabaseScenario.WriteThrough DatabaseScenario.WriteThrough_laws.
Definition setReference (owner m : ObjectMeta) : msg + ObjectMeta := inr m.
Definition end_state {S A} (d : S) (m : outcome (S * A)) : S := match m with Ret (s, _) => s | Panic _ => d end.

(** ** In AWS *)

Definition metaOf (name uid : string) : ObjectMeta := mkObjectMeta name "noobaa" uid 1 0 None None None [] [] 1.
Definition awsNode : Node := mkNode (named "" "ip-10-0-0-1.us-east-2.compute.internal") "aws:///us-east-2a/i-1".
Definition requestOf (secret : string) (spec : ProviderSpec) : CredentialsRequest PlainCodec :=
  mkCredentialsRequest PlainCodec (named "noobaa" secret) (mkSecretReference secret "noobaa") spec "".
Definition allow (resource : string) : StatementEntry := mkStatementEntry "Allow" ["s3:*"%string] resource.
Definition cloudSecret (name : string) : Secret := mkSecret (named "noobaa" name) None None.
Definition emptyStore (name : string) : BackingStore IntQuantity :=
  mkBackingStore IntQuantity (named "noobaa" name) (mkBackingStoreSpec IntQuantity (StoreTypeOther "") None None None None None None)
    (mkBackingStoreStatus BackingStorePhaseNone [] "").
Definition cloudReconciler : Cloud IntQuantity PlainCodec :=
  mkCloud Scenario.demoNooBaa None noPlatforms false false false
    (requestOf "aws-cloud-creds" (AWSSpec (mkAWSProviderSpec [allow "bucket"; allow "objects"] "")))
    (requestOf "azure-cloud-creds" (AzureSpec (mkAzureProviderSpec [] "" "" "" ""))) (requestOf "gcp-cloud-creds" (GCPSpec (mkGCPProviderSpec [] "" "")))
    (cloudSecret "azure-container-creds") (cloudSecret "gcp-bucket-creds") (cloudSecret "ibm-cos-creds")
    (mkCephObjectStoreUser (named "noobaa" "noobaa-ceph-user") "" None) (emptyStore "noobaa-default-backing-store")
    (mkNsfsPvc IntQuantity (named "noobaa" "nsfs") [] None (Some ∅))
    (mkNamespaceStore (named "noobaa" "default-namespace-store") (noStoreSpec NSStoreTypeNSFS) (mkNamespaceStoreStatus NamespaceStorePhaseNone [] ""))
    (mkBucketClass (named "noobaa" "default-bucket-class") (mkBucketClassSpec None None None "" None None) (mkBucketClassStatus BucketClassPhaseNone [] ""))
    (mkStorageClass (named "" "noobaa.noobaa.io") "noobaa.noobaa.io/obc" None).
Definition awsWorld : CloudWorld := mkCloudWorld {[(""%string, "ip-10-0-0-1.us-east-2.compute.internal"%string) := awsNode]} ∅ ∅ ∅ ∅ ∅ ∅.
Definition noEnv : string → string := λ _, ""%string.

Definition requested : outcome (CloudWorld * Cloud IntQuantity PlainCodec * (error + ())) :=
  ReconcileAWSCredentials setReference noEnv (λ _, true) (1700000000000 * 1000000)%Z "noobaa-mgmt.apps.example.com" (awsWorld, cloudReconciler).
Definition afterRequest : CloudWorld * Cloud IntQuantity PlainCodec := end_state (awsWorld, cloudReconciler) requested.

(** A minute later, under another name of the management route, the bucket is the same. *)
Lemma ReconcileAWSCredentials_roundtrip_witness : ∃ s,
  ReconcileAWSCredentials setReference noEnv (λ _, true) (1700000060000 * 1000000)%Z "other.example.com" afterRequest = Ret (s, inr ()) ∧
  s.1 = afterRequest.1 ∧ targetBucket s.2 = targetBucket afterRequest.2.
Proof.
  destruct (DatabaseScenario.succeeded_run
    (ReconcileAWSCredentials setReference noEnv (λ _, true) (1700000060000 * 1000000)%Z "other.example.com" afterRequest)) as ([w3 r3] & [] & H3);
    [vm_compute; reflexivity|].
  destruct (DatabaseScenario.succeeded_run requested) as ([w1 r1] & [] & H1); [vm_compute; reflexivity|].
  exists (w3, r3). split; [exact H3|].
  assert (afterRequest = (w1, r1)) as Ha by (unfold afterRequest; by rewrite H1).
  destruct (ReconcileAWSCredentials_roundtrip (AL:=cloudRequestLaws) (λ a b H, H) setReference noEnv (λ _, true) (1700000000000 * 1000000)%Z
    "noobaa-mgmt.apps.example.com" awsWorld cloudReconciler w1 r1 not_found noEnv (1700000060000 * 1000000)%Z "other.example.com" w1 r1 w3 r3)
    as (Ht1 & Hw & region & region' & Hr & Hr' & Ht); [reflexivity|reflexivity|reflexivity|exact H1|reflexivity|by rewrite <-Ha|].
  assert (GetAWSRegion w1 = GetAWSRegion awsWorld) as Hsame by (replace w1 with afterRequest.1 by (by rewrite Ha); vm_compute; reflexivity).
  rewrite Hsame, Hr in Hr'. injection Hr' as <-. rewrite bool_decide_eq_true_2 in Ht by done.
  rewrite Ha. split; [exact Hw|]. cbn [snd]. by rewrite Ht, Ht1.
Defined.

(** The nodes cannot be listed once. *)
Record Outage := mkOutage { og_nodes : api_error + list Node }.
#[export] Instance Outage_Node : ApiServer Outage Node := {|
  srv_Get _ _ := inl not_found; srv_Create w _ := (w, inl not_found); srv_Update w _ := (w, inl not_found); srv_Delete w _ := (w, None);
  srv_List w sel := og_nodes w;
|}.
Lemma IsAWSPlatform_failed_once_witness :
  let '(p, r) := IsAWSPlatform (mkOutage (inl (StatusError (ReasonOther "Timeout") (Lit "timeout")))) noPlatforms in
  (∃ x, r = Panic x) ∧ IsAWSPlatform (mkOutage (inr [awsNode])) p = (p, Ret false).
Proof. apply (IsAWSPlatform_failed_once (mkOutage (inl (StatusError (ReasonOther "Timeout") (Lit "timeout")))) _ noPlatforms (StatusError (ReasonOther "Timeout") (Lit "timeout"))); reflexivity. Defined.

Lemma generateBackingStoreTargetName_valid_witness :
  generateBackingStoreTargetName 1700000000000000000 "noobaa-mgmt-noobaa.apps.-bad_.example.com" = "nb.1700000000000"%string ∧
  IsValidS3BucketName (generateBackingStoreTargetName 1700000000000000000 "noobaa-mgmt-noobaa.apps.-bad_.example.com") = true.
Proof.
  split; [vm_compute; reflexivity|].
  exact (proj1 (generateBackingStoreTargetName_valid 1700000000000000000 "noobaa-mgmt-noobaa.apps.-bad_.example.com" ltac:(lia))).
Defined.

Lemma getInfoFromAwsStsSecret_panics_witness : getInfoFromAwsStsSecret "[default]
sts_regional_endpoints = regional
role_arn = arn:aws:iam::1:role/r
" = Panic IndexOutOfRange.
Proof.
  apply (getInfoFromAwsStsSecret_panics "[default]" "sts_regional_endpoints = regional" ["role_arn = arn:aws:iam::1:role/r"; ""]%string "").
  - right. left.
  - intros a b l. vm_compute. discriminate.
  - vm_compute. reflexivity.
Defined.

(** ** On volumes *)

Definition localClass : StorageClass :=
  mkStorageClass (mkObjectMeta "local" "" "uid-sc" 1 0 None None (Some {["storageclass.kubernetes.io/is-default-class" := "true"]}%string) [] [] 1)
    "kubernetes.io/no-provisioner" None.
Definition metalWorld : CloudWorld := mkCloudWorld ∅ ∅ ∅ ∅ ∅ ∅ {[(""%string, "local"%string) := localClass]}.

Lemma ReconcileDefaultBackingStore_valid_witness : ∃ w' r',
  ReconcileDefaultBackingStore setReference "noobaa" (10 ^ 18)%Z "" (metalWorld, cloudReconciler) = Ret ((w', r'), inr ()) ∧
  (w' = metalWorld ∨ ∃ w1 (bs : BackingStore IntQuantity),
     srv_Create w1 bs = (w', inr (cl_DefaultBackingStore r')) ∧ BackingStoreValidation.ValidateBackingStore bs = ok).
Proof.
  destruct (DatabaseScenario.succeeded_run
    (ReconcileDefaultBackingStore setReference "noobaa" (10 ^ 18)%Z "" (metalWorld, cloudReconciler))) as ([w' r'] & [] & H); [reflexivity|].
  exists w', r'. split; [exact H|].
  apply (ReconcileDefaultBackingStore_valid (QL:=IntQuantity_laws) setReference) with (5 := H).
  - by intros o m m' [= <-].
  - intros w prefix. cbn. apply HasPrefix_spec. by exists "12345"%string.
  - by split_and!.
  - reflexivity.
Defined.

(** ** On rook *)

(** The user is ready since a moment, its secret is not written yet. *)
Definition cephUser : CephObjectStoreUser :=
  mkCephObjectStoreUser (mkObjectMeta "noobaa-ceph-user" "noobaa" "uid-user" 1 (10 ^ 18) None None None [] [] 1) "store"
    (Some (mkObjectStoreUserStatus "Ready" (Some {["secretName"%string := "rook-secret"%string]}))).
Definition cephWorld : CloudWorld :=
  mkCloudWorld ∅ ∅ ∅ ∅ ∅ {[("noobaa"%string, "noobaa-ceph-user"%string) := cephUser]} {[(""%string, "local"%string) := localClass]}.
Lemma prepareCephBackingStore_no_wait_witness :
  prepareCephBackingStore "noobaa" (10 ^ 18)%Z "" (cephWorld, cloudReconciler) =
  preparePVPoolBackingStore (cephWorld, set_CephObjectStoreUser cephUser cloudReconciler).
Proof.
  apply prepareCephBackingStore_no_wait with (status := mkObjectStoreUserStatus "Ready" (Some {["secretName"%string := "rook-secret"%string]}))
    (secretName := "rook-secret"%string); try reflexivity; try discriminate.
Defined.

(** ** Secrets of a system *)

(** A core with a system, and an account with one pair of keys. *)
#[export] Instance ReadyCore : CoreApi nat := {|
  ReadSystemStatusAPI _ := inr "READY"%string;
  CreateSystemAPI c _ := (Datatypes.S c, inr "token"%string);
  ReadAccountAPI _ _ := inr [("access", "secret")%string];
  RegisterToClusterAPI c := (c, None);
  UpdateEndpointGroupAPI c _ := (c, None);
|}.
#[export] Instance FixedRandom : RandomSource nat := {| random_Base64 g _ := (Datatypes.S g, "random"%string) |}.
Definition sign (claims : gmap string string) (secret : string) : error + string := inr "signed"%string.

Definition haveSecret (name k v : string) : Secret := mkSecret (metaOf name ("uid-" +:+ name)) None (Some {[k := v]}).
Definition secretsWorld : CloudWorld :=
  mkCloudWorld ∅ ∅ (<[("noobaa"%string, "noobaa-admin"%string) := haveSecret "noobaa-admin" "password" "pass"]>
    {[("noobaa"%string, "noobaa-operator"%string) := haveSecret "noobaa-operator" "auth_token" "tok"]}) ∅ ∅ ∅ ∅.
Definition secretsReconciler : SystemSecrets nat nat :=
  mkSystemSecrets Scenario.demoNooBaa None (mkSecret (metaOf "noobaa-server" "uid-server") (Some {["jwt"%string := "key"%string]}) None)
    (cloudSecret "noobaa-admin") (cloudSecret "noobaa-operator") (cloudSecret "noobaa-endpoints") (cloudSecret "noobaa-metrics") "" 0%nat 0%nat.

Lemma ReconcileSystemSecrets_settled_witness : ∃ w' r',
  ReconcileSystemSecrets sign setReference "noobaa" (secretsWorld, secretsReconciler) = Ret ((w', r'), inr ()) ∧
  sy_core r' = 0%nat ∧ secretHas w' ("noobaa"%string, "noobaa-admin"%string) "password" "pass".
Proof.
  destruct (DatabaseScenario.succeeded_run (ReconcileSystemSecrets sign setReference "noobaa" (secretsWorld, secretsReconciler)))
    as ([w' r'] & [] & H); [vm_compute; reflexivity|].
  exists w', r'. split; [exact H|].
  destruct (ReconcileSystemSecrets_settled sign setReference) with (p := "pass"%string) (t := "tok"%string) (7 := H) as (Hc & Hs & _).
  - by intros o m m' [= <-].
  - by apply (bool_decide_unpack _); vm_compute.
  - discriminate.
  - eexists. split; [vm_compute; reflexivity|]. by split.
  - discriminate.
  - eexists. split; [vm_compute; reflexivity|]. by split.
  - split; [exact Hc|exact Hs].
Defined.

(** ** A core with resources *)

Definition awsResource (name : string) : NamespaceResourceInfo :=
  mkNamespaceResourceInfo name "OPTIMAL" "" EndpointTypeAws "https://s3.amazonaws.com" "bucket" "identity" CloudAuthMethodAwsV4.
(** Every resource waits for its store. *)
#[export] Instance WaitingCore : SyncApi unit := {|
  ReadSystemAPI _ := inl (Errorf (Lit "not asked"));
  ReadNamespaceResourceOperatorInfoAPI _ _ := inr (mkNamespaceResourceOperatorInfo "access" "secret" true);
  SetNamespaceStoreInfoAPI n _ _ := (n, None);
|}.
Definition oldStore : NamespaceStore :=
  mkNamespaceStore (metaOf "old" "uid-old") (noStoreSpec NSStoreTypeNSFS) (mkNamespaceStoreStatus NamespaceStorePhaseReady [] "OPTIMAL").
Definition syncWorld : CloudWorld := mkCloudWorld ∅ ∅ ∅ ∅ {[("noobaa"%string, "old"%string) := oldStore]} ∅ ∅.
Definition syncRun : outcome (CloudWorld * unit) :=
  ReconcileNamespaceStores "noobaa" setReference (cloudSecret "empty") Scenario.demoNooBaa syncWorld () [awsResource "old"; awsResource "new"].

Lemma ReconcileNamespaceStores_only_creates_witness : ∃ w',
  syncRun = Ret (w', ()) ∧ (∃ ns : NamespaceStore, srv_Get w' ("noobaa", "new")%string = inr ns) ∧
  ∀ k, srv_Get (O:=NamespaceStore) w' k = srv_Get syncWorld k ∨ synced "noobaa" syncWorld () w' () [awsResource "old"; awsResource "new"] k.
Proof.
  destruct syncRun as [[w' []]|p] eqn:H; [|by vm_compute in H]. exists w'. split_and!; [done| |].
  - injection H as <-. eexists. vm_compute. reflexivity.
  - intros k. apply (ReconcileNamespaceStores_only_creates "noobaa" setReference (cloudSecret "empty") (AN:=cloudStoreLaws) (λ ns, eq_refl)
      (AS:=cloudSecretLaws) (λ s, eq_refl)) with (5 := H).
    + intros w s w1 res k' Hc. cbn in Hc. destruct (mem_Create _ _). by injection Hc as <- <-.
    + intros w s w1 res k' Hc. cbn in Hc. destruct (mem_Create _ _). by injection Hc as <- <-.
    + by intros owner m m' [= <-].
    + done.
Defined.

(** A store whose mode is that of its pool. *)
#[export] Instance CloudStatus : StatusApi CloudWorld (BackingStore IntQuantity) := {| status_Update := srv_Update |}.
Definition optimalStore : BackingStore IntQuantity := set_mode "OPTIMAL" (emptyStore "store").
Lemma UpdateBackingStoresPhase_quiet_witness :
  UpdateBackingStoresPhase (QA:=IntQuantity) "noobaa" [Scenario.demoPool ""] (mkCloudWorld ∅ ∅ ∅ {[("noobaa", "store")%string := optimalStore]} ∅ ∅ ∅) Scenario.demoNooBaa =
  Ret (mkCloudWorld ∅ ∅ ∅ {[("noobaa", "store")%string := optimalStore]} ∅ ∅ ∅, Scenario.demoNooBaa).
Proof.
  apply (UpdateBackingStoresPhase_quiet (QA:=IntQuantity) "noobaa") with (items := [optimalStore]) (found := true); [reflexivity|].
  intros bs p [->|Hbs]%elem_of_cons [->|Hp]%elem_of_cons; [done|set_solver..].
Defined.
