(* ===== verification/PodScenario.v ===== *)
(** * Runs of the workloads.

    A system with two namespace stores on one claim, bucket logs that are guaranteed, and
    notifications: concrete inputs for the theorems on the pods of the core and of the
    endpoints. *)

From S2P Require Import Prelude GoStrings GoUrl Types Kube Util NamespaceStoreValidation Profiles SystemServices CoreHa Workloads StoreSync World CloudScenario.
From S2P Require Scenario DatabaseScenario.

#[local] Existing Instances PlainAuthority.
#[export] Instance TextProfile : AgentProfileJson := {|
  JsonValue := string;
  json_text s := s;
  profile_Unmarshal _ := ∅;
  profile_Marshal m := inr (default ""%string (m !! "image"%string));
|}.

(** ** The system *)

Definition noResources : ResourceRequirements IntQuantity := mkResourceRequirements IntQuantity None None.
Definition containerOf (name : string) (env : list EnvVar) (mounts : list PodMount) : Container IntQuantity :=
  mkContainer name "" [] env noResources mounts [] None None.
Definition podOf (containers : list (Container IntQuantity)) (volumes : list PodVolume) : PodSpec IntQuantity :=
  mkPodSpec [] containers volumes None None "" [] None "" [] None.
Definition logs : PodVolume := mkPodVolume "logs" OtherVolume.

(** The specification: guaranteed bucket logs, and notifications with one connection. *)
Definition podSpec : NooBaaSpec :=
  mkNooBaaSpec (nbs_CleanupPolicy emptyNooBaaSpec) (nbs_Autoscaler emptyNooBaaSpec) (nbs_LoadBalancerSourceSubnets emptyNooBaaSpec)
    (nbs_Security emptyNooBaaSpec) None None None PerformanceProfileNone false None false false
    (mkBucketLoggingSpec BucketLoggingTypeGuaranteed None) (mkBucketNotificationsSpec true None [mkSecretReference "kafka" "noobaa"])
    None None None None "" false false None None "" None false false false ∅ ∅ "".
Definition podNooBaa : NooBaa := mkNooBaa (nb_meta Scenario.demoNooBaa) podSpec noStatus.
Definition serviceOf (name : string) : Service := mkService (named "noobaa" name) ∅ [] "" [] [].
Definition confOf (name : string) : ConfigMap := mkConfigMap (named "noobaa" name) None.
Definition coreEnv : list EnvVar :=
  [mkEnvVar "NOOBAA_ROOT_SECRET" "root" None; mkEnvVar "POSTGRES_PASSWORD" "plain" None; mkEnvVar "GUARANTEED_LOGS_PATH" "" None].
Definition podSystem : WorkloadSystem IntQuantity :=
  mkWorkloadSystem podNooBaa "noobaa" "noobaa" None (serviceOf "noobaa-mgmt") (serviceOf "s3") (serviceOf "noobaa-syslog") (confOf "noobaa-config")
    (podOf [containerOf "core" coreEnv [mkPodMount "logs" "/log" "" false]; containerOf "noobaa-log-processor" [] [mkPodMount "logs" "/log" "" false]] [logs])
    (podOf [containerOf "endpoint" coreEnv [mkPodMount "logs" "/log" "" false]] [logs])
    "noobaa-db-pg-cluster" (named "noobaa" "noobaa-db-pg", "noobaa-db-pg"%string) "noobaa-db" "" (cloudSecret "noobaa-root-master-key-volume")
    (confOf "ocp-injected-ca-bundle") None None (cloudSecret "keycloak") "bucket-logs" "/var/logs/bucket-logs" "logs-pvc" "notif-pvc" None "" "noobaa-core".

Definition returns {A} (m : outcome A) : bool := match m with Ret _ => true | Panic _ => false end.
Lemma returned_run {A} (m : outcome A) : returns m = true → ∃ a, m = Ret a.
Proof. destruct m; [eauto|done]. Qed.

(** ** The endpoints *)

Definition fileStore (name path : string) : NamespaceStore :=
  mkNamespaceStore (metaOf name ("uid-" +:+ name))
    (mkNamespaceStoreSpec NSStoreTypeNSFS false "" None None None None None (Some (mkNSFSSpec "shared" path "")))
    (mkNamespaceStoreStatus NamespaceStorePhaseReady [] "OPTIMAL").
Definition filesWorld : CloudWorld :=
  mkCloudWorld ∅ ∅ {[("noobaa"%string, "noobaa-root-master-key-volume"%string) := haveSecret "noobaa-root-master-key-volume" "active_root_key" "k"]}
    ∅ (<[("noobaa"%string, "a"%string) := fileStore "a" "dir"]> {[("noobaa"%string, "b"%string) := fileStore "b" "other"]}) ∅ ∅.
Definition endpointRun : outcome (error + Mounts) := setDesiredEndpointMounts "noobaa" filesWorld podSystem [].

Definition twoStores : list NamespaceStore := [fileStore "a" "dir"; fileStore "b" "other"].
Definition before : Mounts := match mountsBeforeStores filesWorld podSystem [] with Ret m => m | Panic _ => mkMounts [] [] [] end.


(** ** The core *)

Definition coreSet : Workload IntQuantity :=
  mkWorkload (named "noobaa" "noobaa-core") (Some ∅) (Some ∅) None None "" ""
    (podOf [containerOf "core" [] []; containerOf "noobaa-log-processor" [] []; containerOf "sidecar" [] [mkPodMount "logs" "/log" "" false]] []) 0 0 0 [].
Definition coreRun : outcome (Workload IntQuantity) :=
  SetDesiredCoreApp noEnv (λ _, None) "operator" (named "noobaa" "noobaa-operator") (Some noResources) (Some noResources) filesWorld podSystem coreSet.

(** A container of the user, which is not in the defaults, mounts the logs as well. *)
Lemma SetDesiredCoreApp_resolved_witness : ∃ s, coreRun = Ret s ∧
  (pvl_Name <$> pod_Volumes (wk_Pod s)) = ["logs"; "noobaa-root-master-key-volume"; "notif-vol"; "kafka"; "bucket-logs"]%string ∧
  Forall (λ c, resolved (pod_Volumes (wk_Pod s)) (ct_VolumeMounts c)) (pod_Containers (wk_Pod s)).
Proof.
  destruct (returned_run coreRun) as [s H]; [vm_compute; reflexivity|]. exists s. split_and!; [done| |].
  - transitivity (match coreRun with Ret s => pvl_Name <$> pod_Volumes (wk_Pod s) | Panic _ => [] end); [by rewrite H|]. vm_compute. reflexivity.
  - apply (SetDesiredCoreApp_resolved noEnv (λ _, None) "operator" (named "noobaa" "noobaa-operator") (Some noResources) (Some noResources)
      filesWorld podSystem coreSet s); [|exact H].
    cbn. split_and!; [intros n Hn; right; set_solver..|done].
Defined.

Lemma setDesiredCoreEnv_secrets_witness : ∃ env e, setDesiredCoreEnv noEnv podSystem coreEnv = Ret env ∧ e ∈ env ∧
  ev_Name e = "POSTGRES_PASSWORD"%string ∧ ev_Value e = ""%string ∧ ev_From e = secretKeyRef "noobaa-db" "password".
Proof.
  eexists _, (mkEnvVar "POSTGRES_PASSWORD" "" (secretKeyRef "noobaa-db" "password")). split_and!; [vm_compute; reflexivity|left|reflexivity| |];
    destruct (setDesiredCoreEnv_secrets noEnv podSystem coreEnv _ (mkEnvVar "POSTGRES_PASSWORD" "" (secretKeyRef "noobaa-db" "password")) eq_refl)
      as (_ & Hp & _); [by left| |by left|]; destruct (Hp eq_refl) as (Hv & Hs & _); [exact Hv|exact (Hs eq_refl)].
Defined.
